(* ===== verification/_CoqProject ===== *)
-Q . S2P
Prelude.v
Js.v
Number.v
Regex.v
Prog.v
Dates.v
Errors.v
Lease.v
LeaseSpec.v
LeaseSystem.v
LeaseProps.v
RunLifecycle.v
RunLifecycleProps.v
Json.v
Contracts.v
DashboardCore.v
JsonFields.v
DashboardProps.v
LocalModel.v
LocalModelProps.v
ApiClient.v
ApiProps.v
Cli.v
CliProps.v
CliAuth.v
CliAuthProps.v
JsonParse.v
CliFiles.v
CliCommands.v
CliCommandProps.v
Canonical.v
JsonProps.v
Blocking.v
BlockingProps.v
KubernetesCommand.v
Evidence.v
Profiles.v
Journal.v
CleanupDiagnostic.v
Preparation.v
Report.v
Rely.v
PrivateFiles.v
PrivateProps.v
Observer.v
JournalProps.v
DiagnosticProps.v
PinDiagnostic.v
ReportProps.v
LicenseTransaction.v
LicenseProps.v
Poll.v
ModelCleaner.v
ModelCleanerProps.v
BorrowedModule.v
BorrowedModuleProps.v
Recovery.v
CleanupRun.v
JsonPretty.v
RecoveryProps.v
AttestProps.v
CleanupRunProps.v
KubernetesTermination.v
Config.v
ConfigProps.v
LabPolicy.v
Fence.v
OwnedKey.v
OwnedModel.v
OwnedIdentity.v
BorrowedSharing.v
AutoRecovery.v
AutoRecoveryProps.v
SharingProps.v
Banner.v
Shared.v
Tui.v
TuiMachine.v
TuiProps.v
TuiScreen.v
