(* ===== verification/Prelude.v ===== *)
(** * Magic Stick dashboard: verification library

    The TypeScript of src/dashboard: the packages shared by the web dashboard and the CLI
    (contracts, core, api-client), the CLI (apps/cli), and the regression harness that borrows
    a live appliance and must give it back unchanged (apps/web/regression/core).

    ** Conventions

    Code that awaits is a program ([Prog]): a tree of awaited operations of an effect type,
    with the fields of its object threaded between awaits and exceptions as values. [exec] runs
    it against a handler, [steps] against any environment, [wp] is its weakest precondition
    under a ghost state. Programs are finite trees, so every run of a program returns; loops
    are recursions on a list or on a bound computed from the code's own limits. Interleaving
    of several clients is a step relation ([LeaseSystem]). Strings are Latin-1 ([Js]); numbers
    are exact binary64 values ([Number]); an object used as a map is an association list in
    insertion order ([Json.dict]). Third-party and platform code is a class parameter: the
    clock, SHA-256, the URL parser, collation, the UTF-8 decoder, zod.

    ** Parts

    - [Js], [Number], [Regex], [Dates], [Json], [JsonParse]: the ECMAScript library used.
    - [Errors] (regression/core/errors.ts): reasons, stages, HarnessError.
    - [Lease], [LeaseSpec], [LeaseSystem], [LeaseProps] (lease.ts): the lab lease; its
      abstract protocol; several runners on one Lease with lost and delayed writes; theorems.
    - [Journal], [JournalProps] (journal.ts): the journal of resources a run owns, and cleanup.
    - [LicenseTransaction], [LicenseProps] (license-transaction.ts): borrowing the license.
    - [Canonical] (input-preparation.ts, borrowed-sharing.ts): the text that
      compares JSON values whatever the order of their members; [Poll] (poll.ts).
    - [BorrowedSharing], [SharingProps] (borrowed-sharing.ts): borrowing a GPU's sharing setting.
    - [RunLifecycle], [RunLifecycleProps] (run-lifecycle.ts): the heartbeat loop as a state
      machine over every interleaving; cleanup after failure; bounded actions.
    - [JsonProps], [Blocking], [BlockingProps] (packages/core/src/regression-blocking.ts,
      regression/core/blocking.ts): which case blocked which, and the recovery cause of a fence.
    - [KubernetesCommand] (kubernetes-command.ts): what a failed
      kubectl command proves.
    - [CleanupDiagnostic], [DiagnosticProps] (cleanup-diagnostic.ts): the bounded record of a
      cleanup's observations, its file and its report.
    - [PinDiagnostic] (preflight-diagnostic.ts): the bounded record of what the preflight saw
      of the pinned workloads, rebuilt field by field.
    - [Rely], [PrivateFiles], [PrivateProps] (private-files.ts): programs beside other processes;
      the file system with what a crash leaves of it; private writes.
    - [Observer] (observer.ts): kubectl as a subprocess, objects and permission reviews;
      [ModelCleaner], [ModelCleanerProps] (model-cleanup.ts): deleting a model.
    - [BorrowedModule], [BorrowedModuleProps] (borrowed-module.ts): borrowing an optional module.
    - [Recovery], [RecoveryProps], [AttestProps] (recovery-inventory.ts, cleanup-state.ts): what
      the private files of a run still owe, and the proof that they owe nothing; [CleanupRun],
      [CleanupRunProps]: runs and the runs they started; [JsonPretty]: receipts read back.
    - [KubernetesTermination] (kubernetes-termination.ts): the
      proof that a killed runner's Pod has ended; [AutoRecovery], [AutoRecoveryProps]
      (automatic-recovery.ts): whether a dead run may be recovered, and the recovery.
    - [Config], [ConfigProps] (config.ts): the configuration of a lab; [LabPolicy]
      (lab-policy.ts): its registration and the marker; [JsonFields].
    - [Fence] (transport.ts, preparation-api.ts): the API client over a transport
      that decides which requests leave; [OwnedKey], [OwnedModel], [OwnedIdentity]
      (owned-key.ts, owned-model.ts, administration-api.ts, owned-identity.ts): the
      clients of what a run owns.
    - [Evidence], [Profiles] (evidence.ts, the policies and selections, regression/profiles): what
      each phase must prove; [Preparation] (preparation-diagnostic.ts); [Report], [ReportProps]
      (report.ts): completion of the evidence and the verdict of a run.
    - [Contracts] (packages/contracts), [DashboardCore], [DashboardProps] (packages/core),
      [LocalModel], [LocalModelProps] (local-model-configuration.ts).
    - [ApiClient], [ApiProps] (packages/api-client).
    - [Cli], [CliProps] (args.ts, output.ts), [CliAuth], [CliAuthProps] (config.ts, auth.ts,
      runtime.ts), [CliFiles] (license.ts, snapshot.ts), [CliCommands], [CliCommandProps]
      (commands.ts).
    - [Banner] (banner.ts); [Tui] (tui.ts up to line 417: tabs, lines, screen); [Shared],
      [TuiMachine] (runTui: its state, keys, dialogs, operations and the tasks they start,
      interleaved); [TuiProps], [TuiScreen]: their theorems.

    How they interact: the CLI's commands call the API client through the effect [Api_call] of
    [CliFiles]; the client's own requests are programs of [ApiClient], whose token comes from
    [CliAuth.accessToken]. The harness's journal, license and sharing transactions confirm the lease
    ([Lease.assertHeldInternal]) before they write: in their models it is an effect, whose
    success [LeaseProps.lease_exclusive] interprets. The clients of owned resources run the
    programs of [ApiClient] over their transports ([Fence.via]).

    ** Theorems

    Lease: mutual exclusion over all interleavings, refinement of the protocol, fencing is
    final, a full cycle succeeds on a reliable server, timestamps round-trip. Journal and
    license: every write is recorded first and guarded, cleanup concludes only what it
    verified, stored journals round-trip, and both complete when the environment cooperates.
    Sharing: a setting is written only over what was read and is owned, nothing borrowed is
    forgotten, and a restore that succeeds has read the original back; canonical texts are
    equal exactly for equal values.
    Runs: renewals of the lease never overlap and stop when asked; a blocked case is explained
    only by cases of its own run. Reports: a run is accepted exactly when everything its mode
    demands was recorded and passed, and completion never adds a pass. Cleanup evidence: a classified kubectl failure never makes a
    status up; the recorder never throws, stays bounded and keeps the first failure.
    Models and modules: a model is deleted only as it was last read, under the lease, with a
    credential that can do no more; a module is changed only from the state its receipts name,
    and a restore that succeeds has read the original back.
    Recovery: a run counts as clean only when every receipt says so and proofs match exactly
    these files, for it and for every run it started; what was attested is believed. A
    recovery checks everything before it claims the Lease, gives back journals, modules and GPU
    settings in this order, releases only what it saw closed and attests last; the end of a
    Kubernetes execution is attested only when every object names it and a second reading
    agrees. Configurations: an accepted one is within every bound and is accepted as itself; a
    verified registration pins the appliance and its nodes. Owned resources: whatever is asked
    of their clients, a request that changes something was agreed to by the guard just before
    and concerns only keys, models and accounts of the run; the preparation's client only reads.
    Files: a private write leaves the old file or the whole new one, whenever the machine stops.
    Terminal interface: a change is sent only for a dialog the user confirmed under a role the
    server reported, one at a time; selections and screens stay within bounds.
    CLI: a command line changes at most what its words ask, with its confirmations; sign-in
    terminates; tokens are fresh; arguments round-trip. API client: headers, endpoints and
    outcomes of every call. Core rules: roles, phases, links, names, model payloads.

    ** Not modelled

    The React user interface and its tests, the terminal's raw mode, signals and timers, the
    parts of the harness that drive browsers, hosts and test scenarios through Playwright, ssh
    or kubectl, the Python backend and controllers, installers, manifests and docs. *)

From Stdlib Require Export ZArith Lia.
From stdpp Require Export base gmap strings list option sets.

#[global] Set Default Proof Using "Type".

#[global] Arguments String.append !_ _ : simpl nomatch.

Declare Scope js_scope.
Delimit Scope js_scope with js.

(** ** Results of fallible code

    A TypeScript function that may throw returns [Ok v] or [Err e]. *)
Inductive res (E A : Type) : Type :=
| Ok (a : A)
| Err (e : E).
Arguments Ok {_ _} _.
Arguments Err {_ _} _.

Definition res_bind {E A B} (r : res E A) (f : A -> res E B) : res E B :=
  match r with Ok a => f a | Err e => Err e end.

Notation "'let?' x ':=' r 'in' k" := (res_bind r (fun x => k))
  (at level 10, x pattern, r at level 100, k at level 200) : js_scope.

Fixpoint res_map {E A B} (f : A -> res E B) (l : list A) : res E (list B) :=
  match l with
  | [] => Ok []
  | a :: l' => res_bind (f a) (fun b => res_bind (res_map f l') (fun bs => Ok (b :: bs)))
  end.

Definition is_ok {E A} (r : res E A) : bool := match r with Ok _ => true | Err _ => false end.

(** ** Booleans *)

(** [bool_prop] turns boolean hypotheses into propositions, [bsplit] destructs the
    conditionals of a goal or hypothesis. *)
Ltac bool_prop :=
  repeat match goal with
  | H : _ && _ = true |- _ => apply andb_prop in H; destruct H
  | H : _ || _ = false |- _ => apply orb_false_elim in H; destruct H
  | H : negb _ = true |- _ => apply negb_true_iff in H
  | H : negb _ = false |- _ => apply negb_false_iff in H
  | H : bool_decide _ = true |- _ => apply bool_decide_eq_true in H
  | H : bool_decide _ = false |- _ => apply bool_decide_eq_false in H
  | H : (_ =? _)%Z = true |- _ => apply Z.eqb_eq in H
  | H : (_ =? _)%Z = false |- _ => apply Z.eqb_neq in H
  | H : (_ <? _)%Z = true |- _ => apply Z.ltb_lt in H
  | H : (_ <? _)%Z = false |- _ => apply Z.ltb_ge in H
  | H : (_ <=? _)%Z = true |- _ => apply Z.leb_le in H
  | H : (_ <=? _)%Z = false |- _ => apply Z.leb_gt in H
  | H : Is_true _ |- _ => apply Is_true_true in H
  end.

Ltac bsplit :=
  repeat match goal with
  | |- context [if ?b then _ else _] => let E := fresh "E" in destruct b eqn:E
  | H : context [if ?b then _ else _] |- _ => let E := fresh "E" in destruct b eqn:E
  end.

(** Invert an equation between results. *)
Ltac res_inv :=
  repeat match goal with
  | H : Ok _ = Ok _ |- _ => injection H as H; subst
  | H : Err _ = Err _ |- _ => injection H as H; subst
  | H : Ok _ = Err _ |- _ => discriminate H
  | H : Err _ = Ok _ |- _ => discriminate H
  | H : res_bind ?r _ = Ok _ |- _ =>
      let E := fresh "E" in destruct r eqn:E; cbn [res_bind] in H
  end.

Create HintDb js.
Create Rewrite HintDb js.

(** ** Options *)

(** JavaScript's [a ?? b] on a value that may be undefined. *)
Definition nullish {A} (o : option A) (d : A) : A := match o with Some a => a | None => d end.
Notation "a '??' b" := (nullish a b) (at level 60, right associativity) : js_scope.

(** [a ?? b] when [b] may itself be undefined. *)
Definition or_else {A} (o o' : option A) : option A := match o with Some _ => o | None => o' end.
Notation "a '???' b" := (or_else a b) (at level 60, right associativity) : js_scope.

Lemma or_else_Some {A} (o o' : option A) a :
  or_else o o' = Some a <-> o = Some a \/ (o = None /\ o' = Some a).
Proof. destruct o; simpl; naive_solver. Qed.

(** ** Lists *)

Definition find_first {A} (f : A -> bool) : list A -> option A := List.find f.

Lemma find_first_Some {A} (f : A -> bool) l a :
  find_first f l = Some a -> a ∈ l /\ f a = true.
Proof.
  intros H. apply List.find_some in H as [H1 H2].
  split; [by apply list_elem_of_In | done].
Qed.

Lemma find_first_None {A} (f : A -> bool) l a :
  find_first f l = None -> a ∈ l -> f a = false.
Proof. intros H Ha. apply (List.find_none f l H). by apply list_elem_of_In. Qed.

Lemma existsb_elem {A} (f : A -> bool) l :
  existsb f l = true <-> exists a, a ∈ l /\ f a = true.
Proof.
  rewrite List.existsb_exists. by setoid_rewrite list_elem_of_In.
Qed.

Lemma forallb_elem {A} (f : A -> bool) l :
  forallb f l = true <-> forall a, a ∈ l -> f a = true.
Proof.
  rewrite List.forallb_forall. by setoid_rewrite list_elem_of_In.
Qed.

(** [Array.prototype.includes] on strings. *)
Definition includes (l : list string) (s : string) : bool := bool_decide (s ∈ l).

Lemma includes_spec l s : includes l s = true <-> s ∈ l.
Proof. unfold includes. by rewrite bool_decide_eq_true. Qed.

#[export] Hint Resolve find_first_Some find_first_None : js.
