(* ===== verification/Js.v ===== *)
(** * Fragments of the ECMAScript library the sources use

    Strings are [String.string]: a character is a UTF-16 code unit below 256 (Latin-1),
    which covers every identifier, host name, path and label the modelled code compares.
    Case mapping follows Unicode on that range, except that [toUpperCase] leaves the three
    Latin-1 letters whose capital lies outside the range unchanged. *)

From Stdlib Require Export Ascii.
From stdpp Require Import pretty.
From S2P Require Import Prelude.

Local Open Scope char_scope.
Local Open Scope Z_scope.

(** ** Code units *)
Definition code (c : ascii) : Z := Z.of_N (N_of_ascii c).
Definition unit_of (z : Z) : ascii := ascii_of_N (Z.to_N z).

Definition in_range (lo hi : ascii) (c : ascii) : bool :=
  (code lo <=? code c) && (code c <=? code hi).

Definition is_digit : ascii -> bool := in_range "0" "9".
Definition is_lower : ascii -> bool := in_range "a" "z".
Definition is_upper : ascii -> bool := in_range "A" "Z".
Definition is_alpha (c : ascii) : bool := is_lower c || is_upper c.
Definition is_alnum (c : ascii) : bool := is_alpha c || is_digit c.

Definition is_hex_lower (c : ascii) : bool := is_digit c || in_range "a" "f" c.

(** White space and line terminators of the range: TAB, LF, VT, FF, CR, SP, NBSP. *)
Definition is_space (c : ascii) : bool :=
  in_range "009" "013" c || (code c =? 32) || (code c =? 160).

Definition lower (c : ascii) : ascii :=
  if is_upper c || ((192 <=? code c) && (code c <=? 222) && negb (code c =? 215))
  then unit_of (code c + 32) else c.

Definition upper (c : ascii) : ascii :=
  if is_lower c || ((224 <=? code c) && (code c <=? 254) && negb (code c =? 247))
  then unit_of (code c - 32) else c.

(** ** Strings *)
Fixpoint smap (f : ascii -> ascii) (s : string) : string :=
  match s with
  | EmptyString => EmptyString
  | String c s' => String (f c) (smap f s')
  end.

Definition toLowerCase : string -> string := smap lower.
Definition toUpperCase : string -> string := smap upper.

Fixpoint sforall (f : ascii -> bool) (s : string) : bool :=
  match s with
  | EmptyString => true
  | String c s' => f c && sforall f s'
  end.

Fixpoint sfilter (f : ascii -> bool) (s : string) : string :=
  match s with
  | EmptyString => EmptyString
  | String c s' => if f c then String c (sfilter f s') else sfilter f s'
  end.

Fixpoint startsWith (p s : string) : bool :=
  match p, s with
  | EmptyString, _ => true
  | String a p', String b s' => Ascii.eqb a b && startsWith p' s'
  | String _ _, EmptyString => false
  end.

Fixpoint drop_str (n : nat) (s : string) : string :=
  match n, s with
  | O, _ => s
  | S n', String _ s' => drop_str n' s'
  | S _, EmptyString => EmptyString
  end.

Fixpoint take_str (n : nat) (s : string) : string :=
  match n, s with
  | O, _ => EmptyString
  | S n', String c s' => String c (take_str n' s')
  | S _, EmptyString => EmptyString
  end.

(** [s.slice(i, j)] for [0 <= i <= j]. *)
Definition slice (i j : nat) (s : string) : string := take_str (j - i) (drop_str i s).

Definition endsWith (p s : string) : bool :=
  let n := String.length s in let m := String.length p in
  (m <=? n)%nat && String.eqb (drop_str (n - m) s) p.

(** [haystack.includes(needle)]. *)
Fixpoint includesStr (needle s : string) : bool :=
  startsWith needle s ||
  match s with EmptyString => false | String _ s' => includesStr needle s' end.

(** [s.indexOf(c)] for a one-character [c]; [None] is -1. *)
Fixpoint indexOf (c : ascii) (s : string) : option nat :=
  match s with
  | EmptyString => None
  | String d s' => if Ascii.eqb c d then Some O else S <$> indexOf c s'
  end.

(** [s.split(c)] for a one-character separator. *)
Fixpoint split (c : ascii) (s : string) : list string :=
  match s with
  | EmptyString => [EmptyString]
  | String d s' =>
      if Ascii.eqb c d then EmptyString :: split c s'
      else match split c s' with
           | [] => [String d EmptyString]
           | w :: ws => String d w :: ws
           end
  end.

(** [l.join(sep)]. *)
Fixpoint join (sep : string) (l : list string) : string :=
  match l with
  | [] => EmptyString
  | [w] => w
  | w :: ws => (w +:+ sep +:+ join sep ws)%string
  end.

Fixpoint rev_str (s acc : string) : string :=
  match s with
  | EmptyString => acc
  | String c s' => rev_str s' (String c acc)
  end.

Fixpoint drop_while (f : ascii -> bool) (s : string) : string :=
  match s with
  | String c s' => if f c then drop_while f s' else s
  | EmptyString => EmptyString
  end.

Definition trimStart : string -> string := drop_while is_space.
Definition trimEnd (s : string) : string :=
  rev_str (drop_while is_space (rev_str s EmptyString)) EmptyString.
Definition trim (s : string) : string := trimEnd (trimStart s).

(** A maximal run of characters satisfying [f], and the rest. *)
Fixpoint span (f : ascii -> bool) (s : string) : string * string :=
  match s with
  | String c s' => if f c then let '(a, b) := span f s' in (String c a, b) else (EmptyString, s)
  | EmptyString => (EmptyString, EmptyString)
  end.

(** [s.replace(/[class]+/g, by)]. The flag records that a run is being consumed. *)
Fixpoint replace_runs (f : ascii -> bool) (by_ : string) (in_run : bool) (s : string) : string :=
  match s with
  | EmptyString => EmptyString
  | String c s' =>
      if f c then (if in_run then replace_runs f by_ true s'
                   else (by_ +:+ replace_runs f by_ true s')%string)
      else String c (replace_runs f by_ false s')
  end.

(** [s.replace(/c$/, '')] for a single character. *)
Definition strip_last (c : ascii) (s : string) : string :=
  match rev_str s EmptyString with
  | String d r => if Ascii.eqb c d then rev_str r EmptyString else s
  | EmptyString => EmptyString
  end.

(** [s.replace(/^prefix/, '')]. *)
Definition strip_prefix (p s : string) : string :=
  if startsWith p s then drop_str (String.length p) s else s.

Definition truthy (s : string) : bool := negb (String.eqb s EmptyString).

(** [a || b] on strings. *)
Definition sor (a b : string) : string := if truthy a then a else b.

Definition padEnd (n : nat) (s : string) : string :=
  (s +:+ String.string_of_list_ascii (replicate (n - String.length s) " "%char))%string.

Definition repeat_str (n : nat) (s : string) : string := join EmptyString (replicate n s).

(** ** Decimal numerals *)
Definition String_of_Z (z : Z) : string := pretty z.

Definition digit_val (c : ascii) : Z := code c - 48.

Fixpoint digits_val (acc : Z) (s : string) : Z :=
  match s with
  | EmptyString => acc
  | String c s' => digits_val (acc * 10 + digit_val c) s'
  end.

(** ** [encodeURIComponent]: UTF-8 percent-encoding of every code unit outside the
    unreserved set [A-Z a-z 0-9 - _ . ! ~ * ' ( )]. *)
Definition uri_unreserved (c : ascii) : bool :=
  is_alnum c || existsb (Ascii.eqb c) ["-"; "_"; "."; "!"; "~"; "*"; "'"; "("; ")"]%char.

Definition hex_digit (z : Z) : ascii := unit_of (if z <? 10 then 48 + z else 55 + z).

Definition percent (b : Z) : string :=
  String "%" (String (hex_digit (b / 16)) (String (hex_digit (b mod 16)) EmptyString)).

Definition uri_encode_char (c : ascii) : string :=
  if uri_unreserved c then String c EmptyString
  else if code c <? 128 then percent (code c)
  else (percent (192 + code c / 64) +:+ percent (128 + code c mod 64))%string.

Fixpoint encodeURIComponent (s : string) : string :=
  match s with
  | EmptyString => EmptyString
  | String c s' => (uri_encode_char c +:+ encodeURIComponent s')%string
  end.

(** ** Lemmas *)

Lemma code_bound c : 0 <= code c < 256.
Proof. unfold code. pose proof (N_ascii_bounded c). lia. Qed.

Lemma code_inj c d : code c = code d -> c = d.
Proof.
  unfold code. intros H. apply N2Z.inj in H.
  rewrite <- (ascii_N_embedding c), <- (ascii_N_embedding d). by rewrite H.
Qed.

Lemma code_unit_of z : 0 <= z < 256 -> code (unit_of z) = z.
Proof. intros H. unfold code, unit_of. rewrite N_ascii_embedding; lia. Qed.

Lemma in_range_spec lo hi c : in_range lo hi c = true <-> code lo <= code c <= code hi.
Proof. unfold in_range. rewrite andb_true_iff, !Z.leb_le. lia. Qed.

Lemma str_app_assoc (a b c : string) : ((a +:+ b) +:+ c = a +:+ b +:+ c)%string.
Proof. induction a as [|x a IH]; simpl; [done | by rewrite IH]. Qed.

Lemma str_app_nil_r (a : string) : (a +:+ "" = a)%string.
Proof. induction a as [|x a IH]; simpl; [done | by rewrite IH]. Qed.

Lemma str_length_app (a b : string) :
  String.length (a +:+ b)%string = (String.length a + String.length b)%nat.
Proof. induction a; simpl; [done | by rewrite IHa]. Qed.

Lemma sforall_app f (a b : string) :
  sforall f (a +:+ b)%string = sforall f a && sforall f b.
Proof. induction a as [|x a IH]; simpl; [done | by rewrite IH, andb_assoc]. Qed.

Lemma sforall_impl (f g : ascii -> bool) s :
  (forall c, f c = true -> g c = true) -> sforall f s = true -> sforall g s = true.
Proof.
  intros H. induction s as [|c s IH]; simpl; [done|].
  intros [Hc Hs]%andb_prop. by rewrite (H _ Hc), IH.
Qed.

Lemma sforall_take f n s : sforall f s = true -> sforall f (take_str n s) = true.
Proof.
  revert s. induction n as [|n IH]; intros [|c s]; simpl; try done.
  intros [Hc Hs]%andb_prop. by rewrite Hc, IH.
Qed.

Lemma sforall_drop f n s : sforall f s = true -> sforall f (drop_str n s) = true.
Proof.
  revert s. induction n as [|n IH]; intros [|c s]; simpl; try done.
  intros [Hc Hs]%andb_prop. auto.
Qed.

Lemma length_take_str n s : String.length (take_str n s) = Nat.min n (String.length s).
Proof. revert s. induction n as [|n IH]; intros [|c s]; simpl; try done. by rewrite IH. Qed.

Lemma length_drop_str n s : String.length (drop_str n s) = (String.length s - n)%nat.
Proof. revert s. induction n as [|n IH]; intros [|c s]; simpl; try done. Qed.

Lemma rev_str_spec s acc : rev_str s acc = (rev_str s "" +:+ acc)%string.
Proof.
  revert acc. induction s as [|c s IH]; intros acc; simpl; [done|].
  rewrite IH, (IH (String c "")), str_app_assoc. done.
Qed.

Lemma rev_str_app a b acc : rev_str (a +:+ b)%string acc = rev_str b (rev_str a acc).
Proof. revert acc. induction a as [|c a IH]; intros acc; simpl; [done|]. apply IH. Qed.

Lemma rev_str_involutive s : rev_str (rev_str s "") "" = s.
Proof.
  induction s as [|c s IH]; simpl; [done|].
  rewrite (rev_str_spec s (String c "")), rev_str_app. simpl. by rewrite IH.
Qed.

Lemma sforall_rev f s acc : sforall f (rev_str s acc) = sforall f s && sforall f acc.
Proof.
  revert acc. induction s as [|c s IH]; intros acc; simpl; [done|].
  rewrite IH. simpl. destruct (f c), (sforall f s); done.
Qed.

Lemma sforall_drop_while f g s : sforall f s = true -> sforall f (drop_while g s) = true.
Proof.
  induction s as [|c s IH]; simpl; [done|].
  intros [Hc Hs]%andb_prop. destruct (g c); simpl; [auto | by rewrite Hc, Hs].
Qed.

Lemma drop_while_id f s : sforall (fun c => negb (f c)) s = true -> drop_while f s = s.
Proof. destruct s as [|c s]; simpl; [done|]. by destruct (f c). Qed.

Lemma trim_id s : sforall (fun c => negb (is_space c)) s = true -> trim s = s.
Proof.
  intros H. unfold trim, trimEnd, trimStart.
  rewrite (drop_while_id is_space s H), drop_while_id.
  - apply rev_str_involutive.
  - by rewrite sforall_rev, H.
Qed.

Lemma startsWith_spec p s : startsWith p s = true <-> exists t, s = (p +:+ t)%string.
Proof.
  revert s. induction p as [|a p IH]; intros s; simpl.
  - split; [by exists s | done].
  - destruct s as [|b s].
    + split; [done | intros [t H]; discriminate H].
    + rewrite andb_true_iff, Ascii.eqb_eq, IH. split.
      * intros [-> [t ->]]. by exists t.
      * intros [t [= -> ->]]. split; [done | by exists t].
Qed.

Lemma startsWith_app p t : startsWith p (p +:+ t)%string = true.
Proof. apply startsWith_spec. by exists t. Qed.

(** *** [encodeURIComponent] is injective, and emits only unreserved characters and ['%'] *)

Definition uri_safe (c : ascii) : bool := uri_unreserved c || Ascii.eqb c "%".

Definition all_ascii : list ascii := ascii_of_nat <$> seq 0 256.

Lemma all_ascii_complete c : c ∈ all_ascii.
Proof.
  unfold all_ascii. apply list_elem_of_fmap. exists (nat_of_ascii c). split.
  - by rewrite ascii_nat_embedding.
  - apply elem_of_seq. pose proof (nat_ascii_bounded c). lia.
Qed.

(** A decidable statement on every code unit holds once it is checked on the 256 of them. *)
Lemma forall_ascii (P : ascii -> bool) : forallb P all_ascii = true -> forall c, P c = true.
Proof. intros H c. apply (proj1 (forallb_elem P all_ascii) H), all_ascii_complete. Qed.

Lemma uri_encode_char_safe c : sforall uri_safe (uri_encode_char c) = true.
Proof. revert c. apply forall_ascii. vm_compute. reflexivity. Qed.

Lemma encodeURIComponent_safe s : sforall uri_safe (encodeURIComponent s) = true.
Proof.
  induction s as [|c s IH]; simpl; [done|].
  by rewrite sforall_app, uri_encode_char_safe, IH.
Qed.

(** The decoder of the encoder's image. *)
Definition hex_val (c : ascii) : option Z :=
  if is_digit c then Some (code c - 48)
  else if in_range "A" "F" c then Some (code c - 55) else None.

Definition percent_val (a b : ascii) : option Z :=
  x ← hex_val a; y ← hex_val b; Some (x * 16 + y).

Fixpoint uri_decode (s : string) : option string :=
  match s with
  | EmptyString => Some EmptyString
  | String "%" (String a (String b s1)) =>
      v ← percent_val a b;
      if v <? 128 then String (unit_of v) <$> uri_decode s1
      else match s1 with
           | String "%" (String a' (String b' s2)) =>
               w ← percent_val a' b';
               String (unit_of ((v - 192) * 64 + (w - 128))) <$> uri_decode s2
           | _ => None
           end
  | String c s1 => String c <$> uri_decode s1
  end.

Lemma uri_decode_encode_char c t :
  uri_decode (uri_encode_char c +:+ t)%string = String c <$> uri_decode t.
Proof.
  destruct c as [[] [] [] [] [] [] [] []]; vm_compute uri_encode_char; reflexivity.
Qed.

Lemma uri_decode_encode s : uri_decode (encodeURIComponent s) = Some s.
Proof.
  induction s as [|c s IH]; [done|].
  cbn [encodeURIComponent]. by rewrite uri_decode_encode_char, IH.
Qed.

Lemma encodeURIComponent_inj s t : encodeURIComponent s = encodeURIComponent t -> s = t.
Proof. intros H. pose proof (uri_decode_encode s). rewrite H, uri_decode_encode in H0. congruence. Qed.

#[export] Hint Rewrite str_app_assoc str_app_nil_r str_length_app sforall_app length_take_str
  length_drop_str uri_decode_encode : js.
#[export] Hint Resolve sforall_take sforall_drop sforall_drop_while encodeURIComponent_safe
  encodeURIComponent_inj : js.

(** The text of an integer. *)
Definition int_char (c : ascii) : bool := is_digit c || Ascii.eqb c "-".
Lemma String_of_Z_chars z : sforall int_char (String_of_Z z) = true.
Proof.
  assert (Hgo : forall (x : N) s, sforall int_char s = true -> sforall int_char (pretty.pretty_N_go x s) = true).
  { intros x. induction (N.lt_wf_0 x) as [x _ IH]; intros s Hs.
    destruct (N.eq_0_gt_0_cases x) as [->|Hx]; [by rewrite pretty.pretty_N_go_0|].
    rewrite pretty.pretty_N_go_step by done. apply IH; [by apply N.div_lt|].
    cbn [sforall]. rewrite Hs, andb_true_r. unfold pretty.pretty_N_char. by repeat case_match. }
  assert (HN : forall n : N, sforall int_char (pretty.pretty n) = true).
  { intros n. unfold pretty.pretty, pretty.pretty_N. case_decide; [done | by apply Hgo]. }
  unfold String_of_Z. destruct z; [done | apply HN |].
  change (sforall int_char ("-" +:+ pretty.pretty (Npos p))%string = true). by rewrite sforall_app, HN.
Qed.

Lemma sforall_join f sep l : sforall f sep = true -> Forall (fun s => sforall f s = true) l -> sforall f (join sep l) = true.
Proof.
  intros Hs Hl. induction Hl as [|s l Hx Hl IH]; [done|]. destruct l as [|s' l]; [exact Hx|].
  change (sforall f (s +:+ sep +:+ join sep (s' :: l))%string = true). by rewrite !sforall_app, Hx, Hs, IH.
Qed.

Lemma sforall_repeat f n s : sforall f s = true -> sforall f (repeat_str n s) = true.
Proof. intros Hs. apply sforall_join; [done|]. by apply Forall_replicate. Qed.
