(* ===== verification/Number.v ===== *)
(** * ECMAScript numbers

    A finite binary64 value is an integer or an odd multiple of a negative power of two;
    arithmetic is the exact rational result rounded to nearest, ties to even, at 53 bits
    (with the subnormal exponent floor and overflow to infinity). Negative zero is
    identified with zero: no modelled code divides by it or prints it. *)

From stdpp Require Import pretty.
From S2P Require Import Prelude Js.

Local Open Scope Z_scope.

Inductive number : Type :=
| Int (z : Z)
| Dyadic (m : Z) (e : positive)   (* m * 2^-e, m odd *)
| NaN
| Infinity
| NegInfinity.

#[export] Instance number_eq_dec : EqDecision number.
Proof. solve_decision. Defined.

(** Numerator and positive denominator of a finite number. *)
Definition frac (n : number) : option (Z * Z) :=
  match n with
  | Int z => Some (z, 1)
  | Dyadic m e => Some (m, 2 ^ Zpos e)
  | _ => None
  end.

Definition isFinite (n : number) : bool := match n with Int _ | Dyadic _ _ => true | _ => false end.
Definition isInteger (n : number) : bool := match n with Int _ => true | _ => false end.

Definition max_safe : Z := 9007199254740991.

Definition isSafeInteger (n : number) : bool :=
  match n with Int z => Z.abs z <=? max_safe | _ => false end.

(** [a < b] and [a <= b]; comparisons with NaN are false. *)
Definition num_ltb (a b : number) : bool :=
  match a, b with
  | NaN, _ | _, NaN => false
  | NegInfinity, NegInfinity => false
  | NegInfinity, _ => true
  | _, Infinity => negb (bool_decide (a = Infinity))
  | _, _ => match frac a, frac b with
            | Some (x, p), Some (y, q) => x * q <? y * p
            | _, _ => false
            end
  end.

Definition num_leb (a b : number) : bool :=
  match a, b with
  | NaN, _ | _, NaN => false
  | _, _ => negb (num_ltb b a)
  end.

(** ** Rounding *)

(** Remove the factors of two shared by [q] and [2^e]. *)
Fixpoint normalize (fuel : nat) (q : Z) (e : Z) : number :=
  match fuel with
  | O => Int q
  | S f =>
      match e with
      | Zpos p => if Z.odd q then Dyadic q p else if q =? 0 then Int 0 else normalize f (q / 2) (e - 1)
      | _ => Int (q * 2 ^ (- e))
      end
  end.

Definition div_even (n d : Z) : Z :=
  let q := n / d in let r := n mod d in
  if 2 * r <? d then q else if d <? 2 * r then q + 1 else if Z.even q then q else q + 1.

(** The binary64 value nearest to [n / d], for [0 < n] and [0 < d]. *)
Definition round_pos (n d : Z) : number :=
  let k := Z.log2 n - Z.log2 d in
  let scaled s := if 0 <=? s then (n * 2 ^ s, d) else (n, d * 2 ^ (- s)) in
  let s0 := 52 - k in
  let '(n0, d0) := scaled s0 in
  let s := Z.min (if n0 <? 2 ^ 52 * d0 then s0 + 1 else s0) 1074 in
  let '(n', d') := scaled s in
  let q := div_even n' d' in
  if (s <? 0) && (2 ^ 1024 <=? q * 2 ^ (- s)) then Infinity
  else normalize 1100 q s.

Definition neg_number (n : number) : number :=
  match n with
  | Int z => Int (- z)
  | Dyadic m e => Dyadic (- m) e
  | NaN => NaN
  | Infinity => NegInfinity
  | NegInfinity => Infinity
  end.

Definition round_ratio (n d : Z) : number :=
  if n =? 0 then Int 0
  else if 0 <? n then round_pos n d else neg_number (round_pos (- n) d).

(** Finite multiplication and division by a positive finite number. *)
Definition num_mul (a b : number) : number :=
  match frac a, frac b with
  | Some (x, p), Some (y, q) => round_ratio (x * y) (p * q)
  | _, _ => NaN
  end.

Definition num_div (a b : number) : number :=
  match frac a, frac b with
  | Some (x, p), Some (y, q) => if 0 <? y then round_ratio (x * q) (p * y) else NaN
  | _, _ => NaN
  end.

(** Addition; only the sum of finite numbers is rounded. *)
Definition num_add (a b : number) : number :=
  match a, b with
  | NaN, _ | _, NaN => NaN
  | Infinity, NegInfinity | NegInfinity, Infinity => NaN
  | Infinity, _ | _, Infinity => Infinity
  | NegInfinity, _ | _, NegInfinity => NegInfinity
  | _, _ => match frac a, frac b with
            | Some (x, p), Some (y, q) => round_ratio (x * q + y * p) (p * q)
            | _, _ => NaN
            end
  end.

(** [Math.max(a, b)] and [Math.min(a, b)]. *)
Definition num_max (a b : number) : number :=
  match a, b with NaN, _ | _, NaN => NaN | _, _ => if num_ltb a b then b else a end.
Definition num_min (a b : number) : number :=
  match a, b with NaN, _ | _, NaN => NaN | _, _ => if num_ltb b a then b else a end.

(** [a === b]: NaN differs from itself. *)
Definition num_eqb (a b : number) : bool := negb (bool_decide (a = NaN)) && bool_decide (a = b).

(** [a || b] on numbers: zero and NaN are falsy. *)
Definition num_or (a b : number) : number := if bool_decide (a = Int 0) || bool_decide (a = NaN) then b else a.

(** [Math.floor], [Math.round] (ties upwards) and [Math.ceil]: exact on doubles. *)
Definition num_floor (n : number) : number :=
  match frac n with Some (x, p) => Int (x / p) | None => n end.
Definition num_round (n : number) : number :=
  match frac n with Some (x, p) => Int ((2 * x + p) / (2 * p)) | None => n end.

(** ** Printing and parsing *)

Fixpoint pad_zero (fuel : nat) (n : nat) (s : string) : string :=
  match fuel with
  | O => s
  | S f => if (String.length s <? n)%nat then pad_zero f n (String "0" s) else s
  end.

(** [x.toFixed(f)] for [0 <= x < 10^21]: the integer [n] nearest to [x * 10^f], the larger of
    two, with its last [f] digits behind the point. *)
Definition toFixed (f : nat) (x : number) : string :=
  match frac x with
  | Some (a, p) =>
      let n := (2 * a * 10 ^ Z.of_nat f + p) / (2 * p) in
      match f with
      | O => String_of_Z n
      | _ =>
          let digits := pad_zero (S f) (S f) (String_of_Z n) in
          let k := (String.length digits - f)%nat in
          (take_str k digits +:+ "." +:+ drop_str k digits)%string
      end
  | None => "NaN"%string
  end.

(** [Number(s)] for a decimal numeral [digits] or [digits.digits]. *)
Definition Number_of_decimal (s : string) : number :=
  let '(ip, rest) := span is_digit s in
  match rest with
  | String _ fp => round_ratio (digits_val (digits_val 0 ip) fp) (10 ^ Z.of_nat (String.length fp))
  | EmptyString => round_ratio (digits_val 0 ip) 1
  end.

Example round_tenth : Number_of_decimal "0.1" = Dyadic 3602879701896397 55.
Proof. reflexivity. Qed.
Example round_nine_tenths : Number_of_decimal "0.9" = Dyadic 8106479329266893 53.
Proof. reflexivity. Qed.
Example fixed_half : toFixed 1 (Dyadic 1 2) = "0.3"%string /\ toFixed 2 (Dyadic 5 3) = "0.63"%string.
Proof. split; reflexivity. Qed.
Example big_int : Number_of_decimal "9007199254740993" = Int 9007199254740992.
Proof. reflexivity. Qed.

(** Integers below 2^53 are added exactly. *)
Lemma normalize_int fuel n s : 0 < n -> 0 <= s < Z.of_nat fuel -> normalize fuel (n * 2 ^ s) s = Int n.
Proof.
  intros Hn. revert s. induction fuel as [|f IH]; intros s Hs; [lia|]. cbn [normalize].
  destruct s as [|p|p]; [by rewrite !Z.mul_1_r | | lia].
  assert (Hp : n * 2 ^ Zpos p = 2 * (n * 2 ^ (Zpos p - 1))) by (replace (Zpos p) with (Z.succ (Zpos p - 1)) at 1 by lia; rewrite Z.pow_succ_r by lia; ring).
  rewrite Hp, Z.odd_mul. cbn [Z.odd andb]. pose proof (Z.pow_pos_nonneg 2 (Zpos p - 1) ltac:(lia) ltac:(lia)).
  destruct (Z.eqb_spec (2 * (n * 2 ^ (Zpos p - 1))) 0); [nia|]. rewrite Z.mul_comm, Z.div_mul by lia. apply IH. lia.
Qed.

Lemma round_int n : 0 <= n < 2 ^ 53 -> round_ratio n 1 = Int n.
Proof.
  intros Hn. unfold round_ratio. destruct (Z.eqb_spec n 0) as [->|Hz]; [done|]. destruct (Z.ltb_spec 0 n); [|lia]. unfold round_pos.
  assert (Hk : 0 <= Z.log2 n <= 52) by (split; [apply Z.log2_nonneg | apply Z.lt_succ_r, Z.log2_lt_pow2; lia]).
  change (Z.log2 1) with 0. set (s0 := 52 - (Z.log2 n - 0)). assert (Hs : 0 <= s0 <= 52) by lia.
  destruct (Z.leb_spec 0 s0); [|lia]. destruct (Z.ltb_spec (n * 2 ^ s0) (2 ^ 52 * 1)) as [Hlt|_].
  { exfalso. pose proof (Z.log2_spec n ltac:(lia)) as [Hl _]. pose proof (Z.pow_pos_nonneg 2 s0 ltac:(lia) ltac:(lia)).
    assert (2 ^ 52 = 2 ^ Z.log2 n * 2 ^ s0) by (rewrite <- Z.pow_add_r by lia; f_equal; lia). nia. }
  rewrite Z.min_l by lia. destruct (Z.leb_spec 0 s0); [|lia]. destruct (Z.ltb_spec s0 0); [lia|]. cbn [andb].
  assert (Hd : forall z, div_even z 1 = z) by (intros z; unfold div_even; by rewrite Z.div_1_r, Z.mod_1_r).
  rewrite Hd. apply normalize_int; lia.
Qed.

Lemma num_add_int a b : 0 <= a + b < 2 ^ 53 -> num_add (Int a) (Int b) = Int (a + b).
Proof. intros Hab. unfold num_add. cbn [frac]. rewrite !Z.mul_1_r. by apply round_int. Qed.
