(* ===== verification/Regex.v ===== *)
(** * Anchored regular expressions

    A test [/^r$/.test(s)] decides membership of [s] in the language of [r]. [rtest] decides
    it with Brzozowski derivatives; [rtest_spec] relates it to the inductive semantics, so a
    pattern of the sources is transcribed once and reasoned about by its language. *)

From S2P Require Import Prelude Js.

Inductive re : Type :=
| Void
| Eps
| Cls (f : ascii -> bool)
| Cat (r1 r2 : re)
| Alt (r1 r2 : re)
| Star (r : re).

Inductive matches : re -> string -> Prop :=
| m_eps : matches Eps ""
| m_cls f c : f c = true -> matches (Cls f) (String c "")
| m_cat r1 r2 s1 s2 : matches r1 s1 -> matches r2 s2 -> matches (Cat r1 r2) (s1 +:+ s2)
| m_alt_l r1 r2 s : matches r1 s -> matches (Alt r1 r2) s
| m_alt_r r1 r2 s : matches r2 s -> matches (Alt r1 r2) s
| m_star_nil r : matches (Star r) ""
| m_star_cons r s1 s2 : matches r s1 -> matches (Star r) s2 -> matches (Star r) (s1 +:+ s2).

Create HintDb regex.
#[export] Hint Constructors matches : regex.

Fixpoint nullable (r : re) : bool :=
  match r with
  | Void | Cls _ => false
  | Eps | Star _ => true
  | Cat r1 r2 => nullable r1 && nullable r2
  | Alt r1 r2 => nullable r1 || nullable r2
  end.

(** Smart constructors keep derivatives small. *)
Definition mk_cat (r1 r2 : re) : re :=
  match r1 with Void => Void | Eps => r2 | _ => Cat r1 r2 end.
Definition mk_alt (r1 r2 : re) : re :=
  match r1, r2 with Void, _ => r2 | _, Void => r1 | _, _ => Alt r1 r2 end.

Fixpoint deriv (c : ascii) (r : re) : re :=
  match r with
  | Void | Eps => Void
  | Cls f => if f c then Eps else Void
  | Cat r1 r2 =>
      if nullable r1 then mk_alt (mk_cat (deriv c r1) r2) (deriv c r2) else mk_cat (deriv c r1) r2
  | Alt r1 r2 => mk_alt (deriv c r1) (deriv c r2)
  | Star r1 => mk_cat (deriv c r1) (Star r1)
  end.

Fixpoint rtest (r : re) (s : string) : bool :=
  match s with
  | EmptyString => nullable r
  | String c s' => rtest (deriv c r) s'
  end.

Lemma mk_cat_spec r1 r2 s : matches (mk_cat r1 r2) s <-> matches (Cat r1 r2) s.
Proof.
  destruct r1; simpl; try done; split; intros H.
  - inversion H.
  - inversion H as [| |? ? ? ? H1| | | |]; subst. inversion H1.
  - apply (m_cat Eps r2 "" s); auto with regex.
  - inversion H as [| |? ? ? ? H1 H2| | | |]; subst. by inversion H1; subst.
Qed.

Lemma mk_alt_spec r1 r2 s : matches (mk_alt r1 r2) s <-> matches (Alt r1 r2) s.
Proof.
  assert (Hv : forall r, matches (Alt Void r) s <-> matches r s).
  { intros r. split; [intros H; inversion H as [| | |? ? ? H1|? ? ? H1| |]; subst; [inversion H1 | done]
                     | by constructor 5]. }
  assert (Hw : forall r, matches (Alt r Void) s <-> matches r s).
  { intros r. split; [intros H; inversion H as [| | |? ? ? H1|? ? ? H1| |]; subst; [done | inversion H1]
                     | by constructor 4]. }
  destruct r1; simpl; [by rewrite Hv | destruct r2; simpl; try done; by rewrite Hw ..].
Qed.

Lemma nullable_spec r : nullable r = true <-> matches r "".
Proof.
  induction r as [| |f|r1 IH1 r2 IH2|r1 IH1 r2 IH2|r IH]; simpl.
  - split; [done | intros H; inversion H].
  - split; auto with regex.
  - split; [done | intros H; inversion H].
  - rewrite andb_true_iff, IH1, IH2. split.
    + intros [H1 H2]. apply (m_cat r1 r2 "" "" H1 H2).
    + intros H. inversion H as [| |? ? s1 s2 H1 H2 He E| | | |]; subst.
      destruct s1; [|discriminate E]. simpl in E. by subst.
  - rewrite orb_true_iff, IH1, IH2. split.
    + intros [H|H]; auto with regex.
    + intros H. inversion H; subst; auto.
  - split; auto with regex.
Qed.

Lemma cat_cons_inv r1 r2 c s :
  matches (Cat r1 r2) (String c s) ->
  (exists s1 s2, s = (s1 +:+ s2)%string /\ matches r1 (String c s1) /\ matches r2 s2) \/
  (matches r1 "" /\ matches r2 (String c s)).
Proof.
  intros H. inversion H as [| |? ? s1 s2 H1 H2 He E| | | |]; subst.
  destruct s1 as [|d s1]; simpl in E.
  - right. by subst.
  - injection E as -> <-. left. eauto.
Qed.

Lemma star_cons_inv r c s :
  matches (Star r) (String c s) ->
  exists s1 s2, s = (s1 +:+ s2)%string /\ matches r (String c s1) /\ matches (Star r) s2.
Proof.
  intros H. remember (Star r) as q eqn:Hq. remember (String c s) as t eqn:Ht.
  revert r c s Hq Ht. induction H as [|f0 c0 Hf|r1 r2 t1 t2 _ _ _ _|r1 r2 t1 _ _|r1 r2 t1 _ _|r0|r0 s1 s2 H1 _ H2 IH];
    intros r c s Hq Ht; try discriminate.
  injection Hq as ->. destruct s1 as [|d s1]; simpl in Ht.
  - exact (IH r c s eq_refl Ht).
  - injection Ht as -> <-. eauto.
Qed.

Lemma deriv_spec c r s : matches (deriv c r) s <-> matches r (String c s).
Proof.
  revert s. induction r as [| |f|r1 IH1 r2 IH2|r1 IH1 r2 IH2|r IH]; intros s; simpl.
  - split; intros H; inversion H.
  - split; intros H; inversion H.
  - destruct (f c) eqn:E; split; intros H; inversion H; subst; auto with regex. congruence.
  - assert (Hc : matches (Cat (deriv c r1) r2) s <->
        exists s1 s2, s = (s1 +:+ s2)%string /\ matches r1 (String c s1) /\ matches r2 s2).
    { split.
      - intros H. inversion H as [| |? ? s1 s2 H1 H2| | | |]; subst.
        exists s1, s2. by rewrite <- IH1.
      - intros (s1 & s2 & -> & H1 & H2). constructor; [by apply IH1 | done]. }
    assert (Hr : (exists s1 s2, s = (s1 +:+ s2)%string /\ matches r1 (String c s1) /\ matches r2 s2) ->
        matches (Cat r1 r2) (String c s)).
    { intros (s1 & s2 & -> & H1 & H2). apply (m_cat r1 r2 (String c s1) s2 H1 H2). }
    destruct (nullable r1) eqn:E.
    + rewrite mk_alt_spec. split.
      * intros H. inversion H as [| | |? ? ? H1|? ? ? H1| |]; subst.
        -- apply Hr, Hc. by apply mk_cat_spec.
        -- apply (m_cat r1 r2 "" (String c s)); [by apply nullable_spec | by apply IH2].
      * intros [H|[H1 H2]]%cat_cons_inv.
        -- constructor. by apply mk_cat_spec, Hc.
        -- constructor 5. by apply IH2.
    + rewrite mk_cat_spec, Hc. split; [exact Hr|].
      intros [H|[H1 H2]]%cat_cons_inv; [done|].
      apply nullable_spec in H1. congruence.
  - rewrite mk_alt_spec. split; intros H.
    + inversion H; subst; [constructor; by apply IH1 | constructor 5; by apply IH2].
    + inversion H; subst; [constructor; by apply IH1 | constructor 5; by apply IH2].
  - rewrite mk_cat_spec. split.
    + intros H. inversion H as [| |? ? s1 s2 H1 H2| | | |]; subst.
      apply (m_star_cons r (String c s1) s2); [by apply IH | done].
    + intros (s1 & s2 & -> & H1 & H2)%star_cons_inv. constructor; [by apply IH | done].
Qed.

(** The matcher decides the language. *)
Lemma rtest_spec r s : rtest r s = true <-> matches r s.
Proof.
  revert r. induction s as [|c s IH]; intros r; simpl.
  - apply nullable_spec.
  - by rewrite IH, deriv_spec.
Qed.

(** ** Derived patterns *)
Definition chr (c : ascii) : re := Cls (Ascii.eqb c).
Definition opt (r : re) : re := Alt Eps r.
Definition plus (r : re) : re := Cat r (Star r).

Fixpoint lit (s : string) : re :=
  match s with EmptyString => Eps | String c s' => Cat (chr c) (lit s') end.

Fixpoint rep (n : nat) (r : re) : re :=
  match n with O => Eps | S n' => Cat r (rep n' r) end.

(** [r{0,n}] *)
Fixpoint upto (n : nat) (r : re) : re :=
  match n with O => Eps | S n' => opt (Cat r (upto n' r)) end.

Fixpoint alts (l : list re) : re :=
  match l with [] => Void | r :: l' => Alt r (alts l') end.

(** [[0-9a-f-]], the class of run identifiers. *)
Definition hex_dash (c : ascii) : bool := is_hex_lower c || Ascii.eqb "-" c.

(** [/^reg-[0-9a-f-]{36}$/] *)
Definition run_pattern : re := Cat (lit "reg-") (rep 36 (Cls hex_dash)).

(** ** Languages of the derived patterns *)

Lemma lit_spec w s : matches (lit w) s <-> s = w.
Proof.
  revert s. induction w as [|c w IH]; intros s; simpl; split.
  - intros H. by inversion H.
  - intros ->. constructor.
  - intros H. inversion H as [| |? ? s1 s2 H1 H2| | | |]; subst.
    inversion H1 as [|? d Hd| | | | |]; subst. apply Ascii.eqb_eq in Hd as <-.
    apply IH in H2 as ->. done.
  - intros ->. apply (m_cat (chr c) (lit w) (String c "") w).
    + constructor. apply Ascii.eqb_refl.
    + by apply IH.
Qed.

Lemma rep_cls_spec n f s :
  matches (rep n (Cls f)) s <-> String.length s = n /\ sforall f s = true.
Proof.
  revert s. induction n as [|n IH]; intros s; simpl; split.
  - intros H. by inversion H.
  - intros [H _]. destruct s; [constructor | done].
  - intros H. inversion H as [| |? ? s1 s2 H1 H2| | | |]; subst.
    inversion H1 as [|? d Hd| | | | |]; subst. apply IH in H2 as [<- H2].
    simpl. by rewrite Hd, H2.
  - intros [H1 H2]. destruct s as [|c s]; [done|]. simpl in H1, H2.
    apply andb_prop in H2 as [Hc Hs]. apply (m_cat (Cls f) _ (String c "") s).
    + by constructor.
    + apply IH. split; [lia | done].
Qed.

Lemma star_cls_spec f s : matches (Star (Cls f)) s <-> sforall f s = true.
Proof.
  induction s as [|c s IH]; simpl; split; try (intros _; constructor).
  - intros (s1 & s2 & -> & H1 & H2)%star_cons_inv.
    inversion H1 as [|? d Hd| | | | |]; subst. simpl in *. apply IH in H2. by rewrite Hd, H2.
  - intros [Hc Hs]%andb_prop. apply (m_star_cons (Cls f) (String c "") s); [by constructor | by apply IH].
Qed.

Lemma cat_spec r1 r2 s :
  matches (Cat r1 r2) s <-> exists s1 s2, s = (s1 +:+ s2)%string /\ matches r1 s1 /\ matches r2 s2.
Proof.
  split.
  - intros H. inversion H; subst. eauto.
  - intros (s1 & s2 & -> & H1 & H2). by constructor.
Qed.

Lemma run_pattern_spec s :
  rtest run_pattern s = true <->
  exists t, s = ("reg-" +:+ t)%string /\ String.length t = 36 /\ sforall hex_dash t = true.
Proof.
  rewrite rtest_spec. unfold run_pattern. rewrite cat_spec. split.
  - intros (s1 & t & -> & ->%lit_spec & [H1 H2]%rep_cls_spec). eauto.
  - intros (t & -> & H1 & H2). exists "reg-", t. split; [done|].
    split; [by apply lit_spec | by apply rep_cls_spec].
Qed.

#[export] Hint Rewrite rtest_spec lit_spec rep_cls_spec star_cls_spec : js.
