(* ===== verification/Prog.v ===== *)
(** * Asynchronous code

    A TypeScript async method runs to completion between two awaits. [prog] is the tree of
    its awaited operations: [Await op k] performs the operation [op] of an effect signature
    and resumes with its reply. [M] adds the private fields of the object (the state [S],
    updated between awaits and kept when an exception propagates) and exceptions.

    A program is run by [exec] against a handler, or by any environment through its traces
    ([steps]). [wp] is the weakest precondition of a program under a ghost state: every
    operation meets [pre], whatever reply satisfying [asm] comes back. *)

From S2P Require Import Prelude.

Inductive prog (E : Type -> Type) (A : Type) : Type :=
| Done (a : A)
| Await {X : Type} (op : E X) (k : X -> prog E A).
Arguments Done {_ _} _.
Arguments Await {_ _ _} _ _.

Fixpoint pbind {E A B} (p : prog E A) (f : A -> prog E B) : prog E B :=
  match p with
  | Done a => f a
  | Await op k => Await op (fun x => pbind (k x) f)
  end.

(** ** The monad of methods *)
Section monad.
Context {E : Type -> Type} {S X : Type}.

Definition M (A : Type) : Type := S -> prog E (S * res X A).

Definition mret {A} (a : A) : M A := fun s => Done (s, Ok a).
Definition throw {A} (e : X) : M A := fun s => Done (s, Err e).

Definition mbind {A B} (m : M A) (f : A -> M B) : M B := fun s =>
  pbind (m s) (fun o => match o.2 with Ok a => f a o.1 | Err e => Done (o.1, Err e) end).

Definition get : M S := fun s => Done (s, Ok s).
Definition modify (f : S -> S) : M unit := fun s => Done (f s, Ok tt).

(** [await] an operation whose promise may reject, or never rejects. *)
Definition await {A} (op : E (res X A)) : M A := fun s => Await op (fun r => Done (s, r)).
Definition await_ {A} (op : E A) : M A := fun s => Await op (fun a => Done (s, Ok a)).

Definition of_res {A} (r : res X A) : M A := fun s => Done (s, r).

(** [try { m } catch (e) { h(e) }] *)
Definition try_catch {A} (m : M A) (h : X -> M A) : M A := fun s =>
  pbind (m s) (fun o => match o.2 with Ok a => Done (o.1, Ok a) | Err e => h e o.1 end).

(** [try { m } finally { f }]: an exception of [f] replaces the outcome of [m]. *)
Definition try_finally {A} (m : M A) (f : M unit) : M A := fun s =>
  pbind (m s) (fun o => pbind (f o.1) (fun o' =>
    match o'.2 with Ok _ => Done (o'.1, o.2) | Err e => Done (o'.1, Err e) end)).

Definition when (b : bool) (m : M unit) : M unit := if b then m else mret tt.

Fixpoint for_each {A} (l : list A) (f : A -> M unit) : M unit :=
  match l with
  | [] => mret tt
  | a :: l' => mbind (f a) (fun _ => for_each l' f)
  end.
End monad.
Arguments M : clear implicits.

(** [try_catch] with a handler that throws another kind of exception, and a method whose
    exceptions carry the operation during which they were thrown. *)
Definition catching {E S X Y A} (m : M E S Y A) (h : Y -> M E S X A) : M E S X A := fun s =>
  pbind (m s) (fun o => match o.2 with Ok a => Done (o.1, Ok a) | Err e => h e o.1 end).
Definition during {E S X A} {L : Type} (l : L) (m : M E S X A) : M E S (L * X) A := catching m (fun e => throw (l, e)).

Notation "'let!' x := m 'in' k" := (mbind m (fun x => k))
  (at level 10, x pattern, m at level 100, k at level 200) : js_scope.
Notation "m ;; k" := (mbind m (fun _ => k))
  (at level 100, k at level 200, right associativity) : js_scope.

(** ** Execution and traces *)
Section semantics.
Context {E : Type -> Type}.

Fixpoint exec {W A} (h : forall X, E X -> W -> X * W) (p : prog E A) (w : W) : A * W :=
  match p with
  | Done a => (a, w)
  | Await op k => let '(x, w') := h _ op w in exec h (k x) w'
  end.

Inductive event : Type :=
| Ev {X : Type} (op : E X) (x : X).

(** [steps p tr q]: the replies of [tr] take [p] to [q]. *)
Inductive steps {A} : prog E A -> list event -> prog E A -> Prop :=
| steps_nil p : steps p [] p
| steps_await X (op : E X) k x tr q :
    steps (k x) tr q -> steps (Await op k) (Ev op x :: tr) q.

(** The operations an execution against a handler performs, with their replies. *)
Fixpoint trace {W A} (h : forall X, E X -> W -> X * W) (p : prog E A) (w : W) : list event :=
  match p with
  | Done _ => []
  | Await op k => let '(x, w') := h _ op w in Ev op x :: trace h (k x) w'
  end.

Lemma exec_steps {W A} h (p : prog E A) (w : W) :
  steps p (trace h p w) (Done (exec h p w).1).
Proof.
  revert w. induction p as [a|X op k IH]; intros w; simpl; [constructor|].
  destruct (h X op w) as [x w']. constructor. apply IH.
Qed.

Lemma exec_bind {W A B} h (p : prog E A) (f : A -> prog E B) (w : W) :
  exec h (pbind p f) w = let '(a, w') := exec h p w in exec h (f a) w'.
Proof.
  revert w. induction p as [a|X op k IH]; intros w; simpl; [done|].
  destruct (h X op w) as [x w']. apply IH.
Qed.
End semantics.

(** ** Weakest preconditions *)
Section wp.
Context {E : Type -> Type} {G : Type}.
Context (pre : forall X, G -> E X -> Prop).
Context (asm : forall X, G -> E X -> X -> Prop).
Context (upd : forall X, G -> E X -> X -> G).

Fixpoint wp {A} (p : prog E A) (g : G) (Q : G -> A -> Prop) : Prop :=
  match p with
  | Done a => Q g a
  | Await op k => pre _ g op /\ forall x, asm _ g op x -> wp (k x) (upd _ g op x) Q
  end.

Lemma wp_mono {A} (p : prog E A) g (Q Q' : G -> A -> Prop) :
  (forall g' a, Q g' a -> Q' g' a) -> wp p g Q -> wp p g Q'.
Proof.
  intros HQ. revert g. induction p as [a|X op k IH]; intros g; simpl; [auto|].
  intros [Hp Hk]. eauto.
Qed.

Lemma wp_bind {A B} (p : prog E A) (f : A -> prog E B) g Q :
  wp (pbind p f) g Q <-> wp p g (fun g' a => wp (f a) g' Q).
Proof.
  revert g. induction p as [a|X op k IH]; intros g; simpl; [done|].
  split; (intros [Hp Hk]; split; [done|]; intros x Hx; apply IH; auto).
Qed.

(** The ghost state after a trace, and the events of a trace that respect [asm]. *)
Definition ghost (g : G) (e : event) : G := let 'Ev op x := e in upd _ g op x.

Fixpoint admissible (g : G) (tr : list event) : Prop :=
  match tr with
  | [] => True
  | Ev op x :: tr' => asm _ g op x /\ admissible (upd _ g op x) tr'
  end.

Fixpoint respects (g : G) (tr : list event) : Prop :=
  match tr with
  | [] => True
  | Ev op x :: tr' => pre _ g op /\ respects (upd _ g op x) tr'
  end.

(** A program with a weakest precondition performs only permitted operations, along every
    admissible trace, and its remainder keeps the weakest precondition. *)
Lemma wp_steps {A} (p : prog E A) tr q g Q :
  wp p g Q -> steps p tr q -> admissible g tr ->
  respects g tr /\ wp q (foldl ghost g tr) Q.
Proof.
  intros Hw Hs. revert g Hw. induction Hs as [p|X op k x tr q Hs IH]; intros g Hw Ha; simpl; [done|].
  destruct Hw as [Hp Hk]. destruct Ha as [Hx Ha].
  destruct (IH _ (Hk x Hx) Ha) as [H1 H2]. done.
Qed.

Section methods.
Context {S X : Type}.

Definition wpm {A} (m : M E S X A) (s : S) (g : G) (Q : G -> S -> res X A -> Prop) : Prop :=
  wp (m s) g (fun g' o => Q g' o.1 o.2).

Lemma wpm_mono {A} (m : M E S X A) s g (Q Q' : G -> S -> res X A -> Prop) :
  (forall g' s' r, Q g' s' r -> Q' g' s' r) -> wpm m s g Q -> wpm m s g Q'.
Proof. intros H. apply wp_mono. intros g' o. apply H. Qed.

Lemma wpm_ret {A} (a : A) s g (Q : G -> S -> res X A -> Prop) :
  Q g s (Ok a) -> wpm (mret a) s g Q.
Proof. done. Qed.

Lemma wpm_throw {A} e s g (Q : G -> S -> res X A -> Prop) :
  Q g s (Err e) -> wpm (throw e) s g Q.
Proof. done. Qed.

Lemma wpm_of_res {A} (r : res X A) s g (Q : G -> S -> res X A -> Prop) :
  Q g s r -> wpm (of_res r) s g Q.
Proof. done. Qed.

Lemma wpm_get s g (Q : G -> S -> res X S -> Prop) : Q g s (Ok s) -> wpm get s g Q.
Proof. done. Qed.

Lemma wpm_modify f s g (Q : G -> S -> res X unit -> Prop) :
  Q g (f s) (Ok tt) -> wpm (modify f) s g Q.
Proof. done. Qed.

Lemma wpm_bind {A B} (m : M E S X A) (f : A -> M E S X B) s g Q :
  wpm m s g (fun g' s' r => match r with Ok a => wpm (f a) s' g' Q | Err e => Q g' s' (Err e) end) ->
  wpm (mbind m f) s g Q.
Proof.
  unfold wpm, mbind. intros H. apply wp_bind. eapply wp_mono; [|exact H].
  intros g' [s' [a|e]]; simpl; auto.
Qed.

Lemma wpm_await {A} (op : E (res X A)) s g Q :
  pre _ g op -> (forall r, asm _ g op r -> Q (upd _ g op r) s r) -> wpm (await op) s g Q.
Proof. done. Qed.

Lemma wpm_await_ {A} (op : E A) s g (Q : G -> S -> res X A -> Prop) :
  pre _ g op -> (forall a, asm _ g op a -> Q (upd _ g op a) s (Ok a)) -> wpm (await_ op) s g Q.
Proof. done. Qed.

Lemma wpm_try {A} (m : M E S X A) h s g Q :
  wpm m s g (fun g' s' r => match r with Ok a => Q g' s' (Ok a) | Err e => wpm (h e) s' g' Q end) ->
  wpm (try_catch m h) s g Q.
Proof.
  unfold wpm, try_catch. intros H. apply wp_bind. eapply wp_mono; [|exact H].
  intros g' [s' [a|e]]; simpl; auto.
Qed.

Lemma wpm_finally {A} (m : M E S X A) f s g Q :
  wpm m s g (fun g' s' r => wpm f s' g' (fun g'' s'' r' =>
    match r' with Ok _ => Q g'' s'' r | Err e => Q g'' s'' (Err e) end)) ->
  wpm (try_finally m f) s g Q.
Proof.
  unfold wpm, try_finally. intros H. apply wp_bind. eapply wp_mono; [|exact H].
  intros g' [s' r]; simpl. intros H'. apply wp_bind. eapply wp_mono; [|exact H'].
  intros g'' [s'' [|]]; simpl; auto.
Qed.

Lemma wpm_when b m s g (Q : G -> S -> res X unit -> Prop) :
  (b = true -> wpm m s g Q) -> (b = false -> Q g s (Ok tt)) -> wpm (when b m) s g Q.
Proof. intros H1 H2. destruct b; [by apply H1 | apply wpm_ret; by apply H2]. Qed.

(** A loop keeps an invariant indexed by the elements still to visit. *)
Lemma wpm_for_each {A} (l : list A) (f : A -> M E S X unit) (I : list A -> G -> S -> Prop) s g Q :
  (forall a l' g' s', I (a :: l') g' s' ->
     wpm (f a) s' g' (fun g'' s'' r =>
       match r with Ok _ => I l' g'' s'' | Err e => Q g'' s'' (Err e) end)) ->
  I l g s -> (forall g' s', I [] g' s' -> Q g' s' (Ok tt)) -> wpm (for_each l f) s g Q.
Proof.
  intros Hf HI HQ. revert s g HI. induction l as [|a l IH]; intros s g HI; simpl.
  - apply wpm_ret. auto.
  - apply wpm_bind. eapply wpm_mono; [|exact (Hf _ _ _ _ HI)].
    intros g' s' [[]|e] H; auto.
Qed.
End methods.
End wp.

Lemma wpm_catching {E G} pre asm upd {S X Y A} (m : M E S Y A) (h : Y -> M E S X A) s (g : G) Q :
  wpm pre asm upd m s g (fun g' s' r => match r with Ok a => Q g' s' (Ok a) | Err e => wpm pre asm upd (h e) s' g' Q end) ->
  wpm pre asm upd (catching m h) s g Q.
Proof.
  unfold wpm, catching. intros H. apply wp_bind. eapply wp_mono; [|exact H].
  intros g' [s' [a|e]]; simpl; auto.
Qed.

Lemma wpm_during {E G} pre asm upd {S X A L} (l : L) (m : M E S X A) s (g : G) Q :
  wpm pre asm upd m s g (fun g' s' r => Q g' s' (match r with Ok a => Ok a | Err e => Err (l, e) end)) ->
  wpm pre asm upd (during l m) s g Q.
Proof.
  intros H. apply wpm_catching. eapply wpm_mono; [|exact H]. by intros g' s' [a|e].
Qed.

(** One symbolic step of a method. *)
Ltac wpm_step :=
  lazymatch goal with
  | |- wpm _ _ _ (mbind _ _) _ _ _ => apply wpm_bind
  | |- wpm _ _ _ (mret _) _ _ _ => apply wpm_ret
  | |- wpm _ _ _ (throw _) _ _ _ => apply wpm_throw
  | |- wpm _ _ _ (of_res _) _ _ _ => apply wpm_of_res
  | |- wpm _ _ _ get _ _ _ => apply wpm_get
  | |- wpm _ _ _ (modify _) _ _ _ => apply wpm_modify
  | |- wpm _ _ _ (await_ _) _ _ _ => apply wpm_await_
  | |- wpm _ _ _ (await _) _ _ _ => apply wpm_await
  | |- wpm _ _ _ (try_catch _ _) _ _ _ => apply wpm_try
  | |- wpm _ _ _ (try_finally _ _) _ _ _ => apply wpm_finally
  | |- wpm _ _ _ (catching _ _) _ _ _ => apply wpm_catching
  | |- wpm _ _ _ (during _ _) _ _ _ => apply wpm_during
  | |- wpm _ _ _ (when _ _) _ _ _ => apply wpm_when; intros ?
  end.
