(* ===== verification/Dates.v ===== *)
(** * Dates: [Date.prototype.toISOString] and [Date.parse]

    Times are milliseconds since the epoch. [Date_parse] implements the ISO date-time format
    with an optional fraction of any number of digits (Kubernetes writes six; the engine keeps
    the first three). Every other string goes to [legacy_parse], which ECMA-262 leaves to the
    implementation. *)

From S2P Require Import Prelude Js.

Local Open Scope Z_scope.

(** The implementation-defined fallback of [Date.parse]; [None] is NaN. *)
Class DateFallback : Type := legacy_parse : string -> option Z.

(** ** Civil calendar *)
Record civil : Type := { year : Z; month : Z; day : Z }.

Definition civil_of_days (days : Z) : civil :=
  let z := days + 719468 in
  let era := z / 146097 in
  let doe := z mod 146097 in
  let yoe := (doe - doe / 1460 + doe / 36524 - doe / 146096) / 365 in
  let doy := doe - (365 * yoe + yoe / 4 - yoe / 100) in
  let mp := (5 * doy + 2) / 153 in
  let m := if mp <? 10 then mp + 3 else mp - 9 in
  {| year := yoe + era * 400 + (if m <=? 2 then 1 else 0);
     month := m;
     day := doy - (153 * mp + 2) / 5 + 1 |}.

Definition days_of_civil (c : civil) : Z :=
  let y := year c - (if month c <=? 2 then 1 else 0) in
  let era := y / 400 in
  let yoe := y mod 400 in
  let mp := if 2 <? month c then month c - 3 else month c + 9 in
  let doy := (153 * mp + 2) / 5 + day c - 1 in
  let doe := yoe * 365 + yoe / 4 - yoe / 100 + doy in
  era * 146097 + doe - 719468.

(** ** Fixed-width numerals *)
Fixpoint fixed (n : nat) (z : Z) : string :=
  match n with
  | O => EmptyString
  | S n' => String (unit_of (48 + z / 10 ^ Z.of_nat n')) (fixed n' (z mod 10 ^ Z.of_nat n'))
  end.

Fixpoint p_digits (n : nat) (acc : Z) (s : string) : option (Z * string) :=
  match n, s with
  | O, _ => Some (acc, s)
  | S n', String c s' => if is_digit c then p_digits n' (acc * 10 + digit_val c) s' else None
  | S _, EmptyString => None
  end.

Definition p_char (c : ascii) (s : string) : option string :=
  match s with String d s' => if Ascii.eqb c d then Some s' else None | EmptyString => None end.

(** ** Formatting *)
Definition day_ms : Z := 86400000.

Definition iso_prefix (t : Z) : string :=
  let c := civil_of_days (t / day_ms) in
  let r := t mod day_ms in
  (fixed 4 (year c) +:+ String "-" (fixed 2 (month c) +:+ String "-" (fixed 2 (day c) +:+
   String "T" (fixed 2 (r / 3600000) +:+ String ":" (fixed 2 (r / 60000 mod 60) +:+
   String ":" (fixed 2 (r / 1000 mod 60)))))))%string.

(** [new Date(t).toISOString()] for a year between 0 and 9999. *)
Definition toISOString (t : Z) : string :=
  (iso_prefix t +:+ String "." (fixed 3 (t mod 1000) +:+ "Z"))%string.

(** ** Parsing *)

(** Milliseconds of a fraction: its first three digits, missing ones being zero. *)
Definition fraction_ms (s : string) : Z :=
  digits_val 0 (take_str 3 (s +:+ "000")%string).

Definition iso_parse (s : string) : option Z :=
  '(y, s) ← p_digits 4 0 s; s ← p_char "-" s;
  '(mo, s) ← p_digits 2 0 s; s ← p_char "-" s;
  '(d, s) ← p_digits 2 0 s; s ← p_char "T" s;
  '(h, s) ← p_digits 2 0 s; s ← p_char ":" s;
  '(mi, s) ← p_digits 2 0 s; s ← p_char ":" s;
  '(sec, s) ← p_digits 2 0 s;
  ms ← match s with
       | String "." s' =>
           let '(f, rest) := span is_digit s' in
           if truthy f && String.eqb rest "Z" then Some (fraction_ms f) else None
       | _ => if String.eqb s "Z" then Some 0 else None
       end;
  if (1 <=? mo) && (mo <=? 12) && (1 <=? d) && (d <=? 31) &&
     ((h <=? 23) || ((h =? 24) && (mi =? 0) && (sec =? 0) && (ms =? 0))) && (mi <=? 59) && (sec <=? 59)
  then Some (days_of_civil {| year := y; month := mo; day := d |} * day_ms
             + h * 3600000 + mi * 60000 + sec * 1000 + ms)
  else None.

Definition Date_parse `{DateFallback} (s : string) : option Z :=
  match iso_parse s with Some t => Some t | None => legacy_parse s end.

(** ** Round trip *)

Lemma digit_unit z : 0 <= z < 10 -> is_digit (unit_of (48 + z)) = true /\ digit_val (unit_of (48 + z)) = z.
Proof.
  intros H. unfold is_digit, digit_val. rewrite in_range_spec, code_unit_of by lia.
  change (code "0") with 48. change (code "9") with 57. lia.
Qed.

Lemma p_digits_fixed n acc z rest :
  0 <= z < 10 ^ Z.of_nat n ->
  p_digits n acc (fixed n z +:+ rest)%string = Some (acc * 10 ^ Z.of_nat n + z, rest).
Proof.
  revert acc z. induction n as [|n IH]; intros acc z H; cbn [fixed p_digits].
  - simpl in *. do 2 f_equal. lia.
  - rewrite Nat2Z.inj_succ, Z.pow_succ_r in * by lia.
    assert (0 < 10 ^ Z.of_nat n) by (apply Z.pow_pos_nonneg; lia).
    assert (0 <= z / 10 ^ Z.of_nat n < 10) by (split; [apply Z.div_pos | apply Z.div_lt_upper_bound]; lia).
    destruct (digit_unit (z / 10 ^ Z.of_nat n)) as [Hv1 Hv2]; [done|].
    cbn [String.append]. rewrite Hv1, Hv2, IH by (apply Z.mod_pos_bound; lia).
    do 2 f_equal. pose proof (Z.div_mod z (10 ^ Z.of_nat n)). lia.
Qed.

Lemma p_char_eq c s : p_char c (String c s) = Some s.
Proof. simpl. by rewrite Ascii.eqb_refl. Qed.

Lemma doe_bounds doe :
  0 <= doe < 146097 ->
  let yoe := (doe - doe / 1460 + doe / 36524 - doe / 146096) / 365 in
  let doy := doe - (365 * yoe + yoe / 4 - yoe / 100) in
  0 <= yoe < 400 /\ 0 <= doy < 366.
Proof.
  intros H yoe doy. subst yoe doy.
  assert (Hb : 0 <= doe / 36524 < 5) by (split; [apply Z.div_pos | apply Z.div_lt_upper_bound]; lia).
    destruct (Z.eq_dec doe 146096) as [->|Hne]; [vm_compute; intuition congruence|].
  assert (Hc0 : doe / 146096 = 0) by (apply Z.div_small; lia). rewrite Hc0.
  pose proof (Z.div_mod doe 36524 ltac:(lia)) as Hm.
  pose proof (Z.mod_pos_bound doe 36524 ltac:(lia)) as Hr.
  set (b := doe / 36524) in *. set (r := doe mod 36524) in *.
  assert (Hb3 : 0 <= b <= 3) by lia. clearbody b r. clear Hb Hc0.
  subst doe.
  assert (Hy : 100 * b <= (36524 * b + r - (36524 * b + r) / 1460 + b - 0) / 365 < 100 * b + 100).
  { pose proof (Z.mul_div_le (36524 * b + r) 1460 ltac:(lia)) as H1.
    pose proof (Z.mul_succ_div_gt (36524 * b + r) 1460 ltac:(lia)) as H2.
    set (a := (36524 * b + r) / 1460) in *. clearbody a.
    assert (b = 0 \/ b = 1 \/ b = 2 \/ b = 3) as [->|[->|[->| ->]]] by lia;
      (split; [apply Z.div_le_lower_bound | apply Z.div_lt_upper_bound]; lia). }
  set (y := (36524 * b + r - (36524 * b + r) / 1460 + b - 0) / 365) in *.
  assert (Hyd : y / 100 = b) by (symmetry; apply (Z.div_unique y 100 b (y - 100 * b)); lia). rewrite Hyd.
  split; [lia|].
  pose proof (Z.mul_div_le (36524 * b + r - (36524 * b + r) / 1460 + b - 0) 365 ltac:(lia)) as H3.
  pose proof (Z.mul_succ_div_gt (36524 * b + r - (36524 * b + r) / 1460 + b - 0) 365 ltac:(lia)) as H4.
  pose proof (Z.mul_div_le (36524 * b + r) 1460 ltac:(lia)) as H1.
  pose proof (Z.mul_succ_div_gt (36524 * b + r) 1460 ltac:(lia)) as H2.
  fold y in H3, H4. clearbody y. clear Hyd.
  set (a := (36524 * b + r) / 1460) in *. clearbody a.
  pose proof (Z.mul_div_le y 4 ltac:(lia)). pose proof (Z.mul_succ_div_gt y 4 ltac:(lia)).
  set (q := y / 4) in *. clearbody q.
  assert (b = 0 \/ b = 1 \/ b = 2 \/ b = 3) as [->|[->|[->| ->]]] by lia; lia.
Qed.

Lemma doy_bounds doy :
  0 <= doy < 366 ->
  let mp := (5 * doy + 2) / 153 in
  0 <= mp <= 11 /\ 1 <= doy - (153 * mp + 2) / 5 + 1 <= 31 /\ (10 <= mp <-> 306 <= doy).
Proof.
  intros H mp.
  pose proof (Z.mul_div_le (5 * doy + 2) 153 ltac:(lia)).
  pose proof (Z.mul_succ_div_gt (5 * doy + 2) 153 ltac:(lia)).
  fold mp in H0, H1. clearbody mp.
  pose proof (Z.mul_div_le (153 * mp + 2) 5 ltac:(lia)).
  pose proof (Z.mul_succ_div_gt (153 * mp + 2) 5 ltac:(lia)).
  set (q := (153 * mp + 2) / 5) in *. clearbody q. lia.
Qed.

(** The era, year of era and day of year of a day number, with the equations between them. *)
Lemma civil_split days : exists era yoe doy,
  0 <= yoe < 400 /\ 0 <= doy < 366 /\
  days + 719468 = era * 146097 + (365 * yoe + yoe / 4 - yoe / 100 + doy) /\
  civil_of_days days =
    let mp := (5 * doy + 2) / 153 in
    let m := if mp <? 10 then mp + 3 else mp - 9 in
    {| year := yoe + era * 400 + (if m <=? 2 then 1 else 0); month := m;
       day := doy - (153 * mp + 2) / 5 + 1 |}.
Proof.
  pose proof (Z.mod_pos_bound (days + 719468) 146097 ltac:(lia)) as Hd.
  pose proof (Z.div_mod (days + 719468) 146097 ltac:(lia)) as He.
  destruct (doe_bounds _ Hd) as [Hy Hdoy].
  exists ((days + 719468) / 146097). eexists _, _. split; [exact Hy|]. split; [exact Hdoy|]. split; [lia | reflexivity].
Qed.

Lemma civil_bounds days :
  0 <= days < 2932897 ->
  let c := civil_of_days days in
  1970 <= year c < 10000 /\ 1 <= month c <= 12 /\ 1 <= day c <= 31.
Proof.
  intros H. cbv zeta. destruct (civil_split days) as (era & yoe & doy & Hy & Hdoy & He & ->).
  destruct (doy_bounds doy Hdoy) as (Hmp & Hday & Hmar). cbv zeta. cbn [year month day].
  set (mp := (5 * doy + 2) / 153) in *. clearbody mp.
  pose proof (Z.mul_div_le yoe 4 ltac:(lia)). pose proof (Z.mul_succ_div_gt yoe 4 ltac:(lia)).
  pose proof (Z.mul_div_le yoe 100 ltac:(lia)). pose proof (Z.mul_succ_div_gt yoe 100 ltac:(lia)).
  set (q4 := yoe / 4) in *. set (q100 := yoe / 100) in *. clearbody q4 q100.
  assert (4 <= era <= 24) by lia.
  destruct (mp <? 10) eqn:E; bool_prop.
  - destruct (mp + 3 <=? 2) eqn:E2; bool_prop; lia.
  - destruct (mp - 9 <=? 2) eqn:E2; bool_prop; lia.
Qed.

Lemma days_of_civil_of_days days : days_of_civil (civil_of_days days) = days.
Proof.
  destruct (civil_split days) as (era & yoe & doy & Hy & Hdoy & He & ->).
  destruct (doy_bounds doy Hdoy) as (Hmp & Hday & Hmar).
  unfold days_of_civil. cbv zeta. cbn [year month day].
  set (mp := (5 * doy + 2) / 153) in *. clearbody mp.
  set (m := if mp <? 10 then mp + 3 else mp - 9).
  assert (Hm : (if 2 <? m then m - 3 else m + 9) = mp).
  { subst m. destruct (mp <? 10) eqn:E; bool_prop; destruct (2 <? _) eqn:E2; bool_prop; lia. }
  rewrite Hm. clearbody m. clear Hm.
  replace (yoe + era * 400 + (if m <=? 2 then 1 else 0) - (if m <=? 2 then 1 else 0))
    with (yoe + era * 400) by lia.
  rewrite Z.div_add, Z.mod_add, Z.div_small, Z.mod_small by lia. lia.
Qed.

Definition max_time : Z := 253402300800000.

Lemma span_digits_fixed n z c rest :
  0 <= z < 10 ^ Z.of_nat n -> is_digit c = false ->
  span is_digit (fixed n z +:+ String c rest)%string = (fixed n z, String c rest).
Proof.
  revert z. induction n as [|n IH]; intros z H Hc; cbn [fixed span String.append].
  - by rewrite Hc.
  - rewrite Nat2Z.inj_succ, Z.pow_succ_r in H by lia.
    assert (0 < 10 ^ Z.of_nat n) by (apply Z.pow_pos_nonneg; lia).
    destruct (digit_unit (z / 10 ^ Z.of_nat n)) as [Hv1 _].
    { split; [apply Z.div_pos | apply Z.div_lt_upper_bound]; lia. }
    cbn [String.append span].
    rewrite Hv1, IH; [done | apply Z.mod_pos_bound; lia | done].
Qed.

(** One numeral, one separator of [iso_parse]. *)
Ltac nextf :=
  rewrite ?str_app_assoc; cbn [String.append];
  rewrite p_digits_fixed by
    (first [change (10 ^ Z.of_nat 2) with 100 | change (10 ^ Z.of_nat 4) with 10000]; lia).
Ltac nextc := cbn [mbind option_bind]; rewrite p_char_eq; cbn [mbind option_bind].

Lemma iso_parse_prefix t tail ms :
  0 <= t < max_time ->
  0 <= ms < 1000 ->
  (match tail with
   | String "." s' =>
       let '(f, rest) := span is_digit s' in
       if truthy f && String.eqb rest "Z" then Some (fraction_ms f) else None
   | _ => if String.eqb tail "Z" then Some 0 else None
   end = Some ms) ->
  iso_parse (iso_prefix t +:+ tail)%string = Some (t - t mod 1000 + ms).
Proof.
  unfold max_time. intros Ht Hms Htail. unfold iso_parse, iso_prefix.
  assert (Hd : 0 <= t / day_ms < 2932897).
  { unfold day_ms. split; [apply Z.div_pos | apply Z.div_lt_upper_bound]; lia. }
  pose proof (civil_bounds _ Hd) as (Hy & Hmo & Hday). cbv zeta in Hy, Hmo, Hday.
  pose proof (days_of_civil_of_days (t / day_ms)) as Hback.
  set (c := civil_of_days (t / day_ms)) in *.
  assert (Hr : 0 <= t mod day_ms < 86400000) by (apply Z.mod_pos_bound; done).
  assert (Htr : t = t / day_ms * day_ms + t mod day_ms) by (pose proof (Z.div_mod t day_ms ltac:(done)); lia).
  assert (Hmod : t mod 1000 = (t mod day_ms) mod 1000) by (symmetry; apply Z.mod_mod_divide; by exists 86400).
  set (r := t mod day_ms) in *. set (dd := t / day_ms) in *. clearbody r dd. clearbody c.
  assert (Hh : 0 <= r / 3600000 < 24) by (split; [apply Z.div_pos | apply Z.div_lt_upper_bound]; lia).
  assert (Hmi : 0 <= r / 60000 mod 60 < 60) by (apply Z.mod_pos_bound; done).
  assert (Hse : 0 <= r / 1000 mod 60 < 60) by (apply Z.mod_pos_bound; done).
  assert (Hclock : r - r mod 1000 = r / 3600000 * 3600000 + r / 60000 mod 60 * 60000 + r / 1000 mod 60 * 1000).
  { rewrite (Z.mod_eq (r / 60000)), (Z.mod_eq (r / 1000)), (Z.mod_eq r), !Z.div_div by done.
    change (60000 * 60) with 3600000. change (1000 * 60) with 60000. lia. }
  nextf.
  nextc. nextf.
  nextc. nextf.
  nextc. nextf.
  nextc. nextf.
  nextc. nextf.
  cbn [mbind option_bind].
  rewrite Htail. cbn [mbind option_bind].
  rewrite !Z.mul_0_l, !Z.add_0_l.
  destruct (_ && _) eqn:E.
  - f_equal. destruct c as [y m d]. cbn [year month day] in *. rewrite Hback. rewrite Hmod. lia.
  - exfalso. revert E. rewrite <- not_true_iff_false. intros E. apply E.
    rewrite !andb_true_iff, orb_true_iff, !Z.leb_le. lia.
Qed.

Lemma truthy_fixed n z : truthy (fixed (S n) z) = true.
Proof. done. Qed.

Lemma digits_val_fixed n acc z :
  0 <= z < 10 ^ Z.of_nat n -> digits_val acc (fixed n z) = acc * 10 ^ Z.of_nat n + z.
Proof.
  revert acc z. induction n as [|n IH]; intros acc z H; cbn [fixed digits_val]; [simpl in *; lia|].
  rewrite Nat2Z.inj_succ, Z.pow_succ_r in * by lia.
  assert (0 < 10 ^ Z.of_nat n) by (apply Z.pow_pos_nonneg; lia).
  destruct (digit_unit (z / 10 ^ Z.of_nat n)) as [_ ->].
  { split; [apply Z.div_pos | apply Z.div_lt_upper_bound]; lia. }
  rewrite IH by (apply Z.mod_pos_bound; lia).
  pose proof (Z.div_mod z (10 ^ Z.of_nat n)). lia.
Qed.

Lemma length_fixed n z : String.length (fixed n z) = n.
Proof. revert z. induction n; intros z; simpl; [done | by rewrite IHn]. Qed.

Lemma take_str_app_exact n (a b : string) : String.length a = n -> take_str n (a +:+ b)%string = a.
Proof. intros <-. induction a as [|x a IH]; simpl; [done | by rewrite IH]. Qed.

Lemma fixed_app n m z :
  0 <= z < 10 ^ Z.of_nat n -> fixed (n + m) (z * 10 ^ Z.of_nat m) = (fixed n z +:+ fixed m 0)%string.
Proof.
  revert z. induction n as [|n IH]; intros z H; cbn [Nat.add fixed].
  - simpl in H. replace z with 0 by lia. by rewrite Z.mul_0_l.
  - rewrite Nat2Z.inj_succ, Z.pow_succ_r in H by lia.
    assert (0 < 10 ^ Z.of_nat n) by (apply Z.pow_pos_nonneg; lia).
    assert (0 < 10 ^ Z.of_nat m) by (apply Z.pow_pos_nonneg; lia).
    rewrite Nat2Z.inj_add, Z.pow_add_r by lia.
    rewrite Z.div_mul_cancel_r, Z.mul_mod_distr_r by lia.
    cbn [String.append]. f_equal. apply IH, Z.mod_pos_bound. lia.
Qed.

Section parse.
Context `{DateFallback}.

(** [Date.parse] inverts [toISOString] from 1970 to 9999. *)
Lemma Date_parse_toISOString t : 0 <= t < max_time -> Date_parse (toISOString t) = Some t.
Proof.
  intros Ht. unfold Date_parse, toISOString.
  assert (Hm : 0 <= t mod 1000 < 10 ^ Z.of_nat 3) by (apply Z.mod_pos_bound; done).
  rewrite (iso_parse_prefix t _ (t mod 1000)); [f_equal; lia | done | apply Hm |].
  rewrite (span_digits_fixed 3 (t mod 1000) "Z" "") by done.
  rewrite truthy_fixed. cbn [andb String.eqb Ascii.eqb Bool.eqb]. f_equal. unfold fraction_ms.
  rewrite take_str_app_exact by apply length_fixed. by rewrite digits_val_fixed.
Qed.
End parse.
