(* ===== verification/Errors.v ===== *)
(** * Harness errors (regression/core/errors.ts)

    The closed vocabulary of reasons and stages, [HarnessError] with its default outcome,
    and the guards [requireSafe], [requireProof] and [atStage] that every other component of
    the regression harness uses. *)

From S2P Require Import Prelude Js Prog.

Local Open Scope string_scope.
Local Open Scope js_scope.

(** ** Vocabulary *)

Inductive ReasonCode : Type :=
| CONFIG | PREREQUISITE | PREPARATION_FAILED | DEPENDENCY | PRIVATE_FILE | TLS | AUTH | API
| COMPONENT | IDENTITY | CAPABILITY | APPLICATION_MODEL | GPU_PROVIDER | GPU_VALIDATION
| REVISION | HOST | BUSY | OBSERVER | MUTATION | LOCK_BUSY | LOCK_STALE | LOCK_LOST | OWNERSHIP
| CLEANUP | CONFLICT | DEADLINE | UNEXPECTED | PROCESS_STATE | MISSING_EVIDENCE | REPORT_EXPORT
| CI_ACCESS | CACHE_RACE_WINDOW | LAB | RECOVERY | CANCELLED | EXTERNAL_RUNNER.

#[export] Instance ReasonCode_eq_dec : EqDecision ReasonCode.
Proof. solve_decision. Defined.

Definition all_reasons : list ReasonCode :=
  [CONFIG; PREREQUISITE; PREPARATION_FAILED; DEPENDENCY; PRIVATE_FILE; TLS; AUTH; API; COMPONENT;
   IDENTITY; CAPABILITY; APPLICATION_MODEL; GPU_PROVIDER; GPU_VALIDATION; REVISION; HOST; BUSY;
   OBSERVER; MUTATION; LOCK_BUSY; LOCK_STALE; LOCK_LOST; OWNERSHIP; CLEANUP; CONFLICT; DEADLINE;
   UNEXPECTED; PROCESS_STATE; MISSING_EVIDENCE; REPORT_EXPORT; CI_ACCESS; CACHE_RACE_WINDOW; LAB;
   RECOVERY; CANCELLED; EXTERNAL_RUNNER].

Definition reason_name (r : ReasonCode) : string :=
  match r with
  | CONFIG => "CONFIG"
  | PREREQUISITE => "PREREQUISITE"
  | PREPARATION_FAILED => "PREPARATION_FAILED"
  | DEPENDENCY => "DEPENDENCY"
  | PRIVATE_FILE => "PRIVATE_FILE"
  | TLS => "TLS"
  | AUTH => "AUTH"
  | API => "API"
  | COMPONENT => "COMPONENT"
  | IDENTITY => "IDENTITY"
  | CAPABILITY => "CAPABILITY"
  | APPLICATION_MODEL => "APPLICATION_MODEL"
  | GPU_PROVIDER => "GPU_PROVIDER"
  | GPU_VALIDATION => "GPU_VALIDATION"
  | REVISION => "REVISION"
  | HOST => "HOST"
  | BUSY => "BUSY"
  | OBSERVER => "OBSERVER"
  | MUTATION => "MUTATION"
  | LOCK_BUSY => "LOCK_BUSY"
  | LOCK_STALE => "LOCK_STALE"
  | LOCK_LOST => "LOCK_LOST"
  | OWNERSHIP => "OWNERSHIP"
  | CLEANUP => "CLEANUP"
  | CONFLICT => "CONFLICT"
  | DEADLINE => "DEADLINE"
  | UNEXPECTED => "UNEXPECTED"
  | PROCESS_STATE => "PROCESS_STATE"
  | MISSING_EVIDENCE => "MISSING_EVIDENCE"
  | REPORT_EXPORT => "REPORT_EXPORT"
  | CI_ACCESS => "CI_ACCESS"
  | CACHE_RACE_WINDOW => "CACHE_RACE_WINDOW"
  | LAB => "LAB"
  | RECOVERY => "RECOVERY"
  | CANCELLED => "CANCELLED"
  | EXTERNAL_RUNNER => "EXTERNAL_RUNNER"
  end.

(** The fixed, public-safe messages. *)
Definition reasons (r : ReasonCode) : string :=
  match r with
  | CONFIG => "The private lab configuration is missing or invalid."
  | PREREQUISITE => "This required live case needs a separately prepared identity, application, peer, runtime or maintenance fixture; it was not substituted by a mock or a read-only check."
  | PREPARATION_FAILED => "Automatic preparation failed. This dependent live check could not start; inspect the original HAR-02 preparation failure."
  | DEPENDENCY => "An earlier step in this scenario failed or was blocked. This dependent check was not reached."
  | PRIVATE_FILE => "A private input or output is missing, unsafe, unreadable or a symbolic link."
  | TLS => "A configured endpoint failed verified HTTPS/DNS connectivity."
  | AUTH => "The real dashboard login or expected administrator identity could not be verified."
  | API => "A required authenticated API read failed or returned an unexpected contract."
  | COMPONENT => "An owning UI component suite failed or timed out. A bounded component-failure.json diagnostic is retained when available."
  | IDENTITY => "The appliance or node does not match the pinned lab identity."
  | CAPABILITY => "An expected compute target or engine is unavailable."
  | APPLICATION_MODEL => "No small advertised CPU application model has verified native context for every selected application and its context edit within available RAM. The ordinary CPU smoke model is not a compatible substitute."
  | GPU_PROVIDER => "This appliance has no physical GPU for the provider required by this scenario. Independent provider scenarios still run."
  | GPU_VALIDATION => "The selected physical GPU and engine have not passed the required current-boot validation. Run Hardware verification for this exact GPU and engine."
  | REVISION => "The requested deployed revision or image digest was not observed."
  | HOST => "The host worker or node is unavailable, stale or has changed boot identity."
  | BUSY => "A host operation, update or unrelated workload makes the selected lab busy."
  | OBSERVER => "The Kubernetes observer is unavailable or has excessive permissions."
  | MUTATION => "The requested API action is outside this test run's strict allowlist and was not sent."
  | LOCK_BUSY => "Another run owns the lab lease."
  | LOCK_STALE => "An expired lab lease cannot yet be recovered: its drain window or exact private run evidence is not verified."
  | LOCK_LOST => "Lab lease ownership or heartbeat was lost; new mutations are forbidden."
  | OWNERSHIP => "Cleanup ownership is ambiguous or the live resource UID has changed."
  | CLEANUP => "Owned-resource cleanup could not be verified. Later writes are fenced; the next registered run inspects its recovery journal."
  | CONFLICT => "An intervening revision prevents automatic restoration."
  | DEADLINE => "The stage deadline expired without matching current-generation evidence."
  | UNEXPECTED => "The harness failed unexpectedly; private diagnostics require review."
  | PROCESS_STATE => "The previous runner did not prove that all worker processes stopped. Exact process or Kubernetes termination evidence is required before recovery; this is not another run owning the lease."
  | MISSING_EVIDENCE => "The runner did not record a required test/layer result or a causal prerequisite. This is a harness reporting failure, not a missing lab prerequisite."
  | REPORT_EXPORT => "Execution finished, but a sanitized report download could not be published. The recorded test results were retained; this does not imply a cleanup failure."
  | CI_ACCESS => "The exact native companion build has no public acceptance proof and its legacy Actions artifacts require authentication. Publish the workflow acceptance check; no Appliance administrator credential can replace it."
  | CACHE_RACE_WINDOW => "Cache cleanup finished before the competing model intent was observed. No overlapping race was proved; repeat this existing case with a populated cache."
  | LAB => "This target is not the registered disposable regression appliance. Live writes were refused."
  | RECOVERY => "A previous test did not prove restoration. Dependent live writes are fenced; independent tests continue."
  | CANCELLED => "The run was stopped by the operator. Remaining tests were not executed."
  | EXTERNAL_RUNNER => "This test can restart, disconnect or replace the Appliance hosting this runner. Run it from the external Docker runner; it cannot be independently verified by an in-Appliance Job."
  end.

Definition blockedReasons : list ReasonCode :=
  [PREREQUISITE; PREPARATION_FAILED; DEPENDENCY; PRIVATE_FILE; TLS; IDENTITY; CAPABILITY;
   APPLICATION_MODEL; GPU_PROVIDER; GPU_VALIDATION; HOST; BUSY; OBSERVER; LOCK_BUSY; LOCK_STALE;
   LOCK_LOST; LAB; RECOVERY; CANCELLED; EXTERNAL_RUNNER; CI_ACCESS; CACHE_RACE_WINDOW].

Inductive Stage : Type :=
| S_preflight | S_host_boot | S_host_readiness | S_login_form | S_login_return | S_login_session
| S_kubernetes_access | S_kubernetes_revoke | S_kubeconfig_export | S_kubeconfig_copy
| S_kubeconfig_download | S_model_estimate | S_model_create | S_model_ready | S_module_ready
| S_app_ready | S_gateway_ready | S_model_stopped | S_model_failure | S_external_ready
| S_external_stopped | S_cleanup | S_license_review | S_license_activate | S_license_reject
| S_license_restart | S_license_restore | S_recovery_barrier | S_recovery_journal
| S_recovery_resource | S_recovery_module | S_recovery_sharing | S_report_evidence
| S_report_export | S_baseline_models | S_baseline_pods | S_baseline_intents | S_baseline_claims
| S_baseline_routes | S_baseline_host | S_baseline_keys | S_flux_ready | S_gpu_backend
| S_gpu_binding | S_gpu_validation | S_gpu_slots | S_model_route | S_model_inference
| S_model_update | S_companion_evidence | S_runner_execution.

#[export] Instance Stage_eq_dec : EqDecision Stage.
Proof. solve_decision. Defined.

Definition stages : list Stage :=
  [S_preflight; S_host_boot; S_host_readiness; S_login_form; S_login_return; S_login_session;
   S_kubernetes_access; S_kubernetes_revoke; S_kubeconfig_export; S_kubeconfig_copy;
   S_kubeconfig_download; S_model_estimate; S_model_create; S_model_ready; S_module_ready;
   S_app_ready; S_gateway_ready; S_model_stopped; S_model_failure; S_external_ready;
   S_external_stopped; S_cleanup; S_license_review; S_license_activate; S_license_reject;
   S_license_restart; S_license_restore; S_recovery_barrier; S_recovery_journal;
   S_recovery_resource; S_recovery_module; S_recovery_sharing; S_report_evidence;
   S_report_export; S_baseline_models; S_baseline_pods; S_baseline_intents; S_baseline_claims;
   S_baseline_routes; S_baseline_host; S_baseline_keys; S_flux_ready; S_gpu_backend;
   S_gpu_binding; S_gpu_validation; S_gpu_slots; S_model_route; S_model_inference;
   S_model_update; S_companion_evidence; S_runner_execution].

Definition stage_name (s : Stage) : string :=
  match s with
  | S_preflight => "preflight"
  | S_host_boot => "host-boot"
  | S_host_readiness => "host-readiness"
  | S_login_form => "login-form"
  | S_login_return => "login-return"
  | S_login_session => "login-session"
  | S_kubernetes_access => "kubernetes-access"
  | S_kubernetes_revoke => "kubernetes-revoke"
  | S_kubeconfig_export => "kubeconfig-export"
  | S_kubeconfig_copy => "kubeconfig-copy"
  | S_kubeconfig_download => "kubeconfig-download"
  | S_model_estimate => "model-estimate"
  | S_model_create => "model-create"
  | S_model_ready => "model-ready"
  | S_module_ready => "module-ready"
  | S_app_ready => "app-ready"
  | S_gateway_ready => "gateway-ready"
  | S_model_stopped => "model-stopped"
  | S_model_failure => "model-failure"
  | S_external_ready => "external-ready"
  | S_external_stopped => "external-stopped"
  | S_cleanup => "cleanup"
  | S_license_review => "license-review"
  | S_license_activate => "license-activate"
  | S_license_reject => "license-reject"
  | S_license_restart => "license-restart"
  | S_license_restore => "license-restore"
  | S_recovery_barrier => "recovery-barrier"
  | S_recovery_journal => "recovery-journal"
  | S_recovery_resource => "recovery-resource"
  | S_recovery_module => "recovery-module"
  | S_recovery_sharing => "recovery-sharing"
  | S_report_evidence => "report-evidence"
  | S_report_export => "report-export"
  | S_baseline_models => "baseline-models"
  | S_baseline_pods => "baseline-pods"
  | S_baseline_intents => "baseline-intents"
  | S_baseline_claims => "baseline-claims"
  | S_baseline_routes => "baseline-routes"
  | S_baseline_host => "baseline-host"
  | S_baseline_keys => "baseline-keys"
  | S_flux_ready => "flux-ready"
  | S_gpu_backend => "gpu-backend"
  | S_gpu_binding => "gpu-binding"
  | S_gpu_validation => "gpu-validation"
  | S_gpu_slots => "gpu-slots"
  | S_model_route => "model-route"
  | S_model_inference => "model-inference"
  | S_model_update => "model-update"
  | S_companion_evidence => "companion-evidence"
  | S_runner_execution => "runner-execution"
  end.
(** A name of the vocabulary, as [Object.hasOwn(reasons, s)] and [stages.includes(s)] accept it. *)
Definition reason_of_string (s : string) : option ReasonCode :=
  find_first (fun r => String.eqb (reason_name r) s) all_reasons.
Definition stage_of_string (s : string) : option Stage :=
  find_first (fun x => String.eqb (stage_name x) s) stages.

(** ** HarnessError *)
Inductive Outcome : Type := Blocked | Failed.

#[export] Instance Outcome_eq_dec : EqDecision Outcome.
Proof. solve_decision. Defined.

Definition outcome_name (o : Outcome) : string :=
  match o with Blocked => "Blocked" | Failed => "Failed" end.

Record HarnessError : Type := {
  err_code : ReasonCode;
  err_outcome : Outcome;
  err_stage : option Stage;
  err_causeReason : option ReasonCode;
  err_causeStage : option Stage;
  err_message : string
}.

#[export] Instance HarnessError_eq_dec : EqDecision HarnessError.
Proof. solve_decision. Defined.

Definition default_outcome (code : ReasonCode) : Outcome :=
  if bool_decide (code ∈ blockedReasons) then Blocked else Failed.

(** The constructor. Reasons and stages are typed, so the run-time vocabulary checks of the
    source ([Object.hasOwn(reasons, ..)], [stages.includes(..)]) always pass. *)
Definition new_HarnessError (code : ReasonCode) (outcome : option Outcome) (stage : option Stage)
    (cause : option (ReasonCode * option Stage)) : HarnessError :=
  let outcome := outcome ?? default_outcome code in
  {| err_code := code;
     err_outcome := outcome;
     err_stage := stage;
     err_causeReason := fst <$> cause;
     err_causeStage := cause ≫= snd;
     err_message :=
       "[" +:+ reason_name code +:+ "] " +:+ reasons code +:+ " [outcome:" +:+ outcome_name outcome +:+ "]"
       +:+ match stage with Some s => " [stage:" +:+ stage_name s +:+ "]" | None => "" end
       +:+ match cause with
           | Some (r, s) => " [cause:" +:+ reason_name r +:+ "]"
               +:+ match s with Some s => " [cause-stage:" +:+ stage_name s +:+ "]" | None => "" end
           | None => ""
           end |}.

(** A thrown value: a [HarnessError] or any other error. *)
Inductive exn : Type :=
| Harness (e : HarnessError)
| Foreign (message : string).

#[export] Instance exn_eq_dec : EqDecision exn.
Proof. solve_decision. Defined.

Definition harness (code : ReasonCode) : exn := Harness (new_HarnessError code None None None).

(** [error instanceof HarnessError ? error.code : d]. *)
Definition code_or (e : exn) (d : ReasonCode) : ReasonCode :=
  match e with Harness e => err_code e | Foreign _ => d end.

(** ** Guards *)
Definition requireSafe (condition : bool) (code : ReasonCode) : res exn unit :=
  if condition then Ok tt else Err (harness code).

Definition requireProof (condition : bool) (code : ReasonCode) : res exn unit :=
  if condition then Ok tt
  else Err (Harness (new_HarnessError code
         (Some (if bool_decide (code = PREREQUISITE) then Blocked else Failed)) None None)).

(** The error [atStage] rethrows. *)
Definition staged (stage : Stage) (e : exn) : exn :=
  match e with
  | Harness e =>
      Harness (new_HarnessError (err_code e) (Some (err_outcome e))
        (err_stage e ??? Some stage)
        (match err_causeReason e with Some r => Some (r, err_causeStage e) | None => None end))
  | Foreign _ => Harness (new_HarnessError UNEXPECTED (Some Failed) (Some stage) None)
  end.

Definition atStage {E S A} (stage : Stage) (action : M E S exn A) : M E S exn A :=
  try_catch action (fun e => throw (staged stage e)).

(** In a method. *)
Definition requireSafeM {E S} (condition : bool) (code : ReasonCode) : M E S exn unit :=
  of_res (requireSafe condition code).

(** ** Lemmas *)

Lemma reason_name_inj r r' : reason_name r = reason_name r' -> r = r'.
Proof. destruct r, r'; try done; vm_compute; discriminate. Qed.

Lemma stage_name_inj s s' : stage_name s = stage_name s' -> s = s'.
Proof. destruct s, s'; try done; vm_compute; discriminate. Qed.

Lemma reason_of_string_name r : reason_of_string (reason_name r) = Some r.
Proof. destruct r; reflexivity. Qed.

Lemma reason_of_string_Some s r : reason_of_string s = Some r -> reason_name r = s.
Proof. intros [_ H]%find_first_Some. by apply String.eqb_eq. Qed.

Lemma stage_of_string_name s : stage_of_string (stage_name s) = Some s.
Proof. destruct s; reflexivity. Qed.

Lemma stage_of_string_Some s x : stage_of_string s = Some x -> stage_name x = s.
Proof. intros [_ H]%find_first_Some. by apply String.eqb_eq. Qed.

Lemma requireSafe_ok b c : requireSafe b c = Ok tt -> b = true.
Proof. by destruct b. Qed.

Lemma requireSafe_true b c : b = true -> requireSafe b c = Ok tt.
Proof. by intros ->. Qed.

Lemma staged_code stage e : code_or (staged stage e) UNEXPECTED = code_or e UNEXPECTED.
Proof. by destruct e. Qed.

#[export] Hint Rewrite reason_of_string_name stage_of_string_name : js.

Section wp.
Context {E : Type -> Type} {G S : Type}.
Context {pre : forall X, G -> E X -> Prop} {asm : forall X, G -> E X -> X -> Prop}.
Context {upd : forall X, G -> E X -> X -> G}.

Lemma wpm_requireSafe b c (s : S) g (Q : G -> S -> res exn unit -> Prop) :
  (b = true -> Q g s (Ok tt)) -> (b = false -> Q g s (Err (harness c))) ->
  wpm pre asm upd (requireSafeM b c) s g Q.
Proof. intros H1 H2. apply wpm_of_res. destruct b; simpl; auto. Qed.
End wp.

(** A symbolic step, guards included. *)
Ltac hstep :=
  first [ lazymatch goal with
          | |- wpm _ _ _ (requireSafeM _ _) _ _ _ => apply wpm_requireSafe; intros ?
          | |- wpm _ _ _ (atStage _ _) _ _ _ => unfold atStage
          end
        | wpm_step ]; cbn beta iota.
