(* ===== verification/Lease.v ===== *)
(** * The lab lease (regression/core/lease.ts)

    One pre-provisioned Kubernetes Lease serialises every live regression run against an
    appliance. [LabLease] is the client object: its fields, and one method per exported or
    private method of the class. Store and file operations are the effect signature
    [leaseE]; each reply carries the clock at which the method resumes ([Date.now()] is read
    between two awaits, where no time passes). *)

From S2P Require Import Prelude Js Number Regex Dates Prog Errors.

Local Open Scope string_scope.
Local Open Scope js_scope.
Local Open Scope Z_scope.

(** ** Data *)
Record LeaseMetadata : Type := {
  md_name : string;
  md_namespace : string;
  md_uid : option string;
  md_resourceVersion : string;
  md_labels : gmap string string;
  md_annotations : option (gmap string string)
}.

Record LeaseSpec : Type := {
  sp_holderIdentity : option string;
  sp_renewTime : option string;
  sp_leaseDurationSeconds : option Z
}.

Record Lease : Type := {
  apiVersion : string;
  kind : string;
  metadata : LeaseMetadata;
  spec : LeaseSpec
}.

#[export] Instance LeaseSpec_eq_dec : EqDecision LeaseSpec.
Proof. solve_decision. Defined.
#[export] Instance LeaseMetadata_eq_dec : EqDecision LeaseMetadata.
Proof. solve_decision. Defined.
#[export] Instance Lease_eq_dec : EqDecision Lease.
Proof. solve_decision. Defined.

(** The private receipt of a reservation. *)
Inductive ReceiptState : Type := R_requested | R_released.
Record LeaseReceipt : Type := {
  rc_version : Z;
  rc_runId : string;
  rc_targetUid : string;
  rc_leaseUid : string;
  rc_owner : string;
  rc_state : ReceiptState
}.

(** The journal a receipt is written beside: its file name and run. *)
Record JournalRef : Type := { jr_filename : string; jr_runId : string }.

(** [path.dirname] and [path.join] of a normalised POSIX path and a plain file name. *)
Definition dirname (p : string) : string :=
  let d := drop_while (fun c => negb (Ascii.eqb c "/"%char)) (rev_str p "") in
  match d with
  | EmptyString => "."
  | String _ EmptyString => "/"
  | String _ r => rev_str r ""
  end.
Definition path_join (d name : string) : string :=
  if String.eqb d "/" then "/" +:+ name else d +:+ "/" +:+ name.

(** private-files.ts [journalFile]. *)
Definition journalFile (j : JournalRef) (name : string) : res exn string :=
  let plain c := is_lower c || is_digit c in
  let? _ := requireSafe (rtest (Cat (Cls plain)
                (upto 127 (Cls (fun c => plain c || Ascii.eqb c "."%char || Ascii.eqb c "-"%char)))) name
              && negb (includesStr ".." name)) PRIVATE_FILE in
  Ok (path_join (dirname (jr_filename j)) name).

(** The fields of a [LabLease], and the clock at the last resumption. *)
Record LabLease : Type := {
  owner : string;
  targetUid : string;
  durationSeconds : Z;
  ordinaryDurationSeconds : Z;
  offlineReserved : bool;
  held : bool;
  fenced : bool;
  lastHeartbeat : Z;
  receipt : option JournalRef;
  clock : Z
}.

(** The constructor: [durationSeconds] defaults to 60. *)
Definition new_LabLease (owner targetUid : string) (durationSeconds : option Z)
    (receipt : option JournalRef) : LabLease :=
  let d := durationSeconds ?? 60 in
  {| owner := owner; targetUid := targetUid; durationSeconds := d; ordinaryDurationSeconds := d;
     offlineReserved := false; held := false; fenced := false; lastHeartbeat := 0;
     receipt := receipt; clock := 0 |}.

Definition set_held (h f : bool) (s : LabLease) : LabLease :=
  {| owner := owner s; targetUid := targetUid s; durationSeconds := durationSeconds s;
     ordinaryDurationSeconds := ordinaryDurationSeconds s; offlineReserved := offlineReserved s;
     held := h; fenced := f; lastHeartbeat := lastHeartbeat s; receipt := receipt s; clock := clock s |}.
Definition set_clock (t : Z) (s : LabLease) : LabLease :=
  {| owner := owner s; targetUid := targetUid s; durationSeconds := durationSeconds s;
     ordinaryDurationSeconds := ordinaryDurationSeconds s; offlineReserved := offlineReserved s;
     held := held s; fenced := fenced s; lastHeartbeat := lastHeartbeat s; receipt := receipt s; clock := t |}.
Definition beat (s : LabLease) : LabLease :=
  {| owner := owner s; targetUid := targetUid s; durationSeconds := durationSeconds s;
     ordinaryDurationSeconds := ordinaryDurationSeconds s; offlineReserved := offlineReserved s;
     held := held s; fenced := fenced s; lastHeartbeat := clock s; receipt := receipt s; clock := clock s |}.
Definition set_duration (d : Z) (s : LabLease) : LabLease :=
  {| owner := owner s; targetUid := targetUid s; durationSeconds := d;
     ordinaryDurationSeconds := ordinaryDurationSeconds s; offlineReserved := offlineReserved s;
     held := held s; fenced := fenced s; lastHeartbeat := lastHeartbeat s; receipt := receipt s; clock := clock s |}.
Definition set_offline (b : bool) (s : LabLease) : LabLease :=
  {| owner := owner s; targetUid := targetUid s; durationSeconds := durationSeconds s;
     ordinaryDurationSeconds := ordinaryDurationSeconds s; offlineReserved := b;
     held := held s; fenced := fenced s; lastHeartbeat := lastHeartbeat s; receipt := receipt s; clock := clock s |}.

(** ** Effects *)
Inductive leaseE : Type -> Type :=
| Store_read : leaseE (Z * res exn Lease)
| Store_replace (l : Lease) : leaseE (Z * res exn Lease)
| Write_receipt (file : string) (value : LeaseReceipt) : leaseE (Z * res exn unit).

Definition LM := M leaseE LabLease exn.

Definition timed {A} (op : leaseE (Z * res exn A)) : LM A := fun s =>
  Await op (fun r => Done (set_clock r.1 s, r.2)).

(** ** Time *)
Section lease.
Context `{DateFallback}.
(** [process.env.REGRESSION_RUN_UID]. *)
Context (REGRESSION_RUN_UID : option string).

(** [Date.parse(lease.spec.renewTime ?? '')]; the empty string is no date. *)
Definition renewed (l : Lease) : option Z := sp_renewTime (spec l) ≫= Date_parse.

(** The holder, when there is one: [undefined] and [''] both mean free. *)
Definition holder (l : Lease) : option string :=
  match sp_holderIdentity (spec l) with
  | Some h => if truthy h then Some h else None
  | None => None
  end.

Definition leaseHolderReason (l : Lease) (now : Z) : option ReasonCode :=
  match holder l with
  | None => None
  | Some _ =>
      Some (match sp_leaseDurationSeconds (spec l), renewed l with
            | Some duration, Some r =>
                if (0 <? duration) && (r + duration * 1000 <=? now) then LOCK_STALE else LOCK_BUSY
            | _, _ => LOCK_BUSY
            end)
  end.

(** [toISOString().replace(/\.(\d{3})Z$/, '.$1000Z')] *)
Definition leaseTime (t : Z) : string :=
  let iso := toISOString t in
  let n := String.length iso in
  let last := drop_str (n - 5) iso in
  if rtest (Cat (chr ".") (Cat (rep 3 (Cls is_digit)) (chr "Z"))) last
  then take_str (n - 1) iso +:+ "000Z" else iso.

(** ** Private helpers *)
Definition is_run_id (s : string) : bool := rtest run_pattern s.

Definition record_ (state : ReceiptState) (lease : Lease) : LM unit :=
  let! s := get in
  match receipt s with
  | None => mret tt
  | Some j =>
      requireSafeM (bool_decide (is_Some (md_uid (metadata lease))) && is_run_id (owner s)) OWNERSHIP ;;
      let! file := of_res (journalFile j ("lease-" +:+ owner s +:+ ".json")) in
      timed (Write_receipt file
        {| rc_version := 1; rc_runId := jr_runId j; rc_targetUid := targetUid s;
           rc_leaseUid := md_uid (metadata lease) ?? ""; rc_owner := owner s; rc_state := state |})
  end.

Definition appliance_label : string := "regression.magicstick.dev/appliance-uid".
Definition a_recovering : string := "regression.magicstick.dev/recovering".
Definition a_original : string := "regression.magicstick.dev/recovery-original-owner".
Definition a_run_id : string := "regression.magicstick.dev/run-id".
Definition a_kubernetes : string := "regression.magicstick.dev/kubernetes-run-uid".

Definition valid_lease (target : string) (l : Lease) : bool :=
  bool_decide (kind l = "Lease") && bool_decide (apiVersion l = "coordination.k8s.io/v1") &&
  bool_decide (md_namespace (metadata l) = "magicstick-regression") &&
  bool_decide (md_name (metadata l) = "lab-lock") && truthy (md_resourceVersion (metadata l)) &&
  bool_decide (md_labels (metadata l) !! appliance_label = Some target).

Definition validate (l : Lease) : LM unit :=
  let! s := get in requireSafeM (valid_lease (targetUid s) l) IDENTITY.

Definition read : LM Lease := let! l := timed Store_read in validate l ;; mret l.

(** [{...lease, spec: {...lease.spec, ...}}] and the annotation updates. *)
Definition with_spec (l : Lease) (h : option string) (t : Z) (d : option Z) : Lease :=
  {| apiVersion := apiVersion l; kind := kind l; metadata := metadata l;
     spec := {| sp_holderIdentity := h; sp_renewTime := Some (leaseTime t);
                sp_leaseDurationSeconds := d |} |}.

Definition with_annotations (l : Lease) (f : gmap string string -> gmap string string) : Lease :=
  {| apiVersion := apiVersion l; kind := kind l;
     metadata := {| md_name := md_name (metadata l); md_namespace := md_namespace (metadata l);
                    md_uid := md_uid (metadata l); md_resourceVersion := md_resourceVersion (metadata l);
                    md_labels := md_labels (metadata l);
                    md_annotations := Some (f (md_annotations (metadata l) ?? ∅)) |};
     spec := spec l |}.

Definition lost {A} : LM A := modify (set_held false true) ;; throw (harness LOCK_LOST).

(** [a === b] between an optional property and a value. *)
Definition is_str (a : option string) (b : string) : bool := bool_decide (a = Some b).
Definition is_Z (a : option Z) (b : Z) : bool := bool_decide (a = Some b).

(** [now < Date.parse(renewTime) + d * 1000]; false on NaN. *)
Definition unexpired (l : Lease) (d now : Z) : bool :=
  match renewed l with Some r => now <? r + d * 1000 | None => false end.

(** ** Methods *)
Definition assertHeldInternal : LM unit :=
  try_catch (
    let! s := get in
    requireSafeM (held s && negb (fenced s) && (lastHeartbeat s <=? clock s) &&
                  (clock s - lastHeartbeat s <? durationSeconds s * 1000)) LOCK_LOST ;;
    let! lease := read in
    let! s := get in
    requireSafeM (is_str (sp_holderIdentity (spec lease)) (owner s) &&
                  is_Z (sp_leaseDurationSeconds (spec lease)) (durationSeconds s) &&
                  unexpired lease (durationSeconds s) (clock s)) LOCK_LOST)
  (fun _ => lost).

Definition acquired (s : LabLease) (lease : Lease) (recoveryRunId : option string) : Lease :=
  let changed := with_annotations
      (with_spec lease (Some (owner s)) (clock s) (Some (durationSeconds s)))
      (fun a => <[a_run_id := recoveryRunId ?? owner s]>
                  (<[a_original := ""]> (<[a_recovering := "false"]> a))) in
  match REGRESSION_RUN_UID with
  | Some uid =>
      if rtest (rep 36 (Cls hex_dash)) uid
      then with_annotations changed (fun a => <[a_kubernetes := uid]> a) else changed
  | None => changed
  end.

Definition acquireInternal (recoveryRunId : option string) : LM unit :=
  let! s := get in
  requireSafeM (negb (held s) && negb (fenced s)) LOCK_LOST ;;
  let! lease := read in
  let! s := get in
  match leaseHolderReason lease (clock s) with Some r => throw (harness r) | None => mret tt end ;;
  requireSafeM (match recoveryRunId with
                | Some r => negb (truthy r) || is_run_id r
                | None => true
                end) CONFIG ;;
  let changed := acquired s lease recoveryRunId in
  record_ R_requested lease ;;
  try_catch (let! _ := timed (Store_replace changed) in mret tt) (fun _ =>
    try_catch (
      let! current := read in
      when (bool_decide (md_uid (metadata current) = md_uid (metadata lease)) &&
            negb (is_str (sp_holderIdentity (spec current)) (owner s)))
           (record_ R_released current))
      (fun _ => mret tt) ;;
    throw (harness LOCK_BUSY)) ;;
  modify (fun s => beat (set_held true (fenced s) s)) ;;
  assertHeldInternal.

Definition drain : Z := 60000.

(** [now >= Date.parse(renewTime) + duration * 1000 + drain]. *)
Definition drained (l : Lease) (now : Z) : bool :=
  match renewed l, sp_leaseDurationSeconds (spec l) with
  | Some r, Some d => r + d * 1000 + drain <=? now
  | _, _ => false
  end.

(** A property assigned [undefined] is absent from the JSON body. *)
Definition set_opt (k : string) (v : option string) (m : gmap string string) : gmap string string :=
  match v with Some v => <[k := v]> m | None => delete k m end.

Definition recovering_lease (s : LabLease) (lease : Lease) (runId : string) : Lease :=
  let original :=
    match md_annotations (metadata lease) with
    | Some a => if is_str (a !! a_recovering) "true" then a !! a_original else sp_holderIdentity (spec lease)
    | None => sp_holderIdentity (spec lease)
    end in
  with_annotations (with_spec lease (Some (owner s)) (clock s) (Some (durationSeconds s)))
    (fun a => set_opt a_original original (<[a_recovering := "true"]> (<[a_run_id := runId]> a))).

Definition acquireRecoveryInternal (expected : Lease) (runId : string) : LM unit :=
  let! s := get in
  requireSafeM (negb (held s) && negb (fenced s) && is_run_id runId) RECOVERY ;;
  validate expected ;;
  let! lease := read in
  let! s := get in
  requireSafeM (match md_uid (metadata expected) with
                | Some uid => truthy uid && is_str (md_uid (metadata lease)) uid
                | None => false
                end &&
                bool_decide (md_resourceVersion (metadata lease) = md_resourceVersion (metadata expected)) &&
                bool_decide (spec lease = spec expected) &&
                bool_decide (leaseHolderReason lease (clock s) = Some LOCK_STALE) &&
                drained lease (clock s)) LOCK_STALE ;;
  try_catch (let! _ := timed (Store_replace (recovering_lease s lease runId)) in mret tt)
    (fun _ => throw (harness LOCK_BUSY)) ;;
  modify (fun s => beat (set_held true (fenced s) s)) ;;
  assertHeldInternal.

Definition heartbeatInternal : LM unit :=
  assertHeldInternal ;;
  try_catch (
    let! lease := read in
    let! s := get in
    requireSafeM (is_str (sp_holderIdentity (spec lease)) (owner s)) LOCK_LOST ;;
    let! _ := timed (Store_replace
        (with_spec lease (sp_holderIdentity (spec lease)) (clock s) (sp_leaseDurationSeconds (spec lease)))) in
    mret tt)
    (fun _ => lost) ;;
  modify beat.

Definition backgroundHeartbeat : LM unit :=
  let! s := get in
  if offlineReserved s then
    if negb (held s) || fenced s || (clock s <? lastHeartbeat s) ||
       (durationSeconds s * 1000 <=? clock s - lastHeartbeat s)
    then lost else mret tt
  else heartbeatInternal.

Definition resizeInternal (seconds : Z) : LM unit :=
  assertHeldInternal ;;
  try_catch (
    let! lease := read in
    let! s := get in
    requireSafeM (is_str (sp_holderIdentity (spec lease)) (owner s) &&
                  is_Z (sp_leaseDurationSeconds (spec lease)) (durationSeconds s) &&
                  unexpired lease (durationSeconds s) (clock s)) LOCK_LOST ;;
    let! _ := timed (Store_replace
        (with_spec lease (sp_holderIdentity (spec lease)) (clock s) (Some seconds))) in
    modify (fun s => beat (set_duration seconds s)))
    (fun _ => lost).

Definition reserveOfflineWindow (seconds : number) : LM unit :=
  let! s := get in
  match seconds with
  | Int n =>
      requireSafeM (negb (offlineReserved s) && (ordinaryDurationSeconds s <=? n) && (n <=? 2100)) CONFIG ;;
      resizeInternal n ;;
      modify (set_offline true)
  | _ => throw (harness CONFIG)
  end.

Definition finishOfflineWindow : LM unit :=
  let! s := get in
  requireSafeM (offlineReserved s) CONFIG ;;
  resizeInternal (ordinaryDurationSeconds s) ;;
  modify (set_offline false).

Definition releaseInternal : LM unit :=
  assertHeldInternal ;;
  try_catch (
    let! lease := read in
    let! s := get in
    requireSafeM (is_str (sp_holderIdentity (spec lease)) (owner s)) LOCK_LOST ;;
    let! _ := timed (Store_replace
        (with_spec lease (Some "") (clock s) (sp_leaseDurationSeconds (spec lease)))) in
    let! released := read in
    requireSafeM (bool_decide (md_uid (metadata released) = md_uid (metadata lease)) &&
                  bool_decide (holder released = None)) LOCK_LOST ;;
    record_ R_released released)
    (fun _ => lost) ;;
  modify (fun s => set_held false (fenced s) s).

(** The public methods, each run under [exclusive]. *)
Inductive command : Type :=
| Acquire (recoveryRunId : option string)
| AcquireRecovery (expected : Lease) (runId : string)
| AssertHeld
| Heartbeat
| BackgroundHeartbeat
| ReserveOfflineWindow (seconds : number)
| FinishOfflineWindow
| Release.

Definition perform (c : command) : LM unit :=
  match c with
  | Acquire r => acquireInternal r
  | AcquireRecovery e r => acquireRecoveryInternal e r
  | AssertHeld => assertHeldInternal
  | Heartbeat => heartbeatInternal
  | BackgroundHeartbeat => backgroundHeartbeat
  | ReserveOfflineWindow n => reserveOfflineWindow n
  | FinishOfflineWindow => finishOfflineWindow
  | Release => releaseInternal
  end.
End lease.
