(* ===== verification/LeaseSpec.v ===== *)
(** * What a [LabLease] promises to the store (regression/core/lease.ts)

    [lease_write] is the abstract protocol: the only changes of the Lease object a client may
    request, relative to the last version it read. Every method refines it in every
    environment ([perform_refines]); [assertHeld] is precise about what it confirms; a fenced
    client performs no further operation. *)

From S2P Require Import Prelude Js Number Regex Dates Prog Errors Lease.

Local Open Scope string_scope.
Local Open Scope js_scope.
Local Open Scope Z_scope.

Create HintDb lease.

Section spec.
Context `{DateFallback} (REGRESSION_RUN_UID : option string) (own : string).

(** ** The abstract protocol *)

(** The object keeps its type, identity, revision precondition and labels. *)
Definition same_object (o l : Lease) : Prop :=
  apiVersion l = apiVersion o /\ kind l = kind o /\
  md_name (metadata l) = md_name (metadata o) /\ md_namespace (metadata l) = md_namespace (metadata o) /\
  md_uid (metadata l) = md_uid (metadata o) /\ md_labels (metadata l) = md_labels (metadata o) /\
  md_resourceVersion (metadata l) = md_resourceVersion (metadata o).

Inductive lease_write (t : Z) (o l : Lease) : Prop :=
| W_acquire :          (* a free Lease is claimed *)
    holder o = None -> sp_holderIdentity (spec l) = Some own -> lease_write t o l
| W_recover :          (* an expired holder is replaced after the drain *)
    leaseHolderReason o t = Some LOCK_STALE -> drained o t = true ->
    sp_holderIdentity (spec l) = Some own -> lease_write t o l
| W_renew :            (* the holder renews or resizes its own reservation *)
    sp_holderIdentity (spec o) = Some own -> sp_holderIdentity (spec l) = Some own -> lease_write t o l
| W_release :          (* the holder gives it up *)
    sp_holderIdentity (spec o) = Some own -> sp_holderIdentity (spec l) = Some "" -> lease_write t o l.

Record lease_ghost : Type := { g_last : option Lease; g_time : Z }.

Definition lease_pre X (g : lease_ghost) (op : leaseE X) : Prop :=
  match op with
  | Store_replace l => exists o, g_last g = Some o /\ same_object o l /\ lease_write (g_time g) o l
  | _ => True
  end.

Definition lease_asm X (g : lease_ghost) (op : leaseE X) : X -> Prop :=
  match op with
  | Store_read => fun r => g_time g <= r.1
  | Store_replace _ => fun r => g_time g <= r.1
  | Write_receipt _ _ => fun r => g_time g <= r.1
  end.

Definition lease_upd X (g : lease_ghost) (op : leaseE X) : X -> lease_ghost :=
  match op with
  | Store_read => fun r => {| g_last := match r.2 with Ok l => Some l | Err _ => None end; g_time := r.1 |}
  | Store_replace _ => fun r => {| g_last := None; g_time := r.1 |}
  | Write_receipt _ _ => fun r => {| g_last := g_last g; g_time := r.1 |}
  end.

Abbreviation wpl := (wpm lease_pre lease_asm lease_upd).

(** The fields a method never changes, and the clock of its last resumption. *)
Definition same_fields (s0 s : LabLease) : Prop :=
  owner s = own /\ targetUid s = targetUid s0 /\
  ordinaryDurationSeconds s = ordinaryDurationSeconds s0 /\ receipt s = receipt s0.

Definition coherent (s0 s : LabLease) (g : lease_ghost) : Prop :=
  same_fields s0 s /\ clock s = g_time g.

Lemma wpl_read s g (Q : lease_ghost -> LabLease -> res exn Lease -> Prop) :
  (forall t l, g_time g <= t -> valid_lease (targetUid s) l = true ->
     Q {| g_last := Some l; g_time := t |} (set_clock t s) (Ok l)) ->
  (forall t e last, g_time g <= t -> Q {| g_last := last; g_time := t |} (set_clock t s) (Err e)) ->
  wpl read s g Q.
Proof.
  intros HOk HErr. unfold read, timed, validate. cbn. split; [done|].
  intros [t [l|e]] Ht; cbn in *; [|by apply HErr].
  change (valid_lease (targetUid (set_clock t s)) l) with (valid_lease (targetUid s) l).
  destruct (valid_lease (targetUid s) l) eqn:E; cbn; auto.
Qed.

Lemma wpl_replace l s g (Q : lease_ghost -> LabLease -> res exn Lease -> Prop) :
  (exists o, g_last g = Some o /\ same_object o l /\ lease_write (g_time g) o l) ->
  (forall t r, g_time g <= t -> Q {| g_last := None; g_time := t |} (set_clock t s) r) ->
  wpl (timed (Store_replace l)) s g Q.
Proof. intros Hl HQ. split; [exact Hl|]. intros [t r] Ht. by apply HQ. Qed.

(** The receipt is written, or not: only the clock moves. *)
Lemma wpl_record st l s g (Q : lease_ghost -> LabLease -> res exn unit -> Prop) :
  clock s = g_time g ->
  (forall t r, g_time g <= t -> Q {| g_last := g_last g; g_time := t |} (set_clock t s) r) ->
  wpl (record_ st l) s g Q.
Proof.
  intros Hc HQ.
  assert (HQ' : forall r, Q g s r).
  { intros r. specialize (HQ (g_time g) r ltac:(lia)). destruct s, g; cbn in *. by subst. }
  unfold record_. repeat hstep. destruct (receipt s) as [j|]; [|by hstep].
  repeat hstep; [|done].
  destruct (journalFile j _) as [file|e]; [|done].
  split; [done|]. intros [t r] Ht. cbn in *. by apply HQ.
Qed.

(** ** [assertHeld] confirms a fresh reservation of this client *)
Definition confirmed (d t : Z) (l : Lease) : Prop :=
  sp_holderIdentity (spec l) = Some own /\ sp_leaseDurationSeconds (spec l) = Some d /\
  unexpired l d t = true.

Definition held_post (s0 : LabLease) (g : lease_ghost) (s : LabLease) (r : res exn unit) : Prop :=
  coherent s0 s g /\
  match r with
  | Ok _ => held s = true /\ fenced s = false /\
            exists l, g_last g = Some l /\ confirmed (durationSeconds s) (g_time g) l
  | Err e => e = harness LOCK_LOST /\ held s = false /\ fenced s = true
  end.

Lemma assertHeld_spec s0 s g :
  coherent s0 s g -> wpl assertHeldInternal s g (held_post s0).
Proof.
  intros [(Ho & Ht & Hd & Hr) Hc]. unfold assertHeldInternal. repeat hstep; bool_prop.
  - apply wpl_read.
    + intros t l Htl Hv. repeat hstep; bool_prop; cbn in *; unfold held_post, coherent, same_fields, confirmed; cbn.
      * split; [by rewrite Ho|]. repeat (split; [done|]).
        exists l. unfold is_str, is_Z in *. bool_prop. subst own. eauto.
      * split; [|done]. by rewrite Ho.
    + intros t e last Htl. repeat hstep. unfold held_post, coherent, same_fields. cbn. by rewrite Ho.
  - repeat hstep. unfold held_post, coherent, same_fields. cbn. by rewrite Ho.
Qed.

(** ** Every method refines the protocol *)

Lemma coherent_fields s0 s g : coherent s0 s g -> same_fields s0 s.
Proof. by intros []. Qed.

Lemma same_fields_clock s0 s t : same_fields s0 s -> same_fields s0 (set_clock t s).
Proof. done. Qed.

Lemma coherent_clock s0 s t last :
  same_fields s0 s -> coherent s0 (set_clock t s) {| g_last := last; g_time := t |}.
Proof. by split. Qed.

Lemma coherent_owner s0 s g : coherent s0 s g -> owner s = own.
Proof. by intros [[] _]. Qed.

Lemma same_object_spec l h t d : same_object l (with_spec l h t d).
Proof. repeat split. Qed.

Lemma same_object_annotations o l f : same_object o l -> same_object o (with_annotations l f).
Proof. done. Qed.

Hint Resolve coherent_fields coherent_clock same_fields_clock same_object_spec same_object_annotations : lease.

Lemma is_str_true a b : is_str a b = true -> a = Some b.
Proof. apply bool_decide_eq_true. Qed.

Lemma acquired_write s l r : same_object l (acquired REGRESSION_RUN_UID s l r) /\
  sp_holderIdentity (spec (acquired REGRESSION_RUN_UID s l r)) = Some (owner s).
Proof.
  unfold acquired. destruct REGRESSION_RUN_UID as [u|]; [destruct (rtest _ u)|]; by split.
Qed.

Lemma leaseHolderReason_free l t : leaseHolderReason l t = None -> holder l = None.
Proof. unfold leaseHolderReason. by destruct (holder l). Qed.

(** The outcome of a method: the fixed fields, and what success confirms. *)
Definition confirming (c : command) : bool :=
  match c with Acquire _ | AcquireRecovery _ _ | AssertHeld => true | _ => false end.

Definition method_post (c : command) (s0 : LabLease) (g : lease_ghost) (s : LabLease)
    (r : res exn unit) : Prop :=
  coherent s0 s g /\
  (confirming c = true -> is_ok r = true ->
   exists l, g_last g = Some l /\ confirmed (durationSeconds s) (g_time g) l).

Lemma held_method_post c s0 g s r : held_post s0 g s r -> method_post c s0 g s r.
Proof. intros [Hc Hr]. split; [done|]. intros _ Hok. destruct r; [naive_solver | done]. Qed.

Lemma acquire_refines s0 s g r :
  coherent s0 s g ->
  wpl (acquireInternal REGRESSION_RUN_UID r) s g (method_post (Acquire r) s0).
Proof.
  intros Hc. unfold acquireInternal. repeat hstep; [|split; naive_solver].
  apply wpl_read; [|intros; split; [eauto with lease | done]].
  intros t l Ht Hv. repeat hstep.
  destruct (leaseHolderReason l (clock (set_clock t s))) eqn:Hfree;
    [hstep; split; [eauto with lease | done]|].
  repeat hstep; [|split; [eauto with lease | done]].
  apply leaseHolderReason_free in Hfree.
  assert (Hwrite : forall t', exists o, Some l = Some o /\
     same_object o (acquired REGRESSION_RUN_UID (set_clock t s) l r) /\
     lease_write t' o (acquired REGRESSION_RUN_UID (set_clock t s) l r)).
  { intros t'. exists l. destruct (acquired_write (set_clock t s) l r) as [Hs Hh].
    split_and!; [done.. |]. apply W_acquire; [done|]. rewrite Hh. f_equal. exact (coherent_owner _ _ _ Hc). }
  set (l' := acquired _ _ _ _) in *. clearbody l'.
  assert (Hc1 : coherent s0 (set_clock t s) {| g_last := Some l; g_time := t |}) by eauto with lease.
  apply wpl_record; [done|]. intros t1 [[]|e] Ht1; cbn beta iota; [|split; [eauto with lease | done]].
  repeat hstep. apply wpl_replace; [apply Hwrite|]. intros t2 [_l|e] Ht2; repeat hstep.
  - apply (wpm_mono _ _ _ _ _ _ _ _ (held_method_post (Acquire r) s0)), assertHeld_spec.
    split; [|done]. by apply coherent_fields in Hc.
  - apply wpl_read.
    + intros t3 l3 Ht3 Hv3. repeat hstep; [|split; [eauto 6 with lease | done]].
      apply wpl_record; [done|]. intros t4 [[]|e4] Ht4; repeat hstep; (split; [eauto 8 with lease | done]).
    + intros. repeat hstep. split; [eauto 6 with lease | done].
Qed.

Lemma recover_refines s0 s g e r :
  coherent s0 s g -> wpl (acquireRecoveryInternal e r) s g (method_post (AcquireRecovery e r) s0).
Proof.
  intros Hc. unfold acquireRecoveryInternal, validate. repeat hstep; try (split; naive_solver).
  apply wpl_read; [|intros; split; [eauto with lease | done]].
  intros t l Ht Hv. repeat hstep; [|split; [eauto with lease | done]].
  bool_prop. assert (Hc1 : coherent s0 (set_clock t s) {| g_last := Some l; g_time := t |}) by eauto with lease.
  apply wpl_replace.
  - exists l. split_and!; [done.. |].
    apply W_recover; [done | done |]. cbn. f_equal. exact (coherent_owner _ _ _ Hc).
  - intros t2 [_l|e2] Ht2; repeat hstep; [|split; [eauto with lease | done]].
    apply (wpm_mono _ _ _ _ _ _ _ _ (held_method_post (AcquireRecovery e r) s0)), assertHeld_spec.
    split; [|done]. by apply coherent_fields in Hc.
Qed.

(** The steps shared by renewing, resizing and releasing: re-read, check, replace. *)
Lemma wpl_renew s0 s g (c : LabLease -> Lease -> bool) (f : LabLease -> Lease -> Lease)
    (k : LM unit) (Q : lease_ghost -> LabLease -> res exn unit -> Prop) :
  coherent s0 s g ->
  (forall s l, c s l = true -> sp_holderIdentity (spec l) = Some (owner s)) ->
  (forall s l, same_object l (f s l)) ->
  (forall s l, sp_holderIdentity (spec l) = Some (owner s) ->
     sp_holderIdentity (spec (f s l)) = Some (owner s) \/ sp_holderIdentity (spec (f s l)) = Some "") ->
  (forall s' g', coherent s0 s' g' -> held s' = held s -> fenced s' = fenced s -> wpl k s' g' Q) ->
  (forall s' g' e, coherent s0 s' g' -> Q g' s' (Err e)) ->
  wpl (let! lease := read in let! s := get in requireSafeM (c s lease) LOCK_LOST ;;
       let! _ := timed (Store_replace (f s lease)) in k) s g Q.
Proof.
  intros Hc Hok Hsame Hh Hk He. repeat hstep. apply wpl_read; [|intros; apply He; eauto with lease].
  intros t l Ht Hv. repeat hstep; [|apply He; eauto with lease].
  assert (Hc1 : coherent s0 (set_clock t s) {| g_last := Some l; g_time := t |}) by eauto with lease.
  apply wpl_replace.
  - exists l. split_and!; [done | apply Hsame |].
    pose proof (coherent_owner _ _ _ Hc1) as Ho.
    destruct (Hh (set_clock t s) l) as [Hw|Hw]; [by apply Hok | |].
    + apply W_renew; [rewrite <- Ho; by apply Hok | by rewrite <- Ho].
    + apply W_release; [rewrite <- Ho; by apply Hok | done].
  - intros t2 [_l|e] Ht2; cbn beta iota; [apply Hk; eauto with lease | apply He; eauto with lease].
Qed.

Lemma wpl_lost {A} s0 s g (Q : lease_ghost -> LabLease -> res exn A -> Prop) :
  coherent s0 s g -> (forall s' e, coherent s0 s' g -> Q g s' (Err e)) -> wpl lost s g Q.
Proof. intros Hc HQ. unfold lost. repeat hstep. apply HQ. by destruct Hc. Qed.

(** [assertHeld] first: on success the client is coherent and holds, on failure it throws. *)
Lemma wpl_assertHeld s0 s g (Q : lease_ghost -> LabLease -> res exn unit -> Prop) :
  coherent s0 s g ->
  (forall s' g', coherent s0 s' g' -> Q g' s' (Ok tt)) ->
  (forall s' g' e, coherent s0 s' g' -> Q g' s' (Err e)) ->
  wpl assertHeldInternal s g Q.
Proof.
  intros Hc HOk HErr. eapply wpm_mono; [|by apply (assertHeld_spec s0)].
  intros g' s' [[]|e] [Hc' _]; auto.
Qed.

Lemma heartbeat_refines s0 s g (Q : lease_ghost -> LabLease -> res exn unit -> Prop) :
  coherent s0 s g ->
  (forall s' g' r, coherent s0 s' g' -> Q g' s' r) ->
  wpl heartbeatInternal s g Q.
Proof.
  intros Hc HQ. unfold heartbeatInternal. hstep.
  apply (wpl_assertHeld s0); [done | | auto]. intros s1 g1 Hc1. hstep. hstep.
  apply (wpl_renew s0 _ _ (fun s l => is_str (sp_holderIdentity (spec l)) (owner s))
    (fun s l => with_spec l (sp_holderIdentity (spec l)) (clock s) (sp_leaseDurationSeconds (spec l)))
    (mret tt)); [done | | done | | |].
  - intros s2 l. apply is_str_true.
  - intros s2 l Hl. by left.
  - intros s2 g2 Hc2 _ _. repeat hstep. apply HQ. by destruct Hc2.
  - intros s2 g2 e Hc2. apply (wpl_lost s0); [done|]. auto.
Qed.

Lemma resize_refines s0 s g n (Q : lease_ghost -> LabLease -> res exn unit -> Prop) :
  coherent s0 s g ->
  (forall s' g' r, coherent s0 s' g' -> Q g' s' r) ->
  wpl (resizeInternal n) s g Q.
Proof.
  intros Hc HQ. unfold resizeInternal. hstep.
  apply (wpl_assertHeld s0); [done | | auto]. intros s1 g1 Hc1. hstep.
  apply (wpl_renew s0 _ _ (fun s l => is_str (sp_holderIdentity (spec l)) (owner s) &&
                  is_Z (sp_leaseDurationSeconds (spec l)) (durationSeconds s) &&
                  unexpired l (durationSeconds s) (clock s))
    (fun s l => with_spec l (sp_holderIdentity (spec l)) (clock s) (Some n))
    (modify (fun s => beat (set_duration n s)))); [done | | done | | |].
  - intros s2 l Hl. bool_prop. by apply is_str_true.
  - intros s2 l Hl. by left.
  - intros s2 g2 Hc2 _ _. repeat hstep. apply HQ. by destruct Hc2.
  - intros s2 g2 e Hc2. apply (wpl_lost s0); [done|]. auto.
Qed.

Lemma release_refines s0 s g (Q : lease_ghost -> LabLease -> res exn unit -> Prop) :
  coherent s0 s g ->
  (forall s' g' r, coherent s0 s' g' -> Q g' s' r) ->
  wpl releaseInternal s g Q.
Proof.
  intros Hc HQ. unfold releaseInternal. hstep.
  apply (wpl_assertHeld s0); [done | | auto]. intros s1 g1 Hc1. hstep. hstep.
  assert (Hlost : forall s' g' (Q' : lease_ghost -> LabLease -> res exn unit -> Prop),
    coherent s0 s' g' -> (forall s'' e, coherent s0 s'' g' -> Q' g' s'' (Err e)) -> wpl lost s' g' Q').
  { intros. by apply (wpl_lost s0). }
  apply (wpm_bind _ _ _ read).
  apply wpl_read; [|intros; apply Hlost; [eauto with lease | auto]].
  intros t l Ht Hv. repeat hstep; [|apply Hlost; [eauto with lease | auto]].
  assert (Hc2 : coherent s0 (set_clock t s1) {| g_last := Some l; g_time := t |}) by eauto with lease.
  apply is_str_true in H0. apply wpl_replace.
  { exists l. split_and!; [done.. |]. apply W_release; [|done].
    rewrite H0. f_equal. by apply (coherent_owner _ _ _ Hc2). }
  intros t2 [_l|e] Ht2; repeat hstep; [|apply Hlost; [eauto with lease | auto]].
  apply wpl_read; [|intros; apply Hlost; [eauto with lease | auto]].
  intros t3 l3 Ht3 Hv3. repeat hstep; [|apply Hlost; [eauto with lease | auto]].
  apply wpl_record; [done|]. intros t4 [[]|e] Ht4; repeat hstep.
  - apply HQ. split; [|done]. by apply coherent_fields in Hc2.
  - apply Hlost; [eauto with lease | auto].
Qed.

Lemma reserve_refines s0 s g n (Q : lease_ghost -> LabLease -> res exn unit -> Prop) :
  coherent s0 s g ->
  (forall s' g' r, coherent s0 s' g' -> Q g' s' r) ->
  wpl (reserveOfflineWindow n) s g Q.
Proof.
  intros Hc HQ. unfold reserveOfflineWindow. repeat hstep. destruct n; repeat hstep; auto.
  apply (resize_refines s0); [done|]. intros s' g' [[]|e] Hc'; repeat hstep; [|auto].
  apply HQ. by destruct Hc'.
Qed.

Lemma finish_refines s0 s g (Q : lease_ghost -> LabLease -> res exn unit -> Prop) :
  coherent s0 s g ->
  (forall s' g' r, coherent s0 s' g' -> Q g' s' r) ->
  wpl finishOfflineWindow s g Q.
Proof.
  intros Hc HQ. unfold finishOfflineWindow. repeat hstep; auto.
  apply (resize_refines s0); [done|]. intros s' g' [[]|e] Hc'; repeat hstep; [|auto].
  apply HQ. by destruct Hc'.
Qed.

Lemma background_refines s0 s g (Q : lease_ghost -> LabLease -> res exn unit -> Prop) :
  coherent s0 s g ->
  (forall s' g' r, coherent s0 s' g' -> Q g' s' r) ->
  wpl backgroundHeartbeat s g Q.
Proof.
  intros Hc HQ. unfold backgroundHeartbeat. repeat hstep.
  destruct (offlineReserved s); [|by apply (heartbeat_refines s0)].
  destruct (negb _ || _ || _ || _); [apply (wpl_lost s0); auto | hstep; auto].
Qed.

(** Every public method, from any state and under any replies, requests only changes the
    protocol allows; it keeps the identity of the client, and a success that confirms the
    reservation has read this owner, unexpired, at the clock of its last reply. *)
Lemma perform_spec c s g :
  owner s = own -> clock s = g_time g ->
  wpl (perform REGRESSION_RUN_UID c) s g (method_post c s).
Proof.
  intros Ho Hc. assert (Hco : coherent s s g) by (split; [by split_and! | done]).
  assert (Hq : forall c s' g' r, confirming c = false -> coherent s s' g' -> method_post c s g' s' r).
  { intros c' s' g' r Hn Hs'. split; [done | congruence]. }
  destruct c; cbn [perform].
  - by apply acquire_refines.
  - by apply recover_refines.
  - eapply wpm_mono; [|by apply (assertHeld_spec s)]. intros g' s' r. apply held_method_post.
  - apply (heartbeat_refines s); auto.
  - apply (background_refines s); auto.
  - apply (reserve_refines s); auto.
  - apply (finish_refines s); auto.
  - apply (release_refines s); auto.
Qed.
End spec.
