(* ===== verification/LeaseSystem.v ===== *)
(** * Several runners on one Lease (regression/core/lease.ts)

    The clients of one Lease object, interleaved at every await. A client runs the commands of
    its queue one at a time ([exclusive]); a read is answered with the store at some instant,
    or fails; a replace is sent, may be answered arbitrarily (a lost reply is not a rejected
    write), and takes effect later or never, by compare-and-swap on [resourceVersion]. Time
    passes between any two steps.

    A client whose [acquire], [acquireRecovery] or [assertHeld] succeeded has the Lease for
    itself until its reservation has expired and the drain window has passed
    ([lease_exclusive]). *)

From S2P Require Import Prelude Js Number Regex Dates Prog Errors Lease LeaseSpec.

Local Open Scope Z_scope.

Abbreviation lprog := (prog leaseE (LabLease * res exn unit)).

(** What a client is doing: nothing; waiting to have its next operation served; or waiting for
    the reply, which resumes it at the clock of its delivery. *)
Inductive activity : Type :=
| Idle
| Issued (c : command) (p : lprog)
| Replying (c : command) (k : Z -> lprog).

Record client : Type := {
  cl_self : LabLease;
  cl_queue : list command;
  cl_act : activity;
  cl_seen : option Lease   (* the last version read, until a write of this client takes effect *)
}.

Record world : Type := {
  w_clock : Z;
  w_store : Lease;
  w_versions : list Lease;            (* every version the store has held *)
  w_inflight : list (nat * Lease);    (* replace requests sent and not yet taken effect *)
  w_clients : gmap nat client
}.

Inductive label : Type :=
| L_tick | L_call (i : nat) | L_serve (i : nat) | L_commit (i : nat)
| L_done (i : nat) (c : command) (r : res exn unit).

Definition with_version (v : string) (l : Lease) : Lease :=
  {| apiVersion := apiVersion l; kind := kind l; spec := spec l;
     metadata := {| md_name := md_name (metadata l); md_namespace := md_namespace (metadata l);
                    md_uid := md_uid (metadata l); md_resourceVersion := v;
                    md_labels := md_labels (metadata l); md_annotations := md_annotations (metadata l) |} |}.

Definition rv (l : Lease) : string := md_resourceVersion (metadata l).

Definition set_client (i : nat) (c : client) (w : world) : world :=
  {| w_clock := w_clock w; w_store := w_store w; w_versions := w_versions w;
     w_inflight := w_inflight w; w_clients := <[i := c]> (w_clients w) |}.

Definition set_act (a : activity) (c : client) : client :=
  {| cl_self := cl_self c; cl_queue := cl_queue c; cl_act := a; cl_seen := cl_seen c |}.
Definition set_seen (o : option Lease) (c : client) : client :=
  {| cl_self := cl_self c; cl_queue := cl_queue c; cl_act := cl_act c; cl_seen := o |}.
Definition finish (s : LabLease) (c : client) : client :=
  {| cl_self := s; cl_queue := cl_queue c; cl_act := Idle; cl_seen := cl_seen c |}.
Definition set_queue (q : list command) (c : client) : client :=
  {| cl_self := cl_self c; cl_queue := q; cl_act := cl_act c; cl_seen := cl_seen c |}.

(** A method that returns leaves its client idle; otherwise its next operation is issued. *)
Definition settle (cmd : command) (p : lprog) (c : client) : client :=
  match p with Done (s, _) => finish s c | _ => set_act (Issued cmd p) c end.
Definition settle_label (i : nat) (cmd : command) (p : lprog) : label :=
  match p with Done (_, r) => L_done i cmd r | _ => L_serve i end.

Section system.
Context `{DateFallback} (REGRESSION_RUN_UID : option string).

Inductive step : world -> label -> world -> Prop :=
| step_tick w t :
    w_clock w <= t ->
    step w L_tick {| w_clock := t; w_store := w_store w; w_versions := w_versions w;
                     w_inflight := w_inflight w; w_clients := w_clients w |}
| step_call w i c cmd :
    w_clients w !! i = Some c ->
    step w (L_call i) (set_client i (set_queue (cl_queue c ++ [cmd]) c) w)
| step_start w i c cmd q :
    w_clients w !! i = Some c -> cl_act c = Idle -> cl_queue c = cmd :: q ->
    let p := perform REGRESSION_RUN_UID cmd (set_clock (w_clock w) (cl_self c)) in
    step w (settle_label i cmd p) (set_client i (settle cmd p (set_queue q c)) w)
| step_read w i c cmd k :
    w_clients w !! i = Some c -> cl_act c = Issued cmd (Await Store_read k) ->
    step w (L_serve i)
      (set_client i (set_seen (Some (w_store w))
         (set_act (Replying cmd (fun t => k (t, Ok (w_store w)))) c)) w)
| step_read_fails w i c cmd k e :
    w_clients w !! i = Some c -> cl_act c = Issued cmd (Await Store_read k) ->
    step w (L_serve i) (set_client i (set_act (Replying cmd (fun t => k (t, Err e))) c) w)
| step_send w i c cmd l k r :
    w_clients w !! i = Some c -> cl_act c = Issued cmd (Await (Store_replace l) k) ->
    step w (L_serve i)
      (let w' := set_client i (set_act (Replying cmd (fun t => k (t, r))) c) w in
       {| w_clock := w_clock w'; w_store := w_store w'; w_versions := w_versions w';
          w_inflight := (i, l) :: w_inflight w'; w_clients := w_clients w' |})
| step_receipt w i c cmd file v k r :
    w_clients w !! i = Some c -> cl_act c = Issued cmd (Await (Write_receipt file v) k) ->
    step w (L_serve i) (set_client i (set_act (Replying cmd (fun t => k (t, r))) c) w)
| step_resume w i c cmd k :
    w_clients w !! i = Some c -> cl_act c = Replying cmd k ->
    step w (settle_label i cmd (k (w_clock w))) (set_client i (settle cmd (k (w_clock w)) c) w)
| step_commit w i l v pre post c :
    w_inflight w = pre ++ (i, l) :: post -> w_clients w !! i = Some c ->
    rv l = rv (w_store w) -> (forall o, o ∈ w_versions w -> rv o <> v) ->
    step w (L_commit i)
      {| w_clock := w_clock w; w_store := with_version v l;
         w_versions := with_version v l :: w_versions w; w_inflight := pre ++ post;
         w_clients := <[i := set_seen None c]> (w_clients w) |}.

Inductive run : world -> list label -> world -> Prop :=
| run_nil w : run w [] w
| run_cons w a w' tr w'' : step w a w' -> run w' tr w'' -> run w (a :: tr) w''.

(** At the start every client is idle and owners are distinct run identifiers. *)
Definition initial (w : world) : Prop :=
  w_versions w = [w_store w] /\ w_inflight w = [] /\
  (forall i c, w_clients w !! i = Some c ->
     cl_act c = Idle /\ cl_seen c = None /\ truthy (owner (cl_self c)) = true) /\
  (forall i j c d, w_clients w !! i = Some c -> w_clients w !! j = Some d ->
     owner (cl_self c) = owner (cl_self d) -> i = j).

(** No write of client [i] takes effect along a trace. *)
Definition no_commit (i : nat) (tr : list label) : bool :=
  forallb (fun a => match a with L_commit j => negb (j =? i)%nat | _ => true end) tr.

(** A step that completes a confirming command of [i] with success, none of its own writes
    having taken effect since its last read. *)
Definition confirms (w : world) (i : nat) (w' : world) : Prop :=
  exists c cmd, w_clients w !! i = Some c /\ cl_seen c <> None /\ confirming cmd = true /\
    step w (L_done i cmd (Ok tt)) w'.

(** ** The invariant *)
Definition known (w : world) (g : lease_ghost) : Prop :=
  g_time g <= w_clock w /\ (forall o, g_last g = Some o -> o ∈ w_versions w).

(** The last version read is also the one the client has seen, unless it has written since. *)
Definition agrees (g : lease_ghost) (c : client) : Prop :=
  g_last g = None \/ cl_seen c = None \/ cl_seen c = g_last g.

Definition wpc (c : client) (cmd : command) (p : lprog) (g : lease_ghost) : Prop :=
  wp (lease_pre (owner (cl_self c))) lease_asm lease_upd p g
    (fun g' o => exists s0, method_post (owner (cl_self c)) cmd s0 g' o.1 o.2).

Definition act_ok (w : world) (c : client) : Prop :=
  match cl_act c with
  | Idle => True
  | Issued cmd p => exists g, known w g /\ agrees g c /\ wpc c cmd p g
  | Replying cmd k => exists g, known w g /\ agrees g c /\
      forall t, g_time g <= t -> wpc c cmd (k t) {| g_last := g_last g; g_time := t |}
  end.

(** A version this client read as holder is still in place, or expired and drained, as long
    as none of its own writes took effect. *)
Definition seen_ok (w : world) (c : client) : Prop :=
  forall o, cl_seen c = Some o ->
    o ∈ w_versions w /\
    (sp_holderIdentity (spec o) = Some (owner (cl_self c)) -> w_store w = o \/ drained o (w_clock w) = true).

Definition flight_ok (w : world) (i : nat) (l : Lease) : Prop :=
  exists c o t, w_clients w !! i = Some c /\ o ∈ w_versions w /\ t <= w_clock w /\
    same_object o l /\ lease_write (owner (cl_self c)) t o l.

Record inv (w : world) : Prop := {
  inv_store : w_store w ∈ w_versions w;
  inv_unique : forall o1 o2, o1 ∈ w_versions w -> o2 ∈ w_versions w -> rv o1 = rv o2 -> o1 = o2;
  inv_owner : forall i c, w_clients w !! i = Some c -> truthy (owner (cl_self c)) = true;
  inv_distinct : forall i j c d, w_clients w !! i = Some c -> w_clients w !! j = Some d ->
    owner (cl_self c) = owner (cl_self d) -> i = j;
  inv_act : forall i c, w_clients w !! i = Some c -> act_ok w c;
  inv_seen : forall i c, w_clients w !! i = Some c -> seen_ok w c;
  inv_flight : forall i l, (i, l) ∈ w_inflight w -> flight_ok w i l
}.

Lemma drained_mono o t t' : t <= t' -> drained o t = true -> drained o t' = true.
Proof.
  unfold drained. destruct (renewed o); [|done]. destruct (sp_leaseDurationSeconds _); [|done].
  rewrite !Z.leb_le. lia.
Qed.

Lemma initial_inv w : initial w -> inv w.
Proof.
  intros (Hv & Hf & Hc & Hd). split; rewrite ?Hv, ?Hf; try done.
  - set_solver.
  - set_solver.
  - intros i c Hi. by apply Hc in Hi as (_ & _ & ?).
  - intros i c Hi. unfold act_ok. by apply Hc in Hi as (-> & _).
  - intros i c Hi o Ho. apply Hc in Hi as (_ & Hn & _). congruence.
  - set_solver.
Qed.

(** Replacing one client, its owner unchanged. *)
Lemma inv_set_client w i c c' :
  inv w -> w_clients w !! i = Some c -> owner (cl_self c') = owner (cl_self c) ->
  act_ok w c' -> seen_ok w c' -> inv (set_client i c' w).
Proof.
  intros [Hs Hu Ho Hd Ha Hn Hf] Hi Hown Hact Hseen.
  assert (Hlook : forall j d, w_clients (set_client i c' w) !! j = Some d ->
    exists d', w_clients w !! j = Some d' /\ owner (cl_self d) = owner (cl_self d') /\
      (d = c' /\ j = i \/ d = d')).
  { intros j d Hj. cbn in Hj. apply lookup_insert_Some in Hj as [[<- <-]|[Hne Hj]]; eauto 10. }
  split; [done | done | ..].
  - intros j d (d' & Hd' & -> & _)%Hlook. eauto.
  - intros j k d e (d' & Hd' & -> & _)%Hlook (e' & He' & -> & _)%Hlook. eauto.
  - intros j d (d' & Hd' & _ & [[-> ->]| ->])%Hlook; [done | by apply (Ha j)].
  - intros j d (d' & Hd' & _ & [[-> ->]| ->])%Hlook; [done | by apply (Hn j)].
  - intros j l Hl. destruct (Hf j l Hl) as (d & o & t & Hj & Hrest).
    destruct (decide (j = i)) as [->|Hne].
    + exists c', o, t. cbn. rewrite lookup_insert_eq. rewrite Hi in Hj. injection Hj as <-.
      by rewrite Hown.
    + exists d, o, t. cbn. by rewrite lookup_insert_ne.
Qed.

Lemma settle_owner cmd p c g :
  wpc c cmd p g -> owner (cl_self (settle cmd p c)) = owner (cl_self c).
Proof.
  destruct p as [[s r]|]; [|done]. intros (s0 & Hc & _). cbn in *. by destruct Hc as [[] _].
Qed.

Lemma settle_seen cmd p c : cl_seen (settle cmd p c) = cl_seen c.
Proof. by destruct p as [[]|]. Qed.

Lemma settle_act w cmd p c g :
  known w g -> agrees g c -> wpc c cmd p g -> act_ok w (settle cmd p c).
Proof. intros Hk Ha Hw. destruct p as [[s r]|X op k]; [done|]. by exists g. Qed.

Lemma seen_ok_same w c c' :
  cl_seen c' = cl_seen c -> owner (cl_self c') = owner (cl_self c) -> seen_ok w c -> seen_ok w c'.
Proof. unfold seen_ok. by intros -> ->. Qed.

Lemma inv_settle w i c c1 cmd p g :
  inv w -> w_clients w !! i = Some c -> cl_self c1 = cl_self c -> cl_seen c1 = cl_seen c ->
  known w g -> agrees g c1 -> wpc c1 cmd p g -> inv (set_client i (settle cmd p c1) w).
Proof.
  intros Hinv Hi Hself Hs Hk Ha Hw. apply (inv_set_client w i c); [done | done | | |].
  - erewrite settle_owner by done. by rewrite Hself.
  - by apply (settle_act w cmd p c1 g).
  - apply (seen_ok_same w c); [by rewrite settle_seen | | exact (inv_seen w Hinv i c Hi)].
    erewrite settle_owner by done. by rewrite Hself.
Qed.

(** Serving an operation: the weakest precondition moves past it. *)
Lemma wpc_await c cmd X (op : leaseE X) k g :
  wpc c cmd (Await op k) g ->
  lease_pre (owner (cl_self c)) X g op /\
  forall x, lease_asm X g op x -> wpc c cmd (k x) (lease_upd X g op x).
Proof. done. Qed.

Lemma inv_reply w i c cmd k g seen :
  inv w -> w_clients w !! i = Some c -> known w g ->
  (g_last g = None \/ seen = None \/ seen = g_last g) ->
  seen_ok w (set_seen seen c) ->
  (forall t, g_time g <= t -> wpc c cmd (k t) {| g_last := g_last g; g_time := t |}) ->
  inv (set_client i (set_seen seen (set_act (Replying cmd k) c)) w).
Proof.
  intros Hinv Hi Hk Ha Hs Hw. apply (inv_set_client w i c); [done | done | done | | done].
  exists g. split; [done|]. by split.
Qed.

Lemma inv_tick w t :
  inv w -> w_clock w <= t ->
  inv {| w_clock := t; w_store := w_store w; w_versions := w_versions w;
         w_inflight := w_inflight w; w_clients := w_clients w |}.
Proof.
  intros [Hs Hu Ho Hd Ha Hn Hf] Ht. split; try done.
  - intros i c Hi. specialize (Ha i c Hi). unfold act_ok, known in *. cbn.
    destruct (cl_act c); [done | |]; destruct Ha as (g & [Hg Hl] & Hrest); exists g;
      (split; [split; [lia | done] | done]).
  - intros i c Hi o Hso. destruct (Hn i c Hi o Hso) as [H1 H2]. split; [done|].
    intros Hh. destruct (H2 Hh) as [->|Hdr]; [by left | right; by eapply drained_mono].
  - intros i l Hl. destruct (Hf i l Hl) as (c & o & t' & ? & ? & ? & ?).
    exists c, o, t'. cbn. destruct_and!. split_and!; first [done | lia].
Qed.

Lemma initial_ghost w c : agrees {| g_last := None; g_time := w_clock w |} c.
Proof. by left. Qed.

Lemma inv_start w i c cmd q :
  inv w -> w_clients w !! i = Some c ->
  inv (set_client i (settle cmd (perform REGRESSION_RUN_UID cmd (set_clock (w_clock w) (cl_self c)))
         (set_queue q c)) w).
Proof.
  intros Hinv Hi. apply (inv_settle w i c _ cmd _ {| g_last := None; g_time := w_clock w |}); try done.
  - apply initial_ghost.
  - pose proof (perform_spec REGRESSION_RUN_UID (owner (cl_self c)) cmd
      (set_clock (w_clock w) (cl_self c)) {| g_last := None; g_time := w_clock w |} eq_refl eq_refl) as Hp.
    eapply wp_mono; [|exact Hp]. cbn. eauto.
Qed.

(** ** Writes that take effect *)

Lemma holder_some o h : truthy h = true -> sp_holderIdentity (spec o) = Some h -> holder o = Some h.
Proof. unfold holder. by intros Ht ->; rewrite Ht. Qed.

(** A request of another client takes effect on a held version only after the drain. *)
Lemma foreign_write o l own own' t t' :
  lease_write own' t o l -> t <= t' -> own <> own' -> truthy own = true ->
  sp_holderIdentity (spec o) = Some own -> drained o t' = true.
Proof.
  intros Hw Ht Hne Htr Ho. destruct Hw as [Hf _|_ Hd _|Hh _|Hh _].
  - rewrite (holder_some o own) in Hf; done.
  - by apply (drained_mono o t).
  - congruence.
  - congruence.
Qed.

Lemma inv_commit w i l v pre post c :
  inv w -> w_inflight w = pre ++ (i, l) :: post -> w_clients w !! i = Some c ->
  rv l = rv (w_store w) -> (forall o, o ∈ w_versions w -> rv o <> v) ->
  inv {| w_clock := w_clock w; w_store := with_version v l;
         w_versions := with_version v l :: w_versions w; w_inflight := pre ++ post;
         w_clients := <[i := set_seen None c]> (w_clients w) |}.
Proof.
  intros Hinv Hfl Hi Hrv Hfresh.
  pose proof Hinv as [Hs Hu Ho Hd Ha Hn Hf].
  assert (Hl : flight_ok w i l) by (apply Hf; rewrite Hfl; set_solver).
  destruct Hl as (c0 & o & t & Hi0 & Hov & Ht & Hsame & Hw).
  rewrite Hi in Hi0. injection Hi0 as <-.
  assert (o = w_store w) as ->.
  { apply Hu; [done | done |]. rewrite <- Hrv. symmetry. apply Hsame. }
  assert (Hlook : forall j d, <[i := set_seen None c]> (w_clients w) !! j = Some d ->
    exists d', w_clients w !! j = Some d' /\ cl_self d = cl_self d' /\ cl_act d = cl_act d' /\
      (cl_seen d = None \/ j <> i /\ d = d')).
  { intros j d Hj. apply lookup_insert_Some in Hj as [[<- <-]|[Hne Hj]]; [eauto 10 | eauto 10]. }
  split; cbn.
  - set_solver.
  - intros o1 o2 H1 H2 Heq. rewrite !elem_of_cons in H1, H2.
    destruct H1 as [->|H1], H2 as [->|H2]; [done | | | by apply Hu].
    + exfalso. apply (Hfresh o2 H2). by rewrite <- Heq.
    + exfalso. apply (Hfresh o1 H1). by rewrite Heq.
  - intros j d (d' & Hd' & -> & _)%Hlook. eauto.
  - intros j k d e (d' & Hd' & -> & _)%Hlook (e' & He' & -> & _)%Hlook. eauto.
  - intros j d (d' & Hd' & Hself & Hact & Hseen)%Hlook. specialize (Ha j d' Hd').
    unfold act_ok, known, wpc, agrees in *. rewrite Hact, Hself. cbn.
    destruct (cl_act d'); [done | |]; destruct Ha as (g & [Hg Hgl] & Hagr & Hrest); exists g;
      (split; [split; [done | set_solver] |]); (split; [|done]);
      (destruct Hseen as [->|[_ ->]]; [auto | done]).
  - intros j d (d' & Hd' & Hself & Hact & Hseen)%Hlook o Hso.
    destruct Hseen as [Hn0|[Hne ->]]; [congruence|].
    destruct (Hn j d' Hd' o Hso) as [H1 H2]. split; [set_solver|]. cbn.
    intros Hh. right. destruct (H2 Hh) as [<-|Hdr]; [|done].
    apply (foreign_write (w_store w) l (owner (cl_self d')) (owner (cl_self c)) t); try done; [|eauto].
    intros Heq. apply Hne. by apply (Hd j i d' c).
  - intros j l' Hl'. assert (Hin : (j, l') ∈ w_inflight w) by (rewrite Hfl; set_solver).
    destruct (Hf j l' Hin) as (d & o & t' & Hj & Hov' & Ht' & Hs' & Hw').
    destruct (decide (j = i)) as [->|Hne].
    + exists (set_seen None c), o, t'. cbn. rewrite lookup_insert_eq.
      rewrite Hi in Hj. injection Hj as <-. split_and!; try done. set_solver.
    + exists d, o, t'. cbn. rewrite lookup_insert_ne by done. split_and!; try done. set_solver.
Qed.

Lemma inv_send w i c cmd l k r g :
  inv w -> w_clients w !! i = Some c -> known w g -> agrees g c ->
  wpc c cmd (Await (Store_replace l) k) g ->
  inv (let w' := set_client i (set_act (Replying cmd (fun t => k (t, r))) c) w in
       {| w_clock := w_clock w'; w_store := w_store w'; w_versions := w_versions w';
          w_inflight := (i, l) :: w_inflight w'; w_clients := w_clients w' |}).
Proof.
  intros Hinv Hi [Hkt Hkl] Ha [(o & Hlast & Hsame & Hw) Hk]%wpc_await.
  assert (Hinv' : inv (set_client i (set_act (Replying cmd (fun t => k (t, r))) c) w)).
  { apply (inv_set_client w i c); [done | done | done | | exact (inv_seen w Hinv i c Hi)].
    exists {| g_last := None; g_time := g_time g |}. split; [done|]. split; [by left|].
    intros t Ht. by apply (Hk (t, r)). }
  destruct Hinv' as [Hs Hu Ho Hd Ha' Hn Hf]. split; try done. cbn.
  intros j l' [[= -> ->]|Hl']%elem_of_cons; [|by apply Hf].
  exists (set_act (Replying cmd (fun t => k (t, r))) c), o, (g_time g).
  cbn. rewrite lookup_insert_eq. split_and!; try done. by apply Hkl.
Qed.

Lemma step_inv w a w' : inv w -> step w a w' -> inv w'.
Proof.
  intros Hinv Hstep.
  destruct Hstep as [w t Ht|w i c cmd Hi|w i c cmd q Hi Hact Hq p|w i c cmd k Hi Hact
    |w i c cmd k e Hi Hact|w i c cmd l k r Hi Hact|w i c cmd file v k r Hi Hact|w i c cmd k Hi Hact
    |w i l v pre post c Hfl Hi Hrv Hfresh].
  - by apply inv_tick.
  - apply (inv_set_client w i c); [done | done | done | | exact (inv_seen w Hinv i c Hi)].
    apply (inv_act w Hinv i c Hi).
  - by apply inv_start.
  - pose proof (inv_act w Hinv i c Hi) as Hw. unfold act_ok in Hw. rewrite Hact in Hw.
    destruct Hw as (g & [Hkt Hkl] & Ha & [_ Hk]%wpc_await).
    apply (inv_reply w i c cmd _ {| g_last := Some (w_store w); g_time := g_time g |}); try done.
    + split; [done|]. cbn. intros o [= <-]. apply (inv_store w Hinv).
    + by right; right.
    + intros o [= <-]. split; [apply (inv_store w Hinv) | by left].
    + intros t Ht. by apply (Hk (t, Ok (w_store w))).
  - pose proof (inv_act w Hinv i c Hi) as Hw. unfold act_ok in Hw. rewrite Hact in Hw.
    destruct Hw as (g & [Hkt Hkl] & Ha & [_ Hk]%wpc_await).
    apply (inv_set_client w i c); [done | done | done | | exact (inv_seen w Hinv i c Hi)].
    exists {| g_last := None; g_time := g_time g |}. split; [done|]. split; [by left|].
    intros t Ht. by apply (Hk (t, Err e)).
  - pose proof (inv_act w Hinv i c Hi) as Hw. unfold act_ok in Hw. rewrite Hact in Hw.
    destruct Hw as (g & Hk & Ha & Hw). by apply (inv_send w i c cmd l k r g).
  - pose proof (inv_act w Hinv i c Hi) as Hw. unfold act_ok in Hw. rewrite Hact in Hw.
    destruct Hw as (g & Hk & Ha & [_ Hw]%wpc_await).
    apply (inv_set_client w i c); [done | done | done | | exact (inv_seen w Hinv i c Hi)].
    exists g. split; [done|]. split; [done|]. intros t Ht. by apply (Hw (t, r)).
  - pose proof (inv_act w Hinv i c Hi) as Hw. unfold act_ok in Hw. rewrite Hact in Hw.
    destruct Hw as (g & [Hkt Hkl] & Ha & Hw).
    apply (inv_settle w i c c cmd _ {| g_last := g_last g; g_time := w_clock w |}); try done.
    by apply Hw.
  - by apply (inv_commit w i l v pre post c).
Qed.

Lemma run_inv w tr w' : inv w -> run w tr w' -> inv w'.
Proof. intros Hinv Hrun. induction Hrun; [done|]. eauto using step_inv. Qed.

(** ** Exclusivity *)

Lemma step_clock w a w' : step w a w' -> w_clock w <= w_clock w'.
Proof. intros []; cbn; lia. Qed.

Lemma step_clients w a w' i c :
  inv w -> step w a w' -> w_clients w !! i = Some c ->
  exists c', w_clients w' !! i = Some c' /\ owner (cl_self c') = owner (cl_self c).
Proof.
  intros Hinv Hstep Hi.
  assert (Hset : forall j c' d, w_clients w !! j = Some d -> owner (cl_self c') = owner (cl_self d) ->
    exists c'', <[j := c']> (w_clients w) !! i = Some c'' /\ owner (cl_self c'') = owner (cl_self c)).
  { intros j c' d Hj Ho. destruct (decide (j = i)) as [->|Hne].
    - rewrite lookup_insert_eq. rewrite Hi in Hj. injection Hj as <-. eauto.
    - rewrite lookup_insert_ne by done. eauto. }
  destruct Hstep as [w t Ht|w j d cmd Hj|w j d cmd q Hj Hact Hq p|w j d cmd k Hj Hact
    |w j d cmd k e Hj Hact|w j d cmd l k r Hj Hact|w j d cmd file v k r Hj Hact|w j d cmd k Hj Hact
    |w j l v pre post d Hfl Hj Hrv Hfresh]; cbn; [by eauto | try (by eapply Hset; [exact Hj|]) ..].
  - apply (Hset j _ d Hj).
    pose proof (perform_spec REGRESSION_RUN_UID (owner (cl_self d)) cmd
      (set_clock (w_clock w) (cl_self d)) {| g_last := None; g_time := w_clock w |} eq_refl eq_refl) as Hp.
    apply (settle_owner cmd p (set_queue q d) {| g_last := None; g_time := w_clock w |}).
    eapply wp_mono; [|exact Hp]. cbn. eauto.
  - apply (Hset j _ d Hj).
    pose proof (inv_act w Hinv j d Hj) as Hw. unfold act_ok in Hw. rewrite Hact in Hw.
    destruct Hw as (g & [Hkt Hkl] & Ha & Hw).
    eapply settle_owner. by apply Hw.
Qed.

(** A held version stays in place until its holder writes or the drain has passed. *)
Lemma held_stable w tr w' i c :
  inv w -> run w tr w' -> no_commit i tr = true -> w_clients w !! i = Some c ->
  sp_holderIdentity (spec (w_store w)) = Some (owner (cl_self c)) ->
  w_store w' = w_store w \/ drained (w_store w) (w_clock w') = true.
Proof.
  intros Hinv Hrun Hnc Hi Hh.
  assert (Hgen : forall o, (w_store w = o \/ drained o (w_clock w) = true) ->
    sp_holderIdentity (spec o) = Some (owner (cl_self c)) ->
    w_store w' = o \/ drained o (w_clock w') = true); [|by apply Hgen; [left|]].
  intros o Ho Hho. clear Hh. revert c Hi Hho Ho. induction Hrun as [w|w a w1 tr w2 Hs Hr IH];
    intros c Hi Hho Ho; [done|].
  cbn in Hnc. apply andb_prop in Hnc as [Ha Hnc].
  destruct (step_clients w a w1 i c Hinv Hs Hi) as (c1 & Hi1 & Hown).
  apply (IH (step_inv _ _ _ Hinv Hs) Hnc c1 Hi1); [by rewrite Hown|].
  destruct Ho as [<-|Hd]; [|right; by eapply drained_mono; [apply (step_clock _ _ _ Hs)|]].
  destruct Hs; try (by left).
  right. cbn. destruct (inv_flight w Hinv i0 l) as (d & o & t & Hj & Hov & Ht & Hsame & Hw).
  { rewrite H0. set_solver. }
  assert (o = w_store w) as ->.
  { apply (inv_unique w Hinv); [done | apply (inv_store w Hinv) |]. rewrite <- H2. symmetry. apply Hsame. }
  apply (foreign_write (w_store w) l (owner (cl_self c)) (owner (cl_self d)) t); try done.
  - intros Heq. apply negb_true_iff, Nat.eqb_neq in Ha. apply Ha. symmetry.
    by apply (inv_distinct w Hinv i i0 c d).
  - by apply (inv_owner w Hinv i c).
Qed.

Lemma not_drained o own d t : confirmed own d t o -> drained o t = false.
Proof.
  intros (_ & Hd & Hu). unfold drained, unexpired, drain in *. destruct (renewed o); [|done].
  rewrite Hd. apply Z.ltb_lt in Hu. apply Z.leb_gt. lia.
Qed.

Lemma settle_label_done i cmd p i' cmd' r c :
  settle_label i cmd p = L_done i' cmd' r ->
  exists s, i' = i /\ cmd' = cmd /\ p = Done (s, r) /\ settle cmd p c = finish s c.
Proof. destruct p as [[s r']|]; [|done]. intros [= <- <- <-]. eauto. Qed.

(** A completed method satisfies its postcondition at the present clock. *)
Lemma done_post w i cmd r w' :
  inv w -> step w (L_done i cmd r) w' ->
  exists c c1 s g, w_clients w !! i = Some c /\ w' = set_client i (finish s c1) w /\
    cl_self c1 = cl_self c /\ cl_seen c1 = cl_seen c /\ agrees g c /\ g_time g = w_clock w /\
    wpc c cmd (Done (s, r)) g.
Proof.
  intros Hinv Hs. remember (L_done i cmd r) as a eqn:Ea.
  destruct Hs as [| |w j c cmd0 q Hj Hact Hq p| | | | |w j c cmd0 k Hj Hact|]; try discriminate Ea.
  - destruct (settle_label_done _ _ _ _ _ _ (set_queue q c) Ea) as (s & -> & -> & Hp & ->).
    exists c, (set_queue q c), s, {| g_last := None; g_time := w_clock w |}.
    split_and!; try done; [by left|]. rewrite <- Hp.
    eapply wp_mono; [|exact (perform_spec REGRESSION_RUN_UID (owner (cl_self c)) cmd0
      (set_clock (w_clock w) (cl_self c)) {| g_last := None; g_time := w_clock w |} eq_refl eq_refl)].
    cbn. eauto.
  - destruct (settle_label_done _ _ _ _ _ _ c Ea) as (s & -> & -> & Hp & ->).
    pose proof (inv_act w Hinv j c Hj) as Hw. unfold act_ok in Hw. rewrite Hact in Hw.
    destruct Hw as (g & [Hkt Hkl] & Ha & Hw).
    exists c, c, s, {| g_last := g_last g; g_time := w_clock w |}.
    split_and!; try done. rewrite <- Hp. by apply Hw.
Qed.

(** A confirmation finds the client's own unexpired reservation in the store. *)
Lemma confirms_holder w i w' :
  inv w -> confirms w i w' ->
  exists c d, w_clients w' !! i = Some c /\ w_store w' = w_store w /\ w_clock w' = w_clock w /\
    confirmed (owner (cl_self c)) d (w_clock w') (w_store w').
Proof.
  intros Hinv (c & cmd & Hi & Hseen & Hcf & Hs).
  destruct (done_post w i cmd _ w' Hinv Hs) as (c' & c1 & s & g & Hi' & -> & Hself & Hs1 & Ha & Ht & Hw).
  rewrite Hi in Hi'. injection Hi' as <-.
  destruct Hw as (s0 & [[Hown _] _] & Hok). cbn in Hown.
  destruct (Hok Hcf eq_refl) as (l & Hl & Hconf). rewrite Ht in Hconf.
  exists (finish s c1), (durationSeconds s). cbn. rewrite lookup_insert_eq, Hown.
  split_and!; try done.
  assert (Hsl : cl_seen c = Some l) by (destruct Ha as [Hx|[Hx|Hx]]; congruence).
  destruct (inv_seen w Hinv i c Hi l Hsl) as [_ Hor].
  destruct Hor as [->|Hdr]; [apply Hconf | done |].
  pose proof (not_drained _ _ _ _ Hconf). congruence.
Qed.

Lemma run_clients w tr w' i c :
  inv w -> run w tr w' -> w_clients w !! i = Some c ->
  exists c', w_clients w' !! i = Some c' /\ owner (cl_self c') = owner (cl_self c).
Proof.
  intros Hinv Hr. revert c. induction Hr as [w|w a w1 tr w2 Hs Hr IH]; intros c Hi; [eauto|].
  destruct (step_clients _ _ _ _ _ Hinv Hs Hi) as (c1 & Hi1 & Ho1).
  destruct (IH (step_inv _ _ _ Hinv Hs) c1 Hi1) as (c2 & ? & ?). exists c2. split; [done | congruence].
Qed.

Lemma confirms_step w i w' : confirms w i w' -> exists a, step w a w'.
Proof. intros (? & ? & _ & _ & _ & Hs). eauto. Qed.

Lemma exclusive w1 i w2 tr w3 j w4 :
  inv w1 -> confirms w1 i w2 -> run w2 tr w3 -> no_commit i tr = true -> confirms w3 j w4 -> i <> j ->
  drained (w_store w2) (w_clock w4) = true.
Proof.
  intros Hinv Hci Hrun Hnc Hcj Hne.
  destruct (confirms_holder w1 i w2 Hinv Hci) as (c & d & Hi & _ & _ & Hh & _).
  destruct (confirms_step _ _ _ Hci) as [a1 Hs1]. destruct (confirms_step _ _ _ Hcj) as [a3 Hs3].
  assert (Hinv2 : inv w2) by by eapply step_inv.
  assert (Hinv3 : inv w3) by by eapply run_inv.
  destruct (confirms_holder w3 j w4 Hinv3 Hcj) as (cj & dj & Hj & Hst & Hck & Hhj & _).
  rewrite Hck. destruct (held_stable w2 tr w3 i c Hinv2 Hrun Hnc Hi Hh) as [Heq|Hd]; [|done].
  exfalso. apply Hne.
  destruct (run_clients w2 tr w3 i c Hinv2 Hrun Hi) as (c3 & Hi3 & Ho3).
  destruct (step_clients w3 a3 w4 i c3 Hinv3 Hs3 Hi3) as (c4 & Hi4 & Ho4).
  apply (inv_distinct w4 (step_inv _ _ _ Hinv3 Hs3) i j c4 cj Hi4 Hj).
  rewrite Hst, Heq, Hh in Hhj. injection Hhj as Hhj. congruence.
Qed.

(** ** An executable scheduler *)
Inductive action : Type :=
| A_tick (t : Z) | A_call (i : nat) (c : command) | A_start (i : nat) | A_read (i : nat)
| A_read_fails (i : nat) (e : exn) | A_send (i : nat) (r : res exn Lease)
| A_receipt (i : nat) (r : res exn unit) | A_resume (i : nat) | A_commit (i : nat) (v : string).

(** What serving a pending operation does: the world and the activity of the client. *)
Definition serve_op (a : action) (i : nat) (c : client) (cmd : command) (w : world) {X : Type} (op : leaseE X) :
    (X -> lprog) -> option world :=
  match op with
  | Store_read => fun k =>
      match a with
      | A_read _ => Some (set_client i (set_seen (Some (w_store w))
          (set_act (Replying cmd (fun t => k (t, Ok (w_store w)))) c)) w)
      | A_read_fails _ e => Some (set_client i (set_act (Replying cmd (fun t => k (t, Err e))) c) w)
      | _ => None
      end
  | Store_replace l => fun k =>
      match a with
      | A_send _ r =>
          Some (let w' := set_client i (set_act (Replying cmd (fun t => k (t, r))) c) w in
            {| w_clock := w_clock w'; w_store := w_store w'; w_versions := w_versions w';
               w_inflight := (i, l) :: w_inflight w'; w_clients := w_clients w' |})
      | _ => None
      end
  | Write_receipt _ _ => fun k =>
      match a with
      | A_receipt _ r => Some (set_client i (set_act (Replying cmd (fun t => k (t, r))) c) w)
      | _ => None
      end
  end.

(** The first request of client [i] in flight, and the others. *)
Fixpoint take_request (i : nat) (l : list (nat * Lease)) : option (Lease * list (nat * Lease)) :=
  match l with
  | [] => None
  | (j, x) :: l' => if (j =? i)%nat then Some (x, l')
                    else (fun p => (p.1, (j, x) :: p.2)) <$> take_request i l'
  end.

Definition client_of (a : action) : nat :=
  match a with
  | A_tick _ => 0
  | A_call i _ | A_start i | A_read i | A_read_fails i _ | A_send i _ | A_receipt i _
  | A_resume i | A_commit i _ => i
  end.

Definition next (w : world) (a : action) : option (label * world) :=
  let i := client_of a in
  match a, w_clients w !! i with
  | A_tick t, _ =>
      if w_clock w <=? t then
        Some (L_tick, {| w_clock := t; w_store := w_store w; w_versions := w_versions w;
                         w_inflight := w_inflight w; w_clients := w_clients w |})
      else None
  | A_call _ cmd, Some c => Some (L_call i, set_client i (set_queue (cl_queue c ++ [cmd]) c) w)
  | A_start _, Some c =>
      match cl_act c, cl_queue c with
      | Idle, cmd :: q =>
          let p := perform REGRESSION_RUN_UID cmd (set_clock (w_clock w) (cl_self c)) in
          Some (settle_label i cmd p, set_client i (settle cmd p (set_queue q c)) w)
      | _, _ => None
      end
  | A_resume _, Some c =>
      match cl_act c with
      | Replying cmd k => Some (settle_label i cmd (k (w_clock w)), set_client i (settle cmd (k (w_clock w)) c) w)
      | _ => None
      end
  | A_commit _ v, Some c =>
      match take_request i (w_inflight w) with
      | Some (l, rest) =>
          if bool_decide (rv l = rv (w_store w)) && forallb (fun o => negb (bool_decide (rv o = v))) (w_versions w)
          then Some (L_commit i,
            {| w_clock := w_clock w; w_store := with_version v l;
               w_versions := with_version v l :: w_versions w; w_inflight := rest;
               w_clients := <[i := set_seen None c]> (w_clients w) |})
          else None
      | None => None
      end
  | _, Some c =>
      match cl_act c with
      | Issued cmd (Await op k) => (fun w' => (L_serve i, w')) <$> serve_op a i c cmd w op k
      | _ => None
      end
  | _, None => None
  end.

Fixpoint run_actions (w : world) (l : list action) : option (list label * world) :=
  match l with
  | [] => Some ([], w)
  | a :: l' =>
      match next w a with
      | Some (b, w') => (fun p => (b :: p.1, p.2)) <$> run_actions w' l'
      | None => None
      end
  end.

Lemma take_request_split i l x r :
  take_request i l = Some (x, r) -> exists pre post, l = pre ++ (i, x) :: post /\ r = pre ++ post.
Proof.
  revert x r. induction l as [|[j y] l IH]; intros x r; [done|]. cbn.
  destruct (Nat.eqb_spec j i) as [->|Hne].
  - intros [= <- <-]. by exists [], l.
  - destruct (take_request i l) as [[z q]|] eqn:E; [|done]. intros [= <- <-].
    destruct (IH z q eq_refl) as (pre & post & -> & ->). by exists ((j, y) :: pre), post.
Qed.

Lemma next_sound w a b w' : next w a = Some (b, w') -> step w b w'.
Proof.
  unfold next. destruct a as [t|i cmd|i|i|i e|i r|i r|i|i v]; cbn [client_of].
  { destruct (Z.leb_spec (w_clock w) t); [|done]. intros [= <- <-]. by constructor. }
  all: destruct (w_clients w !! i) as [c|] eqn:Hi; [|done].
  - intros [= <- <-]. by constructor.
  - destruct (cl_act c) eqn:Ha; [|done..]. destruct (cl_queue c) eqn:Hq; [done|].
    intros [= <- <-]. by apply step_start.
  - destruct (cl_act c) as [|cmd [|X [] k]|] eqn:Ha; try done. intros [= <- <-]. by apply step_read.
  - destruct (cl_act c) as [|cmd [|X [] k]|] eqn:Ha; try done. intros [= <- <-]. by apply step_read_fails.
  - destruct (cl_act c) as [|cmd [|X [] k]|] eqn:Ha; try done. intros [= <- <-]. by apply step_send.
  - destruct (cl_act c) as [|cmd [|X [] k]|] eqn:Ha; try done. intros [= <- <-]. by eapply step_receipt.
  - destruct (cl_act c) eqn:Ha; try done. intros [= <- <-]. by apply step_resume.
  - destruct (take_request i (w_inflight w)) as [[l r]|] eqn:Ht; [|done].
    destruct (bool_decide _) eqn:Hr; [|done]. destruct (forallb _ _) eqn:Hf; [|done]. intros [= <- <-].
    destruct (take_request_split _ _ _ _ Ht) as (pre & post & Hsplit & ->).
    apply bool_decide_eq_true in Hr. eapply step_commit; try done.
    intros o Ho Heq. rewrite forallb_elem in Hf. specialize (Hf o Ho). cbn in Hf. by rewrite bool_decide_true in Hf.
Qed.

Lemma run_actions_sound w l tr w' : run_actions w l = Some (tr, w') -> run w tr w'.
Proof.
  revert w tr. induction l as [|a l IH]; intros w tr; cbn; [intros [= <- <-]; constructor|].
  destruct (next w a) as [[b w1]|] eqn:E; [|done].
  destruct (run_actions w1 l) as [[tr' w2]|] eqn:E'; [|done]. intros [= <- <-].
  econstructor; [by apply next_sound in E | by apply IH].
Qed.
End system.
