(* ===== verification/LeaseProps.v ===== *)
(** * The lab lease: its properties (regression/core/lease.ts)

    The theorems about [LabLease] and the Lease object, each with a concrete instance. *)

From S2P Require Import Prelude Js Number Regex Dates Prog Errors Lease LeaseSpec LeaseSystem.

Local Open Scope Z_scope.

(** ** Lemmas on the time format *)
Lemma length_iso_prefix t : String.length (iso_prefix t) = 19%nat.
Proof.
  unfold iso_prefix. cbv zeta.
  repeat (rewrite str_length_app || rewrite length_fixed || cbn [String.length]). reflexivity.
Qed.

Lemma take_str_app a (s r : string) : take_str (String.length s + a) (s +:+ r)%string = (s +:+ take_str a r)%string.
Proof. induction s as [|c s IH]; cbn; [done | by rewrite IH]. Qed.

Lemma drop_str_app a (s r : string) : drop_str (String.length s + a) (s +:+ r)%string = drop_str a r.
Proof. induction s as [|c s IH]; cbn; done. Qed.

Lemma sforall_fixed n z : 0 <= z < 10 ^ Z.of_nat n -> sforall is_digit (fixed n z) = true.
Proof.
  revert z. induction n as [|n IH]; intros z H; [done|].
  rewrite Nat2Z.inj_succ, Z.pow_succ_r in H by lia.
  assert (0 < 10 ^ Z.of_nat n) by (apply Z.pow_pos_nonneg; lia).
  destruct (digit_unit (z / 10 ^ Z.of_nat n)) as [Hv _].
  { split; [apply Z.div_pos | apply Z.div_lt_upper_bound]; lia. }
  cbn [fixed sforall]. rewrite Hv, IH by (apply Z.mod_pos_bound; lia). done.
Qed.

(** The milliseconds that the replacement extends to microseconds. *)
Lemma millis_match x :
  0 <= x < 1000 ->
  rtest (Cat (chr ".") (Cat (rep 3 (Cls is_digit)) (chr "Z"))) (String "." (fixed 3 x +:+ "Z"))%string = true.
Proof.
  intros Hx. apply rtest_spec.
  apply (proj2 (cat_spec _ _ _)). exists ".", (fixed 3 x +:+ "Z")%string. split; [done|].
  split; [by constructor|]. apply cat_spec. exists (fixed 3 x), "Z". split; [done|].
  split; [|by constructor]. apply rep_cls_spec. split; [apply length_fixed | by apply sforall_fixed].
Qed.

Lemma leaseTime_eq t :
  leaseTime t = (iso_prefix t +:+ String "." (fixed 3 (t mod 1000) +:+ "000Z"))%string.
Proof.
  assert (Hm : 0 <= t mod 1000 < 1000) by (apply Z.mod_pos_bound; done).
  unfold leaseTime, toISOString. cbv zeta.
  rewrite str_length_app, length_iso_prefix. cbn [String.length]. rewrite str_length_app, length_fixed.
  cbn [String.length].
  change (19 + S (3 + 1) - 5)%nat with (19 + 0)%nat. change (19 + S (3 + 1) - 1)%nat with (19 + 4)%nat.
  rewrite <- (length_iso_prefix t), drop_str_app, take_str_app. cbn [drop_str].
  rewrite millis_match by done. rewrite str_app_assoc. by f_equal.
Qed.

Lemma fraction_microseconds x :
  0 <= x < 1000 -> span is_digit (fixed 3 x +:+ "000Z")%string = ((fixed 3 x +:+ "000")%string, "Z"%string) /\
    fraction_ms (fixed 3 x +:+ "000")%string = x.
Proof.
  intros Hx.
  assert (E : fixed 6 (x * 10 ^ Z.of_nat 3) = (fixed 3 x +:+ "000")%string) by (by apply (fixed_app 3 3)).
  split.
  - change "000Z"%string with ("000" +:+ String "Z" "")%string. rewrite <- str_app_assoc, <- E.
    apply span_digits_fixed; [change (10 ^ Z.of_nat 6) with 1000000; change (10 ^ Z.of_nat 3) with 1000; lia | done].
  - unfold fraction_ms. rewrite str_app_assoc, take_str_app_exact by apply length_fixed. by rewrite digits_val_fixed.
Qed.

Section time.
Context `{DateFallback}.

Lemma Date_parse_leaseTime t : 0 <= t < max_time -> Date_parse (leaseTime t) = Some t.
Proof.
  intros Ht. assert (Hm : 0 <= t mod 1000 < 1000) by (apply Z.mod_pos_bound; done).
  destruct (fraction_microseconds _ Hm) as [Hs Hf].
  unfold Date_parse. rewrite leaseTime_eq.
  rewrite (iso_parse_prefix t _ (t mod 1000)); [f_equal; lia | done | done |].
  cbn iota. rewrite Hs, Hf. reflexivity.
Qed.
End time.

(** ** A fenced client stays silent *)
Section fenced.
Context `{DateFallback} (REGRESSION_RUN_UID : option string).

Lemma fenced_assertHeld s :
  fenced s = true -> assertHeldInternal s = Done (set_held false true s, Err (harness LOCK_LOST)).
Proof. intros Hf. unfold assertHeldInternal, try_catch. cbn. rewrite Hf, andb_false_r. done. Qed.

Lemma fenced_resize n s :
  fenced s = true -> resizeInternal n s = Done (set_held false true s, Err (harness LOCK_LOST)).
Proof. intros Hf. unfold resizeInternal, mbind. by rewrite fenced_assertHeld. Qed.

#[local] Opaque resizeInternal assertHeldInternal.

Lemma fenced_perform c s :
  fenced s = true ->
  exists s' e, perform REGRESSION_RUN_UID c s = Done (s', Err (harness e)) /\ fenced s' = true.
Proof.
  intros Hf. destruct c as [r|l r| | | |n| |]; cbn [perform].
  - unfold acquireInternal, mbind. cbn. rewrite Hf, andb_false_r. eauto.
  - unfold acquireRecoveryInternal, mbind. cbn. rewrite Hf, andb_false_r. eauto.
  - rewrite fenced_assertHeld by done. eauto.
  - unfold heartbeatInternal, mbind. rewrite fenced_assertHeld by done. eauto.
  - unfold backgroundHeartbeat. cbn. rewrite Hf, orb_true_r. cbn. destruct (offlineReserved s); [eauto|].
    unfold heartbeatInternal, mbind. rewrite fenced_assertHeld by done. eauto.
  - unfold reserveOfflineWindow. cbn. destruct n; eauto. unfold mbind. cbn.
    destruct (_ && _); cbn; [|eauto]. rewrite fenced_resize by done. eauto.
  - unfold finishOfflineWindow. cbn. unfold mbind. destruct (offlineReserved s); cbn; [|eauto].
    rewrite fenced_resize by done. eauto.
  - unfold releaseInternal, mbind. rewrite fenced_assertHeld by done. eauto.
Qed.
End fenced.

(** ** A reliable store *)

(** The API server as one sequential client sees it: a read returns the stored Lease, a
    replace takes effect when the revision is current, and then gives it a new revision.
    Every operation takes [delay] milliseconds. *)
Record store : Type := { st_clock : Z; st_lease : Lease; st_count : Z }.

Section reliable.
Context (delay : Z).

Definition serve (X : Type) (op : leaseE X) (w : store) : X * store :=
  let t := st_clock w + delay in
  match op in leaseE X return X * store with
  | Store_read => ((t, Ok (st_lease w)), {| st_clock := t; st_lease := st_lease w; st_count := st_count w |})
  | Store_replace l =>
      if String.eqb (rv l) (rv (st_lease w)) then
        let l' := with_version (String "v" (String_of_Z (st_count w))) l in
        ((t, Ok l'), {| st_clock := t; st_lease := l'; st_count := st_count w + 1 |})
      else ((t, Err (Foreign "conflict")), {| st_clock := t; st_lease := st_lease w; st_count := st_count w |})
  | Write_receipt _ _ => ((t, Ok tt), {| st_clock := t; st_lease := st_lease w; st_count := st_count w |})
  end.

Definition call `{DateFallback} (u : option string) (c : command) (s : LabLease) (w : store) :
    (LabLease * res exn unit) * store :=
  exec serve (perform u c (set_clock (st_clock w) s)) w.
End reliable.

Section reliable_facts.
Context `{DateFallback} (u : option string) (delay : Z).

Lemma exec_mbind {A B} (m : LM A) (f : A -> LM B) s w :
  exec (serve delay) (mbind m f s) w =
  match exec (serve delay) (m s) w with
  | ((s', Ok a), w') => exec (serve delay) (f a s') w'
  | ((s', Err e), w') => ((s', Err e), w')
  end.
Proof.
  unfold mbind. rewrite exec_bind. destruct (exec (serve delay) (m s) w) as [[s' [a|e]] w']; done.
Qed.

Lemma exec_try {A} (m : LM A) h s w :
  exec (serve delay) (try_catch m h s) w =
  match exec (serve delay) (m s) w with
  | ((s', Ok a), w') => ((s', Ok a), w')
  | ((s', Err e), w') => exec (serve delay) (h e s') w'
  end.
Proof.
  unfold try_catch. rewrite exec_bind. destruct (exec (serve delay) (m s) w) as [[s' [a|e]] w']; done.
Qed.

Definition at_time (w : store) : store :=
  {| st_clock := st_clock w + delay; st_lease := st_lease w; st_count := st_count w |}.

Lemma exec_read s w :
  valid_lease (targetUid s) (st_lease w) = true ->
  exec (serve delay) (read s) w = ((set_clock (st_clock w + delay) s, Ok (st_lease w)), at_time w).
Proof.
  intros Hv. unfold read. rewrite exec_mbind. cbn.
  change (targetUid (set_clock (st_clock w + delay) s)) with (targetUid s). by rewrite Hv.
Qed.

Definition stored (l : Lease) (w : store) : store :=
  {| st_clock := st_clock w + delay; st_lease := with_version (String "v" (String_of_Z (st_count w))) l;
     st_count := st_count w + 1 |}.

Lemma exec_replace l s w :
  rv l = rv (st_lease w) ->
  exec (serve delay) (timed (Store_replace l) s) w =
  ((set_clock (st_clock w + delay) s, Ok (st_lease (stored l w))), stored l w).
Proof. intros Hr. cbn. by rewrite Hr, String.eqb_refl. Qed.

(** The receipt of [s] can be named; a Lease seen over the API has a uid. *)
Definition receipt_ok (s : LabLease) (l : Lease) : Prop :=
  forall j, receipt s = Some j ->
    is_Some (md_uid (metadata l)) /\ is_run_id (owner s) = true /\
    is_ok (journalFile j ("lease-" +:+ owner s +:+ ".json")%string) = true.

(** A receipt takes one operation, its absence none. *)
Definition recorded (s : LabLease) (w : store) : store :=
  match receipt s with Some _ => at_time w | None => w end.

Lemma exec_record st l s w :
  receipt_ok s l -> clock s = st_clock w ->
  exec (serve delay) (record_ st l s) w = ((set_clock (st_clock (recorded s w)) s, Ok tt), recorded s w).
Proof.
  unfold record_, receipt_ok, recorded. intros Hr Hc. cbn. destruct (receipt s) as [j|] eqn:Er.
  - destruct (Hr j eq_refl) as (Hu & Ho & Hj). rewrite bool_decide_true, Ho by done.
    unfold mbind, requireSafeM. cbn.
    destruct (journalFile j _) as [f|e] eqn:Ej; [done|discriminate Hj].
  - cbn. rewrite <- Hc. by destruct s.
Qed.

Lemma with_annotations_fields l f :
  spec (with_annotations l f) = spec l /\ rv (with_annotations l f) = rv l.
Proof. done. Qed.

Lemma acquired_fields s l r :
  let l' := acquired u s l r in
  sp_holderIdentity (spec l') = Some (owner s) /\ sp_renewTime (spec l') = Some (leaseTime (clock s)) /\
  sp_leaseDurationSeconds (spec l') = Some (durationSeconds s) /\ rv l' = rv l /\
  valid_lease (targetUid s) l' = valid_lease (targetUid s) l /\ md_uid (metadata l') = md_uid (metadata l).
Proof. unfold acquired. cbv zeta. destruct u as [x|]; [destruct (rtest _ x)|]; done. Qed.

(** A reservation written at [t0] and confirmed before it expires. *)
Lemma exec_assertHeld s w l t0 :
  clock s = st_clock w -> held s = true -> fenced s = false ->
  lastHeartbeat s <= clock s -> clock s - lastHeartbeat s < durationSeconds s * 1000 ->
  st_lease w = l -> valid_lease (targetUid s) l = true ->
  sp_holderIdentity (spec l) = Some (owner s) -> sp_leaseDurationSeconds (spec l) = Some (durationSeconds s) ->
  sp_renewTime (spec l) = Some (leaseTime t0) -> 0 <= t0 < max_time ->
  st_clock w + delay < t0 + durationSeconds s * 1000 ->
  exec (serve delay) (assertHeldInternal s) w = ((set_clock (st_clock w + delay) s, Ok tt), at_time w).
Proof.
  intros Hc Hh Hf Hl1 Hl2 <- Hv Ho Hd Ht Ht0 Hlt.
  unfold assertHeldInternal. rewrite exec_try, exec_mbind. cbn [exec get].
  rewrite exec_mbind. unfold requireSafeM, requireSafe, of_res. rewrite Hh, Hf.
  rewrite (proj2 (Z.leb_le _ _)), (proj2 (Z.ltb_lt _ _)) by lia. cbn [exec andb negb].
  rewrite exec_mbind, exec_read by done. rewrite exec_mbind. cbn [exec get].
  unfold is_str, is_Z, unexpired, renewed. cbn [owner durationSeconds clock set_clock].
  rewrite Ho, Hd, Ht, !bool_decide_true by done. cbn. rewrite Date_parse_leaseTime by done.
  by rewrite (proj2 (Z.ltb_lt _ _)) by lia.
Qed.
(** The Lease of a live reservation of [s], as [assertHeld] checks it. *)
Definition live (s : LabLease) (w : store) (t0 : Z) : Prop :=
  held s = true /\ fenced s = false /\ t0 <= lastHeartbeat s <= st_clock w /\ 0 <= t0 < max_time /\
  valid_lease (targetUid s) (st_lease w) = true /\
  sp_holderIdentity (spec (st_lease w)) = Some (owner s) /\
  sp_leaseDurationSeconds (spec (st_lease w)) = Some (durationSeconds s) /\
  sp_renewTime (spec (st_lease w)) = Some (leaseTime t0).

Lemma with_version_valid target v l :
  valid_lease target l = true -> valid_lease target (with_version (String "v" v) l) = true.
Proof.
  unfold valid_lease. cbn. rewrite !andb_true_iff. intros [[[[[? ?] ?] ?] ?] ?]. tauto.
Qed.

Lemma acquire_exec r s w :
  0 <= delay -> 0 <= st_clock w -> st_clock w + 4 * delay < max_time -> 4 * delay < durationSeconds s * 1000 ->
  held s = false -> fenced s = false -> valid_lease (targetUid s) (st_lease w) = true ->
  holder (st_lease w) = None -> receipt_ok s (st_lease w) ->
  match r with Some x => is_run_id x = true | None => True end ->
  exists s' w' t0, call delay u (Acquire r) s w = ((s', Ok tt), w') /\ live s' w' t0 /\
    owner s' = owner s /\ durationSeconds s' = durationSeconds s /\ targetUid s' = targetUid s /\
    receipt s' = receipt s /\ md_uid (metadata (st_lease w')) = md_uid (metadata (st_lease w)) /\
    st_clock w' <= st_clock w + 4 * delay /\ st_clock w' - t0 <= 3 * delay.
Proof.
  intros Hd Hc Hmax Hdur Hh Hf Hv Hfree Hrec Hr.
  unfold call. cbn [perform]. unfold acquireInternal.
  rewrite exec_mbind. cbn [exec get]. rewrite exec_mbind. unfold requireSafeM at 1, requireSafe at 1, of_res at 1.
  cbn [held fenced set_clock]. rewrite Hh, Hf. cbn [negb andb exec].
  rewrite exec_mbind, exec_read by done. rewrite exec_mbind. cbn [exec get].
  set (s1 := set_clock _ _). set (w1 := at_time w).
  assert (Hfree' : leaseHolderReason (st_lease w) (clock s1) = None) by (unfold leaseHolderReason; by rewrite Hfree).
  rewrite exec_mbind, Hfree'. cbn [exec mret]. rewrite exec_mbind.
  assert (Hreq : match r with Some x => negb (truthy x) || is_run_id x | None => true end = true).
  { destruct r as [x|]; [by rewrite Hr, orb_true_r | done]. }
  unfold requireSafeM at 1, requireSafe at 1, of_res at 1. rewrite Hreq. cbn [exec]. cbv zeta.
  rewrite exec_mbind, exec_record by done. set (w2 := recorded s1 w1).
  destruct (acquired_fields s1 (st_lease w) r) as (F1 & F2 & F3 & F4 & F5 & F6). cbv zeta in *.
  set (l' := acquired u s1 (st_lease w) r) in *.
  assert (Hw2 : st_lease w2 = st_lease w) by (unfold w2, recorded; by destruct (receipt s1)).
  assert (Hc2 : st_clock w + delay <= st_clock w2 <= st_clock w + 2 * delay).
  { unfold w2, recorded, w1. destruct (receipt s1); cbn; lia. }
  rewrite exec_mbind, exec_try, exec_mbind, exec_replace by (by rewrite F4, Hw2). cbn [exec mret].
  rewrite exec_mbind. cbn [exec modify].
  set (s3 := beat _). set (w3 := stored l' w2).
  assert (Hw3 : st_clock w3 = st_clock w2 + delay) by done.
  assert (Hs3 : clock s3 = st_clock w3) by done.
  rewrite (exec_assertHeld s3 w3 (st_lease w3) (clock s1)); try done.
  - exists (set_clock (st_clock w3 + delay) s3), (at_time w3), (clock s1).
    split; [done|]. cbn in Hc2, Hmax |- *. unfold live. cbn [held fenced lastHeartbeat st_clock at_time set_clock st_lease].
    split_and!; try done; cbn in *; try lia.
    apply with_version_valid. exact (eq_trans F5 Hv).
  - cbn. lia.
  - apply with_version_valid. exact (eq_trans F5 Hv).
  - split; cbn; lia.
  - rewrite Hw3. cbn. lia.
Qed.
Lemma valid_with_spec target l h t d : valid_lease target (with_spec l h t d) = valid_lease target l.
Proof. done. Qed.

(** [live] after a delay: [assertHeld] passes. *)
Lemma live_assertHeld s w t0 :
  live s w t0 -> 0 <= delay -> clock s = st_clock w -> st_clock w + delay - t0 < durationSeconds s * 1000 ->
  exec (serve delay) (assertHeldInternal s) w = ((set_clock (st_clock w + delay) s, Ok tt), at_time w).
Proof.
  intros (Hh & Hf & Hl & Ht0 & Hv & Ho & Hd & Ht) Hd0 Hc Hlt.
  apply (exec_assertHeld s w (st_lease w) t0); try done; lia.
Qed.

Lemma release_exec s w t0 :
  live s w t0 -> 0 <= delay -> st_clock w + delay - t0 < durationSeconds s * 1000 ->
  receipt_ok s (st_lease w) ->
  exists s' w', call delay u Release s w = ((s', Ok tt), w') /\ held s' = false /\ fenced s' = false /\
    holder (st_lease w') = None /\ valid_lease (targetUid s) (st_lease w') = true /\
    md_uid (metadata (st_lease w')) = md_uid (metadata (st_lease w)).
Proof.
  intros Hlive Hd0 Hlt Hrec. pose proof Hlive as (Hh & Hf & Hl & Ht0 & Hv & Ho & Hd & Ht).
  unfold call. cbn [perform]. unfold releaseInternal.
  set (s0 := set_clock (st_clock w) s).
  rewrite exec_mbind, (live_assertHeld s0 w t0) by done.
  set (s1 := set_clock _ _). set (w1 := at_time w).
  rewrite exec_mbind, exec_try, exec_mbind, exec_read by done. rewrite exec_mbind. cbn [exec get].
  set (s2 := set_clock _ _). set (w2 := at_time w1).
  assert (Hl2 : st_lease w2 = st_lease w) by done. change (st_lease w1) with (st_lease w).
  rewrite exec_mbind. unfold requireSafeM at 1, requireSafe at 1, of_res at 1.
  unfold is_str. change (owner s2) with (owner s). rewrite Ho, bool_decide_true by done. cbn [exec].
  rewrite exec_mbind, exec_replace by done.
  set (l' := with_spec _ _ _ _). set (w3 := stored l' w2). set (s3 := set_clock _ s2).
  assert (Hv3 : valid_lease (targetUid s3) (st_lease w3) = true) by (by apply with_version_valid).
  rewrite exec_mbind, exec_read by done. rewrite exec_mbind. unfold requireSafeM, requireSafe, of_res.
  change (holder (st_lease w3)) with (@None string).
  change (md_uid (metadata (st_lease w3))) with (md_uid (metadata (st_lease w))).
  rewrite !bool_decide_true by done. cbn [exec andb].
  rewrite exec_record by done. cbn [exec modify].
  eexists _, _. split; [done|]. cbn [held fenced set_held].
  assert (Hw4 : st_lease (recorded (set_clock (st_clock w3 + delay) s3) (at_time w3)) = st_lease w3).
  { unfold recorded. by destruct (receipt _). }
  rewrite Hw4. split_and!; done.
Qed.

Lemma heartbeat_exec s w t0 :
  live s w t0 -> 0 <= delay -> 0 <= st_clock w -> st_clock w + 2 * delay < max_time ->
  st_clock w + delay - t0 < durationSeconds s * 1000 ->
  exists s' w', call delay u Heartbeat s w = ((s', Ok tt), w') /\ live s' w' (st_clock w + 2 * delay) /\
    owner s' = owner s /\ durationSeconds s' = durationSeconds s /\ targetUid s' = targetUid s /\
    receipt s' = receipt s /\ md_uid (metadata (st_lease w')) = md_uid (metadata (st_lease w)) /\
    st_clock w' = st_clock w + 3 * delay.
Proof.
  intros Hlive Hd0 Hc0 Hmax Hlt. pose proof Hlive as (Hh & Hf & Hl & Ht0 & Hv & Ho & Hd & Ht).
  unfold call. cbn [perform]. unfold heartbeatInternal.
  set (s0 := set_clock (st_clock w) s).
  rewrite exec_mbind, (live_assertHeld s0 w t0) by done.
  set (s1 := set_clock _ _). set (w1 := at_time w).
  rewrite exec_mbind, exec_try, exec_mbind, exec_read by done. rewrite exec_mbind. cbn [exec get].
  set (s2 := set_clock _ _). set (w2 := at_time w1). change (st_lease w1) with (st_lease w).
  rewrite exec_mbind. unfold requireSafeM at 1, requireSafe at 1, of_res at 1.
  unfold is_str. change (owner s2) with (owner s). rewrite Ho, bool_decide_true by done. cbn [exec].
  rewrite exec_mbind, exec_replace by done. cbn [exec modify mret].
  eexists _, _. split; [done|].
  assert (Hc2 : clock s2 = st_clock w + 2 * delay) by (cbn; lia).
  unfold live. rewrite Hc2. cbn [held fenced lastHeartbeat beat clock set_clock st_clock st_lease stored at_time].
  assert (Hw2 : st_clock w2 = st_clock w + 2 * delay) by (cbn; lia).
  split_and!; try done; rewrite ?Hw2; try lia.
  by apply with_version_valid.
Qed.
End reliable_facts.

(** ** Concrete data *)
Module Demo.
Definition no_fallback : DateFallback := fun _ => None.
#[local] Existing Instance no_fallback.

Definition owner1 : string := "reg-00000000-0000-0000-0000-000000000001".
Definition owner2 : string := "reg-00000000-0000-0000-0000-000000000002".
Definition appliance : string := "11111111-2222-3333-4444-555555555555".

Definition free_lease : Lease :=
  {| apiVersion := "coordination.k8s.io/v1"; kind := "Lease";
     metadata := {| md_name := "lab-lock"; md_namespace := "magicstick-regression"; md_uid := Some "uid-1";
                    md_resourceVersion := "1"; md_labels := {[ appliance_label := appliance ]};
                    md_annotations := None |};
     spec := {| sp_holderIdentity := Some ""; sp_renewTime := None; sp_leaseDurationSeconds := None |} |}.

Definition client1 : LabLease := new_LabLease owner1 appliance None None.
Definition client2 : LabLease := new_LabLease owner2 appliance None None.
Definition idle (s : LabLease) : client := {| cl_self := s; cl_queue := []; cl_act := Idle; cl_seen := None |}.

Definition world0 : world :=
  {| w_clock := 1000000; w_store := free_lease; w_versions := [free_lease]; w_inflight := [];
     w_clients := {[ 1%nat := idle client1; 2%nat := idle client2 ]} |}.

(** Client 1 acquires: a read, a replace that takes effect, and the confirming read. *)
Definition acts1 : list action :=
  [A_call 1 (Acquire None); A_start 1; A_read 1; A_resume 1; A_send 1 (Ok free_lease); A_commit 1 "2";
   A_resume 1; A_read 1].
Definition after (w : world) (l : list action) : world := default (w) (snd <$> run_actions None w l).
Definition labels (w : world) (l : list action) : list label := default [] (fst <$> run_actions None w l).
Definition world1 : world := after world0 acts1.
Definition world2 : world := after world1 [A_resume 1].

(** Much later, client 2 recovers the expired reservation. *)
Definition acts2 : list action :=
  [A_tick 2000000; A_call 2 (AcquireRecovery (w_store world2) owner1); A_start 2; A_read 2; A_resume 2;
   A_send 2 (Ok free_lease); A_commit 2 "3"; A_resume 2; A_read 2].
Definition world3 : world := after world2 acts2.
Definition world4 : world := after world3 [A_resume 2].

Lemma after_run w l : run_actions None w l <> None -> run None w (labels w l) (after w l).
Proof.
  unfold labels, after. destruct (run_actions None w l) as [[tr w']|] eqn:E; [|done].
  intros _. by apply (run_actions_sound None w l).
Qed.

(** Whether resuming client [i] confirms its reservation. *)
Definition confirms_b (w : world) (i : nat) : bool :=
  match w_clients w !! i, next None w (A_resume i) with
  | Some c, Some (L_done j cmd (Ok _), _) =>
      (j =? i)%nat && confirming cmd && (if cl_seen c then true else false)
  | _, _ => false
  end.

Lemma confirms_b_sound w i : confirms_b w i = true -> confirms None w i (after w [A_resume i]).
Proof.
  unfold confirms_b, confirms, after, run_actions.
  destruct (w_clients w !! i) as [c|]; [|done].
  destruct (next None w (A_resume i)) as [[[] w']|] eqn:E; try done. destruct r as [[]|]; [|done].
  rewrite !andb_true_iff. intros [[->%Nat.eqb_eq Hc] Hs].
  exists c, c0. split; [done|]. split; [by destruct (cl_seen c)|]. split; [done|]. by apply next_sound in E.
Qed.

Lemma some_ne {A} (o : option A) : (if o then true else false) = true -> o <> None.
Proof. by destruct o. Qed.
End Demo.

(** ** The properties *)

(** C1: mutual exclusion on the appliance. Take any number of runners with distinct run
    identifiers on one Lease, interleaved at every await, with lost, delayed and reordered
    writes and lost replies. Once a runner's acquire, acquireRecovery or assertHeld succeeded,
    and until one of its own later writes takes effect, another runner's can succeed only after
    the confirmed reservation has expired and the 60 s drain window has passed too. *)
Theorem lease_exclusive `{DateFallback} u w0 tr0 w1 i w2 tr w3 j w4 :
  initial w0 -> run u w0 tr0 w1 ->
  confirms u w1 i w2 -> run u w2 tr w3 -> no_commit i tr = true -> confirms u w3 j w4 -> i <> j ->
  drained (w_store w2) (w_clock w4) = true.
Proof.
  intros H0 Hr0. apply exclusive. eapply run_inv; [by apply initial_inv | exact Hr0].
Qed.

Lemma lease_exclusive_witness :
  @drained Demo.no_fallback (w_store Demo.world2) (w_clock Demo.world4) = true.
Proof.
  apply (@lease_exclusive Demo.no_fallback None Demo.world0 (Demo.labels Demo.world0 Demo.acts1) Demo.world1 1
    Demo.world2 (Demo.labels Demo.world2 Demo.acts2) Demo.world3 2 Demo.world4).
  - split; [done|]. split; [done|]. split.
    + intros i c Hi. unfold Demo.world0 in Hi. cbn [w_clients] in Hi.
      apply lookup_insert_Some in Hi as [[_ <-]|[_ Hi%lookup_singleton_Some]]; [done|]. destruct Hi as [_ <-]. done.
    + intros i j c d Hi Hj Ho. unfold Demo.world0 in Hi, Hj. cbn [w_clients] in Hi, Hj.
      apply lookup_insert_Some in Hi as [[<- <-]|[_ [<- <-]%lookup_singleton_Some]];
        apply lookup_insert_Some in Hj as [[<- <-]|[_ [<- <-]%lookup_singleton_Some]]; done.
  - apply Demo.after_run, Demo.some_ne. vm_compute. reflexivity.
  - apply Demo.confirms_b_sound. vm_compute. reflexivity.
  - apply Demo.after_run, Demo.some_ne. vm_compute. reflexivity.
  - vm_compute. reflexivity.
  - apply Demo.confirms_b_sound. vm_compute. reflexivity.
  - done.
Defined.

(** C2: the lab lease protocol. Whatever the API server answers, and however its clock moves
    forward, every write a runner's method requests keeps the object's identity and revision
    precondition, and is one of four: claiming a Lease without a holder, replacing an expired
    and drained holder, renewing its own reservation, or giving its own reservation up. *)
Theorem lease_protocol `{DateFallback} u c s t tr q :
  let g := {| g_last := None; g_time := t |} in
  steps (perform u c (set_clock t s)) tr q -> admissible lease_asm lease_upd g tr ->
  respects (lease_pre (owner s)) lease_upd g tr.
Proof.
  intros g Hs Ha.
  apply (wp_steps (lease_pre (owner s)) lease_asm lease_upd _ _ _ _ _
    (perform_spec u (owner s) c (set_clock t s) g eq_refl eq_refl) Hs Ha).
Qed.

Definition demo_store : store := {| st_clock := 1000000; st_lease := Demo.free_lease; st_count := 2 |}.

Lemma lease_protocol_witness :
  respects (@lease_pre Demo.no_fallback Demo.owner1) lease_upd {| g_last := None; g_time := 1000000 |}
    (trace (serve 5) (@perform Demo.no_fallback None (Acquire None) (set_clock 1000000 Demo.client1)) demo_store).
Proof.
  eapply (@lease_protocol Demo.no_fallback None (Acquire None) Demo.client1 1000000).
  - apply exec_steps.
  - vm_compute. repeat split; discriminate.
Defined.

(** C6: fencing is final. A client that lost its reservation performs no operation in any
    later method call: it fails at once and stays fenced. *)
Theorem fenced_is_final `{DateFallback} u c s t tr q :
  fenced s = true -> steps (perform u c (set_clock t s)) tr q ->
  tr = [] /\ exists s' code, q = Done (s', Err (harness code)) /\ fenced s' = true.
Proof.
  intros Hf Hs. destruct (fenced_perform u c (set_clock t s) Hf) as (s' & e & Hp & Hf').
  rewrite Hp in Hs. inversion Hs; subst. eauto.
Qed.

Lemma fenced_is_final_witness :
  exists s' code, @perform Demo.no_fallback None Heartbeat (set_clock 7 (set_held false true Demo.client1))
    = Done (s', Err (harness code)) /\ fenced s' = true.
Proof.
  apply (@fenced_is_final Demo.no_fallback None Heartbeat (set_held false true Demo.client1) 7 []).
  - reflexivity.
  - constructor.
Defined.

(** C7: a reservation cycle on a reliable API server. When four round trips fit in the
    reservation and the receipt can be named, acquiring a free Lease succeeds, the heartbeat
    that follows succeeds, and releasing succeeds and leaves the same object free again. *)
Theorem reservation_cycle `{DateFallback} u delay r s w :
  0 <= delay -> 0 <= st_clock w -> st_clock w + 10 * delay < max_time ->
  9 * delay < durationSeconds s * 1000 ->
  held s = false -> fenced s = false -> valid_lease (targetUid s) (st_lease w) = true ->
  holder (st_lease w) = None -> receipt_ok s (st_lease w) ->
  match r with Some x => is_run_id x = true | None => True end ->
  exists s1 w1 s2 w2 s3 w3,
    call delay u (Acquire r) s w = ((s1, Ok tt), w1) /\
    sp_holderIdentity (spec (st_lease w1)) = Some (owner s) /\
    call delay u Heartbeat s1 w1 = ((s2, Ok tt), w2) /\
    sp_holderIdentity (spec (st_lease w2)) = Some (owner s) /\
    call delay u Release s2 w2 = ((s3, Ok tt), w3) /\
    holder (st_lease w3) = None /\ held s3 = false /\ fenced s3 = false /\
    md_uid (metadata (st_lease w3)) = md_uid (metadata (st_lease w)).
Proof.
  intros Hd Hc Hmax Hdur Hh Hf Hv Hfree Hrec Hr.
  destruct (acquire_exec u delay r s w) as (s1 & w1 & t1 & E1 & L1 & O1 & D1 & T1 & R1 & U1 & C1 & C1'); try done; try lia.
  pose proof L1 as (_ & _ & Hl1 & Ht1 & _ & Ho1 & _).
  destruct (heartbeat_exec u delay s1 w1 t1) as (s2 & w2 & E2 & L2 & O2 & D2 & T2 & R2 & U2 & C2); try done; try lia.
  pose proof L2 as (_ & _ & Hl2 & Ht2 & _ & Ho2 & _).
  destruct (release_exec u delay s2 w2 (st_clock w1 + 2 * delay)) as (s3 & w3 & E3 & H3 & F3 & Hn3 & _ & U3); try done; try lia.
  { intros j Hj. rewrite U2, U1, O2, O1. apply Hrec. congruence. }
  exists s1, w1, s2, w2, s3, w3. rewrite E1, E2, E3, Ho1, Ho2, O2, O1, U3, U2, U1. split_and!; done.
Qed.

Lemma reservation_cycle_witness : let s := new_LabLease Demo.owner1 Demo.appliance None
      (Some {| jr_filename := "/run/lab/journal.json"; jr_runId := Demo.owner1 |}) in
  exists s1 w1, @call 20 Demo.no_fallback None (Acquire None) s demo_store = ((s1, Ok tt), w1).
Proof.
  intros s. destruct (@reservation_cycle Demo.no_fallback None 20 None s demo_store)
    as (s1 & w1 & _ & _ & _ & _ & E & _);
    [done | done | done | done | done | done | vm_compute; reflexivity | done | | done |].
  - intros j Hj. injection Hj as <-. split; [by eexists|]. split; vm_compute; reflexivity.
  - by exists s1, w1.
Defined.

(** A renewTime reads back as the instant it was written, from 1970 to 9999. *)
Theorem renewTime_roundtrip `{DateFallback} t l h d :
  0 <= t < max_time -> renewed (with_spec l h t d) = Some t.
Proof. intros Ht. by apply Date_parse_leaseTime. Qed.

Lemma renewTime_roundtrip_witness :
  @renewed Demo.no_fallback (with_spec Demo.free_lease (Some Demo.owner1) 1700000000123 (Some 60)) = Some 1700000000123.
Proof. apply (@renewTime_roundtrip Demo.no_fallback). vm_compute. split; discriminate || reflexivity. Defined.
