(* ===== verification/RunLifecycle.v ===== *)
(** * Run lifecycle (regression/core/run-lifecycle.ts)

    [HeartbeatLoop] renews the lab lease from a timer while a scenario runs. Its fields are
    shared by timer callbacks, promise continuations and the methods the scenario calls, so
    the loop is a state and each piece of code that runs without interruption is a step:
    a callback, a continuation, or a method up to its first await.

    Timers and renewals are numbered as they are made. [hb_armed] are the timers the event
    loop still holds, of which [hb_timer] is the one the object refers to; [hb_rounds] are the
    callbacks that wait for a renewal, [hb_stops] the calls of [stop] that do. [hb_failure]
    stands for the error kept, which is truthy: [renew] rejects with error objects only. *)

From S2P Require Import Prelude Js Number Prog Errors.

Local Open Scope js_scope.

(** ** withCleanup, bounded *)
Section wrappers.
Context {E : Type -> Type} {S X : Type}.

(** The outcome of a program as a value. *)
Definition outcome_of {A} (m : M E S X A) : M E S X (res X A) :=
  try_catch (let! a := m in mret (Ok a)) (fun e => mret (Err e)).

(** The cleanup runs in any case; its failure is the outcome only of an action that succeeded. *)
Definition withCleanup {A} (action : M E S X A) (cleanup : M E S X unit) : M E S X A :=
  let! r := outcome_of action in
  match r with
  | Ok a => cleanup ;; mret a
  | Err e => let! _ := outcome_of cleanup in throw e
  end.

(** What comes first: the action settles, or its time is over. *)
Inductive Race (A : Type) : Type :=
| Settles (r : res X A)
| Expires.
Arguments Settles {_}. Arguments Expires {_}.

(** [race] runs the action beside the timer. Once the time is over the action is cancelled, its
    outcome is ignored and the cancellation is awaited, for a second at most. *)
Definition bounded {A} (raise : exn -> X) (race : M E S X (Race A)) (stage : M E S X Stage) (cancel : M E S X unit) : M E S X A :=
  let! first := race in
  match first with
  | Settles r => of_res r
  | Expires => let! s := stage in let! _ := outcome_of cancel in throw (raise (Harness (new_HarnessError DEADLINE (Some Failed) (Some s) None)))
  end.
End wrappers.

(** ** HeartbeatLoop *)

(** The promise of a renewal: [renew] is under way, or it settled and the continuation that
    clears [pending] has not run. *)
Inductive Phase : Type := Renewing | Settling.

Record Loop : Type := {
  hb_timer : option nat;
  hb_armed : list nat;
  hb_pending : option (nat * Phase);
  hb_failure : bool;
  hb_stopped : bool;
  hb_rounds : list (option nat);
  hb_stops : list (option nat);
  hb_timers : nat;
  hb_renewals : nat
}.

Definition new_HeartbeatLoop : Loop :=
  {| hb_timer := None; hb_armed := []; hb_pending := None; hb_failure := false; hb_stopped := false;
     hb_rounds := []; hb_stops := []; hb_timers := 0; hb_renewals := 0 |}.

(** [this.timer = t], with the timers left in the event loop. *)
Definition with_timer (t : option nat) (armed : list nat) (l : Loop) : Loop :=
  {| hb_timer := t; hb_armed := armed; hb_pending := hb_pending l; hb_failure := hb_failure l; hb_stopped := hb_stopped l;
     hb_rounds := hb_rounds l; hb_stops := hb_stops l; hb_timers := hb_timers l; hb_renewals := hb_renewals l |}.
Definition with_pending (p : option (nat * Phase)) (failed : bool) (renewals : nat) (l : Loop) : Loop :=
  {| hb_timer := hb_timer l; hb_armed := hb_armed l; hb_pending := p; hb_failure := failed; hb_stopped := hb_stopped l;
     hb_rounds := hb_rounds l; hb_stops := hb_stops l; hb_timers := hb_timers l; hb_renewals := renewals |}.
Definition with_rounds (rounds : list (option nat)) (l : Loop) : Loop :=
  {| hb_timer := hb_timer l; hb_armed := hb_armed l; hb_pending := hb_pending l; hb_failure := hb_failure l; hb_stopped := hb_stopped l;
     hb_rounds := rounds; hb_stops := hb_stops l; hb_timers := hb_timers l; hb_renewals := hb_renewals l |}.
Definition with_stops (stopped : bool) (stops : list (option nat)) (l : Loop) : Loop :=
  {| hb_timer := hb_timer l; hb_armed := hb_armed l; hb_pending := hb_pending l; hb_failure := hb_failure l; hb_stopped := stopped;
     hb_rounds := hb_rounds l; hb_stops := stops; hb_timers := hb_timers l; hb_renewals := hb_renewals l |}.

Definition schedule (l : Loop) : Loop :=
  {| hb_timer := Some (hb_timers l); hb_armed := hb_timers l :: hb_armed l; hb_pending := hb_pending l; hb_failure := hb_failure l;
     hb_stopped := hb_stopped l; hb_rounds := hb_rounds l; hb_stops := hb_stops l;
     hb_timers := Datatypes.S (hb_timers l); hb_renewals := hb_renewals l |}.

Definition heartbeat_start (l : Loop) : Loop :=
  if negb (bool_decide (is_Some (hb_timer l))) && negb (hb_stopped l) then schedule l else l.

Definition check (l : Loop) : res exn unit := if hb_failure l then Err (harness LOCK_LOST) else Ok tt.

(** The renewal whose promise the caller gets; none when the check throws. *)
Definition tick (l : Loop) : Loop * option nat :=
  match check l with
  | Err _ => (l, None)
  | Ok _ =>
      match hb_pending l with
      | Some (n, _) => (l, Some n)
      | None => (with_pending (Some (hb_renewals l, Renewing)) (hb_failure l) (Datatypes.S (hb_renewals l)) l, Some (hb_renewals l))
      end
  end.

(** A promise that has settled: that of a tick that threw, or of a renewal that is over. *)
Definition over (l : Loop) (promise : option nat) : bool :=
  match promise with Some n => negb (bool_decide (fst <$> hb_pending l = Some n)) | None => true end.

(** The callback of timer [t]. *)
Definition fire (t : nat) (l : Loop) : option Loop :=
  if bool_decide (t ∈ hb_armed l) then
    let l := with_timer None (List.filter (fun u => negb (Nat.eqb u t)) (hb_armed l)) l in
    let '(l, promise) := tick l in
    Some (with_rounds (promise :: hb_rounds l) l)
  else None.

(** [renew] settles; a rejection is kept. *)
Definition settle_renewal (ok : bool) (l : Loop) : option Loop :=
  match hb_pending l with
  | Some (n, Renewing) => Some (with_pending (Some (n, Settling)) (hb_failure l || negb ok) (hb_renewals l) l)
  | _ => None
  end.

(** [.finally(() => { this.pending = undefined })] *)
Definition release_pending (l : Loop) : option Loop :=
  match hb_pending l with
  | Some (_, Settling) => Some (with_pending None (hb_failure l) (hb_renewals l) l)
  | _ => None
  end.

(** The continuation of the [i]-th callback that waits. *)
Definition end_round (i : nat) (l : Loop) : option Loop :=
  match hb_rounds l !! i with
  | Some promise =>
      if over l promise then
        let l := with_rounds (delete i (hb_rounds l)) l in
        Some (if negb (hb_stopped l) && negb (hb_failure l) then schedule l else l)
      else None
  | None => None
  end.

(** [stop] up to its await. *)
Definition heartbeat_stop (l : Loop) : Loop :=
  let armed := match hb_timer l with Some t => List.filter (fun u => negb (Nat.eqb u t)) (hb_armed l) | None => hb_armed l end in
  with_timer None armed (with_stops true ((fst <$> hb_pending l) :: hb_stops l) l).

(** The [i]-th call of [stop] returns. *)
Definition end_stop (i : nat) (l : Loop) : option Loop :=
  match hb_stops l !! i with
  | Some promise => if over l promise then Some (with_stops (hb_stopped l) (delete i (hb_stops l)) l) else None
  | None => None
  end.

Inductive Label : Type :=
| Starts | Ticks | Fires (t : nat) | Renewed (ok : bool) | Released | Round_ends (i : nat) | Stops | Stop_returns (i : nat).

Definition loop_step (a : Label) (l : Loop) : option Loop :=
  match a with
  | Starts => Some (heartbeat_start l)
  | Ticks => Some (tick l).1
  | Fires t => fire t l
  | Renewed ok => settle_renewal ok l
  | Released => release_pending l
  | Round_ends i => end_round i l
  | Stops => Some (heartbeat_stop l)
  | Stop_returns i => end_stop i l
  end.

Inductive Runs (l : Loop) : list Label -> Loop -> Prop :=
| Runs_nil : Runs l [] l
| Runs_snoc labels a l1 l2 : Runs l labels l1 -> loop_step a l1 = Some l2 -> Runs l (labels ++ [a]) l2.
