(* ===== verification/RunLifecycleProps.v ===== *)
(** * Theorems on the run lifecycle

    Renewals never overlap, a failed one is final, and once [stop] has returned the loop that
    was started once is silent; a cleanup never hides the failure of its action. *)

From S2P Require Import Prelude Js Number Prog Errors RunLifecycle.

(** ** withCleanup *)
Section wrappers.
Context {E : Type -> Type} {G S X : Type}.
Context {pre : forall X, G -> E X -> Prop} {asm : forall X, G -> E X -> X -> Prop} {upd : forall X, G -> E X -> X -> G}.
Notation W := (wpm pre asm upd).

Lemma wpm_outcome {A} (m : M E S X A) s g Q : W m s g (fun g' s' r => Q g' s' (Ok r)) -> W (outcome_of m) s g Q.
Proof.
  intros Hm. unfold outcome_of. apply wpm_try, wpm_bind. eapply wpm_mono; [|exact Hm].
  intros g' s' [a|e] HQ; cbn beta iota; by apply wpm_ret.
Qed.

(** The outcome is the action's, or the cleanup's failure after an action that succeeded. *)
Lemma withCleanup_wp {A} (action : M E S X A) cleanup s g Q :
  W action s g (fun g1 s1 r => W cleanup s1 g1 (fun g2 s2 c => Q g2 s2
    (match r, c with Err e, _ => Err e | Ok _, Err e => Err e | Ok a, Ok _ => Ok a end))) ->
  W (withCleanup action cleanup) s g Q.
Proof.
  intros Ha. unfold withCleanup. apply wpm_bind, wpm_outcome. eapply wpm_mono; [|exact Ha].
  intros g1 s1 [a|e] Hc; cbn beta iota.
  - apply wpm_bind. eapply wpm_mono; [|exact Hc]. intros g2 s2 [[]|e] HQ; [by apply wpm_ret | exact HQ].
  - apply wpm_bind, wpm_outcome. eapply wpm_mono; [|exact Hc]. intros g2 s2 r HQ. by apply wpm_throw.
Qed.
End wrappers.

(** ** The loop *)
Definition renewing (l : Loop) : nat := match hb_pending l with Some (_, Renewing) => 1 | _ => 0 end.
Definition is_renewed (a : Label) : bool := match a with Renewed _ => true | _ => false end.

Lemma tick_cases l : (tick l = (l, None) /\ hb_failure l = true) \/
  (exists n p, tick l = (l, Some n) /\ hb_failure l = false /\ hb_pending l = Some (n, p)) \/
  (tick l = (with_pending (Some (hb_renewals l, Renewing)) false (S (hb_renewals l)) l, Some (hb_renewals l)) /\
   hb_failure l = false /\ hb_pending l = None).
Proof.
  unfold tick, check. destruct (hb_failure l) eqn:Hf; [by left|]. destruct (hb_pending l) as [[n p]|] eqn:Hp; [right; left | right; right]; eauto.
Qed.

(** The steps that only move timers and waiters. *)
Definition same_renewals (l l' : Loop) : Prop :=
  hb_pending l' = hb_pending l /\ hb_failure l' = hb_failure l /\ hb_renewals l' = hb_renewals l.

Lemma step_cases a l l' : loop_step a l = Some l' ->
  same_renewals l l' /\ is_renewed a = false \/
  (exists n ok, a = Renewed ok /\ hb_pending l = Some (n, Renewing) /\ hb_pending l' = Some (n, Settling) /\
     hb_failure l' = hb_failure l || negb ok /\ hb_renewals l' = hb_renewals l) \/
  (exists n, a = Released /\ hb_pending l = Some (n, Settling) /\ hb_pending l' = None /\ hb_failure l' = hb_failure l /\ hb_renewals l' = hb_renewals l) \/
  ((a = Ticks \/ exists t, a = Fires t) /\ hb_failure l = false /\ hb_pending l = None /\ hb_failure l' = false /\
     hb_pending l' = Some (hb_renewals l, Renewing) /\ hb_renewals l' = S (hb_renewals l)).
Proof.
  unfold same_renewals. destruct a as [ | |t|ok| |i| |i]; cbn [loop_step].
  - intros [= <-]. left. unfold heartbeat_start. by destruct (_ && _).
  - intros [= <-]. edestruct tick_cases as [[-> ?]|[(? & ? & -> & ? & ?)|(-> & ? & ?)]]; [by left.. | right; right; right]; by auto 10.
  - unfold fire. case_bool_decide; [|done]. set (l0 := with_timer _ _ _).
    edestruct (tick_cases l0) as [[-> ?]|[(? & ? & -> & ? & ?)|(-> & ? & ?)]]; intros [= <-]; [by left.. | right; right; right]; by eauto 10.
  - unfold settle_renewal. destruct (hb_pending l) as [[n []]|]; intros [= <-]. right. left. by exists n, ok.
  - unfold release_pending. destruct (hb_pending l) as [[n []]|]; intros [= <-]. right. right. left. by exists n.
  - unfold end_round. destruct (hb_rounds l !! i); [|done]. destruct (over _ _); [|done]. intros [= <-]. left. by destruct (_ && _).
  - intros [= <-]. by left.
  - unfold end_stop. destruct (hb_stops l !! i); [|done]. destruct (over _ _); [|done]. intros [= <-]. by left.
Qed.

(** Renewals begun, against those that settled. *)
Definition settled_renewals (labels : list Label) : nat := length (List.filter is_renewed labels).

Lemma runs_renewals l labels l' : Runs l labels l' ->
  hb_renewals l' + renewing l = hb_renewals l + settled_renewals labels + renewing l' /\
  (hb_failure l = true -> hb_failure l' = true /\ hb_renewals l' = hb_renewals l).
Proof.
  induction 1 as [|labels a l1 l2 _ [IH Hf] Hs]; [unfold settled_renewals; cbn; split; [lia | done]|].
  unfold settled_renewals in *. rewrite List.filter_app, length_app. unfold renewing in *.
  apply step_cases in Hs as [[(-> & -> & ->) Ha]|[(n & ok & -> & Hp & -> & -> & ->)|[(n & -> & Hp & -> & -> & ->)|([->|[t ->]] & Hf1 & Hp & -> & -> & ->)]]];
    cbn [List.filter is_renewed]; rewrite ?Ha, ?Hp in *; cbn [length]; (split; [lia|]); intros Hl; destruct (Hf Hl) as [Hf' ->];
    try rewrite Hf'; split; try done; congruence.
Qed.

(** ** A loop started once *)

(** At most one timer or callback is alive, and it is the one the object knows; after [stop]
    there is no timer, and those that wait for it wait for the last renewal. *)
Definition single (l : Loop) : Prop :=
  (hb_armed l = [] /\ hb_timer l = None /\ (length (hb_rounds l) <= 1)%nat \/
   exists t, hb_armed l = [t] /\ hb_timer l = Some t /\ hb_rounds l = []) /\
  (hb_stopped l = false -> hb_stops l = []) /\
  (hb_stopped l = true -> hb_armed l = [] /\
     Forall (fun p => match p with Some n => hb_pending l = None \/ fst <$> hb_pending l = Some n | None => hb_pending l = None end) (hb_stops l)).

(** Nothing is left to happen. *)
Definition silent (l : Loop) : Prop := hb_stopped l = true /\ hb_armed l = [] /\ hb_pending l = None.

Definition by_timer (a : Label) : bool := match a with Starts | Ticks => false | _ => true end.

Lemma single_start : single (heartbeat_start new_HeartbeatLoop).
Proof. split; [right; by exists 0%nat | by split]. Qed.

Lemma waiting_step a l l' (stops : list (option nat)) : loop_step a l = Some l' -> hb_armed l = [] -> by_timer a = true ->
  Forall (fun p => match p with Some n => hb_pending l = None \/ fst <$> hb_pending l = Some n | None => hb_pending l = None end) stops ->
  Forall (fun p => match p with Some n => hb_pending l' = None \/ fst <$> hb_pending l' = Some n | None => hb_pending l' = None end) stops.
Proof.
  intros Hs Ha Hb. apply List.Forall_impl. intros p.
  pose proof (step_cases a l l' Hs) as [[(-> & _ & _) _]|[(n & ok & _ & -> & -> & _)|[(n & _ & -> & -> & _)|([->|[t ->]] & _)]]]; try done.
  - destruct p; [by intros [|]; [|right] | done].
  - destruct p; [intros _; by left | done].
  - cbn in Hs. unfold fire in Hs. rewrite Ha in Hs. destruct (bool_decide_reflect (t ∈ [])) as [Ht|]; [by apply elem_of_nil in Ht | done].
Qed.

Lemma single_step a l l' : by_timer a = true -> loop_step a l = Some l' -> single l -> single l'.
Proof.
  intros Hb Hs (Hone & Hns & Hst). assert (Hw := fun H => waiting_step a l l' (hb_stops l) Hs H Hb).
  destruct a as [ | |t|ok| |i| |i]; try discriminate Hb; clear Hb; cbn [loop_step] in *.
  - unfold fire in Hs. destruct (bool_decide_reflect (t ∈ hb_armed l)) as [Ht|]; [|done]. destruct Hone as [(Ha & _)|(u & Ha & Hu & Hr)]; [by rewrite Ha in Ht; apply elem_of_nil in Ht|].
    rewrite Ha in Ht, Hs. apply list_elem_of_singleton in Ht as <-. cbn [List.filter] in Hs. rewrite Nat.eqb_refl in Hs. cbn [negb] in Hs.
    assert (Hstop : hb_stopped l = false).
    { destruct (hb_stopped l); [|done]. destruct (Hst eq_refl) as [Hno _]. congruence. }
    destruct (tick _) as [l1 p] eqn:Hl1. injection Hs as <-.
    assert (hb_armed l1 = [] /\ hb_timer l1 = None /\ hb_rounds l1 = [] /\ hb_stopped l1 = false /\ hb_stops l1 = []) as (E1 & E2 & E3 & E4 & E5).
    { specialize (Hns Hstop). destruct (tick_cases (with_timer None [] l)) as [[E _]|[(? & ? & E & _)|(E & _)]]; rewrite Hl1 in E; injection E as -> _; cbn; repeat split; done. }
    split; [left; cbn; rewrite E1, E2, E3; cbn; auto | cbn; rewrite E4, E5; split; [done | congruence]].
  - unfold settle_renewal in Hs. destruct (hb_pending l) as [[n []]|]; try discriminate Hs; injection Hs as <-. split; [exact Hone|]. split; [exact Hns|]. cbn. intros Hl. destruct (Hst Hl). auto.
  - unfold release_pending in Hs. destruct (hb_pending l) as [[n []]|]; try discriminate Hs; injection Hs as <-. split; [exact Hone|]. split; [exact Hns|]. cbn. intros Hl. destruct (Hst Hl). auto.
  - unfold end_round in Hs. destruct (hb_rounds l !! i) as [p|] eqn:Hi; [|done]. destruct (over _ _); [|done]. injection Hs as Hl'. subst l'.
    destruct Hone as [(Ha & Ht & Hr)|(u & Ha & Hu & Hr)]; [|by rewrite Hr in Hi].
    assert (Hd : delete i (hb_rounds l) = []) by (destruct (hb_rounds l) as [|q [|? ?]]; [done | by destruct i | cbn in Hr; lia]).
    rewrite Hd in *. destruct (hb_stopped l) eqn:Hl; cbn [negb andb].
    + split; [left; cbn; auto|]. cbn. rewrite Hl. split; [done|]. intros _. destruct (Hst eq_refl). auto.
    + destruct (negb (hb_failure l)); (split; [|cbn; rewrite Hl; split; [by rewrite Hns | done]]).
      * right. exists (hb_timers l). cbn. by rewrite Ha.
      * left. cbn. auto.
  - injection Hs as <-. split; [left|split; [done|]].
    + cbn. destruct Hone as [(-> & -> & ?)|(u & -> & -> & ->)]; cbn; [done|]. rewrite Nat.eqb_refl. cbn. auto with lia.
    + cbn. intros _. split.
      * destruct Hone as [(-> & -> & ?)|(u & -> & -> & _)]; cbn; [done|]. by rewrite Nat.eqb_refl.
      * apply List.Forall_cons; [destruct (hb_pending l) as [[n p]|]; cbn; auto|]. destruct (hb_stopped l) eqn:Hl; [by apply Hst | rewrite Hns by done; done].
  - unfold end_stop in Hs. destruct (hb_stops l !! i) as [p|] eqn:Hi; [|done]. destruct (over _ _); [|done]. injection Hs as <-.
    split; [exact Hone|]. cbn. split.
    + intros Hl. by rewrite Hns in Hi |- *.
    + intros Hl. destruct (Hst Hl) as [Ha Hall]. split; [done|]. by apply Forall_delete.
Qed.

Lemma stop_returns_silent i l l' : single l -> loop_step (Stop_returns i) l = Some l' -> silent l'.
Proof.
  intros (Hone & Hns & Hst) Hs. cbn in Hs. unfold end_stop in Hs. destruct (hb_stops l !! i) as [p|] eqn:Hi; [|done].
  destruct (over l p) eqn:Ho; [|done]. injection Hs as <-. destruct (hb_stopped l) eqn:Hl; [|by rewrite Hns in Hi].
  destruct (Hst eq_refl) as [Ha Hall]. split; [done|]. split; [exact Ha|]. cbn. rewrite Forall_lookup in Hall. specialize (Hall i p Hi).
  destruct p as [n|]; [|done]. destruct Hall as [Hp|Hp]; [done|]. cbn in Ho. rewrite bool_decide_true in Ho by done. done.
Qed.

Lemma silent_step a l l' : a <> Ticks -> loop_step a l = Some l' -> silent l -> silent l' /\ hb_renewals l' = hb_renewals l.
Proof.
  intros Hb Hs (Hl & Ha & Hp). destruct a as [ | |t|ok| |i| |i]; cbn [loop_step] in *; try done.
  - injection Hs as <-. unfold heartbeat_start. rewrite Hl, andb_false_r. done.
  - unfold fire in Hs. rewrite Ha in Hs. destruct (bool_decide_reflect (t ∈ [])) as [Ht|]; [by apply elem_of_nil in Ht | done].
  - unfold settle_renewal in Hs. by rewrite Hp in Hs.
  - unfold release_pending in Hs. by rewrite Hp in Hs.
  - unfold end_round in Hs. destruct (hb_rounds l !! i); [|done]. destruct (over _ _); [|done]. cbn in Hs. rewrite Hl in Hs. by injection Hs as <-.
  - injection Hs as <-. unfold silent, heartbeat_stop. cbn. rewrite Ha. by destruct (hb_timer l).
  - unfold end_stop in Hs. destruct (hb_stops l !! i); [|done]. destruct (over _ _); [|done]. by injection Hs as <-.
Qed.

Lemma silent_runs l labels l' : Runs l labels l' -> Forall (fun a => a <> Ticks) labels -> silent l -> silent l' /\ hb_renewals l' = hb_renewals l.
Proof.
  intros Hr Hn Hl. induction Hr as [|labels a l1 l2 _ IH Hs]; [done|]. apply Forall_app in Hn as [Hn Ha]. destruct (IH Hn) as [Hl1 <-].
  apply (silent_step a l1); [by inversion Ha | done | done].
Qed.

Lemma single_runs labels l : Runs (heartbeat_start new_HeartbeatLoop) labels l -> Forall (fun a => by_timer a = true) labels ->
  single l /\ ((exists i, Stop_returns i ∈ labels) -> silent l).
Proof.
  intros Hr Hn. induction Hr as [|labels a l1 l2 Hr1 IH Hs].
  { split; [exact single_start|]. by intros [i Hi%elem_of_nil]. }
  apply Forall_app in Hn as [Hn Ha]. apply List.Forall_inv in Ha. destruct (IH Hn) as [Hsingle Hsilent]. split; [by eapply single_step|].
  intros [i [Hi|Hi%list_elem_of_singleton]%elem_of_app].
  - eapply silent_step; [|exact Hs|apply Hsilent; by exists i]. by destruct a.
  - subst a. by eapply stop_returns_silent.
Qed.

(** C8: the heartbeat. However callbacks, continuations and calls interleave, renewals never
    overlap: all that were begun have settled but the one under way. A failed renewal is
    final: no later one begins, and every later check throws. When the loop was started once
    and is left to its timer, then once [stop] has returned no timer is armed and no renewal
    is under way, and none begins again, whatever happens but a call of [tick]. *)
Theorem heartbeat_serial labels l : Runs (heartbeat_start new_HeartbeatLoop) labels l ->
  hb_renewals l = (settled_renewals labels + renewing l)%nat /\
  (forall later l', hb_failure l = true -> Runs l later l' -> check l' = Err (harness LOCK_LOST) /\ hb_renewals l' = hb_renewals l) /\
  (Forall (fun a => by_timer a = true) labels -> (exists i, Stop_returns i ∈ labels) ->
   hb_armed l = [] /\ hb_pending l = None /\
   forall later l', Runs l later l' -> Forall (fun a => a <> Ticks) later -> hb_renewals l' = hb_renewals l).
Proof.
  intros Hr. split; [|split].
  - destruct (runs_renewals _ _ _ Hr) as [Hn _]. change (renewing (heartbeat_start new_HeartbeatLoop)) with 0%nat in Hn.
    change (hb_renewals (heartbeat_start new_HeartbeatLoop)) with 0%nat in Hn. lia.
  - intros later l' Hf Hl. destruct (runs_renewals _ _ _ Hl) as [_ Hs]. destruct (Hs Hf) as [Hf' ->]. unfold check. by rewrite Hf'.
  - intros Hn Hi. destruct (single_runs _ _ Hr Hn) as [_ Hsilent]. destruct (Hsilent Hi) as (Hl & Ha & Hp). split; [done|]. split; [done|].
    intros later l' Hlater Ht. by apply (silent_runs l later l').
Qed.

(** A run of the labels, when every one of them can happen. *)
Definition run_labels (labels : list Label) (l : Loop) : option Loop := foldl (fun o a => o ≫= loop_step a) (Some l) labels.
Lemma run_labels_sound labels l l' : run_labels labels l = Some l' -> Runs l labels l'.
Proof.
  unfold run_labels. revert l'. induction labels as [|a labels IH] using rev_ind; intros l'; [by intros [= <-]; constructor|].
  rewrite foldl_app. cbn [foldl]. intros (l1 & H1 & H2)%bind_Some. econstructor; [by apply IH | done].
Qed.

(** A second [start] while a renewal is under way arms a timer that [stop] does not clear: the
    loop renews after [stop] has returned. *)
Example second_start_survives : exists l,
  run_labels [Fires 0; Starts; Renewed true; Released; Round_ends 0; Stops; Stop_returns 0; Fires 1]%nat
    (heartbeat_start new_HeartbeatLoop) = Some l /\ hb_stopped l = true /\ renewing l = 1%nat.
Proof. eexists. split; [vm_compute; reflexivity | by vm_compute]. Qed.

Definition demo_labels : list Label := [Fires 0; Renewed true; Released; Round_ends 0; Fires 1; Stops; Renewed false; Released; Stop_returns 0]%nat.

Lemma heartbeat_serial_witness : exists l, run_labels demo_labels (heartbeat_start new_HeartbeatLoop) = Some l /\
  hb_renewals l = 2%nat /\ hb_armed l = [] /\ hb_pending l = None.
Proof.
  destruct (run_labels demo_labels (heartbeat_start new_HeartbeatLoop)) as [l|] eqn:Hl; [|vm_compute in Hl; discriminate].
  exists l. split; [reflexivity|]. destruct (heartbeat_serial demo_labels l (run_labels_sound _ _ _ Hl)) as (Hn & _ & Hs).
  split; [vm_compute in Hl; injection Hl as <-; reflexivity|].
  assert (Hlabels : Forall (fun a => by_timer a = true) demo_labels) by (repeat (apply List.Forall_cons; [reflexivity|]); apply List.Forall_nil).
  assert (Hreturns : exists i, Stop_returns i ∈ demo_labels) by (exists 0%nat; apply list_elem_of_In; vm_compute; tauto).
  destruct (Hs Hlabels Hreturns) as (Ha & Hp & _). exact (conj Ha Hp).
Defined.
