(* ===== verification/Json.v ===== *)
(** * Objects and JSON values

    [dict] is a JavaScript object used as a map: its entries in insertion order, distinct
    keys. [entries] lists them in the order of [Object.entries], where the array-index keys
    come first. [json] is a JSON value, [String_of_number] the conversion of a number to a
    string and [stringify] the text of [JSON.stringify]. *)

From S2P Require Import Prelude Js Number.

Local Open Scope Z_scope.

(** ** Objects *)
Definition dict (A : Type) : Type := list (string * A).

Fixpoint dict_get {A} (d : dict A) (k : string) : option A :=
  match d with
  | [] => None
  | (k', v) :: d' => if String.eqb k' k then Some v else dict_get d' k
  end.

(** [d[k] = v]: in place, or appended. *)
Fixpoint dict_set {A} (d : dict A) (k : string) (v : A) : dict A :=
  match d with
  | [] => [(k, v)]
  | (k', v') :: d' => if String.eqb k' k then (k, v) :: d' else (k', v') :: dict_set d' k v
  end.

(** [delete d[k]] *)
Fixpoint dict_delete {A} (d : dict A) (k : string) : dict A :=
  match d with
  | [] => []
  | (k', v') :: d' => if String.eqb k' k then d' else (k', v') :: dict_delete d' k
  end.

(** [{...d, ...d'}] *)
Definition dict_spread {A} (d d' : dict A) : dict A := foldl (fun acc kv => dict_set acc kv.1 kv.2) d d'.

Definition dict_keys {A} (d : dict A) : list string := map fst d.

Definition dict_wf {A} (d : dict A) : Prop := NoDup (dict_keys d).

(** An array index: the canonical decimal of an integer below 2^32 - 1. *)
Definition array_index (k : string) : option Z :=
  if truthy k && sforall is_digit k then
    let z := digits_val 0 k in
    if String.eqb (String_of_Z z) k && (z <? 4294967295) then Some z else None
  else None.

Fixpoint insert_entry {A} (z : Z) (e : string * A) (l : list (Z * (string * A))) : list (Z * (string * A)) :=
  match l with
  | [] => [(z, e)]
  | (z', e') :: l' => if z <? z' then (z, e) :: l else (z', e') :: insert_entry z e l'
  end.

(** [Object.entries(d)] *)
Definition entries {A} (d : dict A) : list (string * A) :=
  let indexed := foldl (fun acc e => match array_index e.1 with Some z => insert_entry z e acc | None => acc end) [] d in
  map snd indexed ++ filter (fun e => array_index e.1 = None) d.

Lemma dict_get_set {A} (d : dict A) k v : dict_get (dict_set d k v) k = Some v.
Proof.
  induction d as [|[k' v'] d IH]; cbn; [by rewrite String.eqb_refl|].
  destruct (String.eqb_spec k' k) as [->|]; cbn; [by rewrite String.eqb_refl|].
  destruct (String.eqb_spec k' k); [done | exact IH].
Qed.

Lemma dict_get_set_ne {A} (d : dict A) k k' v : k <> k' -> dict_get (dict_set d k v) k' = dict_get d k'.
Proof.
  intros Hne. induction d as [|[k0 v0] d IH]; cbn.
  - destruct (String.eqb_spec k k'); done.
  - destruct (String.eqb_spec k0 k) as [->|]; cbn.
    + by destruct (String.eqb_spec k k').
    + by rewrite IH.
Qed.

Lemma dict_get_elem {A} (d : dict A) k v : dict_get d k = Some v -> (k, v) ∈ d.
Proof.
  induction d as [|[k' v'] d IH]; cbn; [done|].
  destruct (String.eqb_spec k' k) as [->|]; [intros [= ->]; left | intros H; right; auto].
Qed.

Lemma elem_dict_get {A} (d : dict A) k v : dict_wf d -> (k, v) ∈ d -> dict_get d k = Some v.
Proof.
  unfold dict_wf. induction d as [|[k' v'] d IH]; cbn; [set_solver|].
  intros [Hn Hd]%NoDup_cons [[= <- <-]|Hin]%elem_of_cons; [by rewrite String.eqb_refl|].
  destruct (String.eqb_spec k' k) as [->|]; [|by apply IH].
  exfalso. apply Hn. apply list_elem_of_fmap. by exists (k, v).
Qed.

Lemma dict_keys_set {A} (d : dict A) k v :
  dict_keys (dict_set d k v) = if bool_decide (k ∈ dict_keys d) then dict_keys d else dict_keys d ++ [k].
Proof.
  induction d as [|[k' v'] d IH]; cbn; [done|].
  destruct (String.eqb_spec k' k) as [->|Hne]; cbn.
  - rewrite bool_decide_true by left. done.
  - change (k' :: dict_keys (dict_set d k v) = if bool_decide (k ∈ k' :: dict_keys d)
      then k' :: dict_keys d else k' :: dict_keys d ++ [k]).
    rewrite IH. destruct (decide (k ∈ dict_keys d)) as [Hin|Hin].
    + rewrite !bool_decide_true; [done | by right | done].
    + rewrite !bool_decide_false; [done | rewrite elem_of_cons; naive_solver | done].
Qed.

Lemma dict_set_wf {A} (d : dict A) k v : dict_wf d -> dict_wf (dict_set d k v).
Proof.
  unfold dict_wf. intros Hd. rewrite dict_keys_set. case_bool_decide as Hin; [done|].
  apply NoDup_app. split; [done|]. split; [|apply NoDup_singleton]. set_solver.
Qed.

Lemma dict_keys_delete {A} (d : dict A) k : dict_keys (dict_delete d k) `sublist_of` dict_keys d.
Proof. induction d as [|[k' v] d IH]; cbn; [done|]. destruct (String.eqb k' k); [by apply sublist_cons | by apply sublist_skip]. Qed.

Lemma dict_delete_wf {A} (d : dict A) k : dict_wf d -> dict_wf (dict_delete d k).
Proof. intros Hd. exact (sublist_NoDup _ _ Hd (dict_keys_delete d k)). Qed.

Lemma dict_get_None {A} (d : dict A) k : k ∉ dict_keys d -> dict_get d k = None.
Proof.
  induction d as [|[k' v] d IH]; cbn; [done|]. rewrite not_elem_of_cons. intros [Hk Hd]. destruct (String.eqb_spec k' k); [by subst | by apply IH].
Qed.

Lemma dict_get_delete {A} (d : dict A) k : dict_wf d -> dict_get (dict_delete d k) k = None.
Proof.
  induction d as [|[k' v] d IH]; cbn; [done|]. inversion 1 as [|? ? Hk Hd]; subst.
  destruct (String.eqb_spec k' k) as [->|Hne]; [by apply dict_get_None | cbn]. rewrite (proj2 (String.eqb_neq _ _) Hne). by apply IH.
Qed.

Lemma dict_get_delete_ne {A} (d : dict A) k k' : k <> k' -> dict_get (dict_delete d k) k' = dict_get d k'.
Proof.
  intros Hne. induction d as [|[k0 v] d IH]; cbn; [done|]. destruct (String.eqb_spec k0 k) as [->|]; cbn.
  - by rewrite (proj2 (String.eqb_neq _ _) Hne).
  - by rewrite IH.
Qed.

Lemma dict_spread_wf {A} (d d' : dict A) : dict_wf d -> dict_wf (dict_spread d d').
Proof. unfold dict_spread. revert d. induction d' as [|[k v] d' IH]; cbn; [done|]. intros d Hd. apply IH, dict_set_wf, Hd. Qed.

(** ** JSON *)
Inductive json : Type :=
| JNull
| JBool (b : bool)
| JNum (n : number)
| JStr (s : string)
| JArr (l : list json)
| JObj (d : list (string * json)).

Definition json_str (v : json) : option string := match v with JStr s => Some s | _ => None end.
Definition json_obj (v : json) : option (dict json) := match v with JObj d => Some d | _ => None end.
Definition json_num (v : json) : option number := match v with JNum n => Some n | _ => None end.

(** A string that names one of the values, and a string member. *)
Definition named {A} (name : A -> string) (l : list A) (v : option json) : option A :=
  match v with Some (JStr s) => find_first (fun a => String.eqb (name a) s) l | _ => None end.
Definition text_field (d : dict json) (k : string) : option string := base.mbind json_str (dict_get d k).
Definition same_text (d : dict json) (k v : string) : bool := match text_field d k with Some s => String.eqb s v | None => false end.

(** [Boolean(v)] *)
Definition json_truthy (v : json) : bool :=
  match v with
  | JNull => false
  | JBool b => b
  | JNum n => negb (bool_decide (n = Int 0) || bool_decide (n = NaN))
  | JStr s => truthy s
  | _ => true
  end.

(** ** Numbers as text *)

(** The position of the decimal point of [a/p > 0]: the least [n] with [a/p < 10^n]. *)
Fixpoint point_from (fuel : nat) (n : Z) (a p : Z) : Z :=
  match fuel with
  | O => n
  | S f =>
      let below := if 0 <=? n then a <? p * 10 ^ n else a * 10 ^ (- n) <? p in
      if below then n else point_from f (n + 1) a p
  end.
Definition point_of (a p : Z) : Z := point_from 640 (-324) a p.

(** [s * 10^e] as a number. *)
Definition scaled (s e : Z) : number := if 0 <=? e then round_ratio (s * 10 ^ e) 1 else round_ratio s (10 ^ (- e)).

(** The shortest decimal [s] of [k] digits that reads back as the number, the closest first. *)
Fixpoint shortest (fuel : nat) (k n a p : Z) : Z * Z * Z :=
  let e := k - n in
  let lo := if 0 <=? e then a * 10 ^ e / p else a / (p * 10 ^ (- e)) in
  let twice := if 0 <=? e then 2 * (a * 10 ^ e) - (2 * lo + 1) * p else 2 * a - (2 * lo + 1) * (p * 10 ^ (- e)) in
  let '(s1, s2) := if 0 <=? twice then (lo + 1, lo) else (lo, lo + 1) in
  let x := round_ratio a p in
  let ok s := bool_decide (scaled s (- e) = x) in
  match fuel with
  | O => (s1, k, n)
  | S f => if ok s1 then (s1, k, n) else if ok s2 then (s2, k, n) else shortest f (k + 1) n a p
  end.

Definition exponent_text (digits : string) (n : Z) : string :=
  let e := n - 1 in
  let sign := if 0 <=? e then "+"%string else "-"%string in
  let mant := match digits with
              | String d EmptyString => String d ""
              | String d r => String d (String "." r)
              | EmptyString => ""%string
              end in
  (mant +:+ "e" +:+ sign +:+ String_of_Z (Z.abs e))%string.

(** Number::toString of a positive finite number. *)
Definition positive_text (a p : Z) : string :=
  let '(s, k, n) := shortest 17 1 (point_of a p) a p in
  let '(s, n) := if s =? 10 ^ k then (1, n + 1) else (s, n) in
  let digits := String_of_Z s in
  let k := Z.of_nat (String.length digits) in
  if (k <=? n) && (n <=? 21) then (digits +:+ repeat_str (Z.to_nat (n - k)) "0")%string
  else if (0 <? n) && (n <=? 21) then
    (take_str (Z.to_nat n) digits +:+ "." +:+ drop_str (Z.to_nat n) digits)%string
  else if (-6 <? n) && (n <=? 0) then ("0." +:+ repeat_str (Z.to_nat (- n)) "0" +:+ digits)%string
  else exponent_text digits n.

Definition String_of_number (x : number) : string :=
  match x with
  | NaN => "NaN"%string
  | Infinity => "Infinity"%string
  | NegInfinity => "-Infinity"%string
  | _ =>
      match frac x with
      | Some (a, p) =>
          if a =? 0 then "0"%string
          else if 0 <? a then positive_text a p else String "-" (positive_text (- a) p)
      | None => ""%string
      end
  end.

(** ** JSON text *)
Definition hex4 (c : ascii) : string :=
  let digit (z : Z) := unit_of (if z <? 10 then 48 + z else 87 + z) in
  String "\" (String "u" (String "0" (String "0" (String (digit (code c / 16)) (String (digit (code c mod 16)) ""))))).

Definition quote_char (c : ascii) : string :=
  if Ascii.eqb c (unit_of 34) then String "\" (String (unit_of 34) "")
  else if Ascii.eqb c "\"%char then "\\"%string
  else if Ascii.eqb c (unit_of 8) then "\b"%string
  else if Ascii.eqb c (unit_of 12) then "\f"%string
  else if Ascii.eqb c (unit_of 10) then "\n"%string
  else if Ascii.eqb c (unit_of 13) then "\r"%string
  else if Ascii.eqb c (unit_of 9) then "\t"%string
  else if code c <? 32 then hex4 c
  else String c "".

Fixpoint quote_body (s : string) : string :=
  match s with EmptyString => EmptyString | String c s' => (quote_char c +:+ quote_body s')%string end.
Definition quote (s : string) : string := String (unit_of 34) (quote_body s +:+ String (unit_of 34) "")%string.

(** [JSON.stringify(v, null, gap)]: [gap] is the indentation of one level, [""] for none. *)
Fixpoint stringify (gap ind : string) (v : json) : string :=
  match v with
  | JNull => "null"%string
  | JBool b => if b then "true"%string else "false"%string
  | JNum n => if isFinite n then String_of_number n else "null"%string
  | JStr s => quote s
  | JArr l =>
      let ind' := (ind +:+ gap)%string in
      let items := map (stringify gap ind') l in
      match items with
      | [] => "[]"%string
      | _ => if truthy gap
             then ("[" +:+ String (unit_of 10) ind' +:+ join ("," +:+ String (unit_of 10) ind') items
                   +:+ String (unit_of 10) ind +:+ "]")%string
             else ("[" +:+ join "," items +:+ "]")%string
      end
  | JObj d =>
      let ind' := (ind +:+ gap)%string in
      let sep := if truthy gap then ": "%string else ":"%string in
      let items := map (fun kv => (quote kv.1 +:+ sep +:+ kv.2)%string)
                     (entries (map (fun kv => (kv.1, stringify gap ind' kv.2)) d)) in
      match items with
      | [] => "{}"%string
      | _ => if truthy gap
             then ("{" +:+ String (unit_of 10) ind' +:+ join ("," +:+ String (unit_of 10) ind') items
                   +:+ String (unit_of 10) ind +:+ "}")%string
             else ("{" +:+ join "," items +:+ "}")%string
      end
  end.

(** [String(v)]; an absent element of an array prints as the empty string. *)
Fixpoint String_of_json (v : json) : string :=
  match v with
  | JNull => "null"%string
  | JBool b => if b then "true"%string else "false"%string
  | JNum n => String_of_number n
  | JStr s => s
  | JArr l => join "," (map (fun x => match x with JNull => ""%string | _ => String_of_json x end) l)
  | JObj _ => "[object Object]"%string
  end.

Example text_tenth : String_of_number (Dyadic 3602879701896397 55) = "0.1"%string.
Proof. vm_compute. reflexivity. Qed.
Example text_numbers : map String_of_number [Int 0; Int 1024; Int (-7); Dyadic 5 1; Int (10 ^ 21); scaled 15 (-8)]
  = ["0"; "1024"; "-7"; "2.5"; "1e+21"; "1.5e-7"]%string.
Proof. vm_compute. reflexivity. Qed.
Example text_object : stringify "" "" (JObj [("b", JNum (Int 1)); ("a", JArr [JNull; JStr "x"]); ("7", JBool true)])
  = ("{" +:+ quote "7" +:+ ":true," +:+ quote "b" +:+ ":1," +:+ quote "a" +:+ ":[null," +:+ quote "x" +:+ "]}")%string.
Proof. vm_compute. reflexivity. Qed.

(** [x.toFixed(f)] of any number. *)
Definition num_toFixed (f : nat) (x : number) : string :=
  match frac x with
  | Some (a, p) =>
      if 10 ^ 21 * p <=? Z.abs a then String_of_number x
      else if a <? 0 then
        let s := toFixed f (neg_number x) in String "-" s
      else toFixed f x
  | None => String_of_number x
  end.

(** ** Conversion to a number *)

Definition radix_digit (c : ascii) : option Z :=
  if is_digit c then Some (code c - 48)
  else if in_range "a" "f" c then Some (code c - 87)
  else if in_range "A" "F" c then Some (code c - 55)
  else None.

Fixpoint radix_val (b acc : Z) (s : string) : option Z :=
  match s with
  | EmptyString => Some acc
  | String c s' =>
      match radix_digit c with
      | Some v => if v <? b then radix_val b (acc * b + v) s' else None
      | None => None
      end
  end.

(** [digits[.digits][e[+-]digits]] or [.digits...], at least one digit before the exponent. *)
Definition unsigned_decimal (s : string) : option number :=
  let '(ip, r) := span is_digit s in
  let '(fp, r) := match r with String "." r' => span is_digit r' | _ => (""%string, r) end in
  if negb (truthy ip) && negb (truthy fp) then None
  else
    let m := digits_val (digits_val 0 ip) fp in
    let k := Z.of_nat (String.length fp) in
    match r with
    | EmptyString => Some (scaled m (- k))
    | String e r' =>
        if Ascii.eqb e "e" || Ascii.eqb e "E" then
          let '(neg, ds) := match r' with
                            | String "-" d => (true, d)
                            | String "+" d => (false, d)
                            | _ => (false, r')
                            end in
          if truthy ds && sforall is_digit ds
          then Some (scaled m ((if neg then - digits_val 0 ds else digits_val 0 ds) - k)) else None
        else None
    end.

(** [Number(s)] *)
Definition Number_of_string (s : string) : number :=
  let t := trim s in
  let radix b r := match radix_val b 0 r with Some v => if truthy r then round_ratio v 1 else NaN | None => NaN end in
  match t with
  | EmptyString => Int 0
  | String "0" (String c r) =>
      if Ascii.eqb c "x" || Ascii.eqb c "X" then radix 16 r
      else if Ascii.eqb c "o" || Ascii.eqb c "O" then radix 8 r
      else if Ascii.eqb c "b" || Ascii.eqb c "B" then radix 2 r
      else match unsigned_decimal t with Some n => n | None => NaN end
  | _ =>
      let '(neg, u) := match t with String "-" u => (true, u) | String "+" u => (false, u) | _ => (false, t) end in
      let n := if String.eqb u "Infinity" then Some Infinity else unsigned_decimal u in
      match n with Some n => if neg then neg_number n else n | None => NaN end
  end.

(** [Number(v)] *)
Definition Number_of_json (v : json) : number :=
  match v with
  | JNull => Int 0
  | JBool b => if b then Int 1 else Int 0
  | JNum n => n
  | JStr s => Number_of_string s
  | _ => Number_of_string (String_of_json v)
  end.

Example number_texts : map Number_of_string ["12"; " 0x1F "; "-2.5e1"; ".5"; "1e400"; "12a"; ""; "-Infinity"]%string
  = [Int 12; Int 31; Int (-25); Dyadic 1 1; Infinity; NaN; Int 0; NegInfinity].
Proof. vm_compute. reflexivity. Qed.
