(* ===== verification/Contracts.v ===== *)
(** * The dashboard's data contracts (packages/contracts/src/index.ts)

    One record per interface, one inductive type per union of literals ([literal] gives the
    value a constructor has on the wire), in the order of their dependencies. A field [f] of
    the interface [I] is [I_f]; an optional field is an [option]; an inline object or union is
    the type [I_f_t]; a nullable type is an [option]; [I_super] is the interface extended;
    [I_extra] holds the keys of an index signature. *)

From S2P Require Import Prelude Js Number Json.

Local Open Scope string_scope.
Local Open Scope Z_scope.

(** The JSON value of a literal type. *)
Class Literal (A : Type) : Type := literal : A -> json.
Definition literal_name {A} `{Literal A} (x : A) : string := match literal x with JStr s => s | _ => EmptyString end.

Inductive RegressionOutcome : Type := RegressionOutcome_Passed | RegressionOutcome_Failed |
  RegressionOutcome_Blocked.
#[export] Instance RegressionOutcome_literal : Literal RegressionOutcome := fun x => match x with
  RegressionOutcome_Passed => JStr "Passed" | RegressionOutcome_Failed => JStr "Failed" |
  RegressionOutcome_Blocked => JStr "Blocked" end.
#[export] Instance RegressionOutcome_eq_dec : EqDecision RegressionOutcome.
Proof. solve_decision. Defined.

Inductive RegressionPhase : Type := RegressionPhase_0 | RegressionPhase_1 | RegressionPhase_2 |
  RegressionPhase_3 | RegressionPhase_4 | RegressionPhase_5 | RegressionPhase_6 | RegressionPhase_7 |
  RegressionPhase_8.
#[export] Instance RegressionPhase_literal : Literal RegressionPhase := fun x => match x with
  RegressionPhase_0 => JNum (Int 0) | RegressionPhase_1 => JNum (Int 1) | RegressionPhase_2 => JNum (Int 2) |
  RegressionPhase_3 => JNum (Int 3) | RegressionPhase_4 => JNum (Int 4) | RegressionPhase_5 => JNum (Int 5) |
  RegressionPhase_6 => JNum (Int 6) | RegressionPhase_7 => JNum (Int 7) | RegressionPhase_8 => JNum (Int 8)
  end.
#[export] Instance RegressionPhase_eq_dec : EqDecision RegressionPhase.
Proof. solve_decision. Defined.

Inductive RegressionTestMode : Type := RegressionTestMode_non_destructive | RegressionTestMode_full.
#[export] Instance RegressionTestMode_literal : Literal RegressionTestMode := fun x => match x with
  RegressionTestMode_non_destructive => JStr "non-destructive" | RegressionTestMode_full => JStr "full" end.
#[export] Instance RegressionTestMode_eq_dec : EqDecision RegressionTestMode.
Proof. solve_decision. Defined.

Record RegressionPreflightLogTarget : Type := mk_RegressionPreflightLogTarget {
  RegressionPreflightLogTarget_namespace : string;
  RegressionPreflightLogTarget_deployment : string;
  RegressionPreflightLogTarget_container : string;
  RegressionPreflightLogTarget_deploymentUid : string;
  RegressionPreflightLogTarget_generation : number;
  RegressionPreflightLogTarget_podUid : string
}.

Inductive RegressionPreflightLogs_version_t : Type := RegressionPreflightLogs_version_t_1.
#[export] Instance RegressionPreflightLogs_version_t_literal : Literal RegressionPreflightLogs_version_t :=
  fun x => match x with RegressionPreflightLogs_version_t_1 => JNum (Int 1) end.
#[export] Instance RegressionPreflightLogs_version_t_eq_dec : EqDecision RegressionPreflightLogs_version_t.
Proof. solve_decision. Defined.

Record RegressionPreflightLogs_streams_t : Type := mk_RegressionPreflightLogs_streams_t {
  RegressionPreflightLogs_streams_t_previous : bool;
  RegressionPreflightLogs_streams_t_text : string
}.

Record RegressionPreflightLogs : Type := mk_RegressionPreflightLogs {
  RegressionPreflightLogs_version : RegressionPreflightLogs_version_t;
  RegressionPreflightLogs_streams : list RegressionPreflightLogs_streams_t
}.

Inductive RegressionStartRequest_acknowledgeDisruption_t : Type :=
  RegressionStartRequest_acknowledgeDisruption_t_true.
#[export] Instance RegressionStartRequest_acknowledgeDisruption_t_literal : Literal
  RegressionStartRequest_acknowledgeDisruption_t := fun x => match x with
  RegressionStartRequest_acknowledgeDisruption_t_true => JBool true end.
#[export] Instance RegressionStartRequest_acknowledgeDisruption_t_eq_dec : EqDecision RegressionStartRequest_acknowledgeDisruption_t.
Proof. solve_decision. Defined.

Record RegressionStartRequest : Type := mk_RegressionStartRequest {
  RegressionStartRequest_requestId : string;
  RegressionStartRequest_acknowledgeDisruption : RegressionStartRequest_acknowledgeDisruption_t;
  RegressionStartRequest_phases : option (list RegressionPhase);
  RegressionStartRequest_testMode : option RegressionTestMode;
  RegressionStartRequest_diagnosticSelection : option string
}.

Inductive RegressionDiagnosticSelection_phase_t : Type := RegressionDiagnosticSelection_phase_t_2 |
  RegressionDiagnosticSelection_phase_t_3 | RegressionDiagnosticSelection_phase_t_4.
#[export] Instance RegressionDiagnosticSelection_phase_t_literal : Literal
  RegressionDiagnosticSelection_phase_t := fun x => match x with RegressionDiagnosticSelection_phase_t_2 =>
  JNum (Int 2) | RegressionDiagnosticSelection_phase_t_3 => JNum (Int 3) |
  RegressionDiagnosticSelection_phase_t_4 => JNum (Int 4) end.
#[export] Instance RegressionDiagnosticSelection_phase_t_eq_dec : EqDecision RegressionDiagnosticSelection_phase_t.
Proof. solve_decision. Defined.

Record RegressionDiagnosticSelection : Type := mk_RegressionDiagnosticSelection {
  RegressionDiagnosticSelection_id : string;
  RegressionDiagnosticSelection_title : string;
  RegressionDiagnosticSelection_caseIds : list string;
  RegressionDiagnosticSelection_phase : option RegressionDiagnosticSelection_phase_t
}.

Record RegressionCounts : Type := mk_RegressionCounts {
  RegressionCounts_Passed : number;
  RegressionCounts_Failed : number;
  RegressionCounts_Blocked : number
}.

Inductive RegressionCleanup_state_t : Type := RegressionCleanup_state_t_unknown |
  RegressionCleanup_state_t_required | RegressionCleanup_state_t_running | RegressionCleanup_state_t_verified
  | RegressionCleanup_state_t_blocked.
#[export] Instance RegressionCleanup_state_t_literal : Literal RegressionCleanup_state_t := fun x => match x
  with RegressionCleanup_state_t_unknown => JStr "unknown" | RegressionCleanup_state_t_required => JStr
  "required" | RegressionCleanup_state_t_running => JStr "running" | RegressionCleanup_state_t_verified =>
  JStr "verified" | RegressionCleanup_state_t_blocked => JStr "blocked" end.
#[export] Instance RegressionCleanup_state_t_eq_dec : EqDecision RegressionCleanup_state_t.
Proof. solve_decision. Defined.

Record RegressionCleanup : Type := mk_RegressionCleanup {
  RegressionCleanup_state : RegressionCleanup_state_t;
  RegressionCleanup_checkedAt : option string;
  RegressionCleanup_reason : option string;
  RegressionCleanup_stage : option string
}.

Inductive RegressionBlockedKind : Type := RegressionBlockedKind_prerequisite | RegressionBlockedKind_failure |
  RegressionBlockedKind_cancelled | RegressionBlockedKind_unknown.
#[export] Instance RegressionBlockedKind_literal : Literal RegressionBlockedKind := fun x => match x with
  RegressionBlockedKind_prerequisite => JStr "prerequisite" | RegressionBlockedKind_failure => JStr "failure"
  | RegressionBlockedKind_cancelled => JStr "cancelled" | RegressionBlockedKind_unknown => JStr "unknown" end.
#[export] Instance RegressionBlockedKind_eq_dec : EqDecision RegressionBlockedKind.
Proof. solve_decision. Defined.

Record RegressionBlockedCounts : Type := mk_RegressionBlockedCounts {
  RegressionBlockedCounts_prerequisite : number;
  RegressionBlockedCounts_failure : number;
  RegressionBlockedCounts_cancelled : number;
  RegressionBlockedCounts_unknown : number
}.

Record RegressionBlocker : Type := mk_RegressionBlocker {
  RegressionBlocker_kind : RegressionBlockedKind;
  RegressionBlocker_reason : option string;
  RegressionBlocker_caseId : option string;
  RegressionBlocker_stage : option string;
  RegressionBlocker_executionId : option string;
  RegressionBlocker_traceRunId : option string
}.

Record RegressionProgress : Type := mk_RegressionProgress {
  RegressionProgress_percent : option number;
  RegressionProgress_completedPhases : option number;
  RegressionProgress_totalPhases : option number;
  RegressionProgress_currentPhase : option number;
  RegressionProgress_step : option string;
  RegressionProgress_currentTest : option string;
  RegressionProgress_testIndex : option number;
  RegressionProgress_testTotal : option number;
  RegressionProgress_executionCounts : option RegressionCounts;
  RegressionProgress_executionBlockedCounts : option RegressionBlockedCounts
}.

Record RegressionResult_evidenceCounts_t : Type := mk_RegressionResult_evidenceCounts_t {
  RegressionResult_evidenceCounts_t_fixture : RegressionCounts;
  RegressionResult_evidenceCounts_t_live : RegressionCounts
}.

Inductive RegressionResult_preparation_t_version_t : Type := RegressionResult_preparation_t_version_t_1.
#[export] Instance RegressionResult_preparation_t_version_t_literal : Literal
  RegressionResult_preparation_t_version_t := fun x => match x with RegressionResult_preparation_t_version_t_1
  => JNum (Int 1) end.
#[export] Instance RegressionResult_preparation_t_version_t_eq_dec : EqDecision RegressionResult_preparation_t_version_t.
Proof. solve_decision. Defined.

Record RegressionResult_preparation_t : Type := mk_RegressionResult_preparation_t {
  RegressionResult_preparation_t_version : RegressionResult_preparation_t_version_t;
  RegressionResult_preparation_t_outcome : RegressionOutcome;
  RegressionResult_preparation_t_reason : option string;
  RegressionResult_preparation_t_setupStage : option string;
  RegressionResult_preparation_t_detail : option string;
  RegressionResult_preparation_t_message : string;
  RegressionResult_preparation_t_action : option string;
  RegressionResult_preparation_t_recoveredRunIds : option (list string)
}.

Record RegressionResult_phases_t : Type := mk_RegressionResult_phases_t {
  RegressionResult_phases_t_phase : number;
  RegressionResult_phases_t_outcome : RegressionOutcome;
  RegressionResult_phases_t_counts : RegressionCounts;
  RegressionResult_phases_t_executionCounts : RegressionCounts;
  RegressionResult_phases_t_blockedCounts : option RegressionBlockedCounts;
  RegressionResult_phases_t_executionBlockedCounts : option RegressionBlockedCounts
}.

Record RegressionResult_cases_t : Type := mk_RegressionResult_cases_t {
  RegressionResult_cases_t_id : string;
  RegressionResult_cases_t_description : option string;
  RegressionResult_cases_t_outcome : RegressionOutcome;
  RegressionResult_cases_t_layer : string;
  RegressionResult_cases_t_variant : string;
  RegressionResult_cases_t_reason : string;
  RegressionResult_cases_t_message : string;
  RegressionResult_cases_t_action : string;
  RegressionResult_cases_t_durationMs : number;
  RegressionResult_cases_t_phase : option number;
  RegressionResult_cases_t_stage : option string;
  RegressionResult_cases_t_traceRunId : option string;
  RegressionResult_cases_t_executionId : option string;
  RegressionResult_cases_t_tracePath : option string;
  RegressionResult_cases_t_blockedBy : option RegressionBlocker;
  RegressionResult_cases_t_causeReason : option string;
  RegressionResult_cases_t_causeStage : option string;
  RegressionResult_cases_t_diagnostics : option (list string)
}.

Record RegressionResult : Type := mk_RegressionResult {
  RegressionResult_diagnosticSelection : option RegressionDiagnosticSelection;
  RegressionResult_cleanup : option RegressionCleanup;
  RegressionResult_testMode : option RegressionTestMode;
  RegressionResult_excludedSteps : option (list string);
  RegressionResult_counts : RegressionCounts;
  RegressionResult_executionCounts : RegressionCounts;
  RegressionResult_recoveryRequired : bool;
  RegressionResult_omittedCases : number;
  RegressionResult_blockedCounts : option RegressionBlockedCounts;
  RegressionResult_executionBlockedCounts : option RegressionBlockedCounts;
  RegressionResult_evidenceCounts : option RegressionResult_evidenceCounts_t;
  RegressionResult_preparation : option RegressionResult_preparation_t;
  RegressionResult_phases : list RegressionResult_phases_t;
  RegressionResult_cases : list RegressionResult_cases_t
}.

Inductive RegressionRun_phase_t : Type := RegressionRun_phase_t_RegressionOutcome (x : RegressionOutcome).

Inductive RegressionRun_operation_t : Type := RegressionRun_operation_t_tests |
  RegressionRun_operation_t_recover_lock.
#[export] Instance RegressionRun_operation_t_literal : Literal RegressionRun_operation_t := fun x => match x
  with RegressionRun_operation_t_tests => JStr "tests" | RegressionRun_operation_t_recover_lock => JStr
  "recover-lock" end.
#[export] Instance RegressionRun_operation_t_eq_dec : EqDecision RegressionRun_operation_t.
Proof. solve_decision. Defined.

Record RegressionRun : Type := mk_RegressionRun {
  RegressionRun_diagnosticSelection : option string;
  RegressionRun_cleanup : option RegressionCleanup;
  RegressionRun_testMode : option RegressionTestMode;
  RegressionRun_id : string;
  RegressionRun_uid : string;
  RegressionRun_createdAt : string;
  RegressionRun_phases : list number;
  RegressionRun_sourceRevision : string;
  RegressionRun_phase : RegressionRun_phase_t;
  RegressionRun_message : string;
  RegressionRun_progress : RegressionProgress;
  RegressionRun_result : option (option RegressionResult);
  RegressionRun_reportAvailable : bool;
  RegressionRun_credentialsCleaned : bool;
  RegressionRun_startedAt : option string;
  RegressionRun_finishedAt : option string;
  RegressionRun_operation : option RegressionRun_operation_t
}.

Inductive RegressionStatus_diagnosticSelections_t_phase_t : Type :=
  RegressionStatus_diagnosticSelections_t_phase_t_2 | RegressionStatus_diagnosticSelections_t_phase_t_3 |
  RegressionStatus_diagnosticSelections_t_phase_t_4.
#[export] Instance RegressionStatus_diagnosticSelections_t_phase_t_literal : Literal
  RegressionStatus_diagnosticSelections_t_phase_t := fun x => match x with
  RegressionStatus_diagnosticSelections_t_phase_t_2 => JNum (Int 2) |
  RegressionStatus_diagnosticSelections_t_phase_t_3 => JNum (Int 3) |
  RegressionStatus_diagnosticSelections_t_phase_t_4 => JNum (Int 4) end.
#[export] Instance RegressionStatus_diagnosticSelections_t_phase_t_eq_dec : EqDecision RegressionStatus_diagnosticSelections_t_phase_t.
Proof. solve_decision. Defined.

Record RegressionStatus_diagnosticSelections_t : Type := mk_RegressionStatus_diagnosticSelections_t {
  RegressionStatus_diagnosticSelections_t_super :> RegressionDiagnosticSelection;
  RegressionStatus_diagnosticSelections_t_phase : RegressionStatus_diagnosticSelections_t_phase_t
}.

Record RegressionStatus_cleanup_t : Type := mk_RegressionStatus_cleanup_t {
  RegressionStatus_cleanup_t_available : bool;
  RegressionStatus_cleanup_t_message : string;
  RegressionStatus_cleanup_t_revision : option string;
  RegressionStatus_cleanup_t_runId : option string;
  RegressionStatus_cleanup_t_released : option bool
}.

Inductive RegressionStatus_lock_t_state_t : Type := RegressionStatus_lock_t_state_t_free |
  RegressionStatus_lock_t_state_t_active | RegressionStatus_lock_t_state_t_stale |
  RegressionStatus_lock_t_state_t_blocked.
#[export] Instance RegressionStatus_lock_t_state_t_literal : Literal RegressionStatus_lock_t_state_t := fun x
  => match x with RegressionStatus_lock_t_state_t_free => JStr "free" | RegressionStatus_lock_t_state_t_active
  => JStr "active" | RegressionStatus_lock_t_state_t_stale => JStr "stale" |
  RegressionStatus_lock_t_state_t_blocked => JStr "blocked" end.
#[export] Instance RegressionStatus_lock_t_state_t_eq_dec : EqDecision RegressionStatus_lock_t_state_t.
Proof. solve_decision. Defined.

Record RegressionStatus_lock_t : Type := mk_RegressionStatus_lock_t {
  RegressionStatus_lock_t_state : RegressionStatus_lock_t_state_t;
  RegressionStatus_lock_t_canRecover : bool;
  RegressionStatus_lock_t_message : string;
  RegressionStatus_lock_t_revision : option string;
  RegressionStatus_lock_t_runId : option string
}.

Inductive RegressionStatus_executionLocation_t : Type :=
  RegressionStatus_executionLocation_t_appliance_kubernetes.
#[export] Instance RegressionStatus_executionLocation_t_literal : Literal RegressionStatus_executionLocation_t
  := fun x => match x with RegressionStatus_executionLocation_t_appliance_kubernetes => JStr
  "appliance-kubernetes" end.
#[export] Instance RegressionStatus_executionLocation_t_eq_dec : EqDecision RegressionStatus_executionLocation_t.
Proof. solve_decision. Defined.

Record RegressionStatus : Type := mk_RegressionStatus {
  RegressionStatus_diagnosticSelections : option (list RegressionStatus_diagnosticSelections_t);
  RegressionStatus_registered : bool;
  RegressionStatus_applianceUid : string;
  RegressionStatus_runtimeAvailable : bool;
  RegressionStatus_sourceRevision : string;
  RegressionStatus_message : string;
  RegressionStatus_recoveryAvailable : option bool;
  RegressionStatus_cleanup : option RegressionStatus_cleanup_t;
  RegressionStatus_lock : option RegressionStatus_lock_t;
  RegressionStatus_runs : list RegressionRun;
  RegressionStatus_executionLocation : RegressionStatus_executionLocation_t;
  RegressionStatus_externalRunnerRequired : list string
}.

Inductive LicenseClaims_edition_t : Type := LicenseClaims_edition_t_free_registered |
  LicenseClaims_edition_t_commercial.
#[export] Instance LicenseClaims_edition_t_literal : Literal LicenseClaims_edition_t := fun x => match x with
  LicenseClaims_edition_t_free_registered => JStr "free-registered" | LicenseClaims_edition_t_commercial =>
  JStr "commercial" end.
#[export] Instance LicenseClaims_edition_t_eq_dec : EqDecision LicenseClaims_edition_t.
Proof. solve_decision. Defined.

Inductive LicenseClaims_version_t : Type := LicenseClaims_version_t_1.
#[export] Instance LicenseClaims_version_t_literal : Literal LicenseClaims_version_t := fun x => match x with
  LicenseClaims_version_t_1 => JNum (Int 1) end.
#[export] Instance LicenseClaims_version_t_eq_dec : EqDecision LicenseClaims_version_t.
Proof. solve_decision. Defined.

Inductive LicenseClaims_product_t : Type := LicenseClaims_product_t_magicstick.
#[export] Instance LicenseClaims_product_t_literal : Literal LicenseClaims_product_t := fun x => match x with
  LicenseClaims_product_t_magicstick => JStr "magicstick" end.
#[export] Instance LicenseClaims_product_t_eq_dec : EqDecision LicenseClaims_product_t.
Proof. solve_decision. Defined.

Inductive LicenseClaims_issuer_t : Type := LicenseClaims_issuer_t_magicstick.
#[export] Instance LicenseClaims_issuer_t_literal : Literal LicenseClaims_issuer_t := fun x => match x with
  LicenseClaims_issuer_t_magicstick => JStr "magicstick" end.
#[export] Instance LicenseClaims_issuer_t_eq_dec : EqDecision LicenseClaims_issuer_t.
Proof. solve_decision. Defined.

Record LicenseClaims : Type := mk_LicenseClaims {
  LicenseClaims_edition : LicenseClaims_edition_t;
  LicenseClaims_version : LicenseClaims_version_t;
  LicenseClaims_product : LicenseClaims_product_t;
  LicenseClaims_issuer : LicenseClaims_issuer_t;
  LicenseClaims_licenseId : string;
  LicenseClaims_customer : string;
  LicenseClaims_issuedAt : number;
  LicenseClaims_notBefore : number;
  LicenseClaims_expiresAt : number;
  LicenseClaims_features : list string;
  LicenseClaims_installationId : option string
}.

Record LicenseVerification : Type := mk_LicenseVerification {
  LicenseVerification_state : string;
  LicenseVerification_message : string;
  LicenseVerification_valid : bool;
  LicenseVerification_claims : option LicenseClaims;
  LicenseVerification_keyId : option string
}.

Inductive LicenseStatus_edition_t : Type := LicenseStatus_edition_t_free |
  LicenseStatus_edition_t_free_registered | LicenseStatus_edition_t_commercial.
#[export] Instance LicenseStatus_edition_t_literal : Literal LicenseStatus_edition_t := fun x => match x with
  LicenseStatus_edition_t_free => JStr "free" | LicenseStatus_edition_t_free_registered => JStr
  "free-registered" | LicenseStatus_edition_t_commercial => JStr "commercial" end.
#[export] Instance LicenseStatus_edition_t_eq_dec : EqDecision LicenseStatus_edition_t.
Proof. solve_decision. Defined.

Record LicenseStatus_features_t : Type := mk_LicenseStatus_features_t {
  LicenseStatus_features_t_id : string;
  LicenseStatus_features_t_name : string;
  LicenseStatus_features_t_licensed : bool;
  LicenseStatus_features_t_implemented : bool;
  LicenseStatus_features_t_available : bool;
  LicenseStatus_features_t_reason : string
}.

Record LicenseStatus : Type := mk_LicenseStatus {
  LicenseStatus_super :> LicenseVerification;
  LicenseStatus_edition : LicenseStatus_edition_t;
  LicenseStatus_installationId : string;
  LicenseStatus_revision : string;
  LicenseStatus_checkedAt : number;
  LicenseStatus_trustedKeyIds : list string;
  LicenseStatus_hasDocument : bool;
  LicenseStatus_features : list LicenseStatus_features_t
}.

Record LicensePreview : Type := mk_LicensePreview {
  LicensePreview_candidate : LicenseVerification;
  LicensePreview_current : LicenseStatus
}.

Inductive LicenseRequestInput_edition_t : Type := LicenseRequestInput_edition_t_free_registered |
  LicenseRequestInput_edition_t_commercial.
#[export] Instance LicenseRequestInput_edition_t_literal : Literal LicenseRequestInput_edition_t := fun x =>
  match x with LicenseRequestInput_edition_t_free_registered => JStr "free-registered" |
  LicenseRequestInput_edition_t_commercial => JStr "commercial" end.
#[export] Instance LicenseRequestInput_edition_t_eq_dec : EqDecision LicenseRequestInput_edition_t.
Proof. solve_decision. Defined.

Record LicenseRequestInput : Type := mk_LicenseRequestInput {
  LicenseRequestInput_edition : LicenseRequestInput_edition_t;
  LicenseRequestInput_customer : string;
  LicenseRequestInput_features : list string;
  LicenseRequestInput_ttlSeconds : number
}.

Record LicenseDownload : Type := mk_LicenseDownload {
  LicenseDownload_filename : string;
  LicenseDownload_content : string
}.

Record LicensedFeatureState : Type := mk_LicensedFeatureState {
  LicensedFeatureState_id : string;
  LicensedFeatureState_name : string;
  LicensedFeatureState_licensed : bool;
  LicensedFeatureState_implemented : bool;
  LicensedFeatureState_available : bool;
  LicensedFeatureState_reason : string
}.

Inductive FederationMapping_accessLevel_t : Type := FederationMapping_accessLevel_t_user |
  FederationMapping_accessLevel_t_viewer | FederationMapping_accessLevel_t_operator |
  FederationMapping_accessLevel_t_admin.
#[export] Instance FederationMapping_accessLevel_t_literal : Literal FederationMapping_accessLevel_t := fun x
  => match x with FederationMapping_accessLevel_t_user => JStr "user" | FederationMapping_accessLevel_t_viewer
  => JStr "viewer" | FederationMapping_accessLevel_t_operator => JStr "operator" |
  FederationMapping_accessLevel_t_admin => JStr "admin" end.
#[export] Instance FederationMapping_accessLevel_t_eq_dec : EqDecision FederationMapping_accessLevel_t.
Proof. solve_decision. Defined.

Record FederationMapping : Type := mk_FederationMapping {
  FederationMapping_source : string;
  FederationMapping_value : string;
  FederationMapping_accessLevel : FederationMapping_accessLevel_t
}.

Inductive FederationProvider_protocol_t : Type := FederationProvider_protocol_t_oidc |
  FederationProvider_protocol_t_saml.
#[export] Instance FederationProvider_protocol_t_literal : Literal FederationProvider_protocol_t := fun x =>
  match x with FederationProvider_protocol_t_oidc => JStr "oidc" | FederationProvider_protocol_t_saml => JStr
  "saml" end.
#[export] Instance FederationProvider_protocol_t_eq_dec : EqDecision FederationProvider_protocol_t.
Proof. solve_decision. Defined.

Record FederationProvider : Type := mk_FederationProvider {
  FederationProvider_alias : string;
  FederationProvider_displayName : string;
  FederationProvider_protocol : FederationProvider_protocol_t;
  FederationProvider_metadataUrl : string;
  FederationProvider_clientId : option string;
  FederationProvider_scopes : option string;
  FederationProvider_enabled : bool;
  FederationProvider_trustEmail : bool;
  FederationProvider_secretConfigured : bool;
  FederationProvider_mappings : list FederationMapping;
  FederationProvider_revision : string
}.

Record FederatedSsoStatus : Type := mk_FederatedSsoStatus {
  FederatedSsoStatus_feature : LicensedFeatureState;
  FederatedSsoStatus_issuer : string;
  FederatedSsoStatus_callbackUrl : string;
  FederatedSsoStatus_providers : list FederationProvider
}.

Inductive FederationValidation_protocol_t : Type := FederationValidation_protocol_t_oidc |
  FederationValidation_protocol_t_saml.
#[export] Instance FederationValidation_protocol_t_literal : Literal FederationValidation_protocol_t := fun x
  => match x with FederationValidation_protocol_t_oidc => JStr "oidc" | FederationValidation_protocol_t_saml
  => JStr "saml" end.
#[export] Instance FederationValidation_protocol_t_eq_dec : EqDecision FederationValidation_protocol_t.
Proof. solve_decision. Defined.

Record FederationValidation : Type := mk_FederationValidation {
  FederationValidation_protocol : FederationValidation_protocol_t;
  FederationValidation_metadataUrl : string;
  FederationValidation_configuration : dict string
}.

Inductive FederationInput_protocol_t : Type := FederationInput_protocol_t_oidc |
  FederationInput_protocol_t_saml.
#[export] Instance FederationInput_protocol_t_literal : Literal FederationInput_protocol_t := fun x => match x
  with FederationInput_protocol_t_oidc => JStr "oidc" | FederationInput_protocol_t_saml => JStr "saml" end.
#[export] Instance FederationInput_protocol_t_eq_dec : EqDecision FederationInput_protocol_t.
Proof. solve_decision. Defined.

Record FederationInput : Type := mk_FederationInput {
  FederationInput_alias : string;
  FederationInput_displayName : string;
  FederationInput_protocol : FederationInput_protocol_t;
  FederationInput_metadataUrl : string;
  FederationInput_clientId : option string;
  FederationInput_clientSecret : option string;
  FederationInput_scopes : option string;
  FederationInput_enabled : bool;
  FederationInput_trustEmail : bool;
  FederationInput_mappings : list FederationMapping;
  FederationInput_expectedRevision : option string
}.

Record KubernetesObjectMeta : Type := mk_KubernetesObjectMeta {
  KubernetesObjectMeta_name : option string;
  KubernetesObjectMeta_namespace : option string;
  KubernetesObjectMeta_uid : option string;
  KubernetesObjectMeta_generation : option number;
  KubernetesObjectMeta_resourceVersion : option string;
  KubernetesObjectMeta_deletionTimestamp : option string;
  KubernetesObjectMeta_annotations : option (dict string);
  KubernetesObjectMeta_labels : option (dict string)
}.

Record StatusValue_replication_t_instances_t : Type := mk_StatusValue_replication_t_instances_t {
  StatusValue_replication_t_instances_t_name : string;
  StatusValue_replication_t_instances_t_uuid : string;
  StatusValue_replication_t_instances_t_nodeName : string;
  StatusValue_replication_t_instances_t_phase : string;
  StatusValue_replication_t_instances_t_reason : option string;
  StatusValue_replication_t_instances_t_message : option string;
  StatusValue_replication_t_instances_t_modelUid : option string
}.

Record StatusValue_replication_t : Type := mk_StatusValue_replication_t {
  StatusValue_replication_t_desired : number;
  StatusValue_replication_t_ready : number;
  StatusValue_replication_t_instances : list StatusValue_replication_t_instances_t
}.

Inductive StatusValue_gpuSharing_t_mode_t : Type := StatusValue_gpuSharing_t_mode_t_dra_shared |
  StatusValue_gpuSharing_t_mode_t_time_slicing | StatusValue_gpuSharing_t_mode_t_exclusive.
#[export] Instance StatusValue_gpuSharing_t_mode_t_literal : Literal StatusValue_gpuSharing_t_mode_t := fun x
  => match x with StatusValue_gpuSharing_t_mode_t_dra_shared => JStr "dra-shared" |
  StatusValue_gpuSharing_t_mode_t_time_slicing => JStr "time-slicing" |
  StatusValue_gpuSharing_t_mode_t_exclusive => JStr "exclusive" end.
#[export] Instance StatusValue_gpuSharing_t_mode_t_eq_dec : EqDecision StatusValue_gpuSharing_t_mode_t.
Proof. solve_decision. Defined.

Inductive StatusValue_gpuSharing_t_backend_t : Type := StatusValue_gpuSharing_t_backend_t_dra |
  StatusValue_gpuSharing_t_backend_t_device_plugin.
#[export] Instance StatusValue_gpuSharing_t_backend_t_literal : Literal StatusValue_gpuSharing_t_backend_t :=
  fun x => match x with StatusValue_gpuSharing_t_backend_t_dra => JStr "dra" |
  StatusValue_gpuSharing_t_backend_t_device_plugin => JStr "device-plugin" end.
#[export] Instance StatusValue_gpuSharing_t_backend_t_eq_dec : EqDecision StatusValue_gpuSharing_t_backend_t.
Proof. solve_decision. Defined.

Record NvidiaGpuSelection : Type := mk_NvidiaGpuSelection {
  NvidiaGpuSelection_nodeName : string;
  NvidiaGpuSelection_nodeUid : string;
  NvidiaGpuSelection_uuid : string
}.

Record StatusValue_gpuSharing_t : Type := mk_StatusValue_gpuSharing_t {
  StatusValue_gpuSharing_t_mode : StatusValue_gpuSharing_t_mode_t;
  StatusValue_gpuSharing_t_backend : option StatusValue_gpuSharing_t_backend_t;
  StatusValue_gpuSharing_t_claimName : option string;
  StatusValue_gpuSharing_t_node : string;
  StatusValue_gpuSharing_t_nodeUid : option string;
  StatusValue_gpuSharing_t_device : option string;
  StatusValue_gpuSharing_t_devices : option (list NvidiaGpuSelection);
  StatusValue_gpuSharing_t_gpuCount : option number;
  StatusValue_gpuSharing_t_claimNames : option (list string);
  StatusValue_gpuSharing_t_slotCount : option number;
  StatusValue_gpuSharing_t_memoryIsolation : option bool
}.

Record StatusValue : Type := mk_StatusValue {
  StatusValue_replication : option (option StatusValue_replication_t);
  StatusValue_gpuSharing : option (option StatusValue_gpuSharing_t);
  StatusValue_phase : option string;
  StatusValue_message : option string;
  StatusValue_extra : dict json
}.

Record Appliance : Type := mk_Appliance {
  Appliance_metadata : option KubernetesObjectMeta;
  Appliance_spec : option (dict json);
  Appliance_status : option StatusValue
}.

Record ModuleState : Type := mk_ModuleState {
  ModuleState_enabled : option bool;
  ModuleState_activationMode : option string;
  ModuleState_displayName : option string;
  ModuleState_status : option StatusValue;
  ModuleState_extra : dict json
}.

Record ModuleCatalogEntry_credentials_t : Type := mk_ModuleCatalogEntry_credentials_t {
  ModuleCatalogEntry_credentials_t_provider : option string
}.

Inductive ModuleCatalogEntry_parameters_t_modelType_t : Type :=
  ModuleCatalogEntry_parameters_t_modelType_t_chat | ModuleCatalogEntry_parameters_t_modelType_t_embedding.
#[export] Instance ModuleCatalogEntry_parameters_t_modelType_t_literal : Literal
  ModuleCatalogEntry_parameters_t_modelType_t := fun x => match x with
  ModuleCatalogEntry_parameters_t_modelType_t_chat => JStr "chat" |
  ModuleCatalogEntry_parameters_t_modelType_t_embedding => JStr "embedding" end.
#[export] Instance ModuleCatalogEntry_parameters_t_modelType_t_eq_dec : EqDecision ModuleCatalogEntry_parameters_t_modelType_t.
Proof. solve_decision. Defined.

Record ModuleCatalogEntry_parameters_t : Type := mk_ModuleCatalogEntry_parameters_t {
  ModuleCatalogEntry_parameters_t_name : string;
  ModuleCatalogEntry_parameters_t_label : option string;
  ModuleCatalogEntry_parameters_t_placeholder : option string;
  ModuleCatalogEntry_parameters_t_type : option string;
  ModuleCatalogEntry_parameters_t_modelType : option ModuleCatalogEntry_parameters_t_modelType_t;
  ModuleCatalogEntry_parameters_t_description : option string
}.

Record ModuleCatalogEntry : Type := mk_ModuleCatalogEntry {
  ModuleCatalogEntry_displayName : option string;
  ModuleCatalogEntry_activationMode : option string;
  ModuleCatalogEntry_activationPolicy : option string;
  ModuleCatalogEntry_group : option string;
  ModuleCatalogEntry_order : option number;
  ModuleCatalogEntry_credentials : option ModuleCatalogEntry_credentials_t;
  ModuleCatalogEntry_description : option string;
  ModuleCatalogEntry_aliases : option (list string);
  ModuleCatalogEntry_parameters : option (list ModuleCatalogEntry_parameters_t);
  ModuleCatalogEntry_extra : dict json
}.

Record ModuleCatalogGroup : Type := mk_ModuleCatalogGroup {
  ModuleCatalogGroup_displayName : option string;
  ModuleCatalogGroup_order : option number
}.

Record ApplicationCatalogEntry : Type := mk_ApplicationCatalogEntry {
  ApplicationCatalogEntry_displayName : option string;
  ApplicationCatalogEntry_requiredModules : option (list string);
  ApplicationCatalogEntry_extra : dict json
}.

Record ModulesPayload_catalogJson_t : Type := mk_ModulesPayload_catalogJson_t {
  ModulesPayload_catalogJson_t_modules : option (dict ModuleCatalogEntry);
  ModulesPayload_catalogJson_t_applications : option (dict ApplicationCatalogEntry);
  ModulesPayload_catalogJson_t_groups : option (dict ModuleCatalogGroup)
}.

Record ModulesPayload : Type := mk_ModulesPayload {
  ModulesPayload_modules : dict ModuleState;
  ModulesPayload_catalogJson : option ModulesPayload_catalogJson_t
}.

Inductive InstanceSharing_mode_t : Type := InstanceSharing_mode_t_all | InstanceSharing_mode_t_selected.
#[export] Instance InstanceSharing_mode_t_literal : Literal InstanceSharing_mode_t := fun x => match x with
  InstanceSharing_mode_t_all => JStr "all" | InstanceSharing_mode_t_selected => JStr "selected" end.
#[export] Instance InstanceSharing_mode_t_eq_dec : EqDecision InstanceSharing_mode_t.
Proof. solve_decision. Defined.

Record InstanceSharing : Type := mk_InstanceSharing {
  InstanceSharing_mode : InstanceSharing_mode_t;
  InstanceSharing_users : option (list string);
  InstanceSharing_groups : option (list string)
}.

Record SharingPrincipal : Type := mk_SharingPrincipal {
  SharingPrincipal_id : string;
  SharingPrincipal_name : string
}.

Record InstanceAccessState_principals_t : Type := mk_InstanceAccessState_principals_t {
  InstanceAccessState_principals_t_users : list SharingPrincipal;
  InstanceAccessState_principals_t_groups : list SharingPrincipal
}.

Record InstanceAccessState : Type := mk_InstanceAccessState {
  InstanceAccessState_name : string;
  InstanceAccessState_revision : string;
  InstanceAccessState_sharing : InstanceSharing;
  InstanceAccessState_authentication : string;
  InstanceAccessState_guardReady : bool;
  InstanceAccessState_principals : option InstanceAccessState_principals_t
}.

Record AppInstance_spec_t_access_t : Type := mk_AppInstance_spec_t_access_t {
  AppInstance_spec_t_access_t_authentication : option string;
  AppInstance_spec_t_access_t_role : option string;
  AppInstance_spec_t_access_t_exposure : option string;
  AppInstance_spec_t_access_t_sharing : option InstanceSharing
}.

Record AppInstance_spec_t : Type := mk_AppInstance_spec_t {
  AppInstance_spec_t_application : option string;
  AppInstance_spec_t_enabled : option bool;
  AppInstance_spec_t_targetNamespace : option string;
  AppInstance_spec_t_values : option (dict json);
  AppInstance_spec_t_access : option AppInstance_spec_t_access_t;
  AppInstance_spec_t_extra : dict json
}.

Record AppInstance : Type := mk_AppInstance {
  AppInstance_metadata : option KubernetesObjectMeta;
  AppInstance_spec : option AppInstance_spec_t;
  AppInstance_status : option StatusValue
}.

Record InstancesPayload : Type := mk_InstancesPayload {
  InstancesPayload_instances : dict (list AppInstance)
}.

Inductive GpuSlots_scope_t : Type := GpuSlots_scope_t_device | GpuSlots_scope_t_node |
  GpuSlots_scope_t_target.
#[export] Instance GpuSlots_scope_t_literal : Literal GpuSlots_scope_t := fun x => match x with
  GpuSlots_scope_t_device => JStr "device" | GpuSlots_scope_t_node => JStr "node" | GpuSlots_scope_t_target =>
  JStr "target" end.
#[export] Instance GpuSlots_scope_t_eq_dec : EqDecision GpuSlots_scope_t.
Proof. solve_decision. Defined.

Record GpuSlots : Type := mk_GpuSlots {
  GpuSlots_total : number;
  GpuSlots_used : number;
  GpuSlots_free : number;
  GpuSlots_queued : option number;
  GpuSlots_scope : option GpuSlots_scope_t;
  GpuSlots_node : option string;
  GpuSlots_uuid : option string;
  GpuSlots_mode : option string
}.

Record ComputeTarget_engineAvailability_t : Type := mk_ComputeTarget_engineAvailability_t {
  ComputeTarget_engineAvailability_t_available : bool;
  ComputeTarget_engineAvailability_t_message : option string;
  ComputeTarget_engineAvailability_t_compatibleNodes : option number;
  ComputeTarget_engineAvailability_t_slots : option GpuSlots
}.

Record KvCacheOption : Type := mk_KvCacheOption {
  KvCacheOption_value : string;
  KvCacheOption_label : string;
  KvCacheOption_description : option string;
  KvCacheOption_relativeSize : option number
}.

Record ComputeTarget : Type := mk_ComputeTarget {
  ComputeTarget_id : string;
  ComputeTarget_kind : option string;
  ComputeTarget_displayName : option string;
  ComputeTarget_engines : option (list string);
  ComputeTarget_declaredEngines : option (list string);
  ComputeTarget_engineAvailability : option (dict ComputeTarget_engineAvailability_t);
  ComputeTarget_kvCacheTypes : option (dict (list KvCacheOption));
  ComputeTarget_available : option bool;
  ComputeTarget_message : option string;
  ComputeTarget_slots : option GpuSlots
}.

Inductive GpuAllocationEvidence_gpuAllocationMode_t : Type :=
  GpuAllocationEvidence_gpuAllocationMode_t_firmware_reserved |
  GpuAllocationEvidence_gpuAllocationMode_t_shared_gtt | GpuAllocationEvidence_gpuAllocationMode_t_unknown.
#[export] Instance GpuAllocationEvidence_gpuAllocationMode_t_literal : Literal
  GpuAllocationEvidence_gpuAllocationMode_t := fun x => match x with
  GpuAllocationEvidence_gpuAllocationMode_t_firmware_reserved => JStr "firmware-reserved" |
  GpuAllocationEvidence_gpuAllocationMode_t_shared_gtt => JStr "shared-gtt" |
  GpuAllocationEvidence_gpuAllocationMode_t_unknown => JStr "unknown" end.
#[export] Instance GpuAllocationEvidence_gpuAllocationMode_t_eq_dec : EqDecision GpuAllocationEvidence_gpuAllocationMode_t.
Proof. solve_decision. Defined.

Record GpuAllocationEvidence : Type := mk_GpuAllocationEvidence {
  GpuAllocationEvidence_gpuAllocationMode : option GpuAllocationEvidence_gpuAllocationMode_t;
  GpuAllocationEvidence_gpuCapacityMi : option (option number);
  GpuAllocationEvidence_gpuCapacitySource : option string
}.

Record SharedMemoryInventory : Type := mk_SharedMemoryInventory {
  SharedMemoryInventory_super :> GpuAllocationEvidence;
  SharedMemoryInventory_node : string;
  SharedMemoryInventory_installedMemoryMi : option (option number);
  SharedMemoryInventory_firmwareReservedMi : option (option number);
  SharedMemoryInventory_physicalMemoryMi : option (option number);
  SharedMemoryInventory_gpuAccessibleMi : option (option number);
  SharedMemoryInventory_memoryAccountingVerified : option bool
}.

Record SharedMemoryPool : Type := mk_SharedMemoryPool {
  SharedMemoryPool_super :> SharedMemoryInventory;
  SharedMemoryPool_id : string;
  SharedMemoryPool_totalMi : option (option number);
  SharedMemoryPool_freeMi : option (option number);
  SharedMemoryPool_sharedFreeMi : option (option number);
  SharedMemoryPool_dedicatedFreeMi : option (option number);
  SharedMemoryPool_memoryMetricsSource : option string;
  SharedMemoryPool_memorySampledAt : option (option string);
  SharedMemoryPool_unreservedMi : option (option number);
  SharedMemoryPool_gpuUnreservedMi : option (option number);
  SharedMemoryPool_systemReserveMi : option (option number)
}.

Record ComputeMemoryDevice : Type := mk_ComputeMemoryDevice {
  ComputeMemoryDevice_super :> GpuAllocationEvidence;
  ComputeMemoryDevice_id : string;
  ComputeMemoryDevice_kind : option string;
  ComputeMemoryDevice_vendor : option string;
  ComputeMemoryDevice_computeTarget : option string;
  ComputeMemoryDevice_name : option string;
  ComputeMemoryDevice_nodes : option (list string);
  ComputeMemoryDevice_gpuDevice : option NvidiaGpuSelection;
  ComputeMemoryDevice_productName : option string;
  ComputeMemoryDevice_totalMi : option number;
  ComputeMemoryDevice_reservedMi : option number;
  ComputeMemoryDevice_unreservedMi : option (option number);
  ComputeMemoryDevice_freeMi : option (option number);
  ComputeMemoryDevice_metricsAvailable : option bool;
  ComputeMemoryDevice_metricsSource : option string;
  ComputeMemoryDevice_memoryArchitecture : option string;
  ComputeMemoryDevice_sharedPoolId : option string;
  ComputeMemoryDevice_sharedMemoryMi : option number;
  ComputeMemoryDevice_accountingVerified : option bool;
  ComputeMemoryDevice_warning : option string;
  ComputeMemoryDevice_message : option string;
  ComputeMemoryDevice_slots : option GpuSlots
}.

Record CpuResources : Type := mk_CpuResources {
  CpuResources_requestMillicores : number;
  CpuResources_limitMillicores : number
}.

Inductive VllmConfiguration_visionAttention_t : Type := VllmConfiguration_visionAttention_t_auto |
  VllmConfiguration_visionAttention_t_aotriton | VllmConfiguration_visionAttention_t_triton |
  VllmConfiguration_visionAttention_t_flash_attn_triton.
#[export] Instance VllmConfiguration_visionAttention_t_literal : Literal VllmConfiguration_visionAttention_t
  := fun x => match x with VllmConfiguration_visionAttention_t_auto => JStr "auto" |
  VllmConfiguration_visionAttention_t_aotriton => JStr "aotriton" | VllmConfiguration_visionAttention_t_triton
  => JStr "triton" | VllmConfiguration_visionAttention_t_flash_attn_triton => JStr "flash-attn-triton" end.
#[export] Instance VllmConfiguration_visionAttention_t_eq_dec : EqDecision VllmConfiguration_visionAttention_t.
Proof. solve_decision. Defined.

Inductive VllmConfiguration_parallelism_t : Type := VllmConfiguration_parallelism_t_auto |
  VllmConfiguration_parallelism_t_tensor | VllmConfiguration_parallelism_t_pipeline.
#[export] Instance VllmConfiguration_parallelism_t_literal : Literal VllmConfiguration_parallelism_t := fun x
  => match x with VllmConfiguration_parallelism_t_auto => JStr "auto" | VllmConfiguration_parallelism_t_tensor
  => JStr "tensor" | VllmConfiguration_parallelism_t_pipeline => JStr "pipeline" end.
#[export] Instance VllmConfiguration_parallelism_t_eq_dec : EqDecision VllmConfiguration_parallelism_t.
Proof. solve_decision. Defined.

Record VllmConfiguration : Type := mk_VllmConfiguration {
  VllmConfiguration_visionAttention : option VllmConfiguration_visionAttention_t;
  VllmConfiguration_parallelism : option VllmConfiguration_parallelism_t
}.

Inductive MultiGpuCapability_deploymentModes_t : Type := MultiGpuCapability_deploymentModes_t_single |
  MultiGpuCapability_deploymentModes_t_split | MultiGpuCapability_deploymentModes_t_replicated.
#[export] Instance MultiGpuCapability_deploymentModes_t_literal : Literal MultiGpuCapability_deploymentModes_t
  := fun x => match x with MultiGpuCapability_deploymentModes_t_single => JStr "single" |
  MultiGpuCapability_deploymentModes_t_split => JStr "split" | MultiGpuCapability_deploymentModes_t_replicated
  => JStr "replicated" end.
#[export] Instance MultiGpuCapability_deploymentModes_t_eq_dec : EqDecision MultiGpuCapability_deploymentModes_t.
Proof. solve_decision. Defined.

Inductive MultiGpuCapability_memoryBudgetScope_t : Type := MultiGpuCapability_memoryBudgetScope_t_per_device.
#[export] Instance MultiGpuCapability_memoryBudgetScope_t_literal : Literal
  MultiGpuCapability_memoryBudgetScope_t := fun x => match x with
  MultiGpuCapability_memoryBudgetScope_t_per_device => JStr "per-device" end.
#[export] Instance MultiGpuCapability_memoryBudgetScope_t_eq_dec : EqDecision MultiGpuCapability_memoryBudgetScope_t.
Proof. solve_decision. Defined.

Record MultiGpuCapability : Type := mk_MultiGpuCapability {
  MultiGpuCapability_sameNodeOnly : option bool;
  MultiGpuCapability_matchingCardsOnly : option bool;
  MultiGpuCapability_deploymentModes : option (list MultiGpuCapability_deploymentModes_t);
  MultiGpuCapability_computeTargets : list string;
  MultiGpuCapability_maxDevices : number;
  MultiGpuCapability_strategies : list string;
  MultiGpuCapability_memoryBudgetScope : MultiGpuCapability_memoryBudgetScope_t
}.

Record RealtimeConfiguration : Type := mk_RealtimeConfiguration {
  RealtimeConfiguration_profile : string;
  RealtimeConfiguration_gpuNode : string;
  RealtimeConfiguration_gpuCount : number;
  RealtimeConfiguration_systemMemoryMi : number;
  RealtimeConfiguration_gpuMemoryFraction : number;
  RealtimeConfiguration_thinkerCpuOffloadGiB : number;
  RealtimeConfiguration_runtimeImage : option string;
  RealtimeConfiguration_restartNonce : option string
}.

Inductive LocalModelConfigurationPolicy_sources_t : Type := LocalModelConfigurationPolicy_sources_t_search |
  LocalModelConfigurationPolicy_sources_t_preset | LocalModelConfigurationPolicy_sources_t_direct.
#[export] Instance LocalModelConfigurationPolicy_sources_t_literal : Literal
  LocalModelConfigurationPolicy_sources_t := fun x => match x with
  LocalModelConfigurationPolicy_sources_t_search => JStr "search" |
  LocalModelConfigurationPolicy_sources_t_preset => JStr "preset" |
  LocalModelConfigurationPolicy_sources_t_direct => JStr "direct" end.
#[export] Instance LocalModelConfigurationPolicy_sources_t_eq_dec : EqDecision LocalModelConfigurationPolicy_sources_t.
Proof. solve_decision. Defined.

Inductive LocalModelConfigurationPolicy_discovery_t : Type :=
  LocalModelConfigurationPolicy_discovery_t_artifacts | LocalModelConfigurationPolicy_discovery_t_repository.
#[export] Instance LocalModelConfigurationPolicy_discovery_t_literal : Literal
  LocalModelConfigurationPolicy_discovery_t := fun x => match x with
  LocalModelConfigurationPolicy_discovery_t_artifacts => JStr "artifacts" |
  LocalModelConfigurationPolicy_discovery_t_repository => JStr "repository" end.
#[export] Instance LocalModelConfigurationPolicy_discovery_t_eq_dec : EqDecision LocalModelConfigurationPolicy_discovery_t.
Proof. solve_decision. Defined.

Inductive LocalModelConfigurationPolicy_memory_t : Type := LocalModelConfigurationPolicy_memory_t_estimate |
  LocalModelConfigurationPolicy_memory_t_staged.
#[export] Instance LocalModelConfigurationPolicy_memory_t_literal : Literal
  LocalModelConfigurationPolicy_memory_t := fun x => match x with
  LocalModelConfigurationPolicy_memory_t_estimate => JStr "estimate" |
  LocalModelConfigurationPolicy_memory_t_staged => JStr "staged" end.
#[export] Instance LocalModelConfigurationPolicy_memory_t_eq_dec : EqDecision LocalModelConfigurationPolicy_memory_t.
Proof. solve_decision. Defined.

Inductive LocalModelConfigurationPolicy_task_t : Type := LocalModelConfigurationPolicy_task_t_detect |
  LocalModelConfigurationPolicy_task_t_realtime.
#[export] Instance LocalModelConfigurationPolicy_task_t_literal : Literal LocalModelConfigurationPolicy_task_t
  := fun x => match x with LocalModelConfigurationPolicy_task_t_detect => JStr "detect" |
  LocalModelConfigurationPolicy_task_t_realtime => JStr "realtime" end.
#[export] Instance LocalModelConfigurationPolicy_task_t_eq_dec : EqDecision LocalModelConfigurationPolicy_task_t.
Proof. solve_decision. Defined.

Record LocalModelConfigurationPolicy : Type := mk_LocalModelConfigurationPolicy {
  LocalModelConfigurationPolicy_sources : list LocalModelConfigurationPolicy_sources_t;
  LocalModelConfigurationPolicy_discovery : LocalModelConfigurationPolicy_discovery_t;
  LocalModelConfigurationPolicy_memory : LocalModelConfigurationPolicy_memory_t;
  LocalModelConfigurationPolicy_task : LocalModelConfigurationPolicy_task_t;
  LocalModelConfigurationPolicy_maxOutputTokens : bool
}.

Inductive LocalModelEngine : Type := LocalModelEngine_VLLM | LocalModelEngine_OLlama.
#[export] Instance LocalModelEngine_literal : Literal LocalModelEngine := fun x => match x with
  LocalModelEngine_VLLM => JStr "VLLM" | LocalModelEngine_OLlama => JStr "OLlama" end.
#[export] Instance LocalModelEngine_eq_dec : EqDecision LocalModelEngine.
Proof. solve_decision. Defined.

Inductive LocalModelSource : Type := LocalModelSource_search | LocalModelSource_preset |
  LocalModelSource_direct.
#[export] Instance LocalModelSource_literal : Literal LocalModelSource := fun x => match x with
  LocalModelSource_search => JStr "search" | LocalModelSource_preset => JStr "preset" |
  LocalModelSource_direct => JStr "direct" end.
#[export] Instance LocalModelSource_eq_dec : EqDecision LocalModelSource.
Proof. solve_decision. Defined.

Inductive GpuDeployment : Type := GpuDeployment_single | GpuDeployment_split | GpuDeployment_replicated.
#[export] Instance GpuDeployment_literal : Literal GpuDeployment := fun x => match x with GpuDeployment_single
  => JStr "single" | GpuDeployment_split => JStr "split" | GpuDeployment_replicated => JStr "replicated" end.
#[export] Instance GpuDeployment_eq_dec : EqDecision GpuDeployment.
Proof. solve_decision. Defined.

Record LocalModelDraftBase : Type := mk_LocalModelDraftBase {
  LocalModelDraftBase_name : string;
  LocalModelDraftBase_engine : LocalModelEngine;
  LocalModelDraftBase_computeTarget : string;
  LocalModelDraftBase_url : string;
  LocalModelDraftBase_source : LocalModelSource;
  LocalModelDraftBase_presetId : string;
  LocalModelDraftBase_artifactId : string;
  LocalModelDraftBase_modelType : string;
  LocalModelDraftBase_contextWindow : number;
  LocalModelDraftBase_maxNumSeqs : number;
  LocalModelDraftBase_maxOutputTokens : string
}.

Record StandardDraft : Type := mk_StandardDraft {
  StandardDraft_kvCacheType : string;
  StandardDraft_selectedMi : number;
  StandardDraft_hostMemoryMi : number;
  StandardDraft_cpuOffloading : bool;
  StandardDraft_gpuDevices : list NvidiaGpuSelection;
  StandardDraft_gpuDeployment : GpuDeployment;
  StandardDraft_parallelism : VllmConfiguration_parallelism_t
}.

(** The discriminant [kind] is the constructor; an omni draft narrows [engine] to VLLM. *)
Inductive DraftKind : Type := Standard (d : StandardDraft) | Omni (realtime : RealtimeConfiguration).

Record LocalModelDraft : Type := mk_LocalModelDraft {
  LocalModelDraft_base :> LocalModelDraftBase;
  LocalModelDraft_kind : DraftKind
}.

Inductive RealtimeProfile_backend_t : Type := RealtimeProfile_backend_t_cuda | RealtimeProfile_backend_t_rocm
  | RealtimeProfile_backend_t_xpu | RealtimeProfile_backend_t_cpu.
#[export] Instance RealtimeProfile_backend_t_literal : Literal RealtimeProfile_backend_t := fun x => match x
  with RealtimeProfile_backend_t_cuda => JStr "cuda" | RealtimeProfile_backend_t_rocm => JStr "rocm" |
  RealtimeProfile_backend_t_xpu => JStr "xpu" | RealtimeProfile_backend_t_cpu => JStr "cpu" end.
#[export] Instance RealtimeProfile_backend_t_eq_dec : EqDecision RealtimeProfile_backend_t.
Proof. solve_decision. Defined.

Record RealtimeProfile : Type := mk_RealtimeProfile {
  RealtimeProfile_configuration : option LocalModelConfigurationPolicy;
  RealtimeProfile_displayName : string;
  RealtimeProfile_model : string;
  RealtimeProfile_description : string;
  RealtimeProfile_gpuCounts : list number;
  RealtimeProfile_defaultContextWindow : number;
  RealtimeProfile_maxContextWindow : option number;
  RealtimeProfile_defaultSystemMemoryMi : number;
  RealtimeProfile_sourceRevision : string;
  RealtimeProfile_computeTargets : option (list string);
  RealtimeProfile_backend : option RealtimeProfile_backend_t;
  RealtimeProfile_image : option string;
  RealtimeProfile_maxCpuOffloadGiB : option number;
  RealtimeProfile_hostRuntimeHeadroomMi : option number
}.

Inductive RealtimeDevice_allocationMode_t : Type := RealtimeDevice_allocationMode_t_exclusive |
  RealtimeDevice_allocationMode_t_time_slicing | RealtimeDevice_allocationMode_t_dra_shared |
  RealtimeDevice_allocationMode_t_cpu.
#[export] Instance RealtimeDevice_allocationMode_t_literal : Literal RealtimeDevice_allocationMode_t := fun x
  => match x with RealtimeDevice_allocationMode_t_exclusive => JStr "exclusive" |
  RealtimeDevice_allocationMode_t_time_slicing => JStr "time-slicing" |
  RealtimeDevice_allocationMode_t_dra_shared => JStr "dra-shared" | RealtimeDevice_allocationMode_t_cpu =>
  JStr "cpu" end.
#[export] Instance RealtimeDevice_allocationMode_t_eq_dec : EqDecision RealtimeDevice_allocationMode_t.
Proof. solve_decision. Defined.

Record RealtimeDevice : Type := mk_RealtimeDevice {
  RealtimeDevice_profile : string;
  RealtimeDevice_node : string;
  RealtimeDevice_name : string;
  RealtimeDevice_supported : bool;
  RealtimeDevice_reason : string;
  RealtimeDevice_gpuCount : number;
  RealtimeDevice_maxGpuCount : option number;
  RealtimeDevice_slotCount : option number;
  RealtimeDevice_allocationMode : option RealtimeDevice_allocationMode_t;
  RealtimeDevice_freeGpuCount : number;
  RealtimeDevice_gpuMemoryMi : number;
  RealtimeDevice_systemMemoryMi : number;
  RealtimeDevice_computeTarget : option string;
  RealtimeDevice_memoryArchitecture : option string;
  RealtimeDevice_gpuAllocationMode : option string
}.

Record VisionAttentionSettings_options_t : Type := mk_VisionAttentionSettings_options_t {
  VisionAttentionSettings_options_t_value : option VllmConfiguration_visionAttention_t;
  VisionAttentionSettings_options_t_label : string;
  VisionAttentionSettings_options_t_description : string
}.

Record VisionAttentionSettings : Type := mk_VisionAttentionSettings {
  VisionAttentionSettings_default : option VllmConfiguration_visionAttention_t;
  VisionAttentionSettings_computeTargets : list string;
  VisionAttentionSettings_runtimeVersion : option string;
  VisionAttentionSettings_options : list VisionAttentionSettings_options_t
}.

Record ComputeTargetsPayload_engineCatalog_t_cpuDefaults_t : Type := { ComputeTargetsPayload_engineCatalog_t_cpuDefaults_t_cpu : option CpuResources; ComputeTargetsPayload_engineCatalog_t_cpuDefaults_t_gpu : option CpuResources }.

Record ComputeTargetsPayload_engineCatalog_t_deploymentSettings_t : Type := mk_ComputeTargetsPayload_engineCatalog_t_deploymentSettings_t {
  ComputeTargetsPayload_engineCatalog_t_deploymentSettings_t_visionAttention : option VisionAttentionSettings
}.

Record ComputeTargetsPayload_engineCatalog_t : Type := mk_ComputeTargetsPayload_engineCatalog_t {
  ComputeTargetsPayload_engineCatalog_t_displayName : option string;
  ComputeTargetsPayload_engineCatalog_t_available : option bool;
  ComputeTargetsPayload_engineCatalog_t_message : option string;
  ComputeTargetsPayload_engineCatalog_t_urlScheme : option string;
  ComputeTargetsPayload_engineCatalog_t_supportsVramEstimate : option bool;
  ComputeTargetsPayload_engineCatalog_t_configuration : option LocalModelConfigurationPolicy;
  ComputeTargetsPayload_engineCatalog_t_cpuDefaults : option ComputeTargetsPayload_engineCatalog_t_cpuDefaults_t;
  ComputeTargetsPayload_engineCatalog_t_deploymentSettings : option ComputeTargetsPayload_engineCatalog_t_deploymentSettings_t;
  ComputeTargetsPayload_engineCatalog_t_multiGpu : option MultiGpuCapability;
  ComputeTargetsPayload_engineCatalog_t_realtimeProfiles : option (dict RealtimeProfile)
}.

Record ComputeTargetsPayload : Type := mk_ComputeTargetsPayload {
  ComputeTargetsPayload_default : option string;
  ComputeTargetsPayload_defaultEngine : option string;
  ComputeTargetsPayload_engineCatalog : option (dict ComputeTargetsPayload_engineCatalog_t);
  ComputeTargetsPayload_realtimeDevices : option (list RealtimeDevice);
  ComputeTargetsPayload_targets : list ComputeTarget
}.

Record Quantization : Type := mk_Quantization {
  Quantization_method : option string;
  Quantization_bits : option number;
  Quantization_scheme : option string;
  Quantization_label : option string
}.

Inductive ModelArtifact_quantization_t : Type := ModelArtifact_quantization_t_String (x : string) | ModelArtifact_quantization_t_Quantization (x : Quantization).

Inductive ModelArtifact_modelContextSource_t : Type := ModelArtifact_modelContextSource_t_artifact |
  ModelArtifact_modelContextSource_t_base_model.
#[export] Instance ModelArtifact_modelContextSource_t_literal : Literal ModelArtifact_modelContextSource_t :=
  fun x => match x with ModelArtifact_modelContextSource_t_artifact => JStr "artifact" |
  ModelArtifact_modelContextSource_t_base_model => JStr "base-model" end.
#[export] Instance ModelArtifact_modelContextSource_t_eq_dec : EqDecision ModelArtifact_modelContextSource_t.
Proof. solve_decision. Defined.

Record ModelArtifact : Type := mk_ModelArtifact {
  ModelArtifact_id : option string;
  ModelArtifact_title : option string;
  ModelArtifact_label : option string;
  ModelArtifact_url : option string;
  ModelArtifact_precision : option string;
  ModelArtifact_quantization : option (option ModelArtifact_quantization_t);
  ModelArtifact_bits : option number;
  ModelArtifact_format : option string;
  ModelArtifact_memoryRequiredMi : option number;
  ModelArtifact_vramMi : option number;
  ModelArtifact_weightBytes : option number;
  ModelArtifact_downloadBytes : option number;
  ModelArtifact_sizeLabel : option string;
  ModelArtifact_modelMaxContext : option number;
  ModelArtifact_modelContextSource : option ModelArtifact_modelContextSource_t;
  ModelArtifact_compatibility : option string;
  ModelArtifact_extra : dict json
}.

Record ModelVariant : Type := mk_ModelVariant {
  ModelVariant_computeTarget : option string;
  ModelVariant_engine : option string;
  ModelVariant_url : option string;
  ModelVariant_modelType : option string;
  ModelVariant_contextWindow : option number;
  ModelVariant_maxNumSeqs : option number;
  ModelVariant_memoryRequiredMi : option number;
  ModelVariant_vramMi : option number;
  ModelVariant_defaultArtifact : option string;
  ModelVariant_artifacts : option (list ModelArtifact);
  ModelVariant_extra : dict json
}.

Record ModelPreset : Type := mk_ModelPreset {
  ModelPreset_displayName : option string;
  ModelPreset_variants : option (list ModelVariant);
  ModelPreset_extra : dict json
}.

Record ModelCapabilities : Type := mk_ModelCapabilities {
  ModelCapabilities_tools : option bool;
  ModelCapabilities_vision : option bool;
  ModelCapabilities_reasoning : option bool
}.

Record ModelActivation_spec_t_local_t : Type := mk_ModelActivation_spec_t_local_t {
  ModelActivation_spec_t_local_t_vllm : option VllmConfiguration;
  ModelActivation_spec_t_local_t_realtime : option RealtimeConfiguration;
  ModelActivation_spec_t_local_t_capabilities : option ModelCapabilities;
  ModelActivation_spec_t_local_t_extra : dict json
}.

Record ModelActivation_spec_t_external_t : Type := mk_ModelActivation_spec_t_external_t {
  ModelActivation_spec_t_external_t_capabilities : option ModelCapabilities;
  ModelActivation_spec_t_external_t_extra : dict json
}.

Record ModelActivation_spec_t : Type := mk_ModelActivation_spec_t {
  ModelActivation_spec_t_type : option string;
  ModelActivation_spec_t_enabled : option bool;
  ModelActivation_spec_t_local : option ModelActivation_spec_t_local_t;
  ModelActivation_spec_t_external : option ModelActivation_spec_t_external_t;
  ModelActivation_spec_t_extra : dict json
}.

Record ModelActivation : Type := mk_ModelActivation {
  ModelActivation_metadata : option KubernetesObjectMeta;
  ModelActivation_spec : option ModelActivation_spec_t;
  ModelActivation_status : option StatusValue
}.

Record RegisteredModel : Type := mk_RegisteredModel {
  RegisteredModel_capabilities : option ModelCapabilities;
  RegisteredModel_id : option string;
  RegisteredModel_name : option string;
  RegisteredModel_type : option string;
  RegisteredModel_provider : option string;
  RegisteredModel_source : option string;
  RegisteredModel_modelRef : option string;
  RegisteredModel_extra : dict json
}.

Record ModelsPayload_computeMemory_t : Type := mk_ModelsPayload_computeMemory_t {
  ModelsPayload_computeMemory_t_deviceCount : option number;
  ModelsPayload_computeMemory_t_metricsComplete : option bool;
  ModelsPayload_computeMemory_t_devices : option (list ComputeMemoryDevice);
  ModelsPayload_computeMemory_t_sharedPools : option (list SharedMemoryPool)
}.

Record ModelsPayload : Type := mk_ModelsPayload {
  ModelsPayload_models : option (list RegisteredModel);
  ModelsPayload_activations : list ModelActivation;
  ModelsPayload_presets : dict ModelPreset;
  ModelsPayload_computeTargets : ComputeTargetsPayload;
  ModelsPayload_computeMemory : option ModelsPayload_computeMemory_t;
  ModelsPayload_extra : dict json
}.

Record ModelLogContent : Type := mk_ModelLogContent {
  ModelLogContent_previous : bool;
  ModelLogContent_text : string;
  ModelLogContent_error : option string;
  ModelLogContent_truncated : option bool
}.

Inductive ModelLogContainer_kind_t : Type := ModelLogContainer_kind_t_application |
  ModelLogContainer_kind_t_init.
#[export] Instance ModelLogContainer_kind_t_literal : Literal ModelLogContainer_kind_t := fun x => match x
  with ModelLogContainer_kind_t_application => JStr "application" | ModelLogContainer_kind_t_init => JStr
  "init" end.
#[export] Instance ModelLogContainer_kind_t_eq_dec : EqDecision ModelLogContainer_kind_t.
Proof. solve_decision. Defined.

Record ModelLogContainer : Type := mk_ModelLogContainer {
  ModelLogContainer_name : string;
  ModelLogContainer_kind : ModelLogContainer_kind_t;
  ModelLogContainer_ready : option bool;
  ModelLogContainer_restartCount : number;
  ModelLogContainer_state : string;
  ModelLogContainer_reason : option string;
  ModelLogContainer_logs : list ModelLogContent
}.

Record ModelLogPod : Type := mk_ModelLogPod {
  ModelLogPod_name : string;
  ModelLogPod_replica : option string;
  ModelLogPod_phase : string;
  ModelLogPod_node : option string;
  ModelLogPod_createdAt : option string;
  ModelLogPod_deleting : bool;
  ModelLogPod_omittedContainers : option number;
  ModelLogPod_containers : list ModelLogContainer
}.

Record ModelLogsPayload_replicas_t : Type := mk_ModelLogsPayload_replicas_t {
  ModelLogsPayload_replicas_t_name : string;
  ModelLogsPayload_replicas_t_uuid : string
}.

Record ModelLogsPayload : Type := mk_ModelLogsPayload {
  ModelLogsPayload_model : string;
  ModelLogsPayload_namespace : string;
  ModelLogsPayload_generatedAt : string;
  ModelLogsPayload_tailLines : number;
  ModelLogsPayload_omittedPods : option number;
  ModelLogsPayload_pods : list ModelLogPod;
  ModelLogsPayload_replicas : option (list ModelLogsPayload_replicas_t)
}.

Record DiscoveryItem : Type := mk_DiscoveryItem {
  DiscoveryItem_super :> ModelArtifact;
  DiscoveryItem_id : string;
  DiscoveryItem_repo : string;
  DiscoveryItem_revision : option string;
  DiscoveryItem_name : option string;
  DiscoveryItem_author : option string;
  DiscoveryItem_formats : option (list string);
  DiscoveryItem_parameterCount : option number;
  DiscoveryItem_quantization : option (option Quantization);
  DiscoveryItem_trustStatus : option string;
  DiscoveryItem_pulls : option number;
  DiscoveryItem_tagCount : option number
}.

Inductive DiscoverySearchPayload_provider_t : Type := DiscoverySearchPayload_provider_t_huggingface |
  DiscoverySearchPayload_provider_t_ollama.
#[export] Instance DiscoverySearchPayload_provider_t_literal : Literal DiscoverySearchPayload_provider_t :=
  fun x => match x with DiscoverySearchPayload_provider_t_huggingface => JStr "huggingface" |
  DiscoverySearchPayload_provider_t_ollama => JStr "ollama" end.
#[export] Instance DiscoverySearchPayload_provider_t_eq_dec : EqDecision DiscoverySearchPayload_provider_t.
Proof. solve_decision. Defined.

Record DiscoverySearchPayload : Type := mk_DiscoverySearchPayload {
  DiscoverySearchPayload_provider : DiscoverySearchPayload_provider_t;
  DiscoverySearchPayload_results : list DiscoveryItem;
  DiscoverySearchPayload_total : number;
  DiscoverySearchPayload_nextCursor : option (option string)
}.

Inductive DiscoveryArtifactsPayload_provider_t : Type := DiscoveryArtifactsPayload_provider_t_huggingface |
  DiscoveryArtifactsPayload_provider_t_ollama.
#[export] Instance DiscoveryArtifactsPayload_provider_t_literal : Literal DiscoveryArtifactsPayload_provider_t
  := fun x => match x with DiscoveryArtifactsPayload_provider_t_huggingface => JStr "huggingface" |
  DiscoveryArtifactsPayload_provider_t_ollama => JStr "ollama" end.
#[export] Instance DiscoveryArtifactsPayload_provider_t_eq_dec : EqDecision DiscoveryArtifactsPayload_provider_t.
Proof. solve_decision. Defined.

Record DiscoveryArtifactsPayload : Type := mk_DiscoveryArtifactsPayload {
  DiscoveryArtifactsPayload_provider : DiscoveryArtifactsPayload_provider_t;
  DiscoveryArtifactsPayload_baseModel : option DiscoveryItem;
  DiscoveryArtifactsPayload_artifacts : list DiscoveryItem;
  DiscoveryArtifactsPayload_total : number;
  DiscoveryArtifactsPayload_nextCursor : option (option string)
}.

Inductive CpuOffloadingPlan_mode_t : Type := CpuOffloadingPlan_mode_t_weights |
  CpuOffloadingPlan_mode_t_gpu_first.
#[export] Instance CpuOffloadingPlan_mode_t_literal : Literal CpuOffloadingPlan_mode_t := fun x => match x
  with CpuOffloadingPlan_mode_t_weights => JStr "weights" | CpuOffloadingPlan_mode_t_gpu_first => JStr
  "gpu-first" end.
#[export] Instance CpuOffloadingPlan_mode_t_eq_dec : EqDecision CpuOffloadingPlan_mode_t.
Proof. solve_decision. Defined.

Record CpuOffloadingPlan : Type := mk_CpuOffloadingPlan {
  CpuOffloadingPlan_enabled : bool;
  CpuOffloadingPlan_mode : CpuOffloadingPlan_mode_t;
  CpuOffloadingPlan_vramBudgetMi : number;
  CpuOffloadingPlan_weightsOnGpuMi : number;
  CpuOffloadingPlan_weightsOnCpuMi : number;
  CpuOffloadingPlan_kvOnGpuMi : number;
  CpuOffloadingPlan_kvOnCpuMi : number;
  CpuOffloadingPlan_hostRuntimeMi : number;
  CpuOffloadingPlan_ramMinimumMi : number;
  CpuOffloadingPlan_ramRecommendedMi : number;
  CpuOffloadingPlan_ramMaximumMi : option number;
  CpuOffloadingPlan_gpuMinimumMi : number;
  CpuOffloadingPlan_gpuRecommendedMi : number;
  CpuOffloadingPlan_fitsVram : bool;
  CpuOffloadingPlan_estimated : bool
}.

Record MemoryCalculation : Type := mk_MemoryCalculation {
  MemoryCalculation_formula : string;
  MemoryCalculation_substitution : option (option string);
  MemoryCalculation_notes : option (list string)
}.

Inductive SystemMemoryEstimate_scope_t : Type := SystemMemoryEstimate_scope_t_per_pod |
  SystemMemoryEstimate_scope_t_per_copy.
#[export] Instance SystemMemoryEstimate_scope_t_literal : Literal SystemMemoryEstimate_scope_t := fun x =>
  match x with SystemMemoryEstimate_scope_t_per_pod => JStr "per-pod" | SystemMemoryEstimate_scope_t_per_copy
  => JStr "per-copy" end.
#[export] Instance SystemMemoryEstimate_scope_t_eq_dec : EqDecision SystemMemoryEstimate_scope_t.
Proof. solve_decision. Defined.

Inductive SystemMemoryEstimate_confidence_t : Type := SystemMemoryEstimate_confidence_t_estimated |
  SystemMemoryEstimate_confidence_t_unknown.
#[export] Instance SystemMemoryEstimate_confidence_t_literal : Literal SystemMemoryEstimate_confidence_t :=
  fun x => match x with SystemMemoryEstimate_confidence_t_estimated => JStr "estimated" |
  SystemMemoryEstimate_confidence_t_unknown => JStr "unknown" end.
#[export] Instance SystemMemoryEstimate_confidence_t_eq_dec : EqDecision SystemMemoryEstimate_confidence_t.
Proof. solve_decision. Defined.

Record SystemMemoryEstimate : Type := mk_SystemMemoryEstimate {
  SystemMemoryEstimate_scope : SystemMemoryEstimate_scope_t;
  SystemMemoryEstimate_replicaCount : number;
  SystemMemoryEstimate_workerCount : number;
  SystemMemoryEstimate_minimumMi : option number;
  SystemMemoryEstimate_recommendedMi : option number;
  SystemMemoryEstimate_runningMinimumMi : option number;
  SystemMemoryEstimate_runningRecommendedMi : option number;
  SystemMemoryEstimate_startupMinimumMi : option number;
  SystemMemoryEstimate_startupUpperMi : option number;
  SystemMemoryEstimate_maximumMi : option number;
  SystemMemoryEstimate_totalRecommendedMi : option number;
  SystemMemoryEstimate_weightsOnCpuMi : number;
  SystemMemoryEstimate_cacheOnCpuMi : number;
  SystemMemoryEstimate_hostRuntimeMi : number;
  SystemMemoryEstimate_multimodalCacheMi : number;
  SystemMemoryEstimate_promptBuffersMi : number;
  SystemMemoryEstimate_loadingBuffersMi : number;
  SystemMemoryEstimate_fileCacheUpperMi : number;
  SystemMemoryEstimate_largeLookupParameters : option number;
  SystemMemoryEstimate_confidence : SystemMemoryEstimate_confidence_t;
  SystemMemoryEstimate_warnings : option (list string);
  SystemMemoryEstimate_calculations : option (dict MemoryCalculation)
}.

Inductive MemoryEstimate_detectedModelType_t : Type := MemoryEstimate_detectedModelType_t_chat |
  MemoryEstimate_detectedModelType_t_embedding.
#[export] Instance MemoryEstimate_detectedModelType_t_literal : Literal MemoryEstimate_detectedModelType_t :=
  fun x => match x with MemoryEstimate_detectedModelType_t_chat => JStr "chat" |
  MemoryEstimate_detectedModelType_t_embedding => JStr "embedding" end.
#[export] Instance MemoryEstimate_detectedModelType_t_eq_dec : EqDecision MemoryEstimate_detectedModelType_t.
Proof. solve_decision. Defined.

Inductive MemoryEstimate_gpuParallelism_t : Type := MemoryEstimate_gpuParallelism_t_tensor |
  MemoryEstimate_gpuParallelism_t_pipeline | MemoryEstimate_gpuParallelism_t_spread |
  MemoryEstimate_gpuParallelism_t_replicated.
#[export] Instance MemoryEstimate_gpuParallelism_t_literal : Literal MemoryEstimate_gpuParallelism_t := fun x
  => match x with MemoryEstimate_gpuParallelism_t_tensor => JStr "tensor" |
  MemoryEstimate_gpuParallelism_t_pipeline => JStr "pipeline" | MemoryEstimate_gpuParallelism_t_spread => JStr
  "spread" | MemoryEstimate_gpuParallelism_t_replicated => JStr "replicated" end.
#[export] Instance MemoryEstimate_gpuParallelism_t_eq_dec : EqDecision MemoryEstimate_gpuParallelism_t.
Proof. solve_decision. Defined.

Inductive MemoryEstimate_memoryBudgetScope_t : Type := MemoryEstimate_memoryBudgetScope_t_per_device.
#[export] Instance MemoryEstimate_memoryBudgetScope_t_literal : Literal MemoryEstimate_memoryBudgetScope_t :=
  fun x => match x with MemoryEstimate_memoryBudgetScope_t_per_device => JStr "per-device" end.
#[export] Instance MemoryEstimate_memoryBudgetScope_t_eq_dec : EqDecision MemoryEstimate_memoryBudgetScope_t.
Proof. solve_decision. Defined.

Record MemoryEstimate_devices_t : Type := mk_MemoryEstimate_devices_t {
  MemoryEstimate_devices_t_super :> GpuAllocationEvidence;
  MemoryEstimate_devices_t_gpuDevice : NvidiaGpuSelection;
  MemoryEstimate_devices_t_totalMi : option (option number);
  MemoryEstimate_devices_t_freeMi : option (option number);
  MemoryEstimate_devices_t_unreservedMi : option (option number)
}.

Record MemoryEstimate_runtimeDetails_t : Type := mk_MemoryEstimate_runtimeDetails_t {
  MemoryEstimate_runtimeDetails_t_runtimeWeightsMi : option number;
  MemoryEstimate_runtimeDetails_t_compileReserveMi : option number;
  MemoryEstimate_runtimeDetails_t_multimodalReserveMi : option number;
  MemoryEstimate_runtimeDetails_t_unpackReserveMi : option number;
  MemoryEstimate_runtimeDetails_t_engineRuntimeReserveMi : option number;
  MemoryEstimate_runtimeDetails_t_attentionKvCacheMi : option number;
  MemoryEstimate_runtimeDetails_t_recurrentStateMi : option number;
  MemoryEstimate_runtimeDetails_t_auxiliaryCacheMi : option number;
  MemoryEstimate_runtimeDetails_t_partitionReserveMi : option number;
  MemoryEstimate_runtimeDetails_t_fullAttentionLayers : option number;
  MemoryEstimate_runtimeDetails_t_recurrentLayers : option number
}.

Record MemoryEstimate : Type := mk_MemoryEstimate {
  MemoryEstimate_detectedModelType : option (option MemoryEstimate_detectedModelType_t);
  MemoryEstimate_minimumMi : number;
  MemoryEstimate_recommendedMi : number;
  MemoryEstimate_maximumMi : option (option number);
  MemoryEstimate_gpuCount : option number;
  MemoryEstimate_gpuParallelism : option MemoryEstimate_gpuParallelism_t;
  MemoryEstimate_memoryBudgetScope : option MemoryEstimate_memoryBudgetScope_t;
  MemoryEstimate_devices : option (list MemoryEstimate_devices_t);
  MemoryEstimate_systemMemoryMaximumMi : option (option number);
  MemoryEstimate_systemMemory : option SystemMemoryEstimate;
  MemoryEstimate_replicaCount : option number;
  MemoryEstimate_weightsMi : option number;
  MemoryEstimate_downloadBytes : option number;
  MemoryEstimate_quantization : option (option Quantization);
  MemoryEstimate_kvCacheMi : option number;
  MemoryEstimate_kvCacheType : option string;
  MemoryEstimate_kvCacheBaselineMi : option number;
  MemoryEstimate_kvCacheSavingsMi : option number;
  MemoryEstimate_theoreticalKvCacheMi : option (option number);
  MemoryEstimate_hybridAllocatorSafetyMi : option number;
  MemoryEstimate_kvCompatibilityFactor : option number;
  MemoryEstimate_reserveMi : option number;
  MemoryEstimate_recommendedReserveMi : option number;
  MemoryEstimate_runtimeDetails : option MemoryEstimate_runtimeDetails_t;
  MemoryEstimate_offloading : option CpuOffloadingPlan;
  MemoryEstimate_contextWindow : option number;
  MemoryEstimate_modelMaxContext : option number;
  MemoryEstimate_maxNumSeqs : option number;
  MemoryEstimate_confidence : option string;
  MemoryEstimate_calculationSource : option string;
  MemoryEstimate_warnings : option (list string);
  MemoryEstimate_calculations : option (dict MemoryCalculation);
  MemoryEstimate_extra : dict json
}.

Record GpuCompatibilityProfile : Type := mk_GpuCompatibilityProfile {
  GpuCompatibilityProfile_id : string;
  GpuCompatibilityProfile_displayName : string;
  GpuCompatibilityProfile_version : string;
  GpuCompatibilityProfile_experimental : bool;
  GpuCompatibilityProfile_memoryArchitecture : string;
  GpuCompatibilityProfile_expectedArchitecture : option string;
  GpuCompatibilityProfile_description : option string
}.

Inductive GpuEngineValidation_state_t : Type := GpuEngineValidation_state_t_unverified |
  GpuEngineValidation_state_t_queued | GpuEngineValidation_state_t_running |
  GpuEngineValidation_state_t_passed | GpuEngineValidation_state_t_failed | GpuEngineValidation_state_t_stale
  | GpuEngineValidation_state_t_upstream.
#[export] Instance GpuEngineValidation_state_t_literal : Literal GpuEngineValidation_state_t := fun x => match
  x with GpuEngineValidation_state_t_unverified => JStr "unverified" | GpuEngineValidation_state_t_queued =>
  JStr "queued" | GpuEngineValidation_state_t_running => JStr "running" | GpuEngineValidation_state_t_passed
  => JStr "passed" | GpuEngineValidation_state_t_failed => JStr "failed" | GpuEngineValidation_state_t_stale
  => JStr "stale" | GpuEngineValidation_state_t_upstream => JStr "upstream" end.
#[export] Instance GpuEngineValidation_state_t_eq_dec : EqDecision GpuEngineValidation_state_t.
Proof. solve_decision. Defined.

Record GpuEngineValidation : Type := mk_GpuEngineValidation {
  GpuEngineValidation_state : GpuEngineValidation_state_t;
  GpuEngineValidation_image : option string;
  GpuEngineValidation_imageId : option string;
  GpuEngineValidation_kernelVersion : option string;
  GpuEngineValidation_driverVersion : option string;
  GpuEngineValidation_validatedAt : option string;
  GpuEngineValidation_message : option string;
  GpuEngineValidation_runtimeReady : option bool;
  GpuEngineValidation_runtimeMessage : option string
}.

Record GpuCompatibilityNode : Type := mk_GpuCompatibilityNode {
  GpuCompatibilityNode_super :> SharedMemoryInventory;
  GpuCompatibilityNode_nodeUid : option string;
  GpuCompatibilityNode_hostBootId : option string;
  GpuCompatibilityNode_profileId : option string;
  GpuCompatibilityNode_profileVersion : option string;
  GpuCompatibilityNode_upstreamSupported : option bool;
  GpuCompatibilityNode_optedIn : option bool;
  GpuCompatibilityNode_eligible : option bool;
  GpuCompatibilityNode_memoryArchitecture : option string;
  GpuCompatibilityNode_expectedArchitecture : option string;
  GpuCompatibilityNode_detectedArchitecture : option string;
  GpuCompatibilityNode_pciDevices : option (list string);
  GpuCompatibilityNode_hostDriverReady : option (option bool);
  GpuCompatibilityNode_resourceRegistered : option bool;
  GpuCompatibilityNode_message : option string;
  GpuCompatibilityNode_validation : option (dict GpuEngineValidation)
}.

Record GpuCompatibility : Type := mk_GpuCompatibility {
  GpuCompatibility_validationRequired : option bool;
  GpuCompatibility_schemaVersion : number;
  GpuCompatibility_profiles : list GpuCompatibilityProfile;
  GpuCompatibility_selectedProfile : option string;
  GpuCompatibility_allowExperimental : option bool;
  GpuCompatibility_nodes : list GpuCompatibilityNode
}.

Inductive GpuValidationRequest_engine_t : Type := GpuValidationRequest_engine_t_OLlama |
  GpuValidationRequest_engine_t_VLLM.
#[export] Instance GpuValidationRequest_engine_t_literal : Literal GpuValidationRequest_engine_t := fun x =>
  match x with GpuValidationRequest_engine_t_OLlama => JStr "OLlama" | GpuValidationRequest_engine_t_VLLM =>
  JStr "VLLM" end.
#[export] Instance GpuValidationRequest_engine_t_eq_dec : EqDecision GpuValidationRequest_engine_t.
Proof. solve_decision. Defined.

Record GpuValidationRequest : Type := mk_GpuValidationRequest {
  GpuValidationRequest_nodeName : string;
  GpuValidationRequest_nodeUid : string;
  GpuValidationRequest_engine : GpuValidationRequest_engine_t;
  GpuValidationRequest_profileId : option string;
  GpuValidationRequest_deviceIds : option (list string);
  GpuValidationRequest_requestId : string;
  GpuValidationRequest_acknowledgeResourceUse : bool
}.

Record HardwareGpuDevice : Type := mk_HardwareGpuDevice {
  HardwareGpuDevice_id : string;
  HardwareGpuDevice_node : string;
  HardwareGpuDevice_nodeUid : string;
  HardwareGpuDevice_bootId : option string;
  HardwareGpuDevice_vendor : string;
  HardwareGpuDevice_module : option string;
  HardwareGpuDevice_name : string;
  HardwareGpuDevice_pciAddress : string;
  HardwareGpuDevice_pciId : string;
  HardwareGpuDevice_architecture : option string;
  HardwareGpuDevice_hostDriver : option string;
  HardwareGpuDevice_hostDriverReady : option (option bool);
  HardwareGpuDevice_resourceRegistered : option bool;
  HardwareGpuDevice_eligible : option bool;
  HardwareGpuDevice_memoryTotalMi : option (option number);
  HardwareGpuDevice_memoryArchitecture : option string;
  HardwareGpuDevice_memory : option SharedMemoryInventory;
  HardwareGpuDevice_validationAvailable : bool;
  HardwareGpuDevice_validationReason : option string;
  HardwareGpuDevice_validationContext : option string;
  HardwareGpuDevice_validation : option (dict GpuEngineValidation)
}.

Inductive GpuSharingState_provider_t : Type := GpuSharingState_provider_t_amd |
  GpuSharingState_provider_t_nvidia.
#[export] Instance GpuSharingState_provider_t_literal : Literal GpuSharingState_provider_t := fun x => match x
  with GpuSharingState_provider_t_amd => JStr "amd" | GpuSharingState_provider_t_nvidia => JStr "nvidia" end.
#[export] Instance GpuSharingState_provider_t_eq_dec : EqDecision GpuSharingState_provider_t.
Proof. solve_decision. Defined.

Inductive GpuSharingState_backend_t : Type := GpuSharingState_backend_t_dra |
  GpuSharingState_backend_t_time_slicing.
#[export] Instance GpuSharingState_backend_t_literal : Literal GpuSharingState_backend_t := fun x => match x
  with GpuSharingState_backend_t_dra => JStr "dra" | GpuSharingState_backend_t_time_slicing => JStr
  "time-slicing" end.
#[export] Instance GpuSharingState_backend_t_eq_dec : EqDecision GpuSharingState_backend_t.
Proof. solve_decision. Defined.

Inductive GpuSharingState_mode_t : Type := GpuSharingState_mode_t_exclusive | GpuSharingState_mode_t_shared.
#[export] Instance GpuSharingState_mode_t_literal : Literal GpuSharingState_mode_t := fun x => match x with
  GpuSharingState_mode_t_exclusive => JStr "exclusive" | GpuSharingState_mode_t_shared => JStr "shared" end.
#[export] Instance GpuSharingState_mode_t_eq_dec : EqDecision GpuSharingState_mode_t.
Proof. solve_decision. Defined.

Record GpuSharingState_device_t : Type := mk_GpuSharingState_device_t {
  GpuSharingState_device_t_name : string;
  GpuSharingState_device_t_pool : string;
  GpuSharingState_device_t_pciAddress : string
}.

Record GpuSharingState_devices_t : Type := mk_GpuSharingState_devices_t {
  GpuSharingState_devices_t_uuid : string;
  GpuSharingState_devices_t_name : string;
  GpuSharingState_devices_t_pool : string;
  GpuSharingState_devices_t_node : string;
  GpuSharingState_devices_t_nodeUid : string;
  GpuSharingState_devices_t_pciAddress : option string;
  GpuSharingState_devices_t_totalMi : option number;
  GpuSharingState_devices_t_claimName : string
}.

Inductive GpuSharingState_memoryIsolation_t : Type := GpuSharingState_memoryIsolation_t_false.
#[export] Instance GpuSharingState_memoryIsolation_t_literal : Literal GpuSharingState_memoryIsolation_t :=
  fun x => match x with GpuSharingState_memoryIsolation_t_false => JBool false end.
#[export] Instance GpuSharingState_memoryIsolation_t_eq_dec : EqDecision GpuSharingState_memoryIsolation_t.
Proof. solve_decision. Defined.

Record GpuSharingState : Type := mk_GpuSharingState {
  GpuSharingState_provider : GpuSharingState_provider_t;
  GpuSharingState_backend : GpuSharingState_backend_t;
  GpuSharingState_mode : GpuSharingState_mode_t;
  GpuSharingState_managed : bool;
  GpuSharingState_experimental : bool;
  GpuSharingState_maxModels : number;
  GpuSharingState_nodeName : string;
  GpuSharingState_nodeUid : string;
  GpuSharingState_namespace : string;
  GpuSharingState_expectedRevision : string;
  GpuSharingState_available : bool;
  GpuSharingState_reason : string;
  GpuSharingState_phase : string;
  GpuSharingState_message : string;
  GpuSharingState_device : option (option GpuSharingState_device_t);
  GpuSharingState_draAvailable : option bool;
  GpuSharingState_devices : option (list GpuSharingState_devices_t);
  GpuSharingState_claimName : string;
  GpuSharingState_activeModels : number;
  GpuSharingState_admittedModels : list string;
  GpuSharingState_memoryIsolation : GpuSharingState_memoryIsolation_t
}.

Inductive GpuSharingDefaults_parameters_t : Type := GpuSharingDefaults_parameters_t_absent |
  GpuSharingDefaults_parameters_t_present.
#[export] Instance GpuSharingDefaults_parameters_t_literal : Literal GpuSharingDefaults_parameters_t := fun x
  => match x with GpuSharingDefaults_parameters_t_absent => JStr "absent" |
  GpuSharingDefaults_parameters_t_present => JStr "present" end.
#[export] Instance GpuSharingDefaults_parameters_t_eq_dec : EqDecision GpuSharingDefaults_parameters_t.
Proof. solve_decision. Defined.

Inductive GpuSharingDefaults_gpuSharing_t : Type := GpuSharingDefaults_gpuSharing_t_absent |
  GpuSharingDefaults_gpuSharing_t_empty.
#[export] Instance GpuSharingDefaults_gpuSharing_t_literal : Literal GpuSharingDefaults_gpuSharing_t := fun x
  => match x with GpuSharingDefaults_gpuSharing_t_absent => JStr "absent" |
  GpuSharingDefaults_gpuSharing_t_empty => JStr "empty" end.
#[export] Instance GpuSharingDefaults_gpuSharing_t_eq_dec : EqDecision GpuSharingDefaults_gpuSharing_t.
Proof. solve_decision. Defined.

Inductive GpuSharingDefaults_validationRequest_t : Type := GpuSharingDefaults_validationRequest_t_absent |
  GpuSharingDefaults_validationRequest_t_empty.
#[export] Instance GpuSharingDefaults_validationRequest_t_literal : Literal
  GpuSharingDefaults_validationRequest_t := fun x => match x with
  GpuSharingDefaults_validationRequest_t_absent => JStr "absent" |
  GpuSharingDefaults_validationRequest_t_empty => JStr "empty" end.
#[export] Instance GpuSharingDefaults_validationRequest_t_eq_dec : EqDecision GpuSharingDefaults_validationRequest_t.
Proof. solve_decision. Defined.

Record GpuSharingDefaults : Type := mk_GpuSharingDefaults {
  GpuSharingDefaults_parameters : GpuSharingDefaults_parameters_t;
  GpuSharingDefaults_gpuSharing : GpuSharingDefaults_gpuSharing_t;
  GpuSharingDefaults_validationRequest : option GpuSharingDefaults_validationRequest_t
}.

Inductive GpuSharingRequest_provider_t : Type := GpuSharingRequest_provider_t_amd |
  GpuSharingRequest_provider_t_nvidia.
#[export] Instance GpuSharingRequest_provider_t_literal : Literal GpuSharingRequest_provider_t := fun x =>
  match x with GpuSharingRequest_provider_t_amd => JStr "amd" | GpuSharingRequest_provider_t_nvidia => JStr
  "nvidia" end.
#[export] Instance GpuSharingRequest_provider_t_eq_dec : EqDecision GpuSharingRequest_provider_t.
Proof. solve_decision. Defined.

Inductive GpuSharingRequest_mode_t : Type := GpuSharingRequest_mode_t_exclusive |
  GpuSharingRequest_mode_t_shared.
#[export] Instance GpuSharingRequest_mode_t_literal : Literal GpuSharingRequest_mode_t := fun x => match x
  with GpuSharingRequest_mode_t_exclusive => JStr "exclusive" | GpuSharingRequest_mode_t_shared => JStr
  "shared" end.
#[export] Instance GpuSharingRequest_mode_t_eq_dec : EqDecision GpuSharingRequest_mode_t.
Proof. solve_decision. Defined.

Inductive GpuSharingRequest_allocationBackend_t : Type := GpuSharingRequest_allocationBackend_t_device_plugin
  | GpuSharingRequest_allocationBackend_t_dra.
#[export] Instance GpuSharingRequest_allocationBackend_t_literal : Literal
  GpuSharingRequest_allocationBackend_t := fun x => match x with
  GpuSharingRequest_allocationBackend_t_device_plugin => JStr "device-plugin" |
  GpuSharingRequest_allocationBackend_t_dra => JStr "dra" end.
#[export] Instance GpuSharingRequest_allocationBackend_t_eq_dec : EqDecision GpuSharingRequest_allocationBackend_t.
Proof. solve_decision. Defined.

Record GpuSharingRequest : Type := mk_GpuSharingRequest {
  GpuSharingRequest_provider : GpuSharingRequest_provider_t;
  GpuSharingRequest_mode : GpuSharingRequest_mode_t;
  GpuSharingRequest_maxModels : number;
  GpuSharingRequest_nodeName : string;
  GpuSharingRequest_nodeUid : string;
  GpuSharingRequest_expectedRevision : string;
  GpuSharingRequest_acknowledgeSharing : bool;
  GpuSharingRequest_acknowledgeRestart : bool;
  GpuSharingRequest_allocationBackend : option GpuSharingRequest_allocationBackend_t;
  GpuSharingRequest_restoreDefaults : option GpuSharingDefaults
}.

Inductive HardwareOperator_sharing_t_mode_t : Type := HardwareOperator_sharing_t_mode_t_exclusive |
  HardwareOperator_sharing_t_mode_t_time_slicing.
#[export] Instance HardwareOperator_sharing_t_mode_t_literal : Literal HardwareOperator_sharing_t_mode_t :=
  fun x => match x with HardwareOperator_sharing_t_mode_t_exclusive => JStr "exclusive" |
  HardwareOperator_sharing_t_mode_t_time_slicing => JStr "time-slicing" end.
#[export] Instance HardwareOperator_sharing_t_mode_t_eq_dec : EqDecision HardwareOperator_sharing_t_mode_t.
Proof. solve_decision. Defined.

Inductive HardwareOperator_sharing_t_memoryIsolation_t : Type :=
  HardwareOperator_sharing_t_memoryIsolation_t_false.
#[export] Instance HardwareOperator_sharing_t_memoryIsolation_t_literal : Literal
  HardwareOperator_sharing_t_memoryIsolation_t := fun x => match x with
  HardwareOperator_sharing_t_memoryIsolation_t_false => JBool false end.
#[export] Instance HardwareOperator_sharing_t_memoryIsolation_t_eq_dec : EqDecision HardwareOperator_sharing_t_memoryIsolation_t.
Proof. solve_decision. Defined.

Record HardwareOperator_sharing_t : Type := mk_HardwareOperator_sharing_t {
  HardwareOperator_sharing_t_managed : option bool;
  HardwareOperator_sharing_t_mode : option HardwareOperator_sharing_t_mode_t;
  HardwareOperator_sharing_t_phase : option string;
  HardwareOperator_sharing_t_message : option string;
  HardwareOperator_sharing_t_nodeName : option string;
  HardwareOperator_sharing_t_nodeUid : option string;
  HardwareOperator_sharing_t_maxModels : option number;
  HardwareOperator_sharing_t_slotLimit : option number;
  HardwareOperator_sharing_t_activeModels : option number;
  HardwareOperator_sharing_t_admittedModels : option (list string);
  HardwareOperator_sharing_t_memoryIsolation : option HardwareOperator_sharing_t_memoryIsolation_t
}.

Record HardwareOperator : Type := mk_HardwareOperator {
  HardwareOperator_devices : option (list HardwareGpuDevice);
  HardwareOperator_module : option string;
  HardwareOperator_displayName : option string;
  HardwareOperator_vendor : option string;
  HardwareOperator_operatorVersion : option string;
  HardwareOperator_driverMode : option string;
  HardwareOperator_phase : option string;
  HardwareOperator_needed : option bool;
  HardwareOperator_operatorActive : option bool;
  HardwareOperator_managedBy : option string;
  HardwareOperator_detectedNodes : option (list string);
  HardwareOperator_compatibleNodes : option (list string);
  HardwareOperator_allocatableResources : option number;
  HardwareOperator_message : option string;
  HardwareOperator_compatibility : option GpuCompatibility;
  HardwareOperator_sharing : option HardwareOperator_sharing_t
}.

Record RouteStatus : Type := mk_RouteStatus {
  RouteStatus_namespace : option string;
  RouteStatus_name : option string;
  RouteStatus_labels : option (dict string);
  RouteStatus_hostnames : option (list string);
  RouteStatus_accepted : option bool
}.

Record IngressStatus : Type := mk_IngressStatus {
  IngressStatus_namespace : option string;
  IngressStatus_name : option string;
  IngressStatus_labels : option (dict string);
  IngressStatus_annotations : option (dict string);
  IngressStatus_hosts : option (list string)
}.

Record KubernetesObjectSummary_conditions_t : Type := mk_KubernetesObjectSummary_conditions_t {
  KubernetesObjectSummary_conditions_t_type : option string;
  KubernetesObjectSummary_conditions_t_status : option string;
  KubernetesObjectSummary_conditions_t_reason : option string;
  KubernetesObjectSummary_conditions_t_message : option string
}.

Record KubernetesObjectSummary : Type := mk_KubernetesObjectSummary {
  KubernetesObjectSummary_namespace : option string;
  KubernetesObjectSummary_name : option string;
  KubernetesObjectSummary_phase : option string;
  KubernetesObjectSummary_conditions : option (list KubernetesObjectSummary_conditions_t)
}.

Inductive HostAction : Type := HostAction_prepare_gpu | HostAction_configure_gpu_memory |
  HostAction_configure_network | HostAction_scan_wifi | HostAction_configure_updates |
  HostAction_check_updates | HostAction_install_updates | HostAction_clear_model_cache |
  HostAction_check_software_channel | HostAction_apply_software_channel | HostAction_reboot |
  HostAction_poweroff.
#[export] Instance HostAction_literal : Literal HostAction := fun x => match x with HostAction_prepare_gpu =>
  JStr "prepare-gpu" | HostAction_configure_gpu_memory => JStr "configure-gpu-memory" |
  HostAction_configure_network => JStr "configure-network" | HostAction_scan_wifi => JStr "scan-wifi" |
  HostAction_configure_updates => JStr "configure-updates" | HostAction_check_updates => JStr "check-updates"
  | HostAction_install_updates => JStr "install-updates" | HostAction_clear_model_cache => JStr
  "clear-model-cache" | HostAction_check_software_channel => JStr "check-software-channel" |
  HostAction_apply_software_channel => JStr "apply-software-channel" | HostAction_reboot => JStr "reboot" |
  HostAction_poweroff => JStr "poweroff" end.
#[export] Instance HostAction_eq_dec : EqDecision HostAction.
Proof. solve_decision. Defined.

Inductive NetworkSettings_mode_t : Type := NetworkSettings_mode_t_dhcp | NetworkSettings_mode_t_static.
#[export] Instance NetworkSettings_mode_t_literal : Literal NetworkSettings_mode_t := fun x => match x with
  NetworkSettings_mode_t_dhcp => JStr "dhcp" | NetworkSettings_mode_t_static => JStr "static" end.
#[export] Instance NetworkSettings_mode_t_eq_dec : EqDecision NetworkSettings_mode_t.
Proof. solve_decision. Defined.

Inductive NetworkSettings_security_t : Type := NetworkSettings_security_t_open |
  NetworkSettings_security_t_wpa_psk.
#[export] Instance NetworkSettings_security_t_literal : Literal NetworkSettings_security_t := fun x => match x
  with NetworkSettings_security_t_open => JStr "open" | NetworkSettings_security_t_wpa_psk => JStr "wpa-psk"
  end.
#[export] Instance NetworkSettings_security_t_eq_dec : EqDecision NetworkSettings_security_t.
Proof. solve_decision. Defined.

Record NetworkSettings : Type := mk_NetworkSettings {
  NetworkSettings_interface : string;
  NetworkSettings_mode : option NetworkSettings_mode_t;
  NetworkSettings_address : option string;
  NetworkSettings_gateway : option string;
  NetworkSettings_dns : option (list string);
  NetworkSettings_metric : option number;
  NetworkSettings_ssid : option string;
  NetworkSettings_security : option NetworkSettings_security_t;
  NetworkSettings_password : option string;
  NetworkSettings_hidden : option bool
}.

Inductive NetworkInterface_kind_t : Type := NetworkInterface_kind_t_ethernet | NetworkInterface_kind_t_wifi.
#[export] Instance NetworkInterface_kind_t_literal : Literal NetworkInterface_kind_t := fun x => match x with
  NetworkInterface_kind_t_ethernet => JStr "ethernet" | NetworkInterface_kind_t_wifi => JStr "wifi" end.
#[export] Instance NetworkInterface_kind_t_eq_dec : EqDecision NetworkInterface_kind_t.
Proof. solve_decision. Defined.

Inductive NetworkInterface_configuredMode_t : Type := NetworkInterface_configuredMode_t_dhcp |
  NetworkInterface_configuredMode_t_static.
#[export] Instance NetworkInterface_configuredMode_t_literal : Literal NetworkInterface_configuredMode_t :=
  fun x => match x with NetworkInterface_configuredMode_t_dhcp => JStr "dhcp" |
  NetworkInterface_configuredMode_t_static => JStr "static" end.
#[export] Instance NetworkInterface_configuredMode_t_eq_dec : EqDecision NetworkInterface_configuredMode_t.
Proof. solve_decision. Defined.

Inductive NetworkInterface_security_t : Type := NetworkInterface_security_t_open |
  NetworkInterface_security_t_wpa_psk.
#[export] Instance NetworkInterface_security_t_literal : Literal NetworkInterface_security_t := fun x => match
  x with NetworkInterface_security_t_open => JStr "open" | NetworkInterface_security_t_wpa_psk => JStr
  "wpa-psk" end.
#[export] Instance NetworkInterface_security_t_eq_dec : EqDecision NetworkInterface_security_t.
Proof. solve_decision. Defined.

Record NetworkInterface : Type := mk_NetworkInterface {
  NetworkInterface_name : string;
  NetworkInterface_kind : NetworkInterface_kind_t;
  NetworkInterface_mac : string;
  NetworkInterface_state : string;
  NetworkInterface_addresses : list string;
  NetworkInterface_gateway : option string;
  NetworkInterface_editable : bool;
  NetworkInterface_scanSupported : bool;
  NetworkInterface_clusterAddresses : list string;
  NetworkInterface_configuredMode : option NetworkInterface_configuredMode_t;
  NetworkInterface_configuredAddress : option string;
  NetworkInterface_configuredGateway : option string;
  NetworkInterface_dns : option (list string);
  NetworkInterface_metric : option number;
  NetworkInterface_configuredSsid : option string;
  NetworkInterface_connectedSsid : option string;
  NetworkInterface_hasPassword : option bool;
  NetworkInterface_security : option NetworkInterface_security_t;
  NetworkInterface_hidden : option bool
}.

Record HostNetwork_scan_t_networks_t : Type := mk_HostNetwork_scan_t_networks_t {
  HostNetwork_scan_t_networks_t_ssid : string;
  HostNetwork_scan_t_networks_t_signal : option number;
  HostNetwork_scan_t_networks_t_security : string
}.

Record HostNetwork_scan_t : Type := mk_HostNetwork_scan_t {
  HostNetwork_scan_t_interface : string;
  HostNetwork_scan_t_observedAt : string;
  HostNetwork_scan_t_networks : list HostNetwork_scan_t_networks_t
}.

Record HostNetwork : Type := mk_HostNetwork {
  HostNetwork_id : option string;
  HostNetwork_supported : bool;
  HostNetwork_message : string;
  HostNetwork_interfaces : list NetworkInterface;
  HostNetwork_scan : option HostNetwork_scan_t
}.

Record HostGpuMemorySettings : Type := mk_HostGpuMemorySettings {
  HostGpuMemorySettings_carveoutIndex : number;
  HostGpuMemorySettings_dynamicLimitMi : number
}.

Record HostGpuMemory_options_t : Type := mk_HostGpuMemory_options_t {
  HostGpuMemory_options_t_index : number;
  HostGpuMemory_options_t_label : string;
  HostGpuMemory_options_t_sizeMi : number
}.

Record HostGpuMemory : Type := mk_HostGpuMemory {
  HostGpuMemory_id : string;
  HostGpuMemory_supported : bool;
  HostGpuMemory_message : string;
  HostGpuMemory_pciAddress : option string;
  HostGpuMemory_systemMemoryMi : option number;
  HostGpuMemory_currentCarveoutIndex : option number;
  HostGpuMemory_currentCarveoutMi : option number;
  HostGpuMemory_currentDynamicLimitMi : option number;
  HostGpuMemory_options : option (list HostGpuMemory_options_t);
  HostGpuMemory_systemReserveMi : option number;
  HostGpuMemory_stepMi : option number;
  HostGpuMemory_minDynamicLimitMi : option number
}.

Inductive HostPreparationPlan_state_t : Type := HostPreparationPlan_state_t_not_required |
  HostPreparationPlan_state_t_blocked | HostPreparationPlan_state_t_ready |
  HostPreparationPlan_state_t_available.
#[export] Instance HostPreparationPlan_state_t_literal : Literal HostPreparationPlan_state_t := fun x => match
  x with HostPreparationPlan_state_t_not_required => JStr "not-required" | HostPreparationPlan_state_t_blocked
  => JStr "blocked" | HostPreparationPlan_state_t_ready => JStr "ready" |
  HostPreparationPlan_state_t_available => JStr "available" end.
#[export] Instance HostPreparationPlan_state_t_eq_dec : EqDecision HostPreparationPlan_state_t.
Proof. solve_decision. Defined.

Inductive HostPreparationPlan : Type := mk_HostPreparationPlan {
  HostPreparationPlan_id : string;
  HostPreparationPlan_state : HostPreparationPlan_state_t;
  HostPreparationPlan_message : string;
  HostPreparationPlan_profileId : string;
  HostPreparationPlan_profileVersion : string;
  HostPreparationPlan_gpuProfile : string;
  HostPreparationPlan_experimental : bool;
  HostPreparationPlan_experimentMode : option bool;
  HostPreparationPlan_engineValidationAvailable : option bool;
  HostPreparationPlan_displayGpus : option (list string);
  HostPreparationPlan_packages : dict string;
  HostPreparationPlan_targetKernel : string;
  HostPreparationPlan_rebootRequired : bool;
  HostPreparationPlan_experiment : option HostPreparationPlan
}.

Record HostOperationStatus : Type := mk_HostOperationStatus {
  HostOperationStatus_requestId : string;
  HostOperationStatus_action : HostAction;
  HostOperationStatus_phase : string;
  HostOperationStatus_message : option string;
  HostOperationStatus_updatedAt : option string;
  HostOperationStatus_confirmationDeadline : option string
}.

Inductive HostUpdatePolicy_mode_t : Type := HostUpdatePolicy_mode_t_manual | HostUpdatePolicy_mode_t_security
  | HostUpdatePolicy_mode_t_all.
#[export] Instance HostUpdatePolicy_mode_t_literal : Literal HostUpdatePolicy_mode_t := fun x => match x with
  HostUpdatePolicy_mode_t_manual => JStr "manual" | HostUpdatePolicy_mode_t_security => JStr "security" |
  HostUpdatePolicy_mode_t_all => JStr "all" end.
#[export] Instance HostUpdatePolicy_mode_t_eq_dec : EqDecision HostUpdatePolicy_mode_t.
Proof. solve_decision. Defined.

Record HostUpdatePolicy : Type := mk_HostUpdatePolicy {
  HostUpdatePolicy_mode : HostUpdatePolicy_mode_t;
  HostUpdatePolicy_windowStart : string;
  HostUpdatePolicy_windowMinutes : number;
  HostUpdatePolicy_automaticReboot : bool
}.

Record HostUpdates_packages_t : Type := mk_HostUpdates_packages_t {
  HostUpdates_packages_t_name : string;
  HostUpdates_packages_t_installed : string;
  HostUpdates_packages_t_candidate : string;
  HostUpdates_packages_t_security : bool;
  HostUpdates_packages_t_blocked : string
}.

Record HostUpdates : Type := mk_HostUpdates {
  HostUpdates_supported : bool;
  HostUpdates_id : string;
  HostUpdates_policy : HostUpdatePolicy;
  HostUpdates_busy : bool;
  HostUpdates_rebootRequired : bool;
  HostUpdates_phase : option string;
  HostUpdates_message : option string;
  HostUpdates_checkedAt : option string;
  HostUpdates_lastSuccessAt : option string;
  HostUpdates_lastAttemptAt : option string;
  HostUpdates_pendingCount : option number;
  HostUpdates_securityCount : option number;
  HostUpdates_blockedCount : option number;
  HostUpdates_truncated : option bool;
  HostUpdates_packages : option (list HostUpdates_packages_t)
}.

Record HostModelCache_caches_t : Type := mk_HostModelCache_caches_t {
  HostModelCache_caches_t_id : string;
  HostModelCache_caches_t_name : string;
  HostModelCache_caches_t_usedBytes : number;
  HostModelCache_caches_t_clearable : bool
}.

Record HostModelCache : Type := mk_HostModelCache {
  HostModelCache_supported : bool;
  HostModelCache_blocked : bool;
  HostModelCache_id : option string;
  HostModelCache_message : option string;
  HostModelCache_totalBytes : option number;
  HostModelCache_freeBytes : option number;
  HostModelCache_reclaimableBytes : number;
  HostModelCache_caches : list HostModelCache_caches_t
}.

Inductive SoftwareChannel_kind_t : Type := SoftwareChannel_kind_t_branch | SoftwareChannel_kind_t_tag |
  SoftwareChannel_kind_t_commit.
#[export] Instance SoftwareChannel_kind_t_literal : Literal SoftwareChannel_kind_t := fun x => match x with
  SoftwareChannel_kind_t_branch => JStr "branch" | SoftwareChannel_kind_t_tag => JStr "tag" |
  SoftwareChannel_kind_t_commit => JStr "commit" end.
#[export] Instance SoftwareChannel_kind_t_eq_dec : EqDecision SoftwareChannel_kind_t.
Proof. solve_decision. Defined.

Record SoftwareChannel : Type := mk_SoftwareChannel {
  SoftwareChannel_kind : SoftwareChannel_kind_t;
  SoftwareChannel_value : string
}.

Record SoftwarePreview_images_t : Type := mk_SoftwarePreview_images_t {
  SoftwarePreview_images_t_name : string;
  SoftwarePreview_images_t_image : string;
  SoftwarePreview_images_t_available : bool
}.

Inductive SoftwareLicenseRecord_schemaVersion_t : Type := SoftwareLicenseRecord_schemaVersion_t_1.
#[export] Instance SoftwareLicenseRecord_schemaVersion_t_literal : Literal
  SoftwareLicenseRecord_schemaVersion_t := fun x => match x with SoftwareLicenseRecord_schemaVersion_t_1 =>
  JNum (Int 1) end.
#[export] Instance SoftwareLicenseRecord_schemaVersion_t_eq_dec : EqDecision SoftwareLicenseRecord_schemaVersion_t.
Proof. solve_decision. Defined.

Inductive SoftwareLicenseRecord_changeLicense_t : Type := SoftwareLicenseRecord_changeLicense_t_MIT.
#[export] Instance SoftwareLicenseRecord_changeLicense_t_literal : Literal
  SoftwareLicenseRecord_changeLicense_t := fun x => match x with SoftwareLicenseRecord_changeLicense_t_MIT =>
  JStr "MIT" end.
#[export] Instance SoftwareLicenseRecord_changeLicense_t_eq_dec : EqDecision SoftwareLicenseRecord_changeLicense_t.
Proof. solve_decision. Defined.

Record SoftwareLicenseRecord : Type := mk_SoftwareLicenseRecord {
  SoftwareLicenseRecord_schemaVersion : SoftwareLicenseRecord_schemaVersion_t;
  SoftwareLicenseRecord_version : string;
  SoftwareLicenseRecord_firstPublicDistribution : string;
  SoftwareLicenseRecord_changeDate : string;
  SoftwareLicenseRecord_changeLicense : SoftwareLicenseRecord_changeLicense_t
}.

Record SoftwarePreview_release_t : Type := mk_SoftwarePreview_release_t {
  SoftwarePreview_release_t_version : string;
  SoftwarePreview_release_t_commit : string;
  SoftwarePreview_release_t_tagObject : string;
  SoftwarePreview_release_t_releaseId : number;
  SoftwarePreview_release_t_manifestDigest : string;
  SoftwarePreview_release_t_prerelease : bool;
  SoftwarePreview_release_t_license : SoftwareLicenseRecord
}.

Record SoftwarePreview : Type := mk_SoftwarePreview {
  SoftwarePreview_id : string;
  SoftwarePreview_configurationId : string;
  SoftwarePreview_channel : SoftwareChannel;
  SoftwarePreview_commit : string;
  SoftwarePreview_checkedAtEpoch : number;
  SoftwarePreview_ready : bool;
  SoftwarePreview_images : list SoftwarePreview_images_t;
  SoftwarePreview_release : option SoftwarePreview_release_t
}.

Record HostSoftware_operation_t : Type := mk_HostSoftware_operation_t {
  HostSoftware_operation_t_requestId : string;
  HostSoftware_operation_t_phase : string;
  HostSoftware_operation_t_message : option string
}.

Record HostSoftware_observed_t_images_t : Type := mk_HostSoftware_observed_t_images_t {
  HostSoftware_observed_t_images_t_name : string;
  HostSoftware_observed_t_images_t_image : string;
  HostSoftware_observed_t_images_t_imageId : string;
  HostSoftware_observed_t_images_t_ready : bool
}.

Record HostSoftware_observed_t : Type := mk_HostSoftware_observed_t {
  HostSoftware_observed_t_sourceRevision : option string;
  HostSoftware_observed_t_appliedRevision : option string;
  HostSoftware_observed_t_ready : option bool;
  HostSoftware_observed_t_checkedAtEpoch : option number;
  HostSoftware_observed_t_images : option (list HostSoftware_observed_t_images_t)
}.

Record HostSoftware : Type := mk_HostSoftware {
  HostSoftware_supported : bool;
  HostSoftware_releaseCatalogVersion : option number;
  HostSoftware_id : option string;
  HostSoftware_channel : option SoftwareChannel;
  HostSoftware_hostCommit : option string;
  HostSoftware_approvedCommit : option string;
  HostSoftware_previousCommit : option string;
  HostSoftware_busy : option bool;
  HostSoftware_blocked : option bool;
  HostSoftware_message : option string;
  HostSoftware_preview : option SoftwarePreview;
  HostSoftware_operation : option HostSoftware_operation_t;
  HostSoftware_observed : option HostSoftware_observed_t
}.

Record ManagedHost : Type := mk_ManagedHost {
  ManagedHost_name : string;
  ManagedHost_nodeUid : string;
  ManagedHost_bootId : string;
  ManagedHost_kernel : string;
  ManagedHost_available : bool;
  ManagedHost_observedAt : option string;
  ManagedHost_message : string;
  ManagedHost_plan : option (option HostPreparationPlan);
  ManagedHost_gpuMemory : option (option HostGpuMemory);
  ManagedHost_network : option (option HostNetwork);
  ManagedHost_updates : option (option HostUpdates);
  ManagedHost_modelCache : option (option HostModelCache);
  ManagedHost_software : option (option HostSoftware);
  ManagedHost_operation : option (option HostOperationStatus)
}.

Inductive HostOperationRequest_updateScope_t : Type := HostOperationRequest_updateScope_t_security |
  HostOperationRequest_updateScope_t_all.
#[export] Instance HostOperationRequest_updateScope_t_literal : Literal HostOperationRequest_updateScope_t :=
  fun x => match x with HostOperationRequest_updateScope_t_security => JStr "security" |
  HostOperationRequest_updateScope_t_all => JStr "all" end.
#[export] Instance HostOperationRequest_updateScope_t_eq_dec : EqDecision HostOperationRequest_updateScope_t.
Proof. solve_decision. Defined.

Record HostOperationRequest : Type := mk_HostOperationRequest {
  HostOperationRequest_action : HostAction;
  HostOperationRequest_nodeName : string;
  HostOperationRequest_nodeUid : string;
  HostOperationRequest_bootId : string;
  HostOperationRequest_requestId : string;
  HostOperationRequest_confirmation : string;
  HostOperationRequest_acknowledgeDisruption : bool;
  HostOperationRequest_allowExperimental : bool;
  HostOperationRequest_experimentMode : bool;
  HostOperationRequest_planId : option string;
  HostOperationRequest_gpuMemory : option HostGpuMemorySettings;
  HostOperationRequest_network : option NetworkSettings;
  HostOperationRequest_updatePolicy : option HostUpdatePolicy;
  HostOperationRequest_updateScope : option HostOperationRequest_updateScope_t;
  HostOperationRequest_softwareChannel : option SoftwareChannel;
  HostOperationRequest_softwarePreviewId : option string
}.

Record SoftwareRelease : Type := mk_SoftwareRelease {
  SoftwareRelease_version : string;
  SoftwareRelease_releaseId : number;
  SoftwareRelease_url : string;
  SoftwareRelease_publishedAt : string;
  SoftwareRelease_prerelease : bool;
  SoftwareRelease_selectable : bool;
  SoftwareRelease_reason : option string
}.

Record SoftwareReleaseCatalog : Type := mk_SoftwareReleaseCatalog {
  SoftwareReleaseCatalog_releases : list SoftwareRelease;
  SoftwareReleaseCatalog_fetchedAt : string;
  SoftwareReleaseCatalog_stale : bool;
  SoftwareReleaseCatalog_message : option string
}.

Record SystemStatusPayload : Type := mk_SystemStatusPayload {
  SystemStatusPayload_appliance : option Appliance;
  SystemStatusPayload_fluxKustomizations : option (list KubernetesObjectSummary);
  SystemStatusPayload_pods : option (list KubernetesObjectSummary);
  SystemStatusPayload_services : option (list KubernetesObjectSummary);
  SystemStatusPayload_ingresses : option (list IngressStatus);
  SystemStatusPayload_httpRoutes : option (list RouteStatus);
  SystemStatusPayload_hardwareOperators : option (dict HardwareOperator);
  SystemStatusPayload_events : option (list (dict json))
}.

Record UserCapabilities : Type := mk_UserCapabilities {
  UserCapabilities_canEditProfile : option bool;
  UserCapabilities_canManageRoles : option bool;
  UserCapabilities_canEnable : option bool;
  UserCapabilities_canDisable : option bool;
  UserCapabilities_canResetPassword : option bool;
  UserCapabilities_canDelete : option bool;
  UserCapabilities_isSelf : option bool;
  UserCapabilities_isProtected : option bool
}.

Inductive User_source_t : Type := User_source_t_String (x : string) | User_source_t_Object (x : (dict json)).

Inductive User_createdAt_t : Type := User_createdAt_t_String (x : string) | User_createdAt_t_Number (x : number).

Inductive User_createdTimestamp_t : Type := User_createdTimestamp_t_String (x : string) | User_createdTimestamp_t_Number (x : number).

Record User : Type := mk_User {
  User_id : string;
  User_username : string;
  User_firstName : option string;
  User_lastName : option string;
  User_displayName : option string;
  User_email : option string;
  User_emailVerified : option bool;
  User_enabled : option bool;
  User_source : option User_source_t;
  User_provider : option string;
  User_local : option bool;
  User_createdAt : option User_createdAt_t;
  User_createdTimestamp : option User_createdTimestamp_t;
  User_directRoles : option (list string);
  User_effectiveRoles : option (list string);
  User_accessLevel : option string;
  User_effectiveAccessLevel : option string;
  User_capabilities : option UserCapabilities
}.

Record UsersPayload : Type := mk_UsersPayload {
  UsersPayload_users : list User;
  UsersPayload_total : number;
  UsersPayload_first : number;
  UsersPayload_max : number
}.

Record ApiKeyItem : Type := mk_ApiKeyItem {
  ApiKeyItem_id : string;
  ApiKeyItem_name : string;
  ApiKeyItem_keyHint : option string;
  ApiKeyItem_createdAt : option string;
  ApiKeyItem_expiresAt : option string;
  ApiKeyItem_status : option string
}.

Record ApiAccessPayload_apiBases_t : Type := mk_ApiAccessPayload_apiBases_t {
  ApiAccessPayload_apiBases_t_scope : option string;
  ApiAccessPayload_apiBases_t_url : string
}.

Record ApiAccessPayload : Type := mk_ApiAccessPayload {
  ApiAccessPayload_items : list ApiKeyItem;
  ApiAccessPayload_total : number;
  ApiAccessPayload_apiBases : option (list ApiAccessPayload_apiBases_t)
}.

Record KubernetesAccessUser : Type := mk_KubernetesAccessUser {
  KubernetesAccessUser_id : string;
  KubernetesAccessUser_username : string;
  KubernetesAccessUser_displayName : option string;
  KubernetesAccessUser_email : option string;
  KubernetesAccessUser_enabled : option bool;
  KubernetesAccessUser_source : option string;
  KubernetesAccessUser_provider : option string;
  KubernetesAccessUser_accessLevel : option string;
  KubernetesAccessUser_protected : option bool
}.

Record KubernetesAccessPayload : Type := mk_KubernetesAccessPayload {
  KubernetesAccessPayload_users : list KubernetesAccessUser;
  KubernetesAccessPayload_total : number;
  KubernetesAccessPayload_first : number;
  KubernetesAccessPayload_max : number;
  KubernetesAccessPayload_configuration : option (dict json)
}.

Inductive MeshRelay_mode_t : Type := MeshRelay_mode_t_auto | MeshRelay_mode_t_public |
  MeshRelay_mode_t_custom.
#[export] Instance MeshRelay_mode_t_literal : Literal MeshRelay_mode_t := fun x => match x with
  MeshRelay_mode_t_auto => JStr "auto" | MeshRelay_mode_t_public => JStr "public" | MeshRelay_mode_t_custom =>
  JStr "custom" end.
#[export] Instance MeshRelay_mode_t_eq_dec : EqDecision MeshRelay_mode_t.
Proof. solve_decision. Defined.

Record MeshRelay : Type := mk_MeshRelay {
  MeshRelay_mode : MeshRelay_mode_t;
  MeshRelay_url : string
}.

Inductive MeshShare_priority_t : Type := MeshShare_priority_t_low.
#[export] Instance MeshShare_priority_t_literal : Literal MeshShare_priority_t := fun x => match x with
  MeshShare_priority_t_low => JStr "low" end.
#[export] Instance MeshShare_priority_t_eq_dec : EqDecision MeshShare_priority_t.
Proof. solve_decision. Defined.

Record MeshShare : Type := mk_MeshShare {
  MeshShare_enabled : bool;
  MeshShare_maxConcurrent : number;
  MeshShare_rpm : number;
  MeshShare_tpm : number;
  MeshShare_maxContext : number;
  MeshShare_maxOutput : number;
  MeshShare_priority : MeshShare_priority_t
}.

Inductive MeshInvite_type_t : Type := MeshInvite_type_t_magic_stick | MeshInvite_type_t_client.
#[export] Instance MeshInvite_type_t_literal : Literal MeshInvite_type_t := fun x => match x with
  MeshInvite_type_t_magic_stick => JStr "magic-stick" | MeshInvite_type_t_client => JStr "client" end.
#[export] Instance MeshInvite_type_t_eq_dec : EqDecision MeshInvite_type_t.
Proof. solve_decision. Defined.

Record MeshInvite : Type := mk_MeshInvite {
  MeshInvite_id : string;
  MeshInvite_type : MeshInvite_type_t;
  MeshInvite_creator : string;
  MeshInvite_expiresAt : number;
  MeshInvite_createdAt : number;
  MeshInvite_usedAt : option number;
  MeshInvite_revoked : bool;
  MeshInvite_token : option string
}.

Record MeshStatus_mesh_t : Type := mk_MeshStatus_mesh_t {
  MeshStatus_mesh_t_id : string;
  MeshStatus_mesh_t_name : string;
  MeshStatus_mesh_t_authority : string;
  MeshStatus_mesh_t_origin : string
}.

Inductive MeshStatus_node_t_type_t : Type := MeshStatus_node_t_type_t_magic_stick |
  MeshStatus_node_t_type_t_client.
#[export] Instance MeshStatus_node_t_type_t_literal : Literal MeshStatus_node_t_type_t := fun x => match x
  with MeshStatus_node_t_type_t_magic_stick => JStr "magic-stick" | MeshStatus_node_t_type_t_client => JStr
  "client" end.
#[export] Instance MeshStatus_node_t_type_t_eq_dec : EqDecision MeshStatus_node_t_type_t.
Proof. solve_decision. Defined.

Record MeshStatus_node_t : Type := mk_MeshStatus_node_t {
  MeshStatus_node_t_id : string;
  MeshStatus_node_t_name : string;
  MeshStatus_node_t_type : MeshStatus_node_t_type_t
}.

Inductive MeshStatus_nodes_t_type_t : Type := MeshStatus_nodes_t_type_t_magic_stick |
  MeshStatus_nodes_t_type_t_client.
#[export] Instance MeshStatus_nodes_t_type_t_literal : Literal MeshStatus_nodes_t_type_t := fun x => match x
  with MeshStatus_nodes_t_type_t_magic_stick => JStr "magic-stick" | MeshStatus_nodes_t_type_t_client => JStr
  "client" end.
#[export] Instance MeshStatus_nodes_t_type_t_eq_dec : EqDecision MeshStatus_nodes_t_type_t.
Proof. solve_decision. Defined.

Record MeshStatus_nodes_t : Type := mk_MeshStatus_nodes_t {
  MeshStatus_nodes_t_id : string;
  MeshStatus_nodes_t_name : string;
  MeshStatus_nodes_t_type : MeshStatus_nodes_t_type_t;
  MeshStatus_nodes_t_online : bool;
  MeshStatus_nodes_t_revoked : bool;
  MeshStatus_nodes_t_lastSeen : number
}.

Record MeshStatus_metrics_t_incoming_t : Type := mk_MeshStatus_metrics_t_incoming_t {
  MeshStatus_metrics_t_incoming_t_requests : number;
  MeshStatus_metrics_t_incoming_t_errors : number;
  MeshStatus_metrics_t_incoming_t_active : number;
  MeshStatus_metrics_t_incoming_t_queue : number;
  MeshStatus_metrics_t_incoming_t_latencySeconds : number
}.

Record MeshStatus_metrics_t_outgoing_t : Type := mk_MeshStatus_metrics_t_outgoing_t {
  MeshStatus_metrics_t_outgoing_t_requests : number;
  MeshStatus_metrics_t_outgoing_t_errors : number;
  MeshStatus_metrics_t_outgoing_t_active : number
}.

Inductive MeshStatus_metrics_t_backends_t_semantics_t : Type :=
  MeshStatus_metrics_t_backends_t_semantics_t_completed_backend_attempts.
#[export] Instance MeshStatus_metrics_t_backends_t_semantics_t_literal : Literal
  MeshStatus_metrics_t_backends_t_semantics_t := fun x => match x with
  MeshStatus_metrics_t_backends_t_semantics_t_completed_backend_attempts => JStr "completed_backend_attempts"
  end.
#[export] Instance MeshStatus_metrics_t_backends_t_semantics_t_eq_dec : EqDecision MeshStatus_metrics_t_backends_t_semantics_t.
Proof. solve_decision. Defined.

Inductive MeshStatus_metrics_t_backends_t_byModel_t_traffic_t : Type :=
  MeshStatus_metrics_t_backends_t_byModel_t_traffic_t_LOCAL |
  MeshStatus_metrics_t_backends_t_byModel_t_traffic_t_MESH_REMOTE.
#[export] Instance MeshStatus_metrics_t_backends_t_byModel_t_traffic_t_literal : Literal
  MeshStatus_metrics_t_backends_t_byModel_t_traffic_t := fun x => match x with
  MeshStatus_metrics_t_backends_t_byModel_t_traffic_t_LOCAL => JStr "LOCAL" |
  MeshStatus_metrics_t_backends_t_byModel_t_traffic_t_MESH_REMOTE => JStr "MESH_REMOTE" end.
#[export] Instance MeshStatus_metrics_t_backends_t_byModel_t_traffic_t_eq_dec : EqDecision MeshStatus_metrics_t_backends_t_byModel_t_traffic_t.
Proof. solve_decision. Defined.

Record MeshStatus_metrics_t_backends_t_byModel_t : Type := mk_MeshStatus_metrics_t_backends_t_byModel_t {
  MeshStatus_metrics_t_backends_t_byModel_t_traffic : MeshStatus_metrics_t_backends_t_byModel_t_traffic_t;
  MeshStatus_metrics_t_backends_t_byModel_t_model : string;
  MeshStatus_metrics_t_backends_t_byModel_t_requests : number;
  MeshStatus_metrics_t_backends_t_byModel_t_errors : number;
  MeshStatus_metrics_t_backends_t_byModel_t_latencySeconds : number
}.

Record MeshStatus_metrics_t_backends_t : Type := mk_MeshStatus_metrics_t_backends_t {
  MeshStatus_metrics_t_backends_t_semantics : MeshStatus_metrics_t_backends_t_semantics_t;
  MeshStatus_metrics_t_backends_t_byModel : list MeshStatus_metrics_t_backends_t_byModel_t
}.

Record MeshStatus_metrics_t_byPeerModel_t : Type := mk_MeshStatus_metrics_t_byPeerModel_t {
  MeshStatus_metrics_t_byPeerModel_t_peer : option string;
  MeshStatus_metrics_t_byPeerModel_t_model : string;
  MeshStatus_metrics_t_byPeerModel_t_requests : number;
  MeshStatus_metrics_t_byPeerModel_t_errors : number;
  MeshStatus_metrics_t_byPeerModel_t_active : number;
  MeshStatus_metrics_t_byPeerModel_t_latencySeconds : number
}.

Record MeshStatus_metrics_t : Type := mk_MeshStatus_metrics_t {
  MeshStatus_metrics_t_incoming : MeshStatus_metrics_t_incoming_t;
  MeshStatus_metrics_t_outgoing : MeshStatus_metrics_t_outgoing_t;
  MeshStatus_metrics_t_backends : option (option MeshStatus_metrics_t_backends_t);
  MeshStatus_metrics_t_byPeerModel : option (list MeshStatus_metrics_t_byPeerModel_t)
}.

Record MeshStatus : Type := mk_MeshStatus {
  MeshStatus_installed : bool;
  MeshStatus_configured : bool;
  MeshStatus_phase : string;
  MeshStatus_authority : option bool;
  MeshStatus_mesh : option (option MeshStatus_mesh_t);
  MeshStatus_node : option (option MeshStatus_node_t);
  MeshStatus_nodes : option (list MeshStatus_nodes_t);
  MeshStatus_invites : option (list MeshInvite);
  MeshStatus_models : option (list string);
  MeshStatus_shares : option (dict MeshShare);
  MeshStatus_imports : option (list string);
  MeshStatus_relay : option MeshRelay;
  MeshStatus_membershipValid : option bool;
  MeshStatus_meshVersion : option string;
  MeshStatus_components : option (dict string);
  MeshStatus_transport : option string;
  MeshStatus_lastError : option (option string);
  MeshStatus_lastSync : option (option number);
  MeshStatus_metrics : option MeshStatus_metrics_t
}.

(** ** Run-time validation

    zod is used through these combinators, whose laws are its documented behaviour: [parse]
    of [None] is the parse of [undefined]. *)
Class Zod : Type := {
  schema : Type -> Type;
  shape : Type -> Type;
  parse : forall {A}, schema A -> option json -> option A;
  parse_shape : forall {A}, shape A -> dict json -> option A;
  shape_keys : forall {A}, shape A -> list string;
  z_string : schema string;
  z_boolean : schema bool;
  z_array : forall {A}, schema A -> schema (list A);
  z_default : forall {A}, schema A -> A -> schema A;
  z_catch : forall {A}, schema A -> A -> schema A;
  z_fields : forall {A}, A -> shape A;
  z_field : forall {A B}, shape (A -> B) -> string -> schema A -> shape B;
  z_passthrough : forall {A}, shape (dict json -> A) -> schema A
}.

Class ZodLaws `{Zod} : Prop := {
  parse_string v : parse z_string v = v ≫= json_str;
  parse_boolean v : parse z_boolean v = match v with Some (JBool b) => Some b | _ => None end;
  parse_array A (s : schema A) v :
    parse (z_array s) v = match v with Some (JArr l) => mapM (fun x => parse s (Some x)) l | _ => None end;
  parse_default A (s : schema A) d v :
    parse (z_default s d) v = match v with None => Some d | _ => parse s v end;
  parse_catch A (s : schema A) d v : parse (z_catch s d) v = Some (match parse s v with Some a => a | None => d end);
  parse_fields A (a : A) o : parse_shape (z_fields a) o = Some a;
  parse_field A B (f : shape (A -> B)) k s o :
    parse_shape (z_field f k s) o = (g ← parse_shape f o; a ← parse s (dict_get o k); Some (g a));
  keys_fields A (a : A) : shape_keys (z_fields a) = [];
  keys_field A B (f : shape (A -> B)) k s : shape_keys (z_field f k s) = (shape_keys f ++ [k])%list;
  parse_passthrough A (f : shape (dict json -> A)) v :
    parse (z_passthrough f) v =
    match v with
    | Some (JObj o) => (fun g => g (filter (fun kv => kv.1 ∉ shape_keys f) o)) <$> parse_shape f o
    | _ => None
    end
}.

Record Session : Type := mk_Session {
  Session_subject : string;
  Session_username : string;
  Session_roles : list string;
  Session_identityManagementAvailable : bool;
  Session_identityManagementMode : string;
  Session_extra : dict json
}.

Record Settings : Type := mk_Settings {
  Settings_publicDomain : string;
  Settings_dashboardHost : string;
  Settings_mdnsDomain : string;
  Settings_mdnsName : string;
  Settings_extra : dict json
}.

Section schemas.
Context `{Zod}.

Definition phaseSchema : schema string := z_catch z_string "Unknown".

Definition sessionSchema : schema Session :=
  z_passthrough (z_field (z_field (z_field (z_field (z_field (z_fields mk_Session)
    "subject" (z_default z_string ""))
    "username" (z_default z_string "unknown"))
    "roles" (z_default (z_array z_string) []))
    "identityManagementAvailable" (z_default z_boolean false))
    "identityManagementMode" (z_default z_string "external")).

Definition settingsSchema : schema Settings :=
  z_passthrough (z_field (z_field (z_field (z_field (z_fields mk_Settings)
    "publicDomain" (z_default z_string ""))
    "dashboardHost" (z_default z_string ""))
    "mdnsDomain" (z_default z_string "magicstick.local"))
    "mdnsName" (z_default z_string "magicstick")).
End schemas.

(** A direct implementation of the laws. *)
Definition direct_zod : Zod := {|
  schema A := option json -> option A;
  shape A := ((dict json -> option A) * list string)%type;
  parse A s v := s v;
  parse_shape A s o := s.1 o;
  shape_keys A s := s.2;
  z_string v := v ≫= json_str;
  z_boolean v := match v with Some (JBool b) => Some b | _ => None end;
  z_array A s v := match v with Some (JArr l) => mapM (fun x => s (Some x)) l | _ => None end;
  z_default A s d v := match v with None => Some d | _ => s v end;
  z_catch A s d v := Some (match s v with Some a => a | None => d end);
  z_fields A a := (fun _ => Some a, []);
  z_field A B f k s := (fun o => g ← f.1 o; a ← s (dict_get o k); Some (g a), (f.2 ++ [k])%list);
  z_passthrough A f v :=
    match v with
    | Some (JObj o) => (fun g => g (filter (fun kv => kv.1 ∉ f.2) o)) <$> f.1 o
    | _ => None
    end
|}.

Lemma direct_zod_laws : @ZodLaws direct_zod.
Proof. by split. Qed.
