(* ===== verification/DashboardCore.v ===== *)
(** * Dashboard core (packages/core/src/index.ts)

    The pure rules shared by the web dashboard and the CLI: roles, phases and progress,
    module readiness, resource links, sizes, and model names. [UrlParser] is the platform's
    URL parser and [localeCompare] its collation; both are parameters. *)

From S2P Require Import Prelude Js Number Json Regex Contracts.

Local Open Scope string_scope.
Local Open Scope js_scope.
Local Open Scope Z_scope.

(** ** Roles *)
Inductive DashboardRole : Type := viewer | operator | admin.

#[export] Instance DashboardRole_eq_dec : EqDecision DashboardRole.
Proof. solve_decision. Defined.

Definition dashboardRole (session : option Session) : DashboardRole :=
  let roles := (Session_roles <$> session) ?? [] in
  if includes roles "magicstick-admin" then admin
  else if includes roles "magicstick-operator" then operator
  else viewer.

Definition canMutateRuntime (session : option Session) : bool := negb (bool_decide (dashboardRole session = viewer)).
Definition canAdminister (session : option Session) : bool := bool_decide (dashboardRole session = admin).

(** ** GPU validation and compatibility *)

(** The string of a literal type. *)
Definition lit_str {A} `{Literal A} (a : A) : string := match literal a with JStr s => s | _ => "" end.

(** The separator [' · ']. *)
Definition middot : string := String " " (String (unit_of 183) " ").

Definition gpuValidationSummary (validation : option GpuEngineValidation) : string :=
  let state := (GpuEngineValidation_state <$> validation) ?? GpuEngineValidation_state_t_unverified in
  let ready := validation ≫= GpuEngineValidation_runtimeReady in
  if bool_decide (state = GpuEngineValidation_state_t_passed) || bool_decide (is_Some ready)
  then lit_str state +:+ middot +:+ "runtime " +:+ (if ready ?? false then "ready" else "pending")
  else lit_str state.

Definition gpuCompatibilityParameters (profileId : string) (profiles : list GpuCompatibilityProfile)
    (acknowledged : bool) : res string (dict string) :=
  let profile := find_first (fun item => String.eqb (GpuCompatibilityProfile_id item) profileId) profiles in
  let experimental := (GpuCompatibilityProfile_experimental <$> profile) ?? false in
  if truthy profileId && negb (bool_decide (is_Some profile))
  then Err "The selected GPU compatibility profile is not available. Refresh hardware status."
  else if experimental && negb acknowledged
  then Err "Explicitly acknowledge the experimental GPU profile before enabling it."
  else Ok [("compatibilityProfile", profileId);
           ("allowExperimental", if experimental && acknowledged then "true" else "false")].

(** ** Phases *)
Inductive Tone : Type := good | warn | bad | neutral.

#[export] Instance Tone_eq_dec : EqDecision Tone.
Proof. solve_decision. Defined.

(** [String(phase ?? '').toLowerCase()] *)
Definition normalized (phase : option string) : string := toLowerCase (phase ?? "").

Definition phaseTone (phase : option string) : Tone :=
  let n := normalized phase in
  if includes ["ready"; "active"; "enabled"; "completed"; "succeeded"; "passed"; "registered"; "accepted"; "configured"] n
  then good
  else if includes ["failed"; "error"; "degraded"] n then bad
  else if includes ["installing"; "starting"; "waitingforpod"; "reconciling"; "pending"; "progressing"; "blocked";
                    "recovering"; "cancelling"] n then warn
  else neutral.

Record ProgressState : Type := {
  ps_value : Z;
  ps_label : string;
  ps_tone : Tone;
  ps_indeterminate : bool
}.

Definition phaseInProgress (phase : option string) : bool :=
  includes ["requested"; "detected"; "installing"; "waitingformodules"; "waitingforcrds";
            "waitingforgpu"; "waitingforpod"; "starting"; "reconciling"; "removing"; "progressing"] (normalized phase).

Definition phaseNeedsAttention (phase : option string) : bool :=
  let n := normalized phase in
  includes ["degraded"; "failed"; "error"; "unsupported"; "conflict"] n || phaseInProgress (Some n).

Definition progress (v : Z) (label : string) (tone : Tone) : ProgressState :=
  {| ps_value := v; ps_label := label; ps_tone := tone; ps_indeterminate := false |}.
Definition indeterminate (v : Z) (label : string) (tone : Tone) : ProgressState :=
  {| ps_value := v; ps_label := label; ps_tone := tone; ps_indeterminate := true |}.

Definition progressForPhase (phase : option string) (enabled : bool) (message : string) : ProgressState :=
  let n := normalized phase in
  let label := phase ?? "" in
  if includes ["ready"; "active"; "completed"; "succeeded"] n then progress 100 "Ready" good
  else if String.eqb n "installing" then progress 85 "Waiting for hardware readiness" warn
  else if String.eqb n "waitingformodules" then progress 35 "Waiting for dependencies" warn
  else if String.eqb n "waitingforcrds" then progress 45 "Waiting for CRDs" warn
  else if String.eqb n "waitingforgpu" then progress 55 "Waiting for GPU" warn
  else if String.eqb n "waitingforpod" then indeterminate 0 "Waiting for model Pod" warn
  else if String.eqb n "starting" then indeterminate 85 "Starting model runtime" warn
  else if String.eqb n "reconciling" then progress 70 "Reconciling" warn
  else if String.eqb n "removing" then progress 65 "Removing" warn
  else if includes ["degraded"; "failed"; "error"; "unsupported"; "conflict"] n
  then progress 100 (sor message (sor label "Needs attention")) bad
  else if includes ["disabled"; "suspended"] n || negb enabled
  then progress 0 (if String.eqb n "suspended" then "Suspended" else "Disabled") neutral
  else progress 20 (sor label "Requested") warn.

(** ** Modules *)

(** [{...state.status, ...operator, phase, message}]: the keys of [es_operator] cover those of
    [es_status], and [phase] and [message] are given separately. *)
Record EffectiveStatus : Type := {
  es_status : option StatusValue;
  es_operator : option HardwareOperator;
  es_phase : option string;
  es_message : option string
}.

Definition effectiveModuleStatus (id : string) (state : ModuleState) (status : option SystemStatusPayload)
    (nvidiaTelemetryAvailable : option bool) : EffectiveStatus :=
  let base := ModuleState_status state in
  let op := (status ≫= SystemStatusPayload_hardwareOperators) ≫= fun d => dict_get d id in
  match op with
  | None => {| es_status := base; es_operator := None;
               es_phase := base ≫= StatusValue_phase; es_message := base ≫= StatusValue_message |}
  | Some o =>
      let message := match HardwareOperator_message o with
                     | Some m => if truthy m then Some m else base ≫= StatusValue_message
                     | None => base ≫= StatusValue_message
                     end in
      let phase := HardwareOperator_phase o ??? (base ≫= StatusValue_phase) in
      if String.eqb id "gpu" && String.eqb (normalized phase) "ready"
         && negb (bool_decide (nvidiaTelemetryAvailable = Some true))
      then {| es_status := base; es_operator := op; es_phase := Some "Installing";
              es_message := Some "The NVIDIA GPU resource is published; waiting for DCGM telemetry before reporting the service ready." |}
      else {| es_status := base; es_operator := op; es_phase := phase; es_message := message |}
  end.

(** [replace(/([a-z0-9])([A-Z])/g, '$1 $2')]: no match can start at the second letter of another. *)
Fixpoint split_camel (s : string) : string :=
  match s with
  | String c (String d _ as s') =>
      if (is_lower c || is_digit c) && is_upper d
      then String c (String " " (split_camel s')) else String c (split_camel s')
  | _ => s
  end.

(** The words between runs of white space, without empty ones. *)
Definition words (s : string) : list string :=
  List.filter truthy (split " " (smap (fun c => if is_space c then " "%char else c) s)).

Definition capitalize (w : string) : string :=
  match w with String c r => String (upper c) r | EmptyString => EmptyString end.

Definition titleFromKey (value : string) : string :=
  sor (join " " (map capitalize (words (replace_runs (fun c => Ascii.eqb c "-"%char || Ascii.eqb c "_"%char) " " false
        (split_camel value))))) "Module".

Definition moduleReady (module : option ModuleState) (catalog : option ModuleCatalogEntry) : bool :=
  match module with
  | Some m =>
      if bool_decide (ModuleState_enabled m = Some true) then
        let phase := normalized (ModuleState_status m ≫= StatusValue_phase) in
        let mode := ModuleState_activationMode m ??? (catalog ≫= ModuleCatalogEntry_activationMode) in
        String.eqb phase "ready" || (bool_decide (mode = Some "static") && negb (truthy phase))
      else false
  | None => false
  end.

Definition missingApplicationModules (definition : option ApplicationCatalogEntry)
    (modules : dict ModuleState) (catalog : dict ModuleCatalogEntry) : list string :=
  List.filter (fun id => negb (moduleReady (dict_get modules id) (dict_get catalog id)))
    ((definition ≫= ApplicationCatalogEntry_requiredModules) ?? []).

(** ** Resource links *)

(** The platform's URL parser: [host] and [hostname], or nothing when it rejects the text. *)
Class UrlParser : Type := {
  url_host : string -> option string;
  url_hostname : string -> option string
}.

(** [String.prototype.localeCompare]: negative, zero or positive. *)
Class Collation : Type := localeCompare : string -> string -> Z.

Inductive LinkScope : Type := local | public | direct.

#[export] Instance LinkScope_eq_dec : EqDecision LinkScope.
Proof. solve_decision. Defined.

Record ResourceLink : Type := {
  link_url : string;
  link_label : string;
  link_scope : LinkScope
}.

(** [String(value ?? '')] of an unknown value. *)
Definition text_of (value : option json) : string :=
  match value with None | Some JNull => "" | Some v => String_of_json v end.

(** [/^https?:\/\//i.test(raw)] *)
Definition http_prefix (raw : string) : bool :=
  let l := toLowerCase raw in startsWith "http://" l || startsWith "https://" l.

Definition httpUrl (value : option json) : string :=
  let raw := trim (text_of value) in
  if negb (truthy raw) then ""
  else if http_prefix raw then raw
  else
    let bare := drop_while (Ascii.eqb "/") raw in
    "http://" +:+ (if endsWith "/" bare then bare else bare +:+ "/").

Definition until_slash (authority : string) : string :=
  match indexOf "/" authority with Some i => take_str i authority | None => authority end.

Section links.
Context `{UrlParser} `{Collation}.

Definition hostOf (value : option json) : string :=
  let url := httpUrl value in
  if negb (truthy url) then ""
  else match url_host url with
       | Some h => h
       | None =>
           let raw := text_of value in
           let l := toLowerCase raw in
           let schemeLength := (if startsWith "https://" l then 8 else if startsWith "http://" l then 7 else 0)%nat in
           until_slash (drop_str schemeLength raw)
       end.

(** [replace(/:\d+$/, '')] *)
Definition strip_port (s : string) : string :=
  let '(digits, rest) := span is_digit (rev_str s "") in
  match rest with
  | String ":" r => if truthy digits then rev_str r "" else s
  | _ => s
  end.

Definition hostnameOf (value : option json) : string :=
  let url := httpUrl value in
  if negb (truthy url) then ""
  else match url_hostname url with Some h => h | None => strip_port (hostOf value) end.

(** [/^\d{1,3}(\.\d{1,3}){3}$/] *)
Definition ipv4_pattern : re :=
  let octet := Cat (Cls is_digit) (upto 2 (Cls is_digit)) in
  Cat octet (rep 3 (Cat (chr ".") octet)).

Definition scopeOf (url : string) : LinkScope :=
  let hostname := hostnameOf (Some (JStr url)) in
  if endsWith ".local" hostname then local
  else if rtest ipv4_pattern hostname || String.eqb hostname "localhost" then direct
  else public.

Definition linkFromUrl (value : option json) : option ResourceLink :=
  let url := httpUrl value in
  if truthy url then Some {| link_url := url; link_label := sor (hostOf value) url; link_scope := scopeOf url |} else None.

(** A stable sort by a comparator: [cmp a b <= 0] keeps [a] before [b]. *)
Fixpoint insert_sorted {A} (cmp : A -> A -> Z) (a : A) (l : list A) : list A :=
  match l with
  | [] => [a]
  | b :: l' => if cmp a b <=? 0 then a :: l else b :: insert_sorted cmp a l'
  end.
Definition sort_by {A} (cmp : A -> A -> Z) (l : list A) : list A := foldr (insert_sorted cmp) [] l.

Definition scope_order (s : LinkScope) : Z := match s with local => 10 | public => 20 | direct => 30 end.

Definition link_key (l : ResourceLink) : string := strip_last "/" (link_url l).

(** The filter with its set of seen keys. *)
Fixpoint first_links (seen : list string) (links : list (option ResourceLink)) : list ResourceLink :=
  match links with
  | [] => []
  | None :: ls => first_links seen ls
  | Some l :: ls =>
      if negb (truthy (link_key l)) || includes seen (link_key l) then first_links seen ls
      else l :: first_links (link_key l :: seen) ls
  end.

Definition compare_links (a b : ResourceLink) : Z :=
  let d := scope_order (link_scope a) - scope_order (link_scope b) in
  if d =? 0 then localeCompare (link_label a) (link_label b) else d.

Definition uniqueLinks (links : list (option ResourceLink)) : list ResourceLink :=
  sort_by compare_links (first_links [] links).

Definition normalizedKey (value : option json) : string :=
  sfilter (fun c => is_lower c || is_digit c) (toLowerCase (text_of value)).

Definition routeLinks (routes : list RouteStatus) : list (option ResourceLink) :=
  flat_map (fun route =>
    if bool_decide (RouteStatus_accepted route = Some true)
    then map (fun host => linkFromUrl (Some (JStr ("https://" +:+ host)))) (RouteStatus_hostnames route ?? [])
    else []) routes.

Definition ingressLinks (ingresses : list IngressStatus) : list (option ResourceLink) :=
  flat_map (fun ingress => map (fun host => linkFromUrl (Some (JStr host))) (IngressStatus_hosts ingress ?? [])) ingresses.

(** What the two kinds of resource share; a route has no annotations. *)
Record LinkResource : Type := {
  lr_name : option string;
  lr_labels : dict string;
  lr_annotations : dict string;
  lr_hosts : list string
}.
Definition of_route (r : RouteStatus) : LinkResource :=
  {| lr_name := RouteStatus_name r; lr_labels := RouteStatus_labels r ?? []; lr_annotations := [];
     lr_hosts := RouteStatus_hostnames r ?? [] |}.
Definition of_ingress (i : IngressStatus) : LinkResource :=
  {| lr_name := IngressStatus_name i; lr_labels := IngressStatus_labels i ?? [];
     lr_annotations := IngressStatus_annotations i ?? []; lr_hosts := IngressStatus_hosts i ?? [] |}.

Definition key_of (s : option string) : string := normalizedKey (JStr <$> s).

Definition module_keys (name : string) (catalog : option ModuleCatalogEntry) : list string :=
  List.filter truthy (map (fun s => key_of (Some s)) (name :: ((catalog ≫= ModuleCatalogEntry_aliases) ?? []))).

Definition module_matches (keys : list string) (allowContains : bool) (r : LinkResource) : bool :=
  let labeled := List.filter truthy (map key_of
    [dict_get (lr_labels r) "app"; dict_get (lr_labels r) "app.kubernetes.io/name";
     dict_get (lr_labels r) "appliance.magicstick.dev/module";
     dict_get (lr_annotations r) "dashboard.ai-appliance.io/title"]) in
  let resourceName := key_of (lr_name r) in
  existsb (includes keys) labeled
  || includes keys resourceName || (allowContains && existsb (fun key => includesStr key resourceName) keys)
  || existsb (fun host => existsb (includes keys)
       (map (fun part => key_of (Some part)) (split "." (hostOf (Some (JStr host)))))) (lr_hosts r).

Definition moduleResourceLinks (name : string) (catalog : option ModuleCatalogEntry)
    (status : option SystemStatusPayload) : list ResourceLink :=
  let keys := module_keys name catalog in
  let allowContains := bool_decide (catalog ≫= ModuleCatalogEntry_activationMode = Some "static") in
  let matches := module_matches keys allowContains in
  uniqueLinks
    (ingressLinks (List.filter (fun i => matches (of_ingress i)) ((status ≫= SystemStatusPayload_ingresses) ?? [])) ++
     routeLinks (List.filter (fun r => matches (of_route r)) ((status ≫= SystemStatusPayload_httpRoutes) ?? [])))%list.

(** A property of an object value; [{}] stands for anything that is not an object. An array
    is an object without these keys. *)
Definition sub_object (d : dict json) (k : string) : dict json :=
  match dict_get d k with Some (JObj o) => o | _ => [] end.

Definition instance_matches (instanceName : string) (configuredHosts : list string) (r : LinkResource) : bool :=
  let resourceName := toLowerCase (lr_name r ?? "") in
  if endsWith "-callback" resourceName then false
  else
    let appInstance := toLowerCase (dict_get (lr_labels r) "appliance.magicstick.dev/appinstance" ?? "") in
    (truthy instanceName && (String.eqb resourceName instanceName || startsWith (instanceName +:+ "-") resourceName
                             || String.eqb appInstance instanceName))
    || existsb (fun host => includes configuredHosts (hostOf (Some (JStr host)))) (lr_hosts r).

Definition instanceResourceLinks (instance : AppInstance) (status : option SystemStatusPayload) : list ResourceLink :=
  let instanceName := toLowerCase ((AppInstance_metadata instance ≫= KubernetesObjectMeta_name) ?? "") in
  let values := (AppInstance_spec instance ≫= AppInstance_spec_t_values) ?? [] in
  let server := sub_object values "server" in
  let ingress := sub_object values "ingress" in
  let serverIngress := sub_object server "ingress" in
  let st k := AppInstance_status instance ≫= fun s => dict_get (StatusValue_extra s) k in
  let configuredHosts := List.filter truthy (map hostOf
    [st "url"; st "localURL"; st "publicURL"; dict_get ingress "host"; dict_get serverIngress "host";
     dict_get values "host"]) in
  let matches := instance_matches instanceName configuredHosts in
  uniqueLinks
    (ingressLinks (List.filter (fun i => matches (of_ingress i)) ((status ≫= SystemStatusPayload_ingresses) ?? [])) ++
     routeLinks (List.filter (fun r => matches (of_route r)) ((status ≫= SystemStatusPayload_httpRoutes) ?? [])) ++
     [linkFromUrl (st "localURL"); linkFromUrl (st "publicURL"); linkFromUrl (st "url")])%list.
End links.

(** ** Sizes *)

Definition formatMi (value : option number) : string :=
  match value with
  | Some mib =>
      if isFinite mib then
        if num_leb (Int 1024) mib
        then num_toFixed (if num_leb (Int 10240) mib then 0 else 1) (num_div mib (Int 1024)) +:+ " GiB"
        else String_of_number (num_round mib) +:+ " MiB"
      else "unknown"
  | None => "unknown"
  end.

Definition amount_text (current : number) (first : bool) (unit : string) : string :=
  num_toFixed (if num_leb (Int 10) current || first then 1 else 2) current +:+ " " +:+ unit.

(** The loop over the units still above the current one. *)
Fixpoint scale_bytes (current : number) (first : bool) (unit : string) (units : list string) {struct units} : string :=
  match units with
  | [] => amount_text current first unit
  | next :: units' =>
      if num_leb (Int 1000) current then scale_bytes (num_div current (Int 1000)) false next units'
      else amount_text current first unit
  end.

Definition formatBytes (value : option number) : string :=
  match value with
  | Some v =>
      if isFinite v && negb (num_leb v (Int 0)) then scale_bytes v true "B" ["KB"; "MB"; "GB"; "TB"] else "unknown"
  | None => "unknown"
  end.

(** ** Instances and models *)
Record FlatInstance : Type := { fi_type : string; fi_name : string; fi_value : AppInstance }.

Definition flattenInstances (payload : option InstancesPayload) : list FlatInstance :=
  flat_map (fun e => map (fun value =>
      {| fi_type := e.1; fi_name := (AppInstance_metadata value ≫= KubernetesObjectMeta_name) ?? "unnamed";
         fi_value := value |}) e.2)
    (entries ((InstancesPayload_instances <$> payload) ?? [])).

Definition matchingVariants (variants : option (list ModelVariant)) (engine computeTarget : string) : list ModelVariant :=
  List.filter (fun v => bool_decide (ModelVariant_engine v = Some engine) &&
                        bool_decide (ModelVariant_computeTarget v = Some computeTarget)) (variants ?? []).

(** An absent id equals an absent id ([undefined === undefined]). *)
Definition selectedArtifact (variant : option ModelVariant) (id : option string) : option ModelArtifact :=
  let artifacts := (variant ≫= ModelVariant_artifacts) ?? [] in
  find_first (fun a => bool_decide (ModelArtifact_id a = id)) artifacts
  ??? find_first (fun a => bool_decide (ModelArtifact_id a = variant ≫= ModelVariant_defaultArtifact)) artifacts
  ??? head artifacts.

(** [/^[a-z0-9](?:[-a-z0-9]*[a-z0-9])?$/] *)
Definition name_char (c : ascii) : bool := is_lower c || is_digit c.
Definition name_dash (c : ascii) : bool := Ascii.eqb c "-"%char || name_char c.
Definition name_pattern : re :=
  Cat (Cls name_char) (opt (Cat (Star (Cls name_dash)) (Cls name_char))).

Definition modelNameError (value : string) (existingNames : list string) : option string :=
  let name := trim value in
  if negb (truthy name) then Some "Enter a model name."
  else if (63 <? String.length name)%nat then Some "Use at most 63 characters for the model name."
  else if negb (rtest name_pattern name)
  then Some "Use lowercase letters, numbers and hyphens. Start and end with a letter or number."
  else if includes existingNames name then Some "A model with this name already exists. Choose another name."
  else None.

(** [reference.replace(/^[a-z]+:\/\//i, '')] *)
Definition strip_scheme (reference : string) : string :=
  let '(letters, rest) := span is_alpha reference in
  if truthy letters && startsWith "://" rest then drop_str 3 rest else reference.

Definition last_or (d : string) (l : list string) : string := last l ?? d.

(** The two loops: leading dashes are skipped, at most 48 characters kept, trailing dashes cut. *)
Definition safeModelName (reference : string) : string :=
  let tail := last_or "model" (split "/" (strip_scheme reference)) in
  let normalized := replace_runs (fun c => negb (name_dash c)) "-" false (toLowerCase tail) in
  let dash := Ascii.eqb "-" in
  let kept := take_str 48 (drop_while dash normalized) in
  sor (rev_str (drop_while dash (rev_str kept "")) "") "model".
