(* ===== verification/JsonFields.v ===== *)
(** * Fields of JSON objects

    What the code writes as [x?.k], [x.k === v] or [x.k ? … : …] over values it has parsed. *)

From S2P Require Import Prelude Js Number Json DashboardCore.

Local Open Scope string_scope.
Local Open Scope js_scope.
Local Open Scope Z_scope.

(** [x?.k] for objects, arrays and flags. *)
Definition object_in (d : dict json) (k : string) : dict json := (base.mbind json_obj (dict_get d k)) ?? [].
Definition array_in (d : dict json) (k : string) : option (list json) := match dict_get d k with Some (JArr l) => Some l | _ => None end.
Definition flag_is (d : dict json) (k : string) (b : bool) : bool := match dict_get d k with Some (JBool c) => Bool.eqb b c | _ => false end.
Definition number_is (d : dict json) (k : string) (z : Z) : bool := match dict_get d k with Some (JNum n) => num_eqb n (Int z) | _ => false end.
Definition truthy_in (d : dict json) (k : string) : bool := match dict_get d k with Some v => json_truthy v | None => false end.
Definition is_text (s : string) (v : json) : bool := match v with JStr t => String.eqb s t | _ => false end.
(** [x.k === undefined] *)
Definition absent_in (d : dict json) (k : string) : bool := match dict_get d k with None => true | Some _ => false end.
(** [!(x ?? []).length] *)
Definition empty_in (d : dict json) (k : string) : bool :=
  match dict_get d k with
  | Some (JArr (_ :: _)) => false
  | Some (JStr s) => negb (truthy s)
  | Some (JObj o) => negb (truthy_in o "length")
  | _ => true
  end.
(** [a?.[0]] *)
Definition first_in (d : dict json) (k : string) : dict json := match array_in d k with Some (v :: _) => json_obj v ?? [] | _ => [] end.
(** The elements of [a ?? []], as objects. *)
Definition objects_in (d : dict json) (k : string) : list (dict json) := map (fun v => json_obj v ?? []) (array_in d k ?? []).

(** The order of [sort()] on strings, and [Object.keys(d).sort().join(',')]. *)
Definition text_order (a b : string) : Z := match String.compare a b with Lt => -1 | Gt => 1 | Eq => 0 end.
Definition sorted_keys (d : dict json) : string := join "," (sort_by text_order (dict_keys d)).

(** [...(o ? {k: o} : {})] *)
Definition member (k : string) (o : option json) : dict json := match o with Some v => [(k, v)] | None => [] end.
