(* ===== verification/DashboardProps.v ===== *)
(** * Dashboard core: its properties (packages/core/src/index.ts) *)

From Stdlib Require Import Sorted.
From S2P Require Import Prelude Js Number Json Regex Contracts DashboardCore.

Local Open Scope string_scope.
Local Open Scope js_scope.
Local Open Scope Z_scope.

(** ** Strings cut at both ends *)

Lemma drop_while_head f s c r : drop_while f s = String c r -> f c = false.
Proof. induction s as [|d s IH]; cbn; [done|]. destruct (f d) eqn:E; [exact IH | by intros [= -> ->]]. Qed.

Lemma drop_while_split f s : exists p, s = (p +:+ drop_while f s)%string.
Proof.
  induction s as [|d s [p IH]]; cbn; [by exists ""|].
  destruct (f d); [|by exists ""]. exists (String d p). cbn. by rewrite <- IH.
Qed.

Lemma replace_runs_forall (f g : ascii -> bool) by_ b s :
  sforall g by_ = true -> (forall c, f c = false -> g c = true) -> sforall g (replace_runs f by_ b s) = true.
Proof.
  intros Hb Hg. revert b. induction s as [|c s IH]; intros b; cbn; [done|].
  destruct (f c) eqn:E; [|cbn; by rewrite Hg, IH].
  destruct b; [done | by rewrite sforall_app, Hb, IH].
Qed.

Lemma sforall_rev_id f s : sforall f (rev_str s "") = sforall f s.
Proof. by rewrite sforall_rev, andb_true_r. Qed.

Lemma rev_str_length s : String.length (rev_str s "") = String.length s.
Proof.
  assert (H : forall acc, String.length (rev_str s acc) = (String.length s + String.length acc)%nat).
  { induction s as [|c s IH]; intros acc; cbn; [done | rewrite IH; cbn; lia]. }
  rewrite H. cbn. lia.
Qed.

Lemma rev_str_nonempty s : truthy (rev_str s "") = truthy s.
Proof.
  destruct s as [|c s]; [done|]. cbn. rewrite rev_str_spec.
  destruct (rev_str s "") eqn:E; done.
Qed.

(** ** Model names *)

Lemma name_char_dash c : name_dash c = true -> Ascii.eqb "-" c = false -> name_char c = true.
Proof.
  unfold name_dash. intros [H|H]%orb_prop Hn; [|done]. apply Ascii.eqb_eq in H as ->. by rewrite Ascii.eqb_refl in Hn.
Qed.

(** A string over the class that starts and ends with a letter or digit matches. *)
Lemma name_pattern_ends c r :
  name_char c = true -> sforall name_dash (String c r) = true ->
  (forall d m, rev_str (String c r) "" = String d m -> name_char d = true) ->
  rtest name_pattern (String c r) = true.
Proof.
  intros Hc Hall Hlast. apply rtest_spec. apply (m_cat _ _ (String c "") r); [by constructor|].
  destruct (rev_str r "") as [|d m] eqn:E.
  - rewrite <- (rev_str_involutive r), E. repeat constructor.
  - assert (Hr : r = (rev_str m "" +:+ String d "")%string).
    { rewrite <- (rev_str_involutive r), E. cbn. by rewrite rev_str_spec. }
    apply m_alt_r. rewrite Hr. constructor.
    + apply star_cls_spec. cbn in Hall. apply andb_prop in Hall as [_ Hall].
      rewrite Hr, sforall_app in Hall. by apply andb_prop in Hall as [? _].
    + constructor. apply (Hlast d (m +:+ String c "")%string). cbn. rewrite rev_str_spec, E. done.
Qed.

Definition dashless (s : string) : Prop :=
  (forall c r, s = String c r -> Ascii.eqb "-" c = false) /\
  (forall d m, rev_str s "" = String d m -> Ascii.eqb "-" d = false).

(** What both loops leave. *)
Lemma trim_dashes_spec s :
  let kept := take_str 48 (drop_while (Ascii.eqb "-") s) in
  let t := rev_str (drop_while (Ascii.eqb "-") (rev_str kept "")) "" in
  sforall name_dash s = true ->
  sforall name_dash t = true /\ (String.length t <= 48)%nat /\ dashless t.
Proof.
  intros kept t Hs.
  assert (Hk : sforall name_dash kept = true) by (by apply sforall_take, sforall_drop_while).
  assert (Hkl : (String.length kept <= 48)%nat) by (unfold kept; rewrite length_take_str; lia).
  destruct (drop_while_split (Ascii.eqb "-") (rev_str kept "")) as [p Hp].
  assert (Hsplit : kept = (t +:+ rev_str p "")%string).
  { rewrite <- (rev_str_involutive kept), Hp, rev_str_app, rev_str_spec. done. }
  split; [|split].
  - rewrite Hsplit, sforall_app in Hk. by apply andb_prop in Hk as [? _].
  - rewrite Hsplit, str_length_app in Hkl. lia.
  - split.
    + intros c r Ht. rewrite Ht in Hsplit. unfold kept in Hsplit.
      destruct (drop_while (Ascii.eqb "-") s) as [|c' s'] eqn:E; [done|]. cbn in Hsplit.
      injection Hsplit as -> _. by apply drop_while_head in E.
    + intros d m Ht. unfold t in Ht. rewrite rev_str_involutive in Ht. by apply drop_while_head in Ht.
Qed.

Lemma name_dash_no_space s : sforall name_dash s = true -> sforall (fun c => negb (is_space c)) s = true.
Proof.
  apply sforall_impl. intros c Hc. revert c Hc.
  assert (H : forall c, implb (name_dash c) (negb (is_space c)) = true).
  { apply (forall_ascii (fun c => implb (name_dash c) (negb (is_space c)))). vm_compute. reflexivity. }
  intros c Hc. specialize (H c). by rewrite Hc in H.
Qed.

Lemma valid_name s names :
  truthy s = true -> sforall name_dash s = true -> (String.length s <= 48)%nat -> dashless s ->
  modelNameError s names =
    if includes names s then Some "A model with this name already exists. Choose another name." else None.
Proof.
  intros Hne Hall Hlen [Hfst Hlst]. unfold modelNameError.
  rewrite trim_id by (by apply name_dash_no_space). rewrite Hne. cbn [negb].
  rewrite (proj2 (Nat.ltb_ge _ _)) by lia.
  destruct s as [|c r]; [done|]. rewrite name_pattern_ends; [done | | done |].
  - apply name_char_dash; [|by apply (Hfst c r)]. cbn in Hall. by apply andb_prop in Hall as [? _].
  - intros d m Hd. apply name_char_dash; [|by apply (Hlst d m)].
    rewrite <- sforall_rev_id, Hd in Hall. cbn in Hall. by apply andb_prop in Hall as [? _].
Qed.

Lemma safeModelName_shape reference :
  let s := safeModelName reference in
  truthy s = true /\ sforall name_dash s = true /\ (String.length s <= 48)%nat /\ dashless s.
Proof.
  intros s. unfold s, safeModelName. cbv zeta.
  set (n := replace_runs _ _ _ _).
  assert (Hn : sforall name_dash n = true).
  { apply replace_runs_forall; [done|]. intros c Hc. by apply negb_false_iff. }
  destruct (trim_dashes_spec n Hn) as (H1 & H2 & H3).
  set (t := rev_str (drop_while _ (rev_str (take_str _ _) "")) "") in *.
  unfold sor. destruct (truthy t) eqn:E; [done|].
  split; [done|]. split; [done|]. split; [cbn; lia|].
  split; intros ? ? Hx; vm_compute in Hx; by injection Hx as <- <-.
Qed.

(** The name proposed for a model reference is always one the form accepts: whatever the
    reference, [modelNameError] rejects [safeModelName reference] only when a model of that
    name exists; and the proposal has at most 48 characters. *)
Theorem safeModelName_accepted reference names :
  modelNameError (safeModelName reference) names =
    (if includes names (safeModelName reference)
     then Some "A model with this name already exists. Choose another name." else None) /\
  (String.length (safeModelName reference) <= 48)%nat.
Proof.
  destruct (safeModelName_shape reference) as (H1 & H2 & H3 & H4). split; [by apply valid_name | done].
Qed.

(** ** Phases *)

Lemma lower_idemp c : lower (lower c) = lower c.
Proof.
  apply Ascii.eqb_eq. revert c. apply (forall_ascii (fun c => Ascii.eqb (lower (lower c)) (lower c))).
  vm_compute. reflexivity.
Qed.

Lemma toLowerCase_idemp s : toLowerCase (toLowerCase s) = toLowerCase s.
Proof. unfold toLowerCase. induction s as [|c s IH]; cbn; [done | by rewrite lower_idemp, IH]. Qed.

Lemma normalized_idemp phase : normalized (Some (normalized phase)) = normalized phase.
Proof. apply toLowerCase_idemp. Qed.

(** Membership in a list of literals, by cases. *)
Ltac cases_in H :=
  apply includes_spec in H; repeat (apply elem_of_cons in H as [H|H]); [.. | by apply not_elem_of_nil in H].

Lemma needs_attention_in_progress phase : phaseInProgress phase = true -> phaseNeedsAttention phase = true.
Proof.
  intros H. unfold phaseNeedsAttention. apply orb_true_iff. right. unfold phaseInProgress.
  by rewrite normalized_idemp.
Qed.

Lemma progress_in_progress phase message :
  phaseInProgress phase = true -> ps_tone (progressForPhase phase true message) = warn.
Proof. intros H. unfold phaseInProgress in H. unfold progressForPhase. cases_in H; by rewrite H. Qed.

Lemma progress_bad phase enabled message :
  ps_tone (progressForPhase phase enabled message) = bad <->
  includes ["degraded"; "failed"; "error"; "unsupported"; "conflict"] (normalized phase) = true.
Proof.
  unfold progressForPhase. split.
  - repeat (match goal with |- context [if ?b then _ else _] => destruct b eqn:? end; try done).
  - intros H. cases_in H; by rewrite H.
Qed.

(** The progress of a phase. The value is a percentage; a phase in progress needs
    attention, and is shown as a warning while its owner is enabled; the bad tone is used
    exactly for the five failure phases, which need attention as well. *)
Theorem phase_progress phase enabled message :
  let p := progressForPhase phase enabled message in
  0 <= ps_value p <= 100 /\
  (phaseInProgress phase = true -> phaseNeedsAttention phase = true /\ (enabled = true -> ps_tone p = warn)) /\
  (ps_tone p = bad <-> includes ["degraded"; "failed"; "error"; "unsupported"; "conflict"] (normalized phase) = true) /\
  (ps_tone p = bad -> phaseNeedsAttention phase = true).
Proof.
  intros p. unfold p. split; [|split; [|split]].
  - unfold progressForPhase.
    repeat match goal with |- context [if ?b then _ else _] => destruct b end; cbn; lia.
  - intros H. split; [by apply needs_attention_in_progress|]. intros ->. by apply progress_in_progress.
  - apply progress_bad.
  - intros H%progress_bad. unfold phaseNeedsAttention. by rewrite H.
Qed.

Lemma phase_progress_witness : ps_tone (progressForPhase (Some "WaitingForGPU") true "") = warn.
Proof. apply (phase_progress (Some "WaitingForGPU") true ""); reflexivity. Defined.

(** ** Links *)

Lemma insert_sorted_perm {A} (cmp : A -> A -> Z) a l : insert_sorted cmp a l ≡ₚ a :: l.
Proof.
  induction l as [|b l IH]; cbn; [done|]. destruct (cmp a b <=? 0); [done|]. rewrite IH. apply Permutation_swap.
Qed.

Lemma sort_by_perm {A} (cmp : A -> A -> Z) l : sort_by cmp l ≡ₚ l.
Proof. induction l as [|a l IH]; cbn; [done | by rewrite insert_sorted_perm, IH]. Qed.

(** Sorting by a comparator that refines a measure sorts by the measure. *)
Lemma sort_by_sorted {A} (cmp : A -> A -> Z) (f : A -> Z) l :
  (forall a b, cmp a b <= 0 -> f a <= f b) -> (forall a b, 0 < cmp a b -> f b <= f a) ->
  StronglySorted (fun a b => f a <= f b) (sort_by cmp l).
Proof.
  intros H1 H2.
  assert (Hins : forall a s, StronglySorted (fun a b => f a <= f b) s ->
    StronglySorted (fun a b => f a <= f b) (insert_sorted cmp a s)).
  { intros a s Hs. induction Hs as [|b s Hs IHs Hb]; cbn; [repeat constructor|].
    destruct (cmp a b <=? 0) eqn:E; bool_prop.
    - constructor; [by constructor|]. constructor; [by apply H1|].
      eapply Forall_impl; [exact Hb|]. cbn. intros c Hc. etrans; [by apply H1 | exact Hc].
    - constructor; [exact IHs|]. rewrite insert_sorted_perm. constructor; [apply H2; lia | exact Hb]. }
  induction l as [|a l IH]; [constructor | by apply Hins].
Qed.

Section link_facts.
Context `{UrlParser} `{Collation}.

Lemma first_links_spec seen links :
  NoDup (map link_key (first_links seen links)) /\
  (forall l, l ∈ first_links seen links ->
     Some l ∈ links /\ truthy (link_key l) = true /\ link_key l ∉ seen) /\
  (forall l, Some l ∈ links -> truthy (link_key l) = true ->
     link_key l ∈ seen \/ exists l', l' ∈ first_links seen links /\ link_key l' = link_key l).
Proof.
  revert seen. induction links as [|[l|] links IH]; intros seen; cbn.
  - split; [constructor|]. set_solver.
  - destruct (negb (truthy (link_key l)) || includes seen (link_key l)) eqn:E.
    + destruct (IH seen) as (Hnd & Hin & Hcov). split; [done|]. split.
      * intros x Hx. destruct (Hin x Hx). split; [by right | done].
      * intros x [[= <-]|Hx]%elem_of_cons Ht; [|by apply Hcov].
        rewrite Ht in E. cbn in E. apply includes_spec in E. by left.
    + bool_prop. assert (Hns : link_key l ∉ seen) by (intros Hi%includes_spec; congruence).
      destruct (IH (link_key l :: seen)) as (Hnd & Hin & Hcov). split; [|split].
      * cbn. constructor; [|done]. intros (x & Hx & Hx')%list_elem_of_fmap.
        apply Hin in Hx' as (_ & _ & Hn). apply Hn. rewrite <- Hx. by left.
      * intros x [->|Hx]%elem_of_cons; [split; [by left | done]|].
        destruct (Hin x Hx) as (? & ? & Hn). split; [by right|]. split; [done|]. by apply not_elem_of_cons in Hn as [_ ?].
      * intros x [[= <-]|Hx]%elem_of_cons Ht; [right; exists x; split; [by left | done]|].
        destruct (Hcov x Hx Ht) as [[->|Hs]%elem_of_cons|(l' & Hl' & Hk)].
        -- right. exists l. split; [by left | done].
        -- by left.
        -- right. exists l'. split; [by right | done].
  - destruct (IH seen) as (Hnd & Hin & Hcov). split; [done|]. split.
    + intros x Hx. destruct (Hin x Hx). split; [by right | done].
    + intros x [Hx|Hx]%elem_of_cons Ht; [done | by apply Hcov].
Qed.

(** The links shown for a resource. They are ordered local, public, direct; no address is
    shown twice, a trailing slash apart; and every usable link given is shown, under that
    address, and nothing else. *)
Theorem uniqueLinks_spec links :
  let shown := uniqueLinks links in
  StronglySorted (fun a b => scope_order (link_scope a) <= scope_order (link_scope b)) shown /\
  NoDup (map link_key shown) /\
  (forall l, l ∈ shown -> Some l ∈ links /\ truthy (link_key l) = true) /\
  (forall l, Some l ∈ links -> truthy (link_key l) = true -> exists l', l' ∈ shown /\ link_key l' = link_key l).
Proof.
  intros shown. destruct (first_links_spec [] links) as (Hnd & Hin & Hcov).
  assert (Hp : shown ≡ₚ first_links [] links) by apply sort_by_perm.
  split; [|split; [|split]].
  - unfold shown, uniqueLinks. apply sort_by_sorted; intros a b; unfold compare_links; cbv zeta;
      destruct (_ =? 0) eqn:E; bool_prop; lia.
  - rewrite Hp. exact Hnd.
  - intros l. rewrite Hp. intros Hl. by destruct (Hin l Hl) as (? & ? & _).
  - intros l Hl Ht. destruct (Hcov l Hl Ht) as [Hn|(l' & Hl' & Hk)]; [set_solver|].
    exists l'. by rewrite Hp.
Qed.
End link_facts.

Definition demo_url : UrlParser :=
  {| url_host := fun u => Some (until_slash (drop_str 7 u)); url_hostname := fun u => Some (until_slash (drop_str 7 u)) |}.
Definition demo_collation : Collation := fun _ _ => 0.

Lemma uniqueLinks_spec_witness :
  let link u s := {| link_url := u; link_label := u; link_scope := s |} in
  exists l', l' ∈ @uniqueLinks demo_collation [Some (link "http://a/" direct); None; Some (link "http://a" direct)] /\
    link_key l' = "http://a".
Proof.
  intros link. apply (@uniqueLinks_spec demo_collation _ ) with (l := link "http://a" direct); [set_solver | reflexivity].
Defined.

(** ** Roles *)

Lemma mapM_strings s l r :
  mapM (fun x => json_str x) l = Some r -> s ∈ r <-> JStr s ∈ l.
Proof.
  revert r. induction l as [|x l IH]; intros r; cbn.
  - intros [= <-]. set_solver.
  - destruct x; cbn; try done. destruct (mapM _ l) as [r'|] eqn:E; cbn; [|done]. intros [= <-].
    rewrite !elem_of_cons, (IH r' eq_refl). naive_solver.
Qed.

Section roles.
Context `{ZodLaws}.

Lemma session_roles d s :
  parse sessionSchema (Some (JObj d)) = Some s ->
  forall r, r ∈ Session_roles s <-> exists l, dict_get d "roles" = Some (JArr l) /\ JStr r ∈ l.
Proof using All.
  unfold sessionSchema. rewrite parse_passthrough, !parse_field, parse_fields. cbn [mbind option_bind].
  destruct (parse _ (dict_get d "subject")); cbn; [|done].
  destruct (parse _ (dict_get d "username")); cbn; [|done].
  rewrite (parse_default _ (z_array z_string) []). destruct (dict_get d "roles") as [v|]; cbn.
  - rewrite parse_array. destruct v; cbn; try done.
    destruct (mapM _ l) as [rs|] eqn:E; cbn; [|done].
    destruct (parse _ (dict_get d "identityManagementAvailable")); cbn; [|done].
    destruct (parse _ (dict_get d "identityManagementMode")); cbn; [|done].
    intros [= <-] r. cbn.
    rewrite (mapM_ext _ (fun x => json_str x)) in E by (intros x; apply parse_string).
    rewrite (mapM_strings r l rs E). naive_solver.
  - destruct (parse _ (dict_get d "identityManagementAvailable")); cbn; [|done].
    destruct (parse _ (dict_get d "identityManagementMode")); cbn; [|done].
    intros [= <-] r. cbn. split; [set_solver|]. by intros (l & ? & _).
Qed.

(** What a session response grants. Only a response whose [roles] array names the
    administrator role administers, and only one naming the administrator or operator role may
    change the runtime; a response without roles, or no session, grants neither. *)
Theorem session_grants d s :
  parse sessionSchema (Some (JObj d)) = Some s ->
  let granted r := exists l, dict_get d "roles" = Some (JArr l) /\ JStr r ∈ l in
  (canAdminister (Some s) = true <-> granted "magicstick-admin") /\
  (canMutateRuntime (Some s) = true <-> granted "magicstick-admin" \/ granted "magicstick-operator") /\
  canAdminister None = false /\ canMutateRuntime None = false.
Proof using All.
  intros Hs granted. unfold granted. rewrite <- !(session_roles d s Hs).
  unfold canAdminister, canMutateRuntime, dashboardRole. cbn [fmap option_fmap option_map nullish].
  rewrite <- !includes_spec.
  destruct (includes _ "magicstick-admin"), (includes _ "magicstick-operator"); cbn; intuition congruence.
Qed.
End roles.

Lemma session_grants_witness :
  let d := [("roles", JArr [JStr "x"; JStr "magicstick-operator"])] in
  exists s, @parse direct_zod _ (@sessionSchema direct_zod) (Some (JObj d)) = Some s /\ canMutateRuntime (Some s) = true.
Proof.
  intros d. eexists. split; [vm_compute; reflexivity|].
  apply (@session_grants direct_zod direct_zod_laws d); [vm_compute; reflexivity|].
  right. eexists. split; [reflexivity | set_solver].
Defined.
