(* ===== verification/LocalModel.v ===== *)
(** * Local model configuration (packages/core/src/local-model-configuration.ts)

    The form of a local model: its initial draft from the catalog and a saved activation, the
    creation payload, and the changes an edit sends. Payloads are objects ([dict json]), as
    they are serialised. *)

From S2P Require Import Prelude Js Number Json Regex Contracts DashboardCore.

Local Open Scope string_scope.
Local Open Scope js_scope.
Local Open Scope Z_scope.

(** [record(value)]: the object itself, or an empty one. *)
Definition record (value : option json) : dict json := match value with Some (JObj d) => d | _ => [] end.

(** [d.k ?? ...]: [null] and [undefined] are absent. *)
Definition jget (d : dict json) (k : string) : option json :=
  match dict_get d k with Some JNull => None | o => o end.

Definition jtruthy (o : option json) : bool := match o with Some v => json_truthy v | None => false end.
Definition jtext (o : option json) (default : string) : string := (String_of_json <$> o) ?? default.
Definition jnumber (o : option json) (default : number) : number := (Number_of_json <$> o) ?? default.

(** [o === s] for a string [s]. *)
Definition is_text (o : option json) (s : string) : bool :=
  match o with Some (JStr t) => String.eqb t s | _ => false end.

Definition modelEditRevision (metadata : option KubernetesObjectMeta) : string :=
  let uid := metadata ≫= KubernetesObjectMeta_uid in
  let generation := metadata ≫= KubernetesObjectMeta_generation in
  match uid, generation with
  | Some u, Some (Int g) =>
      if truthy u && (0 <? g) then "generation:" +:+ u +:+ ":" +:+ String_of_number (Int g)
      else (metadata ≫= KubernetesObjectMeta_resourceVersion) ?? ""
  | _, _ => (metadata ≫= KubernetesObjectMeta_resourceVersion) ?? ""
  end.

(** The unit suffix, case-insensitive: its factor in MiB. *)
Definition unit_factor (s : string) : option number :=
  let l := toLowerCase s in
  if String.eqb l "" || String.eqb l "mi" then Some (Int 1)
  else if String.eqb l "ki" then Some (Dyadic 1 10)
  else if String.eqb l "gi" then Some (Int 1024)
  else if String.eqb l "ti" then Some (Int 1048576)
  else None.

(** [/^(\d+(?:\.\d+)?)\s*(Ki|Mi|Gi|Ti)?$/i] *)
Definition match_memory (s : string) : option (string * number) :=
  let '(ip, r) := span is_digit s in
  if negb (truthy ip) then None
  else
    let '(num, r) := match r with
                     | String "." r' => let '(fp, r'') := span is_digit r' in
                                        if truthy fp then (ip +:+ "." +:+ fp, r'') else (ip, r)
                     | _ => (ip, r)
                     end in
    (fun f => (num, f)) <$> unit_factor (drop_while is_space r).

Definition parseMemoryMi (value : option json) : number :=
  match value with
  | Some (JNum n) =>
      if isFinite n then num_max (Int 0) (num_round n)
      else Int 0
  | _ =>
      match match_memory (trim (text_of value)) with
      | Some (num, factor) => num_max (Int 0) (num_round (num_mul (Number_of_decimal num) factor))
      | None => Int 0
      end
  end.

Definition repo_part : re :=
  Cat (Cls is_alnum) (Star (Cls (fun c => is_alnum c || existsb (Ascii.eqb c) ["_"; "."; "-"]%char))).
Definition repo_pattern : re := Cat repo_part (Cat (chr "/") repo_part).

(** The prefix [hf://], [https://huggingface.co/] or [https://www.huggingface.co/], once. *)
Definition strip_repo_prefix (s : string) : string :=
  if startsWith "hf://" s then drop_str 5 s
  else if startsWith "https://www.huggingface.co/" s then drop_str 27 s
  else if startsWith "https://huggingface.co/" s then drop_str 23 s
  else s.

Definition normalizeHuggingFaceReference (value : string) : string :=
  let repo := strip_last "/" (strip_repo_prefix (trim value)) in
  if rtest repo_pattern repo then "hf://" +:+ repo else "".

(** 0.9 as a double. *)
Definition nine_tenths : number := Dyadic 8106479329266893 53.

Definition realtimeDefaultRam (profile : option RealtimeProfile) (device : option RealtimeDevice) : number :=
  num_min (num_or ((RealtimeDevice_systemMemoryMi <$> device) ?? Int 0) (Int 16384))
    (num_max ((RealtimeProfile_defaultSystemMemoryMi <$> profile) ?? Int 16384)
      (match device with
       | Some d =>
           if bool_decide (RealtimeDevice_gpuAllocationMode d = Some "shared-gtt")
           then num_add (num_floor (num_mul (RealtimeDevice_gpuMemoryMi d) nine_tenths))
                  ((profile ≫= RealtimeProfile_hostRuntimeHeadroomMi) ?? Int 8192)
           else Int 0
       | None => Int 0
       end)).

Definition realtime_policy : LocalModelConfigurationPolicy :=
  {| LocalModelConfigurationPolicy_sources :=
       [LocalModelConfigurationPolicy_sources_t_search; LocalModelConfigurationPolicy_sources_t_direct];
     LocalModelConfigurationPolicy_discovery := LocalModelConfigurationPolicy_discovery_t_repository;
     LocalModelConfigurationPolicy_memory := LocalModelConfigurationPolicy_memory_t_staged;
     LocalModelConfigurationPolicy_task := LocalModelConfigurationPolicy_task_t_realtime;
     LocalModelConfigurationPolicy_maxOutputTokens := false |}.
Definition standard_policy : LocalModelConfigurationPolicy :=
  {| LocalModelConfigurationPolicy_sources :=
       [LocalModelConfigurationPolicy_sources_t_search; LocalModelConfigurationPolicy_sources_t_preset;
        LocalModelConfigurationPolicy_sources_t_direct];
     LocalModelConfigurationPolicy_discovery := LocalModelConfigurationPolicy_discovery_t_artifacts;
     LocalModelConfigurationPolicy_memory := LocalModelConfigurationPolicy_memory_t_estimate;
     LocalModelConfigurationPolicy_task := LocalModelConfigurationPolicy_task_t_detect;
     LocalModelConfigurationPolicy_maxOutputTokens := true |}.

(** An absent profile and the empty string select the engine's own policy. *)
Definition localModelConfigurationPolicy (models : ModelsPayload) (engine : string) (profile : option string)
    : LocalModelConfigurationPolicy :=
  let definition := ComputeTargetsPayload_engineCatalog (ModelsPayload_computeTargets models) ≫= fun c => dict_get c engine in
  match profile with
  | Some p =>
      if truthy p then
        (((definition ≫= ComputeTargetsPayload_engineCatalog_t_realtimeProfiles) ≫= fun d => dict_get d p)
           ≫= RealtimeProfile_configuration) ?? realtime_policy
      else (definition ≫= ComputeTargetsPayload_engineCatalog_t_configuration) ?? standard_policy
  | None => (definition ≫= ComputeTargetsPayload_engineCatalog_t_configuration) ?? standard_policy
  end.

(** ** The initial draft *)

(** What the form reads of a saved activation: its name, [spec.local] and [status]. *)
Record SavedActivation : Type := {
  sa_name : option string;
  sa_local : option json;
  sa_status : option json
}.

(** The type assertion on saved devices, deployments and parallelism: well-formed values. *)
Definition selection_of_json (v : json) : NvidiaGpuSelection :=
  let d := record (Some v) in
  let field k := (dict_get d k ≫= json_str) ?? "" in
  {| NvidiaGpuSelection_nodeName := field "nodeName"; NvidiaGpuSelection_nodeUid := field "nodeUid";
     NvidiaGpuSelection_uuid := field "uuid" |}.
Definition selections_of_json (v : json) : list NvidiaGpuSelection :=
  match v with JArr l => map selection_of_json l | _ => [] end.
Definition deployment_of_text (s : string) : GpuDeployment :=
  if String.eqb s "replicated" then GpuDeployment_replicated
  else if String.eqb s "split" then GpuDeployment_split else GpuDeployment_single.
Definition parallelism_of_text (s : string) : VllmConfiguration_parallelism_t :=
  if String.eqb s "tensor" then VllmConfiguration_parallelism_t_tensor
  else if String.eqb s "pipeline" then VllmConfiguration_parallelism_t_pipeline
  else VllmConfiguration_parallelism_t_auto.

Definition engine_name (e : LocalModelEngine) : string := lit_str e.

Definition positive_number (n : number) : bool := num_ltb (Int 0) n.

(** The devices a saved activation records: [gpuDevices], else [gpuDevice], else its sharing. *)
Definition saved_devices (loc sharing : dict json) : list NvidiaGpuSelection :=
  match jget loc "gpuDevices" with
  | Some v => selections_of_json v
  | None =>
      if jtruthy (dict_get loc "gpuDevice") then [selection_of_json (dict_get loc "gpuDevice" ?? JNull)]
      else match jget sharing "devices" with
           | Some v => selections_of_json v
           | None =>
               if jtruthy (dict_get sharing "device") && jtruthy (dict_get sharing "nodeUid")
               then let field k := (dict_get sharing k ≫= json_str) ?? "" in
                    [{| NvidiaGpuSelection_nodeName := field "node"; NvidiaGpuSelection_nodeUid := field "nodeUid";
                        NvidiaGpuSelection_uuid := field "device" |}]
               else []
           end
  end.

Definition first_card (models : ModelsPayload) : option NvidiaGpuSelection :=
  (find_first (fun item =>
     bool_decide (ComputeMemoryDevice_computeTarget item = Some "nvidia-gpu") &&
     bool_decide (is_Some (ComputeMemoryDevice_gpuDevice item)) &&
     bool_decide (ComputeMemoryDevice_slots item ≫= GpuSlots_scope = Some GpuSlots_scope_t_device) &&
     positive_number ((GpuSlots_free <$> ComputeMemoryDevice_slots item) ?? Int 0))
   ((ModelsPayload_computeMemory models ≫= ModelsPayload_computeMemory_t_devices) ?? []))
  ≫= ComputeMemoryDevice_gpuDevice.

(** The realtime device: the saved placement, else the first with room. *)
Definition realtime_device (models : ModelsPayload) (loc saved : dict json) (profileId : string) : option RealtimeDevice :=
  let devices := ComputeTargetsPayload_realtimeDevices (ModelsPayload_computeTargets models) ?? [] in
  let of_profile item := String.eqb (RealtimeDevice_profile item) profileId in
  find_first (fun item => of_profile item &&
      is_text (dict_get saved "gpuNode") (RealtimeDevice_node item) &&
      (negb (jtruthy (dict_get loc "computeTarget")) ||
       match RealtimeDevice_computeTarget item with
       | Some t => is_text (dict_get loc "computeTarget") t
       | None => false
       end)) devices
  ??? find_first (fun item => of_profile item && RealtimeDevice_supported item &&
      (bool_decide (RealtimeDevice_computeTarget item = Some "cpu") || positive_number (RealtimeDevice_freeGpuCount item)))
      devices.

(** The first available target with a free slot that serves the engine. *)
Definition usable_target (models : ModelsPayload) (engine : string) : option ComputeTarget :=
  find_first (fun item =>
    (ComputeTarget_available item ?? false) &&
    (match (ComputeTarget_engineAvailability item ≫= fun d => dict_get d engine) with
     | Some a => ComputeTarget_engineAvailability_t_available a
     | None => match ComputeTarget_engines item with Some l => includes l engine | None => false end
     end) &&
    positive_number ((GpuSlots_free <$> ComputeTarget_slots item) ?? Int 1))
  (ComputeTargetsPayload_targets (ModelsPayload_computeTargets models)).

Definition opt_text (d : dict json) (k : string) : option string :=
  if jtruthy (dict_get d k) then Some (jtext (dict_get d k) "") else None.

Definition initialLocalModelDraft (models : ModelsPayload) (engineChoice : string)
    (activation : option SavedActivation) (name : string) : LocalModelDraft :=
  let loc := record (activation ≫= sa_local) in
  let status := record (activation ≫= sa_status) in
  let engine := if String.eqb (jtext (jget loc "engine" ??? jget status "engine") engineChoice) "OLlama"
                then LocalModelEngine_OLlama else LocalModelEngine_VLLM in
  let omni := jtruthy (dict_get loc "realtime") || String.eqb engineChoice "VLLM-Omni" in
  let targets := ModelsPayload_computeTargets models in
  let profiles := ((ComputeTargetsPayload_engineCatalog targets ≫= fun c => dict_get c "VLLM")
                     ≫= ComputeTargetsPayload_engineCatalog_t_realtimeProfiles) ?? [] in
  let savedRealtime := record (dict_get loc "realtime") in
  let profileId := jtext (jget savedRealtime "profile") ((fst <$> head (entries profiles)) ?? "") in
  let profile := dict_get profiles profileId in
  let device := realtime_device models loc savedRealtime profileId in
  let target := usable_target models (engine_name engine) in
  let computeTarget := jtext (jget loc "computeTarget" ??? jget status "computeTarget")
    (if omni then (device ≫= RealtimeDevice_computeTarget)
                    ?? ((profile ≫= RealtimeProfile_computeTargets) ≫= head) ?? "nvidia-gpu"
     else (ComputeTarget_id <$> target) ?? "") in
  let common name engine modelType :=
    {| LocalModelDraftBase_name := name; LocalModelDraftBase_engine := engine;
       LocalModelDraftBase_computeTarget := computeTarget;
       LocalModelDraftBase_url := jtext (jget loc "url")
         (if omni then "hf://" +:+ ((RealtimeProfile_model <$> profile) ?? "") else "");
       LocalModelDraftBase_source := LocalModelSource_search; LocalModelDraftBase_presetId := "";
       LocalModelDraftBase_artifactId := ""; LocalModelDraftBase_modelType := modelType;
       LocalModelDraftBase_contextWindow := jnumber (jget loc "contextWindow")
         (if omni then (RealtimeProfile_defaultContextWindow <$> profile) ?? Int 8192 else Int 4096);
       LocalModelDraftBase_maxNumSeqs := jnumber (jget loc "maxNumSeqs") (Int 1);
       LocalModelDraftBase_maxOutputTokens := opt_text loc "maxOutputTokens" ?? "" |} in
  let givenName := (activation ≫= sa_name) ?? name in
  if omni then
    mk_LocalModelDraft (common (sor givenName "qwen3-omni-realtime") LocalModelEngine_VLLM (jtext (jget loc "modelType") "chat"))
      (Omni {| RealtimeConfiguration_profile := profileId;
               RealtimeConfiguration_gpuNode := jtext (jget savedRealtime "gpuNode") ((RealtimeDevice_node <$> device) ?? "");
               RealtimeConfiguration_gpuCount := jnumber (jget savedRealtime "gpuCount") (Int 1);
               RealtimeConfiguration_systemMemoryMi :=
                 jnumber (jget savedRealtime "systemMemoryMi") (realtimeDefaultRam profile device);
               RealtimeConfiguration_gpuMemoryFraction := jnumber (jget savedRealtime "gpuMemoryFraction") nine_tenths;
               RealtimeConfiguration_thinkerCpuOffloadGiB := jnumber (jget savedRealtime "thinkerCpuOffloadGiB") (Int 0);
               RealtimeConfiguration_runtimeImage := opt_text savedRealtime "runtimeImage";
               RealtimeConfiguration_restartNonce := opt_text savedRealtime "restartNonce" |})
  else
    let gpuDevices :=
      if String.eqb computeTarget "nvidia-gpu" then
        match activation with
        | Some _ => saved_devices loc (record (dict_get status "gpuSharing"))
        | None => match first_card models with Some d => [d] | None => [] end
        end
      else [] in
    let budget :=
      if String.eqb computeTarget "cpu" then parseMemoryMi (jget loc "memoryRequiredMi" ??? jget status "memoryRequiredMi")
      else parseMemoryMi (jget loc "vramMi" ??? jget loc "vram" ??? jget status "vramRequiredMi") in
    mk_LocalModelDraft
      (common givenName engine (jtext (jget loc "modelType") (match activation with Some _ => "chat" | None => "" end)))
      (Standard
        {| StandardDraft_kvCacheType := jtext (jget loc "kvCacheType")
             ((KvCacheOption_value <$>
                (((find_first (fun item => String.eqb (ComputeTarget_id item) computeTarget)
                     (ComputeTargetsPayload_targets targets) ≫= ComputeTarget_kvCacheTypes)
                  ≫= fun d => dict_get d (engine_name engine)) ≫= head))
              ?? (if bool_decide (engine = LocalModelEngine_OLlama) then "f16" else "auto"));
           StandardDraft_selectedMi := num_max (Int 100) (num_or budget (Int 100));
           StandardDraft_hostMemoryMi := num_max (Int 100)
             (num_or (parseMemoryMi (jget loc "memoryRequiredMi" ??? jget status "memoryRequiredMi")) (Int 16400));
           StandardDraft_cpuOffloading := match dict_get loc "cpuOffloading" with Some (JBool b) => b | _ => false end;
           StandardDraft_gpuDevices := gpuDevices;
           StandardDraft_gpuDeployment := deployment_of_text (jtext (jget loc "gpuDeployment")
             (if (1 <? length gpuDevices)%nat then "split" else "single"));
           StandardDraft_parallelism :=
             parallelism_of_text (jtext (jget (record (dict_get loc "vllm")) "parallelism") "auto") |}).

(** ** Serialisation *)
Record LocalModelSerializationOptions : Type := {
  so_cpuResources : option (option number * option number);   (* request and limit millicores *)
  so_cpuChanged : bool;
  so_vllm : option VllmConfiguration;
  so_deploymentChanged : bool;
  so_allowMemoryRisk : option bool;
  so_initialAllowMemoryRisk : option bool
}.
Definition no_options : LocalModelSerializationOptions :=
  {| so_cpuResources := None; so_cpuChanged := false; so_vllm := None; so_deploymentChanged := false;
     so_allowMemoryRisk := None; so_initialAllowMemoryRisk := None |}.

(** An optional key of an object literal. *)
Definition when_some {A} (k : string) (f : A -> json) (o : option A) : dict json :=
  match o with Some a => [(k, f a)] | None => [] end.

Definition cpu_json (c : option number * option number) : json :=
  JObj (when_some "requestMillicores" JNum c.1 ++ when_some "limitMillicores" JNum c.2)%list.

Definition selection_json (d : NvidiaGpuSelection) : json :=
  JObj [("nodeName", JStr (NvidiaGpuSelection_nodeName d)); ("nodeUid", JStr (NvidiaGpuSelection_nodeUid d));
        ("uuid", JStr (NvidiaGpuSelection_uuid d))].

Definition realtime_json (r : RealtimeConfiguration) : json :=
  JObj ([("profile", JStr (RealtimeConfiguration_profile r)); ("gpuNode", JStr (RealtimeConfiguration_gpuNode r));
         ("gpuCount", JNum (RealtimeConfiguration_gpuCount r));
         ("systemMemoryMi", JNum (RealtimeConfiguration_systemMemoryMi r));
         ("gpuMemoryFraction", JNum (RealtimeConfiguration_gpuMemoryFraction r));
         ("thinkerCpuOffloadGiB", JNum (RealtimeConfiguration_thinkerCpuOffloadGiB r))] ++
        when_some "runtimeImage" JStr (RealtimeConfiguration_runtimeImage r) ++
        when_some "restartNonce" JStr (RealtimeConfiguration_restartNonce r))%list.

Definition gpuSettings (d : StandardDraft) : dict json :=
  match StandardDraft_gpuDevices d with
  | [] => []
  | [g] => [("gpuDevice", selection_json g); ("gpuDeployment", literal (StandardDraft_gpuDeployment d))]
  | l => [("gpuDevices", JArr (map selection_json l)); ("gpuDeployment", literal (StandardDraft_gpuDeployment d))]
  end.

Definition several {A} (l : list A) : bool := (1 <? length l)%nat.

Definition vllmSettings (engine : LocalModelEngine) (d : StandardDraft) (options : LocalModelSerializationOptions) : dict json :=
  let base := match so_vllm options with
              | Some v => (when_some "visionAttention" literal (VllmConfiguration_visionAttention v) ++
                           when_some "parallelism" literal (VllmConfiguration_parallelism v))%list
              | None => []
              end in
  if bool_decide (engine = LocalModelEngine_VLLM) && several (StandardDraft_gpuDevices d) &&
     negb (bool_decide (StandardDraft_gpuDeployment d = GpuDeployment_replicated))
  then dict_set base "parallelism" (literal (StandardDraft_parallelism d)) else base.

Definition set_if (b : bool) (k : string) (v : json) (d : dict json) : dict json := if b then dict_set d k v else d.

(** The intent shared by every engine. *)
Definition common_local (draft : LocalModelDraft) (options : LocalModelSerializationOptions) : dict json :=
  ([("engine", literal (LocalModelDraftBase_engine draft)); ("computeTarget", JStr (LocalModelDraftBase_computeTarget draft));
    ("modelType", JStr (LocalModelDraftBase_modelType draft)); ("contextWindow", JNum (LocalModelDraftBase_contextWindow draft));
    ("maxNumSeqs", JNum (LocalModelDraftBase_maxNumSeqs draft))] ++
   when_some "cpuResources" cpu_json (so_cpuResources options))%list.

Definition standard_local (draft : LocalModelDraft) (d : StandardDraft) (options : LocalModelSerializationOptions) : dict json :=
  let engine := LocalModelDraftBase_engine draft in
  let target := LocalModelDraftBase_computeTarget draft in
  let loc := dict_spread (common_local draft options) (gpuSettings d) in
  let loc := dict_set loc "kvCacheType" (JStr (StandardDraft_kvCacheType d)) in
  let loc := if String.eqb target "cpu" then dict_set loc "memoryRequiredMi" (JNum (StandardDraft_selectedMi d))
             else dict_set loc "vram" (JStr (String_of_number (StandardDraft_selectedMi d) +:+ "Mi")) in
  let vllm := vllmSettings engine d options in
  let loc := set_if (bool_decide (engine = LocalModelEngine_VLLM) && (0 <? length vllm)%nat) "vllm" (JObj vllm) loc in
  let loc := set_if (String.eqb target "nvidia-gpu") "cpuOffloading" (JBool (StandardDraft_cpuOffloading d)) loc in
  let loc := set_if (StandardDraft_cpuOffloading d || several (StandardDraft_gpuDevices d)) "memoryRequiredMi"
               (JNum (StandardDraft_hostMemoryMi d)) loc in
  let loc := set_if (so_allowMemoryRisk options ?? false) "allowMemoryRisk" (JBool true) loc in
  let loc := set_if (truthy (LocalModelDraftBase_maxOutputTokens draft)) "maxOutputTokens"
               (JNum (Number_of_string (LocalModelDraftBase_maxOutputTokens draft))) loc in
  if bool_decide (LocalModelDraftBase_source draft = LocalModelSource_preset) && truthy (LocalModelDraftBase_presetId draft)
  then set_if (truthy (LocalModelDraftBase_artifactId draft)) "artifact" (JStr (LocalModelDraftBase_artifactId draft))
         (dict_set loc "preset" (JStr (LocalModelDraftBase_presetId draft)))
  else dict_set loc "url" (JStr (LocalModelDraftBase_url draft)).

Definition omni_local (draft : LocalModelDraft) (r : RealtimeConfiguration) (options : LocalModelSerializationOptions) : dict json :=
  dict_spread (common_local draft options)
    [("engine", JStr "VLLM"); ("modelType", JStr "chat");
     ("url", JStr (normalizeHuggingFaceReference (LocalModelDraftBase_url draft))); ("realtime", realtime_json r)].

Definition draft_local (draft : LocalModelDraft) (options : LocalModelSerializationOptions) : dict json :=
  match LocalModelDraft_kind draft with
  | Omni r => omni_local draft r options
  | Standard d => standard_local draft d options
  end.

Definition localModelCreatePayload (draft : LocalModelDraft) (options : LocalModelSerializationOptions) : dict json :=
  [("name", JStr (sor (trim (LocalModelDraftBase_name draft)) (safeModelName (LocalModelDraftBase_url draft))));
   ("enabled", JBool true); ("targetNamespace", JStr "ai"); ("local", JObj (draft_local draft options))].

(** ** Changes of an edit *)
Definition identity (devices : list NvidiaGpuSelection) : string :=
  join "," (map (fun d => NvidiaGpuSelection_nodeUid d +:+ "/" +:+ NvidiaGpuSelection_uuid d) devices).

Definition same_kind (a b : DraftKind) : bool :=
  match a, b with Standard _, Standard _ | Omni _, Omni _ => true | _, _ => false end.

Definition num_changed (a b : number) : bool := negb (num_eqb a b).

Definition common_changes (initial draft : LocalModelDraft) (options : LocalModelSerializationOptions) : dict json :=
  let c := [] in
  let c := set_if (num_changed (LocalModelDraftBase_contextWindow draft) (LocalModelDraftBase_contextWindow initial))
             "contextWindow" (JNum (LocalModelDraftBase_contextWindow draft)) c in
  let c := set_if (num_changed (LocalModelDraftBase_maxNumSeqs draft) (LocalModelDraftBase_maxNumSeqs initial))
             "maxNumSeqs" (JNum (LocalModelDraftBase_maxNumSeqs draft)) c in
  set_if (so_cpuChanged options) "cpuResources"
    (match so_cpuResources options with Some r => cpu_json r | None => JNull end) c.

(** The GPU placement: the new settings, and [null] for the keys it no longer uses. *)
Definition placement_changes (i d : StandardDraft) (c : dict json) : dict json :=
  let n := length (StandardDraft_gpuDevices d) in
  let n0 := length (StandardDraft_gpuDevices i) in
  let c := dict_spread c (gpuSettings d) in
  let c := set_if (n =? 0)%nat "gpuDeployment" JNull c in
  let c := set_if ((n0 <=? 1) && ((1 <? n) || (n =? 0)))%nat "gpuDevice" JNull c in
  set_if ((1 <? n0) && (n <? 2))%nat "gpuDevices" JNull c.

Definition standard_changes (initial draft : LocalModelDraft) (i d : StandardDraft)
    (options : LocalModelSerializationOptions) (c : dict json) : dict json :=
  let devicesChanged := negb (String.eqb (identity (StandardDraft_gpuDevices d)) (identity (StandardDraft_gpuDevices i))) in
  let deploymentChanged := negb (bool_decide (StandardDraft_gpuDeployment d = StandardDraft_gpuDeployment i)) in
  let offloadChanged := negb (Bool.eqb (StandardDraft_cpuOffloading d) (StandardDraft_cpuOffloading i)) in
  let needsHostRam := StandardDraft_cpuOffloading d || several (StandardDraft_gpuDevices d) in
  let tokens := LocalModelDraftBase_maxOutputTokens draft in
  let c := set_if (negb (String.eqb (LocalModelDraftBase_modelType draft) (LocalModelDraftBase_modelType initial)))
             "modelType" (JStr (LocalModelDraftBase_modelType draft)) c in
  let c := set_if (negb (String.eqb tokens (LocalModelDraftBase_maxOutputTokens initial))) "maxOutputTokens"
             (if truthy tokens then JNum (Number_of_string tokens) else JNull) c in
  let c := set_if (negb (String.eqb (StandardDraft_kvCacheType d) (StandardDraft_kvCacheType i)))
             "kvCacheType" (JStr (StandardDraft_kvCacheType d)) c in
  let c := set_if (num_changed (StandardDraft_selectedMi d) (StandardDraft_selectedMi i))
             (if String.eqb (LocalModelDraftBase_computeTarget draft) "cpu" then "memoryRequiredMi" else "vramMi")
             (JNum (StandardDraft_selectedMi d)) c in
  let c := set_if offloadChanged "cpuOffloading" (JBool (StandardDraft_cpuOffloading d)) c in
  let c := if devicesChanged || deploymentChanged then placement_changes i d c else c in
  let c := set_if (needsHostRam && (num_changed (StandardDraft_hostMemoryMi d) (StandardDraft_hostMemoryMi i)
                                    || offloadChanged || devicesChanged))
             "memoryRequiredMi" (JNum (StandardDraft_hostMemoryMi d)) c in
  let c := set_if (negb needsHostRam && (StandardDraft_cpuOffloading i || several (StandardDraft_gpuDevices i)))
             "memoryRequiredMi" JNull c in
  let settings := vllmSettings (LocalModelDraftBase_engine draft) d options in
  let c := set_if (bool_decide (LocalModelDraftBase_engine draft = LocalModelEngine_VLLM) &&
                   (so_deploymentChanged options ||
                    ((devicesChanged || deploymentChanged ||
                      negb (bool_decide (StandardDraft_parallelism d = StandardDraft_parallelism i))) &&
                     (several (StandardDraft_gpuDevices d) || several (StandardDraft_gpuDevices i)))))
             "vllm" (if (0 <? length settings)%nat then JObj settings else JNull) c in
  set_if ((0 <? length c)%nat && negb (bool_decide (so_allowMemoryRisk options = so_initialAllowMemoryRisk options)))
    "allowMemoryRisk" (JBool (so_allowMemoryRisk options ?? false)) c.

Definition localModelChanges (initial draft : LocalModelDraft) (options : LocalModelSerializationOptions) : res string (dict json) :=
  if negb (same_kind (LocalModelDraft_kind initial) (LocalModelDraft_kind draft)) ||
     negb (bool_decide (LocalModelDraftBase_engine initial = LocalModelDraftBase_engine draft)) ||
     negb (String.eqb (LocalModelDraftBase_computeTarget initial) (LocalModelDraftBase_computeTarget draft))
  then Err "The model engine and hardware target cannot be changed while editing."
  else
    let changes := common_changes initial draft options in
    match LocalModelDraft_kind initial, LocalModelDraft_kind draft with
    | Omni r0, Omni r =>
        if negb (String.eqb (RealtimeConfiguration_profile r) (RealtimeConfiguration_profile r0))
        then Err "The Realtime profile cannot be changed while editing."
        else Ok (set_if (negb (String.eqb (stringify "" "" (realtime_json r)) (stringify "" "" (realtime_json r0))))
                   "realtime" (realtime_json r) changes)
    | Standard i, Standard d => Ok (standard_changes initial draft i d options changes)
    | _, _ => Ok changes
    end.
