(* ===== verification/LocalModelProps.v ===== *)
(** * Local model configuration: its properties (packages/core/src/local-model-configuration.ts) *)

From S2P Require Import Prelude Js Number Json Regex Contracts DashboardCore LocalModel.

Local Open Scope string_scope.
Local Open Scope js_scope.
Local Open Scope Z_scope.

(** ** Keys of a payload *)

Create HintDb keys.
Create Rewrite HintDb keys.

Lemma elem_keys_set {A} (d : dict A) k k' v : k ∈ dict_keys (dict_set d k' v) <-> k = k' \/ k ∈ dict_keys d.
Proof.
  rewrite dict_keys_set. case_bool_decide as Hin; [naive_solver|]. rewrite elem_of_app, list_elem_of_singleton. tauto.
Qed.

Lemma elem_keys_set_if b k k' v d : k ∈ dict_keys (set_if b k' v d) <-> (b = true /\ k = k') \/ k ∈ dict_keys d.
Proof. unfold set_if. destruct b; [rewrite elem_keys_set; naive_solver | naive_solver]. Qed.

Lemma elem_keys_spread {A} (d d' : dict A) k : k ∈ dict_keys (dict_spread d d') <-> k ∈ dict_keys d \/ k ∈ dict_keys d'.
Proof.
  unfold dict_spread. revert d. induction d' as [|[k' v'] d' IH]; intros d; cbn [foldl fst snd]; [set_solver|].
  rewrite IH, elem_keys_set. unfold dict_keys. cbn [map fst]. set_solver.
Qed.

Lemma set_if_wf b k v d : dict_wf d -> dict_wf (set_if b k v d).
Proof. destruct b; [apply dict_set_wf | done]. Qed.

#[local] Hint Rewrite @elem_keys_set @elem_keys_spread elem_keys_set_if : keys.
#[local] Hint Resolve dict_set_wf dict_spread_wf set_if_wf : keys.

Lemma common_keys draft options k :
  k ∈ dict_keys (common_local draft options) ->
  k ∈ ["engine"; "computeTarget"; "modelType"; "contextWindow"; "maxNumSeqs"; "cpuResources"].
Proof. unfold common_local, when_some. destruct (so_cpuResources options); cbn; set_solver. Qed.

Lemma common_wf draft options : dict_wf (common_local draft options).
Proof.
  unfold common_local, when_some, dict_wf. destruct (so_cpuResources options); cbn;
    repeat (constructor; [set_solver|]); constructor.
Qed.
#[local] Hint Resolve common_wf : keys.

Lemma gpu_keys d k : k ∈ dict_keys (gpuSettings d) -> k ∈ ["gpuDevice"; "gpuDevices"; "gpuDeployment"].
Proof. unfold gpuSettings. destruct (StandardDraft_gpuDevices d) as [|g [|g' l]]; cbn; set_solver. Qed.

Definition engine_keys : list string :=
  ["engine"; "computeTarget"; "modelType"; "contextWindow"; "maxNumSeqs"; "cpuResources"].
Definition standard_keys : list string :=
  ["gpuDevice"; "gpuDevices"; "gpuDeployment"; "kvCacheType"; "memoryRequiredMi"; "vram"; "vllm"; "cpuOffloading";
   "allowMemoryRisk"; "maxOutputTokens"; "preset"; "artifact"; "url"].

(** The optional settings of a standard draft, and what they may add. *)
Lemma standard_local_keys draft d options k :
  k ∈ dict_keys (standard_local draft d options) <->
    (k ∈ dict_keys (common_local draft options) \/ k ∈ dict_keys (gpuSettings d)) \/ k = "kvCacheType" \/
    (LocalModelDraftBase_computeTarget draft = "cpu" /\ k = "memoryRequiredMi" \/
     LocalModelDraftBase_computeTarget draft <> "cpu" /\ k = "vram") \/
    (LocalModelDraftBase_engine draft = LocalModelEngine_VLLM /\
       vllmSettings (LocalModelDraftBase_engine draft) d options <> [] /\ k = "vllm") \/
    (LocalModelDraftBase_computeTarget draft = "nvidia-gpu" /\ k = "cpuOffloading") \/
    (StandardDraft_cpuOffloading d || several (StandardDraft_gpuDevices d) = true /\ k = "memoryRequiredMi") \/
    (so_allowMemoryRisk options = Some true /\ k = "allowMemoryRisk") \/
    (truthy (LocalModelDraftBase_maxOutputTokens draft) = true /\ k = "maxOutputTokens") \/
    (let preset := bool_decide (LocalModelDraftBase_source draft = LocalModelSource_preset) &&
                   truthy (LocalModelDraftBase_presetId draft) in
     preset = true /\ (k = "preset" \/ truthy (LocalModelDraftBase_artifactId draft) = true /\ k = "artifact") \/
     preset = false /\ k = "url").
Proof.
  unfold standard_local. cbv zeta.
  assert (Hpos : forall l : dict json, (0 <? length l)%nat = true <-> l <> []) by (intros []; cbn; naive_solver).
  destruct (bool_decide (LocalModelDraftBase_source draft = _) && truthy _) eqn:Ep;
    destruct (String.eqb_spec (LocalModelDraftBase_computeTarget draft) "cpu") as [->|Ht];
    autorewrite with keys; rewrite ?andb_true_iff, ?bool_decide_eq_true, ?String.eqb_eq, ?Hpos.
  all: assert (Hr : forall o : option bool, o ?? false = true <-> o = Some true)
         by (intros [[]|]; cbn; naive_solver); rewrite ?Hr; intuition congruence.
Qed.

Lemma standard_local_wf draft d options : dict_wf (standard_local draft d options).
Proof. unfold standard_local. cbv zeta. repeat (case_match; eauto 20 with keys). Qed.

Lemma special_keys_fresh draft d options k :
  k ∈ ["vllm"; "cpuOffloading"; "preset"; "url"; "realtime"] ->
  ~ (k ∈ dict_keys (common_local draft options) \/ k ∈ dict_keys (gpuSettings d)).
Proof. intros Hk [H%common_keys|H%gpu_keys]; set_solver. Qed.

Lemma set_if_keys_subset b k k' v d : k ∈ dict_keys (set_if b k' v d) -> k = k' \/ k ∈ dict_keys d.
Proof. rewrite elem_keys_set_if. tauto. Qed.

(** A creation payload carries only the intent of its own engine. Its keys are distinct;
    for an Omni draft they are the common ones, [url] and [realtime], so no placement, memory
    or token setting of a standard form leaks; for a standard draft they come from a fixed
    list without [realtime], [vllm] only for vLLM, [cpuOffloading] exactly for the NVIDIA
    target, and a preset exactly when there is no free-form [url]. *)
Theorem createPayload_keys draft options :
  let keys := dict_keys (draft_local draft options) in
  NoDup keys /\
  match LocalModelDraft_kind draft with
  | Omni _ => forall k, k ∈ keys <-> k ∈ dict_keys (common_local draft options) \/ k = "url" \/ k = "realtime"
  | Standard _ =>
      (forall k, k ∈ keys -> k ∈ engine_keys \/ k ∈ standard_keys) /\
      ("vllm" ∈ keys -> LocalModelDraftBase_engine draft = LocalModelEngine_VLLM) /\
      ("cpuOffloading" ∈ keys <-> LocalModelDraftBase_computeTarget draft = "nvidia-gpu") /\
      ("preset" ∈ keys <-> "url" ∉ keys)
  end.
Proof.
  unfold draft_local. destruct (LocalModelDraft_kind draft) as [d|r]; split.
  - apply standard_local_wf.
  - pose proof (special_keys_fresh draft d options) as Hf. split; [|split; [|split]].
    + intros k. rewrite standard_local_keys. intros [[H%common_keys|H%gpu_keys]|Hk]; [by left | right; set_solver | right].
      unfold standard_keys. set_solver.
    + rewrite standard_local_keys. cbv zeta. pose proof (Hf "vllm" ltac:(set_solver)). intuition congruence.
    + rewrite standard_local_keys. cbv zeta. pose proof (Hf "cpuOffloading" ltac:(set_solver)). intuition congruence.
    + rewrite !standard_local_keys. pose proof (Hf "preset" ltac:(set_solver)). pose proof (Hf "url" ltac:(set_solver)).
      cbv zeta. destruct (bool_decide _ && _); intuition congruence.
  - apply dict_spread_wf, common_wf.
  - intros k. unfold omni_local. rewrite elem_keys_spread. cbn.
    assert (k = "engine" \/ k = "modelType" -> k ∈ dict_keys (common_local draft options)) by (unfold common_local; set_solver).
    set_solver.
Qed.

(** ** Edits *)

Definition finite_draft (draft : LocalModelDraft) : Prop :=
  LocalModelDraftBase_contextWindow draft <> NaN /\ LocalModelDraftBase_maxNumSeqs draft <> NaN /\
  match LocalModelDraft_kind draft with
  | Standard d => StandardDraft_selectedMi d <> NaN /\ StandardDraft_hostMemoryMi d <> NaN
  | Omni _ => True
  end.

Lemma num_changed_refl n : n <> NaN -> num_changed n n = false.
Proof. intros H. unfold num_changed, num_eqb. by rewrite bool_decide_false, bool_decide_true by done. Qed.

Lemma common_changes_refl draft options :
  finite_draft draft -> so_cpuChanged options = false -> common_changes draft draft options = [].
Proof.
  intros (H1 & H2 & _) Hc. unfold common_changes. rewrite !num_changed_refl by done. by rewrite Hc.
Qed.

Lemma standard_changes_refl draft d options :
  StandardDraft_selectedMi d <> NaN -> StandardDraft_hostMemoryMi d <> NaN -> so_deploymentChanged options = false ->
  standard_changes draft draft d d options [] = [].
Proof.
  intros H1 H2 Hd. unfold standard_changes. cbv zeta.
  rewrite !String.eqb_refl, !num_changed_refl, !Bool.eqb_reflx, Hd by done.
  rewrite (bool_decide_true (StandardDraft_gpuDeployment d = _)) by done.
  rewrite (bool_decide_true (StandardDraft_parallelism d = _)) by done.
  cbn [negb orb andb set_if]. rewrite !andb_false_r. cbn [orb andb].
  destruct (StandardDraft_cpuOffloading d || several _); cbn; by rewrite ?andb_false_r.
Qed.

Definition editable_keys : list string :=
  ["contextWindow"; "maxNumSeqs"; "cpuResources"; "realtime"; "modelType"; "maxOutputTokens"; "kvCacheType";
   "memoryRequiredMi"; "vramMi"; "cpuOffloading"; "gpuDevice"; "gpuDevices"; "gpuDeployment"; "vllm"; "allowMemoryRisk"].

Lemma common_changes_keys initial draft options k :
  k ∈ dict_keys (common_changes initial draft options) -> k ∈ editable_keys.
Proof.
  unfold common_changes, editable_keys. autorewrite with keys. cbn. set_solver.
Qed.

Lemma placement_keys i d c k :
  k ∈ dict_keys (placement_changes i d c) -> k ∈ dict_keys c \/ k ∈ ["gpuDevice"; "gpuDevices"; "gpuDeployment"].
Proof.
  unfold placement_changes. autorewrite with keys. intros H.
  repeat destruct H as [[_ ->]|H]; try (right; set_solver). destruct H as [H|H%gpu_keys]; [by left | right; set_solver].
Qed.

Lemma standard_changes_keys initial draft i d options c k :
  k ∈ dict_keys (standard_changes initial draft i d options c) -> k ∈ dict_keys c \/ k ∈ editable_keys.
Proof.
  unfold standard_changes. cbv zeta.
  set (c5 := set_if _ "cpuOffloading" _ _).
  assert (H5 : k ∈ dict_keys c5 -> k ∈ dict_keys c \/ k ∈ editable_keys).
  { unfold c5. autorewrite with keys. intros H.
    repeat destruct H as [[_ ->]|H]; [right; try case_match; set_solver .. | by left]. }
  clearbody c5.
  match goal with |- context [if ?b then placement_changes ?x ?y ?z else ?z] =>
    set (c6 := if b then placement_changes x y z else z) end.
  assert (H6 : k ∈ dict_keys c6 -> k ∈ dict_keys c \/ k ∈ editable_keys).
  { unfold c6. case_match; [|exact H5]. clear H. intros [H|H]%placement_keys; [by apply H5 | right; set_solver]. }
  clearbody c6. autorewrite with keys. intros H.
  repeat destruct H as [[_ ->]|H]; [right; set_solver .. | by apply H6].
Qed.

(** An edit. It is refused when the kind, engine or hardware target differs, and for an
    Omni draft when the profile does; otherwise it sends only editable settings. *)
Theorem localModelChanges_editable initial draft options changes :
  localModelChanges initial draft options = Ok changes ->
  same_kind (LocalModelDraft_kind initial) (LocalModelDraft_kind draft) = true /\
  LocalModelDraftBase_engine initial = LocalModelDraftBase_engine draft /\
  LocalModelDraftBase_computeTarget initial = LocalModelDraftBase_computeTarget draft /\
  (forall r0 r, LocalModelDraft_kind initial = Omni r0 -> LocalModelDraft_kind draft = Omni r ->
     RealtimeConfiguration_profile r0 = RealtimeConfiguration_profile r) /\
  (forall k, k ∈ dict_keys changes -> k ∈ editable_keys).
Proof.
  unfold localModelChanges. destruct (_ || _) eqn:E; [done|]. bool_prop.
  match goal with H : String.eqb _ _ = true |- _ => apply String.eqb_eq in H end.
  intros Hc. do 3 (split; [done|]).
  destruct (LocalModelDraft_kind initial) as [i|r0] eqn:Ei, (LocalModelDraft_kind draft) as [d|r] eqn:Ed; try done.
  - injection Hc as <-. split; [naive_solver|]. intros k [H'|H']%standard_changes_keys; [|done].
    by apply common_changes_keys in H'.
  - destruct (String.eqb_spec (RealtimeConfiguration_profile r) (RealtimeConfiguration_profile r0)) as [Heq|]; [|done].
    cbn in Hc. injection Hc as <-. split; [naive_solver congruence|].
    intros k [->|H']%set_if_keys_subset; [set_solver | by apply common_changes_keys in H'].
Qed.

(** An edit that changes nothing sends nothing, whatever the form holds (NaN apart). *)
Theorem localModelChanges_unchanged draft options :
  finite_draft draft -> so_cpuChanged options = false -> so_deploymentChanged options = false ->
  localModelChanges draft draft options = Ok [].
Proof.
  intros Hf Hc Hd. pose proof Hf as (_ & _ & Hk). unfold localModelChanges.
  rewrite bool_decide_true, String.eqb_refl, common_changes_refl by done.
  destruct (LocalModelDraft_kind draft) as [d|r]; cbn [same_kind negb orb].
  - destruct Hk. by rewrite standard_changes_refl.
  - by rewrite !String.eqb_refl.
Qed.

Definition demo_base : LocalModelDraftBase :=
  {| LocalModelDraftBase_name := "tiny"; LocalModelDraftBase_engine := LocalModelEngine_VLLM;
     LocalModelDraftBase_computeTarget := "nvidia-gpu"; LocalModelDraftBase_url := "hf://a/b";
     LocalModelDraftBase_source := LocalModelSource_search; LocalModelDraftBase_presetId := "";
     LocalModelDraftBase_artifactId := ""; LocalModelDraftBase_modelType := "chat";
     LocalModelDraftBase_contextWindow := Int 4096; LocalModelDraftBase_maxNumSeqs := Int 1;
     LocalModelDraftBase_maxOutputTokens := "" |}.
Definition demo_draft (selected : Z) : LocalModelDraft :=
  mk_LocalModelDraft demo_base (Standard
    {| StandardDraft_kvCacheType := "auto"; StandardDraft_selectedMi := Int selected;
       StandardDraft_hostMemoryMi := Int 16400; StandardDraft_cpuOffloading := false; StandardDraft_gpuDevices := [];
       StandardDraft_gpuDeployment := GpuDeployment_single;
       StandardDraft_parallelism := VllmConfiguration_parallelism_t_auto |}).

Lemma localModelChanges_editable_witness : "vramMi" ∈ editable_keys.
Proof.
  apply (localModelChanges_editable (demo_draft 100) (demo_draft 200) no_options [("vramMi", JNum (Int 200))]).
  - vm_compute. reflexivity.
  - set_solver.
Defined.

Lemma localModelChanges_unchanged_witness : localModelChanges (demo_draft 100) (demo_draft 100) no_options = Ok [].
Proof. apply localModelChanges_unchanged; [repeat split; discriminate | reflexivity | reflexivity]. Defined.
