(* ===== verification/ApiClient.v ===== *)
(** * The dashboard API client (packages/api-client/src/index.ts)

    [request] is a program over two effects, the access token and one [fetch]. The methods
    are calls grouped as in the class; [endpoint] gives the path, method and body of each, and
    a payload is the object that is serialised. Responses are JSON: the source's result types
    are assertions, except for the two parsed with a schema. *)

From S2P Require Import Prelude Js Number Json Prog Contracts.

Local Open Scope string_scope.
Local Open Scope js_scope.
Local Open Scope Z_scope.

(** ** Data *)
Record ApiError : Type := {
  ae_message : string;
  ae_status : Z;
  ae_details : json
}.

(** What a call can throw: an [ApiError], or the rejection of a collaborator. *)
Inductive api_exn : Type :=
| Api (e : ApiError)
| Network (message : string)
| Malformed.                 (* a schema rejects the response *)

(** [Headers]: lower-case names, one value each. *)
Definition headers_set (h : dict string) (k v : string) : dict string := dict_set h (toLowerCase k) v.
Definition headers_get (h : dict string) (k : string) : option string := dict_get h (toLowerCase k).
Definition new_Headers (init : list (string * string)) : dict string :=
  foldl (fun h kv => headers_set h kv.1 kv.2) [] init.

Record RequestInit : Type := {
  ri_method : option string;
  ri_headers : list (string * string);
  ri_body : option string
}.

Inductive Credentials : Type := omit | same_origin.

Record FetchRequest : Type := {
  fr_url : string;
  fr_method : string;
  fr_headers : dict string;
  fr_body : option string;
  fr_credentials : Credentials
}.

(** A response: [r_json] is what [json()] resolves to, [None] when it rejects; [text()] as well. *)
Record Response : Type := {
  r_status : Z;
  r_statusText : string;
  r_contentType : option string;
  r_json : option json;
  r_text : option string
}.
Definition response_ok (r : Response) : bool := (200 <=? r_status r) && (r_status r <=? 299).

Inductive apiE : Type -> Type :=
| Access_token : apiE (res api_exn (option string))
| Fetch (r : FetchRequest) : apiE (res api_exn Response).

Record MagicStickApi : Type := {
  api_baseUrl : string;
  api_hasToken : bool        (* whether [getAccessToken] was given *)
}.

Definition new_MagicStickApi (baseUrl : option string) (hasToken : bool) : MagicStickApi :=
  {| api_baseUrl := strip_last "/" (baseUrl ?? ""); api_hasToken := hasToken |}.

Definition AM := M apiE unit api_exn.

(** ** Requests *)
Definition mutationMethod (method : string) : bool :=
  negb (includes ["GET"; "HEAD"; "OPTIONS"] (toUpperCase method)).

Definition access_token (api : MagicStickApi) : AM (option string) :=
  if api_hasToken api then await Access_token else mret None.

Definition has_token (token : option string) : bool := match token with Some t => truthy t | None => false end.

Definition request_headers (init : RequestInit) (method : string) (token : option string) : dict string :=
  let h := new_Headers (ri_headers init) in
  let h := headers_set h "Accept" "application/json" in
  let h := match ri_body init with
           | Some b => if truthy b && negb (bool_decide (is_Some (headers_get h "Content-Type")))
                       then headers_set h "Content-Type" "application/json" else h
           | None => h
           end in
  let h := if mutationMethod method then headers_set h "X-MagicStick-CSRF" "dashboard" else h in
  match token with
  | Some t => if truthy t then headers_set h "Authorization" ("Bearer " +:+ t) else h
  | None => h
  end.

(** The body of a response: JSON when its type says so, text otherwise. *)
Definition response_body (r : Response) : json :=
  if includesStr "application/json" (r_contentType r ?? "") then r_json r ?? JNull
  else JStr (r_text r ?? "").

(** [a ?? b] on JSON: [null] is absent. *)
Definition present (o : option json) : option json := match o with Some JNull => None | _ => o end.

Definition error_message (body : json) (statusText : string) : string :=
  let field k := match body with
                 | JObj d => present (dict_get d k)
                 | _ => None
                 end in
  match field "message" ??? field "error" ??? present (Some body) with
  | Some v => String_of_json v
  | None => statusText
  end.

Definition respond (r : Response) : res api_exn json :=
  let body := response_body r in
  if response_ok r then Ok body
  else Err (Api {| ae_message := sor (error_message body (r_statusText r))
                                   ("Request failed with HTTP " +:+ String_of_Z (r_status r));
                   ae_status := r_status r; ae_details := body |}).

Definition request (api : MagicStickApi) (path : string) (init : RequestInit) : AM json :=
  let method := toUpperCase (ri_method init ?? "GET") in
  let! token := access_token api in
  let! response := await (Fetch
    {| fr_url := api_baseUrl api +:+ path; fr_method := method; fr_headers := request_headers init method token;
       fr_body := ri_body init; fr_credentials := if has_token token then omit else same_origin |}) in
  of_res (respond response).

(** ** Query strings: the [application/x-www-form-urlencoded] serialiser *)
Definition form_char (c : ascii) : string :=
  if is_alnum c || existsb (Ascii.eqb c) ["*"; "-"; "."; "_"]%char then String c ""
  else if code c =? 32 then "+"
  else if code c <? 128 then percent (code c)
  else percent (192 + code c / 64) +:+ percent (128 + code c mod 64).
Fixpoint form_encode (s : string) : string :=
  match s with EmptyString => "" | String c s' => form_char c +:+ form_encode s' end.
Definition URLSearchParams (params : list (string * string)) : string :=
  join "&" (map (fun kv => form_encode kv.1 +:+ "=" +:+ form_encode kv.2) params).

(** ** Calls *)
Inductive ReportKind : Type := archive | html | junit.
Definition report_kind (k : ReportKind) : string := match k with archive => "archive" | html => "html" | junit => "junit" end.

Inductive platform_call : Type :=
| session
| myInstances
| regression
| registerRegression
| startRegression (requestId : string) (phases : option (list Z)) (testMode diagnosticSelection : option string)
| recoverRegressionLock (requestId expectedLockRevision : string)
| cancelRegression (id : string)
| licenseStatus
| inspectLicense (document : string)
| importLicense (document expectedRevision : string)
| exportLicense
| createLicenseRequest (payload : json).

Inductive mesh_action : Type :=
| M_create | M_join | M_leave | M_invite | M_revoke_invite | M_revoke_node | M_share | M_unshare | M_relay | M_sync.
Definition mesh_action_name (a : mesh_action) : string :=
  match a with
  | M_create => "create" | M_join => "join" | M_leave => "leave" | M_invite => "invite"
  | M_revoke_invite => "revoke-invite" | M_revoke_node => "revoke-node" | M_share => "share"
  | M_unshare => "unshare" | M_relay => "relay" | M_sync => "sync"
  end.

Inductive federation_call : Type :=
| federatedSso
| validateFederation (payload : json)
| createFederation (payload : json)
| updateFederation (alias : string) (payload : json)
| deleteFederation (alias expectedRevision : string)
| settings
| mesh
| meshCommand (action : mesh_action) (payload : json)
| updateSettings (payload : json).

Inductive PrincipalKind : Type := P_users | P_groups.
Definition principal_kind (k : PrincipalKind) : string := match k with P_users => "users" | P_groups => "groups" end.

Inductive runtime_call : Type :=
| appliance
| modules
| instances
| instanceAccess (name : string)
| updateInstanceAccess (name : string) (sharing : json) (expectedRevision : string)
| instancePrincipals (kind : PrincipalKind) (search : string) (first : number)
| models
| modelLogs (name : string) (tailLines : number) (replica : string)
| status
| hostManagement
| softwareReleases
| confirmHostNetwork (payload : json)
| requestGpuValidation (payload : json)
| gpuSharing
| configureGpuSharing (payload : json)
| requestHostOperation (payload : json)
| enableModule (name : string) (parameters : dict string)
| disableModule (name : string) (parameters : option (dict string))
| moduleCredentials (name : string)
| createInstance (type : string) (payload : json)
| removeInstance (name : string)
| instanceCredentials (name : string).

Inductive model_call : Type :=
| searchModels (params : list (string * string))
| popularModels (params : list (string * string))
| modelArtifacts (params : list (string * string))
| estimateMemory (payload : json)
| estimateModelUpdate (name : string) (payload : json)
| updateModel (name : string) (payload : json)
| createLocalModel (payload : json)
| createExternalModel (payload : json)
| removeModel (name : string)
| removeLocalRuntime.

Inductive access_call : Type :=
| users (search : string) (first max : number)
| createUser (payload : json)
| updateUser (id : string) (payload : json)
| updateUserRoles (id accessLevel : string)
| setUserEnabled (id : string) (enabled : bool)
| resetUserPassword (id password : string) (temporary : bool)
| deleteUser (id usernameConfirmation : string)
| apiAccess
| createApiKey (name : string)
| revokeApiKey (id : string)
| kubernetesAccess (search : string) (first max : number)
| updateKubernetesAccess (id accessLevel : string)
| kubeconfig (id : string).

(** A request of a method: its path, and its method and body when they are not the defaults. *)
Record Endpoint : Type := { ep_path : string; ep_method : string; ep_body : option string }.

Definition GET (path : string) : Endpoint := {| ep_path := path; ep_method := "GET"; ep_body := None |}.
Definition SEND (method path : string) (body : json) : Endpoint :=
  {| ep_path := path; ep_method := method; ep_body := Some (stringify "" "" body) |}.
Definition DELETE (path : string) : Endpoint := {| ep_path := path; ep_method := "DELETE"; ep_body := None |}.

Definition enc : string -> string := encodeURIComponent.
Definition query (params : list (string * string)) : string := "?" +:+ URLSearchParams params.
Definition opt_key (k : string) (o : option json) : dict json := match o with Some v => [(k, v)] | None => [] end.
Definition strings (d : dict string) : json := JObj (map (fun kv => (kv.1, JStr kv.2)) d).

Definition platform_endpoint (c : platform_call) : Endpoint :=
  match c with
  | session => GET "/api/session"
  | myInstances => GET "/api/my-instances"
  | regression => GET "/api/regression"
  | registerRegression => SEND "POST" "/api/regression/register"
      (JObj [("confirmation", JStr "DISPOSABLE TEST SERVER"); ("acknowledgeDisruption", JBool true)])
  | startRegression requestId phases testMode selection => SEND "POST" "/api/regression/runs"
      (JObj ([("requestId", JStr requestId); ("acknowledgeDisruption", JBool true)] ++
             opt_key "phases" ((fun l => JArr (map (fun z => JNum (Int z)) l)) <$> phases) ++
             opt_key "testMode" (JStr <$> testMode) ++ opt_key "diagnosticSelection" (JStr <$> selection))%list)
  | recoverRegressionLock requestId expected => SEND "POST" "/api/regression/recover-lock"
      (JObj [("requestId", JStr requestId); ("expectedLockRevision", JStr expected); ("acknowledgeCleanup", JBool true)])
  | cancelRegression id => SEND "POST" ("/api/regression/runs/" +:+ enc id +:+ "/cancel")
      (JObj [("acknowledgeDisruption", JBool true)])
  | licenseStatus => GET "/api/license"
  | inspectLicense document => SEND "POST" "/api/license/validate" (JObj [("document", JStr document)])
  | importLicense document expected => SEND "PUT" "/api/license"
      (JObj [("document", JStr document); ("expectedRevision", JStr expected)])
  | exportLicense => GET "/api/license/export"
  | createLicenseRequest payload => SEND "POST" "/api/license/request" payload
  end.

Definition federation_endpoint (c : federation_call) : Endpoint :=
  match c with
  | federatedSso => GET "/api/federated-sso"
  | validateFederation payload => SEND "POST" "/api/federated-sso/validate" payload
  | createFederation payload => SEND "POST" "/api/federated-sso/providers" payload
  | updateFederation alias payload => SEND "PUT" ("/api/federated-sso/providers/" +:+ enc alias) payload
  | deleteFederation alias expected => SEND "DELETE" ("/api/federated-sso/providers/" +:+ enc alias)
      (JObj [("expectedRevision", JStr expected)])
  | settings => GET "/api/settings"
  | mesh => GET "/api/mesh"
  | meshCommand action payload => SEND "POST" ("/api/mesh/" +:+ mesh_action_name action) payload
  | updateSettings payload => SEND "PATCH" "/api/settings" payload
  end.

Definition runtime_endpoint (c : runtime_call) : Endpoint :=
  match c with
  | appliance => GET "/api/appliance"
  | modules => GET "/api/modules"
  | instances => GET "/api/instances"
  | instanceAccess name => GET ("/api/instances/" +:+ enc name +:+ "/access")
  | updateInstanceAccess name sharing expected => SEND "PUT" ("/api/instances/" +:+ enc name +:+ "/access")
      (JObj [("sharing", sharing); ("expectedRevision", JStr expected)])
  | instancePrincipals kind search first => GET ("/api/instance-principals" +:+
      query [("kind", principal_kind kind); ("search", search); ("first", String_of_number first)])
  | models => GET "/api/models"
  | modelLogs name tailLines replica => GET ("/api/models/" +:+ enc name +:+ "/logs" +:+
      query (("tailLines", String_of_number tailLines) :: if truthy replica then [("replica", replica)] else []))
  | status => GET "/api/status"
  | hostManagement => GET "/api/host-management"
  | softwareReleases => GET "/api/software/releases"
  | confirmHostNetwork payload => SEND "POST" "/api/host-management/network-confirm" payload
  | requestGpuValidation payload => SEND "POST" "/api/hardware/validation" payload
  | gpuSharing => GET "/api/hardware/gpu-sharing"
  | configureGpuSharing payload => SEND "POST" "/api/hardware/gpu-sharing" payload
  | requestHostOperation payload => SEND "POST" "/api/host-management/operations" payload
  | enableModule name parameters => SEND "POST" ("/api/modules/" +:+ enc name +:+ "/enable")
      (JObj (match parameters with [] => [] | _ => [("parameters", strings parameters)] end))
  | disableModule name parameters => SEND "POST" ("/api/modules/" +:+ enc name +:+ "/disable")
      (JObj (opt_key "parameters" (strings <$> parameters)))
  | moduleCredentials name => GET ("/api/modules/" +:+ enc name +:+ "/credentials")
  | createInstance type payload => SEND "POST" ("/api/instances/" +:+ enc type) payload
  | removeInstance name => DELETE ("/api/instances/" +:+ enc name)
  | instanceCredentials name => GET ("/api/instances/" +:+ enc name +:+ "/credentials")
  end.

Definition model_endpoint (c : model_call) : Endpoint :=
  match c with
  | searchModels params => GET ("/api/model-discovery/search" +:+ query params)
  | popularModels params => GET ("/api/model-discovery/popular" +:+ query params)
  | modelArtifacts params => GET ("/api/model-discovery/artifacts" +:+ query params)
  | estimateMemory payload => SEND "POST" "/api/models/estimate-memory" payload
  | estimateModelUpdate name payload => SEND "POST" ("/api/models/" +:+ enc name +:+ "/estimate-memory") payload
  | updateModel name payload => SEND "PUT" ("/api/models/" +:+ enc name) payload
  | createLocalModel payload => SEND "POST" "/api/models/local" payload
  | createExternalModel payload => SEND "POST" "/api/models/external" payload
  | removeModel name => DELETE ("/api/models/" +:+ enc name)
  | removeLocalRuntime => SEND "POST" "/api/models/local-runtime/remove" (JObj [])
  end.

Definition access_endpoint (c : access_call) : Endpoint :=
  match c with
  | users search first max => GET ("/api/users" +:+
      query [("search", search); ("first", String_of_number first); ("max", String_of_number max)])
  | createUser payload => SEND "POST" "/api/users" payload
  | updateUser id payload => SEND "PATCH" ("/api/users/" +:+ enc id) payload
  | updateUserRoles id accessLevel => SEND "PUT" ("/api/users/" +:+ enc id +:+ "/roles")
      (JObj [("accessLevel", JStr accessLevel)])
  | setUserEnabled id enabled =>
      SEND "POST" ("/api/users/" +:+ enc id +:+ "/" +:+ if enabled then "enable" else "disable") (JObj [])
  | resetUserPassword id password temporary => SEND "PUT" ("/api/users/" +:+ enc id +:+ "/password")
      (JObj [("password", JStr password); ("temporary", JBool temporary)])
  | deleteUser id confirmation => SEND "DELETE" ("/api/users/" +:+ enc id)
      (JObj [("usernameConfirmation", JStr confirmation)])
  | apiAccess => GET "/api/api-access"
  | createApiKey name => SEND "POST" "/api/api-access" (JObj [("name", JStr name)])
  | revokeApiKey id => DELETE ("/api/api-access/" +:+ enc id)
  | kubernetesAccess search first max => GET ("/api/kubernetes-access" +:+
      query [("search", search); ("first", String_of_number first); ("max", String_of_number max)])
  | updateKubernetesAccess id accessLevel => SEND "PUT" ("/api/kubernetes-access/" +:+ enc id)
      (JObj [("accessLevel", JStr accessLevel)])
  | kubeconfig id => GET ("/api/kubernetes-access/" +:+ enc id +:+ "/kubeconfig")
  end.

Inductive api_call : Type :=
| Platform (c : platform_call)
| Federation (c : federation_call)
| Runtime (c : runtime_call)
| Models (c : model_call)
| Access (c : access_call).

Definition endpoint (c : api_call) : Endpoint :=
  match c with
  | Platform c => platform_endpoint c
  | Federation c => federation_endpoint c
  | Runtime c => runtime_endpoint c
  | Models c => model_endpoint c
  | Access c => access_endpoint c
  end.

Definition invoke (api : MagicStickApi) (c : api_call) : AM json :=
  let e := endpoint c in
  request api (ep_path e) {| ri_method := Some (ep_method e); ri_headers := []; ri_body := ep_body e |}.

(** The two calls whose response is validated. *)
Section validated.
Context `{Zod}.

Definition parsed {A} (s : schema A) (m : AM json) : AM A :=
  let! v := m in match parse s (Some v) with Some a => mret a | None => throw Malformed end.

Definition api_session (api : MagicStickApi) : AM Session := parsed sessionSchema (invoke api (Platform session)).
Definition api_settings (api : MagicStickApi) : AM Settings := parsed settingsSchema (invoke api (Federation settings)).
End validated.

(** The report download: a binary response, and a fixed error message. *)
Definition downloadRegression (api : MagicStickApi) (id : string) (kind : ReportKind) : AM Response :=
  let! token := access_token api in
  let h := headers_set [] "Accept" "application/octet-stream" in
  let h := match token with
           | Some t => if truthy t then headers_set h "Authorization" ("Bearer " +:+ t) else h
           | None => h
           end in
  let! response := await (Fetch
    {| fr_url := api_baseUrl api +:+ "/api/regression/runs/" +:+ enc id +:+ "/" +:+ report_kind kind;
       fr_method := "GET"; fr_headers := h; fr_body := None;
       fr_credentials := if has_token token then omit else same_origin |}) in
  if response_ok response then mret response
  else throw (Api {| ae_message := "Regression report is unavailable."; ae_status := r_status response; ae_details := JNull |}).
