(* ===== verification/ApiProps.v ===== *)
(** * The dashboard API client: its properties (packages/api-client/src/index.ts) *)

From S2P Require Import Prelude Js Number Json Prog Contracts ApiClient.

Local Open Scope string_scope.
Local Open Scope js_scope.
Local Open Scope Z_scope.

(** ** What a call addresses

    The specification of every call: the path segments of its resource, arguments as given. *)
Definition platform_resource (c : platform_call) : list string :=
  match c with
  | session => ["api"; "session"]
  | myInstances => ["api"; "my-instances"]
  | regression => ["api"; "regression"]
  | registerRegression => ["api"; "regression"; "register"]
  | startRegression _ _ _ _ => ["api"; "regression"; "runs"]
  | recoverRegressionLock _ _ => ["api"; "regression"; "recover-lock"]
  | cancelRegression id => ["api"; "regression"; "runs"; id; "cancel"]
  | licenseStatus | importLicense _ _ => ["api"; "license"]
  | inspectLicense _ => ["api"; "license"; "validate"]
  | exportLicense => ["api"; "license"; "export"]
  | createLicenseRequest _ => ["api"; "license"; "request"]
  end.

Definition federation_resource (c : federation_call) : list string :=
  match c with
  | federatedSso => ["api"; "federated-sso"]
  | validateFederation _ => ["api"; "federated-sso"; "validate"]
  | createFederation _ => ["api"; "federated-sso"; "providers"]
  | updateFederation alias _ | deleteFederation alias _ => ["api"; "federated-sso"; "providers"; alias]
  | settings | updateSettings _ => ["api"; "settings"]
  | mesh => ["api"; "mesh"]
  | meshCommand action _ => ["api"; "mesh"; mesh_action_name action]
  end.

Definition runtime_resource (c : runtime_call) : list string :=
  match c with
  | appliance => ["api"; "appliance"]
  | modules => ["api"; "modules"]
  | instances => ["api"; "instances"]
  | instanceAccess name | updateInstanceAccess name _ _ => ["api"; "instances"; name; "access"]
  | instancePrincipals _ _ _ => ["api"; "instance-principals"]
  | models => ["api"; "models"]
  | modelLogs name _ _ => ["api"; "models"; name; "logs"]
  | status => ["api"; "status"]
  | hostManagement => ["api"; "host-management"]
  | softwareReleases => ["api"; "software"; "releases"]
  | confirmHostNetwork _ => ["api"; "host-management"; "network-confirm"]
  | requestGpuValidation _ => ["api"; "hardware"; "validation"]
  | gpuSharing | configureGpuSharing _ => ["api"; "hardware"; "gpu-sharing"]
  | requestHostOperation _ => ["api"; "host-management"; "operations"]
  | enableModule name _ => ["api"; "modules"; name; "enable"]
  | disableModule name _ => ["api"; "modules"; name; "disable"]
  | moduleCredentials name => ["api"; "modules"; name; "credentials"]
  | createInstance name _ | removeInstance name => ["api"; "instances"; name]
  | instanceCredentials name => ["api"; "instances"; name; "credentials"]
  end.

Definition model_resource (c : model_call) : list string :=
  match c with
  | searchModels _ => ["api"; "model-discovery"; "search"]
  | popularModels _ => ["api"; "model-discovery"; "popular"]
  | modelArtifacts _ => ["api"; "model-discovery"; "artifacts"]
  | estimateMemory _ => ["api"; "models"; "estimate-memory"]
  | estimateModelUpdate name _ => ["api"; "models"; name; "estimate-memory"]
  | updateModel name _ | removeModel name => ["api"; "models"; name]
  | createLocalModel _ => ["api"; "models"; "local"]
  | createExternalModel _ => ["api"; "models"; "external"]
  | removeLocalRuntime => ["api"; "models"; "local-runtime"; "remove"]
  end.

Definition access_resource (c : access_call) : list string :=
  match c with
  | users _ _ _ | createUser _ => ["api"; "users"]
  | updateUser id _ | deleteUser id _ => ["api"; "users"; id]
  | updateUserRoles id _ => ["api"; "users"; id; "roles"]
  | setUserEnabled id enabled => ["api"; "users"; id; if enabled then "enable" else "disable"]
  | resetUserPassword id _ _ => ["api"; "users"; id; "password"]
  | apiAccess | createApiKey _ => ["api"; "api-access"]
  | revokeApiKey id => ["api"; "api-access"; id]
  | kubernetesAccess _ _ _ => ["api"; "kubernetes-access"]
  | updateKubernetesAccess id _ => ["api"; "kubernetes-access"; id]
  | kubeconfig id => ["api"; "kubernetes-access"; id; "kubeconfig"]
  end.

Definition resource (c : api_call) : list string :=
  match c with
  | Platform c => platform_resource c
  | Federation c => federation_resource c
  | Runtime c => runtime_resource c
  | Models c => model_resource c
  | Access c => access_resource c
  end.

(** How a server reads a path: the segments before the query, percent-decoded. *)
Fixpoint before (c : ascii) (s : string) : string :=
  match s with EmptyString => "" | String d s' => if Ascii.eqb c d then "" else String d (before c s') end.
Definition path_segments (path : string) : option (list string) :=
  match before "?" path with
  | String "/" p => mapM uri_decode (split "/" p)
  | _ => None
  end.

(** ** Lemmas *)
#[local] Arguments Ascii.eqb : simpl never.

Definition free_of (c : ascii) (s : string) : bool := sforall (fun d => negb (Ascii.eqb c d)) s.

Lemma enc_free c s : uri_safe c = false -> free_of c (enc s) = true.
Proof.
  intros Hc. eapply sforall_impl; [|apply encodeURIComponent_safe]. intros d Hd.
  destruct (Ascii.eqb_spec c d) as [->|]; [congruence | done].
Qed.

Lemma before_app c a r : free_of c a = true -> before c (a +:+ String c r) = a.
Proof.
  induction a as [|d a IH]; cbn; [by rewrite Ascii.eqb_refl|].
  intros [Hd Ha]%andb_prop. apply negb_true_iff in Hd. by rewrite Hd, IH.
Qed.

Lemma before_id c a : free_of c a = true -> before c a = a.
Proof.
  induction a as [|d a IH]; cbn; [done|]. intros [Hd Ha]%andb_prop. apply negb_true_iff in Hd. by rewrite Hd, IH.
Qed.

Lemma split_free c a : free_of c a = true -> split c a = [a].
Proof.
  induction a as [|d a IH]; cbn; [done|]. intros [Hd Ha]%andb_prop. apply negb_true_iff in Hd. by rewrite Hd, IH.
Qed.

Lemma split_app c a r : free_of c a = true -> split c (a +:+ String c r) = a :: split c r.
Proof.
  induction a as [|d a IH]; cbn; [by rewrite Ascii.eqb_refl|].
  intros [Hd Ha]%andb_prop. apply negb_true_iff in Hd. by rewrite Hd, IH.
Qed.

(** A path built from encoded segments. *)
Definition encoded_path (segments : list string) : string := String "/" (join "/" (map enc segments)).

Lemma encoded_path_no_query segments : free_of "?" (encoded_path segments) = true.
Proof.
  change (free_of "?" (join "/" (map enc segments)) = true).
  induction segments as [|s [|s' l] IH]; [done | by apply enc_free |].
  change (join "/" (map enc (s :: s' :: l))) with (enc s +:+ "/" +:+ join "/" (map enc (s' :: l))).
  unfold free_of in *. rewrite !sforall_app, IH. pose proof (enc_free "?" s eq_refl) as He.
  unfold free_of in He. by rewrite He.
Qed.

Lemma split_encoded segments : segments <> [] -> split "/" (join "/" (map enc segments)) = map enc segments.
Proof.
  induction segments as [|s [|s' l] IH]; intros Hne; [done | cbn; apply split_free, enc_free; done |].
  change (join "/" (map enc (s :: s' :: l))) with (enc s +:+ String "/" (join "/" (map enc (s' :: l)))).
  rewrite split_app, IH by (done || by apply enc_free). done.
Qed.

Lemma decode_encoded segments : mapM uri_decode (map enc segments) = Some segments.
Proof.
  apply mapM_Some_2. induction segments as [|s l IH]; cbn; constructor; [apply uri_decode_encode | done].
Qed.

Lemma encoded_segments segments : segments <> [] -> path_segments (encoded_path segments) = Some segments.
Proof.
  intros Hne. unfold path_segments. rewrite before_id by apply encoded_path_no_query. unfold encoded_path.
  by rewrite split_encoded, decode_encoded.
Qed.

Lemma encoded_query_segments segments q :
  segments <> [] -> path_segments (encoded_path segments +:+ String "?" q) = Some segments.
Proof.
  intros Hne. unfold path_segments. rewrite before_app by apply encoded_path_no_query. unfold encoded_path.
  by rewrite split_encoded, decode_encoded.
Qed.

Lemma endpoint_shape c :
  ep_path (endpoint c) = encoded_path (resource c) \/
  exists q, ep_path (endpoint c) = (encoded_path (resource c) +:+ String "?" q).
Proof.
  destruct c as [c|c|c|c|c]; destruct c;
    try (destruct action); try (destruct enabled);
    first [left; reflexivity | right; eexists; reflexivity | idtac].
  right. eexists.
  change (encoded_path _) with ("/api/models/" +:+ enc name +:+ "/logs"). rewrite !str_app_assoc. reflexivity.
Qed.

(** No argument can change the resource a call addresses. Whatever the names, ids,
    aliases and search texts given, the path of every call of the client reads back as the
    segments of its specification, each argument one segment and equal to what was given. *)
Theorem endpoint_resource c : path_segments (ep_path (endpoint c)) = Some (resource c).
Proof.
  assert (Hne : resource c <> []) by (destruct c as [c|c|c|c|c]; by destruct c).
  destruct (endpoint_shape c) as [->|[q ->]]; [by apply encoded_segments | by apply encoded_query_segments].
Qed.

(** ** What a request carries *)

(** The conditions on every request sent. *)
Definition protected (method path : string) (api : MagicStickApi) (r : FetchRequest) : Prop :=
  fr_method r = toUpperCase method /\ fr_url r = api_baseUrl api +:+ path /\
  (mutationMethod (fr_method r) = true <-> headers_get (fr_headers r) "X-MagicStick-CSRF" = Some "dashboard") /\
  headers_get (fr_headers r) "Accept" = Some "application/json" /\
  (fr_credentials r = omit <-> exists t, truthy t = true /\ headers_get (fr_headers r) "Authorization" = Some ("Bearer " +:+ t)).

Definition fetch_pre (P : FetchRequest -> Prop) X (sent : bool) (op : apiE X) : Prop :=
  match op with Fetch r => sent = false /\ P r | Access_token => sent = false end.
Definition fetch_upd X (sent : bool) (op : apiE X) (x : X) : bool :=
  match op with Fetch _ => true | Access_token => sent end.
Definition fetch_asm X (sent : bool) (op : apiE X) (x : X) : Prop := True.

Lemma headers_get_set h k v k' :
  headers_get (headers_set h k v) k' = if String.eqb (toLowerCase k) (toLowerCase k') then Some v else headers_get h k'.
Proof.
  unfold headers_get, headers_set. destruct (String.eqb_spec (toLowerCase k) (toLowerCase k')) as [->|Hne].
  - apply dict_get_set.
  - by apply dict_get_set_ne.
Qed.

(** The headers of a request without headers of its own. *)
Lemma request_headers_spec init method token :
  ri_headers init = [] ->
  let h := request_headers init method token in
  headers_get h "Accept" = Some "application/json" /\
  headers_get h "X-MagicStick-CSRF" = (if mutationMethod method then Some "dashboard" else None) /\
  headers_get h "Authorization" = (match token with Some t => if truthy t then Some ("Bearer " +:+ t) else None | None => None end).
Proof.
  intros Hi. unfold request_headers. rewrite Hi. cbv zeta.
  destruct (ri_body init) as [b|]; [destruct (truthy b && _)|]; destruct (mutationMethod method);
    destruct token as [t|]; try destruct (truthy t); rewrite ?headers_get_set; done.
Qed.

Lemma request_wp api path method body :
  wpm (fetch_pre (protected method path api)) fetch_asm fetch_upd
    (request api path {| ri_method := Some method; ri_headers := []; ri_body := body |}) tt false (fun _ _ _ => True).
Proof.
  unfold request. cbn [ri_method nullish].
  assert (Hsend : forall token,
    wpm (fetch_pre (protected method path api)) fetch_asm fetch_upd
      (let! response := await (Fetch
          {| fr_url := api_baseUrl api +:+ path; fr_method := toUpperCase method;
             fr_headers := request_headers {| ri_method := Some method; ri_headers := []; ri_body := body |}
                             (toUpperCase method) token;
             fr_body := body; fr_credentials := if has_token token then omit else same_origin |}) in
       of_res (respond response)) tt false (fun _ _ _ => True)).
  { intros token. wpm_step. wpm_step; [|by intros []].
    destruct (request_headers_spec {| ri_method := Some method; ri_headers := []; ri_body := body |}
                (toUpperCase method) token eq_refl) as (H1 & H2 & H3). cbv zeta in *.
    split; [done|]. unfold protected. cbn [fr_method fr_url fr_headers fr_credentials]. rewrite H1, H2, H3.
    split_and!; try done.
    - destruct (mutationMethod _); naive_solver.
    - unfold has_token. destruct token as [t|]; [destruct (truthy t) eqn:E|]; split; try done; try naive_solver. }
  wpm_step. unfold access_token. destruct (api_hasToken api); [|wpm_step; apply Hsend].
  wpm_step; [done|]. intros [t|e] _; [apply Hsend | done].
Qed.

(** The requests of a trace. *)
Definition fetched (e : event (E := apiE)) : list FetchRequest :=
  let 'Ev op _ := e in match op with Fetch r => [r] | Access_token => [] end.
Definition fetches (tr : list event) : list FetchRequest := flat_map fetched tr.

Lemma respects_fetches P sent tr :
  respects (fetch_pre P) fetch_upd sent tr ->
  Forall P (fetches tr) /\ (length (fetches tr) <= 1)%nat /\ (sent = true -> fetches tr = []).
Proof.
  revert sent. induction tr as [|[X op y] tr IH]; intros sent; cbn; [intros _; split_and!; [constructor | lia | done]|].
  intros [Hp Hr]. destruct (IH _ Hr) as (H1 & H2 & H3). destruct op as [|r]; cbn in *;
    change (flat_map fetched tr) with (fetches tr) in *.
  - split_and!; [done | done | intros ->; discriminate Hp].
  - destruct Hp as [-> Hp]. rewrite (H3 eq_refl). split_and!; [by constructor | cbn; lia | done].
Qed.

Lemma admissible_true (sent : bool) tr : admissible fetch_asm fetch_upd sent tr.
Proof. revert sent. induction tr as [|[X op x] tr IH]; intros sent; cbn; [done | by split]. Qed.

(** C40: how a call is sent. Under any token provider and any server, a call sends at most one
    request, to its own path with its own method; the request carries the CSRF header exactly
    when its method is not GET, HEAD or OPTIONS, and omits the browser's credentials exactly
    when it carries a bearer token. *)
Theorem call_protected api c tr q :
  steps (invoke api c tt) tr q ->
  (length (fetches tr) <= 1)%nat /\ Forall (protected (ep_method (endpoint c)) (ep_path (endpoint c)) api) (fetches tr).
Proof.
  intros Hs. pose proof (request_wp api (ep_path (endpoint c)) (ep_method (endpoint c)) (ep_body (endpoint c))) as Hw.
  destruct (wp_steps _ _ _ _ _ _ false _ Hw Hs (admissible_true false tr)) as [Hr _].
  destruct (respects_fetches _ _ _ Hr) as (H1 & H2 & _). done.
Qed.

(** An environment: a token, and one response to everything. *)
Definition serve_api (token : option string) (r : Response) (X : Type) (op : apiE X) (w : unit) : X * unit :=
  match op in apiE X return X * unit with
  | Access_token => (Ok token, w)
  | Fetch _ => (Ok r, w)
  end.
Definition demo_api : MagicStickApi := new_MagicStickApi (Some "https://magicstick.local/") true.
Definition demo_response : Response :=
  {| r_status := 409; r_statusText := "Conflict"; r_contentType := Some "text/plain"; r_json := None; r_text := Some "" |}.

Lemma call_protected_witness :
  Forall (protected "DELETE" "/api/models/a%2Fb" demo_api)
    (fetches (trace (serve_api (Some "t") demo_response) (invoke demo_api (Models (removeModel "a/b")) tt) tt)).
Proof. eapply (call_protected demo_api (Models (removeModel "a/b"))). apply exec_steps. Defined.

(** What a call returns. A success status gives the body as it was received; any other
    one throws an ApiError with that status and body, whose message is never empty; the
    rejections of the token provider and of fetch are passed on. *)
Theorem call_outcome api c token response :
  let run fetched := (exec (fun X (op : apiE X) (w : unit) =>
      match op in apiE X return X * unit with Access_token => (token, w) | Fetch _ => (fetched, w) end)
      (invoke api c tt) tt).1.2 in
  (forall e, api_hasToken api = true -> token = Err e -> run response = Err e) /\
  (api_hasToken api = false \/ is_ok token = true ->
   match response with
   | Err e => run response = Err e
   | Ok r =>
       if response_ok r then run response = Ok (response_body r)
       else exists e, run response = Err (Api e) /\ ae_status e = r_status r /\ ae_details e = response_body r /\
                      truthy (ae_message e) = true
   end).
Proof.
  intros run. unfold run, invoke, request, access_token. split.
  - intros e Ht ->. rewrite Ht. reflexivity.
  - intros Ht.
    assert (Hrun : forall f, run f = match f with Ok r => respond r | Err e => Err e end).
    { intros f. unfold run, invoke, request, access_token.
      destruct (api_hasToken api); [|by destruct f]. destruct Ht as [|Ht]; [done|].
      destruct token as [t|e]; [|done]. by destruct f. }
    unfold run, invoke, request, access_token in Hrun. rewrite Hrun. destruct response as [r|e]; [|done].
    unfold respond. destruct (response_ok r); [done|]. eexists. split; [done|]. split; [done|]. split; [done|].
    cbn [ae_message]. unfold sor. by destruct (truthy (error_message _ _)) eqn:E.
Qed.

Lemma call_outcome_witness :
  exists e, (exec (serve_api None demo_response) (invoke demo_api (Access apiAccess) tt) tt).1.2 = Err (Api e) /\ ae_status e = 409.
Proof.
  destruct (call_outcome demo_api (Access apiAccess) (Ok None) (Ok demo_response)) as [_ H].
  destruct (H (or_intror eq_refl)) as (e & He & Hs & _). exists e. split; [exact He | exact Hs].
Defined.
