(* ===== verification/Cli.v ===== *)
(** * Command line of the CLI: arguments and tables (apps/cli/src/args.ts, output.ts)

    A character outside Latin-1 that the source uses as a constant is represented by an
    unused C1 control code, so lengths agree: [hrule] is U+2500 and [ellipsis] U+2026. An
    option name is looked up in an object literal; the names such an object inherits
    ([constructor], [toString], ...) are outside the model. *)

From S2P Require Import Prelude Js Number Json.

Local Open Scope string_scope.
Local Open Scope js_scope.
Local Open Scope Z_scope.

(** ** Arguments *)
Inductive OptionValue : Type :=
| O_flag (b : bool)
| O_text (s : string)
| O_list (l : list string).

Record ParsedArguments : Type := {
  pa_positionals : list string;
  pa_options : dict OptionValue
}.

Definition booleanOptions : list string :=
  ["help"; "version"; "json"; "no-color"; "no-open"; "password-stdin"; "permanent"; "insecure"; "demo"; "yes";
   "allow-experimental"].

Definition aliases : dict string := [("h", "help"); ("V", "version"); ("o", "output")].

Definition unalias (key : string) : string := dict_get aliases key ?? key.

(** [String(value)] of an option given once. *)
Definition option_text (v : OptionValue) : string :=
  match v with O_flag b => if b then "true" else "false" | O_text s => s | O_list l => join "," l end.

Definition addOption (options : dict OptionValue) (key : string) (value : OptionValue) : dict OptionValue :=
  let normalized := unalias key in
  match dict_get options normalized with
  | None => dict_set options normalized value
  | Some (O_list l) => dict_set options normalized (O_list (l ++ [option_text value]))
  | Some current => dict_set options normalized (O_list [option_text current; option_text value])
  end.

Definition add_positional (p : ParsedArguments) (v : list string) : ParsedArguments :=
  {| pa_positionals := (pa_positionals p ++ v)%list; pa_options := pa_options p |}.
Definition add_option (p : ParsedArguments) (key : string) (v : OptionValue) : ParsedArguments :=
  {| pa_positionals := pa_positionals p; pa_options := addOption (pa_options p) key v |}.

(** [value.replace(/^--?/, '')] *)
Definition strip_dashes (value : string) : string :=
  if startsWith "--" value then drop_str 2 value else if startsWith "-" value then drop_str 1 value else value.

Definition is_positional (value : string) : bool := negb (startsWith "-" value) || String.eqb value "-".

(** The loop over the arguments; an option may consume the next one. *)
Fixpoint parse_from (parsed : ParsedArguments) (argv : list string) : ParsedArguments :=
  match argv with
  | [] => parsed
  | value :: rest =>
      if String.eqb value "--" then add_positional parsed rest
      else if is_positional value then parse_from (add_positional parsed [value]) rest
      else
        let raw := strip_dashes value in
        match indexOf "=" raw with
        | Some separator =>
            parse_from (add_option parsed (take_str separator raw) (O_text (drop_str (S separator) raw))) rest
        | None =>
            let key := unalias raw in
            if includes booleanOptions key then parse_from (add_option parsed key (O_flag true)) rest
            else
              match rest with
              | next :: rest' =>
                  if is_positional next then parse_from (add_option parsed key (O_text next)) rest'
                  else parse_from (add_option parsed key (O_flag true)) rest
              | [] => parse_from (add_option parsed key (O_flag true)) rest
              end
        end
  end.

Definition parseArguments (argv : list string) : ParsedArguments :=
  parse_from {| pa_positionals := []; pa_options := [] |} argv.

(** The last value of an option. *)
Definition option_ (parsed : ParsedArguments) (name : string) : option OptionValue :=
  match dict_get (pa_options parsed) name with
  | Some (O_list l) => O_text <$> last l
  | o => o
  end.

Definition optionValues (parsed : ParsedArguments) (name : string) : list string :=
  match dict_get (pa_options parsed) name with
  | None | Some (O_flag false) => []
  | Some (O_list l) => l
  | Some v => [option_text v]
  end.

(** ** Output *)
Definition hrule : ascii := unit_of 144.
Definition ellipsis : ascii := unit_of 133.
Definition ESC : ascii := unit_of 27.

(** The rest after an SGR sequence [\x1b\[[0-9;]*m] at the start. *)
Definition sgr (s : string) : option string :=
  match s with
  | String e (String "[" r) =>
      if Ascii.eqb e ESC then
        match drop_while (fun c => is_digit c || Ascii.eqb c ";") r with
        | String "m" r' => Some r'
        | _ => None
        end
      else None
  | _ => None
  end.

(** A line as the tokens of [/\x1b\[[0-9;]*m|[^\x1b]/gu]: an escape sequence or one character;
    an escape that starts no sequence is skipped. *)
Inductive Token : Type := T_sgr (s : string) | T_char (c : ascii).

Fixpoint tokens (fuel : nat) (s : string) : list Token :=
  match fuel with
  | O => []
  | S f =>
      match s with
      | EmptyString => []
      | String c r =>
          match sgr s with
          | Some r' => T_sgr (take_str (String.length s - String.length r') s) :: tokens f r'
          | None => if Ascii.eqb c ESC then tokens f r else T_char c :: tokens f r
          end
      end
  end.
Definition line_tokens (s : string) : list Token := tokens (String.length s) s.

(** [value.replace(/\x1b\[[0-9;]*m/g, '')]: an escape that starts no sequence stays. *)
Fixpoint strip_sgr (fuel : nat) (s : string) : string :=
  match fuel with
  | O => s
  | S f =>
      match s with
      | EmptyString => EmptyString
      | String c r => match sgr s with Some r' => strip_sgr f r' | None => String c (strip_sgr f r) end
      end
  end.
Definition visibleLength (value : string) : nat := String.length (strip_sgr (String.length value) value).

Definition token_text (t : Token) : string := match t with T_sgr s => s | T_char c => String c "" end.

(** The filter with its counter of remaining columns. *)
Fixpoint clip (remaining : nat) (l : list Token) : string :=
  match l with
  | [] => ""
  | T_sgr s :: l' => s +:+ clip remaining l'
  | T_char c :: l' => match remaining with O => clip O l' | S n => String c (clip n l') end
  end.

Definition clipTerminalLine (value : string) (columns : Z) : string :=
  clip (Z.to_nat (Z.max 0 columns)) (line_tokens value).

Definition max_list (n : nat) (l : list nat) : nat := foldl Nat.max n l.

Definition cell_at (row : list string) (column : nat) : string := (row !! column) ?? "".

Definition widths (headers : list string) (rows : list (list string)) : list nat :=
  imap (fun column header => max_list (visibleLength header)
          (map (fun row => visibleLength (cell_at row column)) rows)) headers.

Definition render_row (ws : list nat) (row : list string) : string :=
  trimEnd (join "  " (imap (fun column value => padEnd ((ws !! column) ?? 0%nat) value) row)).

(** Cells are already text: [String(value ?? '')]. *)
Definition table (headers : list string) (rows : list (list string)) : string :=
  let ws := widths headers rows in
  join (String (unit_of 10) "")
    (render_row ws headers :: render_row ws (map (fun w => repeat_str w (String hrule "")) ws) :: map (render_row ws) rows).

Definition stringify_pretty (value : json) : string := stringify "  " "" value +:+ String (unit_of 10) "".

(** [String(value ?? '').replace(/\s+/g, ' ').trim()], cut to [maximum] characters. *)
Definition truncate (value : option string) (maximum : nat) : string :=
  let text := trim (replace_runs is_space " " false (value ?? "")) in
  if (String.length text <=? maximum)%nat then text
  else take_str (maximum - 1) text +:+ String ellipsis "".

Definition phase (value : option string) : string := sor (value ?? "") "Unknown".
