(* ===== verification/CliProps.v ===== *)
(** * Command line: its properties (apps/cli/src/args.ts, output.ts) *)

From S2P Require Import Prelude Js Number Json Cli.

Local Open Scope string_scope.
Local Open Scope js_scope.
Local Open Scope Z_scope.

#[local] Arguments Ascii.eqb : simpl never.

(** ** Written arguments and what they mean *)

(** An argument as a user writes it: a positional, a switch, [--key=value] or [--key value];
    [short] writes one dash. *)
Inductive Argument : Type :=
| A_positional (s : string)
| A_switch (short : bool) (key : string)
| A_equals (short : bool) (key value : string)
| A_value (short : bool) (key value : string).

Definition dashes (short : bool) : string := if short then "-" else "--".

Definition written (a : Argument) : list string :=
  match a with
  | A_positional s => [s]
  | A_switch short k => [dashes short +:+ k]
  | A_equals short k v => [dashes short +:+ k +:+ "=" +:+ v]
  | A_value short k v => [dashes short +:+ k; v]
  end.

Definition no_equals (k : string) : bool := sforall (fun c => negb (Ascii.eqb "=" c)) k.

(** The argument can be written: its key is one, and reads as the option it names. *)
Definition writable (a : Argument) : bool :=
  match a with
  | A_positional s => is_positional s
  | A_switch short k => no_equals k && negb (startsWith "-" k) && includes booleanOptions (unalias k)
  | A_equals short k v => no_equals k && negb (short && startsWith "-" k)
  | A_value short k v =>
      no_equals k && negb (startsWith "-" k) && truthy k && negb (includes booleanOptions (unalias k)) && is_positional v
  end.

Definition arg_positional (a : Argument) : list string := match a with A_positional s => [s] | _ => [] end.
Definition arg_option (a : Argument) : option (string * OptionValue) :=
  match a with
  | A_positional _ => None
  | A_switch _ k => Some (unalias k, O_flag true)
  | A_equals _ k v | A_value _ k v => Some (unalias k, O_text v)
  end.

Definition meaning (l : list Argument) (rest : list string) : ParsedArguments :=
  {| pa_positionals := (flat_map arg_positional l ++ rest)%list;
     pa_options := foldl (fun d kv => addOption d kv.1 kv.2) [] (omap arg_option l) |}.

(** ** Lemmas *)
Lemma unalias_idemp k : unalias (unalias k) = unalias k.
Proof.
  unfold unalias. destruct (dict_get aliases k) as [x|] eqn:E; cbn [nullish]; [|by rewrite E].
  unfold aliases in E. cbn [dict_get] in E.
  destruct (String.eqb "h" k); [injection E as <-; reflexivity|].
  destruct (String.eqb "V" k); [injection E as <-; reflexivity|].
  destruct (String.eqb "o" k); [injection E as <-; reflexivity | discriminate E].
Qed.

Lemma addOption_unalias d k v : addOption d (unalias k) v = addOption d k v.
Proof. unfold addOption. by rewrite unalias_idemp. Qed.

Lemma indexOf_none k : no_equals k = true -> indexOf "=" k = None.
Proof. induction k as [|c k IH]; cbn; [done|]. intros [H1 H2]%andb_prop. apply negb_true_iff in H1. by rewrite H1, IH. Qed.

Lemma indexOf_some k v : no_equals k = true -> indexOf "=" (k +:+ String "=" v) = Some (String.length k).
Proof.
  induction k as [|c k IH]; cbn; [by rewrite Ascii.eqb_refl|].
  intros [H1 H2]%andb_prop. apply negb_true_iff in H1. by rewrite H1, IH.
Qed.

Lemma take_drop_app k v :
  take_str (String.length k) (k +:+ String "=" v) = k /\ drop_str (S (String.length k)) (k +:+ String "=" v) = v.
Proof. induction k as [|c k [IH1 IH2]]; cbn in *; [done | by rewrite IH1]. Qed.

Lemma dashes_not_positional short k :
  truthy k = true -> is_positional (dashes short +:+ k) = false /\ (negb (startsWith "-" k) = true \/ short = false ->
    String.eqb (dashes short +:+ k) "--" = false).
Proof.
  intros Hk. destruct k as [|c k]; [done|]. destruct short; cbn; split; try done; intros [H|H]; try done.
  cbn in H. rewrite andb_true_r in H. apply negb_true_iff in H.
  destruct (Ascii.eqb_spec c "-") as [->|]; [by rewrite Ascii.eqb_refl in H | done].
Qed.

Lemma strip_dashes_spec short k :
  negb (short && startsWith "-" k) = true -> strip_dashes (dashes short +:+ k) = k.
Proof.
  destruct short; cbn; [|done]. unfold strip_dashes. intros H. apply negb_true_iff in H. cbn.
  by rewrite Ascii.eqb_refl, H.
Qed.

(** One written argument at the head of a command line. *)
Lemma parse_written a p argv :
  writable a = true ->
  parse_from p (written a ++ argv) =
  parse_from {| pa_positionals := (pa_positionals p ++ arg_positional a)%list;
                pa_options := match arg_option a with Some (k, v) => addOption (pa_options p) k v | None => pa_options p end |} argv.
Proof.
  destruct a as [s|short k|short k v|short k v]; cbn [writable written arg_positional arg_option app]; intros Hw.
  - cbn [parse_from]. destruct (String.eqb_spec s "--") as [->|]; [done|]. by rewrite Hw.
  - rewrite !andb_true_iff in Hw. destruct Hw as [[Hn Hd] Hb].
    assert (Ht : truthy k = true) by (by destruct k).
    destruct (dashes_not_positional short k Ht) as [Hp He]. cbn [parse_from].
    rewrite (He (or_introl Hd)), Hp, strip_dashes_spec by (apply negb_true_iff in Hd; by rewrite Hd, andb_false_r).
    rewrite indexOf_none, Hb by done. unfold add_option. by rewrite app_nil_r.
  - rewrite !andb_true_iff in Hw. destruct Hw as [Hn Hd].
    assert (Ht : truthy (k +:+ "=" +:+ v) = true) by (by destruct k).
    destruct (dashes_not_positional short _ Ht) as [Hp He]. cbn [parse_from].
    assert (Hs : negb (short && startsWith "-" (k +:+ "=" +:+ v)) = true) by (by destruct short, k).
    rewrite He, Hp, strip_dashes_spec by (done || (destruct short; [left; by apply Hs | by right])).
    change ("=" +:+ v) with (String "=" v). rewrite indexOf_some by done.
    destruct (take_drop_app k v) as [-> ->]. unfold add_option. by rewrite app_nil_r, addOption_unalias.
  - rewrite !andb_true_iff in Hw. destruct Hw as [[[[Hn Hd] Ht] Hb] Hv].
    destruct (dashes_not_positional short k Ht) as [Hp He]. cbn [parse_from].
    rewrite (He (or_introl Hd)), Hp, strip_dashes_spec by (apply negb_true_iff in Hd; by rewrite Hd, andb_false_r).
    apply negb_true_iff in Hb. rewrite indexOf_none, Hb, Hv by done. unfold add_option. by rewrite app_nil_r.
Qed.

Lemma parse_all l p argv :
  forallb writable l = true ->
  parse_from p (flat_map written l ++ argv) =
  parse_from {| pa_positionals := (pa_positionals p ++ flat_map arg_positional l)%list;
                pa_options := foldl (fun d kv => addOption d kv.1 kv.2) (pa_options p) (omap arg_option l) |} argv.
Proof.
  revert p. induction l as [|a l IH]; intros p Hl.
  - cbn. rewrite app_nil_r. by destruct p.
  - cbn [forallb] in Hl. apply andb_prop in Hl as [Ha Hl]. cbn [flat_map]. rewrite <- app_assoc, parse_written by done.
    rewrite IH by done. cbn [pa_positionals pa_options]. rewrite <- app_assoc. f_equal.
    cbn [omap list_omap]. by destruct (arg_option a) as [[k v]|].
Qed.

(** The values an option was given, in order. *)
Definition given (name : string) (l : list Argument) : list OptionValue :=
  snd <$> filter (fun kv => kv.1 = name) (omap arg_option l).

(** What is stored for a sequence of values. *)
Definition stored_values (vs : list OptionValue) : option OptionValue :=
  match vs with [] => None | [v] => Some v | _ => Some (O_list (map option_text vs)) end.

Definition single (v : OptionValue) : Prop := match v with O_list _ => False | _ => True end.

Lemma stored_snoc vs v : Forall single vs -> stored_values (vs ++ [v]) =
  match stored_values vs with
  | None => Some v
  | Some (O_list l) => Some (O_list (l ++ [option_text v]))
  | Some w => Some (O_list [option_text w; option_text v])
  end.
Proof.
  destruct vs as [|x [|y vs]]; cbn; [done | |]; intros H.
  - inversion_clear H as [|? ? Hx _]. destruct x; try done; contradiction.
  - by rewrite map_app.
Qed.

Lemma unaliased_option a k v : arg_option a = Some (k, v) -> unalias k = k /\ single v.
Proof. destruct a; cbn; intros [= <- <-]; split; (apply unalias_idemp || done). Qed.

Lemma stored_options name l :
  dict_get (foldl (fun d kv => addOption d kv.1 kv.2) [] (omap arg_option l)) name = stored_values (given name l).
Proof.
  unfold given. assert (Hl : Forall (fun kv => unalias kv.1 = kv.1 /\ single kv.2) (omap arg_option l)).
  { apply Forall_forall. intros [k v] (a & _ & Ha)%list_elem_of_omap. by apply (unaliased_option a). }
  revert Hl. generalize (omap arg_option l) as kvs. clear l.
  induction kvs as [|[k v] kvs IH] using rev_ind; intros Hl; [done|].
  apply Forall_app in Hl as [Hl Hkv]. apply Forall_singleton in Hkv as [Hk Hv]. specialize (IH Hl).
  cbn [fst snd] in Hk, Hv.
  rewrite foldl_app, filter_app. cbn [foldl fst snd]. unfold addOption. rewrite Hk. cbn [fst].
  assert (Hs : Forall single (snd <$> filter (fun kv => kv.1 = name) kvs)).
  { apply Forall_forall. intros w (kv & -> & [_ Hin]%list_elem_of_filter)%list_elem_of_fmap.
    rewrite Forall_forall in Hl. by apply (Hl kv). }
  destruct (decide (k = name)) as [->|Hne].
  - rewrite filter_cons_True, fmap_app by done. cbn [fmap list_fmap filter list_filter snd]. rewrite stored_snoc by done.
    rewrite <- IH. destruct (dict_get _ name) as [[]|]; by rewrite dict_get_set.
  - rewrite filter_cons_False by done. cbn [filter list_filter]. rewrite app_nil_r, <- IH.
    destruct (dict_get _ k) as [[]|]; by rewrite dict_get_set_ne.
Qed.

(** Reading a command line back. However positionals, switches, [--key=value] and
    [--key value] are mixed, with one dash or two, and whatever follows a bare [--], the
    parser returns exactly the positionals in order followed by that rest, and for every
    option the values it was given: all of them in order ([optionValues]), the last of them
    ([option_]). *)
Theorem parseArguments_roundtrip l rest :
  forallb writable l = true ->
  parseArguments (flat_map written l) = meaning l [] /\
  parseArguments (flat_map written l ++ "--" :: rest) = meaning l rest /\
  forall name,
    optionValues (meaning l rest) name = map option_text (given name l) /\
    option_text <$> option_ (meaning l rest) name = option_text <$> last (given name l).
Proof.
  intros Hl. split; [|split].
  - unfold parseArguments. rewrite <- (app_nil_r (flat_map written l)), parse_all by done. unfold meaning. cbn. by rewrite app_nil_r.
  - unfold parseArguments. by rewrite parse_all.
  - intros name. unfold optionValues, option_, meaning. cbn [pa_options]. rewrite stored_options.
    assert (Hs : Forall (fun v => v <> O_flag false /\ single v) (given name l)).
    { apply Forall_forall. intros v ([k w] & -> & [_ Hin]%list_elem_of_filter)%list_elem_of_fmap.
      apply list_elem_of_omap in Hin as (a & _ & Ha). destruct a; cbn [arg_option] in Ha; [discriminate|..]; injection Ha as _ <-; (split; [discriminate | exact I]). }
    destruct (given name l) as [|v [|w vs]]; [done| |].
    + apply Forall_singleton in Hs as [H1 H2]. by destruct v as [[]| |].
    + split; [done|]. cbn [stored_values]. 
      change (map option_text (v :: w :: vs)) with (option_text <$> (v :: w :: vs)).
      rewrite !fmap_last. by destruct (last (v :: w :: vs)).
Qed.

Lemma parseArguments_roundtrip_witness :
  parseArguments ["model"; "--provider=ollama"; "-o"; "out"; "--json"; "--"; "-x"] =
  meaning [A_positional "model"; A_equals false "provider" "ollama"; A_value true "o" "out"; A_switch false "json"] ["-x"].
Proof.
  apply (parseArguments_roundtrip
    [A_positional "model"; A_equals false "provider" "ollama"; A_value true "o" "out"; A_switch false "json"] ["-x"]).
  vm_compute. reflexivity.
Defined.
