(* ===== verification/CliAuth.v ===== *)
(** * CLI sessions (apps/cli/src/config.ts, auth.ts, runtime.ts)

    The OIDC device login, the refresh of a saved session, and the runtime that hands access
    tokens to the API client. Bodies are the optional fields the code reads (a body that is
    not JSON reads as an empty object); times in seconds are integers, as RFC 8628 has them. *)

From S2P Require Import Prelude Js Number Json Prog.

Local Open Scope string_scope.
Local Open Scope js_scope.
Local Open Scope Z_scope.

(** ** Data *)
Record CliConfig : Type := {
  cfg_apiUrl : option string;
  cfg_issuer : option string;
  cfg_clientId : option string;
  cfg_caFile : option string
}.

Record StoredSession : Type := {
  ss_accessToken : string;
  ss_refreshToken : option string;
  ss_idToken : option string;
  ss_expiresAt : Z
}.

(** The fields of every OIDC body: metadata, device authorization, tokens and errors. *)
Record OidcBody : Type := {
  ob_device_authorization_endpoint : option string;
  ob_token_endpoint : option string;
  ob_device_code : option string;
  ob_user_code : option string;
  ob_verification_uri : option string;
  ob_verification_uri_complete : option string;
  ob_expires_in : option Z;
  ob_interval : option Z;
  ob_access_token : option string;
  ob_refresh_token : option string;
  ob_id_token : option string;
  ob_error : option string;
  ob_error_description : option string
}.

Record OidcResponse : Type := { or_status : Z; or_body : OidcBody }.
Definition or_ok (r : OidcResponse) : bool := (200 <=? or_status r) && (or_status r <=? 299).

(** A thrown error as [certificateHint] sees it: its message, and the messages and codes of
    its chain of causes, itself first. *)
Record ErrorChain : Type := { ec_message : string; ec_details : list (string * string) }.

(** An error raised with a message only. *)
Definition plain_error (message : string) : ErrorChain := {| ec_message := message; ec_details := [(message, "")] |}.

(** ** Effects; every reply of a wait or request carries the clock of its delivery. *)
Inductive authE : Type -> Type :=
| Oidc_get (url : string) : authE (Z * res ErrorChain OidcResponse)
| Oidc_post (url : string) (values : list (string * string)) : authE (Z * res ErrorChain OidcResponse)
| Sleep (milliseconds : Z) : authE Z
| Prompt (verificationUri userCode : string) (completeUri : option string) : authE unit
| Open_external (url : string) : authE unit
| Write_session (s : StoredSession) : authE (res ErrorChain unit)
| Clear_session : authE (res ErrorChain unit)
| Write_config (c : CliConfig) : authE (res ErrorChain unit).

(** The runtime's variable [cached], and the clock. *)
Record RuntimeState : Type := { rs_cached : option StoredSession; rs_clock : Z }.
Definition set_cached (c : option StoredSession) (s : RuntimeState) : RuntimeState :=
  {| rs_cached := c; rs_clock := rs_clock s |}.
Definition at_clock (t : Z) (s : RuntimeState) : RuntimeState := {| rs_cached := rs_cached s; rs_clock := t |}.

Definition UM := M authE RuntimeState ErrorChain.

(** [throw new Error(message)]. *)
Definition fail {A} (message : string) : UM A := throw (plain_error message).

Definition fetched_at (op : authE (Z * res ErrorChain OidcResponse)) : UM OidcResponse := fun s =>
  Await op (fun r => Done (at_clock r.1 s, r.2)).
Definition wait (milliseconds : Z) : UM unit := fun s => Await (Sleep milliseconds) (fun t => Done (at_clock t s, Ok tt)).

(** ** auth.ts *)

(** [a || b || c] on optional strings. *)
Definition or_text (a b : option string) (c : string) : string := sor (a ?? "") (sor (b ?? "") c).

Definition oauth_message (body : OidcBody) (fallback : string) : string :=
  or_text (ob_error_description body) (ob_error body) fallback.

Definition jsonResponse (r : OidcResponse) : res ErrorChain OidcBody :=
  if or_ok r then Ok (or_body r)
  else Err (plain_error (oauth_message (or_body r) ("OIDC request failed with HTTP " +:+ String_of_Z (or_status r)))).

Definition discoverOidc (issuer : string) : UM OidcBody :=
  let! r := fetched_at (Oidc_get (strip_last "/" issuer +:+ "/.well-known/openid-configuration")) in
  of_res (jsonResponse r).

Definition storedSession (now : Z) (tokens : OidcBody) : StoredSession :=
  {| ss_accessToken := ob_access_token tokens ?? ""; ss_refreshToken := ob_refresh_token tokens;
     ss_idToken := ob_id_token tokens; ss_expiresAt := now + Z.max 30 (ob_expires_in tokens ?? 300) * 1000 |}.

(** [String(undefined)] where a URL is missing. *)
Definition url_of (o : option string) : string := o ?? "undefined".

(** The polling loop: its condition, then one wait and one token request per turn. The fuel
    bounds the turns; [None] means it ran out. *)
Fixpoint poll (fuel : nat) (tokenEndpoint deviceCode clientId : string) (deadline : option Z) (interval : Z)
    : UM (option StoredSession) :=
  match fuel with
  | O => mret None
  | S f =>
      let! s := get in
      if match deadline with Some d => rs_clock s <? d | None => false end then
        wait (interval * 1000) ;;
        let! r := fetched_at (Oidc_post tokenEndpoint
          [("grant_type", "urn:ietf:params:oauth:grant-type:device_code"); ("device_code", deviceCode);
           ("client_id", clientId)]) in
        let body := or_body r in
        let! s := get in
        if or_ok r && truthy (ob_access_token body ?? "") then mret (Some (storedSession (rs_clock s) body))
        else if bool_decide (ob_error body = Some "authorization_pending")
        then poll f tokenEndpoint deviceCode clientId deadline interval
        else if bool_decide (ob_error body = Some "slow_down")
        then poll f tokenEndpoint deviceCode clientId deadline (interval + 5)
        else fail (oauth_message body ("OIDC token request failed with HTTP " +:+ String_of_Z (or_status r)))
      else fail "The device login expired before it was completed. Run login again."
  end.

(** Enough turns for a login that expires in [seconds]: each turn waits at least a second. *)
Definition poll_fuel (seconds : option Z) : nat := S (Z.to_nat (seconds ?? 0)).

Definition loginWithDeviceFlow (issuer clientId : string) (openBrowser : bool) : UM (option StoredSession) :=
  let! metadata := discoverOidc issuer in
  match ob_device_authorization_endpoint metadata with
  | None => fail "The identity provider does not advertise a device authorization endpoint."
  | Some endpoint =>
      if negb (truthy endpoint) then fail "The identity provider does not advertise a device authorization endpoint."
      else
        let! r := fetched_at (Oidc_post endpoint [("client_id", clientId); ("scope", "openid profile email")]) in
        let! device := of_res (jsonResponse r) in
        await_ (Prompt (ob_verification_uri device ?? "undefined") (ob_user_code device ?? "undefined")
                  (ob_verification_uri_complete device)) ;;
        when openBrowser
          (await_ (Open_external (ob_verification_uri_complete device ?? (ob_verification_uri device ?? "undefined")))) ;;
        let! s := get in
        poll (poll_fuel (ob_expires_in device)) (url_of (ob_token_endpoint metadata))
          (ob_device_code device ?? "undefined") clientId
          ((fun e => rs_clock s + e * 1000) <$> ob_expires_in device)
          (Z.max 1 (ob_interval device ?? 5))
  end.

Definition refreshSession (issuer clientId : string) (session : StoredSession) : UM StoredSession :=
  match ss_refreshToken session with
  | None => fail "The saved login has expired. Run `magicstick login` again."
  | Some refresh =>
      if negb (truthy refresh) then fail "The saved login has expired. Run `magicstick login` again."
      else
        let! metadata := discoverOidc issuer in
        let! r := fetched_at (Oidc_post (url_of (ob_token_endpoint metadata))
          [("grant_type", "refresh_token"); ("refresh_token", refresh); ("client_id", clientId)]) in
        let! tokens := of_res (jsonResponse r) in
        let! s := get in
        let stored := storedSession (rs_clock s) tokens in
        mret {| ss_accessToken := ss_accessToken stored;
                ss_refreshToken := ob_refresh_token tokens ??? Some refresh;
                ss_idToken := ss_idToken stored; ss_expiresAt := ss_expiresAt stored |}
  end.

Definition ca_option_named (message : string) : bool :=
  includesStr "--ca-file" message || includesStr "MAGICSTICK_CA_FILE" message || includesStr "NODE_EXTRA_CA_CERTS" message.

(** [/certificate|self[- ]signed|unable to verify|UNABLE_TO_VERIFY_LEAF_SIGNATURE|CERT_/i] *)
Definition tls_failure (details : string) : bool :=
  let d := toLowerCase details in
  existsb (fun p => includesStr p d)
    ["certificate"; "self-signed"; "self signed"; "unable to verify"; "unable_to_verify_leaf_signature"; "cert_"].

Definition ca_hint : string :=
  "The appliance CA is not trusted by Node.js. Trust it in the operating system, use --ca-file /path/to/magicstick-oidc-ca.crt, set MAGICSTICK_CA_FILE, or set NODE_EXTRA_CA_CERTS.".

Definition certificateHint (e : ErrorChain) : string :=
  let message := ec_message e in
  if ca_option_named message then message
  else
    let details := join " " (map (fun mc => mc.1 +:+ " " +:+ mc.2) (take 6 (ec_details e))) in
    if tls_failure details then message +:+ String (unit_of 10) ca_hint else message.

(** ** config.ts *)

(** The parts of a URL the code reads. *)
Class UrlParts : Type := url_parts : string -> option (string * string * string).   (* protocol, hostname, port *)

Definition deriveIssuer `{UrlParts} (apiUrl : string) : res string string :=
  match url_parts apiUrl with
  | None => Err "Invalid URL"
  | Some (protocol, hostname, port) =>
      let hostname := strip_prefix "api." hostname in
      let port := if truthy port then ":" +:+ port else "" in
      Ok (protocol +:+ "//id." +:+ hostname +:+ port +:+ "/realms/magicstick")
  end.

(** ** runtime.ts *)
Record RuntimeOptions : Type := {
  ro_apiUrl : option string;
  ro_issuer : option string;
  ro_clientId : option string;
  ro_caFile : option string;
  ro_accessToken : option string;
  ro_oidcNetworkUrl : option string
}.

(** The environment variables the runtime reads. *)
Record CliEnvironment : Type := {
  env_API_URL : option string;
  env_ISSUER : option string;
  env_CLIENT_ID : option string;
  env_CA_FILE : option string;
  env_ACCESS_TOKEN : option string;
  env_OIDC_NETWORK_URL : option string
}.

Record ResolvedCliConfig : Type := {
  rc_apiUrl : string;
  rc_issuer : string;
  rc_clientId : string;
  rc_caFile : option string
}.

Definition defaults `{UrlParts} (env : CliEnvironment) (options : RuntimeOptions) (saved : option CliConfig)
    : res string ResolvedCliConfig :=
  let apiUrl := strip_last "/" ((ro_apiUrl options ??? env_API_URL env ??? (saved ≫= cfg_apiUrl))
                                  ?? "https://api.magicstick.local") in
  let? issuer := match ro_issuer options ??? env_ISSUER env ??? (saved ≫= cfg_issuer) with
                 | Some i => Ok i
                 | None => deriveIssuer apiUrl
                 end in
  Ok {| rc_apiUrl := apiUrl; rc_issuer := strip_last "/" issuer;
        rc_clientId := (ro_clientId options ??? env_CLIENT_ID env ??? (saved ≫= cfg_clientId)) ?? "magicstick-cli";
        rc_caFile := ro_caFile options ??? env_CA_FILE env ??? (saved ≫= cfg_caFile) |}.

(** The URL a request of the OIDC client is sent to. *)
Definition createOidcNetworkFetch (issuer : string) (networkUrl : option string) (requestedUrl : string) : string :=
  let normalizedIssuer := strip_last "/" issuer in
  match strip_last "/" <$> networkUrl with
  | None => requestedUrl
  | Some network =>
      if negb (truthy network) then requestedUrl
      else if String.eqb requestedUrl normalizedIssuer || startsWith (normalizedIssuer +:+ "/") requestedUrl
      then network +:+ drop_str (String.length normalizedIssuer) requestedUrl
      else requestedUrl
  end.

Section runtime.
Context (settings : ResolvedCliConfig) (environmentToken : option string).

(** The error of a failed login or refresh, rethrown with the certificate hint. *)
Definition rethrown (e : ErrorChain) : ErrorChain :=
  let message := certificateHint e in {| ec_message := message; ec_details := (message, "") :: ec_details e |}.
Definition hinted {A} (m : UM A) : UM A := try_catch m (fun e => throw (rethrown e)).

Definition accessToken : UM string :=
  if truthy (environmentToken ?? "") then mret (environmentToken ?? "")
  else
    let! s := get in
    match rs_cached s with
    | None => fail "Not signed in. Run `magicstick login` first."
    | Some c =>
        if rs_clock s + 30000 <? ss_expiresAt c then mret (ss_accessToken c)
        else hinted (
          let! n := refreshSession (rc_issuer settings) (rc_clientId settings) c in
          modify (set_cached (Some n)) ;;
          await (Write_session n) ;;
          mret (ss_accessToken n))
    end.

Definition saved_config : CliConfig :=
  {| cfg_apiUrl := Some (rc_apiUrl settings); cfg_issuer := Some (rc_issuer settings);
     cfg_clientId := Some (rc_clientId settings); cfg_caFile := rc_caFile settings |}.

(** [None] only if the polling fuel runs out. *)
Definition login (openBrowser : bool) : UM (option unit) :=
  await (Write_config saved_config) ;;
  hinted (
    let! session := loginWithDeviceFlow (rc_issuer settings) (rc_clientId settings) openBrowser in
    match session with
    | None => mret None
    | Some n => modify (set_cached (Some n)) ;; await (Write_session n) ;; mret (Some tt)
    end).

Definition logout : UM unit := modify (set_cached None) ;; await Clear_session.
End runtime.
