(* ===== verification/CliAuthProps.v ===== *)
(** * Sign-in and session refresh of the CLI

    Under any identity provider and a clock that never runs backwards, a device login ends
    within its lifetime, and the access token of a request is the configured one, a cached
    one that outlives the request, or one whose session was refreshed and saved. *)

From S2P Require Import Prelude Js Number Json Prog CliAuth.

Local Open Scope string_scope.
Local Open Scope js_scope.
Local Open Scope Z_scope.

(** ** The environment

    The ghost state is the clock, the sessions written and the number of requests. *)
Record Ghost : Type := { gh_clock : Z; gh_written : list StoredSession; gh_posts : list (list (string * string)) }.

Definition auth_upd X (g : Ghost) (op : authE X) : X -> Ghost :=
  match op in authE X return X -> Ghost with
  | Oidc_get _ => fun r => {| gh_clock := r.1; gh_written := gh_written g; gh_posts := gh_posts g |}
  | Oidc_post _ v => fun r => {| gh_clock := r.1; gh_written := gh_written g; gh_posts := (gh_posts g ++ [v])%list |}
  | Sleep _ => fun t => {| gh_clock := t; gh_written := gh_written g; gh_posts := gh_posts g |}
  | Write_session s => fun r =>
      {| gh_clock := gh_clock g; gh_written := if is_ok r then (gh_written g ++ [s])%list else gh_written g;
         gh_posts := gh_posts g |}
  | _ => fun _ => g
  end.

(** The clock never runs backwards, and a timer fires no earlier than asked. *)
Definition auth_asm X (g : Ghost) (op : authE X) : X -> Prop :=
  match op in authE X return X -> Prop with
  | Oidc_get _ | Oidc_post _ _ => fun r => gh_clock g <= r.1
  | Sleep ms => fun t => gh_clock g + ms <= t
  | _ => fun _ => True
  end.

Definition auth_any X (g : Ghost) (op : authE X) : Prop := True.

Lemma wpm_fetched op s g (Q : Ghost -> RuntimeState -> res ErrorChain OidcResponse -> Prop) :
  (forall t r, auth_asm _ g op (t, r) -> Q (auth_upd _ g op (t, r)) (at_clock t s) r) ->
  wpm auth_any auth_asm auth_upd (fetched_at op) s g Q.
Proof. intros H. split; [done|]. intros [t r] Ht. by apply H. Qed.

Lemma wpm_wait ms s g (Q : Ghost -> RuntimeState -> res ErrorChain unit -> Prop) :
  (forall t, gh_clock g + ms <= t ->
     Q {| gh_clock := t; gh_written := gh_written g; gh_posts := gh_posts g |} (at_clock t s) (Ok tt)) ->
  wpm auth_any auth_asm auth_upd (wait ms) s g Q.
Proof. intros H. split; [done|]. intros t Ht. by apply H. Qed.

(** A symbolic step of this module's methods. *)
Ltac astep :=
  lazymatch goal with
  | |- wpm _ _ _ (fail _) _ _ _ => unfold fail; apply wpm_throw
  | |- wpm _ _ _ (hinted _) _ _ _ => unfold hinted; apply wpm_try
  | |- wpm _ _ _ (wait _) _ _ _ => apply wpm_wait; intros ? ?
  | |- wpm _ _ _ (fetched_at _) _ _ _ => apply wpm_fetched; intros ? [?|?] ?
  | |- wpm _ _ _ (await_ _) _ _ _ => apply wpm_await_; [exact I | intros ? _]
  | _ => wpm_step
  end; cbn [auth_asm auth_upd fst snd gh_clock gh_written gh_posts rs_clock rs_cached at_clock] in *.

(** ** The polling loop *)
Definition grant (deviceCode clientId : string) : list (string * string) :=
  [("grant_type", "urn:ietf:params:oauth:grant-type:device_code"); ("device_code", deviceCode); ("client_id", clientId)].

(** The session a login returns: built from an answered token request at the clock it
    arrived, after at least one poll. *)
Definition logged_in (g : Ghost) (n : StoredSession) : Prop :=
  truthy (ss_accessToken n) = true /\ gh_clock g + 30000 <= ss_expiresAt n /\ gh_posts g <> [].

(** What polling does: fewer than [fuel] device grants are requested and nothing is saved. *)
Definition polled (fuel : nat) (code client : string) (s : RuntimeState) (g g' : Ghost) (s' : RuntimeState)
    (r : res ErrorChain (option StoredSession)) : Prop :=
  rs_clock s' = gh_clock g' /\ rs_cached s' = rs_cached s /\ gh_written g' = gh_written g /\
  (exists k, gh_posts g' = (gh_posts g ++ replicate k (grant code client))%list /\ (k < fuel)%nat) /\
  match r with Ok None => False | Ok (Some n) => logged_in g' n | Err _ => True end.

Lemma storedSession_lifetime now tokens : now + 30000 <= ss_expiresAt (storedSession now tokens).
Proof. unfold storedSession. cbn [ss_expiresAt]. lia. Qed.

(** [turns] bounds the polls left: each one moves the clock a second towards the deadline. *)
Lemma poll_wp fuel endpoint code client deadline interval s g :
  rs_clock s = gh_clock g -> 1 <= interval ->
  (forall d, deadline = Some d -> d <= gh_clock g + 1000 * (Z.of_nat fuel - 1)) -> (0 < fuel)%nat ->
  wpm auth_any auth_asm auth_upd (poll fuel endpoint code client deadline interval) s g
    (polled fuel code client s g).
Proof.
  revert interval s g. induction fuel as [|f IH]; intros interval s g Hs Hi Hd Hf; [lia|]. cbn [poll].
  astep. astep.
  destruct (match deadline with Some d => rs_clock s <? d | None => false end) eqn:Hopen.
  2:{ astep. split_and!; try done. exists O. split; [by rewrite app_nil_r | lia]. }
  destruct deadline as [d|]; [|done]. bool_prop. pose proof (Hd d eq_refl) as Hd'.
  assert (Hf' : (0 < f)%nat) by lia.
  astep. astep. astep. astep; [|by split_and!; try done; exists 1%nat; split; [done | lia]].
  rename t0 into t', a into r. astep. astep.
  set (g1 := {| gh_clock := t'; gh_written := _; gh_posts := _ |}).
  assert (Hnext : forall i, 1 <= i ->
    wpm auth_any auth_asm auth_upd (poll f endpoint code client (Some d) i) (at_clock t' (at_clock t s)) g1
    (polled (S f) code client s g)).
  { intros i Hi'. eapply wpm_mono; [|apply (IH i _ g1); [done | done | | done]].
    - intros g' s' r' (H1 & H2 & H3 & (k & Hk & Hk') & H5). cbn in H2, H3. split_and!; try done.
      exists (S k). split; [|lia]. rewrite Hk. cbn [replicate gh_posts g1]. by rewrite <- app_assoc.
    - intros d' [= <-]. cbn [gh_clock g1]. lia. }
  assert (Hone : exists k, gh_posts g1 = (gh_posts g ++ replicate k (grant code client))%list /\ (k < S f)%nat)
    by (exists 1%nat; split; [done | lia]).
  bsplit; [|apply Hnext; lia | apply Hnext; lia | by astep; split_and!].
  astep. bool_prop. split_and!; try done. split_and!; [done | apply storedSession_lifetime |].
  cbn [gh_posts g1]. by destruct (gh_posts g).
Qed.

(** The metadata request. *)
Lemma discoverOidc_wp issuer s g (Q : Ghost -> RuntimeState -> res ErrorChain OidcBody -> Prop) :
  rs_clock s = gh_clock g ->
  (forall g' s' r, rs_clock s' = gh_clock g' -> rs_cached s' = rs_cached s -> gh_clock g <= gh_clock g' ->
     gh_written g' = gh_written g -> gh_posts g' = gh_posts g -> Q g' s' r) ->
  wpm auth_any auth_asm auth_upd (discoverOidc issuer) s g Q.
Proof. intros Hs HQ. unfold discoverOidc. astep. astep; [astep|]; by apply HQ. Qed.

Lemma loginWithDeviceFlow_wp issuer client openBrowser s g :
  rs_clock s = gh_clock g ->
  wpm auth_any auth_asm auth_upd (loginWithDeviceFlow issuer client openBrowser) s g
    (fun g' s' r => rs_clock s' = gh_clock g' /\ rs_cached s' = rs_cached s /\ gh_written g' = gh_written g /\
       match r with Ok None => False | Ok (Some n) => logged_in g' n | Err _ => True end).
Proof.
  intros Hs. unfold loginWithDeviceFlow. astep. apply discoverOidc_wp; [done|].
  intros g1 s1 [metadata|e] H1 H2 _ H3 H4; [|done].
  destruct (ob_device_authorization_endpoint metadata) as [endpoint|]; [|by astep].
  destruct (truthy endpoint); cbn [negb]; [|by astep].
  astep. astep; [|by split_and!]. astep. astep. destruct (jsonResponse _) as [device|e]; [|by split_and!].
  astep. astep. astep. astep; [astep|]; (astep; astep; eapply wpm_mono; [|apply poll_wp]; cbn; try done; try lia;
    [ intros g' s' r' (K1 & K2 & K3 & _ & K4); cbn in *; split_and!; congruence || done
    | intros d Hd; destruct (ob_expires_in device) as [e|] eqn:He; [|discriminate Hd];
      cbn in Hd; injection Hd as <-; unfold poll_fuel; cbn; lia
    | unfold poll_fuel; lia ]).
Qed.

Definition start (clock : Z) : Ghost := {| gh_clock := clock; gh_written := []; gh_posts := [] |}.

(** The ghost state a trace leads to. *)
Definition after (clock : Z) (tr : list (event (E := authE))) : Ghost := foldl (ghost auth_upd) (start clock) tr.


(** An identity provider that answers the token requests from a list, each two seconds
    after it was sent. *)
Definition no_body : OidcBody :=
  {| ob_device_authorization_endpoint := Some "https://id/device"; ob_token_endpoint := Some "https://id/token";
     ob_device_code := Some "d"; ob_user_code := Some "ABCD"; ob_verification_uri := Some "https://id/go";
     ob_verification_uri_complete := None; ob_expires_in := Some 60; ob_interval := None; ob_access_token := None;
     ob_refresh_token := None; ob_id_token := None; ob_error := None; ob_error_description := None |}.
Definition answered (status : Z) (access error : option string) : OidcResponse :=
  {| or_status := status; or_body :=
     {| ob_device_authorization_endpoint := None; ob_token_endpoint := None; ob_device_code := None; ob_user_code := None;
        ob_verification_uri := None; ob_verification_uri_complete := None; ob_expires_in := None; ob_interval := None;
        ob_access_token := access; ob_refresh_token := None; ob_id_token := None; ob_error := error;
        ob_error_description := None |} |}.

Definition serve_oidc (X : Type) (op : authE X) (w : Z * list OidcResponse) : X * (Z * list OidcResponse) :=
  match op in authE X return X * (Z * list OidcResponse) with
  | Oidc_get _ => ((w.1 + 2000, Ok {| or_status := 200; or_body := no_body |}), (w.1 + 2000, w.2))
  | Oidc_post _ _ =>
      ((w.1 + 2000, Ok (head w.2 ?? {| or_status := 200; or_body := no_body |})), (w.1 + 2000, tail w.2))
  | Sleep ms => (w.1 + ms, (w.1 + ms, w.2))
  | Prompt _ _ _ | Open_external _ => (tt, w)
  | Write_session _ | Clear_session | Write_config _ => (Ok tt, w)
  end.

Definition demo_settings : ResolvedCliConfig :=
  {| rc_apiUrl := "https://api.magicstick.local"; rc_issuer := "https://id"; rc_clientId := "magicstick-cli"; rc_caFile := None |}.
Definition demo_world : Z * list OidcResponse :=
  (0, [ {| or_status := 200; or_body := no_body |}; answered 400 None (Some "authorization_pending");
        answered 400 None (Some "slow_down"); answered 200 (Some "t") None ]).
Definition demo_state (cached : option StoredSession) : RuntimeState := {| rs_cached := cached; rs_clock := 0 |}.
Definition demo_login : (RuntimeState * res ErrorChain (option unit)) * (Z * list OidcResponse) :=
  exec serve_oidc (login demo_settings false (demo_state None)) demo_world.
Definition demo_login_trace : list (event (E := authE)) :=
  trace serve_oidc (login demo_settings false (demo_state None)) demo_world.


(** The refresh request. *)
Definition refresh_grant (token client : string) : list (string * string) :=
  [("grant_type", "refresh_token"); ("refresh_token", token); ("client_id", client)].

(** A refreshed session: asked for once, with the refresh token of [c]. *)
Definition refreshed (client : string) (c n : StoredSession) (g g' : Ghost) : Prop :=
  gh_clock g' + 30000 <= ss_expiresAt n /\ ss_refreshToken n <> None /\
  exists token, ss_refreshToken c = Some token /\ truthy token = true /\
                gh_posts g' = (gh_posts g ++ [refresh_grant token client])%list.

Lemma refreshSession_wp issuer client c s g :
  rs_clock s = gh_clock g ->
  wpm auth_any auth_asm auth_upd (refreshSession issuer client c) s g
    (fun g' s' r => rs_clock s' = gh_clock g' /\ rs_cached s' = rs_cached s /\ gh_written g' = gh_written g /\
       match r with Ok n => refreshed client c n g g' | Err _ => True end).
Proof.
  intros Hs. unfold refreshSession. destruct (ss_refreshToken c) as [token|] eqn:Hc; [|by astep].
  destruct (truthy token) eqn:Ht; cbn [negb]; [|by astep].
  astep. apply discoverOidc_wp; [done|]. intros g1 s1 [metadata|e] H1 H2 _ H3 H4; [|by split_and!].
  astep. astep; [|by split_and!]. astep. astep. destruct (jsonResponse _) as [tokens|e]; [|by split_and!].
  astep. astep. astep. split_and!; try done. split_and!; [apply storedSession_lifetime | by destruct (ob_refresh_token tokens) |].
  exists token. cbn. rewrite Hc, H4. by split_and!.
Qed.

(** The access token of a request. It is the configured one, in which case the saved
    session is not looked at; or that of the saved session, if it lives more than 30 seconds
    longer; or that of a session obtained for the refresh token of the saved one, which was
    saved, with a refresh token, before its access token was handed out. *)
Theorem access_token settings env s tr s' t :
  steps (accessToken settings env s) tr (Done (s', Ok t)) -> admissible auth_asm auth_upd (start (rs_clock s)) tr ->
  (env = Some t /\ truthy t = true /\ tr = [] /\ s' = s) \/
  (truthy (env ?? "") = false /\ exists c, rs_cached s = Some c /\
    ((rs_clock s + 30000 < ss_expiresAt c /\ t = ss_accessToken c /\ tr = [] /\ s' = s) \/
     (ss_expiresAt c <= rs_clock s + 30000 /\ exists n, t = ss_accessToken n /\ rs_cached s' = Some n /\
        gh_written (after (rs_clock s) tr) = [n] /\
        refreshed (rc_clientId settings) c n (start (rs_clock s)) (after (rs_clock s) tr)))).
Proof.
  intros Hs Ha. unfold accessToken in Hs. destruct (truthy (env ?? "")) eqn:He.
  { left. inversion Hs; subst. by destruct env. }
  right. split; [done|]. unfold mbind, get in Hs. cbn [pbind snd fst] in Hs.
  destruct (rs_cached s) as [c|] eqn:Hc; [|inversion Hs]. exists c. split; [done|].
  destruct (rs_clock s + 30000 <? ss_expiresAt c) eqn:Hfresh; bool_prop.
  { left. inversion Hs; subst. by split_and!. }
  right. split; [lia|].
  lazymatch type of Hs with steps ?p tr _ => assert (Hw : wp auth_any auth_asm auth_upd p (start (rs_clock s)) (fun g o =>
    match o.2 with
    | Ok t => exists n, t = ss_accessToken n /\ rs_cached o.1 = Some n /\ gh_written g = [n] /\
                        refreshed (rc_clientId settings) c n (start (rs_clock s)) g
    | Err _ => True
    end)) end.
  { change (wpm auth_any auth_asm auth_upd (hinted (
      let! n := refreshSession (rc_issuer settings) (rc_clientId settings) c in
      modify (set_cached (Some n)) ;; await (Write_session n) ;; mret (ss_accessToken n))) s (start (rs_clock s)) (fun g s' r =>
      match r with
      | Ok t => exists n, t = ss_accessToken n /\ rs_cached s' = Some n /\ gh_written g = [n] /\
                        refreshed (rc_clientId settings) c n (start (rs_clock s)) g
      | Err _ => True
      end)).
    astep. astep. eapply wpm_mono; [|by apply refreshSession_wp].
    intros g1 s1 [n|e] (H1 & H2 & H3 & H4); [|by astep].
    astep. astep. astep. astep; [done|]. intros [[]|e] _; [|by astep].
    astep. exists n. cbn. rewrite H3. by split_and!. }
  by destruct (wp_steps _ _ _ _ _ _ _ _ Hw Hs Ha) as [_ H].
Qed.

Definition demo_session : StoredSession :=
  {| ss_accessToken := "old"; ss_refreshToken := Some "r"; ss_idToken := None; ss_expiresAt := 30000 |}.
Definition demo_refresh : prog authE (RuntimeState * res ErrorChain string) :=
  accessToken demo_settings None (demo_state (Some demo_session)).
Definition demo_answers : Z * list OidcResponse := (0, [answered 200 (Some "new") None]).

Lemma access_token_witness :
  exists n, "new" = ss_accessToken n /\ gh_written (after 0 (trace serve_oidc demo_refresh demo_answers)) = [n] /\
            refreshed "magicstick-cli" demo_session n (start 0) (after 0 (trace serve_oidc demo_refresh demo_answers)).
Proof.
  destruct (access_token demo_settings None (demo_state (Some demo_session)) (trace serve_oidc demo_refresh demo_answers)
              (exec serve_oidc demo_refresh demo_answers).1.1 "new") as [H|(_ & c & Hc & [H|(_ & n & H1 & _ & H2 & H3)])].
  - pose proof (exec_steps serve_oidc demo_refresh demo_answers) as H.
    rewrite (surjective_pairing (exec _ _ _).1) in H. exact H.
  - cbn. split_and!; try done; lia.
  - by destruct H.
  - injection Hc as <-. cbn in H. lia.
  - injection Hc as <-. exists n. by split_and!.
Defined.
