(* ===== verification/JsonParse.v ===== *)
(** * [JSON.parse]

    The grammar of RFC 8259. A [\u] escape of a code unit outside Latin-1 is read as the
    substitute character, as such code units are outside the strings of this development.
    The fuel counts nested calls: a value, element or member consumes at least one character
    per two calls, so twice the length suffices. *)

From S2P Require Import Prelude Js Number Json.

Local Open Scope string_scope.
Local Open Scope Z_scope.

Definition json_space (c : ascii) : bool := existsb (fun z => code c =? z) [32; 9; 10; 13].
Definition skip : string -> string := drop_while json_space.

Definition expect (word : string) (v : json) (s : string) : option (json * string) :=
  if startsWith word s then Some (v, drop_str (String.length word) s) else None.

(** The body of a string literal, after its opening quotation mark. *)
Fixpoint string_body (fuel : nat) (s : string) : option (string * string) :=
  match fuel with
  | O => None
  | S f =>
      match s with
      | EmptyString => None
      | String c r =>
          if code c =? 34 then Some ("", r)
          else if code c <? 32 then None
          else if code c =? 92 then
            match r with
            | String "u" r' =>
                match radix_val 16 0 (take_str 4 r') with
                | Some z =>
                    if (String.length r' <? 4)%nat then None
                    else '(t, q) ← string_body f (drop_str 4 r');
                         Some (String (unit_of (if z <? 256 then z else 26)) t, q)
                | None => None
                end
            | String e r' =>
                match (match e with
                       | "n"%char => Some 10 | "t"%char => Some 9 | "r"%char => Some 13
                       | "b"%char => Some 8 | "f"%char => Some 12 | "/"%char => Some 47
                       | _ => if (code e =? 34) || (code e =? 92) then Some (code e) else None
                       end) with
                | Some z => '(t, q) ← string_body f r'; Some (String (unit_of z) t, q)
                | None => None
                end
            | EmptyString => None
            end
          else '(t, q) ← string_body f r; Some (String c t, q)
      end
  end.
Definition string_literal (s : string) : option (string * string) := string_body (S (String.length s)) s.

(** A number: an optional minus, no superfluous leading zero, and digits after a point. *)
Definition number_literal (s : string) : option (number * string) :=
  let '(sign, s1) := match s with String "-" r => (true, r) | _ => (false, s) end in
  let '(ip, r1) := span is_digit s1 in
  let leading_zero := match ip with String "0" (String _ _) => true | _ => false end in
  if negb (truthy ip) || leading_zero then None
  else
    let '(frac, r2) := match r1 with String "." r => let '(d, q) := span is_digit r in (Some d, q) | _ => (None, r1) end in
    let mark := match r2 with String e _ => Ascii.eqb e "e" || Ascii.eqb e "E" | _ => false end in
    let body := if mark then drop_str 1 r2 else r2 in
    let '(esign, digits) := match body with
                            | String "-" r => ("-", r) | String "+" r => ("", r) | _ => ("", body)
                            end in
    let '(ed, r3) := span is_digit digits in
    if match frac with Some d => negb (truthy d) | None => false end then None
    else if mark && negb (truthy ed) then None
    else
      match unsigned_decimal (ip +:+ match frac with Some d => "." +:+ d | None => "" end
                                 +:+ if mark then "e" +:+ esign +:+ ed else "") with
      | Some n => Some (if sign then neg_number n else n, if mark then r3 else r2)
      | None => None
      end.

Fixpoint json_value (fuel : nat) (s : string) {struct fuel} : option (json * string) :=
  match fuel with
  | O => None
  | S f =>
      match skip s with
      | EmptyString => None
      | String c r as t =>
          if Ascii.eqb c "{" then
            match skip r with String "}" q => Some (JObj [], q) | _ => json_members f [] r end
          else if Ascii.eqb c "[" then
            match skip r with String "]" q => Some (JArr [], q) | _ => json_elements f [] r end
          else if code c =? 34 then '(x, q) ← string_literal r; Some (JStr x, q)
          else if Ascii.eqb c "t" then expect "true" (JBool true) t
          else if Ascii.eqb c "f" then expect "false" (JBool false) t
          else if Ascii.eqb c "n" then expect "null" JNull t
          else '(n, q) ← number_literal t; Some (JNum n, q)
      end
  end
with json_elements (fuel : nat) (acc : list json) (s : string) {struct fuel} : option (json * string) :=
  match fuel with
  | O => None
  | S f =>
      '(v, q) ← json_value f s;
      match skip q with
      | String "," q' => json_elements f (acc ++ [v])%list q'
      | String "]" q' => Some (JArr (acc ++ [v])%list, q')
      | _ => None
      end
  end
with json_members (fuel : nat) (acc : dict json) (s : string) {struct fuel} : option (json * string) :=
  match fuel with
  | O => None
  | S f =>
      match skip s with
      | String m r =>
          if code m =? 34 then
            '(k, q) ← string_literal r;
            match skip q with
            | String ":" q1 =>
                '(v, q2) ← json_value f q1;
                match skip q2 with
                | String "," q3 => json_members f (dict_set acc k v) q3
                | String "}" q3 => Some (JObj (dict_set acc k v), q3)
                | _ => None
                end
            | _ => None
            end
          else None
      | EmptyString => None
      end
  end.

(** [None] is a SyntaxError. *)
Definition JSON_parse (s : string) : option json :=
  '(v, q) ← json_value (2 * String.length s + 2) s;
  if truthy (skip q) then None else Some v.

Definition quoted (s : string) : string := quote s.
Example parse_object :
  JSON_parse (" {" +:+ quoted "a" +:+ ": [1, -2.5e1, true, null], " +:+ quoted "b" +:+ ":{}, " +:+ quoted "a" +:+ ":0}")
  = Some (JObj [("a", JNum (Int 0)); ("b", JObj [])]).
Proof. vm_compute. reflexivity. Qed.
Example parse_text : JSON_parse (quoted (String (unit_of 10) "x\y")) = Some (JStr (String (unit_of 10) "x\y")).
Proof. vm_compute. reflexivity. Qed.
Example parse_errors : map JSON_parse ["01"; "[1,]"; "1 2"; "-"; "1."; "tru"; ""] = [None; None; None; None; None; None; None].
Proof. vm_compute. reflexivity. Qed.
