(* ===== verification/CliFiles.v ===== *)
(** * The CLI's world, snapshots and license files (apps/cli/src/license.ts, snapshot.ts)

    A command is a program over the API client, the runtime, the terminal and files. The
    reply of an API method has the type the source declares for it ([result_of]) and carries
    the value as [JSON.stringify] sees it. *)

From S2P Require Import Prelude Js Number Dates Json Prog Contracts DashboardCore ApiClient Cli CliAuth.

Local Open Scope string_scope.
Local Open Scope js_scope.
Local Open Scope Z_scope.

(** ** Replies *)

(** The inline result types of api-client/src/index.ts. *)
Record CredentialEntry : Type := { ce_key : string; ce_value : string }.
Record Credentials_ : Type := { cr_title : option string; cr_credentials : option (list CredentialEntry) }.
Record PrincipalsPage : Type := { pp_kind : string; pp_items : list SharingPrincipal; pp_next : option number }.
Record CreatedKey : Type := { ck_item : json; ck_key : string; ck_apiBases : option json }.
Record Kubeconfig : Type := { kc_filename : string; kc_content : string; kc_accessLevel : option string }.

Definition result_of (c : api_call) : Type :=
  match c with
  | Platform session => Session
  | Platform licenseStatus | Platform (importLicense _ _) => LicenseStatus
  | Platform (inspectLicense _) => LicensePreview
  | Platform exportLicense => LicenseDownload
  | Federation settings | Federation (updateSettings _) => Settings
  | Runtime appliance => Appliance
  | Runtime modules => ModulesPayload
  | Runtime instances => InstancesPayload
  | Runtime (instanceAccess _) | Runtime (updateInstanceAccess _ _ _) => InstanceAccessState
  | Runtime (instancePrincipals _ _ _) => PrincipalsPage
  | Runtime models => ModelsPayload
  | Runtime status => SystemStatusPayload
  | Runtime (moduleCredentials _) | Runtime (instanceCredentials _) => Credentials_
  | Models (searchModels _) | Models (popularModels _) => DiscoverySearchPayload
  | Models (modelArtifacts _) => DiscoveryArtifactsPayload
  | Models (estimateMemory _) => MemoryEstimate
  | Access (users _ _ _) => UsersPayload
  | Access apiAccess => ApiAccessPayload
  | Access (createApiKey _) => CreatedKey
  | Access (kubernetesAccess _ _ _) => KubernetesAccessPayload
  | Access (kubeconfig _) => Kubeconfig
  | _ => json
  end.

Record Reply (A : Type) : Type := { rp_json : json; rp_value : A }.
Arguments rp_json {_} _.
Arguments rp_value {_} _.

(** ** Errors *)

(** An API error, or an error with its message and the messages of its causes, itself first. *)
Inductive cli_exn : Type :=
| X_api (e : ApiError)
| X_error (message : string) (causes : list string).

(** ** Effects *)
Inductive cliE : Type -> Type :=
| Api (c : api_call) : cliE (res cli_exn (Reply (result_of c)))
| Create_runtime (o : RuntimeOptions) : cliE (res cli_exn unit)
(* [onPrompt] gives the text printed for a verification address, a code and a complete address *)
| Login (openBrowser : bool) (onPrompt : string -> string -> option string -> string) : cliE (res cli_exn unit)
| Logout : cliE (res cli_exn unit)
| Run_tui (demo color : bool) (refreshSeconds : number) : cliE (res cli_exn unit)
| Stdout (value : string) : cliE unit
| Read_stdin : cliE (res cli_exn string)
| Read_file (path : string) : cliE (res cli_exn string)
| Write_file (path content : string) (exclusive : bool) : cliE (res cli_exn unit)  (* mode 0600 *)
| Stat_isFile (path : string) : cliE (res cli_exn bool)
| Open_file (path : string) : cliE (res cli_exn unit)
| Handle_isFile : cliE (res cli_exn bool)
| Handle_read (length : Z) : cliE (res cli_exn (list Z))                            (* bytes *)
| Handle_close : cliE (res cli_exn unit)
| Date_now : cliE Z
| Random_uuid : cliE string.

Definition CM := M cliE unit cli_exn.

Definition error {A} (message : string) : CM A := throw (X_error message []).
Definition api (c : api_call) : CM (Reply (result_of c)) := await (Api c).
(** A call started beside others: its rejection is kept until the others have settled. *)
Definition started (c : api_call) : CM (res cli_exn (Reply (result_of c))) := await_ (Api c).
Definition stdout (value : string) : CM unit := await_ (Stdout value).

Definition newline : string := String (unit_of 10) "".
Definition lines : list string -> string := join newline.

(** ** snapshot.ts *)
Record DashboardSnapshot : Type := {
  ds_session : Session;
  ds_appliance : Appliance;
  ds_modules : ModulesPayload;
  ds_instances : InstancesPayload;
  ds_models : ModelsPayload;
  ds_status : SystemStatusPayload;
  ds_settings : option Settings;
  ds_users : option UsersPayload;
  ds_apiAccess : option ApiAccessPayload;
  ds_kubernetesAccess : option KubernetesAccessPayload;
  ds_license : option LicenseStatus;
  ds_licenseError : option string;
  ds_loadedAt : Z
}.

(** [admin ? call : Promise.resolve(undefined)] *)
Definition started_if (b : bool) (c : api_call) : CM (res cli_exn (option (result_of c))) :=
  if b then
    let! r := started c in
    mret (match r with Ok v => Ok (Some (rp_value v)) | Err e => Err e end)
  else mret (Ok None).

(** The nine reads of [Promise.all] are all sent; the snapshot fails with a rejection, here
    the first in the order of the list. *)
Definition loadSnapshot : CM DashboardSnapshot :=
  let! session_ := api (Platform session) in
  let session_ := rp_value session_ in
  let admin_ := canAdminister (Some session_) in
  let identities := admin_ && Session_identityManagementAvailable session_ in
  let! appliance_ := started (Runtime appliance) in
  let! modules_ := started (Runtime modules) in
  let! instances_ := started (Runtime instances) in
  let! models_ := started (Runtime models) in
  let! status_ := started (Runtime status) in
  let! settings_ := started_if admin_ (Federation settings) in
  let! users_ := started_if identities (Access (users "" (Int 0) (Int 25))) in
  let! apiAccess_ := started_if admin_ (Access apiAccess) in
  let! kubernetesAccess_ := started_if identities (Access (kubernetesAccess "" (Int 0) (Int 100))) in
  let! appliance_ := of_res appliance_ in
  let! modules_ := of_res modules_ in
  let! instances_ := of_res instances_ in
  let! models_ := of_res models_ in
  let! status_ := of_res status_ in
  let! settings_ := of_res settings_ in
  let! users_ := of_res users_ in
  let! apiAccess_ := of_res apiAccess_ in
  let! kubernetesAccess_ := of_res kubernetesAccess_ in
  let! license_ := (if admin_ then started (Platform licenseStatus) else mret (Err (X_error "" []))) in
  let! now := await_ Date_now in
  mret {| ds_session := session_; ds_appliance := rp_value appliance_; ds_modules := rp_value modules_;
          ds_instances := rp_value instances_; ds_models := rp_value models_; ds_status := rp_value status_;
          ds_settings := settings_; ds_users := users_; ds_apiAccess := apiAccess_;
          ds_kubernetesAccess := kubernetesAccess_;
          ds_license := match license_ with Ok l => Some (rp_value l) | Err _ => None end;
          ds_licenseError := match license_ with
                             | Err _ => if admin_ then Some "License status unavailable. Core functions are unaffected." else None
                             | Ok _ => None
                             end;
          ds_loadedAt := now |}.

(** ** license.ts *)

(** [new TextDecoder('utf-8', {fatal: true}).decode]; [None] when it throws. *)
Class Utf8Decoder : Type := utf8_decode : list Z -> option string.

Definition license_limit : Z := 64 * 1024.

(** The read loop, which ends when the buffer is full or the file is. [free] is the number
    of bytes left in the buffer: every turn that continues reads at least one of them. *)
Fixpoint read_bounded (free : nat) (buffer : list Z) : CM (list Z) :=
  match free with
  | O => mret buffer
  | S f =>
      let! chunk := await (Handle_read (license_limit + 1 - Z.of_nat (length buffer))) in
      match chunk with
      | [] => mret buffer
      | _ =>
          if Z.of_nat (length buffer + length chunk) <? license_limit + 1
          then read_bounded f (buffer ++ chunk)
          else mret (buffer ++ chunk)%list
      end
  end.

Definition readLicenseFile `{Utf8Decoder} (path : string) : CM string :=
  let! isFile := await (Stat_isFile path) in
  if negb isFile then error "Select a regular license file."
  else
    await (Open_file path) ;;
    try_finally (
      let! isFile := await Handle_isFile in
      if negb isFile then error "Select a regular license file."
      else
        let! buffer := read_bounded (Z.to_nat (license_limit + 1)) [] in
        if license_limit <? Z.of_nat (length buffer) then error "License file exceeds 64 KiB."
        else match utf8_decode buffer with Some text => mret text | None => error "The encoded data was not valid for encoding utf-8" end)
      (await Handle_close).

Definition saveLicenseFile (path content : string) : CM unit := await (Write_file path content true).

(** [new Date(seconds * 1000).toISOString()], which throws for an invalid date. *)
Definition iso_seconds (seconds : number) : res cli_exn string :=
  match frac (num_mul seconds (Int 1000)) with
  | Some (n, d) =>
      let t := Z.quot n d in
      if Z.abs t <=? 8640000000000000 then Ok (toISOString t) else Err (X_error "Invalid time value" [])
  | None => Err (X_error "Invalid time value" [])
  end.

Definition or_none (l : list string) : string := sor (join ", " l) "none".

Definition claim_lines (claims : option LicenseClaims) : res cli_exn (list string) :=
  match claims with
  | Some c =>
      let? expires := iso_seconds (LicenseClaims_expiresAt c) in
      Ok ["Customer: " +:+ LicenseClaims_customer c; "License ID: " +:+ LicenseClaims_licenseId c; "Expires: " +:+ expires]
  | None => Ok []
  end.

Definition feature_line (f : LicenseStatus_features_t) : string :=
  LicenseStatus_features_t_name f +:+ ": " +:+ (if LicenseStatus_features_t_licensed f then "licensed" else "not licensed")
  +:+ middot +:+ (if LicenseStatus_features_t_implemented f then "implemented" else "not implemented").

Definition licenseLines (status : LicenseStatus) : res cli_exn (list string) :=
  let? claims := claim_lines (LicenseVerification_claims status) in
  Ok (["License: " +:+ LicenseVerification_state status; "Edition: " +:+ lit_str (LicenseStatus_edition status);
       LicenseVerification_message status; "Installation: " +:+ LicenseStatus_installationId status;
       "Trusted keys: " +:+ or_none (LicenseStatus_trustedKeyIds status)]
      ++ claims ++ map feature_line (LicenseStatus_features status))%list.

Definition previewLines (preview : LicensePreview) : res cli_exn (list string) :=
  let candidate := LicensePreview_candidate preview in
  let? claims := match LicenseVerification_claims candidate with
                 | Some c =>
                     let? from := iso_seconds (LicenseClaims_notBefore c) in
                     let? expires := iso_seconds (LicenseClaims_expiresAt c) in
                     Ok ["New license: " +:+ LicenseClaims_licenseId c; "Customer: " +:+ LicenseClaims_customer c;
                         "Edition: " +:+ lit_str (LicenseClaims_edition c); "Valid from: " +:+ from; "Expires: " +:+ expires;
                         "Installation binding: " +:+ (LicenseClaims_installationId c ?? "unbound");
                         "Entitlements: " +:+ or_none (LicenseClaims_features c)]
                 | None => Ok []
                 end in
  Ok (LicenseVerification_message candidate
      :: ("Current license: " +:+ ((LicenseClaims_licenseId <$> LicenseVerification_claims (LicensePreview_current preview)) ?? "none"))
      :: claims).
