(* ===== verification/CliCommands.v ===== *)
(** * The commands of the CLI (apps/cli/src/commands.ts)

    Every command of [runCli] as a program over the effects of CliFiles. [output] prints the
    reply as JSON or its table. *)

From S2P Require Import Prelude Js Number Dates Json JsonParse Prog Contracts DashboardCore ApiClient Cli CliAuth CliFiles.

Local Open Scope string_scope.
Local Open Scope js_scope.
Local Open Scope Z_scope.

Definition VERSION : string := "0.1.0".

Definition HELP : string :=
"Magic Stick CLI and TUI

Usage:
  magicstick [global options] <command>
  magicstick tui
  magicstick tui --demo
  magicstick console

Interactive TUI:
  A seven-line space banner shows the branded USB spacecraft powering up a PC.
  The stick docks once and stays connected; decorative visitors appear rarely.
  The PC's status, usage %, and TPS (tokens/sec) are artificial, not live data.
  Animation runs continuously, including in dialogs; short terminals hide it.
  Browse with arrow keys or h/j/k/l. Operators can enable/disable services and
  create/remove models. Administrators can additionally manage users, named API
  keys, offline licenses, and SSO-backed Kubernetes access. Forms and confirmations
  use the same authenticated control API as the commands below.
  console is the appliance-monitor mode: it requests a device-flow login when
  necessary and then opens the same TUI without storing a password.
  tui --demo previews all tabs with synthetic, read-only data, without a backend
  or login. No saved configuration or credentials are accessed.

Authentication:
  login [--no-open]                    Sign in with the Keycloak device flow
  logout                               Delete the locally cached session
  whoami                               Show the current identity and role

Read commands:
  overview                             Appliance, module, instance and model summary
  service list                         List modules
  hardware list                        GPU profiles, nodes and optional engine validation
  instance list                        List application instances
  instance access <name>                Show instance sharing policy (admin)
  instance principals [--kind users|groups] [--search text]
  model list                           List models and compute targets
  model search <query> [--provider huggingface|ollama]
  model popular [--provider huggingface|ollama]
  model artifacts <repo> [--provider huggingface|ollama]
  settings get
  user list [--search text] [--first 0] [--max 25]
  api-key list
  kubernetes-access list [--search text]
  status                               Hardware and Kubernetes status
  license status                       Offline license and capability status (admin)
  license inspect <file>               Validate without replacing the active license
  license export <file>                Save the active license; never overwrite a file

Mutation commands:
  service enable <name> [--set key=value ...]
  service disable <name>
  service credentials <name>
  hardware profile <id|upstream> [--allow-experimental]
  hardware validate --yes               Request bounded GPU validation jobs
  instance create <type> --file payload.json
  instance remove <name>
  instance credentials <name>
  instance share <name> --file policy.json --yes
  model estimate --file payload.json
  model create-local --file payload.json
  model create-external --file payload.json
  model remove <name>
  model cleanup-runtime
  settings set [--public-domain domain] [--mdns-domain domain]
  user create <username> --password-file file [--access-level user|viewer|operator|admin]
  user update <id> [--first-name value] [--last-name value] [--email value]
  user role <id> <user|viewer|operator|admin>
  user enable|disable <id>
  user password <id> --password-file file [--permanent]
  user delete <id> --confirm <username>
  api-key create <name>
  api-key revoke <id>
  kubernetes-access set <id> <none|viewer|operator|admin>
  kubernetes-access kubeconfig <id> [--output path|-]
  license import <file> --yes           Validate and atomically replace license (admin)

Global options:
  --api-url URL        Default: https://api.magicstick.local
  --issuer URL         Default: derived id.<domain>/realms/magicstick
  --client-id ID       Default: magicstick-cli
  --ca-file PATH       Trust this public appliance CA; saved after login
  --json               Machine-readable JSON output
  --no-color           Disable ANSI colors in the TUI
  --refresh SECONDS    TUI refresh interval; minimum 5, default 15
  --demo              Offline read-only preview (tui only)
  -h, --help           Show this help
  -V, --version        Show the CLI version

Environment:
  MAGICSTICK_API_URL, MAGICSTICK_ISSUER, MAGICSTICK_CLIENT_ID, MAGICSTICK_CA_FILE
  MAGICSTICK_ACCESS_TOKEN (non-persistent automation token)
  MAGICSTICK_CONFIG_HOME, NODE_EXTRA_CA_CERTS
".

(** ** Options *)
Definition textOption (parsed : ParsedArguments) (name : string) : option string :=
  match option_ parsed name with Some (O_text s) => Some s | _ => None end.

(** [Boolean(option(parsed, name))], and [=== true]. *)
Definition option_set (parsed : ParsedArguments) (name : string) : bool :=
  match option_ parsed name with
  | Some (O_flag b) => b
  | Some (O_text s) => truthy s
  | Some (O_list _) => true
  | None => false
  end.
Definition option_true (parsed : ParsedArguments) (name : string) : bool :=
  match option_ parsed name with Some (O_flag b) => b | _ => false end.

Definition integerOption (parsed : ParsedArguments) (name : string) (fallback : Z) : CM number :=
  match textOption parsed name with
  | None => mret (Int fallback)
  | Some raw =>
      let value := Number_of_string raw in
      if negb (isInteger value) || num_ltb value (Int 0)
      then error ("--" +:+ name +:+ " must be a non-negative integer.")
      else mret value
  end.

Definition required (value : option string) (description : string) : CM string :=
  if truthy (value ?? "") then mret (value ?? "")
  else error ("Missing " +:+ description +:+ ". Run `magicstick --help` for usage.").

Definition read_source (filename : string) : CM string :=
  if String.eqb filename "-" then await Read_stdin else await (Read_file filename).

Definition readJsonPayload (parsed : ParsedArguments) : CM json :=
  let! filename := required (textOption parsed "file") "--file" in
  let! content := read_source filename in
  match JSON_parse content with
  | Some v => mret v
  | None => error ("The payload in " +:+ filename +:+ " is not valid JSON.")
  end.

(** [.replace(/[\r\n]+$/, '')] *)
Definition strip_newlines (s : string) : string :=
  rev_str (drop_while (fun c => (code c =? 10) || (code c =? 13)) (rev_str s "")) "".

Definition readPassword (parsed : ParsedArguments) : CM string :=
  let filename := textOption parsed "password-file" ?? "" in
  if truthy filename then let! text := read_source filename in mret (strip_newlines text)
  else if option_set parsed "password-stdin" then let! text := await Read_stdin in mret (strip_newlines text)
  else error "Use --password-file <path|-> or --password-stdin; passwords are intentionally not accepted as command-line values.".

(** The text is built only when it is printed; building it may throw. *)
Definition output_lines (parsed : ParsedArguments) (value : json) (human : res cli_exn string) : CM unit :=
  if option_set parsed "json" then stdout (stringify_pretty value)
  else let! text := of_res human in stdout (text +:+ newline).
Definition output (parsed : ParsedArguments) (value : json) (human : string) : CM unit :=
  output_lines parsed value (Ok human).

(** ** Errors that ask for a new login *)

(** The messages of an error and of its causes, at most six; an API error has no cause. *)
Definition messages (e : cli_exn) : list string :=
  match e with X_api e => [ae_message e] | X_error m causes => take 6 (m :: causes) end.

Definition consoleLoginRequired (e : cli_exn) : bool :=
  match e with X_api a => ae_status a =? 401 | X_error _ _ => false end ||
  (let text := toLowerCase (join " " (messages e)) in
   existsb (fun p => includesStr p text)
     ["not signed in"; "saved login has expired"; "invalid or expired access token"; "invalid_grant";
      "token is not active"; "session not active"; "refresh token"]).

Definition consoleLoginScreen (verificationUri userCode : string) : string :=
  lines [String ESC "[2J" +:+ String ESC "[H";
         "============================================================";
         "                         MAGIC STICK";
         "============================================================";
         "";
         "Anmeldung fuer die lokale Bedienoberflaeche";
         "";
         "1. Oeffne diese Adresse auf einem Geraet im lokalen Netzwerk:";
         "   " +:+ verificationUri;
         "";
         "2. Gib dort diesen einmaligen Code ein:";
         "";
         "                         " +:+ userCode;
         "";
         "Die TUI startet automatisch nach erfolgreicher Anmeldung.";
         "Es wird kein Passwort auf dem Magic Stick gespeichert.";
         ""].

(** ** Tables *)
Definition yes_no (b : option bool) : string := if b ?? false then "yes" else "no".
Definition numeral (z : nat) : string := String_of_Z (Z.of_nat z).

(** A field of a response as it was received, [{}] when absent: [value.k ?? {}]. *)
Definition field_or_empty (v : json) (k : string) : json :=
  match v with JObj d => match present (dict_get d k) with Some x => x | None => JObj [] end | _ => JObj [] end.

(** [value?.length] as a cell. *)
Definition count_cell {A} (l : option (list A)) : string := match l with Some l => numeral (length l) | None => "" end.

(** ** overview *)
Definition overview_json (snapshot : DashboardSnapshot) (enabled total instances_ : nat) : json :=
  JObj [("appliance", JObj (("name", JStr ((Appliance_metadata (ds_appliance snapshot) ≫= KubernetesObjectMeta_name) ?? "local"))
                             :: opt_key "phase" (JStr <$> (Appliance_status (ds_appliance snapshot) ≫= StatusValue_phase))));
        ("modules", JObj [("enabled", JNum (Int (Z.of_nat enabled))); ("total", JNum (Int (Z.of_nat total)))]);
        ("instances", JNum (Int (Z.of_nat instances_)));
        ("models", JNum (Int (Z.of_nat (length (ModelsPayload_activations (ds_models snapshot))))));
        ("loadedAt", JStr (toISOString (ds_loadedAt snapshot)))].

Definition summary (parsed : ParsedArguments) : CM unit :=
  let! snapshot := loadSnapshot in
  let modules_ := map snd (entries (ModulesPayload_modules (ds_modules snapshot))) in
  let instances_ := length (flattenInstances (Some (ds_instances snapshot))) in
  let enabled := length (List.filter (fun item => ModuleState_enabled item ?? false) modules_) in
  output parsed (overview_json snapshot enabled (length modules_) instances_)
    (table ["RESOURCE"; "VALUE"; "STATUS"]
      [["Appliance"; (Appliance_metadata (ds_appliance snapshot) ≫= KubernetesObjectMeta_name) ?? "local";
        phase (Appliance_status (ds_appliance snapshot) ≫= StatusValue_phase)];
       ["Modules"; numeral enabled +:+ "/" +:+ numeral (length modules_); "enabled"];
       ["Instances"; numeral instances_; "configured"];
       ["Models"; numeral (length (ModelsPayload_activations (ds_models snapshot))); "activated"]]).

(** ** service *)

(** [Object.fromEntries] of the [--set] options. *)
Definition set_parameters (entries_ : list string) : res cli_exn (dict string) :=
  let? pairs := res_map (fun entry => match indexOf "=" entry with
                                      | Some (S n) => Ok (take_str (S n) entry, drop_str (S (S n)) entry)
                                      | _ => Err (X_error ("Invalid --set " +:+ entry +:+ "; expected key=value.") [])
                                      end) entries_ in
  Ok (foldl (fun d kv => dict_set d kv.1 kv.2) [] pairs).

Definition credential_table (r : Credentials_) : string :=
  table ["KEY"; "VALUE"] (map (fun item => [ce_key item; ce_value item]) (cr_credentials r ?? [])).

Definition service_table (payload : ModulesPayload) : string :=
  let catalog := (ModulesPayload_catalogJson payload ≫= ModulesPayload_catalogJson_t_modules) ?? [] in
  table ["NAME"; "DISPLAY NAME"; "ENABLED"; "PHASE"]
    (map (fun e => [e.1; (ModuleState_displayName e.2 ??? (dict_get catalog e.1 ≫= ModuleCatalogEntry_displayName)) ?? titleFromKey e.1;
                    yes_no (ModuleState_enabled e.2); phase (ModuleState_status e.2 ≫= StatusValue_phase)])
       (entries (ModulesPayload_modules payload))).

Definition listing (action : string) : bool := negb (truthy action) || String.eqb action "list".

Definition serviceCommand (parsed : ParsedArguments) (action : string) (name : option string) : CM unit :=
  if listing action then
    let! payload := api (Runtime modules) in
    output parsed (rp_json payload) (service_table (rp_value payload))
  else
    let! id := required name "service name" in
    if String.eqb action "enable" then
      let! parameters := of_res (set_parameters (optionValues parsed "set")) in
      let! result := api (Runtime (enableModule id parameters)) in
      output parsed (rp_json result) ("Enabled " +:+ id +:+ ".")
    else if String.eqb action "disable" then
      let! result := api (Runtime (disableModule id None)) in
      output parsed (rp_json result) ("Disabled " +:+ id +:+ ".")
    else if String.eqb action "credentials" then
      let! result := api (Runtime (moduleCredentials id)) in
      output parsed (rp_json result) (credential_table (rp_value result))
    else error ("Unknown service action: " +:+ action).

(** ** hardware *)
Definition mi (n : option (option number)) : string := formatMi (mjoin n).

Definition node_validation (node : GpuCompatibilityNode) (engine : string) : string :=
  gpuValidationSummary (GpuCompatibilityNode_validation node ≫= fun v => dict_get v engine).

Definition node_row (node : GpuCompatibilityNode) : list string :=
  [SharedMemoryInventory_node node; sor (GpuCompatibilityNode_profileId node ?? "") "upstream";
   if bool_decide (GpuCompatibilityNode_hostDriverReady node = Some (Some true)) then "ready" else "not verified";
   if bool_decide (GpuCompatibilityNode_resourceRegistered node = Some true) then "registered" else "not verified";
   node_validation node "OLlama"; node_validation node "VLLM"].

Definition runtime_messages (node : GpuCompatibilityNode) : list string :=
  omap (fun e => match GpuEngineValidation_runtimeMessage e.2 with
                 | Some m => if truthy m then Some (SharedMemoryInventory_node node +:+ " " +:+ e.1 +:+ ": " +:+ m) else None
                 | None => None
                 end) (entries (GpuCompatibilityNode_validation node ?? [])).

Definition memory_line (node : GpuCompatibilityNode) : string :=
  SharedMemoryInventory_node node +:+ ": installed RAM " +:+ mi (SharedMemoryInventory_installedMemoryMi node)
  +:+ "; fixed GPU reservation " +:+ mi (SharedMemoryInventory_firmwareReservedMi node)
  +:+ "; OS-visible shared RAM " +:+ mi (SharedMemoryInventory_physicalMemoryMi node)
  +:+ "; dynamic GPU ceiling " +:+ mi (SharedMemoryInventory_gpuAccessibleMi node)
  +:+ " (within Linux RAM, not extra). One GPU: driver capacity " +:+ mi (GpuAllocationEvidence_gpuCapacityMi node)
  +:+ "; allocation " +:+ ((lit_str <$> GpuAllocationEvidence_gpuAllocationMode node) ?? "unknown")
  +:+ "; source " +:+ (GpuAllocationEvidence_gpuCapacitySource node ?? "unavailable")
  +:+ ". Firmware and dynamic limits are not added. Dynamic memory is not a protected reservation. Accounting "
  +:+ (if SharedMemoryInventory_memoryAccountingVerified node then "verified" else "not verified") +:+ ".".

Definition hardware_text (status_ : SystemStatusPayload) (compatibility : option GpuCompatibility) : string :=
  let nodes := (GpuCompatibility_nodes <$> compatibility) ?? [] in
  lines (
    [table ["OPERATOR"; "PHASE"; "RESOURCES"]
       (map (fun e => [e.1; HardwareOperator_phase e.2 ?? "";
                       String_of_number (HardwareOperator_allocatableResources e.2 ?? Int 0)])
          (entries (SystemStatusPayload_hardwareOperators status_ ?? [])));
     ""; "AMD profile: " +:+ sor ((compatibility ≫= GpuCompatibility_selectedProfile) ?? "") "upstream rules";
     "Engine validation is optional. GPU availability and runtime adoption are separate from test results.";
     table ["PROFILE"; "VERSION"; "EXPERIMENTAL"; "MEMORY"]
       (map (fun item => [GpuCompatibilityProfile_id item; GpuCompatibilityProfile_version item;
                          yes_no (Some (GpuCompatibilityProfile_experimental item));
                          GpuCompatibilityProfile_memoryArchitecture item])
          ((GpuCompatibility_profiles <$> compatibility) ?? []));
     ""; table ["NODE"; "PROFILE"; "DRIVER"; "GPU RESOURCE"; "OLLAMA"; "VLLM"] (map node_row nodes)]
    ++ flat_map runtime_messages nodes
    ++ map memory_line (List.filter (fun n => bool_decide (GpuCompatibilityNode_memoryArchitecture n = Some "unified")) nodes))%list.

Definition hardwareCommand (parsed : ParsedArguments) (action : string) (name : option string) : CM unit :=
  let! status_ := api (Runtime status) in
  let operators := SystemStatusPayload_hardwareOperators (rp_value status_) in
  let compatibility := (operators ≫= fun d => dict_get d "amd-gpu") ≫= HardwareOperator_compatibility in
  if listing action then
    output parsed (field_or_empty (rp_json status_) "hardwareOperators") (hardware_text (rp_value status_) compatibility)
  else
    let! session_ := api (Platform session) in
    if negb (canAdminister (Some (rp_value session_)))
    then error "Administrator access is required to change GPU profiles or run validation."
    else
      match compatibility with
      | None => error "The server has not reported its GPU compatibility catalog."
      | Some c =>
          if String.eqb action "profile" then
            let! id := required name "profile id or upstream" in
            let! parameters := of_res (match gpuCompatibilityParameters (if String.eqb id "upstream" then "" else id)
                                               (GpuCompatibility_profiles c) (option_true parsed "allow-experimental") with
                                       | Ok p => Ok p | Err m => Err (X_error m []) end) in
            let! result := api (Runtime (enableModule "amd-gpu" parameters)) in
            output parsed (rp_json result) ("Saved GPU compatibility profile " +:+ id +:+ " without starting engine tests. Run hardware list to inspect host and GPU resource readiness; engine validation is optional.")
          else if String.eqb action "validate" then
            if negb (option_true parsed "yes")
            then error "GPU validation downloads test images and uses GPU resources. Repeat with --yes to confirm."
            else
              let selected := GpuCompatibility_selectedProfile c ?? "" in
              if negb (truthy selected) then error "Select a compatibility profile before requesting validation."
              else
                let! parameters := of_res (match gpuCompatibilityParameters selected (GpuCompatibility_profiles c)
                                                   (GpuCompatibility_allowExperimental c ?? false) with
                                           | Ok p => Ok p | Err m => Err (X_error m []) end) in
                let! now := await_ Date_now in
                let! uuid := await_ Random_uuid in
                let! result := api (Runtime (enableModule "amd-gpu"
                  (dict_set parameters "validationRequest" ("cli-" +:+ String_of_Z now +:+ "-" +:+ uuid)))) in
                output parsed (rp_json result) "GPU validation requested. Engines are evaluated separately; inspect hardware list for results."
          else error ("Unknown hardware action: " +:+ action)
      end.

(** ** license *)
Definition lines_of (r : res cli_exn (list string)) : res cli_exn string := let? l := r in Ok (lines l).

Definition licenseCommand `{Utf8Decoder} (parsed : ParsedArguments) (action : string) (filename : option string) : CM unit :=
  if negb (truthy action) || String.eqb action "status" then
    let! status_ := api (Platform licenseStatus) in
    output_lines parsed (rp_json status_) (lines_of (licenseLines (rp_value status_)))
  else if String.eqb action "export" then
    let! result := api (Platform exportLicense) in
    let! path := required filename "output filename" in
    saveLicenseFile path (LicenseDownload_content (rp_value result)) ;;
    stdout ("License exported with private file permissions." +:+ newline)
  else if negb (includes ["inspect"; "import"] action) then error ("Unknown license action: " +:+ action)
  else
    let! path := required filename "license filename" in
    let! document := readLicenseFile path in
    let! preview := api (Platform (inspectLicense document)) in
    if String.eqb action "inspect"
    then output_lines parsed (rp_json preview) (lines_of (previewLines (rp_value preview)))
    else if negb (LicenseVerification_valid (LicensePreview_candidate (rp_value preview)))
    then error (LicenseVerification_message (LicensePreview_candidate (rp_value preview)))
    else if negb (option_true parsed "yes")
    then error "Review with `license inspect <file>`, then use `license import <file> --yes` to replace the active license."
    else
      let! status_ := api (Platform (importLicense document (LicenseStatus_revision (LicensePreview_current (rp_value preview))))) in
      output_lines parsed (rp_json status_)
        (lines_of (let? l := licenseLines (rp_value status_) in Ok ("License saved." :: l))).

(** ** instance *)
Definition instance_rows (payload : InstancesPayload) : list (list string) :=
  map (fun item => [fi_type item; fi_name item; phase (AppInstance_status (fi_value item) ≫= StatusValue_phase);
                    truncate (AppInstance_status (fi_value item) ≫= StatusValue_message) 70])
    (flattenInstances (Some payload)).

Definition principal_of (kind : string) : option PrincipalKind :=
  if String.eqb kind "users" then Some P_users else if String.eqb kind "groups" then Some P_groups else None.

Definition instanceCommand (parsed : ParsedArguments) (action : string) (name : option string) : CM unit :=
  if String.eqb action "principals" then
    match principal_of (textOption parsed "kind" ?? "users") with
    | None => error "Use --kind users or groups."
    | Some kind =>
        let! first := integerOption parsed "first" 0 in
        let! result := api (Runtime (instancePrincipals kind (textOption parsed "search" ?? "") first)) in
        output parsed (rp_json result)
          (table ["ID"; "NAME"] (map (fun item => [SharingPrincipal_id item; SharingPrincipal_name item]) (pp_items (rp_value result))))
    end
  else if listing action then
    let! payload := api (Runtime instances) in
    output parsed (rp_json payload) (table ["TYPE"; "NAME"; "PHASE"; "MESSAGE"] (instance_rows (rp_value payload)))
  else
    let! id := required name (if String.eqb action "create" then "instance type" else "instance name") in
    if String.eqb action "create" then
      let! payload := readJsonPayload parsed in
      let! result := api (Runtime (createInstance id payload)) in
      output parsed (rp_json result) ("Created " +:+ id +:+ " instance request.")
    else if String.eqb action "access" then
      let! result := api (Runtime (instanceAccess id)) in
      output parsed (rp_json result) (stringify_pretty (rp_json result))
    else if String.eqb action "share" then
      if negb (option_true parsed "yes") then error "Review the instance access policy and use --yes to confirm the change."
      else
        let! policy := readJsonPayload parsed in
        let! current := api (Runtime (instanceAccess id)) in
        let! result := api (Runtime (updateInstanceAccess id policy (InstanceAccessState_revision (rp_value current)))) in
        output parsed (rp_json result) ("Updated instance sharing for " +:+ id +:+ ".")
    else if String.eqb action "remove" then
      let! result := api (Runtime (removeInstance id)) in
      output parsed (rp_json result) ("Removed instance " +:+ id +:+ ".")
    else if String.eqb action "credentials" then
      let! result := api (Runtime (instanceCredentials id)) in
      output parsed (rp_json result) (credential_table (rp_value result))
    else error ("Unknown instance action: " +:+ action).

(** ** model *)

(** [params.set(k, v)] *)
Definition params_set (params : list (string * string)) (k v : string) : list (string * string) := dict_set params k v.

Definition discoveryParams (parsed : ParsedArguments) (query : option string) : list (string * string) :=
  let set_if params k o := if truthy (o ?? "") then params_set params k (o ?? "") else params in
  let params := [("provider", textOption parsed "provider" ?? "huggingface")] in
  let params := set_if params "q" query in
  let params := set_if params "limit" (textOption parsed "limit") in
  set_if params "cursor" (textOption parsed "cursor").

Definition extra_text (d : option (dict json)) (k : string) : string :=
  match present (d ≫= fun d => dict_get d k) with Some v => String_of_json v | None => "" end.
Definition extra_truthy (d : option (dict json)) (k : string) : bool :=
  match d ≫= fun d => dict_get d k with Some v => json_truthy v | None => false end.

Definition cache_text (item : ModelActivation) : string :=
  let status_ := StatusValue_extra <$> ModelActivation_status item in
  if extra_truthy status_ "effectiveKvCacheType" then extra_text status_ "effectiveKvCacheType"
  else if extra_truthy status_ "requestedKvCacheType" then extra_text status_ "requestedKvCacheType" +:+ " (pending)"
  else extra_text (ModelActivation_spec_t_local_t_extra <$> (ModelActivation_spec item ≫= ModelActivation_spec_t_local)) "kvCacheType".

Definition model_row (item : ModelActivation) : list string :=
  let local_ := ModelActivation_spec_t_local_t_extra <$> (ModelActivation_spec item ≫= ModelActivation_spec_t_local) in
  [(ModelActivation_metadata item ≫= KubernetesObjectMeta_name) ?? "";
   (ModelActivation_spec item ≫= ModelActivation_spec_t_type) ?? "";
   phase (ModelActivation_status item ≫= StatusValue_phase);
   extra_text local_ "engine"; extra_text local_ "computeTarget"; cache_text item].

Definition target_row (target : ComputeTarget) : list string :=
  [ComputeTarget_id target; yes_no (ComputeTarget_available target);
   match ComputeTarget_engines target with Some l => join "," l | None => "" end; truncate (ComputeTarget_message target) 70].

Definition model_list_text (payload : ModelsPayload) : string :=
  lines [table ["NAME"; "TYPE"; "PHASE"; "ENGINE"; "TARGET"; "KV CACHE"] (map model_row (ModelsPayload_activations payload));
         ""; "Compute targets";
         table ["ID"; "AVAILABLE"; "ENGINES"; "MESSAGE"] (map target_row (ComputeTargetsPayload_targets (ModelsPayload_computeTargets payload)))].

Definition quantization_label (item : DiscoveryItem) : string :=
  (mjoin (DiscoveryItem_quantization item) ≫= Quantization_label) ?? "".
Definition discovery_row (item : DiscoveryItem) : list string :=
  [DiscoveryItem_repo item; ModelArtifact_format item ?? ""; quantization_label item; ModelArtifact_sizeLabel item ?? ""].
Definition popular_row (item : DiscoveryItem) : list string :=
  [DiscoveryItem_repo item; DiscoveryItem_author item ?? ""; ModelArtifact_format item ?? ""; ModelArtifact_sizeLabel item ?? ""].

Definition estimate_row (result : MemoryEstimate) : list string :=
  [formatMi (Some (MemoryEstimate_minimumMi result)); formatMi (Some (MemoryEstimate_recommendedMi result));
   formatMi (MemoryEstimate_weightsMi result); formatMi (MemoryEstimate_kvCacheMi result);
   MemoryEstimate_kvCacheType result ?? "default"; formatMi (MemoryEstimate_kvCacheSavingsMi result);
   formatBytes (MemoryEstimate_downloadBytes result)].

Definition modelCommand (parsed : ParsedArguments) (action : string) (argument : option string) : CM unit :=
  if listing action then
    let! payload := api (Runtime models) in
    output parsed (rp_json payload) (model_list_text (rp_value payload))
  else if String.eqb action "search" then
    let! q := required argument "search query" in
    let! result := api (Models (searchModels (discoveryParams parsed (Some q)))) in
    output parsed (rp_json result) (table ["REPOSITORY"; "FORMAT"; "QUANTIZATION"; "SIZE"] (map discovery_row (DiscoverySearchPayload_results (rp_value result))))
  else if String.eqb action "popular" then
    let! result := api (Models (popularModels (discoveryParams parsed None))) in
    output parsed (rp_json result) (table ["REPOSITORY"; "PUBLISHER"; "FORMAT"; "SIZE"] (map popular_row (DiscoverySearchPayload_results (rp_value result))))
  else if String.eqb action "artifacts" then
    let! repo := required argument "model repository" in
    let! result := api (Models (modelArtifacts (params_set (discoveryParams parsed None) "repo" repo))) in
    output parsed (rp_json result) (table ["ARTIFACT"; "FORMAT"; "QUANTIZATION"; "SIZE"] (map discovery_row (DiscoveryArtifactsPayload_artifacts (rp_value result))))
  else if String.eqb action "estimate" then
    let! payload := readJsonPayload parsed in
    let! result := api (Models (estimateMemory payload)) in
    output parsed (rp_json result)
      (table ["MINIMUM"; "RECOMMENDED"; "WEIGHTS"; "KV CACHE"; "KV FORMAT"; "KV SAVING"; "DOWNLOAD"] [estimate_row (rp_value result)])
  else if String.eqb action "create-local" then
    let! payload := readJsonPayload parsed in
    let! result := api (Models (createLocalModel payload)) in
    output parsed (rp_json result) "Created local model request."
  else if String.eqb action "create-external" then
    let! payload := readJsonPayload parsed in
    let! result := api (Models (createExternalModel payload)) in
    output parsed (rp_json result) "Created external model request."
  else if String.eqb action "remove" then
    let! name := required argument "model name" in
    let! result := api (Models (removeModel name)) in
    output parsed (rp_json result) ("Removed model " +:+ name +:+ ".")
  else if String.eqb action "cleanup-runtime" then
    let! result := api (Models removeLocalRuntime) in
    output parsed (rp_json result) "Requested local runtime cleanup."
  else error ("Unknown model action: " +:+ action).

(** ** settings *)
Definition settingsCommand (parsed : ParsedArguments) (action : string) : CM unit :=
  if negb (truthy action) || String.eqb action "get" then
    let! result := api (Federation settings) in
    let r := rp_value result in
    output parsed (rp_json result)
      (table ["PUBLIC DOMAIN"; "DASHBOARD HOST"; "MDNS DOMAIN"] [[Settings_publicDomain r; Settings_dashboardHost r; Settings_mdnsDomain r]])
  else if negb (String.eqb action "set") then error ("Unknown settings action: " +:+ action)
  else
    let! current := api (Federation settings) in
    let! result := api (Federation (updateSettings (JObj
      [("publicDomain", JStr (textOption parsed "public-domain" ?? Settings_publicDomain (rp_value current)));
       ("mdnsDomain", JStr (textOption parsed "mdns-domain" ?? Settings_mdnsDomain (rp_value current)))]))) in
    output parsed (rp_json result) "Settings updated.".

(** ** user *)
Definition user_row (user : User) : list string :=
  [User_id user; User_username user; yes_no (User_enabled user);
   (User_effectiveAccessLevel user ??? User_accessLevel user) ?? "";
   User_provider user ?? match User_source user with
                         | Some (User_source_t_String s) => s
                         | Some (User_source_t_Object _) => "[object Object]"
                         | None => ""
                         end].

Definition userCommand (parsed : ParsedArguments) (action : string) (id value : option string) : CM unit :=
  let completed {c} (m : CM (Reply (result_of c))) : CM unit :=
    let! result := m in output parsed (rp_json result) ("User " +:+ action +:+ " completed.") in
  let text name fallback := JStr (textOption parsed name ?? fallback) in
  if listing action then
    let! first := integerOption parsed "first" 0 in
    let! max := integerOption parsed "max" 25 in
    let! result := api (Access (users (textOption parsed "search" ?? "") first max)) in
    output parsed (rp_json result)
      (table ["ID"; "USERNAME"; "ENABLED"; "ACCESS"; "PROVIDER"] (map user_row (UsersPayload_users (rp_value result))))
  else
    let! userId := required id (if String.eqb action "create" then "username" else "user id") in
    if String.eqb action "create" then
      let! password := readPassword parsed in
      completed (api (Access (createUser (JObj
        [("username", JStr userId); ("password", JStr password); ("accessLevel", text "access-level" "user");
         ("firstName", text "first-name" ""); ("lastName", text "last-name" ""); ("email", text "email" "")]))))
    else if String.eqb action "update" then
      completed (api (Access (updateUser userId (JObj
        (opt_key "firstName" (JStr <$> textOption parsed "first-name")
         ++ opt_key "lastName" (JStr <$> textOption parsed "last-name")
         ++ opt_key "email" (JStr <$> textOption parsed "email"))%list))))
    else if String.eqb action "role" then
      let! level := required value "access level" in
      completed (api (Access (updateUserRoles userId level)))
    else if String.eqb action "enable" || String.eqb action "disable" then
      completed (api (Access (setUserEnabled userId (String.eqb action "enable"))))
    else if String.eqb action "password" then
      let! password := readPassword parsed in
      completed (api (Access (resetUserPassword userId password (negb (option_set parsed "permanent")))))
    else if String.eqb action "delete" then
      let! confirm := required (textOption parsed "confirm") "--confirm username" in
      completed (api (Access (deleteUser userId confirm)))
    else error ("Unknown user action: " +:+ action).

(** ** api-key, kubernetes-access, status *)
Definition apiKeyCommand (parsed : ParsedArguments) (action : string) (argument : option string) : CM unit :=
  if listing action then
    let! result := api (Access apiAccess) in
    output parsed (rp_json result)
      (table ["ID"; "NAME"; "HINT"; "STATUS"]
        (map (fun item => [ApiKeyItem_id item; ApiKeyItem_name item; ApiKeyItem_keyHint item ?? ""; ApiKeyItem_status item ?? ""])
           (ApiAccessPayload_items (rp_value result))))
  else if String.eqb action "create" then
    let! name := required argument "API key name" in
    let! result := api (Access (createApiKey name)) in
    output parsed (rp_json result) (lines ["API key created. Copy it now; it is shown only once:"; ck_key (rp_value result)])
  else if String.eqb action "revoke" then
    let! id := required argument "API key id" in
    let! result := api (Access (revokeApiKey id)) in
    output parsed (rp_json result) ("Revoked API key " +:+ id +:+ ".")
  else error ("Unknown api-key action: " +:+ action).

Definition kubernetesCommand (parsed : ParsedArguments) (action : string) (id level : option string) : CM unit :=
  if listing action then
    let! first := integerOption parsed "first" 0 in
    let! max := integerOption parsed "max" 100 in
    let! result := api (Access (kubernetesAccess (textOption parsed "search" ?? "") first max)) in
    output parsed (rp_json result)
      (table ["ID"; "USERNAME"; "ENABLED"; "ACCESS"]
        (map (fun user => [KubernetesAccessUser_id user; KubernetesAccessUser_username user; yes_no (KubernetesAccessUser_enabled user);
                           KubernetesAccessUser_accessLevel user ?? "none"])
           (KubernetesAccessPayload_users (rp_value result))))
  else if String.eqb action "set" then
    let! user := required id "user id" in
    let! level := required level "access level" in
    let! result := api (Access (updateKubernetesAccess user level)) in
    output parsed (rp_json result) "Kubernetes access updated."
  else if String.eqb action "kubeconfig" then
    let! user := required id "user id" in
    let! result := api (Access (kubeconfig user)) in
    let content := kc_content (rp_value result) in
    let filename := textOption parsed "output" ?? "" in
    if negb (truthy filename) || String.eqb filename "-"
    then stdout (if endsWith newline content then content else content +:+ newline)
    else await (Write_file filename content false) ;; stdout ("Wrote " +:+ filename +:+ "." +:+ newline)
  else error ("Unknown kubernetes-access action: " +:+ action).

Definition statusCommand (parsed : ParsedArguments) : CM unit :=
  let! result := api (Runtime status) in
  let r := rp_value result in
  output parsed (rp_json result)
    (lines [table ["OPERATOR"; "ACTIVE"; "PHASE"; "MESSAGE"]
              (map (fun e => [e.1; yes_no (HardwareOperator_operatorActive e.2); phase (HardwareOperator_phase e.2);
                              truncate (HardwareOperator_message e.2) 70])
                 (entries (SystemStatusPayload_hardwareOperators r ?? [])));
            "";
            table ["RESOURCE"; "COUNT"]
              [["Flux"; count_cell (SystemStatusPayload_fluxKustomizations r)]; ["Pods"; count_cell (SystemStatusPayload_pods r)];
               ["Services"; count_cell (SystemStatusPayload_services r)]; ["Ingresses"; count_cell (SystemStatusPayload_ingresses r)];
               ["HTTPRoutes"; count_cell (SystemStatusPayload_httpRoutes r)]]]).

(** ** runCli *)
Definition open_tui (parsed : ParsedArguments) (demo : bool) : CM unit :=
  let! refresh := integerOption parsed "refresh" 15 in
  await (Run_tui demo (negb (option_set parsed "no-color")) refresh).

Definition login_prompt (verificationUri userCode : string) (completeUri : option string) : string :=
  lines ["Open " +:+ (completeUri ?? verificationUri); "Enter code: " +:+ userCode;
         "Waiting for authentication" +:+ String ellipsis ""; ""].

Definition loginCommand (parsed : ParsedArguments) : CM unit :=
  await (Login (negb (option_set parsed "no-open")) login_prompt) ;;
  let! session_ := api (Platform session) in
  output parsed (rp_json session_) ("Signed in as " +:+ Session_username (rp_value session_) +:+ ".").

Definition whoamiCommand (parsed : ParsedArguments) : CM unit :=
  let! result := api (Platform session) in
  output parsed (rp_json result)
    (table ["USERNAME"; "ROLES"] [[Session_username (rp_value result); join ", " (Session_roles (rp_value result))]]).

Definition consoleCommand (parsed : ParsedArguments) : CM unit :=
  try_catch (api (Platform session) ;; mret tt)
    (fun e =>
       if negb (consoleLoginRequired e) then throw e
       else
         await Logout ;;
         await (Login false (fun uri code _ => consoleLoginScreen uri code)) ;;
         let! session_ := api (Platform session) in
         stdout (lines [""; "Angemeldet als " +:+ Session_username (rp_value session_) +:+ ". TUI wird geladen ..."; ""])) ;;
  open_tui parsed false.

Definition is_word (command : string) (words : list string) : bool := includes words command.

Definition dispatch `{Utf8Decoder} (parsed : ParsedArguments) (command action : string) (argument extra : option string) : CM unit :=
  if String.eqb command "login" then loginCommand parsed
  else if String.eqb command "logout" then await Logout ;; stdout ("Signed out locally." +:+ newline)
  else if String.eqb command "whoami" then whoamiCommand parsed
  else if String.eqb command "overview" then summary parsed
  else if is_word command ["service"; "services"] then serviceCommand parsed action argument
  else if String.eqb command "hardware" then hardwareCommand parsed action argument
  else if is_word command ["instance"; "instances"] then instanceCommand parsed action argument
  else if is_word command ["model"; "models"] then modelCommand parsed action argument
  else if String.eqb command "settings" then settingsCommand parsed action
  else if String.eqb command "license" then licenseCommand parsed action argument
  else if is_word command ["user"; "users"] then userCommand parsed action argument extra
  else if is_word command ["api-key"; "api-keys"] then apiKeyCommand parsed action argument
  else if is_word command ["kubernetes-access"; "kubernetes"] then kubernetesCommand parsed action argument extra
  else if String.eqb command "status" then statusCommand parsed
  else if String.eqb command "tui" then open_tui parsed false
  else if String.eqb command "console" then consoleCommand parsed
  else error ("Unknown command: " +:+ command +:+ ". Run `magicstick --help` for usage.").

(** The exit code is 0 when it returns. *)
Definition runCli `{Utf8Decoder} (argv : list string) : CM unit :=
  let parsed := parseArguments argv in
  let positionals := pa_positionals parsed in
  if option_set parsed "version" then stdout (VERSION +:+ newline)
  else if option_set parsed "help" || bool_decide (positionals = []) then stdout HELP
  else
    let command := (positionals !! 0%nat) ?? "" in
    let action := (positionals !! 1%nat) ?? "" in
    let argument := positionals !! 2%nat in
    let extra := positionals !! 3%nat in
    if option_set parsed "demo" then
      if negb (String.eqb command "tui") || negb (length positionals =? 1)%nat
      then error "Offline preview is available only with `magicstick tui --demo`."
      else open_tui parsed true
    else if bool_decide (is_Some (option_ parsed "insecure"))
    then error "--insecure is no longer supported. Trust the appliance CA with --ca-file or MAGICSTICK_CA_FILE."
    else
      await (Create_runtime {| ro_apiUrl := textOption parsed "api-url"; ro_issuer := textOption parsed "issuer";
                               ro_clientId := textOption parsed "client-id"; ro_caFile := textOption parsed "ca-file";
                               ro_accessToken := None; ro_oidcNetworkUrl := None |}) ;;
      dispatch parsed command action argument extra.
