(* ===== verification/CliCommandProps.v ===== *)
(** * What a command line may change

    Whatever the server, the files and the terminal answer, a run of the CLI sends at most
    one request that changes the appliance, the one its command words ask for, with the
    confirmations the command demands. *)

From S2P Require Import Prelude Js Number Json JsonParse Prog Contracts DashboardCore ApiClient Cli CliAuth CliFiles CliCommands.

Local Open Scope string_scope.
Local Open Scope js_scope.
Local Open Scope Z_scope.

(** ** The specification *)

(** The requests that change the appliance: those sent with a changing method, except the
    three that only validate or estimate. *)
Definition changing (c : api_call) : bool :=
  match c with
  | Platform (inspectLicense _) | Federation (validateFederation _)
  | Models (estimateMemory _) | Models (estimateModelUpdate _ _) => false
  | _ => mutationMethod (ep_method (endpoint c))
  end.

(** What a run has done and learnt: whether the runtime exists, the changes requested, whether
    the last session read was an administrator's, and the last license and sharing policy read. *)
Record Audit : Type := {
  au_ready : bool;
  au_changes : list api_call;
  au_admin : bool;
  au_preview : option (string * LicensePreview);
  au_access : option (string * InstanceAccessState)
}.
Definition unused : Audit := {| au_ready := false; au_changes := []; au_admin := false; au_preview := None; au_access := None |}.

Definition learn_admin (b : bool) (g : Audit) : Audit :=
  {| au_ready := au_ready g; au_changes := au_changes g; au_admin := b; au_preview := au_preview g; au_access := au_access g |}.
Definition learn_preview (document : string) (p : LicensePreview) (g : Audit) : Audit :=
  {| au_ready := au_ready g; au_changes := au_changes g; au_admin := au_admin g; au_preview := Some (document, p); au_access := au_access g |}.
Definition learn_access (name : string) (a : InstanceAccessState) (g : Audit) : Audit :=
  {| au_ready := au_ready g; au_changes := au_changes g; au_admin := au_admin g; au_preview := au_preview g; au_access := Some (name, a) |}.
Definition changed (c : api_call) (g : Audit) : Audit :=
  {| au_ready := au_ready g; au_changes := if changing c then (au_changes g ++ [c])%list else au_changes g;
     au_admin := au_admin g; au_preview := au_preview g; au_access := au_access g |}.
Definition created (g : Audit) : Audit :=
  {| au_ready := true; au_changes := au_changes g; au_admin := au_admin g; au_preview := au_preview g; au_access := au_access g |}.

Definition learnt (g : Audit) (c : api_call) : Reply (result_of c) -> Audit :=
  match c return Reply (result_of c) -> Audit with
  | Platform session => fun r => learn_admin (canAdminister (Some (rp_value r))) g
  | Platform (inspectLicense document) => fun r => learn_preview document (rp_value r) g
  | Runtime (instanceAccess name) => fun r => learn_access name (rp_value r) g
  | _ => fun _ => g
  end.

Definition cli_upd X (g : Audit) (op : cliE X) : X -> Audit :=
  match op in cliE X return X -> Audit with
  | Api c => fun r => match r with Ok r => changed c (learnt g c r) | Err _ => changed c g end
  | Create_runtime _ => fun _ => created g
  | _ => fun _ => g
  end.
Definition cli_asm X (g : Audit) (op : cliE X) (x : X) : Prop := True.

Lemma admissible_any g (tr : list (event (E := cliE))) : admissible cli_asm cli_upd g tr.
Proof. revert g. induction tr as [|[X op x] tr IH]; intros g; cbn; [done | by split]. Qed.

Section specification.
Context (parsed : ParsedArguments).

(** The command words. *)
Definition command_is (l : list string) : Prop := (pa_positionals parsed !! 0%nat) ?? "" ∈ l.
Definition action_is (a : string) : Prop := (pa_positionals parsed !! 1%nat) ?? "" = a.
Definition argument_is (a : string) : Prop := pa_positionals parsed !! 2%nat = Some a.
Definition extra_is (a : string) : Prop := pa_positionals parsed !! 3%nat = Some a.
Definition confirmed : Prop := option_true parsed "yes" = true.

(** The change each command stands for. *)
Definition authorised (g : Audit) (c : api_call) : Prop :=
  match c with
  | Runtime (enableModule name parameters) =>
      (command_is ["service"; "services"] /\ action_is "enable" /\ argument_is name) \/
      (command_is ["hardware"] /\ au_admin g = true /\ name = "amd-gpu" /\
       (action_is "profile" \/ action_is "validate" /\ confirmed))
  | Runtime (disableModule name None) => command_is ["service"; "services"] /\ action_is "disable" /\ argument_is name
  | Runtime (createInstance type _) => command_is ["instance"; "instances"] /\ action_is "create" /\ argument_is type
  | Runtime (removeInstance name) => command_is ["instance"; "instances"] /\ action_is "remove" /\ argument_is name
  | Runtime (updateInstanceAccess name _ revision) =>
      command_is ["instance"; "instances"] /\ action_is "share" /\ argument_is name /\ confirmed /\
      exists current, au_access g = Some (name, current) /\ revision = InstanceAccessState_revision current
  | Models (createLocalModel _) => command_is ["model"; "models"] /\ action_is "create-local"
  | Models (createExternalModel _) => command_is ["model"; "models"] /\ action_is "create-external"
  | Models (removeModel name) => command_is ["model"; "models"] /\ action_is "remove" /\ argument_is name
  | Models removeLocalRuntime => command_is ["model"; "models"] /\ action_is "cleanup-runtime"
  | Federation (updateSettings _) => command_is ["settings"] /\ action_is "set"
  | Platform (importLicense document revision) =>
      command_is ["license"] /\ action_is "import" /\ confirmed /\
      exists p, au_preview g = Some (document, p) /\ LicenseVerification_valid (LicensePreview_candidate p) = true /\
                revision = LicenseStatus_revision (LicensePreview_current p)
  | Access (createUser payload) =>
      command_is ["user"; "users"] /\ action_is "create" /\
      exists name, argument_is name /\ field_or_empty payload "username" = JStr name
  | Access (updateUser id _) => command_is ["user"; "users"] /\ action_is "update" /\ argument_is id
  | Access (updateUserRoles id level) => command_is ["user"; "users"] /\ action_is "role" /\ argument_is id /\ extra_is level
  | Access (setUserEnabled id enabled) =>
      command_is ["user"; "users"] /\ action_is (if enabled then "enable" else "disable") /\ argument_is id
  | Access (resetUserPassword id _ _) => command_is ["user"; "users"] /\ action_is "password" /\ argument_is id
  | Access (deleteUser id confirmation) =>
      command_is ["user"; "users"] /\ action_is "delete" /\ argument_is id /\ textOption parsed "confirm" = Some confirmation
  | Access (createApiKey name) => command_is ["api-key"; "api-keys"] /\ action_is "create" /\ argument_is name
  | Access (revokeApiKey id) => command_is ["api-key"; "api-keys"] /\ action_is "revoke" /\ argument_is id
  | Access (updateKubernetesAccess id level) =>
      command_is ["kubernetes-access"; "kubernetes"] /\ action_is "set" /\ argument_is id /\ extra_is level
  | _ => False
  end.

(** What each operation needs. A file is written only by the two exporting commands, a
    session changed only by those that sign in or out. *)
Definition cli_pre X (g : Audit) (op : cliE X) : Prop :=
  match op with
  | Api c => au_ready g = true /\ (changing c = true -> au_changes g = [] /\ authorised g c)
  | Create_runtime _ =>
      au_ready g = false /\ option_set parsed "demo" = false /\ option_set parsed "help" = false /\
      option_set parsed "version" = false /\ option_ parsed "insecure" = None
  | Login _ _ => command_is ["login"; "console"]
  | Logout => command_is ["logout"; "console"]
  | Run_tui demo _ _ => demo = option_set parsed "demo" /\ command_is ["tui"; "console"]
  | Write_file path _ exclusive =>
      command_is ["license"] /\ action_is "export" /\ argument_is path /\ exclusive = true \/
      command_is ["kubernetes-access"; "kubernetes"] /\ action_is "kubeconfig" /\ textOption parsed "output" = Some path
  | _ => True
  end.
End specification.

(** ** Symbolic execution *)
Section proofs.
Context `{Utf8Decoder} (parsed : ParsedArguments).

Local Notation W m := (wpm (cli_pre parsed) cli_asm cli_upd m).
Definition whatever : Audit -> unit -> res cli_exn unit -> Prop := fun _ _ _ => True.

(** Methods that perform only unrestricted operations. *)
Definition quiet {A} (m : CM A) : Prop :=
  forall s g (Q : Audit -> unit -> res cli_exn A -> Prop), (forall s' r, Q g s' r) -> W m s g Q.

Lemma quiet_ret {A} (a : A) : quiet (mret a).
Proof. intros s g Q HQ. wpm_step. apply HQ. Qed.
Lemma quiet_error {A} m : quiet (error (A := A) m).
Proof. intros s g Q HQ. unfold error. wpm_step. apply HQ. Qed.
Lemma quiet_of_res {A} (r : res cli_exn A) : quiet (of_res r).
Proof. intros s g Q HQ. wpm_step. apply HQ. Qed.
Lemma quiet_bind {A B} (m : CM A) (f : A -> CM B) : quiet m -> (forall a, quiet (f a)) -> quiet (mbind m f).
Proof. intros Hm Hf s g Q HQ. wpm_step. apply Hm. intros s' [a|e]; [by apply Hf | apply HQ]. Qed.
Lemma quiet_finally {A} (m : CM A) f : quiet m -> quiet f -> quiet (try_finally m f).
Proof. intros Hm Hf s g Q HQ. wpm_step. apply Hm. intros s' r. apply Hf. intros s'' []; apply HQ. Qed.
Lemma quiet_await {A} (op : cliE (res cli_exn A)) :
  (forall g, cli_pre parsed _ g op) -> (forall g x, cli_upd _ g op x = g) -> quiet (await op).
Proof. intros Hp Hu s g Q HQ. wpm_step; [apply Hp|]. intros r _. rewrite Hu. apply HQ. Qed.
Lemma quiet_await_ {A} (op : cliE A) :
  (forall g, cli_pre parsed _ g op) -> (forall g x, cli_upd _ g op x = g) -> quiet (await_ op).
Proof. intros Hp Hu s g Q HQ. wpm_step; [apply Hp|]. intros r _. rewrite Hu. apply HQ. Qed.

Lemma quiet_output value human : quiet (output_lines parsed value human).
Proof.
  unfold output_lines, stdout. destruct (option_set parsed "json"); [by apply quiet_await_|].
  apply quiet_bind; [apply quiet_of_res|]. intros text. by apply quiet_await_.
Qed.

Lemma quiet_integer name d : quiet (integerOption parsed name d).
Proof.
  unfold integerOption. destruct (textOption _ _); [|apply quiet_ret]. destruct (_ || _); [apply quiet_error | apply quiet_ret].
Qed.

Lemma quiet_source filename : quiet (read_source filename).
Proof. unfold read_source. destruct (String.eqb _ _); by apply quiet_await. Qed.

Lemma quiet_required o d : quiet (required o d).
Proof. unfold required. destruct (truthy _); [apply quiet_ret | apply quiet_error]. Qed.

Lemma quiet_payload : quiet (readJsonPayload parsed).
Proof.
  apply quiet_bind; [apply quiet_required|]. intros f. apply quiet_bind; [apply quiet_source|].
  intros text. destruct (JSON_parse text); [apply quiet_ret | apply quiet_error].
Qed.

Lemma quiet_password : quiet (readPassword parsed).
Proof.
  unfold readPassword. destruct (truthy _); [|destruct (option_set _ _); [|apply quiet_error]];
    (apply quiet_bind; [first [apply quiet_source | by apply quiet_await] | intros; apply quiet_ret]).
Qed.

Lemma quiet_read_bounded free buffer : quiet (read_bounded free buffer).
Proof.
  revert buffer. induction free as [|f IH]; intros buffer; cbn [read_bounded]; [apply quiet_ret|].
  apply quiet_bind; [by apply quiet_await|]. intros [|z chunk]; [apply quiet_ret|].
  destruct (_ <? _)%Z; [apply IH | apply quiet_ret].
Qed.

Lemma quiet_license path : quiet (readLicenseFile path).
Proof.
  unfold readLicenseFile. apply quiet_bind; [by apply quiet_await|]. intros []; cbn [negb]; [|apply quiet_error].
  apply quiet_bind; [by apply quiet_await|]. intros _. apply quiet_finally; [|by apply quiet_await].
  apply quiet_bind; [by apply quiet_await|]. intros []; cbn [negb]; [|apply quiet_error].
  apply quiet_bind; [apply quiet_read_bounded|]. intros buffer.
  destruct (_ <? _); [apply quiet_error|]. destruct (utf8_decode buffer); [apply quiet_ret | apply quiet_error].
Qed.

(** A required word is the argument itself. *)
Lemma wpm_required o d s g (Q : Audit -> unit -> res cli_exn string -> Prop) :
  (forall x, o = Some x -> Q g s (Ok x)) -> (forall e, Q g s (Err e)) -> W (required o d) s g Q.
Proof.
  intros H1 H2. unfold required. destruct (truthy (o ?? "")) eqn:E; [|apply H2].
  destruct o as [x|]; [by apply H1 | discriminate E].
Qed.

Lemma wpm_api c s g (Q : Audit -> unit -> res cli_exn (Reply (result_of c)) -> Prop) :
  au_ready g = true -> (changing c = true -> au_changes g = [] /\ authorised parsed g c) ->
  (forall r, Q (cli_upd _ g (Api c) (Ok r)) s (Ok r)) -> (forall e, Q (changed c g) s (Err e)) -> W (api c) s g Q.
Proof. intros H1 H2 H3 H4. unfold api. wpm_step; [by split|]. intros [r|e] _; [apply H3 | apply H4]. Qed.

Lemma changed_not c g : changing c = false -> changed c g = g.
Proof. intros H1. unfold changed. rewrite H1. by destruct g. Qed.

Lemma wpm_read c s g (Q : Audit -> unit -> res cli_exn (Reply (result_of c)) -> Prop) :
  au_ready g = true -> changing c = false ->
  (forall r, Q (learnt g c r) s (Ok r)) -> (forall e, Q g s (Err e)) -> W (api c) s g Q.
Proof.
  intros H1 H2 H3 H4. apply wpm_api; [done | by rewrite H2 | |]; intros r; cbn [cli_upd]; by rewrite changed_not.
Qed.

Lemma wpm_started c s g (Q : Audit -> unit -> res cli_exn (res cli_exn (Reply (result_of c))) -> Prop) :
  au_ready g = true -> changing c = false ->
  (forall r, Q (learnt g c r) s (Ok (Ok r))) -> (forall e, Q g s (Ok (Err e))) -> W (started c) s g Q.
Proof.
  intros H1 H2 H3 H4. unfold started. wpm_step; [split; [done|]; by rewrite H2|].
  intros [r|e] _; cbn [cli_upd]; rewrite changed_not by done; auto.
Qed.
End proofs.

(** A step of a command; [api] calls that change something are left to the caller. *)
Ltac quiet_step lem := apply lem; intros ? ?; cbv beta.
Ltac cmd_step :=
  lazymatch goal with
  | |- whatever _ _ _ => exact I
  | |- match ?r with Ok _ => _ | Err _ => whatever _ _ _ end => destruct r; [|exact I]
  | |- wpm _ _ _ (error _) _ _ _ => quiet_step quiet_error
  | |- wpm _ _ _ (output _ _ _) _ _ _ => quiet_step quiet_output
  | |- wpm _ _ _ (output_lines _ _ _) _ _ _ => quiet_step quiet_output
  | |- wpm _ _ _ (stdout _) _ _ _ => unfold stdout
  | |- wpm _ _ _ (integerOption _ _ _) _ _ _ => quiet_step quiet_integer
  | |- wpm _ _ _ (readJsonPayload _) _ _ _ => quiet_step quiet_payload
  | |- wpm _ _ _ (readPassword _) _ _ _ => quiet_step quiet_password
  | |- wpm _ _ _ (readLicenseFile _) _ _ _ => quiet_step quiet_license
  | |- wpm _ _ _ (required _ _) _ _ _ => apply wpm_required; [intros ? ?|intros ?; exact I]
  | |- wpm _ _ _ (started _) _ _ _ => apply wpm_started; [assumption | reflexivity | intros ?; cbn [learnt] | intros ?]
  | |- wpm _ _ _ (api _) _ _ _ =>
      first [ apply wpm_read; [assumption | reflexivity | intros ?; cbn [learnt] | intros ?; exact I]
            | apply wpm_api; [assumption | intros _ | intros ? | intros ?; exact I] ]
  | |- wpm _ _ _ (await_ _) _ _ _ => apply wpm_await_; [exact I | intros ? _; cbn [cli_upd]]
  | |- wpm _ _ _ (saveLicenseFile _ _) _ _ _ => unfold saveLicenseFile
  | |- wpm _ _ _ (await _) _ _ _ => apply wpm_await; [try exact I | intros [?|?] _; cbn [cli_upd]; [|exact I]]
  | |- wpm _ _ _ (if ?b then _ else _) _ _ _ => let E := fresh "E" in destruct b eqn:E
  | |- wpm _ _ _ (match ?o with Some _ => _ | None => _ end) _ _ _ => destruct o
  | _ => wpm_step
  end.
Ltac cmd := repeat cmd_step.

(** The request is the one the words ask for. *)
Ltac authorise :=
  try (split; [cbn; assumption|]); cbn [authorised cli_pre];
  repeat match goal with
  | E : (_ =? _)%string = true |- _ => apply String.eqb_eq in E
  | E : negb _ = false |- _ => apply negb_false_iff in E
  end;
  unfold argument_is, extra_is, action_is, confirmed in *; subst; cbn [au_access au_preview au_admin learn_access learn_preview learn_admin];
  first [ by split_and! | by left; split_and! | by right; split_and!; auto | by split_and!; eauto 6 | naive_solver ].

Section commands.
Context `{Utf8Decoder} (parsed : ParsedArguments).
Local Notation W m := (wpm (cli_pre parsed) cli_asm cli_upd m).

(** The state of a run when a command starts. *)
Definition fresh_run (g : Audit) : Prop := au_ready g = true /\ au_changes g = [].

Section words.
Context (g : Audit) (action : string) (argument extra : option string).
Hypothesis Hg : fresh_run g.
Hypothesis Haction : action_is parsed action.
Hypothesis Hargument : argument = pa_positionals parsed !! 2%nat.
Hypothesis Hextra : extra = pa_positionals parsed !! 3%nat.

Lemma service_wp : command_is parsed ["service"; "services"] -> W (serviceCommand parsed action argument) tt g whatever.
Proof using All. intros Hc. destruct Hg. unfold serviceCommand. cmd; authorise. Qed.

Lemma hardware_wp : command_is parsed ["hardware"] -> W (hardwareCommand parsed action argument) tt g whatever.
Proof using All.
  intros Hc. destruct Hg. unfold hardwareCommand. cmd; authorise.
Qed.

Lemma license_wp : command_is parsed ["license"] -> W (licenseCommand parsed action argument) tt g whatever.
Proof using All. intros Hc. destruct Hg. unfold licenseCommand. cmd; [authorise|].
  assert (Hi : (action =? "import")%string = true).
  { apply negb_false_iff, includes_spec in E1. apply String.eqb_neq in E2. apply String.eqb_eq. set_solver. }
  authorise.
Qed.

Lemma instance_wp : command_is parsed ["instance"; "instances"] -> W (instanceCommand parsed action argument) tt g whatever.
Proof using All. intros Hc. destruct Hg. unfold instanceCommand. cmd; authorise. Qed.

Lemma model_wp : command_is parsed ["model"; "models"] -> W (modelCommand parsed action argument) tt g whatever.
Proof using All. intros Hc. destruct Hg. unfold modelCommand. cmd; authorise. Qed.

Lemma settings_wp : command_is parsed ["settings"] -> W (settingsCommand parsed action) tt g whatever.
Proof using All. intros Hc. destruct Hg. unfold settingsCommand. cmd; authorise. Qed.

Lemma user_wp : command_is parsed ["user"; "users"] -> W (userCommand parsed action argument extra) tt g whatever.
Proof using All. intros Hc. destruct Hg. unfold userCommand. cmd; try authorise.
  destruct (action =? "enable")%string eqn:E4; cbn [orb] in E3; authorise.
Qed.

Lemma api_key_wp : command_is parsed ["api-key"; "api-keys"] -> W (apiKeyCommand parsed action argument) tt g whatever.
Proof using All. intros Hc. destruct Hg. unfold apiKeyCommand. cmd; authorise. Qed.

Lemma kubernetes_wp :
  command_is parsed ["kubernetes-access"; "kubernetes"] -> W (kubernetesCommand parsed action argument extra) tt g whatever.
Proof using All. intros Hc. destruct Hg. unfold kubernetesCommand. cmd; [authorise|].
  apply orb_false_elim in E2 as [E2 _]. destruct (textOption parsed "output") as [path|] eqn:Hout; [|discriminate E2].
  cbn [nullish cli_pre]. rewrite Hout. authorise.
Qed.

Lemma status_wp : W (statusCommand parsed) tt g whatever.
Proof using All. destruct Hg. unfold statusCommand. cmd. Qed.
End words.

Lemma started_wp g c s (Q : Audit -> unit -> res cli_exn (res cli_exn (Reply (result_of c))) -> Prop) :
  fresh_run g -> changing c = false -> (forall r : Reply (result_of c), learnt g c r = g) -> (forall r, Q g s (Ok r)) ->
  W (started c) s g Q.
Proof. intros Hg H1 H2 HQ. destruct Hg. apply wpm_started; [done | done | |]; intros r; rewrite ?H2; apply HQ. Qed.

Lemma started_if_wp g b c s (Q : Audit -> unit -> res cli_exn (res cli_exn (option (result_of c))) -> Prop) :
  fresh_run g -> changing c = false -> (forall r : Reply (result_of c), learnt g c r = g) -> (forall r, Q g s (Ok r)) ->
  W (started_if b c) s g Q.
Proof.
  intros Hg H1 H2 HQ. unfold started_if. destruct b; [|wpm_step; apply HQ].
  wpm_step. apply started_wp; [done | done | done |]. intros r. wpm_step. apply HQ.
Qed.

Lemma loadSnapshot_wp g (Q : Audit -> unit -> res cli_exn DashboardSnapshot -> Prop) :
  fresh_run g -> (forall b r, Q (learn_admin b g) tt r) -> W loadSnapshot tt g Q.
Proof.
  intros [H1 H2] HQ. unfold loadSnapshot. wpm_step. apply wpm_read; [done | done | |].
  2:{ intros e. specialize (HQ (au_admin g) (Err e)). by destruct g. }
  intros r. cbn [learnt]. set (g' := learn_admin _ g). assert (Hg' : fresh_run g') by done.
  assert (HQ' : forall r, Q g' tt r) by (intros r'; apply HQ). clearbody g'.
  do 5 (wpm_step; apply started_wp; [done | done | done | intros ?]).
  do 4 (wpm_step; apply started_if_wp; [done | done | done | intros ?]).
  do 9 (wpm_step; wpm_step; lazymatch goal with |- match ?r with Ok _ => _ | Err _ => _ end => destruct r; [|apply HQ'] end).
  wpm_step. destruct (canAdminister _);
    [apply started_wp; [done | done | done | intros ?] | wpm_step];
    (wpm_step; wpm_step; [done | intros ? _; wpm_step; apply HQ']).
Qed.

Lemma open_tui_wp g demo :
  demo = option_set parsed "demo" -> command_is parsed ["tui"; "console"] -> W (open_tui parsed demo) tt g whatever.
Proof.
  intros Hd Hc. unfold open_tui. wpm_step. apply quiet_integer. intros [] [n|e]; [|done]. by wpm_step.
Qed.

Lemma login_wp g : fresh_run g -> command_is parsed ["login"; "console"] -> W (loginCommand parsed) tt g whatever.
Proof. intros [H1 H2] Hc. unfold loginCommand. cmd. done. Qed.

Lemma summary_wp g : fresh_run g -> W (summary parsed) tt g whatever.
Proof.
  intros Hg. unfold summary. wpm_step. apply loadSnapshot_wp; [done|]. intros b [snapshot|e]; [|done]. cmd.
Qed.

Lemma console_wp g :
  fresh_run g -> option_set parsed "demo" = false -> command_is parsed ["tui"; "console"] ->
  command_is parsed ["login"; "console"] -> command_is parsed ["logout"; "console"] ->
  W (consoleCommand parsed) tt g whatever.
Proof.
  intros [H1 H2] Hd Htui Hlogin Hlogout. unfold consoleCommand.
  assert (Hopen : forall s g', W (open_tui parsed false) s g' whatever) by (intros [] g'; by apply open_tui_wp).
  wpm_step. wpm_step. wpm_step. apply wpm_read; [done | done | |]; cbn [learnt].
  { intros r. wpm_step. apply Hopen. }
  intros e. destruct (negb (consoleLoginRequired e)); [by wpm_step|].
  wpm_step. wpm_step; [done|]. intros [[]|?] _; [|done]. cbn [cli_upd].
  wpm_step. wpm_step; [done|]. intros [[]|?] _; [|done]. cbn [cli_upd].
  wpm_step. apply wpm_read; [done | done | |]; cbn [learnt]; [|done].
  intros r. unfold stdout. wpm_step; [done|]. intros [] _. apply Hopen.
Qed.

Lemma dispatch_wp g command action argument extra :
  fresh_run g -> (pa_positionals parsed !! 0%nat) ?? "" = command -> action_is parsed action ->
  argument = pa_positionals parsed !! 2%nat -> extra = pa_positionals parsed !! 3%nat ->
  option_set parsed "demo" = false ->
  W (dispatch parsed command action argument extra) tt g whatever.
Proof.
  intros Hg Hc Ha Harg Hex Hd. pose proof Hg as [H1 H2]. unfold dispatch, is_word.
  assert (Hw : forall l, includes l command = true -> command_is parsed l).
  { intros l Hl%includes_spec. unfold command_is. by rewrite Hc. }
  assert (Hone : forall c, (command =? c)%string = true -> forall l, c ∈ l -> command_is parsed l).
  { intros c <-%String.eqb_eq l Hl. unfold command_is. by rewrite Hc. }
  repeat (lazymatch goal with |- wpm _ _ _ (if ?b then _ else _) _ _ _ => let E := fresh "Ecmd" in destruct b eqn:E end;
    [lazymatch goal with
     | E : includes _ _ = true |- _ => apply Hw in E
     | E : (_ =? ?c)%string = true |- _ => pose proof (Hone _ E) as Hcmd
     end|]).
  all: try (first [apply (service_wp g action argument extra) | apply (hardware_wp g action argument extra)
    | apply (instance_wp g action argument extra) | apply (model_wp g action argument extra)
    | apply (settings_wp g action argument extra) | apply (license_wp g action argument extra)
    | apply (user_wp g action argument extra) | apply (api_key_wp g action argument extra)
    | apply (kubernetes_wp g action argument extra) | apply (status_wp g action argument extra) ];
    first [done | apply Hcmd; set_solver]).
  - apply login_wp; [done | apply Hcmd; set_solver].
  - cmd. apply Hcmd. set_solver.
  - unfold whoamiCommand. cmd.
  - by apply summary_wp.
  - apply open_tui_wp; [done | apply Hcmd; set_solver].
  - apply console_wp; [done | done | | |]; apply Hcmd; set_solver.
  - cmd.
Qed.
End commands.

(** C9: what a run of the CLI may do. Whatever the server, the files and the terminal answer,
    a run creates the runtime at most once, and not for help, version or the offline demo;
    it sends at most one request that changes the appliance, and only the change its command
    words name: a license only the file just inspected and found valid, against the revision
    read with it and after [--yes]; a sharing policy only against the revision just read and
    after [--yes]; GPU settings only after the session was found to be an administrator's;
    and it writes only the file an export names. *)
Theorem cli_authorised `{Utf8Decoder} argv tr q :
  steps (runCli argv tt) tr q -> respects (cli_pre (parseArguments argv)) cli_upd unused tr.
Proof.
  intros Hs. set (parsed := parseArguments argv).
  assert (Hw : wpm (cli_pre parsed) cli_asm cli_upd (runCli argv) tt unused whatever).
  { unfold runCli. fold parsed.
    destruct (option_set parsed "version") eqn:Hv; [cmd|].
    destruct (option_set parsed "help" || bool_decide (pa_positionals parsed = [])) eqn:Hh; [cmd|].
    apply orb_false_elim in Hh as [Hh _].
    destruct (option_set parsed "demo") eqn:Hd.
    { destruct (negb _ || _) eqn:Htui; [cmd|]. apply orb_false_elim in Htui as [Htui _].
      apply negb_false_iff, String.eqb_eq in Htui. apply open_tui_wp; [done|].
      unfold command_is. rewrite Htui. set_solver. }
    destruct (bool_decide _) eqn:Hi; [cmd|]. apply bool_decide_eq_false in Hi.
    wpm_step. wpm_step.
    { split_and!; try done. destruct (option_ parsed "insecure"); [by destruct Hi | done]. }
    intros [[]|e] _; [|done]. cbn [cli_upd]. by apply dispatch_wp. }
  by destruct (wp_steps _ _ _ _ _ _ _ _ Hw Hs (admissible_any unused tr)) as [Hr _].
Qed.

(** A terminal without a network. *)
Definition offline (X : Type) (op : cliE X) (w : unit) : X * unit :=
  match op in cliE X return X * unit with
  | Api _ => (Err (X_error "fetch failed" []), w)
  | Create_runtime _ | Login _ _ | Logout | Run_tui _ _ _ | Write_file _ _ _ | Open_file _ | Handle_close => (Ok tt, w)
  | Stdout _ => (tt, w)
  | Read_stdin | Read_file _ => (Ok "{}", w)
  | Stat_isFile _ | Handle_isFile => (Ok true, w)
  | Handle_read _ => (Ok [], w)
  | Date_now => (0, w)
  | Random_uuid => ("", w)
  end.

#[local] Instance ascii_decoder : Utf8Decoder :=
  fun l => if forallb (fun z => z <? 128) l then Some (String.string_of_list_ascii (map unit_of l)) else None.

Definition demo_argv : list string := ["model"; "remove"; "--json"; "llama"].
Definition demo_trace : list (event (E := cliE)) := trace offline (runCli demo_argv tt) tt.

Lemma cli_authorised_witness :
  respects (cli_pre (parseArguments demo_argv)) cli_upd unused demo_trace /\
  au_changes (foldl (ghost cli_upd) unused demo_trace) = [Models (removeModel "llama")].
Proof. split; [exact (cli_authorised demo_argv demo_trace _ (exec_steps offline (runCli demo_argv tt) tt)) | vm_compute; reflexivity]. Defined.

(** ** License files *)

(** Whether the handle is open, and the bytes read from it. *)
Record Handle : Type := { hd_open : bool; hd_bytes : list Z }.

Definition file_upd X (h : Handle) (op : cliE X) : X -> Handle :=
  match op in cliE X return X -> Handle with
  | Open_file _ => fun r => {| hd_open := is_ok r; hd_bytes := [] |}
  | Handle_close => fun _ => {| hd_open := false; hd_bytes := hd_bytes h |}
  | Handle_read _ => fun r =>
      {| hd_open := hd_open h; hd_bytes := (hd_bytes h ++ match r with Ok l => l | Err _ => [] end)%list |}
  | _ => fun _ => h
  end.
(** A read gives at most the bytes asked for. *)
Definition file_asm X (h : Handle) (op : cliE X) : X -> Prop :=
  match op in cliE X return X -> Prop with
  | Handle_read n => fun r => match r with Ok l => Z.of_nat (length l) <= n | Err _ => True end
  | _ => fun _ => True
  end.
(** The handle is used only while open, and only one is opened. *)
Definition file_pre X (h : Handle) (op : cliE X) : Prop :=
  match op with
  | Open_file _ => hd_open h = false
  | Handle_read n => hd_open h = true /\ 0 < n
  | Handle_isFile | Handle_close => hd_open h = true
  | Stat_isFile _ => True
  | _ => False
  end.

(** A buffer with room left is filled within its size; the fuel never ends the loop. *)
Lemma read_bounded_wp free buffer h s :
  hd_open h = true -> hd_bytes h = buffer ->
  license_limit + 1 <= Z.of_nat (free + length buffer) -> Z.of_nat (length buffer) < license_limit + 1 ->
  wpm file_pre file_asm file_upd (read_bounded free buffer) s h
    (fun h' _ r => hd_open h' = true /\ Z.of_nat (length (hd_bytes h')) <= license_limit + 1 /\
                   match r with Ok b => b = hd_bytes h' | Err _ => True end).
Proof.
  revert buffer h. induction free as [|f IH]; intros buffer h Ho Hb Hl Hr; cbn [read_bounded]; [lia|].
  wpm_step. wpm_step; [split; [done | lia]|].
  intros [chunk|e] Hc; cbn [file_asm file_upd hd_open hd_bytes] in *.
  2:{ rewrite app_nil_r, Hb. split_and!; [done | lia | done]. }
  destruct chunk as [|z chunk].
  { wpm_step. cbn [hd_bytes]. rewrite app_nil_r, Hb. split_and!; [done | lia | done]. }
  destruct (_ <? _) eqn:Hlt; bool_prop.
  - apply IH; [done | by rewrite <- Hb | |]; rewrite length_app; cbn [length] in *; lia.
  - wpm_step. cbn [hd_bytes]. rewrite Hb, length_app. split_and!; [done | lia | done].
Qed.

Definition closed_handle : Handle := {| hd_open := false; hd_bytes := [] |}.

(** The bytes read are bounded, and a text is the decoding of them all. *)
Definition bounded_text `{Utf8Decoder} (h : Handle) (r : res cli_exn string) : Prop :=
  Z.of_nat (length (hd_bytes h)) <= license_limit + 1 /\
  forall text, r = Ok text -> utf8_decode (hd_bytes h) = Some text /\ Z.of_nat (length (hd_bytes h)) <= license_limit.

Lemma bounded_error `{Utf8Decoder} h r e : bounded_text h r -> bounded_text h (Err e).
Proof. by intros [H1 H2]. Qed.

Lemma close_wp `{Utf8Decoder} h (s : unit) (r : res cli_exn string) :
  hd_open h = true -> bounded_text h r ->
  wpm file_pre file_asm file_upd (await Handle_close) s h (fun h' _ r' =>
    match r' with
    | Ok _ => hd_open h' = false /\ bounded_text h' r
    | Err e => hd_open h' = false /\ bounded_text h' (Err e)
    end).
Proof.
  intros Ho Hp. wpm_step; [done|]. intros [[]|e] _; (split; [done|]); [exact Hp | exact (bounded_error _ _ _ Hp)].
Qed.

Lemma readLicenseFile_wp `{Utf8Decoder} path :
  wpm file_pre file_asm file_upd (readLicenseFile path) tt closed_handle (fun h _ r => hd_open h = false /\ bounded_text h r).
Proof.
  assert (Herr : forall h e, Z.of_nat (length (hd_bytes h)) <= license_limit + 1 -> bounded_text h (Err e)) by done.
  unfold readLicenseFile. wpm_step. wpm_step; [done|]. intros [[]|e] _; cbn [negb file_upd]; [|by split..].
  wpm_step. wpm_step; [done|]. intros [[]|e] _; cbn [file_upd is_ok]; [|by split].
  wpm_step. wpm_step. wpm_step; [done|].
  intros [[]|e] _; cbn [negb file_upd]; [|by apply close_wp; [|apply Herr]..].
  wpm_step. eapply wpm_mono; [|apply read_bounded_wp; [done | done | |]; cbn [hd_bytes length]; unfold license_limit; lia].
  intros h s1 [b|e] (H1 & H2 & H3); [|by apply close_wp; [|apply Herr]]. subst b.
  destruct (license_limit <? _) eqn:Hlt; [by apply close_wp; [|apply Herr]|]. bool_prop.
  destruct (utf8_decode (hd_bytes h)) as [text|] eqn:Hdec; [|by apply close_wp; [|apply Herr]].
  apply close_wp; [done|]. split; [done|]. by intros text' [= <-].
Qed.

(** Reading a license file. However the file grows or shrinks while it is read, at most
    64 KiB and one byte are read, the handle is closed on every path that opened it, and the
    text returned is the decoding of a whole file of at most 64 KiB. *)
Theorem license_file_bounded `{Utf8Decoder} path tr s' r :
  steps (readLicenseFile path tt) tr (Done (s', r)) -> admissible file_asm file_upd closed_handle tr ->
  respects file_pre file_upd closed_handle tr /\
  hd_open (foldl (ghost file_upd) closed_handle tr) = false /\ bounded_text (foldl (ghost file_upd) closed_handle tr) r.
Proof. intros Hs Ha. exact (wp_steps _ _ _ _ _ _ _ _ (readLicenseFile_wp path) Hs Ha). Qed.

Lemma license_file_bounded_witness :
  let p := readLicenseFile "l.json" tt in
  hd_open (foldl (ghost file_upd) closed_handle (trace offline p tt)) = false /\
  bounded_text (foldl (ghost file_upd) closed_handle (trace offline p tt)) (exec offline p tt).1.2.
Proof.
  intros p. apply (license_file_bounded "l.json" (trace offline p tt) (exec offline p tt).1.1 (exec offline p tt).1.2).
  - rewrite <- surjective_pairing. apply exec_steps.
  - split_and!; cbn; done.
Defined.
