(* ===== verification/Canonical.v ===== *)
(** * Canonical text (input-preparation.ts, borrowed-sharing.ts)

    [canonicalInput] and [canonical] print a JSON value with the members of every object
    sorted: the text by which the harness compares what it reads with what it owns. The two
    functions differ only at [undefined], which is not a JSON value. The platform's collation
    is a parameter. *)

From stdpp Require Import sorting.
From S2P Require Import Prelude Js Number JsonParse DashboardProps Json DashboardCore.

Local Open Scope string_scope.
Local Open Scope js_scope.

Section canonical.
Context `{Collation}.

Definition sorted_members (l : list (string * string)) : list string :=
  map (fun kv => quote kv.1 +:+ ":" +:+ kv.2) (sort_by (fun a b => localeCompare a.1 b.1) l).

Fixpoint canonical (v : json) : string :=
  match v with
  | JArr l => "[" +:+ join "," (map canonical l) +:+ "]"
  | JObj d => "{" +:+ join "," (sorted_members (entries (map (fun kv => (kv.1, canonical kv.2)) d))) +:+ "}"
  | _ => stringify "" "" v
  end.

(** [undefined] reads as null. *)
Definition canonicalInput (v : option json) : string := match v with Some v => canonical v | None => "null" end.
End canonical.

(** ** Canonical text: equal texts are equal values

    Two JSON values have the same canonical text exactly when they are the same up to the
    order of the members of their objects ([canonical_equivalence]). *)

(** ** The same value up to the order of members *)
Definition scalar (v : json) : bool := match v with JArr _ | JObj _ => false | _ => true end.

(** Scalars are the same when JSON prints them alike. *)
Inductive json_equiv : json -> json -> Prop :=
| equiv_scalar v w : scalar v = true -> scalar w = true -> stringify "" "" v = stringify "" "" w -> json_equiv v w
| equiv_arr l l' : Forall2 json_equiv l l' -> json_equiv (JArr l) (JArr l')
| equiv_obj d d' : (forall k, option_Forall2 json_equiv (dict_get d k) (dict_get d' k)) -> json_equiv (JObj d) (JObj d').

Section induction.
Context (P : json -> Prop) (Hscalar : forall v, scalar v = true -> P v) (Harr : forall l, Forall P l -> P (JArr l))
  (Hobj : forall d, Forall (fun kv => P kv.2) d -> P (JObj d)).
Fixpoint json_values_ind (v : json) : P v :=
  match v with
  | JArr l => Harr l ((fix go l := match l return Forall P l with
                                   | [] => List.Forall_nil _ | x :: l' => List.Forall_cons _ _ _ (json_values_ind x) (go l') end) l)
  | JObj d => Hobj d ((fix go d := match d return Forall (fun kv => P kv.2) d with
                                   | [] => List.Forall_nil _ | kv :: d' => List.Forall_cons _ _ _ (json_values_ind kv.2) (go d') end) d)
  | v => Hscalar v eq_refl
  end.
End induction.

(** Distinct keys, in every object. *)
Fixpoint json_keys_ok (plain_key : string -> Prop) (v : json) : Prop :=
  match v with
  | JArr l => fold_right and True (map (json_keys_ok plain_key) l)
  | JObj d => dict_wf d /\ Forall plain_key (dict_keys d) /\ fold_right and True (map (fun kv => json_keys_ok plain_key kv.2) d)
  | _ => True
  end.

Lemma fold_and {A} (f : A -> Prop) l : fold_right and True (map f l) <-> Forall f l.
Proof. induction l as [|a l IH]; cbn; [by split|]. rewrite IH. split; [intros []; by constructor | by inversion 1]. Qed.

(** ** Lists of entries *)
Lemma insert_entry_perm {A} z (e : string * A) l : map snd (insert_entry z e l) ≡ₚ e :: map snd l.
Proof. induction l as [|[z' e'] l IH]; cbn; [done|]. destruct (z <? z')%Z; cbn; [done|]. rewrite IH. apply Permutation_swap. Qed.

Lemma entries_perm {A} (d : dict A) : entries d ≡ₚ d.
Proof.
  unfold entries.
  assert (H : forall acc, map snd (foldl (fun acc e => match array_index e.1 with Some z => insert_entry z e acc | None => acc end) acc d)
      ++ filter (fun e => array_index e.1 = None) d ≡ₚ map snd acc ++ d).
  { induction d as [|e d IH]; intros acc; cbn [foldl]; [done|].
    destruct (array_index e.1) as [z|] eqn:Hz.
    - rewrite (filter_cons_False (fun e0 : string * A => array_index e0.1 = None)) by (by rewrite Hz). rewrite IH, insert_entry_perm. cbn. apply Permutation_middle.
    - rewrite (filter_cons_True (fun e0 : string * A => array_index e0.1 = None)) by done. rewrite <- Permutation_middle, IH. apply Permutation_middle. }
  apply (H []).
Qed.

Definition on_values {A B} (f : A -> B) (kv : string * A) : string * B := (kv.1, f kv.2).

Lemma insert_entry_map {A B} (f : A -> B) z e l :
  insert_entry z (on_values f e) (map (prod_map id (on_values f)) l) = map (prod_map id (on_values f)) (insert_entry z e l).
Proof. induction l as [|[z' e'] l IH]; cbn; [done|]. destruct (z <? z')%Z; cbn; [done|]. by rewrite IH. Qed.

Lemma entries_map {A B} (f : A -> B) (d : dict A) : entries (map (on_values f) d) = map (on_values f) (entries d).
Proof.
  unfold entries. rewrite map_app. f_equal.
  - assert (H : forall acc, foldl (fun acc e => match array_index e.1 with Some z => insert_entry z e acc | None => acc end)
        (map (prod_map id (on_values f)) acc) (map (on_values f) d)
      = map (prod_map id (on_values f)) (foldl (fun acc e => match array_index e.1 with Some z => insert_entry z e acc | None => acc end) acc d)).
    { induction d as [|e d IH]; intros acc; cbn [foldl map]; [done|]. cbn [on_values fst].
      destruct (array_index e.1); [rewrite <- IH, <- insert_entry_map; done | apply IH]. }
    specialize (H []). cbn [map] in H. rewrite H, !map_map. done.
  - induction d as [|e d IH]; [done|]. unfold filter in *. cbn [map list_filter]. change (on_values f e).1 with e.1.
    destruct (decide (array_index e.1 = None)); cbn [map]; [f_equal; exact IH | exact IH].
Qed.

Lemma sort_by_map {A B} (f : A -> B) (cmp : A -> A -> Z) (cmp' : B -> B -> Z) l :
  (forall a b, cmp' (f a) (f b) = cmp a b) -> sort_by cmp' (map f l) = map f (sort_by cmp l).
Proof.
  intros Hc. assert (Hins : forall a l, insert_sorted cmp' (f a) (map f l) = map f (insert_sorted cmp a l)).
  { intros a l'. induction l' as [|b l' IH]; cbn; [done|]. rewrite Hc. destruct (cmp a b <=? 0)%Z; cbn; [done | by rewrite IH]. }
  unfold sort_by. induction l as [|a l IH]; cbn [foldr map]; [done|]. by rewrite IH, Hins.
Qed.

(** ** Reading a string back *)
Lemma quote_char_body c f r :
  string_body (S f) (quote_char c +:+ r) = ('(t, q) ← string_body f r; Some (String c t, q))%stdpp.
Proof. by destruct c as [[] [] [] [] [] [] [] []]. Qed.

Lemma string_body_quote s f r : (String.length s < f)%nat -> string_body f (quote_body s +:+ String (unit_of 34) r) = Some (s, r).
Proof.
  revert f. induction s as [|c s IH]; intros f Hf; cbn in Hf; (destruct f as [|f]; [lia|]); [done|].
  cbn [quote_body]. rewrite str_app_assoc, quote_char_body, IH by lia. done.
Qed.

Lemma quote_inj s s' r r' : quote s +:+ r = quote s' +:+ r' -> s = s' /\ r = r'.
Proof.
  unfold quote. cbn [String.append]. rewrite !str_app_assoc. cbn [String.append]. intros [= H].
  pose (f := S (String.length s + String.length s')).
  pose proof (string_body_quote s f r ltac:(unfold f; lia)) as H1. pose proof (string_body_quote s' f r' ltac:(unfold f; lia)) as H2.
  rewrite H, H2 in H1. by injection H1 as -> ->.
Qed.

(** ** Where a text ends *)
Definition opener (c : ascii) : bool := existsb (Ascii.eqb c) [unit_of 34; "["; "{"]%char.
Definition closer (c : ascii) : bool := existsb (Ascii.eqb c) [","; "]"; "}"]%char.
Definition atom (c : ascii) : bool := negb (opener c) && negb (closer c).
(** What may follow a value. *)
Definition closed (s : string) : Prop := match s with EmptyString => True | String c _ => closer c = true end.

Lemma atoms_inj a b s t : sforall atom a = true -> sforall atom b = true -> closed s -> closed t ->
  a +:+ s = b +:+ t -> a = b /\ s = t.
Proof.
  intros Ha Hb Hs Ht. revert b Hb. induction a as [|x a IH]; intros b Hb Heq.
  - destruct b as [|y b]; [done|]. cbn in Hb, Heq. subst s. cbn [closed] in Hs. apply andb_prop in Hb as [Hy _]. unfold atom in Hy. by rewrite Hs, andb_false_r in Hy.
  - cbn in Ha. apply andb_prop in Ha as [Hx Ha]. destruct b as [|y b].
    + cbn in Heq. subst t. cbn [closed] in Ht. unfold atom in Hx. by rewrite Ht, andb_false_r in Hx.
    + cbn in Hb, Heq. apply andb_prop in Hb as [_ Hb]. injection Heq as -> Heq. destruct (IH Ha b Hb Heq) as [-> ->]. done.
Qed.

(** ** Numbers are atoms *)
Lemma int_atom c : int_char c = true -> atom c = true.
Proof. by destruct c as [[] [] [] [] [] [] [] []]. Qed.
Lemma Z_atoms z : sforall atom (String_of_Z z) = true.
Proof. eapply sforall_impl; [apply int_atom | apply String_of_Z_chars]. Qed.

Lemma String_of_Z_nonempty z : String_of_Z z <> "".
Proof.
  assert (Hgo : forall (x : N) s, s <> "" -> pretty.pretty_N_go x s <> "").
  { intros x. induction (N.lt_wf_0 x) as [x _ IH]; intros s Hs. destruct (N.eq_0_gt_0_cases x) as [->|Hx]; [by rewrite pretty.pretty_N_go_0|].
    rewrite pretty.pretty_N_go_step by done. apply IH; [by apply N.div_lt | done]. }
  assert (HN : forall p, pretty.pretty (Npos p) <> "").
  { intros p. unfold pretty.pretty, pretty.pretty_N. case_decide; [done|]. rewrite pretty.pretty_N_go_step by lia. by apply Hgo. }
  unfold String_of_Z. destruct z; [done | apply HN | done].
Qed.

Lemma append_nonempty_l a b : a <> "" -> a +:+ b <> "".
Proof. by destruct a. Qed.
Lemma append_nonempty_r a b : b <> "" -> a +:+ b <> "".
Proof. by destruct a. Qed.

Lemma atoms_app a b : sforall atom a = true -> sforall atom b = true -> sforall atom (a +:+ b) = true.
Proof. intros Ha Hb. by rewrite sforall_app, Ha, Hb. Qed.

Create HintDb atoms.
#[local] Hint Resolve Z_atoms atoms_app sforall_repeat sforall_take sforall_drop append_nonempty_l String_of_Z_nonempty : atoms.
#[local] Hint Extern 1 (sforall atom _ = true) => (vm_compute; reflexivity) : atoms.

Lemma exponent_atoms digits n : sforall atom digits = true -> sforall atom (exponent_text digits n) = true /\ exponent_text digits n <> "".
Proof.
  intros Hd. unfold exponent_text. cbv zeta. split.
  - apply atoms_app; [|apply atoms_app; [done | apply atoms_app; [by destruct (0 <=? _)%Z | apply Z_atoms]]].
    destruct digits as [|d [|e r]]; [done..|]. cbn in *. by apply andb_prop in Hd as [-> ->].
  - by apply append_nonempty_r.
Qed.

Lemma positive_atoms a p : sforall atom (positive_text a p) = true /\ positive_text a p <> "".
Proof.
  unfold positive_text. destruct (shortest _ _ _ _ _) as [[s k] n]. destruct (if (s =? 10 ^ k)%Z then _ else _) as [s' n'].
  cbv zeta. destruct (_ && _); [|destruct (_ && _); [|destruct (_ && _)]].
  - split; auto with atoms.
  - split; [auto 6 with atoms | by apply append_nonempty_r].
  - split; [auto 6 with atoms | done].
  - apply exponent_atoms, Z_atoms.
Qed.

Lemma number_atoms n : isFinite n = true -> sforall atom (String_of_number n) = true /\ String_of_number n <> "".
Proof.
  intros Hn.
  assert (E : exists a p, String_of_number n = if (a =? 0)%Z then "0" else if (0 <? a)%Z then positive_text a p else String "-" (positive_text (- a) p)).
  { destruct n; try discriminate Hn; eexists _, _; unfold String_of_number; cbn [frac]; reflexivity. }
  destruct E as (a & p & ->). destruct (a =? 0)%Z; [by split|]. destruct (0 <? a)%Z; [apply positive_atoms|].
  destruct (positive_atoms (- a) p) as [Hp _]. generalize dependent (positive_text (- a) p). intros t Hp. cbn [sforall]. rewrite Hp. by split.
Qed.

(** ** The heads of canonical texts *)
Section equivalence.
Context `{Collation} (plain_key : string -> Prop).
(** The platform's collation is a total preorder, and separates the keys in use. *)
Hypothesis collation_total : forall a b, (localeCompare a b <= 0 \/ localeCompare b a <= 0)%Z.
Hypothesis collation_trans : forall a b c, (localeCompare a b <= 0 -> localeCompare b c <= 0 -> localeCompare a c <= 0)%Z.
Hypothesis collation_separates : forall a b, plain_key a -> plain_key b ->
  (localeCompare a b <= 0 -> localeCompare b a <= 0 -> a = b)%Z.

Definition members {A} (d : dict A) : dict A := sort_by (fun a b => localeCompare a.1 b.1) (entries d).
Definition member_text (kv : string * json) : string := quote kv.1 +:+ ":" +:+ canonical kv.2.

Lemma members_perm {A} (d : dict A) : members d ≡ₚ d.
Proof. unfold members. by rewrite sort_by_perm, entries_perm. Qed.

Lemma canonical_obj d : canonical (JObj d) = "{" +:+ join "," (map member_text (members d)) +:+ "}".
Proof.
  cbn [canonical]. unfold sorted_members, members. do 3 f_equal.
  change (map (fun kv => (kv.1, canonical kv.2)) d) with (map (on_values canonical) d).
  rewrite entries_map, (sort_by_map (on_values canonical) (fun a b => localeCompare a.1 b.1)) by done. by rewrite map_map.
Qed.

(** The kinds of text by their first character. *)
Inductive shape : json -> string -> Prop :=
| shape_atom v t : scalar v = true -> stringify "" "" v = t -> sforall atom t = true -> t <> "" -> shape v t
| shape_str s : shape (JStr s) (quote s)
| shape_arr l : shape (JArr l) ("[" +:+ join "," (map canonical l) +:+ "]")
| shape_obj d : shape (JObj d) ("{" +:+ join "," (map member_text (members d)) +:+ "}").

Lemma canonical_shape v : shape v (canonical v).
Proof.
  destruct v as [|b|n|s|l|d].
  - by apply shape_atom.
  - by destruct b; apply shape_atom.
  - cbn [canonical stringify]. destruct (isFinite n) eqn:Hn; [destruct (number_atoms n Hn)|]; apply shape_atom; try done; cbn; by rewrite Hn.
  - exact (shape_str s).
  - exact (shape_arr l).
  - rewrite canonical_obj. exact (shape_obj d).
Qed.

Lemma shape_head v t r : shape v t -> exists c q, t +:+ r = String c q /\ closer c = false.
Proof.
  destruct 1 as [v t _ _ Ht Hne|s|l|d].
  - destruct t as [|c t]; [done|]. exists c, (t +:+ r). split; [done|]. cbn in Ht. apply andb_prop in Ht as [Hc _].
    unfold atom in Hc. apply andb_prop in Hc as [_ Hc]. by apply negb_true_iff.
  - by eexists _, _.
  - by eexists _, _.
  - by eexists _, _.
Qed.

(** ** Equal texts *)

(** The same text, followed by anything that ends a value, is the same value. *)
Definition injective_at (v : json) : Prop := forall w s t, json_keys_ok plain_key w -> closed s -> closed t ->
  canonical v +:+ s = canonical w +:+ t -> json_equiv v w /\ s = t.

Lemma join_cons x l : join "," (x :: l) = x +:+ match l with [] => "" | _ => "," +:+ join "," l end.
Proof. destruct l; cbn; [by rewrite str_app_nil_r | done]. Qed.

Lemma string_inj c a b : String c "" +:+ a = String c "" +:+ b -> a = b.
Proof. by intros [= ->]. Qed.

(** Separated items between a head and a closing character. *)
Lemma join_inj {A} (text : A -> string) (R : A -> A -> Prop) c l l' s t :
  closer c = true -> Ascii.eqb "," c = false ->
  (forall a b s t, a ∈ l -> b ∈ l' -> closed s -> closed t -> text a +:+ s = text b +:+ t -> R a b /\ s = t) ->
  (forall a s, exists x q, text a +:+ s = String x q /\ closer x = false) ->
  join "," (map text l) +:+ String c s = join "," (map text l') +:+ String c t -> Forall2 R l l' /\ s = t.
Proof.
  intros Hc Hcomma. revert l'. induction l as [|a l IH]; intros l' Hinj Hhead Heq; destruct l' as [|b l']; cbn [map] in Heq.
  - injection Heq as ->. by split.
  - rewrite join_cons, str_app_assoc in Heq. destruct (Hhead b (match map text l' with [] => "" | _ => "," +:+ join "," (map text l') end +:+ String c t)) as (x & q & Hx & Hcx).
    rewrite Hx in Heq. injection Heq as -> _. by rewrite Hc in Hcx.
  - rewrite join_cons, str_app_assoc in Heq. destruct (Hhead a (match map text l with [] => "" | _ => "," +:+ join "," (map text l) end +:+ String c s)) as (x & q & Hx & Hcx).
    rewrite Hx in Heq. injection Heq as -> _. by rewrite Hc in Hcx.
  - rewrite !join_cons, !str_app_assoc in Heq. apply Hinj in Heq as [Hab Heq]; [|by left|by left|by destruct l|by destruct l'].
    destruct l as [|a' l], l' as [|b' l']; cbn [map] in Heq.
    + injection Heq as ->. split; [by repeat constructor | done].
    + injection Heq as -> _. by rewrite Ascii.eqb_refl in Hcomma.
    + injection Heq as <- _. by rewrite Ascii.eqb_refl in Hcomma.
    + rewrite !str_app_assoc in Heq. apply string_inj in Heq.
      change (text a' :: map text l) with (map text (a' :: l)) in Heq. change (text b' :: map text l') with (map text (b' :: l')) in Heq.
      apply IH in Heq as [Hl ->]; [|intros; apply Hinj; by (done || right)|done].
      split; [by constructor | done].
Qed.

Lemma dict_get_perm {A} (d d' : dict A) k : dict_wf d -> d ≡ₚ d' -> dict_get d k = dict_get d' k.
Proof.
  intros Hd Hp. assert (Hd' : dict_wf d') by (unfold dict_wf in *; by rewrite <- (Permutation_map fst Hp)).
  destruct (dict_get d' k) as [v|] eqn:Hk.
  - apply dict_get_elem in Hk. rewrite <- Hp in Hk. by apply elem_dict_get.
  - destruct (dict_get d k) as [v|] eqn:Hk'; [|done]. apply dict_get_elem in Hk'. rewrite Hp in Hk'. by rewrite (elem_dict_get _ _ _ Hd' Hk') in Hk.
Qed.

Lemma dict_get_Forall2 {A} (R : A -> A -> Prop) (d d' : dict A) k :
  Forall2 (fun a b => a.1 = b.1 /\ R a.2 b.2) d d' -> option_Forall2 R (dict_get d k) (dict_get d' k).
Proof.
  induction 1 as [|[k1 v1] [k2 v2] d d' [Hk Hv] _ IH]; [by constructor|]. cbn in *. subst k2. destruct (String.eqb k1 k); [by constructor | exact IH].
Qed.

Lemma atom_head t s c r : sforall atom t = true -> t <> "" -> t +:+ s = String c r -> opener c = false.
Proof.
  destruct t as [|x t]; [done|]. cbn [sforall String.append]. intros [Hx _]%andb_prop _ [= -> _]. unfold atom in Hx.
  apply andb_prop in Hx as [Hx _]. by apply negb_true_iff in Hx.
Qed.

(** Two texts that begin alike have the same shape. *)
Lemma shape_inj v w a b s t : shape v a -> shape w b -> a +:+ s = b +:+ t -> closed s -> closed t ->
  (scalar v = true /\ scalar w = true /\ stringify "" "" v = stringify "" "" w /\ s = t) \/
  (exists l l', v = JArr l /\ w = JArr l' /\ join "," (map canonical l) +:+ String "]" s = join "," (map canonical l') +:+ String "]" t) \/
  (exists d d', v = JObj d /\ w = JObj d' /\
     join "," (map member_text (members d)) +:+ String "}" s = join "," (map member_text (members d')) +:+ String "}" t).
Proof.
  intros Sv Sw Heq Hs Ht.
  destruct Sv as [v a Hv Hva Ha Hne|x|l|d], Sw as [w b Hw Hwb Hb Hne'|y|l'|d'];
    try (match type of Heq with ?a +:+ _ = _ => match goal with Ha : sforall atom a = true |- _ => by apply (atom_head _ _ _ _ Ha) in Heq end end);
    try (match type of Heq with _ = ?b +:+ _ => match goal with Hb : sforall atom b = true |- _ => symmetry in Heq; by apply (atom_head _ _ _ _ Hb) in Heq end end);
    try discriminate Heq.
  - left. apply atoms_inj in Heq as [Heq ->]; try done. split_and!; congruence.
  - left. apply quote_inj in Heq as [-> ->]. done.
  - right; left. exists l, l'. split_and!; [done..|]. rewrite !str_app_assoc in Heq. by apply string_inj in Heq.
  - right; right. exists d, d'. split_and!; [done..|]. rewrite !str_app_assoc in Heq. by apply string_inj in Heq.
Qed.

Lemma json_keys_obj d : json_keys_ok plain_key (JObj d) ->
  dict_wf d /\ Forall plain_key (dict_keys d) /\ Forall (fun kv => json_keys_ok plain_key kv.2) d.
Proof. cbn. by rewrite (fold_and (fun kv : string * json => json_keys_ok plain_key kv.2)). Qed.

Lemma canonical_injective v : json_keys_ok plain_key v -> injective_at v.
Proof.
  induction v as [v Hv|l IH|d IH] using json_values_ind; intros Hok w s t Hw Hs Ht Heq;
    destruct (shape_inj _ _ _ _ s t (canonical_shape _) (canonical_shape w) Heq Hs Ht)
      as [(Hsv & Hsw & Htext & ->)|[(l1 & l' & Hl & -> & Htext)|(d1 & d' & Hd & -> & Htext)]]; subst; try discriminate.
  - split; [by constructor | done].
  - injection Hl as <-. apply (join_inj canonical json_equiv) in Htext as [Hl ->]; [by split; [apply equiv_arr|] | done | done | |].
    + intros a b s' t' Ha Hb Hs' Ht' Heq'. cbn in Hok, Hw. rewrite fold_and in Hok, Hw.
      rewrite Forall_forall in IH, Hok, Hw. by apply (IH a Ha (Hok a Ha) b s' t' (Hw b Hb)).
    + intros a s'. eapply shape_head, canonical_shape.
  - injection Hd as <-. apply json_keys_obj in Hok as (Hwf & _ & Hok). apply json_keys_obj in Hw as (Hwf' & _ & Hw).
    apply (join_inj member_text (fun a b => a.1 = b.1 /\ json_equiv a.2 b.2)) in Htext as [Hm ->]; [|done|done| |].
    + split; [|done]. apply equiv_obj. intros k. rewrite (dict_get_perm d (members d)), (dict_get_perm d' (members d')) by (done || by rewrite members_perm).
      by apply dict_get_Forall2.
    + intros a b s' t' Ha Hb Hs' Ht' Heq'. rewrite members_perm in Ha, Hb. rewrite Forall_forall in IH, Hok, Hw.
      unfold member_text in Heq'. rewrite !str_app_assoc in Heq'. apply quote_inj in Heq' as [Hk Heq']. apply string_inj in Heq'.
      apply (IH a Ha (Hok a Ha) _ _ _ (Hw b Hb)) in Heq' as [Hv ->]; done.
    + intros a s'. unfold member_text, quote. by eexists _, _.
Qed.

(** ** Equal values *)
Definition key_le {A} (a b : string * A) : Prop := (localeCompare a.1 b.1 <= 0)%Z.

Lemma insert_sorted_key {A} (a : string * A) l : StronglySorted key_le l ->
  StronglySorted key_le (insert_sorted (fun a b => localeCompare a.1 b.1) a l).
Proof using collation_total collation_trans.
  intros Hl. induction Hl as [|b l Hl IH Hb]; cbn; [by repeat constructor|]. destruct (Z.leb_spec (localeCompare a.1 b.1) 0).
  - constructor; [by constructor|]. constructor; [done|]. eapply Forall_impl; [exact Hb|]. intros c Hc. by eapply collation_trans.
  - constructor; [exact IH|]. rewrite insert_sorted_perm. constructor; [|exact Hb].
    unfold key_le. destruct (collation_total a.1 b.1); [lia | done].
Qed.

Lemma members_sorted {A} (d : dict A) : StronglySorted (fun a b => (localeCompare a b <= 0)%Z) (dict_keys (members d)).
Proof using collation_total collation_trans.
  assert (Hs : StronglySorted key_le (members d)).
  { unfold members, sort_by. induction (entries d) as [|e l IH]; cbn; [constructor | by apply insert_sorted_key]. }
  unfold dict_keys. induction Hs as [|a l _ IH Ha]; cbn; constructor; [exact IH|]. by apply Forall_fmap.
Qed.

Lemma dict_get_keys {A} (d : dict A) k : k ∈ dict_keys d <-> is_Some (dict_get d k).
Proof.
  induction d as [|[k' v] d IH]; cbn; [split; [by intros ?%elem_of_nil | by intros []]|].
  change (k ∈ k' :: dict_keys d <-> is_Some (if String.eqb k' k then Some v else dict_get d k)).
  rewrite elem_of_cons, IH. destruct (String.eqb_spec k' k) as [->|Hne]; [by split; [eauto|left]|].
  split; [by intros [->|] | by right].
Qed.

(** Objects with the same keys list them in the same order. *)
Lemma members_keys {A} (d d' : dict A) : dict_wf d -> dict_wf d' -> Forall plain_key (dict_keys d) -> Forall plain_key (dict_keys d') ->
  (forall k, is_Some (dict_get d k) <-> is_Some (dict_get d' k)) -> dict_keys (members d) = dict_keys (members d').
Proof using collation_total collation_trans collation_separates.
  intros Hd Hd' Hk Hk' Hiff.
  assert (Hm : forall d : dict A, dict_keys (members d) ≡ₚ dict_keys d) by (intros; apply Permutation_map, members_perm).
  eapply StronglySorted_unique_strong; [|apply members_sorted ..|].
  - intros a b Ha Hb. rewrite Hm in Ha, Hb. rewrite Forall_forall in Hk, Hk'. apply collation_separates; [by apply Hk | by apply Hk'].
  - rewrite !Hm. apply NoDup_Permutation; [done..|]. intros k. by rewrite !dict_get_keys.
Qed.

Lemma equiv_canonical v w : json_keys_ok plain_key v -> json_keys_ok plain_key w -> json_equiv v w -> canonical v = canonical w.
Proof using collation_total collation_trans collation_separates.
  revert w. induction v as [v Hv|l IH|d IH] using json_values_ind; intros w Hok Hw Heq; inversion Heq; subst; try discriminate.
  - pose proof (canonical_shape v) as Sv. by destruct v, w.
  - cbn [canonical]. do 3 f_equal. cbn in Hok, Hw. rewrite fold_and in Hok, Hw. rename select (Forall2 _ _ _) into Hl.
    induction Hl as [|a b l l' Hab Hl IHl]; [done|]. inversion IH; inversion Hok; inversion Hw; subst. cbn [map]. f_equal; [by auto|].
    apply IHl; try done. by apply equiv_arr.
  - rename select (forall k, option_Forall2 _ _ _) into Hd. rewrite !canonical_obj. do 3 f_equal.
    apply json_keys_obj in Hok as (Hwf & Hk & Hok). apply json_keys_obj in Hw as (Hwf' & Hk' & Hw).
    assert (Hkeys : dict_keys (members d) = dict_keys (members d')).
    { apply members_keys; try done. intros k. destruct (Hd k); [|done]. by split; intros _; eauto. }
    assert (Hval : forall k x y, (k, x) ∈ members d -> (k, y) ∈ members d' -> canonical x = canonical y).
    { intros k x y Hx Hy. rewrite members_perm in Hx, Hy. rewrite Forall_forall in IH, Hok, Hw.
      apply (IH _ Hx); [by apply (Hok _ Hx) | by apply (Hw _ Hy)|]. specialize (Hd k).
      rewrite (elem_dict_get _ _ _ Hwf Hx), (elem_dict_get _ _ _ Hwf' Hy) in Hd. by inversion Hd. }
    revert Hkeys Hval. generalize (members d) (members d'). clear. intros m. induction m as [|[k x] m IH]; intros [|[k' y] m'] Hkeys Hval; try done.
    injection Hkeys as -> Hkeys. cbn [map]. f_equal; [|apply IH; [exact Hkeys|]; intros k x' y' Hx Hy; apply (Hval k); by right].
    unfold member_text. cbn. by rewrite (Hval k' x y) by left.
Qed.

(** C35: comparing canonical texts is comparing values. Two JSON values whose objects have
    distinct keys have the same canonical text exactly when they are the same value up to
    the order of the members of their objects, at any depth: the harness neither takes two
    different specifications for one nor is misled by the order in which they arrive. *)
Theorem canonical_equivalence v w : json_keys_ok plain_key v -> json_keys_ok plain_key w ->
  canonical v = canonical w <-> json_equiv v w.
Proof using collation_total collation_trans collation_separates.
  intros Hv Hw. split; [|by apply equiv_canonical]. intros Heq.
  apply (canonical_injective v Hv w "" "" Hw I I). by rewrite Heq.
Qed.
End equivalence.

(** ** An instance *)
#[local] Instance code_collation : Collation := fun a b => (Zpos (encode a) - Zpos (encode b))%Z.

Lemma canonical_equivalence_witness :
  canonical (JObj [("b", JNum (Int 1)); ("a", JArr [JNull])]) = canonical (JObj [("a", JArr [JNull]); ("b", JNum (Int 1))]) /\
  json_equiv (JObj [("b", JNum (Int 1)); ("a", JArr [JNull])]) (JObj [("a", JArr [JNull]); ("b", JNum (Int 1))]).
Proof.
  assert (Heq : canonical (JObj [("b", JNum (Int 1)); ("a", JArr [JNull])]) = canonical (JObj [("a", JArr [JNull]); ("b", JNum (Int 1))]))
    by (vm_compute; reflexivity).
  split; [exact Heq|].
  apply (canonical_equivalence (fun _ => True)); [| | | | | exact Heq]; unfold localeCompare, code_collation.
  - intros a b. lia.
  - intros a b c. lia.
  - intros a b _ _ H1 H2. apply (inj encode). assert (H3 : Zpos (encode a) = Zpos (encode b)) by lia. by injection H3.
  - split; [apply (bool_decide_eq_true_1 (NoDup _)); vm_compute; reflexivity | by repeat constructor].
  - split; [apply (bool_decide_eq_true_1 (NoDup _)); vm_compute; reflexivity | by repeat constructor].
Defined.
