(* ===== verification/JsonProps.v ===== *)
(** * Reading back JSON text

    [JSON.parse] of the compact text of a value is the value, when its objects have distinct
    keys that are not array indices and its numbers are among those whose text reads back
    ([number_reads]; checked by computation where a component stores a number). *)

From S2P Require Import Prelude Js Number Json JsonParse Canonical.

Local Open Scope string_scope.
Local Open Scope Z_scope.

(** The text of the number reads back before anything that may follow a value. *)
Definition number_reads (n : number) : Prop :=
  isFinite n = true /\ forall r, closed r -> number_literal (String_of_number n +:+ r) = Some (n, r).

Fixpoint json_reads (v : json) : Prop :=
  match v with
  | JNum n => number_reads n
  | JArr l => fold_right and True (map json_reads l)
  | JObj d => dict_wf d /\ Forall (fun kv => array_index kv.1 = None) d /\ fold_right and True (map (fun kv => json_reads kv.2) d)
  | _ => True
  end.

Definition text : json -> string := stringify "" "".

(** ** Texts *)
Lemma entries_plain {A} (d : dict A) : Forall (fun kv => array_index kv.1 = None) d -> entries d = d.
Proof.
  intros Hd. unfold entries.
  assert (Hl : forall acc, foldl (fun acc e => match array_index e.1 with Some z => insert_entry z e acc | None => acc end) acc d = acc)
    by (induction Hd as [|kv d Hk _ IH]; intros acc; cbn; [done|]; by rewrite Hk, IH).
  rewrite Hl. cbn. induction Hd as [|kv d Hk _ IH]; cbn; [done|]. rewrite Hk. cbn. f_equal. apply IH.
  intros acc. specialize (Hl acc). cbn in Hl. by rewrite Hk in Hl.
Qed.

Definition pair_text (kv : string * json) : string := quote kv.1 +:+ ":" +:+ text kv.2.

Lemma text_arr l : text (JArr l) = "[" +:+ join "," (map text l) +:+ "]".
Proof. by destruct l. Qed.
Lemma text_obj d : Forall (fun kv => array_index kv.1 = None) d -> text (JObj d) = "{" +:+ join "," (map pair_text d) +:+ "}".
Proof.
  intros Hd. unfold text at 1. cbn [stringify]. rewrite entries_plain by by apply Forall_map. rewrite map_map. by destruct d.
Qed.

Lemma quote_length s : (String.length s + 2 <= String.length (quote s))%nat.
Proof.
  unfold quote. cbn [String.length]. rewrite str_length_app. cbn.
  assert (String.length s <= String.length (quote_body s))%nat; [|lia].
  induction s as [|c s IH]; cbn; [lia|]. rewrite str_length_app. assert (1 <= String.length (quote_char c))%nat; [|lia].
  by destruct c as [[] [] [] [] [] [] [] []]; vm_compute; lia.
Qed.

Lemma string_literal_quote s r : string_literal (quote_body s +:+ String (unit_of 34) r) = Some (s, r).
Proof.
  apply string_body_quote. pose proof (quote_length s) as Hq. unfold quote in Hq. cbn [String.length] in Hq.
  rewrite !str_length_app in *. cbn in *. lia.
Qed.

Lemma skip_id c r : json_space c = false -> skip (String c r) = String c r.
Proof. intros Hc. unfold skip. cbn [drop_while]. by rewrite Hc. Qed.

Lemma number_head n r : number_reads n -> closed r ->
  exists c q, String_of_number n +:+ r = String c q /\ (is_digit c = true \/ c = "-"%char).
Proof.
  intros [_ Hn] Hr. specialize (Hn r Hr). destruct (String_of_number n +:+ r) as [|c q]; [done|]. exists c, q. split; [done|].
  unfold number_literal in Hn. destruct c as [[] [] [] [] [] [] [] []]; cbn in Hn; (by auto) || discriminate Hn.
Qed.

(** ** Values *)
Definition reads_back (v : json) : Prop := forall fuel r, closed r -> (2 * String.length (text v) <= fuel)%nat ->
  json_value fuel (text v +:+ r) = Some (v, r).

Lemma value_head v r : json_reads v -> closed r -> exists c q, text v +:+ r = String c q /\ json_space c = false /\ closer c = false.
Proof.
  intros Hv Hr. destruct v as [|b|n|s|l|d].
  - by repeat eexists.
  - destruct b; by repeat eexists.
  - destruct Hv as [Hf Hn]. cbn [text stringify]. unfold text. cbn [stringify]. rewrite Hf.
    destruct (number_head n r (conj Hf Hn) Hr) as (c & q & -> & Hc). exists c, q. split; [done|].
    destruct Hc as [Hc| ->]; [|done]. by destruct c as [[] [] [] [] [] [] [] []].
  - by repeat eexists.
  - rewrite text_arr. by repeat eexists.
  - destruct d as [|kv d]; [by repeat eexists|]. destruct Hv as (_ & Hk & _). rewrite text_obj by done. by repeat eexists.
Qed.

Lemma text_nonempty v : json_reads v -> (1 <= String.length (text v))%nat.
Proof.
  intros Hv. destruct (value_head v "" Hv I) as (c & q & Ht & _). rewrite str_app_nil_r in Ht. rewrite Ht. cbn. lia.
Qed.

Lemma read_elements l : Forall json_reads l -> Forall reads_back l -> forall fuel acc r, l <> [] ->
  (2 * String.length (join "," (map text l)) + 1 <= fuel)%nat ->
  json_elements fuel acc (join "," (map text l) +:+ "]" +:+ r) = Some (JArr (acc ++ l)%list, r).
Proof.
  induction 1 as [|v l Hv Hl IH]; intros Hb fuel acc r Hne Hf; [done|]. inversion Hb as [|? ? Hbv Hbl]; subst.
  cbn [map] in *. rewrite join_cons, str_length_app in Hf. rewrite join_cons, str_app_assoc.
  destruct fuel as [|f]; [lia|]. cbn [json_elements].
  destruct l as [|w l].
  - cbn [map] in *. rewrite (Hbv f) by (done || (cbn in Hf; lia)). done.
  - cbn [map] in *. rewrite str_length_app in Hf. change (String.length ",") with 1%nat in Hf.
    rewrite (Hbv f) by (done || lia). cbn [base.mbind option_bind]. rewrite !str_app_assoc. cbn [String.append].
    rewrite skip_id by done.
    change (json_elements f (acc ++ [v])%list (join "," (map text (w :: l)) +:+ "]" +:+ r) = Some (JArr (acc ++ v :: w :: l)%list, r)).
    rewrite IH by (done || (cbn [map]; lia)). by rewrite <- app_assoc.
Qed.

Lemma dict_set_fresh {A} (d : dict A) k v : k ∉ dict_keys d -> dict_set d k v = (d ++ [(k, v)])%list.
Proof.
  induction d as [|[k' v'] d IH]; cbn; [done|]. rewrite not_elem_of_cons. intros [Hk Hd].
  destruct (String.eqb_spec k' k); [by subst|]. by rewrite IH.
Qed.

Lemma read_members d : Forall (fun kv => json_reads kv.2) d -> Forall (fun kv => reads_back kv.2) d ->
  forall fuel acc r, d <> [] -> dict_wf (acc ++ d)%list ->
  (2 * String.length (join "," (map pair_text d)) + 1 <= fuel)%nat ->
  json_members fuel acc (join "," (map pair_text d) +:+ "}" +:+ r) = Some (JObj (acc ++ d)%list, r).
Proof.
  induction 1 as [|[k v] d Hv Hd IH]; intros Hb fuel acc r Hne Hwf Hf; [done|]. inversion Hb as [|? ? Hbv Hbd]; subst. cbn [snd fst] in *.
  assert (Hfresh : k ∉ dict_keys acc).
  { unfold dict_wf, dict_keys in Hwf. rewrite map_app in Hwf. apply NoDup_app in Hwf as (_ & Hwf & _). cbn in Hwf. set_solver. }
  cbn [map] in *. rewrite join_cons in *. unfold pair_text at 1 in Hf. unfold pair_text at 1. cbn [fst snd] in *.
  rewrite !str_length_app in Hf. pose proof (quote_length k). rewrite !str_app_assoc.
  destruct fuel as [|f]; [lia|]. cbn [json_members]. unfold quote at 1. cbn [String.append]. rewrite skip_id by done.
  change (code (unit_of 34) =? 34) with true. cbv iota. rewrite str_app_assoc. cbn [String.append].
  rewrite string_literal_quote. cbn [base.mbind option_bind]. rewrite skip_id by done. change (String.length ":") with 1%nat in Hf.
  destruct d as [|kv d]; cbn [map] in *.
  - rewrite (Hbv f) by (done || lia). cbn [base.mbind option_bind String.append]. rewrite skip_id by done. by rewrite dict_set_fresh.
  - rewrite str_length_app in Hf. change (String.length ",") with 1%nat in Hf.
    rewrite (Hbv f) by (done || lia). cbn [base.mbind option_bind]. cbn [String.append].
    rewrite skip_id by done. rewrite dict_set_fresh by done.
    change (json_members f (acc ++ [(k, v)])%list (join "," (map pair_text (kv :: d)) +:+ "}" +:+ r) = Some (JObj (acc ++ (k, v) :: kv :: d)%list, r)).
    rewrite IH; [by rewrite <- app_assoc | done | done | by rewrite <- app_assoc | cbn [map]; lia].
Qed.

Lemma json_reads_obj d : json_reads (JObj d) ->
  dict_wf d /\ Forall (fun kv => array_index kv.1 = None) d /\ Forall (fun kv => json_reads kv.2) d.
Proof. cbn. by rewrite (fold_and (fun kv : string * json => json_reads kv.2)). Qed.

Lemma value_scalar v : scalar v = true -> json_reads v -> reads_back v.
Proof.
  intros Hs Hv fuel r Hr Hf. pose proof (text_nonempty v Hv). destruct fuel as [|f]; [lia|]. cbn [json_value].
  destruct v as [|b|n|s|l|d]; try discriminate Hs.
  - cbn [text stringify String.append]. by rewrite skip_id.
  - by destruct b.
  - destruct (value_head (JNum n) r Hv Hr) as (c & q & Ht & Hc & _).
    assert (Hn : text (JNum n) = String_of_number n) by (unfold text; cbn [stringify]; by rewrite (proj1 Hv)). rewrite Hn in *.
    destruct (number_head n r Hv Hr) as (c' & q' & Ht' & Hc'). rewrite Ht in Ht'. injection Ht' as <- <-.
    rewrite Ht, skip_id by done. rewrite <- Ht, (proj2 Hv r Hr).
    destruct Hc' as [Hd| ->]; [|done]. by destruct c as [[] [] [] [] [] [] [] []].
  - change (text (JStr s) +:+ r) with (String (unit_of 34) ((quote_body s +:+ String (unit_of 34) "") +:+ r)).
    rewrite skip_id by done. rewrite str_app_assoc. cbn [String.append].
    change (code (unit_of 34) =? 34) with true. cbn [Ascii.eqb]. rewrite string_literal_quote. done.
Qed.

(** A value is not the end of the array or object it is in. *)
Lemma not_ended {A} (t : string) (x : string -> A) (y : A) c q : t = String c q -> json_space c = false -> closer c = false ->
  match skip t with String "]" u => x u | _ => y end = y /\ match skip t with String "}" u => x u | _ => y end = y.
Proof. intros -> Hs Hc. rewrite skip_id by done. by destruct c as [[] [] [] [] [] [] [] []]. Qed.

Lemma pair_head kv r : exists q, pair_text kv +:+ r = String (unit_of 34) q.
Proof. by eexists. Qed.

Lemma reads v : json_reads v -> reads_back v.
Proof.
  induction v as [v Hv|l IH|d IH] using json_values_ind; intros Hr; [by apply value_scalar|..]; intros fuel r Hc Hf.
  - assert (Hl : Forall json_reads l) by by apply fold_and.
    assert (Hb : Forall reads_back l) by (rewrite Forall_forall in *; eauto).
    rewrite text_arr in *. cbn in Hf. rewrite str_length_app in Hf. cbn in Hf.
    destruct fuel as [|f]; [lia|]. rewrite !str_app_assoc. cbn [String.append json_value]. rewrite skip_id by done. cbn [Ascii.eqb Bool.eqb].
    destruct l as [|v l]; [done|]. assert (Hjoin := read_elements (v :: l) Hl Hb f [] r). inversion Hl as [|? ? Hv _]; subst.
    cbn [app] in Hjoin. rewrite <- Hjoin by (done || lia). cbn [map]. rewrite join_cons, !str_app_assoc.
    edestruct (value_head v) as (c & q & Ht & Hs & Hcl); [exact Hv | | exact (proj1 (not_ended _ _ _ c q Ht Hs Hcl))]. by destruct l.
  - apply json_reads_obj in Hr as (Hwf & Hk & Hl).
    assert (Hb : Forall (fun kv => reads_back kv.2) d) by (rewrite Forall_forall in *; eauto).
    rewrite text_obj in * by done. cbn in Hf. rewrite str_length_app in Hf. cbn in Hf.
    destruct fuel as [|f]; [lia|]. rewrite !str_app_assoc. cbn [String.append json_value]. rewrite skip_id by done. cbn [Ascii.eqb Bool.eqb].
    destruct d as [|kv d]; [done|]. assert (Hjoin := read_members (kv :: d) Hl Hb f [] r). cbn [app] in Hjoin. rewrite <- Hjoin by (done || lia).
    cbn [map]. rewrite join_cons, !str_app_assoc.
    lazymatch goal with |- context [pair_text kv +:+ ?t] => destruct (pair_head kv t) as [q Ht] end.
    exact (proj2 (not_ended _ (fun u => Some (JObj [], u)) _ _ q Ht eq_refl eq_refl)).
Qed.

Lemma JSON_text_reads v : json_reads v -> JSON_parse (text v) = Some v.
Proof.
  intros Hv. unfold JSON_parse. rewrite <- (str_app_nil_r (text v)) at 2. rewrite (reads v Hv) by (done || lia). done.
Qed.
