(* ===== verification/Blocking.v ===== *)
(** * Blocked cases (packages/core/src/regression-blocking.ts, regression/core/blocking.ts)

    A case that did not run is blocked by something: a missing prerequisite, the failure of
    an earlier step, a cancellation, or an unknown cause. The report attributes every blocked
    case to a public cause and counts them; a failed cleanup hands its cause to the runs that
    follow. Evidence is read from files, so a recorded cause is any JSON value. *)

From S2P Require Import Prelude Js Number Json Prog Errors Contracts JsonParse.

Local Open Scope string_scope.
Local Open Scope js_scope.
Local Open Scope Z_scope.

(** ** packages/core/src/regression-blocking.ts *)
Notation prerequisite := RegressionBlockedKind_prerequisite.
Notation failure := RegressionBlockedKind_failure.
Notation cancelled := RegressionBlockedKind_cancelled.
Notation unknown := RegressionBlockedKind_unknown.

Definition regressionBlockedKinds : list RegressionBlockedKind := [prerequisite; failure; cancelled; unknown].
Definition emptyBlockedCounts : RegressionBlockedCounts := mk_RegressionBlockedCounts (Int 0) (Int 0) (Int 0) (Int 0).

Definition regressionBlockedKind (reason : option string) : RegressionBlockedKind :=
  if bool_decide (reason = Some "CANCELLED") then cancelled
  else if includes ["PREPARATION_FAILED"; "CONFIG"; "AUTH"; "API"; "COMPONENT"; "MUTATION"; "OWNERSHIP"; "CLEANUP";
                    "CONFLICT"; "DEADLINE"; "UNEXPECTED"; "PROCESS_STATE"; "LOCK_LOST"; "RECOVERY"] (reason ?? "")
  then failure
  else if includes ["PREREQUISITE"; "PRIVATE_FILE"; "TLS"; "IDENTITY"; "CAPABILITY"; "APPLICATION_MODEL"; "GPU_PROVIDER";
                    "GPU_VALIDATION"; "HOST"; "BUSY"; "OBSERVER"; "LOCK_BUSY"; "LOCK_STALE"; "LAB"; "EXTERNAL_RUNNER";
                    "CACHE_RACE_WINDOW"] (reason ?? "")
  then prerequisite
  else unknown.

Definition middle_dot : string := String (unit_of 32) (String (unit_of 183) " ").

Definition regressionBlockedSummary (counts : RegressionBlockedCounts) : string :=
  String_of_number (RegressionBlockedCounts_prerequisite counts) +:+ " by prerequisite" +:+ middle_dot +:+
  String_of_number (RegressionBlockedCounts_failure counts) +:+ " by failure" +:+
  (if json_truthy (JNum (RegressionBlockedCounts_cancelled counts))
   then middle_dot +:+ String_of_number (RegressionBlockedCounts_cancelled counts) +:+ " cancelled" else "") +:+
  (if json_truthy (JNum (RegressionBlockedCounts_unknown counts))
   then middle_dot +:+ String_of_number (RegressionBlockedCounts_unknown counts) +:+ " cause unknown" else "").

(** [counts[kind]++] *)
Definition count_kind (kind : RegressionBlockedKind) (c : RegressionBlockedCounts) : RegressionBlockedCounts :=
  let up (k : RegressionBlockedKind) (n : number) := if bool_decide (k = kind) then num_add n (Int 1) else n in
  mk_RegressionBlockedCounts (up prerequisite (RegressionBlockedCounts_prerequisite c)) (up failure (RegressionBlockedCounts_failure c))
    (up cancelled (RegressionBlockedCounts_cancelled c)) (up unknown (RegressionBlockedCounts_unknown c)).

(** ** Evidence *)
Record BlockingEvidence : Type := {
  ev_id : string;
  ev_outcome : string;
  ev_reason : option string;
  ev_stage : option string;
  ev_executionId : option string;
  ev_traceRunId : option string;
  ev_executionOutcome : option string;
  ev_blockedBy : option json
}.

(** The ids of [caseDescriptions], which are read from the public catalogue of test cases. *)
Class Catalogue : Type := catalogue : list string.

Definition execution_pattern (s : string) : bool := (String.length s =? 24)%nat && sforall is_hex_lower s.
Definition trace_pattern (s : string) : bool :=
  startsWith "reg-" s && (String.length s =? 40)%nat && sforall (fun c => is_hex_lower c || Ascii.eqb c "-") (drop_str 4 s).

(** A property only when its value is as it should be. *)
Definition keep_if (ok : string -> bool) (v : option string) : option string :=
  match v with Some s => if ok s then Some s else None | None => None end.

Section blocking.
Context `{Catalogue}.

Definition known_reason (s : string) : bool := bool_decide (is_Some (reason_of_string s)).
Definition known_stage (s : string) : bool := bool_decide (is_Some (stage_of_string s)).

(** Public identifiers and known reasons only. *)
Definition public (b : RegressionBlocker) : RegressionBlocker :=
  mk_RegressionBlocker (RegressionBlocker_kind b)
    (keep_if known_reason (RegressionBlocker_reason b)) (keep_if (includes catalogue) (RegressionBlocker_caseId b))
    (keep_if known_stage (RegressionBlocker_stage b)) (keep_if execution_pattern (RegressionBlocker_executionId b))
    (keep_if trace_pattern (RegressionBlocker_traceRunId b)).

Definition checkedBlocker (value : json) : option RegressionBlocker :=
  d ← json_obj value;
  kind ← named literal_name regressionBlockedKinds (dict_get d "kind");
  Some (public (mk_RegressionBlocker kind (text_field d "reason") (text_field d "caseId") (text_field d "stage")
                  (text_field d "executionId") (text_field d "traceRunId"))).

Definition failed_case (item : BlockingEvidence) : bool := String.eqb (ev_outcome item) "Failed" || String.eqb (ev_outcome item) "Flaky".

Definition blockerFrom (item : BlockingEvidence) : RegressionBlocker :=
  public (mk_RegressionBlocker (if failed_case item then failure else regressionBlockedKind (ev_reason item))
            (ev_reason item) (Some (ev_id item)) (ev_stage item) (ev_executionId item) (ev_traceRunId item)).

Definition blocker_json (b : RegressionBlocker) : json :=
  let field (k : string) (v : option string) := match v with Some s => [(k, JStr s)] | None => [] end in
  JObj (("kind", literal (RegressionBlocker_kind b)) ::
        field "reason" (RegressionBlocker_reason b) ++ field "caseId" (RegressionBlocker_caseId b) ++
        field "stage" (RegressionBlocker_stage b) ++ field "executionId" (RegressionBlocker_executionId b) ++
        field "traceRunId" (RegressionBlocker_traceRunId b))%list.

(** ** The cause of a fence *)
Definition recoveryCause (value : option string) : option RegressionBlocker :=
  match value with
  | Some s =>
      if negb (truthy s) || (2048 <? String.length s)%nat then None
      else
        v ← JSON_parse s;
        cause ← checkedBlocker v;
        if bool_decide (RegressionBlocker_kind cause = failure) then Some cause else None
  | None => None
  end.

Definition fence_key : string := "REGRESSION_RECOVERY_FENCE".
Definition cause_key : string := "REGRESSION_RECOVERY_CAUSE".

Definition is_failed (item : BlockingEvidence) : bool := String.eqb (ev_outcome item) "Failed".

Definition fence_root (cases : list BlockingEvidence) : option BlockingEvidence :=
  or_else (find_first (fun item => is_failed item && String.eqb (ev_id item) "HAR-10" &&
                                   bool_decide (ev_stage item = Some "runner-execution")) cases)
    (or_else (find_first (fun item => is_failed item &&
                includes ["CLEANUP"; "OWNERSHIP"; "CONFLICT"; "LOCK_LOST"; "LOCK_STALE"; "RECOVERY"; "PROCESS_STATE"] (ev_reason item ?? "")) cases)
             (find_first is_failed cases)).

(** The environment after the call. *)
Definition inheritRecoveryCause (environment : dict string) (cases : list BlockingEvidence) (active : bool) : dict string :=
  if negb active then dict_delete (dict_delete environment fence_key) cause_key
  else
    let environment := dict_set environment fence_key "1" in
    if recoveryCause (dict_get environment cause_key) then environment
    else match fence_root cases with
         | Some root => dict_set environment cause_key (stringify "" "" (blocker_json (blockerFrom root)))
         | None => environment
         end.

(** ** Attribution *)

(** The key of the recorded scenario. *)
Definition scenario_of (item : BlockingEvidence) (executionId : string) : string := (ev_traceRunId item ?? "") +:+ "/" +:+ executionId.
Definition scenario (item : BlockingEvidence) : option string :=
  match ev_executionId item with
  | Some x => if execution_pattern x then Some (scenario_of item x) else None
  | None => None
  end.

Definition add_peer {A} (key : string) (item : A) (groups : dict (list A)) : dict (list A) :=
  dict_set groups key (match dict_get groups key with Some group => group ++ [item] | None => [item] end)%list.

(** The cases of every recorded scenario. *)
Definition grouped {A} (case : A -> BlockingEvidence) (cases : list A) : dict (list A) :=
  foldl (fun groups item => match scenario (case item) with Some key => add_peer key item groups | None => groups end) [] cases.

Definition root_of (peers : list BlockingEvidence) : option BlockingEvidence :=
  or_else (find_first failed_case peers)
    (find_first (fun peer => String.eqb (ev_outcome peer) "Blocked" && negb (bool_decide (ev_reason peer = Some "DEPENDENCY"))) peers).

Definition roots_of (groups : dict (list BlockingEvidence)) : dict (option BlockingEvidence) :=
  map (fun kv => (kv.1, root_of kv.2)) groups.

Definition blocker (kind : RegressionBlockedKind) (reason : option string) : RegressionBlocker :=
  mk_RegressionBlocker kind reason None None None None.

Definition recorded_blocker (item : BlockingEvidence) : option RegressionBlocker := ev_blockedBy item ≫= checkedBlocker.

(** The cause of a blocked case, given how the root of a scenario is found. *)
Definition blocked_cause (root : string -> option BlockingEvidence) (item : BlockingEvidence) : RegressionBlocker :=
  match recorded_blocker item with
  | Some b => b
  | None =>
      if bool_decide (ev_reason item = Some "DEPENDENCY") then
        match (match ev_executionId item with Some x => if truthy x then root (scenario_of item x) else None | None => None end) with
        | Some r => recorded_blocker r ?? blockerFrom r
        | None => blocker (if bool_decide (ev_executionOutcome item = Some "Failed") then failure else unknown) (Some "DEPENDENCY")
        end
      else
        blocker (if bool_decide (ev_reason item = Some "PREREQUISITE") && negb (truthy (ev_executionId item ?? ""))
                 then unknown else regressionBlockedKind (ev_reason item))
          (keep_if known_reason (ev_reason item))
  end.

(** Every case with its [blockedBy]. *)
Definition Resolved : Type := BlockingEvidence * option RegressionBlocker.

Definition withBlockedCauses (cases : list BlockingEvidence) : list Resolved :=
  let roots := roots_of (grouped (fun item => item) cases) in
  map (fun item => (item, if String.eqb (ev_outcome item) "Blocked"
                          then Some (blocked_cause (fun key => mjoin (dict_get roots key)) item) else None)) cases.

(** ** Counts *)
Definition is_blocked (r : Resolved) : bool := String.eqb (ev_outcome r.1) "Blocked".
Definition kind_of (r : Resolved) : RegressionBlockedKind :=
  match r.2 with Some b => RegressionBlocker_kind b | None => unknown end.

(** A scenario that neither failed nor passed throughout. *)
Definition scenario_blocked (rows : list Resolved) : bool :=
  let outcomes := map (fun r => ev_executionOutcome r.1 ?? ev_outcome r.1) rows in
  negb (existsb (fun o => String.eqb o "Failed" || String.eqb o "Flaky") outcomes) &&
  existsb (fun o => negb (String.eqb o "Passed")) outcomes.

Definition scenario_kind (rows : list Resolved) : RegressionBlockedKind :=
  let kinds := map kind_of (List.filter is_blocked rows) in
  if bool_decide (failure ∈ kinds) then failure
  else if bool_decide (prerequisite ∈ kinds) then prerequisite
  else if bool_decide (cancelled ∈ kinds) then cancelled else unknown.

Definition blockedCounts (cases : list BlockingEvidence) (executions : bool) : RegressionBlockedCounts :=
  let resolved := withBlockedCauses cases in
  if negb executions then
    foldl (fun c r => if is_blocked r then count_kind (kind_of r) c else c) emptyBlockedCounts resolved
  else
    foldl (fun c rows => if scenario_blocked rows then count_kind (scenario_kind rows) c else c)
      emptyBlockedCounts (map snd (grouped fst resolved)).
End blocking.
