(* ===== verification/BlockingProps.v ===== *)
(** * Theorems on blocked cases

    Attribution by the indexed groups is attribution by a direct search of the scenario; every
    blocked case gets a public cause that reads back as it was stored; a fence keeps the first
    cause across runs. *)

From S2P Require Import Prelude Js Number Json JsonParse Errors Contracts JsonProps Blocking.

Local Open Scope string_scope.
Local Open Scope js_scope.
Local Open Scope Z_scope.

(** ** Groups *)
Lemma scenario_key_inj t t' x y : sforall (fun c => negb (Ascii.eqb c "/")) x = true -> sforall (fun c => negb (Ascii.eqb c "/")) y = true ->
  t +:+ "/" +:+ x = t' +:+ "/" +:+ y -> t = t' /\ x = y.
Proof.
  intros Hx Hy. revert t'. induction t as [|c t IH]; intros [|c' t'] Heq; cbn in Heq; injection Heq.
  - by intros ->.
  - intros -> <-. exfalso. rewrite sforall_app in Hx. cbn in Hx. by rewrite andb_false_r in Hx.
  - intros <- ->. exfalso. rewrite sforall_app in Hy. cbn in Hy. by rewrite andb_false_r in Hy.
  - intros Ht <-. destruct (IH _ Ht) as [-> ->]. done.
Qed.

Lemma execution_no_slash x : execution_pattern x = true -> sforall (fun c => negb (Ascii.eqb c "/")) x = true.
Proof.
  unfold execution_pattern. intros [_ H]%andb_prop. eapply sforall_impl; [|exact H]. by intros [[] [] [] [] [] [] [] []].
Qed.

Definition in_scenario {A} (case : A -> BlockingEvidence) (key : string) (item : A) : bool := bool_decide (scenario (case item) = Some key).

Lemma dict_get_add_peer {A} key (item : A) groups k : dict_get (add_peer key item groups) k =
  if String.eqb key k then Some (match dict_get groups k with Some group => group ++ [item] | None => [item] end)%list else dict_get groups k.
Proof.
  unfold add_peer. destruct (String.eqb_spec key k) as [->|Hk]; [by rewrite dict_get_set | by rewrite dict_get_set_ne].
Qed.

Lemma grouped_get {A} (case : A -> BlockingEvidence) cases key :
  dict_get (grouped case cases) key = match List.filter (in_scenario case key) cases with [] => None | l => Some l end.
Proof.
  unfold grouped. induction cases as [|item cases IH] using rev_ind; [done|].
  rewrite foldl_app, List.filter_app. cbn [foldl List.filter]. unfold in_scenario at 2.
  destruct (scenario (case item)) as [k|] eqn:Hk.
  - rewrite dict_get_add_peer, IH. destruct (String.eqb_spec k key) as [->|Hne].
    + rewrite bool_decide_true by done. by destruct (List.filter _ cases).
    + rewrite bool_decide_false by congruence. by rewrite app_nil_r.
  - rewrite bool_decide_false by done. by rewrite app_nil_r.
Qed.

Section props.
Context `{Catalogue}.

(** ** Attribution by a direct search *)

(** The cases recorded in the same run of the same scenario. *)
Definition same_execution (item peer : BlockingEvidence) : bool :=
  match ev_executionId item, ev_executionId peer with
  | Some x, Some y => execution_pattern y && String.eqb x y && String.eqb (ev_traceRunId item ?? "") (ev_traceRunId peer ?? "")
  | _, _ => false
  end.

Definition attributed (cases : list BlockingEvidence) (item : BlockingEvidence) : option RegressionBlocker :=
  if String.eqb (ev_outcome item) "Blocked"
  then Some (blocked_cause (fun _ => root_of (List.filter (same_execution item) cases)) item) else None.

Definition slash_free (item : BlockingEvidence) : bool :=
  match ev_executionId item with Some x => sforall (fun c => negb (Ascii.eqb c "/")) x | None => true end.

Lemma same_scenario item x peer : slash_free item = true -> ev_executionId item = Some x ->
  in_scenario (fun p => p) (scenario_of item x) peer = same_execution item peer.
Proof.
  unfold slash_free, in_scenario, same_execution, scenario. intros Hs Hx. rewrite Hx in *.
  destruct (ev_executionId peer) as [y|]; [|done]. destruct (execution_pattern y) eqn:Hy; [|done].
  apply Bool.eq_iff_eq_true. rewrite bool_decide_eq_true, !andb_true_iff, !String.eqb_eq.
  split.
  - intros [= Heq]. apply scenario_key_inj in Heq as [-> ->]; [done | by apply execution_no_slash | done].
  - intros [[_ ->] Ht]. unfold scenario_of. by rewrite Ht.
Qed.

Lemma root_get cases key : mjoin (dict_get (roots_of (grouped (fun item => item) cases)) key) =
  root_of (List.filter (in_scenario (fun p => p) key) cases).
Proof.
  assert (Hm : forall d, dict_get (roots_of d) key = root_of <$> dict_get d key).
  { intros d. induction d as [|[k v] d IH]; cbn; [done|]. by destruct (String.eqb k key). }
  rewrite Hm, grouped_get. by destruct (List.filter _ cases).
Qed.

Lemma blocked_cause_ext root root' item :
  (forall x, ev_executionId item = Some x -> root (scenario_of item x) = root' (scenario_of item x)) ->
  blocked_cause root item = blocked_cause root' item.
Proof.
  intros Hr. unfold blocked_cause. destruct (recorded_blocker item); [done|]. case_bool_decide; [|done].
  destruct (ev_executionId item) as [x|]; [|done]. by rewrite Hr.
Qed.

(** ** What is stored reads back *)
Lemma keep_if_idemp ok v : keep_if ok (keep_if ok v) = keep_if ok v.
Proof. unfold keep_if. destruct v as [s|]; [|done]. destruct (ok s) eqn:Hs; [|done]. by rewrite Hs. Qed.

Lemma public_idemp b : public (public b) = public b.
Proof. unfold public. cbn. by rewrite !keep_if_idemp. Qed.

Lemma kind_named k : named literal_name regressionBlockedKinds (Some (literal k)) = Some k.
Proof. by destruct k. Qed.

Lemma checked_stored b : checkedBlocker (blocker_json b) = Some (public b).
Proof.
  destruct b as [k [r|] [c|] [s|] [x|] [t|]]; unfold checkedBlocker; cbn -[named literal]; by rewrite kind_named.
Qed.

Definition is_public (b : RegressionBlocker) : Prop := public b = b.

Lemma public_checked v b : checkedBlocker v = Some b -> is_public b.
Proof.
  unfold checkedBlocker. intros (d & _ & (k & _ & Hb)%bind_Some)%bind_Some. injection Hb as <-. apply public_idemp.
Qed.

Lemma public_recorded item b : recorded_blocker item = Some b -> is_public b.
Proof. intros (v & _ & Hb)%bind_Some. by eapply public_checked. Qed.

Lemma public_from item : is_public (blockerFrom item).
Proof. apply public_idemp. Qed.

Lemma public_blocker kind reason : is_public (blocker kind (keep_if known_reason reason)).
Proof. unfold is_public, public, blocker. cbn. by rewrite keep_if_idemp. Qed.

Lemma public_cause root item : is_public (blocked_cause root item).
Proof.
  unfold blocked_cause. destruct (recorded_blocker item) eqn:Hi; [by eapply public_recorded|].
  case_bool_decide; [|apply public_blocker]. destruct (match ev_executionId item with Some _ => _ | None => _ end) as [r|].
  - destruct (recorded_blocker r) eqn:Hr; [by eapply public_recorded | apply public_from].
  - by case_bool_decide.
Qed.

(** A resolved case as it is written to a file. *)
Definition stored_case (r : Resolved) : BlockingEvidence :=
  {| ev_id := ev_id r.1; ev_outcome := ev_outcome r.1; ev_reason := ev_reason r.1; ev_stage := ev_stage r.1;
     ev_executionId := ev_executionId r.1; ev_traceRunId := ev_traceRunId r.1; ev_executionOutcome := ev_executionOutcome r.1;
     ev_blockedBy := blocker_json <$> r.2 |}.

Lemma stored_cause root item b : is_public b -> blocked_cause root (stored_case (item, Some b)) = b.
Proof.
  intros Hb. unfold blocked_cause.
  assert (recorded_blocker (stored_case (item, Some b)) = Some b) as -> by exact (eq_trans (checked_stored b) (f_equal Some Hb)). done.
Qed.

(** Attribution is by scenario. The groups the code indexes by a joined key find the cause
    a direct search of the case's own run and execution finds: the first failed case of the
    scenario, or else its first case blocked by more than a dependency; nothing recorded in
    another run or another execution is ever blamed. *)
Theorem blocked_causes_direct cases : Forall (fun item => slash_free item = true) cases ->
  withBlockedCauses cases = map (fun item => (item, attributed cases item)) cases.
Proof.
  intros Hs. unfold withBlockedCauses. apply map_ext_in. intros item Hi. f_equal. unfold attributed.
  destruct (String.eqb (ev_outcome item) "Blocked"); [|done]. f_equal. apply blocked_cause_ext. intros x Hx. rewrite root_get.
  f_equal. apply List.filter_ext. intros peer. apply same_scenario; [|done].
  rewrite List.Forall_forall in Hs. by apply Hs.
Qed.


(** ** The cause of a fence *)
Lemma quote_bound s n : (String.length s <= n -> String.length (quote s) <= 6 * n + 2)%nat.
Proof.
  assert (Hb : (String.length (quote_body s) <= 6 * String.length s)%nat).
  { induction s as [|c s IH]; cbn [quote_body String.length]; [lia|]. rewrite str_length_app.
    assert (String.length (quote_char c) <= 6)%nat; [|lia]. by destruct c as [[] [] [] [] [] [] [] []]; vm_compute; lia. }
  intros Hs. unfold quote. cbn [String.length]. rewrite str_length_app. cbn. lia.
Qed.

Lemma join_length l n : Forall (fun s => (String.length s <= n)%nat) l -> (String.length (join "," l) <= length l * (n + 1))%nat.
Proof.
  induction 1 as [|s l Hs _ IH]; [done|]. rewrite Canonical.join_cons, str_length_app. cbn [length].
  destruct l; [cbn; lia|]. rewrite str_length_app. change (String.length ",") with 1%nat. lia.
Qed.

(** The members of a public blocker, whose texts are at most 40 characters long. *)
Definition short_member (kv : string * json) : Prop :=
  (String.length kv.1 <= 13)%nat /\ match kv.2 with JStr s => (String.length s <= 40)%nat | _ => False end.

Lemma pair_bound kv : short_member kv -> (String.length (pair_text kv) <= 323)%nat.
Proof.
  destruct kv as [k [| | |s| |]]; intros [Hk Hv]; try done. cbn [fst snd] in *. unfold pair_text. rewrite !str_length_app. cbn [fst snd].
  change (text (JStr s)) with (quote s). pose proof (quote_bound s 40 Hv). pose proof (quote_bound k 13 Hk).
  change (String.length ":") with 1%nat. lia.
Qed.

Lemma reason_length s : known_reason s = true -> (String.length s <= 40)%nat.
Proof.
  intros [r Hr]%bool_decide_eq_true. apply reason_of_string_Some in Hr as <-. destruct r; vm_compute; lia.
Qed.
Lemma stage_length s : known_stage s = true -> (String.length s <= 40)%nat.
Proof.
  intros [x Hx]%bool_decide_eq_true. apply stage_of_string_Some in Hx as <-. destruct x; vm_compute; lia.
Qed.

Lemma kept_short ok v k : (forall s, ok s = true -> (String.length s <= 40)%nat) -> (String.length k <= 13)%nat ->
  Forall short_member (match keep_if ok v with Some s => [(k, JStr s)] | None => [] end).
Proof.
  intros Hok Hk. unfold keep_if. destruct v as [s|]; [|done]. destruct (ok s) eqn:Hs; [|done]. apply List.Forall_cons; [by split; [|by apply Hok] | apply List.Forall_nil].
Qed.

Definition short_ids : Prop := Forall (fun id => (String.length id <= 40)%nat) catalogue.

Definition blocker_members (b : RegressionBlocker) : dict json := match blocker_json b with JObj d => d | _ => [] end.

Lemma public_members b : short_ids -> Forall short_member (blocker_members (public b)).
Proof.
  intros Hc. unfold blocker_members, blocker_json, public. cbn [RegressionBlocker_kind RegressionBlocker_reason RegressionBlocker_caseId
    RegressionBlocker_stage RegressionBlocker_executionId RegressionBlocker_traceRunId].
  constructor; [split; [cbn; lia | by destruct (RegressionBlocker_kind b); cbn; lia]|].
  repeat apply Forall_app_2; apply kept_short; try (cbn; lia).
  - apply reason_length.
  - intros s Hs%includes_spec. unfold short_ids in Hc. rewrite Forall_forall in Hc. by apply Hc.
  - apply stage_length.
  - intros s [->%Nat.eqb_eq _]%andb_prop. lia.
  - intros s [[_ ->%Nat.eqb_eq]%andb_prop _]%andb_prop. lia.
Qed.

Lemma blocker_reads b : json_reads (blocker_json b).
Proof.
  destruct b as [k [r|] [c|] [s|] [x|] [t|]]; (split; [by apply (bool_decide_unpack (NoDup (dict_keys _)))|]);
    (split; [repeat (apply List.Forall_cons; [reflexivity|]); apply List.Forall_nil | by destruct k; repeat split]).
Qed.

Lemma blocker_text_length b : short_ids -> (String.length (text (blocker_json (public b))) <= 2048)%nat.
Proof.
  intros Hc. pose proof (public_members b Hc) as Hm. destruct (json_reads_obj _ (blocker_reads (public b))) as (_ & Hk & _).
  change (blocker_json (public b)) with (JObj (blocker_members (public b))) in *. rewrite text_obj by done. rewrite !str_length_app.
  assert (Hl : (length (map pair_text (blocker_members (public b))) <= 6)%nat).
  { rewrite length_map. unfold blocker_members, blocker_json. cbn [length]. rewrite !length_app.
    destruct (RegressionBlocker_reason _), (RegressionBlocker_caseId _), (RegressionBlocker_stage _), (RegressionBlocker_executionId _),
      (RegressionBlocker_traceRunId _); cbn; lia. }
  pose proof (join_length (map pair_text (blocker_members (public b))) 323) as Hj.
  change (String.length "{") with 1%nat. change (String.length "}") with 1%nat.
  enough (String.length (join "," (map pair_text (blocker_members (public b)))) <= 6 * 324)%nat by lia.
  etrans; [apply Hj, List.Forall_map; eapply List.Forall_impl; [|exact Hm]; apply pair_bound | nia].
Qed.

Lemma cause_reads root : short_ids -> is_failed root = true ->
  recoveryCause (Some (text (blocker_json (blockerFrom root)))) = Some (blockerFrom root).
Proof.
  intros Hc Hf. unfold recoveryCause.
  assert (Hl : (String.length (text (blocker_json (blockerFrom root))) <= 2048)%nat) by by apply blocker_text_length.
  apply Nat.ltb_ge in Hl. rewrite Hl, orb_false_r.
  assert (Ht : truthy (text (blocker_json (blockerFrom root))) = true).
  { unfold truthy. apply negb_true_iff, String.eqb_neq. intros Hn. pose proof (text_nonempty _ (blocker_reads (blockerFrom root))) as Hp.
    rewrite Hn in Hp. cbn in Hp. lia. }
  rewrite Ht, JSON_text_reads by apply blocker_reads. cbn [negb base.mbind option_bind].
  rewrite checked_stored, (public_from root). cbn [base.mbind option_bind].
  assert (Hk : RegressionBlocker_kind (blockerFrom root) = failure).
  { unfold blockerFrom, failed_case, is_failed in *. cbn. by rewrite Hf. }
  by rewrite Hk.
Qed.

Lemma fence_root_spec cases root : fence_root cases = Some root -> root ∈ cases /\ is_failed root = true.
Proof.
  unfold fence_root. rewrite !or_else_Some. intros [H1|[_ [H1|[_ H1]]]]; apply find_first_Some in H1 as [Hi Hf]; split; try done;
    by repeat (apply andb_prop in Hf as [Hf _]).
Qed.

(** The first cause there is. *)
Definition first_cause (initial : option RegressionBlocker) (runs : list (list BlockingEvidence)) : option RegressionBlocker :=
  foldl (fun cause cases => or_else cause (blockerFrom <$> fence_root cases)) initial runs.

Definition fenced (environment : dict string) (cases : list BlockingEvidence) : dict string := inheritRecoveryCause environment cases true.

Lemma fenced_cause environment cases : short_ids ->
  recoveryCause (dict_get (fenced environment cases) cause_key) =
  or_else (recoveryCause (dict_get environment cause_key)) (blockerFrom <$> fence_root cases) /\
  dict_get (fenced environment cases) fence_key = Some "1".
Proof.
  intros Hc. unfold fenced, inheritRecoveryCause. cbn [negb]. rewrite dict_get_set_ne by done.
  destruct (recoveryCause (dict_get environment cause_key)) as [b|] eqn:Hb.
  { cbn iota. by rewrite dict_get_set, dict_get_set_ne. }
  destruct (fence_root cases) as [root|] eqn:Hr.
  - rewrite dict_get_set, dict_get_set_ne, dict_get_set by done. split; [|done]. apply cause_reads; [done | by eapply fence_root_spec].
  - by rewrite dict_get_set, dict_get_set_ne.
Qed.

(** A fence keeps its first cause. However many runs inherit the environment while the fence
    is up, the cause it carries is the one it had, or else the failure of the first run that
    had one, read back from its text; the fence itself stays up until a verified recovery
    takes both away. *)
Theorem fence_keeps_cause environment runs : short_ids -> dict_wf environment -> runs <> [] ->
  let env := foldl fenced environment runs in
  recoveryCause (dict_get env cause_key) = first_cause (recoveryCause (dict_get environment cause_key)) runs /\
  dict_get env fence_key = Some "1" /\
  forall cases, dict_get (inheritRecoveryCause env cases false) cause_key = None /\
                dict_get (inheritRecoveryCause env cases false) fence_key = None.
Proof.
  intros Hc Hwf Hne. cbv zeta. assert (Hwf' : dict_wf (foldl fenced environment runs)).
  { clear Hne. revert environment Hwf. induction runs as [|cases runs IH]; intros env Hwf; [done|]. apply IH.
    unfold fenced, inheritRecoveryCause. cbn [negb]. destruct (recoveryCause _); [by apply dict_set_wf|].
    destruct (fence_root cases); by repeat apply dict_set_wf. }
  split; [|split].
  - clear Hne Hwf Hwf'. revert environment. induction runs as [|cases runs IH]; intros env; [done|]. cbn [foldl].
    rewrite IH. unfold first_cause. cbn [foldl]. by rewrite (proj1 (fenced_cause env cases Hc)).
  - destruct runs as [|cases runs _] using rev_ind; [done|]. rewrite foldl_app. apply (fenced_cause _ cases Hc).
  - intros cases. unfold inheritRecoveryCause. cbn [negb]. split.
    + apply dict_get_delete, dict_delete_wf, Hwf'.
    + rewrite dict_get_delete_ne by done. by apply dict_get_delete.
Qed.
(** ** Counts *)
Definition blocked_count (k : RegressionBlockedKind) (c : RegressionBlockedCounts) : number :=
  match k with
  | prerequisite => RegressionBlockedCounts_prerequisite c
  | failure => RegressionBlockedCounts_failure c
  | cancelled => RegressionBlockedCounts_cancelled c
  | unknown => RegressionBlockedCounts_unknown c
  end.

Lemma count_kind_of k kind c : blocked_count k (count_kind kind c) = if bool_decide (k = kind) then num_add (blocked_count k c) (Int 1) else blocked_count k c.
Proof. by destruct k. Qed.

(** How many of the list are counted under the kind. *)
Definition tally {A} (counted : A -> bool) (kind : A -> RegressionBlockedKind) (l : list A) (k : RegressionBlockedKind) : nat :=
  length (List.filter (fun a => counted a && bool_decide (k = kind a)) l).

Lemma counts_tally {A} (counted : A -> bool) (kind : A -> RegressionBlockedKind) l k : Z.of_nat (length l) < 2 ^ 53 ->
  blocked_count k (foldl (fun c a => if counted a then count_kind (kind a) c else c) emptyBlockedCounts l) = Int (Z.of_nat (tally counted kind l k)).
Proof.
  unfold tally. induction l as [|a l IH] using rev_ind; intros Hl; [by destruct k|]. rewrite length_app in Hl. cbn [length] in Hl.
  rewrite foldl_app, List.filter_app, length_app. cbn [foldl List.filter].
  assert (Ht : (length (List.filter (fun a => counted a && bool_decide (k = kind a)) l) <= length l)%nat) by apply List.filter_length_le.
  destruct (counted a); cbn [andb]; [|rewrite IH by lia; f_equal; cbn; lia]. rewrite count_kind_of.
  destruct (bool_decide (k = kind a)); rewrite IH by lia; [|f_equal; cbn; lia]. rewrite num_add_int by lia. f_equal. cbn. lia.
Qed.

Lemma dict_set_length {A} (d : dict A) k v : (length (dict_set d k v) <= length d + 1)%nat.
Proof. induction d as [|[k' v'] d IH]; cbn; [lia|]. destruct (String.eqb k' k); cbn; lia. Qed.

Lemma grouped_length {A} (case : A -> BlockingEvidence) l : (length (grouped case l) <= length l)%nat.
Proof.
  unfold grouped. induction l as [|a l IH] using rev_ind; [done|]. rewrite foldl_app, length_app. cbn [foldl length].
  destruct (scenario (case a)) as [key|]; [|lia]. etrans; [|apply Nat.add_le_mono_r, IH]. unfold add_peer.
  apply dict_set_length.
Qed.

(** The counts are those of the cases. Counting cases, every kind counts the blocked cases
    attributed to it; counting executions, it counts the scenarios recorded that neither
    failed nor passed throughout, each once, under the gravest kind of its blocked cases. *)
Theorem blocked_counts cases k : Z.of_nat (length cases) < 2 ^ 53 ->
  blocked_count k (blockedCounts cases false) = Int (Z.of_nat (tally is_blocked kind_of (withBlockedCauses cases) k)) /\
  blocked_count k (blockedCounts cases true) =
    Int (Z.of_nat (tally scenario_blocked scenario_kind (map snd (grouped fst (withBlockedCauses cases))) k)).
Proof.
  intros Hl. assert (Hr : length (withBlockedCauses cases) = length cases) by apply length_map.
  unfold blockedCounts. cbn [negb]. split; apply counts_tally; [by rewrite Hr|].
  rewrite length_map. eapply Z.le_lt_trans; [apply Nat2Z.inj_le, grouped_length | exact (eq_ind_r (fun n => Z.of_nat n < 2 ^ 53) Hl Hr)].
Qed.
End props.

(** ** A campaign *)
#[local] Instance demo_catalogue : Catalogue := ["HAR-10"; "APP-01"; "APP-02"; "GPU-01"].

Definition demo_execution : string := "0123456789abcdef01234567".
Definition demo_case (id outcome : string) (reason stage execution : option string) : BlockingEvidence :=
  {| ev_id := id; ev_outcome := outcome; ev_reason := reason; ev_stage := stage; ev_executionId := execution;
     ev_traceRunId := Some "reg-00000000-0000-0000-0000-000000000000"; ev_executionOutcome := None; ev_blockedBy := None |}.
Definition demo_cases : list BlockingEvidence :=
  [demo_case "APP-01" "Passed" None None (Some demo_execution);
   demo_case "APP-02" "Failed" (Some "CLEANUP") (Some "cleanup") (Some demo_execution);
   demo_case "GPU-01" "Blocked" (Some "DEPENDENCY") None (Some demo_execution);
   demo_case "GPU-01" "Blocked" (Some "GPU_PROVIDER") None None].

Example demo_causes : map snd (withBlockedCauses demo_cases) =
  [None; None;
   Some (mk_RegressionBlocker failure (Some "CLEANUP") (Some "APP-02") (Some "cleanup") (Some demo_execution)
           (Some "reg-00000000-0000-0000-0000-000000000000"));
   Some (blocker prerequisite (Some "GPU_PROVIDER"))].
Proof. vm_compute. reflexivity. Qed.

Lemma blocked_causes_direct_witness :
  Forall (fun item => slash_free item = true) demo_cases /\
  withBlockedCauses demo_cases = map (fun item => (item, attributed demo_cases item)) demo_cases.
Proof.
  assert (Hs : Forall (fun item => slash_free item = true) demo_cases) by (repeat (apply List.Forall_cons; [vm_compute; reflexivity|]); apply List.Forall_nil).
  exact (conj Hs (blocked_causes_direct demo_cases Hs)).
Defined.

Lemma fence_keeps_cause_witness :
  recoveryCause (dict_get (foldl fenced [] [demo_cases; [demo_case "HAR-10" "Failed" None (Some "runner-execution") None]]) cause_key) =
  Some (mk_RegressionBlocker failure (Some "CLEANUP") (Some "APP-02") (Some "cleanup") (Some demo_execution)
          (Some "reg-00000000-0000-0000-0000-000000000000")).
Proof.
  assert (Hids : short_ids) by (unfold short_ids; apply Forall_forall; intros id Hid; repeat (apply elem_of_cons in Hid as [->|Hid]; [vm_compute; lia|]); by apply elem_of_nil in Hid).
  assert (Hruns : [demo_cases; [demo_case "HAR-10" "Failed" None (Some "runner-execution") None]] <> []) by discriminate.
  exact (proj1 (fence_keeps_cause [] _ Hids (NoDup_nil_2) Hruns)).
Defined.

Lemma blocked_counts_witness :
  Z.of_nat (length demo_cases) < 2 ^ 53 /\ blocked_count failure (blockedCounts demo_cases false) = Int 1.
Proof.
  assert (Hl : Z.of_nat (length demo_cases) < 2 ^ 53) by (vm_compute; reflexivity).
  split; [exact Hl|]. rewrite (proj1 (blocked_counts demo_cases failure Hl)). vm_compute. reflexivity.
Defined.
