(* ===== verification/KubernetesCommand.v ===== *)
(** * Failures of kubectl (regression/core/kubernetes-command.ts)

    What a failed kubectl command proves. Only the vocabulary of the Kubernetes API is kept;
    a status is reported only when the command exited as kubectl does after an answer of the
    server, and the answer is consistent. *)

From S2P Require Import Prelude Js Number Json JsonParse Errors.

Local Open Scope string_scope.
Local Open Scope js_scope.
Local Open Scope Z_scope.

Inductive StatusReason : Type :=
| BadRequest | Unauthorized | Forbidden | NotFound | MethodNotAllowed | NotAcceptable | AlreadyExists | Conflict
| Gone | Expired | RequestEntityTooLarge | UnsupportedMediaType | Invalid | TooManyRequests | InternalError
| ServiceUnavailable | Timeout | ServerTimeout.

#[export] Instance StatusReason_eq_dec : EqDecision StatusReason.
Proof. solve_decision. Defined.

Definition status_reasons : list StatusReason :=
  [BadRequest; Unauthorized; Forbidden; NotFound; MethodNotAllowed; NotAcceptable; AlreadyExists; Conflict; Gone; Expired;
   RequestEntityTooLarge; UnsupportedMediaType; Invalid; TooManyRequests; InternalError; ServiceUnavailable; Timeout; ServerTimeout].

Definition status_name (r : StatusReason) : string :=
  match r with
  | BadRequest => "BadRequest" | Unauthorized => "Unauthorized" | Forbidden => "Forbidden" | NotFound => "NotFound"
  | MethodNotAllowed => "MethodNotAllowed" | NotAcceptable => "NotAcceptable" | AlreadyExists => "AlreadyExists"
  | Conflict => "Conflict" | Gone => "Gone" | Expired => "Expired" | RequestEntityTooLarge => "RequestEntityTooLarge"
  | UnsupportedMediaType => "UnsupportedMediaType" | Invalid => "Invalid" | TooManyRequests => "TooManyRequests"
  | InternalError => "InternalError" | ServiceUnavailable => "ServiceUnavailable" | Timeout => "Timeout"
  | ServerTimeout => "ServerTimeout"
  end.

Definition statusCodes (r : StatusReason) : Z :=
  match r with
  | BadRequest => 400 | Unauthorized => 401 | Forbidden => 403 | NotFound => 404 | MethodNotAllowed => 405
  | NotAcceptable => 406 | AlreadyExists => 409 | Conflict => 409 | Gone => 410 | Expired => 410
  | RequestEntityTooLarge => 413 | UnsupportedMediaType => 415 | Invalid => 422 | TooManyRequests => 429
  | InternalError => 500 | ServiceUnavailable => 503 | Timeout => 504 | ServerTimeout => 500
  end.

(** [None] is the null status. *)
Definition matchesStatus (reason : StatusReason) (code : option Z) : bool :=
  match reason with
  | InternalError => match code with None => true | Some c => (500 <=? c) && (c <=? 599) end
  | _ => bool_decide (code = Some (statusCodes reason))
  end.

Inductive CommandFailure : Type := F_api | F_timeout | F_spawn | F_input | F_signal | F_output_limit | F_unknown.
#[export] Instance CommandFailure_eq_dec : EqDecision CommandFailure.
Proof. solve_decision. Defined.
Definition commandFailures : list CommandFailure := [F_api; F_timeout; F_spawn; F_input; F_signal; F_output_limit; F_unknown].
Definition failure_name (f : CommandFailure) : string :=
  match f with
  | F_api => "api" | F_timeout => "timeout" | F_spawn => "spawn" | F_input => "input" | F_signal => "signal"
  | F_output_limit => "output-limit" | F_unknown => "unknown"
  end.

Inductive CommandSignal : Type := SIGTERM | SIGKILL | SIGINT | SIGHUP | SIGPIPE | OTHER.
#[export] Instance CommandSignal_eq_dec : EqDecision CommandSignal.
Proof. solve_decision. Defined.
Definition commandSignals : list CommandSignal := [SIGTERM; SIGKILL; SIGINT; SIGHUP; SIGPIPE; OTHER].
Definition signal_name (s : CommandSignal) : string :=
  match s with
  | SIGTERM => "SIGTERM" | SIGKILL => "SIGKILL" | SIGINT => "SIGINT" | SIGHUP => "SIGHUP" | SIGPIPE => "SIGPIPE" | OTHER => "OTHER"
  end.

Record KubernetesCommandDiagnostic : Type := {
  kc_commandFailure : CommandFailure;
  kc_httpStatus : option Z;
  kc_kubernetesReason : option StatusReason;
  kc_exitCode : option Z;
  kc_processSignal : option CommandSignal
}.

Definition diagnostic_json (d : KubernetesCommandDiagnostic) : dict json :=
  ([("commandFailure", JStr (failure_name (kc_commandFailure d)));
    ("httpStatus", match kc_httpStatus d with Some c => JNum (Int c) | None => JNull end)]
   ++ match kc_kubernetesReason d with Some r => [("kubernetesReason", JStr (status_name r))] | None => [] end
   ++ match kc_exitCode d with Some c => [("exitCode", JNum (Int c))] | None => [] end
   ++ match kc_processSignal d with Some s => [("processSignal", JStr (signal_name s))] | None => [] end)%list.

(** ** Reading a diagnostic *)

(** An optional property: absent, or as it should be. *)
Definition optional {A} (check : json -> option A) (v : option json) : option (option A) :=
  match v with None => Some None | Some j => Some <$> check j end.
Definition integer_within (lo hi : Z) (v : json) : option Z :=
  match v with JNum (Int z) => if (lo <=? z) && (z <=? hi) then Some z else None | _ => None end.
Definition nullable {A} (check : json -> option A) (v : json) : option (option A) :=
  match v with JNull => Some None | _ => Some <$> check v end.

(** The combinations that make sense. *)
Definition consistent_command (d : KubernetesCommandDiagnostic) : bool :=
  match kc_kubernetesReason d with Some r => matchesStatus r (kc_httpStatus d) | None => true end &&
  (bool_decide (kc_commandFailure d = F_api) || (bool_decide (kc_httpStatus d = None) && bool_decide (kc_kubernetesReason d = None))) &&
  (negb (bool_decide (kc_commandFailure d = F_api)) || (bool_decide (kc_exitCode d = Some 1) && bool_decide (kc_processSignal d = None))) &&
  (negb (bool_decide (kc_commandFailure d = F_signal)) || bool_decide (is_Some (kc_processSignal d))).

(** [None] stands for the error of [requireSafe], which is CONFIG whatever fails. *)
Definition read_command (d : dict json) : option KubernetesCommandDiagnostic :=
  failure ← named failure_name commandFailures (dict_get d "commandFailure");
  status ← dict_get d "httpStatus" ≫= nullable (integer_within 100 599);
  reason ← optional (fun v => named status_name status_reasons (Some v)) (dict_get d "kubernetesReason");
  exit ← optional (integer_within 0 255) (dict_get d "exitCode");
  signal ← optional (fun v => named signal_name commandSignals (Some v)) (dict_get d "processSignal");
  let r := {| kc_commandFailure := failure; kc_httpStatus := status; kc_kubernetesReason := reason; kc_exitCode := exit; kc_processSignal := signal |} in
  if consistent_command r then Some r else None.

Definition parseKubernetesCommandDiagnostic (value : json) : res exn KubernetesCommandDiagnostic :=
  match json_obj value ≫= read_command with Some r => Ok r | None => Err (harness CONFIG) end.

(** ** The failure of a command *)
Definition unknown_failure (exit : option Z) : KubernetesCommandDiagnostic :=
  {| kc_commandFailure := F_unknown; kc_httpStatus := None; kc_kubernetesReason := None; kc_exitCode := exit; kc_processSignal := None |}.

(** The status object of the standard output, if that is what it is. *)
Definition status_body (stdout : string) : option (dict json * Z) :=
  d ← (if Z.of_nat (String.length stdout) <=? 65536 then JSON_parse stdout else None) ≫= json_obj;
  code ← dict_get d "code" ≫= integer_within 400 599;
  if same_text d "kind" "Status" && same_text d "status" "Failure" &&
     includes ["v1"; "meta.k8s.io/v1"] (match dict_get d "apiVersion" with Some v => String_of_json v | None => "undefined" end)
  then Some (d, code) else None.

(** [/^Error from server \(([A-Za-z]+)\):/] *)
Definition server_prefix (stderr : string) : option string :=
  let s := trimStart stderr in
  if startsWith "Error from server (" s then
    let '(word, rest) := span is_alpha (drop_str 19 s) in
    if truthy word && startsWith "):" rest then Some word else None
  else None.

Definition kubernetesCommandFailure (stdout stderr : string) (exitCode : option number) (signal : option string) : KubernetesCommandDiagnostic :=
  let exit := exitCode ≫= fun c => integer_within 0 255 (JNum c) in
  if truthy (signal ?? "") then
    {| kc_commandFailure := F_signal; kc_httpStatus := None; kc_kubernetesReason := None; kc_exitCode := exit;
       kc_processSignal := Some (find_first (fun s => String.eqb (signal_name s) (signal ?? "")) commandSignals ?? OTHER) |}
  else if bool_decide (exitCode = Some (Int 1)) then
    match status_body stdout with
    | Some (d, code) =>
        let known := named status_name status_reasons (dict_get d "reason") in
        if match known with Some r => negb (matchesStatus r (Some code)) | None => false end then unknown_failure exit
        else {| kc_commandFailure := F_api; kc_httpStatus := Some code; kc_kubernetesReason := known; kc_exitCode := exit; kc_processSignal := None |}
    | None =>
        match (word ← server_prefix stderr; find_first (fun r => String.eqb (status_name r) word) status_reasons) with
        | Some r => {| kc_commandFailure := F_api;
                       kc_httpStatus := if bool_decide (r = InternalError) then None else Some (statusCodes r);
                       kc_kubernetesReason := Some r; kc_exitCode := exit; kc_processSignal := None |}
        | None => unknown_failure exit
        end
    end
  else unknown_failure exit.

(** ** Theorems on the failures of kubectl *)

Lemma within_code lo hi v z : integer_within lo hi v = Some z -> v = JNum (Int z) /\ lo <= z <= hi.
Proof.
  destruct v as [| |[z'| | | |]| | |]; cbn; try done. destruct (Z.leb_spec lo z'), (Z.leb_spec z' hi); cbn; try done. by intros [= ->].
Qed.
Lemma code_within lo hi z : lo <= z <= hi -> integer_within lo hi (JNum (Int z)) = Some z.
Proof. intros [H1 H2]. cbn. by rewrite (proj2 (Z.leb_le _ _) H1), (proj2 (Z.leb_le _ _) H2). Qed.

(** What a diagnostic must be to read back. *)
Definition readable (d : KubernetesCommandDiagnostic) : Prop :=
  match kc_httpStatus d with Some c => 100 <= c <= 599 | None => True end /\
  match kc_exitCode d with Some c => 0 <= c <= 255 | None => True end /\ consistent_command d = true.

Lemma status_named r : named status_name status_reasons (Some (JStr (status_name r))) = Some r.
Proof. by destruct r. Qed.
Lemma signal_named s : named signal_name commandSignals (Some (JStr (signal_name s))) = Some s.
Proof. by destruct s. Qed.
Lemma failure_named f : named failure_name commandFailures (Some (JStr (failure_name f))) = Some f.
Proof. by destruct f. Qed.

Lemma read_json d : readable d -> parseKubernetesCommandDiagnostic (JObj (diagnostic_json d)) = Ok d.
Proof.
  destruct d as [failure status reason exit signal]. intros (Hs & He & Hc). unfold parseKubernetesCommandDiagnostic, read_command.
  cbn [json_obj base.mbind option_bind].
  assert (E1 : dict_get (diagnostic_json {| kc_commandFailure := failure; kc_httpStatus := status; kc_kubernetesReason := reason; kc_exitCode := exit; kc_processSignal := signal |}) "commandFailure" = Some (JStr (failure_name failure))) by done.
  rewrite E1, failure_named. clear E1. cbn [base.mbind option_bind].
  destruct reason as [r|], exit as [e|], signal as [s|], status as [c|]; cbn -[named integer_within]; cbn in Hs, He;
    rewrite ?status_named, ?signal_named; cbn -[named integer_within];
    rewrite ?(code_within 100 599), ?(code_within 0 255) by lia; cbn -[consistent_command]; by rewrite Hc.
Qed.

Lemma status_body_code stdout d code : status_body stdout = Some (d, code) -> 400 <= code <= 599.
Proof.
  unfold status_body. intros (d' & _ & (c & Hc & H)%bind_Some)%bind_Some. apply bind_Some in Hc as (v & _ & Hv).
  apply within_code in Hv as [_ Hc]. by destruct (_ && _); simplify_eq.
Qed.

Lemma exit_bound (exitCode : option number) e : (exitCode ≫= fun c => integer_within 0 255 (JNum c)) = Some e -> 0 <= e <= 255.
Proof. intros (c & _ & [_ He]%within_code)%bind_Some. done. Qed.

Lemma unknown_readable exitCode : readable (unknown_failure (exitCode ≫= fun c => integer_within 0 255 (JNum c))).
Proof.
  split; [done|]. split; [|done]. cbn. destruct (exitCode ≫= _) as [e|] eqn:He; [|done]. by apply exit_bound in He.
Qed.

(** What a failed kubectl command proves. Whatever the command printed and however it ended,
    the diagnostic reads back from its record as it is; an API answer is reported only for a
    command that exited with status 1 and no signal; and an HTTP status only when the status
    object printed carries it, or the fixed prefix of the error names the reason it belongs
    to. A crash or a forged text never makes a status up. *)
Theorem kubernetes_failure stdout stderr exitCode signal :
  let d := kubernetesCommandFailure stdout stderr exitCode signal in
  parseKubernetesCommandDiagnostic (JObj (diagnostic_json d)) = Ok d /\
  (kc_commandFailure d = F_api -> exitCode = Some (Int 1) /\ truthy (signal ?? "") = false) /\
  forall c, kc_httpStatus d = Some c -> kc_commandFailure d = F_api /\
    ((exists body, status_body stdout = Some (body, c)) \/
     status_body stdout = None /\ exists r, kc_kubernetesReason d = Some r /\ statusCodes r = c /\ server_prefix stderr = Some (status_name r)).
Proof.
  cbv zeta. unfold kubernetesCommandFailure. destruct (truthy (signal ?? "")).
  { split; [|done]. apply read_json. split; [done|]. split; [|done]. cbn. destruct (exitCode ≫= _) as [e|] eqn:He; [by apply exit_bound in He | done]. }
  destruct (bool_decide_reflect (exitCode = Some (Int 1))) as [->|]; [|split; [apply read_json, unknown_readable | done]].
  change (Some (Int 1) ≫= _) with (Some 1). destruct (status_body stdout) as [[d code]|] eqn:Hbody.
  - pose proof (status_body_code _ _ _ Hbody) as Hcode. destruct (named _ _ _) as [r|].
    + destruct (matchesStatus r (Some code)) eqn:Hm; cbn [negb]; [|split; [by apply read_json | done]].
      split; [|split; [done | intros c [= <-]; eauto]]. apply read_json. split; [cbn; lia|]. split; [cbn; lia|]. unfold consistent_command. cbn [kc_kubernetesReason kc_httpStatus]. by rewrite Hm.
    + split; [|split; [done | intros c [= <-]; eauto]]. apply read_json. split; [cbn; lia|]. split; [cbn; lia | done].
  - destruct (word ← server_prefix stderr; _) as [r|] eqn:Hr; [|split; [by apply read_json | done]].
    apply bind_Some in Hr as (word & Hword & [_ Hr%String.eqb_eq]%find_first_Some). subst word.
    split; [|split; [done|]].
    + apply read_json. by destruct r.
    + intros c Hc. split; [done|]. right. split; [done|]. exists r. split; [done|]. split; [|done]. cbn in Hc. by case_bool_decide; simplify_eq.
Qed.

Example conflict_answer :
  let quoted s := quote s in
  kubernetesCommandFailure ("{" +:+ quoted "kind" +:+ ":" +:+ quoted "Status" +:+ "," +:+ quoted "apiVersion" +:+ ":" +:+ quoted "v1" +:+ ","
      +:+ quoted "status" +:+ ":" +:+ quoted "Failure" +:+ "," +:+ quoted "reason" +:+ ":" +:+ quoted "Conflict" +:+ "," +:+ quoted "code" +:+ ":409}")
    "" (Some (Int 1)) None
  = {| kc_commandFailure := F_api; kc_httpStatus := Some 409; kc_kubernetesReason := Some Conflict; kc_exitCode := Some 1; kc_processSignal := None |}.
Proof. vm_compute. reflexivity. Qed.
Example nested_text : kubernetesCommandFailure "" "app: Error from server (Conflict): x" (Some (Int 1)) None = unknown_failure (Some 1) /\
  kc_httpStatus (kubernetesCommandFailure "" "  Error from server (Conflict): x" (Some (Int 1)) None) = Some 409.
Proof. by vm_compute. Qed.
