(* ===== verification/Evidence.v ===== *)
(** * Test evidence and what is selected to run (evidence.ts, lab-policy.ts, engine-policy.ts,
      diagnostic-selection.ts, test-mode.ts, profiles/selections.ts)

    The layers of a test, the repository's policy on what is deferred, the diagnostic subsets
    and the steps of every phase. The process environment is an argument. *)

From S2P Require Import Prelude Js Number Json Errors Contracts.

Local Open Scope string_scope.
Local Open Scope js_scope.
Local Open Scope Z_scope.

(** ** Layers (evidence.ts) *)
Inductive TestLayer : Type := L_U | L_C | L_B | L_A | L_E | L_O | L_N.
#[export] Instance TestLayer_eq_dec : EqDecision TestLayer.
Proof. solve_decision. Defined.
Definition testLayers : list TestLayer := [L_U; L_C; L_B; L_A; L_E; L_O; L_N].
Definition layer_name (l : TestLayer) : string :=
  match l with L_U => "U" | L_C => "C" | L_B => "B" | L_A => "A" | L_E => "E" | L_O => "O" | L_N => "N" end.

Definition environmentFor (layer : string) : string := if includes ["U"; "C"; "B"] layer then "fixture" else "live".

Definition fileLayer (file : string) : option TestLayer :=
  snd <$> find_first (fun s : string * TestLayer => endsWith s.1 file)
    [(".unit.spec.ts", L_U); (".contract.spec.ts", L_C); (".browser.spec.ts", L_B); (".api.spec.ts", L_A); (".e2e.spec.ts", L_E)].

(** The environment of the process. *)
Definition environment : Type := dict string.

(** ** The repository's policy (lab-policy.ts, engine-policy.ts) *)
Definition disabledExperimentalEngines : list string := ["VLLM-Omni"].
Definition deferredApplicationTests : list string := ["hermes"].

Inductive ProductLiveWorkflow : Type := Workflow_applications | Workflow_modules | Workflow_credentials.
#[export] Instance ProductLiveWorkflow_eq_dec : EqDecision ProductLiveWorkflow.
Proof. solve_decision. Defined.
Definition workflow_name (w : ProductLiveWorkflow) : string :=
  match w with Workflow_applications => "applications" | Workflow_modules => "modules" | Workflow_credentials => "credentials" end.
Definition deferredLiveWorkflows : list string := ["applications"; "modules"; "credentials"].

Definition engineRegressionEnabled (engine : string) : bool := negb (includes disabledExperimentalEngines engine).
Definition realtimeRegressionEnabled : bool := engineRegressionEnabled "VLLM-Omni".
Definition liveWorkflowEnabled (w : ProductLiveWorkflow) : bool := negb (includes deferredLiveWorkflows (workflow_name w)).
Definition applicationFixtureEnabled (application : string) : bool := negb (includes deferredApplicationTests application).
Definition applicationRegressionEnabled (application : string) : bool :=
  liveWorkflowEnabled Workflow_applications && applicationFixtureEnabled application.

Definition workflowLabels : list (ProductLiveWorkflow * string) :=
  [(Workflow_applications, "phase5/applications-live (deferred to separate regression)");
   (Workflow_modules, "phase5/services-live (deferred to separate regression)");
   (Workflow_credentials, "phase5/service-credentials-live (deferred to separate regression)")].
Definition legacyApplicationSteps : list string :=
  map (fun application => "phase5/" +:+ application +:+ "-live (deferred to separate regression)") deferredApplicationTests.
Definition deferredApplicationSteps (phases : list number) : list string :=
  if negb (bool_decide (Int 5 ∈ phases)) then []
  else (map snd (List.filter (fun wl => negb (liveWorkflowEnabled wl.1)) workflowLabels) ++
        (if liveWorkflowEnabled Workflow_applications then legacyApplicationSteps else []))%list.
Definition deferredApplicationStep (step : string) : bool :=
  includes (map snd workflowLabels) step || includes legacyApplicationSteps step.

(** ** Diagnostic subsets (magic-cluster/apps/regression/diagnostics.json, diagnostic-selection.ts) *)
Record DiagnosticSelection : Type := mk_selection {
  ds_id : string;
  ds_title : string;
  ds_caseIds : list string;
  ds_grep : string;
  ds_phase : Z;
  ds_variants : option (list string)
}.

Definition diagnosticSelections : list DiagnosticSelection :=
  [mk_selection "slot-race" "Last GPU slot race" ["SLOT-09"] "SLOT-09" 4 None;
   mk_selection "reload" "Sharing persistence after reload" ["SHR-12"] "SHR-12" 4 None;
   mk_selection "restoration" "Exact sharing and resource restoration" ["HAR-08"] "HAR-08" 4 None;
   mk_selection "remaining" "Slot consumers, independence, race, reload and restoration" ["SLOT-03"; "SHR-07"; "SLOT-09"; "SHR-12"; "HAR-08"]
     "SLOT-03|SHR-07|SLOT-09|SHR-12|HAR-08" 4 None;
   mk_selection "external-route" "Controlled external provider lifecycle" ["ROUTE-05"] "ROUTE-05" 2 (Some ["external-route"]);
   mk_selection "gpu-validation-single" "Single physical GPU engine verification" ["HW-06"] "HW-06" 3 (Some ["p3-validation-single"]);
   mk_selection "gpu-validation-all" "All physical GPUs engine verification" ["HW-06"] "HW-06" 3 (Some ["p3-validation-all"]);
   mk_selection "ollama-two-card-copies" "Ollama two-card independent copies lifecycle" ["MGPU-02"] "MGPU-02" 3 (Some ["p3-replicated-ollama-2"]);
   mk_selection "slot-consumers" "External and diagnostic GPU slot consumers" ["SLOT-03"] "SLOT-03" 4 None;
   mk_selection "ollama-two-card-split" "Ollama two-card shared split lifecycle" ["MGPU-01"] "MGPU-01" 4 (Some ["p4-multigpu-ollama-2"]);
   mk_selection "ollama-four-card-split" "Ollama four-card shared split lifecycle" ["MGPU-01"] "MGPU-01" 4 (Some ["p4-multigpu-ollama-4"])].

(** [None] inside the result is the error CONFIG, [Some None] an absent selection. *)
Definition diagnosticSelection (value : option string) (phases : list Z) (mode operation : string) : res exn (option DiagnosticSelection) :=
  match value with
  | None => Ok None
  | Some id =>
      match find_first (fun p => String.eqb (ds_id p) id) diagnosticSelections with
      | Some p => if String.eqb operation "tests" && String.eqb mode "full" && bool_decide (phases = [ds_phase p])
                  then Ok (Some p) else Err (harness CONFIG)
      | None => Err (harness CONFIG)
      end
  end.

Definition diagnosticMode (p : DiagnosticSelection) : string :=
  if ds_phase p =? 2 then "phase2-models"
  else if ds_phase p =? 3 then (if forallb (String.eqb "HW-06") (ds_caseIds p) then "phase3-validation" else "phase3-gpu")
  else "phase4-sharing".

(** The default of the second argument. *)
Definition selected_diagnostic (env : environment) (mode : option string) : option string :=
  or_else (dict_get env "REGRESSION_DIAGNOSTIC_SELECTION")
    (if bool_decide (mode = Some "phase4-sharing") then
       match dict_get env "REGRESSION_GPU_CASE" with Some s => if truthy s then Some s else None | None => None end
     else None).

Definition diagnosticForMode (env : environment) (mode : option string) : res exn (option DiagnosticSelection) :=
  match selected_diagnostic env mode with
  | None => Ok None
  | Some id =>
      match find_first (fun p => String.eqb (ds_id p) id) diagnosticSelections with
      | Some p => if bool_decide (Some (diagnosticMode p) = mode)
                  then diagnosticSelection (Some id) [ds_phase p] (dict_get env "REGRESSION_TEST_MODE" ?? "full") "tests"
                  else Ok None
      | None => Err (harness CONFIG)
      end
  end.

(** ** Modes and steps (test-mode.ts, selections.ts) *)
Definition testMode (value : string) : res exn RegressionTestMode :=
  if String.eqb value "full" then Ok RegressionTestMode_full
  else if String.eqb value "non-destructive" then Ok RegressionTestMode_non_destructive
  else Err (harness CONFIG).

(** [/^phase[lo-hi]$/] *)
Definition phase_mode (lo hi : ascii) (mode : string) : bool :=
  match mode with
  | String "p" (String "h" (String "a" (String "s" (String "e" (String d ""))))) => in_range lo hi d
  | _ => false
  end.
Definition phase_prefix (lo hi : ascii) (mode : string) : option string :=
  if (6 <=? String.length mode)%nat && phase_mode lo hi (take_str 6 mode) then Some (drop_str 6 mode) else None.

(** [/^(?:smoke|phase[2-8])-(?:fast|fixtures)$/], or selftest *)
Definition isolatedStep (step : string) : bool :=
  String.eqb step "selftest" || includes ["smoke-fast"; "smoke-fixtures"] step ||
  match phase_prefix "2" "8" step with Some rest => includes ["-fast"; "-fixtures"] rest | None => false end.

Definition phaseSteps (phase : Z) : list string :=
  if phase =? 0 then ["selftest"; "preflight"; "locktest"; "foundations"; "preflight"]
  else if phase =? 1 then ["selftest"; "smoke-fast"; "smoke-fixtures"; "preflight"; "session-smoke"; "core-smoke"; "preflight"]
  else if phase =? 2 then ["selftest"; "phase2-fast"; "phase2-fixtures"; "preflight"; "phase2-readonly"; "phase2-models"; "phase2-faults"; "preflight"]
  else if phase =? 3 then ["selftest"; "phase3-fast"; "phase3-fixtures"; "preflight"; "phase3-gpu"; "phase3-validation"; "preflight"]
  else if phase =? 4 then ["selftest"; "phase4-fast"; "phase4-fixtures"; "preflight"; "phase4-sharing"; "preflight"]
  else if phase =? 5 then ["selftest"; "phase5-fast"; "phase5-fixtures"; "preflight"; "phase5-live"; "preflight"]
  else if phase =? 6 then ["selftest"; "phase6-fast"; "phase6-fixtures"; "preflight"; "phase6-live"; "preflight"]
  else if phase =? 7 then ["selftest"; "phase7-fast"; "phase7-fixtures"; "preflight"; "phase7-live"; "preflight"]
  else if phase =? 8 then ["selftest"; "phase8-fast"; "phase8-fixtures"; "preflight"; "phase8-live"; "preflight"]
  else [].

(** [Number.isInteger(phase) && phase >= 0 && phase <= 8] *)
Definition phase_of (phase : number) : option Z :=
  match phase with Int z => if (0 <=? z) && (z <=? 8) then Some z else None | _ => None end.

Definition selectedSteps (phase : number) (mode : RegressionTestMode) : res exn (list string) :=
  match phase_of phase with
  | Some z => Ok (match mode with
                  | RegressionTestMode_full => phaseSteps z
                  | RegressionTestMode_non_destructive => (List.filter isolatedStep (phaseSteps z) ++ ["non-destructive-live"])%list
                  end)
  | None => Err (harness CONFIG)
  end.

(** [[...new Set(l)]] *)
Definition unique (l : list string) : list string := foldl (fun acc s => if includes acc s then acc else (acc ++ [s])%list) [] l.

Definition phase_exclusions (mode : RegressionTestMode) (phase : number) : res exn (list string) :=
  res_bind (selectedSteps phase mode) (fun _ =>
  match phase_of phase with
  | Some z => Ok (map (fun step => "phase" +:+ String_of_Z z +:+ "/" +:+ step) (List.filter (fun step => negb (isolatedStep step)) (phaseSteps z)))
  | None => Ok []
  end).

Definition excludedSteps (mode : RegressionTestMode) (phases : list number) : res exn (list string) :=
  res_bind (match mode with
            | RegressionTestMode_full => Ok []
            | RegressionTestMode_non_destructive => res_map (phase_exclusions mode) phases
            end)
    (fun modeExclusions => Ok (unique (concat modeExclusions ++ deferredApplicationSteps phases)%list)).

Definition requireSafeStep (step : string) (mode : RegressionTestMode) : res exn unit :=
  requireSafe (bool_decide (mode = RegressionTestMode_full) || isolatedStep step || includes ["non-destructive-live"; "all"; "typecheck"] step ||
               phase_mode "0" "8" step) MUTATION.
