(* ===== verification/Profiles.v ===== *)
(** * Acceptance profiles (profiles/phase0-p0.ts, phase1-p0.ts, phase2-p0.ts, gpu-p0.ts, remaining-p0.ts)

    The finite matrix of evidence every phase needs: which test case, in which variant, at
    which layer and in which environment. Coverage compares it with what was recorded. *)

From S2P Require Import Prelude Js Number Json Errors Contracts Evidence.

Local Open Scope string_scope.
Local Open Scope js_scope.
Local Open Scope Z_scope.

(** One cell of a matrix. The priority is P0 throughout; [rq_set] is the parameter set, or
    the group of the later phases. *)
Record Requirement : Type := mk_requirement {
  rq_id : string;
  rq_variant : string;
  rq_layer : TestLayer;
  rq_environment : string;
  rq_phase : Z;
  rq_set : string;
  rq_gate : option string
}.

(** What coverage reads of a recorded case. *)
Record Recorded : Type := mk_recorded {
  rc_id : string;
  rc_variant : option string;
  rc_layer : string;
  rc_environment : option string;
  rc_outcome : string
}.

Definition passed (c : Recorded) : bool := String.eqb (rc_outcome c) "Passed".
Definition proves (r : Requirement) (c : Recorded) : bool :=
  String.eqb (rc_id c) (rq_id r) && bool_decide (rc_variant c = Some (rq_variant r)) && String.eqb (rc_layer c) (layer_name (rq_layer r)) &&
  bool_decide (rc_environment c = Some (rq_environment r)) && passed c.
(** The cells no passed case proves. *)
Definition missing_layers (matrix : list Requirement) (cases : list Recorded) : list Requirement :=
  List.filter (fun r => negb (existsb (proves r) cases)) matrix.
Definition all_passed (cases : list Recorded) : bool := (0 <? length cases)%nat && forallb passed cases.

Definition requirement (phase : Z) (set id variant : string) (layer : TestLayer) : Requirement :=
  mk_requirement id variant layer (environmentFor (layer_name layer)) phase set None.
Definition variants_in (environment : string) (missing : list Requirement) : list string :=
  unique (map rq_variant (List.filter (fun r => String.eqb (rq_environment r) environment) missing)).

Record Coverage : Type := mk_coverage {
  cv_missingFixtures : list string;
  cv_missingVariants : list string;
  cv_missingLayers : list Requirement;
  cv_complete : bool
}.
Definition matrix_coverage (matrix : list Requirement) (cases : list Recorded) : Coverage :=
  let missing := missing_layers matrix cases in
  mk_coverage (variants_in "fixture" missing) (variants_in "live" missing) missing (all_passed cases && bool_decide (missing = [])).

(** ** Phase 0 *)
Definition phase0Ids : list string :=
  ["HAR-01"; "HAR-02"; "HAR-03"; "HAR-04"; "HAR-05"; "HAR-06"; "HAR-07"; "HAR-08"; "HAR-09"; "HAR-10"; "HAR-11"].
Definition phase0Variants : dict string :=
  [("verified-login", "HAR-01"); ("pinned-baseline", "HAR-02"); ("idle-baseline", "HAR-03"); ("negative-preflight", "HAR-02");
   ("offline-busy-abort", "HAR-03"); ("lease-race", "HAR-04"); ("mutation-fencing", "HAR-04"); ("uid-replacement", "HAR-05");
   ("failure-cleanup", "HAR-06"); ("process-recovery", "HAR-07"); ("revision-conflict", "HAR-08"); ("model-generation", "HAR-09");
   ("flux-polling", "HAR-09"); ("final-idle", "HAR-03")].

Definition fixture_passed (id : string) (c : Recorded) : bool :=
  String.eqb (rc_id c) id && bool_decide (rc_environment c = Some "fixture") && passed c.
Definition variant_passed (vid : string * string) (c : Recorded) : bool :=
  String.eqb (rc_id c) vid.2 && bool_decide (rc_variant c = Some vid.1) && bool_decide (rc_environment c = Some "live") && passed c.
Definition phase0Coverage (cases : list Recorded) : Coverage :=
  let missingFixtures := List.filter (fun id => negb (existsb (fixture_passed id) cases)) phase0Ids in
  let missingVariants := map fst (List.filter (fun vid => negb (existsb (variant_passed vid) cases)) phase0Variants) in
  mk_coverage missingFixtures missingVariants []
    (bool_decide (missingFixtures = []) && bool_decide (missingVariants = []) && all_passed cases).

(** ** Phase 1 *)
Definition phase1LiveVariants : dict string :=
  [("login-session", "AUTH-01"); ("anonymous-api", "AUTH-02"); ("anonymous-browser", "AUTH-02"); ("logout-session", "AUTH-06");
   ("read-only-navigation", "NAV-03"); ("api-cpu-create", "LIFE-01"); ("cpu-chat", "ROUTE-01"); ("ready-runtime-logs", "LOG-01");
   ("text-log-transport", "LOG-05"); ("ui-stop", "LIFE-03"); ("stopped-route", "ROUTE-06"); ("api-start", "LIFE-04"); ("ui-start", "LIFE-04");
   ("ui-key-create", "KEY-01"); ("one-time-key", "KEY-01"); ("ui-key-revoke", "KEY-03"); ("missing-key", "ROUTE-06"); ("invalid-key", "ROUTE-06");
   ("revoked-key", "ROUTE-06"); ("unknown-route", "ROUTE-06"); ("owned-remove", "LIFE-06"); ("model-form-defaults", "UX-02"); ("final-idle", "HAR-03")].

Definition phase1FixtureVariants : dict string :=
  [("failed-status", "NAV-06"); ("unknown-memory", "NAV-06"); ("inert-log-output", "LOG-06"); ("navigation-browser", "NAV-03");
   ("logout-browser", "AUTH-06"); ("keys-browser-create", "KEY-01"); ("keys-browser-revoke", "KEY-03"); ("forms-browser", "UX-02");
   ("status-history-desktop", "NAV-02"); ("status-history-mobile", "NAV-02"); ("status-history-desktop-slow", "NAV-02");
   ("status-history-mobile-slow", "NAV-02")].

Definition phase1FastVariants : dict string :=
  [("anonymous-contract", "AUTH-02"); ("remember-me-policy-contract", "AUTH-01"); ("navigation-component", "NAV-03"); ("failed-status-unit", "NAV-06");
   ("unknown-memory-unit", "NAV-06"); ("status-contract", "NAV-06"); ("lifecycle-stop-component", "LIFE-03"); ("lifecycle-start-component", "LIFE-04");
   ("create-contract", "LIFE-01"); ("stop-contract", "LIFE-03"); ("start-contract", "LIFE-04"); ("remove-contract", "LIFE-06");
   ("key-create-component", "KEY-01"); ("key-revoke-component", "KEY-03"); ("key-create-contract", "KEY-01"); ("key-revoke-contract", "KEY-03");
   ("logs-component", "LOG-01"); ("logs-inert-component", "LOG-06"); ("logs-contract", "LOG-01"); ("log-transport-contract", "LOG-05");
   ("log-sanitization-contract", "LOG-06"); ("forms-component", "UX-02")].

Definition phase1Variants : dict string := dict_spread (dict_spread phase1LiveVariants phase1FixtureVariants) phase1FastVariants.
Definition phase1Ids : list string := unique (map snd phase1Variants).
Definition sessionVariants : list string := ["login-session"; "anonymous-api"; "anonymous-browser"; "logout-session"].

Definition phase1StepIds (mode : option string) : option (list string) :=
  let ids (keep : string -> bool) := unique (map snd (List.filter (fun vid : string * string => keep vid.1) phase1LiveVariants)) in
  match mode with
  | Some "phase1" => Some phase1Ids
  | Some "core-smoke" => Some (ids (fun v => negb (includes sessionVariants v) && negb (String.eqb v "final-idle")))
  | Some "smoke-fast" => Some (unique (map snd phase1FastVariants))
  | Some "smoke-fixtures" => Some (unique (map snd phase1FixtureVariants))
  | Some "session-smoke" => Some (ids (includes sessionVariants))
  | _ => None
  end.

Definition apiOnly : list string :=
  ["anonymous-api"; "text-log-transport"; "stopped-route"; "missing-key"; "invalid-key"; "revoked-key"; "unknown-route"; "final-idle"].
Definition contractVariants : list string := List.filter (endsWith "contract") (dict_keys phase1FastVariants).
Definition phase1_layers (variant : string) : list TestLayer :=
  if includes (dict_keys phase1FixtureVariants) variant then [L_B]
  else if includes (dict_keys phase1FastVariants) variant then [if includes contractVariants variant then L_C else L_U]
  else if includes apiOnly variant then [L_A] else if String.eqb variant "anonymous-browser" then [L_E] else [L_A; L_E].
Definition phase1Requirements : list Requirement :=
  concat (map (fun vid => map (requirement 1 "installed-cpu-ollama-smoke" vid.2 vid.1) (phase1_layers vid.1)) phase1Variants).
Definition phase1Coverage : list Recorded -> Coverage := matrix_coverage phase1Requirements.

(** ** Phase 2 *)
Record VariantDefinition : Type := variant { vd_id : string; vd_layers : list TestLayer }.
Definition requirements (set : string) (phase : Z) (variants : dict VariantDefinition) : list Requirement :=
  concat (map (fun vd => map (requirement phase set (vd_id vd.2) vd.1) (vd_layers vd.2)) variants).

Definition phase2FastVariants : dict VariantDefinition :=
  [("model-task-component", variant "DISC-01" [L_U]); ("model-task-contract", variant "DISC-01" [L_C]);
   ("model-name-component", variant "DISC-01" [L_U]); ("model-name-contract", variant "DISC-01" [L_C]);
   ("create-choice-component", variant "DISC-01" [L_U]); ("create-choice-contract", variant "DISC-01" [L_C]);
   ("hf-search-component", variant "DISC-03" [L_U]); ("hf-search-contract", variant "DISC-03" [L_C]); ("hf-policy-contract", variant "DISC-04" [L_C]);
   ("local-create-contract", variant "LIFE-02" [L_C]); ("edit-component", variant "LIFE-07" [L_U]); ("edit-contract", variant "LIFE-07" [L_C]);
   ("dirty-component", variant "LIFE-08" [L_U]); ("conflict-contract", variant "LIFE-09" [L_C]); ("pod-stall-contract", variant "LIFE-11" [L_C]);
   ("failure-stage-contract", variant "LIFE-12" [L_C]); ("persistence-contract", variant "LIFE-13" [L_C]);
   ("engine-create-contract", variant "ENG-01" [L_C]); ("ollama-alias-contract", variant "ENG-02" [L_C]); ("kv-component", variant "ENG-03" [L_U]);
   ("kv-contract", variant "ENG-03" [L_C]); ("engine-switch-component", variant "ENG-07" [L_U]); ("legacy-default-contract", variant "ENG-09" [L_C]);
   ("local-configuration-component", variant "ENG-09" [L_U]); ("late-discovery-component", variant "ENG-07" [L_U]);
   ("injection-contract", variant "ENG-10" [L_C]); ("memory-component", variant "MEM-01" [L_U]); ("memory-contract", variant "MEM-01" [L_C]);
   ("risk-component", variant "MEM-05" [L_U]); ("risk-contract", variant "MEM-05" [L_C]); ("slider-component", variant "MEM-06" [L_U]);
   ("shared-free-contract", variant "MEM-07" [L_C]); ("accounting-contract", variant "MEM-10" [L_C]); ("catalog-contract", variant "ROUTE-02" [L_C]);
   ("external-contract", variant "ROUTE-05" [L_C]); ("log-stage-contract", variant "LOG-01" [L_C]);
   ("pod-log-selection-contract", variant "LOG-04" [L_C])].

Definition phase2FixtureVariants : dict VariantDefinition :=
  [("model-name-local-ollama-desktop-browser", variant "DISC-01" [L_B]); ("model-name-local-ollama-mobile-browser", variant "DISC-01" [L_B]);
   ("model-name-local-vllm-desktop-browser", variant "DISC-01" [L_B]); ("model-name-local-vllm-mobile-browser", variant "DISC-01" [L_B]);
   ("model-name-external-desktop-browser", variant "DISC-01" [L_B]); ("model-name-external-mobile-browser", variant "DISC-01" [L_B]);
   ("task-chat-desktop-browser", variant "DISC-01" [L_B]); ("task-chat-mobile-browser", variant "DISC-01" [L_B]);
   ("task-embedding-desktop-browser", variant "DISC-01" [L_B]); ("task-embedding-mobile-browser", variant "DISC-01" [L_B]);
   ("task-unknown-desktop-browser", variant "DISC-01" [L_B]); ("task-unknown-mobile-browser", variant "DISC-01" [L_B]);
   ("create-choice-browser", variant "DISC-01" [L_B]); ("hf-search-browser", variant "DISC-03" [L_B]); ("hf-policy-browser", variant "DISC-04" [L_B]);
   ("create-ollama-browser", variant "LIFE-02" [L_B]); ("create-vllm-browser", variant "LIFE-02" [L_B]); ("dirty-browser", variant "LIFE-08" [L_B]);
   ("failure-browser", variant "LIFE-12" [L_B]); ("engine-switch-browser", variant "ENG-07" [L_B]); ("memory-breakdown-browser", variant "MEM-01" [L_B]);
   ("risk-browser", variant "MEM-05" [L_B]); ("slider-browser", variant "MEM-06" [L_B])].

Definition phase2LiveVariants : dict VariantDefinition :=
  [("create-choice-live", variant "DISC-01" [L_E]); ("hf-search-live", variant "DISC-03" [L_A; L_E]);
   ("local-create-ollama", variant "LIFE-02" [L_A; L_E]); ("local-create-vllm", variant "LIFE-02" [L_A; L_E]);
   ("edit-ollama", variant "LIFE-07" [L_A; L_E]); ("edit-vllm", variant "LIFE-07" [L_A; L_E]); ("dirty-ollama", variant "LIFE-08" [L_E]);
   ("dirty-vllm", variant "LIFE-08" [L_E]); ("conflict-ollama", variant "LIFE-09" [L_A; L_E]); ("conflict-vllm", variant "LIFE-09" [L_A; L_E]);
   ("failure-model", variant "LIFE-12" [L_A; L_E]); ("persistence-ollama", variant "LIFE-13" [L_A; L_E]);
   ("persistence-vllm", variant "LIFE-13" [L_A; L_E]); ("engine-ollama", variant "ENG-01" [L_A]); ("engine-vllm", variant "ENG-01" [L_A]);
   ("alias-ollama", variant "ENG-02" [L_A]); ("kv-ollama", variant "ENG-03" [L_A; L_E]); ("kv-vllm", variant "ENG-03" [L_A; L_E]);
   ("unsupported-request", variant "ENG-10" [L_A]); ("memory-risk", variant "MEM-05" [L_A]); ("slider-ollama", variant "MEM-06" [L_E]);
   ("slider-vllm", variant "MEM-06" [L_E]); ("catalog-transitions", variant "ROUTE-02" [L_A]); ("external-route", variant "ROUTE-05" [L_A; L_E]);
   ("logs-ollama", variant "LOG-01" [L_A; L_E]); ("logs-vllm", variant "LOG-01" [L_A; L_E]); ("live-failure-status", variant "NAV-06" [L_A]);
   ("final-idle", variant "HAR-03" [L_A])].

Definition phase2ModelIds : list string :=
  unique (map (fun vd : string * VariantDefinition => vd_id vd.2)
    (List.filter (fun vd => negb (includes ["create-choice-live"; "hf-search-live"; "failure-model"; "live-failure-status"; "final-idle"] vd.1))
       phase2LiveVariants)).
(** The pattern and the ids of every explicit subset. *)
Definition phase2ModelCases : dict (string * list string) :=
  [("ollama", ("CPU Ollama$", ["LIFE-02"; "LIFE-07"; "LIFE-08"; "LIFE-09"; "LIFE-13"; "ENG-01"; "ENG-02"; "ENG-03"; "MEM-06"; "ROUTE-02"; "LOG-01"]));
   ("vllm", ("CPU vLLM$", ["LIFE-02"; "LIFE-07"; "LIFE-08"; "LIFE-09"; "LIFE-13"; "ENG-01"; "ENG-03"; "MEM-06"; "LOG-01"]));
   ("admission", ("ENG-10 unsupported target", ["ENG-10"])); ("memory-risk", ("MEM-05 API requires", ["MEM-05"]));
   ("external", ("ROUTE-05 external provider", ["ROUTE-05"]))].
Definition phase2Variants : dict VariantDefinition := dict_spread (dict_spread phase2FastVariants phase2FixtureVariants) phase2LiveVariants.
Definition phase2Ids : list string := unique (map (fun vd => vd_id vd.2) phase2Variants).
Definition phase2Requirements : list Requirement := requirements "installed-cpu-model-control" 2 phase2Variants.
Definition phase2Coverage : list Recorded -> Coverage := matrix_coverage phase2Requirements.

(** ** Phases 3 and 4 *)
Definition phase3Variants : dict VariantDefinition :=
  [("p3-engine-selection", variant "ENG-01" [L_U; L_C; L_B]); ("p3-replicated-config", variant "MGPU-02" [L_U; L_C; L_B]);
   ("p3-replicated-vllm-2", variant "MGPU-02" [L_A; L_E; L_O]); ("p3-replicated-vllm-4", variant "MGPU-02" [L_A; L_E; L_O]);
   ("p3-replicated-ollama-2", variant "MGPU-02" [L_A; L_E; L_O]); ("p3-replicated-ollama-4", variant "MGPU-02" [L_A; L_E; L_O]);
   ("p3-multigpu-config", variant "MGPU-01" [L_U; L_C; L_B]); ("p3-multigpu-vllm-2", variant "MGPU-01" [L_A; L_E; L_O]);
   ("p3-multigpu-vllm-4", variant "MGPU-01" [L_A; L_E; L_O]); ("p3-multigpu-ollama-2", variant "MGPU-01" [L_A; L_E; L_O]);
   ("p3-multigpu-ollama-4", variant "MGPU-01" [L_A; L_E; L_O]); ("p3-inventory", variant "HW-01" [L_U; L_C; L_A; L_E]);
   ("p3-mixed-vendor", variant "HW-02" [L_U; L_C; L_A; L_E]); ("p3-readiness", variant "HW-03" [L_U; L_C; L_A; L_B]);
   ("p3-validation-single", variant "HW-06" [L_U; L_C; L_A; L_E]); ("p3-validation-all", variant "HW-06" [L_C; L_A; L_E]);
   ("p3-identity", variant "HW-08" [L_U; L_C; L_B; L_A]); ("p3-memory-denominators", variant "MEM-04" [L_U; L_C; L_B; L_A; L_E]);
   ("p3-memory-unknown", variant "MEM-08" [L_U; L_C; L_B; L_A]); ("p3-unified-memory", variant "MEM-09" [L_U; L_C; L_A; L_E]);
   ("p3-slot-ring", variant "SLOT-01" [L_U; L_C; L_A; L_E]); ("p3-pending-slot", variant "SLOT-02" [L_U; L_C; L_A]);
   ("p3-nvidia-multicard-slots", variant "SLOT-01" [L_U; L_C; L_B]); ("p3-kv-controls", variant "ENG-03" [L_U; L_C]);
   ("p3-amd-ollama", variant "ENG-01" [L_C; L_A; L_E]); ("p3-amd-vllm", variant "ENG-01" [L_C; L_A; L_E]);
   ("p3-nvidia-ollama", variant "ENG-01" [L_C; L_A; L_E]); ("p3-nvidia-vllm", variant "ENG-01" [L_C; L_A; L_E]);
   ("p3-kv-amd-ollama", variant "ENG-03" [L_A; L_E]); ("p3-kv-amd-vllm", variant "ENG-03" [L_A; L_E]);
   ("p3-kv-nvidia-ollama", variant "ENG-03" [L_A; L_E]); ("p3-kv-nvidia-vllm", variant "ENG-03" [L_A; L_E]);
   ("p3-gpu-logs", variant "LOG-01" [L_U; L_C; L_A; L_E]); ("p3-route", variant "ROUTE-01" [L_A]); ("p3-runtime-stop", variant "LIFE-03" [L_A; L_E]);
   ("p3-runtime-start", variant "LIFE-04" [L_A; L_E]); ("p3-restoration", variant "HAR-08" [L_U; L_C; L_A])].

Definition phase4Variants : dict VariantDefinition :=
  [("p4-replicated-config", variant "MGPU-02" [L_U; L_C; L_B]); ("p4-replicated-vllm-2", variant "MGPU-02" [L_A; L_E; L_O]);
   ("p4-replicated-vllm-4", variant "MGPU-02" [L_A; L_E; L_O]); ("p4-replicated-ollama-2", variant "MGPU-02" [L_A; L_E; L_O]);
   ("p4-replicated-ollama-4", variant "MGPU-02" [L_A; L_E; L_O]); ("p4-multigpu-config", variant "MGPU-01" [L_U; L_C; L_B]);
   ("p4-multigpu-vllm-2", variant "MGPU-01" [L_A; L_E; L_O]); ("p4-multigpu-vllm-4", variant "MGPU-01" [L_A; L_E; L_O]);
   ("p4-multigpu-ollama-2", variant "MGPU-01" [L_A; L_E; L_O]); ("p4-multigpu-ollama-4", variant "MGPU-01" [L_A; L_E; L_O]);
   ("p4-defaults", variant "SHR-01" [L_U; L_C; L_B]); ("p4-dirty-confirmation", variant "SHR-02" [L_U; L_B; L_E]);
   ("p4-nvidia-transition", variant "SHR-03" [L_C; L_A; L_E; L_O]); ("p4-amd-transition", variant "SHR-04" [L_C; L_A; L_E; L_O]);
   ("p4-rbac-admission", variant "SHR-05" [L_U; L_C; L_A]); ("p4-amd-pair", variant "SHR-06" [L_A; L_O]);
   ("p4-nvidia-pair", variant "SHR-06" [L_A; L_O]); ("p4-amd-same-engine", variant "SHR-06" [L_A; L_O]);
   ("p4-nvidia-same-engine", variant "SHR-06" [L_A; L_O]); ("p4-provider-independence", variant "SHR-07" [L_U; L_C; L_A; L_O]);
   ("p4-invalid-intent", variant "SHR-08" [L_U; L_C; L_A; L_B]); ("p4-custom-config", variant "SHR-09" [L_U; L_C; L_B]);
   ("p4-dra-unavailable", variant "SHR-11" [L_U; L_C; L_B]); ("p4-reload", variant "SHR-12" [L_A; L_E; L_O]);
   ("p4-other-consumers", variant "SLOT-03" [L_U; L_C; L_A]); ("p4-full", variant "SLOT-04" [L_U; L_C; L_A; L_E]);
   ("p4-draft-refresh", variant "SLOT-05" [L_U; L_B; L_A; L_E]); ("p4-release", variant "SLOT-06" [L_U; L_C; L_A; L_E]);
   ("p4-edit-own-slot", variant "SLOT-07" [L_U; L_C; L_A; L_E]); ("p4-nvidia-card-choice", variant "SLOT-05" [L_U; L_C; L_B]);
   ("p4-nvidia-card-release", variant "SLOT-06" [L_U; L_C; L_B]); ("p4-nvidia-card-edit", variant "SLOT-07" [L_U; L_C; L_B]);
   ("p4-nvidia-dra-handoff", variant "SHR-03" [L_U; L_C; L_B]); ("p4-last-slot-race", variant "SLOT-09" [L_U; L_C; L_A]);
   ("p4-restoration", variant "HAR-08" [L_U; L_C; L_A]); ("p4-cdi-identity", variant "BOOT-04" [L_U; L_C]);
   ("p4-stale-checkpoint", variant "BOOT-05" [L_U; L_C])].

Definition phase3Requirements : list Requirement := requirements "installed-exclusive-amd-nvidia" 3 phase3Variants.
Definition phase4Requirements : list Requirement := requirements "installed-sharing-amd-nvidia" 4 phase4Variants.
Definition gpuRequirements (phase : Z) : list Requirement := if phase =? 3 then phase3Requirements else phase4Requirements.

(** The ids and the pattern of every explicit subset. *)
Definition phase3RuntimeCases : dict (list string * string) :=
  let ids := ["ENG-01"; "ENG-03"; "LOG-01"; "ROUTE-01"; "SLOT-02"; "LIFE-03"; "LIFE-04"] in
  [("vllm-lifecycle", (ids, "(amd-vllm|nvidia-vllm) actual")); ("nvidia-lifecycle", (ids, "(nvidia-ollama|nvidia-vllm) actual"))].
Definition phase4SharingCases : dict (list string * string) :=
  foldl (fun d p => dict_set d (ds_id p) (ds_caseIds p, ds_grep p)) [] (List.filter (fun p => ds_phase p =? 4) diagnosticSelections).

(** [/^phase[34](?:-|$)/] *)
Definition gpuModePhase (mode : option string) : option Z :=
  match phase_prefix "3" "4" (mode ?? "") with
  | Some rest => if String.eqb rest "" || startsWith "-" rest then Some (if startsWith "phase3" (mode ?? "") then 3 else 4) else None
  | None => None
  end.
Definition in_layers (layers : list TestLayer) (r : Requirement) : bool := bool_decide (rq_layer r ∈ layers).

Definition gpu_mode_selected (mode : string) (phase : Z) : list Requirement :=
  let fixture := if endsWith "-fast" mode then Some [L_U; L_C] else if endsWith "-fixtures" mode then Some [L_B] else None in
  let selected := List.filter (fun r => match fixture with Some ls => in_layers ls r | None => true end) (gpuRequirements phase) in
  if endsWith "-validation" mode then List.filter (fun r => String.eqb (rq_id r) "HW-06" && in_layers [L_A; L_E] r) selected
  else if endsWith "-gpu" mode then List.filter (fun r => negb (String.eqb (rq_id r) "HW-06") && in_layers [L_A; L_E; L_O] r) selected
  else if endsWith "-sharing" mode then List.filter (in_layers [L_A; L_E; L_O]) selected
  else selected.

Definition gpuModeIds (mode gpuCase : option string) : res exn (option (list string)) :=
  if truthy (gpuCase ?? "") then
    let selections := match mode with Some "phase3-gpu" => Some phase3RuntimeCases | Some "phase4-sharing" => Some phase4SharingCases | _ => None end in
    match base.mbind (fun d => dict_get d (gpuCase ?? "")) selections with
    | Some (ids, _) => Ok (Some ids)
    | None => Err (harness CONFIG)
    end
  else Ok ((fun phase => unique (map rq_id (gpu_mode_selected (mode ?? "") phase))) <$> gpuModePhase mode).
Definition gpuIds (phase : Z) (layers : option (list TestLayer)) : list string :=
  unique (map rq_id (List.filter (fun r => match layers with Some ls => in_layers ls r | None => true end) (gpuRequirements phase))).
Definition gpuCoverage (phase : Z) : list Recorded -> Coverage := matrix_coverage (gpuRequirements phase).

(** ** Phases 5 to 8 *)
Inductive LiveGate : Type :=
| Gate_applications | Gate_gpu_profile | Gate_identity | Gate_license | Gate_federation | Gate_maintenance | Gate_network | Gate_channel
| Gate_cache | Gate_reboot | Gate_mesh | Gate_companion | Gate_realtime | Gate_repeat | Gate_supply_chain.
#[export] Instance LiveGate_eq_dec : EqDecision LiveGate.
Proof. solve_decision. Defined.
Definition gate_name (g : LiveGate) : string :=
  match g with
  | Gate_applications => "applications" | Gate_gpu_profile => "gpu-profile" | Gate_identity => "identity" | Gate_license => "license"
  | Gate_federation => "federation" | Gate_maintenance => "maintenance" | Gate_network => "network" | Gate_channel => "channel"
  | Gate_cache => "cache" | Gate_reboot => "reboot" | Gate_mesh => "mesh" | Gate_companion => "companion" | Gate_realtime => "realtime"
  | Gate_repeat => "repeat" | Gate_supply_chain => "supply-chain"
  end.

Record P0Definition : Type := mk_definition {
  pd_id : string;
  pd_phase : Z;
  pd_layers : list TestLayer;
  pd_group : string;
  pd_gate : option LiveGate;
  pd_variantSuffix : option string;
  pd_workflow : option ProductLiveWorkflow
}.
#[export] Instance P0Definition_eq_dec : EqDecision P0Definition.
Proof. solve_decision. Defined.

(** [layers.split('')], of a text of layer names. *)
Fixpoint split_layers (s : string) : list TestLayer :=
  match s with
  | "" => []
  | String c s' => match find_first (fun l => String.eqb (layer_name l) (String c "")) testLayers with
                   | Some l => l :: split_layers s'
                   | None => split_layers s'
                   end
  end.
Definition row (phase : Z) (id layers group : string) (gate : option LiveGate) (workflow : option ProductLiveWorkflow) : P0Definition :=
  mk_definition id phase (split_layers layers) group gate None workflow.
Definition with_suffix (suffix : string) (d : P0Definition) : P0Definition :=
  mk_definition (pd_id d) (pd_phase d) (pd_layers d) (pd_group d) (pd_gate d) (Some suffix) (pd_workflow d).

Definition definitions : list P0Definition :=
  [row 5 "MOD-03" "AE" "modules" (Some Gate_applications) (Some Workflow_modules);
   row 5 "MOD-04" "AE" "modules" (Some Gate_applications) (Some Workflow_modules); row 5 "MOD-06" "UCBAE" "modules" (Some Gate_gpu_profile) None;
   row 5 "MOD-09" "UCB" "modules" None None; row 5 "MOD-10" "UCAE" "credentials" (Some Gate_identity) (Some Workflow_credentials);
   row 5 "APP-02" "AE" "apps" (Some Gate_applications) (Some Workflow_applications);
   row 5 "APP-05" "CAE" "apps" (Some Gate_applications) (Some Workflow_applications);
   row 5 "APP-06" "AE" "apps" (Some Gate_applications) (Some Workflow_applications);
   row 5 "APP-07" "UCAE" "credentials" (Some Gate_applications) (Some Workflow_applications);
   row 5 "APP-09" "UCA" "apps" (Some Gate_applications) (Some Workflow_applications);
   row 5 "APP-10" "UAE" "apps" (Some Gate_applications) (Some Workflow_applications);
   row 5 "ACL-01" "CAE" "access" (Some Gate_identity) (Some Workflow_applications);
   row 5 "ACL-02" "UCAE" "access" (Some Gate_identity) (Some Workflow_applications);
   row 5 "ACL-04" "UCAE" "access" (Some Gate_applications) (Some Workflow_applications);
   row 5 "ACL-06" "UCA" "access" (Some Gate_identity) (Some Workflow_applications); row 5 "USER-02" "UCAE" "users" (Some Gate_identity) None;
   row 5 "USER-03" "UCAE" "users" (Some Gate_identity) None; row 5 "USER-04" "UCA" "users" (Some Gate_identity) None;
   row 5 "USER-05" "UCAE" "users" (Some Gate_identity) None; row 5 "K8S-02" "CAE" "kubernetes" (Some Gate_identity) None;
   row 5 "K8S-03" "CA" "kubernetes" (Some Gate_identity) None; row 5 "K8S-04" "UCBO" "kubernetes" (Some Gate_identity) None;
   row 5 "K8S-05" "UCAE" "kubernetes" (Some Gate_identity) None; row 5 "K8S-06" "UCAE" "kubernetes" (Some Gate_identity) None;
   row 5 "LIC-01" "UCAB" "licensing" None None; row 5 "LIC-02" "UCAE" "licensing" (Some Gate_license) None;
   row 5 "LIC-03" "UCA" "licensing" (Some Gate_license) None; row 5 "LIC-04" "UCAE" "licensing" (Some Gate_license) None;
   row 5 "LIC-08" "UC" "licensing" None None; row 5 "SSO-01" "UCBA" "federation" None None;
   row 5 "SSO-02" "UCAE" "federation" (Some Gate_federation) None; row 5 "SSO-04" "CAE" "federation" (Some Gate_federation) None;
   row 5 "SSO-05" "UCAO" "federation" (Some Gate_federation) None; row 5 "AUTH-03" "UCA" "authentication" None None;
   row 5 "AUTH-04" "CAE" "authentication" (Some Gate_identity) None; row 5 "AUTH-05" "UCA" "authentication" None None;
   row 5 "AUTH-08" "UAE" "users" (Some Gate_identity) None; row 5 "AUTH-10" "UCB" "authentication" None None; row 5 "KEY-02" "UCBA" "keys" None None;
   row 5 "KEY-04" "UCA" "keys" None None; row 5 "KEY-05" "UCA" "keys" None None; row 5 "LOG-03" "UCA" "logs" (Some Gate_identity) None;
   row 6 "HOST-01" "UCBA" "host" None None; row 6 "HOST-02" "UCBE" "host" None None; row 6 "HOST-03" "UC" "host" None None;
   row 6 "HOST-04" "UCAO" "host" (Some Gate_maintenance) None; row 6 "HOST-05" "UCO" "host" (Some Gate_maintenance) None;
   row 6 "HOST-08" "UCB" "host" None None; row 6 "GPUHOST-01" "UCBE" "gpu-host" None None; row 6 "GPUHOST-02" "UCB" "gpu-host" None None;
   row 6 "GPUHOST-05" "UCAEO" "gpu-host" (Some Gate_maintenance) None; row 6 "GPUHOST-06" "UCAO" "gpu-host" (Some Gate_maintenance) None;
   row 6 "GPUHOST-07" "UCAO" "gpu-host" (Some Gate_maintenance) None; row 6 "GPUHOST-08" "UC" "gpu-host" None None;
   row 6 "NET-02" "UCB" "network" None None; row 6 "NET-03" "UCB" "network" None None; row 6 "NET-05" "CAEO" "network" (Some Gate_network) None;
   row 6 "NET-06" "UCO" "network" (Some Gate_network) None; row 6 "NET-07" "UCO" "network" (Some Gate_network) None;
   row 6 "NET-08" "UC" "network" None None; row 6 "UPD-04" "UC" "updates" None None; row 6 "UPD-05" "CAO" "updates" (Some Gate_maintenance) None;
   row 6 "UPD-06" "UC" "updates" None None; row 6 "UPD-07" "UCO" "updates" (Some Gate_maintenance) None; row 6 "CHANNEL-02" "UCB" "channel" None None;
   row 6 "CHANNEL-04" "UC" "channel" None None; row 6 "CHANNEL-05" "UC" "channel" None None;
   row 6 "CHANNEL-06" "CAEO" "channel" (Some Gate_channel) None; row 6 "CHANNEL-07" "UCO" "channel" (Some Gate_channel) None;
   row 6 "CHANNEL-08" "UCAO" "channel" (Some Gate_channel) None; row 6 "CACHE-02" "UCAB" "cache" None None; row 6 "CACHE-03" "UCB" "cache" None None;
   row 6 "CACHE-04" "UCAEO" "cache" (Some Gate_cache) None; row 6 "CACHE-05" "UC" "cache" None None;
   row 6 "CACHE-06" "UCA" "cache" (Some Gate_cache) None; row 6 "BOOT-01" "UCB" "host" None None; row 6 "BOOT-02" "CAO" "boot" (Some Gate_reboot) None;
   row 6 "BOOT-03" "CAO" "boot" (Some Gate_reboot) None; row 6 "BOOT-04" "UCAO" "boot" (Some Gate_reboot) None; row 6 "BOOT-05" "UC" "boot" None None;
   row 7 "MESH-01" "UCBAE" "mesh" None None; row 7 "MESH-03" "UCAE" "mesh" (Some Gate_mesh) None; row 7 "MESH-04" "UCAE" "mesh" (Some Gate_mesh) None;
   row 7 "MESH-05" "UCA" "mesh" (Some Gate_mesh) None; row 7 "MESH-06" "UCA" "mesh" (Some Gate_mesh) None;
   row 7 "MESH-07" "UCAE" "mesh" (Some Gate_mesh) None; row 7 "MESH-09" "CA" "companion" (Some Gate_companion) None;
   row 7 "RT-01" "UCBAE" "realtime" (Some Gate_realtime) None; row 7 "RT-02" "UCA" "realtime" (Some Gate_realtime) None;
   row 7 "RT-03" "CA" "realtime" (Some Gate_realtime) None; row 7 "RT-04" "UCA" "realtime" (Some Gate_realtime) None;
   row 7 "RT-08" "UCAE" "realtime" (Some Gate_realtime) None; row 8 "SEC-01" "UCA" "security" None None; row 8 "SEC-02" "UCB" "security" None None;
   row 8 "SEC-03" "UCA" "supply-chain" (Some Gate_supply_chain) None; row 8 "SEC-04" "CA" "security" None None; row 8 "UX-02" "UBE" "forms" None None;
   row 8 "PERF-02" "UCAN" "repeat" (Some Gate_repeat) None; with_suffix "mesh" (row 8 "UX-02" "E" "mesh-form" None None);
   with_suffix "gpu" (row 8 "UX-02" "E" "gpu-form" None None)].

Definition definition_key (d : P0Definition) : string :=
  "p" +:+ String_of_Z (pd_phase d) +:+ "-" +:+ toLowerCase (pd_id d) +:+ match pd_variantSuffix d with Some s => if truthy s then "-" +:+ s else "" | None => "" end.
Definition remainingVariants : dict P0Definition := foldl (fun acc d => dict_set acc (definition_key d) d) [] definitions.

Definition remainingVariantEnabled (d : P0Definition) : bool :=
  bool_decide (d ∈ definitions) && (negb (bool_decide (pd_gate d = Some Gate_realtime)) || realtimeRegressionEnabled).
Definition live_layers : list TestLayer := [L_A; L_E; L_O; L_N].
Definition remainingLayers (d : P0Definition) : list TestLayer :=
  if negb (remainingVariantEnabled d) then []
  else List.filter (fun l => match pd_workflow d with Some w => liveWorkflowEnabled w | None => true end || negb (bool_decide (l ∈ live_layers))) (pd_layers d).

Definition digit_of (c : ascii) : Z := code c - 48.
(** [/^phase[5-8](?:-fast|-fixtures|-live)?$/], or the drill. *)
Definition remainingPhase (mode : option string) : option Z :=
  if bool_decide (mode = Some "phase6-drill") then Some 6
  else match phase_prefix "5" "8" (mode ?? "") with
       | Some rest => if includes [""; "-fast"; "-fixtures"; "-live"] rest
                      then match drop_str 5 (mode ?? "") with String c _ => Some (digit_of c) | "" => None end else None
       | None => None
       end.
Definition hostDrillIds : list string :=
  map pd_id (List.filter (fun d => (pd_phase d =? 6) && bool_decide (is_Some (pd_gate d))) definitions).

(** [/^phase[5-8]-live$/], or the drill: the modes of one selected case. *)
Definition single_case_mode (mode : string) : bool :=
  String.eqb mode "phase6-drill" || match phase_prefix "5" "8" mode with Some rest => String.eqb rest "-live" | None => false end.
Definition default_selection (env : environment) (mode : string) : option string :=
  if single_case_mode mode then dict_get env "REGRESSION_REMAINING_CASE" else None.
Definition mode_layers (mode : string) : option (list TestLayer) :=
  if endsWith "-fast" mode then Some [L_U; L_C] else if endsWith "-fixtures" mode then Some [L_B]
  else if endsWith "-live" mode || String.eqb mode "phase6-drill" then Some live_layers else None.

Definition remaining_matrix (mode : string) (phase : Z) (selectedId : string) : list Requirement :=
  (concat (map (fun vd => map (fun l => mk_requirement (pd_id vd.2) vd.1 l (environmentFor (layer_name l)) phase (pd_group vd.2) (gate_name <$> pd_gate vd.2))
                            (List.filter (fun l => match mode_layers mode with Some ls => bool_decide (l ∈ ls) | None => true end) (remainingLayers vd.2)))
             (List.filter (fun vd => remainingVariantEnabled vd.2 && (pd_phase vd.2 =? phase) && (negb (truthy selectedId) || String.eqb (pd_id vd.2) selectedId))
                remainingVariants)) ++
   (if String.eqb mode ("phase" +:+ String_of_Z phase)
    then [mk_requirement "HAR-03" "final-idle" L_A "live" phase "final-baseline" None] else []))%list.

Definition valid_selection (mode : string) (phase : Z) (id : string) : bool :=
  single_case_mode mode &&
  existsb (fun d => (pd_phase d =? phase) && String.eqb (pd_id d) id && existsb (fun l => bool_decide (l ∈ live_layers)) (remainingLayers d)) definitions.

(** With the selection given, [None] when the mode has no such matrix. *)
Definition remaining_selected (mode : string) (selectedId : option string) : res exn (option (list Requirement)) :=
  match remainingPhase (Some mode) with
  | None => Ok None
  | Some phase =>
      let id := selectedId ?? "" in
      res_bind (if String.eqb mode "phase6-drill" then requireSafe (truthy id && includes hostDrillIds id) CONFIG else Ok tt) (fun _ =>
      res_bind (if truthy id then requireSafe (valid_selection mode phase id) CONFIG else Ok tt) (fun _ =>
      Ok (Some (remaining_matrix mode phase id))))
  end.
Definition remainingRequirements (env : environment) (mode : string) (selectedId : option string) : res exn (option (list Requirement)) :=
  remaining_selected mode (or_else selectedId (default_selection env mode)).

Definition remainingIds (env : environment) (mode selectedId : option string) : res exn (option (list string)) :=
  match mode with
  | Some m => if truthy m then res_bind (remainingRequirements env m selectedId) (fun o => Ok ((fun rs => unique (map rq_id rs)) <$> o)) else Ok None
  | None => Ok None
  end.

(** The requirement that there are some keeps an empty matrix from being complete. *)
Definition remainingCoverage (env : environment) (mode : string) (cases : list Recorded) : res exn Coverage :=
  res_bind (remainingRequirements env mode None) (fun required =>
  let required := required ?? [] in
  let missing := missing_layers required cases in
  Ok (mk_coverage [] [] missing ((0 <? length required)%nat && bool_decide (missing = []) && all_passed cases))).

(** [/^[A-Z][A-Z0-9]+-\d{2}$/] *)
Definition case_id (s : string) : bool :=
  let '(name, rest) := span (fun c => is_upper c || is_digit c) s in
  match name with String c (String _ _) => is_upper c | _ => false end &&
  match rest with String "-" (String d1 (String d2 "")) => is_digit d1 && is_digit d2 | _ => false end.

Definition validateRemainingRegistry : res exn unit :=
  res_bind (requireSafe (Nat.eqb (length definitions) (length remainingVariants)) CONFIG) (fun _ =>
  requireSafe (forallb (fun d => case_id (pd_id d) && (0 <? length (pd_layers d))%nat && bool_decide (NoDup (pd_layers d))) definitions) CONFIG).
