(* ===== verification/Journal.v ===== *)
(** * The resource journal (regression/core/journal.ts)

    A run records every resource it asks for before it asks, and removes at the end exactly
    what it recorded. The object's state is the journal data; [resume_value] is the check a
    stored journal passes before it is used again. The checks of
    [resume] are those on fields of the types the journal stores; the adapter of every kind is
    present. [persist] is the write of one caller at a time: the queue that orders the writes
    of concurrent callers is outside the model. *)

From S2P Require Import Prelude Js Number Regex Json JsonParse Prog Errors.

Local Open Scope string_scope.
Local Open Scope js_scope.
Local Open Scope Z_scope.

(** ** Data *)
Inductive ResourceKind : Type := K_model | K_app | K_key | K_identity.
#[export] Instance ResourceKind_eq_dec : EqDecision ResourceKind.
Proof. solve_decision. Defined.
Definition resource_kinds : list ResourceKind := [K_model; K_app; K_key; K_identity].
Definition kind_name (k : ResourceKind) : string :=
  match k with K_model => "model" | K_app => "app" | K_key => "key" | K_identity => "identity" end.

Inductive CleanupOperation : Type := Op_guard | Op_lookup | Op_remove | Op_verify | Op_persist.
#[export] Instance CleanupOperation_eq_dec : EqDecision CleanupOperation.
Proof. solve_decision. Defined.
Definition cleanupOperations : list CleanupOperation := [Op_guard; Op_lookup; Op_remove; Op_verify; Op_persist].
Definition operation_name (o : CleanupOperation) : string :=
  match o with
  | Op_guard => "guard" | Op_lookup => "lookup" | Op_remove => "remove" | Op_verify => "verify" | Op_persist => "persist"
  end.

Record CleanupFailure : Type := {
  cf_operation : CleanupOperation;
  cf_reason : ReasonCode;
  cf_stage : option Stage
}.

Inductive EntryState : Type := E_requested | E_owned | E_removed | E_blocked.
#[export] Instance EntryState_eq_dec : EqDecision EntryState.
Proof. solve_decision. Defined.
Definition entry_states : list EntryState := [E_requested; E_owned; E_removed; E_blocked].
Definition state_name (s : EntryState) : string :=
  match s with E_requested => "requested" | E_owned => "owned" | E_removed => "removed" | E_blocked => "blocked" end.

Record JournalEntry : Type := {
  je_kind : ResourceKind;
  je_name : string;
  je_uid : option string;
  je_state : EntryState;
  je_generation : option number;
  je_cleanupFailure : option CleanupFailure
}.

Record JournalData : Type := {
  jd_runId : string;
  jd_targetUid : string;
  jd_prefix : string;
  jd_entries : list JournalEntry
}.

Definition key_of (e : JournalEntry) : ResourceKind * string := (je_kind e, je_name e).
Definition same_key (k : ResourceKind) (name : string) (e : JournalEntry) : bool := bool_decide (key_of e = (k, name)).

(** [item.state = ...; delete item.cleanupFailure], and the other updates of an entry. *)
Definition entry_removed (e : JournalEntry) : JournalEntry :=
  {| je_kind := je_kind e; je_name := je_name e; je_uid := je_uid e; je_state := E_removed;
     je_generation := je_generation e; je_cleanupFailure := None |}.
Definition entry_rejected (e : JournalEntry) : JournalEntry :=
  {| je_kind := je_kind e; je_name := je_name e; je_uid := je_uid e; je_state := E_removed;
     je_generation := je_generation e; je_cleanupFailure := je_cleanupFailure e |}.
Definition entry_owned (uid : string) (generation : option number) (e : JournalEntry) : JournalEntry :=
  {| je_kind := je_kind e; je_name := je_name e; je_uid := Some uid; je_state := E_owned;
     je_generation := generation ??? je_generation e; je_cleanupFailure := je_cleanupFailure e |}.
Definition entry_generation (generation : number) (e : JournalEntry) : JournalEntry :=
  {| je_kind := je_kind e; je_name := je_name e; je_uid := je_uid e; je_state := je_state e;
     je_generation := Some generation; je_cleanupFailure := je_cleanupFailure e |}.
Definition entry_blocked (f : CleanupFailure) (e : JournalEntry) : JournalEntry :=
  {| je_kind := je_kind e; je_name := je_name e; je_uid := je_uid e; je_state := E_blocked;
     je_generation := je_generation e; je_cleanupFailure := Some f |}.
Definition entry_failed (f : CleanupFailure) (e : JournalEntry) : JournalEntry :=
  {| je_kind := je_kind e; je_name := je_name e; je_uid := je_uid e; je_state := je_state e;
     je_generation := je_generation e; je_cleanupFailure := Some f |}.

Definition with_entries (l : list JournalEntry) (d : JournalData) : JournalData :=
  {| jd_runId := jd_runId d; jd_targetUid := jd_targetUid d; jd_prefix := jd_prefix d; jd_entries := l |}.
Definition update_entry (i : nat) (f : JournalEntry -> JournalEntry) (d : JournalData) : JournalData :=
  with_entries (alter f i (jd_entries d)) d.

(** [this.data.entries.find(...)], as its position. *)
Fixpoint position (k : ResourceKind) (name : string) (l : list JournalEntry) : option nat :=
  match l with
  | [] => None
  | e :: l' => if same_key k name e then Some O else S <$> position k name l'
  end.

(** ** Names *)
Definition app_types : list string := ["openclaw"; "hermes"; "paperclip"; "kubeopencode"; "odysseus"].

(** [/^[a-z0-9][a-z0-9-]{0,62}$/] *)
Definition plain_char (c : ascii) : bool := is_lower c || is_digit c.
Definition name_pattern : re := Cat (Cls plain_char) (upto 62 (Cls (fun c => plain_char c || Ascii.eqb c "-"%char))).

Definition ownedJournalName (kind : ResourceKind) (name prefix : string) : bool :=
  rtest name_pattern name &&
  (startsWith prefix name ||
   bool_decide (kind = K_app) && existsb (fun type => startsWith (type +:+ "-" +:+ prefix) name) app_types).

(** [reg-${runId.slice(4, 16)}-] *)
Definition run_prefix (runId : string) : string := "reg-" +:+ slice 4 16 runId +:+ "-".

(** The run directory is named exactly; a worker directory only for GPU recovery, up to 64. *)
Definition recoveryJournalPath (value : string) (gpu : bool) : bool :=
  let base := "/private/runs/" in
  let run := slice 14 54 value in
  let rest := drop_str 54 value in
  startsWith base value && rtest run_pattern run &&
  (String.eqb rest "/journal.json" ||
   gpu && existsb (fun n => String.eqb rest ("/worker-" +:+ String_of_Z (Z.of_nat n) +:+ "/journal.json")) (seq 1 64)).

(** ** The stored form *)
Definition failure_json (f : CleanupFailure) : json :=
  JObj ([("operation", JStr (operation_name (cf_operation f))); ("reason", JStr (reason_name (cf_reason f)))]
        ++ match cf_stage f with Some s => [("stage", JStr (stage_name s))] | None => [] end)%list.

Definition entry_json (e : JournalEntry) : json :=
  JObj ([("kind", JStr (kind_name (je_kind e))); ("name", JStr (je_name e));
         ("uid", match je_uid e with Some u => JStr u | None => JNull end); ("state", JStr (state_name (je_state e)))]
        ++ match je_generation e with Some g => [("generation", JNum g)] | None => [] end
        ++ match je_cleanupFailure e with Some f => [("cleanupFailure", failure_json f)] | None => [] end)%list.

Definition journal_json (d : JournalData) : json :=
  JObj [("version", JNum (Int 1)); ("runId", JStr (jd_runId d)); ("targetUid", JStr (jd_targetUid d));
        ("prefix", JStr (jd_prefix d)); ("entries", JArr (map entry_json (jd_entries d)))].

(** ** Checking a stored journal *)

Definition validCleanupFailure (v : json) : option CleanupFailure :=
  match v with
  | JObj d =>
      if forallb (fun kv => includes ["operation"; "reason"; "stage"] kv.1) d then
        op ← named operation_name cleanupOperations (dict_get d "operation");
        reason ← named reason_name all_reasons (dict_get d "reason");
        match dict_get d "stage" with
        | None => Some {| cf_operation := op; cf_reason := reason; cf_stage := None |}
        | o => stage ← named stage_name stages o; Some {| cf_operation := op; cf_reason := reason; cf_stage := Some stage |}
        end
      else None
  | _ => None
  end.

Definition has_generation (k : ResourceKind) : bool := bool_decide (k = K_model) || bool_decide (k = K_app).
Definition positive_integer (n : number) : bool := isSafeInteger n && num_ltb (Int 0) n.

(** An entry, when its fields pass the checks that do not involve the other entries. *)
Definition checked_entry (prefix : string) (v : json) : option JournalEntry :=
  match v with
  | JObj d =>
      kind ← named kind_name resource_kinds (dict_get d "kind");
      name ← text_field d "name";
      state ← named state_name entry_states (dict_get d "state");
      uid ← match dict_get d "uid" with
            | Some JNull => Some None
            | Some (JStr u) => if truthy u then Some (Some u) else None
            | _ => None
            end;
      generation ← match dict_get d "generation" with
                   | None => Some None
                   | Some (JNum n) =>
                       if has_generation kind && positive_integer n && bool_decide (is_Some uid) then Some (Some n) else None
                   | _ => None
                   end;
      failure ← match dict_get d "cleanupFailure" with
                | None => Some None
                | Some f => if bool_decide (state = E_blocked) then Some <$> validCleanupFailure f else None
                end;
      if ownedJournalName kind name prefix && (negb (bool_decide (state = E_owned)) || bool_decide (is_Some uid))
      then Some {| je_kind := kind; je_name := name; je_uid := uid; je_state := state;
                   je_generation := generation; je_cleanupFailure := failure |}
      else None
  | _ => None
  end.

Fixpoint checked_entries (prefix : string) (seen : list (ResourceKind * string)) (l : list json) : option (list JournalEntry) :=
  match l with
  | [] => Some []
  | v :: l' =>
      e ← checked_entry prefix v;
      if bool_decide (key_of e ∈ seen) then None
      else es ← checked_entries prefix (key_of e :: seen) l'; Some (e :: es)
  end.

(** [data.version === 1] *)
Definition version_one (d : dict json) : bool :=
  match dict_get d "version" ≫= json_num with Some n => num_eqb n (Int 1) | None => false end.

Definition resume_value (targetUid : string) (v : json) : res exn JournalData :=
  match v with
  | JObj d =>
      match text_field d "runId", text_field d "targetUid", text_field d "prefix", dict_get d "entries" with
      | Some runId, Some target, Some prefix, Some (JArr l) =>
          if version_one d && String.eqb target targetUid
             && rtest run_pattern runId && String.eqb prefix (run_prefix runId)
          then match checked_entries prefix [] l with
               | Some es => Ok {| jd_runId := runId; jd_targetUid := target; jd_prefix := prefix; jd_entries := es |}
               | None => Err (harness OWNERSHIP)
               end
          else Err (harness OWNERSHIP)
      | _, _, _, _ => Err (harness OWNERSHIP)
      end
  | _ => Err (harness OWNERSHIP)
  end.

(** ** Effects *)

(** What a lookup of the resource finds. *)
Record Found : Type := { fd_uid : string; fd_generation : option number; fd_deleting : option bool }.

Inductive ObservationState : Type := O_running | O_passed | O_failed.

(** The observation handed to the diagnostic recorder. *)
Record Observation : Type := {
  ob_operation : CleanupOperation;
  ob_state : ObservationState;
  ob_exists : option bool;
  ob_uidMatches : option (option bool);          (* undefined, null, or a boolean *)
  ob_expectedGeneration : option number;
  ob_generationMatches : option (option bool);
  ob_observedGeneration : option number;
  ob_deleting : option bool
}.
Definition plain_observation (o : CleanupOperation) (s : ObservationState) : Observation :=
  {| ob_operation := o; ob_state := s; ob_exists := None; ob_uidMatches := None; ob_expectedGeneration := None;
     ob_generationMatches := None; ob_observedGeneration := None; ob_deleting := None |}.

Definition lookup_observation (entry : JournalEntry) (current : option Found) : Observation :=
  {| ob_operation := Op_lookup; ob_state := O_passed; ob_exists := Some (bool_decide (is_Some current));
     ob_uidMatches := Some ((fun c => bool_decide (Some (fd_uid c) = je_uid entry)) <$> current);
     ob_expectedGeneration := je_generation entry;
     ob_generationMatches := (fun g => (current ≫= fd_generation) ≫= fun c => Some (num_eqb c g)) <$> je_generation entry;
     ob_observedGeneration := current ≫= fd_generation; ob_deleting := current ≫= fd_deleting |}.

Inductive journalE : Type -> Type :=
| Write_journal (d : JournalData) (exclusive : bool) : journalE (res exn unit)
| Read_journal : journalE (res exn string)
| Assert_held : journalE (res exn unit)
| Lookup (e : JournalEntry) : journalE (res exn (option Found))
| Remove_if_uid (e : JournalEntry) (uid : string) : journalE (res exn unit)
| Verify_removed (e : JournalEntry) : journalE (res exn bool)
| Diagnose (k : ResourceKind * string) (o : Observation) : journalE (res exn unit)
| Diagnose_complete (k : ResourceKind * string) : journalE (res exn unit)
| Diagnose_failure (k : ResourceKind * string) (o : CleanupOperation) (e : exn) : journalE (res exn unit).

Definition JM := M journalE JournalData exn.

Definition persist : JM unit := let! d := get in await (Write_journal d false).

(** ** Creating and resuming *)
Definition create (runId targetUid : string) : prog journalE (res exn JournalData) :=
  match requireSafe (rtest run_pattern runId && truthy targetUid) OWNERSHIP with
  | Err e => Done (Err e)
  | Ok _ =>
      let d := {| jd_runId := runId; jd_targetUid := targetUid; jd_prefix := run_prefix runId; jd_entries := [] |} in
      Await (Write_journal d true) (fun r => Done (match r with Ok _ => Ok d | Err e => Err e end))
  end.

Definition resume (targetUid : string) : prog journalE (res exn JournalData) :=
  Await Read_journal (fun r => Done (
    match r with
    | Ok text => match JSON_parse text with Some v => resume_value targetUid v | None => Err (harness OWNERSHIP) end
    | Err _ => Err (harness OWNERSHIP)
    end)).

(** ** Recording *)
Definition requested (kind : ResourceKind) (name : string) : JM unit :=
  let! d := get in
  requireSafeM (ownedJournalName kind name (jd_prefix d) && negb (existsb (same_key kind name) (jd_entries d))) OWNERSHIP ;;
  modify (with_entries (jd_entries d ++ [{| je_kind := kind; je_name := name; je_uid := None; je_state := E_requested;
                                            je_generation := None; je_cleanupFailure := None |}])) ;;
  persist.

(** The entry of a name, checked and updated. *)
Definition on_entry (kind : ResourceKind) (name : string) (check : JournalEntry -> bool)
    (f : JournalEntry -> JournalEntry) : JM unit :=
  let! d := get in
  match position kind name (jd_entries d) with
  | None => throw (harness OWNERSHIP)
  | Some i =>
      requireSafeM (match jd_entries d !! i with Some e => check e | None => false end) OWNERSHIP ;;
      modify (update_entry i f) ;;
      persist
  end.

Definition in_state (l : list EntryState) (e : JournalEntry) : bool := bool_decide (je_state e ∈ l).

Definition owned (kind : ResourceKind) (name uid : string) (generation : option number) : JM unit :=
  on_entry kind name (fun e => in_state [E_requested] e && truthy uid &&
      match generation with Some g => has_generation kind && positive_integer g | None => true end)
    (entry_owned uid generation).

Definition rejected (kind : ResourceKind) (name : string) : JM unit :=
  on_entry kind name (fun e => in_state [E_requested] e && bool_decide (je_uid e = None)) entry_rejected.

Definition recoveredAbsent (kind : ResourceKind) (name : string) : JM unit :=
  on_entry kind name (fun e => in_state [E_requested; E_blocked] e && bool_decide (je_uid e = None)) entry_removed.

Definition generation (kind : ResourceKind) (name uid : string) (previous next : number) : JM unit :=
  on_entry kind name (fun e => in_state [E_owned] e && bool_decide (je_uid e = Some uid)
      && match je_generation e with Some g => num_eqb g previous | None => false end
      && isSafeInteger next && num_ltb previous next) (entry_generation next).
Definition modelGeneration := generation K_model.

(** ** Cleaning up *)
Definition automaticallyRemovable (e : JournalEntry) : bool :=
  in_state [E_owned; E_blocked] e && bool_decide (is_Some (je_uid e)) &&
  (negb (has_generation (je_kind e)) || bool_decide (is_Some (je_generation e))).

Definition recoveryPlan (d : JournalData) : list (JournalEntry * bool) :=
  map (fun e => (e, automaticallyRemovable e)) (List.filter (fun e => negb (in_state [E_removed] e)) (jd_entries d)).

Definition verifyCleanup : JM unit :=
  let! d := get in
  requireSafeM (bool_decide (length (recoveryPlan d) = 0%nat)) CLEANUP ;;
  for_each (jd_entries d) (fun e =>
    await Assert_held ;;
    let! gone := await (Verify_removed e) in
    requireSafeM gone CLEANUP).

Definition cleanupFailure (operation : CleanupOperation) (e : exn) : CleanupFailure :=
  match e with
  | Harness h => {| cf_operation := operation; cf_reason := err_causeReason h ?? err_code h;
                    cf_stage := err_causeStage h ??? err_stage h |}
  | Foreign _ => {| cf_operation := operation; cf_reason := UNEXPECTED; cf_stage := None |}
  end.

Definition running (e : JournalEntry) (o : CleanupOperation) : JM unit := await (Diagnose (key_of e) (plain_observation o O_running)).

(** Its last two steps: the absence is verified, and the entry stored as removed. *)
Definition cleanup_verify (i : nat) (entry : JournalEntry) : M journalE JournalData (CleanupOperation * exn) unit :=
  during Op_verify (
    running entry Op_verify ;;
    let! gone := await (Verify_removed entry) in
    requireSafeM gone CLEANUP ;;
    modify (update_entry i entry_removed)) ;;
  during Op_persist (persist ;; await (Diagnose_complete (key_of entry))).

(** The body of the [try]; an exception carries the operation under way. *)
Definition cleanup_body (i : nat) (entry : JournalEntry) : M journalE JournalData (CleanupOperation * exn) unit :=
  during Op_guard (running entry Op_guard ;; await Assert_held) ;;
  let! current := during Op_lookup (
    running entry Op_lookup ;;
    requireSafeM (in_state [E_owned; E_blocked] entry && truthy (je_uid entry ?? "")) OWNERSHIP ;;
    let! current := await (Lookup entry) in
    await (Diagnose (key_of entry) (lookup_observation entry current)) ;;
    requireSafeM (match current with Some c => bool_decide (je_uid entry = Some (fd_uid c)) | None => true end) OWNERSHIP ;;
    mret current) in
  when (bool_decide (is_Some current)) (
    during Op_guard (await Assert_held) ;;
    during Op_remove (
      running entry Op_remove ;;
      await (Remove_if_uid entry (je_uid entry ?? "")) ;;
      await (Diagnose (key_of entry) (plain_observation Op_remove O_passed)))) ;;
  cleanup_verify i entry.

Definition cleanup_failed (i : nat) (entry : JournalEntry) (op : CleanupOperation) (e : exn) : JM (option CleanupFailure) :=
  let f := cleanupFailure op e in
  modify (update_entry i (entry_blocked f)) ;;
  let! f := try_catch (persist ;; mret f) (fun pe =>
    let f := cleanupFailure Op_persist pe in
    modify (update_entry i (entry_failed f)) ;; mret f) in
  await (Diagnose_failure (key_of entry) op e) ;;
  mret (Some f).

(** One turn of the loop; [only] restricts it to one resource. *)
Definition in_scope (only : option (ResourceKind * string)) (e : JournalEntry) : bool :=
  match only with Some k => bool_decide (key_of e = k) | None => true end.

Definition cleanup_entry (only : option (ResourceKind * string)) (i : nat) : JM (option CleanupFailure) :=
  let! d := get in
  match jd_entries d !! i with
  | None => mret None
  | Some entry =>
      if in_state [E_removed] entry || negb (in_scope only entry) then mret None
      else catching (cleanup_body i entry ;; mret None) (fun oe => cleanup_failed i entry oe.1 oe.2)
  end.

Fixpoint cleanup_loop (only : option (ResourceKind * string)) (n : nat) : JM (list CleanupFailure) :=
  match n with
  | O => mret []
  | S i =>
      let! f := cleanup_entry only i in
      let! fs := cleanup_loop only i in
      mret (match f with Some f => f :: fs | None => fs end)
  end.

Definition cleanup (only : option (ResourceKind * string)) : JM unit :=
  let! d := get in
  requireSafeM (match only with Some (k, n) => existsb (same_key k n) (jd_entries d) | None => true end) OWNERSHIP ;;
  let! failures := cleanup_loop only (length (jd_entries d)) in
  match failures with
  | [] => mret tt
  | f :: _ => throw (Harness (new_HarnessError CLEANUP (Some Failed) (cf_stage f ??? Some S_cleanup)
                       (Some (cf_reason f, cf_stage f))))
  end.

(** ** Calls *)
Inductive journal_call : Type :=
| C_requested (kind : ResourceKind) (name : string)
| C_owned (kind : ResourceKind) (name uid : string) (generation : option number)
| C_rejected (kind : ResourceKind) (name : string)
| C_recoveredAbsent (kind : ResourceKind) (name : string)
| C_generation (kind : ResourceKind) (name uid : string) (previous next : number)
| C_cleanup (only : option (ResourceKind * string))
| C_verifyCleanup.

Definition journal_perform (c : journal_call) : JM unit :=
  match c with
  | C_requested kind name => requested kind name
  | C_owned kind name uid g => owned kind name uid g
  | C_rejected kind name => rejected kind name
  | C_recoveredAbsent kind name => recoveredAbsent kind name
  | C_generation kind name uid previous next => generation kind name uid previous next
  | C_cleanup only => cleanup only
  | C_verifyCleanup => verifyCleanup
  end.
