(* ===== verification/CleanupDiagnostic.v ===== *)
(** * The diagnostic recorder of cleanup (regression/core/cleanup-diagnostic.ts)

    Cleanup reports what it observes of every journal entry to a recorder, which keeps a
    bounded history in a private file beside the journal. An observation is an object with a
    fixed vocabulary of properties ([dict json]); what has others, or values that are not
    allowed, is refused or replaced by a note that it was. Identifiers are strings: a value
    that merely prints as one is refused here. *)

From S2P Require Import Prelude Js Number Json JsonParse Dates Prog Errors KubernetesCommand Journal.

Local Open Scope string_scope.
Local Open Scope js_scope.
Local Open Scope Z_scope.

(** ** Observations *)
Definition billion : Z := 1000000000.
Definition integer (v : json) : bool := bool_decide (is_Some (integer_within 0 billion v)).

(** [/^\d{4}-\d\d-\d\dT\d\d:\d\d:\d\d\.\d{3}Z$/], a digit for every [0] of the form. *)
Fixpoint matches_form (form s : string) : bool :=
  match form, s with
  | EmptyString, EmptyString => true
  | String f form, String c s => (if Ascii.eqb f "0" then is_digit c else Ascii.eqb f c) && matches_form form s
  | _, _ => false
  end.
Definition timestamp `{DateFallback} (v : json) : bool :=
  match v with
  | JStr s => matches_form "0000-00-00T00:00:00.000Z" s && bool_decide (is_Some (Date_parse s))
  | _ => false
  end.

Definition nullableBoolean (v : json) : bool := match v with JNull | JBool _ => true | _ => false end.
Definition is_boolean (v : json) : bool := match v with JBool _ => true | _ => false end.
Definition one_of (l : list string) (v : json) : bool := match v with JStr s => includes l s | _ => false end.
Definition or_null (check : json -> bool) (v : json) : bool := match v with JNull => true | _ => check v end.
Definition in_bounds (lo hi : Z) (v : json) : bool := bool_decide (is_Some (integer_within lo hi v)).
(** [Object.hasOwn(reasons, v)] *)
Definition reason_key (v : json) : bool := bool_decide (is_Some (reason_of_string (String_of_json v))).

Definition state_names : list string := ["running"; "passed"; "failed"].
Definition state_text (s : ObservationState) : string := match s with O_running => "running" | O_passed => "passed" | O_failed => "failed" end.

(** The optional properties, in the order in which they are read. *)
Definition observation_checks : list (string * (json -> bool)) :=
  [("exists", nullableBoolean); ("uidMatches", nullableBoolean); ("generationMatches", nullableBoolean); ("deleting", nullableBoolean);
   ("resourceVersionChanged", nullableBoolean); ("intentMatches", nullableBoolean);
   ("requestAttempted", is_boolean); ("retrying", is_boolean);
   ("attempt", in_bounds 1 3);
   ("expectedGeneration", integer); ("observedGeneration", integer); ("timeoutMs", integer);
   ("podCount", or_null integer); ("catalogCount", or_null integer);
   ("reason", reason_key); ("stage", one_of (map stage_name stages));
   ("method", one_of ["GET"; "POST"; "PUT"; "DELETE"]); ("endpoint", one_of ["model-activation"; "model-catalog"; "api-key"]);
   ("httpStatus", or_null (in_bounds 100 599))].

(** A property that is absent or passes its check. *)
Definition checked_property (d : dict json) (kc : string * (json -> bool)) : bool :=
  match dict_get d kc.1 with None => true | Some v => kc.2 v end.
Definition present (d : dict json) (k : string) : dict json := match dict_get d k with Some v => [(k, v)] | None => [] end.

Definition required_keys : list string := ["operation"; "state"; "at"; "elapsedMs"].
Definition required_checks `{DateFallback} : list (string * (json -> bool)) :=
  [("operation", one_of (map operation_name cleanupOperations)); ("state", one_of state_names); ("at", timestamp); ("elapsedMs", integer)].
Definition required_property (d : dict json) (kc : string * (json -> bool)) : bool :=
  match dict_get d kc.1 with None => false | Some v => kc.2 v end.

Section cleanup.
Context `{DateFallback}.

(** [None] stands for the error of [requireSafe], which is CONFIG whatever fails. *)
Definition parse_observation (d : dict json) : option (dict json) :=
  if forallb (required_property d) required_checks && forallb (checked_property d) observation_checks then
    let result := concat (map (fun k => present d k) (required_keys ++ map fst observation_checks))%list in
    match dict_get d "commandFailure" with
    | Some _ => c ← read_command d; Some (dict_spread result (diagnostic_json c))
    | None => if forallb (fun k => bool_decide (dict_get d k = None)) ["kubernetesReason"; "exitCode"; "processSignal"] then Some result else None
    end
  else None.

Definition parseCleanupObservation (value : json) : option (dict json) := json_obj value ≫= parse_observation.

(** ** Diagnostics *)
Inductive Collection : Type := Captured | Write_failed | Invalid_input.
Definition collections : list Collection := [Captured; Write_failed; Invalid_input].
Definition collection_name (c : Collection) : string :=
  match c with Captured => "captured" | Write_failed => "write-failed" | Invalid_input => "invalid" end.

Record CleanupDiagnostic : Type := {
  dg_runId : string;
  dg_ownerRunId : option string;
  dg_scope : string;
  dg_kind : ResourceKind;
  dg_state : ObservationState;
  dg_observations : Z;
  dg_omittedObservations : Z;
  dg_history : list (dict json);
  dg_firstFailure : option (dict json);
  dg_collection : Collection
}.

#[export] Instance ObservationState_eq_dec : EqDecision ObservationState.
Proof. solve_decision. Defined.
Definition observation_states : list ObservationState := [O_running; O_passed; O_failed].
Definition state_of (o : dict json) : option ObservationState := named state_text observation_states (dict_get o "state").

(** [/^reg-[0-9a-f-]{36}$/], [/^[a-f0-9]{64}$/] *)
Definition run_id (s : string) : bool :=
  startsWith "reg-" s && (String.length s =? 40)%nat && sforall (fun c => is_hex_lower c || Ascii.eqb c "-") (drop_str 4 s).
Definition fingerprint (s : string) : bool := (String.length s =? 64)%nat && sforall is_hex_lower s.

Definition diagnostic_object (g : CleanupDiagnostic) : dict json :=
  ([("version", JNum (Int 1)); ("runId", JStr (dg_runId g)); ("scope", JStr (dg_scope g)); ("kind", JStr (kind_name (dg_kind g)));
    ("state", JStr (state_text (dg_state g))); ("observations", JNum (Int (dg_observations g)));
    ("omittedObservations", JNum (Int (dg_omittedObservations g))); ("collection", JStr (collection_name (dg_collection g)));
    ("history", JArr (map JObj (dg_history g)))]
   ++ match dg_firstFailure g with Some o => [("firstFailure", JObj o)] | None => [] end
   ++ match dg_ownerRunId g with Some s => [("ownerRunId", JStr s)] | None => [] end)%list.

Definition json_arr (v : json) : option (list json) := match v with JArr l => Some l | _ => None end.

Definition parse_diagnostic (d : dict json) : option CleanupDiagnostic :=
  runId ← text_field d "runId"; scope ← text_field d "scope";
  kind ← named kind_name resource_kinds (dict_get d "kind");
  state ← named state_text observation_states (dict_get d "state");
  observations ← dict_get d "observations" ≫= integer_within 0 billion;
  omitted ← dict_get d "omittedObservations" ≫= integer_within 0 billion;
  raw ← dict_get d "history" ≫= json_arr;
  collection ← named collection_name collections (dict_get d "collection");
  owner ← optional json_str (dict_get d "ownerRunId");
  let first := match dict_get d "firstFailure" with Some v => if json_truthy v then Some v else None | None => None end in
  if version_one d && run_id runId && fingerprint scope && (1 <=? length raw)%nat && (length raw <=? 12)%nat &&
     (observations =? Z.of_nat (length raw) + omitted) && match owner with Some s => run_id s | None => true end &&
     bool_decide ((last raw ≫= fun v => json_obj v ≫= state_of) = Some state) &&
     match first with Some v => bool_decide ((json_obj v ≫= state_of) = Some O_failed) | None => true end
  then
    history ← mapM parseCleanupObservation raw;
    failure ← optional parseCleanupObservation first;
    Some {| dg_runId := runId; dg_ownerRunId := owner; dg_scope := scope; dg_kind := kind; dg_state := state;
            dg_observations := observations; dg_omittedObservations := omitted; dg_history := history;
            dg_firstFailure := failure; dg_collection := collection |}
  else None.

Definition parseCleanupDiagnostic (value : json) : option CleanupDiagnostic := json_obj value ≫= parse_diagnostic.
End cleanup.

(** ** CleanupRecorder *)

(** What [lstat] says of the file. *)
Inductive FileStat : Type := File_missing | File_unreadable | File_is (regular : bool).

Inductive recorderE : Type -> Type :=
| D_stat : recorderE FileStat
| D_read : recorderE (res exn string)
| D_write (d : dict json) : recorderE bool
| D_now : recorderE Z.

Record Recorder : Type := {
  rd_diagnostic : CleanupDiagnostic;
  rd_started : Z;
  rd_previous : string;
  rd_loaded : bool;
  rd_writable : bool;
  rd_epoch : nat;
  rd_retired : bool
}.

Definition DM := M recorderE Recorder exn.

(** Of [h('sha256')] only its use is modelled: the scope is a parameter. *)
Definition new_CleanupRecorder (runId scope : string) (kind : ResourceKind) (started : Z) : Recorder :=
  {| rd_diagnostic := {| dg_runId := runId; dg_ownerRunId := None; dg_scope := scope; dg_kind := kind; dg_state := O_running;
                         dg_observations := 0; dg_omittedObservations := 0; dg_history := []; dg_firstFailure := None;
                         dg_collection := Captured |};
     rd_started := started; rd_previous := ""; rd_loaded := false; rd_writable := true; rd_epoch := 0; rd_retired := false |}.

Definition with_diagnostic (g : CleanupDiagnostic) (r : Recorder) : Recorder :=
  {| rd_diagnostic := g; rd_started := rd_started r; rd_previous := rd_previous r; rd_loaded := rd_loaded r;
     rd_writable := rd_writable r; rd_epoch := rd_epoch r; rd_retired := rd_retired r |}.
Definition with_collection (c : Collection) (g : CleanupDiagnostic) : CleanupDiagnostic :=
  {| dg_runId := dg_runId g; dg_ownerRunId := dg_ownerRunId g; dg_scope := dg_scope g; dg_kind := dg_kind g; dg_state := dg_state g;
     dg_observations := dg_observations g; dg_omittedObservations := dg_omittedObservations g; dg_history := dg_history g;
     dg_firstFailure := dg_firstFailure g; dg_collection := c |}.
Definition collected (c : Collection) (r : Recorder) : Recorder := with_diagnostic (with_collection c (rd_diagnostic r)) r.
Definition with_epoch (epoch : nat) (retired : bool) (r : Recorder) : Recorder :=
  {| rd_diagnostic := rd_diagnostic r; rd_started := rd_started r; rd_previous := rd_previous r; rd_loaded := rd_loaded r;
     rd_writable := rd_writable r; rd_epoch := epoch; rd_retired := retired |}.
(** After the attempt to load: the diagnostic kept, where its clock starts, and whether it may be written. *)
Definition loaded_with (g : CleanupDiagnostic) (started : Z) (writable : bool) (r : Recorder) : Recorder :=
  {| rd_diagnostic := g; rd_started := started; rd_previous := rd_previous r; rd_loaded := true;
     rd_writable := writable; rd_epoch := rd_epoch r; rd_retired := rd_retired r |}.

Section recorder.
Context `{DateFallback}.

Definition snapshot (g : CleanupDiagnostic) : option CleanupDiagnostic :=
  match dg_history g with [] => None | _ => parse_diagnostic (diagnostic_object g) end.

(** The diagnostic left in the file by an earlier cleanup of the same entry. *)
Definition earlier (g : CleanupDiagnostic) (text : string) : option (CleanupDiagnostic * Z) :=
  v ← JSON_parse text; old ← parseCleanupDiagnostic v;
  if String.eqb (dg_scope old) (dg_scope g) && String.eqb (dg_runId old) (dg_runId g) && bool_decide (dg_kind old = dg_kind g) then
    first ← head (dg_history old); at_ ← text_field first "at"; started ← Date_parse at_; Some (old, started)
  else None.

Definition unreadable (r : Recorder) : Recorder :=
  loaded_with (with_collection Write_failed (rd_diagnostic r)) (rd_started r) false r.

Definition load_file : DM unit :=
  let! r := get in
  modify (loaded_with (rd_diagnostic r) (rd_started r) (rd_writable r)) ;;
  let! stat := await_ D_stat in
  match stat with
  | File_missing => mret tt
  | File_unreadable | File_is false => modify unreadable
  | File_is true =>
      let! text := await_ D_read in
      match text with
      | Ok text =>
          match earlier (rd_diagnostic r) text with
          | Some (old, started) => modify (fun r => loaded_with old started (rd_writable r) r)
          | None => modify unreadable
          end
      | Err _ => modify unreadable
      end
  end.

(** The observation replaced when it is not acceptable. *)
Definition invalid_observation (value : dict json) (time : dict json) : dict json :=
  (time ++ [("operation", match dict_get value "operation" with
                          | Some (JStr s) => if includes (map operation_name cleanupOperations) s then JStr s else JStr "guard"
                          | _ => JStr "guard"
                          end);
            ("state", JStr "failed"); ("reason", JStr "CONFIG"); ("stage", JStr "cleanup")])%list.

Definition observation_key (o : dict json) : string := stringify "" "" (JObj (dict_delete (dict_delete o "at") "elapsedMs")).

(** The diagnostic after an observation, and the key to compare the next one with. *)
Definition observed (o : dict json) (previous : string) (g : CleanupDiagnostic) : CleanupDiagnostic * string :=
  let key := observation_key o in
  let '(history, omitted, previous) :=
    if String.eqb key previous && (1 <? length (dg_history g))%nat then
      (<[(length (dg_history g) - 1)%nat := o]> (dg_history g), dg_omittedObservations g + 1, previous)
    else
      let history := (dg_history g ++ [o])%list in
      if (12 <? length history)%nat then (delete 1%nat history, dg_omittedObservations g + 1, key)
      else (history, dg_omittedObservations g, key) in
  let state := state_of o ?? O_running in
  ({| dg_runId := dg_runId g; dg_ownerRunId := dg_ownerRunId g; dg_scope := dg_scope g; dg_kind := dg_kind g;
      dg_state := state; dg_observations := dg_observations g + 1; dg_omittedObservations := omitted; dg_history := history;
      dg_firstFailure := if bool_decide (state = O_failed) then or_else (dg_firstFailure g) (Some o) else dg_firstFailure g;
      dg_collection := dg_collection g |}, previous).

Definition note_observation (o : dict json) (r : Recorder) : Recorder :=
  let '(g, previous) := observed o (rd_previous r) (rd_diagnostic r) in
  {| rd_diagnostic := g; rd_started := rd_started r; rd_previous := previous; rd_loaded := rd_loaded r;
     rd_writable := rd_writable r; rd_epoch := rd_epoch r; rd_retired := rd_retired r |}.

Definition stale (epoch : option nat) (r : Recorder) : bool :=
  match epoch with Some n => negb (Nat.eqb n (rd_epoch r)) || rd_retired r | None => false end.

(** Write the diagnostic, which must read back. *)
Definition write_snapshot : DM unit :=
  let! r := get in
  match snapshot (rd_diagnostic r) with
  | Some body =>
      when (rd_writable r) (
        let! written := await_ (D_write (diagnostic_object body)) in
        when (negb written) (modify (collected Write_failed)))
  | None => throw (harness CONFIG)
  end.

Definition add_observation (value time : dict json) : DM unit :=
  match parse_observation (dict_spread value time) with
  | Some o => modify (note_observation o)
  | None => modify (collected Invalid_input) ;; modify (note_observation (invalid_observation value time))
  end.

(** [record] once the file was looked at. *)
Definition record_now (value : dict json) (epoch : option nat) : DM unit :=
  let! r := get in
  if stale epoch r then mret tt
  else
    let! at_ := await_ D_now in
    let! now := await_ D_now in
    add_observation value [("at", JStr (toISOString at_)); ("elapsedMs", JNum (Int (Z.min billion (Z.max 0 (now - rd_started r)))))] ;;
    write_snapshot.

(** [record], for an observer of the epoch when one is given. *)
Definition record (value : dict json) (epoch : option nat) : DM unit :=
  let! r := get in
  when (negb (rd_loaded r)) load_file ;;
  record_now value epoch.

(** A new observer, which reports until a later one is made or the recorder is retired. *)
Definition begin_observer : DM nat :=
  let! r := get in modify (with_epoch (S (rd_epoch r)) false) ;; mret (S (rd_epoch r)).
Definition observe (epoch : nat) (value : dict json) : DM unit :=
  let! r := get in if stale (Some epoch) r then mret tt else record value (Some epoch).

Definition retire : DM unit := modify (fun r => with_epoch (rd_epoch r) true r).

Definition failure (operation : CleanupOperation) (e : exn) (command : option KubernetesCommandDiagnostic) : DM unit :=
  retire ;;
  let! r := get in
  let f := cleanupFailure operation e in
  record (dict_spread (last (dg_history (rd_diagnostic r)) ?? [])
            ([("operation", JStr (operation_name operation)); ("state", JStr "failed"); ("reason", JStr (reason_name (cf_reason f)))]
             ++ match command with Some c => diagnostic_json c | None => [] end
             ++ match cf_stage f with Some s => [("stage", JStr (stage_name s))] | None => [] end)%list) None.

Definition complete : DM unit := retire ;; record [("operation", JStr "persist"); ("state", JStr "passed")] None.

(** The calls a cleanup makes of its recorder. *)
Inductive recorder_call : Type :=
| R_begin
| R_observe (epoch : nat) (value : dict json)
| R_failure (operation : CleanupOperation) (e : exn) (command : option KubernetesCommandDiagnostic)
| R_complete.
Definition recorder_perform (c : recorder_call) : DM unit :=
  match c with
  | R_begin => begin_observer ;; mret tt
  | R_observe epoch value => observe epoch value
  | R_failure operation e command => failure operation e command
  | R_complete => complete
  end.
End recorder.

(** ** Reports *)
Section report.
Context `{DateFallback}.

(** The diagnostic as part of another run's trace. *)
Definition cleanupForTrace (value : CleanupDiagnostic) (runId : string) : option CleanupDiagnostic :=
  d ← parse_diagnostic (diagnostic_object value);
  if run_id runId then
    parse_diagnostic (diagnostic_object
      {| dg_runId := runId; dg_ownerRunId := if String.eqb (dg_runId d) runId then dg_ownerRunId d else Some (dg_ownerRunId d ?? dg_runId d);
         dg_scope := dg_scope d; dg_kind := dg_kind d; dg_state := dg_state d; dg_observations := dg_observations d;
         dg_omittedObservations := dg_omittedObservations d; dg_history := dg_history d; dg_firstFailure := dg_firstFailure d;
         dg_collection := dg_collection d |})
  else None.

Definition dot : string := String (unit_of 32) (String (unit_of 183) " ").

(** [${o.key}] *)
Definition text_of (o : dict json) (k : string) : string := match dict_get o k with Some v => String_of_json v | None => "undefined" end.
(** A part of the text when the property is there, for null, for a true and for a false value. *)
Definition tri (o : dict json) (k label null yes no : string) : string :=
  match dict_get o k with
  | Some JNull => dot +:+ label +:+ null
  | Some v => dot +:+ label +:+ if json_truthy v then yes else no
  | None => ""
  end.
Definition counted (o : dict json) (k label : string) : string :=
  match dict_get o k with
  | Some JNull => dot +:+ label +:+ "unknown"
  | Some v => dot +:+ label +:+ String_of_json v
  | None => ""
  end.
(** A part of the text when the property has a truthy value. *)
Definition said (o : dict json) (k label : string) : string :=
  match dict_get o k with Some v => if json_truthy v then dot +:+ label +:+ String_of_json v else "" | None => "" end.
Definition has_method (o : dict json) : bool := match dict_get o "method" with Some v => json_truthy v | None => false end.
Definition or_text (o : dict json) (k default : string) : string :=
  match dict_get o k with Some JNull | None => default | Some v => String_of_json v end.

Definition render (o : dict json) : string :=
  text_of o "operation" +:+ ": " +:+ text_of o "state" +:+ said o "reason" "" +:+ said o "stage" "" +:+ dot +:+ text_of o "elapsedMs" +:+ " ms" +:+
  match dict_get o "timeoutMs" with Some v => " / " +:+ String_of_json v +:+ " ms budget" | None => "" end +:+
  tri o "exists" "object " "unknown" "present" "absent" +:+
  tri o "uidMatches" "UID " "unknown" "matches" "changed" +:+
  tri o "generationMatches" "revision " "unknown" "matches" "changed" +:+
  match dict_get o "expectedGeneration" with Some v => dot +:+ "expected revision " +:+ String_of_json v | None => "" end +:+
  match dict_get o "observedGeneration" with Some v => dot +:+ "observed revision " +:+ String_of_json v | None => "" end +:+
  tri o "resourceVersionChanged" "resource version " "unknown" "changed" "unchanged" +:+
  tri o "intentMatches" "model intent " "unknown" "matches" "changed" +:+
  tri o "deleting" "deletion " "unknown" "in progress" "not marked" +:+
  counted o "podCount" "pods " +:+ counted o "catalogCount" "catalog " +:+
  (if has_method o then dot +:+ text_of o "method" +:+ " " +:+ or_text o "endpoint" "endpoint-unavailable" else "") +:+
  (if has_method o || bool_decide (is_Some (dict_get o "httpStatus")) then dot +:+ "HTTP " +:+ or_text o "httpStatus" "unknown" else "") +:+
  said o "kubernetesReason" "Kubernetes " +:+ said o "commandFailure" "command " +:+
  match dict_get o "exitCode" with Some v => dot +:+ "exit " +:+ String_of_json v | None => "" end +:+
  said o "processSignal" "signal " +:+
  match dict_get o "attempt" with Some v => dot +:+ "attempt " +:+ String_of_json v +:+ "/3" | None => "" end +:+
  tri o "retrying" "retry " "not scheduled" "after identity recheck" "not scheduled" +:+
  tri o "requestAttempted" "request " "not attempted" "attempted" "not attempted".

Definition cleanupDiagnosticText (value : CleanupDiagnostic) : option (list string) :=
  d ← parse_diagnostic (diagnostic_object value);
  latest ← last (dg_history d);
  Some (["Resource " +:+ kind_name (dg_kind d) +:+ dot +:+ "reference " +:+ take_str 12 (dg_scope d) +:+ dot +:+ state_text (dg_state d) +:+ dot +:+
           "capture " +:+ collection_name (dg_collection d)]
        ++ match dg_firstFailure d with Some o => ["First failure: " +:+ render o] | None => [] end
        ++ ["Last observation: " +:+ render latest] ++ map render (dg_history d)
        ++ [String_of_Z (dg_omittedObservations d) +:+ " repeated/older observations compacted."])%list.
End report.
