(* ===== verification/Preparation.v ===== *)
(** * The automatic preparation of a run (regression/core/preparation-diagnostic.ts)

    What the setup reports to the tests: a fixed vocabulary, never the text of a log. Texts
    are read as texts: a value of another kind is refused where the code would coerce it. *)

From S2P Require Import Prelude Js Number Json JsonParse Errors Evidence KubernetesCommand Journal CleanupDiagnostic.

Local Open Scope string_scope.
Local Open Scope js_scope.
Local Open Scope Z_scope.

Definition setupStages : list string :=
  ["request"; "tls"; "login"; "discovery"; "kubernetes-access"; "oidc-session"; "bootstrap-file"; "lab-bootstrap"; "run-recovery";
   "license-fixtures"; "license-validation"; "input-discovery"; "input-validation"; "input-acceptance"].
Definition setupDetails : list string :=
  ["ENOENT"; "EACCES"; "ENOSPC"; "TYPE_ERROR"; "SYNTAX_ERROR"; "ERR_FAILED"; "ERR_BLOCKED_BY_CLIENT"; "ERR_CONNECTION_REFUSED";
   "ERR_NAME_NOT_RESOLVED"; "ERR_CERT_AUTHORITY_INVALID"; "ERR_HTTP2_PROTOCOL_ERROR"; "ERR_MODULE_NOT_FOUND"; "MODULE_NOT_FOUND";
   "ERR_UNSUPPORTED_TYPESCRIPT_SYNTAX"].

(** [/^\[SETUP_STAGE:([a-z-]+)\](?: \[detail:([A-Z_0-9]+)\])?$/], with both names known. *)
Definition setupWorkerMarker (line : string) : option (string * option string) :=
  if startsWith "[SETUP_STAGE:" line then
    let '(stage, rest) := span (fun c => is_lower c || Ascii.eqb c "-") (drop_str 13 line) in
    if negb (includes setupStages stage) then None
    else if String.eqb rest "]" then Some (stage, None)
    else if startsWith "] [detail:" rest then
      let '(detail, rest) := span (fun c => is_upper c || is_digit c || Ascii.eqb c "_") (drop_str 10 rest) in
      if includes setupDetails detail && String.eqb rest "]" then Some (stage, Some detail) else None
    else None
  else None.

Inductive PreparationOutcome : Type := P_passed | P_failed | P_blocked.
#[export] Instance PreparationOutcome_eq_dec : EqDecision PreparationOutcome.
Proof. solve_decision. Defined.
Definition preparation_outcomes : list PreparationOutcome := [P_passed; P_failed; P_blocked].
Definition preparation_name (o : PreparationOutcome) : string := match o with P_passed => "Passed" | P_failed => "Failed" | P_blocked => "Blocked" end.

Record PreparationDiagnostic : Type := mk_preparation {
  pr_outcome : PreparationOutcome;
  pr_reason : option ReasonCode;
  pr_setupStage : option string;
  pr_detail : option string;
  pr_recoveredRunIds : option (list string)
}.

Definition known_text (l : list string) (v : option json) : option string :=
  match v with Some (JStr s) => if includes l s then Some s else None | _ => None end.
Definition recovered_ids (v : option json) : option (list string) :=
  ids ← base.mbind (mapM json_str) (base.mbind json_arr v);
  if (1 <=? length ids)%nat && (length ids <=? 64)%nat && forallb run_id ids then Some (unique ids) else None.

Definition read_outcome (d : dict json) : option (dict json * PreparationOutcome) :=
  o ← named preparation_name preparation_outcomes (dict_get d "outcome");
  if version_one d then Some (d, o) else None.

Definition parsePreparationDiagnostic (value : json) : res exn PreparationDiagnostic :=
  match base.mbind read_outcome (json_obj value) with
  | Some (d, o) => Ok (mk_preparation o (named reason_name all_reasons (dict_get d "reason")) (known_text setupStages (dict_get d "setupStage"))
                         (known_text setupDetails (dict_get d "detail")) (recovered_ids (dict_get d "recoveredRunIds")))
  | None => Err (harness CONFIG)
  end.

(** [/^\/private\/\.preparation-[a-zA-Z0-9]{6}$/] *)
Definition preparation_file (filename : string) : bool :=
  startsWith "/private/.preparation-" filename && (String.length filename =? 28)%nat && sforall is_alnum (drop_str 22 filename).

Definition plain_preparation (outcome : PreparationOutcome) (reason : ReasonCode) : PreparationDiagnostic :=
  mk_preparation outcome (Some reason) None None None.

(** The diagnostic the file holds. *)
Definition preparation_of (failed : string) (outcome : PreparationOutcome) (body : res exn string) : res exn PreparationDiagnostic :=
  res_bind body (fun text =>
  res_bind (match JSON_parse text with Some v => Ok v | None => Err (Foreign "JSON") end) (fun v =>
  res_bind (parsePreparationDiagnostic v) (fun d =>
  res_bind (requireSafe (bool_decide (pr_outcome d = if truthy failed then outcome else P_passed)) CONFIG) (fun _ => Ok d)))).

(** The environment names the file, which [read] reads. *)
Definition preparationDiagnostic (env : environment) (read : string -> res exn string) : option PreparationDiagnostic :=
  let failed := dict_get env "REGRESSION_PREPARATION_FAILED" ?? "" in
  let filename := dict_get env "REGRESSION_PREPARATION_DIAGNOSTIC" ?? "" in
  let outcome := if String.eqb failed "Failed" then P_failed else P_blocked in
  if negb (truthy failed) && negb (truthy filename) then None
  else if negb (truthy filename) then Some (plain_preparation outcome PREREQUISITE)
  else match (if preparation_file filename then preparation_of failed outcome (read filename) else Err (harness PRIVATE_FILE)) with
       | Ok d => Some d
       | Err _ => Some (plain_preparation P_failed CONFIG)
       end.

Definition requirePreparation (d : option PreparationDiagnostic) : res exn unit :=
  match d with
  | Some d =>
      match pr_outcome d with
      | P_passed => Ok tt
      | P_failed => Err (Harness (new_HarnessError PREPARATION_FAILED (Some Blocked) None None))
      | P_blocked => Err (Harness (new_HarnessError (pr_reason d ?? PREREQUISITE) (Some Blocked) None None))
      end
  | None => Ok tt
  end.

Definition preparationDescription (d : PreparationDiagnostic) : string :=
  "Automatic preparation: " +:+ preparation_name (pr_outcome d) +:+
  (if bool_decide (pr_outcome d = P_passed) then "" else " (" +:+ reason_name (pr_reason d ?? PREREQUISITE) +:+ ")") +:+
  match pr_setupStage d with Some s => "; setup stage: " +:+ s | None => "" end +:+
  match pr_detail d with Some s => "; detail: " +:+ s | None => "" end +:+ "." +:+
  match pr_recoveredRunIds d with
  | Some ids => if (1 <=? length ids)%nat
                then " Previous interrupted run automatically restored (" +:+ String_of_Z (Z.of_nat (length ids)) +:+ "); original test outcomes retained." else ""
  | None => ""
  end.
