(* ===== verification/Report.v ===== *)
(** * The report of a run (regression/core/report.ts, scenario-selection.ts)

    What was recorded is completed to the finite matrix of the selected mode, so that missing
    evidence shows; every row is checked and reduced to public values, and a run is accepted
    only when everything required is there and passed. The texts of the report files and the
    traces collected from disk are not modelled: the traces are an argument. *)

From S2P Require Import Prelude Js Number Json JsonParse Dates Errors Contracts KubernetesCommand Journal CleanupDiagnostic Blocking Evidence Profiles Preparation.

Local Open Scope string_scope.
Local Open Scope js_scope.
Local Open Scope Z_scope.

(** A case as it was recorded: read from files, so its words are texts. *)
Record CaseResult : Type := mk_case {
  cr_id : string;
  cr_outcome : string;
  cr_layer : string;
  cr_environment : option string;
  cr_durationMs : number;
  cr_reason : option string;
  cr_stage : option string;
  cr_variant : option string;
  cr_executionId : option string;
  cr_executionOutcome : option string;
  cr_traceRunId : option string;
  cr_recoveryRequired : bool;
  cr_blockedBy : option json;
  cr_causeReason : option string;
  cr_causeStage : option string;
  cr_cleanupDiagnostic : option json
}.

Definition evidence_of (c : CaseResult) : BlockingEvidence :=
  {| ev_id := cr_id c; ev_outcome := cr_outcome c; ev_reason := cr_reason c; ev_stage := cr_stage c; ev_executionId := cr_executionId c;
     ev_traceRunId := cr_traceRunId c; ev_executionOutcome := cr_executionOutcome c; ev_blockedBy := cr_blockedBy c |}.

(** [item.environment ?? environmentFor(item.layer)] *)
Definition case_environment (c : CaseResult) : string := cr_environment c ?? environmentFor (cr_layer c).

Definition needsRecovery (cases : list CaseResult) : bool :=
  existsb (fun c => cr_recoveryRequired c ||
    includes ["CLEANUP"; "OWNERSHIP"; "CONFLICT"; "LOCK_LOST"; "LOCK_STALE"; "RECOVERY"; "PROCESS_STATE"] (cr_reason c ?? "")) cases.

(** The case every known variant belongs to (non-destructive.ts has two per phase). *)
Definition nonDestructiveVariants : dict string :=
  concat (map (fun phase => [("p" +:+ phase +:+ "-non-destructive-tls", "HAR-01"); ("p" +:+ phase +:+ "-non-destructive-read", "HAR-02")])
            ["0"; "1"; "2"; "3"; "4"; "5"; "6"; "7"; "8"]).
Definition reportVariants : dict string :=
  let ids (d : dict VariantDefinition) : dict string := map (fun vd => (vd.1, vd_id vd.2)) d in
  foldl dict_spread phase0Variants
    [phase1Variants; nonDestructiveVariants; ids phase2Variants; ids phase3Variants; ids phase4Variants;
     map (fun vd => (vd.1, pd_id vd.2)) remainingVariants].

Definition terminalOutcome (o : string) : string :=
  if String.eqb o "Passed" then "Passed" else if includes ["Failed"; "Flaky"] o then "Failed" else "Blocked".
Definition with_outcome (o : string) (c : CaseResult) : CaseResult :=
  mk_case (cr_id c) o (cr_layer c) (cr_environment c) (cr_durationMs c) (cr_reason c) (cr_stage c) (cr_variant c) (cr_executionId c)
    (cr_executionOutcome c) (cr_traceRunId c) (cr_recoveryRequired c) (cr_blockedBy c) (cr_causeReason c) (cr_causeStage c) (cr_cleanupDiagnostic c).
Definition terminal (c : CaseResult) : CaseResult := with_outcome (terminalOutcome (cr_outcome c)) c.

(** ** Executions *)
Definition execution_result (prior : option string) (current : string) : string :=
  if bool_decide (prior = Some "Failed") || String.eqb current "Failed" then "Failed"
  else if bool_decide (prior = Some "Blocked") || String.eqb current "Blocked" then "Blocked" else "Passed".
Definition executions (cases : list CaseResult) : dict string :=
  foldl (fun acc c => match keep_if execution_pattern (cr_executionId c) with
                      | Some x => dict_set acc x (execution_result (dict_get acc x) (cr_executionOutcome c ?? terminalOutcome (cr_outcome c)))
                      | None => acc
                      end) [] cases.
(** The number of executions of an outcome. *)
Definition summarizeExecutions (cases : list CaseResult) (outcome : string) : nat :=
  length (List.filter (fun kv => String.eqb kv.2 outcome) (executions cases)).

(** ** Completion *)
Definition in_matrix (r : Requirement) (c : CaseResult) : bool :=
  String.eqb (cr_id c) (rq_id r) && bool_decide (cr_variant c = Some (rq_variant r)) && String.eqb (cr_layer c) (layer_name (rq_layer r)) &&
  String.eqb (case_environment c) (rq_environment r).

Definition diagnosticRequirements (p : DiagnosticSelection) : list Requirement :=
  List.filter (fun r => String.eqb (rq_environment r) "live" && includes (ds_caseIds p) (rq_id r) &&
                        match ds_variants p with Some vs => includes vs (rq_variant r) | None => true end)
    (if ds_phase p =? 2 then phase2Requirements else if ds_phase p =? 3 then phase3Requirements else phase4Requirements).

Definition is_limited (env : environment) : res exn bool :=
  res_bind (testMode (dict_get env "REGRESSION_TEST_MODE" ?? "full")) (fun m => Ok (bool_decide (m = RegressionTestMode_non_destructive))).

(** The matrix of the selected mode. *)
Definition mode_matrix (env : environment) (mode : option string) (limited : bool) (diagnostic : option DiagnosticSelection) : res exn (list Requirement) :=
  if limited then Ok []
  else if bool_decide (mode = Some "phase1") then Ok phase1Requirements
  else if bool_decide (mode = Some "phase2") then Ok phase2Requirements
  else match (if truthy (dict_get env "REGRESSION_SCENARIO_ID" ?? "") then None else diagnostic) with
       | Some p => Ok (diagnosticRequirements p)
       | None =>
           if bool_decide (mode = Some "phase3") then Ok (gpuRequirements 3)
           else if bool_decide (mode = Some "phase4") then Ok (gpuRequirements 4)
           else match mode, remainingPhase mode with
                | Some m, Some _ => res_bind (remainingRequirements env m None) (fun o => Ok (o ?? []))
                | _, _ => Ok []
                end
       end.

Section completion.
Context `{Catalogue}.

(** What was recorded, and how the completion was asked for. *)
Variables (cases : list CaseResult) (reason : string) (recoveryFenceAtStart : bool) (preparation : option PreparationDiagnostic).

Definition outcome_in (l : list string) (c : CaseResult) : bool := includes l (cr_outcome c).
Definition runner_failed (c : CaseResult) : bool :=
  String.eqb (cr_id c) "HAR-10" && bool_decide (cr_stage c = Some "runner-execution") && negb (String.eqb (cr_outcome c) "Passed").
Definition stored_or_from (c : CaseResult) : RegressionBlocker := recorded_blocker (evidence_of c) ?? blockerFrom (evidence_of c).

Definition missingCause (id : string) (variant : option string) : RegressionBlocker :=
  let peers := List.filter (fun c => if truthy (variant ?? "") then bool_decide (cr_variant c = variant) else String.eqb (cr_id c) id) cases in
  let root := or_else (find_first (outcome_in ["Failed"; "Flaky"]) peers)
                (or_else (find_first (outcome_in ["Blocked"]) peers) (find_first runner_failed cases)) in
  if String.eqb reason "PREREQUISITE" then
    match root with Some c => stored_or_from c | None => blocker unknown None end
  else blocker (regressionBlockedKind (Some reason)) (Some reason).

Definition har_blocker (id reason : string) (stage : option string) : RegressionBlocker := mk_RegressionBlocker failure (Some reason) (Some id) stage None None.

(** The reason and the cause of an absent cell, and whether its evidence is missing. *)
Definition absent (id : string) (variant : option string) (env : string) : string * RegressionBlocker * bool :=
  let cause := missingCause id variant in
  let is_unknown := String.eqb reason "PREREQUISITE" && bool_decide (RegressionBlocker_kind cause = unknown) in
  if String.eqb reason "PREREQUISITE" && bool_decide (RegressionBlocker_caseId cause = Some "HAR-10") &&
     bool_decide (RegressionBlocker_stage cause = Some "runner-execution") then ("DEPENDENCY", cause, false)
  else
    let prepared := match preparation with Some d => if bool_decide (pr_outcome d = P_passed) then None else Some d | None => None end in
    match (if String.eqb env "live" && is_unknown then prepared else None) with
    | Some d =>
        let root := reason_name (pr_reason d ?? PREREQUISITE) in
        if bool_decide (pr_outcome d = P_failed) then ("PREPARATION_FAILED", har_blocker "HAR-02" root None, false)
        else (root, blocker (regressionBlockedKind (Some root)) (Some root), false)
    | None =>
        match (if String.eqb env "live" && recoveryFenceAtStart && is_unknown
               then find_first (fun c => String.eqb (cr_outcome c) "Blocked" && bool_decide (cr_reason c = Some "RECOVERY")) cases else None) with
        | Some guard => ("RECOVERY", stored_or_from guard, false)
        | None => if is_unknown then ("DEPENDENCY", har_blocker "HAR-10" "MISSING_EVIDENCE" (Some "report-evidence"), true)
                  else (reason, cause, false)
        end
    end.

(** A row for evidence that is not there. *)
Definition synthesized (id : string) (variant : option string) (layer env outcome : string) (reason stage : option string)
    (blockedBy : option json) : CaseResult :=
  mk_case id outcome layer (Some env) (Int 0) reason stage variant None None None false blockedBy None None None.

(** The rows so far and the environments whose evidence is missing. *)
Definition Completion : Type := list CaseResult * list string.
Definition add_absent (id : string) (variant : option string) (layer env : string) (s : Completion) : Completion :=
  let '(r, b, missing) := absent id variant env in
  ((s.1 ++ [synthesized id variant layer env "Blocked" (Some r) None (Some (blocker_json b))])%list,
   if missing then unique (s.2 ++ [env])%list else s.2).
Definition unless (present : CaseResult -> bool) (add : Completion -> Completion) (s : Completion) : Completion :=
  if existsb present s.1 then s else add s.

Definition complete_matrix (matrix : list Requirement) (s : Completion) : Completion :=
  foldl (fun s r => unless (in_matrix r) (add_absent (rq_id r) (Some (rq_variant r)) (layer_name (rq_layer r)) (rq_environment r)) s) s matrix.

Definition has_fixture (id : string) (c : CaseResult) : bool := String.eqb (cr_id c) id && String.eqb (case_environment c) "fixture".
Definition has_live_variant (vid : string * string) (c : CaseResult) : bool :=
  String.eqb (cr_id c) vid.2 && bool_decide (cr_variant c = Some vid.1) && String.eqb (case_environment c) "live".
Definition complete_phase0 (s : Completion) : Completion :=
  let s := foldl (fun s id => unless (has_fixture id) (add_absent id None "U" "fixture") s) s phase0Ids in
  foldl (fun s vid => unless (has_live_variant vid) (add_absent vid.2 (Some vid.1) "A" "live") s) s phase0Variants.

Definition complete_required (required : list string) (s : Completion) : Completion :=
  foldl (fun s id => unless (fun c => String.eqb (cr_id c) id) (add_absent id None "A" "live") s) s required.

Definition missing_evidence (env : string) (c : CaseResult) : bool :=
  bool_decide (cr_reason c = Some "MISSING_EVIDENCE") && bool_decide (cr_environment c = Some env).
Definition add_missing_evidence (rows : list CaseResult) (env : string) : list CaseResult :=
  if existsb (missing_evidence env) rows then rows
  else (rows ++ [synthesized "HAR-10" None (if String.eqb env "live" then "A" else "U") env "Failed" (Some "MISSING_EVIDENCE") (Some "report-evidence") None])%list.

Definition completeCases (env : environment) (mode : option string) (required : list string) : res exn (list CaseResult) :=
  res_bind (is_limited env) (fun limited =>
  res_bind (diagnosticForMode env mode) (fun diagnostic =>
  res_bind (mode_matrix env mode limited diagnostic) (fun matrix =>
  let s := complete_matrix matrix (map terminal cases, []) in
  let s := if bool_decide (mode = Some "phase0") && negb limited then complete_phase0 s else s in
  let s := complete_required required s in
  Ok (foldl add_missing_evidence s.1 s.2)))).
End completion.

(** ** Refused and finished runs *)
Section guarded.
Context `{Catalogue}.

(** [/(?:-fast|-fixtures)$/] and [/^phase[0-8]$/] name no live step. *)
Definition live_step (mode : string) : bool :=
  negb (includes ["all"; "selftest"] mode) && negb (endsWith "-fast" mode || endsWith "-fixtures" mode) && negb (phase_mode "0" "8" mode).

Definition guarded_row (blockedBy : RegressionBlocker) (id : string) (variant : option string) (layer : string) : CaseResult :=
  synthesized id variant layer "live" "Blocked" (Some "RECOVERY") (Some "recovery-barrier") (Some (blocker_json blockedBy)).

Definition guardedLiveCases (env : environment) (mode : string) (required : list string) (cause : option json) : res exn (list CaseResult) :=
  res_bind (requireSafe (live_step mode) CONFIG) (fun _ =>
  res_bind (remainingRequirements env mode None) (fun matrix =>
  let inherited := base.mbind checkedBlocker cause in
  let blockedBy := match inherited with
                   | Some b => if bool_decide (RegressionBlocker_kind b = failure) then b else blocker failure (Some "RECOVERY")
                   | None => blocker failure (Some "RECOVERY")
                   end in
  let rows := map (fun r => guarded_row blockedBy (rq_id r) (Some (rq_variant r)) (layer_name (rq_layer r)))
                (List.filter (fun r => String.eqb (rq_environment r) "live" && includes required (rq_id r)) (matrix ?? [])) in
  Ok (foldl (fun rows id => if existsb (fun c => String.eqb (cr_id c) id) rows then rows else (rows ++ [guarded_row blockedBy id None "A"])%list)
        rows required))).
End guarded.

Definition reportExitCode (cases : list CaseResult) : Z :=
  if existsb (fun c => String.eqb (terminalOutcome (cr_outcome c)) "Failed") cases then 1
  else if (length cases =? 0)%nat || existsb (fun c => String.eqb (terminalOutcome (cr_outcome c)) "Blocked") cases then 2 else 0.

(** A teardown error after every case passed. *)
Definition stepCases (cases : list CaseResult) (exitCode : Z) (acceptable fixture : bool) : list CaseResult :=
  if ((exitCode =? 0) && acceptable) || existsb (fun c => negb (String.eqb (cr_outcome c) "Passed")) cases then cases
  else (cases ++ [synthesized "HAR-10" None (if fixture then "U" else "A") (if fixture then "fixture" else "live") "Failed" (Some "UNEXPECTED") None None])%list.

(** ** Summary *)
Definition outcomes : list string := ["Passed"; "Failed"; "Blocked"; "Skipped"; "Not run"; "Flaky"].
Definition case_passed (c : CaseResult) : bool := String.eqb (cr_outcome c) "Passed".

Record Summary : Type := mk_summary {
  sm_acceptable : bool;
  sm_required : nat;
  sm_selected : nat;
  sm_executed : nat;
  sm_counts : list (string * nat);
  sm_missing : list string
}.

Definition summarize (required : list string) (cases : list CaseResult) : Summary :=
  let missing := List.filter (fun id => negb (existsb (fun c => String.eqb (cr_id c) id) cases)) required in
  mk_summary ((0 <? length required)%nat && (0 <? length cases)%nat && bool_decide (missing = []) &&
              forallb (fun id => forallb case_passed (List.filter (fun c => String.eqb (cr_id c) id) cases)) required && forallb case_passed cases)
    (length required) (length cases) (length (List.filter (outcome_in ["Passed"; "Failed"; "Flaky"]) cases))
    (map (fun o => (o, length (List.filter (fun c => String.eqb (cr_outcome c) o) cases))) outcomes) missing.

(** ** The rows of a report *)
Definition cleanup_states : list RegressionCleanup_state_t :=
  [RegressionCleanup_state_t_unknown; RegressionCleanup_state_t_required; RegressionCleanup_state_t_running; RegressionCleanup_state_t_verified;
   RegressionCleanup_state_t_blocked].

(** cleanup-state.ts *)
Definition cleanupStatus `{DateFallback} (value : json) : option RegressionCleanup :=
  v ← json_obj value;
  state ← named literal_name cleanup_states (dict_get v "state");
  Some (mk_RegressionCleanup state
          (s ← text_field v "checkedAt"; if (String.length s <=? 80)%nat then toISOString <$> Date_parse s else None)
          (keep_if known_reason (text_field v "reason")) (keep_if known_stage (text_field v "stage"))).

(** What the report reads of a collected trace. *)
Record Trace : Type := mk_trace {
  tc_executionId : string;
  tc_runId : string;
  tc_cleanupDiagnostics : list CleanupDiagnostic
}.

Record RecoveryAttempt : Type := mk_attempt { ra_runId : string; ra_state : string; ra_reason : option string }.
Record Lifecycle : Type := mk_lifecycle {
  lf_recoveryFenceActive : bool;
  lf_recoveryAttempts : list RecoveryAttempt;
  lf_recoveryFenceAtStart : bool;
  lf_cleanup : option json
}.

(** A row: the public values of a case, and the cause that blocks it. *)
Record ReportRow : Type := mk_row {
  rr_case : CaseResult;
  rr_description : string;
  rr_blockedBy : option RegressionBlocker
}.

Section report.
Context `{Catalogue} `{DateFallback}.
(** The goal of a case in the public catalogue. *)
Variable caseDescription : string -> string.

Definition valid_case (c : CaseResult) : bool :=
  case_id (cr_id c) && includes outcomes (cr_outcome c) && includes (map layer_name testLayers) (cr_layer c) &&
  isFinite (cr_durationMs c) && num_leb (Int 0) (cr_durationMs c) &&
  includes ["fixture"; "live"] (case_environment c) &&
  (negb (includes ["U"; "C"; "B"; "A"; "E"] (cr_layer c)) || String.eqb (case_environment c) (environmentFor (cr_layer c))).

Definition row_reason (c : CaseResult) : option string :=
  or_else (keep_if known_reason (cr_reason c)) (if String.eqb (cr_outcome c) "Blocked" then Some "PREREQUISITE" else None).
Definition known_variant (id v : string) : bool := bool_decide (dict_get reportVariants v = Some id).
Definition row_execution (c : CaseResult) : option string := keep_if execution_pattern (cr_executionId c).

(** The cause a row starts from; those of other blocked rows are found below. *)
Definition row_blockedBy (env : environment) (prepared : option PreparationDiagnostic) (c : CaseResult) : option RegressionBlocker :=
  let blocked := String.eqb (cr_outcome c) "Blocked" in
  let live := String.eqb (case_environment c) "live" in
  let reason := row_reason c in
  let outcome := pr_outcome <$> prepared in
  let recorded := base.mbind checkedBlocker (cr_blockedBy c) in
  let inherited := recoveryCause (dict_get env cause_key) in
  if negb blocked then None
  else if live && bool_decide (outcome = Some P_failed) && includes ["PREPARATION_FAILED"; "PREREQUISITE"] (reason ?? "") then
    Some (public (har_blocker "HAR-02" (reason_name (base.mbind pr_reason prepared ?? PREPARATION_FAILED)) None))
  else if live && bool_decide (outcome = Some P_blocked) && bool_decide (reason = Some "PREREQUISITE") then
    let r := reason_name (base.mbind pr_reason prepared ?? PREREQUISITE) in
    Some (public (blocker (regressionBlockedKind (Some r)) (Some r)))
  else if bool_decide (reason = Some "RECOVERY") && bool_decide (is_Some recorded) then recorded
  else if bool_decide (reason = Some "RECOVERY") && bool_decide (is_Some inherited) then inherited
  else if bool_decide (is_Some recorded) then recorded
  else if bool_decide (reason = Some "PREREQUISITE") then Some (blocker prerequisite reason) else None.

(** The diagnostic of a row: none, or one that reads and belongs to the run of the case. *)
Definition row_cleanup (runId : string) (c : CaseResult) : res exn (option CleanupDiagnostic) :=
  match cr_cleanupDiagnostic c with
  | Some v =>
      if json_truthy v then
        match base.mbind parse_diagnostic (json_obj v) with
        | Some g => if String.eqb (dg_runId g) (cr_traceRunId c ?? runId) then Ok (Some g) else Err (harness CONFIG)
        | None => Err (harness CONFIG)
        end
      else Ok None
  | None => Ok None
  end.

Definition safe_row (env : environment) (prepared : option PreparationDiagnostic) (runId : string) (c : CaseResult) : res exn CaseResult :=
  res_bind (requireSafe (valid_case c) CONFIG) (fun _ =>
  res_bind (row_cleanup runId c) (fun cleanup =>
  Ok (mk_case (cr_id c) (cr_outcome c) (cr_layer c) (Some (case_environment c)) (num_max (Int 0) (num_round (cr_durationMs c)))
        (row_reason c) (keep_if known_stage (cr_stage c)) (keep_if (known_variant (cr_id c)) (cr_variant c)) (row_execution c)
        (if bool_decide (is_Some (row_execution c)) then keep_if (includes ["Passed"; "Failed"; "Blocked"]) (cr_executionOutcome c) else None)
        (if bool_decide (is_Some (row_execution c)) then keep_if trace_pattern (cr_traceRunId c) else None)
        (cr_recoveryRequired c) (blocker_json <$> row_blockedBy env prepared c)
        (keep_if known_reason (cr_causeReason c)) (keep_if known_stage (cr_causeStage c))
        ((fun g => JObj (diagnostic_object g)) <$> cleanup)))).

(** The cleanup observations of a failed execution, when the row has none. *)
Definition with_cleanup (c : CaseResult) (g : CleanupDiagnostic) : CaseResult :=
  mk_case (cr_id c) (cr_outcome c) (cr_layer c) (cr_environment c) (cr_durationMs c) (cr_reason c) (cr_stage c) (cr_variant c) (cr_executionId c)
    (cr_executionOutcome c) (cr_traceRunId c) (cr_recoveryRequired c) (cr_blockedBy c) (cr_causeReason c) (cr_causeStage c) (Some (JObj (diagnostic_object g))).
Definition trace_diagnostic (t : Trace) : option CleanupDiagnostic :=
  let in_state (st : ObservationState) := find_first (fun g => bool_decide (dg_state g = st)) (tc_cleanupDiagnostics t) in
  or_else (in_state O_failed) (in_state O_running).
Definition attach (t : Trace) (r : ReportRow) : res exn ReportRow :=
  let c := rr_case r in
  if String.eqb (cr_outcome c) "Failed" && bool_decide (cr_executionId c = Some (tc_executionId t)) && bool_decide (cr_traceRunId c = Some (tc_runId t)) &&
     bool_decide (cr_cleanupDiagnostic c = None) then
    match trace_diagnostic t with
    | Some d => match parse_diagnostic (diagnostic_object d) with
                | Some g => Ok (mk_row (with_cleanup c g) (rr_description r) (rr_blockedBy r))
                | None => Err (harness CONFIG)
                end
    | None => Ok r
    end
  else Ok r.
Fixpoint attach_all (traces : list Trace) (rows : list ReportRow) : res exn (list ReportRow) :=
  match traces with
  | [] => Ok rows
  | t :: traces' => res_bind (res_map (attach t) rows) (attach_all traces')
  end.

Definition report_rows (rows : list CaseResult) : list ReportRow :=
  map (fun cr : CaseResult * Resolved => mk_row cr.1 (caseDescription (cr_id cr.1)) cr.2.2) (combine rows (withBlockedCauses (map evidence_of rows))).

(** What coverage and the summary read of a row. *)
Definition recorded_of (c : CaseResult) : Recorded := mk_recorded (cr_id c) (cr_variant c) (cr_layer c) (cr_environment c) (cr_outcome c).
(** A row as a case, with the cause it was given. *)
Definition row_case (r : ReportRow) : CaseResult :=
  let c := rr_case r in
  mk_case (cr_id c) (cr_outcome c) (cr_layer c) (cr_environment c) (cr_durationMs c) (cr_reason c) (cr_stage c) (cr_variant c) (cr_executionId c)
    (cr_executionOutcome c) (cr_traceRunId c) (cr_recoveryRequired c) (blocker_json <$> rr_blockedBy r) (cr_causeReason c) (cr_causeStage c)
    (cr_cleanupDiagnostic c).

Definition checked_attempt (a : RecoveryAttempt) : res exn RecoveryAttempt :=
  res_bind (requireSafe (run_id (ra_runId a) && includes ["restored"; "blocked"] (ra_state a)) CONFIG) (fun _ =>
  Ok (mk_attempt (ra_runId a) (ra_state a) (keep_if known_reason (ra_reason a)))).

Definition selection_phases (env : environment) (mode : string) : list number :=
  if phase_mode "0" "8" mode then [Number_of_string (drop_str 5 mode)]
  else if String.eqb mode "phase5-live" then [Int 5]
  else if String.eqb mode "all" then map Number_of_string (split "," (dict_get env "REGRESSION_PHASES" ?? "0,1,2,3,4,5,6,7,8"))
  else [].

(** The conditions the phases add to the summary. *)
Definition phase_complete (mode : option string) (cases : list Recorded) : bool :=
  let needs (m : string) (c : Coverage) := negb (bool_decide (mode = Some m)) || cv_complete c in
  needs "phase0" (phase0Coverage cases) && needs "phase1" (phase1Coverage cases) && needs "phase2" (phase2Coverage cases) &&
  needs "phase3" (gpuCoverage 3 cases) && needs "phase4" (gpuCoverage 4 cases).

Definition open_gates (limited : bool) (mode : string) (later : option Coverage) (deferred : list string) : list string :=
  ((if limited then []
    else match later with
         | Some c => unique (map (fun r => rq_id r +:+ "/" +:+ layer_name (rq_layer r) +:+ ": " +:+ (rq_gate r ?? rq_set r) +:+ " evidence required") (cv_missingLayers c))
         | None => if startsWith "phase4" mode then ["BOOT-04: separately authorized live driver restart/CDI recovery"]
                   else if startsWith "phase3" mode then ["Intel: unavailable lab hardware"] else []
         end) ++ deferred)%list.

Record Report : Type := mk_report {
  rp_summary : Summary;
  rp_rows : list ReportRow;
  rp_sourceRevision : string;
  rp_excludedSteps : list string;
  rp_executionCounts : list (string * nat);
  rp_blockedCounts : RegressionBlockedCounts;
  rp_executionBlockedCounts : RegressionBlockedCounts;
  rp_recoveryFenceActive : bool;
  rp_recoveryAttempts : list RecoveryAttempt;
  rp_cleanup : option RegressionCleanup;
  rp_fullPhase0Accepted : bool;
  rp_fullPhase1Accepted : bool;
  rp_fullPhase2Accepted : bool;
  rp_fullPhase3Accepted : bool;
  rp_installedPhase4Accepted : bool;
  rp_fullPhase4Accepted : bool;
  rp_remainingAcceptance : list (Z * bool);
  rp_openGates : list string
}.

Definition later_coverage (env : environment) (mode : option string) (limited : bool) (cases : list Recorded) : res exn (option Coverage) :=
  match mode, (if limited then None else remainingPhase mode) with
  | Some m, Some _ => res_bind (remainingCoverage env m cases) (fun c => Ok (Some c))
  | _, _ => Ok None
  end.

(** The report of the checked rows. *)
Definition conclude (env : environment) (mode : option string) (required : list string) (sourceRevision : string) (lifecycle : option Lifecycle)
    (limited : bool) (rows : list ReportRow) : res exn Report :=
  let phases := selection_phases env (mode ?? "") in
  let cases := map row_case rows in
  let recorded := map recorded_of cases in
  let cleanup := base.mbind cleanupStatus (base.mbind lf_cleanup lifecycle) in
  let fence := if limited then false
               else match cleanup with
                    | Some c => negb (bool_decide (RegressionCleanup_state c = RegressionCleanup_state_t_verified))
                    | None => match lifecycle with Some l => lf_recoveryFenceActive l | None => needsRecovery cases end
                    end in
  res_bind (excludedSteps (if limited then RegressionTestMode_non_destructive else RegressionTestMode_full) phases) (fun omitted =>
  res_bind (res_map checked_attempt (match lifecycle with Some l => lf_recoveryAttempts l | None => [] end)) (fun attempts =>
  res_bind (later_coverage env mode limited recorded) (fun later =>
  let selected := summarize required cases in
  let acceptable :=
    sm_acceptable selected && negb fence && (summarizeExecutions cases "Failed" =? 0)%nat && (summarizeExecutions cases "Blocked" =? 0)%nat &&
    (limited || phase_complete mode recorded) && match later with Some c => cv_complete c | None => true end in
  let accepted (m : string) (c : Coverage) := negb limited && bool_decide (mode = Some m) && acceptable && cv_complete c in
  let deferred := deferredApplicationSteps phases in
  Ok {| rp_summary := mk_summary acceptable (sm_required selected) (sm_selected selected) (sm_executed selected) (sm_counts selected) (sm_missing selected);
        rp_rows := rows;
        rp_sourceRevision :=
          if (40 <=? String.length sourceRevision)%nat && (String.length sourceRevision <=? 64)%nat && sforall is_hex_lower sourceRevision
          then sourceRevision else "unknown";
        rp_excludedSteps := omitted;
        rp_executionCounts := map (fun o => (o, summarizeExecutions cases o)) ["Passed"; "Failed"; "Blocked"];
        rp_blockedCounts := blockedCounts (map evidence_of cases) false;
        rp_executionBlockedCounts := blockedCounts (map evidence_of cases) true;
        rp_recoveryFenceActive := fence;
        rp_recoveryAttempts := attempts;
        rp_cleanup := cleanup;
        rp_fullPhase0Accepted := accepted "phase0" (phase0Coverage recorded);
        rp_fullPhase1Accepted := accepted "phase1" (phase1Coverage recorded);
        rp_fullPhase2Accepted := accepted "phase2" (phase2Coverage recorded);
        rp_fullPhase3Accepted := accepted "phase3" (gpuCoverage 3 recorded);
        rp_installedPhase4Accepted := accepted "phase4" (gpuCoverage 4 recorded);
        rp_fullPhase4Accepted := false;
        rp_remainingAcceptance :=
          map (fun phase => (phase, negb limited && bool_decide (mode = Some ("phase" +:+ String_of_Z phase)) && acceptable &&
                                    match later with Some c => cv_complete c | None => false end &&
                                    negb ((phase =? 5) && (0 <? length deferred)%nat))) [5; 6; 7; 8];
        rp_openGates := open_gates limited (mode ?? "") later deferred |}))).

(** Everything the report decides; its files are written from the result. *)
Definition saveReport (env : environment) (runId : string) (cases : list CaseResult) (required : list string) (sourceRevision : string)
    (mode : option string) (prepared : option PreparationDiagnostic) (lifecycle : option Lifecycle) (traces : list Trace) : res exn Report :=
  res_bind (requireSafe (run_id runId) CONFIG) (fun _ =>
  res_bind (is_limited env) (fun limited =>
  res_bind (completeCases cases "PREREQUISITE" (match lifecycle with Some l => lf_recoveryFenceAtStart l | None => false end) prepared env mode required) (fun completed =>
  res_bind (res_map (safe_row env prepared runId) completed) (fun safe =>
  res_bind (attach_all traces (report_rows safe)) (fun rows =>
  conclude env mode required sourceRevision lifecycle limited rows))))).
End report.
