(* ===== verification/Rely.v ===== *)
(** * Programs among other programs

    A program whose operations act on a shared world while others change it between its steps:
    [rely] says what the others keep, [perform] what an operation may do. [holds] is its
    weakest precondition, with an invariant of the world after every step of anyone;
    [holds_steps] carries it to every interleaving. [triple] is a Hoare logic of methods whose
    assertions the others do not invalidate. *)

From stdpp Require Import relations.
From S2P Require Import Prelude Prog.

Section rely.
Context {E : Type -> Type} {G : Type}.
Context (rely : G -> G -> Prop) (perform : forall X, G -> E X -> X -> G -> Prop) (inv : G -> Prop).
Context `{!PreOrder rely} (inv_rely : forall g g', inv g -> rely g g' -> inv g').

(** A step of the program, or of the others. *)
Inductive shared_step {A} : G * prog E A -> G * prog E A -> Prop :=
| own_step X (op : E X) k g x g' : perform X g op x g' -> shared_step (g, Await op k) (g', k x)
| other_step p g g' : rely g g' -> shared_step (g, p) (g', p).

Fixpoint holds {A} (p : prog E A) (g : G) (Q : G -> A -> Prop) : Prop :=
  inv g /\
  match p with
  | Done a => forall g', rely g g' -> Q g' a
  | Await op k => forall g1 x g', rely g g1 -> perform _ g1 op x g' -> holds (k x) g' Q
  end.

Lemma holds_inv {A} (p : prog E A) g Q : holds p g Q -> inv g.
Proof. by destruct p; intros [? _]. Qed.

Lemma holds_mono {A} (p : prog E A) g (Q Q' : G -> A -> Prop) : (forall g' a, Q g' a -> Q' g' a) -> holds p g Q -> holds p g Q'.
Proof.
  intros HQ. revert g. induction p as [a|X op k IH]; intros g [Hi Hk]; (split; [done|]); eauto.
Qed.

Lemma holds_bind {A B} (p : prog E A) (f : A -> prog E B) g Q : holds p g (fun g' a => holds (f a) g' Q) -> holds (pbind p f) g Q.
Proof using PreOrder0.
  revert g. induction p as [a|X op k IH]; intros g [Hi Hk]; [by apply Hk|]. cbn. split; [done|]. eauto.
Qed.

Lemma holds_steps {A} (p q : prog E A) g g' Q : rtc shared_step (g, p) (g', q) -> holds p g Q -> holds q g' Q.
Proof using All.
  intros Hs. remember (g, p) as c eqn:Hc. remember (g', q) as c' eqn:Hc'. revert g p g' q Hc Hc'.
  induction Hs as [c|c1 c2 c3 Hs _ IH]; intros g p g' q -> Hc'; [by injection Hc' as -> ->|]. intros Hp.
  inversion Hs as [X op k ? x g2 Hperf Ha Hb|p' ? g2 Hr Ha Hb]; subst.
  - apply (IH g2 (k x) g' q); [done | done|]. destruct Hp as [_ Hk]. by apply (Hk g).
  - apply (IH g2 p g' q); [done | done|]. destruct p as [a|X op k]; destruct Hp as [Hi Hk]; (split; [by eapply inv_rely|]).
    + intros g1 Hr1. apply Hk. by etrans.
    + intros g1 x g1' Hr1 Hperf. apply (Hk g1); [by etrans | done].
Qed.

(** ** Triples *)

(** An assertion that lasts and implies the invariant. *)
Definition lasting (P : G -> Prop) : Prop := (forall g g', P g -> rely g g' -> P g') /\ (forall g, P g -> inv g).

Context {X : Type}.
Definition triple {A} (P : G -> Prop) (m : M E unit X A) (Q : res X A -> G -> Prop) : Prop :=
  forall s g, P g -> holds (m s) g (fun g' o => Q o.2 g').

Lemma triple_weaken {A} (P P' : G -> Prop) (m : M E unit X A) (Q Q' : res X A -> G -> Prop) :
  (forall g, P' g -> P g) -> (forall r g, Q r g -> Q' r g) -> triple P m Q -> triple P' m Q'.
Proof. intros HP HQ Hm s g Hg. eapply holds_mono; [|by apply Hm, HP]. intros g' o. apply HQ. Qed.

Lemma triple_done {A} P (r : res X A) Q : lasting P -> (forall g, P g -> Q r g) -> triple P (of_res r) Q.
Proof. intros [Hs Hi] HQ s g Hg. split; [by apply Hi|]. intros g' Hr. apply HQ. by eapply Hs. Qed.
Lemma triple_ret {A} P (a : A) Q : lasting P -> (forall g, P g -> Q (Ok a) g) -> triple P (mret a) Q.
Proof. apply (triple_done P (Ok a)). Qed.
Lemma triple_throw {A} P e (Q : res X A -> G -> Prop) : lasting P -> (forall g, P g -> Q (Err e) g) -> triple P (throw e) Q.
Proof. apply (triple_done P (Err e)). Qed.

Lemma triple_bind {A B} P (m : M E unit X A) (f : A -> M E unit X B) R Q :
  triple P m R -> (forall e, lasting (R (Err e))) -> (forall a, triple (R (Ok a)) (f a) Q) -> (forall e g, R (Err e) g -> Q (Err e) g) ->
  triple P (mbind m f) Q.
Proof using PreOrder0.
  intros Hm HR Hf He s g Hg. unfold mbind. apply holds_bind. eapply holds_mono; [|by apply Hm]. intros g' [s' [a|e]] Ho; cbn in *; [by apply Hf|].
  destruct (HR e) as [Hs Hi]. split; [by apply Hi|]. intros g2 Hr. apply He. by eapply Hs.
Qed.

Lemma triple_await {A} P (op : E (res X A)) Q : lasting P -> (forall r, lasting (Q r)) ->
  (forall g r g', P g -> perform _ g op r g' -> Q r g') -> triple P (await op) Q.
Proof.
  intros [Hs Hi] HQ Hop s g Hg. split; [by apply Hi|]. intros g1 r g' Hr Hp. destruct (HQ r) as [Hqs Hqi].
  assert (Hq : Q r g') by (eapply Hop; [eapply Hs; eauto | exact Hp]). split; [by apply Hqi|]. intros g2 Hr2. by eapply Hqs.
Qed.
Lemma triple_await_ {A} P (op : E A) (Q : res X A -> G -> Prop) : lasting P -> (forall r, lasting (Q r)) ->
  (forall g a g', P g -> perform _ g op a g' -> Q (Ok a) g') -> triple P (await_ op) Q.
Proof.
  intros [Hs Hi] HQ Hop s g Hg. split; [by apply Hi|]. intros g1 r g' Hr Hp. destruct (HQ (Ok r)) as [Hqs Hqi].
  assert (Hq : Q (Ok r) g') by (eapply Hop; [eapply Hs; eauto | exact Hp]). split; [by apply Hqi|]. intros g2 Hr2. by eapply Hqs.
Qed.

Lemma triple_try {A} P (m : M E unit X A) h R Q : triple P m R -> (forall a, lasting (R (Ok a))) -> (forall a g, R (Ok a) g -> Q (Ok a) g) ->
  (forall e, triple (R (Err e)) (h e) Q) -> triple P (try_catch m h) Q.
Proof using PreOrder0.
  intros Hm HR Ha Hh s g Hg. unfold try_catch. apply holds_bind. eapply holds_mono; [|by apply Hm]. intros g' [s' [a|e]] Ho; cbn in *; [|by apply Hh].
  destruct (HR a) as [Hs Hi]. split; [by apply Hi|]. intros g2 Hr. apply Ha. by eapply Hs.
Qed.

(** The finalizer runs in whatever the body left; its own failure replaces the outcome. *)
Lemma triple_finally {A} P (m : M E unit X A) f R (Q : res X A -> G -> Prop) : triple P m R ->
  (forall r, triple (R r) f (fun r' g => match r' with Ok _ => Q r g | Err e => Q (Err e) g end)) -> (forall r, lasting (Q r)) ->
  triple P (try_finally m f) Q.
Proof using PreOrder0.
  intros Hm Hf HQ s g Hg. unfold try_finally. apply holds_bind. eapply holds_mono; [|by apply Hm]. intros g' [s' r] Ho; cbn in *.
  apply holds_bind. eapply holds_mono; [|by apply Hf]. intros g2 [s2 [[]|e]] Hq; cbn in *.
  - destruct (HQ r) as [Hs Hi]. split; [by apply Hi|]. intros g3 Hr. by eapply Hs.
  - destruct (HQ (Err e)) as [Hs Hi]. split; [by apply Hi|]. intros g3 Hr. by eapply Hs.
Qed.

(** ** The operations of a program, whatever the answers *)
Fixpoint all_ops {A} (ok : forall X, E X -> Prop) (p : prog E A) : Prop :=
  match p with Done _ => True | Await op k => ok _ op /\ forall x, all_ops ok (k x) end.

Lemma all_ops_bind {A B} ok (p : prog E A) (f : A -> prog E B) : all_ops ok p -> (forall a, all_ops ok (f a)) -> all_ops ok (pbind p f).
Proof. intros Hp Hf. induction p as [a|Y op k IH]; [apply Hf|]. destruct Hp as [Ho Hk]. cbn. split; [done|]. intros x. by apply IH. Qed.
Lemma all_ops_steps {A} ok (p q : prog E A) g g' : rtc shared_step (g, p) (g', q) -> all_ops ok p -> all_ops ok q.
Proof.
  intros Hs. remember (g, p) as c eqn:Hc. remember (g', q) as c' eqn:Hc'. revert g p g' q Hc Hc'.
  induction Hs as [c|c1 c2 c3 Hs _ IH]; intros g p g' q -> Hc'; [by injection Hc' as -> ->|]. intros Hp.
  inversion Hs as [Y op k ? x g2 Hperf Ha Hb|p' ? g2 Hr Ha Hb]; subst; (eapply IH; [done | done|]); [apply Hp | done].
Qed.

Definition all_opsM {A} ok (m : M E unit X A) : Prop := forall s, all_ops ok (m s).
Lemma all_opsM_bind {A B} ok (m : M E unit X A) (f : A -> M E unit X B) : all_opsM ok m -> (forall a, all_opsM ok (f a)) -> all_opsM ok (mbind m f).
Proof. intros Hm Hf s. apply all_ops_bind; [apply Hm|]. intros [s' [a|e]]; [apply Hf | done]. Qed.
Lemma all_opsM_try {A} ok (m : M E unit X A) h : all_opsM ok m -> (forall e, all_opsM ok (h e)) -> all_opsM ok (try_catch m h).
Proof. intros Hm Hh s. apply all_ops_bind; [apply Hm|]. intros [s' [a|e]]; [done | apply Hh]. Qed.
Lemma all_opsM_finally {A} ok (m : M E unit X A) f : all_opsM ok m -> all_opsM ok f -> all_opsM ok (try_finally m f).
Proof. intros Hm Hf s. apply all_ops_bind; [apply Hm|]. intros [s' r]. apply all_ops_bind; [apply Hf|]. by intros [s2 [[]|e]]. Qed.
Lemma all_opsM_res {A} ok (r : res X A) : all_opsM ok (of_res r).
Proof. by intros s. Qed.
Lemma all_opsM_await {A} (ok : forall X, E X -> Prop) (op : E (res X A)) : ok _ op -> all_opsM ok (await op).
Proof. by intros Hop s. Qed.
Lemma all_opsM_await_ {A} (ok : forall X, E X -> Prop) (op : E A) : ok _ op -> all_opsM ok (await_ op).
Proof. by intros Hop s. Qed.
End rely.

(** A step of the program alone. *)
Notation own := (fun _ _ => False).
Lemma own_rtc {E : Type -> Type} {G A} (rely : G -> G -> Prop) (perform : forall X, G -> E X -> X -> G -> Prop) Y (op : E Y) (k : Y -> prog E A) g x g' c :
  perform Y g op x g' -> rtc (shared_step rely perform) (g', k x) c -> rtc (shared_step rely perform) (g, Await op k) c.
Proof. intros Hp. apply rtc_l. by constructor. Qed.
