(* ===== verification/PrivateFiles.v ===== *)
(** * Private files (regression/core/private-files.ts)

    Journals, receipts and reports are written to a temporary file, synchronized, moved over
    their name and the directory synchronized, so that a crash leaves the old file or the new
    one. The operations of node:fs/promises are an effect; the file system is [Disk], where a
    name has the versions a crash may bring back. *)

From S2P Require Import Prelude Js Number Json Prog Errors Journal.

Local Open Scope string_scope.
Local Open Scope js_scope.
Local Open Scope Z_scope.

(** ** Paths (of POSIX, normalized) *)
Fixpoint last_slash (s : string) (i : nat) (found : option nat) : option nat :=
  match s with
  | "" => found
  | String c s' => last_slash s' (S i) (if Ascii.eqb c "/" then Some i else found)
  end.
Definition dirname (path : string) : string :=
  match last_slash path 0 None with None => "." | Some 0%nat => "/" | Some n => take_str n path end.
Definition path_join (dir name : string) : string :=
  if String.eqb dir "/" then "/" +:+ name else if String.eqb dir "." then name else dir +:+ "/" +:+ name.

(** ** The operations *)

(** [Stat_link] stands for everything that is neither a regular file nor a directory. *)
Inductive Stat : Type :=
| Stat_file (mode size : Z)
| Stat_directory (mode : Z)
| Stat_link.

Inductive fileE : Type -> Type :=
| F_mkdir (path : string) : fileE (res exn unit)
| F_lstat (path : string) : fileE (res exn Stat)
| F_uuid : fileE string
| F_create (path : string) : fileE (res exn nat)
| F_write (handle : nat) (text : string) : fileE (res exn unit)
| F_sync (handle : nat) : fileE (res exn unit)
| F_close (handle : nat) : fileE (res exn unit)
| F_link (from to : string) : fileE (res exn unit)
| F_rename (from to : string) : fileE (res exn unit)
| F_open_directory (path : string) : fileE (res exn unit)
| F_sync_directory (path : string) : fileE (res exn unit)
| F_close_directory (path : string) : fileE (res exn unit)
| F_rm (path : string) : fileE (res exn unit)
| F_open (path : string) : fileE (res exn nat)
| F_stat (handle : nat) : fileE (res exn Stat)
| F_read (handle : nat) : fileE (res exn string)
| F_mkdtemp : fileE (res exn string)
| F_rm_all (path : string) : fileE (res exn unit).

Notation FM := (M fileE unit exn).

(** [(mode & 0o077) === 0] *)
Definition private_mode (mode : Z) : bool := Z.land mode 63 =? 0.

(** A system error, whose message is its code here. *)
Definition is_missing (e : exn) : bool := bool_decide (e = Foreign "ENOENT").
(** Anything but a HarnessError becomes PRIVATE_FILE. *)
Definition private_error {A} (e : exn) : FM A := match e with Harness _ => throw e | Foreign _ => throw (harness PRIVATE_FILE) end.

Definition privateDirectory (path : string) : FM unit :=
  await (F_mkdir path) ;;
  let! stat := await (F_lstat path) in
  requireSafeM (match stat with Stat_directory mode => private_mode mode | _ => false end) PRIVATE_FILE.

Definition readable_stat (maxBytes : Z) (stat : Stat) : bool :=
  match stat with Stat_file mode size => private_mode mode && (size <=? maxBytes) | _ => false end.
Definition readPrivate (path : string) (maxBytes : number) : FM string :=
  match maxBytes with
  | Int n =>
      requireSafeM ((0 <? n) && (n <=? 8388608)) PRIVATE_FILE ;;
      let! handle := try_catch (await (F_open path)) private_error in
      try_finally
        (try_catch (let! stat := await (F_stat handle) in requireSafeM (readable_stat n stat) PRIVATE_FILE ;; await (F_read handle)) private_error)
        (await (F_close handle))
  | _ => throw (harness PRIVATE_FILE)
  end.

(** The text of a value. *)
Definition body_of (value : json) : string := match value with JStr s => s | _ => stringify "  " "" value +:+ String (unit_of 10) "" end.
Definition temporary_of (path u : string) : string := path_join (dirname path) (".write-" +:+ u).

(** Writing the temporary file and moving it over the name. *)
Definition write_temporary (temporary text : string) : FM unit :=
  let! handle := await (F_create temporary) in
  try_finally (await (F_write handle text) ;; await (F_sync handle)) (await (F_close handle)).
Definition sync_directory (path : string) : FM unit :=
  await (F_open_directory path) ;; try_finally (await (F_sync_directory path)) (await (F_close_directory path)).
Definition replace (path temporary text : string) (exclusive : bool) : FM unit :=
  write_temporary temporary text ;;
  (if exclusive then await (F_link temporary path) else await (F_rename temporary path)) ;;
  sync_directory (dirname path).

Definition may_replace (path : string) (exclusive : bool) : FM unit :=
  try_catch (let! previous := await (F_lstat path) in
             requireSafeM (negb exclusive && match previous with Stat_file _ _ => true | _ => false end) PRIVATE_FILE)
    (fun e => if is_missing e then mret tt else throw e).

Definition writePrivate (path : string) (value : json) (exclusive : bool) : FM unit :=
  privateDirectory (dirname path) ;;
  may_replace path exclusive ;;
  let! u := await_ F_uuid in
  try_finally (try_catch (replace path (temporary_of path u) (body_of value) exclusive) private_error) (await (F_rm (temporary_of path u))).

Definition withPrivateCommandInput {A} (value : json) (action : string -> FM A) : FM A :=
  let! directory := await F_mkdtemp in
  try_finally (writePrivate (path_join directory "input.json") value true ;; action (path_join directory "input.json")) (await (F_rm_all directory)).

(** ** The file system *)
Inductive Node : Type :=
| Directory (mode : Z)
| File (mode : Z) (inode : nat)
| Symlink.

(** The versions of a name since its directory was last synchronized: the first is on disk, the
    last is the current one, and a crash leaves any of them. [data] is the content of a file,
    [on_disk] what a crash leaves of it; neither is known after a failed or unsynchronized
    write. [ours] are the names one writer uses. *)
Record Disk : Type := mk_disk {
  versions : string -> list (option Node);
  data : nat -> option string;
  on_disk : nat -> option string;
  next : nat;
  ours : list string
}.
Definition current (d : Disk) (p : string) : option Node := default None (last (versions d p)).

(** What reading a name shows: now, and after a crash. *)
Inductive View : Type := Absent | Text (mode : Z) (text : string) | Other.
Definition reading (contents : nat -> option string) (n : option Node) (v : View) : Prop :=
  match n with
  | None => v = Absent
  | Some (File mode i) => match contents i with Some t => v = Text mode t | None => exists t, v = Text mode t end
  | Some _ => v = Other
  end.
Definition shows (d : Disk) (p : string) (v : View) : Prop := reading (data d) (current d p) v.
Definition recovers (d : Disk) (p : string) (v : View) : Prop := exists n, n ∈ versions d p /\ reading (on_disk d) n v.

Definition upd {A} (f : string -> A) (p : string) (a : A) : string -> A := fun q => if String.eqb q p then a else f q.
Definition upd_inode {A} (f : nat -> A) (i : nat) (a : A) : nat -> A := fun j => if Nat.eqb j i then a else f j.
Definition set_name (p : string) (n : option Node) (d : Disk) : Disk :=
  mk_disk (upd (versions d) p (versions d p ++ [n])%list) (data d) (on_disk d) (next d) (ours d).
Definition set_content (i : nat) (now disk : option string) (d : Disk) : Disk :=
  mk_disk (versions d) (upd_inode (data d) i now) (upd_inode (on_disk d) i disk) (next d) (ours d).
Definition synchronize (dir : string) (d : Disk) : Disk :=
  mk_disk (fun q => if String.eqb (dirname q) dir then [current d q] else versions d q) (data d) (on_disk d) (next d) (ours d).
(** A directory and those above it. *)
Definition above (dir q : string) : bool := String.eqb q dir || startsWith (q +:+ "/") dir.
Definition make_directories (dir : string) (d : Disk) : Disk :=
  mk_disk (fun q => if above dir q && bool_decide (current d q = None) then (versions d q ++ [Some (Directory 448)])%list else versions d q)
    (data d) (on_disk d) (next d) (ours d).
Definition create (p : string) (d : Disk) : Disk :=
  set_name p (Some (File 384 (next d))) (mk_disk (versions d) (upd_inode (data d) (next d) (Some "")) (upd_inode (on_disk d) (next d) None) (S (next d)) (ours d)).
Definition claim (p : string) (d : Disk) : Disk := mk_disk (versions d) (data d) (on_disk d) (next d) (p :: ours d).

Definition stat_of (n : Node) (stat : Stat) : Prop :=
  match n, stat with
  | Directory mode, Stat_directory mode' => mode = mode'
  | File mode _, Stat_file mode' _ => mode = mode'
  | Symlink, Stat_link => True
  | _, _ => False
  end.

(** What an operation may do, for a writer that draws the temporary names of [path]: it fails
    with any error and changes nothing, except that a failed write leaves the content open; only
    a name that is not there is missing. A drawn identifier is new. *)
Definition perform_file (path : string) (X : Type) (d : Disk) (op : fileE X) : X -> Disk -> Prop :=
  match op in fileE X return X -> Disk -> Prop with
  | F_mkdir dir => fun r d' => d' = match r with Ok _ => make_directories dir d | Err _ => d end
  | F_lstat p => fun r d' => d' = d /\ match r with
                                       | Ok stat => exists n, current d p = Some n /\ stat_of n stat
                                       | Err e => e = Foreign "ENOENT" /\ current d p = None \/ exists c, e = Foreign c /\ c <> "ENOENT"
                                       end
  | F_uuid => fun u d' => d' = claim (temporary_of path u) d /\ temporary_of path u ∉ ours d /\ current d (temporary_of path u) = None
  | F_create p => fun r d' => match r with Ok i => current d p = None /\ i = next d /\ d' = create p d | Err e => d' = d /\ exists c, e = Foreign c end
  | F_write i text => fun r d' => match r with Ok _ => d' = set_content i (Some text) None d | Err e => d' = set_content i None None d /\ exists c, e = Foreign c end
  | F_sync i => fun r d' => match r with Ok _ => d' = set_content i (data d i) (data d i) d | Err e => d' = d /\ exists c, e = Foreign c end
  | F_link a p => fun r d' => match r with Ok _ => current d p = None /\ d' = set_name p (current d a) d | Err e => d' = d /\ exists c, e = Foreign c end
  | F_rename a p => fun r d' => match r with Ok _ => d' = set_name a None (set_name p (current d a) d) | Err e => d' = d /\ exists c, e = Foreign c end
  | F_sync_directory dir => fun r d' => match r with Ok _ => d' = synchronize dir d | Err e => d' = d /\ exists c, e = Foreign c end
  | F_rm p => fun r d' => match r with Ok _ => d' = set_name p None d | Err e => d' = d /\ exists c, e = Foreign c end
  | F_close _ | F_open_directory _ | F_close_directory _ => fun r d' => d' = d /\ match r with Ok _ => True | Err e => exists c, e = Foreign c end
  | F_open p => fun r d' => d' = d /\ match r with Ok i => exists mode, current d p = Some (File mode i) | Err e => exists c, e = Foreign c end
  | F_stat i => fun r d' => d' = d /\ match r with Ok stat => exists mode size, stat = Stat_file mode size | Err e => exists c, e = Foreign c end
  | F_read i => fun r d' => d' = d /\ match r with Ok text => data d i = Some text | Err e => exists c, e = Foreign c end
  | F_mkdtemp | F_rm_all _ => fun _ _ => False
  end.

(** What other processes keep: the names in use and the files they stand for. *)
Definition others (d d' : Disk) : Prop :=
  ours d' = ours d /\ (next d <= next d')%nat /\
  forall q, q ∈ ours d -> versions d' q = versions d q /\
    forall mode i, Some (File mode i) ∈ versions d q -> data d' i = data d i /\ on_disk d' i = on_disk d i.
