(* ===== verification/PrivateProps.v ===== *)
(** * Theorems on private files

    A private write is atomic: at every moment, whatever fails and whatever other processes do
    elsewhere, a crash leaves the old file or the whole new one, and after a write that returned
    the new one; an exclusive write never replaces a file and no write follows a link. *)

From stdpp Require Import relations.
From S2P Require Import Prelude Js Number Json Prog Errors Rely PrivateFiles.

Local Open Scope string_scope.
Local Open Scope js_scope.
Local Open Scope Z_scope.

#[export] Instance others_preorder : PreOrder others.
Proof.
  split; [by intros d|]. intros d1 d2 d3 (Ho & Hn & Hv) (Ho' & Hn' & Hv'). split; [congruence|]. split; [lia|].
  intros q Hq. destruct (Hv q Hq) as [E Hf]. destruct (Hv' q) as [E' Hf']; [by rewrite Ho|]. split; [congruence|].
  intros mode i Hi. destruct (Hf mode i Hi) as [Hd Hs]. destruct (Hf' mode i) as [Hd' Hs']; [by rewrite E|]. split; congruence.
Qed.

Lemma others_current d d' q : others d d' -> q ∈ ours d -> current d' q = current d q.
Proof. intros (_ & _ & Hv) Hq. unfold current. by rewrite (proj1 (Hv q Hq)). Qed.

Lemma current_in d q mode i : current d q = Some (File mode i) -> Some (File mode i) ∈ versions d q.
Proof. unfold current. destruct (last (versions d q)) as [n|] eqn:Hl; cbn; [|done]. intros ->. by apply last_Some_elem_of. Qed.

(** A name of its directory that is not one of the writer's temporary names. *)
Definition good_path (p : string) : Prop := above (dirname p) p = false /\ forall u, temporary_of p u <> p.

(** Everything a crash leaves of the name is what is there now. *)
Definition settled (d : Disk) (p : string) (v : View) : Prop :=
  exists n, versions d p = [n] /\ reading (data d) n v /\
    match n with Some (File _ i) => (i < next d)%nat /\ exists t, data d i = Some t /\ on_disk d i = Some t | _ => True end.

Lemma settled_recovers d p v v' : settled d p v -> recovers d p v' -> v' = v.
Proof.
  intros (n & Hv & Hr & Hn) (n' & Hin & Hr'). rewrite Hv in Hin. apply list_elem_of_singleton in Hin as ->.
  destruct n as [[mode|mode i|]|]; cbn in *; try congruence. destruct Hn as (_ & t & Hd & Ho). rewrite Hd in Hr. rewrite Ho in Hr'. congruence.
Qed.
Lemma settled_shows d p v v' : settled d p v -> shows d p v' -> v' = v.
Proof.
  intros (n & Hv & Hr & Hn). unfold shows, current. rewrite Hv. cbn.
  destruct n as [[mode|mode i|]|]; cbn in *; try congruence. destruct Hn as (_ & t & Hd & _). rewrite Hd in *. congruence.
Qed.

Section write.
Variables (p : string) (value : json) (exclusive : bool) (n0 : option Node) (t0 : string).
Hypothesis Hp : good_path p.
Notation body := (body_of value).

Definition kept (d : Disk) : Prop :=
  match n0 with Some (File _ i) => (i < next d)%nat /\ data d i = Some t0 /\ on_disk d i = Some t0 | _ => True end.
(** The name is as it was. *)
Definition old (d : Disk) : Prop := p ∈ ours d /\ versions d p = [n0] /\ kept d.
Definition whole (i : nat) (d : Disk) : Prop := (i < next d)%nat /\ data d i = Some body /\ on_disk d i = Some body.
Definition allowed : Prop := match n0 with None => True | Some (File _ _) => exclusive = false | _ => False end.
(** The new file is there, and a crash may still bring the old one back; or not any more. *)
Definition moved (i : nat) (d : Disk) : Prop := allowed /\ p ∈ ours d /\ versions d p = [n0; Some (File 384 i)] /\ kept d /\ whole i d.
Definition placed (i : nat) (d : Disk) : Prop := allowed /\ p ∈ ours d /\ versions d p = [Some (File 384 i)] /\ whole i d.
Definition atomic (d : Disk) : Prop := old d \/ exists i, moved i d \/ placed i d.

(** The temporary name is drawn; the temporary file holds [now], and [disk] after a crash. *)
Definition claimed (t : string) (d : Disk) : Prop := old d /\ t ∈ ours d /\ current d t = None.
Definition fresh (i : nat) : Prop := match n0 with Some (File _ j) => i <> j | _ => True end.
Definition draft (t : string) (i : nat) (now disk : option string) (d : Disk) : Prop :=
  old d /\ t ∈ ours d /\ current d t = Some (File 384 i) /\ fresh i /\ (i < next d)%nat /\ data d i = now /\ on_disk d i = disk.

Lemma kept_others d d' : others d d' -> p ∈ ours d -> n0 ∈ versions d p -> kept d -> kept d'.
Proof.
  intros (Ho & Hn & Hv) Hin Hn0. unfold kept. destruct n0 as [[m|m i|]|]; try done. intros (Hi & Hd & Hs).
  destruct (proj2 (Hv p Hin) m i Hn0) as [-> ->]. split; [lia | done].
Qed.
Lemma whole_others d d' i q : others d d' -> q ∈ ours d -> Some (File 384 i) ∈ versions d q -> whole i d -> whole i d'.
Proof. intros (Ho & Hn & Hv) Hin Hf (Hi & Hd & Hs). destruct (proj2 (Hv q Hin) 384 i Hf) as [Ed Es]. unfold whole. rewrite Ed, Es. split; [lia | done]. Qed.

Lemma old_others d d' : old d -> others d d' -> old d'.
Proof.
  intros (Hin & Hv & Hk) Ho. pose proof Ho as (Hours & _ & Hvers). split; [by rewrite Hours|]. rewrite (proj1 (Hvers p Hin)). split; [done|].
  eapply kept_others; [done | done | rewrite Hv; apply elem_of_cons; by left | done].
Qed.
Lemma moved_others i d d' : moved i d -> others d d' -> moved i d'.
Proof.
  intros (Ha & Hin & Hv & Hk & Hw) Ho. pose proof Ho as (Hours & _ & Hvers). split; [done|]. split; [by rewrite Hours|]. rewrite (proj1 (Hvers p Hin)). split; [done|]. split.
  - eapply kept_others; [done | done | rewrite Hv; apply elem_of_cons; by left | done].
  - eapply whole_others; [done | exact Hin | rewrite Hv; apply elem_of_cons; right; by apply list_elem_of_singleton | done].
Qed.
Lemma placed_others i d d' : placed i d -> others d d' -> placed i d'.
Proof.
  intros (Ha & Hin & Hv & Hw) Ho. pose proof Ho as (Hours & _ & Hvers). split; [done|]. split; [by rewrite Hours|]. rewrite (proj1 (Hvers p Hin)). split; [done|].
  eapply whole_others; [done | exact Hin | rewrite Hv; by apply list_elem_of_singleton | done].
Qed.
Lemma atomic_others d d' : atomic d -> others d d' -> atomic d'.
Proof. intros [Ho|(i & [Hm|Hm])] Hr; [left; by eapply old_others| |]; right; exists i; [left; by eapply moved_others | right; by eapply placed_others]. Qed.
Lemma claimed_others t d d' : claimed t d -> others d d' -> claimed t d'.
Proof.
  intros (Ho & Ht & Hc) Hr. split; [by eapply old_others|]. rewrite (others_current _ _ _ Hr Ht). pose proof Hr as (-> & _). done.
Qed.
Lemma draft_others t i now disk d d' : draft t i now disk d -> others d d' -> draft t i now disk d'.
Proof.
  intros (Ho & Ht & Hc & Hf & Hi & Hd & Hs) Hr. split; [by eapply old_others|]. rewrite (others_current _ _ _ Hr Ht).
  pose proof Hr as (Eo & Hn & Hv). destruct (proj2 (Hv t Ht) 384 i) as [-> ->]; [by apply current_in|]. rewrite Eo. repeat split; try done. lia.
Qed.

(** ** What each operation does *)
Notation spec P m Q := (triple others (perform_file p) atomic P m Q).
Notation stays P := (lasting others atomic P).

Lemma old_stays : stays old.
Proof. split; [apply old_others | by left]. Qed.
Lemma atomic_stays : stays atomic.
Proof. split; [apply atomic_others | done]. Qed.
Lemma moved_stays i : stays (moved i).
Proof. split; [apply moved_others | intros d Hd; right; exists i; by left]. Qed.
Lemma placed_stays i : stays (placed i).
Proof. split; [apply placed_others | intros d Hd; right; exists i; by right]. Qed.
Lemma claimed_stays t : stays (claimed t).
Proof. split; [apply claimed_others | intros d (Hd & _); by left]. Qed.
Lemma draft_stays t i now disk : stays (draft t i now disk).
Proof. split; [apply draft_others | intros d (Hd & _); by left]. Qed.
Lemma ex_stays {A} (P : A -> Disk -> Prop) : (forall a, stays (P a)) -> stays (fun d => exists a, P a d).
Proof. intros HP. split; [intros d d' [a Ha] Hr; exists a; by eapply (HP a) | intros d [a Ha]; by eapply (HP a)]. Qed.
Lemma pure_stays (F : Prop) P : stays P -> stays (fun d => F /\ P d).
Proof. intros [Hs Hi]. split; [intros d d' [HF HP] Hr; split; [done | by eapply Hs] | intros d [_ HP]; by apply Hi]. Qed.

(** An operation that leaves the disk as it is. *)
Lemma still_keeps {A} (op : fileE (res exn A)) P Q : stays P -> (forall d r d', perform_file p _ d op r d' -> d' = d) -> (forall r d, P d -> Q r d) ->
  spec P (await op) Q.
Proof using All.
  intros HP Hop HQ. apply (triple_weaken _ _ _ P _ _ (fun _ => P)); [done | done|]. apply (triple_await _ _ _); [done | done|].
  intros d r d' Hd H. by rewrite (Hop _ _ _ H).
Qed.
Lemma close_keeps i P Q : stays P -> (forall r d, P d -> Q r d) -> spec P (await (F_close i)) Q.
Proof using All. intros HP HQ. apply (still_keeps _ P); [done | by intros d r d' [-> _] | done]. Qed.

Lemma set_name_old t n d : t <> p -> old d -> old (set_name t n d).
Proof. intros Ht (Hin & Hv & Hk). split; [done|]. cbn. unfold upd. by rewrite (proj2 (String.eqb_neq p t) (not_eq_sym Ht)). Qed.
Lemma kept_content i now disk d : fresh i -> kept d -> kept (set_content i now disk d).
Proof. unfold fresh, kept, set_content, upd_inode. destruct n0 as [[m|m j|]|]; try done. cbn. intros Hij Hk. by rewrite (proj2 (Nat.eqb_neq j i) (not_eq_sym Hij)). Qed.
Lemma current_set t n d : current (set_name t n d) t = n.
Proof. unfold current. cbn. unfold upd. by rewrite String.eqb_refl, last_snoc. Qed.

Lemma create_draft t d : t <> p -> claimed t d -> draft t (next d) (Some "") None (create t d).
Proof.
  intros Ht ((Hin & Hv & Hk) & Hto & Hc). unfold create.
  assert (Hf : fresh (next d)) by (revert Hk; unfold fresh, kept; destruct n0 as [[m|m i|]|]; try done; intros (Hi & _); lia).
  split; [|split; [done|split; [apply current_set|split; [done|cbn; unfold upd_inode; rewrite Nat.eqb_refl; split; [lia | done]]]]].
  apply set_name_old; [done|]. split; [done|]. split; [done|]. unfold fresh, kept, upd_inode in *. cbn. destruct n0 as [[m|m i|]|]; try done.
  rewrite (proj2 (Nat.eqb_neq i (next d)) (not_eq_sym Hf)). destruct Hk as (Hi & Hk). split; [lia | done].
Qed.
Lemma content_draft t i now disk now' disk' d : draft t i now disk d -> draft t i now' disk' (set_content i now' disk' d).
Proof.
  intros ((Hin & Hv & Hk) & Hto & Hc & Hf & Hi & Hd & Hs). split; [split; [done|split; [done | by apply kept_content]]|]. cbn. unfold upd_inode. rewrite Nat.eqb_refl. done.
Qed.

(** ** The triples *)
Definition drafted (t : string) (d : Disk) : Prop := exists i, draft t i (Some body) (Some body) d.
Lemma drafted_stays t : stays (drafted t).
Proof. apply ex_stays. intros i. apply draft_stays. Qed.
Hint Resolve old_stays atomic_stays moved_stays placed_stays claimed_stays draft_stays drafted_stays : stays.

Lemma draft_old t i now disk d : draft t i now disk d -> old d.
Proof. by intros [? _]. Qed.

Lemma content_written t i : spec (draft t i (Some "") None) (await (F_write i body) ;; await (F_sync i))
  (fun r d => match r with Ok _ => draft t i (Some body) (Some body) d | Err _ => old d end).
Proof using All.
  apply (triple_bind _ _ _ _ _ _ (fun r d => match r with Ok _ => draft t i (Some body) None d | Err _ => old d end)); [..|done].
  - apply triple_await; [auto with stays | intros [[]|]; auto with stays|]. intros d [[]|e] d' Hd; cbn; [intros ->; by eapply content_draft|].
    intros [-> _]. eapply draft_old, content_draft, Hd.
  - auto with stays.
  - intros []. apply triple_await; [auto with stays | intros [[]|]; auto with stays|]. intros d [[]|e] d' Hd; cbn.
    + intros ->. pose proof Hd as (_ & _ & _ & _ & _ & -> & _). by eapply content_draft.
    + intros [-> _]. eapply draft_old, Hd.
Qed.

Lemma temporary_written t : t <> p -> spec (claimed t) (write_temporary t body) (fun r d => match r with Ok _ => drafted t d | Err _ => old d end).
Proof using All.
  intros Ht. apply (triple_bind _ _ _ _ _ _ (fun r d => match r with Ok i => draft t i (Some "") None d | Err _ => old d end)); [..|done].
  - apply triple_await; [auto with stays | intros [i|]; auto with stays|]. intros d [i|e] d' Hd; cbn; [|intros [-> _]; apply Hd].
    intros (_ & -> & ->). by apply create_draft.
  - auto with stays.
  - intros i. eapply triple_finally; [apply _ | apply content_written | |intros [[]|]; auto with stays].
    intros [[]|e].
    + apply close_keeps; [auto with stays|]. intros [[]|e] d Hd; [by exists i | eapply draft_old, Hd].
    + apply close_keeps; [auto with stays|]. by intros [[]|e'].
Qed.

Definition new_name (d : Disk) : Prop := exists i, moved i d.
Definition new_file (d : Disk) : Prop := exists i, placed i d.
Lemma new_name_stays : stays new_name.
Proof. apply ex_stays. intros i. apply moved_stays. Qed.
Lemma new_file_stays : stays new_file.
Proof. apply ex_stays. intros i. apply placed_stays. Qed.
Hint Resolve new_name_stays new_file_stays : stays.
(** How [replace] and the whole write end. *)
Definition ended (r : res exn unit) (d : Disk) : Prop := match r with Ok _ => new_file d | Err _ => atomic d end.
Lemma ended_stays r : stays (ended r).
Proof. destruct r; cbn; auto with stays. Qed.
Lemma ended_atomic r d : ended r d -> atomic d.
Proof. destruct r; [|done]. intros [i Hi]. right. exists i. by right. Qed.
Hint Resolve ended_stays : stays.

Lemma set_name_moved t n i d : t <> p -> moved i d -> moved i (set_name t n d).
Proof. intros Ht (Ha & Hin & Hv & Hk). split; [done|]. split; [done|]. cbn. unfold upd. by rewrite (proj2 (String.eqb_neq p t) (not_eq_sym Ht)). Qed.
Lemma drafted_moved t d : allowed -> drafted t d -> new_name (set_name p (current d t) d).
Proof.
  intros Ha (i & (Hin & Hv & Hk) & Ht & Hc & Hf & Hi & Hd & Hs). exists i. split; [done|]. split; [done|]. split; [|done].
  cbn. unfold upd. by rewrite String.eqb_refl, Hv, Hc.
Qed.

Lemma name_moved t : t <> p -> allowed -> spec (drafted t) (if exclusive then await (F_link t p) else await (F_rename t p))
  (fun r d => match r with Ok _ => new_name d | Err _ => old d end).
Proof using All.
  intros Ht Ha. assert (Hold : forall d, drafted t d -> old d) by (intros d [i Hi]; eapply draft_old, Hi).
  destruct exclusive; (apply triple_await; [auto with stays | intros [[]|]; auto with stays|]); intros d [[]|e] d' Hd; cbn.
  - intros [_ ->]. by apply drafted_moved.
  - intros [-> _]. by apply Hold.
  - intros ->. destruct (drafted_moved t d Ha Hd) as [i Hi]. exists i. by apply set_name_moved.
  - intros [-> _]. by apply Hold.
Qed.

Lemma synchronize_placed i d : moved i d -> placed i (synchronize (dirname p) d).
Proof.
  intros (Ha & Hin & Hv & Hk & Hw). split; [done|]. split; [done|]. split; [|done]. cbn. rewrite String.eqb_refl. unfold current. by rewrite Hv.
Qed.
Lemma moved_atomic i d : moved i d -> atomic d.
Proof. intros Hd. right. exists i. by left. Qed.

Lemma directory_synchronized : spec new_name (sync_directory (dirname p)) ended.
Proof using All.
  apply (triple_bind _ _ _ _ _ _ (fun r d => match r with Ok _ => new_name d | Err _ => atomic d end)); [..|done].
  - apply (still_keeps _ new_name); [auto with stays | by intros d r d' [-> _]|]. intros [[]|e] d Hd; [done|]. destruct Hd as [i Hi]. by eapply moved_atomic.
  - auto with stays.
  - intros []. eapply triple_finally; [apply _ | | |auto with stays].
    + apply (triple_await _ _ _ _ _ ended); [auto with stays | auto with stays|]. intros d [[]|e] d' [i Hi]; cbn.
      * intros ->. exists i. by apply synchronize_placed.
      * intros [-> _]. by eapply moved_atomic.
    + intros r. apply (still_keeps _ (ended r)); [auto with stays | by intros d r' d' [-> _]|]. intros [[]|e] d Hd; [done|]. by eapply ended_atomic.
Qed.

Lemma replaced t : t <> p -> allowed -> spec (claimed t) (replace p t body exclusive) ended.
Proof using All.
  intros Ht Ha. unfold replace. assert (Herr : forall (e : exn) d, old d -> ended (Err e) d) by (intros e d Hd; by left).
  eapply triple_bind; [apply _ | by apply temporary_written | auto with stays | | auto]. intros [].
  eapply triple_bind; [apply _ | by apply name_moved | auto with stays | | auto]. intros []. apply directory_synchronized.
Qed.

Lemma temporary_removed t r : t <> p -> spec (ended r) (await (F_rm t)) (fun r' d => match r' with Ok _ => ended r d | Err e => ended (Err e) d end).
Proof using All.
  intros Ht. apply triple_await; [auto with stays | intros [[]|]; auto with stays|].
  assert (Hatomic : forall d, atomic d -> atomic (set_name t None d)).
  { intros d [Hd|(i & [Hm|Hw])]; [left; by apply set_name_old | right; exists i; left; by apply set_name_moved|].
    right. exists i. right. destruct Hw as (Ha & Hin & Hv & Hw). split; [done|]. split; [done|]. cbn. unfold upd. by rewrite (proj2 (String.eqb_neq p t) (not_eq_sym Ht)). }
  intros d [[]|e] d' Hd; cbn; [|intros [-> _]; by eapply ended_atomic]. intros ->. destruct r as [[]|e]; [|by apply Hatomic].
  destruct Hd as (i & Ha & Hin & Hv & Hw). exists i. split; [done|]. split; [done|]. cbn. unfold upd. by rewrite (proj2 (String.eqb_neq p t) (not_eq_sym Ht)).
Qed.

(** ** The write *)
Lemma directory_private : spec old (privateDirectory (dirname p)) (fun _ => old).
Proof using All.
  unfold privateDirectory. apply (triple_bind _ _ _ _ _ _ (fun _ => old)); [|auto with stays..| done].
  - apply triple_await; [auto with stays | auto with stays|]. intros d [[]|e] d' Hd; cbn; intros ->; [|done].
    destruct Hd as (Hin & Hv & Hk). split; [done|]. cbn. by rewrite (proj1 Hp).
  - intros _. apply (triple_bind _ _ _ _ _ _ (fun _ => old)); [|auto with stays..| done].
    + apply (still_keeps _ old); [auto with stays | by intros d r d' [-> _] | done].
    + intros stat. apply triple_done; [auto with stays | done].
Qed.

Lemma may_replace_allowed : spec old (may_replace p exclusive) (fun r d => match r with Ok _ => allowed /\ old d | Err _ => old d end).
Proof using All.
  set (Q := fun (r : res exn unit) d => match r with Ok _ => allowed /\ old d | Err e => old d /\ (is_missing e = true -> n0 = None) end : Prop).
  assert (HQ : forall r : res exn unit, stays (Q r)).
  { intros [[]|e]; [by apply pure_stays, old_stays|]. split; [intros d d' [Hd Hm] Hr; split; [by eapply old_others | done] | intros d [Hd _]; by left]. }
  assert (Hcur : forall d, old d -> current d p = n0) by (intros d (_ & Hv & _); unfold current; by rewrite Hv).
  unfold may_replace. apply (triple_try _ _ _ _ _ _ Q); [| intros []; apply (HQ (Ok tt)) | by intros []|].
  - apply (triple_bind _ _ _ _ _ _ (fun r d => match r with
      | Ok stat => (exists n, n0 = Some n /\ stat_of n stat) /\ old d | Err e => old d /\ (is_missing e = true -> n0 = None) end)); [..|done].
    + apply triple_await; [auto with stays | |].
      * intros [stat|e]; [by apply pure_stays, old_stays | apply (HQ (Err e))].
      * intros d [stat|e] d' Hd; cbn; intros [-> H]; rewrite (Hcur d Hd) in H; [by split|]. split; [done|].
        destruct H as [[-> ->]|(c & -> & Hc)]; [done|]. unfold is_missing. case_bool_decide; [congruence | done].
    + intros e. apply (HQ (Err e)).
    + intros stat. apply triple_done; [by apply pure_stays, old_stays|]. intros d [(n & Hn0 & Hn) Hd].
      assert (Hcase : negb exclusive && (match stat with Stat_file _ _ => true | _ => false end) = true -> allowed).
      { unfold allowed. rewrite Hn0. by destruct exclusive, stat, n. }
      unfold requireSafe. destruct (negb exclusive && _); cbn; [by split; [apply Hcase|] | done].
  - intros e. cbn. destruct (is_missing e) eqn:He.
    + apply triple_done; [apply (HQ (Err e))|]. intros d [Hd Hm]. split; [|done]. unfold allowed. by rewrite (Hm He).
    + apply triple_done; [apply (HQ (Err e))|]. by intros d [Hd _].
Qed.

Lemma written : spec old (writePrivate p value exclusive) ended.
Proof using All.
  unfold writePrivate. assert (Herr : forall (e : exn) d, old d -> ended (Err e) d) by (intros e d Hd; by left).
  eapply triple_bind; [apply _ | apply directory_private | auto with stays | | auto]. intros [].
  eapply triple_bind; [apply _ | apply may_replace_allowed | auto with stays | | auto]. intros [].
  apply (triple_bind _ _ _ _ _ _ (fun r d => match r with Ok u => allowed /\ claimed (temporary_of p u) d | Err _ => old d end)); [..|auto].
  - apply triple_await_; [by apply pure_stays, old_stays | intros [u|]; [by apply pure_stays, claimed_stays | auto with stays]|].
    intros d u d' [Ha (Hin & Hv & Hk)]. cbn. intros (-> & Hu & Hc). split; [done|]. split; [split; [cbn; apply elem_of_cons; by right | done]|]. split; [cbn; apply elem_of_cons; by left | done].
  - auto with stays.
  - intros u s d [Ha Hd]. revert s d Hd. destruct Hp as [_ Ht]. specialize (Ht u).
    apply (triple_finally _ _ _ _ _ _ ended); [|intros r; by apply temporary_removed | auto with stays].
    eapply triple_try; [apply _ | by apply replaced | auto with stays | done|].
    intros [e|c]; (apply triple_done; [auto with stays | by intros d Hd]).
Qed.
End write.

Lemma settled_old d p v : p ∈ ours d -> settled d p v -> exists n0 t0, old p n0 t0 d /\ reading (data d) n0 v.
Proof.
  intros Hin (n & Hv & Hr & Hn). destruct n as [[m|m i|]|] eqn:En; [..|destruct Hn as (Hi & t & Hd & Ho); exists n, t|exists n, ""|exists n, ""].
  all: subst n. 1: exists (Some (Directory m)), "". all: split; [|done]; split; [done|]; by split.
Qed.
Lemma old_settled d p n0 t0 v d0 : old p n0 t0 d0 -> reading (data d0) n0 v -> old p n0 t0 d -> settled d p v.
Proof.
  intros (_ & _ & Hk0) Hr (_ & Hv & Hk). exists n0. split; [done|]. unfold kept in *. destruct n0 as [[m|m i|]|]; try done.
  destruct Hk as (Hi & Hd & Ho). split; [|split; [done|by exists t0]]. cbn in *. destruct Hk0 as (_ & Hd0 & _). rewrite Hd0 in Hr. by rewrite Hd.
Qed.

(** What a crash or a read finds in each state of the write. *)
Lemma atomic_views p value exclusive n0 t0 d0 d v0 v : old p n0 t0 d0 -> reading (data d0) n0 v0 -> atomic p value exclusive n0 t0 d ->
  shows d p v \/ recovers d p v -> v = v0 \/ v = Text 384 (body_of value).
Proof.
  intros H0 Hr0 [Hold|(i & [(Ha & Hin & Hv & Hk & Hi & Hd & Ho)|(Ha & Hin & Hv & Hi & Hd & Ho)])] Hview.
  - left. pose proof (old_settled _ _ _ _ _ _ H0 Hr0 Hold) as Hs. destruct Hview; [by eapply settled_shows | by eapply settled_recovers].
  - destruct Hview as [Hshow|(n & Hn & Hrec)].
    + right. unfold shows, current in Hshow. rewrite Hv in Hshow. cbn in Hshow. by rewrite Hd in Hshow.
    + rewrite Hv in Hn. apply elem_of_cons in Hn as [->|Hn%list_elem_of_singleton].
      * left. unfold kept in Hk. destruct H0 as (_ & _ & Hk0). unfold kept in Hk0. destruct n0 as [[m|m j|]|]; cbn in *; try congruence.
        destruct Hk as (_ & _ & Hoj), Hk0 as (_ & Hdj & _). rewrite Hoj in Hrec. rewrite Hdj in Hr0. congruence.
      * subst n. right. cbn in Hrec. by rewrite Ho in Hrec.
  - right. destruct Hview as [Hshow|(n & Hn & Hrec)].
    + unfold shows, current in Hshow. rewrite Hv in Hshow. cbn in Hshow. by rewrite Hd in Hshow.
    + rewrite Hv in Hn. apply list_elem_of_singleton in Hn as ->. cbn in Hrec. by rewrite Ho in Hrec.
Qed.

(** C5: a private write is atomic and durable: at every moment of it, whatever operation fails and
    whatever other processes do to other names, reading the name, or recovering it after a crash,
    gives the file that was there or the whole new text in a file of mode 0600; once the write
    has returned a crash gives the new text; and where it must not write (the name is taken and
    the write is exclusive, or the name is no regular file) it never returns and nothing changes. *)
Theorem write_private_atomic (d0 d : Disk) (p : string) (value : json) (exclusive : bool) (v0 : View) (q : prog fileE (unit * res exn unit)) :
  good_path p -> p ∈ ours d0 -> settled d0 p v0 ->
  rtc (shared_step others (perform_file p)) (d0, writePrivate p value exclusive tt) (d, q) ->
  (forall v, shows d p v \/ recovers d p v -> v = v0 \/ v = Text 384 (body_of value)) /\
  (q = Done (tt, Ok tt) -> settled d p (Text 384 (body_of value))) /\
  ((exclusive = true /\ v0 <> Absent) \/ v0 = Other -> settled d p v0 /\ q <> Done (tt, Ok tt)).
Proof.
  intros Hp Hin Hs Hrun. destruct (settled_old _ _ _ Hin Hs) as (n0 & t0 & H0 & Hr0).
  pose proof (written p value exclusive n0 t0 Hp tt d0 H0) as Hw.
  pose proof (holds_steps _ _ _ (atomic_others p value exclusive n0 t0) _ _ _ _ _ Hrun Hw) as Hq.
  pose proof (holds_inv _ _ _ _ _ _ Hq) as Hat.
  assert (Hdone : q = Done (tt, Ok tt) -> new_file p value exclusive n0 d) by (intros ->; destruct Hq as [_ Hq]; by apply Hq).
  split; [intros v; by apply (atomic_views _ _ _ _ _ _ _ _ _ H0 Hr0 Hat) | split].
  - intros (i & Ha & _ & Hv & Hi & Hd & Ho)%Hdone. exists (Some (File 384 i)). split; [done|]. cbn. rewrite Hd. split; [done|]. split; [done | by eexists].
  - intros Hno. assert (Hna : ~ allowed exclusive n0).
    { unfold allowed. destruct n0 as [[m|m i|]|]; cbn in Hr0; try tauto; [|subst v0; intros _; destruct Hno as [[_ Hno]|Hno]; done].
      intros ->. destruct Hno as [[? _]| ->]; [done|]. destruct (data d0 i); [|destruct Hr0]; done. }
    split.
    + destruct Hat as [Hold|(i & [(Ha & _)|(Ha & _)])]; [exact (old_settled _ _ _ _ _ _ H0 Hr0 Hold) | done | done].
    + by intros (i & Ha & _)%Hdone.
Qed.

(** A run by hand: the next operation answers [x]. *)
Ltac next_op x := match goal with |- rtc _ (_, ?q) _ => let q' := eval hnf in q in change q with q' end; eapply (own_rtc _ _ _ _ _ _ x).

Definition journal_path : string := "/home/j/a.json".
Definition journal_disk : Disk :=
  mk_disk (fun q => if String.eqb q journal_path then [Some (File 384 0)] else if String.eqb q "/home/j" then [Some (Directory 448)] else [None])
    (upd_inode (fun _ => None) 0 (Some "old")) (upd_inode (fun _ => None) 0 (Some "old")) 1 [journal_path].

Lemma journal_good : good_path journal_path.
Proof. split; [reflexivity|]. intros u. vm_compute. discriminate. Qed.
Lemma journal_settled : settled journal_disk journal_path (Text 384 "old").
Proof. exists (Some (File 384 0)). split; [reflexivity|]. split; [reflexivity|]. split; [cbn; lia | by exists "old"]. Qed.

(** A whole write over the old file, by itself. *)
Lemma journal_run : exists d, rtc (shared_step others (perform_file journal_path)) (journal_disk, writePrivate journal_path (JStr "new") false tt) (d, Done (tt, Ok tt)).
Proof.
  eexists.
  next_op (Ok tt : res exn unit); [reflexivity|].
  next_op (Ok (Stat_directory 448) : res exn Stat); [split; [reflexivity|]; exists (Directory 448); split; reflexivity|].
  next_op (Ok (Stat_file 384 3) : res exn Stat); [split; [reflexivity|]; exists (File 384 0); split; reflexivity|].
  next_op "u"; [split; [reflexivity|]; split; [vm_compute; set_solver | reflexivity]|].
  next_op (Ok 1%nat : res exn nat); [split; [reflexivity|]; split; reflexivity|].
  next_op (Ok tt : res exn unit); [reflexivity|].
  next_op (Ok tt : res exn unit); [reflexivity|].
  next_op (Ok tt : res exn unit); [split; [reflexivity | exact I]|].
  next_op (Ok tt : res exn unit); [reflexivity|].
  next_op (Ok tt : res exn unit); [split; [reflexivity | exact I]|].
  next_op (Ok tt : res exn unit); [reflexivity|].
  next_op (Ok tt : res exn unit); [split; [reflexivity | exact I]|].
  next_op (Ok tt : res exn unit); [reflexivity|].
  apply rtc_refl.
Qed.

Lemma write_private_atomic_witness : exists d, settled d journal_path (Text 384 "new").
Proof.
  destruct journal_run as [d Hrun]. exists d.
  by apply (write_private_atomic journal_disk d journal_path (JStr "new") false (Text 384 "old") _ journal_good (list_elem_of_here _ _) journal_settled Hrun).
Defined.

(** ** Exclusive writes *)

(** An operation that cannot take a name away from what it stands for. *)
Definition harmless (p : string) (X : Type) (op : fileE X) : Prop :=
  match op with F_rename _ _ => False | F_rm q => q <> p | _ => True end.

Lemma set_name_current p q n d : q <> p -> current (set_name q n d) p = current d p.
Proof. intros Hq. unfold current. cbn. unfold upd. by rewrite (proj2 (String.eqb_neq p q) (not_eq_sym Hq)). Qed.

Lemma harmless_current r p X op d x d' : harmless p X op -> perform_file r X d op x d' -> current d p <> None -> current d' p = current d p.
Proof.
  intros Hop Hperf Hp. destruct op; cbn in *; try done.
  all: try (destruct x as [x|e]; [|destruct Hperf as [-> _]; done]).
  all: try (by destruct Hperf as [-> _]); try (by subst d').
  - subst d'. unfold current, make_directories. cbn. case_bool_decide; [|by rewrite andb_false_r]. done.
  - destruct Hperf as (Hc & -> & ->). etrans; [apply set_name_current; by intros -> | done].
  - destruct Hperf as (Hc & ->). apply set_name_current. by intros ->.
  - subst d'. unfold current at 1. cbn. by destruct (dirname p =? _)%string.
  - subst d'. by apply set_name_current.
Qed.

Lemma exclusive_harmless p value : (forall u, temporary_of p u <> p) -> all_opsM (harmless p) (writePrivate p value true).
Proof.
  intros Ht. unfold writePrivate, privateDirectory, may_replace, replace, write_temporary, sync_directory.
  repeat first [apply all_opsM_bind; [|intros ?] | apply all_opsM_finally | apply all_opsM_try; [|intros ?]
    | match goal with |- all_opsM _ (private_error ?e) => by destruct e | |- all_opsM _ (if ?b then _ else _) => by destruct b end
    | apply all_opsM_await; [first [exact I | exact (Ht _)]] | apply all_opsM_await_; [exact I] | apply all_opsM_res].
Qed.

(** C24: an exclusive write never replaces a file: whatever other processes do, to this name too, at
    any moment of the write, no operation of the write takes the name away from what it stands
    for at that moment. *)
Theorem exclusive_never_replaces (p : string) (value : json) (d0 d d' : Disk) (q q' : prog fileE (unit * res exn unit)) :
  (forall u, temporary_of p u <> p) -> rtc (shared_step (fun _ _ => True) (perform_file p)) (d0, writePrivate p value true tt) (d, q) ->
  shared_step own (perform_file p) (d, q) (d', q') -> current d p <> None -> current d' p = current d p.
Proof.
  intros Ht Hrun Hstep Hp. pose proof (all_ops_steps _ _ _ _ _ _ _ Hrun (exclusive_harmless p value Ht tt)) as Hq.
  inversion Hstep as [X op k ? x g2 Hperf Ha Hb|p' ? g2 Hr Ha Hb]; [subst|done]. eapply harmless_current; [apply Hq | exact Hperf | done].
Qed.

(** The directory is there; another run creates the journal just before the link. *)
Definition empty_disk : Disk :=
  mk_disk (fun q => if String.eqb q "/home/j" then [Some (Directory 448)] else [None]) (fun _ => None) (fun _ => None) 0 [journal_path].
Lemma linking_run : exists d k, current d journal_path = Some (File 384 7) /\
  rtc (shared_step (fun _ _ => True) (perform_file journal_path)) (empty_disk, writePrivate journal_path (JStr "new") true tt) (d, Await (F_link "/home/j/.write-u" journal_path) k).
Proof.
  exists (set_name journal_path (Some (File 384 7)) empty_disk). eexists. split; [apply current_set|].
  next_op (Ok tt : res exn unit); [reflexivity|].
  next_op (Ok (Stat_directory 448) : res exn Stat); [split; [reflexivity|]; exists (Directory 448); split; reflexivity|].
  next_op (Err (Foreign "ENOENT") : res exn Stat); [split; [reflexivity|]; left; split; reflexivity|].
  next_op "u"; [split; [reflexivity|]; split; [vm_compute; set_solver | reflexivity]|].
  next_op (Ok 0%nat : res exn nat); [split; [reflexivity|]; split; reflexivity|].
  next_op (Ok tt : res exn unit); [reflexivity|].
  next_op (Ok tt : res exn unit); [reflexivity|].
  next_op (Ok tt : res exn unit); [split; [reflexivity | exact I]|].
  match goal with |- rtc _ (_, ?q) _ => let q' := eval hnf in q in change q with q' end.
  apply rtc_once, other_step. exact I.
Qed.

Lemma exclusive_never_replaces_witness : exists (d : Disk * prog fileE (unit * res exn unit)) d' q', shared_step own (perform_file journal_path) d (d', q') /\ current d' journal_path = Some (File 384 7).
Proof.
  destruct linking_run as (d & k & Hc & Hrun).
  assert (Hstep : shared_step own (perform_file journal_path) (d, Await (F_link "/home/j/.write-u" journal_path) k) (d, k (Err (Foreign "EEXIST"))))
    by (constructor; split; [reflexivity | by eexists]).
  exists (d, Await (F_link "/home/j/.write-u" journal_path) k), d, (k (Err (Foreign "EEXIST"))). split; [exact Hstep|].
  etrans; [apply (exclusive_never_replaces journal_path (JStr "new") empty_disk d d _ _ (proj2 journal_good) Hrun Hstep); by rewrite Hc | exact Hc].
Defined.
