(* ===== verification/Observer.v ===== *)
(** * The Kubernetes observer (regression/core/observer.ts)

    kubectl as a subprocess: [child_step] reacts to the events of the process in any order.
    The observer reads objects with it, after a review of its own permissions showed that they
    cannot change anything; the lock's credential may replace one Lease. Objects and reviews
    are read from JSON with the fields of their declared types ([KubeObject], [Review]). *)

From S2P Require Import Prelude Js Number Json JsonParse Prog Errors KubernetesCommand.

Local Open Scope string_scope.
Local Open Scope js_scope.
Local Open Scope Z_scope.

(** ** Errors

    A KubernetesCommandError is a HarnessError OBSERVER that carries its diagnostic. *)
Inductive kube_exn : Type :=
| Command (d : KubernetesCommandDiagnostic)
| Other (e : exn).
Definition exn_of (e : kube_exn) : exn := match e with Command _ => harness OBSERVER | Other e => e end.
Definition kube_code (e : kube_exn) : ReasonCode := code_or (exn_of e) UNEXPECTED.
Definition type_error : kube_exn := Other (Foreign "TypeError").

(** ** The subprocess *)
Inductive ChildEvent : Type :=
| Stdout (chunk : string)
| Stderr (chunk : string) (bytes : Z)
| Child_error
| Stdin_error
| Close (code : option number) (signal : option string)
| Timer.

Record Child : Type := {
  ch_stdout : string;
  ch_stderr : string;
  ch_stderrBytes : Z;
  ch_killed : bool;
  ch_result : option (res kube_exn string)
}.
Definition spawned : Child := {| ch_stdout := ""; ch_stderr := ""; ch_stderrBytes := 0; ch_killed := false; ch_result := None |}.

Definition command_error (f : CommandFailure) : kube_exn :=
  Command {| kc_commandFailure := f; kc_httpStatus := None; kc_kubernetesReason := None; kc_exitCode := None; kc_processSignal := None |}.

(** [finish], which settles the promise at most once, and [child.kill]. *)
Definition finish (r : res kube_exn string) (c : Child) : Child :=
  match ch_result c with
  | Some _ => c
  | None => {| ch_stdout := ""; ch_stderr := ""; ch_stderrBytes := ch_stderrBytes c; ch_killed := ch_killed c; ch_result := Some r |}
  end.
Definition kill (c : Child) : Child :=
  {| ch_stdout := ch_stdout c; ch_stderr := ch_stderr c; ch_stderrBytes := ch_stderrBytes c; ch_killed := true; ch_result := ch_result c |}.
Definition with_stdout (s : string) (c : Child) : Child :=
  {| ch_stdout := s; ch_stderr := ch_stderr c; ch_stderrBytes := ch_stderrBytes c; ch_killed := ch_killed c; ch_result := ch_result c |}.
Definition with_stderr (s : string) (bytes : Z) (c : Child) : Child :=
  {| ch_stdout := ch_stdout c; ch_stderr := s; ch_stderrBytes := bytes; ch_killed := ch_killed c; ch_result := ch_result c |}.

Definition stdout_limit : Z := 8388608.
Definition stderr_limit : Z := 1048576.
Definition stderr_kept : Z := 65536.
Definition zlength (s : string) : Z := Z.of_nat (String.length s).

Definition child_step (c : Child) (e : ChildEvent) : Child :=
  match e with
  | Stdout chunk =>
      if ch_result c then c
      else let c := with_stdout (ch_stdout c +:+ chunk) c in
           if stdout_limit <? zlength (ch_stdout c) then finish (Err (command_error F_output_limit)) (kill c) else c
  | Stderr chunk bytes =>
      if ch_result c then c
      else let kept := if zlength (ch_stderr c) <? stderr_kept then take_str (Z.to_nat stderr_kept) (ch_stderr c +:+ chunk) else ch_stderr c in
           let c := with_stderr kept (ch_stderrBytes c + bytes) c in
           if stderr_limit <? ch_stderrBytes c then finish (Err (command_error F_output_limit)) (kill c) else c
  | Child_error => finish (Err (command_error F_spawn)) c
  | Stdin_error => finish (Err (command_error F_input)) c
  | Close code signal =>
      finish (if bool_decide (code = Some (Int 0)) && negb (truthy (signal ?? "")) then Ok (ch_stdout c)
              else Err (Command (kubernetesCommandFailure (ch_stdout c) (ch_stderr c) code signal))) c
  | Timer => finish (Err (command_error F_timeout)) (kill c)
  end.

(** ** Objects *)
Record KubeObject : Type := {
  ko_uid : option string;
  ko_name : option string;
  ko_namespace : option string;
  ko_generation : option number;
  ko_resourceVersion : option string;
  ko_deletionTimestamp : option string;
  ko_labels : dict json;
  ko_spec : option (dict json)
}.

(** Nothing when the metadata are missing: reading them throws a TypeError. *)
Definition kube_object (v : json) : option KubeObject :=
  base.mbind (fun d => base.mbind (fun m =>
    Some {| ko_uid := text_field m "uid"; ko_name := text_field m "name"; ko_namespace := text_field m "namespace";
            ko_generation := base.mbind json_num (dict_get m "generation"); ko_resourceVersion := text_field m "resourceVersion";
            ko_deletionTimestamp := text_field m "deletionTimestamp";
            ko_labels := (base.mbind json_obj (dict_get m "labels")) ?? []; ko_spec := base.mbind json_obj (dict_get d "spec") |})
    (base.mbind json_obj (dict_get d "metadata"))) (json_obj v).

(** ** Reviews of permissions *)

(** The arrays of a rule; nothing where there is none. The API's arrays hold strings. *)
Record Rule : Type := {
  ru_verbs : option (list string);
  ru_apiGroups : option (list string);
  ru_resources : option (list string)
}.
Record Review : Type := {
  rv_incomplete : option bool;
  rv_resourceRules : option (list Rule);
  rv_nonResourceRules : list (option (list string))
}.

Definition json_bool (v : json) : option bool := match v with JBool b => Some b | _ => None end.
Definition json_list (v : json) : option (list json) := match v with JArr l => Some l | _ => None end.
Definition strings_at (d : dict json) (k : string) : option (list string) :=
  base.mbind (fun l => mapM json_str l) (base.mbind json_list (dict_get d k)).
Definition read_rule (v : json) : Rule :=
  let d := json_obj v ?? [] in
  {| ru_verbs := strings_at d "verbs"; ru_apiGroups := strings_at d "apiGroups"; ru_resources := strings_at d "resources" |}.
Definition read_review (v : json) : Review :=
  let status := (base.mbind json_obj (dict_get (json_obj v ?? []) "status")) ?? [] in
  {| rv_incomplete := base.mbind json_bool (dict_get status "incomplete");
     rv_resourceRules := map read_rule <$> base.mbind json_list (dict_get status "resourceRules");
     rv_nonResourceRules := map (fun r => strings_at (json_obj r ?? []) "verbs") ((base.mbind json_list (dict_get status "nonResourceRules")) ?? []) |}.

Definition review_groups : list string := ["authorization.k8s.io"; "authentication.k8s.io"].
Definition review_resources : list string := ["selfsubjectaccessreviews"; "selfsubjectrulesreviews"; "selfsubjectreviews"].
Definition self_review (groups resources : list string) : bool := forallb (includes review_groups) groups && forallb (includes review_resources) resources.

Definition observer_rule (r : Rule) : bool :=
  match ru_verbs r, ru_apiGroups r, ru_resources r with
  | Some verbs, Some groups, Some resources =>
      forallb (fun verb => includes ["get"; "list"; "watch"] verb || String.eqb verb "create" && self_review groups resources) verbs &&
      negb (existsb (fun resource => String.eqb resource "secrets" || includesStr "*" resource || includesStr "/" resource) resources)
  | _, _, _ => false
  end.
Definition get_only (verbs : option (list string)) : bool := match verbs with Some l => forallb (String.eqb "get") l | None => false end.

Definition verifyObserverRules (value : Review) : res exn unit :=
  requireSafe (bool_decide (rv_incomplete value = Some false) &&
               match rv_resourceRules value with Some rules => forallb observer_rule rules | None => false end &&
               forallb get_only (rv_nonResourceRules value)) OBSERVER.

(** ** Commands *)

(** The parts of the server's URL: username, password, search and hash. *)
Class ServerUrl : Type := server_url : string -> option (string * string * string * string).

(** [Number] as a String of the arguments. *)
Definition get_args (resource : string) (namespace name : option string) : list string :=
  (["get"; resource] ++ (if truthy (name ?? "") then [name ?? ""] else []) ++
   (if truthy (namespace ?? "") then ["-n"; namespace ?? ""] else ["-A"]) ++ ["-o"; "json"])%list.
Definition valid_resource (s : string) : bool :=
  match s with String c s' => is_lower c && sforall (fun c => is_lower c || is_digit c || Ascii.eqb c ".") s' | "" => false end &&
  negb (includesStr "secret" s).
Definition valid_namespace (s : string) : bool := truthy s && sforall (fun c => is_lower c || is_digit c || Ascii.eqb c "-") s.
Definition valid_name (s : string) : bool := truthy s && sforall (fun c => is_lower c || is_digit c || Ascii.eqb c "." || Ascii.eqb c "-") s.
Definition falsy_or (check : string -> bool) (s : option string) : bool := negb (truthy (s ?? "")) || check (s ?? "").

Section observer.
Context {E : Type -> Type} {S : Type} `{ServerUrl}.
Notation KM := (M E S kube_exn).
Context (command : list string -> option string -> KM string) (readPrivate : string -> KM string).

Definition require (b : bool) (c : ReasonCode) : KM unit := of_res (if b then Ok tt else Err (Other (harness c))).

(** [JSON.parse], whose SyntaxError reaches the caller. *)
Definition parse_json (text : string) : KM json := match JSON_parse text with Some v => mret v | None => throw (Other (Foreign "SyntaxError")) end.

Definition get_object (resource : string) (namespace name : option string) : KM json :=
  require (valid_resource resource && falsy_or valid_namespace namespace && falsy_or valid_name name) OBSERVER ;;
  try_catch (let! text := command (get_args resource namespace name) None in parse_json text)
    (fun e => match e with Command d => throw (Command d) | Other _ => throw (Other (harness OBSERVER)) end).

Definition items_of (v : json) : res kube_exn (list KubeObject) :=
  match v with
  | JNull => Err type_error
  | _ => match base.mbind json_list (dict_get (json_obj v ?? []) "items") with
         | Some l => match mapM kube_object l with Some items => Ok items | None => Err type_error end
         | None => Err (Other (harness OBSERVER))
         end
  end.
Definition list_objects (resource : string) (namespace : option string) : KM (list KubeObject) :=
  let! value := get_object resource namespace None in of_res (items_of value).

(** [data.clusters?.[0]?.cluster] *)
Definition first_member (data : json) (list_ member : string) : option (dict json) :=
  base.mbind (fun d => base.mbind json_obj (dict_get d member))
    (base.mbind (fun l => base.mbind json_obj (head l)) (base.mbind json_list (dict_get (json_obj data ?? []) list_))).
Definition member_truthy (d : dict json) (k : string) : bool := match dict_get d k with Some v => json_truthy v | None => false end.
Definition config_view : list string := ["config"; "view"; "--raw"; "--minify"; "-o"; "json"].
Definition static_config (data : json) : option string :=
  match first_member data "clusters" "cluster", first_member data "users" "user" with
  | Some cluster, Some user =>
      let server := text_field cluster "server" ?? "" in
      if startsWith "https://" server && negb (member_truthy cluster "insecure-skip-tls-verify") &&
         negb (member_truthy user "exec") && negb (member_truthy user "auth-provider") then Some server else None
  | _, _ => None
  end.

Definition review_request (namespace : string) : string :=
  stringify "" "" (JObj [("apiVersion", JStr "authorization.k8s.io/v1"); ("kind", JStr "SelfSubjectRulesReview");
                         ("spec", JObj [("namespace", JStr namespace)])]).
Definition review_args : list string := ["create"; "--raw"; "/apis/authorization.k8s.io/v1/selfsubjectrulesreviews"; "-f"; "-"].
Definition review_of (namespace : string) : KM Review :=
  let! text := command review_args (Some (review_request namespace)) in
  let! value := parse_json text in mret (read_review value).

Definition plain_url (server : string) : bool :=
  match server_url server with
  | Some (username, password, search, hash) => negb (truthy username) && negb (truthy password) && negb (truthy search) && negb (truthy hash)
  | None => false
  end.
Definition static_of (data : json) : KM string := match static_config data with Some s => mret s | None => throw (Other (harness OBSERVER)) end.
(** [new URL(...)] throws when the text is no URL. *)
Definition require_url (server : string) : KM unit :=
  if bool_decide (is_Some (server_url server)) then require (plain_url server) OBSERVER else throw type_error.

Definition verifyConfiguration (kubeconfig : string) : KM unit :=
  readPrivate kubeconfig ;;
  let! text := command config_view None in
  let! data := parse_json text in
  let! server := static_of data in
  require_url server ;;
  let! namespaces := list_objects "namespaces" None in
  for_each namespaces (fun namespace =>
    require (truthy (ko_name namespace ?? "")) OBSERVER ;;
    let! review := review_of (ko_name namespace ?? "") in
    of_res (match verifyObserverRules review with Ok tt => Ok tt | Err e => Err (Other e) end)).

(** ** The store of the lock (KubernetesLeaseStore) *)
Definition lease_namespace : string := "magicstick-regression".
Definition lease_name : string := "lab-lock".
Definition lease_store (namespace name : string) : KM unit :=
  require (String.eqb namespace lease_namespace && String.eqb name lease_name) CONFIG.
Definition lease_read : KM json := get_object "leases.coordination.k8s.io" (Some lease_namespace) (Some lease_name).
Definition replaceable (lease : json) : bool :=
  match kube_object lease with
  | Some o => bool_decide (ko_namespace o = Some lease_namespace) && bool_decide (ko_name o = Some lease_name) && truthy (ko_resourceVersion o ?? "")
  | None => false
  end.
Definition lease_replace (lease : json) : KM json :=
  require (replaceable lease) LOCK_LOST ;;
  let! text := command ["replace"; "-f"; "-"; "-o"; "json"] (Some (stringify "" "" lease)) in parse_json text.
End observer.
