(* ===== verification/JournalProps.v ===== *)
(** * The journal: what is recorded, what may be removed

    Every journal a run writes is one a later run accepts ([journal_durable],
    [journal_resume]); entries only move forward ([entry_step]); and a resource is removed
    only under its recorded identity, looked up again and with the lease still held. *)

From S2P Require Import Prelude Js Number Regex Json JsonParse Prog Errors Journal.

Local Open Scope string_scope.
Local Open Scope js_scope.
Local Open Scope Z_scope.

#[local] Arguments Ascii.eqb : simpl never.

(** ** Well-formed journals *)
Definition entry_wf (prefix : string) (e : JournalEntry) : bool :=
  ownedJournalName (je_kind e) (je_name e) prefix &&
  match je_uid e with Some u => truthy u | None => negb (bool_decide (je_state e = E_owned)) end &&
  match je_generation e with
  | Some g => has_generation (je_kind e) && positive_integer g && bool_decide (is_Some (je_uid e))
  | None => true
  end &&
  match je_cleanupFailure e with Some _ => bool_decide (je_state e = E_blocked) | None => true end.

Definition journal_wf (d : JournalData) : Prop :=
  rtest run_pattern (jd_runId d) = true /\ jd_prefix d = run_prefix (jd_runId d) /\
  Forall (fun e => entry_wf (jd_prefix d) e = true) (jd_entries d) /\ NoDup (map key_of (jd_entries d)).

(** ** The stored form reads back *)
Lemma named_spec {A} (name : A -> string) (l : list A) v a :
  named name l v = Some a -> a ∈ l /\ v = Some (JStr (name a)).
Proof.
  unfold named. destruct v as [[]|]; try done. intros [H1 H2]%find_first_Some. apply String.eqb_eq in H2 as <-. done.
Qed.

Lemma failure_roundtrip f : validCleanupFailure (failure_json f) = Some f.
Proof.
  destruct f as [op reason stage]. unfold failure_json, validCleanupFailure. cbn [cf_operation cf_reason cf_stage].
  assert (Hop : named operation_name cleanupOperations (Some (JStr (operation_name op))) = Some op) by (by destruct op).
  assert (Hr : named reason_name all_reasons (Some (JStr (reason_name reason))) = Some reason) by apply reason_of_string_name.
  destruct stage as [stage|].
  - assert (Hs : named stage_name stages (Some (JStr (stage_name stage))) = Some stage) by apply stage_of_string_name.
    change (dict_get _ "operation") with (Some (JStr (operation_name op))).
    change (dict_get _ "reason") with (Some (JStr (reason_name reason))).
    change (dict_get _ "stage") with (Some (JStr (stage_name stage))). rewrite Hop, Hr. cbn [base.mbind option_bind]. by rewrite Hs.
  - change (dict_get _ "operation") with (Some (JStr (operation_name op))).
    change (dict_get _ "reason") with (Some (JStr (reason_name reason))).
    change (dict_get _ "stage") with (@None json). by rewrite Hop, Hr.
Qed.

Lemma entry_roundtrip prefix e : entry_wf prefix e = true -> checked_entry prefix (entry_json e) = Some e.
Proof.
  destruct e as [kind name uid state gen failure]. unfold entry_wf, entry_json, checked_entry.
  cbn [je_kind je_name je_uid je_state je_generation je_cleanupFailure].
  set (d := (_ ++ _)%list). intros H. bool_prop.
  assert (Hk : named kind_name resource_kinds (dict_get d "kind") = Some kind) by (by destruct kind).
  assert (Hn : text_field d "name" = Some name) by done.
  assert (Hs : named state_name entry_states (dict_get d "state") = Some state) by (by destruct state).
  assert (Hu : dict_get d "uid" = Some (match uid with Some u => JStr u | None => JNull end)) by done.
  assert (Hg : dict_get d "generation" = JNum <$> gen) by (by destruct gen, failure).
  assert (Hf : dict_get d "cleanupFailure" = failure_json <$> failure) by (by destruct gen, failure).
  rewrite Hk, Hn, Hs, Hu, Hg, Hf. cbn [base.mbind option_bind].
  destruct uid as [u|], gen as [g|], failure as [f|]; cbn [fmap option_fmap option_map base.mbind option_bind] in *; bool_prop; subst;
    rewrite ?failure_roundtrip; unfold base.mbind, option_bind, fmap, option_fmap, option_map; cbn beta iota;
    repeat (match goal with H : _ = true |- _ => rewrite H end; cbn beta iota delta [andb]);
    rewrite ?orb_true_r; try done.
  by rewrite bool_decide_eq_false_2.
Qed.

Lemma entries_roundtrip prefix l seen :
  Forall (fun e => entry_wf prefix e = true) l -> NoDup (map key_of l) -> Forall (fun e => key_of e ∉ seen) l ->
  checked_entries prefix seen (map entry_json l) = Some l.
Proof.
  revert seen. induction l as [|e l IH]; intros seen Hw Hd Hs; [done|]. cbn [map checked_entries].
  apply Forall_cons in Hw as [H1 H2]. apply NoDup_cons in Hd as [H3 H4]. apply Forall_cons in Hs as [H5 H6].
  rewrite entry_roundtrip by done. cbn [base.mbind option_bind]. rewrite bool_decide_eq_false_2 by done.
  rewrite IH; [done | done | done |]. rewrite Forall_forall in *. intros e' He' [Heq|Hin]%elem_of_cons.
  - apply H3. rewrite <- Heq. apply list_elem_of_fmap. by exists e'.
  - by apply (H6 e').
Qed.

(** Conversely, what passes the checks is well formed. *)
Lemma checked_entry_wf prefix v e : checked_entry prefix v = Some e -> entry_wf prefix e = true.
Proof.
  unfold checked_entry. destruct v as [| | | | |d]; try done. intros H.
  apply bind_Some in H as (kind & Hkind & H). apply bind_Some in H as (name & Hname & H).
  apply bind_Some in H as (state & Hstate & H). apply bind_Some in H as (uid & Huid & H).
  apply bind_Some in H as (gen & Hgen & H). apply bind_Some in H as (failure & Hfail & H).
  destruct (ownedJournalName _ _ _ && _) eqn:Hc; [|done]. injection H as <-. apply andb_prop in Hc as [Hn Ho].
  unfold entry_wf. cbn [je_kind je_name je_uid je_state je_generation je_cleanupFailure]. rewrite Hn. cbn [andb].
  assert (Hu : match uid with Some u => truthy u | None => negb (bool_decide (state = E_owned)) end = true).
  { destruct (dict_get d "uid") as [[| | |u| |]|]; try done.
    - injection Huid as <-. by rewrite orb_comm in Ho.
    - destruct (truthy u) eqn:Ht; [|done]. by injection Huid as <-. }
  rewrite Hu. cbn [andb]. apply andb_true_iff. split.
  - destruct gen as [g|]; [|done]. destruct (dict_get d "generation") as [[]|]; try done.
    destruct (_ && _) eqn:Hc; [|done]. by injection Hgen as <-.
  - destruct failure as [f|]; [|done]. destruct (dict_get d "cleanupFailure"); [|done].
    by destruct (bool_decide (state = E_blocked)).
Qed.

Lemma checked_entries_wf prefix seen l es :
  checked_entries prefix seen l = Some es ->
  Forall (fun e => entry_wf prefix e = true) es /\ NoDup (map key_of es) /\ Forall (fun e => key_of e ∉ seen) es.
Proof.
  revert seen es. induction l as [|v l IH]; intros seen es H; cbn [checked_entries] in H.
  - injection H as <-. split_and!; constructor.
  - apply bind_Some in H as (e & He & H). destruct (bool_decide _) eqn:Hseen; [done|]. bool_prop.
    apply bind_Some in H as (es' & Hes & H). injection H as <-. destruct (IH _ _ Hes) as (H1 & H2 & H3).
    split_and!; [constructor; [by eapply checked_entry_wf | done] | cbn [map]; constructor; [|done] |].
    + intros (e' & Heq & He')%list_elem_of_fmap. rewrite Forall_forall in H3. apply (H3 e' He'). rewrite Heq. apply elem_of_cons. by left.
    + constructor; [done|]. eapply Forall_impl; [exact H3|]. intros e' He' Hin. apply He', elem_of_cons. by right.
Qed.

(** What a later run accepts. A stored journal is accepted exactly when it is the stored
    form of a well-formed journal of the same appliance: run and prefix match, every entry
    has an owned name, a state that agrees with its identity, generation and failure, and no
    two entries share kind and name; and what was accepted is what was stored. *)
Theorem journal_resume targetUid d :
  (journal_wf d /\ jd_targetUid d = targetUid <-> resume_value targetUid (journal_json d) = Ok d) /\
  (forall v d', resume_value targetUid v = Ok d' -> journal_wf d' /\ jd_targetUid d' = targetUid).
Proof.
  assert (Hsound : forall v d', resume_value targetUid v = Ok d' -> journal_wf d' /\ jd_targetUid d' = targetUid).
  { intros v d'. unfold resume_value. destruct v as [| | | | |o]; try done.
    destruct (text_field o "runId"), (text_field o "targetUid"), (text_field o "prefix"), (dict_get o "entries") as [[]|]; try done.
    destruct (_ && _) eqn:Hc; [|done]. bool_prop. destruct (checked_entries _ _ _) as [es|] eqn:He; [|done].
    intros [= <-]. apply String.eqb_eq in H0 as ->, H2 as ->.
    destruct (checked_entries_wf _ _ _ _ He) as (H3 & H4 & _). done. }
  split; [|exact Hsound]. split; [|apply Hsound].
  intros [(H1 & H2 & H3 & H4) <-]. unfold resume_value, journal_json.
  change (text_field _ "runId") with (Some (jd_runId d)). change (text_field _ "targetUid") with (Some (jd_targetUid d)).
  change (text_field _ "prefix") with (Some (jd_prefix d)). change (dict_get _ "entries") with (Some (JArr (map entry_json (jd_entries d)))).
  change (version_one _) with true. cbn beta iota. rewrite H1, H2, !String.eqb_refl. cbn [andb].
  rewrite H2 in H3. rewrite entries_roundtrip; [by rewrite <- H2; destruct d | done | done |].
  apply Forall_forall. set_solver.
Qed.

(** ** How entries move *)

(** An entry keeps its kind and name, never becomes requested again, keeps its identity from
    the moment it is more than requested, and is final once removed. *)
Definition advances (e e' : JournalEntry) : Prop :=
  key_of e' = key_of e /\ (je_state e' = E_requested -> je_state e = E_requested) /\
  (je_state e = E_requested \/ je_uid e = None \/ je_uid e' = je_uid e) /\ (je_state e = E_removed -> e' = e).

(** A journal keeps its header and its entries, which advance; new ones are only requested. *)
Definition journal_advances (d d' : JournalData) : Prop :=
  with_entries [] d' = with_entries [] d /\
  exists l new, jd_entries d' = (l ++ new)%list /\ Forall2 advances (jd_entries d) l /\
                Forall (fun e => je_state e = E_requested /\ je_uid e = None) new.

#[export] Instance advances_refl : Reflexive advances.
Proof. intros e. unfold advances. auto 6. Qed.
#[export] Instance advances_trans : Transitive advances.
Proof.
  intros e e' e'' (H1 & H2 & H3 & H4) (H5 & H6 & H7 & H8). unfold advances. split_and!; [congruence | auto | | ].
  - destruct H3 as [H3|[H3|H3]]; [auto..|]. destruct H7 as [H7|[H7|H7]]; [auto | right; left; congruence | right; right; congruence].
  - intros H. rewrite (H4 H) in *. auto.
Qed.

Lemma advances_update l0 l i e f :
  Forall2 advances l0 l -> l !! i = Some e -> advances e (f e) -> Forall2 advances l0 (alter f i l).
Proof.
  intros Hl Hi He. apply Forall2_same_length_lookup_2; [by rewrite length_alter, (Forall2_length _ _ _ Hl)|].
  intros j x y Hx Hy. destruct (decide (i = j)) as [<-|Hne].
  - rewrite list_lookup_alter, decide_True, Hi in Hy by done. injection Hy as <-.
    transitivity e; [|done]. by eapply Forall2_lookup_lr.
  - rewrite list_lookup_alter_ne in Hy by done. by eapply Forall2_lookup_lr.
Qed.

(** An update that keeps the key and the entry well formed keeps the journal well formed. *)
Lemma update_wf d i e f :
  journal_wf d -> jd_entries d !! i = Some e -> key_of (f e) = key_of e ->
  (entry_wf (jd_prefix d) e = true -> entry_wf (jd_prefix d) (f e) = true) -> journal_wf (update_entry i f d).
Proof.
  intros (H1 & H2 & H3 & H4) Hi Hk Hw. unfold update_entry, with_entries. split_and!; [done | done | |]; cbn [jd_entries jd_prefix].
  - apply Forall_lookup. intros j x Hx. destruct (decide (i = j)) as [<-|Hne].
    + rewrite list_lookup_alter, decide_True, Hi in Hx by done. injection Hx as <-. apply Hw. by eapply (Forall_lookup_1 _ _ _ _ H3).
    + rewrite list_lookup_alter_ne in Hx by done. by eapply (Forall_lookup_1 _ _ _ _ H3).
  - assert (Heq : map key_of (alter f i (jd_entries d)) = map key_of (jd_entries d)); [|by rewrite Heq].
    apply list_eq. intros j. rewrite !list_lookup_fmap. destruct (decide (i = j)) as [<-|Hne].
    + rewrite list_lookup_alter, decide_True, Hi by done. cbn. by rewrite Hk.
    + by rewrite list_lookup_alter_ne.
Qed.

Lemma entry_removed_wf p e : entry_wf p e = true -> entry_wf p (entry_removed e) = true.
Proof. unfold entry_wf, entry_removed. cbn. destruct (je_uid e), (je_generation e); intros; bool_prop; bsplit; rewrite ?andb_true_iff; by split_and!. Qed.
Lemma entry_rejected_wf p e :
  je_state e = E_requested -> entry_wf p e = true -> entry_wf p (entry_rejected e) = true.
Proof.
  unfold entry_wf, entry_rejected. cbn. intros ->. destruct (je_uid e), (je_generation e), (je_cleanupFailure e);
    intros; bool_prop; rewrite ?andb_true_iff; by split_and!.
Qed.
Lemma entry_owned_wf p e uid g :
  je_state e = E_requested -> truthy uid = true ->
  match g with Some g => has_generation (je_kind e) && positive_integer g | None => true end = true ->
  entry_wf p e = true -> entry_wf p (entry_owned uid g e) = true.
Proof.
  unfold entry_wf, entry_owned. cbn. intros -> Hu Hg H. bool_prop.
  destruct (je_cleanupFailure e); [done|]. destruct g as [g|]; cbn [or_else].
  - rewrite Hu. rewrite andb_true_r in *. by rewrite !andb_true_iff in *.
  - destruct (je_generation e); bool_prop; rewrite ?andb_true_iff; by split_and!.
Qed.
Lemma entry_generation_wf p e prev g :
  je_generation e = Some prev -> isSafeInteger g = true -> num_ltb prev g = true ->
  entry_wf p e = true -> entry_wf p (entry_generation g e) = true.
Proof.
  unfold entry_wf, entry_generation. cbn. intros -> Hg Hlt H. bool_prop.
  assert (Hpos : positive_integer g = true).
  { unfold positive_integer in *. bool_prop. rewrite Hg. cbn [andb].
    destruct prev as [p0| | | |], g as [g0| | | |]; try done. cbn in *. lia. }
  rewrite Hpos, !andb_true_iff. split_and!; try done. by apply bool_decide_eq_true.
Qed.
Lemma entry_blocked_wf p e f : entry_wf p e = true -> entry_wf p (entry_blocked f e) = true.
Proof.
  unfold entry_wf, entry_blocked. cbn. destruct (je_uid e); intros; bool_prop; rewrite ?andb_true_iff; by split_and!.
Qed.
Lemma entry_failed_wf p e f : je_state e = E_blocked -> entry_wf p e = true -> entry_wf p (entry_failed f e) = true.
Proof.
  unfold entry_wf, entry_failed. cbn. intros ->. destruct (je_uid e); intros; bool_prop; rewrite ?andb_true_iff; by split_and!.
Qed.

Create HintDb journal.
#[export] Hint Resolve entry_removed_wf entry_blocked_wf : journal.

(** ** The environment *)

(** The last lookup that found a resource, whether the lease was confirmed since, the
    resources whose absence was confirmed, and the journal last stored. *)
Record Ghost : Type := {
  gh_seen : option ((ResourceKind * string) * string);
  gh_held : bool;
  gh_verified : list (ResourceKind * string);
  gh_written : option JournalData
}.

Definition journal_upd X (g : Ghost) (op : journalE X) : X -> Ghost :=
  match op in journalE X return X -> Ghost with
  | Write_journal d _ => fun r =>
      {| gh_seen := gh_seen g; gh_held := gh_held g; gh_verified := gh_verified g;
         gh_written := if is_ok r then Some d else gh_written g |}
  | Assert_held => fun r =>
      {| gh_seen := gh_seen g; gh_held := is_ok r; gh_verified := gh_verified g; gh_written := gh_written g |}
  | Lookup e => fun r =>
      {| gh_seen := match r with Ok (Some c) => Some (key_of e, fd_uid c) | _ => None end; gh_held := false;
         gh_verified := gh_verified g; gh_written := gh_written g |}
  | Remove_if_uid _ _ => fun _ =>
      {| gh_seen := None; gh_held := false; gh_verified := gh_verified g; gh_written := gh_written g |}
  | Verify_removed e => fun r =>
      {| gh_seen := gh_seen g; gh_held := gh_held g;
         gh_verified := match r with Ok true => key_of e :: gh_verified g | _ => gh_verified g end; gh_written := gh_written g |}
  | _ => fun _ => g
  end.
Definition journal_asm X (g : Ghost) (op : journalE X) (x : X) : Prop := True.

Section calls.
Context (d0 : JournalData).
Hypothesis Hwf : journal_wf d0.

(** A stored journal is well formed and an advance of the first; a resource is removed only
    under the identity it was recorded with, which the last lookup found, with the lease
    confirmed after it. *)
Definition journal_pre X (g : Ghost) (op : journalE X) : Prop :=
  match op with
  | Write_journal d exclusive => exclusive = false /\ journal_wf d /\ journal_advances d0 d
  | Remove_if_uid e uid =>
      e ∈ jd_entries d0 /\ je_uid e = Some uid /\ gh_seen g = Some (key_of e, uid) /\ gh_held g = true
  | _ => True
  end.

Local Notation W m := (wpm journal_pre journal_asm journal_upd m).

(** What holds of the journal after a call. *)
Definition kept (g : Ghost) (d : JournalData) (r : res exn unit) : Prop :=
  journal_wf d /\ journal_advances d0 d /\ (r = Ok tt -> gh_written g = Some d \/ d = d0).

Lemma persist_wp d g (Q : Ghost -> JournalData -> res exn unit -> Prop) :
  journal_wf d -> journal_advances d0 d ->
  (forall g', gh_verified g' = gh_verified g -> gh_written g' = Some d -> Q g' d (Ok tt)) ->
  (forall g' e, gh_verified g' = gh_verified g -> Q g' d (Err e)) -> W persist d g Q.
Proof.
  intros H1 H2 H3 H4. unfold persist. wpm_step. wpm_step. wpm_step; [done|]. intros [[]|e] _; [by apply H3 | by apply H4].
Qed.

Lemma advances_header l : Forall2 advances (jd_entries d0) l -> journal_advances d0 (with_entries l d0).
Proof. intros H. split; [done|]. exists l, []. by rewrite app_nil_r. Qed.

Lemma position_spec k name l i : position k name l = Some i -> exists e, l !! i = Some e /\ key_of e = (k, name).
Proof.
  revert i. induction l as [|e l IH]; intros i; cbn [position]; [done|]. unfold same_key. destruct (bool_decide _) eqn:Hk.
  - intros [= <-]. bool_prop. by exists e.
  - destruct (position k name l) as [j|]; [|done]. intros [= <-]. by apply IH.
Qed.

Lemma on_entry_wp kind name check f g :
  (forall e, check e = true -> key_of (f e) = key_of e) ->
  (forall e, check e = true -> key_of e = (kind, name) -> entry_wf (jd_prefix d0) e = true -> entry_wf (jd_prefix d0) (f e) = true) ->
  (forall e, check e = true -> advances e (f e)) ->
  W (on_entry kind name check f) d0 g kept.
Proof using Hwf.
  intros Hk Hw Ha. assert (Hnone : forall r g, r <> Ok tt -> kept g d0 r).
  { intros r g' Hr. split_and!; [done | | done]. split; [done|]. exists (jd_entries d0), []. rewrite app_nil_r. by split_and!. }
  unfold on_entry. wpm_step. wpm_step. destruct (position _ _ _) as [i|] eqn:Hi; [|by wpm_step; apply Hnone].
  destruct (position_spec _ _ _ _ Hi) as (e & He & Hkey). hstep. hstep; [|by apply Hnone]. rewrite He in H.
  wpm_step. wpm_step. assert (Hadv : journal_advances d0 (update_entry i f d0)).
  { apply advances_header. by eapply advances_update; [reflexivity | exact He | apply Ha]. }
  assert (Hwf' : journal_wf (update_entry i f d0)) by (by eapply update_wf; [exact Hwf | exact He | apply Hk | apply Hw]).
  apply persist_wp; [done | done | |]; intros g'; [intros _ Hg' | intros e' _]; split_and!; auto. done.
Qed.

Lemma kept_same g r : r <> Ok tt \/ True -> kept g d0 r.
Proof using Hwf.
  intros _. split_and!; [done | | by right]. split; [done|]. exists (jd_entries d0), []. rewrite app_nil_r. by split_and!.
Qed.

Lemma requested_wp kind name g : W (requested kind name) d0 g kept.
Proof using Hwf.
  unfold requested. wpm_step. wpm_step. wpm_step. hstep; [|by apply kept_same; left]. bool_prop.
  wpm_step. wpm_step.
  set (e := {| je_kind := kind; je_name := name; je_uid := None; je_state := E_requested; je_generation := None;
               je_cleanupFailure := None |}).
  set (d := with_entries _ d0). destruct Hwf as (H1 & H2 & H3 & H4).
  assert (Hwf' : journal_wf d).
  { split_and!; [done | done | |]; cbn [jd_entries jd_prefix d with_entries].
    - apply Forall_app. split; [done|]. constructor; [|done]. unfold entry_wf. cbn. by rewrite H.
    - rewrite map_app. apply NoDup_app. split_and!; [done | | apply NoDup_singleton].
      intros k Hk Hin. apply list_elem_of_singleton in Hin. subst k. apply list_elem_of_fmap in Hk as (e' & Hk & He').
      assert (Hs : same_key kind name e' = true) by (by apply bool_decide_eq_true).
      assert (He : existsb (same_key kind name) (jd_entries d0) = true) by (apply existsb_elem; by exists e').
      by rewrite He in H0. }
  assert (Hadv : journal_advances d0 d) by (split; [done|]; exists (jd_entries d0), [e]; split_and!; [done | done | by constructor]).
  apply persist_wp; [done | done | |]; intros g'; [intros _ Hg' | intros e' _]; split_and!; auto. done.
Qed.

Lemma in_state_spec l e : in_state l e = true <-> je_state e ∈ l.
Proof. unfold in_state. apply bool_decide_eq_true. Qed.

Ltac entry_facts :=
  intros; bool_prop;
  repeat match goal with H : in_state _ _ = true |- _ => apply in_state_spec in H; rewrite ?elem_of_cons, ?elem_of_nil in H end;
  try (match goal with H : key_of _ = (_, _) |- _ => injection H as <- <- end).

(** Every update below leaves [requested], and none touches a removed entry. *)
Ltac advance := unfold advances; split_and!; cbn; try done; intuition (try congruence).

Lemma owned_wp kind name uid gen g : W (owned kind name uid gen) d0 g kept.
Proof using Hwf.
  apply on_entry_wp; [done | |]; entry_facts; [apply entry_owned_wf; intuition done | advance].
Qed.

Lemma rejected_wp kind name g : W (rejected kind name) d0 g kept.
Proof using Hwf.
  apply on_entry_wp; [done | |]; entry_facts; [apply entry_rejected_wf; intuition done | advance].
Qed.

Lemma recoveredAbsent_wp kind name g : W (recoveredAbsent kind name) d0 g kept.
Proof using Hwf. apply on_entry_wp; [done | |]; entry_facts; [by apply entry_removed_wf | advance]. Qed.

Lemma generation_wp kind name uid previous next g : W (generation kind name uid previous next) d0 g kept.
Proof using Hwf.
  apply on_entry_wp; [done | |]; entry_facts; [|advance].
  destruct (je_generation e) as [prev|] eqn:He; [|done]. unfold num_eqb in *. bool_prop. subst.
  by eapply entry_generation_wf.
Qed.

(** *** Cleanup *)

(** An entry is removed only if it was, or its absence was confirmed. *)
Definition cleaned (verified : list (ResourceKind * string)) (e e' : JournalEntry) : Prop :=
  advances e e' /\ (je_state e' = E_removed -> je_state e = E_removed \/ key_of e ∈ verified).

Definition cleaning (g : Ghost) (d : JournalData) : Prop :=
  journal_wf d /\ with_entries [] d = with_entries [] d0 /\
  Forall2 (cleaned (gh_verified g)) (jd_entries d0) (jd_entries d).

Lemma cleaned_mono v v' e e' : v ⊆ v' -> cleaned v e e' -> cleaned v' e e'.
Proof. intros Hv [H1 H2]. split; [done|]. intros H. destruct (H2 H) as [|Hin]; [by left | right; by apply Hv]. Qed.

Lemma cleaning_mono g g' d : gh_verified g ⊆ gh_verified g' -> cleaning g d -> cleaning g' d.
Proof.
  intros Hv (H1 & H2 & H3). split_and!; [done | done |]. eapply Forall2_impl; [exact H3|]. intros e e'. by apply cleaned_mono.
Qed.

Lemma cleaning_advances g d : cleaning g d -> journal_advances d0 d.
Proof.
  intros (H1 & H2 & H3). split; [done|]. exists (jd_entries d), []. rewrite app_nil_r. split_and!; [done | | done].
  eapply Forall2_impl; [exact H3|]. by intros e e' [He _].
Qed.

Lemma cleaning_update g d i e f :
  cleaning g d -> jd_entries d0 !! i = Some e -> is_Some (jd_entries d !! i) ->
  (forall x, jd_entries d !! i = Some x -> key_of (f x) = key_of x /\ cleaned (gh_verified g) e (f x) /\
     (entry_wf (jd_prefix d) x = true -> entry_wf (jd_prefix d) (f x) = true)) ->
  cleaning g (update_entry i f d).
Proof.
  intros (H1 & H2 & H3) He [x Hx] Hf. destruct (Hf x Hx) as (Hk & Hc & Hw). split_and!.
  - by eapply update_wf.
  - done.
  - unfold update_entry. cbn [jd_entries with_entries].
    apply Forall2_same_length_lookup_2; [by rewrite length_alter, (Forall2_length _ _ _ H3)|].
    intros j a b Ha Hb. destruct (decide (i = j)) as [<-|Hne].
    + rewrite list_lookup_alter, decide_True, Hx in Hb by done. injection Hb as <-. rewrite He in Ha. by injection Ha as <-.
    + rewrite list_lookup_alter_ne in Hb by done. by eapply Forall2_lookup_lr.
Qed.

Lemma update_lookup_ne d i j f : i <> j -> jd_entries (update_entry i f d) !! j = jd_entries d !! j.
Proof. intros H. unfold update_entry. cbn [jd_entries with_entries]. by apply list_lookup_alter_ne. Qed.
Lemma update_lookup_eq d i f e : jd_entries d !! i = Some e -> jd_entries (update_entry i f d) !! i = Some (f e).
Proof. intros H. unfold update_entry. cbn [jd_entries with_entries]. by rewrite list_lookup_alter, decide_True, H. Qed.

(** The body: the journal is unchanged, or the entry is removed with its absence confirmed. *)
Definition body_post (i : nat) (e : JournalEntry) (g : Ghost) (d : JournalData) (g' : Ghost) (d' : JournalData)
    (r : res (CleanupOperation * exn) unit) : Prop :=
  gh_verified g ⊆ gh_verified g' /\
  match r with
  | Ok _ => d' = update_entry i entry_removed d /\ key_of e ∈ gh_verified g' /\ gh_written g' = Some d'
  | Err _ => d' = d \/ (d' = update_entry i entry_removed d /\ key_of e ∈ gh_verified g')
  end.

Lemma removed_cleaning g d i e :
  cleaning g d -> jd_entries d0 !! i = Some e -> jd_entries d !! i = Some e -> je_state e <> E_removed ->
  key_of e ∈ gh_verified g -> cleaning g (update_entry i entry_removed d).
Proof.
  intros Hc H0 Hi Hr Hv. eapply cleaning_update; [done | exact H0 | by exists e |].
  intros x Hx. rewrite Hi in Hx. injection Hx as <-. split; [done|]. split; [|apply entry_removed_wf]. split; [advance | by right].
Qed.

(** Operations that store nothing and remove nothing. *)
Lemma wpm_free {A} (op : journalE (res exn A)) d g (Q : Ghost -> JournalData -> res exn A -> Prop) :
  (forall g, journal_pre _ g op) -> (forall r, Q (journal_upd _ g op r) d r) -> W (await op) d g Q.
Proof. intros H1 H2. wpm_step; [apply H1|]. auto. Qed.

Ltac diag := unfold running; apply wpm_free; [done|]; intros [[]|?]; cbn [journal_upd is_ok].

Lemma body_unchanged i e g d g' er : gh_verified g' = gh_verified g -> body_post i e g d g' d (Err er).
Proof. intros Hg'. split; [by rewrite Hg' | by left]. Qed.

Lemma cleanup_verify_wp i e d g g1 :
  cleaning g d -> jd_entries d0 !! i = Some e -> jd_entries d !! i = Some e -> je_state e <> E_removed ->
  gh_verified g1 = gh_verified g -> W (cleanup_verify i e) d g1 (body_post i e g d).
Proof using Hwf.
  intros Hc H0 Hi Hr Hg1. unfold cleanup_verify.
  wpm_step. wpm_step. wpm_step. diag; [|by apply body_unchanged].
  wpm_step. apply wpm_free; [done|]. intros [[]|er]; cbn [journal_upd]; [| |by apply body_unchanged].
  2:{ wpm_step. hstep; [done | by apply body_unchanged]. }
  wpm_step. hstep; [|done]. wpm_step. set (g2 := {| gh_seen := _ |}).
  assert (Hc2 : cleaning g2 d) by (eapply cleaning_mono; [|exact Hc]; cbn; rewrite Hg1; set_solver).
  assert (Hin : key_of e ∈ gh_verified g2) by (cbn; set_solver).
  assert (Hsub : gh_verified g ⊆ gh_verified g2) by (cbn; rewrite Hg1; set_solver).
  pose proof (removed_cleaning _ _ _ _ Hc2 H0 Hi Hr Hin) as Hd. clearbody g2.
  wpm_step. wpm_step. apply persist_wp; [by destruct Hd | by eapply cleaning_advances | |].
  - intros g' Hg' Hw. diag; (split; [by rewrite Hg'|]); [|right]; rewrite ?Hg'; by split_and!.
  - intros g' er Hg'. split; [by rewrite Hg' | right; by rewrite Hg'].
Qed.

Lemma cleanup_body_wp i e d g :
  cleaning g d -> jd_entries d0 !! i = Some e -> jd_entries d !! i = Some e -> je_state e <> E_removed ->
  W (cleanup_body i e) d g (body_post i e g d).
Proof using Hwf.
  intros Hc H0 Hi Hr. unfold cleanup_body.
  wpm_step. wpm_step. wpm_step. diag; [|by apply body_unchanged]. diag; [|by apply body_unchanged].
  wpm_step. wpm_step. wpm_step. diag; [|by apply body_unchanged].
  wpm_step. hstep; [|by apply body_unchanged]. bool_prop. wpm_step. apply wpm_free; [done|].
  intros [current|er]; cbn [journal_upd]; [|by apply body_unchanged]. wpm_step. diag; [|by apply body_unchanged].
  wpm_step. hstep; [|by apply body_unchanged]. wpm_step. wpm_step. wpm_step.
  2:{ by apply cleanup_verify_wp. }
  bool_prop. destruct current as [c|]; [|by destruct H3]. bool_prop. wpm_step. wpm_step. diag; [|by apply body_unchanged].
  wpm_step. wpm_step. diag; [|by apply body_unchanged]. wpm_step. wpm_step.
  { split_and!; [by eapply list_elem_of_lookup_2 | rewrite H2; done | by rewrite H2 | done]. }
  intros [[]|er] _; cbn [journal_upd]; [|by apply body_unchanged]. diag; [|by apply body_unchanged].
  by apply cleanup_verify_wp.
Qed.

(** One turn of the loop: other entries are untouched; without a failure the entry is
    skipped, or removed and stored. *)
Definition turn (only : option (ResourceKind * string)) (i : nat) (g : Ghost) (d : JournalData) (g' : Ghost)
    (d' : JournalData) (r : res exn (option CleanupFailure)) : Prop :=
  cleaning g' d' /\ gh_verified g ⊆ gh_verified g' /\ (forall j, i <> j -> jd_entries d' !! j = jd_entries d !! j) /\
  (r = Ok None ->
     (d' = d /\ gh_written g' = gh_written g /\
      (forall e, jd_entries d !! i = Some e -> je_state e = E_removed \/ in_scope only e = false)) \/
     (gh_written g' = Some d' /\ exists e, jd_entries d' !! i = Some e /\ je_state e = E_removed)).

(** The entry of a failed turn is blocked. *)
Lemma blocked_cleaning g d i e x f :
  cleaning g d -> jd_entries d0 !! i = Some e -> jd_entries d !! i = Some x -> je_state e <> E_removed ->
  key_of x = key_of e -> je_uid x = je_uid e -> cleaning g (update_entry i (entry_blocked f) d).
Proof.
  intros Hc H0 Hx Hr Hk Hu. eapply cleaning_update; [done | exact H0 | by exists x |].
  intros y Hy. rewrite Hx in Hy. injection Hy as <-. split; [done|]. split; [|apply entry_blocked_wf].
  split; [|done]. unfold advances. cbn. split_and!; [done | done | by right; right | by intros].
Qed.

Lemma failed_cleaning g d i e x f :
  cleaning g d -> jd_entries d0 !! i = Some e -> jd_entries d !! i = Some x -> je_state e <> E_removed ->
  key_of x = key_of e -> je_uid x = je_uid e -> je_state x = E_blocked -> cleaning g (update_entry i (entry_failed f) d).
Proof.
  intros Hc H0 Hx Hr Hk Hu Hb. eapply cleaning_update; [done | exact H0 | by exists x |].
  intros y Hy. rewrite Hx in Hy. injection Hy as <-. split; [done|]. split; [|by apply entry_failed_wf].
  split; [|cbn; congruence]. unfold advances. cbn. split_and!; [done | congruence | by right; right | by intros].
Qed.

Lemma cleanup_failed_wp only i e d d1 g g1 x op er :
  cleaning g1 d1 -> gh_verified g ⊆ gh_verified g1 -> jd_entries d0 !! i = Some e -> jd_entries d1 !! i = Some x ->
  je_state e <> E_removed -> key_of x = key_of e -> je_uid x = je_uid e ->
  (forall j, i <> j -> jd_entries d1 !! j = jd_entries d !! j) ->
  W (cleanup_failed i e op er) d1 g1 (turn only i g d).
Proof using Hwf.
  intros Hc Hv H0 Hx Hr Hk Hu Hj. unfold cleanup_failed. wpm_step. wpm_step. set (f := cleanupFailure op er). clearbody f.
  pose proof (blocked_cleaning _ _ _ _ _ f Hc H0 Hx Hr Hk Hu) as Hb.
  assert (Hx' : jd_entries (update_entry i (entry_blocked f) d1) !! i = Some (entry_blocked f x)) by (by apply update_lookup_eq).
  assert (Hj' : forall j, i <> j -> jd_entries (update_entry i (entry_blocked f) d1) !! j = jd_entries d !! j).
  { intros j Hne. rewrite update_lookup_ne by done. by apply Hj. }
  assert (Hturn : forall g2 d2 r, gh_verified g2 = gh_verified g1 -> cleaning g1 d2 ->
     (forall j, i <> j -> jd_entries d2 !! j = jd_entries d !! j) -> r <> Ok None -> turn only i g d g2 d2 r).
  { intros g2 d2 r Hg2 Hc2 Hj2 Hne. split_and!; [|by rewrite Hg2 | done | done].
    eapply cleaning_mono; [|exact Hc2]. by rewrite Hg2. }
  assert (Hend : forall g2 d2 (fv : CleanupFailure), gh_verified g2 = gh_verified g1 -> cleaning g1 d2 ->
     (forall j, i <> j -> jd_entries d2 !! j = jd_entries d !! j) ->
     W (await (Diagnose_failure (key_of e) op er) ;; mret (Some fv)) d2 g2 (turn only i g d)).
  { intros g2 d2 fv Hg2 Hc2 Hj2. wpm_step. diag; [wpm_step|]; by apply Hturn. }
  wpm_step. wpm_step. wpm_step. apply persist_wp; [by destruct Hb | by eapply cleaning_advances | |].
  - intros g2 Hg2 _. wpm_step. by apply Hend.
  - intros g2 pe Hg2. wpm_step. wpm_step. wpm_step. apply Hend; [done | |].
    + by eapply failed_cleaning.
    + intros j Hne. rewrite update_lookup_ne by done. by apply Hj'.
Qed.

Lemma cleanup_entry_wp only i d g :
  cleaning g d -> jd_entries d !! i = jd_entries d0 !! i -> W (cleanup_entry only i) d g (turn only i g d).
Proof using Hwf.
  intros Hc Hi. unfold cleanup_entry. wpm_step. wpm_step.
  assert (Hskip : (forall e, jd_entries d !! i = Some e -> je_state e = E_removed \/ in_scope only e = false) ->
    turn only i g d g d (Ok None)).
  { intros Hs. split_and!; [done | done | done |]. intros _. left. by split_and!. }
  destruct (jd_entries d !! i) as [e|] eqn:He; [|wpm_step; by apply Hskip].
  destruct (in_state [E_removed] e || negb (in_scope only e)) eqn:Hs.
  - wpm_step. apply Hskip. intros e' [= <-]. apply orb_true_iff in Hs as [Hs|Hs].
    + left. apply in_state_spec in Hs. set_solver.
    + right. by apply negb_true_iff.
  - apply orb_false_elim in Hs as [Hs _]. assert (Hr : je_state e <> E_removed).
    { intros Heq. apply not_true_iff_false in Hs. apply Hs, in_state_spec. set_solver. }
    symmetry in Hi. wpm_step. wpm_step. eapply wpm_mono; [|by eapply cleanup_body_wp].
    intros g1 d1 [[]|[op er]] [Hv Hpost].
    + destruct Hpost as (-> & Hin & Hw). wpm_step.
      split_and!; [|done | by intros; apply update_lookup_ne |].
      * apply removed_cleaning with e; [by eapply cleaning_mono | done..].
      * intros _. right. split; [done|]. exists (entry_removed e). split; [by apply update_lookup_eq | done].
    + destruct Hpost as [->|[-> Hin]]; cbn [fst snd].
      * eapply cleanup_failed_wp; [by eapply cleaning_mono | done | exact Hi | exact He | done | done | done | done].
      * eapply cleanup_failed_wp with (x := entry_removed e);
          [|done | exact Hi | by apply update_lookup_eq | done | done | done | by intros; apply update_lookup_ne].
        apply removed_cleaning with e; [by eapply cleaning_mono | done..].
Qed.

(** The loop over the first [n] entries, from the last to the first. *)
Definition looped (only : option (ResourceKind * string)) (n : nat) (g : Ghost) (d : JournalData) (g' : Ghost)
    (d' : JournalData) (r : res exn (list CleanupFailure)) : Prop :=
  cleaning g' d' /\ gh_verified g ⊆ gh_verified g' /\ (forall j, (n <= j)%nat -> jd_entries d' !! j = jd_entries d !! j) /\
  (r = Ok [] ->
     ((d' = d /\ gh_written g' = gh_written g) \/ gh_written g' = Some d') /\
     (forall j e, (j < n)%nat -> jd_entries d' !! j = Some e -> in_scope only e = true -> je_state e = E_removed)).

Lemma cleanup_loop_wp only n d g :
  cleaning g d -> (forall j, (j < n)%nat -> jd_entries d !! j = jd_entries d0 !! j) ->
  W (cleanup_loop only n) d g (looped only n g d).
Proof using Hwf.
  revert d g. induction n as [|i IH]; intros d g Hc Hj; cbn [cleanup_loop].
  { wpm_step. split_and!; [done | done | done |]. intros _. split; [by left|]. intros j e Hlt. lia. }
  wpm_step. eapply wpm_mono; [|by apply cleanup_entry_wp; [|apply Hj; lia]].
  intros g1 d1 r (Hc1 & Hv1 & Hj1 & Hr1). destruct r as [f|er].
  2:{ split_and!; [done | done | intros j Hle; apply Hj1; lia | done]. }
  wpm_step. eapply wpm_mono; [|apply IH; [done|]].
  2:{ intros j Hlt. rewrite Hj1 by lia. apply Hj. lia. }
  intros g2 d2 r2 (Hc2 & Hv2 & Hj2 & Hr2). assert (Hv : gh_verified g ⊆ gh_verified g2) by set_solver.
  assert (Hrest : forall j, (S i <= j)%nat -> jd_entries d2 !! j = jd_entries d !! j).
  { intros j Hle. rewrite Hj2 by lia. apply Hj1. lia. }
  destruct r2 as [fs|er]; [wpm_step|]; split_and!; try done.
  intros Hok. destruct f as [f|]; [done|]. injection Hok as ->. destruct (Hr1 eq_refl) as [Hsame|Hrem].
  - destruct Hsame as (-> & Hw1 & Hskip). destruct (Hr2 eq_refl) as [Hw2 Hall]. split.
    + rewrite <- Hw1. exact Hw2.
    + intros j e Hlt He Hin. destruct (decide (j = i)) as [->|Hne]; [|apply (Hall j); [lia | done | done]].
      rewrite Hj2 in He by lia. destruct (Hskip e He) as [|Hscope]; [done|]. congruence.
  - destruct Hrem as (Hw1 & e1 & He1 & Hs1). destruct (Hr2 eq_refl) as [Hw2 Hall]. split.
    + right. destruct Hw2 as [[-> Hw2]|Hw2]; [by rewrite Hw2 | done].
    + intros j e Hlt He Hin. destruct (decide (j = i)) as [->|Hne]; [|apply (Hall j); [lia | done | done]].
      rewrite Hj2 in He by lia. rewrite He1 in He. by injection He as <-.
Qed.

Lemma cleaning_start g : cleaning g d0.
Proof using Hwf.
  split_and!; [done | done |]. apply Forall_Forall2_diag, Forall_forall. intros e _. split; [done|]. intros H. by left.
Qed.

(** After a cleanup. *)
Definition cleanup_post (only : option (ResourceKind * string)) (g' : Ghost) (d' : JournalData) (r : res exn unit) : Prop :=
  cleaning g' d' /\
  (r = Ok tt -> (gh_written g' = Some d' \/ d' = d0) /\
                (forall e, e ∈ jd_entries d' -> in_scope only e = true -> je_state e = E_removed)).

Lemma cleanup_wp only g : W (cleanup only) d0 g (cleanup_post only).
Proof using Hwf.
  pose proof (cleaning_start g) as Hc. unfold cleanup. wpm_step. wpm_step. wpm_step. hstep; [|by split].
  wpm_step. eapply wpm_mono; [|by apply cleanup_loop_wp].
  intros g' d' r (Hc' & Hv & Hj & Hr). destruct r as [[|f fs]|er]; [| by wpm_step; split | by split].
  wpm_step. split; [done|]. intros _. destruct (Hr eq_refl) as [Hw Hall]. split; [naive_solver|].
  intros e He Hin. apply list_elem_of_lookup in He as [j He]. apply (Hall j); [|done|done].
  destruct Hc' as (_ & _ & Hl). rewrite (Forall2_length _ _ _ Hl). by eapply lookup_lt_Some.
Qed.

Lemma verifyCleanup_wp g : W verifyCleanup d0 g kept.
Proof using Hwf.
  unfold verifyCleanup. wpm_step. wpm_step. wpm_step. hstep; [|by apply kept_same; right].
  apply wpm_for_each with (I := fun _ _ d => d = d0); [|done | by intros g' d ->; apply kept_same; right].
  intros e l g' d ->. wpm_step. diag; [|by apply kept_same; right].
  wpm_step. apply wpm_free; [done|]. intros [gone|er]; [|by apply kept_same; right]. hstep; [done | by apply kept_same; right].
Qed.

Lemma perform_wp c g : W (journal_perform c) d0 g kept.
Proof using Hwf.
  destruct c; cbn [journal_perform];
    [apply requested_wp | apply owned_wp | apply rejected_wp | apply recoveredAbsent_wp | apply generation_wp | | apply verifyCleanup_wp].
  eapply wpm_mono; [|apply cleanup_wp]. intros g' d' r [Hc Hr]. split_and!; [by destruct Hc | by eapply cleaning_advances |].
  intros ->. by apply Hr.
Qed.
End calls.

Lemma admissible_journal g tr : admissible journal_asm journal_upd g tr.
Proof. revert g. induction tr as [|[X op x] tr IH]; intros g; cbn; [done | by split]. Qed.

Definition start : Ghost := {| gh_seen := None; gh_held := false; gh_verified := []; gh_written := None |}.



(** ** Cooperating adapters *)

(** The lease is held, files are written, lookups find the recorded identity or nothing, and
    removals succeed. *)
Definition cooperative X (g : unit) (op : journalE X) : X -> Prop :=
  match op in journalE X return X -> Prop with
  | Write_journal _ _ | Assert_held | Remove_if_uid _ _ | Diagnose _ _ | Diagnose_complete _ | Diagnose_failure _ _ _ => fun r => r = Ok tt
  | Read_journal => fun _ => True
  | Lookup e => fun r => exists c, r = Ok c /\ match c with Some c => je_uid e = Some (fd_uid c) | None => True end
  | Verify_removed _ => fun r => r = Ok true
  end.
Definition anything X (g : unit) (op : journalE X) : Prop := True.
Definition unchanged X (g : unit) (op : journalE X) (x : X) : unit := g.

(** What a run can remove on its own: an entry with an identity, owned or blocked. *)
Definition removable (e : JournalEntry) : bool :=
  in_state [E_removed] e || (in_state [E_owned; E_blocked] e && truthy (je_uid e ?? "")).

Ltac coop := wpm_step; [done|]; intros [[]|?] ?; [|done].

Lemma cleanup_body_ok i e d :
  in_state [E_owned; E_blocked] e = true -> truthy (je_uid e ?? "") = true ->
  wpm anything cooperative unchanged (cleanup_body i e) d tt (fun _ d' r => r = Ok tt /\ d' = update_entry i entry_removed d).
Proof.
  intros Hs Hu. unfold cleanup_body, running.
  assert (Hverify : wpm anything cooperative unchanged (cleanup_verify i e) d tt (fun _ d' r => r = Ok tt /\ d' = update_entry i entry_removed d)).
  { unfold cleanup_verify, running. wpm_step. wpm_step. wpm_step. coop. wpm_step. wpm_step; [done|]. intros ? ->.
    wpm_step. hstep; [|done]. wpm_step. wpm_step. wpm_step. unfold persist. wpm_step. wpm_step. coop. by coop. }
  wpm_step. wpm_step. wpm_step. coop. coop. wpm_step. wpm_step. wpm_step. coop. wpm_step. rewrite Hs, Hu. hstep; [|done].
  wpm_step. wpm_step; [done|]. intros ? (c & -> & Hc). wpm_step. coop. wpm_step. hstep.
  2:{ destruct c as [c|]; [|done]. by rewrite bool_decide_eq_true_2 in * by done. }
  wpm_step. wpm_step. wpm_step; [|done]. wpm_step. wpm_step. coop. wpm_step. wpm_step. coop. wpm_step. coop. coop. done.
Qed.

(** The entries from [n] on are removed, the others as they were. *)
Definition swept (n : nat) (d d' : JournalData) : Prop :=
  (forall j, (j < n)%nat -> jd_entries d' !! j = jd_entries d !! j) /\
  (forall j e, (n <= j)%nat -> jd_entries d' !! j = Some e -> je_state e = E_removed).

Lemma cleanup_loop_ok d n d1 :
  Forall (fun e => removable e = true) (jd_entries d) -> swept n d d1 ->
  wpm anything cooperative unchanged (cleanup_loop None n) d1 tt (fun _ d' r => r = Ok [] /\ swept 0 d d').
Proof.
  intros Hall. revert d1. induction n as [|i IH]; intros d1 [Hlt Hge]; cbn [cleanup_loop]; [by wpm_step|].
  wpm_step. unfold cleanup_entry. wpm_step. wpm_step.
  assert (Hdone : forall d2, (forall j, j <> i -> jd_entries d2 !! j = jd_entries d1 !! j) ->
    (forall e, jd_entries d2 !! i = Some e -> je_state e = E_removed) ->
    wpm anything cooperative unchanged (let! fs := cleanup_loop None i in mret fs) d2 tt (fun _ d' r => r = Ok [] /\ swept 0 d d')).
  { intros d2 H1 H2. wpm_step. eapply wpm_mono; [|apply IH; split].
    - intros [] d' r [-> Hs]. by wpm_step.
    - intros j Hj. rewrite H1 by lia. apply Hlt. lia.
    - intros j e Hj He. destruct (decide (j = i)) as [->|Hne]; [by apply H2|]. rewrite H1 in He by done. apply (Hge j); [lia | done]. }
  destruct (jd_entries d1 !! i) as [e|] eqn:He; [|wpm_step; apply Hdone; [done | congruence]].
  cbn [in_scope negb]. rewrite orb_false_r. destruct (in_state [E_removed] e) eqn:Hrem.
  { wpm_step. apply Hdone; [done|]. intros e' He'. apply in_state_spec in Hrem. rewrite He in He'. injection He' as <-. set_solver. }
  assert (Hr : removable e = true).
  { rewrite Hlt in He by lia. by eapply (Forall_lookup_1 _ _ _ _ Hall). }
  unfold removable in Hr. rewrite Hrem in Hr. cbn [orb] in Hr. bool_prop.
  wpm_step. wpm_step. eapply wpm_mono; [|by apply cleanup_body_ok]. intros [] d2 r [-> ->]. wpm_step.
  apply Hdone; [intros j Hne; by apply update_lookup_ne|]. intros e' He'. rewrite (update_lookup_eq _ _ _ _ He) in He'. by injection He' as <-.
Qed.

(** C34: cleanup completes. With the lease held, files writable and adapters that find the
    recorded resources and remove them, a cleanup of a journal whose entries are all removed
    or have an identity succeeds, and every entry ends removed. *)
Theorem cleanup_completes d tr d' r :
  Forall (fun e => removable e = true) (jd_entries d) ->
  steps (cleanup None d) tr (Done (d', r)) -> admissible cooperative unchanged tt tr ->
  r = Ok tt /\ Forall (fun e => je_state e = E_removed) (jd_entries d').
Proof.
  intros Hall Hs Ha.
  assert (Hw : wpm anything cooperative unchanged (cleanup None) d tt (fun _ d' r => r = Ok tt /\ swept 0 d d')).
  { unfold cleanup. wpm_step. wpm_step. wpm_step. hstep; [|done]. wpm_step.
    eapply wpm_mono; [|apply cleanup_loop_ok; [exact Hall | split; [done|]]].
    - intros [] d1 r1 [-> Hsw]. by wpm_step.
    - intros j e Hle He. apply lookup_lt_Some in He. lia. }
  destruct (wp_steps _ _ _ _ _ _ _ _ Hw Hs Ha) as [_ [Hr [_ Hsw]]]. split; [done|].
  apply Forall_lookup. intros j e He. apply (Hsw j); [lia | done].
Qed.

(** ** Witnesses *)
Definition demo_run : string := "reg-00000000-0000-0000-0000-00000000000a".
Definition demo_prefix : string := run_prefix demo_run.
Definition demo_journal : JournalData :=
  {| jd_runId := demo_run; jd_targetUid := "appliance"; jd_prefix := demo_prefix; jd_entries :=
     [{| je_kind := K_model; je_name := demo_prefix +:+ "m"; je_uid := Some "u"; je_state := E_owned;
         je_generation := Some (Int 1); je_cleanupFailure := None |}] |}.

Lemma demo_journal_wf : journal_wf demo_journal.
Proof. split_and!; [reflexivity | reflexivity | constructor; [vm_compute; reflexivity | constructor] | apply NoDup_singleton]. Defined.

(** Adapters that find and remove the resource. *)
Definition adapters (X : Type) (op : journalE X) (w : unit) : X * unit :=
  match op in journalE X return X * unit with
  | Write_journal _ _ | Assert_held | Remove_if_uid _ _ | Diagnose _ _ | Diagnose_complete _ | Diagnose_failure _ _ _ => (Ok tt, w)
  | Read_journal => (Ok "", w)
  | Lookup e => (Ok (Some {| fd_uid := je_uid e ?? ""; fd_generation := None; fd_deleting := None |}), w)
  | Verify_removed _ => (Ok true, w)
  end.

Lemma journal_resume_witness : resume_value "appliance" (journal_json demo_journal) = Ok demo_journal.
Proof. destruct (journal_resume "appliance" demo_journal) as [[H _] _]. apply H. split; [exact demo_journal_wf | reflexivity]. Defined.

Definition demo_cleanup : prog journalE (JournalData * res exn unit) := cleanup None demo_journal.
Definition demo_cleaned : JournalData := (exec adapters demo_cleanup tt).1.1.
Lemma demo_steps : steps demo_cleanup (trace adapters demo_cleanup tt) (Done (demo_cleaned, (exec adapters demo_cleanup tt).1.2)).
Proof. unfold demo_cleaned. rewrite <- surjective_pairing. apply exec_steps. Defined.



Lemma cleanup_completes_witness : (exec adapters demo_cleanup tt).1.2 = Ok tt.
Proof.
  destruct (cleanup_completes demo_journal _ _ _ ltac:(constructor; [vm_compute; reflexivity | constructor]) demo_steps) as [H _]; [|exact H].
  vm_compute. repeat split; eexists; split; reflexivity.
Defined.
