(* ===== verification/DiagnosticProps.v ===== *)
(** * Theorems on the cleanup recorder

    Reading an observation keeps the known properties and reading it again keeps them all; the
    recorder's diagnostic is always one that reads back, whatever is observed. *)

From S2P Require Import Prelude Js Number Json JsonParse JsonProps Dates Prog Errors KubernetesCommand Journal CleanupDiagnostic.

Local Open Scope string_scope.
Local Open Scope js_scope.
Local Open Scope Z_scope.

(** ** Selecting properties *)
Definition select (d : dict json) (keys : list string) : dict json := concat (map (present d) keys).

Lemma select_app d a b : select d (a ++ b)%list = (select d a ++ select d b)%list.
Proof. unfold select. by rewrite map_app, concat_app. Qed.

Lemma dict_get_app {A} (a b : dict A) k : dict_get (a ++ b)%list k = or_else (dict_get a k) (dict_get b k).
Proof. induction a as [|[k' v] a IH]; cbn; [done|]. by destruct (String.eqb k' k). Qed.

Lemma dict_get_present d k k' : dict_get (present d k) k' = if String.eqb k k' then dict_get d k' else None.
Proof.
  unfold present. destruct (String.eqb_spec k k') as [->|Hne]; destruct (dict_get d _) as [v|] eqn:Hv; cbn; try done.
  - by rewrite String.eqb_refl.
  - by rewrite (proj2 (String.eqb_neq _ _) Hne).
Qed.

Lemma dict_get_select d keys k : dict_get (select d keys) k = if includes keys k then dict_get d k else None.
Proof.
  unfold select. induction keys as [|k' keys IH]; cbn [map concat]; [done|]. rewrite dict_get_app, dict_get_present, IH.
  unfold includes. destruct (String.eqb_spec k' k) as [->|Hne].
  - rewrite (bool_decide_true (k ∈ k :: keys)) by (apply elem_of_cons; by left). destruct (dict_get d k); [done|]. by case_bool_decide.
  - cbn [or_else]. rewrite (bool_decide_ext (k ∈ k' :: keys) (k ∈ keys)); [done|]. rewrite elem_of_cons. naive_solver.
Qed.

Lemma select_ext d d' keys : (forall k, k ∈ keys -> dict_get d k = dict_get d' k) -> select d keys = select d' keys.
Proof.
  unfold select. induction keys as [|k keys IH]; intros Hk; cbn; [done|]. unfold present at 1 3. rewrite (Hk k) by (apply elem_of_cons; by left).
  rewrite IH; [done|]. intros k' Hk'. apply Hk, elem_of_cons. by right.
Qed.

Lemma select_keys d keys k : k ∈ dict_keys (select d keys) -> k ∈ keys.
Proof.
  unfold select, dict_keys. induction keys as [|k' keys IH]; cbn; [by intros ?%elem_of_nil|]. rewrite map_app, elem_of_app.
  unfold present at 1. intros [Hk|Hk]; [|apply elem_of_cons; right; auto]. destruct (dict_get d k'); cbn in Hk.
  - apply elem_of_cons. left. by apply list_elem_of_singleton in Hk.
  - by apply elem_of_nil in Hk.
Qed.

Lemma dict_set_same {A} (d : dict A) k v : dict_get d k = Some v -> dict_set d k v = d.
Proof.
  induction d as [|[k' v'] d IH]; cbn; [done|]. destruct (String.eqb_spec k' k) as [->|]; [by intros [= ->]|]. intros Hd. by rewrite IH.
Qed.

Lemma dict_set_select d keys k v : k ∉ keys -> dict_get d k = Some v -> dict_set (select d keys) k v = select d (keys ++ [k])%list.
Proof.
  intros Hk Hv. rewrite dict_set_fresh by (intros Hin; by apply select_keys in Hin). rewrite select_app. f_equal.
  unfold select, present. cbn. by rewrite Hv.
Qed.
Lemma select_absent d keys k : dict_get d k = None -> select d (keys ++ [k])%list = select d keys.
Proof. intros Hv. rewrite select_app. unfold select at 2, present. cbn. rewrite Hv. by rewrite app_nil_r. Qed.

(** ** Observations *)
Definition base_keys : list string := (required_keys ++ map fst observation_checks)%list.
Definition command_keys : list string := ["commandFailure"; "kubernetesReason"; "exitCode"; "processSignal"].
Definition observation_keys : list string := (base_keys ++ command_keys)%list.

Lemma optional_some {A} (check : json -> option A) v o : optional check v = Some o ->
  match o with Some a => exists j, v = Some j /\ check j = Some a | None => v = None end.
Proof. destruct v as [j|]; cbn; [|by intros [= <-]]. destruct (check j) as [a|] eqn:Ha; cbn; [|done]. intros [= <-]. by exists j. Qed.

Lemma nullable_some {A} (check : json -> option A) v o : nullable check v = Some o ->
  match o with Some a => check v = Some a | None => v = JNull end.
Proof. destruct v; cbn -[fmap]; try (intros [a [Ha ->]]%fmap_Some; exact Ha). by intros [= <-]. Qed.

Lemma named_text {A} (name : A -> string) l v a : named name l v = Some a -> v = Some (JStr (name a)).
Proof. destruct v as [[| | |s| |]|]; try done. intros [_ Hs%String.eqb_eq]%find_first_Some. by subst. Qed.

(** The members read are those of the diagnostic. *)
Lemma read_command_members d c : read_command d = Some c ->
  dict_get d "commandFailure" = Some (JStr (failure_name (kc_commandFailure c))) /\
  dict_get d "httpStatus" = Some (match kc_httpStatus c with Some z => JNum (Int z) | None => JNull end) /\
  dict_get d "kubernetesReason" = (fun r => JStr (status_name r)) <$> kc_kubernetesReason c /\
  dict_get d "exitCode" = (fun z => JNum (Int z)) <$> kc_exitCode c /\
  dict_get d "processSignal" = (fun s => JStr (signal_name s)) <$> kc_processSignal c.
Proof.
  unfold read_command. intros (f & Hf & (s & Hs & (r & Hr & (e & He & (g & Hg & Hc)%bind_Some)%bind_Some)%bind_Some)%bind_Some)%bind_Some.
  destruct (consistent_command _); [|done]. injection Hc as <-. cbn [kc_commandFailure kc_httpStatus kc_kubernetesReason kc_exitCode kc_processSignal].
  split; [by eapply named_text|]. split.
  { apply bind_Some in Hs as (v & -> & Hv%nullable_some). destruct s as [z|]; [by apply within_code in Hv as [-> _] | by subst]. }
  split; [|split].
  - apply optional_some in Hr. destruct r as [r|]; [|done]. destruct Hr as (j & -> & Hj%named_text). by rewrite Hj.
  - apply optional_some in He. destruct e as [e|]; [|done]. destruct He as (j & -> & Hj). by apply within_code in Hj as [-> _].
  - apply optional_some in Hg. destruct g as [g|]; [|done]. destruct Hg as (j & -> & Hj%named_text). by rewrite Hj.
Qed.

Lemma set_optional {A} d keys k (f : A -> json) (o : option A) : dict_get d k = f <$> o -> k ∉ keys ->
  foldl (fun acc (kv : string * json) => dict_set acc kv.1 kv.2) (select d keys) (match o with Some a => [(k, f a)] | None => [] end)
  = select d (keys ++ [k])%list.
Proof. intros Hk Hn. destruct o as [a|]; cbn; [by apply dict_set_select | by rewrite select_absent]. Qed.

Lemma spread_command d c : read_command d = Some c ->
  dict_spread (select d base_keys) (diagnostic_json c) = select d observation_keys.
Proof.
  intros Hc. destruct (read_command_members d c Hc) as (Hf & Hs & Hr & He & Hg). unfold dict_spread, diagnostic_json. rewrite !foldl_app. cbn [foldl fst snd].
  rewrite dict_set_select; [|by apply (bool_decide_unpack _) | exact Hf].
  rewrite dict_set_same by (rewrite dict_get_select; exact Hs).
  rewrite (set_optional d _ "kubernetesReason" _ _ Hr), (set_optional d _ "exitCode" _ _ He), (set_optional d _ "processSignal" _ _ Hg)
    by by apply (bool_decide_unpack _).
  done.
Qed.

Section observations.
Context `{DateFallback}.

(** Reading depends on the known properties only, and keeps them. *)
Lemma parse_observation_ext d d' : (forall k, k ∈ observation_keys -> dict_get d k = dict_get d' k) -> parse_observation d = parse_observation d'.
Proof.
  intros Hk. unfold parse_observation.
  assert (Hb : forall k, k ∈ base_keys -> dict_get d k = dict_get d' k) by (intros k Hin; apply Hk, elem_of_app; by left).
  change (concat (map (fun k => present d k) (required_keys ++ map fst observation_checks))) with (select d base_keys).
  change (concat (map (fun k => present d' k) (required_keys ++ map fst observation_checks))) with (select d' base_keys).
  rewrite (select_ext d d' base_keys Hb).
  assert (Hc : read_command d = read_command d') by (unfold read_command; rewrite !Hk by (by apply (bool_decide_unpack _)); done).
  rewrite Hc, !Hk by (by apply (bool_decide_unpack _)).
  assert (Hr : forallb (required_property d) required_checks = forallb (required_property d') required_checks).
  { apply Bool.eq_iff_eq_true. rewrite !forallb_elem. unfold required_property.
    split; intros Hall kc Hin; specialize (Hall kc Hin); (rewrite Hb in * || rewrite <- Hb); try done;
      apply elem_of_app; left; apply (list_elem_of_fmap_2 fst) in Hin; exact Hin. }
  assert (Ho : forallb (checked_property d) observation_checks = forallb (checked_property d') observation_checks).
  { apply Bool.eq_iff_eq_true. rewrite !forallb_elem. unfold checked_property.
    split; intros Hall kc Hin; specialize (Hall kc Hin); (rewrite Hb in * || rewrite <- Hb); try done;
      apply elem_of_app; right; by apply (list_elem_of_fmap_2 fst). }
  rewrite Hr, Ho. destruct (_ && _); [|done]. destruct (dict_get d' "commandFailure"); [done|].
  cbn [forallb]. by rewrite !Hk by (by apply (bool_decide_unpack _)).
Qed.

Lemma parse_observation_select d o : parse_observation d = Some o -> o = select d observation_keys.
Proof.
  unfold parse_observation. destruct (_ && _); [|done].
  change (concat (map (fun k => present d k) (required_keys ++ map fst observation_checks))) with (select d base_keys).
  destruct (dict_get d "commandFailure") eqn:Hf.
  - intros (c & Hc & [= <-])%bind_Some. by apply spread_command.
  - cbn [forallb]. rewrite andb_true_r. destruct (_ && _) eqn:Hn; [|done]. intros [= <-].
    apply andb_prop in Hn as [Hr%bool_decide_eq_true [He%bool_decide_eq_true Hg%bool_decide_eq_true]%andb_prop].
    unfold observation_keys, command_keys. symmetry.
    change (base_keys ++ ["commandFailure"; "kubernetesReason"; "exitCode"; "processSignal"])%list
      with (base_keys ++ ["commandFailure"] ++ ["kubernetesReason"] ++ ["exitCode"] ++ ["processSignal"])%list.
    by rewrite !app_assoc, !select_absent.
Qed.

(** An observation that was read reads as itself. *)
Definition valid_observation (o : dict json) : Prop := parse_observation o = Some o.

Lemma parse_valid d o : parse_observation d = Some o -> valid_observation o.
Proof.
  intros Hp. unfold valid_observation. rewrite <- Hp. apply parse_observation_ext. intros k Hk.
  rewrite (parse_observation_select _ _ Hp), dict_get_select. unfold includes. by rewrite bool_decide_true.
Qed.

Lemma valid_state o : valid_observation o -> is_Some (state_of o).
Proof.
  unfold valid_observation, parse_observation. destruct (_ && _) eqn:Hr; [|done]. intros _. apply andb_prop in Hr as [Hr _].
  rewrite forallb_elem in Hr. specialize (Hr ("state", one_of state_names)). unfold required_property in Hr. cbn [fst snd] in Hr.
  unfold state_of. destruct (dict_get o "state") as [[| | |s| |]|]; try (discriminate Hr; by apply elem_of_cons; right; left).
  all: try (exfalso; clear -Hr; assert (false = true) by (apply Hr; do 2 (apply elem_of_cons; (by left) || right)); done).
  assert (Hs : s ∈ state_names) by (apply includes_spec, Hr; apply elem_of_cons; right; apply elem_of_cons; by left).
  repeat (apply elem_of_cons in Hs as [->|Hs]; [by eexists|]). by apply elem_of_nil in Hs.
Qed.

(** ** Times *)
Lemma form_digits n form z s : 0 <= z < 10 ^ Z.of_nat n ->
  matches_form (Nat.iter n (String "0") form) (fixed n z +:+ s) = matches_form form s.
Proof.
  revert z. induction n as [|n IH]; intros z Hz; [done|]. rewrite Nat2Z.inj_succ, Z.pow_succ_r in Hz by lia.
  assert (0 < 10 ^ Z.of_nat n) by (apply Z.pow_pos_nonneg; lia). cbn [Nat.iter nat_rect fixed String.append matches_form]. cbn [Ascii.eqb Bool.eqb].
  destruct (digit_unit (z / 10 ^ Z.of_nat n)) as [-> _]; [split; [apply Z.div_pos | apply Z.div_lt_upper_bound]; lia|].
  apply IH, Z.mod_pos_bound. lia.
Qed.

Lemma form_char c form s : Ascii.eqb c "0" = false -> matches_form (String c form) (String c s) = matches_form form s.
Proof. intros Hc. cbn [matches_form]. by rewrite Hc, Ascii.eqb_refl. Qed.

Local Ltac form_part n form :=
  change (matches_form ?f ?s) with (matches_form (Nat.iter n (String "0") form) s);
  rewrite (form_digits n form) by (let p := eval vm_compute in (10 ^ Z.of_nat n) in change (10 ^ Z.of_nat n) with p; lia);
  rewrite ?form_char by done; rewrite ?str_app_assoc; cbn [String.append].

Lemma timestamp_now t : 0 <= t < max_time -> timestamp (JStr (toISOString t)) = true.
Proof.
  intros Ht. unfold timestamp. rewrite Date_parse_toISOString by done. rewrite bool_decide_true by done. rewrite andb_true_r.
  unfold toISOString, iso_prefix, max_time in *.
  assert (Hd : 0 <= t / day_ms < 2932897) by (unfold day_ms; split; [apply Z.div_pos | apply Z.div_lt_upper_bound]; lia).
  pose proof (civil_bounds _ Hd) as (Hy & Hmo & Hday). cbv zeta in Hy, Hmo, Hday |- *. set (c := civil_of_days (t / day_ms)) in *.
  assert (Hr : 0 <= t mod day_ms < 86400000) by (apply Z.mod_pos_bound; done). set (r := t mod day_ms) in *.
  assert (Hh : 0 <= r / 3600000 < 24) by (split; [apply Z.div_pos | apply Z.div_lt_upper_bound]; lia).
  assert (Hmi : 0 <= r / 60000 mod 60 < 60) by (apply Z.mod_pos_bound; done).
  assert (Hse : 0 <= r / 1000 mod 60 < 60) by (apply Z.mod_pos_bound; done).
  assert (Hms : 0 <= t mod 1000 < 1000) by (apply Z.mod_pos_bound; done). clearbody r c.
  rewrite !str_app_assoc. cbn [String.append]. rewrite !str_app_assoc. cbn [String.append].
  form_part 4%nat "-00-00T00:00:00.000Z". form_part 2%nat "-00T00:00:00.000Z". form_part 2%nat "T00:00:00.000Z".
  form_part 2%nat ":00:00.000Z". form_part 2%nat ":00.000Z". form_part 2%nat ".000Z". form_part 3%nat "Z". done.
Qed.
(** ** Diagnostics *)
Definition readable_observation (o : dict json) : Prop := is_Some (parse_observation o).
Definition normal (o : dict json) : dict json := parse_observation o ?? o.

Lemma valid_readable o : valid_observation o -> readable_observation o.
Proof. intros Ho. by exists o. Qed.
Lemma normal_valid o : readable_observation o -> valid_observation (normal o).
Proof. intros [o' Ho]. unfold normal. rewrite Ho. by eapply parse_valid. Qed.
Lemma state_normal o : state_of (normal o) = state_of o.
Proof.
  unfold normal. destruct (parse_observation o) as [o'|] eqn:Ho; [|done]. apply parse_observation_select in Ho as ->.
  cbn [nullish]. unfold state_of. by rewrite dict_get_select.
Qed.

(** What a diagnostic promises, of observations that are [good]. *)
Definition sound_diagnostic (good : dict json -> Prop) (g : CleanupDiagnostic) : Prop :=
  (run_id (dg_runId g) = true /\ fingerprint (dg_scope g) = true /\ match dg_ownerRunId g with Some s => run_id s = true | None => True end) /\
  (Forall good (dg_history g) /\ (length (dg_history g) <= 12)%nat) /\
  (dg_observations g = Z.of_nat (length (dg_history g)) + dg_omittedObservations g /\ 0 <= dg_omittedObservations g /\ dg_observations g <= billion) /\
  (dg_history g <> [] -> (last (dg_history g) ≫= state_of) = Some (dg_state g)) /\
  match dg_firstFailure g with Some o => good o /\ state_of o = Some O_failed | None => True end.

Definition normalized (g : CleanupDiagnostic) : CleanupDiagnostic :=
  {| dg_runId := dg_runId g; dg_ownerRunId := dg_ownerRunId g; dg_scope := dg_scope g; dg_kind := dg_kind g; dg_state := dg_state g;
     dg_observations := dg_observations g; dg_omittedObservations := dg_omittedObservations g; dg_history := map normal (dg_history g);
     dg_firstFailure := normal <$> dg_firstFailure g; dg_collection := dg_collection g |}.

Lemma sound_mono (P Q : dict json -> Prop) g : (forall o, P o -> Q o) -> sound_diagnostic P g -> sound_diagnostic Q g.
Proof.
  intros HPQ (Hid & [Hh Hl] & Hc & Hs & Hf). split; [done|]. split; [split; [by eapply List.Forall_impl | done]|]. split; [done|]. split; [done|].
  destruct (dg_firstFailure g); [|done]. destruct Hf. auto.
Qed.

Lemma last_map {A B} (f : A -> B) l : last (map f l) = f <$> last l.
Proof. induction l as [|a [|b l] IH]; [done..|exact IH]. Qed.

Lemma last_normal g : (last (map normal (dg_history g)) ≫= state_of) = (last (dg_history g) ≫= state_of).
Proof. rewrite last_map. destruct (last (dg_history g)); cbn; [apply state_normal | done]. Qed.

Lemma normalized_sound g : sound_diagnostic readable_observation g -> sound_diagnostic valid_observation (normalized g).
Proof.
  intros (Hid & [Hh Hl] & Hc & Hs & Hf). unfold sound_diagnostic, normalized. cbn. rewrite length_map, last_normal.
  split; [done|]. split; [split; [|done]|split; [done|split]].
  - apply List.Forall_map. eapply List.Forall_impl; [|exact Hh]. apply normal_valid.
  - intros Hne. apply Hs. by destruct (dg_history g).
  - destruct (dg_firstFailure g) as [o|]; [|done]. cbn. rewrite state_normal. destruct Hf. split; [by apply normal_valid | done].
Qed.

Lemma normal_id o : valid_observation o -> normal o = o.
Proof. intros Ho. unfold normal. by rewrite Ho. Qed.
Lemma map_normal_id l : Forall valid_observation l -> map normal l = l.
Proof. induction 1 as [|o l Ho _ IH]; [done|]. cbn [map]. rewrite (normal_id o Ho). exact (f_equal (cons o) IH). Qed.
Lemma normalized_id g : sound_diagnostic valid_observation g -> normalized g = g.
Proof.
  destruct g as [? ? ? ? ? ? ? history first ?]. intros (_ & [Hh _] & _ & _ & Hf). unfold normalized. cbn in *. rewrite map_normal_id by done.
  destruct first as [o|]; cbn; [|done]. by rewrite (normal_id o (proj1 Hf)).
Qed.

Lemma mapM_readable l : Forall readable_observation l -> mapM parseCleanupObservation (map JObj l) = Some (map normal l).
Proof.
  induction 1 as [|o l Ho _ IH]; [done|]. cbn [map].
  change (mapM parseCleanupObservation (JObj o :: map JObj l))
    with (y ← parse_observation o; k ← mapM parseCleanupObservation (map JObj l); Some (y :: k)).
  rewrite IH. unfold normal at 2. by destruct Ho as [o' ->].
Qed.

Lemma failure_kind_named k : named kind_name resource_kinds (Some (JStr (kind_name k))) = Some k.
Proof. by destruct k. Qed.
Lemma state_named st : named state_text observation_states (Some (JStr (state_text st))) = Some st.
Proof. by destruct st. Qed.
Lemma collection_named c : named collection_name collections (Some (JStr (collection_name c))) = Some c.
Proof. by destruct c. Qed.

Lemma first_failure_fields g :
  dict_get (diagnostic_object g) "firstFailure" = JObj <$> dg_firstFailure g /\
  dict_get (diagnostic_object g) "ownerRunId" = JStr <$> dg_ownerRunId g.
Proof. unfold diagnostic_object. by destruct (dg_firstFailure g), (dg_ownerRunId g). Qed.

Lemma diagnostic_reads g : sound_diagnostic readable_observation g -> dg_history g <> [] ->
  parse_diagnostic (diagnostic_object g) = Some (normalized g).
Proof.
  intros ((Hrun & Hscope & Howner) & [Hh Hl] & (Hobs & Homit & Hmax) & Hs & Hf) Hne. unfold parse_diagnostic.
  change (text_field (diagnostic_object g) "runId") with (Some (dg_runId g)). change (text_field (diagnostic_object g) "scope") with (Some (dg_scope g)).
  change (dict_get (diagnostic_object g) "kind") with (Some (JStr (kind_name (dg_kind g)))). rewrite failure_kind_named.
  change (dict_get (diagnostic_object g) "state") with (Some (JStr (state_text (dg_state g)))). rewrite state_named.
  change (dict_get (diagnostic_object g) "observations") with (Some (JNum (Int (dg_observations g)))).
  change (dict_get (diagnostic_object g) "omittedObservations") with (Some (JNum (Int (dg_omittedObservations g)))).
  change (dict_get (diagnostic_object g) "history") with (Some (JArr (map JObj (dg_history g)))).
  change (dict_get (diagnostic_object g) "collection") with (Some (JStr (collection_name (dg_collection g)))). rewrite collection_named.
  destruct (first_failure_fields g) as [-> ->]. cbn [base.mbind option_bind]. rewrite !(code_within 0 billion) by lia. cbn [base.mbind option_bind json_arr].
  assert (Ho : optional json_str (JStr <$> dg_ownerRunId g) = Some (dg_ownerRunId g)) by by destruct (dg_ownerRunId g).
  rewrite Ho. cbn [base.mbind option_bind]. clear Ho.
  change (version_one (diagnostic_object g)) with true. rewrite Hrun, Hscope, length_map, last_map. cbn [andb].
  assert (H1 : (1 <=? length (dg_history g))%nat = true) by (apply Nat.leb_le; destruct (dg_history g); cbn; [done | lia]).
  apply Nat.leb_le in Hl. apply Z.eqb_eq in Hobs.
  match goal with |- context [(1 <=? ?n)%nat && (?m <=? 12)%nat && (?a =? ?b)] =>
    replace ((1 <=? n)%nat && (m <=? 12)%nat && (a =? b)) with true by (symmetry; exact (f_equal2 andb (f_equal2 andb H1 Hl) Hobs)) end.
  cbn [andb].
  assert (Hlast : ((JObj <$> last (dg_history g)) ≫= (fun v => json_obj v ≫= state_of)) = Some (dg_state g))
    by (rewrite <- (Hs Hne); by destruct (last (dg_history g))).
  match goal with |- context [bool_decide (?a = Some (dg_state g))] => rewrite (bool_decide_true (a = Some (dg_state g))) by exact Hlast end.
  rewrite andb_true_r.
  assert (Hown : match dg_ownerRunId g with Some s => run_id s | None => true end = true) by (by destruct (dg_ownerRunId g)).
  rewrite Hown, mapM_readable by done. cbn [andb base.mbind option_bind].
  destruct (dg_firstFailure g) as [o|] eqn:Hg; cbn [fmap option_fmap option_map json_truthy json_obj base.mbind option_bind optional].
  - destruct Hf as [[o' Ho] Hst]. rewrite Hst, bool_decide_true by done. unfold parseCleanupObservation. cbn [json_obj base.mbind option_bind].
    assert (Hn : normal o = o') by (unfold normal; by rewrite Ho). unfold normalized. rewrite Ho, Hg. cbn. by rewrite Hn.
  - unfold normalized. by rewrite Hg.
Qed.
Lemma mapM_valid raw history : mapM parseCleanupObservation raw = Some history ->
  Forall valid_observation history /\ length history = length raw /\
  (last history ≫= state_of) = (last raw ≫= fun v => json_obj v ≫= state_of).
Proof.
  intros Hm. apply mapM_Some in Hm. induction Hm as [|v o raw history Hv Hm (IH1 & IH2 & IH3)]; [done|].
  apply bind_Some in Hv as (d & Hd & Ho). split; [|split].
  - apply List.Forall_cons; [by eapply parse_valid | done].
  - cbn. by rewrite IH2.
  - destruct Hm; [|exact IH3]. cbn. rewrite Hd. cbn. apply parse_observation_select in Ho as ->. unfold state_of. by rewrite dict_get_select.
Qed.

Lemma parse_sound d g : parse_diagnostic d = Some g -> sound_diagnostic valid_observation g /\ dg_history g <> [].
Proof.
  unfold parse_diagnostic.
  intros (run & _ & (scope & _ & (kind & _ & (st & _ & (n & Hn & (om & Hom & (raw & _ & (c & _ & (owner & _ & Hg)%bind_Some)%bind_Some)%bind_Some)%bind_Some)%bind_Some)%bind_Some)%bind_Some)%bind_Some)%bind_Some.
  destruct (_ && _) eqn:Hc; [|done]. rewrite !andb_true_iff in Hc.
  destruct Hc as ((((((((_ & Hrun) & Hscope) & H1) & H12) & Hlen) & Howner) & Hlast) & Hfirst).
  apply bind_Some in Hg as (history & Hm & (first & Hf & [= <-])%bind_Some). apply mapM_valid in Hm as (Hh & Hl & Hlh).
  apply bind_Some in Hn as (? & _ & [_ Hn]%within_code). apply bind_Some in Hom as (? & _ & [_ Hom]%within_code).
  apply Nat.leb_le in H1, H12. apply Z.eqb_eq in Hlen. apply bool_decide_eq_true in Hlast.
  unfold sound_diagnostic. cbn. rewrite <- Hl in *. split; [|intros ->; cbn in H1; lia].
  split; [split; [done|split; [done | by destruct owner]]|]. split; [done|]. split; [lia|]. split; [intros _; by rewrite Hlh|].
  apply optional_some in Hf. destruct first as [o|]; [|done]. destruct Hf as (v & Hv & (dv & Hdv & Ho)%bind_Some). rewrite Hv in Hfirst.
  split; [by eapply parse_valid|]. apply bool_decide_eq_true in Hfirst. rewrite Hdv in Hfirst. cbn in Hfirst.
  apply parse_observation_select in Ho as ->. unfold state_of in *. by rewrite dict_get_select.
Qed.

(** ** One observation more *)
Lemma observed_sound o previous g : sound_diagnostic readable_observation g -> readable_observation o -> dg_observations g < billion ->
  let g' := (observed o previous g).1 in
  sound_diagnostic readable_observation g' /\ dg_history g' <> [] /\ dg_observations g' = dg_observations g + 1 /\
  (dg_history g <> [] -> head (dg_history g') = head (dg_history g)) /\
  (forall f, dg_firstFailure g = Some f -> dg_firstFailure g' = Some f).
Proof.
  intros (Hid & [Hh Hl] & (Hobs & Homit & Hmax) & Hs & Hf) Ho Hlt. cbv zeta. unfold observed.
  assert (Hst : exists st, state_of o = Some st).
  { destruct Ho as [o' Ho]. destruct (valid_state o' (parse_valid _ _ Ho)) as [st Hst]. exists st. rewrite <- Hst.
    apply parse_observation_select in Ho as ->. unfold state_of. by rewrite dict_get_select. }
  destruct Hst as [st Hst]. rewrite Hst. cbn [nullish].
  assert (Hfail : match (if bool_decide (st = O_failed) then or_else (dg_firstFailure g) (Some o) else dg_firstFailure g) with
                  | Some f => readable_observation f /\ state_of f = Some O_failed | None => True end).
  { case_bool_decide; [|done]. subst st. by destruct (dg_firstFailure g). }
  assert (Hkept : forall f, dg_firstFailure g = Some f ->
    (if bool_decide (st = O_failed) then or_else (dg_firstFailure g) (Some o) else dg_firstFailure g) = Some f) by (intros f ->; by case_bool_decide).
  set (h := dg_history g) in *. destruct (_ && _) eqn:Hsame.
  - apply andb_prop in Hsame as [_ Hlong%Nat.ltb_lt]. unfold sound_diagnostic. cbn. rewrite length_insert.
    assert (Hsplit : exists a b l, h = (a :: b :: l)%list) by (destruct h as [|a [|b l]]; cbn in Hlong; [lia.. | eauto]).
    assert (Hlast : last (<[(length h - 1)%nat:=o]> h) = Some o).
    { rewrite last_lookup, length_insert, <- Nat.sub_1_r. apply list_lookup_insert_eq. lia. }
    split; [split; [done|split; [split; [by apply Forall_insert | done]|split; [lia|split; [intros _; by rewrite Hlast | done]]]]|].
    split; [intros E; apply (f_equal length) in E; rewrite length_insert in E; cbn in E; lia|]. split; [done|]. split; [|done].
    intros _. destruct Hsplit as (a & b & l & ->). cbn. done.
  - destruct (12 <? length (h ++ [o]))%nat eqn:Hlong; [apply Nat.ltb_lt in Hlong | apply Nat.ltb_ge in Hlong]; rewrite length_app in Hlong; cbn in Hlong;
      unfold sound_diagnostic; cbn.
    + destruct h as [|a [|b l]]; cbn in Hl, Hlong; [lia..|]. cbn [app delete list_delete] in *.
      change (delete 1%nat (a :: b :: (l ++ [o])))%list with (a :: (l ++ [o]))%list. rewrite app_comm_cons, last_snoc, length_app. cbn [length] in *.
      inversion Hh as [|? ? Ha Hbl]; subst. inversion Hbl as [|? ? Hb Hlo]; subst.
      split; [split; [done|split; [split; [|lia]|split; [lia|split; [by intros _ | done]]]]|].
      { apply Forall_app. split; [by apply List.Forall_cons | by apply List.Forall_cons]. }
      split; [done|]. split; [done|]. split; [done | done].
    + rewrite last_snoc, length_app. cbn [length].
      split; [split; [done|split; [split; [|lia]|split; [lia|split; [by intros _ | done]]]]|].
      { apply Forall_app. split; [done | by apply List.Forall_cons]. }
      split; [by destruct h|]. split; [done|]. split; [by destruct h | done].
Qed.
End observations.

(** ** The recorder *)
Section recorder.
Context `{DateFallback}.
(** How many observations are still to come, at most. *)
Context (budget : nat).

Definition written_ok (d : dict json) : Prop :=
  exists g, d = diagnostic_object g /\ sound_diagnostic valid_observation g /\ parse_diagnostic d = Some g.
Definition recorder_pre X (_ : unit) (op : recorderE X) : Prop := match op with D_write d => written_ok d | _ => True end.
(** The clock is between 1970 and 9999; a file left behind has room for the observations to come. *)
Definition recorder_asm X (_ : unit) (op : recorderE X) : X -> Prop :=
  match op in recorderE X return X -> Prop with
  | D_now => fun t => 0 <= t < max_time
  | D_read => fun reply => match reply with
                           | Ok text => forall g old started, earlier g text = Some (old, started) ->
                                        dg_observations old + Z.of_nat budget <= billion
                           | Err _ => True
                           end
  | D_stat => fun _ => True
  | D_write _ => fun _ => True
  end.
Definition recorder_upd X (g : unit) (_ : recorderE X) (_ : X) : unit := g.
Notation W m := (wpm recorder_pre recorder_asm recorder_upd m).

(** The recorder has room for [n] observations more. *)
Definition room (n : nat) (r : Recorder) : Prop :=
  sound_diagnostic readable_observation (rd_diagnostic r) /\ dg_observations (rd_diagnostic r) + Z.of_nat n <= billion.

(** What a recorder that has looked at its file never loses. *)
Definition keeps (r r' : Recorder) : Prop := rd_loaded r = true ->
  rd_loaded r' = true /\
  (dg_history (rd_diagnostic r) <> [] -> head (dg_history (rd_diagnostic r')) = head (dg_history (rd_diagnostic r)) /\ dg_history (rd_diagnostic r') <> []) /\
  (forall f, dg_firstFailure (rd_diagnostic r) = Some f -> dg_firstFailure (rd_diagnostic r') = Some f).

Lemma keeps_refl r : keeps r r.
Proof. by intros Hl. Qed.
Lemma keeps_trans r1 r2 r3 : keeps r1 r2 -> keeps r2 r3 -> keeps r1 r3.
Proof.
  intros H12 H23 Hl. destruct (H12 Hl) as (Hl2 & Hh2 & Hf2). destruct (H23 Hl2) as (Hl3 & Hh3 & Hf3).
  split; [done|]. split; [|auto]. intros Hne. destruct (Hh2 Hne) as [<- Hne2]. auto.
Qed.

Lemma room_collection c n r : room n r -> room n (collected c r).
Proof. done. Qed.
Lemma room_less n m r : (m <= n)%nat -> room n r -> room m r.
Proof. intros Hm [Hs Hr]. split; [done | lia]. Qed.

Lemma earlier_sound g text old started : earlier g text = Some (old, started) -> sound_diagnostic readable_observation old.
Proof.
  unfold earlier. intros (v & _ & (o & Ho & He)%bind_Some)%bind_Some. destruct (_ && _); [|done].
  apply bind_Some in He as (f & _ & (t & _ & (u & _ & [= -> ->])%bind_Some)%bind_Some).
  apply bind_Some in Ho as (d & _ & Hp). apply parse_sound in Hp as [Hp _]. eapply sound_mono; [|exact Hp]. apply valid_readable.
Qed.

Lemma load_wp n r g : (n <= budget)%nat -> room n r -> W load_file r g (fun _ r' res => res = Ok tt /\ room n r' /\ rd_loaded r' = true).
Proof.
  intros Hn Hr. unfold load_file. apply wpm_bind, wpm_get, wpm_bind, wpm_modify, wpm_bind, wpm_await_; [done|].
  assert (Hu : forall r', room n r' -> W (modify unreadable : DM unit) r' g (fun _ r' res => res = Ok tt /\ room n r' /\ rd_loaded r' = true))
    by (intros r' Hr'; by apply wpm_modify).
  intros [| |[]] _; [by apply wpm_ret | by apply Hu | | by apply Hu].
  apply wpm_bind, wpm_await_; [done|]. intros [text|e] Ha; [|by apply Hu].
  destruct (earlier _ text) as [[old started]|] eqn:He; [|by apply Hu]. apply wpm_modify.
  split; [done|]. split; [|done]. split; [by eapply earlier_sound|]. cbn in Ha |- *. specialize (Ha _ _ _ He). lia.
Qed.

Lemma time_readable value t e : 0 <= t < max_time -> 0 <= e <= billion ->
  let time := [("at", JStr (toISOString t)); ("elapsedMs", JNum (Int e))] in
  readable_observation (invalid_observation value time).
Proof.
  intros Ht He. cbv zeta. unfold readable_observation, parse_observation, invalid_observation.
  set (op := match dict_get value "operation" with Some (JStr s) => _ | _ => _ end).
  assert (Hop : one_of (map operation_name cleanupOperations) op = true).
  { subst op. destruct (dict_get value "operation") as [[| | |s| |]|]; try done. by destruct (includes _ s) eqn:Hs. }
  assert (Hint : integer (JNum (Int e)) = true) by (unfold integer; rewrite code_within by done; done).
  assert (Hr : forallb (required_property (([("at", JStr (toISOString t)); ("elapsedMs", JNum (Int e))]) ++
     [("operation", op); ("state", JStr "failed"); ("reason", JStr "CONFIG"); ("stage", JStr "cleanup")])%list) required_checks = true).
  { cbn [forallb required_checks]. unfold required_property. cbn [fst snd app dict_get String.eqb Ascii.eqb Bool.eqb].
    rewrite Hop, timestamp_now, Hint by done. done. }
  rewrite Hr. done.
Qed.

(** A call that succeeds, keeps what was noted and leaves room for [n] observations. *)
Definition noted (n : nat) (r : Recorder) (_ : unit) (r' : Recorder) (res : res exn unit) : Prop :=
  res = Ok tt /\ room n r' /\ keeps r r'.

Lemma note_room n r o : room (S n) r -> readable_observation o ->
  room n (note_observation o r) /\ keeps r (note_observation o r) /\ dg_history (rd_diagnostic (note_observation o r)) <> [].
Proof.
  intros [Hs Hr] Ho. pose proof (observed_sound o (rd_previous r) (rd_diagnostic r) Hs Ho ltac:(lia)) as (Hs' & Hne & Hn & Hh & Hf).
  unfold note_observation, room, keeps. destruct (observed o (rd_previous r) (rd_diagnostic r)) as [g previous]. cbn in *.
  split; [split; [done | lia]|]. split; [|done]. intros Hl. split; [done|]. split; [|done]. auto.
Qed.

Lemma write_snapshot_wp n r g : room n r -> dg_history (rd_diagnostic r) <> [] -> W write_snapshot r g (noted n r).
Proof.
  intros Hr Hne. unfold write_snapshot. apply wpm_bind, wpm_get. assert (Hsnap : snapshot (rd_diagnostic r) = Some (normalized (rd_diagnostic r))).
  { unfold snapshot. destruct (dg_history (rd_diagnostic r)) eqn:Hh; [done|]. apply diagnostic_reads; [apply Hr | congruence]. }
  rewrite Hsnap. apply wpm_when; intros _; [|by split; [|split; [|apply keeps_refl]]].
  apply wpm_bind, wpm_await_.
  - pose proof (normalized_sound _ (proj1 Hr)) as Hn. exists (normalized (rd_diagnostic r)). split; [done|]. split; [done|].
    assert (Hread : sound_diagnostic readable_observation (normalized (rd_diagnostic r))) by (eapply sound_mono; [|exact Hn]; apply valid_readable).
    rewrite diagnostic_reads; [|done | cbn; intros E%map_eq_nil; by rewrite E in Hne]. by rewrite normalized_id.
  - intros written _. apply wpm_when; intros _; [apply wpm_modify|]; (split; [done|split; [exact Hr|]]); [by intros Hl | apply keeps_refl].
Qed.

Lemma add_observation_wp n r g value t e : room (S n) r -> 0 <= t < max_time -> 0 <= e <= billion ->
  W (add_observation value [("at", JStr (toISOString t)); ("elapsedMs", JNum (Int e))]) r g
    (fun _ r' res => noted n r tt r' res /\ dg_history (rd_diagnostic r') <> []).
Proof.
  intros Hr Ht He. unfold add_observation. destruct (parse_observation _) as [o|] eqn:Ho.
  - apply wpm_modify. destruct (note_room n r o Hr) as (H1 & H2 & H3); [by apply valid_readable, (parse_valid _ _ Ho) | by split; [split|]].
  - apply wpm_bind, wpm_modify, wpm_modify. set (o := invalid_observation _ _).
    destruct (note_room n (collected Invalid_input r) o Hr) as (H1 & H2 & H3); [by apply time_readable | by split; [split|]].
Qed.

Lemma record_now_wp n r g value epoch : room (S n) r -> W (record_now value epoch) r g (noted n r).
Proof.
  intros Hr. unfold record_now. apply wpm_bind, wpm_get. destruct (stale epoch r).
  { apply wpm_ret. split; [done|]. split; [|apply keeps_refl]. by apply (room_less (S n)); [lia|]. }
  apply wpm_bind, wpm_await_; [done|]. intros t Ht. apply wpm_bind, wpm_await_; [done|]. intros now _. apply wpm_bind.
  eapply wpm_mono; [|apply (add_observation_wp n); [done | done | unfold billion; lia]].
  intros g1 r1 res [(-> & Hr1 & Hk1) Hne]. eapply wpm_mono; [|by apply (write_snapshot_wp n)].
  intros g2 r2 res (-> & Hr2 & Hk2). split; [done|]. split; [done|]. by eapply keeps_trans.
Qed.

Lemma record_wp n r g value epoch : (S n <= budget)%nat -> room (S n) r -> W (record value epoch) r g (noted n r).
Proof.
  intros Hn Hr. unfold record. apply wpm_bind, wpm_get, wpm_bind, wpm_when; intros Hl; [|by apply record_now_wp].
  eapply wpm_mono; [|by apply (load_wp (S n))]. intros g1 r1 res (-> & Hr1 & Hl1).
  eapply wpm_mono; [|by apply (record_now_wp n)]. intros g2 r2 res (-> & Hr2 & _). split; [done|]. split; [done|].
  intros Hl0. by rewrite Hl0 in Hl.
Qed.

Lemma perform_call_wp n r g c : (S n <= budget)%nat -> room (S n) r -> W (recorder_perform c) r g (noted n r).
Proof.
  intros Hn Hr. assert (Hretire : forall r, keeps r (with_epoch (rd_epoch r) true r)) by (by intros r' Hl).
  destruct c as [|epoch value|operation e command|]; cbn [recorder_perform].
  - unfold begin_observer. do 2 (apply wpm_bind, wpm_get || apply wpm_bind). apply wpm_bind, wpm_modify, wpm_ret, wpm_ret.
    split; [done|]. split; [by apply (room_less (S n)); [lia|] | by intros Hl].
  - unfold observe. apply wpm_bind, wpm_get. destruct (stale _ r); [|by apply record_wp].
    apply wpm_ret. split; [done|]. split; [by apply (room_less (S n)); [lia|] | apply keeps_refl].
  - unfold failure, retire. apply wpm_bind, wpm_modify, wpm_bind, wpm_get. cbv zeta.
    eapply wpm_mono; [|by apply (record_wp n)]. intros g1 r1 res (-> & H1 & H2). split; [done|]. split; [done|]. by eapply keeps_trans.
  - unfold complete, retire. apply wpm_bind, wpm_modify.
    eapply wpm_mono; [|by apply (record_wp n)]. intros g1 r1 res (-> & H1 & H2). split; [done|]. split; [done|]. by eapply keeps_trans.
Qed.

Lemma calls_wp calls r g : (length calls <= budget)%nat -> room (length calls) r ->
  W (for_each calls recorder_perform) r g (noted 0 r).
Proof.
  intros Hb Hr. apply (wpm_for_each _ _ _ _ _ (fun rest _ r' => (length rest <= budget)%nat /\ room (length rest) r' /\ keeps r r')).
  - intros c rest g' r' (Hl & Hr' & Hk). eapply wpm_mono; [|by apply (perform_call_wp (length rest))].
    intros g1 r1 res (-> & H1 & H2). cbn in Hl. split; [lia|]. split; [done|]. by eapply keeps_trans.
  - done.
  - intros g' r' (_ & Hr' & Hk). by split; [|split].
Qed.
End recorder.


(** ** A cleanup that fails *)
#[local] Instance no_legacy_dates : DateFallback := fun _ => None.

Definition demo_recorder : Recorder :=
  new_CleanupRecorder "reg-00000000-0000-0000-0000-000000000000" "0123456789abcdef0123456789abcdef0123456789abcdef0123456789abcdef" K_model 1700000000000.
Definition demo_calls : list recorder_call :=
  [R_begin; R_observe 1 [("operation", JStr "lookup"); ("state", JStr "passed"); ("exists", JBool true); ("url", JStr "https://private")];
   R_observe 1 [("operation", JStr "remove"); ("state", JStr "gone")]; R_failure Op_remove (harness CONFLICT) None].
Definition demo_disk X (op : recorderE X) (w : Z) : X * Z :=
  match op in recorderE X return X * Z with
  | D_stat => (File_missing, w)
  | D_read => (Err (harness PRIVATE_FILE), w)
  | D_write _ => (true, w)
  | D_now => (w, w + 5)
  end.
Definition demo_recording : list event := trace demo_disk (for_each demo_calls recorder_perform demo_recorder) 1700000001000.


(** A conflict answered to the first DELETE is observed with its status; when the command that
    looks the object up again times out, its failure is spread over that observation
    (line 113). The reason and the exit code of the conflict stay beside the timeout, the whole
    is refused, and what is recorded is an invalid observation instead of the timeout. *)
Definition conflict_observation : dict json :=
  [("operation", JStr "remove"); ("state", JStr "failed"); ("attempt", JNum (Int 1)); ("requestAttempted", JBool true); ("retrying", JBool true);
   ("reason", JStr "CONFLICT"); ("stage", JStr "cleanup"); ("commandFailure", JStr "api"); ("httpStatus", JNum (Int 409));
   ("exitCode", JNum (Int 1)); ("kubernetesReason", JStr "Conflict")].
Definition timed_out : KubernetesCommandDiagnostic :=
  {| kc_commandFailure := F_timeout; kc_httpStatus := None; kc_kubernetesReason := None; kc_exitCode := None; kc_processSignal := None |}.
Example conflict_hides_timeout :
  let r := (exec demo_disk (for_each [R_begin; R_observe 1 conflict_observation; R_failure Op_remove (harness OBSERVER) (Some timed_out)] recorder_perform demo_recorder)
              1700000001000).1.1 in
  dg_collection (rd_diagnostic r) = Invalid_input /\
  (d ← last (dg_history (rd_diagnostic r)); Some (dict_get d "reason", dict_get d "commandFailure")) = Some (Some (JStr "CONFIG"), None).
Proof. by vm_compute. Qed.
