(* ===== verification/PinDiagnostic.v ===== *)
(** * Diagnostics of the preflight (regression/core/preflight-diagnostic.ts)

    What the preflight saw of the pinned workloads: a bounded record of observations, rebuilt
    field by field whenever it is read, so that nothing else of an attachment survives. A
    reader takes a JSON value and gives the rebuilt one or throws. *)

From S2P Require Import Prelude Js Number Regex Json JsonFields Dates Prog Errors DashboardCore.

Local Open Scope string_scope.
Local Open Scope js_scope.
Local Open Scope Z_scope.

(** ** Rebuilding objects *)
Definition reader : Type := json -> res exn json.
(** A member of the rebuilt object: its key, and its value from the member read. *)
Definition field : Type := string * (option json -> res exn (option json)).

Fixpoint rebuild (l : list field) (d : dict json) : res exn (dict json) :=
  match l with
  | [] => Ok []
  | kf :: l => let? o := kf.2 (dict_get d kf.1) in let? r := rebuild l d in Ok (member kf.1 o ++ r)%list
  end.
(** A member that was checked, one kept when it passes, one always set, one read when truthy. *)
Definition keep (k : string) : field := (k, fun o => Ok o).
Definition kept_if (k : string) (p : json -> bool) : field := (k, fun o => Ok (match o with Some v => if p v then Some v else None | None => None end)).
Definition always (k : string) (g : option json -> json) : field := (k, fun o => Ok (Some (g o))).
Definition read_truthy (k : string) (f : reader) : field :=
  (k, fun o => match o with Some v => if json_truthy v then let? w := f v in Ok (Some w) else Ok None | None => Ok None end).
Definition each (f : reader) : reader := fun v => match v with JArr l => let? l := res_map f l in Ok (JArr l) | _ => Ok v end.
Definition read_all (k : string) (f : reader) : field := (k, fun o => match o with Some v => let? w := each f v in Ok (Some w) | None => Ok None end).

(** An object whose members pass a check; [null] has no members. *)
Definition read_object (null_error : exn) (ok : dict json -> bool) (l : list field) : reader := fun v =>
  match v with
  | JNull => Err null_error
  | _ => let d := json_obj v ?? [] in let? _ := requireSafe (ok d) CONFIG in let? r := rebuild l d in Ok (JObj r)
  end.
Definition type_error : exn := Foreign "TypeError".

(** ** Values *)
Definition pinConditions : list string := ["ready"; "missing"; "identity"; "revision"; "generation"; "replicas"; "containers"; "image"; "readiness"].
Definition pin_reasons : list string :=
  ["Unknown"; "Progressing"; "Available"; "NewReplicaSetAvailable"; "ReplicaSetUpdated"; "MinimumReplicasAvailable";
   "MinimumReplicasUnavailable"; "ProgressDeadlineExceeded"; "DeploymentDoesNotHaveMinimumReplicas"; "DependencyNotReady";
   "BuildFailed"; "ReconciliationSucceeded"; "ReconciliationFailed"; "HealthCheckFailed"; "ArtifactFailed"; "ProgressingWithRetry";
   "Succeeded"; "Failed"; "FailedCreate"; "FailedDelete"; "FailedScheduling"; "FailedMount"; "FailedAttachVolume"; "FailedBinding";
   "BackOff"; "Pulling"; "Pulled"; "Created"; "Started"; "Killing"; "Unhealthy"; "Scheduled"; "ScalingReplicaSet"; "OOMKilled";
   "CrashLoopBackOff"; "ImagePullBackOff"; "ErrImagePull"; "ContainerCreating"; "PodInitializing"; "CreateContainerConfigError";
   "CreateContainerError"; "RunContainerError"; "Completed"; "Error"; "Evicted"; "DeadlineExceeded"].
(** One of the texts, or the last resort. *)
Definition one_text (l : list string) (v : json) : bool := match v with JStr s => includes l s | _ => false end.
Definition text_or (l : list string) (other : string) (o : option json) : json :=
  match o with Some v => if one_text l v then v else JStr other | None => JStr other end.
Definition safePinReason (o : option json) : json := text_or pin_reasons "Unknown" o.

Definition natural (v : json) : bool := match v with JNum n => isSafeInteger n && num_leb (Int 0) n | _ => false end.
Definition safe (v : json) : bool := match v with JNum n => isSafeInteger n | _ => false end.
Definition below (hi : Z) (v : json) : bool := match v with JNum n => num_ltb n (Int hi) | _ => false end.
Definition boolean (v : json) : bool := match v with JBool _ => true | _ => false end.
Definition or_null_value (p : json -> bool) (v : json) : bool := match v with JNull => true | _ => p v end.
Definition sha_text (v : json) : bool := match v with JStr s => (String.length s =? 64)%nat && sforall is_hex_lower s | _ => false end.
(** A member that is there and passes. *)
Definition holds (d : dict json) (k : string) (p : json -> bool) : bool := match dict_get d k with Some v => p v | None => false end.
Definition at_most (n : nat) (v : json) : bool := match v with JArr l => (length l <=? n)%nat | _ => false end.
Definition no_member_or (d : dict json) (k : string) (p : json -> bool) : bool := match dict_get d k with Some v => p v | None => true end.

(** A date and a time in UTC, with up to three digits of the second. *)
Definition digits (n : nat) : re := rep n (Cls is_digit).
Definition time_pattern : re :=
  Cat (digits 4) (Cat (chr "-") (Cat (digits 2) (Cat (chr "-") (Cat (digits 2) (Cat (chr "T") (Cat (digits 2) (Cat (chr ":") (Cat (digits 2)
    (Cat (chr ":") (Cat (digits 2) (Cat (opt (Cat (chr ".") (Cat (Cls is_digit) (upto 2 (Cls is_digit))))) (chr "Z")))))))))))).

Section parse.
Context {fallback : DateFallback}.

Definition pin_time (v : json) : bool := match v with JStr s => rtest time_pattern s && bool_decide (is_Some (Date_parse s)) | _ => false end.
Definition time_of (d : dict json) (k : string) : option Z := base.mbind Date_parse (text_field d k).
Definition window_ok (d : dict json) : bool :=
  holds d "startedAt" pin_time && holds d "finishedAt" pin_time &&
  match time_of d "startedAt", time_of d "finishedAt" with Some a, Some b => a <=? b | _, _ => false end.
Definition window_fields : list field := [keep "startedAt"; keep "finishedAt"].
Definition window : reader := read_object (harness CONFIG) window_ok window_fields.

Definition identity_fields : list field :=
  [kept_if "uidFingerprint" sha_text; kept_if "resourceVersionFingerprint" sha_text; kept_if "generation" natural; kept_if "observedGeneration" natural].

(** ** Pods and checks *)
Definition container_states : list string := ["running"; "waiting"; "terminated"; "unknown"].
Definition container_ok (c : dict json) : bool :=
  holds c "ready" boolean && holds c "restartCount" (or_null_value natural) && holds c "imageMatches" (or_null_value boolean) && holds c "state" (one_text container_states).
Definition read_container : reader := read_object type_error container_ok
  [always "role" (text_or ["init"] "workload"); keep "ready"; keep "restartCount"; keep "imageMatches"; keep "state"; always "reason" safePinReason;
   kept_if "exitCode" safe; read_truthy "previousReason" (fun v => Ok (safePinReason (Some v))); kept_if "previousExitCode" safe].
Definition pod_phases : list string := ["Pending"; "Running"; "Succeeded"; "Failed"; "Unknown"].
Definition pod_ok (p : dict json) : bool := holds p "terminating" boolean && holds p "phase" (one_text pod_phases) && holds p "containers" (at_most 4).
Definition read_pod : reader := read_object type_error pod_ok (identity_fields ++ [keep "terminating"; keep "phase"; read_all "containers" read_container])%list.

Definition components : list string := ["flux"; "deployment"].
Definition index_ok (d : dict json) : bool := holds d "component" (one_text components) && holds d "index" natural && holds d "index" (below 1000000).
Definition check_ok (c : dict json) : bool := index_ok c && holds c "condition" (one_text pinConditions) && no_member_or c "pods" (at_most 12).
Definition read_condition : reader := read_object type_error (fun _ => true)
  [always "status" (text_or ["True"; "False"] "Unknown"); always "reason" safePinReason; kept_if "observedGeneration" natural].
Definition check_fields : list field :=
  ([keep "component"; keep "index"; keep "condition"] ++ identity_fields ++
   [read_truthy "observed" window; read_truthy "podsObserved" window; kept_if "sourceMatches" boolean; kept_if "desiredReplicas" natural;
    kept_if "readyReplicas" natural; read_truthy "readyCondition" read_condition; kept_if "omittedPods" natural; read_all "pods" read_pod])%list.
Definition read_check : reader := read_object type_error check_ok check_fields.

Definition read_failures : list string := ["API"; "AUTH"; "OBSERVER"; "IDENTITY"; "HOST"; "CAPABILITY"; "LAB"; "UNEXPECTED"].
Definition positive (v : json) : bool := natural v && match v with JNum n => num_ltb (Int 0) n | _ => false end.
Definition observation_ok (d : dict json) : bool := holds d "attempt" positive && holds d "checks" (at_most 16) && window_ok d.
Definition observation : reader := read_object (harness CONFIG) observation_ok
  (window_fields ++ [keep "attempt"; read_all "checks" read_check; kept_if "omittedChecks" positive; kept_if "readFailure" (one_text read_failures)])%list.

(** ** The diagnostic *)
Definition diagnostic_states : list string := ["observing"; "converged"; "failed"].
Definition event_states : list string := ["not-needed"; "pending"; "collected"; "unavailable"].
Definition log_states : list string := ["not-needed"; "pending"; "captured"; "unavailable"].
Definition log_reasons : list string := ["not-native"; "not-authorized"; "endpoint-unavailable"; "identity-changed"; "collection-failed"].
Definition event_ok (e : dict json) : bool := index_ok e && holds e "objectFingerprint" sha_text && holds e "observedAt" pin_time.
Definition read_event : reader := read_object type_error event_ok
  [keep "component"; keep "index"; keep "objectFingerprint"; keep "observedAt"; always "type" (text_or ["Normal"; "Warning"] "Unknown");
   always "reason" safePinReason; kept_if "occurredAt" pin_time; kept_if "count" natural].
Definition events_ok (e : dict json) : bool := holds e "state" (one_text event_states) && holds e "items" (at_most 32) && holds e "omitted" natural.
Definition logs_ok (l : dict json) : bool := holds l "state" (one_text log_states) && holds l "streams" natural && negb (holds l "streams" (fun v => negb (below 5 v))).
Definition diagnostic_ok (d : dict json) : bool :=
  number_is d "version" 1 && holds d "state" (one_text diagnostic_states) && holds d "attempts" natural && holds d "omittedObservations" natural &&
  holds d "history" (at_most 12) && events_ok (object_in d "events") && logs_ok (object_in d "logs").
Definition parsePreflightDiagnostic : reader := read_object (harness CONFIG) diagnostic_ok
  [always "version" (fun _ => JNum (Int 1)); keep "state"; keep "attempts"; read_truthy "firstFailure" observation; read_all "history" observation;
   keep "omittedObservations";
   read_truthy "events" (read_object type_error (fun _ => true) [keep "state"; keep "omitted"; read_all "items" read_event]);
   read_truthy "logs" (read_object type_error (fun _ => true) [keep "state"; keep "streams"; kept_if "reason" (one_text log_reasons)])].

(** ** Recording *)
Record PinDiagnostic : Type := {
  pd_state : string; pd_attempts : json; pd_firstFailure : option json; pd_history : list json; pd_omitted : Z; pd_events : json; pd_logs : json
}.
Definition pin_json (d : PinDiagnostic) : json :=
  JObj ([("version", JNum (Int 1)); ("state", JStr (pd_state d)); ("attempts", pd_attempts d)] ++ member "firstFailure" (pd_firstFailure d) ++
        [("history", JArr (pd_history d)); ("omittedObservations", JNum (Int (pd_omitted d))); ("events", pd_events d); ("logs", pd_logs d)])%list.
(** Members are in the order in which they are read back; the length of the text is the same in any. *)
Definition newPreflightDiagnostic : PinDiagnostic :=
  {| pd_state := "observing"; pd_attempts := JNum (Int 0); pd_firstFailure := None; pd_history := []; pd_omitted := 0;
     pd_events := JObj [("state", JStr "not-needed"); ("omitted", JNum (Int 0)); ("items", JArr [])];
     pd_logs := JObj [("state", JStr "not-needed"); ("streams", JNum (Int 0))] |}.

Definition members_of (v : json) : dict json := json_obj v ?? [].
Definition failing (value : dict json) : bool :=
  truthy_in value "readFailure" || existsb (fun c => negb (same_text c "condition" "ready")) (objects_in value "checks").
(** The text of an observation without the times of its reads. *)
Definition signature (value : dict json) : string :=
  stringify "" "" (JObj (member "readFailure" (dict_get value "readFailure") ++
    [("checks", JArr (map (fun c => JObj (dict_delete (dict_delete c "observed") "podsObserved")) (objects_in value "checks")))])%list).
Definition with_history (history : list json) (omitted : Z) (d : PinDiagnostic) : PinDiagnostic :=
  {| pd_state := pd_state d; pd_attempts := pd_attempts d; pd_firstFailure := pd_firstFailure d; pd_history := history; pd_omitted := omitted;
     pd_events := pd_events d; pd_logs := pd_logs d |}.
Definition maximum_text : Z := 160 * 1024.
(** The second observation is left out while there are too many or the text is too long. *)
Fixpoint shorten (fuel : nat) (d : PinDiagnostic) : PinDiagnostic :=
  match fuel with
  | O => d
  | S fuel =>
      if (12 <? length (pd_history d))%nat || ((2 <? length (pd_history d))%nat && (maximum_text <? Z.of_nat (String.length (stringify "" "" (pin_json d)))))
      then shorten fuel (with_history (delete 1%nat (pd_history d)) (pd_omitted d + 1) d) else d
  end.
Definition attempted_first (value : json) (d : PinDiagnostic) : PinDiagnostic :=
  {| pd_state := pd_state d; pd_attempts := dict_get (members_of value) "attempt" ?? JNum (Int 0); (* an observation has an attempt *)
     pd_firstFailure := pd_firstFailure d ??? (if failing (members_of value) then Some value else None);
     pd_history := pd_history d; pd_omitted := pd_omitted d; pd_events := pd_events d; pd_logs := pd_logs d |}.
Definition recordPinObservation (d : PinDiagnostic) (sample : json) : res exn PinDiagnostic :=
  let? value := observation sample in
  let d := attempted_first value d in
  let again := match last (pd_history d) with Some v => String.eqb (signature (members_of v)) (signature (members_of value)) | None => false end in
  if again && (1 <? length (pd_history d))%nat then
    Ok (with_history (take (length (pd_history d) - 1) (pd_history d) ++ [value])%list (pd_omitted d + 1) d)
  else
    let d := with_history (pd_history d ++ [value])%list (pd_omitted d) d in
    Ok (shorten (length (pd_history d)) d).
End parse.

(** ** Observing a workload *)
Section observing.
Context (sha256 : string -> string).
Definition hashed_text (d : dict json) (k : string) : option json := base.mbind (fun s => if truthy s then Some (JStr (sha256 s)) else None) (text_field d k).
Definition when_natural (d : dict json) (k : string) : option json := base.mbind (fun v => if natural v then Some v else None) (dict_get d k).
Definition pinIdentity (item : dict json) : dict json :=
  let m := object_in item "metadata" in
  (member "uidFingerprint" (hashed_text m "uid") ++ member "resourceVersionFingerprint" (hashed_text m "resourceVersion") ++
   member "generation" (when_natural m "generation") ++ member "observedGeneration" (when_natural (object_in item "status") "observedGeneration"))%list.

Definition safe_member (k : string) (d : dict json) (k' : string) : dict json :=
  member k (base.mbind (fun v => if safe v then Some v else None) (dict_get d k')).
(** [a ?? b] of members, where [null] counts as absent. *)
Definition present_member (d : dict json) (k : string) : option json := match dict_get d k with Some JNull => None | o => o end.
Definition pin_container (digest role : string) (c : dict json) : json :=
  let state := object_in c "state" in
  let terminated := object_in state "terminated" in
  let previous := object_in (object_in c "lastState") "terminated" in
  JObj ([("role", JStr role); ("ready", JBool (flag_is c "ready" true)); ("restartCount", when_natural c "restartCount" ?? JNull);
         ("imageMatches", match text_field c "imageID" with
                          | Some image => if String.eqb role "workload" && truthy image then JBool (endsWith digest image) else JNull
                          | None => JNull end);
         ("state", JStr (if truthy_in state "running" then "running" else if truthy_in state "waiting" then "waiting"
                         else if truthy_in state "terminated" then "terminated" else "unknown"));
         ("reason", safePinReason (present_member (object_in state "waiting") "reason" ??? dict_get terminated "reason"))] ++
        safe_member "exitCode" terminated "exitCode" ++
        (if truthy_in (object_in c "lastState") "terminated"
         then ("previousReason", safePinReason (dict_get previous "reason")) :: safe_member "previousExitCode" previous "exitCode" else []))%list.
Definition pinPod (item : dict json) (container digest : string) : json :=
  let status := object_in item "status" in
  JObj (pinIdentity item ++
        [("terminating", JBool (truthy_in (object_in item "metadata") "deletionTimestamp"));
         ("phase", text_or ["Pending"; "Running"; "Succeeded"; "Failed"] "Unknown" (dict_get status "phase"));
         ("containers", JArr
           (map (pin_container digest "workload") (take 2 (List.filter (fun c => same_text c "name" container) (objects_in status "containerStatuses"))) ++
            map (pin_container digest "init") (take 2 (objects_in status "initContainerStatuses"))))])%list.
End observing.

(** ** Theorems: rebuilding *)
Definition fstable (f : option json -> res exn (option json)) : Prop := forall o o', f o = Ok o' -> f o' = Ok o'.
Definition stable (f : reader) : Prop := forall v w, f v = Ok w -> f w = Ok w.
Definition keys (l : list field) : list string := map fst l.

Lemma dict_get_member k o (r : dict json) k' : dict_get (member k o ++ r)%list k' = if String.eqb k k' then o ??? dict_get r k' else dict_get r k'.
Proof. destruct o as [v|]; cbn; by destruct (String.eqb k k'). Qed.
Lemma rebuild_other l d r k : rebuild l d = Ok r -> k ∉ keys l -> dict_get r k = None.
Proof.
  revert r. induction l as [|[k0 f] l IH]; intros r; cbn; [by intros [= <-]|]. intros H Hk. res_inv. rewrite dict_get_member.
  destruct (String.eqb_spec k0 k) as [->|_]; [set_solver|]. apply IH; [done | set_solver].
Qed.
Lemma rebuild_get l d r k f : NoDup (keys l) -> rebuild l d = Ok r -> In (k, f) l -> f (dict_get d k) = Ok (dict_get r k).
Proof.
  revert r. induction l as [|[k0 f0] l IH]; intros r Hn H; [done|]. cbn [rebuild fst snd In] in *. res_inv. apply NoDup_cons in Hn as [Hk Hn]. cbn [fst] in Hk.
  rewrite dict_get_member. intros [[= -> ->]|Hin].
  - rewrite String.eqb_refl, (rebuild_other _ _ _ _ E0 Hk), E. by destruct a.
  - destruct (String.eqb_spec k0 k) as [->|_]; [|by apply IH]. exfalso. apply Hk, list_elem_of_In, in_map_iff. by exists (k, f).
Qed.
Lemma rebuild_again l d d' r : rebuild l d = Ok r -> (forall k f o, In (k, f) l -> f (dict_get d k) = Ok o -> f (dict_get d' k) = Ok o) -> rebuild l d' = Ok r.
Proof.
  revert r. induction l as [|[k f] l IH]; intros r H Hf; cbn in *; [done|]. res_inv. cbn [fst snd] in *.
  rewrite (Hf k f a) by auto. cbn [res_bind].
  rewrite (IH _ eq_refl) by (intros ? ? ? ?; apply Hf; auto). done.
Qed.
Lemma rebuild_stable l d r : NoDup (keys l) -> Forall (fun kf => fstable kf.2) l -> rebuild l d = Ok r -> rebuild l r = Ok r.
Proof.
  intros Hn Hs H. eapply rebuild_again; [exact H|]. intros k f o Hin Ho.
  pose proof (rebuild_get _ _ _ _ _ Hn H Hin) as Hg. rewrite Ho in Hg. injection Hg as <-.
  rewrite Forall_forall in Hs. refine (Hs (k, f) _ _ _ Ho). by apply list_elem_of_In.
Qed.
Lemma read_object_ok e ok l v w : read_object e ok l v = Ok w -> exists d r, v <> JNull /\ d = json_obj v ?? [] /\ ok d = true /\ rebuild l d = Ok r /\ w = JObj r.
Proof.
  unfold read_object. intros H. assert (Hv : v <> JNull) by (intros ->; discriminate H).
  assert (H' : (let? _ := requireSafe (ok (json_obj v ?? [])) CONFIG in let? r := rebuild l (json_obj v ?? []) in Ok (JObj r)) = Ok w) by (by destruct v).
  cbv zeta in H'. res_inv. exists (json_obj v ?? []), a0. split_and!; [done | done | by destruct a; apply requireSafe_ok in E | done | done].
Qed.
Lemma read_object_stable e ok l : NoDup (keys l) -> Forall (fun kf => fstable kf.2) l ->
  (forall d r, ok d = true -> rebuild l d = Ok r -> ok r = true) -> stable (read_object e ok l).
Proof.
  intros Hn Hs Hok v w (d & r & _ & _ & Ho & Hr & ->)%read_object_ok. unfold read_object. cbn [json_obj nullish].
  rewrite (requireSafe_true _ _ (Hok _ _ Ho Hr)). cbn [res_bind]. by rewrite (rebuild_stable _ _ _ Hn Hs Hr).
Qed.

Lemma keep_stable k : fstable (keep k).2. Proof. intros o o' [= <-]. done. Qed.
Lemma kept_if_stable k p : fstable (kept_if k p).2.
Proof. intros [v|] o'; cbn; [|by intros [= <-]]. destruct (p v) eqn:E; intros [= <-]; [by rewrite E | done]. Qed.
Lemma always_stable k g : (forall o, g (Some (g o)) = g o) -> fstable (always k g).2.
Proof. intros Hg o o'. cbn. intros [= <-]. by rewrite Hg. Qed.
Lemma text_or_again l other o : text_or l other (Some (text_or l other o)) = text_or l other o.
Proof.
  unfold text_or. destruct o as [v|]; [destruct (one_text l v) eqn:E|]; [by rewrite E | |]; by destruct (one_text l (JStr other)).
Qed.
Lemma safePinReason_truthy o : json_truthy (safePinReason o) = true.
Proof.
  unfold safePinReason, text_or. destruct o as [v|]; [|done]. destruct (one_text pin_reasons v) eqn:E; [|done].
  destruct v as [| | |s| |]; try done. by destruct s.
Qed.
Lemma read_truthy_stable k f : stable f -> (forall v w, f v = Ok w -> json_truthy w = true) -> fstable (read_truthy k f).2.
Proof.
  intros Hf Ht [v|] o'; cbn; [|by intros [= <-]]. destruct (json_truthy v); [|by intros [= <-]]. intros H. res_inv. rewrite (Ht _ _ E), (Hf _ _ E). done.
Qed.
Lemma res_map_stable (f : reader) l l' : stable f -> res_map f l = Ok l' -> res_map f l' = Ok l' /\ length l' = length l.
Proof.
  intros Hf. revert l'. induction l as [|v l IH]; intros l' H; cbn in H; res_inv; [done|]. destruct (IH _ eq_refl) as [H1 H2].
  cbn [res_map length]. by rewrite (Hf _ _ E), H1, H2.
Qed.
Lemma each_stable f : stable f -> stable (each f).
Proof. intros Hf [| | | |l|] w; cbn; try by intros [= <-]. intros H. res_inv. cbn. by rewrite (proj1 (res_map_stable _ _ _ Hf E)). Qed.
Lemma read_all_stable k f : stable f -> fstable (read_all k f).2.
Proof. intros Hf [v|] o'; cbn; [|by intros [= <-]]. intros H. res_inv. by rewrite (each_stable _ Hf _ _ E). Qed.
Lemma read_object_truthy e ok l v w : read_object e ok l v = Ok w -> json_truthy w = true.
Proof. by intros (d & r & _ & _ & _ & _ & ->)%read_object_ok. Qed.

(** What a rebuilt object keeps of its checks. *)
Lemma rebuild_keep l d r k : NoDup (keys l) -> rebuild l d = Ok r -> In (keep k) l -> dict_get r k = dict_get d k.
Proof. intros Hn H Hin. pose proof (rebuild_get _ _ _ _ _ Hn H Hin) as Hg. by injection Hg. Qed.
Lemma rebuild_all l d r k f n : NoDup (keys l) -> rebuild l d = Ok r -> In (read_all k f) l -> holds d k (at_most n) = true -> holds r k (at_most n) = true.
Proof.
  intros Hn H Hin. pose proof (rebuild_get _ _ _ _ _ Hn H Hin) as Hg. unfold holds. destruct (dict_get d k) as [v|]; [|done].
  destruct v; try done. cbn in Hg. res_inv. intros Hl. rewrite <- Hg. cbn [at_most] in *.
  assert (length a0 = length l0) as ->; [|done]. clear -E0. revert a0 E0. induction l0 as [|x l0 IH]; intros a0 H; cbn in H; res_inv; [done|]. cbn. by rewrite (IH _ eq_refl).
Qed.

Lemma rebuild_all_opt l d r k f n :
  NoDup (keys l) -> rebuild l d = Ok r -> In (read_all k f) l -> no_member_or d k (at_most n) = true -> no_member_or r k (at_most n) = true.
Proof.
  intros Hn H Hin. pose proof (rebuild_all _ _ _ _ _ n Hn H Hin) as Ha. pose proof (rebuild_get _ _ _ _ _ Hn H Hin) as Hg.
  unfold holds, no_member_or in *. destruct (dict_get d k); [|by injection Hg as <-]. cbn in Hg. res_inv. by rewrite <- Hg in *.
Qed.

Ltac in_fields := repeat first [left; reflexivity | right].
Ltac distinct := by apply (bool_decide_unpack _); vm_compute.
Ltac field_stable :=
  repeat constructor; cbn [snd];
  first [apply keep_stable | apply kept_if_stable | apply read_all_stable | apply read_truthy_stable | apply always_stable];
  try first [apply text_or_again | apply read_object_truthy]; auto using safePinReason_truthy.
(** The checked members of the rebuilt object are those of the object. *)
Ltac with_distinct H tac :=
  match type of H with rebuild ?l ?d = Ok ?r =>
    let Hn := fresh "Hn" in assert (Hn : NoDup (keys l)) by distinct; tac l d r Hn; clear Hn
  end.
Ltac kept_all H :=
  with_distinct H ltac:(fun l d r Hn =>
    repeat match goal with |- context [dict_get r ?k] => rewrite (rebuild_keep l d r k Hn H) by in_fields end).
Ltac kept_array H Hc f :=
  with_distinct H ltac:(fun l d r Hn =>
    match type of Hc with
    | holds d ?k (at_most ?n) = true => rewrite (rebuild_all l d r k f n Hn H) by first [exact Hc | in_fields]
    | no_member_or d ?k (at_most ?n) = true => rewrite (rebuild_all_opt l d r k f n Hn H) by first [exact Hc | in_fields]
    end).

Section stability.
Context {fallback : DateFallback}.

Lemma window_stable : stable window.
Proof.
  apply read_object_stable; [distinct | field_stable |].
  intros d r Ho Hr. unfold window_ok, holds, time_of, text_field in *. kept_all Hr. done.
Qed.
Lemma reason_stable : stable (fun v => Ok (safePinReason (Some v))).
Proof. intros v w [= <-]. by rewrite <- (text_or_again pin_reasons "Unknown" (Some v)) at 2. Qed.
Lemma reason_truthy v w : Ok (safePinReason (Some v)) = Ok w :> res exn json -> json_truthy w = true.
Proof. intros [= <-]. exact (safePinReason_truthy (Some v)). Qed.
#[local] Hint Resolve window_stable reason_stable reason_truthy : core.
Lemma container_stable : stable read_container.
Proof.
  apply read_object_stable; [distinct | field_stable; apply reason_truthy |].
  intros d r Ho Hr. unfold container_ok, holds in *. kept_all Hr. done.
Qed.
#[local] Hint Resolve container_stable : core.
Lemma pod_stable : stable read_pod.
Proof.
  apply read_object_stable; [distinct | field_stable |].
  intros d r Ho Hr. unfold pod_ok in *. destruct (holds d "containers" (at_most 4)) eqn:Hc; [|by rewrite andb_false_r in Ho].
  kept_array Hr Hc read_container. unfold holds in *. kept_all Hr. done.
Qed.
#[local] Hint Resolve pod_stable : core.
Lemma condition_stable : stable read_condition.
Proof. apply read_object_stable; [distinct | field_stable | done]. Qed.
#[local] Hint Resolve condition_stable : core.
Lemma check_stable : stable read_check.
Proof.
  apply read_object_stable; [distinct | field_stable |].
  intros d r Ho Hr. unfold check_ok in *. destruct (no_member_or d "pods" (at_most 12)) eqn:Hc; [|by rewrite andb_false_r in Ho].
  kept_array Hr Hc read_pod. unfold index_ok, holds in *. kept_all Hr. done.
Qed.
#[local] Hint Resolve check_stable : core.
Lemma observation_stable : stable observation.
Proof.
  apply read_object_stable; [distinct | field_stable |].
  intros d r Ho Hr. unfold observation_ok in *. destruct (holds d "checks" (at_most 16)) eqn:Hc; [|by rewrite andb_false_r in Ho].
  kept_array Hr Hc read_check. unfold window_ok, time_of, text_field, holds in *. kept_all Hr. done.
Qed.
#[local] Hint Resolve observation_stable : core.
Lemma event_stable : stable read_event.
Proof.
  apply read_object_stable; [distinct | field_stable |].
  intros d r Ho Hr. unfold event_ok, index_ok, holds in *. kept_all Hr. done.
Qed.
#[local] Hint Resolve event_stable : core.
Lemma read_events_stable : stable (read_object type_error (fun _ => true) [keep "state"; keep "omitted"; read_all "items" read_event]).
Proof. apply read_object_stable; [distinct | field_stable | done]. Qed.
Lemma read_logs_stable : stable (read_object type_error (fun _ => true) [keep "state"; keep "streams"; kept_if "reason" (one_text log_reasons)]).
Proof. apply read_object_stable; [distinct | field_stable | done]. Qed.
#[local] Hint Resolve read_events_stable read_logs_stable : core.

(** A member rebuilt as an object of its own. *)
Lemma rebuild_inner l d r k e ok l' : NoDup (keys l) -> rebuild l d = Ok r -> In (read_truthy k (read_object e ok l')) l -> object_in d k <> [] ->
  rebuild l' (object_in d k) = Ok (object_in r k).
Proof.
  intros Hn H Hin Hd. pose proof (rebuild_get _ _ _ _ _ Hn H Hin) as Hg. unfold object_in in *. destruct (dict_get d k) as [v|]; [|done].
  destruct v; try done. cbn in Hg |- *. res_inv. by rewrite <- Hg.
Qed.
Lemma object_holds d k k' p : holds (object_in d k) k' p = true -> object_in d k <> [].
Proof. by destruct (object_in d k). Qed.
Lemma events_ok_again d r : rebuild [keep "state"; keep "omitted"; read_all "items" read_event] d = Ok r -> events_ok d = true -> events_ok r = true.
Proof.
  intros Hr Ho. unfold events_ok in *. destruct (holds d "items" (at_most 32)) eqn:Hc; [|by rewrite andb_false_r in Ho].
  kept_array Hr Hc read_event. unfold holds in *. kept_all Hr. done.
Qed.
Lemma logs_ok_again d r : rebuild [keep "state"; keep "streams"; kept_if "reason" (one_text log_reasons)] d = Ok r -> logs_ok d = true -> logs_ok r = true.
Proof. intros Hr Ho. unfold logs_ok, holds in *. kept_all Hr. done. Qed.
Lemma parse_stable : stable parsePreflightDiagnostic.
Proof.
  apply read_object_stable; [distinct | field_stable |].
  intros d r Ho Hr. unfold diagnostic_ok in *. apply andb_true_iff in Ho as [Ho Hl]. apply andb_true_iff in Ho as [Ho He].
  destruct (holds d "history" (at_most 12)) eqn:Hc; [|by rewrite andb_false_r in Ho].
  with_distinct Hr ltac:(fun l d r Hn =>
    assert (events_ok (object_in r "events") = true) as -> by
      (eapply events_ok_again; [eapply (rebuild_inner l); [exact Hn | exact Hr | in_fields |] | exact He]; unfold events_ok in He; by destruct (object_in d "events"));
    assert (logs_ok (object_in r "logs") = true) as -> by
      (eapply logs_ok_again; [eapply (rebuild_inner l); [exact Hn | exact Hr | in_fields |] | exact Hl]; unfold logs_ok in Hl; by destruct (object_in d "logs"));
    assert (Hv : Some (JNum (Int 1)) = dict_get r "version") by
      (pose proof (rebuild_get l d r "version" (fun _ => Ok (Some (JNum (Int 1)))) Hn Hr ltac:(in_fields)) as Hg; by injection Hg)).
  kept_array Hr Hc observation. unfold number_is at 1. rewrite <- Hv. unfold number_is in Ho. 
  apply andb_true_iff in Ho as [Ho _]. apply andb_true_iff in Ho as [Ho H4]. apply andb_true_iff in Ho as [Ho H3]. apply andb_true_iff in Ho as [_ H2].
  unfold holds in H2, H3, H4 |- *. kept_all Hr. by rewrite H2, H3, H4.
Qed.
End stability.

(** ** Theorems: what a rebuilt diagnostic can reveal *)
Definition member_names : list string :=
  ["version"; "state"; "attempts"; "firstFailure"; "history"; "omittedObservations"; "events"; "logs"; "omitted"; "items"; "streams"; "reason";
   "component"; "index"; "condition"; "objectFingerprint"; "observedAt"; "occurredAt"; "type"; "count"; "startedAt"; "finishedAt"; "attempt"; "checks";
   "omittedChecks"; "readFailure"; "uidFingerprint"; "resourceVersionFingerprint"; "generation"; "observedGeneration"; "observed"; "podsObserved";
   "sourceMatches"; "desiredReplicas"; "readyReplicas"; "readyCondition"; "omittedPods"; "pods"; "status"; "terminating"; "phase"; "containers";
   "role"; "ready"; "restartCount"; "imageMatches"; "exitCode"; "previousReason"; "previousExitCode"].
Definition vocabulary : list string :=
  (diagnostic_states ++ event_states ++ log_states ++ log_reasons ++ components ++ pinConditions ++ read_failures ++ pin_reasons ++ pod_phases ++ container_states ++
   ["Normal"; "Warning"; "True"; "False"; "workload"; "init"])%list.

Section revealing.
Context {fallback : DateFallback}.

(** Every text is a word of the vocabulary, a fingerprint or a time; every member has one of the names. *)
Definition public_text (s : string) : bool := includes vocabulary s || sha_text (JStr s) || pin_time (JStr s).
Fixpoint public (v : json) : bool :=
  match v with
  | JStr s => public_text s
  | JArr l => forallb public l
  | JObj d => forallb (fun kv => includes member_names kv.1 && public kv.2) d
  | _ => true
  end.
Definition reveals_nothing (f : reader) : Prop := forall v w, f v = Ok w -> public w = true.
Definition field_public (ok : dict json -> bool) (kf : field) : Prop :=
  includes member_names kf.1 = true /\ forall d v, ok d = true -> kf.2 (dict_get d kf.1) = Ok (Some v) -> public v = true.

Lemma rebuild_public ok l d r : ok d = true -> Forall (field_public ok) l -> rebuild l d = Ok r -> public (JObj r) = true.
Proof.
  intros Ho. revert r. induction l as [|[k f] l IH]; intros r Hl H; cbn [rebuild fst snd] in H; res_inv; [done|].
  apply Forall_cons in Hl as [[Hk Hf] Hl]. cbn [fst snd] in *. specialize (IH _ Hl eq_refl). destruct a as [v|]; [|done].
  cbn in IH |- *. by rewrite Hk, (Hf _ _ Ho E).
Qed.
Lemma read_object_public e ok l : Forall (field_public ok) l -> reveals_nothing (read_object e ok l).
Proof. intros Hl v w (d & r & _ & _ & Ho & Hr & ->)%read_object_ok. by eapply rebuild_public. Qed.

Definition only_public (p : json -> bool) : Prop := forall v, p v = true -> public v = true.
Lemma keep_public ok k p : (forall d, ok d = true -> holds d k p = true) -> includes member_names k = true -> only_public p -> field_public ok (keep k).
Proof. intros Ho Hk Hp. split; [done|]. intros d v Hd [= Hv]. specialize (Ho d Hd). unfold holds in Ho. rewrite Hv in Ho. by apply Hp. Qed.
Lemma kept_if_public ok k p : includes member_names k = true -> only_public p -> field_public ok (kept_if k p).
Proof. intros Hk Hp. split; [done|]. intros d v _. cbn. destruct (dict_get d k) as [u|]; [|done]. destruct (p u) eqn:E; intros [= <-]. by apply Hp. Qed.
Lemma always_public ok k g : includes member_names k = true -> (forall o, public (g o) = true) -> field_public ok (always k g).
Proof. intros Hk Hg. split; [done|]. intros d v _ [= <-]. apply Hg. Qed.
Lemma read_truthy_public ok k f : includes member_names k = true -> reveals_nothing f -> field_public ok (read_truthy k f).
Proof.
  intros Hk Hf. split; [done|]. intros d v _. cbn. destruct (dict_get d k) as [u|]; [|done]. destruct (json_truthy u); [|done].
  intros H. res_inv. by eapply Hf.
Qed.
Lemma res_map_public f l l' : reveals_nothing f -> res_map f l = Ok l' -> forallb public l' = true.
Proof.
  intros Hf. revert l'. induction l as [|v l IH]; intros l' H; cbn in H; res_inv; [done|]. cbn. by rewrite (Hf _ _ E), (IH _ eq_refl).
Qed.
Lemma read_all_public ok k f n : (forall d, ok d = true -> no_member_or d k (at_most n) = true) -> includes member_names k = true -> reveals_nothing f ->
  field_public ok (read_all k f).
Proof.
  intros Ho Hk Hf. split; [done|]. intros d v Hd. specialize (Ho d Hd). unfold no_member_or in Ho. cbn. destruct (dict_get d k) as [u|]; [|done].
  destruct u as [| | | |l|]; try done. cbn. intros H. destruct (res_map f l) as [l'|] eqn:E; cbn in H; [|done]. injection H as <-. by eapply res_map_public.
Qed.

Lemma natural_public : only_public natural. Proof. by intros [| | | | |]. Qed.
Lemma safe_public : only_public safe. Proof. by intros [| | | | |]. Qed.
Lemma below_public hi : only_public (below hi). Proof. by intros [| | | | |]. Qed.
Lemma boolean_public : only_public boolean. Proof. by intros [| | | | |]. Qed.
Lemma positive_public : only_public positive. Proof. by intros [| | | | |]. Qed.
Lemma or_null_public p : only_public p -> only_public (or_null_value p).
Proof. intros Hp [| | | | |] H; try exact (Hp _ H). done. Qed.
Lemma one_text_public l : forallb (includes vocabulary) l = true -> only_public (one_text l).
Proof.
  intros Hl [| | |s| |]; try done. cbn. rewrite includes_spec. intros Hs. rewrite forallb_forall in Hl. unfold public_text.
  by rewrite (Hl s (proj1 (list_elem_of_In _ _) Hs)).
Qed.
Lemma sha_public : only_public sha_text.
Proof. intros [| | |s| |]; try done. intros H. unfold public, public_text. rewrite H. by destruct (includes vocabulary s). Qed.
Lemma time_public : only_public pin_time.
Proof. intros [| | |s| |]; try done. intros H. unfold public, public_text. rewrite H. by destruct (includes vocabulary s), (sha_text (JStr s)). Qed.
Lemma text_or_public l other o : forallb (includes vocabulary) (other :: l) = true -> public (text_or l other o) = true.
Proof.
  cbn [forallb]. intros [Ho Hl]%andb_true_iff. assert (public (JStr other) = true) by (unfold public, public_text; by rewrite Ho).
  unfold text_or. destruct o as [v|]; [|done]. destruct (one_text l v) eqn:E; [|done]. by eapply one_text_public.
Qed.
Lemma reason_public o : public (safePinReason o) = true.
Proof. apply text_or_public. by vm_compute. Qed.
Lemma reason_reader_public : reveals_nothing (fun v => Ok (safePinReason (Some v))).
Proof. intros v w [= <-]. exact (reason_public (Some v)). Qed.
#[local] Hint Resolve natural_public safe_public below_public boolean_public positive_public or_null_public sha_public time_public reason_public reason_reader_public : pin.
#[local] Hint Extern 1 (only_public (one_text _)) => apply one_text_public; by vm_compute : pin.
#[local] Hint Extern 1 (public (text_or _ _ _) = true) => apply text_or_public; by vm_compute : pin.

Lemma holds_no_member d k p : holds d k p = true -> no_member_or d k p = true.
Proof. unfold holds, no_member_or. by destruct (dict_get d k). Qed.
(** What the check of an object says of one of its members. *)
Ltac checked :=
  let d := fresh "d" in let Ho := fresh "Ho" in intros d Ho;
  unfold container_ok, pod_ok, check_ok, observation_ok, event_ok, diagnostic_ok, events_ok, logs_ok, window_ok, index_ok in Ho;
  rewrite ?andb_true_iff in Ho; destruct_and? Ho;
  match goal with
  | H : holds d ?k ?p = true |- holds d ?k _ = true => exact H
  | H : no_member_or d ?k _ = true |- no_member_or d ?k _ = true => exact H
  | H : holds d ?k _ = true |- no_member_or d ?k _ = true => exact (holds_no_member _ _ _ H)
  end.
Ltac each_field := repeat first [apply Forall_nil_2 | refine (Forall_cons_2 _ _ _ _ _)].
Ltac public_field :=
  each_field;
  first [ apply kept_if_public | apply always_public | apply read_truthy_public | eapply read_all_public; [checked | |] | eapply keep_public; [checked | |]];
  try reflexivity; eauto with pin.
Lemma window_public : reveals_nothing window.
Proof. apply read_object_public. public_field. Qed.
#[local] Hint Resolve window_public : pin.
Lemma container_public : reveals_nothing read_container.
Proof. apply read_object_public. public_field. Qed.
#[local] Hint Resolve container_public : pin.
Lemma pod_public : reveals_nothing read_pod.
Proof. apply read_object_public. public_field. Qed.
#[local] Hint Resolve pod_public : pin.
Lemma condition_public : reveals_nothing read_condition.
Proof. apply read_object_public. public_field. Qed.
#[local] Hint Resolve condition_public : pin.
Lemma check_public : reveals_nothing read_check.
Proof. apply read_object_public. public_field. Qed.
#[local] Hint Resolve check_public : pin.
Lemma observation_public : reveals_nothing observation.
Proof. apply read_object_public. public_field. Qed.
#[local] Hint Resolve observation_public : pin.
Lemma event_public : reveals_nothing read_event.
Proof. apply read_object_public. public_field. Qed.
#[local] Hint Resolve event_public : pin.
(** An object within, checked together with the object around it. *)
Lemma inner_public ok k e ok' l : (forall d, ok d = true -> ok' (object_in d k) = true) -> includes member_names k = true -> Forall (field_public ok') l ->
  field_public ok (read_truthy k (read_object e (fun _ => true) l)).
Proof.
  intros Ho Hk Hl. split; [done|]. intros d v Hd. specialize (Ho d Hd). unfold object_in in Ho. cbn. destruct (dict_get d k) as [u|]; [|done].
  destruct (json_truthy u); [|done]. intros H. destruct (read_object e (fun _ => true) l u) as [w|] eqn:E; cbn in H; [|done]. injection H as <-.
  apply read_object_ok in E as (d' & r & _ & -> & _ & Hr & ->). exact (rebuild_public _ _ _ _ Ho Hl Hr).
Qed.
Lemma parse_public : reveals_nothing parsePreflightDiagnostic.
Proof.
  apply read_object_public. each_field; try (public_field; fail).
  - apply (inner_public _ _ _ events_ok); [| done | public_field]. intros d Ho. unfold diagnostic_ok in Ho. rewrite !andb_true_iff in Ho. tauto.
  - apply (inner_public _ _ _ logs_ok); [| done | public_field]. intros d Ho. unfold diagnostic_ok in Ho. rewrite !andb_true_iff in Ho. tauto.
Qed.
End revealing.

(** ** Theorems: recording *)
Section recording.
Context {fallback : DateFallback}.

Fixpoint record_all (d : PinDiagnostic) (samples : list json) : res exn PinDiagnostic :=
  match samples with [] => Ok d | sample :: samples => let? d := recordPinObservation d sample in record_all d samples end.

Definition text_fits (d : PinDiagnostic) : Prop :=
  (length (pd_history d) <= 2)%nat \/ Z.of_nat (String.length (stringify "" "" (pin_json d))) <= maximum_text.
(** A shorter history of the same observations, with the first and the last. *)
Record shorter (h H : list json) : Prop := {
  sh_sub : sublist h H; sh_first : head h = head H; sh_last : last h = last H
}.
Lemma shorter_refl H : shorter H H. Proof. by split. Qed.
Lemma shorter_delete H : (2 < length H)%nat -> shorter (delete 1%nat H) H /\ length H = S (length (delete 1%nat H)).
Proof.
  destruct H as [|a [|b [|c H]]]; cbn [length]; intros Hl; [lia..|]. split; [|done]. split; [|done|done].
  apply sublist_skip, sublist_cons. done.
Qed.
Lemma shorter_trans h1 h2 h3 : shorter h1 h2 -> shorter h2 h3 -> shorter h1 h3.
Proof. intros [? ? ?] [? ? ?]. split; [by etrans | congruence..]. Qed.

Lemma with_history_same d n : d = with_history (pd_history d) (pd_omitted d + (n - n)) d.
Proof. rewrite Z.sub_diag, Z.add_0_r. by destruct d. Qed.
Lemma shorten_spec fuel d : (length (pd_history d) <= fuel)%nat ->
  exists h, shorten fuel d = with_history h (pd_omitted d + (Z.of_nat (length (pd_history d)) - Z.of_nat (length h))) d /\
    shorter h (pd_history d) /\ (length h <= 12)%nat /\ text_fits (shorten fuel d).
Proof.
  revert d. induction fuel as [|fuel IH]; intros d Hd.
  - exists (pd_history d). cbn [shorten]. split_and!; [apply with_history_same | apply shorter_refl | lia | left; cbn; lia].
  - cbn [shorten]. destruct (_ || _) eqn:E.
    + assert (Hl : (2 < length (pd_history d))%nat).
      { apply orb_true_iff in E as [E|E]; [apply Nat.ltb_lt in E; lia | apply andb_true_iff in E as [E _]; by apply Nat.ltb_lt in E]. }
      destruct (shorter_delete _ Hl) as [Hs Hn]. 
      destruct (IH (with_history (delete 1%nat (pd_history d)) (pd_omitted d + 1) d)) as (h & Hh & Hsh & H12 & Hf); [cbn; lia|].
      exists h. cbn [pd_history pd_omitted with_history] in *. split_and!; [|by eapply shorter_trans | done | done].
      rewrite Hh. unfold with_history. cbn [pd_state pd_attempts pd_firstFailure pd_history pd_omitted pd_events pd_logs]. f_equal. lia.
    + apply orb_false_iff in E as [E1 E2]. apply Nat.ltb_ge in E1. exists (pd_history d).
      split_and!; [apply with_history_same | apply shorter_refl | done |].
      apply andb_false_iff in E2 as [E2|E2]; [left; by apply Nat.ltb_ge in E2 | right; by apply Z.ltb_ge in E2].
Qed.

(** What a diagnostic says of the observations recorded in it. *)
Record recorded (values : list json) (d : PinDiagnostic) : Prop := {
  rec_values : Forall (fun v => observation v = Ok v) values;
  rec_shorter : shorter (pd_history d) values;
  rec_bound : (length (pd_history d) <= 12)%nat;
  rec_omitted : pd_omitted d + Z.of_nat (length (pd_history d)) = Z.of_nat (length values);
  rec_failure : pd_firstFailure d = find (fun v => failing (members_of v)) values;
  rec_attempts : pd_attempts d = (base.mbind (fun v => dict_get (members_of v) "attempt") (last values)) ?? JNum (Int 0);
  rec_rest : pd_state d = "observing" /\ pd_events d = pd_events newPreflightDiagnostic /\ pd_logs d = pd_logs newPreflightDiagnostic
}.
Lemma recorded_new : recorded [] newPreflightDiagnostic.
Proof. split; cbn; try done; lia. Qed.

Lemma find_snoc {A} (p : A -> bool) l x : find p (l ++ [x]) = find p l ??? (if p x then Some x else None).
Proof. induction l as [|y l IH]; cbn; [done|]. by destruct (p y). Qed.
Lemma shorter_snoc h H v : shorter h H -> shorter (h ++ [v]) (H ++ [v]).
Proof.
  intros [Hs Hf Hl]. split; [by apply sublist_app | | by rewrite !last_snoc].
  destruct h, H; cbn in *; congruence.
Qed.
Lemma shorter_replace h H v : (1 < length h)%nat -> shorter h H -> shorter (take (length h - 1) h ++ [v]) (H ++ [v]).
Proof.
  intros Hl [Hs Hf _]. split; [|by destruct h as [|a [|b h]], H; cbn in *; try lia; try congruence|by rewrite !last_snoc].
  apply sublist_app; [|done]. etrans; [apply sublist_take | done].
Qed.

Lemma recorded_step values d sample d' : recorded values d -> recordPinObservation d sample = Ok d' ->
  exists v, observation sample = Ok v /\ recorded (values ++ [v])%list d'.
Proof.
  intros R H. unfold recordPinObservation in H. destruct (observation sample) as [v|e] eqn:Ev; cbn [res_bind] in H; [|done].
  exists v. split; [done|]. destruct R as [Rv Rs Rb Ro Rf Ra Rr]. cbn [attempted_first with_history pd_history pd_omitted pd_state pd_events pd_logs] in H.
  assert (Hv : Forall (fun v => observation v = Ok v) (values ++ [v])%list).
  { apply Forall_app. split; [done|]. apply Forall_singleton. by eapply observation_stable. }
  destruct (_ && _) eqn:Eb; injection H as <-.
  - apply andb_true_iff in Eb as [_ Eb]. apply Nat.ltb_lt in Eb.
    split; cbn [attempted_first with_history pd_history pd_omitted pd_state pd_events pd_logs pd_firstFailure pd_attempts]; try done.
    + by apply shorter_replace.
    + rewrite length_app, length_take. cbn. lia.
    + rewrite !length_app, length_take. cbn [length]. lia.
    + by rewrite find_snoc, Rf.
    + by rewrite last_snoc.
  - destruct (shorten_spec _ _ (le_n (length (pd_history (with_history (pd_history d ++ [v])%list (pd_omitted d) (attempted_first v d))))))
      as (h & Hh & Hs & Hl & _).
    cbn [attempted_first with_history pd_history pd_omitted pd_state pd_events pd_logs pd_firstFailure pd_attempts] in Hh, Hs. rewrite Hh.
    split; cbn [attempted_first with_history pd_history pd_omitted pd_state pd_events pd_logs pd_firstFailure pd_attempts]; try done.
    + eapply shorter_trans; [done | by apply shorter_snoc].
    + rewrite !length_app. cbn [length]. lia.
    + by rewrite find_snoc, Rf.
    + by rewrite last_snoc.
Qed.
Lemma recorded_all samples values d d' : recorded values d -> record_all d samples = Ok d' ->
  exists more, res_map observation samples = Ok more /\ recorded (values ++ more)%list d'.
Proof.
  revert values d. induction samples as [|s samples IH]; intros values d R H; cbn in H.
  - injection H as <-. exists []. by rewrite app_nil_r.
  - destruct (recordPinObservation d s) as [d1|] eqn:E; cbn in H; [|done]. destruct (recorded_step _ _ _ _ R E) as (v & Hv & R1).
    destruct (IH _ _ R1 H) as (more & Hm & R2). exists (v :: more). rewrite <- app_assoc in R2. cbn [app] in R2. split; [|done].
    cbn. by rewrite Hv, Hm.
Qed.

Lemma observation_inv v w : observation v = Ok w -> exists d, v <> JNull /\ observation_ok (json_obj v ?? []) = true /\ w = JObj d.
Proof. intros (d & r & Hv & -> & Ho & Hr & ->)%read_object_ok. by exists r. Qed.
Lemma attempts_natural values d : recorded values d -> natural (pd_attempts d) = true.
Proof.
  intros R. rewrite (rec_attempts _ _ R). destruct (last values) as [v|] eqn:El; [|done]. cbn [base.mbind option_bind].
  pose proof (rec_values _ _ R) as Hv. rewrite Forall_forall in Hv. specialize (Hv v). destruct (observation_inv v v) as (d' & _ & Ho & ->).
  { apply Hv. apply last_Some in El as [l ->]. set_solver. }
  unfold observation_ok, holds in Ho. unfold members_of. destruct (dict_get _ "attempt") as [n|]; [|done]. cbn [json_obj nullish] in *.
  rewrite !andb_true_iff in Ho. destruct Ho as [[Ho _] _]. unfold positive in Ho. cbn. by apply andb_true_iff in Ho as [Ho _].
Qed.
Lemma res_map_same (f : reader) l : Forall (fun v => f v = Ok v) l -> res_map f l = Ok l.
Proof. induction 1 as [|v l Hv Hl IH]; cbn; [done|]. by rewrite Hv, IH. Qed.
Lemma recorded_parse values d : recorded values d -> Z.of_nat (length values) <= max_safe -> parsePreflightDiagnostic (pin_json d) = Ok (pin_json d).
Proof.
  intros R Hmax. pose proof (attempts_natural _ _ R) as Ha. destruct R as [Rv [Rs _ _] Rb Ro Rf _ (R1 & R2 & R3)].
  assert (Hh : Forall (fun v => observation v = Ok v) (pd_history d)) by (rewrite Forall_forall in Rv |- *; intros v Hv; apply Rv; by eapply elem_of_sublist).
  assert (Hom : natural (JNum (Int (pd_omitted d))) = true).
  { pose proof (sublist_length _ _ Rs). unfold natural. apply andb_true_iff. split; [apply Z.leb_le; lia | cbn; rewrite negb_true_iff, Z.ltb_ge; lia]. }
  assert (Hf : forall v, pd_firstFailure d = Some v -> observation v = Ok v /\ json_truthy v = true).
  { intros v Hv. rewrite Rf in Hv. apply find_some in Hv as [Hv _]. rewrite Forall_forall in Rv. apply list_elem_of_In in Hv.
    specialize (Rv _ Hv). split; [done|]. by eapply read_object_truthy. }
  assert (Hb : (length (pd_history d) <=? 12)%nat = true) by by apply Nat.leb_le.
  unfold pin_json. rewrite R1, R2, R3. unfold parsePreflightDiagnostic, read_object.
  destruct (pd_firstFailure d) as [v|]; [destruct (Hf v eq_refl) as [Hv Ht]|]; cbn [member app json_obj nullish];
    (rewrite requireSafe_true;
      [cbn; rewrite ?Ht, ?Hv; cbn; by rewrite (res_map_same _ _ Hh)
      | unfold diagnostic_ok, holds; cbn [dict_get String.eqb Ascii.eqb Bool.eqb at_most]; by rewrite Ha, Hom, Hb]).
Qed.
End recording.

(** ** Theorems: what is observed can be recorded *)
Section observed.
Context (sha256 : string -> string) (sha256_hex : forall s, sha_text (JStr (sha256 s)) = true).

(** The object whose members have the values, in the order of the fields. *)
Fixpoint built (l : list field) (os : list (option json)) : dict json :=
  match l, os with kf :: l, o :: os => (member kf.1 o ++ built l os)%list | _, _ => [] end.
Lemma built_other l os k : k ∉ keys l -> dict_get (built l os) k = None.
Proof.
  revert os. induction l as [|[k0 f] l IH]; intros [|o os] Hk; try done. cbn [built fst]. rewrite dict_get_member.
  apply not_elem_of_cons in Hk as [Hk Hl]. cbn [fst] in Hk. destruct (String.eqb_spec k0 k); [by subst | by apply IH].
Qed.
Lemma rebuild_built l os : NoDup (keys l) -> Forall2 (fun kf o => kf.2 o = Ok o) l os -> rebuild l (built l os) = Ok (built l os).
Proof.
  intros Hn Hl. induction Hl as [|[k f] o l os Hf Hl IH]; [done|]. apply NoDup_cons in Hn as [Hk Hn]. cbn [fst snd] in *.
  cbn [built rebuild fst snd]. rewrite dict_get_member, String.eqb_refl, (built_other _ _ _ Hk).
  assert (o ??? None = o) as -> by by destruct o. rewrite Hf. cbn [res_bind].
  erewrite rebuild_again; [done | by apply IH|]. intros k' f' o' Hin Ho'. rewrite dict_get_member.
  destruct (String.eqb_spec k k') as [->|_]; [|done]. exfalso. apply Hk, list_elem_of_In, in_map_iff. by exists (k', f').
Qed.

Lemma hashed_kept d k : (if hashed_text sha256 d k is Some v then if sha_text v then Some v else None else None) = hashed_text sha256 d k.
Proof using sha256_hex.
  unfold hashed_text. destruct (text_field d k) as [s|]; [|done]. cbn [base.mbind option_bind]. destruct (truthy s); [|done]. by rewrite sha256_hex.
Qed.
Lemma natural_kept d k : (if when_natural d k is Some v then if natural v then Some v else None else None) = when_natural d k.
Proof. unfold when_natural. destruct (dict_get d k) as [v|]; [|done]. cbn [base.mbind option_bind]. destruct (natural v) eqn:E; [by rewrite E | done]. Qed.
Lemma safe_kept (d : dict json) k :
  let o := base.mbind (fun v => if safe v then Some v else None) (dict_get d k) in (if o is Some v then if safe v then Some v else None else None) = o.
Proof. cbv zeta. destruct (dict_get d k) as [v|]; [|done]. cbn [base.mbind option_bind]. destruct (safe v) eqn:E; [by rewrite E | done]. Qed.

Definition container_values (digest role : string) (c : dict json) : list (option json) :=
  let state := object_in c "state" in
  let terminated := object_in state "terminated" in
  let previous := object_in (object_in c "lastState") "terminated" in
  let had := truthy_in (object_in c "lastState") "terminated" in
  let code := fun d : dict json => base.mbind (fun v => if safe v then Some v else None) (dict_get d "exitCode") in
  [Some (JStr role); Some (JBool (flag_is c "ready" true)); Some (when_natural c "restartCount" ?? JNull);
   Some (match text_field c "imageID" with
         | Some image => if String.eqb role "workload" && truthy image then JBool (endsWith digest image) else JNull
         | None => JNull end);
   Some (JStr (if truthy_in state "running" then "running" else if truthy_in state "waiting" then "waiting"
               else if truthy_in state "terminated" then "terminated" else "unknown"));
   Some (safePinReason (present_member (object_in state "waiting") "reason" ??? dict_get terminated "reason"));
   code terminated; if had then Some (safePinReason (dict_get previous "reason")) else None; if had then code previous else None].
Definition container_fields : list field :=
  [always "role" (text_or ["init"] "workload"); keep "ready"; keep "restartCount"; keep "imageMatches"; keep "state"; always "reason" safePinReason;
   kept_if "exitCode" safe; read_truthy "previousReason" (fun v => Ok (safePinReason (Some v))); kept_if "previousExitCode" safe].
Lemma pin_container_built digest role c : pin_container digest role c = JObj (built container_fields (container_values digest role c)).
Proof. unfold pin_container, container_values, safe_member. destruct (truthy_in (object_in c "lastState") "terminated"); cbn; by rewrite ?app_nil_r. Qed.
Lemma pin_container_read digest role c : role = "workload" \/ role = "init" -> read_container (pin_container digest role c) = Ok (pin_container digest role c).
Proof.
  intros Hr. rewrite pin_container_built. unfold read_container, read_object. cbn [json_obj nullish]. fold container_fields.
  rewrite requireSafe_true, rebuild_built; [done | distinct | |].
  - unfold container_values. repeat apply Forall2_cons_2; try apply Forall2_nil_2; cbn [snd always keep kept_if read_truthy]; try reflexivity.
    + by destruct Hr as [-> | ->].
    + unfold safePinReason. by rewrite text_or_again.
    + by rewrite safe_kept.
    + destruct (truthy_in _ _); [|done]. rewrite safePinReason_truthy. cbn [res_bind]. unfold safePinReason. by rewrite text_or_again.
    + destruct (truthy_in _ _); [|done]. by rewrite safe_kept.
  - unfold container_ok, holds. cbn. rewrite !andb_true_iff. split_and!.
    + unfold when_natural. destruct (dict_get c "restartCount") as [v|]; [|done]. cbn. destruct (natural v) eqn:E; [|done].
      by destruct v.
    + destruct (text_field c "imageID"); [|done]. by destruct (_ && _).
    + by repeat case_match.
Qed.

Definition pod_values (item : dict json) (container digest : string) : list (option json) :=
  let m := object_in item "metadata" in
  let status := object_in item "status" in
  [hashed_text sha256 m "uid"; hashed_text sha256 m "resourceVersion"; when_natural m "generation"; when_natural status "observedGeneration";
   Some (JBool (truthy_in m "deletionTimestamp")); Some (text_or ["Pending"; "Running"; "Succeeded"; "Failed"] "Unknown" (dict_get status "phase"));
   Some (JArr (map (pin_container digest "workload") (take 2 (List.filter (fun c => same_text c "name" container) (objects_in status "containerStatuses"))) ++
               map (pin_container digest "init") (take 2 (objects_in status "initContainerStatuses"))))].
Definition pod_fields : list field := (identity_fields ++ [keep "terminating"; keep "phase"; read_all "containers" read_container])%list.
Lemma pinPod_built item container digest : pinPod sha256 item container digest = JObj (built pod_fields (pod_values item container digest)).
Proof. unfold pinPod, pinIdentity. by rewrite <- !app_assoc. Qed.
(** What is observed of a pod is recorded as it is. *)
Lemma pinPod_read item container digest : read_pod (pinPod sha256 item container digest) = Ok (pinPod sha256 item container digest).
Proof using sha256_hex.
  rewrite pinPod_built. unfold read_pod, read_object. cbn [json_obj nullish]. fold pod_fields.
  rewrite requireSafe_true, rebuild_built; [done | distinct | |].
  - unfold pod_values. repeat apply Forall2_cons_2; try apply Forall2_nil_2; cbn [snd always keep kept_if read_truthy read_all each]; try reflexivity.
    1, 2: by rewrite hashed_kept.
    1, 2: by rewrite natural_kept.
    rewrite res_map_same; [done|]. apply Forall_app. split; apply Forall_forall; intros v (c & <- & _)%list_elem_of_In%in_map_iff; apply pin_container_read; auto.
  - unfold pod_values. generalize (hashed_text sha256 (object_in item "metadata") "uid") as o1,
      (hashed_text sha256 (object_in item "metadata") "resourceVersion") as o2, (when_natural (object_in item "metadata") "generation") as o3,
      (when_natural (object_in item "status") "observedGeneration") as o4. intros o1 o2 o3 o4.
    assert (Hp : forall o, one_text pod_phases (text_or ["Pending"; "Running"; "Succeeded"; "Failed"] "Unknown" o) = true).
    { intros o. unfold text_or. destruct o as [v|]; [|done]. destruct (one_text _ v) eqn:E; [|done]. destruct v; try done.
      apply includes_spec. apply includes_spec in E. set_solver. }
    unfold pod_ok, holds. destruct o1, o2, o3, o4; cbn; rewrite Hp, length_app, !length_map, !length_take; apply Nat.leb_le; lia.
Qed.
End observed.

(** ** The properties *)

(** C38: Whatever is attached, a diagnostic that is accepted carries no text but words of a fixed vocabulary, SHA-256 fingerprints and UTC times, under fixed names of members, and rebuilding it again changes nothing. *)
Theorem diagnostic_reveals `{DateFallback} v w : parsePreflightDiagnostic v = Ok w -> public w = true /\ parsePreflightDiagnostic w = Ok w.
Proof. intros Hv. split; [by eapply parse_public | by eapply parse_stable]. Qed.

(** C39: The diagnostic recorded of a run's observations reads back as it is, holds at most twelve of them in their order with the first and the last, counts the others, and keeps the first failing one. *)
Theorem pin_recorded `{DateFallback} samples d :
  record_all newPreflightDiagnostic samples = Ok d -> Z.of_nat (length samples) <= max_safe ->
  exists values, res_map observation samples = Ok values /\
    parsePreflightDiagnostic (pin_json d) = Ok (pin_json d) /\
    sublist (pd_history d) values /\ head (pd_history d) = head values /\ last (pd_history d) = last values /\
    (length (pd_history d) <= 12)%nat /\ pd_omitted d + Z.of_nat (length (pd_history d)) = Z.of_nat (length samples) /\
    pd_firstFailure d = find (fun v => failing (members_of v)) values.
Proof.
  intros Hd Hmax. destruct (recorded_all _ _ _ _ recorded_new Hd) as (values & Hv & R). cbn [app] in R.
  assert (Hl : length values = length samples).
  { clear -Hv. revert values Hv. induction samples as [|s l IH]; intros values Hv; cbn in Hv; res_inv; [done|]. cbn. by rewrite (IH _ eq_refl). }
  exists values. rewrite <- Hl in *. split_and!; [done | by eapply recorded_parse | apply R..].
Qed.

(** What is observed of a pod, whatever the cluster says of it, is accepted by the diagnostic and recorded as it is. *)
Theorem pod_recorded (sha256 : string -> string) item container digest : (forall s, sha_text (JStr (sha256 s)) = true) ->
  read_pod (pinPod sha256 item container digest) = Ok (pinPod sha256 item container digest).
Proof. intros Hs. by apply pinPod_read. Qed.

(** ** Witnesses *)
#[local] Instance no_other_dates : DateFallback := fun _ => None.
Definition sample (n : Z) (condition : string) : json :=
  JObj [("startedAt", JStr "2026-05-04T10:00:00Z"); ("finishedAt", JStr "2026-05-04T10:00:01.5Z"); ("attempt", JNum (Int n)); ("token", JStr "secret");
        ("checks", JArr [JObj [("component", JStr "flux"); ("index", JNum (Int 0)); ("condition", JStr condition); ("message", JStr "secret");
                               ("observedGeneration", JNum (Int 3))]])].
Definition samples : list json := [sample 1 "ready"; sample 2 "image"; sample 3 "image"].
Definition sample_diagnostic : res exn PinDiagnostic := record_all newPreflightDiagnostic samples.
Definition attached : json :=
  JObj [("version", JNum (Int 1)); ("state", JStr "failed"); ("attempts", JNum (Int 2)); ("url", JStr "https://secret"); ("history", JArr [sample 2 "image"]);
    ("omittedObservations", JNum (Int 0)); ("events", JObj [("state", JStr "pending"); ("items", JArr []); ("omitted", JNum (Int 0))]);
    ("logs", JObj [("state", JStr "pending"); ("streams", JNum (Int 0))])].
Lemma diagnostic_reveals_witness : exists w, parsePreflightDiagnostic attached = Ok w /\ public w = true /\ parsePreflightDiagnostic w = Ok w.
Proof.
  destruct (parsePreflightDiagnostic attached) as [w|e] eqn:E; [|vm_compute in E; discriminate E].
  exists w. split; [done | exact (diagnostic_reveals _ _ E)].
Defined.
Lemma pin_recorded_witness : exists d values, sample_diagnostic = Ok d /\ parsePreflightDiagnostic (pin_json d) = Ok (pin_json d) /\
  pd_firstFailure d = find (fun v => failing (members_of v)) values /\ pd_firstFailure d <> None.
Proof.
  destruct sample_diagnostic as [d|e] eqn:E; [|vm_compute in E; discriminate E]. assert (Hf : pd_firstFailure d <> None).
  { vm_compute in E. injection E as <-. discriminate. }
  assert (Hl : Z.of_nat (length samples) <= max_safe) by (vm_compute; discriminate).
  unfold sample_diagnostic in E. destruct (@pin_recorded no_other_dates samples d E Hl) as (values & _ & Hp & _ & _ & _ & _ & _ & Hv). exists d, values. split_and!; assumption || reflexivity.
Defined.
Definition sample_hash (_ : string) : string := join "" (repeat "a" 64).
Lemma pod_recorded_witness : read_pod (pinPod sample_hash [("status", JObj [("phase", JStr "Running")])] "app" "sha256:0") =
  Ok (pinPod sample_hash [("status", JObj [("phase", JStr "Running")])] "app" "sha256:0").
Proof. apply pod_recorded. intros s. vm_compute. reflexivity. Defined.
