(* ===== verification/ReportProps.v ===== *)
(** * Theorems on reports

    Completion adds only placeholders and fills the matrix of the mode; a report is acceptable
    exactly when everything the mode demands was recorded and passed. *)

From S2P Require Import Prelude Js Number Json JsonParse Dates Errors Contracts KubernetesCommand Journal CleanupDiagnostic Blocking Evidence Profiles Preparation Report.

Local Open Scope string_scope.
Local Open Scope js_scope.
Local Open Scope Z_scope.

(** The matrices are large: only computation looks into them. *)
#[local] Opaque reportVariants remainingVariants phase1Requirements phase2Requirements phase3Requirements phase4Requirements known_variant.

Lemma res_map_Forall2 {E A B} (f : A -> res E B) l l' : res_map f l = Ok l' -> Forall2 (fun a b => f a = Ok b) l l'.
Proof.
  revert l'. induction l as [|a l IH]; cbn; intros l'; [by intros [= <-]; constructor|].
  destruct (f a) as [b|e] eqn:Hb; cbn; [|done]. destruct (res_map f l) as [r|e]; cbn; [|done]. intros [= <-]. constructor; [done | by apply IH].
Qed.

Lemma res_bind_ok {E A B} (r : res E A) (f : A -> res E B) b : res_bind r f = Ok b -> exists a, r = Ok a /\ f a = Ok b.
Proof. destruct r as [a|e]; [|done]. by exists a. Qed.

(** ** Completion *)

(** A row that stands for evidence that is not there. *)
Definition placeholder (c : CaseResult) : Prop :=
  cr_durationMs c = Int 0 /\ cr_executionId c = None /\
  (cr_outcome c = "Blocked" \/ cr_outcome c = "Failed" /\ cr_id c = "HAR-10" /\ cr_reason c = Some "MISSING_EVIDENCE").

Definition extends (rows rows' : list CaseResult) : Prop := exists extra, rows' = (rows ++ extra)%list /\ Forall placeholder extra.

Lemma extends_refl rows : extends rows rows.
Proof. exists []. rewrite app_nil_r. split; [done | apply List.Forall_nil]. Qed.
Lemma extends_trans a b c : extends a b -> extends b c -> extends a c.
Proof.
  intros (x & -> & Hx) (y & -> & Hy). exists (x ++ y)%list. rewrite app_assoc. split; [done|]. apply List.Forall_app. by split.
Qed.
Lemma extends_one rows c : placeholder c -> extends rows (rows ++ [c])%list.
Proof. exists [c]. split; [done|]. by apply List.Forall_cons; [|apply List.Forall_nil]. Qed.
Lemma extends_existsb p rows rows' : extends rows rows' -> existsb p rows = true -> existsb p rows' = true.
Proof. intros (extra & -> & _) Hp. by rewrite existsb_app, Hp. Qed.
#[local] Hint Resolve extends_refl extends_one : report.

(** What is wanted of the rows, each with the row added when no other has it. *)
Section filling.
Context `{Catalogue}.
Variables (cases : list CaseResult) (reason : string) (fence : bool) (preparation : option PreparationDiagnostic).

Record Want : Type := { w_id : string; w_variant : option string; w_layer : string; w_env : string; w_present : CaseResult -> bool }.
Definition fill (w : Want) : Completion -> Completion :=
  unless (w_present w) (add_absent cases reason fence preparation (w_id w) (w_variant w) (w_layer w) (w_env w)).
(** The added row is what was wanted. *)
Definition wanted (w : Want) : Prop :=
  forall r b, w_present w (synthesized (w_id w) (w_variant w) (w_layer w) (w_env w) "Blocked" r None b) = true.

Lemma fill_one w s : wanted w -> extends s.1 (fill w s).1 /\ existsb (w_present w) (fill w s).1 = true.
Proof.
  intros Hw. unfold fill, unless. destruct (existsb (w_present w) s.1) eqn:Hp; [by split; [apply extends_refl|]|].
  unfold add_absent. destruct (absent _ _ _ _ _ _ _) as [[r b] missing]. cbn [fst]. split.
  - apply extends_one. split; [done|]. split; [done | by left].
  - rewrite existsb_app. apply orb_true_iff. right. cbn. by rewrite Hw.
Qed.

Lemma fill_present w s : existsb (w_present w) s.1 = true -> fill w s = s.
Proof. unfold fill, unless. by intros ->. Qed.

Lemma fill_all ws s : Forall wanted ws -> let s' := foldl (fun s w => fill w s) s ws in
  extends s.1 s'.1 /\ forall w, w ∈ ws -> existsb (w_present w) s'.1 = true.
Proof.
  revert s. induction ws as [|w ws IH]; intros s Hws; cbn; [split; [apply extends_refl | by intros ? ?%elem_of_nil]|].
  apply List.Forall_cons_iff in Hws as [Hw Hws]. destruct (fill_one w s Hw) as [He Hp]. destruct (IH (fill w s) Hws) as [He' Hp'].
  split; [by eapply extends_trans|]. intros w' [->|Hin]%elem_of_cons; [|by apply Hp']. by eapply extends_existsb.
Qed.

Lemma fill_none ws s : (forall w, w ∈ ws -> existsb (w_present w) s.1 = true) -> foldl (fun s w => fill w s) s ws = s.
Proof.
  induction ws as [|w ws IH]; intros Hw; cbn; [done|]. rewrite fill_present by (apply Hw, elem_of_cons; by left).
  apply IH. intros w' Hw'. apply Hw, elem_of_cons. by right.
Qed.
End filling.

(** ** What a mode demands *)
Definition want_cell (r : Requirement) : Want :=
  {| w_id := rq_id r; w_variant := Some (rq_variant r); w_layer := layer_name (rq_layer r); w_env := rq_environment r; w_present := in_matrix r |}.
Definition want_fixture (id : string) : Want := {| w_id := id; w_variant := None; w_layer := "U"; w_env := "fixture"; w_present := has_fixture id |}.
Definition want_live (vid : string * string) : Want :=
  {| w_id := vid.2; w_variant := Some vid.1; w_layer := "A"; w_env := "live"; w_present := has_live_variant vid |}.
Definition want_case (id : string) : Want :=
  {| w_id := id; w_variant := None; w_layer := "A"; w_env := "live"; w_present := fun c => String.eqb (cr_id c) id |}.

Definition demanded (matrix : list Requirement) (phase0 : bool) (required : list string) : list Want :=
  (map want_cell matrix ++ (if phase0 then map want_fixture phase0Ids ++ map want_live phase0Variants else []) ++ map want_case required)%list.

Lemma demanded_wanted matrix phase0 required : Forall wanted (demanded matrix phase0 required).
Proof.
  unfold demanded. rewrite !List.Forall_app. repeat split; [| destruct phase0; [|apply List.Forall_nil] |].
  - apply List.Forall_map, List.Forall_forall. intros r _ x b. unfold w_present, want_cell, in_matrix, case_environment. cbn.
    rewrite !String.eqb_refl, bool_decide_true by done. done.
  - rewrite List.Forall_app. split; apply List.Forall_map, List.Forall_forall; intros v _ x b; unfold w_present; cbn.
    + unfold has_fixture, case_environment. cbn. by rewrite String.eqb_refl.
    + unfold has_live_variant, case_environment. cbn. by rewrite String.eqb_refl, bool_decide_true by done.
  - apply List.Forall_map, List.Forall_forall. intros id _ x b. apply String.eqb_refl.
Qed.

Lemma foldl_over_map {A B C} (f : A -> B -> A) (g : C -> B) a l : foldl f a (map g l) = foldl (fun a c => f a (g c)) a l.
Proof. revert a. induction l as [|c l IH]; intros a; cbn; [done | apply IH]. Qed.

Section completed.
Context `{Catalogue}.
Variables (cases : list CaseResult) (reason : string) (fence : bool) (preparation : option PreparationDiagnostic).

Lemma completeCases_fill env mode required result : completeCases cases reason fence preparation env mode required = Ok result ->
  exists limited diagnostic matrix, is_limited env = Ok limited /\ diagnosticForMode env mode = Ok diagnostic /\
    mode_matrix env mode limited diagnostic = Ok matrix /\
    let s := foldl (fun s w => fill cases reason fence preparation w s) (map terminal cases, [])
               (demanded matrix (bool_decide (mode = Some "phase0") && negb limited) required) in
    result = foldl add_missing_evidence s.1 s.2.
Proof.
  unfold completeCases. intros (limited & Hl & (diagnostic & Hd & (matrix & Hm & Hr)%res_bind_ok)%res_bind_ok)%res_bind_ok.
  exists limited, diagnostic, matrix. split; [done|]. split; [done|]. split; [done|]. cbv zeta in *. injection Hr as <-.
  unfold demanded. rewrite !foldl_app, !foldl_over_map. fold (complete_matrix cases reason fence preparation matrix (map terminal cases, [])).
  destruct (bool_decide (mode = Some "phase0") && negb limited); [|done]. by rewrite foldl_app, !foldl_over_map.
Qed.

Lemma missing_extends rows envs : extends rows (foldl add_missing_evidence rows envs).
Proof.
  revert rows. induction envs as [|env envs IH]; intros rows; cbn; [apply extends_refl|]. eapply extends_trans; [|apply IH].
  unfold add_missing_evidence. destruct (existsb _ rows); [apply extends_refl|]. apply extends_one. split; [done|]. split; [done|]. by right.
Qed.
End completed.

(** C30: completion is honest. Whatever was recorded, the rows of a report are the recorded cases
    with their final outcome, followed by placeholders: rows without an execution that are
    Blocked, or Failed for missing evidence, and never Passed. Every cell of the mode's matrix,
    every required case and, for phase 0, every fixture and live variant has a row; and when
    what was recorded already has them all, nothing is added. *)
Theorem completion_honest `{Catalogue} cases reason fence preparation env mode required result :
  completeCases cases reason fence preparation env mode required = Ok result ->
  exists limited diagnostic matrix, is_limited env = Ok limited /\ diagnosticForMode env mode = Ok diagnostic /\
    mode_matrix env mode limited diagnostic = Ok matrix /\
    let wants := demanded matrix (bool_decide (mode = Some "phase0") && negb limited) required in
    extends (map terminal cases) result /\
    (forall w, w ∈ wants -> existsb (w_present w) result = true) /\
    ((forall w, w ∈ wants -> existsb (w_present w) (map terminal cases) = true) -> result = map terminal cases).
Proof.
  intros (limited & diagnostic & matrix & Hl & Hd & Hm & ->)%completeCases_fill. exists limited, diagnostic, matrix.
  split; [done|]. split; [done|]. split; [done|]. cbv zeta. set (wants := demanded _ _ _).
  destruct (fill_all cases reason fence preparation wants (map terminal cases, []) (demanded_wanted _ _ _)) as [He Hp].
  split; [|split].
  - eapply extends_trans; [exact He | apply missing_extends].
  - intros w Hw. eapply extends_existsb; [apply missing_extends | by apply Hp].
  - intros Hall. rewrite fill_none by done. done.
Qed.

(** ** Rows and the cases they come from *)

(** What the checks keep of a case. *)
Definition reduced (c c' : CaseResult) : Prop :=
  cr_id c' = cr_id c /\ cr_outcome c' = cr_outcome c /\ cr_layer c' = cr_layer c /\ cr_environment c' = Some (case_environment c) /\
  cr_variant c' = keep_if (known_variant (cr_id c)) (cr_variant c) /\ cr_executionId c' = row_execution c /\
  cr_executionOutcome c' = (if bool_decide (is_Some (row_execution c)) then keep_if (includes ["Passed"; "Failed"; "Blocked"]) (cr_executionOutcome c) else None).

(** The values attaching diagnostics and causes leaves alone. *)
Definition row_key (c : CaseResult) :=
  (cr_id c, cr_outcome c, cr_layer c, cr_environment c, cr_variant c, cr_executionId c, cr_executionOutcome c).

Section rows.
Context `{Catalogue} `{DateFallback}.

Lemma safe_row_reduced env prepared runId c c' : safe_row env prepared runId c = Ok c' -> reduced c c'.
Proof. unfold safe_row. intros (? & _ & (cleanup & _ & [= <-])%res_bind_ok)%res_bind_ok. by repeat split. Qed.

Lemma report_rows_cases describe rows : map rr_case (report_rows describe rows) = rows.
Proof.
  unfold report_rows. rewrite map_map. assert (Hl : length (withBlockedCauses (map evidence_of rows)) = length rows)
    by (unfold withBlockedCauses; by rewrite !length_map).
  revert Hl. generalize (withBlockedCauses (map evidence_of rows)). induction rows as [|c rows IH]; intros [|r rs]; cbn; try done.
  intros [= Hl]. f_equal. by apply IH.
Qed.

Lemma attach_all_keys traces rows rows' : attach_all traces rows = Ok rows' ->
  map (fun r => row_key (rr_case r)) rows' = map (fun r => row_key (rr_case r)) rows.
Proof.
  revert rows. induction traces as [|t traces IH]; intros rows; cbn; [by intros [= <-]|].
  intros (rows1 & Hr%res_map_Forall2 & Ha)%res_bind_ok. rewrite (IH _ Ha). clear Ha IH. induction Hr as [|r r1 rows rows1 Hr _ IH]; cbn; [done|].
  rewrite IH. f_equal. unfold attach in Hr. destruct (_ && _); [|by injection Hr as <-]. destruct (trace_diagnostic t) as [d|]; [|by injection Hr as <-].
  destruct (parse_diagnostic _); [by injection Hr as <- | done].
Qed.

(** The cases of the finished report, against those that were completed. *)
Lemma final_reduced describe env prepared runId completed safe traces rows :
  res_map (safe_row env prepared runId) completed = Ok safe -> attach_all traces (report_rows describe safe) = Ok rows ->
  Forall2 reduced completed (map row_case rows).
Proof.
  intros Hs%res_map_Forall2 Ha%attach_all_keys.
  assert (Hk : map row_key safe = map row_key (map row_case rows)).
  { rewrite map_map. rewrite (map_ext (fun r => row_key (row_case r)) (fun r => row_key (rr_case r))) by done. rewrite Ha.
    rewrite <- (map_map rr_case row_key), report_rows_cases. done. }
  clear Ha. revert Hk. generalize (map row_case rows). induction Hs as [|c c1 completed safe Hc _ IH]; intros [|c2 final]; cbn; try done.
  intros [= H1 H2 H3 H4 H5 H6 H7 H8]. constructor; [|by apply IH]. apply safe_row_reduced in Hc as (E1 & E2 & E3 & E4 & E5 & E6 & E7).
  unfold reduced. rewrite <- H1, <- H2, <- H3, <- H4, <- H5, <- H6, <- H7. done.
Qed.
End rows.

Lemma keep_if_some ok v x : keep_if ok v = Some x <-> v = Some x /\ ok x = true.
Proof.
  destruct v as [s|]; cbn; [|split; [done | by intros [? ?]]]. destruct (ok s) eqn:Hs; split.
  - intros [= ->]. done.
  - by intros [[= ->] _].
  - done.
  - intros [[= ->] Hx]. congruence.
Qed.

Lemma Forall2_existsb {A B} (R : A -> B -> Prop) (p : A -> bool) (q : B -> bool) l l' :
  Forall2 R l l' -> (forall a b, R a b -> p a = q b) -> existsb p l = existsb q l'.
Proof. intros HR Hpq. induction HR as [|a b l l' Hab _ IH]; cbn; [done|]. by rewrite IH, (Hpq a b). Qed.
Lemma Forall2_forallb {A B} (R : A -> B -> Prop) (p : A -> bool) (q : B -> bool) l l' :
  Forall2 R l l' -> (forall a b, R a b -> p a = q b) -> forallb p l = forallb q l'.
Proof. intros HR Hpq. induction HR as [|a b l l' Hab _ IH]; cbn; [done|]. by rewrite IH, (Hpq a b). Qed.

(** A case proves a cell in the report exactly when it is that cell and passed. *)
Lemma reduced_proves r c c' : known_variant (rq_id r) (rq_variant r) = true -> reduced c c' ->
  proves r (recorded_of c') = in_matrix r c && case_passed c.
Proof.
  intros Hk (E1 & E2 & E3 & E4 & E5 & _). unfold proves, in_matrix, recorded_of, passed, case_passed. cbn. rewrite E1, E2, E3, E4, E5.
  destruct (String.eqb_spec (cr_id c) (rq_id r)) as [Hid|]; cbn [andb]; [|done].
  rewrite (bool_decide_ext (keep_if _ (cr_variant c) = Some (rq_variant r)) (cr_variant c = Some (rq_variant r))).
  - destruct (bool_decide (cr_variant c = _)); cbn; [|done]. destruct (String.eqb (cr_layer c) _); cbn; [|done].
    assert (He : bool_decide (Some (case_environment c) = Some (rq_environment r)) = String.eqb (case_environment c) (rq_environment r))
      by (destruct (String.eqb_spec (case_environment c) (rq_environment r)); [apply bool_decide_true | apply bool_decide_false]; congruence).
    by rewrite He.
  - rewrite keep_if_some, Hid. split; [intros [Hx _]; exact Hx | intros Hx; exact (conj Hx Hk)].
Qed.

(** ** Executions *)
Definition bad_outcome (o : string) : bool := includes ["Failed"; "Blocked"] o.
Definition clean (d : dict string) : bool := forallb (fun kv => negb (bad_outcome kv.2)) d.

Lemma bad_result prior current : bad_outcome (execution_result prior current) = match prior with Some p => bad_outcome p | None => false end || bad_outcome current.
Proof.
  unfold execution_result, bad_outcome, includes.
  assert (Hb : forall o, bool_decide (o ∈ ["Failed"; "Blocked"]) = String.eqb o "Failed" || String.eqb o "Blocked").
  { intros o. apply Bool.eq_iff_eq_true. rewrite bool_decide_eq_true, orb_true_iff, !String.eqb_eq. set_solver. }
  rewrite !Hb. destruct prior as [p|]; cbn -[String.eqb].
  - assert (He : forall q, bool_decide (Some p = Some q) = String.eqb p q)
      by (intros q; destruct (String.eqb_spec p q); [apply bool_decide_true | apply bool_decide_false]; congruence).
    rewrite Hb, !He. by destruct (String.eqb_spec p "Failed"), (String.eqb_spec p "Blocked"), (String.eqb_spec current "Failed"), (String.eqb_spec current "Blocked"); subst.
  - by destruct (String.eqb_spec current "Failed"), (String.eqb_spec current "Blocked"); subst.
Qed.

Lemma clean_set d k current : clean (dict_set d k (execution_result (dict_get d k) current)) = clean d && negb (bad_outcome current).
Proof.
  unfold clean. induction d as [|[k' v] d IH]; cbn -[bad_outcome]; [by rewrite bad_result, andb_true_r|].
  destruct (String.eqb k' k); cbn -[bad_outcome].
  - rewrite bad_result, negb_orb. destruct (bad_outcome v), (bad_outcome current); cbn; by rewrite ?andb_true_r, ?andb_false_r.
  - rewrite IH. by rewrite andb_assoc.
Qed.

Definition current_result (c : CaseResult) : string := cr_executionOutcome c ?? terminalOutcome (cr_outcome c).
Lemma clean_executions cases : clean (executions cases) =
  forallb (fun c => match row_execution c with Some _ => negb (bad_outcome (current_result c)) | None => true end) cases.
Proof.
  unfold executions. change (forallb ?f cases) with (clean [] && forallb f cases). generalize ([] : dict string).
  induction cases as [|c cases IH]; intros d; cbn -[clean bad_outcome]; [by rewrite andb_true_r|]. rewrite IH. unfold row_execution.
  destruct (keep_if execution_pattern (cr_executionId c)) as [x|]; [|done]. by rewrite clean_set, andb_assoc.
Qed.

Lemma count_zero {A} (p : A -> bool) l : (length (List.filter p l) =? 0)%nat = forallb (fun a => negb (p a)) l.
Proof. induction l as [|a l IH]; cbn; [done|]. destruct (p a); cbn; [done | exact IH]. Qed.

Lemma executions_counted cases : (summarizeExecutions cases "Failed" =? 0)%nat && (summarizeExecutions cases "Blocked" =? 0)%nat = clean (executions cases).
Proof.
  unfold summarizeExecutions, clean. rewrite !count_zero. generalize (executions cases). induction d as [|[k v] d IH]; cbn -[bad_outcome String.eqb]; [done|].
  rewrite <- IH. assert (Hb : negb (bad_outcome v) = negb (String.eqb v "Failed") && negb (String.eqb v "Blocked")).
  { unfold bad_outcome, includes. destruct (String.eqb_spec v "Failed"), (String.eqb_spec v "Blocked"); subst; try done.
    cbn. rewrite bool_decide_false; [done | set_solver]. }
  rewrite Hb. destruct (String.eqb v "Failed"), (String.eqb v "Blocked"); cbn; by rewrite ?andb_false_r.
Qed.

(** ** The matrices *)
Definition known_cell (r : Requirement) : bool := known_variant (rq_id r) (rq_variant r).

Lemma phases_known : forallb (forallb known_cell) [phase1Requirements; phase2Requirements; phase3Requirements; phase4Requirements] = true.
Proof. by vm_compute. Qed.
Lemma remaining_known : forallb (fun vd => known_variant (pd_id vd.2) vd.1) remainingVariants = true.
Proof. by vm_compute. Qed.
Lemma idle_known : known_variant "HAR-03" "final-idle" = true.
Proof. by vm_compute. Qed.

(** Every cell of a matrix can be proved: the report keeps its variant. *)
Lemma matrix_known env mode limited diagnostic matrix : mode_matrix env mode limited diagnostic = Ok matrix -> forallb known_cell matrix = true.
Proof.
  assert (Hp : forall phase, phase ∈ [phase1Requirements; phase2Requirements; phase3Requirements; phase4Requirements] -> forallb known_cell phase = true)
    by (by apply forallb_elem, phases_known).
  revert Hp. unfold mode_matrix, gpuRequirements, diagnosticRequirements. cbn [Z.eqb Pos.eqb].
  generalize phase1Requirements phase2Requirements phase3Requirements phase4Requirements. intros m1 m2 m3 m4 Hp Hm.
  destruct limited; [by injection Hm as <-|].
  destruct (bool_decide _); [injection Hm as <-; apply Hp; set_solver|]. destruct (bool_decide _); [injection Hm as <-; apply Hp; set_solver|].
  destruct (if truthy _ then None else diagnostic) as [p|].
  { injection Hm as <-. apply forallb_elem. intros r [Hr%list_elem_of_In _]%list_elem_of_In%filter_In.
    assert (Hall : forall phase, phase ∈ [m1; m2; m3; m4] -> r ∈ phase -> known_cell r = true) by (intros phase Hph; by apply forallb_elem, Hp).
    destruct (ds_phase p =? 2); [|destruct (ds_phase p =? 3)]; (eapply Hall; [|exact Hr]; set_solver). }
  destruct (bool_decide _); [injection Hm as <-; apply Hp; set_solver|]. destruct (bool_decide _); [injection Hm as <-; apply Hp; set_solver|].
  clear Hp m1 m2 m3 m4.
  destruct mode as [m|]; [|by injection Hm as <-]. destruct (remainingPhase (Some m)) as [phase|] eqn:Hphase; [|by injection Hm as <-].
  unfold remainingRequirements, remaining_selected in Hm. rewrite Hphase in Hm.
  apply res_bind_ok in Hm as (o & (? & _ & (? & _ & [= <-])%res_bind_ok)%res_bind_ok & [= <-]). cbn [nullish].
  apply forallb_elem. intros r Hr. unfold remaining_matrix in Hr.
  apply elem_of_app in Hr as [Hr|Hr].
  - apply list_elem_of_In, in_concat in Hr as (rs & (vd & <- & Hvd)%in_map_iff & (l & <- & _)%in_map_iff). apply filter_In in Hvd as [Hvd _].
    apply (proj1 (forallb_elem _ _) remaining_known). by apply list_elem_of_In.
  - destruct (String.eqb m _); [|by apply elem_of_nil in Hr]. apply list_elem_of_singleton in Hr as ->. exact idle_known.
Qed.

(** ** Acceptance *)
Definition execution_passed (c : CaseResult) : bool :=
  match row_execution c with Some _ => negb (bad_outcome (cr_executionOutcome c ?? "")) | None => true end.

(** What makes a run acceptable, read off the recorded cases: something was required and
    recorded, every case and every recorded execution passed, and everything the mode demands
    is there. A later phase ([later]) must demand something. *)
Definition accepted_evidence (matrix : list Requirement) (phase0 later : bool) (cases : list CaseResult) (required : list string) : bool :=
  negb (bool_decide (required = [])) && negb (bool_decide (cases = [])) && forallb case_passed cases && forallb execution_passed cases &&
  forallb (fun w => existsb (w_present w) cases) (demanded matrix phase0 required) && (negb later || negb (bool_decide (matrix = []))).

Lemma demanded_outcome matrix phase0 required w c : w ∈ demanded matrix phase0 required -> w_present w (terminal c) = w_present w c.
Proof.
  unfold demanded. rewrite !elem_of_app, !list_elem_of_In, !in_map_iff. intros [(r & <- & _)|[Hw|(id & <- & _)]]; [done| |done].
  destruct phase0; [|done]. apply in_app_iff in Hw as [(id & <- & _)%in_map_iff|(v & <- & _)%in_map_iff]; done.
Qed.

Lemma existsb_map {A B} (f : A -> B) p l : existsb p (map f l) = existsb (fun a => p (f a)) l.
Proof. induction l as [|a l IH]; cbn; [done|]. by rewrite IH. Qed.

Lemma demanded_terminal matrix phase0 required cases :
  forallb (fun w => existsb (w_present w) (map terminal cases)) (demanded matrix phase0 required)
  = forallb (fun w => existsb (w_present w) cases) (demanded matrix phase0 required).
Proof.
  apply Bool.eq_iff_eq_true. rewrite !forallb_elem. split; intros Hw w Hin; specialize (Hw w Hin); rewrite existsb_map in *;
    (apply existsb_elem in Hw as (c & Hc & Hp); apply existsb_elem; exists c; split; [done|]); by rewrite (demanded_outcome _ _ _ _ _ Hin) in *.
Qed.

Lemma terminal_passed c : case_passed (terminal c) = case_passed c.
Proof.
  unfold case_passed, terminal, terminalOutcome. cbn -[String.eqb]. destruct (String.eqb (cr_outcome c) "Passed"); [done|]. by destruct (includes _ _).
Qed.

Lemma terminal_all_passed cases : forallb case_passed (map terminal cases) = forallb case_passed cases.
Proof. induction cases as [|c l IH]; cbn -[case_passed]; [done|]. by rewrite IH, terminal_passed. Qed.

Lemma placeholder_failed c : placeholder c -> case_passed c = false.
Proof. unfold case_passed. by intros (_ & _ & [->|(-> & _)]). Qed.

(** All rows passed only when nothing had to be added. *)
Lemma passed_not_extended rows rows' : extends rows rows' -> forallb case_passed rows' = true -> rows' = rows.
Proof.
  intros (extra & -> & He). rewrite forallb_app. intros [_ Hp]%andb_prop. destruct extra as [|c extra]; [by rewrite app_nil_r|].
  apply List.Forall_cons_iff in He as [Hc _]. cbn in Hp. by rewrite placeholder_failed in Hp.
Qed.

Section coverage.
Variables (completed final : list CaseResult).
Hypothesis Hrows : Forall2 reduced completed final.

Lemma final_passed : forallb case_passed final = forallb case_passed completed.
Proof using Hrows. symmetry. apply (Forall2_forallb _ _ _ _ _ Hrows). intros c c' Hr. unfold case_passed. destruct Hr as (_ & E & _). by rewrite E. Qed.
Lemma final_id id : existsb (fun c => String.eqb (cr_id c) id) final = existsb (fun c => String.eqb (cr_id c) id) completed.
Proof using Hrows. symmetry. apply (Forall2_existsb _ _ _ _ _ Hrows). intros c c' Hr. cbn. destruct Hr as (E & _). by rewrite E. Qed.

Lemma final_all_passed : completed <> [] -> forallb case_passed completed = true -> all_passed (map recorded_of final) = true.
Proof using Hrows.
  intros Hne Hp. rewrite <- final_passed in Hp. unfold all_passed. apply andb_true_iff. split.
  - destruct Hrows; done.
  - apply forallb_elem. intros rc Hrc. apply list_elem_of_In, in_map_iff in Hrc as (c & <- & Hc%list_elem_of_In). exact (proj1 (forallb_elem _ _) Hp c Hc).
Qed.

(** Nothing of [l] is missing in the report when every element has a passed case. *)
Lemma covered {A} (l : list A) (p : A -> CaseResult -> bool) (q : A -> Recorded -> bool) :
  (forall a c c', a ∈ l -> reduced c c' -> q a (recorded_of c') = p a c && case_passed c) -> forallb case_passed completed = true ->
  (forall a, a ∈ l -> existsb (p a) completed = true) -> List.filter (fun a => negb (existsb (q a) (map recorded_of final))) l = [].
Proof using Hrows.
  intros Hq Hp Hc. assert (He : forall a, a ∈ l -> existsb (q a) (map recorded_of final) = true).
  { intros a Ha. rewrite existsb_map. specialize (Hc a Ha). apply existsb_elem in Hc as (c & Hin & Hm).
    rewrite <- (Forall2_existsb _ (fun c => p a c && case_passed c) _ _ _ Hrows).
    - apply existsb_elem. exists c. split; [done|]. rewrite Hm. exact (proj1 (forallb_elem _ _) Hp c Hin).
    - intros c1 c2 Hr. symmetry. by apply Hq. }
  clear Hc Hq. induction l as [|a l IH]; cbn; [done|]. rewrite He by (apply elem_of_cons; by left). apply IH. intros a' Ha. apply He, elem_of_cons. by right.
Qed.

Lemma covered_matrix matrix : forallb known_cell matrix = true -> forallb case_passed completed = true ->
  (forall r, r ∈ matrix -> existsb (in_matrix r) completed = true) -> missing_layers matrix (map recorded_of final) = [].
Proof using Hrows.
  intros Hk. apply covered. intros r c c' Hr. apply reduced_proves. exact (proj1 (forallb_elem _ _) Hk r Hr).
Qed.
Lemma matrix_complete matrix : forallb known_cell matrix = true -> completed <> [] -> forallb case_passed completed = true ->
  (forall r, r ∈ matrix -> existsb (in_matrix r) completed = true) -> cv_complete (matrix_coverage matrix (map recorded_of final)) = true.
Proof using Hrows. intros Hk Hne Hp Hc. unfold matrix_coverage. cbn. rewrite (covered_matrix matrix Hk Hp Hc), final_all_passed by done. by apply bool_decide_true. Qed.

Lemma phase0_complete : completed <> [] -> forallb case_passed completed = true ->
  (forall id, id ∈ phase0Ids -> existsb (has_fixture id) completed = true) ->
  (forall vid, vid ∈ phase0Variants -> existsb (has_live_variant vid) completed = true) ->
  cv_complete (phase0Coverage (map recorded_of final)) = true.
Proof using Hrows.
  intros Hne Hp Hf Hl. unfold phase0Coverage. cbn [cv_complete].
  assert (He : forall c e, bool_decide (Some (case_environment c) = Some e) = String.eqb (case_environment c) e)
    by (intros c e; destruct (String.eqb_spec (case_environment c) e); [apply bool_decide_true | apply bool_decide_false]; congruence).
  rewrite (covered phase0Ids has_fixture fixture_passed), (covered phase0Variants has_live_variant variant_passed), final_all_passed; try done.
  - intros vid c c' Hv (E1 & E2 & E3 & E4 & E5 & _). unfold variant_passed, has_live_variant, passed, case_passed, recorded_of. cbn [rc_id rc_variant rc_environment rc_outcome].
    rewrite E1, E2, E4, E5, He. destruct (String.eqb_spec (cr_id c) vid.2) as [Hid|]; [|done].
    assert (Hk : forallb (fun vid => known_variant vid.2 vid.1) phase0Variants = true) by by vm_compute.
    rewrite forallb_elem in Hk. specialize (Hk vid Hv).
    assert (Hvar : bool_decide (keep_if (known_variant (cr_id c)) (cr_variant c) = Some vid.1) = bool_decide (cr_variant c = Some vid.1)).
    { apply bool_decide_ext. rewrite keep_if_some, Hid. split; [intros [Hx _]; exact Hx | intros Hx; exact (conj Hx Hk)]. }
    rewrite Hvar. by destruct (bool_decide _), (String.eqb (case_environment c) "live").
  - intros id c c' _ (E1 & E2 & _ & E4 & _). unfold fixture_passed, has_fixture, passed, case_passed, recorded_of. cbn [rc_id rc_variant rc_environment rc_outcome].
    rewrite E1, E2, E4, He. by destruct (String.eqb (cr_id c) id), (String.eqb (case_environment c) "fixture").
Qed.
End coverage.

(** Diagnostic subsets have modes of their own. *)
Definition own_mode (mode : string) : bool :=
  bool_decide (remainingPhase (Some mode) = None) && negb (includes ["phase0"; "phase1"; "phase2"; "phase3"; "phase4"] mode).
Lemma diagnostic_mode env mode p : diagnosticForMode env mode = Ok (Some p) -> exists m, mode = Some m /\ own_mode m = true.
Proof.
  unfold diagnosticForMode. destruct (selected_diagnostic env mode) as [id|]; [|done]. destruct (find_first _ _) as [q|] eqn:Hq; [|done].
  case_bool_decide as Hm; [|done]. intros _. exists (diagnosticMode q). split; [done|]. apply find_first_Some in Hq as [Hq _].
  assert (Hall : forallb (fun q => own_mode (diagnosticMode q)) diagnosticSelections = true) by by vm_compute.
  exact (proj1 (forallb_elem _ _) Hall q Hq).
Qed.

(** The matrix of a phase that has a coverage of its own, and the later coverage. *)
Lemma later_matrix env mode limited diagnostic matrix cases later : diagnosticForMode env mode = Ok diagnostic ->
  mode_matrix env mode limited diagnostic = Ok matrix -> later_coverage env mode limited cases = Ok later ->
  later = (if limited then None else match remainingPhase mode with
           | Some _ => Some (mk_coverage [] [] (missing_layers matrix cases)
               ((0 <? length matrix)%nat && bool_decide (missing_layers matrix cases = []) && all_passed cases))
           | None => None end).
Proof.
  intros Hd Hm Hl. unfold later_coverage in Hl. destruct limited; [by destruct mode; injection Hl as <-|].
  destruct mode as [m|]; [|by injection Hl as <-]. destruct (remainingPhase (Some m)) as [phase|] eqn:Hp; [|by injection Hl as <-].
  apply res_bind_ok in Hl as (c & Hc & [= <-]). unfold remainingCoverage in Hc. apply res_bind_ok in Hc as (required & Hr & [= <-]).
  assert (Hdiag : diagnostic = None).
  { destruct diagnostic as [p|]; [|done]. apply diagnostic_mode in Hd as (m' & [= <-] & Hm'). unfold own_mode in Hm'. by rewrite Hp in Hm'. }
  assert (Hmodes : forall m', m' ∈ ["phase1"; "phase2"; "phase3"; "phase4"] -> bool_decide (Some m = Some m') = false).
  { intros m' Hm'. apply bool_decide_false. intros [= ->]. revert Hp. repeat (apply elem_of_cons in Hm' as [->|Hm']; [done|]). by apply elem_of_nil in Hm'. }
  subst diagnostic. unfold mode_matrix in Hm. rewrite !Hmodes in Hm by set_solver. destruct (truthy _); rewrite Hp, Hr in Hm; by injection Hm as <-.
Qed.

Lemma phase_matrix env mode diagnostic matrix phase requirements : diagnosticForMode env mode = Ok diagnostic ->
  (phase, requirements) ∈ [("phase1", phase1Requirements); ("phase2", phase2Requirements); ("phase3", gpuRequirements 3); ("phase4", gpuRequirements 4)] ->
  mode = Some phase -> mode_matrix env mode false diagnostic = Ok matrix -> matrix = requirements.
Proof.
  intros Hd Hin -> Hm. destruct diagnostic as [p|].
  { apply diagnostic_mode in Hd as (m & [= <-] & Hm'). unfold own_mode in Hm'. apply andb_prop in Hm' as [_ Hn].
    repeat (apply elem_of_cons in Hin as [[= -> ->]|Hin]; [done|]). by apply elem_of_nil in Hin. }
  unfold mode_matrix in Hm. repeat (apply elem_of_cons in Hin as [[= -> ->]|Hin]); [| | | |by apply elem_of_nil in Hin];
    repeat first [rewrite bool_decide_true in Hm by done | rewrite bool_decide_false in Hm by done];
    try (destruct (truthy _); repeat first [rewrite bool_decide_true in Hm by done | rewrite bool_decide_false in Hm by done]); by injection Hm as <-.
Qed.

Lemma filter_nil {A} (p : A -> bool) l : bool_decide (List.filter (fun a => negb (p a)) l = []) = forallb p l.
Proof. induction l as [|a l IH]; cbn -[bool_decide]; [by apply bool_decide_true|]. destruct (p a); cbn -[bool_decide]; [exact IH | by apply bool_decide_false]. Qed.

Lemma summarize_acceptable required final : sm_acceptable (summarize required final) =
  negb (bool_decide (required = [])) && negb (bool_decide (final = [])) && forallb case_passed final &&
  forallb (fun id => existsb (fun c => String.eqb (cr_id c) id) final) required.
Proof.
  unfold summarize. cbn [sm_acceptable]. rewrite filter_nil.
  assert (He : forall A (l : list A), (0 <? length l)%nat = negb (bool_decide (l = []))) by (intros A [|a l]; [done | by rewrite bool_decide_false]).
  rewrite !He. destruct (forallb case_passed final) eqn:Hp; [|by rewrite !andb_false_r].
  assert (Hid : forallb (fun id => forallb case_passed (List.filter (fun c => String.eqb (cr_id c) id) final)) required = true).
  { apply forallb_elem. intros id _. apply forallb_elem. intros c [Hc _]%list_elem_of_In%filter_In. exact (proj1 (forallb_elem _ _) Hp c (proj2 (list_elem_of_In _ _) Hc)). }
  rewrite Hid, !andb_true_r. done.
Qed.

(** On rows that passed, an execution of the report is bad exactly when its recorded outcome is. *)
Definition kept_result (c : CaseResult) : string := keep_if (includes ["Passed"; "Failed"; "Blocked"]) (cr_executionOutcome c) ?? terminalOutcome (cr_outcome c).

Lemma bad_kept o : bad_outcome (keep_if (includes ["Passed"; "Failed"; "Blocked"]) o ?? "Passed") = bad_outcome (o ?? "").
Proof.
  destruct o as [o|]; cbn [keep_if nullish]; [|by vm_compute]. destruct (includes ["Passed"; "Failed"; "Blocked"] o) eqn:Ho; [done|].
  symmetry. apply not_true_is_false. unfold bad_outcome. intros Hb%includes_spec. assert (Hin : includes ["Passed"; "Failed"; "Blocked"] o = true) by (apply includes_spec; set_solver).
  by rewrite Hin in Ho.
Qed.

Lemma final_executions cases final : Forall2 reduced (map terminal cases) final -> forallb case_passed cases = true ->
  clean (executions final) = forallb execution_passed cases.
Proof.
  intros Hr Hp. rewrite clean_executions.
  rewrite <- (Forall2_forallb _ (fun c => match row_execution c with Some _ => negb (bad_outcome (kept_result c)) | None => true end) _ _ _ Hr).
  - clear Hr final. induction cases as [|c cases IH]; cbn -[bad_outcome case_passed]; [done|]. apply andb_prop in Hp as [Hc Hp]. rewrite IH by done.
    unfold execution_passed, kept_result. change (row_execution (terminal c)) with (row_execution c). destruct (row_execution c); [|done].
    cbn [terminal with_outcome cr_executionOutcome cr_outcome]. apply String.eqb_eq in Hc. rewrite Hc.
    change (terminalOutcome (terminalOutcome "Passed")) with "Passed". by rewrite bad_kept.
  - intros c c' (_ & E2 & _ & _ & _ & E6 & E7). unfold row_execution at 2. rewrite E6. unfold kept_result, current_result. rewrite E2, E7.
    destruct (row_execution c) as [x|] eqn:Hx; [|done]. unfold row_execution in Hx. apply keep_if_some in Hx as [_ Hx]. cbn [keep_if]. by rewrite Hx.
Qed.

Lemma Ok_inj {E A} (a b : A) : @Ok E A a = Ok b -> a = b.
Proof. congruence. Qed.

Lemma conclude_verdict `{Catalogue} `{DateFallback} env mode required revision lifecycle limited rows report :
  conclude env mode required revision lifecycle limited rows = Ok report ->
  exists later, later_coverage env mode limited (map recorded_of (map row_case rows)) = Ok later /\ rp_rows report = rows /\
    sm_acceptable (rp_summary report) =
      sm_acceptable (summarize required (map row_case rows)) && clean (executions (map row_case rows)) &&
      ((limited || phase_complete mode (map recorded_of (map row_case rows))) && match later with Some c => cv_complete c | None => true end) &&
      negb (rp_recoveryFenceActive report).
Proof.
  intros Hr. unfold conclude in Hr. apply res_bind_ok in Hr as (omitted & _ & Hr). apply res_bind_ok in Hr as (attempts & _ & Hr).
  apply res_bind_ok in Hr as (later & Hlater & Hr). apply Ok_inj in Hr as <-. exists later. split; [exact Hlater|]. split; [reflexivity|].
  cbn [rp_summary rp_recoveryFenceActive sm_acceptable]. rewrite <- executions_counted.
  generalize (sm_acceptable (summarize required (map row_case rows))) (limited || phase_complete mode (map recorded_of (map row_case rows))).
  intros a b. match goal with |- _ && negb ?f && _ && _ && _ && _ = _ => generalize f end. intros f.
  generalize (summarizeExecutions (map row_case rows) "Failed" =? 0)%nat (summarizeExecutions (map row_case rows) "Blocked" =? 0)%nat. intros x y.
  by destruct a, b, f, x, y, later as [[? ? ? []]|].
Qed.

Definition is_later (limited : bool) (mode : option string) : bool := negb limited && bool_decide (is_Some (remainingPhase mode)).

Section accepted.
Context `{Catalogue}.
Variables (env : environment) (mode : option string) (limited : bool) (diagnostic : option DiagnosticSelection) (matrix : list Requirement)
  (cases final : list CaseResult) (required : list string).
Hypotheses (Hdiag : diagnosticForMode env mode = Ok diagnostic) (Hmatrix : mode_matrix env mode limited diagnostic = Ok matrix).
Hypotheses (Hrows : Forall2 reduced (map terminal cases) final).
Notation wants := (demanded matrix (bool_decide (mode = Some "phase0") && negb limited) required).
Hypotheses (Hne : map terminal cases <> []) (Hpassed : forallb case_passed (map terminal cases) = true).
Hypothesis Hwants : forall w, w ∈ wants -> existsb (w_present w) (map terminal cases) = true.

Lemma wants_cells r : r ∈ matrix -> existsb (in_matrix r) (map terminal cases) = true.
Proof using Hwants. intros Hr. apply (Hwants (want_cell r)). unfold demanded. apply elem_of_app. left. by apply (list_elem_of_fmap_2 want_cell). Qed.

Lemma wants_phase_complete : limited || phase_complete mode (map recorded_of final) = true.
Proof using All.
  pose proof wants_cells as Hcells. destruct limited; [done|]. cbn [orb]. unfold phase_complete. pose proof (matrix_known _ _ _ _ _ Hmatrix) as Hk.
  assert (Hcov : forall phase requirements, (phase, requirements) ∈ [("phase1", phase1Requirements); ("phase2", phase2Requirements); ("phase3", gpuRequirements 3); ("phase4", gpuRequirements 4)] ->
    negb (bool_decide (mode = Some phase)) || cv_complete (matrix_coverage requirements (map recorded_of final)) = true).
  { intros phase requirements Hin. destruct (bool_decide_reflect (mode = Some phase)) as [Hmode|]; [|done]. cbn [negb orb].
    rewrite <- (phase_matrix _ _ _ _ _ _ Hdiag Hin Hmode Hmatrix). by apply (matrix_complete (map terminal cases)). }
  unfold phase1Coverage, phase2Coverage, gpuCoverage.
  rewrite (Hcov "phase1" phase1Requirements), (Hcov "phase2" phase2Requirements), (Hcov "phase3" (gpuRequirements 3)),
    (Hcov "phase4" (gpuRequirements 4)), !andb_true_r by (rewrite !elem_of_cons; auto).
  destruct (bool_decide_reflect (mode = Some "phase0")) as [Hmode|]; [|done]. cbn [negb orb].
  apply (phase0_complete (map terminal cases)); [done | done | done | |].
  - intros id Hid. apply (Hwants (want_fixture id)). unfold demanded. rewrite ?bool_decide_true by done. cbn [andb negb].
    rewrite !elem_of_app. right. left. left. by apply (list_elem_of_fmap_2 want_fixture).
  - intros v Hv. apply (Hwants (want_live v)). unfold demanded. rewrite ?bool_decide_true by done. cbn [andb negb].
    rewrite !elem_of_app. right. left. right. by apply (list_elem_of_fmap_2 want_live).
Qed.

Lemma wants_later_complete later : later_coverage env mode limited (map recorded_of final) = Ok later ->
  match later with Some c => cv_complete c | None => true end = negb (is_later limited mode) || negb (bool_decide (matrix = [])).
Proof using All.
  pose proof wants_cells as Hcells. intros ->%(later_matrix _ _ _ _ _ _ _ Hdiag Hmatrix). unfold is_later. destruct limited; [done|]. cbn [negb andb].
  destruct (remainingPhase mode) as [phase|]; [|done]. cbn [negb orb cv_complete].
  rewrite (covered_matrix (map terminal cases)) by (first [done | by eapply matrix_known]).
  rewrite (final_all_passed (map terminal cases)) by done. rewrite bool_decide_true, !andb_true_r by done. by destruct matrix.
Qed.
End accepted.

Lemma exit_passed cases : cases <> [] -> forallb case_passed cases = true -> reportExitCode cases = 0.
Proof.
  intros Hne Hp. assert (Ho : forall o, terminalOutcome "Passed" <> o -> existsb (fun c => String.eqb (terminalOutcome (cr_outcome c)) o) cases = false).
  { intros o Ho. apply not_true_is_false. intros (c & Hc & He%String.eqb_eq)%existsb_elem. pose proof (proj1 (forallb_elem _ _) Hp c Hc) as Hpc.
    apply String.eqb_eq in Hpc. rewrite Hpc in He. done. }
  unfold reportExitCode. rewrite !Ho by done. by destruct cases.
Qed.

(** The verdict of rows against the evidence they were completed from. *)
Lemma verdict_evidence `{Catalogue} env mode limited diagnostic matrix cases completed final required later :
  diagnosticForMode env mode = Ok diagnostic -> mode_matrix env mode limited diagnostic = Ok matrix -> Forall2 reduced completed final ->
  later_coverage env mode limited (map recorded_of final) = Ok later ->
  let wants := demanded matrix (bool_decide (mode = Some "phase0") && negb limited) required in
  extends (map terminal cases) completed -> (forall w, w ∈ wants -> existsb (w_present w) completed = true) ->
  ((forall w, w ∈ wants -> existsb (w_present w) (map terminal cases) = true) -> completed = map terminal cases) ->
  sm_acceptable (summarize required final) && clean (executions final) &&
  ((limited || phase_complete mode (map recorded_of final)) && match later with Some c => cv_complete c | None => true end)
  = accepted_evidence matrix (bool_decide (mode = Some "phase0") && negb limited) (is_later limited mode) cases required.
Proof.
  cbv zeta. intros Hd Hm Hrows Hlater He Hw Hnone. rewrite summarize_acceptable, (final_passed completed final) by done.
  pose proof (terminal_all_passed cases) as Hpassed.
  destruct (forallb case_passed completed) eqn:Hp.
  - pose proof (passed_not_extended _ _ He Hp) as Hcompleted. subst completed. rewrite Hp in Hpassed.
    unfold accepted_evidence. rewrite <- Hpassed, (final_executions cases final) by done.
    rewrite <- demanded_terminal, (proj2 (forallb_elem _ _) Hw), !andb_true_r.
    assert (Hid : forallb (fun id => existsb (fun c => String.eqb (cr_id c) id) final) required = true).
    { apply forallb_elem. intros id Hin. rewrite (final_id _ _ Hrows). apply (Hw (want_case id)). unfold demanded. rewrite !elem_of_app.
      right. right. by apply (list_elem_of_fmap_2 want_case). }
    rewrite Hid, andb_true_r. destruct (bool_decide_reflect (required = [])) as [|Hreq]; [done|].
    destruct (bool_decide_reflect (cases = [])) as [->|Hne]; [by inversion Hrows|].
    assert (Hfin : final <> []) by (intros ->; inversion Hrows as [Hnil|]; by destruct cases).
    rewrite (bool_decide_false (final = [])) by done. cbn [negb andb]. destruct (forallb execution_passed cases); [|done]. cbn [andb].
    assert (Hmne : map terminal cases <> []) by by destruct cases.
    by rewrite (wants_phase_complete env mode limited diagnostic matrix cases final required),
      (wants_later_complete env mode limited diagnostic matrix cases final required Hd Hm Hrows Hmne Hp Hw later).
  - rewrite andb_false_r. cbn [andb]. symmetry. apply not_true_is_false. unfold accepted_evidence. rewrite !andb_true_iff.
    intros (((((_ & _) & Hall) & _) & Hcells) & _). rewrite <- demanded_terminal in Hcells. rewrite forallb_elem in Hcells.
    rewrite (Hnone Hcells), Hpassed, Hall in Hp. done.
Qed.

(** C3: a report is acceptable exactly when the evidence is complete. The verdict of a report
    that is written equals: something was required and recorded, every recorded case passed
    and no recorded execution failed or was blocked, every cell of the mode's matrix, every
    required case and the fixtures of phase 0 are among the recorded cases, a later phase has
    a matrix, and no recovery fence is active. Nothing the completion, the checks or the
    attached diagnostics add can make a run pass; and the exit code is 0 for rows that passed. *)
Theorem report_acceptance `{Catalogue} `{DateFallback} describe env runId cases required revision mode prepared lifecycle traces report :
  saveReport describe env runId cases required revision mode prepared lifecycle traces = Ok report ->
  exists limited diagnostic matrix, is_limited env = Ok limited /\ diagnosticForMode env mode = Ok diagnostic /\
    mode_matrix env mode limited diagnostic = Ok matrix /\
    sm_acceptable (rp_summary report) =
      accepted_evidence matrix (bool_decide (mode = Some "phase0") && negb limited) (is_later limited mode) cases required
      && negb (rp_recoveryFenceActive report) /\
    (sm_acceptable (rp_summary report) = true -> reportExitCode (map row_case (rp_rows report)) = 0).
Proof.
  unfold saveReport. intros (? & _ & (limited & Hl & (completed & Hc & (safe & Hs & (rows & Ha & Hr)%res_bind_ok)%res_bind_ok)%res_bind_ok)%res_bind_ok)%res_bind_ok.
  destruct (completion_honest _ _ _ _ _ _ _ _ Hc) as (limited' & diagnostic & matrix & Hl' & Hd & Hm & He & Hw & Hnone).
  rewrite Hl in Hl'. injection Hl' as <-. exists limited, diagnostic, matrix. split; [done|]. split; [done|]. split; [done|].
  pose proof (final_reduced _ _ _ _ _ _ _ _ Hs Ha) as Hrows. destruct (conclude_verdict _ _ _ _ _ _ _ _ Hr) as (later & Hlater & -> & Hv).
  rewrite Hv. clear Hv. rewrite (verdict_evidence env mode limited diagnostic matrix cases completed _ required later Hd Hm Hrows Hlater He Hw Hnone).
  split; [done|]. intros [Ha' _]%andb_prop. rewrite <- (verdict_evidence env mode limited diagnostic matrix cases completed _ required later Hd Hm Hrows Hlater He Hw Hnone) in Ha'.
  apply andb_prop in Ha' as [[Ha' _]%andb_prop _]. rewrite summarize_acceptable in Ha'. rewrite !andb_true_iff in Ha'. destruct Ha' as (((_ & Hne) & Hp) & _).
  apply exit_passed; [|done]. by intros E; rewrite E in Hne.
Qed.

(** ** A run of the fixtures of phase 7 *)
#[local] Instance demo_catalogue : Catalogue := ["MESH-01"].
#[local] Instance no_legacy_dates : DateFallback := fun _ => None.

Definition demo_env : environment := [("REGRESSION_MODE", "phase7-fixtures")].
Definition demo_run : string := "reg-01234567-89ab-cdef-0123-456789abcdef".
Definition demo_cases (outcome : string) : list CaseResult :=
  [mk_case "MESH-01" outcome "B" None (Int 1200) None None (Some "p7-mesh-01") (Some "0123456789abcdef01234567") None None false None None None None].
Notation demo_report cases := (saveReport (fun id => id) demo_env demo_run cases ["MESH-01"] "" (Some "phase7-fixtures") None None []).
Definition demo_accepted (cases : list CaseResult) : option (bool * Z) :=
  match demo_report cases with Ok r => Some (sm_acceptable (rp_summary r), reportExitCode (map row_case (rp_rows r))) | Err _ => None end.

Example demo_verdicts : map demo_accepted [demo_cases "Passed"; demo_cases "Flaky"; demo_cases "Skipped"; []] =
  [Some (true, 0); Some (false, 1); Some (false, 2); Some (false, 1)].
Proof. by vm_compute. Qed.

Lemma completion_honest_witness : exists result,
  completeCases [] "PREREQUISITE" false None demo_env (Some "phase7-fixtures") ["MESH-01"] = Ok result /\
  map (fun c => (cr_id c, cr_outcome c)) result = [("MESH-01", "Blocked"); ("HAR-10", "Failed")] /\ extends [] result.
Proof.
  destruct (completeCases [] "PREREQUISITE" false None demo_env (Some "phase7-fixtures") ["MESH-01"]) as [result|e] eqn:Hr; [|vm_compute in Hr; discriminate].
  destruct (completion_honest _ _ _ _ _ _ _ _ Hr) as (limited & diagnostic & matrix & _ & _ & _ & He & _).
  exists result. split; [reflexivity|]. split; [|exact He]. vm_compute in Hr. injection Hr as <-. reflexivity.
Defined.

Lemma report_acceptance_witness : exists report, demo_report (demo_cases "Passed") = Ok report /\
  sm_acceptable (rp_summary report) = true /\ reportExitCode (map row_case (rp_rows report)) = 0.
Proof.
  destruct (demo_report (demo_cases "Passed")) as [report|e] eqn:Hr; [|vm_compute in Hr; discriminate].
  pose proof (report_acceptance _ _ _ _ _ _ _ _ _ _ _ Hr) as Hacc.
  destruct Hacc as (limited & diagnostic & matrix & _ & _ & _ & _ & Hexit).
  assert (Ha : sm_acceptable (rp_summary report) = true) by (vm_compute in Hr; injection Hr as <-; reflexivity).
  exists report. split; [reflexivity|]. split; [exact Ha | exact (Hexit Ha)].
Defined.
