(* ===== verification/LicenseTransaction.v ===== *)
(** * Borrowing the license document (regression/core/license-transaction.ts)

    A case installs a test license and must put the original document back, without ever
    overwriting what another writer put there. SHA-256 is a parameter, as is the platform's
    collation. *)

From S2P Require Import Prelude Js Number Json Prog Errors DashboardCore Canonical.

Local Open Scope string_scope.
Local Open Scope js_scope.
Local Open Scope Z_scope.

(** [createHash('sha256').update(s).digest('hex')] *)
Class Sha256 : Type := sha256 : string -> string.

(** ** Data *)
Record LicenseSnapshot : Type := {
  ls_uid : string;
  ls_revision : string;
  ls_installationId : string;
  ls_document : option string;
  ls_otherData : dict string
}.

Inductive TransactionState : Type := T_reviewed | T_requested | T_forwarded | T_applied | T_restoring | T_restored.
#[export] Instance TransactionState_eq_dec : EqDecision TransactionState.
Proof. solve_decision. Defined.

Record LicenseReceipt : Type := {
  lr_secretUid : string;
  lr_installationId : string;
  lr_beforeRevision : string;
  lr_originalHash : option string;
  lr_otherDataHash : string;
  lr_selectedHash : option (option string);
  lr_appliedRevision : option string;
  lr_restoredRevision : option string;
  lr_state : TransactionState
}.

Inductive licenseE : Type -> Type :=
| L_state : licenseE (res exn LicenseSnapshot)
| L_guard : licenseE (res exn unit)
| L_restore (current : LicenseSnapshot) (document : option string) : licenseE (res exn unit)
| L_record (r : LicenseReceipt) : licenseE (res exn unit).

(** The private fields. *)
Record LicenseTx : Type := { tx_receipt : LicenseReceipt; tx_selected : option string }.

Definition LM := M licenseE LicenseTx exn.

Section transaction.
Context `{Sha256} `{Collation} (original : LicenseSnapshot).

Definition licenseHash (document : option string) : option string := sha256 <$> document.

Definition other_text (s : LicenseSnapshot) : string := canonical (JObj (map (fun kv => (kv.1, JStr kv.2)) (ls_otherData s))).

Definition new_LicenseTransaction : LicenseTx :=
  {| tx_receipt := {| lr_secretUid := ls_uid original; lr_installationId := ls_installationId original;
                      lr_beforeRevision := ls_revision original; lr_originalHash := licenseHash (ls_document original);
                      lr_otherDataHash := sha256 (other_text original); lr_selectedHash := None; lr_appliedRevision := None;
                      lr_restoredRevision := None; lr_state := T_reviewed |};
     tx_selected := None |}.

(** [this.receipt = {...this.receipt, ...}] *)
Definition receipt_with (r : LicenseReceipt) (selected : option (option string)) (applied restored : option string)
    (state : TransactionState) : LicenseReceipt :=
  {| lr_secretUid := lr_secretUid r; lr_installationId := lr_installationId r; lr_beforeRevision := lr_beforeRevision r;
     lr_originalHash := lr_originalHash r; lr_otherDataHash := lr_otherDataHash r;
     lr_selectedHash := selected ??? lr_selectedHash r; lr_appliedRevision := applied ??? lr_appliedRevision r;
     lr_restoredRevision := restored ??? lr_restoredRevision r; lr_state := state |}.

(** Set the receipt, then record it. *)
Definition record_receipt (f : LicenseReceipt -> LicenseReceipt) : LM unit :=
  modify (fun tx => {| tx_receipt := f (tx_receipt tx); tx_selected := tx_selected tx |}) ;;
  let! tx := get in await (L_record (tx_receipt tx)).

Definition requireProofM (condition : bool) (code : ReasonCode) : LM unit := of_res (requireProof condition code).

Definition begin : LM unit := let! tx := get in await (L_record (tx_receipt tx)).

Definition same_identity (current : LicenseSnapshot) : bool :=
  String.eqb (ls_uid current) (ls_uid original) && String.eqb (ls_installationId current) (ls_installationId original) &&
  String.eqb (other_text current) (other_text original).

Definition sameIdentity (current : LicenseSnapshot) : LM unit := requireProofM (same_identity current) CONFLICT.

Definition is_original (current : LicenseSnapshot) : bool :=
  String.eqb (ls_revision current) (ls_revision original) && bool_decide (ls_document current = ls_document original).

Definition unchanged : LM unit :=
  let! current := await L_state in
  sameIdentity current ;;
  requireProofM (is_original current) API.

Definition in_states (l : list TransactionState) (tx : LicenseTx) : bool := bool_decide (lr_state (tx_receipt tx) ∈ l).

Definition request (document : string) : LM unit :=
  let! tx := get in
  requireProofM (in_states [T_reviewed; T_requested; T_forwarded] tx) CONFLICT ;;
  unchanged ;;
  await L_guard ;;
  modify (fun tx => {| tx_receipt := tx_receipt tx; tx_selected := Some document |}) ;;
  record_receipt (fun r => receipt_with r (Some (licenseHash (Some document))) None None T_requested).

Definition forwarded : LM unit :=
  let! tx := get in
  requireProofM (in_states [T_requested] tx) CONFLICT ;;
  unchanged ;;
  record_receipt (fun r => receipt_with r None None None T_forwarded).

(** The document installed is the one selected. *)
Definition holds_selected (tx : LicenseTx) (current : LicenseSnapshot) : bool :=
  bool_decide (is_Some (tx_selected tx)) && bool_decide (ls_document current = tx_selected tx).

Definition acknowledge (revision : string) : LM unit :=
  let! current := await L_state in
  sameIdentity current ;;
  let! tx := get in
  requireProofM (in_states [T_forwarded] tx && holds_selected tx current && String.eqb (ls_revision current) revision) API ;;
  record_receipt (fun r => receipt_with r None (Some revision) None T_applied).

(** The original text is verified again after a restore, or when none was needed. *)
Definition restore_verified : LM unit :=
  let! verified := await L_state in
  sameIdentity verified ;;
  requireProofM (bool_decide (ls_document verified = ls_document original)) CLEANUP ;;
  record_receipt (fun r => receipt_with r None None (Some (ls_revision verified)) T_restored).

Definition restore_body : LM unit :=
  await L_guard ;;
  let! current := await L_state in
  sameIdentity current ;;
  let! tx := get in
  if in_states [T_restored] tx then
    requireProofM (bool_decide (ls_document current = ls_document original)
                   && bool_decide (Some (ls_revision current) = lr_restoredRevision (tx_receipt tx))) CONFLICT ;;
    await (L_record (tx_receipt tx))
  else
    let restored := in_states [T_restoring] tx && bool_decide (ls_document current = ls_document original) in
    when (negb (is_original current) && negb restored) (
      requireProofM (in_states [T_forwarded; T_applied; T_restoring] tx && holds_selected tx current
        && match lr_appliedRevision (tx_receipt tx) with
           | Some a => negb (truthy a) || String.eqb (ls_revision current) a
           | None => true
           end) CONFLICT ;;
      record_receipt (fun r => receipt_with r None (Some (ls_revision current)) None T_restoring) ;;
      await L_guard ;;
      await (L_restore current (ls_document original))) ;;
    restore_verified.

Definition restore : LM unit := atStage S_license_restore restore_body.
End transaction.

(** ** Receipts left behind *)

(** [/^license-(?:transaction(?:-lic-0[234])?|baseline(?:-(?:lic-01|sso-01))?)\.json$/] *)
Definition is_license_receipt (name : string) : bool :=
  includes ["license-transaction.json"; "license-transaction-lic-02.json"; "license-transaction-lic-03.json";
            "license-transaction-lic-04.json"; "license-baseline.json"; "license-baseline-lic-01.json";
            "license-baseline-sso-01.json"] name.

(** The receipts of a directory, as parsed: each must be a restored one. *)
Definition receipt_restored (v : json) : bool :=
  match v with
  | JObj d => match dict_get d "version" ≫= json_num with Some n => num_eqb n (Int 1) | None => false end
              && bool_decide (dict_get d "state" ≫= json_str = Some "restored")
  | _ => false
  end.

Fixpoint receipts_restored (files : list (string * json)) : res exn unit :=
  match files with
  | [] => Ok tt
  | (name, v) :: rest =>
      if is_license_receipt name
      then let? _ := requireProof (receipt_restored v) CLEANUP in receipts_restored rest
      else receipts_restored rest
  end.
