(* ===== verification/LicenseProps.v ===== *)
(** * The borrowed license goes back, and nothing else is touched *)

From S2P Require Import Prelude Js Number Json Prog Errors DashboardCore LicenseTransaction.

Local Open Scope string_scope.
Local Open Scope js_scope.
Local Open Scope Z_scope.

Section properties.
Context `{Sha256} `{Collation} (original : LicenseSnapshot).

Inductive license_call : Type :=
| LC_unchanged
| LC_request (document : string)
| LC_forwarded
| LC_acknowledge (revision : string)
| LC_restore.

Definition license_perform (c : license_call) : LM unit :=
  match c with
  | LC_unchanged => unchanged original
  | LC_request d => request original d
  | LC_forwarded => forwarded original
  | LC_acknowledge r => acknowledge original r
  | LC_restore => restore original
  end.

(** ** The environment: the last snapshot read, whether the lease was confirmed since, and
    the receipt last recorded. *)
Record Ghost : Type := { gl_last : option LicenseSnapshot; gl_guard : bool; gl_recorded : option LicenseReceipt }.

Definition license_upd X (g : Ghost) (op : licenseE X) : X -> Ghost :=
  match op in licenseE X return X -> Ghost with
  | L_state => fun r => {| gl_last := match r with Ok s => Some s | Err _ => None end; gl_guard := false; gl_recorded := gl_recorded g |}
  | L_guard => fun r => {| gl_last := gl_last g; gl_guard := is_ok r; gl_recorded := gl_recorded g |}
  | L_restore _ _ => fun _ => {| gl_last := None; gl_guard := false; gl_recorded := gl_recorded g |}
  | L_record c => fun r => {| gl_last := gl_last g; gl_guard := gl_guard g; gl_recorded := if is_ok r then Some c else gl_recorded g |}
  end.
Definition license_asm X (g : Ghost) (op : licenseE X) (x : X) : Prop := True.

(** The last snapshot read is of the borrowed Secret. *)
Definition read_back (g : Ghost) (P : LicenseSnapshot -> Prop) : Prop :=
  exists s, gl_last g = Some s /\ same_identity original s = true /\ P s.

(** What may be written, and what may be claimed. The original document is written only over
    the snapshot just read, of the same Secret, which holds the document whose hash the
    recorded receipt names, at the revision it names; the lease was confirmed since. A
    receipt says a request was made or forwarded only if the Secret was read unchanged, and
    that the document is restored only if the original was read back. *)
Definition license_pre X (g : Ghost) (op : licenseE X) : Prop :=
  match op with
  | L_state | L_guard => True
  | L_restore current document =>
      document = ls_document original /\ gl_guard g = true /\
      read_back g (fun s => s = current) /\
      exists r d, gl_recorded g = Some r /\ lr_state r = T_restoring /\ ls_document current = Some d /\
                  lr_selectedHash r = Some (Some (sha256 d)) /\ lr_appliedRevision r = Some (ls_revision current)
  | L_record r =>
      match lr_state r with
      | T_requested | T_forwarded => read_back g (fun s => is_original original s = true)
      | T_restored => read_back g (fun s => ls_document s = ls_document original /\ lr_restoredRevision r = Some (ls_revision s))
      | _ => True
      end
  end.

(** The receipt names the selected document. *)
Definition consistent (tx : LicenseTx) : Prop :=
  forall d, tx_selected tx = Some d -> in_states [T_requested; T_forwarded; T_applied; T_restoring] tx = true ->
            lr_selectedHash (tx_receipt tx) = Some (Some (sha256 d)).

Local Notation W m := (wpm license_pre license_asm license_upd m).

Lemma wpm_requireProof (b : bool) code tx g (Q : Ghost -> LicenseTx -> res exn unit -> Prop) :
  (b = true -> Q g tx (Ok tt)) -> (forall e, Q g tx (Err e)) -> W (requireProofM b code) tx g Q.
Proof. intros H1 H2. unfold requireProofM. wpm_step. unfold requireProof. destruct b; auto. Qed.

Lemma wpm_state tx g (Q : Ghost -> LicenseTx -> res exn LicenseSnapshot -> Prop) :
  (forall s, Q {| gl_last := Some s; gl_guard := false; gl_recorded := gl_recorded g |} tx (Ok s)) ->
  (forall g' e, Q g' tx (Err e)) -> W (await L_state) tx g Q.
Proof. intros H1 H2. wpm_step; [done|]. intros [s|e] _; [apply H1 | apply H2]. Qed.

Lemma wpm_guard tx g (Q : Ghost -> LicenseTx -> res exn unit -> Prop) :
  Q {| gl_last := gl_last g; gl_guard := true; gl_recorded := gl_recorded g |} tx (Ok tt) ->
  (forall g' e, Q g' tx (Err e)) -> W (await L_guard) tx g Q.
Proof. intros H1 H2. wpm_step; [done|]. intros [[]|e] _; [apply H1 | apply H2]. Qed.

Lemma wpm_record f tx g (Q : Ghost -> LicenseTx -> res exn unit -> Prop) :
  license_pre _ g (L_record (f (tx_receipt tx))) ->
  (Q {| gl_last := gl_last g; gl_guard := gl_guard g; gl_recorded := Some (f (tx_receipt tx)) |}
     {| tx_receipt := f (tx_receipt tx); tx_selected := tx_selected tx |} (Ok tt)) ->
  (forall g' e, Q g' {| tx_receipt := f (tx_receipt tx); tx_selected := tx_selected tx |} (Err e)) ->
  W (record_receipt f) tx g Q.
Proof.
  intros H1 H2 H3. unfold record_receipt. wpm_step. wpm_step. wpm_step. wpm_step. wpm_step; [done|].
  intros [[]|e] _; [exact H2 | apply H3].
Qed.

Lemma unchanged_wp tx g (Q : Ghost -> LicenseTx -> res exn unit -> Prop) :
  (forall g', read_back g' (fun s => is_original original s = true) -> Q g' tx (Ok tt)) ->
  (forall g' e, Q g' tx (Err e)) -> W (unchanged original) tx g Q.
Proof.
  intros H1 H2. unfold unchanged. wpm_step. apply wpm_state; [|done]. intros s. unfold sameIdentity.
  wpm_step. apply wpm_requireProof; [|done]. intros Hs. apply wpm_requireProof; [|done]. intros Ho.
  apply H1. exists s. by split_and!.
Qed.

Lemma state_in l tx : in_states l tx = true <-> lr_state (tx_receipt tx) ∈ l.
Proof. unfold in_states. apply bool_decide_eq_true. Qed.

Definition stays (_ : Ghost) (tx : LicenseTx) (_ : res exn unit) : Prop := consistent tx.

Lemma select_wp d tx g : consistent tx -> W (request original d) tx g stays.
Proof.
  intros Hc. unfold request. wpm_step. wpm_step. wpm_step. apply wpm_requireProof; [|done]. intros _.
  wpm_step. apply unchanged_wp; [|done]. intros g' Hread. wpm_step. apply wpm_guard; [|done]. wpm_step. wpm_step.
  assert (Hnew : forall r, consistent {| tx_receipt := receipt_with r (Some (licenseHash (Some d))) None None T_requested; tx_selected := Some d |}).
  { intros r d' [= <-] _. done. }
  apply wpm_record; [exact Hread | apply Hnew | intros; apply Hnew].
Qed.

(** A receipt that keeps the selected hash stays consistent. *)
Lemma consistent_with tx applied restored state :
  consistent tx -> in_states [T_requested; T_forwarded; T_applied; T_restoring] tx = true ->
  consistent {| tx_receipt := receipt_with (tx_receipt tx) None applied restored state; tx_selected := tx_selected tx |}.
Proof. intros Hc Hs d Hd _. exact (Hc d Hd Hs). Qed.

Lemma consistent_restored tx restored :
  consistent {| tx_receipt := receipt_with (tx_receipt tx) None None restored T_restored; tx_selected := tx_selected tx |}.
Proof. intros d _ Hs. apply state_in in Hs. cbn in Hs. set_solver. Qed.

Lemma forwarded_wp tx g : consistent tx -> W (forwarded original) tx g stays.
Proof.
  intros Hc. unfold forwarded. wpm_step. wpm_step. wpm_step. apply wpm_requireProof; [|done]. intros Hs.
  wpm_step. apply unchanged_wp; [|done]. intros g' Hread.
  assert (Hs' : in_states [T_requested; T_forwarded; T_applied; T_restoring] tx = true) by (apply state_in in Hs; apply state_in; set_solver).
  apply wpm_record; [exact Hread | by apply consistent_with | intros; by apply consistent_with].
Qed.

Lemma acknowledge_wp revision tx g : consistent tx -> W (acknowledge original revision) tx g stays.
Proof.
  intros Hc. unfold acknowledge, sameIdentity. wpm_step. apply wpm_state; [|done]. intros s. wpm_step. apply wpm_requireProof; [|done].
  intros _. wpm_step. wpm_step. wpm_step. apply wpm_requireProof; [|done]. intros Hs. bool_prop.
  assert (Hs' : in_states [T_requested; T_forwarded; T_applied; T_restoring] tx = true)
    by (match goal with H : in_states _ _ = true |- _ => apply state_in in H end; apply state_in; set_solver).
  apply wpm_record; [done | by apply consistent_with | intros; by apply consistent_with].
Qed.

Lemma restore_verified_wp tx g : consistent tx -> W (restore_verified original) tx g stays.
Proof.
  intros Hc. unfold restore_verified, sameIdentity. wpm_step. apply wpm_state; [|done]. intros s.
  wpm_step. apply wpm_requireProof; [|done]. intros Hid. wpm_step. apply wpm_requireProof; [|done]. intros Hdoc. bool_prop.
  apply wpm_record; [|apply consistent_restored | intros; apply consistent_restored].
  exists s. by split_and!.
Qed.

Lemma restore_body_wp tx g : consistent tx -> W (restore_body original) tx g stays.
Proof.
  intros Hc. unfold restore_body, sameIdentity. wpm_step. apply wpm_guard; [|done]. wpm_step. apply wpm_state; [|done]. intros s.
  wpm_step. apply wpm_requireProof; [|done]. intros Hid. wpm_step. wpm_step. destruct (in_states [T_restored] tx) eqn:Hr.
  { apply state_in in Hr. wpm_step. apply wpm_requireProof; [|done]. intros Hs. bool_prop.
    assert (Hst : lr_state (tx_receipt tx) = T_restored) by set_solver.
    wpm_step; [|done]. cbn. rewrite Hst. exists s. by split_and!. }
  wpm_step. wpm_step; [|by apply restore_verified_wp].
  wpm_step. apply wpm_requireProof; [|done]. intros Hs. bool_prop. unfold holds_selected in *. bool_prop.
  assert (Hs' : in_states [T_requested; T_forwarded; T_applied; T_restoring] tx = true)
    by (match goal with H : in_states [T_forwarded; _; _] _ = true |- _ => apply state_in in H end; apply state_in; set_solver).
  destruct (tx_selected tx) as [d|] eqn:Hd; [|by match goal with H : is_Some None |- _ => destruct H end].
  pose proof (Hc d Hd Hs') as Hsel.
  wpm_step. apply wpm_record; [done | | intros; by apply consistent_with].
  wpm_step. apply wpm_guard; [|intros; by apply consistent_with]. wpm_step.
  { split_and!; [done | done | exists s; by split_and! |]. eexists _, d. split_and!; [done | done | congruence | done | done]. }
  intros [[]|e] _; [|by apply consistent_with]. apply restore_verified_wp. by apply consistent_with.
Qed.

Lemma license_perform_wp c tx g : consistent tx -> W (license_perform c) tx g stays.
Proof.
  intros Hc. destruct c; cbn [license_perform];
    [by apply unchanged_wp | by apply select_wp | by apply forwarded_wp | by apply acknowledge_wp |].
  unfold restore, atStage. wpm_step. eapply wpm_mono; [|by apply restore_body_wp]. intros g' tx' [u|e]; [done|]. by intros; wpm_step.
Qed.

Lemma consistent_new : consistent (new_LicenseTransaction original).
Proof. done. Qed.

Lemma admissible_license g tr : admissible license_asm license_upd g tr.
Proof. revert g. induction tr as [|[X op x] tr IH]; intros g; cbn; [done | by split]. Qed.

Definition unread : Ghost := {| gl_last := None; gl_guard := false; gl_recorded := None |}.

(** A transaction after some of its calls have returned. *)
Inductive reached : LicenseTx -> Prop :=
| reached_new : reached (new_LicenseTransaction original)
| reached_call tx c tr tx' r : reached tx -> steps (license_perform c tx) tr (Done (tx', r)) -> reached tx'.

Lemma reached_consistent tx : reached tx -> consistent tx.
Proof.
  induction 1 as [|tx c tr tx' r _ IH Hs]; [apply consistent_new|].
  by destruct (wp_steps _ _ _ _ _ _ _ _ (license_perform_wp c tx unread IH) Hs (admissible_license unread tr)) as [_ Ht].
Qed.

End properties.

(** ** A whole transaction *)

(** The Secret with another document, at another revision. *)
Definition installed (document : option string) (revision : string) (s : LicenseSnapshot) : LicenseSnapshot :=
  {| ls_uid := ls_uid s; ls_revision := revision; ls_installationId := ls_installationId s; ls_document := document;
     ls_otherData := ls_otherData s |}.

(** A working API: a restore installs the document at the next revision. *)
Definition license_server (next : string) (X : Type) (op : licenseE X) (w : LicenseSnapshot) : X * LicenseSnapshot :=
  match op in licenseE X return X * LicenseSnapshot with
  | L_state => (Ok w, w)
  | L_guard | L_record _ => (Ok tt, w)
  | L_restore _ document => (Ok tt, installed document next w)
  end.

#[local] Arguments same_identity : simpl never.
#[local] Arguments is_original : simpl never.


Section cycle.
Context `{Sha256} `{Collation} (original : LicenseSnapshot).

Lemma same_identity_installed document revision : same_identity original (installed document revision original) = true.
Proof. unfold same_identity, installed, other_text. cbn. by rewrite !String.eqb_refl. Qed.
Lemma same_identity_refl : same_identity original original = true.
Proof. unfold same_identity. by rewrite !String.eqb_refl. Qed.
Lemma installed_twice d d' r r' : installed d r (installed d' r' original) = installed d r original.
Proof. done. Qed.
Lemma is_original_refl : is_original original original = true.
Proof. unfold is_original. rewrite String.eqb_refl. by rewrite bool_decide_eq_true_2. Qed.
Lemma is_original_installed document revision :
  revision <> ls_revision original -> is_original original (installed document revision original) = false.
Proof. intros Hr. unfold is_original. cbn. apply String.eqb_neq in Hr. by rewrite Hr. Qed.

Definition selecting (document : string) : LM unit := request original document ;; forwarded original.
Definition returning (ack : bool) (revision : string) : LM unit := when ack (acknowledge original revision) ;; restore original.

(** The transaction once its write was forwarded. *)
Definition forwarded_tx (document : string) : LicenseTx :=
  {| tx_receipt := receipt_with (receipt_with (tx_receipt (new_LicenseTransaction original)) (Some (licenseHash (Some document))) None None T_requested)
                     None None None T_forwarded;
     tx_selected := Some document |}.

#[local] Arguments installed : simpl never.

(** [exec] step by step: the states are concrete, the snapshots are compared by the lemmas above. *)
Ltac run_tests Hr :=
  repeat match goal with
  | |- context [in_states ?l ?tx] =>
      let b := eval vm_compute in (in_states l tx) in
      lazymatch b with true => idtac | false => idtac end; change (in_states l tx) with b
  end;
  rewrite ?installed_twice, ?same_identity_installed, ?same_identity_refl, ?is_original_refl, ?String.eqb_refl, ?orb_true_r;
  repeat (rewrite is_original_installed by (exact Hr));
  repeat (rewrite bool_decide_eq_true_2 by done).
Ltac run Hr := repeat (progress (cbn; run_tests Hr)).

Lemma selecting_run document next :
  exec (license_server next) (selecting document (new_LicenseTransaction original)) original
  = ((forwarded_tx document, Ok tt), original).
Proof.
  unfold selecting, request, forwarded, unchanged, sameIdentity, requireProofM, record_receipt.
  run I. done.
Qed.

Lemma restore_verified_run tx next w :
  same_identity original w = true -> ls_document w = ls_document original ->
  exec (license_server next) (restore_verified original tx) w
  = (({| tx_receipt := receipt_with (tx_receipt tx) None None (Some (ls_revision w)) T_restored; tx_selected := tx_selected tx |}, Ok tt), w).
Proof.
  intros H1 H2. unfold restore_verified, sameIdentity, requireProofM, record_receipt. cbn. rewrite H1. cbn.
  rewrite bool_decide_eq_true_2 by done. done.
Qed.

(** Borrowing and returning a license. On a working API a transaction selects its
    document and, whether the write was applied or lost, and whether it was acknowledged or
    its response was lost, restoring succeeds, leaves the original document in place and
    records the revision read back; without the write nothing is written back. *)
Theorem license_cycle document revision next ack :
  revision <> ls_revision original ->
  let selected := exec (license_server next) (selecting document (new_LicenseTransaction original)) original in
  selected.1.2 = Ok tt /\ selected.2 = original /\
  (let back := exec (license_server next) (returning ack revision selected.1.1) (installed (Some document) revision original) in
   back.1.2 = Ok tt /\ back.2 = installed (ls_document original) next original /\
   lr_state (tx_receipt back.1.1) = T_restored /\ lr_restoredRevision (tx_receipt back.1.1) = Some next) /\
  (let back := exec (license_server next) (returning false revision selected.1.1) original in
   back.1.2 = Ok tt /\ back.2 = original /\ lr_state (tx_receipt back.1.1) = T_restored).
Proof.
  intros Hr selected. unfold selected. rewrite selecting_run. cbn [fst snd]. split; [done|]. split; [done|].
  unfold returning, acknowledge, restore, atStage, restore_body, restore_verified, sameIdentity, requireProofM, record_receipt, holds_selected.
  split.
  - destruct ack.
    + run Hr. done.
    + run Hr. done.
  - run I. done.
Qed.
End cycle.

(** ** Concrete cases *)
#[local] Instance example_sha : Sha256 := fun s => ("sha-" ++ s)%string.
#[local] Instance example_collation : Collation := fun a b => if String.eqb a b then 0 else 1.
Definition example_license : LicenseSnapshot :=
  {| ls_uid := "u1"; ls_revision := "7"; ls_installationId := "i1"; ls_document := Some "production"; ls_otherData := [("note", "kept")] |}.


Lemma license_cycle_witness :
  let selected := exec (license_server "9") (selecting example_license "test" (new_LicenseTransaction example_license)) example_license in
  let back := exec (license_server "9") (returning example_license true "8" selected.1.1) (installed (Some "test") "8" example_license) in
  ls_document back.2 = Some "production".
Proof.
  cbn zeta. pose proof (license_cycle example_license "test" "8" "9" true ltac:(discriminate)) as (_ & _ & (_ & Hb & _) & _).
  by rewrite Hb.
Defined.
