(* ===== verification/Poll.v ===== *)
(** * Polling (regression/core/poll.ts)

    [poll] reads until a value is accepted or the deadline has passed. The clock, its timer
    and the waits are operations of the caller's effect; times are in microseconds, the
    resolution of [performance.now], the options in milliseconds. A read is raced against the
    timer: when the timer is first the error is the deadline's, whatever the read does later.

    The turns are bounded: every wait lasts at least what was asked, so
    [timeoutMs / intervalMs + 2] turns reach the deadline ([polled_wp]). *)

From S2P Require Import Prelude Js Number Prog Errors.

Local Open Scope js_scope.
Local Open Scope Z_scope.

Definition deadline_error (stage : option Stage) : exn := Harness (new_HarnessError DEADLINE (Some Failed) stage None).

(** [Math.min(Math.ceil(interval * 1.5), 1000)] *)
Definition next_interval (interval : Z) : Z := Z.min ((3 * interval + 1) / 2) 1000.

Section poll.
Context {E : Type -> Type} {S X T : Type}.
(** [raise] makes an error of the caller's kind of a harness error. *)
Context (raise : exn -> X).
Context (now : M E S X Z) (timer_fired : M E S X bool) (throwIfAborted : M E S X unit) (wait : Z -> M E S X unit).
Context (read : M E S X T) (accept : T -> bool) (stage : option Stage).

(** [Promise.race([read(signal), deadlineReached])] *)
Definition raced : M E S X T :=
  let! value := try_catch read (fun e => let! fired := timer_fired in throw (if fired then raise (deadline_error stage) else e)) in
  let! fired := timer_fired in
  if fired then throw (raise (deadline_error stage)) else mret value.

(** [None] only when the turns run out. *)
Fixpoint poll_loop (turns : nat) (deadline interval : Z) : M E S X (option T) :=
  match turns with
  | O => mret None
  | Datatypes.S turns =>
      let! t := now in
      if t <? deadline then
        throwIfAborted ;;
        let! value := raced in
        let! t := now in
        if (t <? deadline) && accept value then mret (Some value)
        else
          let! t := now in
          let remaining := deadline - t in
          if remaining <=? 0 then throw (raise (deadline_error stage))
          else
            wait (Z.min (1000 * interval) remaining) ;;
            poll_loop turns deadline (next_interval interval)
      else throw (raise (deadline_error stage))
  end.

Definition poll_turns (timeoutMs interval : Z) : nat := Z.to_nat (timeoutMs / Z.min interval 1000) + 2.

Definition poll (timeoutMs : Z) (intervalMs : option Z) : M E S X (option T) :=
  let! t := now in
  let interval := intervalMs ?? 100 in
  poll_loop (poll_turns timeoutMs interval) (t + 1000 * timeoutMs) interval.
End poll.

(** ** [currentReady] *)
Record ReadyCondition : Type := { rc_type : option string; rc_status : option string; rc_observedGeneration : option number }.
Record ReadyObject : Type := {
  ro_uid : option string; ro_generation : option number;
  ro_observedGeneration : option number; ro_conditions : option (list ReadyCondition)
}.

Definition currentReady (value : ReadyObject) (uid : string) (generation : number) : bool :=
  bool_decide (ro_uid value = Some uid) && bool_decide (ro_generation value = Some generation) &&
  match ro_conditions value with
  | Some l => existsb (fun c => bool_decide (rc_type c = Some "Ready"%string) && bool_decide (rc_status c = Some "True"%string) &&
                       bool_decide ((rc_observedGeneration c ??? ro_observedGeneration value) = Some generation)) l
  | None => false
  end.

(** ** Specification

    What a caller's clock promises: it never runs backwards, a wait lasts at least what was
    asked, and none of its operations disturbs what the caller knows ([Known]) or its
    invariant. *)
Section specification.
Context {E : Type -> Type} {G S X T : Type}.
Context {pre : forall X, G -> E X -> Prop} {asm : forall X, G -> E X -> X -> Prop} {upd : forall X, G -> E X -> X -> G}.
Context (raise : exn -> X) (now : M E S X Z) (timer_fired : M E S X bool) (throwIfAborted : M E S X unit) (wait : Z -> M E S X unit).
Notation W := (wpm pre asm upd).

Class PollClock (time : G -> Z) (tick : G -> G -> Prop) : Prop := {
  tick_refl g : tick g g;
  tick_trans g g' g'' : tick g g' -> tick g' g'' -> tick g g'';
  tick_time g g' : tick g g' -> time g <= time g';
  now_spec s g Q : (forall g', tick g g' -> Q g' s (Ok (time g'))) -> W now s g Q;
  timer_spec s g Q : (forall g' b, tick g g' -> Q g' s (Ok b)) -> W timer_fired s g Q;
  abort_spec s g Q : (forall g' r, tick g g' -> Q g' s r) -> W throwIfAborted s g Q;
  wait_spec us s g Q : (forall g' r, tick g g' -> (r = Ok tt -> time g + us <= time g') -> Q g' s r) -> W (wait us) s g Q
}.

Context {time : G -> Z} {tick : G -> G -> Prop} {clock : PollClock time tick}.
Context (read : M E S X T) (accept : T -> bool) (stage : option Stage).
(** [Inv]: what holds before every read; [Known v]: what a read of [v] tells; [Fails e]: what
    a failed read leaves. *)
Context (Inv : S -> G -> Prop) (Known : T -> S -> G -> Prop) (Fails : X -> S -> G -> Prop).
Hypothesis inv_tick : forall s g g', Inv s g -> tick g g' -> Inv s g'.
Hypothesis known_tick : forall v s g g', Known v s g -> tick g g' -> Known v s g'.
Hypothesis fails_tick : forall e s g g', Fails e s g -> tick g g' -> Fails e s g'.
Hypothesis fails_deadline : forall e s g, Fails e s g -> Fails (raise (deadline_error stage)) s g.
Hypothesis inv_fails : forall e s g, Inv s g -> Fails e s g.
Hypothesis known_inv : forall v s g, Known v s g -> Inv s g.
Hypothesis read_spec : forall s g, Inv s g ->
  W read s g (fun g' s' r => time g <= time g' /\ match r with Ok v => Known v s' g' | Err e => Fails e s' g' end).

Definition polled_ok (g' : G) (s' : S) (r : res X (option T)) : Prop :=
  match r with
  | Ok (Some v) => accept v = true /\ Known v s' g'
  | Ok None => False
  | Err e => Fails e s' g'
  end.

Lemma raced_wp s g : Inv s g ->
  W (raced raise timer_fired read stage) s g (fun g' s' r => time g <= time g' /\ match r with Ok v => Known v s' g' | Err e => Fails e s' g' end).
Proof using All.
  intros HI. unfold raced. apply wpm_bind, wpm_try. eapply wpm_mono; [|apply read_spec, HI].
  intros g1 s1 [v|e] [Ht HK]; cbn beta iota.
  - apply wpm_bind, timer_spec. intros g2 fired Hg2. pose proof (tick_time _ _ Hg2).
    destruct fired; [apply wpm_throw; split; [lia|]; eapply inv_fails, (known_inv v); eauto | apply wpm_ret; split; [lia | eauto]].
  - apply wpm_bind, timer_spec. intros g2 fired Hg2. pose proof (tick_time _ _ Hg2). apply wpm_throw. split; [lia|].
    destruct fired; eauto.
Qed.

Lemma next_interval_bounds interval m : 1 <= m <= 1000 -> m <= interval -> m <= next_interval interval.
Proof.
  intros Hm Hi. unfold next_interval. assert (m <= (3 * interval + 1) / 2) by (apply Z.div_le_lower_bound; lia). lia.
Qed.

(** Every turn but the last moves the clock [m] milliseconds on, or to the deadline. *)
Lemma poll_loop_wp turns deadline interval m s g : 1 <= m <= 1000 -> m <= interval -> Inv s g ->
  (1 <= turns)%nat -> deadline <= time g \/ deadline - time g < 1000 * m * (Z.of_nat turns - 1) ->
  W (poll_loop raise now timer_fired throwIfAborted wait read accept stage turns deadline interval) s g polled_ok.
Proof using All.
  intros Hm. revert interval s g. induction turns as [|turns IH]; intros interval s g Hi HI Hpos Hturns; [lia|].
  cbn [poll_loop]. apply wpm_bind, now_spec. intros g1 Hg1. pose proof (tick_time _ _ Hg1). destruct (Z.ltb_spec (time g1) deadline).
  2: { apply wpm_throw. cbn. eauto. }
  apply wpm_bind, abort_spec. intros g2 r Hg2. pose proof (tick_time _ _ Hg2). destruct r as [[]|e]; [|cbn; eauto 8].
  apply wpm_bind. eapply wpm_mono; [|apply raced_wp; eauto]. intros g3 s3 [v|e] [Ht HK]; [|exact HK].
  apply wpm_bind, now_spec. intros g4 Hg4. pose proof (tick_time _ _ Hg4).
  destruct ((time g4 <? deadline) && accept v) eqn:Hacc.
  { apply andb_prop in Hacc as [_ Hacc]. apply wpm_ret. cbn. eauto. }
  apply wpm_bind, now_spec. intros g5 Hg5. pose proof (tick_time _ _ Hg5). cbv zeta.
  destruct (Z.leb_spec (deadline - time g5) 0).
  { apply wpm_throw. cbn. eauto. }
  apply wpm_bind, wait_spec. intros g6 r Hg6 Hwait. pose proof (tick_time _ _ Hg6). destruct r as [[]|e]; [|cbn; eauto 8].
  specialize (Hwait eq_refl). assert (1 <= turns)%nat by nia.
  apply IH; [by apply next_interval_bounds | by eauto 8 | done |].
  destruct (Z.min_spec (1000 * interval) (deadline - time g5)) as [[_ Hmin]|[_ Hmin]]; rewrite Hmin in Hwait.
  - right. nia.
  - left. lia.
Qed.

(** [poll] answers an accepted value of a read it made, or fails; it always ends. *)
Lemma polled_wp timeoutMs intervalMs s g : 0 <= timeoutMs -> 1 <= intervalMs ?? 100 -> Inv s g ->
  W (poll raise now timer_fired throwIfAborted wait read accept stage timeoutMs intervalMs) s g polled_ok.
Proof using All.
  intros Ht Hi HI. unfold poll. apply wpm_bind, now_spec. intros g1 Hg1. set (m := Z.min (intervalMs ?? 100) 1000).
  eapply wpm_mono; [|apply (poll_loop_wp _ _ _ m); [lia | lia | by eauto | unfold poll_turns; lia |]]; [done|]. right. unfold poll_turns. fold m.
  pose proof (Z.mod_pos_bound timeoutMs m ltac:(lia)). pose proof (Z.div_mod timeoutMs m ltac:(lia)).
  pose proof (Z.div_pos timeoutMs m ltac:(lia) ltac:(lia)). nia.
Qed.
End specification.
