(* ===== verification/ModelCleaner.v ===== *)
(** * Removing models (regression/core/model-cleanup.ts)

    The cleaner deletes one ModelActivation with the preconditions it just read, and again
    only after the server refused a request for a conflict that a new read explains. The
    adapter is what the journal's cleanup calls. *)

From S2P Require Import Prelude Js Number Json JsonParse Prog Errors Poll KubernetesCommand Observer Journal.

Local Open Scope string_scope.
Local Open Scope js_scope.
Local Open Scope Z_scope.

Definition model_resource : string := "modelactivations.appliance.magicstick.dev".
Definition model_group : string := "appliance.magicstick.dev".
Definition model_namespace : string := "ai-system".

(** ** The permissions of the credential *)
Definition model_rule (r : Rule) : bool := bool_decide (ru_apiGroups r = Some [model_group]) && bool_decide (ru_resources r = Some ["modelactivations"]).
Definition cleaner_rule (r : Rule) : bool :=
  match ru_verbs r, ru_apiGroups r, ru_resources r with
  | Some verbs, Some groups, Some resources =>
      model_rule r && forallb (includes ["get"; "list"; "delete"]) verbs || self_review groups resources && forallb (String.eqb "create") verbs
  | _, _, _ => false
  end.
Definition model_delete (r : Rule) : bool := model_rule r && match ru_verbs r with Some verbs => existsb (String.eqb "delete") verbs | None => false end.
Definition verifyModelCleanerRules (review : Review) : res exn unit :=
  requireSafe (bool_decide (rv_incomplete review = Some false) &&
               match rv_resourceRules review with Some rules => forallb cleaner_rule rules && existsb model_delete rules | None => false end &&
               forallb get_only (rv_nonResourceRules review)) OBSERVER.

(** ** The operations *)
Record Remaining : Type := { rm_podCount : Z; rm_catalogCount : Z }.

Inductive cleanerE : Type -> Type :=
| C_command (args : list string) (input : option string) : cleanerE (res kube_exn string)
| C_read_private (path : string) : cleanerE (res kube_exn string)
(** [assertHeld], [heartbeat]. *)
| C_held : cleanerE (res kube_exn unit)
| C_observe (value : dict json) : cleanerE (res kube_exn unit)
| C_remaining (name : string) : cleanerE (res kube_exn Remaining)
| C_now : cleanerE Z
| C_timer : cleanerE bool
| C_wait (microseconds : Z) : cleanerE (res kube_exn unit).

Notation CM := (M cleanerE unit kube_exn).

Definition cleaner_command (args : list string) (input : option string) : CM string := await (C_command args input).

(** [isDeepStrictEqual] of two values of JSON. *)
Fixpoint deep_equal (v w : json) : bool :=
  match v, w with
  | JNull, JNull => true
  | JBool a, JBool b => Bool.eqb a b
  | JNum a, JNum b => bool_decide (a = b)
  | JStr a, JStr b => String.eqb a b
  | JArr l, JArr l' =>
      (fix go (l l' : list json) : bool :=
         match l, l' with [], [] => true | a :: l, b :: l' => deep_equal a b && go l l' | _, _ => false end) l l'
  | JObj d, JObj d' =>
      (length d =? length d')%nat &&
      (fix go (d : list (string * json)) : bool :=
         match d with [] => true | (k, a) :: d => match dict_get d' k with Some b => deep_equal a b | None => false end && go d end) d
  | _, _ => false
  end.

Definition find_in (name : string) (items : list KubeObject) : CM (option KubeObject) :=
  let matches := List.filter (fun item => bool_decide (ko_name item = Some name)) items in
  require (length matches <=? 1)%nat OWNERSHIP ;;
  mret (head matches).
(** [/^[a-z0-9][a-z0-9-]{0,62}$/] *)
Definition model_name (s : string) : bool :=
  match s with
  | String c s' => (is_lower c || is_digit c) && (String.length s' <=? 62)%nat && sforall (fun c => is_lower c || is_digit c || Ascii.eqb c "-") s'
  | "" => false
  end.
Definition find (name : string) : CM (option KubeObject) :=
  require (model_name name) OWNERSHIP ;;
  let! items := list_objects cleaner_command model_resource (Some model_namespace) in
  find_in name items.

(** ** Observations *)
Section cleaner.
(** Whether an observer is given. *)
Context (observing : bool).
Definition observe (value : dict json) : CM unit := if observing then await (C_observe value) else mret tt.

Definition judged (o : option KubeObject) (f : KubeObject -> bool) : json := match o with Some o => JBool (f o) | None => JNull end.
Definition deleting (o : option KubeObject) : bool := match o with Some o => truthy (ko_deletionTimestamp o ?? "") | None => false end.
Definition uid_is (uid : option string) (o : KubeObject) : bool := bool_decide (ko_uid o = uid).
Definition generation_is (generation : option number) (o : KubeObject) : bool := bool_decide (ko_generation o = generation).
Definition json_gen (k : string) (n : option number) : dict json := match n with Some n => [(k, JNum n)] | None => [] end.
Definition seen (o : option KubeObject) (uid : option string) (generation : option number) : dict json :=
  [("exists", JBool (bool_decide (is_Some o))); ("uidMatches", judged o (uid_is uid)); ("generationMatches", judged o (generation_is generation))].
Definition observed_generation (o : option KubeObject) : dict json := json_gen "observedGeneration" (base.mbind ko_generation o).

(** The labels and specification of a model of this product. *)
Definition text_of (d : option (dict json)) (k : string) : string :=
  match base.mbind (fun d => dict_get d k) d with Some v => String_of_json v | None => "undefined" end.
Definition product_model (o : KubeObject) : bool :=
  same_text (ko_labels o) "app.kubernetes.io/managed-by" "ai-appliance-dashboard" &&
  includes ["local"; "external"] (text_of (ko_spec o) "type") &&
  match ko_spec o with Some d => same_text d "targetNamespace" "ai" | None => false end.

(** ** remove *)
Definition removable (name uid : string) (generation : option number) (o : KubeObject) : bool :=
  uid_is (Some uid) o && generation_is generation o && bool_decide (ko_name o = Some name) && bool_decide (ko_namespace o = Some model_namespace) &&
  truthy (ko_resourceVersion o ?? "") && product_model o.
Definition same_intent (intent : option json) (o : KubeObject) : bool :=
  match intent with None => true | Some v => match ko_spec o with Some d => deep_equal (JObj d) v | None => false end end.

Definition remove_seen (attempt : Z) (o : option KubeObject) (uid : string) (generation : option number) (intent : option json) (previous : option string) : dict json :=
  ([("operation", JStr "remove"); ("state", JStr "running"); ("method", JStr "DELETE"); ("endpoint", JStr "model-activation");
    ("attempt", JNum (Int attempt)); ("requestAttempted", JBool false)] ++ seen o (Some uid) generation ++
   [("intentMatches", match intent with Some _ => judged o (same_intent intent) | None => JNull end); ("deleting", JBool (deleting o))] ++
   json_gen "expectedGeneration" generation ++ observed_generation o ++
   match previous with
   | Some v => [("resourceVersionChanged", judged o (fun o => negb (bool_decide (ko_resourceVersion o = Some v))))]
   | None => []
   end)%list.
Definition remove_event (state : string) (attempt : Z) (more : dict json) : dict json :=
  ([("operation", JStr "remove"); ("state", JStr state); ("method", JStr "DELETE"); ("endpoint", JStr "model-activation");
    ("attempt", JNum (Int attempt)); ("requestAttempted", JBool true)] ++ more)%list.
Definition not_sent (attempt : Z) (e : kube_exn) : dict json :=
  [("operation", JStr "remove"); ("state", JStr "failed"); ("attempt", JNum (Int attempt)); ("requestAttempted", JBool false);
   ("reason", JStr (reason_name (kube_code e))); ("stage", JStr "cleanup")].

Definition delete_args (name : string) : list string :=
  ["delete"; "--raw"; "/apis/" +:+ model_group +:+ "/v1alpha1/namespaces/" +:+ model_namespace +:+ "/modelactivations/" +:+ name; "-f"; "-"].
Definition delete_options (uid resourceVersion : string) : string :=
  stringify "" "" (JObj [("apiVersion", JStr "v1"); ("kind", JStr "DeleteOptions");
                         ("preconditions", JObj [("uid", JStr uid); ("resourceVersion", JStr resourceVersion)])]).

Definition failure_of (e : kube_exn) : KubernetesCommandDiagnostic := match e with Command d => d | Other _ => unknown_failure None end.
Definition conflict (d : KubernetesCommandDiagnostic) : bool :=
  bool_decide (kc_commandFailure d = F_api) && bool_decide (kc_httpStatus d = Some 409) &&
  bool_decide (kc_kubernetesReason d = Some Conflict) && bool_decide (kc_exitCode d = Some 1).
Definition rejection_reason (e : kube_exn) : ReasonCode :=
  let d := failure_of e in
  if conflict d then CONFLICT
  else if bool_decide (kc_httpStatus d = Some 401) || bool_decide (kc_httpStatus d = Some 403) then AUTH
  else match exn_of e with Harness h => err_causeReason h ?? err_code h | Foreign _ => UNEXPECTED end.
Definition cleanup_error (reason : ReasonCode) : kube_exn :=
  Other (Harness (new_HarnessError CLEANUP (Some Failed) (Some S_cleanup) (Some (reason, Some S_cleanup)))).

(** Sending the request: [Some] of the refused version when another attempt may follow. *)
Definition send_delete (name uid version : string) (attempt : Z) : CM (option string) :=
  observe (remove_event "running" attempt []) ;;
  try_catch (await C_held) (fun e => observe (not_sent attempt e) ;; throw e) ;;
  try_catch (cleaner_command (delete_args name) (Some (delete_options uid version)) ;; observe (remove_event "passed" attempt []) ;; mret None)
    (fun e =>
       let d := failure_of e in
       let retrying := conflict d && (attempt <? 3) in
       observe (remove_event "failed" attempt
         (dict_spread [("retrying", JBool retrying); ("reason", JStr (reason_name (rejection_reason e))); ("stage", JStr "cleanup")] (diagnostic_json d))) ;;
       if retrying then mret (Some version) else throw (cleanup_error (rejection_reason e))).

(** The attempts from the [attempt]-th on, of [left]. *)
Fixpoint remove_from (left_ : nat) (attempt : Z) (name uid : string) (generation : option number) (intent : option json) (previous : option string) : CM unit :=
  match left_ with
  | O => mret tt
  | Datatypes.S left_ =>
      await C_held ;;
      let! current := find name in
      observe (remove_seen attempt current uid generation intent previous) ;;
      match current with
      | None => mret tt
      | Some o =>
          require (removable name uid generation o) OWNERSHIP ;;
          require (same_intent intent o) OWNERSHIP ;;
          if deleting (Some o) then mret tt
          else
            require (match previous with Some v => negb (bool_decide (ko_resourceVersion o = Some v)) | None => true end) CONFLICT ;;
            await C_held ;;
            let! refused := send_delete name uid (ko_resourceVersion o ?? "") attempt in
            match refused with
            | None => mret tt
            | Some version =>
                remove_from left_ (attempt + 1) name uid generation (intent ??? (JObj <$> ko_spec o)) (Some version)
            end
      end
  end.
Definition remove (name uid : string) (generation : option number) : CM unit := remove_from 3 1 name uid generation None None.

(** ** The adapter *)
Definition adapter_timeout (timeoutMs : option number) : res exn Z :=
  match timeoutMs ?? Int 300000 with
  | Int n => if isSafeInteger (Int n) && (0 <? n) && (n <=? 300000) then Ok n else Err (harness CONFIG)
  | _ => Err (harness CONFIG)
  end.
Definition validEntry (prefix : string) (e : JournalEntry) : bool :=
  bool_decide (je_kind e = K_model) && startsWith prefix (je_name e) && truthy (je_uid e ?? "") &&
  match je_generation e with Some (Int n) => isSafeInteger (Int n) && (0 <? n) | _ => false end.

Record Found : Type := { fd_uid : string; fd_generation : option number; fd_deleting : bool }.

Definition lookup_seen (e : JournalEntry) (o : option KubeObject) : dict json :=
  ([("operation", JStr "lookup"); ("state", JStr "running")] ++ seen o (je_uid e) (je_generation e) ++ [("deleting", JBool (deleting o))] ++
   json_gen "expectedGeneration" (je_generation e) ++ observed_generation o)%list.
Definition model_lookup (prefix : string) (e : JournalEntry) : CM (option Found) :=
  await C_held ;;
  require (validEntry prefix e) OWNERSHIP ;;
  let! item := find (je_name e) in
  observe (lookup_seen e item) ;;
  require (match item with Some o => generation_is (je_generation e) o && product_model o | None => true end) OWNERSHIP ;;
  mret (match item with
        | Some o => if truthy (ko_uid o ?? "") then Some {| fd_uid := ko_uid o ?? ""; fd_generation := ko_generation o; fd_deleting := deleting item |} else None
        | None => None
        end).

Definition model_removeIfUid (prefix : string) (e : JournalEntry) (uid : string) : CM unit :=
  require (validEntry prefix e) OWNERSHIP ;;
  require (bool_decide (je_uid e = Some uid)) OWNERSHIP ;;
  remove (je_name e) uid (je_generation e).

Definition verify_failed (timeoutMs : Z) (e : kube_exn) : dict json :=
  [("operation", JStr "verify"); ("state", JStr "failed"); ("exists", JNull); ("uidMatches", JNull); ("generationMatches", JNull);
   ("podCount", JNull); ("catalogCount", JNull); ("reason", JStr (reason_name (kube_code e))); ("stage", JStr "cleanup"); ("timeoutMs", JNum (Int timeoutMs))].
Definition verify_seen (timeoutMs : Z) (e : JournalEntry) (o : option KubeObject) (r : Remaining) : dict json :=
  ([("operation", JStr "verify"); ("state", JStr "running")] ++ seen o (je_uid e) (je_generation e) ++ [("deleting", JBool (deleting o))] ++
   json_gen "expectedGeneration" (je_generation e) ++ observed_generation o ++
   [("podCount", JNum (Int (rm_podCount r))); ("catalogCount", JNum (Int (rm_catalogCount r))); ("timeoutMs", JNum (Int timeoutMs))])%list.

(** [Promise.all] of the two reads, one after the other. *)
Definition verify_read (timeoutMs : Z) (e : JournalEntry) : CM (option KubeObject * Remaining) :=
  await C_held ;;
  let! found := try_catch (let! item := find (je_name e) in let! remaining := await (C_remaining (je_name e)) in mret (item, remaining))
                  (fun err => observe (verify_failed timeoutMs err) ;; throw err) in
  observe (verify_seen timeoutMs e found.1 found.2) ;;
  mret found.
Definition all_gone (v : option KubeObject * Remaining) : bool :=
  bool_decide (v.1 = None) && (rm_podCount v.2 =? 0) && (rm_catalogCount v.2 =? 0).

Definition model_verifyRemoved (prefix : string) (timeoutMs : Z) (intervalMs : option Z) (e : JournalEntry) : CM bool :=
  require (match je_uid e with
           | None => bool_decide (je_kind e = K_model) && startsWith prefix (je_name e) && bool_decide (je_state e = E_removed)
           | Some _ => validEntry prefix e
           end) OWNERSHIP ;;
  let! gone := poll Other (await_ C_now) (await_ C_timer) (mret tt) (fun us => await (C_wait us)) (verify_read timeoutMs e) all_gone (Some S_cleanup)
    timeoutMs (Some (intervalMs ?? 1000)) in
  mret (bool_decide (is_Some gone)).
End cleaner.

Definition cleaner_verifyConfiguration (kubeconfig : string) : CM unit :=
  await (C_read_private kubeconfig) ;;
  let! text := cleaner_command config_view None in
  let! data := parse_json text in
  static_of data ;;
  let! review := review_of cleaner_command model_namespace in
  of_res (match verifyModelCleanerRules review with Ok tt => Ok tt | Err e => Err (Other e) end).
