(* ===== verification/ModelCleanerProps.v ===== *)
(** * Theorems on the observer and the model cleaner

    The reviews accept only credentials that can do what the code needs; a kubectl command
    settles once, with bounded memory; a model is deleted only as it was last read, under the
    lease, and again only for a conflict that a change explains. *)

From S2P Require Import Prelude Js Number Json JsonParse Prog Errors Poll KubernetesCommand Observer Journal ModelCleaner.

Local Open Scope string_scope.
Local Open Scope js_scope.
Local Open Scope Z_scope.

(** ** Permissions *)

(** What a rule of Kubernetes' role-based access control allows. *)
Definition allows (l : list string) (s : string) : Prop := s ∈ l \/ "*" ∈ l.
Definition grants (r : Rule) (group resource verb : string) : Prop :=
  exists verbs groups resources, ru_verbs r = Some verbs /\ ru_apiGroups r = Some groups /\ ru_resources r = Some resources /\
    allows verbs verb /\ allows groups group /\ (allows resources resource \/ exists sub, "*/" +:+ sub ∈ resources).
Definition self_creation (group resource verb : string) : Prop := verb = "create" /\ group ∈ review_groups /\ resource ∈ review_resources.

Lemma allows_listed l l' s : forallb (includes l') l = true -> "*" ∉ l' -> allows l s -> s ∈ l'.
Proof. rewrite forallb_forall. intros Hl Hstar [Hs|Hs]; apply list_elem_of_In, Hl, includes_spec in Hs; [done | by destruct Hstar]. Qed.
Lemma no_star_sub l l' sub : forallb (includes l') l = true -> forallb (fun s => negb (includesStr "*" s)) l' = true -> "*/" +:+ sub ∉ l.
Proof. rewrite !forallb_forall. intros Hl Hf Hs. apply list_elem_of_In, Hl, includes_spec, list_elem_of_In, Hf in Hs. done. Qed.
Lemma not_listed l s : includes l s = false -> s ∉ l.
Proof. intros Hf Hs%includes_spec. congruence. Qed.

Lemma self_review_grants groups resources group resource : self_review groups resources = true -> allows groups group ->
  (allows resources resource \/ exists sub, "*/" +:+ sub ∈ resources) -> group ∈ review_groups /\ resource ∈ review_resources.
Proof.
  intros [Hgs Hrs]%andb_prop Hag Har. split; [eapply allows_listed; [done | by apply not_listed | done]|].
  destruct Har as [Har|[sub Hsub]]; [eapply allows_listed; [done | by apply not_listed | done]|]. by eapply no_star_sub in Hsub.
Qed.

Lemma observer_rule_grants r group resource verb : observer_rule r = true -> grants r group resource verb ->
  (verb ∈ ["get"; "list"; "watch"] \/ self_creation group resource verb) /\ resource <> "secrets" /\ includesStr "/" resource = false.
Proof.
  intros Hr (verbs & groups & resources & Ev & Eg & Er & Hv & Hg & Hs). unfold observer_rule in Hr. rewrite Ev, Eg, Er in Hr.
  apply andb_prop in Hr as [Hverbs Hres%negb_true_iff]. rewrite forallb_forall in Hverbs.
  assert (Hno : forall s, s ∈ resources -> s <> "secrets" /\ includesStr "*" s = false /\ includesStr "/" s = false).
  { intros s Hin. destruct (String.eqb s "secrets" || includesStr "*" s || includesStr "/" s) eqn:Hb; [|bool_prop; split; [by apply String.eqb_neq | done]].
    assert (Ht : existsb (fun resource => String.eqb resource "secrets" || includesStr "*" resource || includesStr "/" resource) resources = true) by (apply existsb_elem; by exists s).
    congruence. }
  assert (Hplain : resource ∈ resources).
  { destruct Hs as [[Hs|Hs]|[sub Hs]]; [done|..]; destruct (Hno _ Hs) as (_ & Hstar & _); discriminate Hstar. }
  split; [|destruct (Hno _ Hplain) as (? & _ & ?); done].
  assert (Hverb : forall v, v ∈ verbs -> includes ["get"; "list"; "watch"] v || String.eqb v "create" && self_review groups resources = true) by (intros v Hin; by apply Hverbs, list_elem_of_In).
  destruct Hv as [Hv|Hv]; apply Hverb, orb_prop in Hv as [Hv|Hv]; [left; by apply includes_spec | right | discriminate Hv | discriminate Hv].
  apply andb_prop in Hv as [->%String.eqb_eq Hself]. split; [done|]. by eapply self_review_grants.
Qed.

Lemma cleaner_rule_grants r group resource verb : cleaner_rule r = true -> grants r group resource verb ->
  group = model_group /\ resource = "modelactivations" /\ verb ∈ ["get"; "list"; "delete"] \/ self_creation group resource verb.
Proof.
  intros Hr (verbs & groups & resources & Ev & Eg & Er & Hv & Hg & Hs). unfold cleaner_rule, model_rule in Hr. rewrite Ev, Eg, Er in Hr.
  apply orb_prop in Hr as [Hr|Hr]; apply andb_prop in Hr as [Hr Hverbs].
  - apply andb_prop in Hr as [Egs Ers]. apply bool_decide_eq_true in Egs, Ers. injection Egs as ->. injection Ers as ->. left. split; [|split].
    + destruct Hg as [Hg|Hg]; apply list_elem_of_singleton in Hg; [done | discriminate Hg].
    + destruct Hs as [[Hs|Hs]|[sub Hs]]; apply list_elem_of_singleton in Hs; [done | discriminate Hs | discriminate Hs].
    + eapply allows_listed; [done | by apply not_listed | done].
  - right. split; [|by eapply self_review_grants]. rewrite forallb_forall in Hverbs.
    destruct Hv as [Hv|Hv]; apply list_elem_of_In, Hverbs, String.eqb_eq in Hv; [done | discriminate Hv].
Qed.

(** What an accepted credential can do. Whatever the rules of a review the observer accepted
    grant, wildcards included, it is a read of something other than Secrets and subresources,
    or the creation of a self review; what those of a review the model cleaner accepted grant
    is to get, list or delete model activations, or a self review, and deleting is granted. *)
Theorem permissions_least review rules : rv_resourceRules review = Some rules ->
  (verifyObserverRules review = Ok tt -> forall r group resource verb, r ∈ rules -> grants r group resource verb ->
     (verb ∈ ["get"; "list"; "watch"] \/ self_creation group resource verb) /\ resource <> "secrets" /\ includesStr "/" resource = false) /\
  (verifyModelCleanerRules review = Ok tt ->
     (forall r group resource verb, r ∈ rules -> grants r group resource verb ->
        group = model_group /\ resource = "modelactivations" /\ verb ∈ ["get"; "list"; "delete"] \/ self_creation group resource verb) /\
     exists r, r ∈ rules /\ grants r model_group "modelactivations" "delete").
Proof.
  intros Er. unfold verifyObserverRules, verifyModelCleanerRules. rewrite Er. split; intros Hok%requireSafe_ok; apply andb_prop in Hok as [[_ Hok]%andb_prop _].
  - rewrite forallb_forall in Hok. intros r group resource verb Hin. by apply observer_rule_grants, Hok, list_elem_of_In.
  - apply andb_prop in Hok as [Hall Hdel]. rewrite forallb_forall in Hall. split.
    + intros r group resource verb Hin. by apply cleaner_rule_grants, Hall, list_elem_of_In.
    + apply existsb_elem in Hdel as (r & Hin & [[Hg Hr]%andb_prop Hv]%andb_prop). apply bool_decide_eq_true in Hg, Hr. destruct (ru_verbs r) as [verbs|] eqn:Ev; [|done].
      apply existsb_elem in Hv as (v & Hv & <-%String.eqb_eq). exists r. split; [done|]. exists verbs, [model_group], ["modelactivations"].
      repeat split; try done; [by left | left; by apply list_elem_of_singleton | left; left; by apply list_elem_of_singleton].
Qed.

Definition model_credential : Review :=
  {| rv_incomplete := Some false; rv_nonResourceRules := [Some ["get"]];
     rv_resourceRules := Some [{| ru_verbs := Some ["get"; "list"; "delete"]; ru_apiGroups := Some [model_group]; ru_resources := Some ["modelactivations"] |};
                               {| ru_verbs := Some ["create"]; ru_apiGroups := Some ["authorization.k8s.io"]; ru_resources := Some ["selfsubjectrulesreviews"] |}] |}.
Lemma permissions_least_witness : verifyModelCleanerRules model_credential = Ok tt /\ exists r, r ∈ rv_resourceRules model_credential ?? [] /\ grants r model_group "modelactivations" "delete".
Proof.
  assert (Hok : verifyModelCleanerRules model_credential = Ok tt) by reflexivity. split; [exact Hok|].
  exact (proj2 (proj2 (permissions_least model_credential _ eq_refl) Hok)).
Defined.

(** ** The subprocess *)
Definition output_of (e : ChildEvent) : string := match e with Stdout chunk => chunk | _ => "" end.
Definition stdout_of (es : list ChildEvent) : string := foldl (fun s e => s +:+ output_of e) "" es.
Definition is_output (e : ChildEvent) : bool := match e with Stdout _ | Stderr _ _ => true | _ => false end.
(** A process that ended well after nothing but output. *)
Definition ended_well (es : list ChildEvent) (text : string) : Prop :=
  exists es1 signal es2, es = (es1 ++ Close (Some (Int 0)) signal :: es2)%list /\ truthy (signal ?? "") = false /\
    forallb is_output es1 = true /\ text = stdout_of es1 /\ zlength text <= stdout_limit.

Definition child_ok (es : list ChildEvent) (c : Child) : Prop :=
  (zlength (ch_stdout c) <= stdout_limit /\ zlength (ch_stderr c) <= stderr_kept) /\
  match ch_result c with
  | None => forallb is_output es = true /\ ch_stdout c = stdout_of es
  | Some (Ok text) => ended_well es text
  | Some (Err _) => True
  end.

Lemma stdout_of_snoc es e : stdout_of (es ++ [e]) = stdout_of es +:+ output_of e.
Proof. unfold stdout_of. by rewrite foldl_snoc. Qed.
Lemma ended_well_snoc es e text : ended_well es text -> ended_well (es ++ [e]) text.
Proof. intros (es1 & sig & es2 & -> & Hs & Ho & Ht & Hl). exists es1, sig, (es2 ++ [e])%list. split; [by rewrite <- app_assoc | done]. Qed.
Lemma finish_settled r c : is_Some (ch_result c) -> finish r c = c.
Proof. unfold finish. intros [r' ->]. done. Qed.
Lemma child_step_settled c e r : ch_result c = Some r -> child_step c e = c \/ child_step c e = kill c.
Proof.
  intros Hr. assert (Hs : is_Some (ch_result c)) by by exists r. destruct e; cbn; try rewrite Hr; auto; try (left; by apply finish_settled). right. by apply finish_settled.
Qed.

Lemma take_str_length n s : (String.length (take_str n s) <= n)%nat.
Proof. revert s. induction n as [|n IH]; intros [|c s]; cbn; try lia. specialize (IH s). lia. Qed.

Lemma finish_ok es e c r : child_ok es c -> (forall text, r = Ok text -> ch_result c = None -> ended_well (es ++ [e]) text) -> child_ok (es ++ [e]) (finish r c).
Proof.
  intros [Hb Hr] Hw. unfold finish. destruct (ch_result c) as [[text|err]|] eqn:Er.
  - split; [done|]. rewrite Er. by apply ended_well_snoc.
  - split; [done|]. by rewrite Er.
  - split; [unfold zlength; cbn; split; vm_compute; discriminate|]. cbn. destruct r as [text|err]; [by apply Hw | done].
Qed.
Lemma kill_ok es c : child_ok es c -> child_ok es (kill c).
Proof. done. Qed.

Lemma child_step_ok es c e : child_ok es c -> child_ok (es ++ [e]) (child_step c e).
Proof.
  intros Hc. destruct (ch_result c) as [r|] eqn:Er.
  - assert (Hk : child_ok (es ++ [e]) c).
    { destruct Hc as [Hb Hr]. split; [done|]. rewrite Er in *. destruct r; [by apply ended_well_snoc | done]. }
    by destruct (child_step_settled c e r Er) as [-> | ->].
  - pose proof Hc as [[Hout Herr] Hr]. rewrite Er in Hr. destruct Hr as [Hf Hs].
    assert (Hsnoc : forallb is_output (es ++ [e]) = is_output e) by (rewrite forallb_app, Hf; cbn; by rewrite andb_true_r).
    assert (Hfail : forall f c', ch_result c' = None -> child_ok (es ++ [e]) (finish (Err (command_error f)) c')).
    { intros f c' Ec. unfold finish. rewrite Ec. split; [unfold zlength; cbn; split; vm_compute; discriminate | done]. }
    destruct e as [chunk|chunk bytes| | |code sig|]; cbn; rewrite ?Er; [| |by apply Hfail|by apply Hfail| |by apply Hfail].
    + destruct (Z.ltb_spec stdout_limit (zlength (ch_stdout c +:+ chunk))); [by apply Hfail|]. split; [done|]. cbn. rewrite Er, Hsnoc, stdout_of_snoc, Hs. done.
    + destruct (Z.ltb_spec stderr_limit (ch_stderrBytes c + bytes)); [by apply Hfail|]. split; [split; [done|]|].
      * cbn [ch_stderr with_stderr]. destruct (zlength (ch_stderr c) <? stderr_kept); [|done]. unfold zlength.
        pose proof (take_str_length (Z.to_nat stderr_kept) (ch_stderr c +:+ chunk)) as Ht. rewrite <- (Z2Nat.id stderr_kept) at 2 by (unfold stderr_kept; lia). lia.
      * cbn. rewrite Er, Hsnoc, stdout_of_snoc, Hs. split; [done|]. cbn. by rewrite str_app_nil_r.
    + apply finish_ok; [done|]. intros text Hok _. destruct (bool_decide (code = Some (Int 0)) && negb (truthy (sig ?? ""))) eqn:Hb; [|done].
      apply andb_prop in Hb as [->%bool_decide_eq_true Hsig%negb_true_iff]. injection Hok as <-. exists es, sig, []. done.
Qed.

(** A kubectl command settles at most once and in bounded memory. Whatever events its
    process delivers, in any order: the text kept never exceeds its limits; a result, once
    there, never changes; and it is a success only after nothing but output within the limits
    and then the process's own end with code 0 and no signal, the result being all its output. *)
Theorem command_settles (es : list ChildEvent) :
  let c := foldl child_step spawned es in
  (zlength (ch_stdout c) <= stdout_limit /\ zlength (ch_stderr c) <= stderr_kept) /\
  (forall r e, ch_result c = Some r -> ch_result (child_step c e) = Some r) /\
  (forall text, ch_result c = Some (Ok text) -> ended_well es text).
Proof.
  intros c. assert (Hc : child_ok es c).
  { subst c. induction es as [|e es IH] using rev_ind; [split; [split; vm_compute; discriminate | done]|]. rewrite foldl_snoc. by apply child_step_ok. }
  destruct Hc as [Hb Hr]. split; [done|]. split; [|by intros text Ht; rewrite Ht in Hr].
  intros r e Hres. by destruct (child_step_settled c e r Hres) as [-> | ->].
Qed.

(** ** Removing a model *)

(** What the last list showed of the model. *)
Inductive Known : Type := Unread | Read (o : option KubeObject).

Record Removal : Type := {
  (** The lease was confirmed by the last operation. *)
  rg_held : bool;
  rg_found : Known;
  (** The specification of the first object found. *)
  rg_intent : option json;
  rg_sent : Z;
  (** The version of the last request, if the server refused it for a conflict. *)
  rg_refused : option string;
  rg_accepted : bool;
  (** What was last read to remain of it, after that list; and the clock is not behind this. *)
  rg_remaining : option Remaining;
  rg_time : Z
}.
Definition unseen : Removal := {| rg_held := false; rg_found := Unread; rg_intent := None; rg_sent := 0; rg_refused := None; rg_accepted := false;
     rg_remaining := None; rg_time := 0 |}.

Definition with_held (b : bool) (g : Removal) : Removal :=
  {| rg_held := b; rg_found := rg_found g; rg_intent := rg_intent g; rg_sent := rg_sent g; rg_refused := rg_refused g; rg_accepted := rg_accepted g;
     rg_remaining := rg_remaining g; rg_time := rg_time g |}.
Definition with_remaining (r : option Remaining) (g : Removal) : Removal :=
  {| rg_held := false; rg_found := rg_found g; rg_intent := rg_intent g; rg_sent := rg_sent g; rg_refused := rg_refused g; rg_accepted := rg_accepted g;
     rg_remaining := r; rg_time := rg_time g |}.
Definition with_time (t : Z) (g : Removal) : Removal :=
  {| rg_held := false; rg_found := rg_found g; rg_intent := rg_intent g; rg_sent := rg_sent g; rg_refused := rg_refused g; rg_accepted := rg_accepted g;
     rg_remaining := rg_remaining g; rg_time := t |}.
Definition with_found (k : Known) (g : Removal) : Removal :=
  {| rg_held := false; rg_found := k;
     rg_intent := match rg_intent g, k with None, Read (Some o) => JObj <$> ko_spec o | i, _ => i end;
     rg_sent := rg_sent g; rg_refused := rg_refused g; rg_accepted := rg_accepted g; rg_remaining := None; rg_time := rg_time g |}.
Definition with_reply (r : res kube_exn string) (g : Removal) : Removal :=
  {| rg_held := false; rg_found := rg_found g; rg_intent := rg_intent g; rg_sent := rg_sent g + 1;
     rg_refused := match r, rg_found g with Err e, Read (Some o) => if conflict (failure_of e) then ko_resourceVersion o else None | _, _ => None end;
     rg_accepted := is_ok r; rg_remaining := None; rg_time := rg_time g |}.

(** The objects of the name in the text of a list. *)
Definition listed (name text : string) : Known :=
  match JSON_parse text with
  | Some v => match items_of v with Ok items => Read (head (List.filter (fun item => bool_decide (ko_name item = Some name)) items)) | Err _ => Unread end
  | None => Unread
  end.

Definition list_args : list string := get_args model_resource (Some model_namespace) None.

Definition removal_upd (name : string) (X : Type) (g : Removal) (op : cleanerE X) : X -> Removal :=
  match op in cleanerE X return X -> Removal with
  | C_command args _ => fun r => if bool_decide (args = delete_args name) then with_reply r g
                                 else match r with Ok text => with_found (listed name text) g | Err _ => with_found Unread g end
  | C_held => fun r => with_held (is_ok r) g
  | C_remaining _ => fun r => match r with Ok n => with_remaining (Some n) g | Err _ => with_remaining None g end
  | C_now => fun t => with_time t g
  | C_wait us => fun r => if is_ok r then with_time (rg_time g + Z.max 0 us) g else with_held false g
  | _ => fun _ => with_held false g
  end.

(** A request that may be sent: the lease was confirmed just before; the last list showed this
    model, not being deleted; the request names its UID and version; and if there was an earlier
    one, it was refused for a conflict, at another version, and the specification is still the
    one first seen. *)
Definition may_delete (name uid : string) (generation : option number) (input : option string) (g : Removal) : Prop :=
  rg_held g = true /\ rg_accepted g = false /\ rg_sent g <= 2 /\
  exists o, rg_found g = Read (Some o) /\ removable name uid generation o = true /\ deleting (Some o) = false /\
    input = Some (delete_options uid (ko_resourceVersion o ?? "")) /\
    (0 < rg_sent g -> same_intent (rg_intent g) o = true /\ exists v, rg_refused g = Some v /\ ko_resourceVersion o <> Some v).

Definition removal_pre (name uid : string) (generation : option number) (X : Type) (g : Removal) (op : cleanerE X) : Prop :=
  match op with
  | C_command args input => args = list_args /\ input = None \/ args = delete_args name /\ may_delete name uid generation input g
  | C_held | C_observe _ => True
  | _ => False
  end.

(** Reading what is there, and waiting. *)
Definition reading_pre (X : Type) (g : Removal) (op : cleanerE X) : Prop :=
  match op with C_command args input => args = list_args /\ input = None | C_read_private _ => False | _ => True end.

(** The observer's own errors are none of kubectl's (the recorder throws none at all), and the
    clock does not run backwards. *)
Definition removal_asm (X : Type) (g : Removal) (op : cleanerE X) : X -> Prop :=
  match op in cleanerE X return X -> Prop with
  | C_observe _ => fun r => match r with Err (Command _) => False | _ => True end
  | C_now => fun t => rg_time g <= t
  | _ => fun _ => True
  end.

Definition removal_done (g : Removal) : Prop :=
  rg_accepted g = true \/ rg_found g = Read None \/ exists o, rg_found g = Read (Some o) /\ deleting (Some o) = true.

(** Steps that both the removal and its verification make. *)
Section steps.
Context (observing : bool) (name : string) (pre : forall X, Removal -> cleanerE X -> Prop).
Hypothesis pre_list : forall g, pre _ g (C_command list_args None).
Hypothesis pre_note : forall g v, pre _ g C_held /\ pre _ g (C_observe v).
Notation W := (wpm pre removal_asm (removal_upd name)).

Lemma list_not_delete : bool_decide (get_args model_resource (Some model_namespace) None = delete_args name) = false.
Proof. apply bool_decide_eq_false. unfold get_args, delete_args. cbn. discriminate. Qed.

Lemma cleaner_require_wp b c g (Q : Removal -> unit -> res kube_exn unit -> Prop) : (b = true -> Q g tt (Ok tt)) -> (forall e, Q g tt (Err e)) -> W (require b c) tt g Q.
Proof. intros H1 H2. unfold require. apply wpm_of_res. destruct b; [by apply H1 | apply H2]. Qed.
Lemma lease_held_wp g (Q : Removal -> unit -> res kube_exn unit -> Prop) : Q (with_held true g) tt (Ok tt) -> (forall e, Q (with_held false g) tt (Err e)) -> W (await C_held) tt g Q.
Proof using pre_list pre_note. intros H1 H2. apply wpm_await; [by apply (pre_note g [])|]. intros [[]|e] _; [done | apply H2]. Qed.
Lemma observe_wp v g (Q : Removal -> unit -> res kube_exn unit -> Prop) :
  (forall b, Q (with_held b g) tt (Ok tt)) -> (forall b e, Q (with_held b g) tt (Err (Other e))) -> W (observe observing v) tt g Q.
Proof using pre_list pre_note.
  intros H1 H2. unfold observe. destruct observing; [|apply wpm_ret; specialize (H1 (rg_held g)); by destruct g].
  apply wpm_await; [apply (pre_note g v)|]. intros [[]|[d|e]] Ha; [apply H1 | done | apply (H2 false)].
Qed.

(** What a failed search leaves: as before, or nothing known. *)
Lemma find_wp g (Q : Removal -> unit -> res kube_exn (option KubeObject) -> Prop) :
  (forall o, Q (with_found (Read o) g) tt (Ok o)) -> (forall e, Q g tt (Err e)) -> (forall k e, Q (with_found k g) tt (Err e)) -> W (find name) tt g Q.
Proof using pre_list pre_note.
  intros H1 H2 H3. unfold find. wpm_step. apply cleaner_require_wp; [intros _ | intros e; apply H2]. wpm_step. unfold list_objects. wpm_step.
  unfold get_object. wpm_step. apply cleaner_require_wp; [intros _ | intros e; apply H2]. wpm_step. wpm_step. unfold cleaner_command. wpm_step; [apply pre_list|].
  intros [text|e] _; [|cbn [removal_upd]; rewrite list_not_delete; destruct e; apply wpm_throw, H3]. cbn [removal_upd]. rewrite list_not_delete. unfold parse_json, listed.
  destruct (JSON_parse text) as [v|]; [|apply wpm_throw, H3]. apply wpm_ret. wpm_step. destruct (items_of v) as [items|e]; [|apply H3].
  unfold find_in. wpm_step. apply cleaner_require_wp; [intros _; apply wpm_ret, H1 | intros e; apply H3].
Qed.
End steps.

Section removal.
Context (observing : bool) (name uid : string) (generation : option number).
Notation W := (wpm (removal_pre name uid generation) removal_asm (removal_upd name)).
Lemma removal_list g : removal_pre name uid generation _ g (C_command list_args None).
Proof. by left. Qed.
Lemma removal_note g v : removal_pre name uid generation _ g C_held /\ removal_pre name uid generation _ g (C_observe v).
Proof. done. Qed.
Ltac removal_op lem := apply lem; [apply removal_list | apply removal_note | ..].

(** Between two attempts: what was sent and refused is what the loop remembers. *)
Definition attempting (attempt : Z) (intent : option json) (previous : option string) (g : Removal) : Prop :=
  rg_accepted g = false /\ rg_sent g = attempt - 1 /\ 1 <= attempt <= 3 /\ rg_intent g = intent /\
  (1 < attempt -> is_Some intent /\ exists v, previous = Some v /\ rg_refused g = Some v).

Definition removed (r : res kube_exn unit) (g : Removal) : Prop := match r with Ok _ => removal_done g | Err _ => True end.

Lemma send_wp attempt o g (Q : Removal -> unit -> res kube_exn (option string) -> Prop) :
  (forall b, may_delete name uid generation (Some (delete_options uid (ko_resourceVersion o ?? ""))) (with_held true (with_held b g))) ->
  (forall g', rg_accepted g' = true -> Q g' tt (Ok None)) ->
  (forall e b, conflict (failure_of e) = true -> attempt < 3 -> Q (with_held b (with_reply (Err e) g)) tt (Ok (Some (ko_resourceVersion o ?? "")))) ->
  (forall g' e, Q g' tt (Err e)) ->
  W (send_delete observing name uid (ko_resourceVersion o ?? "") attempt) tt g Q.
Proof.
  intros Hmay Hok Hagain Herr. unfold send_delete. wpm_step. removal_op observe_wp; [intros b | intros; apply Herr].
  wpm_step. wpm_step. apply wpm_await; [done|]. intros [[]|e] _.
  2: { wpm_step. removal_op observe_wp; [intros ?; apply wpm_throw, Herr | intros; apply Herr]. }
  wpm_step. wpm_step. unfold cleaner_command. wpm_step; [right; split; [done | apply Hmay]|].
  assert (Hd : bool_decide (delete_args name = delete_args name) = true) by by apply bool_decide_eq_true.
  assert (Hhandler : forall e g', (forall b, conflict (failure_of e) = true -> attempt < 3 -> Q (with_held b g') tt (Ok (Some (ko_resourceVersion o ?? "")))) ->
    W (let d := failure_of e in let retrying := conflict d && (attempt <? 3) in
       observe observing (remove_event "failed" attempt
         (dict_spread [("retrying", JBool retrying); ("reason", JStr (reason_name (rejection_reason e))); ("stage", JStr "cleanup")] (diagnostic_json d))) ;;
       if retrying then mret (Some (ko_resourceVersion o ?? "")) else throw (cleanup_error (rejection_reason e))) tt g' Q).
  { intros e g' H. cbv zeta. wpm_step. removal_op observe_wp; [intros b' | intros; apply Herr].
    destruct (conflict (failure_of e) && (attempt <? 3)) eqn:Hr; [|apply wpm_throw, Herr]. bool_prop. apply wpm_ret. by apply H. }
  intros r _. cbn [removal_upd]. rewrite Hd. destruct r as [text|e].
  - wpm_step. removal_op observe_wp; [intros b'; apply wpm_ret; by apply Hok|]. intros g' e. by apply Hhandler.
  - apply Hhandler. intros b' Hc Hlt. apply Hagain; done.
Qed.

Lemma removable_has o : removable name uid generation o = true -> is_Some (ko_spec o) /\ is_Some (ko_resourceVersion o).
Proof.
  unfold removable, product_model. intros Hr. bool_prop. split; [destruct (ko_spec o) | destruct (ko_resourceVersion o)]; done.
Qed.

Lemma remove_from_wp left_ attempt intent previous g : attempting attempt intent previous g -> Z.of_nat left_ + attempt = 4 ->
  W (remove_from observing left_ attempt name uid generation intent previous) tt g (fun g' _ r => removed r g').
Proof.
  revert attempt intent previous g. induction left_ as [|left_ IH]; intros attempt intent previous g (Hacc & Hsent & Hat & Hintent & Hprev) Hl; [lia|].
  cbn [remove_from]. wpm_step. removal_op lease_held_wp; [|done]. wpm_step. removal_op find_wp; [intros o|done|done]. wpm_step. removal_op observe_wp; [intros b|done].
  destruct o as [o|]; [|apply wpm_ret; right; left; done]. wpm_step. apply cleaner_require_wp; [intros Hrem|done]. wpm_step. apply cleaner_require_wp; [intros Hsame|done].
  destruct (deleting (Some o)) eqn:Hdel; [apply wpm_ret; right; right; by exists o|]. wpm_step. apply cleaner_require_wp; [intros Hver|done].
  wpm_step. removal_op lease_held_wp; [|done]. wpm_step. destruct (removable_has o Hrem) as [[d Hd] [w Hw]].
  assert (Hspec : match rg_intent g with None => JObj <$> ko_spec o | i => i end = intent ??? (JObj <$> ko_spec o)) by (rewrite Hintent; by destruct intent).
  apply send_wp; [| |intros e b2 Hc Hlt|done].
  - intros b'. split; [done|]. split; [done|]. split; [cbn; lia|]. exists o. cbn. rewrite Hspec. repeat split; try done.
    + destruct Hprev as [[v Hv] _]; [lia|]. rewrite Hv in Hsame |- *; exact Hsame.
    + destruct Hprev as (_ & v & Hp & Hv); [lia|]. exists v. subst previous. split; [done|]. by bool_prop.
  - intros g' Ha. by left.
  - apply IH; [|lia]. split; [done|]. split; [cbn; lia|]. split; [lia|]. split; [exact Hspec|]. intros _. split; [rewrite Hd; destruct intent; by eexists|].
    exists w. cbn. by rewrite Hc, Hw.
Qed.
End removal.

Lemma removal_start name uid generation observing :
  wpm (removal_pre name uid generation) removal_asm (removal_upd name) (remove observing name uid generation) tt unseen (fun g' _ r => removed r g').
Proof. apply remove_from_wp; [|done]. split; [done|]. split; [done|]. split; [lia|]. split; [done|]. intros Hlt. lia. Qed.

(** C17: a model is deleted only as it was last read. Whatever the server, the lease and the
    observer answer: [remove] sends nothing but lists of the models and at most three deletions
    of this one, each with the lease confirmed just before, with the UID asked for and the
    version of the last list, which showed this product's model, its generation unchanged and
    no deletion under way; another deletion follows only one the server refused for a
    conflict, at a new version with the same specification. When it returns, the deletion was
    accepted, or the last list showed the model gone or being deleted. *)
Theorem model_removal_guarded name uid generation observing tr q :
  steps (remove observing name uid generation tt) tr q -> admissible removal_asm (removal_upd name) unseen tr ->
  respects (removal_pre name uid generation) (removal_upd name) unseen tr /\
  (q = Done (tt, Ok tt) -> removal_done (foldl (ghost (removal_upd name)) unseen tr)).
Proof.
  intros Hs Ha. destruct (wp_steps _ _ _ _ _ _ _ _ (removal_start name uid generation observing) Hs Ha) as [H1 H2]. split; [done|]. by intros ->.
Qed.

(** ** A removal that meets a conflict *)

(** The model's version, and how many deletions came. *)
Record Cluster : Type := { cl_version : string; cl_requests : nat }.
Definition cluster_list (w : Cluster) : string :=
  stringify "" "" (JObj [("items", JArr (if (2 <=? cl_requests w)%nat then [] else [JObj
    [("metadata", JObj [("name", JStr "reg-a-model"); ("namespace", JStr "ai-system"); ("uid", JStr "u1"); ("generation", JNum (Int 1));
                        ("resourceVersion", JStr (cl_version w)); ("labels", JObj [("app.kubernetes.io/managed-by", JStr "ai-appliance-dashboard")])]);
     ("spec", JObj [("type", JStr "local"); ("targetNamespace", JStr "ai")])]]))]).
Definition conflict_failure : KubernetesCommandDiagnostic :=
  {| kc_commandFailure := F_api; kc_httpStatus := Some 409; kc_kubernetesReason := Some Conflict; kc_exitCode := Some 1; kc_processSignal := None |}.
Definition lists (args : list string) : bool := bool_decide (args = list_args).
(** The first deletion meets another writer; the second is accepted, and the model is gone. *)
Definition cluster_handler (X : Type) (op : cleanerE X) (w : Cluster) : X * Cluster :=
  match op in cleanerE X return X * Cluster with
  | C_command args _ =>
      if lists args then (Ok (cluster_list w), w)
      else match cl_requests w with
           | O => (Err (Command conflict_failure), {| cl_version := "2"; cl_requests := 1 |})
           | n => (Ok "{}", {| cl_version := cl_version w; cl_requests := Datatypes.S n |})
           end
  | C_read_private _ => (Ok "", w)
  | C_held => (Ok tt, w)
  | C_observe _ => (Ok tt, w)
  | C_remaining _ => (Ok {| rm_podCount := 0; rm_catalogCount := 0 |}, w)
  | C_now => (0, w)
  | C_timer => (false, w)
  | C_wait _ => (Ok tt, w)
  end.

Definition cluster_start : Cluster := {| cl_version := "1"; cl_requests := 0 |}.
Definition removal_trace : list event := trace cluster_handler (remove true "reg-a-model" "u1" (Some (Int 1)) tt) cluster_start.

Ltac admissible_ := vm_compute; repeat (split; [first [exact I | intros; discriminate]|]); exact I.
Lemma removal_admissible : admissible removal_asm (removal_upd "reg-a-model") unseen removal_trace.
Proof. admissible_. Qed.

Lemma model_removal_guarded_witness :
  respects (removal_pre "reg-a-model" "u1" (Some (Int 1))) (removal_upd "reg-a-model") unseen removal_trace /\
  removal_done (foldl (ghost (removal_upd "reg-a-model")) unseen removal_trace) /\
  rg_sent (foldl (ghost (removal_upd "reg-a-model")) unseen removal_trace) = 2.
Proof.
  destruct (model_removal_guarded "reg-a-model" "u1" (Some (Int 1)) true removal_trace _
              (exec_steps cluster_handler (remove true "reg-a-model" "u1" (Some (Int 1)) tt) cluster_start) removal_admissible) as [H1 H2].
  split; [exact H1|]. split; [apply H2; vm_compute; reflexivity | vm_compute; reflexivity].
Defined.

(** ** Verifying that a model is gone *)
Definition reading_tick (g g' : Removal) : Prop := rg_found g' = rg_found g /\ rg_remaining g' = rg_remaining g /\ rg_time g <= rg_time g'.

#[local] Instance reading_clock name : PollClock (pre := reading_pre) (asm := removal_asm) (upd := removal_upd name)
    (await_ C_now : CM Z) (await_ C_timer) (mret tt) (fun us => await (C_wait us)) rg_time reading_tick.
Proof.
  split.
  - done.
  - intros g g1 g2 (H1 & H2 & H3) (H4 & H5 & H6). repeat split; [congruence | congruence | lia].
  - by intros g g' (_ & _ & ?).
  - intros [] g Q HQ. wpm_step; [done|]. intros t Ht. apply (HQ (with_time t g)). by repeat split.
  - intros [] g Q HQ. wpm_step; [done|]. intros b _. by apply HQ.
  - intros [] g Q HQ. wpm_step. by apply HQ.
  - intros us [] g Q HQ. wpm_step; [done|]. intros [[]|err] _; cbn; (apply HQ; [|]); try done; [repeat split; cbn; lia | intros _; cbn; lia].
Qed.

Section verification.
Context (observing : bool) (prefix : string) (entry : JournalEntry).
Notation name := (je_name entry).
Notation W := (wpm reading_pre removal_asm (removal_upd name)).
Lemma reading_list g : reading_pre _ g (C_command list_args None).
Proof. done. Qed.
Lemma reading_note g v : reading_pre _ g C_held /\ reading_pre _ g (C_observe v).
Proof. done. Qed.
Ltac reading_op lem := apply lem; [apply reading_list | apply reading_note | ..].

Definition shown (v : option KubeObject * Remaining) (g : Removal) : Prop := rg_found g = Read v.1 /\ rg_remaining g = Some v.2.

Lemma verify_read_wp timeoutMs g : W (verify_read observing timeoutMs entry) tt g
  (fun g' _ r => rg_time g <= rg_time g' /\ match r with Ok v => shown v g' | Err _ => True end).
Proof.
  unfold verify_read. wpm_step. reading_op lease_held_wp; [|by intros]. wpm_step. wpm_step.
  assert (Herr : forall err g1, rg_time g <= rg_time g1 -> W (observe observing (verify_failed timeoutMs err) ;; throw err : CM (option KubeObject * Remaining)) tt g1
    (fun g' s r => match r with
       | Ok a => W (observe observing (verify_seen timeoutMs entry a.1 a.2) ;; mret a) s g'
                   (fun g'' _ r => rg_time g <= rg_time g'' /\ match r with Ok v => shown v g'' | Err _ => True end)
       | Err _ => rg_time g <= rg_time g' /\ True end)).
  { intros err g1 Ht. wpm_step. reading_op observe_wp; [intros b; by wpm_step | by intros]. }
  wpm_step. reading_op find_wp; [intros o | intros e; by apply Herr | intros k e; by apply Herr].
  wpm_step. wpm_step; [done|]. intros [n|e] _; [|by apply Herr]. wpm_step. wpm_step. reading_op observe_wp; [intros b; by wpm_step | by intros].
Qed.

Lemma verifyRemoved_wp timeoutMs intervalMs : 0 <= timeoutMs -> 1 <= intervalMs ?? 1000 ->
  W (model_verifyRemoved observing prefix timeoutMs intervalMs entry) tt unseen
    (fun g' _ r => match r with Ok b => b = true /\ rg_found g' = Read None /\ rg_remaining g' = Some {| rm_podCount := 0; rm_catalogCount := 0 |} | Err _ => True end).
Proof.
  intros Ht Hi. unfold model_verifyRemoved. wpm_step. apply cleaner_require_wp; [intros _|done]. wpm_step.
  eapply wpm_mono; [|apply (polled_wp (tick := reading_tick) (time := rg_time) _ _ _ _ _ _ _ _
    (fun _ _ => True) (fun v _ g' => shown v g') (fun _ _ _ => True)); try done].
  - intros g' [] [[v|]|e]; [|done|done]. intros [Hgone [Hf Hn]]. wpm_step. split; [done|]. unfold all_gone in Hgone.
    destruct v as [o [pods catalog]]. cbn in *. bool_prop. by subst.
  - intros v _ g1 g2 [Hf Hn] (H1 & H2 & _). split; congruence.
  - intros [] g1 _. apply verify_read_wp.
Qed.
End verification.

(** C21: a model is called gone only when it was seen to be. Whatever the server, the lease and the
    observer answer: [verifyRemoved] only reads, always ends, never answers that the model is
    still there, and when it answers, the last list showed no object of the name, and after it
    no pod and no catalogue entry remained. *)
Theorem removal_verified observing prefix timeoutMs intervalMs entry tr q :
  0 <= timeoutMs -> 1 <= intervalMs ?? 1000 ->
  steps (model_verifyRemoved observing prefix timeoutMs intervalMs entry tt) tr q -> admissible removal_asm (removal_upd (je_name entry)) unseen tr ->
  respects reading_pre (removal_upd (je_name entry)) unseen tr /\
  forall b, q = Done (tt, Ok b) -> b = true /\
    let g := foldl (ghost (removal_upd (je_name entry))) unseen tr in
    rg_found g = Read None /\ rg_remaining g = Some {| rm_podCount := 0; rm_catalogCount := 0 |}.
Proof.
  intros Ht Hi Hs Ha. destruct (wp_steps _ _ _ _ _ _ _ _ (verifyRemoved_wp observing prefix entry timeoutMs intervalMs Ht Hi) Hs Ha) as [H1 H2].
  split; [done|]. by intros b ->.
Qed.

Definition gone_entry : JournalEntry :=
  {| je_kind := K_model; je_name := "reg-a-model"; je_uid := Some "u1"; je_state := E_owned; je_generation := Some (Int 1); je_cleanupFailure := None |}.
Definition gone_cluster : Cluster := {| cl_version := "2"; cl_requests := 2 |}.
Definition gone_trace : list event := trace cluster_handler (model_verifyRemoved true "reg-a-" 300000 None gone_entry tt) gone_cluster.
Lemma gone_admissible : admissible removal_asm (removal_upd "reg-a-model") unseen gone_trace.
Proof. admissible_. Qed.

Lemma removal_verified_witness : rg_found (foldl (ghost (removal_upd "reg-a-model")) unseen gone_trace) = Read None.
Proof.
  destruct (removal_verified true "reg-a-" 300000 None gone_entry gone_trace _
    ltac:(lia) ltac:(cbn; lia) (exec_steps cluster_handler (model_verifyRemoved true "reg-a-" 300000 None gone_entry tt) gone_cluster) gone_admissible) as [_ H].
  apply (H true). vm_compute. reflexivity.
Defined.
