(* ===== verification/BorrowedModule.v ===== *)
(** * Borrowed modules (regression/core/borrowed-module.ts)

    A run may change one optional module of the appliance and must give it back as it was. The
    object's fields are the state; the receipt, written before and after every request, is
    what a later process resumes from. Objects are JSON as the API answers it. *)

From S2P Require Import Prelude Js Number Json JsonParse Prog Errors DashboardCore Canonical Poll.

Local Open Scope string_scope.
Local Open Scope js_scope.
Local Open Scope Z_scope.

(** ** Objects *)
Definition KubeJson : Type := dict json.
Definition metadata (o : KubeJson) : dict json := (base.mbind json_obj (dict_get o "metadata")) ?? [].
Definition uid_of (o : KubeJson) : option string := text_field (metadata o) "uid".
Definition generation_of (o : KubeJson) : option number := base.mbind json_num (dict_get (metadata o) "generation").
Definition spec_of (o : KubeJson) : option (dict json) := base.mbind json_obj (dict_get o "spec").
Definition spec_get (o : KubeJson) (k : string) : option json := base.mbind (fun d => dict_get d k) (spec_of o).
Definition parameters_of (o : KubeJson) : dict json := (base.mbind json_obj (spec_get o "parameters")) ?? [].
(** [Number(generation) + 1] *)
Definition next_generation (o : KubeJson) : option number := Some (match generation_of o with Some n => num_add n (Int 1) | None => NaN end).

Inductive ReceiptState : Type := Requested | Ambiguous | Applied | Unchanged | Restored.
#[export] Instance ReceiptState_eq_dec : EqDecision ReceiptState.
Proof. solve_decision. Defined.
Definition receipt_states : list ReceiptState := [Requested; Ambiguous; Applied; Unchanged; Restored].
Definition receipt_name (s : ReceiptState) : string :=
  match s with Requested => "requested" | Ambiguous => "ambiguous" | Applied => "applied" | Unchanged => "unchanged" | Restored => "restored" end.

Record Receipt : Type := {
  rc_original : KubeJson;
  rc_applied : option KubeJson;
  rc_restored : option KubeJson;
  rc_state : ReceiptState
}.

Record BorrowedModule : Type := {
  bm_original : KubeJson;
  bm_applied : option KubeJson;
  bm_restored : option KubeJson;
  bm_unresolved : bool;
  (** The variable of a [change] under way. *)
  bm_acknowledged : bool
}.
Definition with_applied (a : option KubeJson) (b : BorrowedModule) : BorrowedModule :=
  {| bm_original := bm_original b; bm_applied := a; bm_restored := bm_restored b; bm_unresolved := bm_unresolved b; bm_acknowledged := bm_acknowledged b |}.
Definition with_restored (r : option KubeJson) (b : BorrowedModule) : BorrowedModule :=
  {| bm_original := bm_original b; bm_applied := bm_applied b; bm_restored := r; bm_unresolved := bm_unresolved b; bm_acknowledged := bm_acknowledged b |}.
Definition with_unresolved (u : bool) (b : BorrowedModule) : BorrowedModule :=
  {| bm_original := bm_original b; bm_applied := bm_applied b; bm_restored := bm_restored b; bm_unresolved := u; bm_acknowledged := bm_acknowledged b |}.
Definition with_acknowledged (a : bool) (b : BorrowedModule) : BorrowedModule :=
  {| bm_original := bm_original b; bm_applied := bm_applied b; bm_restored := bm_restored b; bm_unresolved := bm_unresolved b; bm_acknowledged := a |}.

(** MutationNotSubmitted, AdministrationRejected with its status, or any other error. *)
Inductive module_exn : Type :=
| NotSubmitted (cause : ReasonCode)
| Rejected (status : number)
| Thrown (e : exn).
Definition harness_exn (c : ReasonCode) : module_exn := Thrown (harness c).

Inductive moduleE : Type -> Type :=
| B_guard : moduleE (res module_exn unit)
| B_read : moduleE (res module_exn KubeJson)
| B_set (enabled : json) (parameters : dict json) : moduleE (res module_exn unit)
| B_write (r : Receipt) : moduleE (res module_exn unit)
| B_now : moduleE Z
| B_timer : moduleE bool
| B_wait (microseconds : Z) : moduleE (res module_exn unit).

Notation BM := (M moduleE BorrowedModule module_exn).
Definition require_module (b : bool) (c : ReasonCode) : BM unit := of_res (if b then Ok tt else Err (harness_exn c)).

(** ** The constructor and [resume] *)
Definition valid_original (o : KubeJson) : bool :=
  truthy (uid_of o ?? "") && match generation_of o with Some n => json_truthy (JNum n) | None => false end &&
  match spec_get o "enabled" with Some (JBool _) => true | _ => false end &&
  match spec_get o "parameters" with None | Some (JObj _) => true | _ => false end.
Definition new_BorrowedModule (original : KubeJson) : res exn BorrowedModule :=
  res_bind (requireSafe (valid_original original) PREREQUISITE) (fun _ =>
  Ok {| bm_original := original; bm_applied := None; bm_restored := None; bm_unresolved := false; bm_acknowledged := false |}).

Section borrowed.
Context `{Collation}.

(** [canonical(a.spec) === canonical(b.spec)] *)
Definition same_spec (a b : option (dict json)) : bool :=
  match a, b with
  | Some a, Some b => String.eqb (canonical (JObj a)) (canonical (JObj b))
  | None, None => true
  | _, _ => false
  end.
(** An object of the original's identity, at a generation not before it. *)
Definition later_than (original o : KubeJson) : bool :=
  bool_decide (uid_of o = uid_of original) &&
  match generation_of o, generation_of original with Some n, Some m => isSafeInteger n && num_leb m n | _, _ => false end.

Definition receipt_json (r : Receipt) : json :=
  JObj ([("version", JNum (Int 1)); ("original", JObj (rc_original r))] ++
        match rc_applied r with Some a => [("applied", JObj a)] | None => [] end ++
        match rc_restored r with Some a => [("restored", JObj a)] | None => [] end ++
        [("state", JStr (receipt_name (rc_state r)))])%list.

(** A member that is falsy is as if absent. *)
Definition object_at (d : dict json) (k : string) : option KubeJson :=
  match dict_get d k with Some v => if json_truthy v then Some (json_obj v ?? []) else None | None => None end.
Definition resume_applied (original : KubeJson) (a : option KubeJson) : bool :=
  match a with Some a => later_than original a && bool_decide (is_Some (spec_of a)) | None => true end.
Definition resume_restored (original : KubeJson) (r : option KubeJson) : bool :=
  match r with Some r => later_than original r && same_spec (spec_of r) (spec_of original) | None => true end.
Definition resume_value (value : json) : res exn BorrowedModule :=
  let d := json_obj value ?? [] in
  match named receipt_name receipt_states (dict_get d "state"), bool_decide (base.mbind json_num (dict_get d "version") = Some (Int 1)) with
  | Some state, true =>
      let original := object_at d "original" ?? [] in
      res_bind (new_BorrowedModule original) (fun b =>
      res_bind (requireSafe (resume_applied original (object_at d "applied")) OWNERSHIP) (fun _ =>
      res_bind (requireSafe (resume_restored original (object_at d "restored")) OWNERSHIP) (fun _ =>
      Ok {| bm_original := original; bm_applied := object_at d "applied"; bm_restored := object_at d "restored";
            bm_unresolved := bool_decide (state = Requested) || bool_decide (state = Ambiguous); bm_acknowledged := false |})))
  | _, _ => Err (harness OWNERSHIP)
  end.

(** ** What is expected *)
Definition expected_object (b : BorrowedModule) : KubeJson := (bm_applied b ??? bm_restored b) ?? bm_original b.
Definition is_expected (o expected : KubeJson) : bool :=
  bool_decide (uid_of o = uid_of expected) && bool_decide (generation_of o = generation_of expected) && same_spec (spec_of o) (spec_of expected).
Definition current : BM KubeJson :=
  await B_guard ;;
  let! o := await B_read in
  let! b := get in
  require_module (is_expected o (expected_object b)) CONFLICT ;;
  mret o.

Definition receipt (b : BorrowedModule) (s : ReceiptState) : Receipt :=
  {| rc_original := bm_original b; rc_applied := bm_applied b; rc_restored := bm_restored b; rc_state := s |}.
Definition write_receipt (s : ReceiptState) : BM unit := let! b := get in await (B_write (receipt b s)).
Definition settled_state (b : BorrowedModule) : ReceiptState := match bm_applied b with Some _ => Applied | None => Unchanged end.
Definition write_settled : BM unit := let! b := get in write_receipt (settled_state b).

Definition reconcileUnchanged : BM unit :=
  let! _ := current in
  let! b := get in
  if bm_unresolved b then
    modify (with_unresolved false) ;;
    await (B_write {| rc_original := bm_original b; rc_applied := bm_applied b; rc_restored := None; rc_state := settled_state b |})
  else mret tt.

(** ** change *)
Definition requested_spec (before : KubeJson) (enabled : bool) (parameters : dict json) : dict json :=
  dict_spread (spec_of before ?? [])
    ([("enabled", JBool enabled)] ++
     if bool_decide (is_Some (spec_get before "parameters")) || negb (bool_decide (parameters = [])) then [("parameters", JObj parameters)] else [])%list.
Definition merged_spec (before : KubeJson) (enabled : bool) (parameters : dict json) : dict json :=
  dict_set (requested_spec before enabled parameters) "parameters" (JObj (dict_spread (parameters_of before) parameters)).

Definition acknowledge (before : KubeJson) (enabled : bool) (parameters : dict json) : BM unit :=
  await B_guard ;;
  let! o := await B_read in
  require_module (bool_decide (uid_of o = uid_of before)) CONFLICT ;;
  (if negb (same_spec (spec_of o) (spec_of before)) then
     require_module (bool_decide (generation_of o = next_generation before) &&
       (same_spec (Some (requested_spec before enabled parameters)) (spec_of o) || same_spec (Some (merged_spec before enabled parameters)) (spec_of o))) CONFLICT ;;
     modify (with_applied (Some o))
   else require_module (bool_decide (generation_of o = generation_of before)) CONFLICT) ;;
  write_settled ;;
  modify (with_unresolved false) ;;
  modify (with_acknowledged true).

(** An error that proves that nothing was written. *)
Definition proves_no_write (e : module_exn) : bool :=
  match e with
  | NotSubmitted _ => true
  | Rejected status => existsb (fun s => bool_decide (status = Int s)) [400; 403; 409; 422]
  | Thrown _ => false
  end.

Definition change (enabled : bool) (parameters : dict json) (action : option (BM unit -> BM unit)) : BM unit :=
  let! before := current in
  modify (with_unresolved true) ;;
  write_receipt Requested ;;
  modify (with_acknowledged false) ;;
  let ack := acknowledge before enabled parameters in
  try_finally
    (try_catch
       (match action with Some action => action ack | None => await (B_set (JBool enabled) parameters) end ;;
        let! b := get in
        if bm_acknowledged b then mret tt else ack)
       (fun e =>
          when (proves_no_write e)
            (let! _ := current in
             modify (with_unresolved false) ;;
             modify (with_acknowledged true) ;;
             write_settled) ;;
          throw e))
    (let! b := get in if bm_acknowledged b then mret tt else write_receipt Ambiguous).

(** ** restore *)
Definition write_restored : BM unit :=
  let! b := get in
  await (B_write {| rc_original := bm_original b; rc_applied := None; rc_restored := bm_restored b; rc_state := Restored |}).
Definition conclude (o : KubeJson) : BM unit :=
  modify (with_applied None) ;; modify (with_restored (Some o)) ;; write_restored.

(** [original.spec!.enabled as boolean] *)
Definition original_enabled (b : BorrowedModule) : json := spec_get (bm_original b) "enabled" ?? JNull.
Definition given_back (current original : KubeJson) (o : KubeJson) : bool :=
  bool_decide (uid_of o = uid_of current) && bool_decide (generation_of o = next_generation current) && same_spec (spec_of o) (spec_of original).

Definition restore : BM unit :=
  let! b := get in
  require_module (negb (bm_unresolved b)) CLEANUP ;;
  match bm_applied b with
  | None => let! _ := current in write_restored
  | Some _ =>
      let! o := current in
      if same_spec (spec_of o) (spec_of (bm_original b)) then conclude o
      else
        await (B_set (original_enabled b) (parameters_of (bm_original b))) ;;
        let! r := poll Thrown (await_ B_now) (await_ B_timer) (mret tt) (fun us => await (B_wait us))
                    (await B_guard ;; await B_read) (given_back o (bm_original b)) (Some S_cleanup) 30000 (Some 500) in
        match r with
        | Some r =>
            require_module (bool_decide (uid_of r = uid_of (bm_original b)) && same_spec (spec_of r) (spec_of (bm_original b))) CLEANUP ;;
            conclude r
        | None => throw (harness_exn CLEANUP)
        end
  end.
End borrowed.
