(* ===== verification/BorrowedModuleProps.v ===== *)
(** * Theorems on borrowed modules

    The module is changed only from the state the receipts name ([module_guarded]), a restore
    that succeeds has read the original specification back ([module_restored]), and a receipt
    resumes as what it recorded ([receipt_resumes]). *)

From S2P Require Import Prelude Js Number Json JsonParse Prog Errors DashboardCore Canonical Poll BorrowedModule.

Local Open Scope string_scope.
Local Open Scope js_scope.
Local Open Scope Z_scope.

(** ** What is known *)
Record ModuleGhost : Type := {
  (** The guard was the last operation. *)
  mg_guarded : bool;
  (** The object last read, if nothing was requested since. *)
  mg_seen : option KubeJson;
  (** The receipts the file may hold: a failed write leaves the old or the new one. *)
  mg_files : list Receipt;
  mg_time : Z
}.
Definition with_guard (b : bool) (g : ModuleGhost) : ModuleGhost := {| mg_guarded := b; mg_seen := mg_seen g; mg_files := mg_files g; mg_time := mg_time g |}.
Definition with_seen (o : option KubeJson) (g : ModuleGhost) : ModuleGhost := {| mg_guarded := false; mg_seen := o; mg_files := mg_files g; mg_time := mg_time g |}.
Definition with_files (l : list Receipt) (g : ModuleGhost) : ModuleGhost := {| mg_guarded := false; mg_seen := mg_seen g; mg_files := l; mg_time := mg_time g |}.
Definition with_clock (t : Z) (g : ModuleGhost) : ModuleGhost := {| mg_guarded := false; mg_seen := mg_seen g; mg_files := mg_files g; mg_time := t |}.

Definition module_upd X (g : ModuleGhost) (op : moduleE X) : X -> ModuleGhost :=
  match op in moduleE X return X -> ModuleGhost with
  | B_guard => fun r => with_guard (is_ok r) g
  | B_read => fun r => match r with Ok o => with_seen (Some o) g | Err _ => with_guard false g end
  | B_set _ _ => fun _ => with_seen None g
  | B_write r => fun a => with_files (if is_ok a then [r] else r :: mg_files g) g
  | B_now => fun t => with_clock t g
  | B_timer => fun _ => with_guard false g
  | B_wait us => fun r => if is_ok r then with_clock (mg_time g + Z.max 0 us) g else with_guard false g
  end.

(** Only a request can be rejected or not submitted; the clock does not run backwards. *)
Definition plain_error {A} (r : res module_exn A) : Prop := match r with Err (NotSubmitted _) | Err (Rejected _) => False | _ => True end.
Definition module_asm X (g : ModuleGhost) (op : moduleE X) : X -> Prop :=
  match op in moduleE X return X -> Prop with
  | B_guard => plain_error
  | B_read => plain_error
  | B_write _ => plain_error
  | B_wait _ => plain_error
  | B_now => fun t => mg_time g <= t
  | B_set _ _ | B_timer => fun _ => True
  end.

Section specification.
Context `{Collation}.

Definition receipt_expected (r : Receipt) : KubeJson := (rc_applied r ??? rc_restored r) ?? rc_original r.

(** The module is read under the guard; it is changed only when the last read showed what every
    receipt the file may hold expects, to give back the original's settings or announced by a
    receipt. *)
Definition module_pre (original : KubeJson) X (g : ModuleGhost) (op : moduleE X) : Prop :=
  match op with
  | B_read => mg_guarded g = true
  | B_set enabled parameters =>
      mg_files g <> [] /\
      (exists o, mg_seen g = Some o /\ Forall (fun r => is_expected o (receipt_expected r) = true) (mg_files g)) /\
      (Forall (fun r => rc_state r = Requested) (mg_files g) \/
       spec_get original "enabled" = Some enabled /\ parameters = parameters_of original)
  | B_write r => rc_original r = original
  | _ => True
  end.

(** Objects of the original's identity. *)
Definition well_formed (b : BorrowedModule) : Prop :=
  is_Some (spec_get (bm_original b) "enabled") /\
  (forall a, bm_applied b = Some a -> uid_of a = uid_of (bm_original b)) /\
  (forall r, bm_restored b = Some r -> uid_of r = uid_of (bm_original b) /\ same_spec (spec_of r) (spec_of (bm_original b)) = true).
(** What was applied is in the file, once it is settled. *)
Definition filed (b : BorrowedModule) (g : ModuleGhost) : Prop :=
  forall a, bm_applied b = Some a -> mg_files g <> [] /\ (bm_unresolved b = false -> Forall (fun r => rc_applied r = Some a) (mg_files g)).
Definition sound (original : KubeJson) (b : BorrowedModule) (g : ModuleGhost) : Prop := bm_original b = original /\ well_formed b /\ filed b g.

Lemma same_spec_refl a : same_spec a a = true.
Proof. destruct a; [apply String.eqb_refl | done]. Qed.
Lemma same_spec_sym a b : same_spec a b = same_spec b a.
Proof. destruct a, b; try done. apply String.eqb_sym. Qed.
Lemma bm_same_spec_trans a b c : same_spec a b = true -> same_spec b c = true -> same_spec a c = true.
Proof. destruct a, b, c; try done. cbn. intros ->%String.eqb_eq ->%String.eqb_eq. apply String.eqb_refl. Qed.
Lemma is_expected_refl o : is_expected o o = true.
Proof. unfold is_expected. rewrite !bool_decide_eq_true_2 by done. apply same_spec_refl. Qed.
Lemma is_expected_uid o e : is_expected o e = true -> uid_of o = uid_of e.
Proof. unfold is_expected. intros Hb. by bool_prop. Qed.
Lemma is_expected_spec o e : is_expected o e = true -> same_spec (spec_of o) (spec_of e) = true.
Proof. unfold is_expected. intros Hb. by bool_prop. Qed.
Lemma expected_uid b : well_formed b -> uid_of (expected_object b) = uid_of (bm_original b).
Proof. intros (_ & Ha & Hr). unfold expected_object. destruct (bm_applied b) as [a|]; [by apply Ha|]. destruct (bm_restored b) as [r|]; [by apply Hr | done]. Qed.

Context (original : KubeJson).
Notation W := (wpm (module_pre original) module_asm module_upd).

Lemma bm_require_wp b c s g (Q : ModuleGhost -> BorrowedModule -> res module_exn unit -> Prop) :
  (b = true -> Q g s (Ok tt)) -> Q g s (Err (Thrown (harness c))) -> W (require_module b c) s g Q.
Proof. intros H1 H2. unfold require_module. apply wpm_of_res. destruct b; [by apply H1 | apply H2]. Qed.

(** Reading under the guard: nothing but what was last read becomes known. *)
Definition read_as (o : KubeJson) (g : ModuleGhost) : ModuleGhost := with_seen (Some o) g.
Lemma guarded_read_wp s g (Q : ModuleGhost -> BorrowedModule -> res module_exn KubeJson -> Prop) :
  (forall o, Q (read_as o g) s (Ok o)) -> (forall b e, Q (with_guard b g) s (Err (Thrown e))) -> W (await B_guard ;; await B_read) s g Q.
Proof.
  intros H1 H2. wpm_step. wpm_step; [done|]. intros [[]|[c|c|e]] Ha; try done; [|apply (H2 false)]. wpm_step; [done|].
  intros [o|[c|c|e]] Hb; try done; [apply H1 | apply (H2 false)].
Qed.
Lemma bm_current_wp s g (Q : ModuleGhost -> BorrowedModule -> res module_exn KubeJson -> Prop) :
  (forall o, is_expected o (expected_object s) = true -> Q (read_as o g) s (Ok o)) ->
  (forall g' e, mg_files g' = mg_files g -> Q g' s (Err (Thrown e))) -> W current s g Q.
Proof.
  intros H1 H2. unfold current. wpm_step. wpm_step; [done|]. intros [[]|[c|c|e]] Ha; try done; [|by apply H2]. wpm_step. wpm_step; [done|].
  intros [o|[c|c|e]] Hb; try done; [|by apply H2]. wpm_step. wpm_step. wpm_step. apply bm_require_wp; [|by apply H2]. intros He. wpm_step. by apply H1.
Qed.
Lemma bm_write_wp r s g (Q : ModuleGhost -> BorrowedModule -> res module_exn unit -> Prop) : rc_original r = original ->
  Q (with_files [r] g) s (Ok tt) -> (forall e, Q (with_files (r :: mg_files g) g) s (Err (Thrown e))) -> W (await (B_write r)) s g Q.
Proof. intros Hr H1 H2. wpm_step; [done|]. by intros [[]|[c|c|e]] Ha. Qed.

(** ** The calls *)
Lemma sound_files s g g' : sound original s g -> mg_files g' = mg_files g -> sound original s g'.
Proof. intros (Ho & Hw & Hf) E. split; [done|]. split; [done|]. unfold filed. by rewrite E. Qed.
Lemma sound_unresolved s g : sound original s g -> sound original (with_unresolved true s) g.
Proof. intros (Ho & Hw & Hf). split; [done|]. split; [done|]. intros a Ha. by split; [apply (Hf a)|]. Qed.
Lemma sound_acknowledged b s g : sound original s g -> sound original (with_acknowledged b s) g.
Proof. done. Qed.
(** Writing what is held, and failing to: the file agrees, or is not needed to. *)
Lemma sound_written st s g : bm_original s = original /\ well_formed s -> sound original s (with_files [receipt s st] g).
Proof. intros (Ho & Hw). split; [done|]. split; [done|]. intros a Ha. split; [done|]. intros _. apply List.Forall_cons; [done | apply List.Forall_nil]. Qed.
Lemma sound_attempted st s g : sound original s g -> sound original s (with_files (receipt s st :: mg_files g) g).
Proof.
  intros (Ho & Hw & Hf). split; [done|]. split; [done|]. intros a Ha. split; [done|]. intros Hu. apply List.Forall_cons; [done | by apply (Hf a)].
Qed.
Lemma receipt_original st s g : sound original s g -> rc_original (receipt s st) = original.
Proof. by intros (Ho & _). Qed.

Lemma write_receipt_wp st s g (Q : ModuleGhost -> BorrowedModule -> res module_exn unit -> Prop) : sound original s g ->
  Q (with_files [receipt s st] g) s (Ok tt) -> (forall e, Q (with_files (receipt s st :: mg_files g) g) s (Err (Thrown e))) -> W (write_receipt st) s g Q.
Proof. intros Hs H1 H2. unfold write_receipt. wpm_step. wpm_step. apply bm_write_wp; [by eapply receipt_original | done | done]. Qed.
Lemma write_settled_wp s g (Q : ModuleGhost -> BorrowedModule -> res module_exn unit -> Prop) : sound original s g ->
  Q (with_files [receipt s (settled_state s)] g) s (Ok tt) -> (forall e, Q (with_files (receipt s (settled_state s) :: mg_files g) g) s (Err (Thrown e))) ->
  W write_settled s g Q.
Proof. intros Hs H1 H2. unfold write_settled. wpm_step. wpm_step. by apply write_receipt_wp. Qed.

(** What an acknowledged change leaves. *)
Definition acknowledged (s : BorrowedModule) (g : ModuleGhost) : Prop :=
  sound original s g /\ bm_unresolved s = false /\ bm_acknowledged s = true /\ mg_files g = [receipt s (settled_state s)] /\
  exists o, mg_seen g = Some o /\ is_expected o (expected_object s) = true.

Lemma bm_acknowledge_wp before enabled parameters s g (Q : ModuleGhost -> BorrowedModule -> res module_exn unit -> Prop) :
  sound original s g -> bm_unresolved s = true -> mg_files g <> [] -> is_expected before (expected_object s) = true ->
  (forall g' s', acknowledged s' g' -> Q g' s' (Ok tt)) ->
  (forall g' s' e, sound original s' g' -> bm_unresolved s' = true -> bm_acknowledged s' = bm_acknowledged s -> Q g' s' (Err (Thrown e))) ->
  W (acknowledge before enabled parameters) s g Q.
Proof.
  intros Hs Hu Hne Hbefore Hok Herr. unfold acknowledge. wpm_step. wpm_step; [done|]. intros [[]|[c|c|e]] Ha; try done; [|by apply Herr].
  wpm_step. wpm_step; [done|]. intros [o|[c|c|e]] Hb; try done; [|by apply Herr]. wpm_step. apply bm_require_wp; [|by apply Herr]. intros Huid. bool_prop. wpm_step.
  assert (Hafter : forall s', sound original s' g -> bm_unresolved s' = true -> bm_acknowledged s' = bm_acknowledged s -> is_expected o (expected_object s') = true ->
    W (write_settled ;; modify (with_unresolved false) ;; modify (with_acknowledged true)) s' (read_as o (with_guard true g)) Q).
  { intros s' Hs' Hu' Hack He. wpm_step. apply write_settled_wp; [done| |].
    - wpm_step. wpm_step. wpm_step. apply Hok. split; [|split; [done|]; split; [done|]; split; [done | by exists o]].
      destruct Hs' as (Ho & Hw & _). by apply (sound_written _ (with_acknowledged true (with_unresolved false s'))).
    - intros e. apply Herr; [by apply sound_attempted | done | done]. }
  destruct (same_spec (spec_of o) (spec_of before)) eqn:Hsame; cbn [negb].
  - apply bm_require_wp; [|by apply Herr]. intros Hgen. bool_prop. apply Hafter; [done | done | done|].
    unfold is_expected in *. bool_prop. rewrite !bool_decide_eq_true_2 by congruence. eapply bm_same_spec_trans; [exact Hsame | done].
  - wpm_step. apply bm_require_wp; [|by apply Herr]. intros Hgen. wpm_step. apply (Hafter (with_applied (Some o) s)); [|done | done | apply is_expected_refl].
    destruct Hs as (Ho & (He & Ha' & Hr) & Hf). split; [done|]. split.
    + split; [done|]. split; [|done]. intros a [= <-]. cbn. rewrite Huid, (is_expected_uid _ _ Hbefore). by apply expected_uid.
    + intros a _. split; [done|]. cbn. congruence.
Qed.

(** A change that returns is acknowledged; one that fails leaves the module in doubt, or as it was. *)
Definition changed (s : BorrowedModule) (g' : ModuleGhost) (s' : BorrowedModule) (r : res module_exn unit) : Prop :=
  sound original s' g' /\
  match r with
  | Ok _ => acknowledged s' g'
  | Err _ => bm_unresolved s' = true \/ bm_applied s' = bm_applied s /\ bm_restored s' = bm_restored s
  end.

Definition finished (s : BorrowedModule) (r : res module_exn unit) (g' : ModuleGhost) (s' : BorrowedModule) (r' : res module_exn unit) : Prop :=
  match r' with Ok _ => changed s g' s' r | Err e => changed s g' s' (Err e) end.
Lemma finalizer_wp s s' g' r : changed s g' s' r -> (bm_acknowledged s' = false -> bm_unresolved s' = true /\ is_ok r = false) ->
  W (let! b := get in if bm_acknowledged b then mret tt else write_receipt Ambiguous) s' g' (finished s r).
Proof.
  intros (Hs & Hr) Hack. wpm_step. wpm_step. destruct (bm_acknowledged s') eqn:E; [wpm_step; by split|]. destruct (Hack eq_refl) as [Hu Hno].
  apply write_receipt_wp; [done| |].
  - split; [apply sound_written; by destruct Hs as (? & ? & _)|]. destruct r; [done | by left].
  - intros e. split; [by apply sound_attempted | by left].
Qed.

Lemma bm_change_wp enabled parameters s g : sound original s g -> W (change enabled parameters None) s g (changed s).
Proof.
  intros Hs. unfold change. wpm_step. apply bm_current_wp; [intros o He | intros g' e E; split; [by eapply sound_files | by right]].
  assert (Hs1 : sound original (with_unresolved true s) (read_as o g)) by by apply sound_unresolved.
  wpm_step. wpm_step. wpm_step. apply write_receipt_wp; [done| |intros e; split; [by apply sound_attempted | by left]].
  wpm_step. wpm_step. set (s2 := with_acknowledged false (with_unresolved true s)). set (g2 := with_files [receipt (with_unresolved true s) Requested] (read_as o g)).
  assert (Hs2 : sound original s2 g2) by (apply (sound_written Requested s2); by destruct Hs1 as (? & ? & _)).
  wpm_step. wpm_step.
  assert (Hambiguous : forall e g' s', sound original s' g' -> bm_unresolved s' = true -> bm_acknowledged s' = false ->
    W (let! b := get in if bm_acknowledged b then mret tt else write_receipt Ambiguous) s' g' (finished s (Err e))).
  { intros e g' s' Hs' Hu Ha. apply finalizer_wp; [split; [done | by left] | done]. }
  wpm_step. wpm_step.
  { split; [done|]. split; [exists o; split; [done|]; apply List.Forall_cons; [exact He | apply List.Forall_nil]|]. left. apply List.Forall_cons; [done | apply List.Forall_nil]. }
  intros [[]|e] _.
  - wpm_step. wpm_step. cbn [bm_acknowledged s2 with_acknowledged]. apply bm_acknowledge_wp; [done | done | done | done | |].
    + intros g' s' Hack. apply finalizer_wp; [split; [apply Hack | exact Hack]|]. destruct Hack as (_ & _ & Ha & _). congruence.
    + intros g' s' e Hs' Hu Ha. wpm_step. wpm_step; [done|]. wpm_step. by apply Hambiguous.
  - wpm_step. wpm_step; [|wpm_step; by apply Hambiguous]. wpm_step. apply bm_current_wp.
    + intros o2 He2. wpm_step. wpm_step. wpm_step. wpm_step. set (s3 := with_acknowledged true (with_unresolved false s2)).
      assert (Hs3 : sound original s3 (read_as o2 (with_seen None g2))) by (apply (sound_written Requested s3); by destruct Hs1 as (? & ? & _)).
      apply write_settled_wp; [done| |].
      * wpm_step. apply finalizer_wp; [|done]. split; [|by right]. apply sound_written. by destruct Hs3 as (? & ? & _).
      * intros e2. apply finalizer_wp; [|done]. split; [|by right]. by apply sound_attempted.
    + intros g' e2 E. apply Hambiguous; [|done | done]. by eapply sound_files.
Qed.

(** ** reconcileUnchanged *)
Lemma bm_reconcile_wp s g : sound original s g -> Forall (fun r => rc_applied r = bm_applied s) (mg_files g) ->
  W reconcileUnchanged s g (fun g' s' r => sound original s' g').
Proof.
  intros Hs Hfiles. unfold reconcileUnchanged. wpm_step. apply bm_current_wp; [intros o He | intros g' e E; by eapply sound_files]. wpm_step. wpm_step.
  destruct (bm_unresolved s) eqn:Hu; [|by wpm_step]. wpm_step. wpm_step. pose proof Hs as (Ho & Hw & Hf).
  set (r := {| rc_original := bm_original s; rc_applied := bm_applied s; rc_restored := None; rc_state := settled_state s |}).
  apply bm_write_wp; [done| |].
  - split; [done|]. split; [done|]. intros a Ha. split; [done|]. intros _. apply List.Forall_cons; [done | apply List.Forall_nil].
  - intros e. split; [done|]. split; [done|]. intros a Ha. split; [done|]. intros _. apply List.Forall_cons; [done|]. cbn in Ha. by rewrite <- Ha.
Qed.

(** ** restore *)
Definition module_tick (g g' : ModuleGhost) : Prop := mg_seen g' = mg_seen g /\ mg_files g' = mg_files g /\ mg_time g <= mg_time g'.
#[local] Instance module_clock : PollClock (pre := module_pre original) (asm := module_asm) (upd := module_upd)
    (await_ B_now : BM Z) (await_ B_timer) (mret tt) (fun us => await (B_wait us)) mg_time module_tick.
Proof.
  split.
  - done.
  - intros g g1 g2 (H1 & H2 & H3) (H4 & H5 & H6). repeat split; [congruence | congruence | lia].
  - by intros g g' (_ & _ & ?).
  - intros s g Q HQ. wpm_step; [done|]. intros t Ht. apply (HQ (with_clock t g)). by repeat split.
  - intros s g Q HQ. wpm_step; [done|]. intros b _. by apply HQ.
  - intros s g Q HQ. wpm_step. by apply HQ.
  - intros us s g Q HQ. wpm_step; [done|]. intros [[]|err] _; cbn; (apply HQ; [|]); try done; [repeat split; cbn; lia | intros _; cbn; lia].
Qed.

(** What a restore that returns has seen and written. *)
Definition given (s : BorrowedModule) (g : ModuleGhost) : Prop :=
  bm_applied s = None /\ bm_unresolved s = false /\
  (exists o, mg_seen g = Some o /\ uid_of o = uid_of original /\ same_spec (spec_of o) (spec_of original) = true /\ is_expected o (expected_object s) = true) /\
  mg_files g = [{| rc_original := original; rc_applied := None; rc_restored := bm_restored s; rc_state := Restored |}].
Definition restored (g' : ModuleGhost) (s' : BorrowedModule) (r : res module_exn unit) : Prop :=
  sound original s' g' /\ match r with Ok _ => given s' g' | Err _ => True end.

Lemma write_restored_wp s g o : bm_original s = original -> well_formed s -> bm_applied s = None -> bm_unresolved s = false ->
  mg_seen g = Some o -> is_expected o (expected_object s) = true -> same_spec (spec_of o) (spec_of original) = true ->
  W write_restored s g restored.
Proof.
  intros Ho Hw Ha Hu Hseen He Hspec. unfold write_restored. wpm_step. wpm_step. rewrite Ho.
  assert (Hsound : forall l, sound original s (with_files l g)) by (intros l; split; [done|]; split; [done|]; intros a Ha'; congruence).
  apply bm_write_wp; [done | | intros e; by split]. split; [done|]. split; [done|]. split; [done|]. split; [|done]. exists o. split; [done|]. split; [|done].
  rewrite (is_expected_uid _ _ He), <- Ho. by apply expected_uid.
Qed.
Lemma conclude_wp o s g : bm_original s = original -> well_formed s -> bm_unresolved s = false -> mg_seen g = Some o ->
  uid_of o = uid_of original -> same_spec (spec_of o) (spec_of original) = true -> W (conclude o) s g restored.
Proof.
  intros Ho (He & Ha & Hr) Hu Hseen Huid Hspec. unfold conclude. wpm_step. wpm_step. wpm_step. wpm_step.
  apply (write_restored_wp _ _ o); [done | | done | done | done | apply is_expected_refl | done].
  split; [done|]. split; [done|]. cbn. intros r [= <-]. by rewrite Ho.
Qed.

Lemma bm_restore_wp s g : sound original s g -> W restore s g restored.
Proof.
  intros Hs. pose proof Hs as (Ho & Hw & Hf). unfold restore. wpm_step. wpm_step. wpm_step. apply bm_require_wp; [|by split]. intros Hu. bool_prop.
  destruct (bm_applied s) as [a|] eqn:Ha.
  2: { wpm_step. apply bm_current_wp; [intros o He | intros g' e E; split; [by eapply sound_files | done]].
       apply (write_restored_wp _ _ o); try done. eapply bm_same_spec_trans; [by apply is_expected_spec|]. unfold expected_object. rewrite Ha. cbn. rewrite <- Ho.
       destruct (bm_restored s) as [r|] eqn:Er; [by apply Hw | apply same_spec_refl]. }
  wpm_step. apply bm_current_wp; [intros o He | intros g' e E; split; [by eapply sound_files | done]].
  assert (Huid : uid_of o = uid_of original) by (rewrite (is_expected_uid _ _ He), <- Ho; by apply expected_uid).
  destruct (same_spec (spec_of o) (spec_of (bm_original s))) eqn:Hsame; [apply conclude_wp; try done; by rewrite <- Ho|].
  wpm_step. wpm_step.
  { destruct (Hf a Ha) as [Hne Hall]. split; [done|]. split; [|right; split; [|by rewrite Ho]].
    - exists o. split; [done|]. eapply List.Forall_impl; [|by apply Hall]. intros r Hr. cbn beta. unfold receipt_expected. rewrite Hr. unfold expected_object in He. by rewrite Ha in He.
    - rewrite <- Ho. unfold original_enabled. destruct Hw as ([v Hv] & _). by rewrite Hv. }
  intros [[]|e] _; [|split; [by eapply sound_files | done]]. wpm_step.
  eapply wpm_mono; [|apply (polled_wp (tick := module_tick) (time := mg_time) _ _ _ _ _ _ _ _
    (fun s' g' => s' = s /\ mg_files g' = mg_files g) (fun v s' g' => (s' = s /\ mg_files g' = mg_files g) /\ mg_seen g' = Some v)
    (fun _ s' g' => s' = s /\ mg_files g' = mg_files g)); try done].
  - intros g' s' [[r|]|e]; [|done|].
    + intros (Hacc & (-> & Hfiles) & Hseen). unfold given_back in Hacc. bool_prop. wpm_step. apply bm_require_wp; [intros _ | split; [by eapply sound_files | done]].
      apply conclude_wp; try done; [congruence | by rewrite <- Ho].
    + intros (-> & Hfiles). split; [by eapply sound_files | done].
  - intros s' g1 g2 (-> & Hfiles) (_ & E & _). split; [done | congruence].
  - intros v s' g1 g2 ((-> & Hfiles) & Hseen) (E1 & E2 & _). split; [split; [done | congruence] | congruence].
  - intros e s' g1 g2 (-> & Hfiles) (_ & E & _). split; [done | congruence].
  - by intros v s' g1 [? _].
  - intros s' g1 (-> & Hfiles). apply guarded_read_wp; intros; (split; [cbn; lia | done]).
Qed.
End specification.

(** ** Properties *)
Inductive ModuleCall : Type := C_change (enabled : bool) (parameters : dict json) | C_restore | C_reconcile.

Section properties.
Context `{Collation}.
Definition module_perform (c : ModuleCall) : BM unit :=
  match c with C_change enabled parameters => change enabled parameters None | C_restore => restore | C_reconcile => reconcileUnchanged end.
(** A reconciliation follows a resume: the file holds what was applied. *)
Definition resumed (c : ModuleCall) (s : BorrowedModule) (g : ModuleGhost) : Prop :=
  match c with C_reconcile => Forall (fun r => rc_applied r = bm_applied s) (mg_files g) | _ => True end.

(** What a call that ended left. *)
Definition left_ (c : ModuleCall) (s s' : BorrowedModule) (r : res module_exn unit) (g : ModuleGhost) : Prop :=
  sound (bm_original s) s' g /\
  match c, r with
  | C_change _ _, Ok _ => acknowledged (bm_original s) s' g
  | C_change _ _, Err _ => bm_unresolved s' = true \/ bm_applied s' = bm_applied s /\ bm_restored s' = bm_restored s
  | C_restore, Ok _ => given (bm_original s) s' g
  | _, _ => True
  end.

Lemma module_perform_wp c s g : sound (bm_original s) s g -> resumed c s g ->
  wpm (module_pre (bm_original s)) module_asm module_upd (module_perform c) s g (fun g' s' r => left_ c s s' r g').
Proof.
  intros Hs Hc. destruct c as [enabled parameters| |]; cbn [module_perform].
  - eapply wpm_mono; [|by apply bm_change_wp]. intros g' s' [[]|e] [H1 H2]; by split.
  - eapply wpm_mono; [|by apply bm_restore_wp]. intros g' s' [[]|e] [H1 H2]; by split.
  - eapply wpm_mono; [|by apply bm_reconcile_wp]. intros g' s' r H1. by split.
Qed.

(** C22: how a borrowed module is changed. Whatever call is made through the API and whatever the
    API, the guard and the file answer: the module is read only under the guard just
    confirmed; it is changed only when the last read showed the identity, generation and
    specification that every receipt the file may hold expects, announced by a receipt or to
    give the original's settings back; every receipt names the original. A change that returns
    was read back and recorded; one that fails leaves the module in doubt, or what is held of
    it unchanged. *)
Theorem module_guarded c s g tr q :
  sound (bm_original s) s g -> resumed c s g -> steps (module_perform c s) tr q -> admissible module_asm module_upd g tr ->
  respects (module_pre (bm_original s)) module_upd g tr /\
  forall s' r, q = Done (s', r) -> left_ c s s' r (foldl (ghost module_upd) g tr).
Proof.
  intros Hs Hc Hst Ha. destruct (wp_steps _ _ _ _ _ _ _ _ (module_perform_wp c s g Hs Hc) Hst Ha) as [H1 H2]. split; [done|]. by intros s' r ->.
Qed.


Definition resumable (r : Receipt) : Prop :=
  valid_original (rc_original r) = true /\ resume_applied (rc_original r) (rc_applied r) = true /\ resume_restored (rc_original r) (rc_restored r) = true.

Definition receipt_dict (r : Receipt) : dict json := json_obj (receipt_json r) ?? [].
Lemma receipt_get r : dict_get (receipt_dict r) "version" = Some (JNum (Int 1)) /\ dict_get (receipt_dict r) "state" = Some (JStr (receipt_name (rc_state r))) /\
  object_at (receipt_dict r) "original" = Some (rc_original r) /\ object_at (receipt_dict r) "applied" = rc_applied r /\ object_at (receipt_dict r) "restored" = rc_restored r.
Proof. destruct r as [original [applied|] [restored_|] state]; repeat split. Qed.
Lemma receipt_named s : named receipt_name receipt_states (Some (JStr (receipt_name s))) = Some s.
Proof. by destruct s. Qed.

(** A receipt resumes as what it recorded, in doubt exactly when it announced a request or
    could not tell; and the module resumed from the file is one [module_guarded] speaks of. *)
Theorem receipt_resumes r t : resumable r ->
  exists b, resume_value (receipt_json r) = Ok b /\ bm_original b = rc_original r /\ bm_applied b = rc_applied r /\ bm_restored b = rc_restored r /\
    (bm_unresolved b = true <-> rc_state r = Requested \/ rc_state r = Ambiguous) /\
    sound (rc_original r) b {| mg_guarded := false; mg_seen := None; mg_files := [r]; mg_time := t |} /\
    resumed C_reconcile b {| mg_guarded := false; mg_seen := None; mg_files := [r]; mg_time := t |}.
Proof.
  intros (Ho & Ha & Hr). destruct (receipt_get r) as (Hversion & Hstate & Horiginal & Happlied & Hrestored). eexists. split.
  { unfold resume_value. fold (receipt_dict r). rewrite Hversion, Hstate, receipt_named, Horiginal, Happlied, Hrestored.
    change (Some (rc_original r) ?? []) with (rc_original r).
    rewrite bool_decide_eq_true_2 by done. unfold new_BorrowedModule. rewrite Ho. cbn [requireSafe res_bind]. rewrite Ha. cbn [requireSafe res_bind]. rewrite Hr. reflexivity. }
  cbn. split; [done|]. split; [done|]. split; [done|]. split; [by destruct (rc_state r); cbn; naive_solver|]. split.
  - split; [done|]. split.
    + unfold valid_original in Ho. unfold resume_applied, resume_restored, later_than in *. cbn. split; [|split].
      * cbn [bm_original]. destruct (spec_get (rc_original r) "enabled") as [v|] eqn:E; [by exists v|]. exfalso. revert Ho. by rewrite andb_false_r.
      * cbn. intros a Ea. rewrite Ea in Ha. by bool_prop.
      * cbn. intros a Ea. rewrite Ea in Hr. by bool_prop.
    + intros a Ea. cbn in *. split; [done|]. intros _. apply List.Forall_cons; [done | apply List.Forall_nil].
  - apply List.Forall_cons; [done | apply List.Forall_nil].
Qed.
End properties.

(** ** A module changed and given back *)
#[local] Instance plain_order : Collation := fun a b => match String.compare a b with Lt => -1 | Gt => 1 | Eq => 0 end.

Definition module_object (generation : Z) (enabled : bool) : KubeJson :=
  [("metadata", JObj [("uid", JStr "u1"); ("namespace", JStr "ai-system"); ("generation", JNum (Int generation))]);
   ("spec", JObj [("module", JStr "media"); ("enabled", JBool enabled)])].
Record Product : Type := { pr_generation : Z; pr_enabled : bool }.
Definition product_handler (X : Type) (op : moduleE X) (w : Product) : X * Product :=
  match op in moduleE X return X * Product with
  | B_guard => (Ok tt, w)
  | B_read => (Ok (module_object (pr_generation w) (pr_enabled w)), w)
  | B_set enabled _ => (Ok tt, {| pr_generation := pr_generation w + 1; pr_enabled := match enabled with JBool b => b | _ => false end |})
  | B_write _ => (Ok tt, w)
  | B_now => (0, w)
  | B_timer => (false, w)
  | B_wait _ => (Ok tt, w)
  end.

Definition product_start : Product := {| pr_generation := 1; pr_enabled := false |}.
Definition borrowed_start : BorrowedModule :=
  {| bm_original := module_object 1 false; bm_applied := None; bm_restored := None; bm_unresolved := false; bm_acknowledged := false |}.
Definition ghost_start : ModuleGhost := {| mg_guarded := false; mg_seen := None; mg_files := []; mg_time := 0 |}.
Lemma start_sound : sound (bm_original borrowed_start) borrowed_start ghost_start.
Proof. split; [done|]. split; [|done]. split; [by eexists | done]. Qed.
Definition change_program : prog moduleE (BorrowedModule * res module_exn unit) := module_perform (C_change true []) borrowed_start.
Definition change_trace : list event := trace product_handler change_program product_start.
Lemma change_admissible : admissible module_asm module_upd ghost_start change_trace.
Proof. vm_compute. repeat (split; [exact I|]). exact I. Qed.

Lemma module_guarded_witness :
  respects (module_pre (bm_original borrowed_start)) module_upd ghost_start change_trace /\
  left_ (C_change true []) borrowed_start (exec product_handler change_program product_start).1.1 (Ok tt) (foldl (ghost module_upd) ghost_start change_trace).
Proof.
  destruct (module_guarded (C_change true []) borrowed_start ghost_start change_trace _ start_sound I (exec_steps product_handler change_program product_start) change_admissible) as [H1 H2].
  split; [exact H1|]. apply H2. vm_compute. reflexivity.
Defined.

(** The module as changed, and the way back. *)
Definition borrowed_changed : BorrowedModule :=
  {| bm_original := module_object 1 false; bm_applied := Some (module_object 2 true); bm_restored := None; bm_unresolved := false; bm_acknowledged := true |}.
Definition product_changed : Product := {| pr_generation := 2; pr_enabled := true |}.
Definition ghost_changed : ModuleGhost := {| mg_guarded := false; mg_seen := None; mg_files := [receipt borrowed_changed Applied]; mg_time := 0 |}.
Lemma changed_sound : sound (bm_original borrowed_changed) borrowed_changed ghost_changed.
Proof.
  split; [done|]. split; [split; [by eexists|]; split; [by intros a [= <-] | done]|]. intros a [= <-]. split; [done|]. intros _.
  apply List.Forall_cons; [done | apply List.Forall_nil].
Qed.
Definition restore_trace : list event := trace product_handler (restore borrowed_changed) product_changed.
Lemma restore_admissible : admissible module_asm module_upd ghost_changed restore_trace.
Proof. vm_compute. repeat (split; [first [exact I | intros; discriminate]|]). exact I. Qed.
Definition borrowed_back : BorrowedModule := (exec product_handler (restore borrowed_changed) product_changed).1.1.


Lemma receipt_resumes_witness : exists b, resume_value (receipt_json (receipt borrowed_changed Ambiguous)) = Ok b /\ bm_unresolved b = true.
Proof.
  destruct (receipt_resumes (receipt borrowed_changed Ambiguous) 0) as (b & Hb & _ & _ & _ & Hu & _).
  - split; [vm_compute; reflexivity|]. split; vm_compute; reflexivity.
  - exists b. split; [exact Hb|]. apply Hu. right. reflexivity.
Defined.

(** A reconciliation drops the specification given back earlier from the receipt: what was
    changed, given back (generation 3) and then asked for again without effect no longer
    resumes to what is there. *)
Definition receipt_again : Receipt :=
  {| rc_original := module_object 1 false; rc_applied := None; rc_restored := Some (module_object 3 false); rc_state := Requested |}.
Definition product_again : Product := {| pr_generation := 3; pr_enabled := false |}.
Definition resume_read {A} (m : BM A) (r : Receipt) : res module_exn A :=
  match resume_value (receipt_json r) with Ok b => (exec product_handler (m b) product_again).1.2 | Err e => Err (Thrown e) end.
Definition receipt_reconciled : Receipt := {| rc_original := module_object 1 false; rc_applied := None; rc_restored := None; rc_state := Unchanged |}.
Example reconcile_forgets :
  resume_read current receipt_again = Ok (module_object 3 false) /\
  (match resume_value (receipt_json receipt_again) with
   | Ok b => last (trace product_handler (reconcileUnchanged b) product_again)
   | Err _ => None
   end) = Some (Ev (B_write receipt_reconciled) (Ok tt)) /\
  resume_read current receipt_reconciled = Err (Thrown (harness CONFLICT)).
Proof. split; [vm_compute; reflexivity|]. split; vm_compute; reflexivity. Qed.
