(* ===== verification/Recovery.v ===== *)
(** * Recovery evidence (regression/core/recovery-inventory.ts, cleanup-state.ts)

    What the private files of a finished run still owe: [recoveryInventory] reads its journals
    and receipts, [attestCleanup] records that nothing is open together with a fingerprint of
    exactly these files, and [assessCleanup] believes it later only for the same files. The
    files are read as they are at one moment ([RunTree]): the processes have stopped. *)

From S2P Require Import Prelude Js Number Regex Json JsonParse Dates Prog Errors Contracts DashboardCore Journal BorrowedModule PrivateFiles LicenseTransaction.

Local Open Scope string_scope.
Local Open Scope js_scope.
Local Open Scope Z_scope.

(** ** The files of a run *)

(** A file: its name, and its text unless [readPrivate] refuses it. *)
Definition Files : Type := list (string * option string).
Record RunTree : Type := {
  (** A directory, not a link, and private. *)
  rt_private : bool;
  rt_files : Files;
  (** The entries named worker-…, in the order of [readdir]. *)
  rt_workers : list (string * (bool * Files))
}.

Definition file_in (files : Files) (name : string) : option (option string) := dict_get files name.
(** [readPrivate] *)
Definition read_in (files : Files) (name : string) : res exn string :=
  match file_in files name with Some (Some body) => Ok body | _ => Err (harness PRIVATE_FILE) end.
Definition parse_text (body : string) : res exn json := match JSON_parse body with Some v => Ok v | None => Err (Foreign "SyntaxError") end.
(** [optionalJson] *)
Definition optionalJson (files : Files) (name : string) : res exn (option json) :=
  match file_in files name with
  | None => Ok None
  | Some _ => let? body := read_in files name in let? v := parse_text body in Ok (Some v)
  end.

(** [/^worker-(?:[1-9]|[1-5][0-9]|6[0-4])$/] *)
Definition digit_from (lo hi : ascii) : re := Cls (in_range lo hi).
Definition worker_pattern : re :=
  Cat (lit "worker-") (alts [digit_from "1" "9"; Cat (digit_from "1" "5") (Cls is_digit); Cat (chr "6") (digit_from "0" "4")]).

(** Every directory with its path. *)
Definition worker_path (directory : string) (w : string * (bool * Files)) : res exn (string * Files) :=
  let? _ := requireSafe (rtest worker_pattern w.1) RECOVERY in
  let? _ := requireSafe w.2.1 RECOVERY in
  Ok (path_join directory w.1, w.2.2).
Definition recoveryPaths (directory : string) (t : RunTree) : res exn (list (string * Files)) :=
  let? _ := requireSafe (rt_private t) RECOVERY in
  let? workers := res_map (worker_path directory) (rt_workers t) in
  Ok ((directory, rt_files t) :: workers).

(** ** Names of receipts *)
Definition auxiliary_kinds : list string := ["ollama"; "vllm"; "unsupported"; "sanitized"; "risk-reject"; "risk-accept"; "external"; "provider"].
Definition auxiliary : re := Cat (alts (map lit auxiliary_kinds)) (Cat (chr "-") (Cat run_pattern (lit ".journal.json"))).
(** The run of its name: the 40 characters before the extension. *)
Definition auxiliary_run (name : string) : option string :=
  if rtest auxiliary name then let n := (String.length name - 13)%nat in Some (slice (n - 40) n name) else None.

Definition dashed (c : ascii) : bool := is_lower c || is_digit c || Ascii.eqb c "-".
Definition module_name_pattern : re := Cat (lit "borrowed-module") (Cat (opt (Cat (chr "-") (Cat (Cls dashed) (upto 62 (Cls dashed))))) (lit ".json")).
Definition sharing_name_pattern : re := Cat (alts (map lit ["gpu"; "mesh"; "cache"; "realtime"])) (lit "-sharing.json").
Definition lease_name_pattern : re := Cat (lit "lease-") (Cat run_pattern (lit ".json")).
Definition transaction_names : list string :=
  ["borrowed-amd-profile"; "license-transaction"; "license-transaction-lic-02"; "license-transaction-lic-03"; "license-transaction-lic-04";
   "license-baseline"; "license-baseline-lic-01"; "license-baseline-sso-01"; "federation"; "mesh-membership"; "unmanaged-key-fixture";
   "network-baseline-restore"; "kube-configmaps"; "kube-secrets"; "kube-moduleactivations"; "kube-appinstances"; "kube-modelactivations"].
Definition transaction : re := Cat (alts (Cat (lit "host-drill-") (plus (Cls dashed)) :: map lit transaction_names)) (lit ".json").

(** ** The inventory *)
Record RecoveryIdentity : Type := { ri_applianceUid : string; ri_nodeUids : list string }.
Record FoundJournal : Type := { fj_path : string; fj_filename : string; fj_data : JournalData }.
Record ModuleReceipt : Type := { mr_filename : string; mr_state : string; mr_value : dict json }.
Record SharingReceipt : Type := { sr_filename : string; sr_pending : bool; sr_value : dict json }.
Record ReservationReceipt : Type := { lr_path : string; lr_filename : string; lr_state : string; lr_value : dict json }.
Record Inventory : Type := {
  iv_journals : list FoundJournal;
  iv_modules : list ModuleReceipt;
  iv_sharing : list SharingReceipt;
  iv_leases : list ReservationReceipt;
  iv_unfinished : Z;
  (** The files read: path of the directory, name and text. *)
  iv_files : list (string * string * string)
}.
Definition empty_inventory : Inventory :=
  {| iv_journals := []; iv_modules := []; iv_sharing := []; iv_leases := []; iv_unfinished := 0; iv_files := [] |}.
Definition add_file (path name body : string) (v : Inventory) : Inventory :=
  {| iv_journals := iv_journals v; iv_modules := iv_modules v; iv_sharing := iv_sharing v; iv_leases := iv_leases v;
     iv_unfinished := iv_unfinished v; iv_files := (iv_files v ++ [(path, name, body)])%list |}.
Definition add_journal (j : FoundJournal) (v : Inventory) : Inventory :=
  {| iv_journals := (iv_journals v ++ [j])%list; iv_modules := iv_modules v; iv_sharing := iv_sharing v; iv_leases := iv_leases v;
     iv_unfinished := iv_unfinished v; iv_files := iv_files v |}.
Definition add_module (m : ModuleReceipt) (v : Inventory) : Inventory :=
  {| iv_journals := iv_journals v; iv_modules := (iv_modules v ++ [m])%list; iv_sharing := iv_sharing v; iv_leases := iv_leases v;
     iv_unfinished := iv_unfinished v; iv_files := iv_files v |}.
Definition add_sharing (s : SharingReceipt) (v : Inventory) : Inventory :=
  {| iv_journals := iv_journals v; iv_modules := iv_modules v; iv_sharing := (iv_sharing v ++ [s])%list; iv_leases := iv_leases v;
     iv_unfinished := iv_unfinished v; iv_files := iv_files v |}.
Definition add_lease (l : ReservationReceipt) (v : Inventory) : Inventory :=
  {| iv_journals := iv_journals v; iv_modules := iv_modules v; iv_sharing := iv_sharing v; iv_leases := (iv_leases v ++ [l])%list;
     iv_unfinished := iv_unfinished v; iv_files := iv_files v |}.
Definition add_unfinished (n : Z) (v : Inventory) : Inventory :=
  {| iv_journals := iv_journals v; iv_modules := iv_modules v; iv_sharing := iv_sharing v; iv_leases := iv_leases v;
     iv_unfinished := iv_unfinished v + n; iv_files := iv_files v |}.

(** [record]: read, remember and parse. *)
Definition record_file (path name : string) (files : Files) (v : Inventory) : res exn (json * Inventory) :=
  let? body := read_in files name in
  let? value := parse_text body in
  Ok (value, add_file path name body v).

(** The properties of a parsed value: none of [null] can be read. *)
Definition properties (v : json) : res exn (dict json) := match v with JNull => Err (Foreign "TypeError") | _ => Ok (json_obj v ?? []) end.
Definition state_field (d : dict json) : string := text_field d "state" ?? "".
Definition forbidden_modules : list string :=
  ["identity"; "dashboard"; "basis"; "kubeai"; "gpu"; "amd"; "nvidia"; "intel"; "litellm"; "private-mesh"; "model-catalog"; "magicstick-operator"; "regression"].
Definition valid_module (d : dict json) : bool :=
  let original := object_at d "original" ?? [] in
  version_one d && same_text (metadata original) "namespace" "ai-system" &&
  match spec_get original "enabled" with Some (JBool _) => true | _ => false end &&
  match spec_get original "module" with Some (JStr m) => negb (existsb (fun f => includesStr f m) forbidden_modules) | _ => false end &&
  includes ["requested"; "ambiguous"; "applied"; "unchanged"; "restored"] (state_field d).

Definition run_field (d : dict json) : bool := rtest run_pattern (text_field d "runId" ?? "").
Definition sharing_states (d : dict json) : option (list string) :=
  match dict_get d "entries" with Some (JArr l) => Some (map (fun e => state_field (json_obj e ?? [])) l) | _ => None end.
Definition valid_sharing (identity : RecoveryIdentity) (d : dict json) : bool :=
  version_one d && run_field d && same_text d "targetUid" (ri_applianceUid identity) &&
  match text_field d "nodeUid" with Some n => includes (ri_nodeUids identity) n | None => false end &&
  bool_decide (is_Some (text_field d "nodeName")) &&
  match sharing_states d with
  | Some l => (length l <=? 2)%nat && forallb (includes ["borrowed"; "pending"; "restored"]) l
  | None => false
  end.
Definition valid_lease_receipt (identity : RecoveryIdentity) (name : string) (d : dict json) : bool :=
  version_one d && run_field d && same_text d "targetUid" (ri_applianceUid identity) && bool_decide (is_Some (text_field d "leaseUid")) &&
  String.eqb name ("lease-" +:+ (text_field d "owner" ?? "undefined") +:+ ".json") && includes ["requested"; "released"] (state_field d).

(** One name of a directory. *)
Definition inspect (identity : RecoveryIdentity) (path : string) (files : Files) (name : string) (v : Inventory) : res exn Inventory :=
  let filename := path_join path name in
  if endsWith ".journal.json" name then
    let? run := match auxiliary_run name with
                | Some run => if (Z.of_nat (length (iv_journals v)) <? 128) then Ok run else Err (harness RECOVERY)
                | None => Err (harness RECOVERY)
                end in
    let? (value, v) := record_file path name files v in
    let? data := Journal.resume_value (ri_applianceUid identity) value in
    let? _ := requireSafe (String.eqb (jd_runId data) run && negb (existsb (fun j => String.eqb (jd_runId (fj_data j)) (jd_runId data)) (iv_journals v))) RECOVERY in
    Ok (add_journal {| fj_path := path; fj_filename := filename; fj_data := data |} v)
  else if rtest module_name_pattern name then
    let? (value, v) := record_file path name files v in
    let? d := properties value in
    let? _ := requireSafe (valid_module d) RECOVERY in
    Ok (add_module {| mr_filename := filename; mr_state := state_field d; mr_value := d |} v)
  else if rtest sharing_name_pattern name then
    let? (value, v) := record_file path name files v in
    let? d := properties value in
    let? _ := requireSafe (valid_sharing identity d) RECOVERY in
    Ok (add_sharing {| sr_filename := filename; sr_pending := existsb (fun s => negb (String.eqb s "restored")) (sharing_states d ?? []); sr_value := d |} v)
  else if rtest lease_name_pattern name then
    let? (value, v) := record_file path name files v in
    let? d := properties value in
    let? _ := requireSafe (valid_lease_receipt identity name d) RECOVERY in
    Ok (add_lease {| lr_path := path; lr_filename := filename; lr_state := state_field d; lr_value := d |} v)
  else if rtest transaction name then
    let? (value, v) := record_file path name files v in
    let? d := properties value in
    let? _ := requireSafe (version_one d) RECOVERY in
    Ok (if includes ["restored"; "removed"; "verified"] (state_field d) then v else add_unfinished 1 v)
  else Ok v.

(** [(await readdir(path)).sort()], the default order of strings. *)
Definition string_order (a b : string) : Z := match String.compare a b with Lt => -1 | Gt => 1 | Eq => 0 end.
Definition inspect_path (identity : RecoveryIdentity) (p : string * Files) (v : Inventory) : res exn Inventory :=
  let? (value, v) := record_file p.1 "journal.json" p.2 v in
  let? data := Journal.resume_value (ri_applianceUid identity) value in
  let v := add_journal {| fj_path := p.1; fj_filename := path_join p.1 "journal.json"; fj_data := data |} v in
  foldl (fun r name => res_bind r (inspect identity p.1 p.2 name)) (Ok v) (sort_by string_order (map fst p.2)).

Definition lease_known (v : Inventory) (l : ReservationReceipt) : bool :=
  existsb (fun j => same_text (lr_value l) "runId" (jd_runId (fj_data j)) && String.eqb (fj_path j) (lr_path l)) (iv_journals v).
Definition recoveryInventory (directory : string) (t : RunTree) (identity : RecoveryIdentity) : res exn (list (string * Files) * Inventory) :=
  let? paths := recoveryPaths directory t in
  let? v := foldl (fun r p => res_bind r (inspect_path identity p)) (Ok empty_inventory) paths in
  let? _ := requireSafe (forallb (lease_known v) (iv_leases v)) RECOVERY in
  Ok (paths, v).

Definition iv_open (v : Inventory) : Z :=
  foldl (fun n j => n + Z.of_nat (length (recoveryPlan (fj_data j)))) 0 (iv_journals v) +
  Z.of_nat (length (List.filter (fun m => negb (String.eqb (mr_state m) "restored")) (iv_modules v))) +
  Z.of_nat (length (List.filter sr_pending (iv_sharing v))) + iv_unfinished v.
Definition leasePending (v : Inventory) : Z := Z.of_nat (length (List.filter (fun l => negb (String.eqb (lr_state l) "released")) (iv_leases v))).

(** ** Fingerprints *)
Section fingerprint.
Context `{Sha256} `{Collation}.
Definition nul : string := String "000" "".
Definition filename_of (f : string * string * string) : string := path_join f.1.1 f.1.2.
(** The files of a directory, and of those below it unless [own]. *)
Definition in_directory (own : bool) (scope : string) (f : string * string * string) : bool :=
  if own then String.eqb f.1.1 scope else startsWith (scope +:+ "/") (filename_of f).
Definition hashed (scope : string) (f : string * string * string) : string := drop_str (String.length scope + 1) (filename_of f) +:+ nul +:+ f.2 +:+ nul.
Definition scoped (own : bool) (v : Inventory) (scope : string) : list (string * string * string) :=
  List.filter (in_directory own scope) (sort_by (fun a b => localeCompare (filename_of a) (filename_of b)) (iv_files v)).
Definition fingerprint_text (own : bool) (v : Inventory) (scope : string) : string := join "" (map (hashed scope) (scoped own v scope)).
Definition iv_fingerprint (own : bool) (v : Inventory) (scope : string) : string := sha256 (fingerprint_text own v scope).
End fingerprint.

(** ** Attestation *)
Section cleanup.
Context `{Sha256} `{Collation} `{DateFallback}.

Definition hex64 (s : string) : bool := (String.length s =? 64)%nat && sforall is_hex_lower s.
Definition strings_in (d : dict json) (k : string) : option (list string) := match dict_get d k with Some (JArr l) => mapM json_str l | _ => None end.
Definition date_field (d : dict json) (k : string) : bool := match text_field d k with Some s => bool_decide (is_Some (Date_parse s)) | None => false end.
Definition proofHeader (value : json) (runId targetUid : string) : res exn unit :=
  let d := json_obj value ?? [] in
  requireSafe (version_one d && same_text d "state" "verified" && same_text d "runId" runId && same_text d "targetUid" targetUid &&
    hex64 (text_field d "fingerprint" ?? "undefined") &&
    match dict_get d "ownFingerprint" with None => true | Some (JStr s) => hex64 s | Some _ => false end &&
    match strings_in d "nodeUids" with Some l => (length l <=? 64)%nat && forallb truthy l | None => false end && date_field d "checkedAt") RECOVERY.

Definition proof_name : string := "cleanup-verification.json".
Definition proof_json (directory : string) (identity : RecoveryIdentity) (recovered : bool) (now runId : string) (v : Inventory) : json :=
  JObj [("version", JNum (Int 1)); ("runId", JStr runId); ("targetUid", JStr (ri_applianceUid identity));
        ("nodeUids", JArr (map JStr (ri_nodeUids identity))); ("recovered", JBool recovered);
        ("fingerprint", JStr (iv_fingerprint false v directory)); ("ownFingerprint", JStr (iv_fingerprint true v directory));
        ("state", JStr "verified"); ("checkedAt", JStr now)].

(** The proof to be written, when nothing is open. *)
Definition attestCleanup (directory : string) (t : RunTree) (identity : RecoveryIdentity) (recovered : bool) (now : string) : res exn json :=
  let? (_, v) := recoveryInventory directory t identity in
  let? _ := requireSafe ((iv_open v =? 0) && (leasePending v =? 0)) CLEANUP in
  match iv_journals v with
  | j :: _ => Ok (proof_json directory identity recovered now (jd_runId (fj_data j)) v)
  | [] => Err (Foreign "TypeError")
  end.
Definition set_files (files : Files) (t : RunTree) : RunTree := {| rt_private := rt_private t; rt_files := files; rt_workers := rt_workers t |}.
(** [writePrivate] of a file of the run's own directory. *)
Definition write_file (name : string) (value : json) (t : RunTree) : RunTree := set_files (dict_set (rt_files t) name (Some (body_of value))) t.

(** ** Assessment *)
Definition basename (path : string) : string := match last_slash path 0 None with None => path | Some n => drop_str (S n) path end.
Definition status (state : RegressionCleanup_state_t) (now : string) (why : option (ReasonCode * Stage)) : RegressionCleanup :=
  mk_RegressionCleanup state (Some now) (option_map (fun w => reason_name w.1) why) (option_map (fun w => stage_name w.2) why).

Definition proof_matches (targetUid : string) (v : Inventory) (value : option json) (path : string) (own : bool) : bool :=
  let d := (base.mbind json_obj value) ?? [] in
  version_one d && same_text d "state" "verified" && same_text d "targetUid" targetUid &&
  existsb (fun j => same_text d "runId" (jd_runId (fj_data j)) && String.eqb (fj_filename j) (path_join path "journal.json")) (iv_journals v) &&
  same_text d (if own then "ownFingerprint" else "fingerprint") (iv_fingerprint own v path) && date_field d "checkedAt".

Definition journal_text (name : string) : bool := String.eqb name "journal.json" || endsWith ".journal.json" name.
(** A file that stands for something that was done: a journal with entries, or any other receipt
    but a released lease. *)
Definition evidence (v : Inventory) (f : string * string * string) : bool :=
  negb (existsb (fun l => String.eqb (lr_filename l) (filename_of f) && String.eqb (lr_state l) "released") (iv_leases v)) &&
  (if journal_text f.1.2
   then match base.mbind json_obj (JSON_parse f.2) with Some d => match dict_get d "entries" with Some (JArr (_ :: _)) => true | _ => false end | None => false end
   else true).
Definition path_changed (v : Inventory) (path : string) : bool := existsb (fun f => String.eqb f.1.1 path && evidence v f) (iv_files v).

(** The node identities of the proofs and of the sharing receipts. *)
Definition proof_nodes (value : json) : list string := strings_in (json_obj value ?? []) "nodeUids" ?? [].
Definition worker_nodes (targetUid : string) (p : string * Files) : res exn (list string) :=
  let? value := optionalJson p.2 proof_name in
  match value with
  | None => Ok []
  | Some value =>
      let? body := read_in p.2 "journal.json" in
      let? worker := parse_text body in
      let? w := properties worker in
      let? _ := proofHeader value (text_field w "runId" ?? "undefined") targetUid in
      Ok (proof_nodes value)
  end.
Definition sharing_node (files : Files) (name : string) : res exn (list string) :=
  if rtest sharing_name_pattern name then
    let? body := read_in files name in
    let? value := parse_text body in
    let? d := properties value in
    Ok (match text_field d "nodeUid" with Some n => [n] | None => [] end)
  else Ok [].
Definition sharing_nodes (p : string * Files) : res exn (list string) := let? l := res_map (sharing_node p.2) (map fst p.2) in Ok (concat l).

Definition check_session (runId targetUid : string) (value : json) : res exn unit :=
  let? d := properties value in
  requireSafe (version_one d && same_text d "runId" runId && same_text d "targetUid" targetUid && includes ["finished"; "running"] (state_field d)) RECOVERY.
Definition session_stopped (value : json) : bool :=
  let d := json_obj value ?? [] in
  same_text d "state" "finished" && match dict_get d "processesStopped" with Some (JBool false) => false | _ => true end.

(** The journal of the run's own directory. *)
Definition root_journal (directory : string) (files : Files) : res exn (string * string) :=
  let? body := read_in files "journal.json" in
  let? value := parse_text body in
  let? d := properties value in
  let? _ := requireSafe (version_one d && bool_decide (is_Some (text_field d "targetUid")) &&
                         match dict_get d "entries" with Some (JArr _) => true | _ => false end) RECOVERY in
  let runId := text_field d "runId" ?? "undefined" in
  let? _ := requireSafe (negb (startsWith "reg-" (basename directory)) || same_text d "runId" (basename directory)) RECOVERY in
  Ok (runId, text_field d "targetUid" ?? "").

Definition path_unproved (targetUid : string) (v : Inventory) (p : string * Files) : res exn bool :=
  if path_changed v p.1 then
    let? value := optionalJson p.2 proof_name in
    Ok (negb (proof_matches targetUid v value p.1 false) && negb (proof_matches targetUid v value p.1 true))
  else Ok false.
(** The first directory without a proof of its own decides. *)
Fixpoint some_unproved (targetUid : string) (v : Inventory) (paths : list (string * Files)) : res exn bool :=
  match paths with
  | [] => Ok false
  | p :: paths => let? b := path_unproved targetUid v p in if b then Ok true else some_unproved targetUid v paths
  end.

Definition assess (directory : string) (t : RunTree) (processesStopped : bool) (now : string) : res exn RegressionCleanup :=
  let? paths := recoveryPaths directory t in
  let? (runId, targetUid) := root_journal directory (rt_files t) in
  let? proof := optionalJson (rt_files t) proof_name in
  let? _ := match proof with Some value => proofHeader value runId targetUid | None => Ok tt end in
  let? workers := res_map (worker_nodes targetUid) (tail paths) in
  let? sharing := res_map sharing_nodes paths in
  let nodes := (match proof with Some value => proof_nodes value | None => [] end ++ concat workers ++ concat sharing)%list in
  let? (_, v) := recoveryInventory directory t {| ri_applianceUid := targetUid; ri_nodeUids := nodes |} in
  if negb (iv_open v =? 0) || negb (leasePending v =? 0) then
    Ok (status RegressionCleanup_state_t_required now (Some (CLEANUP, if negb (iv_open v =? 0) then S_cleanup else S_recovery_barrier)))
  else
    let? session := optionalJson (rt_files t) "runner-session.json" in
    let? _ := match session with Some value => check_session runId targetUid value | None => Ok tt end in
    let proved := proof_matches targetUid v proof directory false in
    let recovered := match base.mbind json_obj proof with Some d => match dict_get d "recovered" with Some (JBool true) => true | _ => false end | None => false end in
    if negb processesStopped || (match session with Some value => negb (session_stopped value) | None => false end && negb (recovered && proved)) then
      Ok (status RegressionCleanup_state_t_unknown now (Some (RECOVERY, S_recovery_barrier)))
    else if proved then Ok (status RegressionCleanup_state_t_verified now None)
    else
      let? unproved := some_unproved targetUid v paths in
      if unproved then Ok (status RegressionCleanup_state_t_unknown now (Some (RECOVERY, S_recovery_journal)))
      else Ok (status RegressionCleanup_state_t_verified now None).

Definition assessCleanup (directory : string) (t : RunTree) (processesStopped : bool) (now : string) : RegressionCleanup :=
  match assess directory t processesStopped now with
  | Ok s => s
  | Err e => status RegressionCleanup_state_t_blocked now (Some (code_or e RECOVERY, S_recovery_journal))
  end.
End cleanup.
