(* ===== verification/CleanupRun.v ===== *)
(** * Cleanup of a run and of its children (regression/core/cleanup-state.ts)

    [verifyReservationReleased] completes the reservation receipts once the Lease itself is
    seen free, and [assessRunCleanup] is the worst state of a run and of the runs it started,
    which may have started others. *)

From S2P Require Import Prelude Js Number Regex Json JsonParse Dates Prog Errors Contracts DashboardCore Evidence Journal Lease PrivateFiles LicenseTransaction Recovery.

Local Open Scope string_scope.
Local Open Scope js_scope.
Local Open Scope Z_scope.

(** ** Reservations *)
Definition truthy_text (o : option string) : bool := match o with Some s => truthy s | None => false end.
(** The Lease is the appliance's, and held by nobody. *)
Definition lease_free (identity : RecoveryIdentity) (l : Lease) : bool :=
  truthy_text (md_uid (metadata l)) && negb (truthy_text (sp_holderIdentity (spec l))) &&
  match md_labels (metadata l) !! appliance_label with Some uid => String.eqb uid (ri_applianceUid identity) | None => false end.
Definition complete_receipt (uid : option string) (item : ReservationReceipt) : FM unit :=
  requireSafeM (match uid with Some u => same_text (lr_value item) "leaseUid" u | None => false end) OWNERSHIP ;;
  when (negb (String.eqb (lr_state item) "released")) (writePrivate (lr_filename item) (JObj (dict_set (lr_value item) "state" (JStr "released"))) false).
(** [attestCleanup]: the proof is decided from the files, then written. *)
Definition attest `{Sha256} `{Collation} (directory : string) (t : RunTree) (identity : RecoveryIdentity) (recovered : bool) (now : string) : FM unit :=
  let! proof := of_res (attestCleanup directory t identity recovered now) in
  writePrivate (path_join directory proof_name) proof false.
(** The Lease has been read; the files are read before they are written. *)
Definition verifyReservationReleased (directory : string) (t : RunTree) (identity : RecoveryIdentity) (l : Lease) : FM unit :=
  requireSafeM (lease_free identity l) CLEANUP ;;
  let! (_, v) := of_res (recoveryInventory directory t identity) in
  for_each (iv_leases v) (complete_receipt (md_uid (metadata l))).

(** ** Children *)
Section children.
Context `{Sha256} `{Collation} `{DateFallback}.
(** The directories below the output, the clock and whether the processes have stopped. *)
Variables (runs : string -> option RunTree) (output now : string) (processesStopped : bool).

Definition exists_in (directory name : string) : bool :=
  match runs directory with Some t => match file_in (rt_files t) name with Some _ => true | None => false end | None => false end.
Definition own_cleanup (directory : string) : option RegressionCleanup :=
  match runs directory with
  | Some t => if exists_in directory "journal.json" then Some (assessCleanup directory t processesStopped now) else None
  | None => None
  end.
Definition unknown_cleanup : RegressionCleanup := status RegressionCleanup_state_t_unknown now (Some (RECOVERY, S_recovery_journal)).

(** The children a manifest names. *)
Definition manifest_children (directory : string) : res exn (list json) :=
  let? body := match runs directory with Some t => read_in (rt_files t) "child-runs.json" | None => Err (harness PRIVATE_FILE) end in
  let? manifest := parse_text body in
  let? d := properties manifest in
  match dict_get d "children" with
  | Some (JArr (c :: l)) => let? _ := requireSafe (version_one d && (length (c :: l) <=? 1000)%nat) RECOVERY in Ok (c :: l)
  | _ => Err (harness RECOVERY)
  end.
(** A child's run and whether it is a fixture. *)
Definition child_run (child : json) : res exn (string * bool) :=
  let? d := properties child in
  match text_field d "runId", text_field d "mode", dict_get d "fixture" with
  | Some run, Some mode, Some (JBool fixture) =>
      let? _ := requireSafe (rtest run_pattern run && Bool.eqb fixture (isolatedStep mode)) RECOVERY in Ok (run, fixture)
  | _, _, _ => Err (harness RECOVERY)
  end.

(** The loop over the children: the first that is refused ends it. *)
Fixpoint child_states (assess_run : string -> option RegressionCleanup) (children : list json) (states : list RegressionCleanup) :
    option (res exn (list RegressionCleanup)) :=
  match children with
  | [] => Some (Ok states)
  | child :: children =>
      match child_run child with
      | Err e => Some (Err e)
      | Ok (_, true) => child_states assess_run children states
      | Ok (run, false) =>
          match assess_run (path_join output run) with
          | Some s => child_states assess_run children (states ++ [s])%list
          | None => None
          end
      end
  end.

Definition in_state (st : RegressionCleanup_state_t) (s : RegressionCleanup) : bool := bool_decide (RegressionCleanup_state s = st).
Definition worst (states : list RegressionCleanup) : RegressionCleanup :=
  match List.find (in_state RegressionCleanup_state_t_blocked) states with
  | Some s => s
  | None =>
      match List.find (in_state RegressionCleanup_state_t_required) states with
      | Some s => s
      | None => List.find (fun s => negb (in_state RegressionCleanup_state_t_verified s)) states ?? status RegressionCleanup_state_t_verified now None
      end
  end.

(** [None] when the recursion is deeper than [fuel]. *)
Fixpoint assessRunCleanup (fuel : nat) (directory : string) (ancestors : list string) : option RegressionCleanup :=
  match fuel with
  | O => None
  | S fuel =>
      let own := own_cleanup directory in
      if negb (exists_in directory "child-runs.json") then Some (own ?? unknown_cleanup)
      else if includes ancestors directory || negb (length ancestors <? 10)%nat then Some unknown_cleanup
      else
        match manifest_children directory with
        | Err _ => Some unknown_cleanup
        | Ok children =>
            match child_states (fun path => assessRunCleanup fuel path (ancestors ++ [directory])%list) children (match own with Some s => [s] | None => [] end) with
            | Some (Ok states) => Some (worst states)
            | Some (Err _) => Some unknown_cleanup
            | None => None
            end
        end
  end.
End children.
