(* ===== verification/JsonPretty.v ===== *)
(** * Reading back indented JSON text

    [JSON.parse] of the indented text of a value, as the private files hold it, is the value
    ([body_reads]); the conditions are those of the compact text ([json_reads]), for numbers
    before a line break too. *)

From S2P Require Import Prelude Js Number Json JsonParse Canonical JsonProps Prog Errors Journal PrivateFiles.

Local Open Scope string_scope.
Local Open Scope Z_scope.

(** ** Blanks *)
Definition blank (s : string) : Prop := sforall json_space s = true.
Definition line (ind : string) : string := String (unit_of 10) ind.
(** What may follow a value: the end, a closer or a line break. *)
Definition closing (s : string) : Prop := match s with EmptyString => True | String c _ => closer c = true \/ c = unit_of 10 end.

Lemma blank_app a b : blank a -> blank b -> blank (a +:+ b).
Proof. unfold blank. induction a as [|c a IH]; cbn; [done|]. intros Ha Hb. apply andb_prop in Ha as [-> Ha]. by apply IH. Qed.
Lemma blank_line ind : blank ind -> blank (line ind).
Proof. done. Qed.
Lemma skip_blank w s : blank w -> skip (w +:+ s) = skip s.
Proof. unfold blank, skip. induction w as [|c w IH]; cbn; [done|]. intros Hw. apply andb_prop in Hw as [-> Hw]. by apply IH. Qed.
Lemma skip_to w c s : blank w -> json_space c = false -> skip (w +:+ String c s) = String c s.
Proof. intros Hw Hc. rewrite skip_blank by done. by apply skip_id. Qed.
#[local] Hint Resolve blank_app blank_line : core.

(** The texts of a list, each on its own line. *)
Lemma join_lines lead items : items <> [] -> lead +:+ join ("," +:+ lead) items = join "," (map (fun x => lead +:+ x) items).
Proof.
  induction items as [|x items IH]; intros Hne; [done|]. cbn [map]. destruct items as [|y items]; [done|].
  specialize (IH ltac:(done)). cbn [map] in *. rewrite (join_cons (lead +:+ x)). rewrite <- IH. cbn [join]. by rewrite !str_app_assoc.
Qed.

(** ** Values *)
Definition number_file_reads (n : number) : Prop :=
  isFinite n = true /\ forall r, closing r -> number_literal (String_of_number n +:+ r) = Some (n, r).
Fixpoint file_reads (v : json) : Prop :=
  match v with
  | JNum n => number_file_reads n
  | JArr l => fold_right and True (map file_reads l)
  | JObj d => dict_wf d /\ Forall (fun kv => array_index kv.1 = None) d /\ fold_right and True (map (fun kv => file_reads kv.2) d)
  | _ => True
  end.
Lemma file_reads_obj d : file_reads (JObj d) ->
  dict_wf d /\ Forall (fun kv => array_index kv.1 = None) d /\ Forall (fun kv => file_reads kv.2) d.
Proof. cbn. by rewrite (fold_and (fun kv : string * json => file_reads kv.2)). Qed.

Section gap.
Variable gap : string.
Hypotheses (Hgap : truthy gap = true) (Hblank : blank gap).
Notation pretty := (stringify gap).
Notation indent ind := (ind +:+ gap).

Definition item_text (ind : string) (v : json) : string := line ind +:+ pretty ind v.
Definition member_text (ind : string) (kv : string * json) : string := line ind +:+ quote kv.1 +:+ ": " +:+ pretty ind kv.2.

Lemma pretty_arr ind l : l <> [] -> pretty ind (JArr l) = "[" +:+ join "," (map (item_text (indent ind)) l) +:+ line ind +:+ "]".
Proof using Hgap.
  intros Hl. cbn [stringify]. rewrite Hgap. unfold item_text. rewrite <- (map_map (pretty (indent ind)) (fun x => line (indent ind) +:+ x)), <- join_lines.
  - destruct l; [done|]. unfold line. cbn [map]. by rewrite !str_app_assoc.
  - by destruct l.
Qed.
Lemma pretty_obj ind d : Forall (fun kv => array_index kv.1 = None) d -> d <> [] ->
  pretty ind (JObj d) = "{" +:+ join "," (map (member_text (indent ind)) d) +:+ line ind +:+ "}".
Proof using Hgap.
  intros Hk Hd. cbn [stringify]. rewrite Hgap, entries_plain by by apply Forall_map. rewrite map_map. cbn [fst snd]. unfold member_text.
  rewrite <- (map_map (fun kv : string * json => quote kv.1 +:+ ": " +:+ pretty (indent ind) kv.2) (fun x => line (indent ind) +:+ x)), <- join_lines.
  - destruct d; [done|]. unfold line. cbn [map]. by rewrite !str_app_assoc.
  - by destruct d.
Qed.

Definition pretty_back (v : json) : Prop := forall ind w fuel r, blank ind -> blank w -> closing r -> (2 * String.length (pretty ind v) <= fuel)%nat ->
  json_value fuel (w +:+ pretty ind v +:+ r) = Some (v, r).

Lemma number_start n r : number_file_reads n -> closing r ->
  exists c q, String_of_number n +:+ r = String c q /\ (is_digit c = true \/ c = "-"%char).
Proof.
  intros [_ Hn] Hr. specialize (Hn r Hr). destruct (String_of_number n +:+ r) as [|c q]; [done|]. exists c, q. split; [done|].
  unfold number_literal in Hn. destruct c as [[] [] [] [] [] [] [] []]; cbn in Hn; (by auto) || discriminate Hn.
Qed.
Lemma value_start ind v r : file_reads v -> closing r -> exists c q, pretty ind v +:+ r = String c q /\ json_space c = false /\ closer c = false.
Proof using Hgap.
  intros Hv Hr. destruct v as [|b|n|s|l|d].
  - by repeat eexists.
  - destruct b; by repeat eexists.
  - pose proof Hv as [Hf _]. cbn [stringify]. rewrite Hf. destruct (number_start n r Hv Hr) as (c & q & -> & Hc). exists c, q. split; [done|].
    destruct Hc as [Hc| ->]; [|done]. by destruct c as [[] [] [] [] [] [] [] []].
  - by repeat eexists.
  - destruct l as [|v l]; [by repeat eexists|]. rewrite pretty_arr by done. by repeat eexists.
  - destruct d as [|kv d]; [by repeat eexists|]. apply file_reads_obj in Hv as (_ & Hk & _). rewrite pretty_obj by done. by repeat eexists.
Qed.
Lemma pretty_nonempty ind v : file_reads v -> (1 <= String.length (pretty ind v))%nat.
Proof using Hgap.
  intros Hv. destruct (value_start ind v "" Hv I) as (c & q & Ht & _). rewrite str_app_nil_r in Ht. rewrite Ht. cbn. lia.
Qed.

Lemma pretty_scalar v : scalar v = true -> file_reads v -> pretty_back v.
Proof using Hgap.
  intros Hs Hv ind w fuel r Hi Hw Hr Hf. pose proof (pretty_nonempty ind v Hv). destruct fuel as [|f]; [lia|]. cbn [json_value].
  destruct v as [|b|n|s|l|d]; try discriminate Hs.
  - cbn [stringify String.append]. by rewrite skip_to.
  - destruct b; cbn [stringify String.append]; by rewrite skip_to.
  - destruct (value_start ind (JNum n) r Hv Hr) as (c & q & Ht & Hc & _). pose proof Hv as [Hfin Hn].
    assert (E : pretty ind (JNum n) = String_of_number n) by (cbn [stringify]; by rewrite Hfin). rewrite E in *.
    destruct (number_start n r Hv Hr) as (c' & q' & Ht' & Hc'). rewrite Ht in Ht'. injection Ht' as <- <-.
    rewrite Ht, skip_to by done. rewrite <- Ht, (Hn r Hr).
    destruct Hc' as [Hd| ->]; [|done]. by destruct c as [[] [] [] [] [] [] [] []].
  - change (pretty ind (JStr s) +:+ r) with (String (unit_of 34) ((quote_body s +:+ String (unit_of 34) "") +:+ r)).
    rewrite skip_to by done. rewrite str_app_assoc. cbn [String.append].
    change (code (unit_of 34) =? 34) with true. cbn [Ascii.eqb]. rewrite string_literal_quote. done.
Qed.

Lemma pretty_elements ind tail l : blank ind -> blank tail -> Forall pretty_back l -> forall fuel acc r, l <> [] ->
  (2 * String.length (join "," (map (item_text ind) l)) + 1 <= fuel)%nat ->
  json_elements fuel acc (join "," (map (item_text ind) l) +:+ line tail +:+ "]" +:+ r) = Some (JArr (acc ++ l)%list, r).
Proof using Type.
  intros Hi Ht. induction 1 as [|v l Hv Hl IH]; intros fuel acc r Hne Hf; [done|].
  cbn [map] in *. rewrite join_cons, str_length_app in Hf. unfold item_text at 1 in Hf. rewrite str_length_app in Hf. rewrite join_cons, str_app_assoc.
  destruct fuel as [|f]; [lia|]. cbn [json_elements]. unfold item_text at 1. rewrite str_app_assoc.
  destruct l as [|x l].
  - cbn [map] in *. rewrite (Hv ind (line ind) f) by (try apply blank_line; done || lia || by right). cbn [base.mbind option_bind String.append]. by rewrite skip_to.
  - cbn [map] in *. rewrite str_length_app in Hf. change (String.length ",") with 1%nat in Hf.
    rewrite (Hv ind (line ind) f) by (try apply blank_line; done || lia || by left). cbn [base.mbind option_bind]. rewrite !str_app_assoc. cbn [String.append].
    rewrite skip_id by done.
    change (json_elements f (acc ++ [v])%list (join "," (map (item_text ind) (x :: l)) +:+ line tail +:+ "]" +:+ r) = Some (JArr (acc ++ v :: x :: l)%list, r)).
    rewrite IH by (done || (cbn [map]; lia)). by rewrite <- app_assoc.
Qed.

Lemma pretty_members ind tail d : blank ind -> blank tail -> Forall (fun kv => pretty_back kv.2) d ->
  forall fuel acc r, d <> [] -> dict_wf (acc ++ d)%list ->
  (2 * String.length (join "," (map (member_text ind) d)) + 1 <= fuel)%nat ->
  json_members fuel acc (join "," (map (member_text ind) d) +:+ line tail +:+ "}" +:+ r) = Some (JObj (acc ++ d)%list, r).
Proof using Hgap Hblank.
  intros Hi Ht. induction 1 as [|[k v] d Hv Hd IH]; intros fuel acc r Hne Hwf Hf; [done|]. cbn [snd fst] in *.
  assert (Hfresh : k ∉ dict_keys acc).
  { unfold dict_wf, dict_keys in Hwf. rewrite map_app in Hwf. apply NoDup_app in Hwf as (_ & Hwf & _). cbn in Hwf. set_solver. }
  cbn [map] in *. rewrite join_cons in *. unfold member_text at 1 in Hf. unfold member_text at 1. cbn [fst snd] in *.
  rewrite !str_length_app in Hf. pose proof (quote_length k). rewrite !str_app_assoc.
  destruct fuel as [|f]; [lia|]. cbn [json_members]. unfold quote at 1. cbn [String.append]. rewrite skip_to by done.
  change (code (unit_of 34) =? 34) with true. cbv iota. rewrite str_app_assoc. cbn [String.append].
  rewrite string_literal_quote. cbn [base.mbind option_bind]. rewrite skip_id by done. change (String.length ": ") with 2%nat in Hf.
  match goal with |- context [String " " (pretty ind v +:+ ?t)] => change (String " " (pretty ind v +:+ t)) with (" " +:+ pretty ind v +:+ t) end.
  destruct d as [|kv d]; cbn [map] in *.
  - rewrite (Hv ind " " f) by (done || lia || by right). cbn [base.mbind option_bind String.append]. rewrite skip_to by done. by rewrite dict_set_fresh.
  - rewrite str_length_app in Hf. change (String.length ",") with 1%nat in Hf.
    rewrite (Hv ind " " f) by (done || lia || by left). cbn [base.mbind option_bind]. rewrite ?str_app_assoc. cbn [String.append].
    rewrite skip_id by done. rewrite dict_set_fresh by done.
    change (json_members f (acc ++ [(k, v)])%list (join "," (map (member_text ind) (kv :: d)) +:+ line tail +:+ "}" +:+ r) = Some (JObj (acc ++ (k, v) :: kv :: d)%list, r)).
    rewrite IH; [by rewrite <- app_assoc | done | by rewrite <- app_assoc | cbn [map]; lia].
Qed.

(** Neither bracket follows an opening one at once. *)
Lemma opened {A} (w t : string) (x : string -> A) (y : A) c q : blank w -> t = String c q -> json_space c = false -> closer c = false ->
  match skip (w +:+ t) with String "]" u => x u | _ => y end = y /\ match skip (w +:+ t) with String "}" u => x u | _ => y end = y.
Proof using Type. intros Hw -> Hs Hc. rewrite skip_to by done. by destruct c as [[] [] [] [] [] [] [] []]. Qed.
Lemma join_head {A} (f : A -> string) lead l r : l <> [] -> exists x l', l = x :: l' /\
  join "," (map (fun x => lead +:+ f x) l) +:+ r = lead +:+ f x +:+ match l' with [] => "" | _ => "," +:+ join "," (map (fun x => lead +:+ f x) l') end +:+ r.
Proof using Type.
  destruct l as [|x l]; [done|]. intros _. exists x, l. split; [done|]. cbn [map]. rewrite join_cons, !str_app_assoc. by destruct l.
Qed.

Lemma pretty_reads v : file_reads v -> pretty_back v.
Proof using Hgap Hblank.
  induction v as [v Hv|l IH|d IH] using json_values_ind; intros Hr; [by apply pretty_scalar|..]; intros ind w fuel r Hi Hw Hc Hf.
  - assert (Hl : Forall file_reads l) by by apply fold_and.
    assert (Hb : Forall pretty_back l) by (rewrite Forall_forall in *; eauto).
    destruct (decide (l = [])) as [->|Hne]; [destruct fuel; [cbn in Hf; lia|]; cbn [json_value stringify map String.append]; by rewrite skip_to|].
    rewrite pretty_arr in * by done. rewrite !str_length_app in Hf. change (String.length "[") with 1%nat in Hf.
    destruct fuel as [|f]; [lia|]. rewrite !str_app_assoc. cbn [String.append json_value]. rewrite skip_to by done. cbn [Ascii.eqb Bool.eqb].
    pose proof (pretty_elements (indent ind) ind l (blank_app _ _ Hi Hblank) Hi Hb f [] r Hne) as Hjoin. cbn [app String.append] in Hjoin. rewrite <- Hjoin by lia. clear Hjoin.
    destruct (join_head (pretty (indent ind)) (line (indent ind)) l (line ind +:+ String "]" r) Hne) as (x & l' & -> & E). change (fun x => line (indent ind) +:+ pretty (indent ind) x) with (item_text (indent ind)) in *. rewrite E.
    destruct (value_start (indent ind) x (match l' with [] => "" | _ => "," +:+ join "," (map (item_text (indent ind)) l') end +:+ line ind +:+ String "]" r))
      as (c & q & Ht & Hs & Hcl); [by inversion Hl | destruct l'; cbn; [by right | by left] |].
    exact (proj1 (opened _ _ (fun u => Some (JArr [], u)) _ c q (blank_line _ (blank_app _ _ Hi Hblank)) Ht Hs Hcl)).
  - apply file_reads_obj in Hr as (Hwf & Hk & Hl).
    assert (Hb : Forall (fun kv => pretty_back kv.2) d) by (rewrite Forall_forall in *; eauto).
    destruct (decide (d = [])) as [->|Hne]; [destruct fuel; [cbn in Hf; lia|]; change (pretty ind (JObj [])) with "{}"; cbn [json_value String.append]; by rewrite skip_to|].
    rewrite pretty_obj in * by done. rewrite !str_length_app in Hf. change (String.length "{") with 1%nat in Hf.
    destruct fuel as [|f]; [lia|]. rewrite !str_app_assoc. cbn [String.append json_value]. rewrite skip_to by done. cbn [Ascii.eqb Bool.eqb].
    pose proof (pretty_members (indent ind) ind d (blank_app _ _ Hi Hblank) Hi Hb f [] r Hne Hwf) as Hjoin. cbn [app String.append] in Hjoin. rewrite <- Hjoin by lia. clear Hjoin.
    destruct (join_head (fun kv => quote kv.1 +:+ ": " +:+ pretty (indent ind) kv.2) (line (indent ind)) d (line ind +:+ String "}" r) Hne) as (x & l' & -> & E).
    change (fun x : string * json => line (indent ind) +:+ quote x.1 +:+ ": " +:+ pretty (indent ind) x.2) with (member_text (indent ind)) in *. rewrite E.
    exact (proj2 (opened _ _ (fun u => Some (JObj [], u)) _ (unit_of 34) _ (blank_line _ (blank_app _ _ Hi Hblank)) eq_refl eq_refl eq_refl)).
Qed.
End gap.

(** What a private file holds reads back. *)
Lemma body_reads v : (forall s, v <> JStr s) -> file_reads v -> JSON_parse (body_of v) = Some v.
Proof.
  intros Hs Hv. assert (E : body_of v = "" +:+ stringify "  " "" v +:+ String (unit_of 10) "") by (destruct v; done || by destruct (Hs s)).
  unfold JSON_parse. rewrite E, (pretty_reads "  " eq_refl eq_refl v Hv "" "") by (done || (by right) || (cbn [String.append]; rewrite str_length_app; lia)). done.
Qed.
(** The version every receipt carries. *)
Lemma one_reads : number_file_reads (Int 1).
Proof.
  split; [done|]. intros [|c r] Hr; [done|]. destruct Hr as [Hr| ->]; [|done].
  by destruct c as [[] [] [] [] [] [] [] []].
Qed.
