(* ===== verification/RecoveryProps.v ===== *)
(** * Theorems on recovery evidence

    The inventory skips no receipt ([inventory_settled]), a verified assessment stands for
    receipts that are all settled and for proofs of exactly these files ([assess_verified]). *)

From S2P Require Import Prelude Js Number Regex Json JsonParse JsonProps Dates Prog Errors Contracts DashboardCore DashboardProps Journal BorrowedModule PrivateFiles LicenseTransaction Recovery.

Local Open Scope string_scope.
Local Open Scope js_scope.
Local Open Scope Z_scope.

(** ** Folds that may fail *)
Lemma foldl_err {A B E} (f : A -> B -> res E B) l e : foldl (fun r a => res_bind r (f a)) (Err e) l = Err e.
Proof. by induction l. Qed.
Lemma foldl_res_cons {A B E} (f : A -> B -> res E B) a l b b' :
  foldl (fun r a => res_bind r (f a)) (Ok b) (a :: l) = Ok b' -> exists c, f a b = Ok c /\ foldl (fun r a => res_bind r (f a)) (Ok c) l = Ok b'.
Proof. cbn. destruct (f a b) as [c|e]; cbn; [by exists c|]. by rewrite foldl_err. Qed.
(** Along a fold that succeeds the accumulator grows, and what every element adds stays. *)
Lemma foldl_res_grows {A B E} (R : relation B) `{!PreOrder R} (P : A -> B -> Prop) (f : A -> B -> res E B) b0 :
  (forall a b b', P a b -> R b b' -> P a b') -> forall l b b', R b0 b ->
  (forall a c c', a ∈ l -> R b0 c -> f a c = Ok c' -> R c c' /\ P a c') ->
  foldl (fun r a => res_bind r (f a)) (Ok b) l = Ok b' -> R b b' /\ forall a, a ∈ l -> P a b'.
Proof.
  intros Hmono l. induction l as [|a l IH]; intros b b' H0 Hstep H; cbn in H.
  - injection H as <-. split; [done|]. by intros a ?%elem_of_nil.
  - apply foldl_res_cons in H as (c & Hc & H). destruct (Hstep a b c) as [Hr Hp]; [by apply elem_of_cons; left | done | done |].
    destruct (IH c b') as [Hr' Hp']; [by etrans | intros; eapply Hstep; [by apply elem_of_cons; right | done | done] | done |].
    split; [by etrans|]. intros x [->|Hx]%elem_of_cons; eauto.
Qed.

Lemma res_map_in {A B E} (f : A -> res E B) l l' a : res_map f l = Ok l' -> a ∈ l -> exists b, f a = Ok b /\ b ∈ l'.
Proof.
  revert l'. induction l as [|c l IH]; intros l' H; cbn in H; [by intros ?%elem_of_nil|]. res_inv.
  intros [->|Ha]%elem_of_cons; [eexists; split; [done|]; apply elem_of_cons; by left|].
  destruct (IH _ eq_refl Ha) as (b & Hb & Hin). exists b. split; [done|]. apply elem_of_cons. by right.
Qed.

(** ** The inventory skips nothing *)
Definition receipt_name (name : string) : bool :=
  journal_text name || rtest module_name_pattern name || rtest sharing_name_pattern name || rtest lease_name_pattern name || rtest transaction name.
Definition pending_sharing (value : json) : bool := existsb (fun s => negb (String.eqb s "restored")) (sharing_states (json_obj value ?? []) ?? []).
Definition state_of (value : json) : string := state_field (json_obj value ?? []).
Definition transaction_done (value : json) : bool := includes ["restored"; "removed"; "verified"] (state_of value).

(** What a receipt of that name must say for nothing to be left to do. *)
Definition settled_value (targetUid name : string) (value : json) : Prop :=
  if journal_text name then exists d, Journal.resume_value targetUid value = Ok d /\ recoveryPlan d = []
  else if rtest module_name_pattern name then state_of value = "restored"
  else if rtest sharing_name_pattern name then pending_sharing value = false
  else if rtest lease_name_pattern name then state_of value = "released"
  else rtest transaction name = true -> transaction_done value = true.

(** The inventory has it. *)
Definition recorded (targetUid name : string) (value : json) (v : Inventory) : Prop :=
  if journal_text name then exists j, j ∈ iv_journals v /\ Journal.resume_value targetUid value = Ok (fj_data j)
  else if rtest module_name_pattern name then exists m, m ∈ iv_modules v /\ mr_state m = state_of value
  else if rtest sharing_name_pattern name then exists s, s ∈ iv_sharing v /\ sr_pending s = pending_sharing value
  else if rtest lease_name_pattern name then exists l, l ∈ iv_leases v /\ lr_state l = state_of value
  else rtest transaction name = true -> transaction_done value = true \/ 1 <= iv_unfinished v.
Definition accounted (targetUid path : string) (files : Files) (name : string) (v : Inventory) : Prop :=
  receipt_name name = true -> exists body value, read_in files name = Ok body /\ JSON_parse body = Some value /\
    value <> JNull /\ (path, name, body) ∈ iv_files v /\ recorded targetUid name value v.

Record grows (v v' : Inventory) : Prop := {
  gr_journals : iv_journals v ⊆ iv_journals v';
  gr_modules : iv_modules v ⊆ iv_modules v';
  gr_sharing : iv_sharing v ⊆ iv_sharing v';
  gr_leases : iv_leases v ⊆ iv_leases v';
  gr_files : iv_files v ⊆ iv_files v';
  gr_unfinished : iv_unfinished v <= iv_unfinished v'
}.
#[export] Instance grows_preorder : PreOrder grows.
Proof. split; [by intros v; split|]. intros v1 v2 v3 [] []. split; by etrans. Qed.

Lemma recorded_grows target name value v v' : grows v v' -> recorded target name value v -> recorded target name value v'.
Proof.
  intros [] H. unfold recorded in *. bsplit; [naive_solver..|]. intros Ht. destruct (H Ht); [by left | right; lia].
Qed.
Lemma accounted_grows target path files name v v' : accounted target path files name v -> grows v v' -> accounted target path files name v'.
Proof.
  intros H Hg Hn. destruct (H Hn) as (body & value & Hr & Hp & Hnull & Hf & Hv). exists body, value. split; [done|]. split; [done|]. split; [done|].
  split; [by apply (gr_files _ _ Hg) | by eapply recorded_grows].
Qed.

Lemma record_file_ok path name files v value v' : record_file path name files v = Ok (value, v') ->
  exists body, read_in files name = Ok body /\ JSON_parse body = Some value /\ v' = add_file path name body v.
Proof.
  unfold record_file, parse_text. destruct (read_in files name) as [body|e]; cbn [res_bind]; [|done].
  destruct (JSON_parse body) as [w|] eqn:Hp; cbn [res_bind]; [|done]. intros H. injection H as <- <-. by exists body.
Qed.
Lemma properties_ok value d : properties value = Ok d -> d = json_obj value ?? [].
Proof. destruct value; cbn; congruence. Qed.
Lemma properties_some value d : properties value = Ok d -> value <> JNull.
Proof. by destruct value. Qed.
Lemma add_file_grows path name body v : grows v (add_file path name body v).
Proof. split; cbn; set_solver by lia. Qed.
Lemma add_journal_grows j v : grows v (add_journal j v).
Proof. split; cbn; set_solver by lia. Qed.
Lemma add_module_grows m v : grows v (add_module m v).
Proof. split; cbn; set_solver by lia. Qed.
Lemma add_sharing_grows s v : grows v (add_sharing s v).
Proof. split; cbn; set_solver by lia. Qed.
Lemma add_lease_grows l v : grows v (add_lease l v).
Proof. split; cbn; set_solver by lia. Qed.
Lemma add_unfinished_grows v : grows v (add_unfinished 1 v).
Proof. split; cbn; set_solver by lia. Qed.
Lemma transaction_grows (done : bool) v : grows v (if done then v else add_unfinished 1 v).
Proof. destruct done; [done | apply add_unfinished_grows]. Qed.
#[local] Hint Resolve add_file_grows add_journal_grows add_module_grows add_sharing_grows add_lease_grows transaction_grows : grows.

(** A receipt that was read is in the inventory with what it says. *)
Lemma accounted_intro target path files name body value v v1 :
  read_in files name = Ok body -> JSON_parse body = Some value -> value <> JNull -> grows (add_file path name body v) v1 -> recorded target name value v1 ->
  grows v v1 /\ accounted target path files name v1.
Proof.
  intros Hr Hp Hnull Hg Hv. split; [etrans; [apply add_file_grows | done]|]. intros _. exists body, value. split; [done|]. split; [done|]. split; [done|]. split; [|done].
  apply (gr_files _ _ Hg). cbn. set_solver.
Qed.

Lemma journal_ending name : endsWith ".journal.json" name = true -> journal_text name = true.
Proof. unfold journal_text. intros ->. by rewrite orb_true_r. Qed.
Lemma inspect_accounts identity path files name v v' : name <> "journal.json" -> 0 <= iv_unfinished v -> inspect identity path files name v = Ok v' ->
  grows v v' /\ accounted (ri_applianceUid identity) path files name v'.
Proof.
  intros Hname H0 H. unfold inspect in H. cbv zeta in H.
  assert (Hj : journal_text name = endsWith ".journal.json" name) by (unfold journal_text; by rewrite (proj2 (String.eqb_neq _ _) Hname)).
  destruct (endsWith ".journal.json" name) eqn:E1; [|destruct (rtest module_name_pattern name) eqn:E2; [|destruct (rtest sharing_name_pattern name) eqn:E3;
    [|destruct (rtest lease_name_pattern name) eqn:E4; [|destruct (rtest transaction name) eqn:E5]]]].
  all: try (repeat match goal with
    | H : res_bind (record_file _ _ _ _) _ = Ok _ |- _ =>
        let Er := fresh "Er" in destruct (record_file path name files v) as [[value w]|] eqn:Er; [|discriminate H]; cbn [res_bind] in H;
        apply record_file_ok in Er as (body & Hbody & Hvalue & ->)
    | H : res_bind (properties _) _ = Ok _ |- _ => let Ep := fresh "Ep" in destruct (properties value) as [d|] eqn:Ep; [|discriminate H]; cbn [res_bind] in H;
        pose proof (properties_some _ _ Ep); apply properties_ok in Ep as ->
    | H : res_bind ?r _ = Ok _ |- _ => let Eb := fresh "Eb" in destruct r eqn:Eb; [|discriminate H]; cbn [res_bind] in H
    end; injection H as <-; eapply accounted_intro; [exact Hbody | exact Hvalue | by intros -> | eauto with grows |]; unfold recorded; rewrite Hj, ?E2, ?E3, ?E4).
  - eexists. split; [cbn; apply elem_of_app; right; by apply list_elem_of_singleton | done].
  - eexists. split; [cbn; apply elem_of_app; right; by apply list_elem_of_singleton | done].
  - eexists. split; [cbn; apply elem_of_app; right; by apply list_elem_of_singleton | done].
  - eexists. split; [cbn; apply elem_of_app; right; by apply list_elem_of_singleton | done].
  - intros Ht. unfold transaction_done, state_of. destruct (includes _ _); [by left|]. right. cbn. lia.
  - injection H as <-. split; [done|]. unfold accounted, receipt_name. by rewrite Hj, E2, E3, E4, E5.
Qed.

Lemma inspect_journal identity path files v : inspect identity path files "journal.json" v = Ok v.
Proof. reflexivity. Qed.
Lemma in_sorted (l : list string) name : name ∈ l -> name ∈ sort_by string_order l.
Proof. by rewrite sort_by_perm. Qed.

Lemma inspect_path_accounts identity p v v' : 0 <= iv_unfinished v -> inspect_path identity p v = Ok v' ->
  grows v v' /\ forall name, name = "journal.json" \/ name ∈ map fst p.2 -> accounted (ri_applianceUid identity) p.1 p.2 name v'.
Proof.
  intros H0 H. unfold inspect_path in H. destruct (record_file p.1 "journal.json" p.2 v) as [[value w]|] eqn:Er; [|discriminate H]. cbn [res_bind] in H.
  apply record_file_ok in Er as (body & Hbody & Hvalue & ->). destruct (Journal.resume_value _ value) as [data|] eqn:Ed; [|discriminate H]. cbn [res_bind] in H.
  cbv zeta in H. set (v1 := add_journal _ _) in H.
  destruct (accounted_intro (ri_applianceUid identity) p.1 p.2 "journal.json" body value v v1) as [Hg1 Ha1]; [done | done | by intros -> | apply add_journal_grows | |].
  { unfold recorded. cbn [journal_text]. eexists. split; [cbn; apply elem_of_app; right; by apply list_elem_of_singleton | done]. }
  apply (foldl_res_grows grows (fun name w => name <> "journal.json" -> accounted (ri_applianceUid identity) p.1 p.2 name w) _ v1) in H as [Hg Ha].
  - split; [by etrans|]. intros name Hname. destruct (String.eqb_spec name "journal.json") as [->|Hne]; [by eapply accounted_grows|].
    destruct Hname as [?|Hname]; [done|]. by apply Ha; [apply in_sorted|].
  - intros a b b' Hp Hr Hne. eapply accounted_grows; eauto.
  - done.
  - intros name w w' Hin Hgw Hw. destruct (String.eqb_spec name "journal.json") as [->|Hne].
    + rewrite inspect_journal in Hw. injection Hw as <-. by split.
    + destruct (inspect_accounts identity p.1 p.2 name w w') as [Hg Ha]; [done | pose proof (gr_unfinished _ _ Hgw); cbn in *; lia | done | by split].
Qed.

Lemma inventory_accounts directory t identity paths v : recoveryInventory directory t identity = Ok (paths, v) ->
  recoveryPaths directory t = Ok paths /\ 0 <= iv_unfinished v /\
  forall p name, p ∈ paths -> name = "journal.json" \/ name ∈ map fst p.2 -> accounted (ri_applianceUid identity) p.1 p.2 name v.
Proof.
  unfold recoveryInventory. destruct (recoveryPaths directory t) as [ps|]; [|done]. cbn [res_bind]. intros H.
  destruct (foldl _ (Ok empty_inventory) ps) as [w|] eqn:Ef; [|discriminate H]. cbn [res_bind] in H. destruct (requireSafe _ _); [|discriminate H].
  cbn [res_bind] in H. injection H as <- <-. split; [done|].
  apply (foldl_res_grows grows (fun p w => forall name, name = "journal.json" \/ name ∈ map fst p.2 -> accounted (ri_applianceUid identity) p.1 p.2 name w) _ empty_inventory) in Ef as [Hg Ha].
  - split; [apply (gr_unfinished _ _ Hg)|]. eauto.
  - intros p b b' Hp Hr name Hname. eapply accounted_grows; eauto.
  - done.
  - intros p c c' _ Hr Hc. apply inspect_path_accounts in Hc; [done|]. apply (gr_unfinished _ _ Hr).
Qed.

(** ** Nothing open *)
Lemma filter_none {A} (f : A -> bool) l a : length (List.filter f l) = 0%nat -> a ∈ l -> f a = false.
Proof.
  intros H Ha. destruct (f a) eqn:E; [|done]. apply list_elem_of_In in Ha. assert (Hin : List.In a (List.filter f l)) by (by apply List.filter_In).
  by destruct (List.filter f l).
Qed.
Lemma foldl_sum {A} (g : A -> Z) l n : foldl (fun n a => n + g a) n l = n + foldl (fun n a => n + g a) 0 l.
Proof. revert n. induction l as [|a l IH]; intros n; cbn [foldl]; [lia|]. rewrite IH, (IH (0 + g a)). lia. Qed.
Lemma foldl_nonneg {A} (g : A -> Z) l : (forall a, 0 <= g a) -> 0 <= foldl (fun n a => n + g a) 0 l.
Proof. intros Hg. induction l as [|a l IH]; cbn [foldl]; [lia|]. rewrite foldl_sum. specialize (Hg a). lia. Qed.
Lemma foldl_zero {A} (g : A -> Z) l a : (forall a, 0 <= g a) -> foldl (fun n a => n + g a) 0 l = 0 -> a ∈ l -> g a = 0.
Proof.
  intros Hg. induction l as [|b l IH]; cbn [foldl]; [by intros _ ?%elem_of_nil|]. rewrite foldl_sum. pose proof (foldl_nonneg g l Hg).
  pose proof (Hg b). intros Hz [->|Ha]%elem_of_cons; [lia | apply IH; [lia | done]].
Qed.
Definition plan_size (j : FoundJournal) : Z := Z.of_nat (length (recoveryPlan (fj_data j))).
Lemma plan_size_nonneg j : 0 <= plan_size j.
Proof. unfold plan_size. lia. Qed.

Record closed (v : Inventory) : Prop := {
  cl_open : iv_open v = 0;
  cl_pending : leasePending v = 0;
  cl_unfinished : 0 <= iv_unfinished v
}.
Lemma closed_settles target name value v : closed v -> recorded target name value v -> settled_value target name value.
Proof.
  intros [Ho Hp Hu]. unfold iv_open in Ho. unfold leasePending in Hp. pose proof (foldl_nonneg plan_size (iv_journals v) plan_size_nonneg) as Hn. unfold plan_size in Hn. unfold recorded, settled_value. bsplit.
  - intros (j & Hj & Hd). exists (fj_data j). split; [done|]. apply nil_length_inv.
    pose proof (foldl_zero plan_size (iv_journals v) j plan_size_nonneg) as Hz. unfold plan_size in Hz. lapply Hz; [intros Hz'; specialize (Hz' Hj) |]; lia.
  - intros (m & Hm & <-). apply (filter_none (fun m => negb (String.eqb (mr_state m) "restored"))) in Hm; [|lia]. bool_prop. by apply String.eqb_eq.
  - intros (s & Hs & <-). by apply (filter_none sr_pending) in Hs; [|lia].
  - intros (l & Hl & <-). apply (filter_none (fun l => negb (String.eqb (lr_state l) "released"))) in Hl; [|lia]. bool_prop. by apply String.eqb_eq.
  - intros Hr Ht. destruct (Hr Ht) as [?|?]; [done | lia].
Qed.

(** Every receipt of the directories says that nothing is left to do. *)
Definition settled_files (targetUid : string) (paths : list (string * Files)) (v : Inventory) : Prop :=
  forall p name, p ∈ paths -> name = "journal.json" \/ name ∈ map fst p.2 -> receipt_name name = true ->
    exists body value, read_in p.2 name = Ok body /\ JSON_parse body = Some value /\ (p.1, name, body) ∈ iv_files v /\ settled_value targetUid name value.

Lemma inventory_settled directory t identity paths v :
  recoveryInventory directory t identity = Ok (paths, v) -> iv_open v = 0 -> leasePending v = 0 -> settled_files (ri_applianceUid identity) paths v.
Proof.
  intros H Ho Hp. apply inventory_accounts in H as (_ & Hu & Ha). intros p name Hin Hname Hr.
  destruct (Ha p name Hin Hname Hr) as (body & value & Hb & Hv & _ & Hf & Hs). exists body, value. split; [done|]. split; [done|]. split; [done|].
  by apply (closed_settles _ _ _ v).
Qed.

Section assess.
Context `{Sha256} `{Collation} `{DateFallback}.

(** The run's own proof: of every file, or of a recovery after the process was lost. *)
Definition root_proof (t : RunTree) (targetUid : string) (v : Inventory) (directory : string) : Prop :=
  exists proof, optionalJson (rt_files t) proof_name = Ok (Some proof) /\ proof_matches targetUid v (Some proof) directory false = true.
Definition recovered_proof (t : RunTree) : Prop :=
  exists d, optionalJson (rt_files t) proof_name = Ok (Some (JObj d)) /\ dict_get d "recovered" = Some (JBool true).
(** The runner has said that it is done and that its processes are gone, or there was none. *)
Definition runner_stopped (t : RunTree) : Prop :=
  exists session, optionalJson (rt_files t) "runner-session.json" = Ok session /\ forall value, session = Some value -> session_stopped value = true.
(** A proof of the directory's own files or of all files below it. *)
Definition directory_proof (targetUid : string) (v : Inventory) (p : string * Files) : Prop :=
  exists proof, optionalJson p.2 proof_name = Ok (Some proof) /\
    (proof_matches targetUid v (Some proof) p.1 false = true \/ proof_matches targetUid v (Some proof) p.1 true = true).

Lemma no_proof targetUid v path own : proof_matches targetUid v None path own = false.
Proof. done. Qed.
Lemma all_proved targetUid v paths p : some_unproved targetUid v paths = Ok false -> p ∈ paths -> path_changed v p.1 = true -> directory_proof targetUid v p.
Proof.
  induction paths as [|q paths IH]; cbn [some_unproved]; [by intros _ ?%elem_of_nil|]. destruct (path_unproved targetUid v q) as [b|] eqn:Eq; [|done]. cbn [res_bind].
  destruct b; [done|]. intros Hall [->|Hp]%elem_of_cons; [|by apply IH]. intros Hc. unfold path_unproved in Eq. rewrite Hc in Eq.
  destruct (optionalJson q.2 proof_name) as [[proof|]|] eqn:Ep; [| |done]; cbn [res_bind] in Eq; [|by rewrite !no_proof in Eq]. injection Eq as Eq.
  exists proof. split; [done|]. destruct (proof_matches targetUid v (Some proof) q.1 false); [by left|]. right. by apply negb_false_iff.
Qed.

(** What a verified assessment stands for. *)
Record verified_run (directory : string) (t : RunTree) (targetUid : string) (paths : list (string * Files)) (v : Inventory) : Prop := {
  vr_inventory : exists nodes, recoveryInventory directory t {| ri_applianceUid := targetUid; ri_nodeUids := nodes |} = Ok (paths, v);
  vr_settled : settled_files targetUid paths v;
  vr_runner : runner_stopped t \/ (recovered_proof t /\ root_proof t targetUid v directory);
  vr_proofs : root_proof t targetUid v directory \/ forall p, p ∈ paths -> path_changed v p.1 = true -> directory_proof targetUid v p
}.

Lemma recovered_match t proof : optionalJson (rt_files t) proof_name = Ok proof ->
  match base.mbind json_obj proof with Some d => match dict_get d "recovered" with Some (JBool true) => true | _ => false end | None => false end = true -> recovered_proof t.
Proof.
  intros Hp. destruct proof as [[]|]; cbn; try done. intros Hr. eexists. split; [exact Hp|]. by destruct (dict_get _ _) as [[| [] | | | |]|].
Qed.

Lemma assess_sound directory t processesStopped now s : assess directory t processesStopped now = Ok s -> RegressionCleanup_state s = RegressionCleanup_state_t_verified ->
  processesStopped = true /\ exists runId targetUid paths v, root_journal directory (rt_files t) = Ok (runId, targetUid) /\ verified_run directory t targetUid paths v.
Proof.
  unfold assess. intros Ha Hs. destruct (recoveryPaths directory t) as [ps|] eqn:Eps; [|done]. cbn [res_bind] in Ha.
  destruct (root_journal directory (rt_files t)) as [[runId targetUid]|]; [|done]. cbn [res_bind] in Ha.
  destruct (optionalJson (rt_files t) proof_name) as [proof|] eqn:Eproof; [|done]. cbn [res_bind] in Ha.
  destruct (match proof with Some value => proofHeader value runId targetUid | None => Ok tt end); [|done]. cbn [res_bind] in Ha.
  destruct (res_map (worker_nodes targetUid) (tail ps)) as [workers|]; [|done]. cbn [res_bind] in Ha.
  destruct (res_map sharing_nodes ps) as [sharing|]; [|done]. cbn [res_bind] in Ha. cbv zeta in Ha.
  destruct (recoveryInventory _ _ _) as [[paths v]|] eqn:Ei; [|done]. cbn [res_bind] in Ha.
  destruct (negb (iv_open v =? 0) || negb (leasePending v =? 0)) eqn:Eopen; [by injection Ha as <-|].
  destruct (optionalJson (rt_files t) "runner-session.json") as [session|] eqn:Esession; [|done]. cbn [res_bind] in Ha.
  destruct (match session with Some value => check_session runId targetUid value | None => Ok tt end); [|done]. cbn [res_bind] in Ha.
  destruct (negb processesStopped || _) eqn:Estop; [by injection Ha as <-|]. bool_prop.
  pose proof (inventory_accounts _ _ _ _ _ Ei) as (Eps' & _). rewrite Eps in Eps'. injection Eps' as <-.
  split; [done|]. exists runId, targetUid, ps, v. split; [done|]. split; [eauto | by eapply (inventory_settled _ _ _ _ _ Ei) | |].
  - destruct (match session with Some value => negb (session_stopped value) | None => false end) eqn:Es.
    + right. cbn in *. bool_prop. split; [by eapply recovered_match|]. destruct proof as [proof|]; [by exists proof | done].
    + left. exists session. split; [done|]. intros value ->. by bool_prop.
  - destruct (proof_matches targetUid v proof directory false) eqn:Ematch.
    + left. destruct proof as [proof|]; [by exists proof | done].
    + right. destruct (some_unproved targetUid v ps) as [[]|] eqn:Eu; cbn [res_bind] in Ha; [by injection Ha as <- | | done].
      intros p Hp Hc. by eapply all_proved.
Qed.

(** C4: a verified assessment is no report's word: the processes have stopped, every journal and
    receipt of the run's directories was read and says that nothing is left to do, the runner has
    finished or a recovery has attested the run, and what was done is covered by proofs of exactly
    the files that are there. *)
Theorem assess_verified directory t processesStopped now :
  RegressionCleanup_state (assessCleanup directory t processesStopped now) = RegressionCleanup_state_t_verified ->
  processesStopped = true /\ exists runId targetUid paths v, root_journal directory (rt_files t) = Ok (runId, targetUid) /\ verified_run directory t targetUid paths v.
Proof.
  unfold assessCleanup. destruct (assess directory t processesStopped now) as [s|] eqn:Ea; [|done]. by eapply assess_sound.
Qed.
End assess.

(** ** A run with a removed application and a restored setting *)
#[local] Instance example_sha : Sha256 := fun s => String.concat "" (repeat (if (String.length s mod 2 =? 0)%nat then "a" else "b") 64).
#[local] Instance example_order : Collation := string_order.
#[local] Instance example_dates : DateFallback := fun _ => None.
Definition example_run : string := "reg-00000000-0000-0000-0000-00000000000a".
Definition example_directory : string := "/runs/" +:+ example_run.
Definition example_entry : JournalEntry :=
  {| je_kind := K_app; je_name := run_prefix example_run +:+ "app"; je_uid := Some "uid-1"; je_state := E_removed; je_generation := None; je_cleanupFailure := None |}.
Definition example_journal (run : string) (entries : list JournalEntry) : JournalData :=
  {| jd_runId := run; jd_targetUid := "appliance"; jd_prefix := run_prefix run; jd_entries := entries |}.
Definition example_sharing : json :=
  JObj [("version", JNum (Int 1)); ("runId", JStr example_run); ("targetUid", JStr "appliance"); ("nodeName", JStr "node"); ("nodeUid", JStr "node-1");
        ("entries", JArr [JObj [("state", JStr "restored")]])].
Definition example_tree : RunTree :=
  {| rt_private := true; rt_workers := [];
     rt_files := [("journal.json", Some (body_of (journal_json (example_journal example_run [example_entry])))); ("gpu-sharing.json", Some (body_of example_sharing));
                  ("runner-session.json", Some (body_of (JObj [("version", JNum (Int 1)); ("runId", JStr example_run); ("targetUid", JStr "appliance"); ("state", JStr "finished")])))] |}.
Definition example_identity : RecoveryIdentity := {| ri_applianceUid := "appliance"; ri_nodeUids := ["node-1"] |}.
Definition example_time : string := "2026-01-02T03:04:05.678Z".
Definition example_proof : json := match attestCleanup example_directory example_tree example_identity false example_time with Ok proof => proof | Err _ => JNull end.
Definition example_attested : RunTree := write_file proof_name example_proof example_tree.

Example example_unproved : assessCleanup example_directory example_tree true example_time = status RegressionCleanup_state_t_unknown example_time (Some (RECOVERY, S_recovery_journal)).
Proof. vm_compute. reflexivity. Qed.

Lemma assess_verified_witness : exists runId targetUid paths v,
  root_journal example_directory (rt_files example_attested) = Ok (runId, targetUid) /\ verified_run example_directory example_attested targetUid paths v.
Proof. apply (assess_verified example_directory example_attested true example_time). vm_compute. reflexivity. Defined.
