(* ===== verification/AttestProps.v ===== *)
(** * Theorems on attestations

    What was attested is assessed as verified ([attested_assessed]): the proof is a file beside
    the receipts that the inventory passes over. It stays so only for the same receipts
    ([attested_files]), up to collisions of the hash. *)

From stdpp Require Import sorting.
From S2P Require Import Prelude Canonical Js Number Regex Json JsonParse JsonProps Dates Prog Errors Contracts DashboardCore DashboardProps Journal BorrowedModule PrivateFiles JsonPretty LicenseTransaction Recovery RecoveryProps.

Local Open Scope string_scope.
Local Open Scope js_scope.
Local Open Scope Z_scope.

(** ** Sorting and leaving out *)
Lemma insert_sorted_elem {A} (cmp : A -> A -> Z) a b l : b ∈ insert_sorted cmp a l <-> b = a \/ b ∈ l.
Proof. induction l as [|c l IH]; cbn; [set_solver|]. destruct (cmp a c <=? 0); set_solver. Qed.
Section sort.
Context {A : Type} (cmp : A -> A -> Z).
Hypothesis cmp_total : forall a b, cmp a b <= 0 \/ cmp b a <= 0.
Hypothesis cmp_trans : forall a b c, cmp a b <= 0 -> cmp b c <= 0 -> cmp a c <= 0.
Notation le := (fun a b => cmp a b <= 0).

Lemma insert_strongly a l : StronglySorted le l -> StronglySorted le (insert_sorted cmp a l).
Proof using cmp_total cmp_trans.
  induction 1 as [|b l Hl IH Hb]; cbn; [constructor; [constructor | by apply List.Forall_nil]|]. destruct (cmp a b <=? 0) eqn:E; bool_prop.
  - constructor; [by constructor|]. apply List.Forall_cons; [done|]. eapply List.Forall_impl; [|exact Hb]. intros c Hc. eapply cmp_trans; [exact E | exact Hc].
  - constructor; [done|]. apply Forall_forall. intros c Hc. apply insert_sorted_elem in Hc as [->|Hc].
    + destruct (cmp_total a b); [lia | done].
    + rewrite Forall_forall in Hb. by apply Hb.
Qed.
Lemma sort_strongly l : StronglySorted le (sort_by cmp l).
Proof using cmp_total cmp_trans. induction l as [|a l IH]; cbn; [constructor | by apply insert_strongly]. Qed.

Lemma filter_insert (f : A -> bool) a l : StronglySorted le l ->
  List.filter f (insert_sorted cmp a l) = if f a then insert_sorted cmp a (List.filter f l) else List.filter f l.
Proof using cmp_trans.
  induction 1 as [|b l Hl IH Hb]; [done|]. cbn [insert_sorted]. destruct (cmp a b <=? 0) eqn:E.
  - cbn [List.filter]. destruct (f a) eqn:Ea; [|done]. destruct (f b) eqn:Eb; cbn [insert_sorted]; [by rewrite E|].
    clear IH. bool_prop. destruct (List.filter f l) as [|c r] eqn:Ef; [done|]. cbn [insert_sorted].
    assert (Hc : List.In c (List.filter f l)) by (rewrite Ef; by left). apply List.filter_In in Hc as [Hc _].
    rewrite (proj2 (Z.leb_le _ _)); [done|]. eapply cmp_trans; [exact E|]. rewrite Forall_forall in Hb. apply Hb. by apply list_elem_of_In.
  - cbn [List.filter]. rewrite IH. destruct (f a) eqn:Ea, (f b) eqn:Eb; cbn [insert_sorted]; by rewrite ?E.
Qed.
Lemma filter_sort (f : A -> bool) l : List.filter f (sort_by cmp l) = sort_by cmp (List.filter f l).
Proof using cmp_total cmp_trans.
  induction l as [|a l IH]; [done|]. change (sort_by cmp (a :: l)) with (insert_sorted cmp a (sort_by cmp l)). rewrite filter_insert by apply sort_strongly.
  cbn [List.filter]. destruct (f a); [by rewrite IH | done].
Qed.
End sort.

Lemma code_compare (a b : ascii) : Ascii.compare a b = N.compare (N_of_ascii a) (N_of_ascii b).
Proof. done. Qed.
Lemma ascii_same (a b : ascii) : N_of_ascii a = N_of_ascii b -> a = b.
Proof. intros H. by rewrite <- (ascii_N_embedding a), <- (ascii_N_embedding b), H. Qed.
Lemma string_order_total a b : string_order a b <= 0 \/ string_order b a <= 0.
Proof. unfold string_order. rewrite (String.compare_antisym a b). destruct (String.compare b a); cbn; lia. Qed.
Lemma string_order_trans a b c : string_order a b <= 0 -> string_order b c <= 0 -> string_order a c <= 0.
Proof.
  unfold string_order. revert b c. induction a as [|x a IH]; intros [|y b] [|z c]; cbn; try lia. rewrite !code_compare. specialize (IH b c).
  destruct (N.compare_spec (N_of_ascii x) (N_of_ascii y)) as [Exy|Exy|Exy], (N.compare_spec (N_of_ascii y) (N_of_ascii z)) as [Eyz|Eyz|Eyz]; try lia;
    destruct (N.compare_spec (N_of_ascii x) (N_of_ascii z)); try lia; done.
Qed.

(** ** Other files, the same inventory *)
Lemma foldl_res_mono {A B E} (f g : A -> B -> res E B) l b b' : (forall a c c', a ∈ l -> f a c = Ok c' -> g a c = Ok c') ->
  foldl (fun r a => res_bind r (f a)) (Ok b) l = Ok b' -> foldl (fun r a => res_bind r (g a)) (Ok b) l = Ok b'.
Proof.
  revert b. induction l as [|a l IH]; intros b Hfg H; [done|]. apply foldl_res_cons in H as (c & Hc & H). cbn [foldl res_bind].
  rewrite (Hfg a b c) by (done || (apply elem_of_cons; by left)). apply IH; [|done]. intros x y z Hx. apply Hfg. apply elem_of_cons. by right.
Qed.
Lemma foldl_res_skip {A B E} (f : A -> B -> res E B) (keep : A -> bool) l b : (forall a c, keep a = false -> f a c = Ok c) ->
  foldl (fun r a => res_bind r (f a)) (Ok b) l = foldl (fun r a => res_bind r (f a)) (Ok b) (List.filter keep l).
Proof.
  intros Hskip. revert b. induction l as [|a l IH]; intros b; [done|]. cbn [List.filter]. destruct (keep a) eqn:Ek; cbn [foldl res_bind].
  - destruct (f a b) as [c|e]; [apply IH | by rewrite !foldl_err].
  - by rewrite Hskip.
Qed.

Definition other (name : string) : bool := negb (String.eqb name proof_name).
Lemma names_set {A} (d : dict A) v : List.filter other (map fst (dict_set d proof_name v)) = List.filter other (map fst d).
Proof.
  induction d as [|[k w] d IH]; [done|]. cbn [dict_set]. destruct (String.eqb_spec k proof_name) as [->|Hk]; [done|].
  cbn [map fst List.filter]. by rewrite IH.
Qed.
Lemma sorted_names_set {A} (d : dict A) v :
  List.filter other (sort_by string_order (map fst (dict_set d proof_name v))) = List.filter other (sort_by string_order (map fst d)).
Proof. rewrite !(filter_sort string_order string_order_total string_order_trans). by rewrite names_set. Qed.

(** [identity'] may name more nodes. *)
Record wider (identity identity' : RecoveryIdentity) : Prop := {
  wd_uid : ri_applianceUid identity' = ri_applianceUid identity;
  wd_nodes : ri_nodeUids identity ⊆ ri_nodeUids identity'
}.
Lemma wider_refl identity : wider identity identity.
Proof. by split. Qed.
Lemma wider_sharing identity identity' d : wider identity identity' -> valid_sharing identity d = true -> valid_sharing identity' d = true.
Proof.
  intros [Hu Hn]. unfold valid_sharing. rewrite Hu. intros H. apply andb_prop in H as [H H5]. apply andb_prop in H as [H H4]. apply andb_prop in H as [H H3].
  rewrite H, H4, H5. rewrite !andb_true_r. cbn. destruct (text_field d "nodeUid"); [|done]. apply includes_spec. apply includes_spec in H3. by apply Hn.
Qed.

Section wider.
Variables (identity identity' : RecoveryIdentity).
Hypothesis Hwider : wider identity identity'.

Lemma record_again path name files files' v x : read_in files' name = read_in files name -> record_file path name files v = Ok x -> record_file path name files' v = Ok x.
Proof using Type. unfold record_file. by intros ->. Qed.
Lemma inspect_again path files files' name v v' : read_in files' name = read_in files name ->
  inspect identity path files name v = Ok v' -> inspect identity' path files' name v = Ok v'.
Proof using Hwider.
  intros Hread. unfold inspect, record_file, valid_lease_receipt. cbv zeta. rewrite Hread, (wd_uid _ _ Hwider). destruct (endsWith _ name); [done|]. destruct (rtest module_name_pattern name); [done|].
  destruct (rtest sharing_name_pattern name); [|done]. destruct (read_in files name) as [body|]; [|done]. cbn [res_bind]. destruct (parse_text body) as [value|]; [|done]. cbn [res_bind].
  destruct (properties value) as [d|]; [|done]. cbn [res_bind]. destruct (valid_sharing identity d) eqn:E; [|done]. by rewrite (wider_sharing _ _ _ Hwider E).
Qed.

(** With another proof beside them, the receipts of a directory are the same. *)
Lemma inspect_path_again path files files' v v' :
  (forall name, name <> proof_name -> read_in files' name = read_in files name) ->
  List.filter other (sort_by string_order (map fst files')) = List.filter other (sort_by string_order (map fst files)) ->
  inspect_path identity (path, files) v = Ok v' -> inspect_path identity' (path, files') v = Ok v'.
Proof using Hwider.
  intros Hread Hnames. unfold inspect_path. cbn [fst snd]. rewrite (wd_uid _ _ Hwider).
  destruct (record_file path "journal.json" files v) as [[value w]|] eqn:Er; [|done]. rewrite (record_again _ _ _ files' _ _ (Hread "journal.json" ltac:(done)) Er). cbn [res_bind].
  destruct (Journal.resume_value _ value) as [data|]; [|done]. cbn [res_bind]. cbv zeta.
  assert (Hskip : forall i f name c, other name = false -> inspect i path f name c = Ok c).
  { intros i f name c Hn. unfold other in Hn. apply negb_false_iff, String.eqb_eq in Hn as ->. done. }
  rewrite (foldl_res_skip (inspect identity path files) other) by auto. rewrite (foldl_res_skip (inspect identity' path files') other) by auto. rewrite Hnames.
  apply foldl_res_mono. intros name c c' Hname. apply list_elem_of_In, List.filter_In in Hname as [_ Hname]. apply inspect_again, Hread.
  intros ->. done.
Qed.
End wider.

Lemma read_set files value name : name <> proof_name -> read_in (dict_set files proof_name (Some value)) name = read_in files name.
Proof. intros Hn. unfold read_in, file_in. by rewrite dict_get_set_ne. Qed.
Lemma optional_set files value name : name <> proof_name -> optionalJson (dict_set files proof_name (Some value)) name = optionalJson files name.
Proof. intros Hn. unfold optionalJson, file_in. rewrite dict_get_set_ne, read_set by done. done. Qed.

Lemma paths_written directory t value paths : recoveryPaths directory t = Ok paths ->
  paths = (directory, rt_files t) :: tail paths /\ recoveryPaths directory (write_file proof_name value t) = Ok ((directory, dict_set (rt_files t) proof_name (Some (body_of value))) :: tail paths).
Proof.
  unfold recoveryPaths. cbn [rt_private rt_workers rt_files write_file set_files]. destruct (requireSafe _ _); [|done]. cbn [res_bind].
  destruct (res_map (worker_path directory) (rt_workers t)); [|done]. cbn [res_bind]. intros H. injection H as <-. done.
Qed.

Lemma inventory_written directory t value identity identity' paths v : wider identity identity' -> recoveryInventory directory t identity = Ok (paths, v) ->
  recoveryInventory directory (write_file proof_name value t) identity' = Ok ((directory, dict_set (rt_files t) proof_name (Some (body_of value))) :: tail paths, v).
Proof.
  intros Hw. unfold recoveryInventory. destruct (recoveryPaths directory t) as [ps|] eqn:Eps; [|done]. cbn [res_bind].
  destruct (paths_written directory t value ps Eps) as [Hps Hps']. rewrite Hps'. cbn [res_bind]. intros H.
  destruct (foldl _ (Ok empty_inventory) ps) as [w|] eqn:Ef; [|discriminate H]. cbn [res_bind] in H.
  destruct (requireSafe (forallb (lease_known w) (iv_leases w)) RECOVERY) eqn:El; [|discriminate H]. cbn [res_bind] in H. injection H as <- <-.
  rewrite Hps in Ef. apply foldl_res_cons in Ef as (c & Hc & Hrest).
  cbn [foldl res_bind]. rewrite (inspect_path_again identity identity' Hw directory (rt_files t) (dict_set (rt_files t) proof_name (Some (body_of value))) _ c) ; [| |apply sorted_names_set|done].
  - rewrite (foldl_res_mono (inspect_path identity) (inspect_path identity') (tail ps) c w); [cbn [res_bind]; by rewrite El | | done].
    intros [path files] x y _. by apply inspect_path_again.
  - intros name Hn. by apply read_set.
Qed.

(** The first journal is the run's own. *)
Definition later (v v' : Inventory) : Prop := iv_journals v `prefix_of` iv_journals v'.
#[export] Instance later_preorder : PreOrder later.
Proof. split; [by intros v; unfold later|]. intros v1 v2 v3. unfold later. apply transitivity. Qed.
Lemma record_file_later path name files v value v' : record_file path name files v = Ok (value, v') -> later v v'.
Proof. intros H. apply record_file_ok in H as (body & _ & _ & ->). unfold later. reflexivity. Qed.
Lemma foldl_res_rel {A B E} (R : relation B) `{!PreOrder R} (f : A -> B -> res E B) l b b' : (forall a c c', f a c = Ok c' -> R c c') ->
  foldl (fun r a => res_bind r (f a)) (Ok b) l = Ok b' -> R b b'.
Proof.
  intros Hf. revert b. induction l as [|a l IH]; intros b Hl; [by injection Hl as <-|]. apply foldl_res_cons in Hl as (c & Hc & Hl). etrans; eauto.
Qed.
Lemma inspect_later identity path files name v v' : inspect identity path files name v = Ok v' -> later v v'.
Proof.
  unfold inspect. cbv zeta. bsplit; intros H.
  all: repeat match goal with
    | H : res_bind ?r _ = Ok _ |- _ => let x := fresh "x" in let Eb := fresh "Eb" in destruct r as [x|] eqn:Eb; [|discriminate H]; try destruct x as [value w]; cbn [res_bind] in H
    end; injection H as <-.
  all: repeat match goal with H : record_file _ _ _ _ = Ok _ |- _ => apply record_file_later in H end; unfold later in *; bsplit; try done.
  all: etrans; [eassumption | cbn; by apply prefix_app_r].
Qed.
Lemma inspect_path_later identity p v v' : inspect_path identity p v = Ok v' -> later v v'.
Proof.
  unfold inspect_path. destruct (record_file p.1 "journal.json" p.2 v) as [[value w]|] eqn:Er; [|done]. cbn [res_bind]. apply record_file_later in Er.
  destruct (Journal.resume_value _ value) as [data|]; [|done]. cbn [res_bind]. cbv zeta. intros H. apply (foldl_res_rel later) in H; [|by intros name x y; apply inspect_later].
  etrans; [exact Er|]. etrans; [|exact H]. unfold later. cbn. by apply prefix_app_r.
Qed.
Lemma inventory_root directory t identity paths v : recoveryInventory directory t identity = Ok (paths, v) ->
  exists body value data, read_in (rt_files t) "journal.json" = Ok body /\ JSON_parse body = Some value /\ Journal.resume_value (ri_applianceUid identity) value = Ok data /\
    head (iv_journals v) = Some {| fj_path := directory; fj_filename := path_join directory "journal.json"; fj_data := data |}.
Proof.
  unfold recoveryInventory, recoveryPaths. destruct (requireSafe (rt_private t) RECOVERY); [|done]. cbn [res_bind].
  destruct (res_map _ _) as [workers|]; [|done]. cbn [res_bind]. intros H.
  destruct (foldl _ _ _) as [w|] eqn:Ef; [|discriminate H]. cbn [res_bind] in H. destruct (requireSafe _ _); [|discriminate H]. cbn [res_bind] in H. injection H as <- <-.
  apply foldl_res_cons in Ef as (c & Hc & Ef). unfold inspect_path in Hc. cbn [fst snd] in Hc.
  destruct (record_file directory "journal.json" (rt_files t) empty_inventory) as [[value x]|] eqn:Er; [|discriminate Hc]. cbn [res_bind] in Hc.
  apply record_file_ok in Er as (body & Hbody & Hvalue & ->). destruct (Journal.resume_value _ value) as [data|] eqn:Ed; [|discriminate Hc]. cbn [res_bind] in Hc. cbv zeta in Hc.
  exists body, value, data. split; [done|]. split; [done|]. split; [done|].
  apply (foldl_res_rel later) in Hc as [l1 H1]; [|by intros name x y; apply inspect_later].
  apply (foldl_res_rel later) in Ef as [l2 H2]; [|by intros q x y; apply inspect_path_later]. rewrite H2, H1. done.
Qed.

(** ** What was attested is believed *)
Lemma res_map_total {A B E} (f : A -> res E B) l : (forall a, a ∈ l -> exists b, f a = Ok b) -> exists l', res_map f l = Ok l'.
Proof.
  induction l as [|a l IH]; intros Hf; [by exists []|]. destruct (Hf a) as [b Hb]; [apply elem_of_cons; by left|].
  destruct IH as [l' Hl']; [intros; apply Hf; apply elem_of_cons; by right|]. exists (b :: l'). cbn. by rewrite Hb, Hl'.
Qed.
Lemma strings_back l : mapM json_str (map JStr l) = Some l.
Proof. induction l as [|s l IH]; [done|]. cbn in *. by rewrite IH. Qed.

(** Sharing receipts are read again for their nodes. *)
Lemma sharing_readable directory t identity paths v p : recoveryInventory directory t identity = Ok (paths, v) -> p ∈ paths -> exists nodes, sharing_nodes p = Ok nodes.
Proof.
  intros H Hp. apply inventory_accounts in H as (_ & _ & Ha). destruct p as [path files]. unfold sharing_nodes. cbn [snd].
  destruct (res_map_total (sharing_node files) (map fst files)) as [l Hl].
  - intros name Hname. unfold sharing_node. destruct (rtest sharing_name_pattern name) eqn:Es; [|by eexists].
    destruct (Ha (path, files) name Hp (or_intror Hname)) as (body & value & Hr & Hv & Hnull & _); [unfold receipt_name; by rewrite Es, !orb_true_r|].
    cbn [snd] in Hr. rewrite Hr. cbn [res_bind]. unfold parse_text. rewrite Hv. cbn [res_bind]. destruct value; [done|by eexists..].
  - rewrite Hl. by eexists.
Qed.
Lemma sharing_other files value name : sharing_node (dict_set files proof_name (Some value)) name = sharing_node files name.
Proof.
  unfold sharing_node. destruct (String.eqb_spec name proof_name) as [->|Hn]; [done|]. by rewrite read_set.
Qed.
Lemma sharing_written path files value nodes : sharing_nodes (path, files) = Ok nodes -> exists nodes', sharing_nodes (path, dict_set files proof_name (Some value)) = Ok nodes'.
Proof.
  unfold sharing_nodes. cbn [snd]. destruct (res_map (sharing_node files) (map fst files)) as [l|] eqn:El; [|done]. intros _.
  destruct (res_map_total (sharing_node (dict_set files proof_name (Some value))) (map fst (dict_set files proof_name (Some value)))) as [l' Hl']; [|rewrite Hl'; by eexists].
  intros name Hname. rewrite sharing_other. destruct (decide (name = proof_name)) as [->|Hn]; [by eexists|].
  assert (Hin : name ∈ map fst files).
  { assert (List.In name (List.filter other (map fst files))) as [Hin _]%List.filter_In; [|by apply list_elem_of_In].
    rewrite <- (names_set files (Some value)). apply List.filter_In. split; [by apply list_elem_of_In|]. unfold other. by rewrite (proj2 (String.eqb_neq _ _) Hn). }
  destruct (res_map_in _ _ _ _ El Hin) as (b & Hb & _). by exists b.
Qed.

Lemma root_written directory t value : root_journal directory (rt_files (write_file proof_name value t)) = root_journal directory (rt_files t).
Proof. unfold root_journal. cbn [rt_files write_file set_files]. by rewrite read_set. Qed.
Lemma optional_written t value name : name <> proof_name -> optionalJson (rt_files (write_file proof_name value t)) name = optionalJson (rt_files t) name.
Proof. apply optional_set. Qed.
Lemma sharing_all directory t identity paths v value : recoveryInventory directory t identity = Ok (paths, v) ->
  exists nodes, res_map sharing_nodes ((directory, dict_set (rt_files t) proof_name (Some (body_of value))) :: tail paths) = Ok nodes.
Proof.
  intros H. pose proof (inventory_accounts _ _ _ _ _ H) as (Hps & _). destruct (paths_written directory t value paths Hps) as [Hp _].
  apply res_map_total. intros p [->|Hin]%elem_of_cons.
  - destruct (sharing_readable _ _ _ _ _ (directory, rt_files t) H) as [nodes Hn]; [rewrite Hp; apply elem_of_cons; by left|]. by eapply sharing_written.
  - eapply sharing_readable; [exact H|]. rewrite Hp. apply elem_of_cons. by right.
Qed.

Section attest.
Context `{Sha256} `{Collation} `{DateFallback}.

Lemma proof_nodes_written directory identity recovered now runId v : proof_nodes (proof_json directory identity recovered now runId v) = ri_nodeUids identity.
Proof. unfold proof_nodes, strings_in. cbn [json_obj proof_json nullish dict_get String.eqb Ascii.eqb Bool.eqb]. by rewrite strings_back. Qed.
Lemma proof_file_reads directory identity recovered now runId v : file_reads (proof_json directory identity recovered now runId v).
Proof.
  cbn. split; [repeat (apply NoDup_cons; split; [set_solver|]); apply NoDup_nil; done|]. split; [repeat (apply List.Forall_cons; [done|]); by apply List.Forall_nil|].
  repeat (split; [try done; try apply one_reads|]); try done. apply fold_and. apply Forall_forall. intros x Hx. apply list_elem_of_In, List.in_map_iff in Hx as (n & <- & _). done.
Qed.
Lemma proof_written directory t identity recovered now runId v :
  optionalJson (rt_files (write_file proof_name (proof_json directory identity recovered now runId v) t)) proof_name = Ok (Some (proof_json directory identity recovered now runId v)).
Proof.
  unfold optionalJson, file_in, read_in, file_in. cbn [rt_files write_file set_files]. rewrite dict_get_set. cbn [res_bind]. unfold parse_text.
  rewrite body_reads by (done || apply proof_file_reads). done.
Qed.
Lemma match_written directory identity recovered now j v : j ∈ iv_journals v -> fj_filename j = path_join directory "journal.json" -> is_Some (Date_parse now) ->
  proof_matches (ri_applianceUid identity) v (Some (proof_json directory identity recovered now (jd_runId (fj_data j)) v)) directory false = true.
Proof.
  intros Hj Hf Hd. unfold proof_matches. cbn [json_obj proof_json nullish base.mbind option_bind]. unfold same_text, text_field, date_field, text_field.
  cbn [dict_get String.eqb Ascii.eqb Bool.eqb base.mbind option_bind json_str nullish]. rewrite !String.eqb_refl, bool_decide_true by done.
  rewrite (proj2 (existsb_elem _ _)); [done|]. exists j. by rewrite Hf, !String.eqb_refl.
Qed.
Hypothesis sha256_hex : forall s, hex64 (sha256 s) = true.
Lemma header_written directory identity recovered now runId v :
  forallb truthy (ri_nodeUids identity) = true -> (length (ri_nodeUids identity) <= 64)%nat -> is_Some (Date_parse now) ->
  proofHeader (proof_json directory identity recovered now runId v) runId (ri_applianceUid identity) = Ok tt.
Proof using sha256_hex.
  intros Hn Hl Hd. apply requireSafe_true. cbn [json_obj proof_json nullish]. unfold same_text, text_field, strings_in, date_field, text_field, iv_fingerprint.
  cbn [dict_get String.eqb Ascii.eqb Bool.eqb base.mbind option_bind json_str nullish]. rewrite !String.eqb_refl, !sha256_hex, strings_back, Hn, (proj2 (Nat.leb_le _ _) Hl), bool_decide_true by done. done.
Qed.

(** The run of the root journal is the inventory's. *)
Lemma root_resumed directory t identity paths v runId targetUid : recoveryInventory directory t identity = Ok (paths, v) ->
  root_journal directory (rt_files t) = Ok (runId, targetUid) ->
  ri_applianceUid identity = targetUid /\ exists j l, iv_journals v = j :: l /\ jd_runId (fj_data j) = runId /\ fj_filename j = path_join directory "journal.json".
Proof using Type.
  intros Hi Hr. apply inventory_root in Hi as (body & value & data & Hbody & Hvalue & Hdata & Hhead).
  destruct (iv_journals v) as [|j l]; [done|]. injection Hhead as ->. unfold root_journal in Hr. rewrite Hbody in Hr. cbn [res_bind] in Hr. unfold parse_text in Hr. rewrite Hvalue in Hr.
  cbn [res_bind] in Hr. unfold Journal.resume_value in Hdata. destruct value as [| | | | |d]; try done. cbn [properties res_bind json_obj nullish] in Hr.
  destruct (text_field d "runId") as [run|]; [|done]. destruct (text_field d "targetUid") as [target|]; [|done]. destruct (text_field d "prefix") as [prefix|]; [|done].
  destruct (dict_get d "entries") as [[| | | |items|]|]; try done. destruct (_ && _) eqn:E; [|done]. destruct (checked_entries prefix [] items); [|done]. injection Hdata as <-.
  bool_prop. cbn in Hr. destruct (requireSafe _ _); [|done]. cbn [res_bind] in Hr. destruct (requireSafe _ _); [|done]. cbn [res_bind] in Hr. injection Hr as <- <-.
  split; [symmetry; by apply String.eqb_eq|]. by exists {| fj_path := directory; fj_filename := path_join directory "journal.json"; fj_data := {| jd_runId := run; jd_targetUid := target; jd_prefix := prefix; jd_entries := l0 |} |}, l.
Qed.

(** The rest of the run's evidence is in order: its name, the workers' proofs and the runner. *)
Record in_order (directory : string) (t : RunTree) (runId targetUid : string) (recovered : bool) : Prop := {
  io_root : root_journal directory (rt_files t) = Ok (runId, targetUid);
  io_workers : exists paths nodes, recoveryPaths directory t = Ok paths /\ res_map (worker_nodes targetUid) (tail paths) = Ok nodes;
  io_runner : exists session, optionalJson (rt_files t) "runner-session.json" = Ok session /\
    forall value, session = Some value -> check_session runId targetUid value = Ok tt /\ (session_stopped value = true \/ recovered = true)
}.

(** C29: what was attested is assessed as verified: the proof that [attestCleanup] writes reads
    back from the file as it is, is no receipt itself, and matches the files it was made from. *)
Theorem attested_assessed directory t identity recovered now now' proof runId targetUid :
  attestCleanup directory t identity recovered now = Ok proof -> in_order directory t runId targetUid recovered ->
  forallb truthy (ri_nodeUids identity) = true -> (length (ri_nodeUids identity) <= 64)%nat -> is_Some (Date_parse now) ->
  assessCleanup directory (write_file proof_name proof t) true now' = status RegressionCleanup_state_t_verified now' None.
Proof using sha256_hex.
  intros Ha [Hroot (ps & workers & Hps & Hworkers) (session & Hsession & Hstopped)] Hn Hl Hd. unfold attestCleanup in Ha.
  destruct (recoveryInventory directory t identity) as [[paths v]|] eqn:Ei; [|done]. cbn [res_bind] in Ha.
  destruct ((iv_open v =? 0) && (leasePending v =? 0)) eqn:Eopen; [|done]. cbn [requireSafe res_bind] in Ha.
  destruct (root_resumed _ _ _ _ _ _ _ Ei Hroot) as (<- & j & l & Hj & <- & Hfile). rewrite Hj in Ha. injection Ha as <-.
  assert (Hin : j ∈ iv_journals v) by (rewrite Hj; apply elem_of_cons; by left).
  set (proof := proof_json _ _ _ _ _ _). pose proof (inventory_accounts _ _ _ _ _ Ei) as (Hpaths & _). rewrite Hps in Hpaths. injection Hpaths as ->.
  destruct (paths_written directory t proof paths Hps) as [Hp Hp'].
  unfold assessCleanup, assess. rewrite Hp'. cbn [res_bind]. rewrite (root_written _ _ proof), Hroot. cbn [res_bind].
  assert (Eproof : optionalJson (rt_files (write_file proof_name proof t)) proof_name = Ok (Some proof)) by apply proof_written. rewrite Eproof. cbn [res_bind].
  assert (Eheader : proofHeader proof (jd_runId (fj_data j)) (ri_applianceUid identity) = Ok tt) by by apply header_written.
  rewrite Eheader. cbn [res_bind tail]. rewrite Hworkers. cbn [res_bind].
  destruct (sharing_all directory t identity paths v proof Ei) as [sharing Hsharing]. rewrite Hsharing. cbn [res_bind]. cbv zeta.
  assert (Enodes : proof_nodes proof = ri_nodeUids identity) by apply proof_nodes_written.
  match goal with |- context [recoveryInventory directory _ ?i] => set (identity' := i) end.
  assert (Hw : wider identity identity') by (split; [done|]; intros n Hin'; apply elem_of_app; left; by rewrite Enodes).
  rewrite (inventory_written directory t proof identity identity' paths v Hw Ei).
  cbn [res_bind]. apply andb_prop in Eopen as [Eo Ep]. rewrite Eo, Ep. cbn [negb orb]. rewrite optional_written, Hsession by done. cbn [res_bind].
  assert (Ematch : proof_matches (ri_applianceUid identity) v (Some proof) directory false = true) by by apply match_written.
  rewrite Ematch. destruct session as [value|]; [|done]. destruct (Hstopped value eq_refl) as [-> Hs]. cbn [res_bind].
  destruct Hs as [->| ->]; [done|]. cbn. by rewrite andb_false_r.
Qed.
End attest.

(** ** The same files *)
Definition no_nul (s : string) : Prop := sforall (fun c => negb (Ascii.eqb c "000")) s = true.
Lemma nul_inj a b x y : no_nul a -> no_nul b -> a +:+ nul +:+ x = b +:+ nul +:+ y -> a = b /\ x = y.
Proof.
  unfold no_nul, nul. revert b. induction a as [|c a IH]; intros [|d b]; cbn; intros Ha Hb E.
  - by injection E.
  - injection E as <- _. by apply andb_prop in Hb as [Hb _].
  - injection E as -> _. by apply andb_prop in Ha as [Ha _].
  - injection E as <- E. apply andb_prop in Ha as [_ Ha], Hb as [_ Hb]. by destruct (IH b Ha Hb E) as [-> ->].
Qed.

(** The name of a file below the directory, and its text. *)
Definition content (scope : string) (f : string * string * string) : string * string := (drop_str (String.length scope + 1) (filename_of f), f.2).
Definition plain (c : string * string) : Prop := no_nul c.1 /\ no_nul c.2.
Lemma join_concat (l : list string) : join "" l = foldr String.append "" l.
Proof. induction l as [|s l IH]; [done|]. cbn. destruct l; [cbn; by rewrite str_app_nil_r|]. by rewrite <- IH. Qed.
Lemma hashed_inj scope l l' : Forall (fun f => plain (content scope f)) l -> Forall (fun f => plain (content scope f)) l' ->
  join "" (map (hashed scope) l) = join "" (map (hashed scope) l') -> map (content scope) l = map (content scope) l'.
Proof.
  rewrite !join_concat. intros Hl. revert l'. induction Hl as [|f l [Hn Hb] Hl IH]; intros k [|f' l' [Hn' Hb'] Hl'] E; cbn [map foldr] in *.
  - done.
  - unfold hashed in E. destruct (drop_str _ _); discriminate E.
  - unfold hashed in E. destruct (drop_str _ _); discriminate E.
  - unfold hashed in E. rewrite !str_app_assoc in E. apply nul_inj in E as [En E]; [|done..]. apply nul_inj in E as [Eb E]; [|done..].
    unfold content at 1 3. rewrite En, Eb. f_equal. by apply IH.
Qed.

Section same.
Context `{Sha256} `{Collation} `{DateFallback}.
(** The receipts below the directory, in the order of their names. *)
Definition contents (directory : string) (v : Inventory) : list (string * string) := map (content directory) (scoped false v directory).
Definition collision_free (a b : string) : Prop := sha256 a = sha256 b -> a = b.

(** A proof stands for the files it was made from: when the proof of one moment matches the
    receipts of another, they have the same names and the same texts, unless the hash of the two
    texts collides. *)
Theorem attested_files directory t identity recovered now proof paths v t' targetUid v' :
  attestCleanup directory t identity recovered now = Ok proof -> recoveryInventory directory t identity = Ok (paths, v) ->
  optionalJson (rt_files t') proof_name = Ok (Some proof) -> root_proof t' targetUid v' directory ->
  collision_free (fingerprint_text false v directory) (fingerprint_text false v' directory) ->
  Forall plain (contents directory v) -> Forall plain (contents directory v') ->
  contents directory v' = contents directory v /\ targetUid = ri_applianceUid identity.
Proof.
  intros Ha Hi Ho (proof' & Ho' & Hm) Hc Hp Hp'. rewrite Ho in Ho'. injection Ho' as <-. unfold attestCleanup in Ha. rewrite Hi in Ha. cbn [res_bind] in Ha. destruct (requireSafe _ _); [|done]. cbn [res_bind] in Ha.
  destruct (iv_journals v) as [|j l]; [done|]. injection Ha as <-. unfold proof_matches in Hm. cbn [json_obj proof_json nullish base.mbind option_bind] in Hm. bool_prop.
  unfold same_text, text_field in *. cbn [dict_get String.eqb Ascii.eqb Bool.eqb base.mbind option_bind json_str nullish] in *.
  repeat match goal with H : String.eqb _ _ = true |- _ => apply String.eqb_eq in H end. split; [|done].
  symmetry. unfold contents in *. rewrite Forall_map in Hp, Hp'. apply hashed_inj; [done | done | by apply Hc].
Qed.
End same.

(** ** Witnesses *)
#[local] Existing Instance example_sha.
#[local] Existing Instance example_order.
#[local] Existing Instance example_dates.
Lemma example_sha_hex s : hex64 (sha256 s) = true.
Proof. unfold sha256, example_sha. by destruct (_ =? 0)%nat. Defined.
Lemma example_in_order : in_order example_directory example_tree example_run "appliance" false.
Proof.
  split; [vm_compute; reflexivity | exists [(example_directory, rt_files example_tree)], []; split; vm_compute; reflexivity|].
  exists (Some (JObj [("version", JNum (Int 1)); ("runId", JStr example_run); ("targetUid", JStr "appliance"); ("state", JStr "finished")])).
  split; [vm_compute; reflexivity|]. intros value E. injection E as <-. split; [vm_compute; reflexivity | left; vm_compute; reflexivity].
Defined.
Lemma example_attest : attestCleanup example_directory example_tree example_identity false example_time = Ok example_proof.
Proof. vm_compute. reflexivity. Defined.

Lemma attested_assessed_witness :
  assessCleanup example_directory (write_file proof_name example_proof example_tree) true example_time = status RegressionCleanup_state_t_verified example_time None.
Proof.
  apply (attested_assessed example_sha_hex example_directory example_tree example_identity false example_time example_time example_proof example_run "appliance");
    [exact example_attest | exact example_in_order | reflexivity | cbn; lia | vm_compute; eexists; reflexivity].
Defined.

Definition example_inventory : Inventory := match recoveryInventory example_directory example_tree example_identity with Ok (_, v) => v | Err _ => empty_inventory end.
Lemma attested_files_witness : contents example_directory example_inventory = contents example_directory example_inventory /\ "appliance" = ri_applianceUid example_identity.
Proof.
  apply (attested_files example_directory example_tree example_identity false example_time example_proof [(example_directory, rt_files example_tree)] example_inventory
    example_attested "appliance" example_inventory).
  - exact example_attest.
  - vm_compute. reflexivity.
  - vm_compute. reflexivity.
  - exists example_proof. split; vm_compute; reflexivity.
  - intros _. reflexivity.
  - vm_compute. repeat (apply List.Forall_cons; [split; reflexivity|]). apply List.Forall_nil.
  - vm_compute. repeat (apply List.Forall_cons; [split; reflexivity|]). apply List.Forall_nil.
Defined.
