(* ===== verification/KubernetesTermination.v ===== *)
(** * The end of a Kubernetes execution (regression/core/kubernetes-termination.ts)

    A runner that was killed leaves a session that never says it finished. Once the API shows
    that its one Pod has ended, [attestKubernetesTermination] records that, bound to exactly
    this session; [verifiedKubernetesTermination] is what a recovery believes later. Objects
    are JSON values; SHA-256, the API and the files are parameters or operations. *)

From S2P Require Import Prelude Canonical Js Number JsonProps DashboardProps JsonPretty RecoveryProps AttestProps Regex Json JsonFields JsonParse Dates Prog Errors Contracts DashboardCore Journal BorrowedModule PrivateFiles LicenseTransaction Recovery.

Local Open Scope string_scope.
Local Open Scope js_scope.
Local Open Scope Z_scope.

(** ** JSON objects

    Kubernetes' own schema fixes the shapes of its objects; where the code looks at a shape
    itself, so do these. *)

Definition nonempty_field (d : dict json) (k : string) : bool := match text_field d k with Some s => truthy s | None => false end.
Definition date_in `{DateFallback} (d : dict json) (k : string) : option Z := base.mbind Date_parse (text_field d k).
Definition sorted_strings (l : list string) : list string := sort_by string_order l.
(** The same strings in some order, as the texts of the sorted arrays compare. *)
Definition same_strings (d : dict json) (k : string) (expected : list string) : bool :=
  match strings_in d k with Some l => bool_decide (sorted_strings l = sorted_strings expected) | None => false end.

Definition uuid_text (s : string) : bool := (String.length s =? 36)%nat && sforall (fun c => is_hex_lower c || Ascii.eqb c "-") s.

(** ** What is believed *)
Section termination.
Context `{Sha256} `{DateFallback}.

Definition termination_holds (proof : dict json) (session runId : string) (identity : RecoveryIdentity) : bool :=
  version_one proof && same_text proof "kind" "kubernetes-termination" && same_text proof "runId" runId && same_text proof "targetUid" (ri_applianceUid identity) &&
  same_strings proof "nodeUids" (ri_nodeUids identity) && uuid_text (text_field proof "runtimeRunUid" ?? "undefined") &&
  nonempty_field proof "jobUid" && nonempty_field proof "podUid" && nonempty_field proof "containerId" &&
  date_field proof "finishedAt" && date_field proof "checkedAt" && same_text proof "sessionHash" (sha256 session).
Definition termination_proved (files : Files) (runId : string) (identity : RecoveryIdentity) : res exn bool :=
  let? body := read_in files "runner-termination.json" in
  let? proof := parse_text body in
  let? session := read_in files "runner-session.json" in
  let? d := properties proof in
  Ok (termination_holds d session runId identity).
Definition verifiedKubernetesTermination (files : Files) (runId : string) (identity : RecoveryIdentity) : bool :=
  match termination_proved files runId identity with Ok b => b | Err _ => false end.

(** ** What is attested *)
Record TerminationOptions : Type := {
  to_root : string; to_reports : string;
  to_runId : string; to_runtimeRunUid : string; to_accountRunUid : string; to_currentRunUid : string;
  to_identity : RecoveryIdentity
}.
Inductive terminationE : Type -> Type :=
| T_read (path : string) (limit : option Z) : terminationE (res exn string)
| T_get (resource namespace name : string) : terminationE (res exn KubeJson)
| T_list (resource namespace : string) : terminationE (res exn (list KubeJson))
| T_now : terminationE Z
| T_now_text : terminationE string
| T_files (directory : string) : terminationE Files
| T_write (path : string) (value : json) : terminationE (res exn unit).
Notation TM := (M terminationE unit exn).

Definition owner_label : string := "regression.magicstick.dev/run-uid".
Definition regression_namespace : string := "magicstick-regression".
Definition terminal : list string := ["Passed"; "Failed"; "Blocked"; "Cancelled"].
Definition spec_in (o : KubeJson) : dict json := object_in o "spec".
Definition status_in (o : KubeJson) : dict json := object_in o "status".
Definition name_of (o : KubeJson) : string := text_field (metadata o) "name" ?? "".
Definition in_namespace (o : KubeJson) (namespace : string) : bool := same_text (metadata o) "namespace" namespace.
Definition revised (o : KubeJson) : bool := nonempty_field (metadata o) "resourceVersion".
Definition of_run (runUid : string) (o : KubeJson) : bool := same_text (object_in (metadata o) "labels") owner_label runUid.

Definition valid_options (o : TerminationOptions) : bool :=
  rtest run_pattern (to_runId o) && uuid_text (to_runtimeRunUid o) && uuid_text (to_accountRunUid o) && negb (String.eqb (to_runtimeRunUid o) (to_currentRunUid o)).
Definition own_session (o : TerminationOptions) (value : dict json) : bool :=
  version_one value && same_text value "runId" (to_runId o) && same_text value "targetUid" (ri_applianceUid (to_identity o)).
Definition owned_report (o : TerminationOptions) (status : dict json) : bool :=
  version_one status && same_text status "runUid" (to_runtimeRunUid o) &&
  match array_in (object_in status "progress") "ownedRunIds" with
  | Some l => (length l <=? 1000)%nat && existsb (is_text (to_runId o)) l
  | None => false
  end.
Definition run_ended (o : TerminationOptions) (run : KubeJson) : bool :=
  nonempty_field (metadata run) "name" && in_namespace run "ai-system" && revised run &&
  same_text (spec_in run) "applianceUid" (ri_applianceUid (to_identity o)) && includes terminal (text_field (status_in run) "phase" ?? "").
Definition run_account (o : TerminationOptions) (run : KubeJson) : bool :=
  match dict_get (spec_in run) "accountRunUid" with
  | None | Some JNull => String.eqb (to_runtimeRunUid o) (to_accountRunUid o)
  | Some v => is_text (to_accountRunUid o) v
  end && same_strings (spec_in run) "nodeUids" (ri_nodeUids (to_identity o)).
Definition job_ended (o : TerminationOptions) (job : KubeJson) : bool :=
  nonempty_field (metadata job) "uid" && in_namespace job regression_namespace && revised job && of_run (to_runtimeRunUid o) job &&
  negb (truthy_in (status_in job) "active").
Definition pod_owned (job pod : KubeJson) : bool :=
  nonempty_field (metadata pod) "uid" && nonempty_field (metadata pod) "name" && in_namespace pod regression_namespace && revised pod &&
  existsb (fun r => same_text r "kind" "Job" && bool_decide (text_field r "uid" = text_field (metadata job) "uid") && flag_is r "controller" true)
    (objects_in (metadata pod) "ownerReferences").
Definition node_known (o : TerminationOptions) (nodes : list KubeJson) (pod : KubeJson) : bool :=
  existsb (fun n => bool_decide (text_field (metadata n) "name" = text_field (spec_in pod) "nodeName") && includes (ri_nodeUids (to_identity o)) (text_field (metadata n) "uid" ?? "")) nodes.

(** [/@sha256:[a-f0-9]{64}$/] *)
Definition pinned_image (s : string) : bool :=
  (72 <=? String.length s)%nat && startsWith "@sha256:" (drop_str (String.length s - 72) s) && hex64 (drop_str (String.length s - 64) s).
(** The Pod could not start anything that outlives it: one container, no host access. *)
Definition pod_contained (run pod : KubeJson) : bool :=
  let spec := spec_in pod in
  let container := first_in spec "containers" in
  let security := object_in container "securityContext" in
  negb (flag_is spec "hostPID" true) && negb (flag_is spec "shareProcessNamespace" true) && flag_is (object_in spec "securityContext") "runAsNonRoot" true &&
  match array_in spec "containers" with Some [_] => true | _ => false end && same_text container "name" "runner" &&
  match text_field (spec_in run) "image" with Some image => pinned_image image && same_text container "image" image | None => false end &&
  flag_is security "allowPrivilegeEscalation" false && negb (flag_is security "privileged" true) &&
  empty_in (object_in security "capabilities") "add" &&
  match dict_get (object_in security "capabilities") "drop" with Some (JArr l) => existsb (is_text "ALL") l | Some (JStr s) => includesStr "ALL" s | _ => false end &&
  negb (existsb (fun v => truthy_in v "hostPath") (objects_in spec "volumes")) &&
  empty_in spec "initContainers" && empty_in spec "ephemeralContainers".

(** [/^[a-z][a-z0-9-]*:\/\/[a-zA-Z0-9_.-]{1,256}$/] *)
Definition scheme_char (c : ascii) : bool := is_lower c || is_digit c || Ascii.eqb c "-".
Definition id_char (c : ascii) : bool := is_lower c || is_upper c || is_digit c || existsb (Ascii.eqb c) ["_"; "."; "-"]%char.
(** What follows the scheme. *)
Fixpoint after_scheme (s : string) : option string :=
  match s with
  | String c s' => if scheme_char c then after_scheme s' else if startsWith "://" s then Some (drop_str 3 s) else None
  | "" => None
  end.
Definition container_id (s : string) : bool :=
  match s with
  | String c s' =>
      is_lower c && match after_scheme s' with Some r => (1 <=? String.length r)%nat && (String.length r <=? 256)%nat && sforall id_char r | None => false end
  | "" => false
  end.
Definition container_of (pod : KubeJson) : dict json := first_in (status_in pod) "containerStatuses".
Definition ended_of (pod : KubeJson) : dict json := object_in (object_in (container_of pod) "state") "terminated".
Definition container_ended (pod : KubeJson) : bool :=
  let state := object_in (container_of pod) "state" in
  includes ["Succeeded"; "Failed"] (text_field (status_in pod) "phase" ?? "") &&
  match array_in (status_in pod) "containerStatuses" with Some [_] => true | _ => false end && same_text (container_of pod) "name" "runner" &&
  negb (truthy_in state "running") && negb (truthy_in state "waiting") &&
  match base.mbind json_num (dict_get (ended_of pod) "exitCode") with Some n => isInteger n | None => false end &&
  container_id (text_field (container_of pod) "containerID" ?? "").
(** It ended after the session was last written, and not in the future. *)
Definition ended_after (pod : KubeJson) (value : dict json) (now : Z) : bool :=
  match date_in (ended_of pod) "finishedAt", date_in value "updatedAt" with
  | Some finished, Some updated => (finished <=? now) && (updated <=? finished)
  | _, _ => false
  end.
Definition same_object (a b : KubeJson) : bool :=
  bool_decide (text_field (metadata a) "uid" = text_field (metadata b) "uid") &&
  bool_decide (text_field (metadata a) "resourceVersion" = text_field (metadata b) "resourceVersion").
Definition statuses_text (o : KubeJson) : option string := option_map (stringify "" "") (dict_get (status_in o) "containerStatuses").

Definition termination_json (o : TerminationOptions) (job pod : KubeJson) (session now : string) : dict json :=
  ([("version", JNum (Int 1)); ("kind", JStr "kubernetes-termination"); ("runId", JStr (to_runId o)); ("targetUid", JStr (ri_applianceUid (to_identity o)));
    ("nodeUids", JArr (map JStr (ri_nodeUids (to_identity o)))); ("runtimeRunUid", JStr (to_runtimeRunUid o)); ("accountRunUid", JStr (to_accountRunUid o));
    ("jobUid", JStr (text_field (metadata job) "uid" ?? "")); ("podUid", JStr (text_field (metadata pod) "uid" ?? ""));
    ("containerId", JStr (text_field (container_of pod) "containerID" ?? "")); ("finishedAt", JStr (text_field (ended_of pod) "finishedAt" ?? ""));
    ("checkedAt", JStr now); ("sessionHash", JStr (sha256 session))])%list.

Definition parsed_dict (body : string) : TM (dict json) := let! v := of_res (parse_text body) in of_res (properties v).
Definition session_path (o : TerminationOptions) : string := path_join (path_join (to_root o) (to_runId o)) "runner-session.json".
Definition report_path (o : TerminationOptions) : string := path_join (path_join (to_reports o) (to_runtimeRunUid o)) "status.json".
Definition termination_path (o : TerminationOptions) : string := path_join (path_join (to_root o) (to_runId o)) "runner-termination.json".
Definition only_one (l : list KubeJson) (code : ReasonCode) : TM KubeJson := match l with [x] => mret x | _ => throw (harness code) end.

(** The session and the report name the run. *)
Definition read_evidence (o : TerminationOptions) : TM (string * dict json) :=
  requireSafeM (valid_options o) RECOVERY ;;
  let! session := await (T_read (session_path o) None) in
  let! value := parsed_dict session in
  requireSafeM (own_session o value) RECOVERY ;;
  let! report := await (T_read (report_path o) (Some (8 * 1024 * 1024))) in
  let! status := parsed_dict report in
  requireSafeM (owned_report o status) OWNERSHIP ;;
  mret (session, value).
Definition read_objects (o : TerminationOptions) (value : dict json) : TM (KubeJson * KubeJson * KubeJson) :=
  let! runs := await (T_list "regressionruns.appliance.magicstick.dev" "ai-system") in
  let! run := only_one (List.filter (fun r => same_text (metadata r) "uid" (to_runtimeRunUid o)) runs) OWNERSHIP in
  requireSafeM (run_ended o run) PROCESS_STATE ;;
  requireSafeM (run_account o run) OWNERSHIP ;;
  let! job := await (T_get "jobs.batch" regression_namespace (name_of run)) in
  requireSafeM (job_ended o job) OWNERSHIP ;;
  let! pods := await (T_list "pods" regression_namespace) in
  let! pod := only_one (List.filter (of_run (to_runtimeRunUid o)) pods) PROCESS_STATE in
  requireSafeM (pod_owned job pod) OWNERSHIP ;;
  let! nodes := await (T_list "nodes" "") in
  requireSafeM (node_known o nodes pod) IDENTITY ;;
  let! now := await_ T_now in
  requireSafeM (pod_contained run pod && container_ended pod && ended_after pod value now) PROCESS_STATE ;;
  mret (run, job, pod).
(** The same reads once more: nothing was replaced meanwhile. *)
Definition read_again (o : TerminationOptions) (session : string) (run job pod : KubeJson) : TM unit :=
  let! again := await (T_get "pods" regression_namespace (name_of pod)) in
  let! jobAgain := await (T_get "jobs.batch" regression_namespace (name_of run)) in
  let! runAgain := await (T_get "regressionruns.appliance.magicstick.dev" "ai-system" (name_of run)) in
  requireSafeM (same_object again pod && same_object jobAgain job && same_object runAgain run && bool_decide (statuses_text again = statuses_text pod)) CONFLICT ;;
  let! body := await (T_read (session_path o) None) in
  requireSafeM (String.eqb body session) CONFLICT.
Definition attestKubernetesTermination (o : TerminationOptions) : TM unit :=
  let! (session, value) := read_evidence o in
  let! (run, job, pod) := read_objects o value in
  read_again o session run job pod ;;
  let! now := await_ T_now_text in
  await (T_write (termination_path o) (JObj (termination_json o job pod session now))).

(** *** The reader of the bootstrap: kubectl's arguments, and the items of a list *)
Definition in_scope (ns : string) : list string := if truthy ns then ["-n"; ns] else [].
Definition get_args (resource ns name : string) : list string := (["get"; resource; name] ++ in_scope ns ++ ["-o"; "json"])%list.
Definition list_args (resource ns : string) : list string := (["get"; resource] ++ in_scope ns ++ ["-o"; "json"])%list.

Definition env_of (env : dict string) (k : string) : option string := dict_get env k.
(** [{...options, …}] of a session to reconcile: [reports] and [runtimeRunUid] may be given. *)
Definition reconcile_options (root runId : string) (identity : RecoveryIdentity) (runtimeRunUid reports : option string) (env : dict string) : TerminationOptions :=
  {| to_root := root; to_reports := reports ?? "/state/reports"; to_runId := runId;
     to_runtimeRunUid := (runtimeRunUid ??? env_of env "REGRESSION_ACCOUNT_RUN_UID") ?? "";
     to_accountRunUid := (env_of env "REGRESSION_ACCOUNT_RUN_UID" ??? env_of env "REGRESSION_RUN_UID") ?? "";
     to_currentRunUid := env_of env "REGRESSION_RUN_UID" ?? ""; to_identity := identity |}.
Definition reconcileKubernetesSession (root runId : string) (identity : RecoveryIdentity) (runtimeRunUid reports : option string) (env : dict string) : TM unit :=
  if bool_decide (env_of env "REGRESSION_EXECUTION" = Some "kubernetes") then
    let o := reconcile_options root runId identity runtimeRunUid reports env in
    let! session := await (T_read (session_path o) None) in
    let! v := of_res (parse_text session) in
    let! _ := of_res (properties v) in
    if session_stopped v then mret tt
    else
      attestKubernetesTermination o ;;
      let! files := await_ (T_files (path_join root runId)) in
      requireSafeM (verifiedKubernetesTermination files runId identity) PROCESS_STATE
  else mret tt.
End termination.

(** ** Theorems on the end of a Kubernetes execution

    An attestation is written only when the session, the report, the run, its Job, its one Pod
    and the node agree that exactly this execution has ended, and when reading them once more
    showed no change ([attested_ended]). It is then believed for that session and no other. *)

Section termination.
Context `{Sha256} `{DateFallback}.
Variable o : TerminationOptions.

(** ** What was seen *)
Definition Seen : Type := list (@event terminationE).
Definition note X (h : Seen) (op : terminationE X) (x : X) : Seen := Ev op x :: h.
Definition any_answer X (h : Seen) (op : terminationE X) (x : X) : Prop := True.

(** The evidence for an end: the files and objects read, and each of them as the code demands. *)
Record ended (h : Seen) (value : dict json) (session : string) (run job pod : KubeJson) : Prop := {
  en_options : valid_options o = true;
  en_session : exists v, JSON_parse session = Some v /\ properties v = Ok value /\ own_session o value = true;
  en_report : exists body v status, Ev (T_read (report_path o) (Some (8 * 1024 * 1024))) (Ok body) ∈ h /\ JSON_parse body = Some v /\
    properties v = Ok status /\ owned_report o status = true;
  en_run : exists runs, Ev (T_list "regressionruns.appliance.magicstick.dev" "ai-system") (Ok runs) ∈ h /\
    List.filter (fun r => same_text (metadata r) "uid" (to_runtimeRunUid o)) runs = [run] /\ run_ended o run = true /\ run_account o run = true;
  en_job : Ev (T_get "jobs.batch" regression_namespace (name_of run)) (Ok job) ∈ h /\ job_ended o job = true;
  en_pod : exists pods, Ev (T_list "pods" regression_namespace) (Ok pods) ∈ h /\ List.filter (of_run (to_runtimeRunUid o)) pods = [pod] /\
    pod_owned job pod = true /\ pod_contained run pod = true /\ container_ended pod = true;
  en_node : exists nodes, Ev (T_list "nodes" "") (Ok nodes) ∈ h /\ node_known o nodes pod = true;
  en_time : exists t, Ev T_now t ∈ h /\ ended_after pod value t = true
}.
(** The second reading: everything as it was, the session last. *)
Record unchanged (h : Seen) (session : string) (run job pod : KubeJson) : Prop := {
  un_pod : exists again, Ev (T_get "pods" regression_namespace (name_of pod)) (Ok again) ∈ h /\ same_object again pod = true /\ statuses_text again = statuses_text pod;
  un_job : exists again, Ev (T_get "jobs.batch" regression_namespace (name_of run)) (Ok again) ∈ h /\ same_object again job = true;
  un_run : exists again, Ev (T_get "regressionruns.appliance.magicstick.dev" "ai-system" (name_of run)) (Ok again) ∈ h /\ same_object again run = true;
  un_session : Ev (T_read (session_path o) None) (Ok session) ∈ h
}.
Definition may_write (h : Seen) (path : string) (v : json) : Prop := path = termination_path o /\
  exists h0 mid value session now run job pod, h = Ev T_now_text now :: (mid ++ h0)%list /\ v = JObj (termination_json o job pod session now) /\
    Ev (T_read (session_path o) None) (Ok session) ∈ h0 /\ ended h0 value session run job pod /\ unchanged mid session run job pod.
Definition ended_pre X (h : Seen) (op : terminationE X) : Prop := match op with T_write path v => may_write h path v | _ => True end.
Notation W := (wpm ended_pre any_answer note).

(** ** The steps *)
Lemma seen_await {X} (op : terminationE (res exn X)) s h (Q : Seen -> unit -> res exn X -> Prop) :
  ended_pre _ h op -> (forall r, Q (Ev op r :: h) s r) -> W (await op) s h Q.
Proof using Type. intros Hp HQ. apply wpm_await; [done|]. intros r _. apply HQ. Qed.
Lemma seen_await_ {X} (op : terminationE X) s h (Q : Seen -> unit -> res exn X -> Prop) :
  ended_pre _ h op -> (forall r, Q (Ev op r :: h) s (Ok r)) -> W (await_ op) s h Q.
Proof using Type. intros Hp HQ. apply wpm_await_; [done|]. intros r _. apply HQ. Qed.
Lemma only_one_wp l c s h (Q : Seen -> unit -> res exn KubeJson -> Prop) : (forall x, l = [x] -> Q h s (Ok x)) -> (Q h s (Err (harness c))) -> W (only_one l c) s h Q.
Proof using Type. intros Ho He. unfold only_one. destruct l as [|x [|y l]]; [by apply wpm_throw | by apply wpm_ret, Ho | by apply wpm_throw]. Qed.
Lemma parsed_wp body s h (Q : Seen -> unit -> res exn (dict json) -> Prop) :
  (forall v d, JSON_parse body = Some v -> properties v = Ok d -> Q h s (Ok d)) -> (forall e, Q h s (Err e)) -> W (parsed_dict body) s h Q.
Proof using Type.
  intros Ho He. unfold parsed_dict, parse_text. apply wpm_bind, wpm_of_res. destruct (JSON_parse body) as [v|]; [|apply He].
  apply wpm_of_res. destruct (properties v) as [d|] eqn:E; [by apply (Ho v) | apply He].
Qed.

(** What the files say of the run. *)
Record evident (h : Seen) (session : string) (value : dict json) : Prop := {
  ev_options : valid_options o = true;
  ev_read : Ev (T_read (session_path o) None) (Ok session) ∈ h;
  ev_session : exists v, JSON_parse session = Some v /\ properties v = Ok value /\ own_session o value = true;
  ev_report : exists body v status, Ev (T_read (report_path o) (Some (8 * 1024 * 1024))) (Ok body) ∈ h /\ JSON_parse body = Some v /\
    properties v = Ok status /\ owned_report o status = true
}.
Lemma read_evidence_wp s h : W (read_evidence o) s h (fun h' _ r => forall session value, r = Ok (session, value) -> evident h' session value).
Proof using Type.
  unfold read_evidence. apply wpm_bind, wpm_requireSafe; [intros Ho | done]. apply wpm_bind, seen_await; [done|]. intros [session|]; [|done].
  apply wpm_bind, parsed_wp; [intros v value Hv Hd | done]. apply wpm_bind, wpm_requireSafe; [intros Hs | done].
  apply wpm_bind, seen_await; [done|]. intros [body|]; [|done]. apply wpm_bind, parsed_wp; [intros v' status Hv' Hd' | done].
  apply wpm_bind, wpm_requireSafe; [intros Hr | done]. apply wpm_ret. intros ? ? [= <- <-]. split; [done | set_solver | by exists v|].
  exists body, v', status. split; [set_solver | done].
Qed.
Lemma read_objects_wp session value s h : evident h session value ->
  W (read_objects o value) s h (fun h' _ r => forall run job pod, r = Ok (run, job, pod) -> h ⊆ h' /\ ended h' value session run job pod).
Proof using Type.
  intros He. unfold read_objects. apply wpm_bind, seen_await; [done|]. intros [runs|]; [|done]. apply wpm_bind, only_one_wp; [intros run Hrun | done].
  apply wpm_bind, wpm_requireSafe; [intros Hended | done]. apply wpm_bind, wpm_requireSafe; [intros Hacc | done].
  apply wpm_bind, seen_await; [done|]. intros [job|]; [|done]. apply wpm_bind, wpm_requireSafe; [intros Hjob | done].
  apply wpm_bind, seen_await; [done|]. intros [pods|]; [|done]. apply wpm_bind, only_one_wp; [intros pod Hpod | done].
  apply wpm_bind, wpm_requireSafe; [intros Howned | done]. apply wpm_bind, seen_await; [done|]. intros [nodes|]; [|done].
  apply wpm_bind, wpm_requireSafe; [intros Hnode | done]. apply wpm_bind, seen_await_; [done|]. intros t.
  apply wpm_bind, wpm_requireSafe; [intros Hc | done]. apply wpm_ret. intros ? ? ? [= <- <- <-]. bool_prop. destruct He as [Ha1 Ha2 Ha3 (body & v & st & Hb & Hst)].
  split; [set_solver|]. split; [done | done | exists body, v, st; split; [set_solver | done] | exists runs; split; [set_solver | done] | split; [set_solver | done] |
    exists pods; split; [set_solver | done] | exists nodes; split; [set_solver | done] | exists t; split; [set_solver | done]].
Qed.
Lemma read_again_wp session run job pod s h :
  W (read_again o session run job pod) s h (fun h' _ r => r = Ok tt -> exists mid, h' = (mid ++ h)%list /\ unchanged mid session run job pod).
Proof using Type.
  unfold read_again. apply wpm_bind, seen_await; [done|]. intros [again|]; [|done]. apply wpm_bind, seen_await; [done|]. intros [jobAgain|]; [|done].
  apply wpm_bind, seen_await; [done|]. intros [runAgain|]; [|done]. apply wpm_bind, wpm_requireSafe; [intros Hs | done].
  apply wpm_bind, seen_await; [done|]. intros [body|]; [|done]. apply wpm_requireSafe; [intros Hb _ | done]. bool_prop. apply String.eqb_eq in Hb as ->.
  eexists [_; _; _; _]. split; [reflexivity|]. split; [exists again; split; [set_solver | done] | exists jobAgain; split; [set_solver | done] | exists runAgain; split; [set_solver | done] | set_solver].
Qed.
(** A written attestation, with what was seen before. *)
Definition attested (h : Seen) : Prop := exists session run job pod now value mid h0,
  h = Ev (T_write (termination_path o) (JObj (termination_json o job pod session now))) (Ok tt) :: Ev T_now_text now :: (mid ++ h0)%list /\
  Ev (T_read (session_path o) None) (Ok session) ∈ h0 /\ ended h0 value session run job pod /\ unchanged mid session run job pod.
Lemma attest_wp s h : W (attestKubernetesTermination o) s h (fun h' _ r => r = Ok tt -> attested h').
Proof using Type.
  unfold attestKubernetesTermination. apply wpm_bind. eapply wpm_mono; [|apply read_evidence_wp]. intros h1 s1 [[session value]|] He; [|done].
  specialize (He _ _ eq_refl). apply wpm_bind. eapply wpm_mono; [|by apply read_objects_wp]. intros h2 s2 [[[run job] pod]|] Ho; [|done].
  apply wpm_bind. eapply wpm_mono; [|apply read_again_wp]. intros h3 s3 [[]|] Ha; [|done]. destruct (Ha eq_refl) as (mid & -> & Hu).
  apply wpm_bind, seen_await_; [done|]. intros now.
  destruct (Ho run job pod eq_refl) as [Hsub Hend]. assert (Hread : Ev (T_read (session_path o) None) (Ok session) ∈ h2) by apply Hsub, He.
  apply seen_await; [|intros r ->; by exists session, run, job, pod, now, value, mid, h2].
  split; [done|]. by exists h2, mid, value, session, now, run, job, pod.
Qed.

(** ** What is believed *)
Lemma termination_reads job pod session now : file_reads (JObj (termination_json o job pod session now)).
Proof using Type.
  cbn. split; [repeat (apply NoDup_cons; split; [set_solver|]); apply NoDup_nil; done|]. split; [repeat (apply List.Forall_cons; [done|]); by apply List.Forall_nil|].
  repeat (split; [try done; try apply one_reads|]); try done. apply fold_and. apply Forall_forall. intros x Hx. apply list_elem_of_In, List.in_map_iff in Hx as (n & <- & _). done.
Qed.
(** What the checks say of the texts of a proof. *)
Lemma ended_texts h value session run job pod : ended h value session run job pod ->
  uuid_text (to_runtimeRunUid o) = true /\ nonempty_field (metadata job) "uid" = true /\ nonempty_field (metadata pod) "uid" = true /\
  truthy (text_field (container_of pod) "containerID" ?? "") = true /\ is_Some (Date_parse (text_field (ended_of pod) "finishedAt" ?? "")).
Proof using Type.
  intros [Hopt _ _ _ [_ Hjob] (pods & _ & _ & Hpod & _ & Hc) _ (t & _ & Ht)]. unfold valid_options in Hopt. unfold job_ended in Hjob. unfold pod_owned in Hpod. unfold container_ended in Hc.
  repeat rewrite andb_true_iff in Hopt. repeat rewrite andb_true_iff in Hjob. repeat rewrite andb_true_iff in Hpod. apply andb_prop in Hc. destruct Hc as [_ Hc]. split; [tauto|]. split; [tauto|]. split; [tauto|]. split.
  - by destruct (text_field (container_of pod) "containerID" ?? "").
  - unfold ended_after, date_in in Ht. destruct (text_field (ended_of pod) "finishedAt") as [f|]; [|done]. cbn in *. by destruct (Date_parse f).
Qed.
Lemma termination_back h value session run job pod now : ended h value session run job pod -> is_Some (Date_parse now) ->
  termination_holds (termination_json o job pod session now) session (to_runId o) (to_identity o) = true.
Proof using Type.
  intros He Hnow. destruct (ended_texts _ _ _ _ _ _ He) as (Hu & Hj & Hp & Hc & Hf). unfold nonempty_field in Hj, Hp.
  unfold termination_holds, same_strings, strings_in, nonempty_field, date_field, same_text, version_one, text_field, termination_json.
  cbn [dict_get String.eqb Ascii.eqb Bool.eqb base.mbind option_bind json_str json_num nullish]. rewrite strings_back, Hu, Hc.
  destruct (text_field (metadata job) "uid") as [j|]; [|done]. destruct (text_field (metadata pod) "uid") as [p|]; [|done]. cbn [nullish]. rewrite Hj, Hp.
  rewrite !String.eqb_refl, !bool_decide_eq_true_2 by done. done.
Qed.
Lemma termination_believed h value session run job pod now files : ended h value session run job pod -> is_Some (Date_parse now) ->
  read_in files "runner-session.json" = Ok session -> read_in files "runner-termination.json" = Ok (body_of (JObj (termination_json o job pod session now))) ->
  verifiedKubernetesTermination files (to_runId o) (to_identity o) = true.
Proof using Type.
  intros He Hnow Hs Hp. unfold verifiedKubernetesTermination, termination_proved. rewrite Hp. cbn [res_bind]. unfold parse_text.
  rewrite body_reads by (done || apply termination_reads). cbn [res_bind]. rewrite Hs. cbn [res_bind properties json_obj nullish]. by eapply termination_back.
Qed.

Lemma admissible_any_answer h tr : admissible any_answer note h tr.
Proof using Type. revert h. induction tr as [|[X op x] tr IH]; intros h; [done | by split]. Qed.

(** The attestation is written last, and it is believed of every directory that holds it beside
    the session that was read. *)
Definition written_and_believed (h : Seen) : Prop := exists session job pod now h',
  h = Ev (T_write (termination_path o) (JObj (termination_json o job pod session now))) (Ok tt) :: Ev T_now_text now :: h' /\
  Ev (T_read (session_path o) None) (Ok session) ∈ h' /\
  forall files, is_Some (Date_parse now) -> read_in files "runner-session.json" = Ok session ->
    read_in files "runner-termination.json" = Ok (body_of (JObj (termination_json o job pod session now))) ->
    verifiedKubernetesTermination files (to_runId o) (to_identity o) = true.

(** C14: An attestation of the end of a Kubernetes execution is written only when the session, the
    report, the one run, its Job, its one Pod, the Pod's container and its node were read and all
    name this execution as ended, after the session's last word and not in the future, and when,
    after that, Pod, Job, run and session were read once more and had not changed. When the
    attestation returns it has been written last, and it is believed of every directory that holds
    it beside that session. *)
Theorem attested_ended tr q : steps (attestKubernetesTermination o tt) tr q ->
  respects ended_pre note [] tr /\ (q = Done (tt, Ok tt) -> written_and_believed (foldl (ghost note) [] tr)).
Proof using Type.
  intros Hs. destruct (wp_steps _ _ _ _ _ _ _ _ (attest_wp tt []) Hs (admissible_any_answer _ _)) as [Hr Hw]. split; [done|]. intros ->.
  destruct (Hw eq_refl) as (session & run & job & pod & now & value & mid & h0 & Hh & Hread & He & Hu).
  exists session, job, pod, now, (mid ++ h0)%list. split; [done|]. split; [set_solver|]. intros files Hnow Hs' Hp. by eapply termination_believed.
Qed.
End termination.

(** Without obligations every program is allowed everything. *)
Lemma wp_true {A} (p : prog terminationE A) (h : Seen) : wp (fun _ _ _ => True) any_answer note p h (fun _ _ => True).
Proof. revert h. induction p as [a|X op k IH]; intros h; [done|]. split; [done|]. intros x _. apply IH. Qed.

(** What a bootstrap reconciles it has seen to be over: its session said so, or the attestation
    that was written is believed. *)
Lemma reconciled `{Sha256} `{DateFallback} root runId identity runtimeRunUid reports env s h :
  env_of env "REGRESSION_EXECUTION" = Some "kubernetes" ->
  wpm (fun _ _ _ => True) any_answer note (reconcileKubernetesSession root runId identity runtimeRunUid reports env) s h (fun h' _ r => r = Ok tt ->
    (exists body v, Ev (T_read (path_join (path_join root runId) "runner-session.json") None) (Ok body) ∈ h' /\ JSON_parse body = Some v /\ session_stopped v = true) \/
    (exists files, Ev (T_files (path_join root runId)) files ∈ h' /\ verifiedKubernetesTermination files runId identity = true)).
Proof.
  intros Henv. unfold reconcileKubernetesSession. rewrite bool_decide_eq_true_2 by done. apply wpm_bind, wpm_await; [done|]. intros [body|] _; [|done].
  apply wpm_bind, wpm_of_res. unfold parse_text. destruct (JSON_parse body) as [v|] eqn:Ev; [|done]. apply wpm_bind, wpm_of_res. destruct (properties v); [|done].
  destruct (session_stopped v) eqn:Es.
  - apply wpm_ret. intros _. left. exists body, v. split; [set_solver | done].
  - apply wpm_bind. apply (wpm_mono _ _ _ _ _ _ (fun _ _ _ => True)); [|apply wp_true]. intros h1 s1 [[]|] _; [|done]. apply wpm_bind, wpm_await_; [done|]. intros files _.
    apply wpm_of_res. destruct (verifiedKubernetesTermination files runId identity) eqn:Ef; [|done]. intros _. right. exists files. split; [set_solver | done].
Qed.

(** ** Witnesses *)
#[local] Existing Instance example_sha.
#[local] Existing Instance example_dates.

Definition example_execution : string := "11111111-0000-0000-0000-00000000000b".
Definition example_options : TerminationOptions :=
  {| to_root := "/runs"; to_reports := "/state/reports"; to_runId := example_run; to_runtimeRunUid := example_execution; to_accountRunUid := example_execution;
     to_currentRunUid := "11111111-0000-0000-0000-00000000000c"; to_identity := example_identity |}.
Definition example_word : string :=
  stringify "" "" (JObj [("version", JNum (Int 1)); ("runId", JStr example_run); ("targetUid", JStr "appliance"); ("updatedAt", JStr "2026-01-02T03:00:00.000Z")]).
Definition example_report : string :=
  stringify "" "" (JObj [("version", JNum (Int 1)); ("runUid", JStr example_execution); ("progress", JObj [("ownedRunIds", JArr [JStr example_run])])]).
Definition example_image : string := "registry/runner@sha256:" +:+ String.concat "" (repeat "0" 64).
Definition kube_meta (uid name namespace : string) (more : dict json) : string * json :=
  ("metadata", JObj ([("uid", JStr uid); ("name", JStr name); ("namespace", JStr namespace); ("resourceVersion", JStr "7"); ("labels", JObj [(owner_label, JStr example_execution)])] ++ more)).
Definition example_kube_run : KubeJson :=
  [kube_meta example_execution "run-b" "ai-system" [];
   ("spec", JObj [("applianceUid", JStr "appliance"); ("nodeUids", JArr [JStr "node-1"]); ("image", JStr example_image)]); ("status", JObj [("phase", JStr "Failed")])].
Definition example_job : KubeJson := [kube_meta "job-1" "run-b" regression_namespace []; ("status", JObj [("failed", JNum (Int 1))])].
Definition example_pod : KubeJson :=
  [kube_meta "pod-1" "run-b-x" regression_namespace [("ownerReferences", JArr [JObj [("kind", JStr "Job"); ("uid", JStr "job-1"); ("controller", JBool true)]])];
   ("spec", JObj [("nodeName", JStr "node"); ("securityContext", JObj [("runAsNonRoot", JBool true)]);
     ("containers", JArr [JObj [("name", JStr "runner"); ("image", JStr example_image);
       ("securityContext", JObj [("allowPrivilegeEscalation", JBool false); ("capabilities", JObj [("drop", JArr [JStr "ALL"])])])]])]);
   ("status", JObj [("phase", JStr "Failed"); ("containerStatuses", JArr [JObj [("name", JStr "runner"); ("containerID", JStr "containerd://abc123");
     ("state", JObj [("terminated", JObj [("exitCode", JNum (Int 137)); ("finishedAt", JStr "2026-01-02T03:01:00.000Z")])])]])])].
Definition example_node : KubeJson := [("metadata", JObj [("uid", JStr "node-1"); ("name", JStr "node")])].
Definition ended_world (X : Type) (op : terminationE X) (w : unit) : X * unit :=
  match op with
  | T_read path _ => (Ok (if String.eqb path (report_path example_options) then example_report else example_word), w)
  | T_get resource _ _ => (Ok (if String.eqb resource "pods" then example_pod else if String.eqb resource "jobs.batch" then example_job else example_kube_run), w)
  | T_list resource _ => (Ok [if String.eqb resource "pods" then example_pod else if String.eqb resource "nodes" then example_node else example_kube_run], w)
  | T_now => (Date_parse example_time ?? 0, w)
  | T_now_text => (example_time, w)
  | T_files _ => ([], w)
  | T_write _ _ => (Ok tt, w)
  end.
Definition ended_run : prog terminationE (unit * res exn unit) := attestKubernetesTermination example_options tt.
Definition ended_files : Files :=
  [("runner-session.json", Some example_word); ("runner-termination.json", Some (body_of (JObj (termination_json example_options example_job example_pod example_word example_time))))].

Lemma attested_ended_witness : respects (ended_pre example_options) note [] (trace ended_world ended_run tt) /\
  written_and_believed example_options (foldl (ghost note) [] (trace ended_world ended_run tt)).
Proof.
  pose proof (exec_steps ended_world ended_run tt) as Hs.
  assert (E : (exec ended_world ended_run tt).1 = (tt, Ok tt)) by (vm_compute; reflexivity). rewrite E in Hs. unfold ended_run in Hs at 1.
  destruct (attested_ended example_options _ _ Hs) as [Hr Hw]. split; [exact Hr | exact (Hw eq_refl)].
Defined.
(** Another session's files are not believed. *)
Example other_session : verifiedKubernetesTermination ended_files example_run example_identity = true /\
  verifiedKubernetesTermination (dict_set ended_files "runner-session.json" (Some (example_word +:+ " "))) example_run example_identity = false.
Proof. vm_compute. done. Qed.
