(* ===== verification/Config.v ===== *)
(** * The configuration of a lab (regression/core/config.ts)

    [parseLabConfig] turns the private JSON file of a lab into a [LabConfig], or refuses it: the
    identities the observer must find, bounded model fixtures, and the files with credentials.
    The platform's URL parser is a parameter. *)

From S2P Require Import Prelude Js Number Json JsonParse JsonFields DashboardCore Prog Errors.

Local Open Scope string_scope.
Local Open Scope js_scope.
Local Open Scope Z_scope.

(** ** Texts *)

(** One character, then between [lo] and [hi] more: [/^[h][t]{lo,hi}$/]. *)
Definition shaped (head tail : ascii -> bool) (lo hi : nat) (s : string) : bool :=
  match s with
  | String c r => head c && sforall tail r && (lo <=? String.length r)%nat && (String.length r <=? hi)%nat
  | "" => false
  end.
Definition sized (f : ascii -> bool) (lo hi : nat) (s : string) : bool := sforall f s && (lo <=? String.length s)%nat && (String.length s <=? hi)%nat.
Definition one_of (chars : string) (c : ascii) : bool := existsb (Ascii.eqb c) (String.list_ascii_of_string chars).
Definition alnum_or (chars : string) (c : ascii) : bool := is_alnum c || one_of chars c.
Definition after (prefix : string) (f : string -> bool) (s : string) : bool := startsWith prefix s && f (drop_str (String.length prefix) s).

Definition plain_text : string -> bool := shaped is_alnum (alnum_or "._:@/+-") 0 255.
Definition digest_text : string -> bool := after "sha256:" (sized is_hex_lower 64 64).
Definition ollama_url : string -> bool := after "ollama://" (sized (alnum_or "._:/+-") 1 200).
Definition hf_url : string -> bool := after "hf://" (sized (alnum_or "._/+-") 3 200).
Definition cache_text : string -> bool := sized (fun c => is_lower c || is_digit c || Ascii.eqb c "_") 2 16.
Definition reason_text : string -> bool := shaped is_alnum (alnum_or " ._:/()+-") 2 159.
Definition query_text : string -> bool := shaped is_alnum (alnum_or " ._:/+-") 1 79.
Definition repo_part : string -> bool := shaped is_alnum (alnum_or "._-") 0 99.
Definition repo_text (s : string) : bool := match split "/"%char s with [a; b] => repo_part a && repo_part b | _ => false end.
Definition device_text : string -> bool := sized (alnum_or "._:/-") 1 255.
Definition pci_text (s : string) : bool :=
  (String.length s =? 12)%nat && sized is_hex_lower 4 4 (slice 0 4 s) && String.eqb (slice 4 5 s) ":" && sized is_hex_lower 2 2 (slice 5 7 s) &&
  String.eqb (slice 7 8 s) ":" && sized is_hex_lower 2 2 (slice 8 10 s) && String.eqb (slice 10 11 s) "." && sized (in_range "0" "7") 1 1 (slice 11 12 s).
Definition not_space (c : ascii) : bool := negb (is_space c).
Definition https_text : string -> bool := after "https://" (fun r => truthy r && sforall not_space r).
Definition http_text (s : string) : bool := https_text s || after "http://" (fun r => truthy r && sforall not_space r) s.

(** ** Values *)
Definition refuse {A} : res exn A := Err (harness CONFIG).
Definition object (value : option json) : res exn (dict json) := match value with Some (JObj d) => Ok d | _ => refuse end.
Definition text (pattern : string -> bool) (value : option json) : res exn string :=
  match value with
  | Some (JStr s) => if pattern s && negb (includesStr "CHANGEME" s) then Ok s else refuse
  | _ => refuse
  end.
Definition array (value : option json) : res exn (list json) :=
  match value with Some (JArr l) => if (length l <=? 64)%nat then Ok l else refuse | _ => refuse end.
(** A safe integer between two bounds. *)
Definition bounded (lo hi : Z) (n : number) : option Z :=
  match n with Int z => if isSafeInteger n && (lo <=? z) && (z <=? hi) then Some z else None | _ => None end.
Definition bounded_in (lo hi : Z) (value : option json) : res exn Z :=
  match base.mbind json_num value with Some n => match bounded lo hi n with Some z => Ok z | None => refuse end | None => refuse end.
Definition timeout (value : option json) (fallback maximum : Z) : res exn Z :=
  match value with None => Ok fallback | Some _ => bounded_in 100 maximum value end.
(** [value ? f(value) : …] *)
Definition if_truthy {A} (f : option json -> res exn A) (value : option json) : res exn (option A) :=
  match value with Some v => if json_truthy v then let? a := f value in Ok (Some a) else Ok None | None => Ok None end.
Definition if_defined {A} (f : option json -> res exn A) (value : option json) : res exn (option A) :=
  match value with Some _ => let? a := f value in Ok (Some a) | None => Ok None end.

(** [isAbsolute] and [resolve] of POSIX paths; [cwd] is where the process runs. *)
Definition normal_segments (segments : list string) : list string :=
  rev (foldl (fun acc s => if String.eqb s "" || String.eqb s "." then acc else if String.eqb s ".." then tail acc else s :: acc) [] segments).
Definition normal_path (s : string) : string := "/" +:+ join "/" (normal_segments (split "/"%char s)).
Definition isAbsolute (s : string) : bool := startsWith "/" s.
Definition resolve (cwd directory value : string) : string :=
  normal_path (if isAbsolute value then value else if isAbsolute directory then directory +:+ "/" +:+ value else cwd +:+ "/" +:+ directory +:+ "/" +:+ value).
Definition path_char (c : ascii) : bool := negb (one_of (String (unit_of 13) (String (unit_of 10) (String (unit_of 0) ""))) c).
Definition path_text (s : string) : bool := truthy s && (String.length s <? 4096)%nat && sforall path_char s.

(** A parsed URL. *)
Record Url : Type := {
  u_protocol : string; u_origin : string; u_href : string; u_hostname : string; u_port : string; u_pathname : string;
  u_username : string; u_password : string; u_search : string; u_hash : string;
  (** The decoded pairs of [searchParams], in order. *)
  u_searchParams : list (string * string)
}.
Class WebUrl : Type := web_url : string -> option Url.
Definition bare_url (u : Url) : bool := negb (truthy (u_username u)) && negb (truthy (u_password u)) && negb (truthy (u_search u)) && negb (truthy (u_hash u)).

Section parse.
Context `{WebUrl} (cwd : string).

Definition hostname (value : option json) : res exn string :=
  let? s := text https_text value in
  match web_url s with
  | Some u => if String.eqb (u_protocol u) "https:" && bare_url u && String.eqb (u_pathname u) "/" then Ok (u_origin u) else refuse
  | None => refuse
  end.
(** [/^[a-z0-9-]+\.[a-z0-9-]+\.svc\.cluster\.local$/] *)
Definition dns_label (s : string) : bool := truthy s && sforall (fun c => is_lower c || is_digit c || Ascii.eqb c "-") s.
Definition service_host (s : string) : bool := match split "."%char s with [a; b; "svc"; "cluster"; "local"] => dns_label a && dns_label b | _ => false end.
Definition internal_provider (u : Url) : bool :=
  String.eqb (u_protocol u) "http:" && service_host (u_hostname u) && (negb (truthy (u_port u)) || String.eqb (u_port u) "80") && String.eqb (u_pathname u) "/openai/v1".
Definition endpoint (ownedProvider : bool) (value : option json) : res exn string :=
  let? s := text http_text value in
  match web_url s with
  | Some u =>
      if (String.eqb (u_protocol u) "https:" || (ownedProvider && internal_provider u)) && bare_url u && startsWith "/" (u_pathname u) && negb (includesStr "//" (u_pathname u))
      then Ok (strip_last "/" (u_href u)) else refuse
  | None => refuse
  end.
Definition path (directory : string) (value : option json) : res exn string :=
  match value with
  | Some (JStr s) => if path_text s then Ok (if isAbsolute s then s else resolve cwd directory s) else refuse
  | _ => refuse
  end.

(** ** The configuration *)
Inductive Engine : Type := OLlama | VLLM.
Definition engine_name (e : Engine) : string := match e with OLlama => "OLlama" | VLLM => "VLLM" end.
Inductive GpuTarget : Type := amd_gpu | nvidia_gpu.
Definition target_name (t : GpuTarget) : string := match t with amd_gpu => "amd-gpu" | nvidia_gpu => "nvidia-gpu" end.
Record LocalModelFixture : Type := {
  lf_engine : Engine; lf_url : string; lf_memoryRequiredMi : Z; lf_contextWindow : Z; lf_kvCacheType : option string;
  (** Of the failure model only. *)
  lf_expectedReason : option string
}.
Record GpuModelFixture : Type := {
  gf_engine : Engine; gf_computeTarget : GpuTarget; gf_url : string; gf_memoryRequiredMi : Z; gf_contextWindow : Z; gf_kvCacheType : string; gf_automaticSizing : bool
}.
Record Device : Type := { dv_id : string; dv_pciAddress : string }.
Record GpuLabProfile : Type := {
  gp_nodeName : string; gp_nodeUid : string; gp_bootId : string;
  (** [selection: 'available-providers'] *)
  gp_available : bool;
  gp_amd : option Device; gp_nvidia : option Device;
  gp_amdOllama : option GpuModelFixture; gp_amdVllm : option GpuModelFixture; gp_nvidiaOllama : option GpuModelFixture; gp_nvidiaVllm : option GpuModelFixture
}.
Inductive ExternalModelFixture : Type :=
| OwnedOllama (apiBase : string) (contextWindow : Z)
| Configured (model apiBase : string) (contextWindow : Z) (apiKeyFile : option string).
Record Phase2 : Type := {
  p2_ollamaModel : LocalModelFixture; p2_vllmModel : LocalModelFixture; p2_failureModel : LocalModelFixture; p2_externalModel : ExternalModelFixture;
  p2_query : string; p2_repo : string; p2_artifactUrl : string
}.
Record LabNode : Type := { ln_name : string; ln_uid : string; ln_bootId : option string }.
Record LabCapability : Type := { lc_target : string; lc_engines : list string }.
Record LabImage : Type := { li_namespace : string; li_deployment : string; li_container : string; li_digest : string }.
Record LabFlux : Type := { lx_namespace : string; lx_name : string; lx_revision : string }.
Record Expected : Type := {
  ex_applianceUid : string; ex_applianceNamespace : string; ex_applianceName : string; ex_nodes : list LabNode; ex_capabilities : list LabCapability;
  ex_flux : option LabFlux; ex_images : list LabImage
}.
Record LabConfig : Type := {
  cf_dashboardUrl : string; cf_identityUrl : string; cf_inferenceUrl : option string; cf_caFile : option string; cf_registrationFile : option string;
  cf_usernameFile : string; cf_passwordFile : string; cf_observerKubeconfig : string; cf_requestTimeoutMs : Z; cf_loginTimeoutMs : Z;
  cf_expected : Expected;
  (** The kubeconfig of the lock; its name and namespace are fixed. *)
  cf_lock : option string;
  cf_modelCleanupKubeconfig : option string; cf_smokeModel : option LocalModelFixture; cf_phase2 : option Phase2; cf_gpu : option GpuLabProfile
}.

(** ** Parsing *)
Definition parse_node (item : json) : res exn LabNode :=
  let? node := object (Some item) in
  let? name := text plain_text (dict_get node "name") in
  let? uid := text plain_text (dict_get node "uid") in
  let? bootId := if_truthy (text plain_text) (dict_get node "bootId") in
  Ok {| ln_name := name; ln_uid := uid; ln_bootId := bootId |}.
Definition parse_nodes (value : option json) : res exn (list LabNode) :=
  let? items := array value in
  let? nodes := res_map parse_node items in
  let? _ := requireSafe ((1 <=? length nodes)%nat && bool_decide (NoDup (map ln_name nodes))) CONFIG in
  Ok nodes.
Definition parse_capability (item : json) : res exn LabCapability :=
  let? capability := object (Some item) in
  let? items := array (dict_get capability "engines") in
  let? engines := res_map (fun e => text plain_text (Some e)) items in
  let? _ := requireSafe (1 <=? length engines)%nat CONFIG in
  let? target := text plain_text (dict_get capability "target") in
  Ok {| lc_target := target; lc_engines := engines |}.
Definition parse_capabilities (registered : bool) (value : option json) : res exn (list LabCapability) :=
  let? items := array value in
  let? capabilities := res_map parse_capability items in
  let? _ := requireSafe ((1 <=? length capabilities)%nat || registered) CONFIG in
  Ok capabilities.
Definition parse_image (item : json) : res exn LabImage :=
  let? image := object (Some item) in
  let? namespace := text plain_text (dict_get image "namespace") in
  let? deployment := text plain_text (dict_get image "deployment") in
  let? container := text plain_text (dict_get image "container") in
  let? digest := text digest_text (dict_get image "digest") in
  Ok {| li_namespace := namespace; li_deployment := deployment; li_container := container; li_digest := digest |}.
Definition or_empty (value : option json) : option json := match value with None | Some JNull => Some (JArr []) | _ => value end.
Definition parse_images (value : option json) : res exn (list LabImage) := let? items := array (or_empty value) in res_map parse_image items.
Definition parse_flux (value : option json) : res exn LabFlux :=
  let? selection := object value in
  let? namespace := text plain_text (dict_get selection "namespace") in
  let? name := text plain_text (dict_get selection "name") in
  let? revision := text plain_text (dict_get selection "revision") in
  Ok {| lx_namespace := namespace; lx_name := name; lx_revision := revision |}.
Definition parse_lock (directory : string) (value : option json) : res exn string :=
  let? selection := object value in
  let? _ := requireSafe (same_text selection "namespace" "magicstick-regression") CONFIG in
  let? _ := requireSafe (same_text selection "name" "lab-lock") CONFIG in
  path directory (dict_get selection "kubeconfig").

Definition model_url (engine : Engine) : string -> bool := match engine with OLlama => ollama_url | VLLM => hf_url end.
Definition localModel (value : option json) (engine : Engine) (maximumMemoryMi maximumContextWindow : Z) : res exn LocalModelFixture :=
  let? selection := object value in
  let? _ := requireSafe (same_text selection "engine" (engine_name engine) && same_text selection "computeTarget" "cpu" && number_is selection "maxNumSeqs" 1) CONFIG in
  let? memory := bounded_in 1024 maximumMemoryMi (dict_get selection "memoryRequiredMi") in
  let? window := bounded_in 256 maximumContextWindow (dict_get selection "contextWindow") in
  let? cache := if_defined (text cache_text) (dict_get selection "kvCacheType") in
  let? url := text (model_url engine) (dict_get selection "url") in
  Ok {| lf_engine := engine; lf_url := url; lf_memoryRequiredMi := memory; lf_contextWindow := window; lf_kvCacheType := cache; lf_expectedReason := None |}.
Definition with_reason (reason : string) (m : LocalModelFixture) : LocalModelFixture :=
  {| lf_engine := lf_engine m; lf_url := lf_url m; lf_memoryRequiredMi := lf_memoryRequiredMi m; lf_contextWindow := lf_contextWindow m;
     lf_kvCacheType := lf_kvCacheType m; lf_expectedReason := Some reason |}.

(** The context window of the external model is converted first. *)
Definition external_window (value : option json) : res exn Z :=
  match bounded 256 1048576 (match value with Some v => Number_of_json v | None => NaN end) with Some z => Ok z | None => refuse end.
Definition parse_external (directory : string) (external : dict json) : res exn ExternalModelFixture :=
  let? _ := requireSafe (absent_in external "source" || same_text external "source" "configured" || same_text external "source" "owned-ollama") CONFIG in
  if same_text external "source" "owned-ollama" then
    let? _ := requireSafe (absent_in external "model" && absent_in external "apiKeyFile") CONFIG in
    let? apiBase := endpoint true (dict_get external "apiBase") in
    let? window := external_window (dict_get external "contextWindow") in
    Ok (OwnedOllama apiBase window)
  else
    let? model := text plain_text (dict_get external "model") in
    let? apiBase := endpoint false (dict_get external "apiBase") in
    let? apiKeyFile := if_truthy (path directory) (dict_get external "apiKeyFile") in
    let? window := external_window (dict_get external "contextWindow") in
    Ok (Configured model apiBase window apiKeyFile).
Definition parse_phase2 (directory : string) (value : option json) : res exn Phase2 :=
  let? selection := object value in
  let? _ := requireSafe (String.eqb (sorted_keys selection) "discovery,externalModel,failureModel,ollamaModel,vllmModel") CONFIG in
  let? failure := object (dict_get selection "failureModel") in
  let? external := object (dict_get selection "externalModel") in
  let? discovery := object (dict_get selection "discovery") in
  let? failureModel := localModel (dict_get selection "failureModel") OLlama 32768 8192 in
  let? reason := text reason_text (dict_get failure "expectedReason") in
  let? externalModel := parse_external directory external in
  let? query := text query_text (dict_get discovery "query") in
  let? repo := text repo_text (dict_get discovery "repo") in
  let? artifactUrl := text hf_url (dict_get discovery "artifactUrl") in
  let? ollamaModel := localModel (dict_get selection "ollamaModel") OLlama 32768 8192 in
  let? vllmModel := localModel (dict_get selection "vllmModel") VLLM 32768 8192 in
  Ok {| p2_ollamaModel := ollamaModel; p2_vllmModel := vllmModel; p2_failureModel := with_reason reason failureModel; p2_externalModel := externalModel;
        p2_query := query; p2_repo := repo; p2_artifactUrl := artifactUrl |}.

(** *** GPUs *)
Definition model_keys : list string := ["amdOllama"; "amdVllm"; "nvidiaOllama"; "nvidiaVllm"].
(** Exactly these fields; a lab that offers what is there may leave devices and models out. *)
Definition gpu_keys (available : bool) (selection devices models : dict json) : bool :=
  if available then
    String.eqb (sorted_keys selection) "acknowledgeSharingTransitions,bootId,devices,models,nodeName,nodeUid,selection,sharedSlots" &&
    (1 <=? length (dict_keys devices))%nat && forallb (includes ["amd"; "nvidia"]) (dict_keys devices) && forallb (includes model_keys) (dict_keys models)
  else
    String.eqb (sorted_keys selection) "acknowledgeSharingTransitions,bootId,devices,models,nodeName,nodeUid,sharedSlots" &&
    String.eqb (sorted_keys devices) "amd,nvidia" && String.eqb (sorted_keys models) (join "," model_keys).
Definition parse_device (value : option json) : res exn Device :=
  let? d := object value in
  let? _ := requireSafe (String.eqb (sorted_keys d) "id,pciAddress") CONFIG in
  let? id := text device_text (dict_get d "id") in
  let? pci := text pci_text (dict_get d "pciAddress") in
  Ok {| dv_id := id; dv_pciAddress := pci |}.
Definition gpu_model_keys : list string := ["engine"; "computeTarget"; "url"; "contextWindow"; "maxNumSeqs"; "memoryRequiredMi"; "kvCacheType"; "automaticSizing"].
Definition gpu_caches : list string := ["f16"; "q8_0"; "auto"; "fp8"].
(** [String(x)] of a field that may be missing. *)
Definition string_of (value : option json) : string := match value with Some v => String_of_json v | None => "undefined" end.
Definition gpuModel (engine : Engine) (target : GpuTarget) (value : option json) : res exn GpuModelFixture :=
  let? m := object value in
  let? _ := requireSafe (same_text m "engine" (engine_name engine) && same_text m "computeTarget" (target_name target) && number_is m "maxNumSeqs" 1) CONFIG in
  let? window := bounded_in 256 4096 (dict_get m "contextWindow") in
  let? memory := bounded_in 1024 32768 (dict_get m "memoryRequiredMi") in
  let? _ := requireSafe ((absent_in m "automaticSizing" || flag_is m "automaticSizing" true) && forallb (includes gpu_model_keys) (dict_keys m)) CONFIG in
  let? url := text (model_url engine) (dict_get m "url") in
  let? _ := requireSafe (includes gpu_caches (string_of (dict_get m "kvCacheType"))) CONFIG in
  Ok {| gf_engine := engine; gf_computeTarget := target; gf_url := url; gf_memoryRequiredMi := memory; gf_contextWindow := window;
        gf_kvCacheType := string_of (dict_get m "kvCacheType"); gf_automaticSizing := flag_is m "automaticSizing" true |}.
Definition declared (nodes : list LabNode) (g : GpuLabProfile) : bool :=
  existsb (fun n => String.eqb (ln_name n) (gp_nodeName g) && String.eqb (ln_uid n) (gp_nodeUid g) && bool_decide (ln_bootId n = Some (gp_bootId g))) nodes.
Definition parse_gpu (registered : bool) (nodes : list LabNode) (value : option json) : res exn GpuLabProfile :=
  let? selection := object value in
  let? devices := object (dict_get selection "devices") in
  let? models := object (dict_get selection "models") in
  let available := same_text selection "selection" "available-providers" && registered in
  let? _ := requireSafe (flag_is selection "acknowledgeSharingTransitions" true && number_is selection "sharedSlots" 2 && gpu_keys available selection devices models) CONFIG in
  let? nodeName := text plain_text (dict_get selection "nodeName") in
  let? nodeUid := text plain_text (dict_get selection "nodeUid") in
  let? bootId := text plain_text (dict_get selection "bootId") in
  let? amd := if_truthy parse_device (dict_get devices "amd") in
  let? nvidia := if_truthy parse_device (dict_get devices "nvidia") in
  let? amdOllama := if_truthy (gpuModel OLlama amd_gpu) (dict_get models "amdOllama") in
  let? amdVllm := if_truthy (gpuModel VLLM amd_gpu) (dict_get models "amdVllm") in
  let? nvidiaOllama := if_truthy (gpuModel OLlama nvidia_gpu) (dict_get models "nvidiaOllama") in
  let? nvidiaVllm := if_truthy (gpuModel VLLM nvidia_gpu) (dict_get models "nvidiaVllm") in
  let g := {| gp_nodeName := nodeName; gp_nodeUid := nodeUid; gp_bootId := bootId; gp_available := available; gp_amd := amd; gp_nvidia := nvidia;
              gp_amdOllama := amdOllama; gp_amdVllm := amdVllm; gp_nvidiaOllama := nvidiaOllama; gp_nvidiaVllm := nvidiaVllm |} in
  let? _ := requireSafe (((negb (truthy_in models "amdOllama") && negb (truthy_in models "amdVllm")) || truthy_in devices "amd") &&
                         ((negb (truthy_in models "nvidiaOllama") && negb (truthy_in models "nvidiaVllm")) || truthy_in devices "nvidia")) CONFIG in
  let? _ := requireSafe (declared nodes g) CONFIG in
  Ok g.

(** *** The whole *)
Definition parse_expected (registered : bool) (expected : dict json) : res exn Expected :=
  let? nodes := parse_nodes (dict_get expected "nodes") in
  let? capabilities := parse_capabilities registered (dict_get expected "capabilities") in
  let? images := parse_images (dict_get expected "images") in
  let? flux := if_truthy parse_flux (dict_get expected "flux") in
  let? applianceUid := text plain_text (dict_get expected "applianceUid") in
  let? applianceNamespace := text plain_text (dict_get expected "applianceNamespace") in
  let? applianceName := text plain_text (dict_get expected "applianceName") in
  Ok {| ex_applianceUid := applianceUid; ex_applianceNamespace := applianceNamespace; ex_applianceName := applianceName; ex_nodes := nodes;
        ex_capabilities := capabilities; ex_flux := flux; ex_images := images |}.
Definition parseLabConfig (value : json) (directory : string) : res exn LabConfig :=
  let? source := object (Some value) in
  let? expected := object (dict_get source "expected") in
  let? _ := requireSafe (number_is source "version" 1 && same_text source "profile" "preflight" && same_text expected "role" "magicstick-admin") CONFIG in
  let registered := bool_decide (is_Some (text_field source "registrationFile")) in
  let? e := parse_expected registered expected in
  let? lock := if_truthy (parse_lock directory) (dict_get source "lock") in
  let? smokeModel := if_truthy (fun v => localModel v OLlama 8192 4096) (dict_get source "smokeModel") in
  let? phase2 := if_truthy (parse_phase2 directory) (dict_get source "phase2") in
  let? gpu := if_truthy (parse_gpu registered (ex_nodes e)) (dict_get source "gpu") in
  let? dashboardUrl := hostname (dict_get source "dashboardUrl") in
  let? identityUrl := hostname (dict_get source "identityUrl") in
  let? inferenceUrl := if_truthy hostname (dict_get source "inferenceUrl") in
  let? caFile := if_truthy (path directory) (dict_get source "caFile") in
  let? registrationFile := if_truthy (path directory) (dict_get source "registrationFile") in
  let? usernameFile := path directory (dict_get source "usernameFile") in
  let? passwordFile := path directory (dict_get source "passwordFile") in
  let? observerKubeconfig := path directory (dict_get source "observerKubeconfig") in
  let? requestTimeoutMs := timeout (dict_get source "requestTimeoutMs") 15000 60000 in
  let? loginTimeoutMs := timeout (dict_get source "loginTimeoutMs") 90000 180000 in
  let? modelCleanupKubeconfig := if_truthy (path directory) (dict_get source "modelCleanupKubeconfig") in
  Ok {| cf_dashboardUrl := dashboardUrl; cf_identityUrl := identityUrl; cf_inferenceUrl := inferenceUrl; cf_caFile := caFile; cf_registrationFile := registrationFile;
        cf_usernameFile := usernameFile; cf_passwordFile := passwordFile; cf_observerKubeconfig := observerKubeconfig; cf_requestTimeoutMs := requestTimeoutMs;
        cf_loginTimeoutMs := loginTimeoutMs; cf_expected := e; cf_lock := lock; cf_modelCleanupKubeconfig := modelCleanupKubeconfig; cf_smokeModel := smokeModel;
        cf_phase2 := phase2; cf_gpu := gpu |}.

(** [loadLabConfig]: [file] is what [readPrivate] gave. *)
Definition loadLabConfig (filename : string) (file : res exn string) : res exn LabConfig :=
  let result := let? body := file in
                match JSON_parse body with Some v => parseLabConfig v (resolve cwd filename "..") | None => Err (Foreign "SyntaxError") end in
  match result with Err (Foreign _) => Err (harness CONFIG) | _ => result end.
End parse.
