(* ===== verification/ConfigProps.v ===== *)
(** * Theorems on the configuration of a lab

    An accepted configuration is bounded and consistent ([config_accepted]), and written back
    as JSON it is accepted as itself ([config_stable]). *)

From S2P Require Import Prelude Js Number Json JsonParse JsonFields DashboardCore Prog Errors RecoveryProps Config.

Local Open Scope string_scope.
Local Open Scope js_scope.
Local Open Scope Z_scope.

(** ** Members *)
Lemma get_app {A} (a b : dict A) k : dict_get (a ++ b)%list k = or_else (dict_get a k) (dict_get b k).
Proof. induction a as [|[k' v] a IH]; cbn; [done|]. by destruct (String.eqb k' k). Qed.
Lemma get_member k o k' : dict_get (member k o) k' = if String.eqb k k' then o else None.
Proof. destruct o; cbn; by destruct (String.eqb k k'). Qed.
Lemma or_else_None {A} (o : option A) : or_else o None = o.
Proof. by destruct o. Qed.

Ltac units := repeat match goal with u : unit |- _ => destruct u end.
(** Evaluate the lookups of a written object. *)
Ltac fields := rewrite ?get_app, ?get_member; cbn [dict_get String.eqb Ascii.eqb Bool.eqb or_else]; rewrite ?or_else_None.

(** ** Values that are read back *)
Lemma text_ok p v s : text p v = Ok s -> v = Some (JStr s) /\ p s = true /\ includesStr "CHANGEME" s = false.
Proof.
  unfold text. destruct v as [[| | |t| |]|]; try done. destruct (p t && _) eqn:E; [|done]. intros [= <-]. bool_prop. done.
Qed.
Lemma text_again p v s : text p v = Ok s -> text p (Some (JStr s)) = Ok s.
Proof. intros H. by apply text_ok in H as H'; destruct H' as (-> & _). Qed.
Lemma bounded_ok lo hi v z : bounded_in lo hi v = Ok z -> v = Some (JNum (Int z)) /\ lo <= z <= hi.
Proof.
  unfold bounded_in. destruct v as [[| |n| | |]|]; try done. cbn [base.mbind option_bind json_num]. unfold bounded. destruct n as [x| | | |]; try done.
  destruct (isSafeInteger _ && _ && _) eqn:E; [|done]. intros [= <-]. bool_prop. split; [done | lia].
Qed.
Lemma bounded_again lo hi v z : bounded_in lo hi v = Ok z -> bounded_in lo hi (Some (JNum (Int z))) = Ok z.
Proof. intros H. by apply bounded_ok in H as H'; destruct H' as (-> & _). Qed.
Lemma if_truthy_ok {A} (f : option json -> res exn A) v o : if_truthy f v = Ok o ->
  o = None \/ exists a x, o = Some a /\ v = Some x /\ json_truthy x = true /\ f v = Ok a.
Proof.
  unfold if_truthy. destruct v as [x|]; [|intros [= <-]; by left]. destruct (json_truthy x) eqn:Ex; [|intros [= <-]; by left].
  destruct (f (Some x)) as [a|] eqn:Ef; [|done]. intros [= <-]. right. by exists a, x.
Qed.
Lemma if_truthy_again {A} (f : option json -> res exn A) (g : A -> json) v o : if_truthy f v = Ok o ->
  (forall x a, f (Some x) = Ok a -> o = Some a -> json_truthy (g a) = true /\ f (Some (g a)) = Ok a) -> if_truthy f (option_map g o) = Ok o.
Proof.
  intros H Hf. apply if_truthy_ok in H as [->|(a & x & -> & -> & Hx & Ha)]; [done|]. destruct (Hf x a Ha eq_refl) as [Hg Hfg].
  cbn [option_map if_truthy]. by rewrite Hg, Hfg.
Qed.
Lemma if_defined_again p v o : if_defined (text p) v = Ok o -> (forall v s, text p v = Ok s -> text p (Some (JStr s)) = Ok s) ->
  if_defined (text p) (option_map JStr o) = Ok o.
Proof. unfold if_defined. intros H Hp. destruct v as [x|]; res_inv; [|done]. cbn [option_map if_defined]. by rewrite (Hp _ _ E). Qed.
Lemma res_map_again {A B} (f : A -> res exn B) (g : B -> A) l l' : res_map f l = Ok l' -> (forall a b, f a = Ok b -> f (g b) = Ok b) ->
  res_map f (map g l') = Ok l' /\ length l' = length l.
Proof.
  intros H Hf. revert l' H. induction l as [|a l IH]; intros l' H; cbn in H; res_inv; [done|]. destruct (IH _ eq_refl) as [H1 H2].
  cbn [map res_map length]. by rewrite (Hf _ _ E), H1, H2.
Qed.
Lemma array_ok v l : array v = Ok l -> v = Some (JArr l) /\ (length l <= 64)%nat.
Proof. unfold array. destruct v as [[| | | |x|]|]; try done. destruct (length x <=? 64)%nat eqn:E; [|done]. intros [= <-]. split; [done|]. by apply Nat.leb_le. Qed.
Lemma array_short l : (length l <= 64)%nat -> array (Some (JArr l)) = Ok l.
Proof. intros H. unfold array. by rewrite (proj2 (Nat.leb_le _ _) H). Qed.

(** ** A configuration as JSON *)
Definition num (z : Z) : json := JNum (Int z).
Definition texts (l : list string) : json := JArr (map JStr l).
Definition node_json (n : LabNode) : json := JObj ([("name", JStr (ln_name n)); ("uid", JStr (ln_uid n))] ++ member "bootId" (option_map JStr (ln_bootId n)))%list.
Definition capability_json (c : LabCapability) : json := JObj [("target", JStr (lc_target c)); ("engines", texts (lc_engines c))].
Definition image_json (i : LabImage) : json :=
  JObj [("namespace", JStr (li_namespace i)); ("deployment", JStr (li_deployment i)); ("container", JStr (li_container i)); ("digest", JStr (li_digest i))].
Definition flux_json (x : LabFlux) : json := JObj [("namespace", JStr (lx_namespace x)); ("name", JStr (lx_name x)); ("revision", JStr (lx_revision x))].
Definition expected_json (e : Expected) : json :=
  JObj ([("applianceUid", JStr (ex_applianceUid e)); ("applianceNamespace", JStr (ex_applianceNamespace e)); ("applianceName", JStr (ex_applianceName e));
         ("role", JStr "magicstick-admin"); ("nodes", JArr (map node_json (ex_nodes e))); ("capabilities", JArr (map capability_json (ex_capabilities e)));
         ("images", JArr (map image_json (ex_images e)))] ++ member "flux" (option_map flux_json (ex_flux e)))%list.
Definition lock_json (kubeconfig : string) : json :=
  JObj [("namespace", JStr "magicstick-regression"); ("name", JStr "lab-lock"); ("kubeconfig", JStr kubeconfig)].
Definition local_json (m : LocalModelFixture) : json :=
  JObj ([("engine", JStr (engine_name (lf_engine m))); ("computeTarget", JStr "cpu"); ("url", JStr (lf_url m)); ("memoryRequiredMi", num (lf_memoryRequiredMi m));
         ("contextWindow", num (lf_contextWindow m)); ("maxNumSeqs", num 1)] ++ member "kvCacheType" (option_map JStr (lf_kvCacheType m)) ++
        member "expectedReason" (option_map JStr (lf_expectedReason m)))%list.
Definition external_json (x : ExternalModelFixture) : json :=
  match x with
  | OwnedOllama apiBase window => JObj [("source", JStr "owned-ollama"); ("apiBase", JStr apiBase); ("contextWindow", num window)]
  | Configured model apiBase window key =>
      JObj ([("model", JStr model); ("apiBase", JStr apiBase); ("contextWindow", num window)] ++ member "apiKeyFile" (option_map JStr key))%list
  end.
Definition phase2_json (p : Phase2) : json :=
  JObj [("ollamaModel", local_json (p2_ollamaModel p)); ("vllmModel", local_json (p2_vllmModel p)); ("failureModel", local_json (p2_failureModel p));
        ("externalModel", external_json (p2_externalModel p));
        ("discovery", JObj [("query", JStr (p2_query p)); ("repo", JStr (p2_repo p)); ("artifactUrl", JStr (p2_artifactUrl p))])].
Definition device_json (d : Device) : json := JObj [("id", JStr (dv_id d)); ("pciAddress", JStr (dv_pciAddress d))].
Definition gpu_model_json (m : GpuModelFixture) : json :=
  JObj ([("engine", JStr (engine_name (gf_engine m))); ("computeTarget", JStr (target_name (gf_computeTarget m))); ("url", JStr (gf_url m));
         ("contextWindow", num (gf_contextWindow m)); ("maxNumSeqs", num 1); ("memoryRequiredMi", num (gf_memoryRequiredMi m)); ("kvCacheType", JStr (gf_kvCacheType m))] ++
        member "automaticSizing" (if gf_automaticSizing m then Some (JBool true) else None))%list.
Definition devices_json (g : GpuLabProfile) : dict json := (member "amd" (option_map device_json (gp_amd g)) ++ member "nvidia" (option_map device_json (gp_nvidia g)))%list.
Definition models_json (g : GpuLabProfile) : dict json :=
  (member "amdOllama" (option_map gpu_model_json (gp_amdOllama g)) ++ member "amdVllm" (option_map gpu_model_json (gp_amdVllm g)) ++
   member "nvidiaOllama" (option_map gpu_model_json (gp_nvidiaOllama g)) ++ member "nvidiaVllm" (option_map gpu_model_json (gp_nvidiaVllm g)))%list.
Definition gpu_fields (g : GpuLabProfile) : dict json :=
  ([("acknowledgeSharingTransitions", JBool true); ("nodeName", JStr (gp_nodeName g)); ("nodeUid", JStr (gp_nodeUid g)); ("bootId", JStr (gp_bootId g))] ++
   member "selection" (if gp_available g then Some (JStr "available-providers") else None) ++
   [("devices", JObj (devices_json g)); ("sharedSlots", num 2); ("models", JObj (models_json g))])%list.
Definition gpu_json (g : GpuLabProfile) : json := JObj (gpu_fields g).
Definition config_json (c : LabConfig) : json :=
  JObj ([("version", num 1); ("profile", JStr "preflight"); ("dashboardUrl", JStr (cf_dashboardUrl c)); ("identityUrl", JStr (cf_identityUrl c))] ++
        member "inferenceUrl" (option_map JStr (cf_inferenceUrl c)) ++ member "caFile" (option_map JStr (cf_caFile c)) ++
        member "registrationFile" (option_map JStr (cf_registrationFile c)) ++
        [("usernameFile", JStr (cf_usernameFile c)); ("passwordFile", JStr (cf_passwordFile c)); ("observerKubeconfig", JStr (cf_observerKubeconfig c));
         ("requestTimeoutMs", num (cf_requestTimeoutMs c)); ("loginTimeoutMs", num (cf_loginTimeoutMs c)); ("expected", expected_json (cf_expected c))] ++
        member "lock" (option_map lock_json (cf_lock c)) ++ member "modelCleanupKubeconfig" (option_map JStr (cf_modelCleanupKubeconfig c)) ++
        member "smokeModel" (option_map local_json (cf_smokeModel c)) ++ member "phase2" (option_map phase2_json (cf_phase2 c)) ++
        member "gpu" (option_map gpu_json (cf_gpu c)))%list.

(** ** What is settled

    A URL or a path is read back as itself when the URL parser and the length of the directory
    allow it. *)
Section config.
Context {web : WebUrl} (cwd : string).

Definition host_settled (s : string) : Prop := hostname (Some (JStr s)) = Ok s.
Definition path_settled (s : string) : Prop := path_text s = true.
Definition settled {A} (P : A -> Prop) (o : option A) : Prop := forall a, o = Some a -> P a.
Definition external_settled (x : ExternalModelFixture) : Prop :=
  match x with
  | OwnedOllama apiBase _ => endpoint true (Some (JStr apiBase)) = Ok apiBase
  | Configured _ apiBase _ key => endpoint false (Some (JStr apiBase)) = Ok apiBase /\ settled path_settled key
  end.

(** ** Parts that are accepted as themselves *)
Lemma text_truthy p v s : (forall t, p t = true -> truthy t = true) -> text p v = Ok s -> json_truthy (JStr s) = true.
Proof. intros Hp H. apply text_ok in H as (_ & H & _). by apply Hp. Qed.
Lemma plain_truthy t : plain_text t = true -> truthy t = true.
Proof. by destruct t. Qed.
Lemma path_truthy t : path_text t = true -> truthy t = true.
Proof. by destruct t. Qed.
Lemma plain_if_truthy v o : if_truthy (text plain_text) v = Ok o -> if_truthy (text plain_text) (option_map JStr o) = Ok o.
Proof. intros H. apply (if_truthy_again _ _ _ _ H). intros x a Ha _. split; [by eapply text_truthy, Ha; apply plain_truthy | by apply text_again in Ha]. Qed.
Lemma object_ok v d : object v = Ok d -> v = Some (JObj d).
Proof. unfold object. destruct v as [[]|]; by intros [= <-] || done. Qed.

Lemma node_again v n : parse_node v = Ok n -> parse_node (node_json n) = Ok n.
Proof.
  unfold parse_node. intros H. res_inv. unfold node_json. cbn [object res_bind ln_name ln_uid ln_bootId]. fields.
  rewrite (text_again _ _ _ E0), (text_again _ _ _ E1). cbn [res_bind]. fields. by rewrite (plain_if_truthy _ _ E2).
Qed.
Lemma nodes_again v l : parse_nodes v = Ok l -> parse_nodes (Some (JArr (map node_json l))) = Ok l /\ (1 <= length l <= 64)%nat /\ NoDup (map ln_name l).
Proof.
  unfold parse_nodes. intros H. res_inv. units. apply requireSafe_ok in E1 as Hr. destruct (res_map_again _ node_json _ _ E0 node_again) as [Hm Hl].
  apply array_ok in E as [_ Hlen]. rewrite array_short by (rewrite length_map; lia). cbn [res_bind]. rewrite Hm. cbn [res_bind]. rewrite E1. cbn [res_bind].
  apply andb_prop in Hr as [H1 H2]. apply Nat.leb_le in H1. bool_prop. split; [done|]. split; [lia | done].
Qed.
Lemma texts_again l l' : res_map (fun e => text plain_text (Some e)) l = Ok l' -> res_map (fun e => text plain_text (Some e)) (map JStr l') = Ok l' /\ length l' = length l.
Proof. intros H. apply (res_map_again _ _ _ _ H). intros a b Hb. by apply text_again in Hb. Qed.
Lemma capability_again v c : parse_capability v = Ok c -> parse_capability (capability_json c) = Ok c.
Proof.
  unfold parse_capability. intros H. res_inv. unfold capability_json, texts. cbn [object res_bind lc_target lc_engines]. fields.
  destruct (texts_again _ _ E1) as [Ht Hl]. apply array_ok in E0 as [_ Hlen]. rewrite array_short by (rewrite length_map; lia). cbn [res_bind].
  rewrite Ht. cbn [res_bind]. rewrite E2. cbn [res_bind]. by rewrite (text_again _ _ _ E3).
Qed.
Lemma capabilities_again r r' v l : parse_capabilities r v = Ok l -> (l = [] -> r' = true) -> parse_capabilities r' (Some (JArr (map capability_json l))) = Ok l.
Proof.
  unfold parse_capabilities. intros H Hr. res_inv. destruct (res_map_again _ capability_json _ _ E0 capability_again) as [Hm Hl].
  apply array_ok in E as [_ Hlen]. rewrite array_short by (rewrite length_map; lia). cbn [res_bind]. rewrite Hm. cbn [res_bind].
  destruct l as [|c l]; [by rewrite (Hr eq_refl) | done].
Qed.
Lemma image_again v i : parse_image v = Ok i -> parse_image (image_json i) = Ok i.
Proof.
  unfold parse_image. intros H. res_inv. unfold image_json. cbn [object res_bind li_namespace li_deployment li_container li_digest]. fields.
  by rewrite (text_again _ _ _ E0), (text_again _ _ _ E1), (text_again _ _ _ E2), (text_again _ _ _ E3).
Qed.
Lemma images_again v l : parse_images v = Ok l -> parse_images (Some (JArr (map image_json l))) = Ok l.
Proof.
  unfold parse_images. intros H. res_inv. destruct (res_map_again _ image_json _ _ H image_again) as [Hm Hl]. cbn [or_empty].
  apply array_ok in E as [_ Hlen]. rewrite array_short by (rewrite length_map; lia). done.
Qed.
Lemma flux_again v x : parse_flux v = Ok x -> parse_flux (Some (flux_json x)) = Ok x.
Proof.
  unfold parse_flux. intros H. res_inv. unfold flux_json. cbn [object res_bind lx_namespace lx_name lx_revision]. fields.
  by rewrite (text_again _ _ _ E0), (text_again _ _ _ E1), (text_again _ _ _ E2).
Qed.
Lemma local_again v e m w x : localModel v e m w = Ok x ->
  (forall r, localModel (Some (local_json {| lf_engine := lf_engine x; lf_url := lf_url x; lf_memoryRequiredMi := lf_memoryRequiredMi x; lf_contextWindow := lf_contextWindow x;
     lf_kvCacheType := lf_kvCacheType x; lf_expectedReason := r |})) e m w = Ok x) /\
  lf_engine x = e /\ 1024 <= lf_memoryRequiredMi x <= m /\ 256 <= lf_contextWindow x <= w /\ model_url e (lf_url x) = true /\ lf_expectedReason x = None.
Proof.
  unfold localModel. intros H. res_inv. cbn [lf_engine lf_url lf_memoryRequiredMi lf_contextWindow lf_kvCacheType lf_expectedReason].
  apply bounded_ok in E1 as Hm. apply bounded_ok in E2 as Hw. apply text_ok in E4 as Hu.
  split; [|naive_solver]. intros r. unfold local_json. cbn [object res_bind lf_engine lf_url lf_memoryRequiredMi lf_contextWindow lf_kvCacheType lf_expectedReason].
  unfold same_text, number_is, text_field. fields. cbn [base.mbind option_bind json_str]. rewrite String.eqb_refl. cbn [andb num_eqb requireSafe res_bind].
  change (requireSafe _ _) with (Ok (E:=exn) tt). cbn [res_bind]. fields. unfold num. rewrite (bounded_again _ _ _ _ E1), (bounded_again _ _ _ _ E2). cbn [res_bind].
  by rewrite (if_defined_again _ _ _ E3 (text_again _)), (text_again _ _ _ E4).
Qed.

Lemma path_ok directory v s : path cwd directory v = Ok s -> isAbsolute s = true.
Proof using Type. unfold path. destruct v as [[| | |t| |]|]; try done. destruct (path_text t); [|done]. intros [= <-]. by destruct (isAbsolute t) eqn:E. Qed.
Lemma path_again directory directory' v s : path cwd directory v = Ok s -> path_settled s -> path cwd directory' (Some (JStr s)) = Ok s.
Proof using Type. intros H Hs. apply path_ok in H. unfold path. by rewrite Hs, H. Qed.
Lemma path_if_again directory directory' v o : if_truthy (path cwd directory) v = Ok o -> settled path_settled o -> if_truthy (path cwd directory') (option_map JStr o) = Ok o.
Proof using Type.
  intros H Hs. apply if_truthy_ok in H as [->|(a & x & -> & -> & _ & Ha)]; [done|]. specialize (Hs a eq_refl). cbn [option_map if_truthy].
  rewrite (path_again _ directory' _ _ Ha Hs). cbn [json_truthy]. by rewrite (path_truthy _ Hs).
Qed.
Lemma host_again v s : hostname v = Ok s -> host_settled s -> hostname (Some (JStr s)) = Ok s.
Proof using Type. done. Qed.
Lemma host_truthy s : host_settled s -> truthy s = true.
Proof using Type. by destruct s. Qed.
Lemma host_if_again o : settled host_settled o -> if_truthy hostname (option_map JStr o) = Ok o.
Proof using Type. intros Hs. destruct o as [s|]; [|done]. specialize (Hs s eq_refl). cbn [option_map if_truthy json_truthy]. by rewrite (host_truthy _ Hs), Hs. Qed.

Lemma window_ok v z : external_window v = Ok z -> 256 <= z <= 1048576 /\ external_window (Some (JNum (Int z))) = Ok z.
Proof using Type.
  unfold external_window. destruct (match v with Some v => Number_of_json v | None => NaN end) as [x| | | |]; try done. cbn [bounded Number_of_json].
  destruct (isSafeInteger _ && _ && _) eqn:E; [|done]. intros [= <-]. rewrite E. bool_prop. split; [lia | done].
Qed.
Lemma external_again directory directory' external x : parse_external cwd directory external = Ok x -> external_settled x ->
  exists d, external_json x = JObj d /\ parse_external cwd directory' d = Ok x.
Proof using Type.
  unfold parse_external. intros H Hs. destruct (requireSafe _ CONFIG) as [[]|] eqn:E0; [|done]. cbn [res_bind] in H. destruct (same_text external "source" "owned-ollama").
  - res_inv. units. eexists. split; [done|]. cbn [external_settled] in Hs. unfold same_text, absent_in, text_field. fields. cbn [base.mbind option_bind json_str]. fields.
    apply window_ok in E2 as [_ Hw]. cbn [requireSafe andb orb String.eqb Ascii.eqb Bool.eqb res_bind]. rewrite Hs. cbn [res_bind]. unfold num. by rewrite Hw.
  - res_inv. destruct Hs as [Hs Hk]. eexists. split; [done|]. unfold same_text, absent_in, text_field. fields. cbn [base.mbind option_bind json_str orb requireSafe res_bind].
    rewrite (text_again _ _ _ E), Hs. cbn [res_bind]. fields. rewrite (path_if_again _ directory' _ _ E2 Hk). cbn [res_bind]. fields. apply window_ok in E3 as [_ Hw]. unfold num. by rewrite Hw.
Qed.
Lemma local_self v e m w x : localModel v e m w = Ok x -> localModel (Some (local_json x)) e m w = Ok x.
Proof using Type. intros H. apply local_again in H as (Hx & _ & _ & _ & _ & Hn). specialize (Hx None). rewrite <- Hn in Hx. by destruct x. Qed.
Lemma local_reason v e m w x r : localModel v e m w = Ok x -> localModel (Some (local_json (with_reason r x))) e m w = Ok x.
Proof using Type. intros H. apply local_again in H as (Hx & _). exact (Hx (Some r)). Qed.
Lemma local_object x : exists d, local_json x = JObj d /\ dict_get d "expectedReason" = option_map JStr (lf_expectedReason x).
Proof using Type. eexists. split; [reflexivity|]. fields. by destruct (lf_kvCacheType x), (lf_expectedReason x). Qed.
Definition phase2_settled (p : Phase2) : Prop := external_settled (p2_externalModel p).
Lemma phase2_again directory directory' v p : parse_phase2 cwd directory v = Ok p -> phase2_settled p -> parse_phase2 cwd directory' (Some (phase2_json p)) = Ok p.
Proof using Type.
  unfold parse_phase2. intros H Hs. destruct (object v) as [sel|]; [|discriminate H]. cbn [res_bind] in H. destruct (requireSafe _ CONFIG) as [[]|]; [|discriminate H]. cbn [res_bind] in H. res_inv.
  unfold phase2_settled in Hs. cbn [p2_externalModel] in Hs. destruct (external_again _ directory' _ _ E4 Hs) as (ext & Hx & Hext).
  unfold phase2_json. cbn [object p2_ollamaModel p2_vllmModel p2_failureModel p2_externalModel p2_query p2_repo p2_artifactUrl res_bind]. rewrite Hx.
  change (requireSafe _ CONFIG) with (Ok (E:=exn) tt). fields. destruct (local_object (with_reason a3 a2)) as (f & Hf & Hr).
  pose proof (local_reason _ _ _ _ _ a3 E2) as Hl. rewrite Hf in Hl |- *. cbn [res_bind object]. fields.
  rewrite Hl, Hr. cbn [res_bind option_map with_reason lf_expectedReason]. rewrite (text_again _ _ _ E3). cbn [res_bind]. rewrite Hext. cbn [res_bind].
  rewrite (text_again _ _ _ E5), (text_again _ _ _ E6), (text_again _ _ _ E7). cbn [res_bind].
  rewrite (local_self _ _ _ _ _ E8), (local_self _ _ _ _ _ E9). done.
Qed.

(** *** GPUs *)
Lemma device_again v d : parse_device v = Ok d -> parse_device (Some (device_json d)) = Ok d.
Proof using Type.
  unfold parse_device. intros H. res_inv. unfold device_json. cbn [object res_bind dv_id dv_pciAddress]. change (requireSafe _ CONFIG) with (Ok (E:=exn) tt). cbn [res_bind]. fields.
  by rewrite (text_again _ _ _ E1), (text_again _ _ _ E2).
Qed.
Lemma gpu_model_again e t v m : gpuModel e t v = Ok m -> gpuModel e t (Some (gpu_model_json m)) = Ok m.
Proof using Type.
  unfold gpuModel. intros H. res_inv. unfold gpu_model_json. cbn [object res_bind gf_engine gf_computeTarget gf_url gf_memoryRequiredMi gf_contextWindow gf_kvCacheType gf_automaticSizing].
  revert E5. generalize (flag_is a "automaticSizing" true) (string_of (dict_get a "kvCacheType")). intros automatic cache E5. unfold same_text, number_is, absent_in, flag_is, text_field, num. fields. cbn [base.mbind option_bind json_str]. rewrite !String.eqb_refl. change (num_eqb _ _) with true. cbn [andb requireSafe res_bind].
  fields. rewrite (bounded_again _ _ _ _ E1), (bounded_again _ _ _ _ E2). cbn [res_bind]. fields.
  destruct automatic; cbn [or_else orb andb]; change (requireSafe (forallb _ _) CONFIG) with (Ok (E:=exn) tt); cbn [res_bind]; rewrite (text_again _ _ _ E4); cbn [res_bind string_of String_of_json]; by rewrite E5.
Qed.
Lemma if_truthy_some {A} (f : option json -> res exn A) v o : if_truthy f v = Ok o ->
  bool_decide (is_Some o) = match v with Some x => json_truthy x | None => false end.
Proof using Type. intros Ho. unfold if_truthy in Ho. destruct v as [x|]; [destruct (json_truthy x)|]; res_inv; done. Qed.
(** Every device and model the profile demands is really there. *)
Definition gpu_complete (g : GpuLabProfile) : Prop :=
  if gp_available g then is_Some (gp_amd g) \/ is_Some (gp_nvidia g)
  else is_Some (gp_amd g) /\ is_Some (gp_nvidia g) /\ is_Some (gp_amdOllama g) /\ is_Some (gp_amdVllm g) /\ is_Some (gp_nvidiaOllama g) /\ is_Some (gp_nvidiaVllm g).
Lemma device_if_again v o : if_truthy parse_device v = Ok o -> if_truthy parse_device (option_map device_json o) = Ok o.
Proof using Type. intros Ho. apply (if_truthy_again _ _ _ _ Ho). intros x d Hd _. split; [done | by eapply device_again]. Qed.
Lemma model_if_again e t v o : if_truthy (gpuModel e t) v = Ok o -> if_truthy (gpuModel e t) (option_map gpu_model_json o) = Ok o.
Proof using Type. intros Ho. apply (if_truthy_again _ _ _ _ Ho). intros x d Hd _. split; [done | by eapply gpu_model_again]. Qed.
Lemma gpu_keys_again g : gpu_complete g -> gpu_keys (gp_available g) (gpu_fields g) (devices_json g) (models_json g) = true.
Proof using Type.
  destruct g as [name uid boot available amd nvidia ao av no nv]. unfold gpu_complete, gpu_keys, gpu_fields, devices_json, models_json.
  cbn [gp_nodeName gp_nodeUid gp_bootId gp_available gp_amd gp_nvidia gp_amdOllama gp_amdVllm gp_nvidiaOllama gp_nvidiaVllm]. destruct available.
  - intros Hc. change (String.eqb (sorted_keys _) _) with true.
    destruct amd, nvidia; try (by destruct Hc as [[]|[]]); destruct ao, av, no, nv; reflexivity.
  - intros (H1 & H2 & H3 & H4 & H5 & H6). by destruct H1 as [? ->], H2 as [? ->], H3 as [? ->], H4 as [? ->], H5 as [? ->], H6 as [? ->].
Qed.
(** What a profile says of its parts. *)
Definition plain (s : string) : Prop := text plain_text (Some (JStr s)) = Ok s.
Definition device_ok (o : option Device) : Prop := if_truthy parse_device (option_map device_json o) = Ok o.
Definition model_ok (e : Engine) (t : GpuTarget) (o : option GpuModelFixture) : Prop := if_truthy (gpuModel e t) (option_map gpu_model_json o) = Ok o.
Record gpu_ok (nodes : list LabNode) (g : GpuLabProfile) : Prop := {
  go_names : plain (gp_nodeName g) /\ plain (gp_nodeUid g) /\ plain (gp_bootId g);
  go_devices : device_ok (gp_amd g) /\ device_ok (gp_nvidia g);
  go_models : model_ok OLlama amd_gpu (gp_amdOllama g) /\ model_ok VLLM amd_gpu (gp_amdVllm g) /\
    model_ok OLlama nvidia_gpu (gp_nvidiaOllama g) /\ model_ok VLLM nvidia_gpu (gp_nvidiaVllm g);
  (** A model has its device. *)
  go_amd : is_Some (gp_amdOllama g) \/ is_Some (gp_amdVllm g) -> is_Some (gp_amd g);
  go_nvidia : is_Some (gp_nvidiaOllama g) \/ is_Some (gp_nvidiaVllm g) -> is_Some (gp_nvidia g);
  go_declared : declared nodes g = true
}.
Lemma truthy_found d k : truthy_in d k = match dict_get d k with Some x => json_truthy x | None => false end.
Proof using Type. done. Qed.
Lemma needs_device a b c : (negb (bool_decide (is_Some a)) && negb (bool_decide (is_Some b))) || bool_decide (is_Some c) = true ->
  is_Some (A:=GpuModelFixture) a \/ is_Some (A:=GpuModelFixture) b -> is_Some (A:=Device) c.
Proof using Type. intros Hb. destruct a, b, c; try done; by intros [[? [=]]|[? [=]]]. Qed.
Lemma gpu_sound r nodes v g : parse_gpu r nodes v = Ok g -> gpu_ok nodes g /\ (gp_available g = true -> r = true).
Proof using Type.
  unfold parse_gpu. cbv zeta. intros H. res_inv. units. apply requireSafe_ok in E12, E13.
  rewrite !truthy_found, <- (if_truthy_some _ _ _ E6), <- (if_truthy_some _ _ _ E7), <- (if_truthy_some _ _ _ E8), <- (if_truthy_some _ _ _ E9), <- (if_truthy_some _ _ _ E10), <- (if_truthy_some _ _ _ E11) in E12.
  apply andb_prop in E12 as [Ea En]. cbn [gp_available]. split; [|by intros [_ ?]%andb_prop]. split; cbn [gp_nodeName gp_nodeUid gp_bootId gp_available gp_amd gp_nvidia gp_amdOllama gp_amdVllm gp_nvidiaOllama gp_nvidiaVllm].
  - split; [|split]; by eapply text_again.
  - split; by eapply device_if_again.
  - repeat split; by eapply model_if_again.
  - by apply needs_device.
  - by apply needs_device.
  - done.
Qed.
Lemma gpu_lookups g : let d := gpu_fields g in
  dict_get d "devices" = Some (JObj (devices_json g)) /\ dict_get d "models" = Some (JObj (models_json g)) /\ dict_get d "nodeName" = Some (JStr (gp_nodeName g)) /\
  dict_get d "nodeUid" = Some (JStr (gp_nodeUid g)) /\ dict_get d "bootId" = Some (JStr (gp_bootId g)) /\ flag_is d "acknowledgeSharingTransitions" true = true /\
  number_is d "sharedSlots" 2 = true /\ same_text d "selection" "available-providers" = gp_available g.
Proof using Type. unfold gpu_fields. destruct (gp_available g); repeat split. Qed.
Lemma device_lookups g : dict_get (devices_json g) "amd" = option_map device_json (gp_amd g) /\ dict_get (devices_json g) "nvidia" = option_map device_json (gp_nvidia g).
Proof using Type. unfold devices_json. fields. done. Qed.
Lemma model_lookups g :
  dict_get (models_json g) "amdOllama" = option_map gpu_model_json (gp_amdOllama g) /\ dict_get (models_json g) "amdVllm" = option_map gpu_model_json (gp_amdVllm g) /\
  dict_get (models_json g) "nvidiaOllama" = option_map gpu_model_json (gp_nvidiaOllama g) /\ dict_get (models_json g) "nvidiaVllm" = option_map gpu_model_json (gp_nvidiaVllm g).
Proof using Type. unfold models_json. fields. done. Qed.
Lemma object_there {A} (f : A -> dict json) o : match option_map (fun a => JObj (f a)) o with Some x => json_truthy x | None => false end = bool_decide (is_Some o).
Proof using Type. by destruct o. Qed.
Lemma device_has_models a b c : (is_Some (A:=GpuModelFixture) a \/ is_Some (A:=GpuModelFixture) b -> is_Some (A:=Device) c) ->
  (negb (bool_decide (is_Some a)) && negb (bool_decide (is_Some b))) || bool_decide (is_Some c) = true.
Proof using Type. intros Hb. destruct a, b, c; try done; by destruct Hb; eauto. Qed.
Lemma gpu_stable r nodes g : gpu_ok nodes g -> gpu_complete g -> (gp_available g = true -> r = true) -> parse_gpu r nodes (Some (gpu_json g)) = Ok g.
Proof using Type.
  intros [(Hn & Hu & Hb) [Hda Hdn] (Hao & Hav & Hno & Hnv) Ha Hnd Hdecl] Hc Hr. apply gpu_keys_again in Hc as Hk.
  destruct (gpu_lookups g) as (L1 & L2 & L3 & L4 & L5 & L6 & L7 & L8). destruct (device_lookups g) as [D1 D2]. destruct (model_lookups g) as (M1 & M2 & M3 & M4).
  assert (Hav' : gp_available g && r = gp_available g) by (destruct (gp_available g); [by rewrite (Hr eq_refl) | done]).
  unfold parse_gpu, gpu_json. cbn [object res_bind]. rewrite L1, L2. cbn [object res_bind]. cbv zeta. rewrite L8, Hav', L6, L7, Hk. cbn [andb requireSafe res_bind].
  rewrite L3, L4, L5, Hn, Hu, Hb, D1, D2, M1, M2, M3, M4, Hda, Hdn, Hao, Hav, Hno, Hnv. cbn [res_bind].
  rewrite !truthy_found, D1, D2, M1, M2, M3, M4. unfold device_json, gpu_model_json. rewrite !object_there, !device_has_models by done. cbn [andb requireSafe res_bind].
  destruct g as [name uid boot available amd nvidia ao av no nv]. cbn [gp_nodeName gp_nodeUid gp_bootId gp_available gp_amd gp_nvidia gp_amdOllama gp_amdVllm gp_nvidiaOllama gp_nvidiaVllm] in *. by rewrite Hdecl.
Qed.

(** ** The whole *)
Definition expected_fields (e : Expected) : dict json := (base.mbind json_obj (Some (expected_json e))) ?? [].
Lemma expected_stable r r' d e : parse_expected r d = Ok e -> (ex_capabilities e = [] -> r' = true) -> parse_expected r' (expected_fields e) = Ok e.
Proof using Type.
  unfold parse_expected. intros H Hr. res_inv. cbn [ex_capabilities] in Hr. unfold expected_fields, expected_json.
  cbn [base.mbind option_bind json_obj nullish ex_applianceUid ex_applianceNamespace ex_applianceName ex_nodes ex_capabilities ex_flux ex_images]. fields.
  destruct (nodes_again _ _ E) as [Hn _]. rewrite Hn, (capabilities_again _ _ _ _ E0 Hr), (images_again _ _ E1). cbn [res_bind].
  rewrite (if_truthy_again _ flux_json _ _ E2) by (intros x f Hf _; split; [done | by eapply flux_again]). cbn [res_bind].
  by rewrite (text_again _ _ _ E3), (text_again _ _ _ E4), (text_again _ _ _ E5).
Qed.
Lemma lock_stable directory directory' v k : parse_lock cwd directory v = Ok k -> path_settled k -> parse_lock cwd directory' (Some (lock_json k)) = Ok k.
Proof using Type.
  unfold parse_lock. intros H Hs. res_inv. unfold lock_json. cbn [object res_bind]. change (requireSafe _ CONFIG) with (Ok (E:=exn) tt). cbn [res_bind]. fields.
  by eapply path_again.
Qed.

(** What stays the same when it is read again: URLs the parser maps to themselves, paths that
    are not too long, every device and model that is asked for, and a registration where a lab
    has one. *)
Record config_settled (c : LabConfig) : Prop := {
  cs_urls : host_settled (cf_dashboardUrl c) /\ host_settled (cf_identityUrl c) /\ settled host_settled (cf_inferenceUrl c);
  cs_files : path_settled (cf_usernameFile c) /\ path_settled (cf_passwordFile c) /\ path_settled (cf_observerKubeconfig c);
  cs_options : settled path_settled (cf_caFile c) /\ settled path_settled (cf_registrationFile c) /\ settled path_settled (cf_modelCleanupKubeconfig c) /\
    settled path_settled (cf_lock c);
  cs_phase2 : settled phase2_settled (cf_phase2 c);
  cs_gpu : settled gpu_complete (cf_gpu c);
  cs_registration : ex_capabilities (cf_expected c) = [] \/ option_map gp_available (cf_gpu c) = Some true -> is_Some (cf_registrationFile c)
}.
Definition config_fields (c : LabConfig) : dict json := (base.mbind json_obj (Some (config_json c))) ?? [].
Lemma config_lookups c : let d := config_fields c in
  (dict_get d "dashboardUrl" = Some (JStr (cf_dashboardUrl c)) /\ dict_get d "identityUrl" = Some (JStr (cf_identityUrl c)) /\
   dict_get d "inferenceUrl" = option_map JStr (cf_inferenceUrl c) /\ dict_get d "caFile" = option_map JStr (cf_caFile c) /\
   dict_get d "registrationFile" = option_map JStr (cf_registrationFile c) /\ dict_get d "usernameFile" = Some (JStr (cf_usernameFile c)) /\
   dict_get d "passwordFile" = Some (JStr (cf_passwordFile c)) /\ dict_get d "observerKubeconfig" = Some (JStr (cf_observerKubeconfig c))) /\
  (dict_get d "requestTimeoutMs" = Some (num (cf_requestTimeoutMs c)) /\ dict_get d "loginTimeoutMs" = Some (num (cf_loginTimeoutMs c)) /\
   dict_get d "expected" = Some (JObj (expected_fields (cf_expected c))) /\ dict_get d "lock" = option_map lock_json (cf_lock c) /\
   dict_get d "modelCleanupKubeconfig" = option_map JStr (cf_modelCleanupKubeconfig c) /\ dict_get d "smokeModel" = option_map local_json (cf_smokeModel c) /\
   dict_get d "phase2" = option_map phase2_json (cf_phase2 c) /\ dict_get d "gpu" = option_map gpu_json (cf_gpu c)) /\
  number_is d "version" 1 = true /\ same_text d "profile" "preflight" = true /\ same_text (expected_fields (cf_expected c)) "role" "magicstick-admin" = true.
Proof using Type.
  cbv zeta. split; [repeat split; unfold config_fields, config_json; cbn [base.mbind option_bind json_obj nullish]; by fields|].
  split; [repeat split; unfold config_fields, config_json; cbn [base.mbind option_bind json_obj nullish]; by fields | done].
Qed.
Lemma timeout_ok v fallback maximum z : 100 <= fallback <= maximum -> maximum <= max_safe -> timeout v fallback maximum = Ok z ->
  100 <= z <= maximum /\ timeout (Some (num z)) fallback maximum = Ok z.
Proof using Type.
  intros Hf Hm H. unfold timeout in H. destruct v as [x|].
  - apply bounded_ok in H as Hb. destruct Hb as [_ Hb]. split; [done|]. unfold num. cbn. by apply bounded_again in H.
  - injection H as <-. split; [done|]. cbn. unfold bounded_in, bounded. cbn [base.mbind option_bind json_num isSafeInteger].
    rewrite !(proj2 (Z.leb_le _ _)) by lia. done.
Qed.

Lemma settled_again {A} (P : A -> Prop) (f f' : option json -> res exn A) (g : A -> json) v o : if_truthy f v = Ok o -> settled P o ->
  (forall x a, f (Some x) = Ok a -> P a -> json_truthy (g a) = true /\ f' (Some (g a)) = Ok a) -> if_truthy f' (option_map g o) = Ok o.
Proof using Type.
  intros H Hs Hf. apply if_truthy_ok in H as [->|(a & x & -> & -> & _ & Ha)]; [done|]. destruct (Hf x a Ha (Hs a eq_refl)) as [Ht Hr]. cbn [option_map if_truthy]. by rewrite Ht, Hr.
Qed.
Lemma registered_text c : bool_decide (is_Some (text_field (config_fields c) "registrationFile")) = bool_decide (is_Some (cf_registrationFile c)).
Proof using Type. destruct (config_lookups c) as ((_ & _ & _ & _ & L & _) & _). unfold text_field. rewrite L. by destruct (cf_registrationFile c). Qed.

(** What an accepted configuration was read from. *)
Record read_from (directory : string) (source expected : dict json) (registered : bool) (c : LabConfig) : Prop := {
  rf_expected : parse_expected registered expected = Ok (cf_expected c);
  rf_lock : if_truthy (parse_lock cwd directory) (dict_get source "lock") = Ok (cf_lock c);
  rf_smoke : if_truthy (fun v => localModel v OLlama 8192 4096) (dict_get source "smokeModel") = Ok (cf_smokeModel c);
  rf_phase2 : if_truthy (parse_phase2 cwd directory) (dict_get source "phase2") = Ok (cf_phase2 c);
  rf_gpu : if_truthy (parse_gpu registered (ex_nodes (cf_expected c))) (dict_get source "gpu") = Ok (cf_gpu c);
  rf_urls : hostname (dict_get source "dashboardUrl") = Ok (cf_dashboardUrl c) /\ hostname (dict_get source "identityUrl") = Ok (cf_identityUrl c) /\
    if_truthy hostname (dict_get source "inferenceUrl") = Ok (cf_inferenceUrl c);
  rf_options : if_truthy (path cwd directory) (dict_get source "caFile") = Ok (cf_caFile c) /\
    if_truthy (path cwd directory) (dict_get source "registrationFile") = Ok (cf_registrationFile c) /\
    if_truthy (path cwd directory) (dict_get source "modelCleanupKubeconfig") = Ok (cf_modelCleanupKubeconfig c);
  rf_files : path cwd directory (dict_get source "usernameFile") = Ok (cf_usernameFile c) /\ path cwd directory (dict_get source "passwordFile") = Ok (cf_passwordFile c) /\
    path cwd directory (dict_get source "observerKubeconfig") = Ok (cf_observerKubeconfig c);
  rf_times : timeout (dict_get source "requestTimeoutMs") 15000 60000 = Ok (cf_requestTimeoutMs c) /\ timeout (dict_get source "loginTimeoutMs") 90000 180000 = Ok (cf_loginTimeoutMs c)
}.
Lemma parse_read v directory c : parseLabConfig cwd v directory = Ok c -> exists source expected,
  v = JObj source /\ read_from directory source expected (bool_decide (is_Some (text_field source "registrationFile"))) c.
Proof using Type.
  unfold parseLabConfig. cbv zeta. intros H. destruct (object (Some v)) as [source|] eqn:Eo; [|discriminate H]. cbn [res_bind] in H.
  destruct (object (dict_get source "expected")) as [expected|]; [|discriminate H]. cbn [res_bind] in H. destruct (requireSafe _ CONFIG) as [[]|]; [|discriminate H]. cbn [res_bind] in H.
  apply object_ok in Eo as [= ->]. exists source, expected. split; [reflexivity|]. res_inv. by split.
Qed.
Lemma config_stable v directory directory' c : parseLabConfig cwd v directory = Ok c -> config_settled c -> parseLabConfig cwd (config_json c) directory' = Ok c.
Proof using Type.
  intros H [(U1 & U2 & U3) (F1 & F2 & F3) (O1 & O2 & O3 & O4) P2 G R]. apply parse_read in H as (source & expected & _ & [Re Rl Rs Rp Rg (Ru1 & Ru2 & Ru3) (Ro1 & Ro2 & Ro3) (Rf1 & Rf2 & Rf3) [Rt1 Rt2]]).
  revert Re Rg. generalize (bool_decide (is_Some (text_field source "registrationFile"))) as registered. intros registered Re Rg.
  destruct (config_lookups c) as ((L1 & L2 & L3 & L4 & L5 & L6 & L7 & L8) & (L9 & L10 & L11 & L12 & L13 & L14 & L15 & L16) & L17 & L18 & L19).
  apply timeout_ok in Rt1 as [_ T1]; [|done|done]. apply timeout_ok in Rt2 as [_ T2]; [|done|done].
  unfold parseLabConfig. cbv zeta. change (object (Some (config_json c))) with (Ok (E:=exn) (config_fields c)). cbn [res_bind]. rewrite L11. cbn [object res_bind].
  rewrite L17, L18, L19, registered_text. cbn [andb requireSafe res_bind].
  rewrite (expected_stable _ (bool_decide (is_Some (cf_registrationFile c))) _ _ Re) by (intros Hcap; apply bool_decide_eq_true_2, R; by left). cbn [res_bind].
  rewrite L12, (settled_again _ _ (parse_lock cwd directory') lock_json _ _ Rl O4) by (intros; split; [reflexivity | by eapply lock_stable]). cbn [res_bind].
  rewrite L14, (if_truthy_again _ local_json _ _ Rs) by (intros; split; [reflexivity | by eapply local_self]). cbn [res_bind].
  rewrite L15, (settled_again _ _ (parse_phase2 cwd directory') phase2_json _ _ Rp P2) by (intros; split; [reflexivity | by eapply phase2_again]). cbn [res_bind].
  assert (G' : settled (fun g => gpu_complete g /\ (gp_available g = true -> bool_decide (is_Some (cf_registrationFile c)) = true)) (cf_gpu c)).
  { intros g Hg. split; [by apply G|]. intros Ha. apply bool_decide_eq_true_2, R. right. rewrite Hg. cbn. by rewrite Ha. }
  rewrite L16, (settled_again _ _ (parse_gpu (bool_decide (is_Some (cf_registrationFile c))) (ex_nodes (cf_expected c))) gpu_json _ _ Rg G')
    by (intros x g Hg [Hc Hr]; split; [reflexivity|]; apply gpu_stable; [by eapply gpu_sound | done | done]). cbn [res_bind].
  rewrite L1, L2, U1, U2, L3, (host_if_again _ U3). cbn [res_bind].
  rewrite L4, (path_if_again _ directory' _ _ Ro1 O1), L5, (path_if_again _ directory' _ _ Ro2 O2). cbn [res_bind].
  rewrite L6, (path_again _ directory' _ _ Rf1 F1), L7, (path_again _ directory' _ _ Rf2 F2), L8, (path_again _ directory' _ _ Rf3 F3). cbn [res_bind].
  rewrite L9, T1, L10, T2, L13, (path_if_again _ directory' _ _ Ro3 O3). cbn [res_bind]. by destruct c.
Qed.

(** ** What an accepted configuration promises *)
Definition https_origin (s : string) : Prop := exists t u, web_url t = Some u /\ u_protocol u = "https:" /\ bare_url u = true /\ u_pathname u = "/" /\ s = u_origin u.
Record local_ok (e : Engine) (maximumMemoryMi maximumContextWindow : Z) (m : LocalModelFixture) : Prop := {
  lo_engine : lf_engine m = e;
  lo_memory : 1024 <= lf_memoryRequiredMi m <= maximumMemoryMi;
  lo_window : 256 <= lf_contextWindow m <= maximumContextWindow;
  lo_url : model_url e (lf_url m) = true
}.
Definition external_ok (x : ExternalModelFixture) : Prop :=
  256 <= match x with OwnedOllama _ w => w | Configured _ _ w _ => w end <= 1048576 /\
  exists t u, web_url t = Some u /\ bare_url u = true /\
    match x with
    | OwnedOllama a _ => a = strip_last "/" (u_href u) /\ (u_protocol u = "https:" \/ internal_provider u = true)
    | Configured _ a _ _ => a = strip_last "/" (u_href u) /\ u_protocol u = "https:"
    end.
Record phase2_ok (p : Phase2) : Prop := {
  po_ollama : local_ok OLlama 32768 8192 (p2_ollamaModel p);
  po_vllm : local_ok VLLM 32768 8192 (p2_vllmModel p);
  po_failure : local_ok OLlama 32768 8192 (p2_failureModel p) /\ is_Some (lf_expectedReason (p2_failureModel p));
  po_external : external_ok (p2_externalModel p)
}.
Record config_ok (c : LabConfig) : Prop := {
  co_urls : https_origin (cf_dashboardUrl c) /\ https_origin (cf_identityUrl c) /\ settled https_origin (cf_inferenceUrl c);
  co_files : Forall (fun f => isAbsolute f = true) ([cf_usernameFile c; cf_passwordFile c; cf_observerKubeconfig c] ++
    omap id [cf_caFile c; cf_registrationFile c; cf_modelCleanupKubeconfig c; cf_lock c]);
  co_times : 100 <= cf_requestTimeoutMs c <= 60000 /\ 100 <= cf_loginTimeoutMs c <= 180000;
  co_nodes : (1 <= length (ex_nodes (cf_expected c)) <= 64)%nat /\ NoDup (map ln_name (ex_nodes (cf_expected c)));
  co_capabilities : forall p, p ∈ ex_capabilities (cf_expected c) -> lc_engines p <> [];
  co_smoke : settled (local_ok OLlama 8192 4096) (cf_smokeModel c);
  co_phase2 : settled phase2_ok (cf_phase2 c);
  co_gpu : settled (gpu_ok (ex_nodes (cf_expected c))) (cf_gpu c)
}.

Lemma host_sound v s : hostname v = Ok s -> https_origin s.
Proof using Type.
  unfold hostname. intros H. destruct (text https_text v) as [t|]; [|discriminate H]. cbn [res_bind] in H. destruct (web_url t) as [u|] eqn:Eu; [|discriminate H].
  destruct (String.eqb (u_protocol u) "https:" && bare_url u && String.eqb (u_pathname u) "/") eqn:E; [|discriminate H]. injection H as <-. bool_prop.
  exists t, u. split; [done|]. split; [by apply String.eqb_eq|]. split; [done|]. split; [by apply String.eqb_eq | done].
Qed.
Lemma endpoint_sound owned v s : endpoint owned v = Ok s -> exists t u, web_url t = Some u /\ bare_url u = true /\ s = strip_last "/" (u_href u) /\
  (u_protocol u = "https:" \/ owned = true /\ internal_provider u = true).
Proof using Type.
  unfold endpoint. intros H. destruct (text http_text v) as [t|]; [|discriminate H]. cbn [res_bind] in H. destruct (web_url t) as [u|] eqn:Eu; [|discriminate H].
  destruct (_ && bare_url u && _ && _) eqn:E; [|discriminate H]. injection H as <-. bool_prop. exists t, u. split; [done|]. split; [done|]. split; [done|].
  match goal with E : _ || _ = true |- _ => apply orb_prop in E as [E|E] end; [left; by apply String.eqb_eq | right; by bool_prop].
Qed.
Lemma local_sound v e m w x : localModel v e m w = Ok x -> local_ok e m w x.
Proof using Type. intros H. apply local_again in H as (_ & H1 & H2 & H3 & H4 & _). by split. Qed.
Lemma external_sound directory d x : parse_external cwd directory d = Ok x -> external_ok x.
Proof using Type.
  unfold parse_external. intros H. destruct (requireSafe _ CONFIG) as [[]|]; [|discriminate H]. cbn [res_bind] in H. destruct (same_text d "source" "owned-ollama"); res_inv.
  - apply window_ok in E1 as [Hw _]. apply endpoint_sound in E0 as (t & u & Hu & Hb & -> & Hp). split; [done|]. exists t, u. naive_solver.
  - apply window_ok in E2 as [Hw _]. apply endpoint_sound in E0 as (t & u & Hu & Hb & -> & Hp). split; [done|]. exists t, u. naive_solver.
Qed.
Lemma phase2_sound directory v p : parse_phase2 cwd directory v = Ok p -> phase2_ok p.
Proof using Type.
  unfold parse_phase2. intros H. destruct (object v); [|discriminate H]. cbn [res_bind] in H. destruct (requireSafe _ CONFIG) as [[]|]; [|discriminate H]. cbn [res_bind] in H. res_inv.
  apply local_sound in E2, E8, E9. apply external_sound in E4. split; [done | done | | done]. split; [by destruct E2 | by eexists].
Qed.
Lemma res_map_out {A B} (f : A -> res exn B) l l' b : res_map f l = Ok l' -> b ∈ l' -> exists a, f a = Ok b.
Proof using Type.
  revert l'. induction l as [|a l IH]; intros l' H Hb; cbn in H; res_inv; [by apply elem_of_nil in Hb|]. apply elem_of_cons in Hb as [->|Hb]; [by exists a | by eapply IH].
Qed.
Lemma capabilities_sound r v l p : parse_capabilities r v = Ok l -> p ∈ l -> lc_engines p <> [].
Proof using Type.
  unfold parse_capabilities. intros H Hp. res_inv. destruct (res_map_out _ _ _ _ E0 Hp) as [x Hx]. unfold parse_capability in Hx. res_inv. units.
  apply requireSafe_ok in E5. cbn. by intros ->.
Qed.
Lemma expected_sound r d e : parse_expected r d = Ok e -> ((1 <= length (ex_nodes e) <= 64)%nat /\ NoDup (map ln_name (ex_nodes e))) /\ forall p, p ∈ ex_capabilities e -> lc_engines p <> [].
Proof using Type.
  unfold parse_expected. intros H. res_inv. cbn [ex_nodes ex_capabilities]. split; [by destruct (nodes_again _ _ E) as (_ & ? & ?)|]. intros p. by eapply capabilities_sound.
Qed.
Lemma truthy_sound {A} (P : A -> Prop) (f : option json -> res exn A) v o : if_truthy f v = Ok o -> (forall v a, f v = Ok a -> P a) -> settled P o.
Proof using Type. intros H Hf. apply if_truthy_ok in H as [->|(a & x & -> & _ & _ & Ha)]; [by intros ?|]. intros b [= <-]. by eapply Hf. Qed.
Lemma lock_sound directory v k : parse_lock cwd directory v = Ok k -> isAbsolute k = true.
Proof using Type. unfold parse_lock. intros H. res_inv. by eapply path_ok. Qed.
Lemma absolute_all l : (forall o, o ∈ l -> settled (fun f => isAbsolute f = true) o) -> Forall (fun f => isAbsolute f = true) (omap id l).
Proof using Type. intros H. apply Forall_forall. intros f ([f'|] & Hf & [= ->])%list_elem_of_omap. by eapply H. Qed.
Lemma config_sound v directory c : parseLabConfig cwd v directory = Ok c -> config_ok c.
Proof using Type.
  intros H. apply parse_read in H as (source & expected & _ & [Re Rl Rs Rp Rg (Ru1 & Ru2 & Ru3) (Ro1 & Ro2 & Ro3) (Rf1 & Rf2 & Rf3) [Rt1 Rt2]]).
  apply expected_sound in Re as [Hn Hc]. split; [..|done|done| | |].
  - split; [by eapply host_sound|]. split; [by eapply host_sound|]. eapply truthy_sound; [exact Ru3 | by apply host_sound].
  - apply Forall_app. split; [repeat (apply List.Forall_cons; [by eapply path_ok|]); by apply List.Forall_nil|]. apply absolute_all. intros o Ho.
    repeat (apply elem_of_cons in Ho as [->|Ho]); [| | | |by apply elem_of_nil in Ho]; eapply truthy_sound; (exact Ro1 || exact Ro2 || exact Ro3 || exact Rl || (by apply path_ok) || by apply lock_sound).
  - split; [by eapply timeout_ok in Rt1 as [? _] | by eapply timeout_ok in Rt2 as [? _]].
  - eapply truthy_sound; [exact Rs | intros ? ?; apply local_sound].
  - eapply truthy_sound; [exact Rp | by apply phase2_sound].
  - eapply truthy_sound; [exact Rg|]. intros x g Hg. by eapply gpu_sound.
Qed.

(** ** Refusals *)
Definition only_config {A} (r : res exn A) : Prop := forall e, r = Err e -> e = harness CONFIG.
Lemma config_bind {A B} (r : res exn A) (f : A -> res exn B) : only_config r -> (forall a, only_config (f a)) -> only_config (res_bind r f).
Proof using Type. intros Hr Hf. destruct r as [a|e]; [apply Hf|]. intros e' [= <-]. by apply Hr. Qed.
Lemma config_ok_value {A} (a : A) : only_config (Ok a).
Proof using Type. by intros e. Qed.
Lemma config_refuse {A} : only_config (refuse (A:=A)).
Proof using Type. by intros e [= <-]. Qed.
Lemma config_safe b : only_config (requireSafe b CONFIG).
Proof using Type. by destruct b; intros e [= <-]. Qed.
Lemma config_map {A B} (f : A -> res exn B) l : (forall a, only_config (f a)) -> only_config (res_map f l).
Proof using Type. intros Hf. induction l as [|a l IH]; [apply config_ok_value|]. cbn. apply config_bind; [apply Hf|]. intros b. apply config_bind; [exact IH|]. intros bs. apply config_ok_value. Qed.
Lemma config_truthy {A} (f : option json -> res exn A) v : (forall v, only_config (f v)) -> only_config (if_truthy f v).
Proof using Type. intros Hf. unfold if_truthy. destruct v as [x|]; [destruct (json_truthy x)|]; try apply config_ok_value. apply config_bind; [apply Hf|]. intros a. apply config_ok_value. Qed.
#[local] Hint Resolve config_bind config_ok_value config_refuse config_safe config_map config_truthy : refusals.
(** Refuse a value by cases. *)
Ltac refusal := repeat match goal with
  | |- only_config (res_bind _ _) => apply config_bind; [|intros ?]
  | |- only_config (if ?b then _ else _) => destruct b
  | |- only_config (match ?x with _ => _ end) => destruct x
  | |- _ => solve [auto with refusals]
  end.
Lemma config_text p v : only_config (text p v). Proof using Type. unfold text. refusal. Qed.
Lemma config_object v : only_config (object v). Proof using Type. unfold object. refusal. Qed.
Lemma config_array v : only_config (array v). Proof using Type. unfold array. refusal. Qed.
Lemma config_bounded lo hi v : only_config (bounded_in lo hi v). Proof using Type. unfold bounded_in. refusal. Qed.
Lemma config_timeout v f m : only_config (timeout v f m). Proof using Type. unfold timeout. destruct v; [apply config_bounded | apply config_ok_value]. Qed.
Lemma config_host v : only_config (hostname v). Proof using Type. unfold hostname. apply config_bind; [apply config_text|]. intros s. refusal. Qed.
Lemma config_endpoint o v : only_config (endpoint o v). Proof using Type. unfold endpoint. apply config_bind; [apply config_text|]. intros s. refusal. Qed.
Lemma config_path directory v : only_config (path cwd directory v). Proof using Type. unfold path. refusal. Qed.
Lemma config_defined p v : only_config (if_defined (text p) v). Proof using Type. unfold if_defined. destruct v; [apply config_bind; [apply config_text | intros a; apply config_ok_value] | apply config_ok_value]. Qed.
#[local] Hint Resolve config_text config_object config_array config_bounded config_timeout config_host config_endpoint config_path config_defined : refusals.
Lemma config_local v e m w : only_config (localModel v e m w). Proof using Type. unfold localModel. refusal. Qed.
Lemma config_expected r d : only_config (parse_expected r d).
Proof using Type.
  unfold parse_expected, parse_nodes, parse_capabilities, parse_images. refusal; (apply config_map || apply config_truthy); intros x;
    (unfold parse_node || unfold parse_capability || unfold parse_image || unfold parse_flux); refusal; apply config_map; intros y; auto with refusals.
Qed.
Lemma config_external directory d : only_config (parse_external cwd directory d).
Proof using Type. unfold parse_external, external_window. refusal. Qed.
Lemma config_gpu r nodes v : only_config (parse_gpu r nodes v).
Proof using Type. unfold parse_gpu. cbv zeta. refusal; apply config_truthy; intros x; (unfold parse_device || unfold gpuModel); refusal. Qed.
#[local] Hint Resolve config_local config_expected config_external config_gpu : refusals.
Lemma config_phase2 directory v : only_config (parse_phase2 cwd directory v).
Proof using Type. unfold parse_phase2. refusal. Qed.
Lemma config_lock directory v : only_config (parse_lock cwd directory v).
Proof using Type. unfold parse_lock. refusal. Qed.
#[local] Hint Resolve config_phase2 config_lock : refusals.
Lemma config_refused v directory : only_config (parseLabConfig cwd v directory).
Proof using Type. unfold parseLabConfig. cbv zeta. refusal. Qed.

(** C32: A lab configuration is refused with CONFIG and nothing else. An accepted one has HTTPS origins without
    credentials, absolute paths, bounded timeouts, between one and 64 nodes of different names,
    capabilities with engines, model fixtures within their bounds and of their engine's URL
    scheme, and a GPU profile whose node and boot it declares and whose models have their device;
    and written back as JSON a settled configuration is accepted from any directory as itself. *)
Theorem config_accepted v directory : match parseLabConfig cwd v directory with
  | Ok c => config_ok c /\ (config_settled c -> forall directory', parseLabConfig cwd (config_json c) directory' = Ok c)
  | Err e => e = harness CONFIG
  end.
Proof using Type.
  destruct (parseLabConfig cwd v directory) as [c|e] eqn:E; [|by eapply config_refused].
  split; [by eapply config_sound|]. intros Hs directory'. by eapply config_stable.
Qed.
(** A file that is not read keeps its own reason; everything else is CONFIG. *)
Lemma load_refused filename file e : loadLabConfig cwd filename file = Err e -> e = harness CONFIG \/ file = Err e.
Proof using Type.
  unfold loadLabConfig. destruct file as [body|f]; cbn [res_bind].
  - destruct (JSON_parse body) as [v|]; [|by intros [= <-]; left]. destruct (parseLabConfig cwd v _) as [c|[h|x]] eqn:Ep; [done | |by intros [= <-]; left].
    intros [= <-]. left. by apply config_refused in Ep.
  - destruct f as [h|x]; intros [= <-]; [by right | by left].
Qed.
End config.

(** ** Examples *)
#[local] Instance example_url : WebUrl := fun s =>
  if negb (startsWith "https://" s) then None else
  let rest := drop_str 8 s in
  let url origin href pathname := {| u_protocol := "https:"; u_origin := origin; u_href := href; u_hostname := ""; u_port := ""; u_pathname := pathname;
    u_username := ""; u_password := ""; u_search := ""; u_hash := ""; u_searchParams := [] |} in
  match indexOf "/" rest with
  | None => Some (url s (s +:+ "/") "/")
  | Some i => Some (url ("https://" +:+ take_str i rest) s (drop_str i rest))
  end.
Definition example_local (engine url : string) (more : dict json) : json :=
  JObj ([("engine", JStr engine); ("computeTarget", JStr "cpu"); ("url", JStr url); ("memoryRequiredMi", num 2048); ("contextWindow", num 2048); ("maxNumSeqs", num 1)] ++ more)%list.
Definition example_gpu_model (engine target url : string) : json :=
  JObj [("engine", JStr engine); ("computeTarget", JStr target); ("url", JStr url); ("contextWindow", num 1024); ("maxNumSeqs", num 1); ("memoryRequiredMi", num 8200); ("kvCacheType", JStr "fp8")].
Definition example_base (capabilities : list json) (more : dict json) : json :=
  JObj ([("version", num 1); ("profile", JStr "preflight"); ("dashboardUrl", JStr "https://lab.example/"); ("identityUrl", JStr "https://id.example");
         ("usernameFile", JStr "username.txt"); ("passwordFile", JStr "../password.txt"); ("observerKubeconfig", JStr "/etc/observer.yaml");
         ("expected", JObj [("applianceUid", JStr "uid-1"); ("applianceNamespace", JStr "ai-system"); ("applianceName", JStr "local"); ("role", JStr "magicstick-admin");
            ("nodes", JArr [JObj [("name", JStr "node"); ("uid", JStr "node-1"); ("bootId", JStr "boot-1")]]); ("capabilities", JArr capabilities)])] ++ more)%list.
Definition example_gpu (devices models : dict json) : json :=
  JObj [("acknowledgeSharingTransitions", JBool true); ("nodeName", JStr "node"); ("nodeUid", JStr "node-1"); ("bootId", JStr "boot-1"); ("devices", JObj devices);
        ("sharedSlots", num 2); ("models", JObj models)].
Definition example_device (n : string) : json := JObj [("id", JStr ("gpu-" +:+ n)); ("pciAddress", JStr ("0000:0" +:+ n +:+ ":00.0"))].
Definition example_config : json :=
  example_base [JObj [("target", JStr "cpu"); ("engines", JArr [JStr "OLlama"])]]
    [("lock", JObj [("namespace", JStr "magicstick-regression"); ("name", JStr "lab-lock"); ("kubeconfig", JStr "./locker.yaml")]);
     ("phase2", JObj [("ollamaModel", example_local "OLlama" "ollama://qwen2.5:0.5b" []); ("vllmModel", example_local "VLLM" "hf://a/small" [("kvCacheType", JStr "auto")]);
        ("failureModel", example_local "OLlama" "ollama://missing:never" [("expectedReason", JStr "not found")]);
        ("externalModel", JObj [("model", JStr "provider/model"); ("apiBase", JStr "https://api.example/v1"); ("contextWindow", JStr "4096")]);
        ("discovery", JObj [("query", JStr "small model"); ("repo", JStr "a/small"); ("artifactUrl", JStr "hf://a/small")])]);
     ("gpu", example_gpu [("amd", example_device "1"); ("nvidia", example_device "2")]
        [("amdOllama", example_gpu_model "OLlama" "amd-gpu" "ollama://qwen2.5:0.5b"); ("amdVllm", example_gpu_model "VLLM" "amd-gpu" "hf://a/small");
         ("nvidiaOllama", example_gpu_model "OLlama" "nvidia-gpu" "ollama://qwen2.5:0.5b"); ("nvidiaVllm", example_gpu_model "VLLM" "nvidia-gpu" "hf://a/small")])].
Example example_accepted : exists c, parseLabConfig "/" example_config "/lab/private" = Ok c /\
  cf_dashboardUrl c = "https://lab.example" /\ cf_passwordFile c = "/lab/password.txt" /\ cf_lock c = Some "/lab/private/locker.yaml" /\
  parseLabConfig "/" (config_json c) "/elsewhere" = Ok c.
Proof. eexists. split; [vm_compute; reflexivity|]. vm_compute. done. Qed.

(** An empty path stands for a registration that the result does not have, so a lab without one
    may do without any capability. *)
Example unregistered_inventory : exists c, parseLabConfig "/" (example_base [] [("registrationFile", JStr "")]) "/lab" = Ok c /\
  ex_capabilities (cf_expected c) = [] /\ cf_registrationFile c = None.
Proof. eexists. split; [vm_compute; reflexivity | done]. Qed.
(** The profile that must name both devices and all four models is accepted with none of them. *)
Example empty_gpu_profile : exists c g, parseLabConfig "/" (example_base [JObj [("target", JStr "cpu"); ("engines", JArr [JStr "OLlama"])]]
    [("gpu", example_gpu [("amd", JNull); ("nvidia", JNull)] [("amdOllama", JNull); ("amdVllm", JNull); ("nvidiaOllama", JNull); ("nvidiaVllm", JNull)])]) "/lab" = Ok c /\
  cf_gpu c = Some g /\ gp_available g = false /\ gp_amd g = None /\ gp_nvidia g = None /\ gp_amdOllama g = None.
Proof. eexists _, _. split; [vm_compute; reflexivity|]. repeat split. Qed.
(** The example is settled, so it also follows that it is accepted as itself. *)
Lemma config_accepted_witness : exists c, parseLabConfig "/" example_config "/lab/private" = Ok c /\ config_settled c /\
  parseLabConfig "/" (config_json c) "/elsewhere" = Ok c.
Proof.
  pose proof (config_accepted "/" example_config "/lab/private") as H. destruct (parseLabConfig "/" example_config "/lab/private") as [c|e] eqn:E; [|by vm_compute in E].
  exists c. split; [reflexivity|]. destruct H as [_ H]. assert (Hs : config_settled c).
  { vm_compute in E. injection E as <-. split; cbn;
      repeat match goal with |- _ /\ _ => split | |- settled _ _ => intros ? [= <-] end; try (vm_compute; reflexivity).
    - vm_compute. repeat split; intros ? [= ].
    - vm_compute. repeat split; eexists; reflexivity.
    - intros [[=]|[=]]. }
  split; [exact Hs | exact (H Hs "/elsewhere")].
Defined.
