(* ===== verification/LabPolicy.v ===== *)
(** * Registered labs (regression/core/lab-policy.ts)

    Live writes need a private registration of the lab, and a marker in the cluster that says
    the same: the registration must name the appliance, the URLs and the nodes of the
    configuration, and the marker the registration. *)

From S2P Require Import Prelude Js Number DashboardProps ApiClient ApiProps RecoveryProps ConfigProps Json JsonFields JsonParse Dates DashboardCore Prog Errors Journal BorrowedModule Recovery KubernetesTermination Config.

Local Open Scope string_scope.
Local Open Scope js_scope.
Local Open Scope Z_scope.

Record LabPolicy : Type := {
  lp_version : Z; lp_phases : list Z; lp_disabledExperimentalEngines : list string; lp_deferredApplicationTests : list string; lp_deferredLiveWorkflows : list string;
  lp_scopes : list string; lp_credentialSeconds : Z; lp_namespace : string; lp_marker : string
}.
Definition labPolicy : LabPolicy := {|
  lp_version := 1; lp_phases := [0; 1; 2; 3; 4; 5; 6; 7; 8]; lp_disabledExperimentalEngines := ["VLLM-Omni"]; lp_deferredApplicationTests := ["hermes"];
  lp_deferredLiveWorkflows := ["applications"; "modules"; "credentials"];
  lp_scopes := ["gpu"; "identity"; "kubernetes"; "license"; "api-restart"; "first-license"; "modules"; "amd-profile"; "federation"; "mesh"; "realtime"; "cache"; "reboot";
                "unmanaged-key"; "host-drills"];
  lp_credentialSeconds := 86400; lp_namespace := "magicstick-regression"; lp_marker := "registered-lab" |}.

(** The identifiers may still be any JSON values here: a pattern is tested on their text. They
    become strings when they are compared with the configuration and the marker. *)
Record LabRegistration : Type := {
  lr_id : option json; lr_applianceUid : option json; lr_nodeUids : list json; lr_dashboardUrl : string; lr_identityUrl : string; lr_createdAt : option json
}.
(** [/^[A-Za-z0-9-]{1,64}$/] *)
Definition uid_text : string -> bool := sized (alnum_or "-") 1 64.
(** [a === b] of parsed values: two objects are never the same. *)
Definition same_value (a b : json) : bool :=
  match a, b with
  | JNull, JNull => true
  | JBool a, JBool b => Bool.eqb a b
  | JNum a, JNum b => num_eqb a b
  | JStr a, JStr b => String.eqb a b
  | _, _ => false
  end.
Fixpoint all_distinct (l : list json) : bool := match l with [] => true | v :: l => negb (existsb (same_value v) l) && all_distinct l end.
Definition text_is (v : option json) (s : string) : bool := match v with Some v => is_text s v | None => false end.

Section registration.
Context `{WebUrl} `{DateFallback}.

(** An origin, written as one. *)
Definition origin_text (s : string) : bool :=
  match web_url s with
  | Some u => String.eqb (u_protocol u) "https:" && String.eqb (u_origin u) s && negb (truthy (u_username u)) && negb (truthy (u_password u))
  | None => false
  end.
Definition parseRegistration (value : json) : res exn LabRegistration :=
  let r := json_obj value ?? [] in
  let nodeUids := array_in r "nodeUids" in
  let? _ := requireSafe (version_one r && same_text r "kind" "disposable-regression-lab" && number_is r "policyVersion" (lp_version labPolicy) &&
    uuid_text (string_of (dict_get r "id")) && uid_text (string_of (dict_get r "applianceUid")) &&
    match nodeUids with
    | Some l => (1 <=? length l)%nat && (length l <=? 64)%nat && all_distinct l && forallb (fun uid => uid_text (String_of_json uid)) l
    | None => false
    end && bool_decide (is_Some (Date_parse (string_of (dict_get r "createdAt"))))) LAB in
  match text_field r "dashboardUrl", text_field r "identityUrl" with
  | Some dashboardUrl, Some identityUrl =>
      let? _ := requireSafe (origin_text dashboardUrl && origin_text identityUrl) LAB in
      Ok {| lr_id := dict_get r "id"; lr_applianceUid := dict_get r "applianceUid"; lr_nodeUids := nodeUids ?? []; lr_dashboardUrl := dashboardUrl;
            lr_identityUrl := identityUrl; lr_createdAt := dict_get r "createdAt" |}
  | _, _ => Err (harness LAB)
  end.

(** [marker] is a ConfigMap. *)
Definition verifyRegistration (r : LabRegistration) (config : LabConfig) (marker : KubeJson) : res exn unit :=
  let nodes := map ln_uid (ex_nodes (cf_expected config)) in
  let data := object_in marker "data" in
  requireSafe (text_is (lr_applianceUid r) (ex_applianceUid (cf_expected config)) && String.eqb (lr_dashboardUrl r) (cf_dashboardUrl config) &&
    String.eqb (lr_identityUrl r) (cf_identityUrl config) && (length (lr_nodeUids r) =? length nodes)%nat &&
    forallb (fun uid => existsb (fun n => is_text n uid) nodes) (lr_nodeUids r) &&
    flag_is marker "immutable" true && same_text (metadata marker) "namespace" (lp_namespace labPolicy) && same_text (metadata marker) "name" (lp_marker labPolicy) &&
    match text_field (object_in (metadata marker) "labels") "regression.magicstick.dev/appliance-uid" with Some uid => text_is (lr_applianceUid r) uid | None => false end &&
    match text_field data "registrationId" with Some id => text_is (lr_id r) id | None => false end &&
    same_text data "policyVersion" (String_of_Z (lp_version labPolicy)) && same_text data "kind" "disposable-regression-lab" &&
    same_text data "nodeUids" (join "," (sort_by text_order (map String_of_json (lr_nodeUids r))))) LAB.

Inductive labE : Type -> Type :=
| L_read (path : string) : labE (res exn string)
| L_get (resource namespace name : string) : labE (res exn KubeJson).
Definition registeredLab (config : LabConfig) : M labE unit exn LabRegistration :=
  match cf_registrationFile config with
  | Some file =>
      let! body := await (L_read file) in
      let! value := of_res (parse_text body) in
      let! r := of_res (parseRegistration value) in
      let! marker := await (L_get "configmaps" (lp_namespace labPolicy) (lp_marker labPolicy)) in
      of_res (verifyRegistration r config marker) ;;
      mret r
  | None => throw (harness LAB)
  end.
End registration.

(** ** Theorems on registered labs

    A registration that was verified names exactly the nodes of the configuration, and the
    marker of a cluster pins them: whoever verifies against the same marker means the same lab
    ([registration_pins_lab]). *)

Section registration.
Context `{WebUrl} `{DateFallback}.

Lemma texts_of l nodes : forallb (fun uid => existsb (fun n => is_text n uid) nodes) l = true -> exists uids, l = map JStr uids /\ uids ⊆ nodes.
Proof using Type.
  induction l as [|v l IH]; cbn; intros Hl; [exists []; split; [done | set_solver]|]. apply andb_prop in Hl as [Hv Hl]. destruct (IH Hl) as (uids & -> & Hsub).
  apply existsb_exists in Hv as (n & Hn & Ht). destruct v as [| | |s| |]; try done. apply String.eqb_eq in Ht as ->. exists (s :: uids).
  split; [done|]. apply list_elem_of_In in Hn. set_solver.
Qed.
Lemma distinct_texts l : all_distinct (map JStr l) = true -> NoDup l.
Proof using Type.
  induction l as [|s l IH]; cbn; [constructor|]. intros [Hs Hl]%andb_prop. constructor; [|by apply IH]. intros Hin. apply negb_true_iff in Hs.
  assert (Ht : existsb (same_value (JStr s)) (map JStr l) = true); [|congruence]. apply existsb_exists. exists (JStr s). split; [|apply String.eqb_refl].
  apply List.in_map. by apply list_elem_of_In.
Qed.
Lemma texts_joined l : map String_of_json (map JStr l) = l.
Proof using Type. induction l as [|s l IH]; [done|]. cbn. by rewrite IH. Qed.
Lemma uid_no_comma s : uid_text s = true -> free_of "," s = true.
Proof using Type.
  unfold uid_text, sized, free_of. intros Hs. bool_prop. match goal with Hf : sforall _ s = true |- _ => revert Hf end. clear. induction s as [|c s IH]; cbn [sforall]; [done|].
  intros [Hc Hs]%andb_prop. apply andb_true_intro. split; [|by apply IH]. destruct (Ascii.eqb_spec "," c) as [<-|]; [by vm_compute in Hc | done].
Qed.
Lemma split_join_commas l : l <> [] -> Forall (fun s => free_of "," s = true) l -> split "," (join "," l) = l.
Proof using Type.
  intros Hne Hl. induction Hl as [|s l Hs Hl IH]; [done|]. destruct l as [|s' l]; [by apply split_free|].
  change (join "," (s :: s' :: l)) with (s +:+ String "," (join "," (s' :: l))). by rewrite split_app, IH.
Qed.

(** What a verified registration says. *)
Record registered (r : LabRegistration) (config : LabConfig) (marker : KubeJson) (uids : list string) : Prop := {
  rd_nodes : lr_nodeUids r = map JStr uids /\ NoDup uids /\ uids ≡ₚ map ln_uid (ex_nodes (cf_expected config));
  rd_lab : lr_applianceUid r = Some (JStr (ex_applianceUid (cf_expected config))) /\ lr_dashboardUrl r = cf_dashboardUrl config /\ lr_identityUrl r = cf_identityUrl config;
  rd_marker : flag_is marker "immutable" true = true /\
    text_field (object_in (metadata marker) "labels") "regression.magicstick.dev/appliance-uid" = Some (ex_applianceUid (cf_expected config)) /\
    base.mbind json_str (lr_id r) = text_field (object_in marker "data") "registrationId" /\ is_Some (lr_id r) /\
    text_field (object_in marker "data") "nodeUids" = Some (join "," (sort_by text_order uids));
  rd_uids : uids <> [] /\ Forall (fun u => uid_text u = true) uids
}.
Lemma parsed_uids v r : parseRegistration v = Ok r -> lr_nodeUids r <> [] /\ all_distinct (lr_nodeUids r) = true /\ forallb (fun uid => uid_text (String_of_json uid)) (lr_nodeUids r) = true.
Proof using Type.
  unfold parseRegistration. cbv zeta. intros Hp. destruct (requireSafe _ LAB) as [[]|] eqn:E1; [|discriminate Hp]. apply requireSafe_ok in E1. cbn [res_bind] in Hp.
  destruct (text_field _ "dashboardUrl"); [|discriminate Hp]. destruct (text_field _ "identityUrl"); [|discriminate Hp]. destruct (requireSafe _ LAB) as [[]|]; [|discriminate Hp].
  cbn [res_bind] in Hp. injection Hp as <-. cbn [lr_nodeUids]. apply andb_prop in E1 as [E1 _]. apply andb_prop in E1 as [_ E1].
  destruct (array_in _ "nodeUids") as [l|]; [|discriminate E1]. bool_prop. split; [by destruct l | done].
Qed.
Lemma text_found o s : match o with Some t => text_is s t | None => false end = true -> exists t, o = Some t /\ s = Some (JStr t).
Proof using Type. destruct o as [t|]; [|done]. destruct s as [[| | |u| |]|]; try done. intros Ht%String.eqb_eq. subst. by exists u. Qed.
Lemma same_text_found d k s : same_text d k s = true -> text_field d k = Some s.
Proof using Type. unfold same_text. destruct (text_field d k) as [t|]; [|done]. by intros ->%String.eqb_eq. Qed.
Lemma verified_registered v r config marker : parseRegistration v = Ok r -> verifyRegistration r config marker = Ok tt -> exists uids, registered r config marker uids.
Proof using Type.
  intros Hp Hv. apply parsed_uids in Hp as (Hne & Hd & Hu). unfold verifyRegistration in Hv. apply requireSafe_ok in Hv.
  repeat match goal with E : _ && _ = true |- _ => apply andb_prop in E as [? ?] end.
  match goal with E : forallb (fun uid => existsb _ _) _ = true |- _ => destruct (texts_of _ _ E) as (uids & El & Hsub) end.
  rewrite El in *. exists uids. apply distinct_texts in Hd as Hnd.
  match goal with E : (length _ =? length _)%nat = true |- _ => apply Nat.eqb_eq in E; rewrite length_map in E; rename E into Hlen end.
  repeat match goal with E : match _ with Some _ => text_is _ _ | None => false end = true |- _ => apply text_found in E as (? & ? & ?) end.
  match goal with E : text_is (lr_applianceUid r) _ = true |- _ => apply (text_found (Some _)) in E as (a & [= <-] & Ea) end.
  repeat match goal with E : same_text _ _ _ = true |- _ => apply same_text_found in E | E : String.eqb _ _ = true |- _ => apply String.eqb_eq in E end.
  split.
  - split; [done|]. split; [done|]. apply submseteq_length_Permutation; [by apply NoDup_submseteq | lia].
  - by split.
  - rewrite texts_joined in *. split; [done|]. split; [congruence|]. split; [|split; [|done]].
    + match goal with E : lr_id r = _ |- _ => rewrite E end. done.
    + match goal with E : lr_id r = _ |- _ => rewrite E end. done.
  - split; [by intros -> |]. clear -Hu. induction uids as [|u l IH]; cbn in Hu; [by apply List.Forall_nil|]. apply andb_prop in Hu as [? ?]. apply List.Forall_cons; [done | by apply IH].
Qed.
Lemma pinned r config marker uids r' config' uids' : registered r config marker uids -> registered r' config' marker uids' ->
  ex_applianceUid (cf_expected config) = ex_applianceUid (cf_expected config') /\ uids ≡ₚ uids'.
Proof using Type.
  intros [_ _ (_ & Ha & _ & _ & Hm) (Hne & Hu)] [_ _ (_ & Ha' & _ & _ & Hm') (Hne' & Hu')]. split; [congruence|].
  assert (Hs : forall l : list string, l <> [] -> Forall (fun u => uid_text u = true) l -> split "," (join "," (sort_by text_order l)) = sort_by text_order l).
  { intros l Hl Hf. apply split_join_commas.
    - intros Hnil. apply Hl. apply Permutation_nil_r. rewrite <- Hnil. by rewrite sort_by_perm.
    - apply (Forall_impl (fun u => uid_text u = true)); [by rewrite sort_by_perm | by apply uid_no_comma]. }
  rewrite <- (sort_by_perm text_order uids), <- (sort_by_perm text_order uids'), <- (Hs uids), <- (Hs uids') by done.
  assert (E : join "," (sort_by text_order uids) = join "," (sort_by text_order uids')) by congruence. by rewrite E.
Qed.

(** C31: A registration that parses and verifies names the appliance and the URLs of the configuration and
    exactly its nodes, each once, and agrees with an immutable marker; and what verifies against
    the same marker later, whatever its configuration, is the same appliance with the same nodes. *)
Theorem registration_pins_lab v r config marker : parseRegistration v = Ok r -> verifyRegistration r config marker = Ok tt ->
  exists uids, registered r config marker uids /\
  forall v' r' config', parseRegistration v' = Ok r' -> verifyRegistration r' config' marker = Ok tt ->
    ex_applianceUid (cf_expected config') = ex_applianceUid (cf_expected config) /\ map ln_uid (ex_nodes (cf_expected config')) ≡ₚ map ln_uid (ex_nodes (cf_expected config)).
Proof using Type.
  intros Hp Hv. destruct (verified_registered _ _ _ _ Hp Hv) as [uids Hr]. exists uids. split; [done|]. intros v' r' config' Hp' Hv'.
  destruct (verified_registered _ _ _ _ Hp' Hv') as [uids' Hr']. destruct (pinned _ _ _ _ _ _ _ Hr Hr') as [Ha Hu]. split; [done|].
  destruct Hr as [(_ & _ & Hn) _ _ _], Hr' as [(_ & _ & Hn') _ _ _]. by rewrite <- Hn, <- Hn'.
Qed.

(** One step of a trace. *)
Lemma steps_inv {E A} (p : prog E A) tr q : steps p tr q ->
  match p with
  | Done a => tr = [] /\ q = Done a
  | Await op k => (tr = [] /\ q = Await op k) \/ exists x tr', tr = Ev op x :: tr' /\ steps (k x) tr' q
  end.
Proof using Type. intros Hs. destruct Hs as [p|X op k x tr q Hs]; [destruct p; auto|]. right. by exists x, tr. Qed.
(** A lab is registered only with what was read from its own file and the marker of the cluster. *)
Lemma registered_lab config s tr r s' : steps (registeredLab config s) tr (Done (s', Ok r)) -> exists file body v marker,
  cf_registrationFile config = Some file /\ tr = [Ev (L_read file) (Ok body); Ev (L_get "configmaps" "magicstick-regression" "registered-lab") (Ok marker)] /\
  JSON_parse body = Some v /\ parseRegistration v = Ok r /\ verifyRegistration r config marker = Ok tt.
Proof using Type.
  unfold registeredLab. destruct (cf_registrationFile config) as [file|]; [|intros Hs; by apply steps_inv in Hs as [_ [=]]].
  intros Hs. apply steps_inv in Hs as [[_ [=]]|([body|e] & tr1 & -> & Hs)]; [|by apply steps_inv in Hs as [_ [=]]]. cbn in Hs.
  unfold parse_text in Hs. destruct (JSON_parse body) as [v|] eqn:Ev; [|by apply steps_inv in Hs as [_ [=]]]. cbn in Hs.
  destruct (parseRegistration v) as [r'|e] eqn:Er; [|by apply steps_inv in Hs as [_ [=]]].
  apply steps_inv in Hs as [[_ [=]]|([marker|e] & tr2 & -> & Hs)]; [|by apply steps_inv in Hs as [_ [=]]]. cbn in Hs.
  destruct (verifyRegistration r' config marker) as [[]|e] eqn:Eok; apply steps_inv in Hs as [-> Hq]; [|done]. injection Hq as -> ->.
  by exists file, body, v, marker.
Qed.
End registration.

(** ** Witness *)
#[local] Existing Instance example_url.
#[local] Existing Instance example_dates.
Definition example_id : string := "00000000-0000-0000-0000-00000000000d".
Definition example_registration : json :=
  JObj [("version", num 1); ("kind", JStr "disposable-regression-lab"); ("policyVersion", num 1); ("id", JStr example_id); ("applianceUid", JStr "uid-1");
        ("nodeUids", JArr [JStr "node-1"]); ("dashboardUrl", JStr "https://lab.example"); ("identityUrl", JStr "https://id.example"); ("createdAt", JStr "2026-01-02T03:04:05.678Z")].
Definition example_registered : LabRegistration :=
  {| lr_id := Some (JStr example_id); lr_applianceUid := Some (JStr "uid-1"); lr_nodeUids := [JStr "node-1"]; lr_dashboardUrl := "https://lab.example";
     lr_identityUrl := "https://id.example"; lr_createdAt := Some (JStr "2026-01-02T03:04:05.678Z") |}.
Definition example_marker : KubeJson :=
  [("immutable", JBool true);
   ("metadata", JObj [("namespace", JStr "magicstick-regression"); ("name", JStr "registered-lab"); ("labels", JObj [("regression.magicstick.dev/appliance-uid", JStr "uid-1")])]);
   ("data", JObj [("registrationId", JStr example_id); ("policyVersion", JStr "1"); ("kind", JStr "disposable-regression-lab"); ("nodeUids", JStr "node-1")])].
Lemma registration_pins_lab_witness : exists config uids, parseLabConfig "/" example_config "/lab/private" = Ok config /\ registered example_registered config example_marker uids.
Proof.
  destruct (parseLabConfig "/" example_config "/lab/private") as [config|e] eqn:E; [|by vm_compute in E]. exists config.
  assert (Hv : verifyRegistration example_registered config example_marker = Ok tt) by (vm_compute in E; injection E as <-; vm_compute; reflexivity).
  assert (Hp : parseRegistration example_registration = Ok example_registered) by (vm_compute; reflexivity).
  destruct (registration_pins_lab _ _ _ _ Hp Hv) as [uids [Hr _]].
  by exists uids.
Defined.
