(* ===== verification/Fence.v ===== *)
(** * Fenced API clients (regression/core/transport.ts, preparation-api.ts)

    The harness talks to the product through the product's own API client, over a transport
    that decides which requests may leave: [fetch] of the client is a function of the harness
    which checks the request, asks the guard before a change and calls the browser's request
    context. [via] composes the two: it runs a program of the client over a transport. The
    clients that own keys, models and accounts build on the definitions here. *)

From S2P Require Import Prelude Js Number Json JsonParse Prog Regex Errors DashboardCore JsonFields ApiClient Canonical Config.

Local Open Scope string_scope.
Local Open Scope js_scope.
Local Open Scope Z_scope.

(** ** The operations of a transport *)

(** What is thrown. [Rejected] is the HarnessError that keeps the status of a refusal
    ([ModelCreateRejected], [AdministrationRejected]), [SessionExpired] the one of an expired
    session, [Failed_request] an ApiError of the client. *)
Inductive fence_exn : Type :=
| Thrown (e : exn)
| Rejected (status : Z)
| SessionExpired
| Failed_request (e : ApiError).
Definition raise (c : ReasonCode) : fence_exn := Thrown (harness c).
Definition type_error : fence_exn := Thrown (Foreign "TypeError").
Definition instanceof_HarnessError (e : fence_exn) : bool :=
  match e with Thrown (Harness _) | Rejected _ | SessionExpired => true | Thrown (Foreign _) | Failed_request _ => false end.
(** [if (error instanceof HarnessError) throw error; throw new HarnessError(c)] *)
Definition harness_or (c : ReasonCode) (e : fence_exn) : fence_exn := if instanceof_HarnessError e then e else raise c.

(** A request of the browser's context: never redirected, its failure no exception. *)
Record ContextRequest : Type := {
  cx_url : string; cx_method : string; cx_headers : list (string * string); cx_data : option string; cx_timeout : number
}.
Record Answer : Type := { an_status : Z; an_contentType : option string }.

Inductive fenceE : Type -> Type :=
(** [assertMutationAllowed], [guard] *)
| F_guard : fenceE (res fence_exn unit)
| F_before_send : fenceE (res fence_exn unit)
| F_fetch (r : ContextRequest) : fenceE (res fence_exn Answer)
(** The length in bytes and the text of the last answer. *)
| F_body : fenceE (res fence_exn (Z * string))
| F_observe (value : dict json) : fenceE (res fence_exn unit)
(** The journal: [requested], [rejected] and [owned] of an entry. *)
| F_requested (name : string) : fenceE (res fence_exn unit)
| F_rejected (name : string) : fenceE (res fence_exn unit)
| F_owned (name uid : string) : fenceE (res fence_exn unit)
(** [randomBytes(24).toString('base64url')] *)
| F_random : fenceE string.

Notation FM S := (M fenceE S fence_exn).

Definition check {S} (b : bool) (c : ReasonCode) : FM S unit := of_res (if b then Ok tt else Err (raise c)).

(** An operation whose result and failure are not looked at. *)
Definition discard {S A} (m : FM S A) : FM S unit := try_catch (let! _ := m in mret tt) (fun _ => mret tt).

(** ** The client over a transport *)
Definition of_api (e : api_exn) : fence_exn :=
  match e with
  | Api e => Failed_request e
  | Network m => Thrown (Foreign m)
  | Malformed => Thrown (Foreign "ZodError")
  end.
Definition lift {A} (r : res api_exn A) : res fence_exn A := match r with Ok a => Ok a | Err e => Err (of_api e) end.

(** The client has no token and does not catch what its [fetch] throws. *)
Fixpoint via {S A} (transport : FetchRequest -> FM S Response) (p : prog apiE (unit * res api_exn A)) : FM S A :=
  match p with
  | Done (_, r) => of_res (lift r)
  | Await op k =>
      match op in apiE X return (X -> prog apiE (unit * res api_exn A)) -> (X -> FM S A) -> FM S A with
      | Access_token => fun _ k => k (Ok None)
      | Fetch r => fun _ k => let! response := transport r in k (Ok response)
      end k (fun x => via transport (k x))
  end.

Definition call {S} (transport : FetchRequest -> FM S Response) (api : MagicStickApi) (c : api_call) : FM S json := via transport (invoke api c tt).
Definition call_path {S} (transport : FetchRequest -> FM S Response) (api : MagicStickApi) (method path : string) (body : json) : FM S json :=
  via transport (request api path {| ri_method := Some method; ri_headers := []; ri_body := Some (stringify "" "" body) |} tt).

(** ** What the transports share *)
Section urls.
Context {web : WebUrl}.
Definition new_URL (s : string) : res fence_exn Url := match web_url s with Some u => Ok u | None => Err type_error end.
Definition origin_of (baseUrl : string) : res fence_exn string := match new_URL baseUrl with Ok u => Ok (u_origin u) | Err e => Err e end.
End urls.

Definition no_body (input : FetchRequest) : bool := negb (truthy (fr_body input ?? "")).
(** [...(init.body ? {data: String(init.body)} : {})] *)
Definition data_of (input : FetchRequest) : option string := if no_body input then None else fr_body input.
(** [Object.fromEntries(headers.entries())]: sorted by name. *)
Definition header_entries (h : dict string) : list (string * string) := sort_by (fun a b => text_order a.1 b.1) h.
(** [new URL(...).searchParams.get(k)] *)
Definition param (u : Url) (k : string) : option string := dict_get (u_searchParams u) k.

Definition json_type (a : Answer) : bool := includesStr "application/json" (an_contentType a ?? "").
Definition success (a : Answer) : bool := (200 <=? an_status a) && (an_status a <? 300).
(** [new Response(text, {status, headers: {'Content-Type': 'application/json'}})]: a text is
    no body for three of the statuses. *)
Definition new_Response (status : Z) (text : string) : res fence_exn Response :=
  if (status <? 200) || (599 <? status) then Err (Thrown (Foreign "RangeError"))
  else if bool_decide (status ∈ [204; 205; 304]) then Err type_error
  else Ok {| r_status := status; r_statusText := ""; r_contentType := Some "application/json"; r_json := JSON_parse text; r_text := Some text |}.

(** The request itself: whatever goes wrong is the API's failure. *)
Definition context_fetch {S} (r : ContextRequest) : FM S Answer := try_catch (await (F_fetch r)) (fun _ => throw (raise API)).
(** The body, within a limit, as the response of the client. *)
Definition answer_body {S} (limit : Z) (a : Answer) : FM S Response :=
  let! body := await F_body in
  check (body.1 <? limit) API ;;
  of_res (new_Response (an_status a) body.2).
Definition two_mebibytes : Z := 2 * 1024 * 1024.
Definition eight_mebibytes : Z := 8 * 1024 * 1024.

(** ** The read-only client *)
Section reads.
Context {web : WebUrl} {collation : Collation}.

Definition reads : list string :=
  ["/api/session"; "/api/appliance"; "/api/models"; "/api/modules"; "/api/instances"; "/api/settings"; "/api/status"; "/api/host-management"; "/api/hardware/gpu-sharing"].
Definition accept_json : list (string * string) := [("Accept", "application/json")].
Definition bare_path (u : Url) : bool := negb (truthy (u_search u)) && negb (truthy (u_hash u)).

Definition readOnlyFetch {S} (origin : string) (timeoutMs : number) (input : FetchRequest) : FM S Response :=
  let! url := of_res (new_URL (fr_url input)) in
  check (String.eqb (u_origin url) origin && includes reads (u_pathname url) && bare_path url && String.eqb (toUpperCase (fr_method input)) "GET" && no_body input) MUTATION ;;
  try_catch
    (let! response := await (F_fetch {| cx_url := u_href url; cx_method := "GET"; cx_headers := accept_json; cx_data := None; cx_timeout := timeoutMs |}) in
     (if String.eqb (u_pathname url) "/api/session" && (an_status response =? 401) then throw SessionExpired else mret tt) ;;
     check ((an_status response =? 200) && json_type response) API ;;
     answer_body eight_mebibytes response)
    (fun e => throw (harness_or API e)).
Definition readOnlyApi {S} (baseUrl : string) (timeoutMs : number) (c : api_call) : FM S json :=
  let! origin := of_res (origin_of baseUrl) in
  call (readOnlyFetch origin timeoutMs) (new_MagicStickApi (Some baseUrl) false) c.

(** ** The client of the preparation *)

(** [RuntimeModelFixture]: the fields of a fixture on either target, JSON where the client
    only passes them on. *)
Record RuntimeModelFixture : Type := {
  fx_engine : string; fx_computeTarget : string; fx_url : string; fx_memoryRequiredMi : Z; fx_contextWindow : Z; fx_maxNumSeqs : Z; fx_kvCacheType : option string;
  fx_realtime : option json; fx_gpuDevices : option json; fx_gpuDeployment : option json; fx_systemMemoryMi : option Z; fx_vllm : option json
}.
Definition num (z : Z) : json := JNum (Int z).
Definition estimateInput (f : RuntimeModelFixture) : json :=
  JObj [("engine", JStr (fx_engine f)); ("computeTarget", JStr (fx_computeTarget f)); ("url", JStr (fx_url f)); ("modelType", JStr "chat");
        ("contextWindow", num (fx_contextWindow f)); ("maxNumSeqs", num (fx_maxNumSeqs f)); ("kvCacheType", JStr (fx_kvCacheType f ?? "auto"))].

Definition discovery_paths : list string := ["/api/model-discovery/search"; "/api/model-discovery/artifacts"].
Definition discovery_fields : list string := ["provider"; "engine"; "computeTarget"; "modelType"; "q"; "repo"; "cursor"; "limit"].
Definition name_char (c : ascii) : bool := is_alnum c || existsb (Ascii.eqb c) ["."; "_"; "-"]%char.
(** [/^[a-zA-Z0-9][a-zA-Z0-9 ._:/+-]{1,79}$/] *)
Definition query_pattern : re := Cat (Cls is_alnum) (Cat (Cls (fun c => name_char c || existsb (Ascii.eqb c) [" "; ":"; "/"; "+"]%char)) (upto 78 (Cls (fun c => name_char c || existsb (Ascii.eqb c) [" "; ":"; "/"; "+"]%char)))).
(** [/^[a-zA-Z0-9._-]+\/[a-zA-Z0-9._-]+$/] *)
Definition repo_pattern : re := Cat (plus (Cls name_char)) (Cat (chr "/") (plus (Cls name_char))).
Definition param_is (u : Url) (k v : string) : bool := bool_decide (param u k = Some v).
Definition given (o : option string) (f : string -> bool) : bool := match o with Some s => truthy s && f s | None => false end.
Definition allowed_discovery (u : Url) : bool :=
  let fields := dict_keys (u_searchParams u) in
  includes discovery_paths (u_pathname u) && bool_decide (NoDup fields) && forallb (includes discovery_fields) fields &&
  param_is u "provider" "huggingface" && param_is u "engine" "VLLM" && param_is u "computeTarget" "cpu" && param_is u "modelType" "chat" && param_is u "limit" "20" &&
  (if endsWith "/search" (u_pathname u) then negb (truthy (param u "repo" ?? "")) && given (param u "q") (rtest query_pattern)
   else negb (truthy (param u "q" ?? "")) && given (param u "repo") (rtest repo_pattern)) &&
  (negb (truthy (param u "cursor" ?? "")) || (String.length (param u "cursor" ?? "") <=? 4096)%nat).
Definition allowedPreparationRequest (u : Url) (method : string) (body : option json) (origin : string) (estimates : list json) : bool :=
  String.eqb (u_origin u) origin && negb (truthy (u_username u)) && negb (truthy (u_password u)) && negb (truthy (u_hash u)) &&
  (if String.eqb method "POST" then
     String.eqb (u_pathname u) "/api/models/estimate-memory" && negb (truthy (u_search u)) &&
     existsb (fun value => String.eqb (canonicalInput (Some value)) (canonicalInput body)) estimates
   else String.eqb method "GET" && negb (match body with Some v => json_truthy v | None => false end) && allowed_discovery u).

Definition estimates_of (fixtures : list RuntimeModelFixture) : list json := map estimateInput (List.filter (fun f => String.eqb (fx_computeTarget f) "cpu") fixtures).
Definition preparation_headers (method origin : string) : list (string * string) :=
  (accept_json ++ if String.eqb method "POST" then [("Content-Type", "application/json"); ("X-MagicStick-CSRF", "dashboard"); ("Origin", origin)] else [])%list.
(** [init.body ? JSON.parse(String(init.body)) : undefined] *)
Definition parse_body {S} (input : FetchRequest) : FM S (option json) :=
  match data_of input with
  | None => mret None
  | Some text => match JSON_parse text with Some v => mret (Some v) | None => throw (raise MUTATION) end
  end.
(** [origin] is the given base, [base] the origin of the read-only transport. *)
Definition preparation_transport {S} (origin base : string) (timeoutMs : number) (estimates : list json) (input : FetchRequest) : FM S Response :=
  let! url := of_res (new_URL (fr_url input)) in
  let method := toUpperCase (fr_method input) in
  if String.eqb method "GET" && negb (includes discovery_paths (u_pathname url)) then readOnlyFetch base timeoutMs input
  else
    let! body := parse_body input in
    check (allowedPreparationRequest url method body origin estimates) MUTATION ;;
    let! response := context_fetch {| cx_url := u_href url; cx_method := method; cx_headers := preparation_headers method origin; cx_data := data_of input; cx_timeout := timeoutMs |} in
    check ((an_status response =? 200) && json_type response) API ;;
    answer_body eight_mebibytes response.
Definition preparationApi {S} (origin : string) (timeoutMs : number) (fixtures : list RuntimeModelFixture) (c : api_call) : FM S json :=
  let! base := of_res (origin_of origin) in
  call (preparation_transport origin base timeoutMs (estimates_of fixtures)) (new_MagicStickApi (Some origin) false) c.
End reads.

(** ** Fenced API clients: their properties (regression/core/transport.ts, preparation-api.ts)

    What the client asks of a transport, the traces of a fenced client, and what the read-only
    and the preparation's transport let through. *)

(** ** A call is one request of the transport *)
Definition path_request (api : MagicStickApi) (method path : string) (body : option string) : FetchRequest :=
  {| fr_url := api_baseUrl api +:+ path; fr_method := toUpperCase method;
     fr_headers := request_headers {| ri_method := Some method; ri_headers := []; ri_body := body |} (toUpperCase method) None;
     fr_body := body; fr_credentials := same_origin |}.
Definition call_request (api : MagicStickApi) (c : api_call) : FetchRequest :=
  path_request api (ep_method (ApiClient.endpoint c)) (ep_path (ApiClient.endpoint c)) (ep_body (ApiClient.endpoint c)).
Definition responded (r : res fence_exn Response) : res fence_exn json :=
  match r with Ok response => lift (respond response) | Err e => Err e end.

Section via.
Context {G S : Type}.
Context {pre : forall X, G -> fenceE X -> Prop} {asm : forall X, G -> fenceE X -> X -> Prop} {upd : forall X, G -> fenceE X -> X -> G}.
Context (transport : FetchRequest -> FM S Response) (api : MagicStickApi) (Hapi : api_hasToken api = false).

Lemma wpm_via_request method path body s g (Q : G -> S -> res fence_exn json -> Prop) :
  wpm pre asm upd (transport (path_request api method path body)) s g (fun g' s' r => Q g' s' (responded r)) ->
  wpm pre asm upd (via transport (request api path {| ri_method := Some method; ri_headers := []; ri_body := body |} tt)) s g Q.
Proof using Hapi.
  intros H. unfold request, access_token. rewrite Hapi. cbn [mbind mret pbind await via fst snd].
  apply wpm_bind. eapply wpm_mono; [|exact H]. intros g' s' [r|e]; [|done]. cbn [pbind fst snd via of_res].
  intros HQ. by apply wpm_of_res.
Qed.
Lemma wpm_call c s g (Q : G -> S -> res fence_exn json -> Prop) :
  wpm pre asm upd (transport (call_request api c)) s g (fun g' s' r => Q g' s' (responded r)) -> wpm pre asm upd (call transport api c) s g Q.
Proof using Hapi. apply wpm_via_request. Qed.
Lemma wpm_call_path method path body s g (Q : G -> S -> res fence_exn json -> Prop) :
  wpm pre asm upd (transport (path_request api method path (Some (stringify "" "" body)))) s g (fun g' s' r => Q g' s' (responded r)) ->
  wpm pre asm upd (call_path transport api method path body) s g Q.
Proof using Hapi. apply wpm_via_request. Qed.
End via.

Lemma responded_ok r v : responded r = Ok v -> exists response, r = Ok response /\ response_body response = v.
Proof.
  destruct r as [response|e]; [|done]. unfold responded, respond. destruct (response_ok response); [|done]. intros [= <-]. by exists response.
Qed.

(** A GET of the client has no body. *)
Lemma get_no_body c : ep_method (ApiClient.endpoint c) = "GET" -> ep_body (ApiClient.endpoint c) = None.
Proof. destruct c as [c|c|c|c|c]; destruct c; (done || discriminate). Qed.

Lemma call_no_body api c : toUpperCase (fr_method (call_request api c)) = "GET" -> no_body (call_request api c) = true.
Proof.
  intros Hm. unfold no_body, call_request. cbn [fr_body path_request]. rewrite get_no_body; [done|].
  revert Hm. cbn. destruct c as [c|c|c|c|c]; destruct c; (done || discriminate).
Qed.

Section steps.
Context {G S : Type}.
Context {pre : forall X, G -> fenceE X -> Prop} {asm : forall X, G -> fenceE X -> X -> Prop} {upd : forall X, G -> fenceE X -> X -> G}.

Lemma wpm_check b c s g (Q : G -> S -> res fence_exn unit -> Prop) :
  (b = true -> Q g s (Ok tt)) -> (b = false -> Q g s (Err (raise c))) -> wpm pre asm upd (check b c) s g Q.
Proof. intros H1 H2. apply wpm_of_res. destruct b; auto. Qed.

Lemma wpm_context_fetch r s g (Q : G -> S -> res fence_exn Answer -> Prop) :
  pre _ g (F_fetch r) ->
  (forall a, asm _ g (F_fetch r) (Ok a) -> Q (upd _ g (F_fetch r) (Ok a)) s (Ok a)) ->
  (forall e, asm _ g (F_fetch r) (Err e) -> Q (upd _ g (F_fetch r) (Err e)) s (Err (raise API))) ->
  wpm pre asm upd (context_fetch r) s g Q.
Proof. intros Hp H1 H2. apply wpm_try, wpm_await; [done|]. intros [a|e] Ha; [by apply H1 | by apply H2]. Qed.

Lemma wpm_answer_body limit a s g (Q : G -> S -> res fence_exn Response -> Prop) :
  pre _ g F_body ->
  (forall n text, asm _ g F_body (Ok (n, text)) -> Q (upd _ g F_body (Ok (n, text))) s (new_Response (an_status a) text)) ->
  (forall r e, asm _ g F_body r -> Q (upd _ g F_body r) s (Err e)) ->
  wpm pre asm upd (answer_body limit a) s g Q.
Proof.
  intros Hp H1 H2. apply wpm_bind, wpm_await; [done|]. intros [[n text]|e] Ha; [|by apply H2].
  apply wpm_bind, wpm_check; intros _; [apply wpm_of_res; by apply H1 | by apply H2].
Qed.

Lemma wpm_parse_body input s g (Q : G -> S -> res fence_exn (option json) -> Prop) :
  Q g s (Ok (base.mbind JSON_parse (data_of input))) -> Q g s (Err (raise MUTATION)) -> wpm pre asm upd (parse_body input) s g Q.
Proof. unfold parse_body. destruct (data_of input) as [t|]; cbn [base.mbind option_bind]; [|done]. by destruct (JSON_parse t). Qed.

Lemma wpm_new_URL {web : WebUrl} t s g (Q : G -> S -> res fence_exn Url -> Prop) :
  (forall u, web_url t = Some u -> Q g s (Ok u)) -> Q g s (Err type_error) -> wpm pre asm upd (of_res (new_URL t)) s g Q.
Proof. intros H1 H2. apply wpm_of_res. unfold new_URL. destruct (web_url t) as [u|] eqn:E; auto. Qed.
End steps.

Lemma discard_wp {G S A} (pre : forall X, G -> fenceE X -> Prop) asm upd (m : FM S A) s g (I : G -> S -> Prop) :
  wpm pre asm upd m s g (fun g' s' _ => I g' s') -> wpm pre asm upd (discard m) s g (fun g' s' r => r = Ok tt /\ I g' s').
Proof. intros H. apply wpm_try, wpm_bind. eapply wpm_mono; [|exact H]. by intros g' s' [a|e] Hi. Qed.

(** ** The requests of a trace *)
Definition sent (e : event (E := fenceE)) : list ContextRequest := let 'Ev op _ := e in match op with F_fetch r => [r] | _ => [] end.
Definition all_sent (tr : list event) : list ContextRequest := flat_map sent tr.

(** Operations that only read: requests satisfying [P], and their bodies. *)
Definition reading (P : ContextRequest -> Prop) X (g : unit) (op : fenceE X) : Prop := match op with F_fetch r => P r | F_body => True | _ => False end.
Definition anything X (g : unit) (op : fenceE X) (x : X) : Prop := True.
Definition no_ghost X (g : unit) (op : fenceE X) (x : X) : unit := tt.

Lemma reading_sent P g tr : respects (reading P) no_ghost g tr -> Forall P (all_sent tr).
Proof.
  revert g. induction tr as [|[X op x] tr IH]; intros g; [constructor|]. cbn [respects ghost]. intros [Hp Hr].
  specialize (IH _ Hr). destruct op; try done. by constructor.
Qed.
Lemma anything_admissible (g : unit) tr : admissible anything no_ghost g tr.
Proof. revert g. induction tr as [|[X op x] tr IH]; intros g; by repeat split. Qed.

(** ** The reads *)
Section reads.
Context {web : WebUrl} {collation : Collation}.

(** A request addresses a URL of an origin. *)
Definition addresses (r : ContextRequest) (origin : string) (u : Url) : Prop := (exists input, web_url input = Some u) /\ cx_url r = u_href u /\ u_origin u = origin.
Definition product_read (origin : string) (r : ContextRequest) : Prop :=
  exists u, addresses r origin u /\ u_pathname u ∈ reads /\ u_search u = "" /\ u_hash u = "" /\ cx_method r = "GET" /\ cx_data r = None.
Definition discovery_read (origin : string) (r : ContextRequest) : Prop :=
  exists u, addresses r origin u /\ allowed_discovery u = true /\ cx_method r = "GET" /\ cx_data r = None.
(** The estimator is asked about an estimate of a fixture on the CPU. *)
Definition estimation (origin : string) (fixtures : list RuntimeModelFixture) (r : ContextRequest) : Prop :=
  exists u f body, addresses r origin u /\ u_pathname u = "/api/models/estimate-memory" /\ cx_method r = "POST" /\
    f ∈ fixtures /\ fx_computeTarget f = "cpu" /\ base.mbind JSON_parse (cx_data r) = body /\ canonicalInput body = canonical (estimateInput f).

Lemma truthy_false s : truthy s = false -> s = "".
Proof. unfold truthy. intros H%negb_false_iff. by apply String.eqb_eq. Qed.
Lemma bare_path_spec u : bare_path u = true -> u_search u = "" /\ u_hash u = "".
Proof. unfold bare_path. intros [H1%negb_true_iff H2%negb_true_iff]%andb_prop. split; by apply truthy_false. Qed.

Lemma readOnly_wp {S} (P : ContextRequest -> Prop) origin timeout input (s : S) :
  (forall r, product_read origin r -> P r) ->
  wpm (reading P) anything no_ghost (readOnlyFetch origin timeout input) s tt (fun _ _ _ => True).
Proof.
  intros HP. unfold readOnlyFetch. apply wpm_bind, wpm_new_URL; [|done]. intros u Hu.
  apply wpm_bind, wpm_check; [|done]. intros H. rewrite !andb_true_iff in H. destruct H as [[[[Ho Hr] Hb] Hm] Hn].
  apply wpm_try, wpm_bind, wpm_await.
  { apply HP. exists u. apply bare_path_spec in Hb as [? ?]. split_and!; try done.
    - split; [by eexists|]. split; [done | by apply String.eqb_eq].
    - by apply includes_spec in Hr. }
  intros [a|e] _; [|done]. apply wpm_bind. destruct (_ && _); [done|]. apply wpm_ret, wpm_bind, wpm_check; [|done].
  intros _. apply wpm_answer_body; [done | |done]. intros n text _. by destruct (new_Response (an_status a) text).
Qed.

Definition preparation_request (origin : string) (fixtures : list RuntimeModelFixture) (r : ContextRequest) : Prop :=
  (exists base, origin_of origin = Ok base /\ product_read base r) \/ discovery_read origin r \/ estimation origin fixtures r.

Lemma estimates_spec fixtures body : existsb (fun value => String.eqb (canonicalInput (Some value)) (canonicalInput body)) (estimates_of fixtures) = true ->
  exists f, f ∈ fixtures /\ fx_computeTarget f = "cpu" /\ canonicalInput body = canonical (estimateInput f).
Proof.
  intros (v & Hv & He)%existsb_exists. apply in_map_iff in Hv as (f & <- & Hf). apply filter_In in Hf as [Hf Ht].
  exists f. split; [by apply list_elem_of_In|]. apply String.eqb_eq in He, Ht. done.
Qed.

(** What the fence of the preparation lets through is one of its requests. *)
Lemma allowed_request input u origin fixtures headers timeout :
  (exists t, web_url t = Some u) -> (toUpperCase (fr_method input) = "GET" -> no_body input = true) ->
  allowedPreparationRequest u (toUpperCase (fr_method input)) (base.mbind JSON_parse (data_of input)) origin (estimates_of fixtures) = true ->
  preparation_request origin fixtures
    {| cx_url := u_href u; cx_method := toUpperCase (fr_method input); cx_headers := headers; cx_data := data_of input; cx_timeout := timeout |}.
Proof.
  intros Hu Hget H. unfold allowedPreparationRequest in H. rewrite !andb_true_iff in H. destruct H as [[[[Ho%String.eqb_eq _] _] _] H].
  right. destruct (String.eqb_spec (toUpperCase (fr_method input)) "POST") as [Hm|Hm]; rewrite !andb_true_iff in H.
  - destruct H as [[Hp%String.eqb_eq _] He]. apply estimates_spec in He as (f & Hf & Ht & He). right.
    by exists u, f, (base.mbind JSON_parse (data_of input)).
  - destruct H as [[Hm'%String.eqb_eq _] Hd]. left. exists u. split_and!; [done | done | done |].
    cbn. unfold data_of. by rewrite (Hget Hm').
Qed.

Lemma preparation_wp {S} origin base timeout fixtures input (s : S) :
  origin_of origin = Ok base -> (toUpperCase (fr_method input) = "GET" -> no_body input = true) ->
  wpm (reading (preparation_request origin fixtures)) anything no_ghost
    (preparation_transport origin base timeout (estimates_of fixtures) input) s tt (fun _ _ _ => True).
Proof.
  intros Hbase Hget. unfold preparation_transport. apply wpm_bind, wpm_new_URL; [|done]. intros u Hu. cbv zeta.
  destruct (_ && _); [apply readOnly_wp; intros r Hr; left; by exists base|]. apply wpm_bind, wpm_parse_body; [|done].
  apply wpm_bind, wpm_check; [|done]. intros H. apply wpm_bind, wpm_context_fetch; [|intros a _|done].
  - apply (allowed_request input u); [by exists (fr_url input) | done | done].
  - apply wpm_bind, wpm_check; [|done]. intros _. apply wpm_answer_body; [done | |done]. intros n text _. by destruct (new_Response (an_status a) text).
Qed.

(** Whatever is asked of the preparation's client, and whatever the product answers, it
    only reads: the nine collections of the product, the catalogue's discovery of models for
    vLLM on a CPU, and the estimator about exactly a CPU fixture. *)
Theorem preparation_reads {S} origin timeout fixtures calls (s : S) tr q :
  steps (for_each calls (fun c => discard (preparationApi origin timeout fixtures c)) s) tr q ->
  Forall (preparation_request origin fixtures) (all_sent tr).
Proof.
  intros Hs. eapply (reading_sent _ tt).
  eapply (wp_steps (reading (preparation_request origin fixtures)) anything no_ghost); [|exact Hs | apply anything_admissible].
  apply (wpm_for_each _ _ _ _ _ (fun _ _ _ => True) _ _ (fun _ _ _ => True)); [|done|done]. intros c _ [] s' _.
  apply wpm_try, wpm_bind, wpm_bind, wpm_of_res. destruct (origin_of origin) as [b|] eqn:Eb; [|done]. apply wpm_call; [done|].
  eapply wpm_mono; [|apply preparation_wp; [exact Eb|]].
  - intros g' s'' r _. by destruct (responded r).
  - apply call_no_body.
Qed.
End reads.

(** ** Examples: URLs under https, and a product that answers everything with one text. *)
Definition sample_params (search : string) : list (string * string) :=
  map (fun pair => match indexOf "=" pair with Some i => (take_str i pair, drop_str (S i) pair) | None => (pair, "") end) (split "&" search).
Definition sample_url : WebUrl := fun s =>
  if negb (startsWith "https://" s) then None else
  let rest := drop_str 8 s in
  let url origin href target :=
    let '(pathname, search) := match indexOf "?" target with Some i => (take_str i target, drop_str i target) | None => (target, "") end in
    {| u_protocol := "https:"; u_origin := origin; u_href := href; u_hostname := ""; u_port := ""; u_pathname := pathname; u_username := ""; u_password := "";
       u_search := search; u_hash := ""; u_searchParams := if truthy search then sample_params (drop_str 1 search) else [] |} in
  match indexOf "/" rest with
  | None => Some (url s (s +:+ "/") "/")
  | Some i => Some (url ("https://" +:+ take_str i rest) s (drop_str i rest))
  end.
Definition serving (text : string) (X : Type) (op : fenceE X) (w : unit) : X * unit :=
  match op in fenceE X return X * unit with
  | F_guard | F_before_send | F_observe _ | F_requested _ | F_rejected _ | F_owned _ _ => (Ok tt, w)
  | F_fetch _ => (Ok {| an_status := 200; an_contentType := Some "application/json" |}, w)
  | F_body => (Ok (Z.of_nat (String.length text), text), w)
  | F_random => ("AAAAAAAAAAAAAAAAAAAAAAAAAAAAAAAA", w)
  end.

Section example.
#[local] Existing Instance sample_url.
#[local] Instance sample_collation : Collation := text_order.

Definition sample_fixture : RuntimeModelFixture :=
  {| fx_engine := "OLlama"; fx_computeTarget := "cpu"; fx_url := "ollama://tiny:1b"; fx_memoryRequiredMi := 2048; fx_contextWindow := 2048; fx_maxNumSeqs := 1;
     fx_kvCacheType := None; fx_realtime := None; fx_gpuDevices := None; fx_gpuDeployment := None; fx_systemMemoryMi := None; fx_vllm := None |}.
Definition preparation_calls : list api_call :=
  [Runtime status; Models (estimateMemory (estimateInput sample_fixture)); Models (createLocalModel (estimateInput sample_fixture))].
Definition preparation_trace : list event :=
  trace (serving "{}") (for_each preparation_calls (fun c => discard (preparationApi "https://magicstick.local" (Int 5000) [sample_fixture] c)) tt) tt.

(** The creation of a model is not sent. *)
Lemma preparation_reads_witness :
  Forall (preparation_request "https://magicstick.local" [sample_fixture]) (all_sent preparation_trace) /\
  map (fun r => (cx_method r, cx_url r)) (all_sent preparation_trace) =
    [("GET", "https://magicstick.local/api/status"); ("POST", "https://magicstick.local/api/models/estimate-memory")].
Proof.
  split; [|vm_compute; reflexivity].
  apply (preparation_reads "https://magicstick.local" (Int 5000) [sample_fixture] preparation_calls tt preparation_trace
           (Done (exec (serving "{}") (for_each preparation_calls (fun c => discard (preparationApi "https://magicstick.local" (Int 5000) [sample_fixture] c)) tt) tt).1)).
  apply exec_steps.
Defined.
End example.
