(* ===== verification/OwnedKey.v ===== *)
(** * Owned API keys (regression/core/owned-key.ts)

    [OwnedKeyClient] is the API client over a transport that reads the collection of keys,
    creates keys with the run's prefix and deletes keys whose identifier the run owns: named
    by its journal, or adopted from the answer to a creation. *)

From S2P Require Import Prelude Js Number JsonProps Json JsonParse Prog Regex Errors DashboardCore JsonFields ApiClient Config Journal Fence.

Local Open Scope string_scope.
Local Open Scope js_scope.
Local Open Scope Z_scope.

(** ** The state of a client *)

(** The last request: its method, whether it was attempted and the status of its answer. *)
Record LastRequest : Type := { lr_method : string; lr_httpStatus : option Z; lr_attempted : bool }.
Record KeyState : Type := { ks_ownedIds : list string; ks_lastRequest : option LastRequest }.

Definition last_is (r : option LastRequest) (s : KeyState) : KeyState := {| ks_ownedIds := ks_ownedIds s; ks_lastRequest := r |}.
Definition attempted (s : KeyState) : KeyState :=
  last_is ((fun r => {| lr_method := lr_method r; lr_httpStatus := lr_httpStatus r; lr_attempted := true |}) <$> ks_lastRequest s) s.
Definition answered (status : Z) (s : KeyState) : KeyState :=
  last_is ((fun r => {| lr_method := lr_method r; lr_httpStatus := Some status; lr_attempted := lr_attempted r |}) <$> ks_lastRequest s) s.
Definition owning (id : string) (s : KeyState) : KeyState := {| ks_ownedIds := ks_ownedIds s ++ [id]; ks_lastRequest := ks_lastRequest s |}.

Record OwnedKeyClient : Type := { kc_origin : string; kc_prefix : string; kc_timeoutMs : number; kc_api : MagicStickApi }.

Notation OK := (FM KeyState).

(** ** The transport *)
Definition collection : string := "/api/api-access".
Definition key_char (c : ascii) : bool := is_alnum c || existsb (Ascii.eqb c) ["."; "_"; ":"; "-"]%char.
(** [/^[A-Za-z0-9._:-]{16,256}$/] *)
Definition key_id (s : string) : bool := (16 <=? String.length s)%nat && (String.length s <=? 256)%nat && sforall key_char s.
(** [pathname.match(/^\/api\/api-access\/([A-Za-z0-9._:-]{16,256})$/)] *)
Definition key_of_path (pathname : string) : option string :=
  let base := collection +:+ "/" in
  if startsWith base pathname && key_id (drop_str (String.length base) pathname) then Some (drop_str (String.length base) pathname) else None.

(** The payload of a creation: a name with the prefix and nothing else. *)
Definition key_payload (prefix : string) (payload : json) : bool :=
  match json_obj payload with
  | Some d => (length d =? 1)%nat && match text_field d "name" with Some name => startsWith prefix name | None => false end
  | None => false
  end.
Definition key_permitted (prefix : string) (owned : list string) (url : Url) (method : string) (input : FetchRequest) : bool :=
  if String.eqb method "GET" then String.eqb (u_pathname url) collection && no_body input
  else if String.eqb method "POST" then
    String.eqb (u_pathname url) collection &&
    match fr_body input with
    | Some text => match JSON_parse text with Some payload => key_payload prefix payload | None => false end
    | None => false
    end
  else if String.eqb method "DELETE" then
    match key_of_path (u_pathname url) with Some id => includes owned id && no_body input | None => false end
  else false.

Section client.
Context {web : WebUrl}.

Definition key_transport (origin prefix : string) (timeoutMs : number) (input : FetchRequest) : OK Response :=
  let! url := of_res (new_URL (fr_url input)) in
  let method := toUpperCase (fr_method input) in
  check (String.eqb (u_origin url) origin && bare_path url) MUTATION ;;
  let! s := get in
  check (key_permitted prefix (ks_ownedIds s) url method input) MUTATION ;;
  modify (last_is (Some {| lr_method := method; lr_httpStatus := None; lr_attempted := false |})) ;;
  let! headers := (if String.eqb method "GET" then mret (new_Headers (fr_headers input))
                   else await F_guard ;; mret (headers_set (new_Headers (fr_headers input)) "Origin" origin)) in
  modify attempted ;;
  let! response := context_fetch {| cx_url := u_href url; cx_method := method; cx_headers := header_entries headers; cx_data := data_of input; cx_timeout := timeoutMs |} in
  modify (answered (an_status response)) ;;
  check (success response && json_type response) API ;;
  answer_body two_mebibytes response.

(** ** The constructor: the keys of the journal with the prefix *)
Definition journal_ids (prefix : string) (journal : list JournalEntry) : list string :=
  flat_map (fun e => if bool_decide (je_kind e = K_key) && truthy (je_uid e ?? "") && startsWith prefix (je_name e) then [je_uid e ?? ""] else []) journal.
Definition new_OwnedKeyClient (baseUrl : string) (timeoutMs : number) (prefix : string) (journal : list JournalEntry) : res fence_exn (OwnedKeyClient * KeyState) :=
  match origin_of baseUrl with
  | Ok origin => Ok ({| kc_origin := origin; kc_prefix := prefix; kc_timeoutMs := timeoutMs; kc_api := new_MagicStickApi (Some baseUrl) false |},
                     {| ks_ownedIds := journal_ids prefix journal; ks_lastRequest := None |})
  | Err e => Err e
  end.

(** ** The operations *)
Section operations.
Context (client : OwnedKeyClient).

Definition key_call (c : access_call) : OK json := call (key_transport (kc_origin client) (kc_prefix client) (kc_timeoutMs client)) (kc_api client) (Access c).

(** The items of the payload; an answer without them is the API's failure. *)
Definition list_keys : OK (list json) :=
  try_catch
    (let! result := key_call apiAccess in
     match result with
     | JNull => throw type_error
     | _ => match array_in (json_obj result ?? []) "items" with Some items => mret items | None => throw (raise API) end
     end)
    (fun e => throw (harness_or API e)).

Definition own_name (name : string) : bool := startsWith (kc_prefix client) name && rtest name_pattern name.
(** A credential in an answer: the identifier of exactly this name, and its secret. *)
Definition credential_in (name : string) (value : json) : option (string * string) :=
  let result := json_obj value ?? [] in
  let item := object_in result "item" in
  match text_field item "id", text_field result "key" with
  | Some id, Some key => if key_id id && same_text item "name" name && startsWith "sk-" key then Some (id, key) else None
  | _, _ => None
  end.
Definition adoptCredential (name : string) (value : json) : OK (string * string) :=
  check (own_name name) OWNERSHIP ;;
  match credential_in name value with
  | Some (id, key) => modify (owning id) ;; mret (id, key)
  | None => throw (raise API)
  end.
Definition createCredential (name : string) : OK (string * string) :=
  check (own_name name) OWNERSHIP ;;
  try_catch
    (let! result := key_call (createApiKey name) in adoptCredential name result)
    (fun e => throw (harness_or API e)).
Definition create_key (name : string) : OK string := let! c := createCredential name in mret c.1.

(** ** The adapter of the cleanup *)
Context (observing : bool).
Definition diagnostic (r : option LastRequest) : dict json :=
  match r with
  | Some r => [("method", JStr (lr_method r)); ("endpoint", JStr "api-key");
               ("httpStatus", match lr_httpStatus r with Some z => JNum (Int z) | None => JNull end); ("requestAttempted", JBool (lr_attempted r))]
  | None => []
  end.
Definition observed (operation : string) : OK unit :=
  if observing then
    let! s := get in
    await (F_observe ([("operation", JStr operation); ("state", JStr "running")] ++ diagnostic (ks_lastRequest s))%list)
  else mret tt.

(** [item.k === v], a member of what is no object being undefined; [null] has no members. *)
Definition field_is (k : string) (v : option string) (item : json) : bool :=
  match dict_get (json_obj item ?? []) k, v with
  | Some (JStr s), Some t => String.eqb s t
  | None, None => true
  | _, _ => false
  end.
Definition is_null (item : json) : bool := match item with JNull => true | _ => false end.
Definition filter_named (name : string) (items : list json) : OK (list json) :=
  if existsb is_null items then throw type_error else mret (List.filter (field_is "name" (Some name)) items).
Fixpoint some_item (f : json -> bool) (items : list json) : OK bool :=
  match items with
  | [] => mret false
  | item :: items => if is_null item then throw type_error else if f item then mret true else some_item f items
  end.

(** The UID found, if any: the identifier of the only key with the name. *)
Definition key_lookup (e : JournalEntry) : OK (option (option json)) :=
  check (bool_decide (je_kind e = K_key) && startsWith (kc_prefix client) (je_name e)) OWNERSHIP ;;
  modify (last_is None) ;;
  let! matches := try_finally (let! items := list_keys in filter_named (je_name e) items) (observed "lookup") in
  check (length matches <=? 1)%nat OWNERSHIP ;;
  mret (match matches with item :: _ => Some (dict_get (json_obj item ?? []) "id") | [] => None end).
Definition key_removeIfUid (e : JournalEntry) (uid : string) : OK unit :=
  let! s := get in
  check (bool_decide (je_uid e = Some uid) && includes (ks_ownedIds s) uid) OWNERSHIP ;;
  modify (last_is None) ;;
  try_finally (try_catch (let! _ := key_call (revokeApiKey uid) in mret tt) (fun e => throw (harness_or CLEANUP e))) (observed "remove").
Definition key_verifyRemoved (e : JournalEntry) : OK bool :=
  modify (last_is None) ;;
  try_finally
    (let! items := list_keys in
     let! found := some_item (fun item => field_is "id" (je_uid e) item || field_is "name" (Some (je_name e)) item) items in
     mret (negb found))
    (observed "verify").
End operations.

(** ** A history: any operations in turn, whatever the ones before threw *)
Inductive key_operation : Type :=
| List_keys
| Create_credential (name : string)
| Adopt_credential (name : string) (value : json)
| Create_key (name : string)
| Lookup_key (e : JournalEntry) (observing : bool)
| Remove_key (e : JournalEntry) (uid : string) (observing : bool)
| Verify_key (e : JournalEntry) (observing : bool).

Definition key_perform (client : OwnedKeyClient) (o : key_operation) : OK unit :=
  match o with
  | List_keys => discard (list_keys client)
  | Create_credential name => discard (createCredential client name)
  | Adopt_credential name value => discard (adoptCredential client name value)
  | Create_key name => discard (create_key client name)
  | Lookup_key e observing => discard (key_lookup client observing e)
  | Remove_key e uid observing => discard (key_removeIfUid client observing e uid)
  | Verify_key e observing => discard (key_verifyRemoved client observing e)
  end.
Definition key_history (client : OwnedKeyClient) (operations : list key_operation) : OK unit := for_each operations (key_perform client).
End client.

(** ** Owned API keys: their properties (regression/core/owned-key.ts) *)

Section props.
Context {web : WebUrl}.

(** ** The history of a client: whether the guard has just agreed, the name in the creation
    just sent, and the identifiers that may be owned. *)
Record KeyGhost : Type := { kg_armed : bool; kg_name : option string; kg_known : list string }.

Definition posted_name (data : option string) : option string :=
  match base.mbind JSON_parse data with Some (JObj [(_, JStr n)]) => Some n | _ => None end.
(** The identifier of a credential with that name in an answer. *)
Definition credential_id (name : option string) (value : option json) : list string :=
  match name, value with
  | Some n, Some v => match credential_in n v with Some (id, _) => [id] | None => [] end
  | _, _ => []
  end.
Definition key_upd X (g : KeyGhost) (op : fenceE X) : X -> KeyGhost :=
  match op in fenceE X return X -> KeyGhost with
  | F_guard => fun x => {| kg_armed := is_ok x; kg_name := kg_name g; kg_known := kg_known g |}
  | F_fetch r => fun _ => {| kg_armed := false; kg_name := if String.eqb (cx_method r) "POST" then posted_name (cx_data r) else None; kg_known := kg_known g |}
  | F_body => fun x => {| kg_armed := false; kg_name := None;
      kg_known := kg_known g ++ match x with Ok b => credential_id (kg_name g) (JSON_parse b.2) | Err _ => [] end |}
  | _ => fun _ => {| kg_armed := false; kg_name := kg_name g; kg_known := kg_known g |}
  end.

(** The requests of the client: the list; with the agreement of the guard and the origin in
    the headers, a creation of a name with the prefix, or the deletion of an owned key. *)
Definition key_request (origin prefix : string) (g : KeyGhost) (r : ContextRequest) : Prop :=
  exists u, addresses r origin u /\ u_search u = "" /\ u_hash u = "" /\
    (cx_method r = "GET" /\ u_pathname u = collection /\ cx_data r = None \/
     kg_armed g = true /\ cx_method r = "POST" /\ u_pathname u = collection /\
       (exists name, base.mbind JSON_parse (cx_data r) = Some (JObj [("name", JStr name)]) /\ startsWith prefix name = true) \/
     kg_armed g = true /\ cx_method r = "DELETE" /\ cx_data r = None /\
       (exists id, id ∈ kg_known g /\ u_pathname u = collection +:+ "/" +:+ id)).
Definition key_pre (origin prefix : string) X (g : KeyGhost) (op : fenceE X) : Prop :=
  match op with F_fetch r => key_request origin prefix g r | F_guard | F_body | F_observe _ => True | _ => False end.
Definition key_asm X (g : KeyGhost) (op : fenceE X) (x : X) : Prop := True.

(** What is owned is known, and so is everything in [more]. *)
Definition key_inv (more : list string) (g : KeyGhost) (s : KeyState) : Prop := ks_ownedIds s ⊆ kg_known g /\ more ⊆ kg_known g.

Lemma key_payload_spec prefix v : key_payload prefix v = true -> exists name, v = JObj [("name", JStr name)] /\ startsWith prefix name = true.
Proof.
  unfold key_payload. destruct (json_obj v) as [d|] eqn:Ev; [|done]. destruct v as [| | | | |d']; try discriminate Ev. injection Ev as ->.
  destruct d as [|[k w] [|]]; try done. cbn. destruct (String.eqb_spec k "name") as [->|]; [|done].
  destruct w as [| | |n| |]; try done. intros H. by exists n.
Qed.
Lemma key_of_path_spec p id : key_of_path p = Some id -> p = collection +:+ "/" +:+ id.
Proof.
  unfold key_of_path. destruct (startsWith _ p) eqn:Es; [|done]. apply startsWith_spec in Es as [t ->].
  destruct (_ && _); [|done]. intros [= <-]. reflexivity.
Qed.

Section transport.
Context (origin prefix : string) (timeout : number) (more : list string).
Notation wpk := (wpm (key_pre origin prefix) key_asm key_upd).

(** The decision of the fence is one of the client's requests. *)
Lemma permitted_request g s u input headers :
  key_inv more g s -> (exists t, web_url t = Some u) -> u_origin u = origin -> bare_path u = true ->
  (toUpperCase (fr_method input) <> "GET" -> kg_armed g = true) ->
  key_permitted prefix (ks_ownedIds s) u (toUpperCase (fr_method input)) input = true ->
  key_request origin prefix g
    {| cx_url := u_href u; cx_method := toUpperCase (fr_method input); cx_headers := headers; cx_data := data_of input; cx_timeout := timeout |}.
Proof.
  intros [Hown _] Hu Ho [Hs Hh]%bare_path_spec Harm H. exists u. split_and!; [done | done | done |]. cbn.
  unfold key_permitted in H. destruct (String.eqb_spec (toUpperCase (fr_method input)) "GET") as [Hm|Hm].
  { apply andb_true_iff in H as [Hp%String.eqb_eq Hn]. left. split_and!; [done | done |]. unfold data_of. by rewrite Hn. }
  specialize (Harm Hm). right. destruct (String.eqb_spec (toUpperCase (fr_method input)) "POST") as [Hm'|Hm'].
  - left. apply andb_true_iff in H as [Hp%String.eqb_eq H]. split_and!; [done | done | done |].
    destruct (fr_body input) as [t|] eqn:Eb; [|done]. destruct (JSON_parse t) as [v|] eqn:Ep; [|done].
    apply key_payload_spec in H as (name & -> & Hn). exists name. split; [|done]. unfold data_of, no_body. rewrite Eb. cbn [nullish].
    destruct (truthy t) eqn:Et; cbn; [done|]. apply truthy_false in Et as ->. discriminate Ep.
  - right. destruct (String.eqb_spec (toUpperCase (fr_method input)) "DELETE") as [Hd|]; [|done].
    destruct (key_of_path (u_pathname u)) as [id|] eqn:Ek; [|done]. apply andb_true_iff in H as [Hi Hn].
    split_and!; [done | done | |]. { unfold data_of. by rewrite Hn. }
    exists id. split; [|by apply key_of_path_spec]. apply Hown. by apply includes_spec.
Qed.

(** What the ghost knows after an answer to the request. *)
Definition answer_known (input : FetchRequest) (g : KeyGhost) (r : res fence_exn Response) : Prop :=
  match r with
  | Ok response => r_contentType response = Some "application/json" /\ response_ok response = true /\
      (toUpperCase (fr_method input) = "POST" -> credential_id (posted_name (data_of input)) (r_json response) ⊆ kg_known g)
  | Err _ => True
  end.

Lemma new_Response_ok status text response : new_Response status text = Ok response ->
  r_status response = status /\ r_json response = JSON_parse text /\ r_contentType response = Some "application/json".
Proof. unfold new_Response. destruct (_ || _); [done|]. case_bool_decide; [done|]. by intros [= <-]. Qed.

Lemma key_transport_wp input s g :
  key_inv more g s -> wpk (key_transport origin prefix timeout input) s g (fun g' s' r => key_inv more g' s' /\ answer_known input g' r).
Proof.
  intros Hinv. unfold key_transport. apply wpm_bind, wpm_new_URL; [|done]. intros u Hu. cbv zeta.
  apply wpm_bind, wpm_check; [|done]. intros [Ho%String.eqb_eq Hb]%andb_true_iff. apply wpm_bind, wpm_get, wpm_bind, wpm_check; [|done].
  intros Hp. apply wpm_bind, wpm_modify, wpm_bind.
  assert (Hsend : forall headers g' s', key_inv more g' s' -> ks_ownedIds s' = ks_ownedIds s -> kg_known g' = kg_known g ->
    (toUpperCase (fr_method input) <> "GET" -> kg_armed g' = true) ->
    wpk (modify attempted ;;
      let! response := context_fetch {| cx_url := u_href u; cx_method := toUpperCase (fr_method input); cx_headers := header_entries headers;
        cx_data := data_of input; cx_timeout := timeout |} in
      modify (answered (an_status response)) ;; check (success response && json_type response) API ;; answer_body two_mebibytes response)
      s' g' (fun g' s' r => key_inv more g' s' /\ answer_known input g' r)).
  { intros headers g' s' Hinv' Hs' Hg' Harm. apply wpm_bind, wpm_modify, wpm_bind, wpm_context_fetch; [|intros a _|done].
    - eapply (permitted_request g' s'); [done | by exists (fr_url input) | done | done | done | by rewrite Hs'].
    - apply wpm_bind, wpm_modify, wpm_bind, wpm_check; [|done]. intros [Hok _]%andb_true_iff.
      destruct Hinv' as [Hi1 Hi2]. apply wpm_answer_body; [done | intros n text _ | intros [b|e'] e _].
      + destruct (new_Response (an_status a) text) as [response|e] eqn:Er.
        * apply new_Response_ok in Er as (E1 & E2 & E3). cbn. split; [split; cbn; set_solver|]. split_and!; [done | |].
          { unfold response_ok. rewrite E1. unfold success in Hok. lia. }
          intros Hm. rewrite E2, Hm, String.eqb_refl. set_solver.
        * cbn. split; [split; cbn; set_solver | done].
      + cbn. split; [split; cbn; set_solver | done].
      + cbn. split; [split; cbn; set_solver | done]. }
  destruct (String.eqb_spec (toUpperCase (fr_method input)) "GET") as [Hm|Hm].
  - apply wpm_ret, Hsend; done.
  - apply wpm_bind, wpm_await; [done|]. intros [[]|e] _; [|by split]. apply wpm_ret, Hsend; done.
Qed.
End transport.

(** ** The operations *)
Section operations.
Context (client : OwnedKeyClient) (Hclient : api_hasToken (kc_api client) = false) (more : list string).
Notation wpk := (wpm (key_pre (kc_origin client) (kc_prefix client)) key_asm key_upd).
Notation kept := (fun g s _ => key_inv more g s).

Lemma created_name name : posted_name (ep_body (ApiClient.endpoint (Access (createApiKey name)))) = Some name.
Proof.
  unfold posted_name. change (ep_body _) with (Some (JsonProps.text (JObj [("name", JStr name)]))). cbn [base.mbind option_bind].
  rewrite (JSON_text_reads (JObj [("name", JStr name)])); [done|]. split; [|by repeat constructor].
  unfold dict_wf. apply (bool_decide_unpack (NoDup ["name"])). reflexivity.
Qed.

Lemma key_call_wp c s g : key_inv more g s ->
  wpk (key_call client c) s g (fun g' s' r => key_inv more g' s' /\
    forall v name, r = Ok v -> c = createApiKey name -> credential_id (Some name) (Some v) ⊆ kg_known g').
Proof using Hclient.
  intros Hinv. apply wpm_call; [done|]. eapply wpm_mono; [|by apply key_transport_wp]. intros g' s' r [Hi Hr]. split; [done|].
  intros v name (response & -> & Hv)%responded_ok ->. destruct Hr as (Hc & _ & Hr). specialize (Hr eq_refl).
  unfold response_body in Hv. rewrite Hc in Hv. change (includesStr _ _) with true in Hv. cbn iota in Hv.
  change (data_of _) with (ep_body (ApiClient.endpoint (Access (createApiKey name)))) in Hr. rewrite created_name in Hr.
  by destruct (r_json response) as [w|]; cbn in Hv; subst v.
Qed.

Lemma list_keys_wp s g : key_inv more g s -> wpk (list_keys client) s g kept.
Proof using Hclient.
  intros Hinv. apply wpm_try, wpm_bind. eapply wpm_mono; [|by apply key_call_wp]. intros g' s' [v|e] [Hi _]; [|done].
  destruct v; try done; by destruct (array_in _ _).
Qed.

Lemma adopt_wp name value s g : key_inv more g s -> credential_id (Some name) (Some value) ⊆ kg_known g -> wpk (adoptCredential client name value) s g kept.
Proof using Hclient.
  intros Hinv Hid. apply wpm_bind, wpm_check; [|done]. intros _. cbn in Hid. destruct (credential_in name value) as [[id key]|]; [|done].
  apply wpm_bind, wpm_modify, wpm_ret. destruct Hinv. split; cbn; set_solver.
Qed.
Lemma createCredential_wp name s g : key_inv more g s -> wpk (createCredential client name) s g kept.
Proof using Hclient.
  intros Hinv. apply wpm_bind, wpm_check; [|done]. intros _. apply wpm_try, wpm_bind. eapply wpm_mono; [|by apply key_call_wp].
  intros g' s' [v|e] [Hi Hv]; [|done]. eapply wpm_mono; [|apply adopt_wp; [done|]].
  - intros g'' s'' [[]|e]; done.
  - by apply Hv.
Qed.

Lemma observed_wp observing operation s g (Q : KeyGhost -> KeyState -> res fence_exn unit -> Prop) :
  key_inv more g s -> (forall g' s' r, key_inv more g' s' -> Q g' s' r) -> wpk (observed observing operation) s g Q.
Proof.
  intros Hinv HQ. unfold observed. destruct observing; [|apply wpm_ret; by apply HQ]. apply wpm_bind, wpm_get, wpm_await; [done|].
  intros r _. by apply HQ.
Qed.
Lemma finally_observed_wp {A} (m : FM KeyState A) observing operation s g :
  wpk m s g kept -> wpk (try_finally m (observed observing operation)) s g kept.
Proof.
  intros Hm. apply wpm_finally. eapply wpm_mono; [|exact Hm]. intros g' s' r Hi. apply observed_wp; [done|]. by intros g'' s'' [|].
Qed.
Lemma some_item_wp f items s g : key_inv more g s -> wpk (some_item f items) s g kept.
Proof. intros Hi. induction items as [|i items IH]; [done|]. cbn. destruct (is_null i); [done|]. by destruct (f i). Qed.

Lemma key_lookup_wp observing e s g : key_inv more g s -> wpk (key_lookup client observing e) s g kept.
Proof using Hclient.
  intros Hinv. apply wpm_bind, wpm_check; [|done]. intros _. apply wpm_bind, wpm_modify, wpm_bind.
  eapply wpm_mono; [|apply finally_observed_wp, wpm_bind; eapply wpm_mono; [|by apply list_keys_wp]].
  - intros g' s' [items|x] Hi; [|done]. apply wpm_bind, wpm_check; done.
  - intros g' s' [items|x] Hi; [|done]. unfold filter_named. by destruct (existsb _ _).
Qed.
Lemma key_removeIfUid_wp observing e uid s g : key_inv more g s -> wpk (key_removeIfUid client observing e uid) s g kept.
Proof using Hclient.
  intros Hinv. apply wpm_bind, wpm_get, wpm_bind, wpm_check; [|done]. intros _. apply wpm_bind, wpm_modify, finally_observed_wp, wpm_try, wpm_bind.
  eapply wpm_mono; [|by apply key_call_wp]. by intros g' s' [v|x] [Hi _].
Qed.
Lemma key_verifyRemoved_wp observing e s g : key_inv more g s -> wpk (key_verifyRemoved client observing e) s g kept.
Proof using Hclient.
  intros Hinv. apply wpm_bind, wpm_modify, finally_observed_wp, wpm_bind. eapply wpm_mono; [|by apply list_keys_wp].
  intros g' s' [items|x] Hi; [|done]. apply wpm_bind. eapply wpm_mono; [|by apply some_item_wp]. by intros g'' s'' [b|x].
Qed.
End operations.

(** ** The history of a client *)

(** The identifiers a history may own: the journal's, and those of the answers given to it. *)
Definition adopted_ids (operations : list key_operation) : list string :=
  flat_map (fun o => match o with Adopt_credential name value => credential_id (Some name) (Some value) | _ => [] end) operations.
Definition initial_ghost (prefix : string) (journal : list JournalEntry) (operations : list key_operation) : KeyGhost :=
  {| kg_armed := false; kg_name := None; kg_known := journal_ids prefix journal ++ adopted_ids operations |}.

Lemma adopted_ids_app l l' : adopted_ids (l ++ l') = (adopted_ids l ++ adopted_ids l')%list.
Proof. apply flat_map_app. Qed.

Lemma key_admissible g tr : admissible key_asm key_upd g tr.
Proof. revert g. induction tr as [|[X op x] tr IH]; intros g; by repeat split. Qed.

Lemma key_perform_wp client o more s g :
  api_hasToken (kc_api client) = false -> key_inv more g s -> adopted_ids [o] ⊆ more ->
  wpm (key_pre (kc_origin client) (kc_prefix client)) key_asm key_upd (key_perform client o) s g (fun g' s' r => r = Ok tt /\ key_inv more g' s').
Proof.
  intros Hc Hi Ho. destruct o; cbn [key_perform]; apply discard_wp.
  - by apply list_keys_wp.
  - by apply createCredential_wp.
  - apply adopt_wp; [done|done|]. destruct Hi as [_ Hm]. unfold adopted_ids in Ho. cbn [flat_map] in Ho. rewrite app_nil_r in Ho. set_solver.
  - apply wpm_bind. eapply wpm_mono; [|by apply createCredential_wp]. by intros g' s' [a|e].
  - by apply key_lookup_wp.
  - by apply key_removeIfUid_wp.
  - by apply key_verifyRemoved_wp.
Qed.

(** C20: a client of the keys changes only what the run owns. In every history of its
    operations and whatever the product answers, each request is the listing of the keys or
    was agreed to by the guard immediately before it and carries the dashboard's own URL
    without query: the creation of a key whose only attribute is a name with the run's
    prefix, or the deletion of an identifier that the journal recorded for a key with the
    prefix, that the answer to a creation by this client gave to that name, or that the
    caller showed in such an answer. *)
Theorem keys_fenced baseUrl timeout prefix journal operations client s tr q :
  new_OwnedKeyClient baseUrl timeout prefix journal = Ok (client, s) -> steps (key_history client operations s) tr q ->
  respects (key_pre (kc_origin client) prefix) key_upd (initial_ghost prefix journal operations) tr.
Proof.
  intros Hnew Hs. unfold new_OwnedKeyClient in Hnew. destruct (origin_of baseUrl) as [origin|]; [|done]. injection Hnew as Hc <-.
  assert (Ht : api_hasToken (kc_api client) = false) by (by rewrite <- Hc). assert (Hp : kc_prefix client = prefix) by (by rewrite <- Hc).
  eapply wp_steps; [|exact Hs | apply key_admissible].
  apply (wpm_for_each _ _ _ _ _ (fun l g s => key_inv (adopted_ids operations) g s /\ adopted_ids l ⊆ adopted_ids operations) _ _ (fun _ _ _ => True)).
  - intros o l g s [Hi Hl]. change (o :: l) with ([o] ++ l)%list in Hl. rewrite adopted_ids_app in Hl. rewrite <- Hp.
    eapply wpm_mono; [|apply (key_perform_wp client o (adopted_ids operations)); [done | done | set_solver]].
    intros g' s' r [-> Hi']. split; [done | set_solver].
  - split; [split; cbn; set_solver | done].
  - done.
Qed.

End props.

(** ** An example: a key is created, found in the answer and deleted. *)
Section example.
#[local] Existing Instance sample_url.

Definition sample_operations : list key_operation :=
  [Create_key "reg-0123-k";
   Remove_key {| je_kind := K_key; je_name := "reg-0123-k"; je_uid := Some "0123456789abcdef"; je_state := E_owned; je_generation := None; je_cleanupFailure := None |}
     "0123456789abcdef" true].
Definition sample_client : OwnedKeyClient :=
  {| kc_origin := "https://magicstick.local"; kc_prefix := "reg-0123-"; kc_timeoutMs := Int 5000; kc_api := new_MagicStickApi (Some "https://magicstick.local/") false |}.
Definition sample_answer : string := JsonProps.text
  (JObj [("item", JObj [("id", JStr "0123456789abcdef"); ("name", JStr "reg-0123-k")]); ("key", JStr "sk-1")]).
Definition sample_trace : list event :=
  trace (serving sample_answer) (key_history sample_client sample_operations {| ks_ownedIds := []; ks_lastRequest := None |}) tt.

Lemma keys_fenced_witness :
  respects (key_pre "https://magicstick.local" "reg-0123-") key_upd (initial_ghost "reg-0123-" [] sample_operations) sample_trace /\
  map (fun r => (cx_method r, cx_url r)) (all_sent sample_trace) =
    [("POST", "https://magicstick.local/api/api-access"); ("DELETE", "https://magicstick.local/api/api-access/0123456789abcdef")].
Proof.
  split; [|vm_compute; reflexivity].
  apply (keys_fenced "https://magicstick.local/" (Int 5000) "reg-0123-" [] sample_operations sample_client {| ks_ownedIds := []; ks_lastRequest := None |}
           sample_trace (Done (exec (serving sample_answer) (key_history sample_client sample_operations {| ks_ownedIds := []; ks_lastRequest := None |}) tt).1)).
  - vm_compute. reflexivity.
  - apply exec_steps.
Defined.
End example.
