(* ===== verification/OwnedModel.v ===== *)
(** * Owned models (regression/core/owned-model.ts)

    [OwnedModelClient] is the API client of one model: over its transport it reads the models
    and the logs of this one, creates exactly the reviewed fixture, and starts, stops,
    restarts and edits it under the identifier it owns. *)

From S2P Require Import Prelude Js Number Json JsonParse Prog Regex Errors DashboardCore JsonFields ApiClient Config Journal LabPolicy Fence.

Local Open Scope string_scope.
Local Open Scope js_scope.
Local Open Scope Z_scope.

(** ** Models of the API *)

(** [a === b] of members: two objects are never the same. *)
Definition same_field (a b : option json) : bool :=
  match a, b with Some v, Some w => same_value v w | None, None => true | _, _ => false end.
Definition metadata (item : dict json) : dict json := object_in item "metadata".
Definition safe_integer (v : option json) : bool := match v with Some (JNum n) => isSafeInteger n | _ => false end.
(** [Number.isSafeInteger(v) && Number(v) > 0] *)
Definition positive_generation (v : option json) : bool := match v with Some (JNum n) => isSafeInteger n && num_ltb (Int 0) n | _ => false end.
(** [Number(v)] of a member that may be missing. *)
Definition number_of (v : option json) : number := match v with Some v => Number_of_json v | None => NaN end.

Definition editRevision (item : dict json) : string :=
  let m := metadata item in
  if truthy_in m "uid" && positive_generation (dict_get m "generation")
  then "generation:" +:+ string_of (dict_get m "uid") +:+ ":" +:+ string_of (dict_get m "generation")
  else match dict_get m "resourceVersion" with None | Some JNull => "" | Some v => String_of_json v end.

(** The only model with the name. Reading members of [null] or of nothing is a TypeError. *)
Definition activation (payload : json) (name : string) : res fence_exn (option (dict json)) :=
  match array_in (json_obj payload ?? []) "activations" with
  | None => Err type_error
  | Some items =>
      if existsb (fun item => match item with JNull => true | _ => false end) items then Err type_error
      else let matches := List.filter (fun d => same_text (metadata d) "name" name) (map (fun item => json_obj item ?? []) items) in
           if (length matches <=? 1)%nat then Ok (head matches) else Err (raise OWNERSHIP)
  end.

Record Receipt : Type := { rc_uid : option json; rc_generation : number }.
Definition update_failed : fence_exn := Thrown (Harness (new_HarnessError API (Some Failed) (Some S_model_update) None)).
(** The next generation of the same model, with the window asked for and still (not) enabled. *)
Definition modelContextUpdateReceipt (current : dict json) (result : json) (contextWindow : number) : res fence_exn Receipt :=
  let updated := json_obj result ?? [] in
  let before := metadata current in let after := metadata updated in
  let next :=
    match dict_get before "generation", dict_get after "generation" with
    | Some (JNum (Int y)), Some (JNum (Int z)) => isSafeInteger (Int y) && isSafeInteger (Int z) && (z =? y + 1)
    | _, _ => false
    end in
  if truthy_in before "uid" && truthy_in before "name" && same_field (dict_get after "uid") (dict_get before "uid") &&
     same_field (dict_get after "name") (dict_get before "name") && next &&
     same_field (dict_get (object_in (object_in updated "spec") "local") "contextWindow") (Some (JNum contextWindow)) &&
     same_field (dict_get (object_in updated "spec") "enabled") (dict_get (object_in current "spec") "enabled")
  then Ok {| rc_uid := dict_get before "uid"; rc_generation := number_of (dict_get after "generation") |}
  else Err update_failed.

(** The UID of a revision: [generation:], a UID without colons and a positive integer. *)
Definition revision_uid (s : string) : option string :=
  match split ":" s with
  | ["generation"; uid; String c n] => if truthy uid && in_range "1" "9" c && sforall is_digit n then Some uid else None
  | _ => None
  end.

(** ** The client *)
Definition kubeaiModelNameLimit : nat := 40.

Record OwnedModelClient : Type := {
  mc_origin : string; mc_timeoutMs : number; mc_name : string; mc_fixture : RuntimeModelFixture; mc_allowMemoryRisk : bool; mc_api : MagicStickApi
}.
(** [ownedUid] *)
Notation OM := (FM (option string)).

Section client.
Context {web : WebUrl}.
Section payload.
Context (client : OwnedModelClient).
Notation fixture := (mc_fixture client).

Definition given_json (o : option json) : bool := match o with Some v => json_truthy v | None => false end.
Definition sizing : dict json :=
  if given_json (fx_realtime fixture) then member "realtime" (fx_realtime fixture)
  else ((if String.eqb (fx_computeTarget fixture) "cpu" then [("memoryRequiredMi", num (fx_memoryRequiredMi fixture))]
         else ("vram", JStr (String_of_Z (fx_memoryRequiredMi fixture) +:+ "Mi")) ::
              (if String.eqb (fx_computeTarget fixture) "nvidia-gpu" then [("cpuOffloading", JBool false)] else [])) ++
        match fx_kvCacheType fixture with Some c => if truthy c then [("kvCacheType", JStr c)] else [] | None => [] end)%list.
(** An undefined member does not appear in the text of the object. *)
Definition devices (d : dict json) : dict json :=
  if given_json (fx_gpuDevices fixture) then
    let d := dict_spread d (member "gpuDevices" (fx_gpuDevices fixture)) in
    let d := if given_json (fx_gpuDeployment fixture) then dict_spread d (member "gpuDeployment" (fx_gpuDeployment fixture)) else d in
    let d := match fx_systemMemoryMi fixture with Some z => dict_set d "memoryRequiredMi" (num z) | None => dict_delete d "memoryRequiredMi" end in
    if given_json (fx_vllm fixture) then dict_spread d (member "vllm" (fx_vllm fixture)) else d
  else d.
Definition createPayload : json :=
  JObj [("name", JStr (mc_name client)); ("enabled", JBool true); ("targetNamespace", JStr "ai");
        ("local", JObj (devices
          ([("modelType", JStr "chat"); ("computeTarget", JStr (fx_computeTarget fixture)); ("engine", JStr (fx_engine fixture)); ("url", JStr (fx_url fixture));
            ("contextWindow", num (fx_contextWindow fixture)); ("maxNumSeqs", num 1)] ++ sizing ++
           (if mc_allowMemoryRisk client then [("allowMemoryRisk", JBool true)] else []))%list))].

(** ** The transport *)
Definition model_path : string := "/api/models/" +:+ enc (mc_name client).
Definition local_path : string := "/api/models/local".
Definition model_actions : list string := ["start"; "stop"] ++ (if given_json (fx_realtime fixture) then ["restart"] else []).
Definition window_limit : Z := Z.max 4096 (fx_contextWindow fixture).

Definition model_read (url : Url) : bool :=
  String.eqb (u_pathname url) "/api/models" && negb (truthy (u_search url)) ||
  String.eqb (u_pathname url) (model_path +:+ "/logs") && (length (u_searchParams url) =? 1)%nat && param_is url "tailLines" "300".
Definition model_post (owned : option string) (url : Url) (body : json) : bool :=
  if String.eqb (u_pathname url) local_path then String.eqb (stringify "" "" body) (stringify "" "" createPayload)
  else existsb (fun action => String.eqb (u_pathname url) (model_path +:+ "/" +:+ action)) model_actions &&
       match json_obj body, owned with
       | Some d, Some uid =>
           truthy uid && (length d =? 1)%nat && bool_decide (base.mbind revision_uid (text_field d "expectedRevision") = Some uid)
       | _, _ => false
       end.
(** Without an owned UID the comparison holds when there is no revision either. *)
Definition model_put (owned : option string) (body : json) : bool :=
  match json_obj body with
  | Some d =>
      bool_decide (revision_uid (string_of (dict_get d "expectedRevision")) = owned) && String.eqb (sorted_keys d) "expectedRevision,local" &&
      let local := object_in d "local" in
      String.eqb (join "," (dict_keys local)) "contextWindow" &&
      match dict_get local "contextWindow" with Some (JNum n) => bool_decide (is_Some (bounded 256 window_limit n)) | _ => false end
  | None => false
  end.
Definition fence_if (b : bool) : res fence_exn unit := if b then Ok tt else Err (raise MUTATION).
Definition model_permitted (owned : option string) (url : Url) (method : string) (input : FetchRequest) : res fence_exn unit :=
  if String.eqb method "GET" then fence_if (model_read url)
  else if String.eqb method "POST" then
    fence_if (negb (truthy (u_search url)) &&
      match base.mbind JSON_parse (fr_body input) with Some body => model_post owned url body | None => false end)
  else if String.eqb method "PUT" && String.eqb (u_pathname url) model_path && negb (truthy (u_search url)) then
    match JSON_parse (fr_body input ?? "undefined") with
    | None => Err (Thrown (Foreign "SyntaxError"))
    | Some JNull => Err type_error
    | Some body => fence_if (model_put owned body)
    end
  else Err (raise MUTATION).

Definition refusals : list Z := [400; 401; 403; 404; 409; 422].
Definition model_transport (input : FetchRequest) : OM Response :=
  let! url := of_res (new_URL (fr_url input)) in
  let method := toUpperCase (fr_method input) in
  check (String.eqb (u_origin url) (mc_origin client) && negb (truthy (u_hash url))) MUTATION ;;
  let! owned := get in
  of_res (model_permitted owned url method input) ;;
  let! headers := (if String.eqb method "GET" then mret (new_Headers (fr_headers input))
                   else await F_guard ;; mret (headers_set (new_Headers (fr_headers input)) "Origin" (mc_origin client))) in
  let! response := context_fetch {| cx_url := u_href url; cx_method := method; cx_headers := header_entries headers; cx_data := data_of input; cx_timeout := mc_timeoutMs client |} in
  (if String.eqb method "POST" && String.eqb (u_pathname url) local_path && bool_decide (an_status response ∈ refusals) && json_type response
   then throw (Rejected (an_status response)) else mret tt) ;;
  check (success response && json_type response) API ;;
  answer_body eight_mebibytes response.

(** ** The operations *)
Definition model_call (c : api_call) : OM json := call model_transport (mc_api client) c.
Definition model_write (method path : string) (body : json) : OM json := call_path model_transport (mc_api client) method path body.
Definition client_models : OM json := model_call (Runtime models).
Definition client_logs : OM json := model_call (Runtime (modelLogs (mc_name client) (Int 300) "")).

(** [result?.metadata] and [result.activation]: no member of [null]. *)
Definition not_null (result : json) : OM (dict json) := match result with JNull => throw type_error | _ => mret (json_obj result ?? []) end.

Definition created_uid (result : json) : option string :=
  let m := metadata (json_obj result ?? []) in
  if same_text m "name" (mc_name client) && same_text m "namespace" "ai-system" && positive_generation (dict_get m "generation") then
    match text_field m "uid" with Some uid => if truthy uid then Some uid else None | None => None end
  else None.
Definition create_model : OM (string * number) :=
  let! payload := client_models in
  let! current := of_res (activation payload (mc_name client)) in
  check (negb (bool_decide (is_Some current))) OWNERSHIP ;;
  let! result := try_catch (model_call (Models (createLocalModel createPayload))) (fun e => throw (harness_or API e)) in
  match created_uid result with
  | Some uid => modify (fun _ => Some uid) ;; mret (uid, number_of (dict_get (metadata (json_obj result ?? [])) "generation"))
  | None => throw (raise OWNERSHIP)
  end.
Definition adopt_model (uid : string) : OM unit := check (truthy uid) OWNERSHIP ;; modify (fun _ => Some uid).

(** The current model is the owned one, and so is what the answer describes. *)
Definition is_owned (owned : option string) (item : dict json) : bool :=
  match owned with Some uid => truthy uid && same_text (metadata item) "uid" uid | None => false end.
Definition answered_uid (owned : option string) (item : dict json) : bool := same_field (dict_get (metadata item) "uid") (JStr <$> owned).
Definition revision_body (current : dict json) : json := JObj [("expectedRevision", JStr (editRevision current))].
Definition later (current item : dict json) : bool :=
  num_ltb (number_of (dict_get (metadata current) "generation")) (number_of (dict_get (metadata item) "generation")).
Definition switched (owned : option string) (current item : dict json) (enabled : bool) : bool :=
  answered_uid owned item && flag_is (object_in item "spec") "enabled" enabled && safe_integer (dict_get (metadata item) "generation") && later current item.
Definition receipt (owned : option string) (item : dict json) : string * number := (owned ?? "", number_of (dict_get (metadata item) "generation")).

Definition start_model (current : dict json) : OM (string * number) :=
  let! owned := get in
  check (is_owned owned current && flag_is (object_in current "spec") "enabled" false && same_text (metadata current) "name" (mc_name client)) OWNERSHIP ;;
  let! answer := try_catch (model_write "POST" (model_path +:+ "/start") (revision_body current)) (fun e => throw (harness_or API e)) in
  let! result := not_null answer in
  let item := object_in result "activation" in
  let! owned := get in
  check (switched owned current item true) API ;;
  mret (receipt owned item).
Definition stop_model (current : dict json) : OM (string * number) :=
  let! owned := get in
  check (is_owned owned current && flag_is (object_in current "spec") "enabled" true && same_text (metadata current) "name" (mc_name client)) OWNERSHIP ;;
  let! answer := model_write "POST" (model_path +:+ "/stop") (revision_body current) in
  let! result := not_null answer in
  let item := object_in result "activation" in
  let! owned := get in
  check (switched owned current item false) API ;;
  mret (receipt owned item).
Definition restart_model (current : dict json) : OM (string * number) :=
  let! owned := get in
  check (given_json (fx_realtime fixture) && is_owned owned current && flag_is (object_in current "spec") "enabled" true) OWNERSHIP ;;
  let! answer := model_write "POST" (model_path +:+ "/restart") (revision_body current) in
  let! result := not_null answer in
  let item := object_in result "activation" in
  let! owned := get in
  check (truthy_in item "metadata" && answered_uid owned item && later current item) API ;;
  mret (receipt owned item).
Definition window_body (expectedRevision : string) (contextWindow : number) : json :=
  JObj [("expectedRevision", JStr expectedRevision); ("local", JObj [("contextWindow", JNum contextWindow)])].
Definition editContext (current : dict json) (contextWindow : number) : OM Receipt :=
  let! owned := get in
  check (is_owned owned current && same_text (metadata current) "name" (mc_name client)) OWNERSHIP ;;
  let! result := model_write "PUT" model_path (window_body (editRevision current) contextWindow) in
  of_res (modelContextUpdateReceipt current result contextWindow).

(** The one request beside the transport: it must be refused as a conflict. *)
Definition stale_request (expectedRevision : string) (contextWindow : number) : ContextRequest :=
  {| cx_url := mc_origin client +:+ model_path; cx_method := "PUT";
     cx_headers := [("Origin", mc_origin client); ("Content-Type", "application/json"); ("X-MagicStick-CSRF", "dashboard")];
     cx_data := Some (stringify "" "" (window_body expectedRevision contextWindow)); cx_timeout := mc_timeoutMs client |}.
Definition rejectsStaleContextUpdate (expectedRevision : string) (contextWindow : number) : OM unit :=
  let! owned := get in
  check (truthy (owned ?? "") && bool_decide (revision_uid expectedRevision = owned) && bool_decide (is_Some (bounded 256 4096 contextWindow))) MUTATION ;;
  let! payload := client_models in
  let! current := of_res (activation payload (mc_name client)) in
  let! owned := get in
  check (match current with Some item => answered_uid owned item && negb (String.eqb (editRevision item) expectedRevision) | None => false end) OWNERSHIP ;;
  await F_guard ;;
  let! response := context_fetch (stale_request expectedRevision contextWindow) in
  check (an_status response =? 409) CONFLICT.
End payload.

(** ** The constructor *)
Definition new_OwnedModelClient (baseUrl : string) (timeoutMs : number) (name : string) (fixture : RuntimeModelFixture) (prefix : string) (allowMemoryRisk : bool)
    : res fence_exn (OwnedModelClient * option string) :=
  if startsWith prefix name && rtest name_pattern name then
    if given_json (fx_realtime fixture) || (String.length name <=? kubeaiModelNameLimit)%nat then
      match origin_of baseUrl with
      | Ok origin => Ok ({| mc_origin := origin; mc_timeoutMs := timeoutMs; mc_name := name; mc_fixture := fixture; mc_allowMemoryRisk := allowMemoryRisk;
                            mc_api := new_MagicStickApi (Some baseUrl) false |}, None)
      | Err e => Err e
      end
    else Err (raise CONFIG)
  else Err (raise OWNERSHIP).

(** ** A history: any operations in turn, whatever the ones before threw *)
Inductive model_operation : Type :=
| Read_models
| Read_logs
| Create_model
| Adopt_model (uid : string)
| Start_model (current : dict json)
| Stop_model (current : dict json)
| Restart_model (current : dict json)
| Edit_context (current : dict json) (contextWindow : number)
| Stale_context (expectedRevision : string) (contextWindow : number).
Definition model_perform (client : OwnedModelClient) (o : model_operation) : OM unit :=
  match o with
  | Read_models => discard (client_models client)
  | Read_logs => discard (client_logs client)
  | Create_model => discard (create_model client)
  | Adopt_model uid => discard (adopt_model uid)
  | Start_model current => discard (start_model client current)
  | Stop_model current => discard (stop_model client current)
  | Restart_model current => discard (restart_model client current)
  | Edit_context current contextWindow => discard (editContext client current contextWindow)
  | Stale_context expectedRevision contextWindow => discard (rejectsStaleContextUpdate client expectedRevision contextWindow)
  end.
Definition model_history (client : OwnedModelClient) (operations : list model_operation) : OM unit := for_each operations (model_perform client).
End client.

(** ** Pods and the catalogue *)

(** The members of a Pod as the API server lists them. *)
Definition labels (pod : dict json) : dict json := object_in (metadata pod) "labels".
Definition owned_by (f : dict json -> bool) (pod : dict json) : bool := existsb f (objects_in (metadata pod) "ownerReferences").
Definition controller_of (kind : string) (owner : dict json) : bool := same_text owner "kind" kind && flag_is owner "controller" true.
Definition model_pod (pod : dict json) : bool := same_text (metadata pod) "namespace" "ai" && same_text (labels pod) "app" "model".
Definition replica_pod (name : string) (pod : dict json) : bool :=
  model_pod pod && same_text (labels pod) "appliance.magicstick.dev/modelactivation" name &&
  same_text (labels pod) "appliance.magicstick.dev/model-replica" "true" && truthy_in (labels pod) "appliance.magicstick.dev/activation-uid" &&
  owned_by (fun owner => controller_of "Model" owner && same_field (dict_get owner "name") (dict_get (labels pod) "model")) pod.
Definition runtime_pod (name : string) (pod : dict json) : bool :=
  model_pod pod && same_text (labels pod) "model" name &&
  (owned_by (fun owner => controller_of "Model" owner && same_text owner "name" name) pod ||
   same_text (labels pod) "appliance.magicstick.dev/modelactivation" name && same_text (labels pod) "app.kubernetes.io/managed-by" "magicstick-operator" &&
   same_text (labels pod) "appliance.magicstick.dev/runtime-backend" "realtime" && owned_by (controller_of "ReplicaSet") pod).
(** The replicas, then the others: a Pod is among the replicas when it passes their filter. *)
Definition ownedRuntimePods (pods : list (dict json)) (name : string) : list (dict json) :=
  (List.filter (replica_pod name) pods ++ List.filter (fun pod => negb (replica_pod name pod) && runtime_pod name pod) pods)%list.

Definition exit_code (state : dict json) : option json := dict_get (object_in state "terminated") "exitCode".
Definition crashed (container : dict json) : bool :=
  match dict_get container "restartCount" with
  | Some (JNum n) => isSafeInteger n && num_leb (Int 3) n
  | _ => false
  end &&
  negb (match exit_code (object_in container "state") with Some (JNum n) => num_eqb n (Int 0) | _ => false end) &&
  (same_text (object_in (object_in container "state") "waiting") "reason" "CrashLoopBackOff" ||
   match exit_code (object_in container "lastState") with Some (JNum n) => negb (num_eqb n (Int 0)) | _ => false end).
Definition hasRuntimeCrashLoop (pod : dict json) : bool :=
  let status := object_in pod "status" in
  negb (existsb (fun condition => same_text condition "type" "Ready" && same_text condition "status" "True") (objects_in status "conditions")) &&
  existsb crashed (objects_in status "containerStatuses" ++ objects_in status "initContainerStatuses")%list.

(** What remains of a model: its Pods, and its entries in the catalogue. *)
Definition remainingModelResources (pods : list (dict json)) (payload : dict json) (name : string) : nat * nat :=
  (length (ownedRuntimePods pods name), length (List.filter (fun item => same_text item "id" name) (objects_in payload "models"))).

Definition advertised_target (payload : dict json) (fixture : RuntimeModelFixture) : bool :=
  match find_first (fun item => same_text item "id" (fx_computeTarget fixture)) (objects_in (object_in payload "computeTargets") "targets") with
  | Some target =>
      truthy_in target "available" && existsb (is_text (fx_engine fixture)) (array_in target "engines" ?? []) &&
      negb (flag_is (object_in (object_in target "engineAvailability") (fx_engine fixture)) "available" false)
  | None => false
  end.
Definition advertised_variant (fixture : RuntimeModelFixture) (variant : dict json) : bool :=
  same_text variant "engine" (fx_engine fixture) && same_text variant "computeTarget" (fx_computeTarget fixture) &&
  (same_text variant "url" (fx_url fixture) || existsb (fun artifact => same_text artifact "url" (fx_url fixture)) (objects_in variant "artifacts")).
Definition fixtureIsAdvertised (payload : dict json) (fixture : RuntimeModelFixture) : res exn unit :=
  let? _ := requireSafe (advertised_target payload fixture) CAPABILITY in
  if negb (String.eqb (fx_computeTarget fixture) "cpu") then Ok tt
  else requireSafe (existsb (advertised_variant fixture)
         (flat_map (fun kv => objects_in (json_obj kv.2 ?? []) "variants") (object_in payload "presets"))) CAPABILITY.

(** ** Owned models: their properties (regression/core/owned-model.ts) *)

Section props.
Context {web : WebUrl}.

(** ** The history of a client: whether the guard has just agreed, whether the request just
    sent is the creation, and the UIDs that may be owned. *)
Record ModelGhost : Type := { mg_armed : bool; mg_creating : bool; mg_known : list string }.

Section client.
Context (client : OwnedModelClient).

Definition payload_text : string := stringify "" "" (createPayload client).
Definition created_in (creating : bool) (value : option json) : list string :=
  match creating, base.mbind (created_uid client) value with true, Some uid => [uid] | _, _ => [] end.
Definition model_upd X (g : ModelGhost) (op : fenceE X) : X -> ModelGhost :=
  match op in fenceE X return X -> ModelGhost with
  | F_guard => fun x => {| mg_armed := is_ok x; mg_creating := false; mg_known := mg_known g |}
  | F_fetch r => fun _ => {| mg_armed := false; mg_creating := String.eqb (cx_method r) "POST" && bool_decide (cx_data r = Some payload_text); mg_known := mg_known g |}
  | F_body => fun x => {| mg_armed := false; mg_creating := false;
      mg_known := mg_known g ++ match x with Ok b => created_in (mg_creating g) (JSON_parse b.2) | Err _ => [] end |}
  | _ => fun _ => {| mg_armed := false; mg_creating := false; mg_known := mg_known g |}
  end.

(** A body that names a revision of a known UID. *)
Definition revises (g : ModelGhost) (d : dict json) : Prop :=
  exists uid, uid ∈ mg_known g /\ revision_uid (string_of (dict_get d "expectedRevision")) = Some uid.
Definition switching (g : ModelGhost) (u : Url) (r : ContextRequest) : Prop :=
  exists action d, action ∈ model_actions client /\ u_pathname u = model_path client +:+ "/" +:+ action /\
    base.mbind JSON_parse (cx_data r) = Some (JObj d) /\ length d = 1%nat /\ revises g d.
Definition creation (u : Url) (r : ContextRequest) : Prop :=
  u_pathname u = local_path /\ exists body, base.mbind JSON_parse (cx_data r) = Some body /\ stringify "" "" body = payload_text.
Definition edit (g : ModelGhost) (u : Url) (r : ContextRequest) : Prop :=
  u_pathname u = model_path client /\
  exists d z, base.mbind JSON_parse (cx_data r) = Some (JObj d) /\ sorted_keys d = "expectedRevision,local" /\ revises g d /\
    dict_get (object_in d "local") "contextWindow" = Some (JNum (Int z)) /\ 256 <= z <= window_limit client.
Definition model_request (g : ModelGhost) (r : ContextRequest) : Prop :=
  (exists u, addresses r (mc_origin client) u /\ u_hash u = "" /\
     (cx_method r = "GET" /\ model_read client u = true /\ cx_data r = None \/
      mg_armed g = true /\ u_search u = "" /\
        (cx_method r = "POST" /\ (creation u r \/ switching g u r) \/ cx_method r = "PUT" /\ edit g u r))) \/
  (exists uid revision z, mg_armed g = true /\ r = stale_request client revision (Int z) /\ uid ∈ mg_known g /\ revision_uid revision = Some uid /\ 256 <= z <= 4096).
Definition model_pre X (g : ModelGhost) (op : fenceE X) : Prop :=
  match op with F_fetch r => model_request g r | F_guard | F_body => True | _ => False end.
Definition model_asm X (g : ModelGhost) (op : fenceE X) (x : X) : Prop := True.
Notation wpo := (wpm model_pre model_asm model_upd).

(** What is owned is known, and so is everything in [more]. *)
Definition model_inv (more : list string) (g : ModelGhost) (s : option string) : Prop := (forall uid, s = Some uid -> uid ∈ mg_known g) /\ more ⊆ mg_known g.
Context (more : list string).

Lemma bounded_spec lo hi n : is_Some (bounded lo hi n) -> exists z, n = Int z /\ lo <= z <= hi.
Proof.
  intros [z Hz]. unfold bounded in Hz. destruct n as [y| | | |]; try done. destruct (_ && _) eqn:E; [|done].
  injection Hz as <-. exists y. split; [done | lia].
Qed.

Lemma post_request g s u body r : model_inv more g s -> base.mbind JSON_parse (cx_data r) = Some body ->
  model_post client s u body = true -> creation u r \/ switching g u r.
Proof.
  intros [Hown _] Hd H. unfold model_post in H. destruct (String.eqb_spec (u_pathname u) local_path) as [Hp|_].
  - left. split; [done|]. exists body. split; [done | by apply String.eqb_eq].
  - right. apply andb_true_iff in H as [(action & Ha & Hp%String.eqb_eq)%existsb_elem H].
    destruct (json_obj body) as [d|] eqn:Eb; [|done]. destruct body; try discriminate Eb. injection Eb as ->.
    destruct s as [uid|]; [|done]. rewrite !andb_true_iff in H. destruct H as [[_ Hl] Hr].
    exists action, d. split_and!; [done | done | done | by apply Nat.eqb_eq |].
    exists uid. split; [by apply Hown|]. apply bool_decide_eq_true in Hr. unfold text_field in Hr.
    destruct (dict_get d "expectedRevision") as [[| | |v| |]|]; try done.
Qed.
Lemma put_request g uid d : model_inv more g (Some uid) -> model_put client (Some uid) (JObj d) = true ->
  sorted_keys d = "expectedRevision,local" /\ revises g d /\
  exists z, dict_get (object_in d "local") "contextWindow" = Some (JNum (Int z)) /\ 256 <= z <= window_limit client.
Proof.
  intros [Hown _] H. unfold model_put in H. cbn [json_obj] in H. rewrite !andb_true_iff in H. destruct H as [[Hr Hk] [_ Hw]].
  split; [by apply String.eqb_eq|]. split; [exists uid; split; [by apply Hown | by apply bool_decide_eq_true in Hr]|].
  destruct (dict_get _ "contextWindow") as [[| |n| | |]|]; try done. apply bool_decide_eq_true, bounded_spec in Hw as (z & -> & Hz).
  by exists z.
Qed.

(** The decision of the fence is one of the client's requests. *)
Lemma model_permitted_request g s u input headers :
  model_inv more g s -> (exists t, web_url t = Some u) -> u_origin u = mc_origin client -> u_hash u = "" ->
  (toUpperCase (fr_method input) <> "GET" -> mg_armed g = true) -> (toUpperCase (fr_method input) = "GET" -> no_body input = true) ->
  (toUpperCase (fr_method input) = "PUT" -> is_Some s) ->
  model_permitted client s u (toUpperCase (fr_method input)) input = Ok tt ->
  model_request g
    {| cx_url := u_href u; cx_method := toUpperCase (fr_method input); cx_headers := headers; cx_data := data_of input; cx_timeout := mc_timeoutMs client |}.
Proof.
  intros Hinv Hu Ho Hh Harm Hget Hput H. left. exists u. split_and!; [done | done |]. cbn.
  assert (Hdata : forall v, base.mbind JSON_parse (fr_body input) = Some v -> base.mbind JSON_parse (data_of input) = Some v).
  { intros v. unfold data_of, no_body. destruct (fr_body input) as [t|]; [|done]. cbn. destruct (truthy t) eqn:Et; [done|].
    apply truthy_false in Et as ->. by vm_compute. }
  unfold model_permitted in H. destruct (String.eqb_spec (toUpperCase (fr_method input)) "GET") as [Hm|Hm].
  { left. split_and!; [done | by destruct (model_read client u) |]. unfold data_of. by rewrite Hget. }
  specialize (Harm Hm). right. split; [done|]. destruct (String.eqb_spec (toUpperCase (fr_method input)) "POST") as [Hm'|Hm'].
  - destruct (_ && _) eqn:Ec in H; [|done]. apply andb_true_iff in Ec as [Hs%negb_true_iff%truthy_false Ec]. split; [done|]. left. split; [done|].
    destruct (base.mbind JSON_parse (fr_body input)) as [body|] eqn:Eb; [|done]. apply (post_request g s u body); cbn; [done | by apply Hdata | done].
  - destruct (_ && _) eqn:Ec in H; [|done]. apply andb_true_iff in Ec as [[Hm2%String.eqb_eq Hp%String.eqb_eq]%andb_true_iff Hs%negb_true_iff%truthy_false].
    split; [done|]. right. split; [done|]. destruct (Hput Hm2) as [uid ->]. destruct (fr_body input) as [t|] eqn:Eb; [|by vm_compute in H].
    change (Some t ?? "undefined") with t in H. destruct (JSON_parse t) as [body|] eqn:Ep; [|discriminate H].
    destruct (model_put client (Some uid) body) eqn:Em; [|destruct body; discriminate H].
    destruct body as [| | | | |d]; try discriminate Em. apply (put_request g uid d Hinv) in Em as (Hk & Hr & z & Hz & Hb).
    split; [done|]. exists d, z. split_and!; [by apply Hdata | done | done | done | lia | lia].
Qed.

Definition answered_model (input : FetchRequest) (g : ModelGhost) (r : res fence_exn Response) : Prop :=
  match r with
  | Ok response => r_contentType response = Some "application/json" /\
      (toUpperCase (fr_method input) = "POST" -> data_of input = Some payload_text -> created_in true (r_json response) ⊆ mg_known g)
  | Err _ => True
  end.

Lemma model_transport_wp input s g :
  model_inv more g s -> (toUpperCase (fr_method input) = "GET" -> no_body input = true) -> (toUpperCase (fr_method input) = "PUT" -> is_Some s) ->
  wpo (model_transport client input) s g (fun g' s' r => s' = s /\ model_inv more g' s' /\ answered_model input g' r).
Proof.
  intros Hinv Hget Hput. unfold model_transport. apply wpm_bind, wpm_new_URL; [|done]. intros u Hu. cbv zeta.
  apply wpm_bind, wpm_check; [|done]. intros [Ho%String.eqb_eq Hh%negb_true_iff%truthy_false]%andb_true_iff. apply wpm_bind, wpm_get, wpm_bind, wpm_of_res.
  destruct (model_permitted _ _ _ _ _) as [[]|] eqn:Ep; [|done]. apply wpm_bind.
  assert (Hsend : forall headers g', mg_known g' = mg_known g -> (toUpperCase (fr_method input) <> "GET" -> mg_armed g' = true) ->
    wpo (let! response := context_fetch {| cx_url := u_href u; cx_method := toUpperCase (fr_method input); cx_headers := header_entries headers;
           cx_data := data_of input; cx_timeout := mc_timeoutMs client |} in
         (if String.eqb (toUpperCase (fr_method input)) "POST" && String.eqb (u_pathname u) local_path && bool_decide (an_status response ∈ refusals) && json_type response
          then throw (Rejected (an_status response)) else mret tt) ;;
         check (success response && json_type response) API ;; answer_body eight_mebibytes response)
      s g' (fun g' s' r => s' = s /\ model_inv more g' s' /\ answered_model input g' r)).
  { intros headers g' Hg' Harm. assert (Hinv' : model_inv more g' s) by (destruct Hinv; split; by rewrite Hg').
    apply wpm_bind, wpm_context_fetch; [|intros a _|done].
    - apply (model_permitted_request g' s); try done. by exists (fr_url input).
    - apply wpm_bind. destruct (_ && json_type a); [done|]. apply wpm_ret, wpm_bind, wpm_check; [|done]. intros _. destruct Hinv' as [Hi1 Hi2].
      apply wpm_answer_body; [done | intros n text _ | intros [b|e'] e _].
      + assert (Hi : model_inv more (model_upd _ (model_upd _ g' (F_fetch {| cx_url := u_href u; cx_method := toUpperCase (fr_method input);
            cx_headers := header_entries headers; cx_data := data_of input; cx_timeout := mc_timeoutMs client |}) (Ok a)) F_body (Ok (n, text))) s)
          by (split; cbn; [intros uid Hs; specialize (Hi1 uid Hs)|]; set_solver).
        destruct (new_Response (an_status a) text) as [response|e] eqn:Er; [|done]. split_and!; [done | done |].
        unfold new_Response in Er. destruct (_ || _); [done|]. case_bool_decide; [done|]. injection Er as <-. split; [done|].
        intros Hm Hd. cbn. rewrite Hm, Hd, bool_decide_eq_true_2 by done. cbn [String.eqb andb]. set_solver.
      + split; [done|]. split; [|done]. split; cbn; [intros uid Hs; specialize (Hi1 uid Hs)|]; set_solver.
      + split; [done|]. split; [|done]. split; cbn; [intros uid Hs; specialize (Hi1 uid Hs)|]; set_solver. }
  destruct (String.eqb_spec (toUpperCase (fr_method input)) "GET") as [Hm|Hm].
  - apply wpm_ret, Hsend; done.
  - apply wpm_bind, wpm_await; [done|]. intros [[]|e] _; [|done]. apply wpm_ret, Hsend; done.
Qed.

(** ** The operations *)
Context (Hclient : api_hasToken (mc_api client) = false).
Notation kept := (fun g s _ => model_inv more g s).

Lemma model_call_wp c s g : model_inv more g s -> toUpperCase (ep_method (ApiClient.endpoint c)) <> "PUT" ->
  wpo (model_call client c) s g (fun g' s' r => s' = s /\ model_inv more g' s' /\
    forall v, r = Ok v -> c = Models (createLocalModel (createPayload client)) -> created_in true (Some v) ⊆ mg_known g').
Proof using Hclient.
  intros Hinv Hput. apply wpm_call; [done|]. eapply wpm_mono; [|apply model_transport_wp; [done | apply call_no_body | intros Hm]].
  - intros g' s' r (Hs & Hi & Hr). split; [done|]. split; [done|]. intros v (response & -> & Hv)%responded_ok ->.
    destruct Hr as (Hc & Hr). specialize (Hr eq_refl eq_refl).
    unfold response_body in Hv. rewrite Hc in Hv. change (includesStr _ _) with true in Hv. cbn iota in Hv.
    destruct (r_json response) as [w|]; cbn in Hv; subst v; [done|]. vm_compute. set_solver.
  - exfalso. apply Hput. rewrite <- Hm. clear. cbn. by destruct c as [c|c|c|c|c]; destruct c.
Qed.
Lemma model_write_wp method path body s g : model_inv more g s -> toUpperCase (toUpperCase method) <> "GET" -> is_Some s ->
  wpo (model_write client method path body) s g (fun g' s' _ => s' = s /\ model_inv more g' s').
Proof using Hclient.
  intros Hinv Hm Hs. apply wpm_call_path; [done|]. eapply wpm_mono; [|apply model_transport_wp; [done | done | done]].
  by intros g' s' r (-> & Hi & _).
Qed.
Lemma is_owned_some s item : is_owned s item = true -> is_Some s.
Proof. destruct s; [by eexists | done]. Qed.

(** A switch: a check, one request, and a check of its answer. *)
Lemma switch_wp {A} method path body (f : dict json -> option string -> OM A) s g (h : fence_exn -> fence_exn) :
  model_inv more g s -> toUpperCase (toUpperCase method) <> "GET" -> is_Some s ->
  (forall d o g' s', model_inv more g' s' -> wpo (f d o) s' g' kept) ->
  wpo (let! answer := try_catch (model_write client method path body) (fun e => throw (h e)) in
       let! result := not_null answer in let! owned := get in f result owned) s g kept.
Proof using Hclient.
  intros Hinv Hm Hs Hf. apply wpm_bind, wpm_try. eapply wpm_mono; [|by apply model_write_wp]. intros g' s' [v|e] [-> Hi]; [|done].
  apply wpm_bind. destruct v; try done; apply wpm_bind, wpm_get, Hf; done.
Qed.

Lemma start_model_wp current s g : model_inv more g s -> wpo (start_model client current) s g kept.
Proof using Hclient.
  intros Hinv. apply wpm_bind, wpm_get, wpm_bind, wpm_check; [|done]. intros [[Ho%is_owned_some _]%andb_true_iff _]%andb_true_iff.
  apply (switch_wp "POST" _ _ (fun d o => check (switched o current (object_in d "activation") true) API ;; mret (receipt o (object_in d "activation"))));
    [done | by vm_compute | done |]. intros d o g' s' Hi. by apply wpm_bind, wpm_check.
Qed.
Lemma model_answer_wp {A} method path body (f : dict json -> option string -> OM A) s g :
  model_inv more g s -> toUpperCase (toUpperCase method) <> "GET" -> is_Some s ->
  (forall d o g' s', model_inv more g' s' -> wpo (f d o) s' g' kept) ->
  wpo (let! answer := model_write client method path body in let! result := not_null answer in let! owned := get in f result owned) s g kept.
Proof using Hclient.
  intros Hinv Hm Hs Hf. apply wpm_bind. eapply wpm_mono; [|by apply model_write_wp]. intros g' s' [v|e] [-> Hi]; [|done].
  apply wpm_bind. destruct v; try done; apply wpm_bind, wpm_get, Hf; done.
Qed.
Lemma stop_model_wp current s g : model_inv more g s -> wpo (stop_model client current) s g kept.
Proof using Hclient.
  intros Hinv. apply wpm_bind, wpm_get, wpm_bind, wpm_check; [|done]. intros [[Ho%is_owned_some _]%andb_true_iff _]%andb_true_iff.
  apply (model_answer_wp "POST" _ _ (fun d o => check (switched o current (object_in d "activation") false) API ;; mret (receipt o (object_in d "activation"))));
    [done | by vm_compute | done |]. intros d o g' s' Hi. by apply wpm_bind, wpm_check.
Qed.
Lemma restart_model_wp current s g : model_inv more g s -> wpo (restart_model client current) s g kept.
Proof using Hclient.
  intros Hinv. apply wpm_bind, wpm_get, wpm_bind, wpm_check; [|done]. intros [[_ Ho%is_owned_some]%andb_true_iff _]%andb_true_iff.
  apply (model_answer_wp "POST" _ _ (fun d o => check (truthy_in (object_in d "activation") "metadata" && answered_uid o (object_in d "activation") && later current (object_in d "activation")) API ;;
    mret (receipt o (object_in d "activation")))); [done | by vm_compute | done |]. intros d o g' s' Hi. by apply wpm_bind, wpm_check.
Qed.
Lemma editContext_wp current n s g : model_inv more g s -> wpo (editContext client current n) s g kept.
Proof using Hclient.
  intros Hinv. apply wpm_bind, wpm_get, wpm_bind, wpm_check; [|done]. intros [Ho%is_owned_some _]%andb_true_iff.
  apply wpm_bind. eapply wpm_mono; [|apply model_write_wp; [done | by vm_compute | done]]. intros g' s' [v|e] [-> Hi]; done.
Qed.
Lemma create_model_wp s g : model_inv more g s -> wpo (create_model client) s g kept.
Proof using Hclient.
  intros Hinv. apply wpm_bind. eapply wpm_mono; [|by apply model_call_wp]. intros g' s' [v|e] (-> & Hi & _); [|done].
  apply wpm_bind, wpm_of_res. destruct (activation v _) as [current|e]; [|done]. apply wpm_bind, wpm_check; [|done]. intros _.
  apply wpm_bind, wpm_try. eapply wpm_mono; [|by apply model_call_wp]. intros g'' s'' [w|e] (-> & Hi' & Hw); [|done].
  specialize (Hw w eq_refl eq_refl). cbn in Hw. destruct (created_uid client w) as [uid|]; [|done].
  apply wpm_bind, wpm_modify, wpm_ret. destruct Hi'. split; [|done]. intros ? [= <-]. set_solver.
Qed.
Lemma rejectsStale_wp revision n s g : model_inv more g s -> wpo (rejectsStaleContextUpdate client revision n) s g kept.
Proof using Hclient.
  intros Hinv. apply wpm_bind, wpm_get, wpm_bind, wpm_check; [|done].
  intros [[Ht Hr%bool_decide_eq_true]%andb_true_iff (z & -> & Hz)%bool_decide_eq_true%bounded_spec]%andb_true_iff.
  destruct s as [uid|]; [|done]. apply wpm_bind. eapply wpm_mono; [|by apply model_call_wp]. intros g' s' [v|e] (-> & Hi & _); [|done].
  apply wpm_bind, wpm_of_res. destruct (activation v _) as [current|e]; [|done]. apply wpm_bind, wpm_get, wpm_bind, wpm_check; [|done]. intros _.
  apply wpm_bind, wpm_await; [done|]. intros [[]|e] _; [|done]. apply wpm_bind, wpm_context_fetch; [|intros a _|done].
  - right. exists uid, revision, z. destruct Hi as [Hi _]. split_and!; [done | done | by apply Hi | done | lia | lia].
  - apply wpm_check; done.
Qed.
End client.

(** ** The history of a client *)
Definition adopted_uids (operations : list model_operation) : list string :=
  flat_map (fun o => match o with Adopt_model uid => [uid] | _ => [] end) operations.
Lemma adopted_uids_app l l' : adopted_uids (l ++ l') = (adopted_uids l ++ adopted_uids l')%list.
Proof. apply flat_map_app. Qed.
Definition model_ghost (operations : list model_operation) : ModelGhost := {| mg_armed := false; mg_creating := false; mg_known := adopted_uids operations |}.

Lemma model_admissible client g tr : admissible model_asm (model_upd client) g tr.
Proof. revert g. induction tr as [|[X op x] tr IH]; intros g; by repeat split. Qed.

Lemma model_perform_wp client o more s g :
  api_hasToken (mc_api client) = false -> model_inv more g s -> adopted_uids [o] ⊆ more ->
  wpm (model_pre client) model_asm (model_upd client) (model_perform client o) s g (fun g' s' r => r = Ok tt /\ model_inv more g' s').
Proof.
  intros Hc Hi Ho. destruct o; cbn [model_perform]; apply discard_wp.
  1,2: eapply wpm_mono; [|by apply (model_call_wp client more)]; by intros g' s' r (_ & Hi' & _).
  - by apply create_model_wp.
  - apply wpm_bind, wpm_check; [|done]. intros _. apply wpm_modify. destruct Hi as [_ Hm]. split; [|done]. intros ? [= <-].
    unfold adopted_uids in Ho. cbn in Ho. set_solver.
  - by apply start_model_wp.
  - by apply stop_model_wp.
  - by apply restart_model_wp.
  - by apply editContext_wp.
  - by apply rejectsStale_wp.
Qed.

(** C18: a client changes only its own model. In every history of its operations and whatever the
    product answers, each request reads the models or the logs of this one, or was agreed to
    by the guard immediately before it: the creation of exactly the reviewed fixture; a
    start, stop or (for a realtime fixture) restart of this model that names a revision of an
    owned UID and nothing else; or an edit of nothing but the context window, within its
    bounds, under such a revision. A UID is owned when it was adopted or when the answer to
    the creation gave it to a model of this name. *)
Theorem models_fenced baseUrl timeout name fixture prefix risk operations client s tr q :
  new_OwnedModelClient baseUrl timeout name fixture prefix risk = Ok (client, s) -> steps (model_history client operations s) tr q ->
  respects (model_pre client) (model_upd client) (model_ghost operations) tr.
Proof.
  intros Hnew Hs. unfold new_OwnedModelClient in Hnew. destruct (_ && _); [|done]. destruct (_ || _); [|done].
  destruct (origin_of baseUrl) as [origin|]; [|done]. injection Hnew as Hc <-.
  assert (Ht : api_hasToken (mc_api client) = false) by (by rewrite <- Hc).
  eapply wp_steps; [|exact Hs | apply model_admissible].
  apply (wpm_for_each _ _ _ _ _ (fun l g s => model_inv (adopted_uids operations) g s /\ adopted_uids l ⊆ adopted_uids operations) _ _ (fun _ _ _ => True)).
  - intros o l g s [Hi Hl]. change (o :: l) with ([o] ++ l)%list in Hl. rewrite adopted_uids_app in Hl.
    eapply wpm_mono; [|apply (model_perform_wp client o (adopted_uids operations)); [done | done | set_solver]].
    intros g' s' r [-> Hi']. split; [done | set_solver].
  - split; [split; done | done].
  - done.
Qed.
End props.

(** ** An example: a model is created and stopped. *)
Section example.
#[local] Existing Instance sample_url.

Definition sample_metadata (generation : Z) : dict json :=
  [("name", JStr "reg-0123-m"); ("namespace", JStr "ai-system"); ("uid", JStr "uid-1"); ("generation", JNum (Int generation))].
Definition sample_model : dict json := [("metadata", JObj (sample_metadata 1)); ("spec", JObj [("enabled", JBool true)])].
(** One text answers the list, the creation and the stop. *)
Definition sample_answers : string := stringify "" ""
  (JObj [("activations", JArr []); ("metadata", JObj (sample_metadata 1));
         ("activation", JObj [("metadata", JObj (sample_metadata 2)); ("spec", JObj [("enabled", JBool false)])])]).
Definition sample_model_client : OwnedModelClient :=
  {| mc_origin := "https://magicstick.local"; mc_timeoutMs := Int 5000; mc_name := "reg-0123-m"; mc_fixture := sample_fixture; mc_allowMemoryRisk := false;
     mc_api := new_MagicStickApi (Some "https://magicstick.local/") false |}.
Definition sample_model_operations : list model_operation := [Create_model; Stop_model sample_model].
Definition sample_model_trace : list event := trace (serving sample_answers) (model_history sample_model_client sample_model_operations None) tt.

Lemma models_fenced_witness :
  respects (model_pre sample_model_client) (model_upd sample_model_client) (model_ghost sample_model_operations) sample_model_trace /\
  map (fun r => (cx_method r, cx_url r)) (all_sent sample_model_trace) =
    [("GET", "https://magicstick.local/api/models"); ("POST", "https://magicstick.local/api/models/local");
     ("POST", "https://magicstick.local/api/models/reg-0123-m/stop")].
Proof.
  split; [|vm_compute; reflexivity].
  apply (models_fenced "https://magicstick.local/" (Int 5000) "reg-0123-m" sample_fixture "reg-0123-" false sample_model_operations sample_model_client None
           sample_model_trace (Done (exec (serving sample_answers) (model_history sample_model_client sample_model_operations None) tt).1)).
  - vm_compute. reflexivity.
  - apply exec_steps.
Defined.
End example.
