(* ===== verification/OwnedIdentity.v ===== *)
(** * Owned accounts (regression/core/administration-api.ts, owned-identity.ts)

    [AdministrationApi] reads the collections of the administration freely and sends a change
    only for a permit of exactly this request, given by [write] and used once.
    [OwnedIdentityClient] creates accounts with the run's prefix over it, records them in the
    journal and changes or deletes the ones it owns. *)

From S2P Require Import Prelude Js Number JsonProps Json JsonParse Prog Regex Errors DashboardCore JsonFields ApiClient Config Journal LabPolicy Fence OwnedModel.

Local Open Scope string_scope.
Local Open Scope js_scope.
Local Open Scope Z_scope.

(** ** The administration's client *)
Record Permit : Type := { pm_method : string; pm_path : string; pm_body : option json }.

Definition collections : list string :=
  ["/api/session"; "/api/appliance"; "/api/modules"; "/api/instances"; "/api/my-instances"; "/api/models"; "/api/status";
   "/api/host-management"; "/api/hardware/gpu-sharing"; "/api/license"; "/api/license/export"; "/api/federated-sso"; "/api/api-access"; "/api/users";
   "/api/kubernetes-access"; "/api/mesh"; "/api/settings"; "/api/instance-principals"].
Definition dns_char (c : ascii) : bool := plain_char c || Ascii.eqb c "-"%char.
Definition id_char (c : ascii) : bool := is_alnum c || Ascii.eqb c "-"%char.
(** The credentials and the access of a module or an instance. *)
Definition member_pattern : re :=
  Cat (lit "/api/") (Cat (Alt (lit "modules") (lit "instances")) (Cat (chr "/")
    (Cat (Cls dns_char) (Cat (upto 62 (Cls dns_char)) (Cat (chr "/") (Alt (lit "credentials") (lit "access"))))))).
(** The kubeconfig of an account. *)
Definition kubeconfig_pattern : re :=
  Cat (lit "/api/kubernetes-access/") (Cat (Cls id_char) (Cat (upto 63 (Cls id_char)) (lit "/kubeconfig"))).
Definition searchable : list string := ["/api/users"; "/api/kubernetes-access"; "/api/instance-principals"].
Definition allowedAdministrationRead (u : Url) (origin : string) : bool :=
  String.eqb (u_origin u) origin && negb (truthy (u_hash u)) &&
  (includes collections (u_pathname u) || rtest member_pattern (u_pathname u) || rtest kubeconfig_pattern (u_pathname u)) &&
  (negb (truthy (u_search u)) ||
   includes searchable (u_pathname u) &&
   forallb (includes (["search"; "first"; "max"] ++ if String.eqb (u_pathname u) "/api/instance-principals" then ["kind"] else [])) (dict_keys (u_searchParams u))).

(** The permits and whether a step before sending is set, of the administration's client; the
    identifier by name, of the accounts'. *)
Record IdentityState : Type := { is_permits : list Permit; is_beforeSend : bool; is_ids : dict string }.
Notation OI := (FM IdentityState).
Definition permitting (permits : list Permit) (beforeSend : bool) (s : IdentityState) : IdentityState :=
  {| is_permits := permits; is_beforeSend := beforeSend; is_ids := is_ids s |}.
Definition identified (name id : string) (s : IdentityState) : IdentityState :=
  {| is_permits := is_permits s; is_beforeSend := is_beforeSend s; is_ids := dict_set (is_ids s) name id |}.

(** The permit of the request, and the others. *)
Definition matching (method path : string) (body : json) (p : Permit) : bool :=
  String.eqb (pm_path p) path && String.eqb (pm_method p) method && bool_decide (stringify "" "" <$> pm_body p = Some (stringify "" "" body)).
Fixpoint take_permit (f : Permit -> bool) (l : list Permit) : option (list Permit) :=
  match l with
  | [] => None
  | p :: l => if f p then Some l else cons p <$> take_permit f l
  end.

Record IdentityClient : Type := { ic_origin : string; ic_timeoutMs : number; ic_prefix : string; ic_api : MagicStickApi }.

Section client.
Context {web : WebUrl}.
Section operations.
Context (client : IdentityClient).

Definition sent_body (input : FetchRequest) : res fence_exn json :=
  match data_of input with
  | None => Ok JNull
  | Some text => match JSON_parse text with Some v => Ok v | None => Err (Thrown (Foreign "SyntaxError")) end
  end.
(** A change spends its permit before the guard is asked. *)
Definition spend_permit (url : Url) (method : string) (body : json) : OI unit :=
  let! s := get in
  match take_permit (matching method (u_pathname url) body) (is_permits s) with
  | Some rest =>
      check (String.eqb (u_origin url) (ic_origin client) && bare_path url) MUTATION ;;
      modify (permitting rest (is_beforeSend s))
  | None => throw (raise MUTATION)
  end.
Definition administration_transport (input : FetchRequest) : OI Response :=
  let! url := of_res (new_URL (fr_url input)) in
  let method := toUpperCase (fr_method input) in
  let! headers :=
    (if String.eqb method "GET" then
       check (allowedAdministrationRead url (ic_origin client) && no_body input) MUTATION ;;
       mret (new_Headers (fr_headers input))
     else
       let! body := of_res (sent_body input) in
       spend_permit url method body ;;
       await F_guard ;;
       let! s := get in
       (if is_beforeSend s then await F_before_send else mret tt) ;;
       mret (headers_set (new_Headers (fr_headers input)) "Origin" (ic_origin client))) in
  let! response := context_fetch {| cx_url := u_href url; cx_method := method; cx_headers := header_entries headers; cx_data := data_of input; cx_timeout := ic_timeoutMs client |} in
  let! body := await F_body in
  check ((body.1 <? two_mebibytes) && json_type response) API ;;
  of_res (new_Response (an_status response) body.2).
Definition read_api (c : api_call) : OI json := call administration_transport (ic_api client) c.

Definition write_error (e : fence_exn) : fence_exn :=
  match e with Failed_request a => Rejected (ae_status a) | _ => harness_or API e end.
Definition write_permitted (permit : Permit) (beforeSend : bool) (c : api_call) : OI json :=
  let! s := get in
  check (length (is_permits s) =? 0)%nat MUTATION ;;
  modify (permitting (is_permits s ++ [permit]) beforeSend) ;;
  try_finally (try_catch (read_api c) (fun e => throw (write_error e))) (modify (permitting [] false)).

(** ** The accounts *)
Definition ownedLocalIdentity (user : dict json) : bool := same_text user "source" "local" && negb (flag_is user "local" false).
(** [(await api.users(name, 0, 25)).users] *)
Definition list_users (name : string) : OI (list json) :=
  let! payload := read_api (Access (users name (Int 0) (Int 25))) in
  match array_in (json_obj payload ?? []) "users" with Some items => mret items | None => throw type_error end.
(** [filter] and [some] of the users; reading a member of [null] is a TypeError. *)
Fixpoint filter_users (f : dict json -> bool) (items : list json) : OI (list (dict json)) :=
  match items with
  | [] => mret []
  | JNull :: _ => throw type_error
  | item :: items => let! found := filter_users f items in let user := json_obj item ?? [] in mret (if f user then user :: found else found)
  end.
Fixpoint some_user (f : dict json -> bool) (items : list json) : OI bool :=
  match items with
  | [] => mret false
  | JNull :: _ => throw type_error
  | item :: items => if f (json_obj item ?? []) then mret true else some_user f items
  end.
Definition named_user (name : string) (user : dict json) : bool := same_text user "username" name.

Definition send (method path : string) (body : json) (c : access_call) : OI json :=
  write_permitted {| pm_method := method; pm_path := path; pm_body := Some body |} false (Access c).

Definition username_pattern : re := Cat (Cls dns_char) (upto 62 (Cls dns_char)).
Definition account_body (username accessLevel password : string) : json :=
  JObj [("username", JStr username); ("firstName", JStr "Regression"); ("lastName", JStr "Disposable"); ("email", JStr (username +:+ "@example.invalid"));
        ("enabled", JBool true); ("accessLevel", JStr accessLevel); ("password", JStr password); ("temporary", JBool true)].
Definition refused_creation (e : fence_exn) : bool := match e with Rejected z => bool_decide (z ∈ [400; 403; 409; 422]) | _ => false end.
(** A definite refusal that left no account is recorded, and thrown on. *)
Definition creation_failed {A} (username : string) (e : fence_exn) : OI A :=
  (if refused_creation e then
     let! items := list_users username in
     let! found := some_user (named_user username) items in
     if found then mret tt else await (F_rejected username)
   else mret tt) ;;
  throw e.
Definition account_of (username : string) (user : dict json) : option string :=
  match text_field user "id" with Some id => if truthy id && named_user username user then Some id else None | None => None end.
Definition no_null (v : json) : OI (dict json) := match v with JNull => throw type_error | _ => mret (json_obj v ?? []) end.

Definition create_account (suffix accessLevel : string) : OI (dict json * string * string) :=
  let username := ic_prefix client +:+ suffix in
  check (startsWith (ic_prefix client) username && rtest username_pattern username) OWNERSHIP ;;
  let! items := list_users username in
  let! before := some_user (named_user username) items in
  check (negb before) OWNERSHIP ;;
  await (F_requested username) ;;
  let! initial := await_ F_random in
  let! second := await_ F_random in
  let body := account_body username accessLevel ("Reg1!" +:+ initial) in
  let! answer := try_catch (send "POST" "/api/users" body (createUser body)) (creation_failed username) in
  let! user := no_null answer in
  match account_of username user with
  | Some id =>
      modify (identified username id) ;;
      await (F_owned username id) ;;
      check (ownedLocalIdentity user && flag_is user "enabled" true && same_text user "accessLevel" accessLevel) API ;;
      mret (user, "Reg1!" +:+ initial, "Reg2!" +:+ second)
  | None => throw (raise OWNERSHIP)
  end.

(** An account as the caller holds it. *)
Record Account : Type := { ac_username : string; ac_id : string }.
Definition current_account (user : Account) : OI (dict json) :=
  let! s := get in
  check (bool_decide (dict_get (is_ids s) (ac_username user) = Some (ac_id user))) OWNERSHIP ;;
  let! items := list_users (ac_username user) in
  let! found := filter_users (named_user (ac_username user)) items in
  match found with
  | [item] => check (same_text item "id" (ac_id user)) OWNERSHIP ;; mret item
  | _ => throw (raise OWNERSHIP)
  end.
Definition user_path (id : string) : string := "/api/users/" +:+ id.
Definition profile_body (user : Account) : json :=
  JObj [("firstName", JStr "Updated"); ("lastName", JStr "Regression"); ("email", JStr (ac_username user +:+ "@example.invalid"))].
Definition update_profile (user : Account) : OI json :=
  let! _ := current_account user in send "PATCH" (user_path (ac_id user)) (profile_body user) (updateUser (ac_id user) (profile_body user)).
Definition set_enabled (user : Account) (enabled : bool) : OI json :=
  let! _ := current_account user in
  send "POST" (user_path (ac_id user) +:+ "/" +:+ if enabled then "enable" else "disable") (JObj []) (setUserEnabled (ac_id user) enabled).
Definition set_roles (user : Account) (accessLevel : string) : OI json :=
  let! _ := current_account user in
  send "PUT" (user_path (ac_id user) +:+ "/roles") (JObj [("accessLevel", JStr accessLevel)]) (updateUserRoles (ac_id user) accessLevel).
Definition reset_password (user : Account) : OI string :=
  let! _ := current_account user in
  let! third := await_ F_random in
  let password := "Reg3!" +:+ third in
  let! _ := send "PUT" (user_path (ac_id user) +:+ "/password") (JObj [("password", JStr password); ("temporary", JBool true)])
              (resetUserPassword (ac_id user) password true) in
  mret password.

(** ** The adapter of the cleanup *)
Definition uid_field (e : JournalEntry) (user : dict json) : bool := same_field (dict_get user "id") (JStr <$> je_uid e).
(** The UID found, if any. *)
Definition identity_lookup (e : JournalEntry) : OI (option (option json)) :=
  check (bool_decide (je_kind e = K_identity) && startsWith (ic_prefix client) (je_name e)) OWNERSHIP ;;
  let! items := list_users (je_name e) in
  let! found := filter_users (named_user (je_name e)) items in
  match found with
  | [] => mret None
  | [user] =>
      check (uid_field e user && ownedLocalIdentity user && negb (flag_is (object_in user "capabilities") "isProtected" true)) OWNERSHIP ;;
      mret (Some (dict_get user "id"))
  | _ => throw (raise OWNERSHIP)
  end.
Definition identity_removeIfUid (e : JournalEntry) (uid : string) : OI unit :=
  let! s := get in
  check (bool_decide (je_uid e = Some uid) && bool_decide (dict_get (is_ids s) (je_name e) = Some uid)) OWNERSHIP ;;
  let! _ := send "DELETE" (user_path uid) (JObj [("usernameConfirmation", JStr (je_name e))]) (deleteUser uid (je_name e)) in
  mret tt.
Definition identity_verifyRemoved (e : JournalEntry) : OI bool :=
  let! items := list_users (je_name e) in
  let! found := some_user (fun user => uid_field e user || named_user (je_name e) user) items in
  mret (negb found).
End operations.

(** ** The constructor: on resumption, the accounts the journal still owns *)
Definition resumed_ids (journal : list JournalEntry) : dict string :=
  foldl (fun ids e => if bool_decide (je_kind e = K_identity) && truthy (je_uid e ?? "") && bool_decide (je_state e ∈ [E_owned; E_blocked])
                      then dict_set ids (je_name e) (je_uid e ?? "") else ids) [] journal.
Definition new_OwnedIdentityClient (baseUrl : string) (timeoutMs : number) (prefix : string) (resume : bool) (journal : list JournalEntry) : IdentityClient * IdentityState :=
  ({| ic_origin := baseUrl; ic_timeoutMs := timeoutMs; ic_prefix := prefix; ic_api := new_MagicStickApi (Some baseUrl) false |},
   {| is_permits := []; is_beforeSend := false; is_ids := if resume then resumed_ids journal else [] |}).

(** ** A history: any operations in turn, whatever the ones before threw *)
Inductive identity_operation : Type :=
| Create_account (suffix accessLevel : string)
| Current_account (user : Account)
| Update_profile (user : Account)
| Set_enabled (user : Account) (enabled : bool)
| Set_roles (user : Account) (accessLevel : string)
| Reset_password (user : Account)
| Lookup_account (e : JournalEntry)
| Remove_account (e : JournalEntry) (uid : string)
| Verify_account (e : JournalEntry)
| Read_administration (c : api_call).
Definition identity_perform (client : IdentityClient) (o : identity_operation) : OI unit :=
  match o with
  | Create_account suffix accessLevel => discard (create_account client suffix accessLevel)
  | Current_account user => discard (current_account client user)
  | Update_profile user => discard (update_profile client user)
  | Set_enabled user enabled => discard (set_enabled client user enabled)
  | Set_roles user accessLevel => discard (set_roles client user accessLevel)
  | Reset_password user => discard (reset_password client user)
  | Lookup_account e => discard (identity_lookup client e)
  | Remove_account e uid => discard (identity_removeIfUid client e uid)
  | Verify_account e => discard (identity_verifyRemoved client e)
  | Read_administration c => discard (read_api client c)
  end.
Definition identity_history (client : IdentityClient) (operations : list identity_operation) : OI unit := for_each operations (identity_perform client).
End client.

(** ** Owned accounts: their properties (regression/core/administration-api.ts, owned-identity.ts) *)

Section props.
Context {web : WebUrl}.

(** ** The history of a client: whether the guard has just agreed, the name in the creation
    just sent, the names the journal recorded as requested, and the accounts that may be owned. *)
Record IdentityGhost : Type := { ig_armed : bool; ig_posted : option string; ig_requested : list string; ig_known : list (string * string) }.

Definition posted_username (r : ContextRequest) : option string :=
  if String.eqb (cx_method r) "POST" then base.mbind (fun v => text_field (json_obj v ?? []) "username") (base.mbind JSON_parse (cx_data r)) else None.
Definition account_in (name : option string) (value : option json) : list (string * string) :=
  match name, value with
  | Some n, Some v => match account_of n (json_obj v ?? []) with Some id => [(n, id)] | None => [] end
  | _, _ => []
  end.
Definition identity_upd X (g : IdentityGhost) (op : fenceE X) : X -> IdentityGhost :=
  match op in fenceE X return X -> IdentityGhost with
  | F_guard => fun x => {| ig_armed := is_ok x; ig_posted := None; ig_requested := ig_requested g; ig_known := ig_known g |}
  | F_fetch r => fun _ => {| ig_armed := false; ig_posted := posted_username r; ig_requested := ig_requested g; ig_known := ig_known g |}
  | F_body => fun x => {| ig_armed := false; ig_posted := None; ig_requested := ig_requested g;
      ig_known := ig_known g ++ match x with Ok b => account_in (ig_posted g) (JSON_parse b.2) | Err _ => [] end |}
  | F_requested name => fun x => {| ig_armed := false; ig_posted := None;
      ig_requested := ig_requested g ++ (if is_ok x then [name] else []); ig_known := ig_known g |}
  | _ => fun _ => {| ig_armed := false; ig_posted := None; ig_requested := ig_requested g; ig_known := ig_known g |}
  end.

(** The changes that may be permitted: the creation of a recorded account of the run, and the
    changes of an owned account. *)
Inductive own_change (prefix : string) (g : IdentityGhost) : string -> string -> json -> Prop :=
| change_create username accessLevel password :
    startsWith prefix username = true -> username ∈ ig_requested g ->
    own_change prefix g "POST" "/api/users" (account_body username accessLevel password)
| change_profile user : (ac_username user, ac_id user) ∈ ig_known g -> own_change prefix g "PATCH" (user_path (ac_id user)) (profile_body user)
| change_enabled name id enabled : (name, id) ∈ ig_known g ->
    own_change prefix g "POST" (user_path id +:+ "/" +:+ if enabled : bool then "enable" else "disable") (JObj [])
| change_roles name id accessLevel : (name, id) ∈ ig_known g ->
    own_change prefix g "PUT" (user_path id +:+ "/roles") (JObj [("accessLevel", JStr accessLevel)])
| change_password name id password : (name, id) ∈ ig_known g ->
    own_change prefix g "PUT" (user_path id +:+ "/password") (JObj [("password", JStr password); ("temporary", JBool true)])
| change_delete name id : (name, id) ∈ ig_known g ->
    own_change prefix g "DELETE" (user_path id) (JObj [("usernameConfirmation", JStr name)]).

Section client.
Context (client : IdentityClient).
Notation prefix := (ic_prefix client).

(** The requests of the client: the collections, or a change the guard agreed to, whose body
    has the text of an own change. *)
Definition identity_request (g : IdentityGhost) (r : ContextRequest) : Prop :=
  exists u, addresses r (ic_origin client) u /\
    (cx_method r = "GET" /\ allowedAdministrationRead u (ic_origin client) = true /\ cx_data r = None \/
     ig_armed g = true /\ u_search u = "" /\ u_hash u = "" /\
     exists body change, base.mbind JSON_parse (cx_data r) = Some body /\ stringify "" "" body = stringify "" "" change /\
       own_change prefix g (cx_method r) (u_pathname u) change).
(** Only the creation of an account of the run is recorded, and what is recorded as owned is known. *)
Definition identity_pre X (g : IdentityGhost) (op : fenceE X) : Prop :=
  match op with
  | F_fetch r => identity_request g r
  | F_guard | F_body | F_random => True
  | F_requested name | F_rejected name => startsWith prefix name = true
  | F_owned name id => startsWith prefix name = true /\ (name, id) ∈ ig_known g
  | F_before_send | F_observe _ => False
  end.
Definition identity_asm X (g : IdentityGhost) (op : fenceE X) (x : X) : Prop := True.
Notation wpi := (wpm identity_pre identity_asm identity_upd).

Record grows (g g' : IdentityGhost) : Prop := { grows_requested : ig_requested g ⊆ ig_requested g'; grows_known : ig_known g ⊆ ig_known g' }.
Lemma own_change_grows g g' m p b : grows g g' -> own_change prefix g m p b -> own_change prefix g' m p b.
Proof. intros [Hr Hk] [];  econstructor; eauto. Qed.

Definition permitted_change (g : IdentityGhost) (p : Permit) : Prop := exists b, pm_body p = Some b /\ own_change prefix g (pm_method p) (pm_path p) b.
Definition owned_accounts (g : IdentityGhost) (ids : dict string) : Prop := forall name id, dict_get ids name = Some id -> (name, id) ∈ ig_known g.
Record identity_inv (g : IdentityGhost) (s : IdentityState) : Prop := {
  inv_owned : owned_accounts g (is_ids s);
  inv_permits : Forall (permitted_change g) (is_permits s);
  inv_beforeSend : is_beforeSend s = false
}.

Lemma identity_inv_grows g g' s : grows g g' -> identity_inv g s -> identity_inv g' s.
Proof.
  intros Hg [Hi Hp Hb]. split; [|eapply Forall_impl; [exact Hp|]|done].
  - intros name id H. apply (grows_known _ _ Hg). by apply Hi.
  - intros p (b & H1 & H2). exists b. split; [done | by eapply own_change_grows].
Qed.
Lemma grows_refl g : grows g g. Proof. done. Qed.
Lemma upd_grows X g (op : fenceE X) x : grows g (identity_upd X g op x).
Proof. destruct op; split; cbn; set_solver. Qed.
Lemma grows_trans g g' g'' : grows g g' -> grows g' g'' -> grows g g''.
Proof. intros [] []. split; set_solver. Qed.

Lemma take_permit_spec f l rest : take_permit f l = Some rest -> exists p, p ∈ l /\ f p = true /\ rest ⊆ l.
Proof.
  revert rest. induction l as [|p l IH]; intros rest; cbn; [done|]. destruct (f p) eqn:E.
  - intros [= <-]. exists p. set_solver.
  - destruct (take_permit f l) as [r|]; [|done]. intros [= <-]. destruct (IH r eq_refl) as (q & ? & ? & ?). exists q. set_solver.
Qed.

Lemma own_change_obj g m p b : own_change prefix g m p b -> exists d, b = JObj d.
Proof. intros []; by eexists. Qed.
Lemma object_not_null d : stringify "" "" (JObj d) <> stringify "" "" JNull.
Proof. cbn [stringify]. by destruct (entries _). Qed.

Definition answered_account (input : FetchRequest) (g : IdentityGhost) (r : res fence_exn Response) : Prop :=
  match r with
  | Ok response => r_contentType response = Some "application/json" /\
      (toUpperCase (fr_method input) = "POST" ->
       account_in (base.mbind (fun v => text_field (json_obj v ?? []) "username") (base.mbind JSON_parse (data_of input))) (r_json response) ⊆ ig_known g)
  | Err _ => True
  end.

Lemma administration_wp input s g : identity_inv g s ->
  wpi (administration_transport client input) s g
    (fun g' s' r => grows g g' /\ is_ids s' = is_ids s /\ (is_permits s = [] -> s' = s) /\ identity_inv g' s' /\ answered_account input g' r).
Proof.
  intros Hinv. unfold administration_transport. apply wpm_bind, wpm_new_URL; [|done]. intros u Hu. cbv zeta.
  assert (Hsend : forall headers g' s', grows g g' -> is_ids s' = is_ids s -> (is_permits s = [] -> s' = s) -> identity_inv g' s' ->
    identity_request g' {| cx_url := u_href u; cx_method := toUpperCase (fr_method input); cx_headers := header_entries headers; cx_data := data_of input; cx_timeout := ic_timeoutMs client |} ->
    wpi (let! response := context_fetch {| cx_url := u_href u; cx_method := toUpperCase (fr_method input); cx_headers := header_entries headers;
           cx_data := data_of input; cx_timeout := ic_timeoutMs client |} in
         let! body := await F_body in check ((body.1 <? two_mebibytes) && json_type response) API ;; of_res (new_Response (an_status response) body.2))
      s' g' (fun g' s' r => grows g g' /\ is_ids s' = is_ids s /\ (is_permits s = [] -> s' = s) /\ identity_inv g' s' /\ answered_account input g' r)).
  { intros headers g' s' Hg Hids Hnil Hi Hr. apply wpm_bind, wpm_context_fetch; [done | intros a _ | intros e _].
    - apply wpm_bind, wpm_await; [done|]. intros x _.
      assert (Hgx : forall h x, grows g (identity_upd _ (identity_upd _ g' (F_fetch h) (Ok a)) F_body x))
        by (intros h y; eapply grows_trans; [exact Hg | eapply grows_trans; apply upd_grows]).
      assert (Hix : forall h x, identity_inv (identity_upd _ (identity_upd _ g' (F_fetch h) (Ok a)) F_body x) s')
        by (intros h y; eapply identity_inv_grows; [|exact Hi]; eapply grows_trans; apply upd_grows).
      destruct x as [[n text]|e]; [|by split_and!]. apply wpm_bind, wpm_check; intros _; [|by split_and!]. apply wpm_of_res. cbn [snd].
      destruct (new_Response (an_status a) text) as [response|e] eqn:Er; [|by split_and!]. split_and!; [done | done | done | done|].
      unfold new_Response in Er. destruct (_ || _); [done|]. case_bool_decide; [done|]. injection Er as <-. split; [done|].
      intros Hm. cbn. unfold posted_username. cbn. rewrite Hm, String.eqb_refl. set_solver.
    - split_and!; [by eapply grows_trans; [|apply upd_grows] | done | done | by eapply identity_inv_grows; [apply upd_grows|] | done]. }
  apply wpm_bind. destruct (String.eqb_spec (toUpperCase (fr_method input)) "GET") as [Hm|Hm].
  { apply wpm_bind, wpm_check; [intros [Ha Hn]%andb_true_iff | by intros _; split_and!]. apply wpm_ret, Hsend; [done..|].
    exists u. split.
    - split; [by eexists|]. split; [done|]. unfold allowedAdministrationRead in Ha. rewrite !andb_true_iff in Ha. destruct Ha as [[[Ha _] _] _]. by apply String.eqb_eq.
    - left. split_and!; [done | done |]. unfold data_of. cbn. by rewrite Hn. }
  assert (Hpost : forall body (Q : IdentityGhost -> IdentityState -> res fence_exn (dict string) -> Prop),
    base.mbind JSON_parse (data_of input) = Some body \/ body = JNull ->
    (forall h g' s', grows g g' -> is_ids s' = is_ids s -> (is_permits s = [] -> s' = s) -> identity_inv g' s' ->
       identity_request g' {| cx_url := u_href u; cx_method := toUpperCase (fr_method input); cx_headers := header_entries h; cx_data := data_of input; cx_timeout := ic_timeoutMs client |} ->
       Q g' s' (Ok h)) ->
    (forall g' s' e, grows g g' -> is_ids s' = is_ids s -> (is_permits s = [] -> s' = s) -> identity_inv g' s' -> Q g' s' (Err e)) ->
    wpi (spend_permit client u (toUpperCase (fr_method input)) body ;; await F_guard ;; let! s := get in
         (if is_beforeSend s then await F_before_send else mret tt) ;; mret (headers_set (new_Headers (fr_headers input)) "Origin" (ic_origin client))) s g Q).
  { intros body Q Hbody HQ HE. apply wpm_bind, wpm_bind, wpm_get. destruct (take_permit _ (is_permits s)) as [rest|] eqn:Et; [|by apply HE].
    apply take_permit_spec in Et as (p & Hp & Hmatch & Hrest). apply wpm_bind, wpm_check; [intros [Ho%String.eqb_eq Hb]%andb_true_iff | by intros _; apply HE].
    apply wpm_modify, wpm_bind.
    assert (Hnil : is_permits s = [] -> permitting rest (is_beforeSend s) s = s) by (intros E; rewrite E in Hp; by apply not_elem_of_nil in Hp).
    assert (Hinv' : identity_inv g (permitting rest (is_beforeSend s) s)).
    { destruct Hinv as [H1 H2 H3]. split; [done | | done]. apply Forall_forall. intros q Hq. rewrite Forall_forall in H2. apply H2. by apply Hrest. }
    apply wpm_await; [done|]. intros x _. destruct x as [[]|e]; [|apply HE; [apply upd_grows | done | exact Hnil | eapply identity_inv_grows; [apply upd_grows | done]]].
    apply wpm_bind, wpm_get, wpm_bind. rewrite (inv_beforeSend _ _ Hinv'). apply wpm_ret, wpm_ret, HQ;
      [apply upd_grows | done | exact Hnil | eapply identity_inv_grows; [apply upd_grows | done] |].
    exists u. split; [split; [by eexists | done]|]. right. apply bare_path_spec in Hb as [Hb1 Hb2]. split_and!; [done | done | done |].
    destruct Hinv as [_ H2 _]. rewrite Forall_forall in H2. destruct (H2 p Hp) as (b & Hpb & Hc).
    unfold matching in Hmatch. rewrite !andb_true_iff, Hpb in Hmatch. destruct Hmatch as [[Hpath%String.eqb_eq Hmeth%String.eqb_eq] Htext%bool_decide_eq_true].
    injection Htext as Htext. rewrite Hpath, Hmeth in Hc. destruct Hbody as [Hbody | ->].
    - exists body, b. split_and!; [done | done |]. eapply own_change_grows; [|exact Hc]. apply upd_grows.
    - exfalso. apply own_change_obj in Hc as [d ->]. by apply object_not_null in Htext. }
  apply wpm_bind, wpm_of_res. unfold sent_body. destruct (data_of input) as [t|] eqn:Ed.
  - destruct (JSON_parse t) as [v|] eqn:Ep; [|by split_and!]. apply Hpost; [left; exact Ep | exact Hsend | by intros; split_and!].
  - apply Hpost; [by right | exact Hsend | by intros; split_and!].
Qed.

(** ** The operations *)
Context (Hclient : api_hasToken (ic_api client) = false).

(** Between the operations there is no permit. *)
Record idle (g : IdentityGhost) (s : IdentityState) : Prop := { idle_inv : identity_inv g s; idle_permits : is_permits s = [] }.
Notation kept := (fun g s _ => idle g s).

Definition named_in (c : access_call) : option string :=
  base.mbind (fun v => text_field (json_obj v ?? []) "username") (base.mbind JSON_parse (data_of (call_request (ic_api client) (Access c)))).
Lemma read_api_wp c s g : identity_inv g s ->
  wpi (read_api client c) s g (fun g' s' r => grows g g' /\ is_ids s' = is_ids s /\ (is_permits s = [] -> s' = s) /\ identity_inv g' s' /\
    forall v c', r = Ok v -> c = Access c' -> toUpperCase (fr_method (call_request (ic_api client) c)) = "POST" -> account_in (named_in c') (Some v) ⊆ ig_known g').
Proof using Hclient.
  intros Hinv. apply wpm_call; [done|]. eapply wpm_mono; [|by apply administration_wp].
  intros g' s' r (Hg & Hids & Hnil & Hi & Hr). split_and!; [done..|]. intros v c' (response & -> & Hv)%responded_ok -> Hm.
  destruct Hr as (Hc & Hr). specialize (Hr Hm). unfold response_body in Hv. rewrite Hc in Hv. change (includesStr _ _) with true in Hv. cbn iota in Hv.
  unfold named_in. destruct (r_json response) as [w|]; cbn in Hv; subst v; [done|]. by destruct (base.mbind _ _).
Qed.

Lemma send_change_wp method path body c s g : idle g s -> own_change prefix g method path body ->
  wpi (send client method path body c) s g (fun g' s' r => grows g g' /\ is_ids s' = is_ids s /\ idle g' s' /\
    forall v, r = Ok v -> toUpperCase (fr_method (call_request (ic_api client) (Access c))) = "POST" -> account_in (named_in c) (Some v) ⊆ ig_known g').
Proof using Hclient.
  intros [Hi Hp] Hc. apply wpm_bind, wpm_get, wpm_bind, wpm_check; [|done]. intros _. apply wpm_bind, wpm_modify, wpm_finally, wpm_try.
  rewrite Hp. cbn [app]. eapply wpm_mono; [|apply read_api_wp].
  - intros g' s' r (Hg & Hids & _ & Hi' & Hr). assert (Hidle : idle g' (permitting [] false s')).
    { split; [|done]. destruct Hi' as [H1 H2 H3]. by split; [|constructor|]. }
    destruct r as [v|e]; apply wpm_modify; split_and!; try done. intros w [= <-] Hm. by apply (Hr v c).
  - destruct Hi as [H1 H2 H3]. split; [done | | done]. constructor; [by exists body | constructor].
Qed.

Lemma list_users_wp name s g : idle g s -> wpi (list_users client name) s g (fun g' s' _ => grows g g' /\ s' = s /\ idle g' s').
Proof using Hclient.
  intros [Hi Hp]. apply wpm_bind. eapply wpm_mono; [|by apply read_api_wp]. intros g' s' [v|e] (Hg & _ & Hs & Hi' & _); specialize (Hs Hp); subst s'; [|done].
  by destruct (array_in _ _).
Qed.
Lemma some_user_wp f items s g (Q : IdentityGhost -> IdentityState -> res fence_exn bool -> Prop) : (forall r, Q g s r) -> wpi (some_user f items) s g Q.
Proof. intros HQ. induction items as [|i items IH]; [apply HQ|]. destruct i; try apply HQ; cbn [some_user]; destruct (f _); (apply HQ || exact IH). Qed.
Lemma filter_users_wp f items s g (Q : IdentityGhost -> IdentityState -> res fence_exn (list (dict json)) -> Prop) :
  (forall r, Q g s r) -> wpi (filter_users f items) s g Q.
Proof.
  revert Q. induction items as [|i items IH]; intros Q HQ; [apply HQ|]. destruct i; try apply HQ; cbn [filter_users];
    apply wpm_bind, IH; intros [found|e]; apply HQ.
Qed.

Lemma created_username username level password : named_in (createUser (account_body username level password)) = Some username.
Proof using Hclient.
  unfold named_in. change (data_of _) with (Some (JsonProps.text (account_body username level password))). cbn [base.mbind option_bind].
  rewrite JSON_text_reads; [done|]. split; [|split; [by repeat constructor | by repeat split]].
  apply (bool_decide_unpack (NoDup ["username"; "firstName"; "lastName"; "email"; "enabled"; "accessLevel"; "password"; "temporary"])). vm_compute. exact I.
Qed.

Lemma identified_idle g s name id : idle g s -> (name, id) ∈ ig_known g -> idle g (identified name id s).
Proof.
  intros [[H1 H2 H3] Hp] Hk. split; [|done]. split; [|done|done]. intros name' id' H. cbn in H. destruct (decide (name = name')) as [<-|Hne].
  - rewrite dict_get_set in H. by injection H as <-.
  - rewrite dict_get_set_ne in H by done. by apply H1.
Qed.
Lemma upd_idle X g (op : fenceE X) x s : idle g s -> idle (identity_upd X g op x) s.
Proof. intros [Hi Hp]. split; [|done]. eapply identity_inv_grows; [apply upd_grows | done]. Qed.

Lemma creation_failed_wp {A} username e s g : idle g s -> startsWith prefix username = true -> wpi (creation_failed (A := A) client username e) s g (fun g' s' r => idle g' s' /\ is_ok r = false).
Proof using Hclient.
  intros Hi Hn. apply wpm_bind. destruct (refused_creation e); [|done]. apply wpm_bind. eapply wpm_mono; [|by apply list_users_wp].
  intros g' s' [items|x] (Hg & -> & Hi'); [|done]. apply wpm_bind, some_user_wp. intros [[]|x]; [done | | done].
  apply wpm_await; [done|]. intros [[]|x] _; (split; [by apply upd_idle | done]).
Qed.

Lemma create_account_wp suffix level s g : idle g s -> wpi (create_account client suffix level) s g kept.
Proof using Hclient.
  intros Hi. unfold create_account. set (username := prefix +:+ suffix). apply wpm_bind, wpm_check; [|done]. intros [Hn _]%andb_true_iff.
  apply wpm_bind. eapply wpm_mono; [|by apply list_users_wp]. intros g1 s1 [items|x] (Hg1 & -> & Hi1); [|done].
  apply wpm_bind, some_user_wp. intros [before|x]; [|done]. apply wpm_bind, wpm_check; [|done]. intros _.
  apply wpm_bind, wpm_await; [done|]. intros [[]|x] _; [|by apply upd_idle].
  assert (Hreq : username ∈ ig_requested (identity_upd _ g1 (F_requested username) (Ok tt))) by (cbn; set_solver).
  pose proof (upd_idle _ g1 (F_requested username) (Ok tt) s Hi1) as Hi2. revert Hreq Hi2.
  generalize (identity_upd _ g1 (F_requested username) (Ok tt)). intros g2 Hreq Hi2.
  apply wpm_bind, wpm_await_; [done|]. intros initial _. apply wpm_bind, wpm_await_; [done|]. intros second _. apply wpm_bind, wpm_try.
  eapply wpm_mono; [|apply send_change_wp; [by do 2 apply upd_idle | by constructor]].
  intros g3 s3 [answer|e] (Hg3 & Hids & Hi3 & Hans); [|eapply wpm_mono; [|by apply creation_failed_wp]; by intros g4 s4 [a|x] [Hi4 Hok]].
  specialize (Hans answer eq_refl eq_refl). rewrite created_username in Hans. apply wpm_bind.
  assert (Hrest : wpi (match account_of username (json_obj answer ?? []) with
    | Some id => modify (identified username id) ;; await (F_owned username id) ;;
        check (ownedLocalIdentity (json_obj answer ?? []) && flag_is (json_obj answer ?? []) "enabled" true && same_text (json_obj answer ?? []) "accessLevel" level) API ;;
        mret (json_obj answer ?? [], "Reg1!" +:+ initial, "Reg2!" +:+ second)
    | None => throw (raise OWNERSHIP) end) s3 g3 kept).
  { cbn [account_in] in Hans. destruct (account_of _ _) as [id|]; [|done].
    assert (Hk : (username, id) ∈ ig_known g3) by set_solver. apply wpm_bind, wpm_modify, wpm_bind, wpm_await; [done|].
    intros [[]|x] _; [|by apply upd_idle, identified_idle]. apply wpm_bind, wpm_check; intros _; by apply upd_idle, identified_idle. }
  destruct answer; exact Hrest || done.
Qed.

Lemma current_account_wp user s g : idle g s ->
  wpi (current_account client user) s g (fun g' s' r => idle g' s' /\ (is_ok r = true -> (ac_username user, ac_id user) ∈ ig_known g')).
Proof using Hclient.
  intros Hi. apply wpm_bind, wpm_get, wpm_bind, wpm_check; [|done]. intros Hid%bool_decide_eq_true. apply wpm_bind.
  eapply wpm_mono; [|by apply list_users_wp]. intros g' s' [items|x] (Hg & -> & Hi'); [|done].
  assert (Hk : (ac_username user, ac_id user) ∈ ig_known g') by (apply (inv_owned _ _ (idle_inv _ _ Hi')), Hid).
  apply wpm_bind, filter_users_wp. intros [[|item [|]]|x]; try done. apply wpm_bind, wpm_check; done.
Qed.
(** A change of an owned account. *)
Lemma change_account_wp {A} user (m : OI A) s g : idle g s ->
  (forall g' s', idle g' s' -> (ac_username user, ac_id user) ∈ ig_known g' -> wpi m s' g' kept) ->
  wpi (let! _ := current_account client user in m) s g kept.
Proof using Hclient.
  intros Hi Hm. apply wpm_bind. eapply wpm_mono; [|by apply current_account_wp]. intros g' s' [item|x] [Hi' Hk]; [|done]. by apply Hm; [|apply Hk].
Qed.
Lemma sent_wp method path body c s g : idle g s -> own_change prefix g method path body -> wpi (send client method path body c) s g kept.
Proof using Hclient. intros Hi Hc. eapply wpm_mono; [|by apply send_change_wp]. by intros g' s' r (_ & _ & Hi' & _). Qed.

Lemma identity_lookup_wp e s g : idle g s -> wpi (identity_lookup client e) s g kept.
Proof using Hclient.
  intros Hi. apply wpm_bind, wpm_check; [|done]. intros _. apply wpm_bind. eapply wpm_mono; [|by apply list_users_wp].
  intros g' s' [items|x] (_ & -> & Hi'); [|done]. apply wpm_bind, filter_users_wp. intros [[|item [|]]|x]; try done. apply wpm_bind, wpm_check; done.
Qed.
Lemma identity_removeIfUid_wp e uid s g : idle g s -> wpi (identity_removeIfUid client e uid) s g kept.
Proof using Hclient.
  intros Hi. apply wpm_bind, wpm_get, wpm_bind, wpm_check; [|done]. intros [_ Hid%bool_decide_eq_true]%andb_true_iff.
  apply wpm_bind. eapply wpm_mono; [|apply sent_wp; [done|]].
  - by intros g' s' [v|x] Hi'.
  - apply change_delete. by apply (inv_owned _ _ (idle_inv _ _ Hi)).
Qed.
Lemma identity_verifyRemoved_wp e s g : idle g s -> wpi (identity_verifyRemoved client e) s g kept.
Proof using Hclient.
  intros Hi. apply wpm_bind. eapply wpm_mono; [|by apply list_users_wp]. intros g' s' [items|x] (_ & -> & Hi'); [|done].
  apply wpm_bind, some_user_wp. by intros [found|x].
Qed.

Lemma identity_perform_wp o s g : idle g s -> wpi (identity_perform client o) s g (fun g' s' r => r = Ok tt /\ idle g' s').
Proof using Hclient.
  intros Hi. destruct o; cbn [identity_perform]; apply discard_wp.
  - by apply create_account_wp.
  - eapply wpm_mono; [|by apply current_account_wp]. by intros g' s' r [Hi' _].
  - apply change_account_wp; [done|]. intros g' s' Hi' Hk. apply sent_wp; [done | by constructor].
  - apply change_account_wp; [done|]. intros g' s' Hi' Hk. apply sent_wp; [done | by econstructor].
  - apply change_account_wp; [done|]. intros g' s' Hi' Hk. apply sent_wp; [done | by econstructor].
  - apply change_account_wp; [done|]. intros g' s' Hi' Hk. apply wpm_bind, wpm_await_; [done|]. intros third _. apply wpm_bind.
    eapply wpm_mono; [|apply sent_wp; [by apply upd_idle | by econstructor]]. by intros g'' s'' [v|x] Hi''.
  - by apply identity_lookup_wp.
  - by apply identity_removeIfUid_wp.
  - by apply identity_verifyRemoved_wp.
  - destruct Hi as [Hi Hp]. eapply wpm_mono; [|by apply read_api_wp]. intros g' s' r (_ & _ & Hs & Hi' & _). specialize (Hs Hp). by subst s'.
Qed.
End client.

(** ** The history of a client *)
Definition identity_ghost (resume : bool) (journal : list JournalEntry) : IdentityGhost :=
  {| ig_armed := false; ig_posted := None; ig_requested := [];
     ig_known := if resume then map (fun e => (je_name e, je_uid e ?? ""))
       (List.filter (fun e => bool_decide (je_kind e = K_identity) && truthy (je_uid e ?? "") && bool_decide (je_state e ∈ [E_owned; E_blocked])) journal) else [] |}.

Lemma identity_admissible g tr : admissible identity_asm identity_upd g tr.
Proof. revert g. induction tr as [|[X op x] tr IH]; intros g; by repeat split. Qed.

Lemma resumed_known journal name id : dict_get (resumed_ids journal) name = Some id -> (name, id) ∈ ig_known (identity_ghost true journal).
Proof.
  unfold resumed_ids, identity_ghost. cbn [ig_known].
  set (f := fun e : JournalEntry => bool_decide (je_kind e = K_identity) && truthy (je_uid e ?? "") && bool_decide (je_state e ∈ [E_owned; E_blocked])).
  set (known l := map (fun e => (je_name e, je_uid e ?? "")) (List.filter f l)).
  assert (H : forall l ids, (forall n i, dict_get ids n = Some i -> (n, i) ∈ known journal) -> l ⊆ journal ->
    dict_get (foldl (fun ids e => if f e then dict_set ids (je_name e) (je_uid e ?? "") else ids) ids l) name = Some id -> (name, id) ∈ known journal).
  { induction l as [|e l IH]; intros ids Hids Hl; cbn; [apply Hids|]. apply IH; [|set_solver]. destruct (f e) eqn:Ef; [|done].
    intros n i Hn. destruct (decide (je_name e = n)) as [<-|Hne]; [|rewrite dict_get_set_ne in Hn by done; by apply Hids].
    rewrite dict_get_set in Hn. injection Hn as <-. unfold known. apply list_elem_of_In, in_map_iff. exists e. split; [done|].
    apply filter_In. split; [|done]. apply list_elem_of_In. set_solver. }
  by apply H.
Qed.

(** C19: a client of the administration changes only accounts of the run. In every history of its
    operations and whatever the product answers, each request is one of the listed reads
    without a body, or was agreed to by the guard immediately before it and is the creation
    of an account whose name has the run's prefix and was recorded in the journal before, or
    a change or the deletion of exactly an owned account, the deletion confirmed by its
    name. An account is owned when the answer to its creation gave the identifier to this
    name, or on resumption by the journal's record; only names with the prefix are recorded
    and only owned accounts recorded as owned. *)
Theorem accounts_fenced baseUrl timeout prefix resume journal operations tr q :
  let '(client, s) := new_OwnedIdentityClient baseUrl timeout prefix resume journal in
  steps (identity_history client operations s) tr q ->
  respects (identity_pre client) identity_upd (identity_ghost resume journal) tr.
Proof.
  cbn. set (client := {| ic_origin := baseUrl |}). intros Hs. eapply wp_steps; [|exact Hs | apply identity_admissible].
  apply (wpm_for_each _ _ _ _ _ (fun _ g s => idle client g s) _ _ (fun _ _ _ => True)); [| |done].
  - intros o l g s Hi. eapply wpm_mono; [|by apply (identity_perform_wp client)]. by intros g' s' r [-> Hi'].
  - split; [|done]. split; [|constructor|done]. intros name id H. cbn in H. destruct resume; [|done]. by apply resumed_known.
Qed.
End props.

(** ** An example: an account is created and disabled. *)
Section example.
#[local] Existing Instance sample_url.

Definition sample_account : Account := {| ac_username := "reg-0123-u"; ac_id := "id-1" |}.
(** One text answers the list and the creation: no account is listed. *)
Definition account_answer : string := stringify "" ""
  (JObj [("users", JArr []); ("id", JStr "id-1"); ("username", JStr "reg-0123-u"); ("source", JStr "local"); ("enabled", JBool true); ("accessLevel", JStr "viewer")]).
Definition identity_operations : list identity_operation :=
  [Create_account "u" "viewer";
   Remove_account {| je_kind := K_identity; je_name := "reg-0123-u"; je_uid := Some "id-1"; je_state := E_owned; je_generation := None; je_cleanupFailure := None |} "id-1"].
Definition identity_client : IdentityClient :=
  {| ic_origin := "https://magicstick.local"; ic_timeoutMs := Int 5000; ic_prefix := "reg-0123-"; ic_api := new_MagicStickApi (Some "https://magicstick.local") false |}.
Definition identity_example : prog fenceE (IdentityState * res fence_exn unit) :=
  identity_history identity_client identity_operations {| is_permits := []; is_beforeSend := false; is_ids := [] |}.

Lemma accounts_fenced_witness :
  respects (identity_pre identity_client) identity_upd (identity_ghost false []) (trace (serving account_answer) identity_example tt) /\
  map (fun r => (cx_method r, cx_url r)) (all_sent (trace (serving account_answer) identity_example tt)) =
    [("GET", "https://magicstick.local/api/users?search=reg-0123-u&first=0&max=25"); ("POST", "https://magicstick.local/api/users");
     ("DELETE", "https://magicstick.local/api/users/id-1")].
Proof.
  split; [|vm_compute; reflexivity].
  exact (accounts_fenced "https://magicstick.local" (Int 5000) "reg-0123-" false [] identity_operations
           (trace (serving account_answer) identity_example tt) (Done (exec (serving account_answer) identity_example tt).1)
           (exec_steps (serving account_answer) identity_example tt)).
Defined.
End example.
