(* ===== verification/BorrowedSharing.v ===== *)
(** * Borrowing the GPU sharing setting (regression/core/borrowed-sharing.ts)

    A run that changes how a GPU is shared must put the original setting back. Each provider
    borrowed is an entry of a private file: the specification found, the last one this run
    owns, its generation and whether a write is under way. The API that applies a request,
    the lease check, the file and the clock are operations; [canonical] is of [Canonical]. *)

From S2P Require Import Prelude Js Number Json Prog Errors Contracts DashboardCore Canonical Poll Journal.

Local Open Scope string_scope.
Local Open Scope js_scope.
Local Open Scope Z_scope.

(** ** Data *)
Definition Provider : Type := GpuSharingState_provider_t.
Definition Mode : Type := GpuSharingState_mode_t.
Definition Backend : Type := GpuSharingRequest_allocationBackend_t.
Notation amd := GpuSharingState_provider_t_amd.
Notation nvidia := GpuSharingState_provider_t_nvidia.
Notation exclusive := GpuSharingState_mode_t_exclusive.
Notation shared := GpuSharingState_mode_t_shared.
Notation device_plugin := GpuSharingRequest_allocationBackend_t_device_plugin.
Notation dra := GpuSharingRequest_allocationBackend_t_dra.

Definition request_provider (p : Provider) : GpuSharingRequest_provider_t :=
  match p with amd => GpuSharingRequest_provider_t_amd | nvidia => GpuSharingRequest_provider_t_nvidia end.
Definition request_mode (m : Mode) : GpuSharingRequest_mode_t :=
  match m with exclusive => GpuSharingRequest_mode_t_exclusive | shared => GpuSharingRequest_mode_t_shared end.

(** A [KubeObject], as far as this component reads it. *)
Record SharedObject : Type := {
  so_uid : option string;
  so_generation : option number;
  so_resourceVersion : option string;
  so_spec : option (dict json)
}.
Record SharingSnapshot : Type := { ss_object : SharedObject; ss_state : GpuSharingState }.

Inductive EntryStatus : Type := B_borrowed | B_pending | B_restored.
#[export] Instance EntryStatus_eq_dec : EqDecision EntryStatus.
Proof. solve_decision. Defined.

Record BorrowedEntry : Type := {
  be_provider : Provider;
  be_uid : string;
  be_originalSpec : dict json;
  be_originalMode : Mode;
  be_originalCount : number;
  be_originalBackend : option Backend;
  be_originalDefaults : option GpuSharingDefaults;
  be_generation : number;
  be_lastSpec : dict json;
  be_state : EntryStatus
}.

Record SharingIdentity : Type := { id_runId : string; id_targetUid : string; id_nodeName : string; id_nodeUid : string }.
Record SharingData : Type := { sd_identity : SharingIdentity; sd_entries : list BorrowedEntry }.

(** [SharingWriteRejected], or any other error. *)
Inductive sharing_exn : Type :=
| WriteRejected (httpStatus : number)
| Thrown (e : exn).
(** The code of the rejection as a [HarnessError]. *)
Definition rejected_code (httpStatus : number) : ReasonCode := if bool_decide (httpStatus = Int 409) then CONFLICT else API.

Inductive sharingE : Type -> Type :=
| S_write (d : SharingData) (create_only : bool) : sharingE (res sharing_exn unit)
| S_load : sharingE (res sharing_exn json)
| S_held : sharingE (res sharing_exn unit)
| S_read (p : Provider) : sharingE (res sharing_exn SharingSnapshot)
| S_apply (r : GpuSharingRequest) : sharingE (res sharing_exn unit)
| S_stage (s : Stage) : sharingE unit
| S_now : sharingE Z
| S_timer : sharingE bool
| S_wait (us : Z) : sharingE (res sharing_exn unit).

Definition SM := M sharingE SharingData sharing_exn.

Definition require (condition : bool) (code : ReasonCode) : SM unit :=
  if condition then mret tt else throw (Thrown (harness code)).

(** ** Specifications *)

(** [{...value}] *)
Definition spread_json (v : option json) : dict json :=
  match v with
  | Some (JObj d) => d
  | Some (JArr l) => imap (fun i x => (String_of_Z (Z.of_nat i), x)) l
  | Some (JStr s) => imap (fun i c => (String_of_Z (Z.of_nat i), JStr (String c ""))) (String.list_ascii_of_string s)
  | _ => []
  end.

(** The parameters when they are an object or missing. *)
Definition parameter_map (spec : dict json) : option (dict json) :=
  match dict_get spec "parameters" with
  | None => Some []
  | Some (JObj d) => Some d
  | Some _ => None
  end.

(** Missing or the empty string. *)
Definition unset (values : dict json) (key : string) : bool :=
  match dict_get values key with None | Some (JStr "") => true | Some _ => false end.

Definition defaultFields (spec : dict json) (provider : Provider) : option GpuSharingDefaults :=
  values ← parameter_map spec;
  if unset values "gpuSharing" && unset values "validationRequest" then
    Some (mk_GpuSharingDefaults
      (if dict_get spec "parameters" then GpuSharingDefaults_parameters_t_present else GpuSharingDefaults_parameters_t_absent)
      (if dict_get values "gpuSharing" then GpuSharingDefaults_gpuSharing_t_empty else GpuSharingDefaults_gpuSharing_t_absent)
      (match provider with
       | amd => Some (if dict_get values "validationRequest" then GpuSharingDefaults_validationRequest_t_empty
                      else GpuSharingDefaults_validationRequest_t_absent)
       | nvidia => None
       end))
  else None.

(** [a < b ? -1 : a > b ? 1 : 0] *)
Definition code_unit_order (a b : string) : Z := match String.compare a b with Lt => -1 | Gt => 1 | Eq => 0 end.

Definition sharing_config (request : GpuSharingRequest) : dict json :=
  let is_amd := bool_decide (GpuSharingRequest_provider request = GpuSharingRequest_provider_t_amd) in
  let is_shared := bool_decide (GpuSharingRequest_mode request = GpuSharingRequest_mode_t_shared) in
  let wants_dra := bool_decide (GpuSharingRequest_allocationBackend request = Some dra) in
  ([("allowExperimental", JBool (is_amd && is_shared));
   ("maxModels", JNum (GpuSharingRequest_maxModels request));
   ("mode", JStr (if negb is_shared then "exclusive" else if is_amd || wants_dra then "dra-shared" else "time-slicing"));
   ("namespace", JStr "ai"); ("nodeName", JStr (GpuSharingRequest_nodeName request));
   ("nodeUid", JStr (GpuSharingRequest_nodeUid request))]
  ++ (if negb is_amd && wants_dra then [("allocationBackend", JStr "dra")] else []))%list.

Definition gpuSharing_text (request : GpuSharingRequest) : string :=
  "{" +:+ join ", " (map (fun kv => quote kv.1 +:+ ": " +:+ stringify "" "" kv.2)
                       (sort_by (fun a b => code_unit_order a.1 b.1) (entries (sharing_config request)))) +:+ "}".

(** An empty string, or no property. *)
Definition reset_field (empty : bool) (key : string) (parameters : dict json) : dict json :=
  if empty then dict_set parameters key (JStr "") else dict_delete parameters key.

Definition sharingSpec (spec : dict json) (request : GpuSharingRequest) : res exn (dict json) :=
  let parameters := spread_json (dict_get spec "parameters") in
  let is_amd := bool_decide (GpuSharingRequest_provider request = GpuSharingRequest_provider_t_amd) in
  match GpuSharingRequest_restoreDefaults request with
  | Some defaults =>
      let parameters := reset_field (bool_decide (GpuSharingDefaults_gpuSharing defaults = GpuSharingDefaults_gpuSharing_t_empty))
                          "gpuSharing" parameters in
      let parameters := if is_amd then
          reset_field (bool_decide (GpuSharingDefaults_validationRequest defaults = Some GpuSharingDefaults_validationRequest_t_empty))
            "validationRequest" parameters
        else parameters in
      if bool_decide (GpuSharingDefaults_parameters defaults = GpuSharingDefaults_parameters_t_absent) then
        let? _ := requireSafe (bool_decide (parameters = [])) CONFLICT in Ok (dict_delete spec "parameters")
      else Ok (dict_set spec "parameters" (JObj parameters))
  | None =>
      let parameters := dict_set parameters "gpuSharing" (JStr (gpuSharing_text request)) in
      let parameters := if is_amd then dict_set parameters "validationRequest" (JStr "") else parameters in
      Ok (dict_set spec "parameters" (JObj parameters))
  end.

(** ** The object *)
Section sharing.
Context `{Collation}.

Definition entry_with (generation : number) (lastSpec : dict json) (state : EntryStatus) (e : BorrowedEntry) : BorrowedEntry :=
  {| be_provider := be_provider e; be_uid := be_uid e; be_originalSpec := be_originalSpec e; be_originalMode := be_originalMode e;
     be_originalCount := be_originalCount e; be_originalBackend := be_originalBackend e; be_originalDefaults := be_originalDefaults e;
     be_generation := generation; be_lastSpec := lastSpec; be_state := state |}.
Definition entry_state (state : EntryStatus) (e : BorrowedEntry) : BorrowedEntry := entry_with (be_generation e) (be_lastSpec e) state e.

(** [entry] is the [i]-th object of the list. *)
Definition set_entry (i : nat) (f : BorrowedEntry -> BorrowedEntry) (d : SharingData) : SharingData :=
  {| sd_identity := sd_identity d; sd_entries := alter f i (sd_entries d) |}.

Definition persist : SM unit := let! d := get in await (S_write d false).

Definition same_spec (a b : dict json) : bool := String.eqb (canonical (JObj a)) (canonical (JObj b)).
(** [canonical(current.spec) === canonical(expected)], where the former may be undefined. *)
Definition spec_is (o : SharedObject) (expected : dict json) : bool :=
  match so_spec o with Some s => same_spec s expected | None => false end.

(** The object is the one this run last wrote or found. *)
Definition is_owned (e : BorrowedEntry) (o : SharedObject) : bool :=
  bool_decide (so_uid o = Some (be_uid e)) && bool_decide (so_generation o = Some (be_generation e)) && spec_is o (be_lastSpec e).

Definition managed_spec (spec : dict json) : bool :=
  match dict_get spec "parameters" with
  | Some (JObj d) => match dict_get d "gpuSharing" with Some v => json_truthy v | None => false end
  | _ => false
  end.

(** The state reported is of this node, and of the object read with it. *)
Definition is_here (id : SharingIdentity) (provider : Provider) (value : SharingSnapshot) : bool :=
  bool_decide (GpuSharingState_provider (ss_state value) = provider) &&
  String.eqb (GpuSharingState_nodeName (ss_state value)) (id_nodeName id) &&
  String.eqb (GpuSharingState_nodeUid (ss_state value)) (id_nodeUid id) &&
  bool_decide (so_resourceVersion (ss_object value) = Some (GpuSharingState_expectedRevision (ss_state value))).

Definition current (e : BorrowedEntry) : SM SharingSnapshot :=
  await S_held ;;
  let! value := await (S_read (be_provider e)) in
  require (is_owned e (ss_object value)) CONFLICT ;;
  let! d := get in
  require (is_here (sd_identity d) (be_provider e) value &&
           Bool.eqb (GpuSharingState_managed (ss_state value)) (managed_spec (be_lastSpec e))) IDENTITY ;;
  mret value.

Definition state_backend (s : GpuSharingState) : Backend :=
  match GpuSharingState_backend s with GpuSharingState_backend_t_dra => dra | GpuSharingState_backend_t_time_slicing => device_plugin end.

Definition request (id : SharingIdentity) (state : GpuSharingState) (mode : Mode) (maxModels : number) : GpuSharingRequest :=
  mk_GpuSharingRequest (request_provider (GpuSharingState_provider state)) (request_mode mode) maxModels (id_nodeName id) (id_nodeUid id)
    (GpuSharingState_expectedRevision state) (bool_decide (mode = shared)) true
    (match GpuSharingState_provider state with nvidia => Some (state_backend state) | amd => None end) None.

Definition with_backend (b : Backend) (r : GpuSharingRequest) : GpuSharingRequest :=
  mk_GpuSharingRequest (GpuSharingRequest_provider r) (GpuSharingRequest_mode r) (GpuSharingRequest_maxModels r)
    (GpuSharingRequest_nodeName r) (GpuSharingRequest_nodeUid r) (GpuSharingRequest_expectedRevision r)
    (GpuSharingRequest_acknowledgeSharing r) (GpuSharingRequest_acknowledgeRestart r) (Some b) (GpuSharingRequest_restoreDefaults r).
Definition with_defaults (defaults : GpuSharingDefaults) (r : GpuSharingRequest) : GpuSharingRequest :=
  mk_GpuSharingRequest (GpuSharingRequest_provider r) (GpuSharingRequest_mode r) (GpuSharingRequest_maxModels r)
    (GpuSharingRequest_nodeName r) (GpuSharingRequest_nodeUid r) (GpuSharingRequest_expectedRevision r)
    (GpuSharingRequest_acknowledgeSharing r) (GpuSharingRequest_acknowledgeRestart r) (GpuSharingRequest_allocationBackend r) (Some defaults).

Definition valid_count (n : number) : bool := isSafeInteger n && num_leb (Int 2) n && num_leb n (Int 16).

(** The first entry of the provider. *)
Definition position (provider : Provider) (d : SharingData) : option nat :=
  fst <$> list_find (fun e => be_provider e = provider) (sd_entries d).

(** ** create, borrow *)
Definition run_id_char (c : ascii) : bool := is_digit c || in_range "a" "f" c || Ascii.eqb c "-".
Definition valid_run_id (s : string) : bool :=
  startsWith "reg-" s && (String.length s =? 40)%nat && sforall run_id_char (drop_str 4 s).

Definition create (identity : SharingIdentity) : SM unit :=
  require (valid_run_id (id_runId identity) && truthy (id_nodeUid identity)) CONFIG ;;
  let d := {| sd_identity := identity; sd_entries := [] |} in
  await (S_write d true) ;;
  modify (fun _ => d).

(** The setting found is ready, here and within limits. *)
Definition borrowable (id : SharingIdentity) (provider : Provider) (value : SharingSnapshot) : bool :=
  let s := ss_state value in
  is_here id provider value && GpuSharingState_available s && String.eqb (GpuSharingState_phase s) "Ready" &&
  truthy (so_uid (ss_object value) ?? "") && match so_generation (ss_object value) with Some g => json_truthy (JNum g) | None => false end &&
  valid_count (GpuSharingState_maxModels s) &&
  match so_spec (ss_object value) ≫= fun d => dict_get d "parameters" with
  | Some (JObj d) => match dict_get d "validationRequest" with Some v => negb (json_truthy v) | None => true end
  | _ => true
  end.

Definition type_error : exn := Foreign "TypeError".

Definition borrow (provider : Provider) : SM unit :=
  let! d := get in
  require (negb (bool_decide (is_Some (position provider d)))) OWNERSHIP ;;
  await S_held ;;
  let! value := await (S_read provider) in
  let o := ss_object value in
  let s := ss_state value in
  require (borrowable (sd_identity d) provider value) CAPABILITY ;;
  match so_spec o with
  | None => throw (Thrown type_error)
  | Some spec =>
      let defaults := if GpuSharingState_managed s then None else defaultFields spec provider in
      (if GpuSharingState_managed s then
         match sharingSpec spec (request (sd_identity d) s (GpuSharingState_mode s) (GpuSharingState_maxModels s)) with
         | Ok expected => require (same_spec expected spec) CAPABILITY
         | Err e => throw (Thrown e)
         end
       else require (bool_decide (is_Some defaults) && bool_decide (GpuSharingState_mode s = exclusive) &&
                     (negb (bool_decide (provider = nvidia)) || bool_decide (GpuSharingState_backend s = GpuSharingState_backend_t_time_slicing)))
              CAPABILITY) ;;
      modify (fun d => {| sd_identity := sd_identity d; sd_entries := (sd_entries d ++
        [{| be_provider := provider; be_uid := so_uid o ?? ""; be_originalSpec := spec; be_originalMode := GpuSharingState_mode s;
            be_originalCount := GpuSharingState_maxModels s;
            be_originalBackend := Some (if bool_decide (provider = nvidia) then state_backend s else device_plugin);
            be_originalDefaults := defaults; be_generation := so_generation o ?? Int 0; be_lastSpec := spec; be_state := B_borrowed |}])%list |}) ;;
      persist
  end.

(** ** change *)
Definition write (i : nat) (e : BorrowedEntry) (r : GpuSharingRequest) : SM unit :=
  match sharingSpec (be_lastSpec e) r with
  | Err err => throw (Thrown err)
  | Ok expected =>
      if same_spec expected (be_lastSpec e) then mret tt
      else
        modify (set_entry i (entry_state B_pending)) ;; persist ;; await S_held ;;
        try_catch (await (S_apply r)) (fun err =>
          match err with
          | WriteRejected _ => let! _ := current e in modify (set_entry i (entry_state B_borrowed)) ;; persist
          | Thrown _ => mret tt
          end ;;
          throw err) ;;
        let! after := await (S_read (be_provider e)) in
        let o := ss_object after in
        require (bool_decide (so_uid o = Some (be_uid e)) && bool_decide (so_generation o = Some (num_add (be_generation e) (Int 1))) &&
                 spec_is o expected) CONFLICT ;;
        modify (set_entry i (entry_with (num_add (be_generation e) (Int 1)) expected B_borrowed)) ;;
        persist
  end.

Definition change (provider : Provider) (mode : Mode) (maxModels : number) (backend : option Backend) : SM unit :=
  require (valid_count maxModels) CONFIG ;;
  let! d := get in
  match (i ← position provider d; e ← sd_entries d !! i; Some (i, e))%stdpp with
  | Some (i, e) =>
      require (bool_decide (be_state e = B_borrowed)) OWNERSHIP ;;
      let! value := current e in
      let r := request (sd_identity d) (ss_state value) mode maxModels in
      write i e (match provider, backend with nvidia, Some b => with_backend b r | _, _ => r end)
  | None => require false OWNERSHIP
  end.

(** ** restore *)
Definition retriable (err : sharing_exn) : bool :=
  match err with WriteRejected status => bool_decide (status = Int 409) | Thrown _ => false end.

(** [for (attempt = 0; attempt < 3; attempt++) try { action; break } catch ...]: [again] more
    attempts may follow this one. *)
Fixpoint attempts (again : nat) (action : SM unit) : SM unit :=
  match again with
  | O => action
  | Datatypes.S again => try_catch action (fun err => if retriable err then attempts again action else throw err)
  end.

Definition note (s : Stage) : SM unit := await_ (S_stage s).

Definition backend_ready (e : BorrowedEntry) (value : SharingSnapshot) : bool :=
  let s := ss_state value in
  String.eqb (GpuSharingState_phase s) "Ready" && bool_decide (GpuSharingState_mode s = exclusive) &&
  (negb (bool_decide (be_provider e = nvidia)) || bool_decide (GpuSharingState_backend s = GpuSharingState_backend_t_time_slicing)).

Definition poll_current (e : BorrowedEntry) : SM (option SharingSnapshot) :=
  poll Thrown (await_ S_now) (await_ S_timer) (mret tt) (fun us => await (S_wait us)) (current e) (backend_ready e)
    (Some S_gpu_backend) 600000 (Some 1000).

(** The [i]-th entry, which exists: entries are never removed. *)
Definition entry_at (i : nat) (f : BorrowedEntry -> SM unit) : SM unit :=
  let! d := get in
  match sd_entries d !! i with Some e => f e | None => mret tt end.

(** Remove the intent, once the controller has finished the exclusive transition. *)
Definition restore_defaults (i : nat) (defaults : GpuSharingDefaults) : SM unit :=
  entry_at i (fun e =>
    note S_gpu_backend ;;
    let! ready := poll_current e in
    match ready with
    | Some value =>
        let! d := get in
        let r := request (sd_identity d) (ss_state value) exclusive (be_originalCount e) in
        let r := if bool_decide (be_provider e = nvidia) then with_backend device_plugin r else r in
        note S_recovery_sharing ;;
        write i e (with_defaults defaults r)
    | None => throw (Thrown (deadline_error (Some S_gpu_backend)))
    end).

Definition set_restored (i : nat) : SM unit := modify (set_entry i (entry_state B_restored)) ;; persist.

Definition restore_entry (i : nat) : SM unit :=
  entry_at i (fun e =>
    if bool_decide (be_state e = B_restored) then mret tt
    else
      require (bool_decide (be_state e = B_borrowed)) CONFLICT ;;
      note S_recovery_sharing ;;
      if same_spec (be_lastSpec e) (be_originalSpec e) then let! _ := current e in set_restored i
      else
        attempts 2 (change (be_provider e) (be_originalMode e) (be_originalCount e) (Some (be_originalBackend e ?? device_plugin))) ;;
        match be_originalDefaults e with
        | Some defaults => attempts 2 (restore_defaults i defaults)
        | None => mret tt
        end ;;
        entry_at i (fun e =>
          let! value := current e in
          require (spec_is (ss_object value) (be_originalSpec e)) CLEANUP ;;
          set_restored i)).

(** The entries from the last to the first. *)
Definition restore : SM unit :=
  let! d := get in
  for_each (rev (seq 0 (length (sd_entries d)))) restore_entry.

(** ** Recovery *)
Definition reconcileUnchanged : SM unit :=
  let! d := get in
  for_each (seq 0 (length (sd_entries d))) (fun i => entry_at i (fun e =>
    if bool_decide (be_state e = B_pending) then
      let! _ := current e in modify (set_entry i (entry_state B_borrowed)) ;; persist
    else mret tt)).

Definition verifyRecoverable : SM unit :=
  let! d := get in
  for_each (sd_entries d) (fun e =>
    if bool_decide (be_state e = B_restored) then mret tt else let! _ := current e in mret tt).

(** The state reported is the one found when it was borrowed. *)
Definition original_state (e : BorrowedEntry) (s : GpuSharingState) : bool :=
  String.eqb (GpuSharingState_phase s) "Ready" && bool_decide (GpuSharingState_mode s = be_originalMode e) &&
  bool_decide (GpuSharingState_maxModels s = be_originalCount e) &&
  (negb (bool_decide (be_provider e = nvidia)) ||
   bool_decide (GpuSharingState_backend s = if bool_decide (be_originalBackend e = Some dra) then GpuSharingState_backend_t_dra
                                            else GpuSharingState_backend_t_time_slicing)).

Definition verifyRestored (providers : option (list Provider)) : SM unit :=
  let! d := get in
  for_each (List.filter (fun e => match providers with Some l => bool_decide (be_provider e ∈ l) | None => true end) (sd_entries d)) (fun e =>
    require (bool_decide (be_state e = B_restored) && same_spec (be_lastSpec e) (be_originalSpec e)) CLEANUP ;;
    let! value := current e in
    require (original_state e (ss_state value)) CLEANUP).

(** ** resume *)
Definition defaults_json (x : GpuSharingDefaults) : json :=
  JObj ([("parameters", literal (GpuSharingDefaults_parameters x)); ("gpuSharing", literal (GpuSharingDefaults_gpuSharing x))]
        ++ match GpuSharingDefaults_validationRequest x with Some v => [("validationRequest", literal v)] | None => [] end)%list.

Definition object_field (d : dict json) (k : string) : option (dict json) := dict_get d k ≫= json_obj.

(** The stored defaults are those of the stored specification. *)
Definition checked_defaults (d spec : dict json) (provider : Provider) (mode : Mode) (backend : option Backend) : option (option GpuSharingDefaults) :=
  match dict_get d "originalDefaults" with
  | None => Some None
  | Some stored =>
      defaults ← defaultFields spec provider;
      if bool_decide (mode = exclusive) && bool_decide (backend = Some device_plugin) &&
         String.eqb (canonical stored) (canonical (defaults_json defaults)) then Some (Some defaults) else None
  end.

Definition checked_borrowed (v : json) : option BorrowedEntry :=
  d ← json_obj v;
  provider ← named literal_name [amd; nvidia] (dict_get d "provider");
  uid ← text_field d "uid";
  generation ← dict_get d "generation" ≫= json_num;
  state ← named (fun s => match s with B_borrowed => "borrowed" | B_pending => "pending" | B_restored => "restored" end)
            [B_borrowed; B_pending; B_restored] (dict_get d "state");
  mode ← named literal_name [exclusive; shared] (dict_get d "originalMode");
  count ← dict_get d "originalCount" ≫= json_num;
  backend ← match dict_get d "originalBackend" with
            | None => Some None
            | b => Some <$> named literal_name [dra; device_plugin] b
            end;
  originalSpec ← object_field d "originalSpec";
  lastSpec ← object_field d "lastSpec";
  defaults ← checked_defaults d originalSpec provider mode backend;
  if positive_integer generation && valid_count count
  then Some {| be_provider := provider; be_uid := uid; be_originalSpec := originalSpec; be_originalMode := mode;
               be_originalCount := count; be_originalBackend := backend; be_originalDefaults := defaults;
               be_generation := generation; be_lastSpec := lastSpec; be_state := state |}
  else None.

Definition checked_data (identity : SharingIdentity) (v : json) : option SharingData :=
  d ← json_obj v;
  l ← match dict_get d "entries" with Some (JArr l) => Some l | _ => None end;
  es ← mapM checked_borrowed l;
  if version_one d && same_text d "runId" (id_runId identity) && same_text d "targetUid" (id_targetUid identity) &&
     same_text d "nodeName" (id_nodeName identity) && same_text d "nodeUid" (id_nodeUid identity) &&
     (length es <=? 2)%nat && bool_decide (NoDup (map be_provider es))
  then Some {| sd_identity := identity; sd_entries := es |} else None.

(** A null file or entry fails with a TypeError instead; members the entries do not use are
    not kept. *)
Definition resume (identity : SharingIdentity) : SM unit :=
  let! v := await S_load in
  match checked_data identity v with
  | Some d => modify (fun _ => d)
  | None => throw (Thrown (harness OWNERSHIP))
  end.
End sharing.
