(* ===== verification/AutoRecovery.v ===== *)
(** * Automatic recovery (regression/core/automatic-recovery.ts)

    A run that died leaves a held Lease and private receipts. [prepareJournal] decides from
    them whether the run may be recovered at all; [execute] checks everything that would be
    touched, claims the Lease, gives back what the run borrowed, verifies that it is gone and
    attests it. The calls of other components (journal, borrowed modules and sharing, the lease)
    are operations here; their own files model them. *)

From S2P Require Import Prelude Js Number Regex Json JsonParse Dates Prog Errors Contracts DashboardCore Canonical Journal Poll RunLifecycle BorrowedSharing BorrowedModule Lease PrivateFiles LicenseTransaction Recovery KubernetesTermination.

Local Open Scope string_scope.
Local Open Scope js_scope.
Local Open Scope Z_scope.

(** ** What may be recovered *)
Section gate.
Context `{Sha256} `{Collation} `{DateFallback}.

Record Prepared : Type := {
  pr_runId : string;
  pr_directory : string;
  pr_expected : Lease;
  pr_identity : RecoveryIdentity;
  pr_journals : list FoundJournal;
  pr_modules : list ModuleReceipt;
  pr_sharing : list SharingReceipt
}.

Definition annotation (l : Lease) (k : string) : option string := match md_annotations (Lease.metadata l) with Some m => m !! k | None => None end.
Definition lease_run (l : Lease) : option string := annotation l a_run_id ??? sp_holderIdentity (spec l).

(** The session the parent of the run kept alive. *)
Definition session_over (files : Files) (runId : string) (identity : RecoveryIdentity) (now : Z) (requireTermination : bool) : res exn unit :=
  let? body := read_in files "runner-session.json" in
  let? session := parse_text body in
  let? d := properties session in
  match base.mbind Date_parse (text_field d "updatedAt") with
  | Some updated =>
      let? _ := requireSafe (version_one d && same_text d "runId" runId && same_text d "targetUid" (ri_applianceUid identity) &&
                             includes ["running"; "finished"] (state_field d) && (updated <=? now)) RECOVERY in
      let finished := session_stopped session in
      let terminated := requireTermination && negb finished && verifiedKubernetesTermination files runId identity in
      if requireTermination && negb finished && negb terminated then Err (Harness (new_HarnessError PROCESS_STATE (Some Failed) (Some S_recovery_barrier) None))
      else requireSafe (finished || terminated || (180000 <=? now - updated)) LOCK_BUSY
  | None => Err (harness RECOVERY)
  end.
(** Runs from before there were sessions: a report, written a while ago. *)
Definition report_over (files : Files) (reported : Z) (runId : string) (now : Z) : res exn unit :=
  let? body := read_in files "summary.json" in
  let? summary := parse_text body in
  let? d := properties summary in
  requireSafe (match base.mbind json_num (dict_get d "version") with Some n => num_eqb n (Int 2) | None => false end && same_text d "runId" runId &&
               (drain <=? now - reported)) RECOVERY.

(** Who claimed a recovery of this run before. *)
Definition previous_owner (files : Files) (runId : string) (identity : RecoveryIdentity) (l : Lease) : res exn (option string) :=
  match file_in files "automatic-recovery.json" with
  | None => Ok None
  | Some _ =>
      let? body := read_in files "automatic-recovery.json" in
      let? value := parse_text body in
      let? d := properties value in
      let? _ := requireSafe (version_one d && same_text d "runId" runId && same_text d "targetUid" (ri_applianceUid identity) &&
                             match md_uid (Lease.metadata l) with Some u => same_text d "leaseUid" u | None => bool_decide (dict_get d "leaseUid" = None) end &&
                             rtest run_pattern (text_field d "recoveryOwner" ?? "undefined")) RECOVERY in
      Ok (text_field d "recoveryOwner")
  end.

Definition run_known (journals : list FoundJournal) (run : option string) : bool := existsb (fun j => bool_decide (Some (jd_runId (fj_data j)) = run)) journals.
Definition free_lease (l : Lease) : bool := bool_decide (holder l = None).
Definition owner_known (l : Lease) (runId : string) (journals : list FoundJournal) (recoveryOwner : option string) : bool :=
  run_known journals (sp_holderIdentity (spec l)) || bool_decide (recoveryOwner = sp_holderIdentity (spec l)) ||
  (bool_decide (annotation l a_recovering = Some "true") && run_known journals (annotation l a_original)) ||
  (free_lease l && run_known journals (Some runId)).
Definition plans_empty (journals : list FoundJournal) : bool := forallb (fun j => bool_decide (recoveryPlan (fj_data j) = [])) journals.
Definition claimable (l : Lease) (now : Z) : bool := free_lease l || (bool_decide (leaseHolderReason l now = Some LOCK_STALE) && drained l now).
Definition appliance_lease (l : Lease) (identity : RecoveryIdentity) : bool := bool_decide (md_labels (Lease.metadata l) !! appliance_label = Some (ri_applianceUid identity)).

(** [reported] is when the report was written. *)
Definition prepareJournal (root : string) (runs : string -> option RunTree) (l : Lease) (identity : RecoveryIdentity) (now reported : Z) (requireTermination : bool) : res exn Prepared :=
  let? _ := requireSafe (appliance_lease l identity) LAB in
  let? _ := requireSafe (claimable l now) LOCK_STALE in
  let runId := lease_run l ?? "undefined" in
  let? _ := requireSafe (rtest run_pattern runId) RECOVERY in
  let directory := path_join root runId in
  match runs directory with
  | None => Err (harness RECOVERY)
  | Some t =>
      let? _ := requireSafe (rt_private t) RECOVERY in
      let? _ := match file_in (rt_files t) "runner-session.json" with
                | Some _ => session_over (rt_files t) runId identity now requireTermination
                | None => report_over (rt_files t) reported runId now
                end in
      let? (_, v) := recoveryInventory directory t identity in
      let? _ := requireSafe (match iv_journals v with j :: _ => String.eqb (jd_runId (fj_data j)) runId | [] => false end) RECOVERY in
      let? _ := requireSafe (iv_unfinished v =? 0) RECOVERY in
      let modules := List.filter (fun m => negb (String.eqb (mr_state m) "restored")) (iv_modules v) in
      let sharing := List.filter sr_pending (iv_sharing v) in
      let? recoveryOwner := previous_owner (rt_files t) runId identity l in
      let? _ := requireSafe (owner_known l runId (iv_journals v) recoveryOwner) RECOVERY in
      let? _ := requireSafe (negb (free_lease l) || (plans_empty (iv_journals v) && bool_decide (modules = []) && bool_decide (sharing = []))) RECOVERY in
      Ok {| pr_runId := runId; pr_directory := directory; pr_expected := l; pr_identity := identity; pr_journals := iv_journals v; pr_modules := modules; pr_sharing := sharing |}
  end.
Definition prepare (root : string) (runs : string -> option RunTree) (l : Lease) (identity : RecoveryIdentity) (now reported : Z) (requireTermination : bool) : res exn Prepared :=
  match prepareJournal root runs l identity now reported requireTermination with Ok p => Ok p | Err e => Err (staged S_recovery_journal e) end.
End gate.

(** ** Carrying a recovery out *)

(** The operations: those of the adapters, of the lease, the journals and receipts, the files,
    and the clock of polling. [V_guard] is the heartbeat's check and [lease.assertHeld];
    [V_retired] reads the flag the deadline sets; [V_expired] asks whether the deadline has
    passed. [V_read_module] and the other calls on a receipt include its [resume]. *)
Inductive recoveryE : Type -> Type :=
| V_target : recoveryE (res exn unit)
| V_lease : recoveryE (res exn Lease)
| V_owner : recoveryE string
| V_now_text : recoveryE string
| V_lookup (j : FoundJournal) (e : JournalEntry) : recoveryE (res exn (option Found))
| V_removed (j : FoundJournal) (e : JournalEntry) : recoveryE (res exn bool)
| V_absent (j : FoundJournal) (e : JournalEntry) : recoveryE (JournalData * res exn unit)
| V_cleanup (j : FoundJournal) : recoveryE (JournalData * res exn unit)
| V_resume_module (m : ModuleReceipt) : recoveryE (res exn unit)
| V_read_module (m : ModuleReceipt) : recoveryE (res exn KubeJson)
| V_reconcile_module (m : ModuleReceipt) : recoveryE (res exn unit)
| V_restore_module (m : ModuleReceipt) : recoveryE (res exn unit)
| V_resume_sharing (s : SharingReceipt) : recoveryE (res exn (list BorrowedEntry))
| V_recoverable (s : SharingReceipt) : recoveryE (res exn unit)
| V_reconcile_sharing (s : SharingReceipt) : recoveryE (res exn unit)
| V_restore_sharing (s : SharingReceipt) : recoveryE (res exn (list BorrowedEntry))
| V_provider (s : SharingReceipt) (p : Provider) : recoveryE (res exn SharingSnapshot)
| V_restored (s : SharingReceipt) (p : Provider) : recoveryE (res exn unit)
| V_acquire : recoveryE (res exn unit)
| V_retired : recoveryE bool
| V_retire : recoveryE unit
| V_guard : recoveryE (res exn unit)
| V_release : recoveryE (res exn unit)
| V_start_heartbeat : recoveryE unit
| V_stop_heartbeat : recoveryE (res exn unit)
| V_exists (name : string) : recoveryE bool
| V_load (name : string) : recoveryE (res exn json)
| V_store (name : string) (value : json) (exclusive : bool) : recoveryE (res exn unit)
| V_inventory : recoveryE (res exn Inventory)
| V_reservations : recoveryE (res exn unit)
| V_attest : recoveryE (res exn unit)
| V_cancel : recoveryE (res exn unit)
| V_expired : recoveryE bool
| V_now : recoveryE Z
| V_timer : recoveryE bool
| V_wait (us : Z) : recoveryE (res exn unit).

(** The journals as they are now, and the stage a deadline would name. *)
Record Recovering : Type := { rv_journals : list FoundJournal; rv_stage : Stage }.
Notation RM := (M recoveryE Recovering exn).
Definition set_data (i : nat) (d : JournalData) (s : Recovering) : Recovering :=
  {| rv_journals := alter (fun j => {| fj_path := fj_path j; fj_filename := fj_filename j; fj_data := d |}) i (rv_journals s); rv_stage := rv_stage s |}.
Definition set_stage (stage : Stage) (s : Recovering) : Recovering := {| rv_journals := rv_journals s; rv_stage := stage |}.
Definition enter (stage : Stage) : RM unit := modify (set_stage stage).

(** [bounded]: at each await the deadline may come first. What is left of the action then runs
    on beside the caller, where its guards fail: [retired] is set. *)
Fixpoint expiring {A} (p : prog recoveryE A) : prog recoveryE (option A) :=
  match p with
  | Done a => Done (Some a)
  | Await op k => Await V_expired (fun expired => if expired : bool then Done None else Await op (fun x => expiring (k x)))
  end.
Definition raced_action {A} (action : RM A) : RM (Race A) := fun s =>
  pbind (expiring (action s)) (fun o => match o with Some (s', r) => Done (s', Ok (Settles _ r)) | None => Done (s, Ok (Expires _)) end).

Definition guard : RM unit := let! retired := await_ V_retired in requireSafeM (negb retired) LOCK_LOST ;; await V_guard.

Section execute.
Context `{Collation}.

Definition receipt_object (m : ModuleReceipt) (k : string) : option KubeJson := object_at (mr_value m) k.
Definition module_original (m : ModuleReceipt) : KubeJson := receipt_object m "original" ?? [].
Definition same_revision (current expected : KubeJson) (spec : option (dict json)) : bool :=
  bool_decide (uid_of current = uid_of expected) && bool_decide (generation_of current = generation_of expected) && BorrowedModule.same_spec (spec_of current) spec.

(** Before anything is claimed: every object is still the one that was recorded. *)
Definition check_entry (j : FoundJournal) (e : JournalEntry) : RM unit :=
  atStage S_recovery_resource
    (let! current := await (V_lookup j e) in
     requireSafeM (match current with None => true | Some c => bool_decide (je_uid e = Some (fd_uid c)) end) OWNERSHIP).
Definition check_journal (j : FoundJournal) : RM unit := for_each (map fst (recoveryPlan (fj_data j))) (check_entry j).
Definition check_module (m : ModuleReceipt) : RM unit :=
  atStage S_recovery_module
    (await (V_resume_module m) ;;
     let! current := await (V_read_module m) in
     let expected := receipt_object m "applied" ?? module_original m in
     requireSafeM (same_revision current expected (spec_of expected)) CONFLICT).
Definition check_sharing (s : SharingReceipt) : RM unit := atStage S_recovery_sharing (await (V_recoverable s)).

(** *** Closure *)

(** The newest confirmed revision of each object. *)
Definition confirmed (m : ModuleReceipt) : KubeJson := receipt_object m "restored" ?? module_original m.
Definition revision (m : ModuleReceipt) : number := generation_of (confirmed m) ?? NaN.
Definition newer_module (m : ModuleReceipt) (d : dict ModuleReceipt) : dict ModuleReceipt :=
  let uid := uid_of (module_original m) ?? "undefined" in
  match dict_get d uid with
  | None => dict_set d uid m
  | Some previous => if num_ltb (revision previous) (revision m) then dict_set d uid m else d
  end.
Definition newest_modules (l : list ModuleReceipt) : dict ModuleReceipt := foldl (fun d m => newer_module m d) [] l.

Definition provider_name (p : Provider) : string := match p with amd => "amd" | nvidia => "nvidia" end.
Definition sharing_key (e : BorrowedEntry) : string := provider_name (be_provider e) +:+ ":" +:+ be_uid e.
Record Latest : Type := { la_receipt : SharingReceipt; la_provider : Provider; la_generation : number }.
Definition newer_entry (s : SharingReceipt) (e : BorrowedEntry) (d : dict Latest) : dict Latest :=
  let latest := {| la_receipt := s; la_provider := be_provider e; la_generation := be_generation e |} in
  match dict_get d (sharing_key e) with
  | None => dict_set d (sharing_key e) latest
  | Some previous => if num_ltb (la_generation previous) (be_generation e) then dict_set d (sharing_key e) latest else d
  end.
Fixpoint newest_entries (l : list SharingReceipt) (d : dict Latest) : RM (dict Latest) :=
  match l with
  | [] => mret d
  | s :: l => let! entries := await (V_resume_sharing s) in newest_entries l (foldl (fun d e => newer_entry s e d) d entries)
  end.

Definition verify_entry (check : RM unit) (j : FoundJournal) (e : JournalEntry) : RM unit :=
  check ;; let! gone := await (V_removed j e) in requireSafeM gone CLEANUP.
Definition verify_module (check : RM unit) (m : ModuleReceipt) : RM unit :=
  check ;;
  let! current := await (V_read_module m) in
  requireSafeM (same_revision current (confirmed m) (spec_of (module_original m))) CONFLICT.
Definition verifyRecoveryClosed (check : RM unit) : RM unit :=
  let! v := await V_inventory in
  requireSafeM (iv_open v =? 0) CLEANUP ;;
  for_each (iv_journals v) (fun j => for_each (jd_entries (fj_data j)) (verify_entry check j)) ;;
  for_each (map snd (newest_modules (iv_modules v))) (verify_module check) ;;
  let! latest := newest_entries (iv_sharing v) [] in
  for_each (map snd latest) (fun l => await (V_restored (la_receipt l) (la_provider l))).

(** *** The recovery *)

(** Resources that were asked for but never seen are gone if nothing of their name is there. *)
Definition confirm_absent (i : nat) (e : JournalEntry) : RM unit :=
  if bool_decide (je_uid e = None) then
    guard ;;
    let! s := get in
    match rv_journals s !! i with
    | Some j =>
        let! current := await (V_lookup j e) in
        requireSafeM (match current with None => true | Some _ => false end) OWNERSHIP ;;
        let! gone := await (V_removed j e) in
        requireSafeM gone CLEANUP ;;
        let! (d, r) := await_ (V_absent j e) in
        modify (set_data i d) ;; of_res r
    | None => mret tt
    end
  else mret tt.
Definition recover_journal (i : nat) : RM unit :=
  enter S_recovery_resource ;;
  let! s := get in
  match rv_journals s !! i with
  | Some j =>
      for_each (map fst (recoveryPlan (fj_data j))) (confirm_absent i) ;;
      atStage S_recovery_resource
        (let! s := get in
         match rv_journals s !! i with
         | Some j => let! (d, r) := await_ (V_cleanup j) in modify (set_data i d) ;; of_res r
         | None => mret tt
         end)
  | None => mret tt
  end.
Definition recover_module (m : ModuleReceipt) : RM unit :=
  enter S_recovery_module ;;
  await (V_resume_module m) ;;
  atStage S_recovery_module (await (V_reconcile_module m) ;; await (V_restore_module m)).

(** The backend of a provider is what it was. *)
Definition backend_back (e : BorrowedEntry) (value : SharingSnapshot) : bool :=
  bool_decide (so_uid (ss_object value) = Some (be_uid e)) && String.eqb (GpuSharingState_phase (ss_state value)) "Ready" &&
  bool_decide (GpuSharingState_mode (ss_state value) = be_originalMode e) && bool_decide (GpuSharingState_maxModels (ss_state value) = be_originalCount e).
Definition await_backend (s : SharingReceipt) (e : BorrowedEntry) : RM unit :=
  let! value := poll id (await_ V_now) (await_ V_timer) (mret tt) (fun us => await (V_wait us)) (await (V_provider s (be_provider e))) (backend_back e)
                  (Some S_gpu_backend) 180000 (Some 1000) in
  match value with Some _ => mret tt | None => throw (deadline_error (Some S_gpu_backend)) end.
Definition recover_sharing (s : SharingReceipt) : RM unit :=
  enter S_recovery_sharing ;;
  let! _ := await (V_resume_sharing s) in
  let! entries := atStage S_recovery_sharing (await (V_reconcile_sharing s) ;; await (V_restore_sharing s)) in
  enter S_gpu_backend ;;
  for_each entries (await_backend s).

Definition receipt_file : string := "automatic-recovery.json".
Definition claim_json (p : Prepared) (owner state now : string) : dict json :=
  ([("version", JNum (Int 1)); ("runId", JStr (pr_runId p)); ("targetUid", JStr (ri_applianceUid (pr_identity p)))] ++
  match md_uid (Lease.metadata (pr_expected p)) with Some u => [("leaseUid", JStr u)] | None => [] end ++
  [("recoveryOwner", JStr owner); ("state", JStr state); ("updatedAt", JStr now)])%list.
Definition note_state (p : Prepared) (owner state : string) : RM unit :=
  let! now := await_ V_now_text in await (V_store receipt_file (JObj (claim_json p owner state now)) false).

Definition give_back (p : Prepared) : RM unit :=
  for_each (rev (seq 0 (length (pr_journals p)))) recover_journal ;;
  for_each (pr_modules p) recover_module ;;
  for_each (pr_sharing p) recover_sharing.
Definition verify_back : RM unit :=
  enter S_cleanup ;;
  await V_target ;; guard ;;
  let! s := get in
  requireSafeM (plans_empty (rv_journals s)) CLEANUP ;;
  verifyRecoveryClosed guard.
Definition finish_recovery (p : Prepared) (owner : string) : RM unit :=
  note_state p owner "restored" ;;
  await V_release ;;
  note_state p owner "released" ;;
  await V_reservations ;;
  await V_attest.
Definition recover_action (p : Prepared) (owner : string) : RM unit := give_back p ;; verify_back ;; finish_recovery p owner.

(** A claim of an earlier recovery is kept beside the new one. *)
Definition keep_previous (owner : string) : RM unit :=
  let! there := await_ (V_exists receipt_file) in
  if there : bool then let! value := await (V_load receipt_file) in await (V_store ("automatic-recovery-" +:+ owner +:+ ".json") value true) else mret tt.

Definition blocked_json (p : Prepared) (owner now : string) (e : exn) : dict json :=
  let d := dict_set (claim_json p owner "blocked" now) "reason" (JStr (reason_name (code_or e RECOVERY))) in
  dict_set d "stage" (JStr (stage_name (match e with Harness h => err_stage h ?? S_cleanup | Foreign _ => S_cleanup end))).
Definition note_blocked (p : Prepared) (owner : string) (e : exn) : RM unit :=
  let! now := await_ V_now_text in await (V_store receipt_file (JObj (blocked_json p owner now e)) false).

Definition claimed (p : Prepared) (owner now : string) : RM unit :=
  try_finally
    (try_catch
       (keep_previous owner ;;
        await (V_store receipt_file (JObj (claim_json p owner "verified" now)) false) ;;
        bounded id (raced_action (recover_action p owner)) (let! s := get in mret (rv_stage s)) (await_ V_retire ;; await V_cancel))
       (fun e => note_blocked p owner e ;; throw (match e with Harness h => Harness h | Foreign _ => harness RECOVERY end)))
    (await_ V_retire ;; await V_stop_heartbeat).

(** A free Lease: nothing is claimed, and only the evidence is completed. *)
Definition still_free (p : Prepared) : RM unit :=
  let! l := await V_lease in
  requireSafeM (bool_decide (md_uid (Lease.metadata l) = md_uid (Lease.metadata (pr_expected p))) &&
                bool_decide (md_resourceVersion (Lease.metadata l) = md_resourceVersion (Lease.metadata (pr_expected p))) && free_lease l) LOCK_BUSY.
Definition execute_free (p : Prepared) : RM unit :=
  bounded id (raced_action (still_free p ;; verifyRecoveryClosed (still_free p) ;; await V_target ;; still_free p)) (mret S_cleanup) (await V_cancel) ;;
  await V_reservations ;;
  await V_attest.

Definition execute_held (p : Prepared) : RM unit :=
  let! owner := await_ V_owner in
  for_each (pr_journals p) check_journal ;;
  for_each (pr_modules p) check_module ;;
  for_each (pr_sharing p) check_sharing ;;
  let! now := await_ V_now_text in
  await V_acquire ;;
  await_ V_start_heartbeat ;;
  claimed p owner now.

Definition execute (p : Prepared) : RM string :=
  await V_target ;;
  (if free_lease (pr_expected p) then execute_free p else execute_held p) ;;
  mret (pr_runId p).
Definition start (p : Prepared) : Recovering := {| rv_journals := pr_journals p; rv_stage := S_recovery_journal |}.
End execute.
