(* ===== verification/AutoRecoveryProps.v ===== *)
(** * Theorems on automatic recovery

    A run is recovered only when its lease has run out and its processes are known to be over
    ([prepare_gate]); everything it would touch is checked before the lease is claimed, nothing
    is changed before, and it is attested only after everything was given back and seen to be
    ([recovery_ordered]). *)

From S2P Require Import Prelude Js Number Regex Json JsonParse Dates Prog Errors Contracts DashboardCore Canonical Journal Poll RunLifecycle BorrowedModuleProps BorrowedSharing BorrowedModule Lease PrivateFiles LicenseTransaction Recovery RecoveryProps KubernetesTermination AutoRecovery.

Local Open Scope string_scope.
Local Open Scope js_scope.
Local Open Scope Z_scope.

(** ** The newest of several *)
Lemma num_ltb_trans a b c : num_ltb a b = true -> num_ltb b c = true -> num_ltb a c = true.
Proof.
  assert (Hpos : forall e : positive, 0 < 2 ^ Zpos e) by (intros e; apply Z.pow_pos_nonneg; lia).
  destruct a as [x|x p| | |], b as [y|y q| | |], c as [z|z r| | |]; cbn; try done; rewrite ?Z.ltb_lt; try pose proof (Hpos p); try pose proof (Hpos q); try pose proof (Hpos r); nia.
Qed.

(** Folding [put] keeps, for every key, an element that nothing of the list exceeds. *)
Section newest.
Context {A B : Type} (key : A -> string) (value : A -> number) (item : A -> B) (item_value : B -> number).
Hypothesis item_value_ok : forall a, item_value (item a) = value a.
Definition put_newer (d : dict B) (a : A) : dict B :=
  match dict_get d (key a) with
  | None => dict_set d (key a) (item a)
  | Some previous => if num_ltb (item_value previous) (value a) then dict_set d (key a) (item a) else d
  end.
Lemma put_newer_from l k y : dict_get (foldl put_newer [] l) k = Some y -> exists b, y = item b /\ b ∈ l /\ key b = k.
Proof using item_value_ok.
  induction l as [|c l IH] using rev_ind; [done|]. rewrite foldl_snoc. unfold put_newer at 1.
  assert (Hset : dict_get (dict_set (foldl put_newer [] l) (key c) (item c)) k = Some y -> exists b, y = item b /\ b ∈ (l ++ [c])%list /\ key b = k).
  { destruct (decide (key c = k)) as [<-|Hk]; [rewrite dict_get_set; intros [= <-]; exists c; set_solver|].
    rewrite dict_get_set_ne by done. intros H. destruct (IH H) as (b & ? & ? & ?). exists b. set_solver. }
  destruct (dict_get _ (key c)) as [previous|]; [destruct (num_ltb _ _)|]; try done. intros H. destruct (IH H) as (b & ? & ? & ?). exists b. set_solver.
Qed.
Lemma num_ltb_irrefl a : num_ltb a a = false.
Proof using Type. destruct a; cbn; try done; lia. Qed.
Lemma put_newer_spec l a : a ∈ l -> exists b, dict_get (foldl put_newer [] l) (key a) = Some (item b) /\ b ∈ l /\ key b = key a /\ num_ltb (value b) (value a) = false.
Proof using item_value_ok.
  revert a. induction l as [|c l IH] using rev_ind; intros a; [by intros ?%elem_of_nil|]. rewrite foldl_snoc. intros Ha. unfold put_newer at 1.
  assert (Hold : forall x, x ∈ l -> exists b, dict_get (foldl put_newer [] l) (key x) = Some (item b) /\ b ∈ (l ++ [c])%list /\ key b = key x /\ num_ltb (value b) (value x) = false).
  { intros x Hx. destruct (IH x Hx) as (b & H1 & H2 & H3). exists b. split; [done|]. split; [set_solver | done]. }
  assert (Hc : c ∈ (l ++ [c])%list) by set_solver.
  destruct (dict_get (foldl put_newer [] l) (key c)) as [previous|] eqn:Eprev.
  - destruct (put_newer_from _ _ _ Eprev) as (q & -> & Hq & Hkq). rewrite item_value_ok. destruct (num_ltb (value q) (value c)) eqn:Elt.
    + destruct (decide (key c = key a)) as [Hk|Hk].
      * exists c. rewrite Hk, dict_get_set. split; [done|]. split; [done|]. split; [done|]. apply elem_of_app in Ha as [Ha|Ha%list_elem_of_singleton]; [|subst; apply num_ltb_irrefl].
        destruct (Hold a Ha) as (b & Hb & _ & _ & Hlt). rewrite <- Hk, Eprev in Hb. injection Hb as Hb. assert (E : value b = value q) by (by rewrite <- (item_value_ok b), <- Hb, item_value_ok).
        destruct (num_ltb (value c) (value a)) eqn:E2; [|done]. rewrite E in Hlt. by rewrite (num_ltb_trans _ _ _ Elt E2) in Hlt.
      * rewrite dict_get_set_ne by done. apply elem_of_app in Ha as [Ha|Ha%list_elem_of_singleton]; [by apply Hold | by subst].
    + apply elem_of_app in Ha as [Ha|Ha%list_elem_of_singleton]; [by apply Hold|]. subst a. exists q. rewrite Eprev. split; [done|]. split; [set_solver|]. by split.
  - destruct (decide (key c = key a)) as [Hk|Hk].
    + exists c. rewrite Hk, dict_get_set. split; [done|]. split; [done|]. split; [done|]. apply elem_of_app in Ha as [Ha|Ha%list_elem_of_singleton]; [|subst; apply num_ltb_irrefl].
      destruct (Hold a Ha) as (b & Hb & _). by rewrite <- Hk, Eprev in Hb.
    + rewrite dict_get_set_ne by done. apply elem_of_app in Ha as [Ha|Ha%list_elem_of_singleton]; [by apply Hold | by subst].
Qed.
End newest.

(** ** What is known *)
Inductive Fact : Type :=
| F_target
| F_entry (j : FoundJournal) (e : JournalEntry)
| F_module (m : ModuleReceipt)
| F_sharing (s : SharingReceipt)
| F_claimed
| F_cleaned (filename : string)
| F_gone (j : FoundJournal) (e : JournalEntry)
| F_confirmed (m : ModuleReceipt)
| F_entries (s : SharingReceipt) (l : list BorrowedEntry)
| F_returned (s : SharingReceipt) (p : Provider)
| F_released
| F_reserved
| F_attested.
(** Everything learnt; and what was learnt since the receipts were last listed. *)
Record History : Type := { hs_facts : list Fact; hs_listed : option Inventory; hs_since : list Fact }.
Definition no_history : History := {| hs_facts := []; hs_listed := None; hs_since := [] |}.
Definition learn (f : Fact) (h : History) : History := {| hs_facts := f :: hs_facts h; hs_listed := hs_listed h; hs_since := f :: hs_since h |}.
Definition listing (v : Inventory) (h : History) : History := {| hs_facts := hs_facts h; hs_listed := Some v; hs_since := [] |}.
Definition learn_if (b : bool) (f : Fact) (h : History) : History := if b then learn f h else h.

(** [later h h']: more is known. *)
Record later_h (h h' : History) : Prop := { lh_facts : hs_facts h ⊆ hs_facts h'; lh_listed : hs_listed h' = hs_listed h; lh_since : hs_since h ⊆ hs_since h' }.
#[export] Instance later_h_preorder : PreOrder later_h.
Proof. split; [by intros h; split|]. intros h1 h2 h3 [] []. split; [by etrans | congruence | by etrans]. Qed.
Lemma learn_later f h : later_h h (learn f h).
Proof. split; cbn; set_solver. Qed.
Lemma learn_if_later b f h : later_h h (learn_if b f h).
Proof. destruct b; [apply learn_later | done]. Qed.
#[export] Hint Resolve learn_later learn_if_later : js.

Section recovery.
Context `{Collation}.
Variable p : Prepared.

Definition ok_unit (r : res exn unit) : bool := is_ok r.
Definition recovery_upd X (h : History) (op : recoveryE X) : X -> History :=
  match op in recoveryE X return X -> History with
  | V_target => fun r => learn_if (is_ok r) F_target h
  | V_lookup j e => fun r => learn_if (match r with Ok None => true | Ok (Some c) => bool_decide (je_uid e = Some (fd_uid c)) | Err _ => false end) (F_entry j e) h
  | V_removed j e => fun r => learn_if (match r with Ok b => b | Err _ => false end) (F_gone j e) h
  | V_cleanup j => fun r => learn_if (is_ok r.2) (F_cleaned (fj_filename j)) h
  | V_read_module m => fun r =>
      match r with
      | Ok c =>
          let expected := receipt_object m "applied" ?? module_original m in
          learn_if (same_revision c (confirmed m) (spec_of (module_original m))) (F_confirmed m)
            (learn_if (same_revision c expected (spec_of expected)) (F_module m) h)
      | Err _ => h
      end
  | V_recoverable s => fun r => learn_if (is_ok r) (F_sharing s) h
  | V_resume_sharing s => fun r => match r with Ok l => learn (F_entries s l) h | Err _ => h end
  | V_restored s q => fun r => learn_if (is_ok r) (F_returned s q) h
  | V_acquire => fun r => learn_if (is_ok r) F_claimed h
  | V_release => fun r => learn_if (is_ok r) F_released h
  | V_inventory => fun r => match r with Ok v => listing v h | Err _ => h end
  | V_reservations => fun r => learn_if (is_ok r) F_reserved h
  | V_attest => fun r => learn_if (is_ok r) F_attested h
  | _ => fun _ => h
  end.

(** Every object the run owns or borrowed was seen as it was recorded. *)
Definition checked (h : History) : Prop :=
  F_target ∈ hs_facts h /\
  (forall j e, j ∈ pr_journals p -> e ∈ map fst (recoveryPlan (fj_data j)) -> F_entry j e ∈ hs_facts h) /\
  (forall m, m ∈ pr_modules p -> F_module m ∈ hs_facts h) /\ (forall s, s ∈ pr_sharing p -> F_sharing s ∈ hs_facts h).
(** The resources of every journal are cleaned up. *)
Definition cleaned (h : History) : Prop := forall j, j ∈ pr_journals p -> F_cleaned (fj_filename j) ∈ hs_facts h.
Definition newest_of (read : list (SharingReceipt * list BorrowedEntry)) (d : dict Latest) : dict Latest :=
  foldl (fun d x => foldl (fun d e => newer_entry x.1 e d) d x.2) d read.
(** Since the receipts were listed: nothing was open, every resource was seen to be gone, and of
    every borrowed object the newest revision was seen to be back. *)
Definition closed_since (h : History) : Prop := exists v, hs_listed h = Some v /\ iv_open v = 0 /\
  (forall j e, j ∈ iv_journals v -> e ∈ jd_entries (fj_data j) -> F_gone j e ∈ hs_since h) /\
  (forall m, m ∈ map snd (newest_modules (iv_modules v)) -> F_confirmed m ∈ hs_since h) /\
  exists read, map fst read = iv_sharing v /\ (forall x, x ∈ read -> F_entries x.1 x.2 ∈ hs_since h) /\
    forall l, l ∈ map snd (newest_of read []) -> F_returned (la_receipt l) (la_provider l) ∈ hs_since h.

Definition free : Prop := free_lease (pr_expected p) = true.
Definition is_claimed (h : History) : Prop := F_claimed ∈ hs_facts h.
(** What must be known before an operation. *)
Definition recovery_pre X (h : History) (op : recoveryE X) : Prop :=
  match op with
  | V_acquire => ~ free /\ checked h
  | V_absent _ _ | V_cleanup _ | V_store _ _ _ => is_claimed h
  | V_reconcile_module _ | V_restore_module _ | V_reconcile_sharing _ | V_restore_sharing _ => is_claimed h /\ cleaned h
  | V_release => is_claimed h /\ cleaned h /\ closed_since h
  | V_reservations => free /\ closed_since h \/ is_claimed h /\ F_released ∈ hs_facts h
  | V_attest => F_reserved ∈ hs_facts h
  | _ => True
  end.
Definition any_reply X (h : History) (op : recoveryE X) (x : X) : Prop := True.
(** Inside a deadline the run is free or claimed. *)
Definition inside (h : History) : Prop := free \/ is_claimed h.
Definition inside_pre X (h : History) (op : recoveryE X) : Prop := recovery_pre X h op /\ inside h.
Notation W := (wpm inside_pre any_reply recovery_upd).
Notation WO := (wpm recovery_pre any_reply recovery_upd).

Lemma later_claimed h h' : later_h h h' -> is_claimed h -> is_claimed h'.
Proof using Type. intros [Hf _ _]. apply Hf. Qed.
Lemma later_inside h h' : later_h h h' -> inside h -> inside h'.
Proof using Type. intros Hl [?|?]; [by left | right; by eapply later_claimed]. Qed.
Lemma later_cleaned h h' : later_h h h' -> cleaned h -> cleaned h'.
Proof using Type. intros [Hf _ _] Hc j Hj. by apply Hf, Hc. Qed.
Lemma later_closed h h' : later_h h h' -> closed_since h -> closed_since h'.
Proof using Type.
  intros [_ Hl Hs] (v & Hv & Ho & Hg & Hm & read & Hr & He & Hb). exists v. rewrite Hl. split; [done|]. split; [done|].
  split; [by intros; apply Hs, Hg|]. split; [by intros; apply Hs, Hm|]. exists read. split; [done|]. split; intros; apply Hs; eauto.
Qed.

Lemma inside_await {X} (op : recoveryE (res exn X)) s h (Q : History -> Recovering -> res exn X -> Prop) :
  inside h -> recovery_pre _ h op -> (forall x, Q (recovery_upd _ h op x) s x) -> W (await op) s h Q.
Proof using Type. intros Hi Hp HQ. apply wpm_await; [by split|]. intros r _. apply HQ. Qed.
Lemma inside_await_ {X} (op : recoveryE X) s h (Q : History -> Recovering -> res exn X -> Prop) :
  inside h -> recovery_pre _ h op -> (forall x, Q (recovery_upd _ h op x) s (Ok x)) -> W (await_ op) s h Q.
Proof using Type. intros Hi Hp HQ. apply wpm_await_; [by split|]. intros r _. apply HQ. Qed.
Lemma safe_wp b c s h (Q : History -> Recovering -> res exn unit -> Prop) : (b = true -> Q h s (Ok tt)) -> (b = false -> Q h s (Err (harness c))) -> W (requireSafeM b c) s h Q.
Proof using Type. intros Ht Hf. unfold requireSafeM. apply wpm_of_res. destruct b; [by apply Ht | by apply Hf]. Qed.
Lemma atStage_wp {A} stage (m : RM A) s h (Q : History -> Recovering -> res exn A -> Prop) :
  W m s h (fun h' s' r => match r with Ok a => Q h' s' (Ok a) | Err e => Q h' s' (Err (staged stage e)) end) -> W (atStage stage m) s h Q.
Proof using Type. intros Hm. apply wpm_try. eapply wpm_mono; [|exact Hm]. by intros h' s' [a|e]. Qed.

(** *** Clean up *)
Definition names (s : Recovering) : list string := map fj_filename (rv_journals s).
Lemma names_kept i d s : names (set_data i d s) = names s.
Proof using Type.
  unfold names. cbn. apply list_eq. intros k. rewrite !list_lookup_fmap. destruct (decide (i = k)) as [->|Hk].
  - rewrite list_lookup_alter_eq. by destruct (rv_journals s !! k).
  - by rewrite list_lookup_alter_ne.
Qed.
(** What a part of the action keeps. *)
Definition kept (h : History) (s : Recovering) (h' : History) (s' : Recovering) : Prop := later_h h h' /\ names s' = names s.
Lemma kept_refl h s : kept h s h s.
Proof using Type. done. Qed.
Lemma kept_trans h s h1 s1 h2 s2 : kept h s h1 s1 -> kept h1 s1 h2 s2 -> kept h s h2 s2.
Proof using Type. intros [? ?] [? ?]. split; [by etrans | congruence]. Qed.

Lemma guard_wp s h (Q : History -> Recovering -> res exn unit -> Prop) : inside h -> (forall r, Q h s r) -> W guard s h Q.
Proof using Type.
  intros Hi HQ. unfold guard. apply wpm_bind, inside_await_; [done..|]. intros retired. apply wpm_bind, safe_wp; intros _; [|apply HQ].
  apply inside_await; [done..|]. intros r. apply HQ.
Qed.

Lemma confirm_absent_wp i e s h : inside h -> is_claimed h -> W (confirm_absent i e) s h (fun h' s' _ => kept h s h' s').
Proof using Type.
  intros Hi Hc. unfold confirm_absent. destruct (bool_decide (je_uid e = None)); [|apply wpm_ret, kept_refl].
  apply wpm_bind, guard_wp; [done|]. intros [[]|err]; [|apply kept_refl]. apply wpm_bind, wpm_get.
  destruct (rv_journals s !! i) as [j|]; [|apply wpm_ret, kept_refl]. apply wpm_bind, inside_await; [done..|]. intros r.
  assert (H1 : later_h h (recovery_upd _ h (V_lookup j e) r)) by (cbn; auto with js). set (h1 := recovery_upd _ h _ r) in *. clearbody h1.
  destruct r as [current|err]; [|by split]. apply wpm_bind, safe_wp; intros _; [|by split].
  pose proof (later_inside _ _ H1 Hi) as Hi1. pose proof (later_claimed _ _ H1 Hc) as Hc1.
  apply wpm_bind, inside_await; [done..|]. intros r.
  assert (H2 : later_h h (recovery_upd _ h1 (V_removed j e) r)) by (etrans; [exact H1 | cbn; auto with js]). set (h2 := recovery_upd _ h1 _ r) in *. clearbody h2.
  destruct r as [gone|err]; [|by split]. apply wpm_bind, safe_wp; intros _; [|by split].
  apply wpm_bind, inside_await_; [by eapply later_inside | by eapply later_claimed |]. intros [d r]. cbn [recovery_upd].
  apply wpm_bind, wpm_modify. apply wpm_of_res. split; [done | apply names_kept].
Qed.

Lemma for_each_kept {A} (l : list A) (f : A -> RM unit) s h :
  (forall a s h, inside h -> is_claimed h -> W (f a) s h (fun h' s' _ => kept h s h' s')) ->
  inside h -> is_claimed h -> W (for_each l f) s h (fun h' s' _ => kept h s h' s').
Proof using Type.
  intros Hf Hi Hc. apply (wpm_for_each _ _ _ l f (fun _ h' s' => kept h s h' s')); [|done|by intros].
  intros a l' h1 s1 Hk. eapply wpm_mono; [|apply Hf; [by eapply later_inside; [apply Hk|] | by eapply later_claimed; [apply Hk|]]].
  intros h2 s2 [[]|err] Hk2; by eapply kept_trans.
Qed.

Lemma recover_journal_wp i s h : inside h -> is_claimed h -> (i < length (names s))%nat ->
  W (recover_journal i) s h (fun h' s' r => kept h s h' s' /\ (r = Ok tt -> forall name, names s !! i = Some name -> F_cleaned name ∈ hs_facts h')).
Proof using Type.
  intros Hi Hc Hlt. unfold recover_journal, enter. apply wpm_bind, wpm_modify. apply wpm_bind, wpm_get. cbn [rv_journals set_stage].
  destruct (rv_journals s !! i) as [j|] eqn:Ej; [|apply lookup_ge_None in Ej; unfold names in Hlt; rewrite length_map in Hlt; lia].
  apply wpm_bind. eapply wpm_mono; [|apply for_each_kept; [intros; by apply confirm_absent_wp | done | done]].
  intros h1 s1 [[]|err] Hk; [|split; [exact Hk | done]].
  apply atStage_wp, wpm_bind, wpm_get. assert (Hname : names s1 !! i = Some (fj_filename j)) by (rewrite (proj2 Hk); unfold names; cbn; by rewrite list_lookup_fmap, Ej).
  unfold names in Hname. rewrite list_lookup_fmap in Hname. destruct (rv_journals s1 !! i) as [j1|] eqn:Ej1; [|done]. cbn in Hname. injection Hname as Hname.
  apply wpm_bind, inside_await_; [by eapply later_inside; [apply Hk|] | by eapply later_claimed; [apply Hk|] |]. intros [d r].
  assert (H2 : later_h h1 (recovery_upd _ h1 (V_cleanup j1) (d, r))) by (cbn; auto with js).
  apply wpm_bind, wpm_modify. apply wpm_of_res.
  assert (Hk2 : kept h s (recovery_upd _ h1 (V_cleanup j1) (d, r)) (set_data i d s1)).
  { eapply kept_trans; [exact Hk|]. split; [done | apply names_kept]. }
  destruct r as [[]|err]; [|by split]. split; [exact Hk2|]. intros _ name. unfold names. rewrite list_lookup_fmap, Ej. cbn. intros [= <-]. rewrite Hname. apply elem_of_cons. by left.
Qed.

Lemma recover_module_wp m s h : inside h -> is_claimed h -> cleaned h -> W (recover_module m) s h (fun h' s' _ => kept h s h' s').
Proof using Type.
  intros Hi Hc Hl. unfold recover_module, enter. apply wpm_bind, wpm_modify. apply wpm_bind, inside_await; [done..|]. intros [[]|err]; [|done].
  apply atStage_wp. apply wpm_bind, inside_await; [done..|]. intros [[]|err]; [|done]. apply inside_await; [done..|]. by intros [[]|err].
Qed.

(** Polling a provider's state only waits and reads. *)
Lemma provider_poll_wp {T} (read : RM T) accept stage timeout interval s h (Q : History -> Recovering -> res exn (option T) -> Prop) : inside h ->
  (forall Q' : History -> Recovering -> res exn T -> Prop, (forall r, Q' h s r) -> W read s h Q') -> (forall r, Q h s r) ->
  W (poll id (await_ V_now) (await_ V_timer) (mret tt) (fun us => await (V_wait us)) read accept stage timeout interval) s h Q.
Proof using Type.
  intros Hi Hread HQ. unfold poll. apply wpm_bind, inside_await_; [done..|]. intros t. cbn [recovery_upd]. generalize (interval ?? 100) as n.
  intros n. generalize (poll_turns timeout n) as turns, (t + 1000 * timeout) as deadline. intros turns deadline. revert n.
  induction turns as [|turns IH]; intros n; cbn [poll_loop]; [apply wpm_ret, HQ|].
  apply wpm_bind, inside_await_; [done..|]. intros t1. cbn [recovery_upd]. destruct (t1 <? deadline); [|apply wpm_throw, HQ].
  apply wpm_bind, wpm_ret, wpm_bind. unfold raced. apply wpm_bind, wpm_try. apply Hread. intros [v|e].
  - apply wpm_bind, inside_await_; [done..|]. intros [|]; cbn [recovery_upd]; [apply wpm_throw, HQ | apply wpm_ret].
    apply wpm_bind, inside_await_; [done..|]. intros t2. cbn [recovery_upd]. destruct (_ && accept v); [apply wpm_ret, HQ|].
    apply wpm_bind, inside_await_; [done..|]. intros t3. cbn [recovery_upd]. cbv zeta. destruct (deadline - t3 <=? 0); [apply wpm_throw, HQ|].
    apply wpm_bind, inside_await; [done..|]. intros [[]|err]; cbn [recovery_upd]; [apply IH | apply HQ].
  - apply wpm_bind, inside_await_; [done..|]. intros fired. apply wpm_throw. apply HQ.
Qed.
Lemma await_backend_wp r e s h : inside h -> W (await_backend r e) s h (fun h' s' _ => kept h s h' s').
Proof using Type.
  intros Hi. unfold await_backend. apply wpm_bind, provider_poll_wp; [done | |].
  - intros Q' HQ'. apply inside_await; [done..|]. intros x. apply HQ'.
  - intros [[v|]|err]; [apply wpm_ret | apply wpm_throw | ]; apply kept_refl.
Qed.
Lemma recover_sharing_wp r s h : inside h -> is_claimed h -> cleaned h -> W (recover_sharing r) s h (fun h' s' _ => kept h s h' s').
Proof using Type.
  intros Hi Hc Hl. unfold recover_sharing, enter. apply wpm_bind, wpm_modify. apply wpm_bind, inside_await; [done..|]. intros x.
  assert (H1 : later_h h (recovery_upd _ h (V_resume_sharing r) x)) by (cbn; destruct x; [auto with js | done]). set (h1 := recovery_upd _ h _ x) in *. clearbody h1.
  destruct x as [l|err]; [|by split].
  pose proof (later_inside _ _ H1 Hi) as Hi1. pose proof (later_claimed _ _ H1 Hc) as Hc1. pose proof (later_cleaned _ _ H1 Hl) as Hl1.
  apply wpm_bind, atStage_wp. apply wpm_bind, inside_await; [done..|]. intros [[]|err]; [|by split].
  apply inside_await; [done..|]. intros [entries|err]; cbn [recovery_upd]; [|by split].
  apply wpm_bind, wpm_modify. eapply wpm_mono; [|apply for_each_kept; [intros; by apply await_backend_wp | done | done]].
  intros h2 s2 r2 Hk. eapply kept_trans; [|exact Hk]. by split.
Qed.

(** *** Closure *)
Definition checks (check : RM unit) : Prop := forall s h (Q : History -> Recovering -> res exn unit -> Prop), inside h -> (forall r, Q h s r) -> W check s h Q.
Lemma guard_checks : checks guard.
Proof using Type. intros s h Q. apply guard_wp. Qed.

Lemma verify_entry_wp check j e s h : checks check -> inside h ->
  W (verify_entry check j e) s h (fun h' s' r => later_h h h' /\ s' = s /\ (r = Ok tt -> F_gone j e ∈ hs_since h')).
Proof using Type.
  intros Hcheck Hi. unfold verify_entry. apply wpm_bind, Hcheck; [done|]. intros [[]|err]; [|done]. apply wpm_bind, inside_await; [done..|]. intros r.
  destruct r as [[]|err]; cbn [recovery_upd learn_if]; [| |done]; apply safe_wp; try done; intros _.
  split; [apply learn_later|]. split; [done|]. intros _. cbn. apply elem_of_cons. by left.
Qed.
Lemma verify_module_wp check m s h : checks check -> inside h ->
  W (verify_module check m) s h (fun h' s' r => later_h h h' /\ s' = s /\ (r = Ok tt -> F_confirmed m ∈ hs_since h')).
Proof using Type.
  intros Hcheck Hi. unfold verify_module. apply wpm_bind, Hcheck; [done|]. intros [[]|err]; [|done]. apply wpm_bind, inside_await; [done..|]. intros [c|err]; [|done].
  cbn [recovery_upd]. cbv zeta. apply safe_wp; intros E.
  - rewrite E. cbn [learn_if]. split; [etrans; [apply learn_if_later | apply learn_later]|]. split; [done|]. intros _. cbn. apply elem_of_cons. by left.
  - split; [etrans; apply learn_if_later|]. by split.
Qed.

(** A loop in which every element adds what is known. *)
Lemma for_each_facts {A} (l : list A) (f : A -> RM unit) (P : A -> History -> Prop) s h :
  (forall a h h', later_h h h' -> P a h -> P a h') ->
  (forall a s h, inside h -> W (f a) s h (fun h' s' r => later_h h h' /\ s' = s /\ (r = Ok tt -> P a h'))) -> inside h ->
  W (for_each l f) s h (fun h' s' r => later_h h h' /\ s' = s /\ (r = Ok tt -> forall a, a ∈ l -> P a h')).
Proof using Type.
  intros Hmono Hf Hi. revert s h Hi. induction l as [|a l IH]; intros s h Hi; cbn [for_each].
  - apply wpm_ret. split; [done|]. split; [done|]. by intros _ a ?%elem_of_nil.
  - apply wpm_bind. eapply wpm_mono; [|by apply Hf]. intros h1 s1 [[]|err] (Hl & -> & Ha); [|by split].
    eapply wpm_mono; [|apply IH; by eapply later_inside]. intros h2 s2 r (Hl2 & -> & Hr). split; [by etrans|]. split; [done|].
    intros -> x [->|Hx]%elem_of_cons; [by eapply Hmono; [|apply Ha] | by apply Hr].
Qed.
Lemma since_mono f h h' : later_h h h' -> f ∈ hs_since h -> f ∈ hs_since h'.
Proof using Type. intros [_ _ Hs]. apply Hs. Qed.

Lemma newest_entries_wp l d s h : inside h ->
  W (newest_entries l d) s h (fun h' s' r => later_h h h' /\ s' = s /\ forall d', r = Ok d' ->
    exists read, map fst read = l /\ (forall x, x ∈ read -> F_entries x.1 x.2 ∈ hs_since h') /\ d' = newest_of read d).
Proof using Type.
  revert d s h. induction l as [|a l IH]; intros d s h Hi; cbn [newest_entries].
  - apply wpm_ret. split; [done|]. split; [done|]. intros d' [= <-]. exists []. split; [done|]. split; [by intros x ?%elem_of_nil | done].
  - apply wpm_bind, inside_await; [done..|]. intros [entries|err]; cbn [recovery_upd]; [|done].
    assert (Hl : later_h h (learn (F_entries a entries) h)) by apply learn_later.
    eapply wpm_mono; [|apply IH; by eapply later_inside]. intros h2 s2 r (Hl2 & -> & Hr). split; [by etrans|]. split; [done|].
    intros d' Hd. destruct (Hr d' Hd) as (read & Hmap & Hin & ->). exists ((a, entries) :: read). split; [cbn; by rewrite Hmap|]. split; [|done].
    intros x [->|Hx]%elem_of_cons; [|by apply Hin]. apply (since_mono _ _ _ Hl2). cbn. apply elem_of_cons. by left.
Qed.

Lemma verify_closed_wp check s h : checks check -> inside h ->
  W (verifyRecoveryClosed check) s h (fun h' s' r => hs_facts h ⊆ hs_facts h' /\ s' = s /\ (r = Ok tt -> closed_since h')).
Proof using Type.
  intros Hcheck Hi. unfold verifyRecoveryClosed. apply wpm_bind, inside_await; [done..|]. intros [v|err]; cbn [recovery_upd]; [|done].
  set (h0 := listing v h). assert (Hi0 : inside h0) by exact Hi. change (hs_facts h) with (hs_facts h0).
  apply wpm_bind, safe_wp; intros Hopen; [|done].
  apply wpm_bind. eapply wpm_mono; [|apply (for_each_facts _ _ (fun j h' => forall e, e ∈ jd_entries (fj_data j) -> F_gone j e ∈ hs_since h')); [|intros j s1 h1 Hi1|exact Hi0]].
  2: { intros j h1 h2 Hl Hj e He. by eapply since_mono, Hj. }
  2: { apply (for_each_facts _ _ (fun e h' => F_gone j e ∈ hs_since h')); [intros; by eapply since_mono | intros; by apply verify_entry_wp | done]. }
  intros h1 s1 [[]|err] (Hl1 & -> & Hgone); [|split; [apply Hl1 | done]].
  apply wpm_bind. eapply wpm_mono; [|apply (for_each_facts _ _ (fun m h' => F_confirmed m ∈ hs_since h')); [intros; by eapply since_mono | intros; by apply verify_module_wp | by eapply later_inside]].
  intros h2 s2 [[]|err] (Hl2 & -> & Hmods); [|split; [etrans; [apply Hl1 | apply Hl2] | done]].
  assert (Hl02 : later_h h0 h2) by (by etrans).
  apply wpm_bind. eapply wpm_mono; [|apply newest_entries_wp; by eapply later_inside].
  intros h3 s3 [latest|err] (Hl3 & -> & Hread); [|split; [etrans; [apply Hl02 | apply Hl3] | done]].
  assert (Hl03 : later_h h0 h3) by (by etrans). destruct (Hread latest eq_refl) as (read & Hmap & Hin & ->).
  eapply wpm_mono; [|apply (for_each_facts _ _ (fun l h' => F_returned (la_receipt l) (la_provider l) ∈ hs_since h')); [intros; by eapply since_mono | | by eapply later_inside]].
  - intros h4 s4 r (Hl4 & -> & Hback). split; [etrans; [apply Hl03 | apply Hl4]|]. split; [done|]. intros ->.
    assert (Hl14 : later_h h1 h4) by (etrans; [exact Hl2|]; by etrans). assert (Hl24 : later_h h2 h4) by (by etrans).
    exists v. split; [by rewrite (lh_listed _ _ Hl4), (lh_listed _ _ Hl03)|]. split; [by apply Z.eqb_eq|].
    split; [intros j e Hj He; eapply since_mono; [exact Hl14 | by apply Hgone]|]. split; [intros m Hm; eapply since_mono; [exact Hl24 | by apply Hmods]|].
    exists read. split; [done|]. split; [intros x Hx; eapply since_mono; [exact Hl4 | by apply Hin] | by apply Hback].
  - intros l s5 h5 Hi5. apply inside_await; [done..|]. intros [[]|err]; cbn [recovery_upd is_ok learn_if]; [|done].
    split; [apply learn_later|]. split; [done|]. intros _. cbn. apply elem_of_cons. by left.
Qed.

(** *** The action *)
Definition grown (h h' : History) : Prop := hs_facts h ⊆ hs_facts h'.
#[export] Instance grown_preorder : PreOrder grown.
Proof using Type. split; [by intros h f|]. intros h1 h2 h3 H1 H2 f Hf. by apply H2, H1. Qed.
Lemma later_grown h h' : later_h h h' -> grown h h'.
Proof using Type. apply lh_facts. Qed.
Lemma grown_claimed h h' : grown h h' -> is_claimed h -> is_claimed h'.
Proof using Type. intros Hg. apply Hg. Qed.
Lemma note_state_wp owner state s h (Q : History -> Recovering -> res exn unit -> Prop) : inside h -> is_claimed h -> (forall r, Q h s r) -> W (note_state p owner state) s h Q.
Proof using Type.
  intros Hi Hc HQ. unfold note_state. apply wpm_bind, inside_await_; [done..|]. intros now. apply inside_await; [done..|]. intros r. apply HQ.
Qed.

Lemma journals_wp s h : names s = map fj_filename (pr_journals p) -> inside h -> is_claimed h ->
  W (for_each (rev (seq 0 (length (pr_journals p)))) recover_journal) s h (fun h' s' r => later_h h h' /\ names s' = names s /\ (r = Ok tt -> cleaned h')).
Proof using Type.
  intros Hn Hi Hc. set (n := length (pr_journals p)).
  apply (wpm_for_each _ _ _ _ recover_journal (fun l h' s' => later_h h h' /\ names s' = names s /\ (forall i, i ∈ l -> (i < n)%nat) /\
    forall i name, (i < n)%nat -> i ∉ l -> names s !! i = Some name -> F_cleaned name ∈ hs_facts h')).
  - intros i l h1 s1 (Hl & Hs & Hlt & Hdone).
    assert (Hin : (i < n)%nat) by (apply Hlt; apply elem_of_cons; by left).
    eapply wpm_mono; [|apply recover_journal_wp; [by eapply later_inside | by eapply later_claimed | rewrite Hs, Hn, length_map; exact Hin]].
    intros h2 s2 r [[Hl2 Hs2] Hr]. destruct r as [[]|err]; [|split; [by etrans|]; split; [congruence | done]].
    split; [by etrans|]. split; [congruence|]. split; [intros k Hk; apply Hlt; apply elem_of_cons; by right|].
    intros k name Hk Hnot Hname. destruct (decide (k = i)) as [->|Hne]; [apply Hr; [done | congruence]|].
    apply (lh_facts _ _ Hl2), (Hdone k); [done | rewrite not_elem_of_cons; by split | done].
  - split; [done|]. split; [done|]. split; [intros i Hin; apply list_elem_of_In, in_rev, in_seq in Hin; lia|].
    intros i name Hlt Hnot. exfalso. apply Hnot, list_elem_of_In. rewrite <- in_rev. apply in_seq. lia.
  - intros h' s' (Hl & Hs & _ & Hdone). split; [done|]. split; [done|]. intros _ j Hj.
    apply list_elem_of_lookup in Hj as [i Hi']. apply (Hdone i); [by eapply lookup_lt_Some | apply not_elem_of_nil | by rewrite Hn, list_lookup_fmap, Hi'].
Qed.

Lemma for_each_claimed {A} (l : list A) (f : A -> RM unit) s h : is_claimed h -> cleaned h ->
  (forall a s h, inside h -> is_claimed h -> cleaned h -> W (f a) s h (fun h' s' _ => kept h s h' s')) -> W (for_each l f) s h (fun h' s' _ => kept h s h' s').
Proof using Type.
  intros Hc Hl Hf. apply (wpm_for_each _ _ _ l f (fun _ h' s' => kept h s h' s')); [|done|by intros].
  intros a l' h1 s1 [Hl1 Hs1]. assert (Hc1 : is_claimed h1) by by eapply later_claimed.
  eapply wpm_mono; [|apply Hf; [by right | done | by eapply later_cleaned]]. intros h2 s2 [[]|err] Hk; by eapply kept_trans.
Qed.
Lemma give_back_wp s h : names s = map fj_filename (pr_journals p) -> inside h -> is_claimed h ->
  W (give_back p) s h (fun h' s' r => later_h h h' /\ (r = Ok tt -> cleaned h')).
Proof using Type.
  intros Hn Hi Hc. unfold give_back. apply wpm_bind. eapply wpm_mono; [|by apply journals_wp].
  intros h1 s1 [[]|err] (Hl1 & Hs1 & Hclean); [|by split]. specialize (Hclean eq_refl). assert (Hc1 : is_claimed h1) by by eapply later_claimed.
  apply wpm_bind. eapply wpm_mono; [|apply for_each_claimed; [done | done | intros; by apply recover_module_wp]].
  intros h2 s2 [[]|err] [Hl2 Hs2]; [|split; [by etrans | done]].
  eapply wpm_mono; [|apply for_each_claimed; [by eapply later_claimed | by eapply later_cleaned | intros; by apply recover_sharing_wp]].
  intros h3 s3 r [Hl3 Hs3]. split; [etrans; [exact Hl1|]; by etrans|]. intros _. eapply later_cleaned; [exact Hl3|]. by eapply later_cleaned.
Qed.
Lemma grown_cleaned h h' : grown h h' -> cleaned h -> cleaned h'.
Proof using Type. intros Hg Hc j Hj. by apply Hg, Hc. Qed.
Lemma grown_inside h h' : grown h h' -> inside h -> inside h'.
Proof using Type. intros Hg [?|?]; [by left | right; by apply Hg]. Qed.
Lemma verify_back_wp s h : inside h -> W verify_back s h (fun h' s' r => grown h h' /\ (r = Ok tt -> closed_since h')).
Proof using Type.
  intros Hi. unfold verify_back, enter. apply wpm_bind, wpm_modify. apply wpm_bind, inside_await; [done..|]. intros x.
  assert (Hl : later_h h (recovery_upd _ h V_target x)) by (cbn; auto with js). set (h1 := recovery_upd _ h V_target x) in *. clearbody h1.
  destruct x as [[]|err]; [|split; [by apply later_grown | done]]. assert (Hi1 : inside h1) by by eapply later_inside.
  apply wpm_bind, guard_wp; [done|]. intros [[]|err]; [|split; [by apply later_grown | done]].
  apply wpm_bind, wpm_get, wpm_bind, safe_wp; intros _; [|split; [by apply later_grown | done]].
  eapply wpm_mono; [|apply verify_closed_wp; [apply guard_checks | done]]. intros h2 s2 r (Hg & _ & Hr). split; [|done]. etrans; [by apply later_grown | exact Hg].
Qed.
Lemma finish_wp owner s h : is_claimed h -> cleaned h -> closed_since h ->
  W (finish_recovery p owner) s h (fun h' s' r => grown h h' /\ (r = Ok tt -> F_attested ∈ hs_facts h')).
Proof using Type.
  intros Hc Hl Hclosed. unfold finish_recovery. assert (Hi : inside h) by by right.
  apply wpm_bind, note_state_wp; [done..|]. intros [[]|err]; [|by split].
  apply wpm_bind, inside_await; [done | by split |]. intros [[]|err]; [|by split]. cbn [recovery_upd is_ok learn_if].
  assert (H1 : grown h (learn F_released h)) by (apply later_grown, learn_later). assert (Hc1 : is_claimed (learn F_released h)) by (by apply H1).
  apply wpm_bind, note_state_wp; [by right | done |]. intros [[]|err]; [|by split].
  apply wpm_bind, inside_await; [by right | right; split; [done | apply elem_of_cons; by left] |]. intros [[]|err]; [|by split]. cbn [recovery_upd is_ok learn_if].
  assert (H2 : grown h (learn F_reserved (learn F_released h))) by (etrans; [exact H1 | apply later_grown, learn_later]).
  apply inside_await; [right; by apply H2 | apply elem_of_cons; by left |]. intros [[]|err]; cbn [recovery_upd is_ok learn_if]; [|by split].
  split; [etrans; [exact H2 | apply later_grown, learn_later] | intros _; apply elem_of_cons; by left].
Qed.
Lemma recover_action_wp owner s h : names s = map fj_filename (pr_journals p) -> is_claimed h ->
  W (recover_action p owner) s h (fun h' s' r => grown h h' /\ (r = Ok tt -> F_attested ∈ hs_facts h')).
Proof using Type.
  intros Hn Hc. assert (Hi : inside h) by (by right). unfold recover_action.
  apply wpm_bind. eapply wpm_mono; [|by apply give_back_wp]. intros h1 s1 [[]|err] [Hl Hclean]; [|split; [by apply later_grown | done]]. apply later_grown in Hl. specialize (Hclean eq_refl).
  apply wpm_bind. eapply wpm_mono; [|apply verify_back_wp; by eapply grown_inside]. intros h2 s2 [[]|err] [Hg Hclosed]; [|split; [by etrans | done]].
  assert (H2 : grown h h2) by by etrans. eapply wpm_mono; [|apply finish_wp; [by apply H2 | exact (grown_cleaned _ _ Hg Hclean) | by apply Hclosed]].
  intros h3 s3 r [Hg3 Hr]. split; [by etrans | done].
Qed.

(** *** Deadlines *)
Lemma expiring_wp {A} (q : prog recoveryE A) h (Q : History -> A -> Prop) : wp inside_pre any_reply recovery_upd q h Q ->
  wp recovery_pre any_reply recovery_upd (expiring q) h (fun h' o => match o with Some a => Q h' a | None => inside h' end).
Proof using Type.
  revert h. induction q as [a|X op k IH]; intros h; [done|]. cbn [wp expiring]. intros [[Hp Hi] Hk]. split; [done|].
  intros [|] _; [done|]. cbn [wp recovery_upd]. split; [done|]. intros x Hx. apply IH, Hk, Hx.
Qed.
Lemma raced_action_wp {A} (action : RM A) s h (Q : History -> Recovering -> res exn (Race A) -> Prop) :
  W action s h (fun h' s' r => Q h' s' (Ok (Settles _ r))) -> (forall h', inside h' -> Q h' s (Ok (Expires _))) -> WO (raced_action action) s h Q.
Proof using Type.
  intros Ha He. unfold wpm, raced_action. apply wp_bind. eapply wp_mono; [|apply expiring_wp, Ha].
  intros h' [[s' r]|]; [done | apply He].
Qed.
(** The action settles, or it is left where it was and cancelled. *)
Lemma bounded_wp {A} (action : RM A) stage cancel s h (Q : History -> Recovering -> res exn A -> Prop) :
  W action s h Q ->
  (forall h' (Q' : History -> Recovering -> res exn Stage -> Prop), inside h' -> (forall r, Q' h' s r) -> WO stage s h' Q') ->
  (forall h' (Q' : History -> Recovering -> res exn unit -> Prop), inside h' -> (forall r, Q' h' s r) -> WO cancel s h' Q') ->
  (forall h' e, inside h' -> Q h' s (Err e)) -> WO (bounded id (raced_action action) stage cancel) s h Q.
Proof using Type.
  intros Ha Hs Hc He. unfold bounded. apply wpm_bind, raced_action_wp; [eapply wpm_mono; [|exact Ha]; by intros|].
  intros h' Hi. apply wpm_bind, Hs; [done|]. intros [st|e]; [|by apply He]. apply wpm_bind. unfold outcome_of. apply wpm_try, wpm_bind, Hc; [done|].
  intros [[]|e]; apply wpm_ret; apply wpm_throw; by apply He.
Qed.

Lemma outside_await {X} (op : recoveryE (res exn X)) s h (Q : History -> Recovering -> res exn X -> Prop) :
  recovery_pre _ h op -> (forall x, Q (recovery_upd _ h op x) s x) -> WO (await op) s h Q.
Proof using Type. intros Hp HQ. apply wpm_await; [done|]. intros r _. apply HQ. Qed.
Lemma outside_await_ {X} (op : recoveryE X) s h (Q : History -> Recovering -> res exn X -> Prop) :
  recovery_pre _ h op -> (forall x, Q (recovery_upd _ h op x) s (Ok x)) -> WO (await_ op) s h Q.
Proof using Type. intros Hp HQ. apply wpm_await_; [done|]. intros r _. apply HQ. Qed.

(** What a run of the recovery comes to. *)
Definition concluded (h : History) (r : res exn unit) : Prop := r = Ok tt -> F_attested ∈ hs_facts h.
Lemma keep_previous_wp owner s h (Q : History -> Recovering -> res exn unit -> Prop) : is_claimed h -> (forall r, Q h s r) -> WO (keep_previous owner) s h Q.
Proof using Type.
  intros Hc HQ. unfold keep_previous. apply wpm_bind, outside_await_; [done|]. intros [|]; cbn [recovery_upd]; [|apply wpm_ret, HQ].
  apply wpm_bind, outside_await; [done|]. intros [v|e]; [|apply HQ]. apply outside_await; [done|]. intros r. apply HQ.
Qed.
Lemma claimed_wp owner now s h : names s = map fj_filename (pr_journals p) -> ~ free -> is_claimed h ->
  WO (claimed p owner now) s h (fun h' _ r => concluded h' r).
Proof using Type.
  intros Hn Hf Hc. unfold claimed. apply wpm_finally.
  assert (Hend : forall h' s' r, concluded h' r -> WO (await_ V_retire ;; await V_stop_heartbeat : RM unit) s' h' (fun h'' s'' r' => match r' with Ok _ => concluded h'' r | Err e => concluded h'' (Err e) end)).
  { intros h' s' r Hr. apply wpm_bind, outside_await_; [done|]. intros x. apply outside_await; [done|]. by intros [[]|e]. }
  eapply wpm_mono; [intros h' s' r Hr; apply Hend, Hr|]. clear Hend.
  assert (Hblocked : forall h' s' e, is_claimed h' -> WO (note_blocked p owner e ;; throw (match e with Harness h => Harness h | Foreign _ => harness RECOVERY end) : RM unit) s' h' (fun h'' s'' r => concluded h'' r)).
  { intros h' s' e Hc'. unfold note_blocked. apply wpm_bind, wpm_bind, outside_await_; [done|]. intros now'. apply outside_await; [done|]. intros [[]|e']; [by apply wpm_throw | done]. }
  apply wpm_try, wpm_bind, keep_previous_wp; [done|]. intros [[]|e]; [|by apply Hblocked].
  apply wpm_bind, outside_await; [done|]. intros [[]|e]; [|by apply Hblocked]. cbn [recovery_upd].
  apply bounded_wp.
  - eapply wpm_mono; [|by apply recover_action_wp]. intros h' s' [[]|e] [Hg Hr]; [done | apply Hblocked; by apply Hg].
  - intros h' Q' _ HQ'. apply wpm_bind, wpm_get, wpm_ret, HQ'.
  - intros h' Q' _ HQ'. apply wpm_bind, outside_await_; [done|]. intros x. apply outside_await; [done|]. intros r. apply HQ'.
  - intros h' e [Hi|Hi]; [done | by apply Hblocked].
Qed.

Lemma still_free_checks : checks (still_free p).
Proof using Type.
  intros s h Q Hi HQ. unfold still_free. apply wpm_bind, inside_await; [done..|]. intros [l|e]; [|apply HQ]. cbn [recovery_upd]. apply safe_wp; intros _; apply HQ.
Qed.
Lemma execute_free_wp s h : free -> WO (execute_free p) s h (fun h' _ r => concluded h' r).
Proof using Type.
  intros Hf. assert (Hi : forall h, inside h) by (by left). unfold execute_free. apply wpm_bind, bounded_wp.
  - apply wpm_bind, still_free_checks; [done|]. intros [[]|e]; [|done].
    apply wpm_bind. eapply wpm_mono; [|apply verify_closed_wp; [apply still_free_checks | done]]. intros h1 s1 [[]|e] (_ & -> & Hclosed); [|done]. specialize (Hclosed eq_refl).
    apply wpm_bind, inside_await; [done..|]. intros x. assert (Hl : later_h h1 (recovery_upd _ h1 V_target x)) by (cbn; auto with js).
    set (h2 := recovery_upd _ h1 V_target x) in *. clearbody h2. destruct x as [[]|e]; [|done].
    apply still_free_checks; [done|]. intros [[]|e]; [|done].
    apply wpm_bind, outside_await; [left; split; [done | by eapply later_closed]|]. intros [[]|e]; [|done]. cbn [recovery_upd is_ok learn_if].
    apply outside_await; [apply elem_of_cons; by left|]. intros [[]|e]; [|done]. cbn [recovery_upd is_ok learn_if]. intros _. apply elem_of_cons. by left.
  - intros h' Q' _ HQ'. apply wpm_ret, HQ'.
  - intros h' Q' _ HQ'. apply outside_await; [done|]. intros r. apply HQ'.
  - done.
Qed.

(** *** Before the claim *)
Lemma check_each {A} (l : list A) (f : A -> RM unit) (P : A -> History -> Prop) s h :
  (forall a h h', later_h h h' -> P a h -> P a h') ->
  (forall a s h, WO (f a) s h (fun h' s' r => later_h h h' /\ s' = s /\ (r = Ok tt -> P a h'))) ->
  WO (for_each l f) s h (fun h' s' r => later_h h h' /\ s' = s /\ (r = Ok tt -> forall a, a ∈ l -> P a h')).
Proof using Type.
  intros Hmono Hf. revert s h. induction l as [|a l IH]; intros s h; cbn [for_each].
  - apply wpm_ret. split; [done|]. split; [done|]. by intros _ a ?%elem_of_nil.
  - apply wpm_bind. eapply wpm_mono; [|by apply Hf]. intros h1 s1 [[]|err] (Hl & -> & Ha); [|by split].
    eapply wpm_mono; [|apply IH]. intros h2 s2 r (Hl2 & -> & Hr). split; [by etrans|]. split; [done|].
    intros -> x [->|Hx]%elem_of_cons; [by eapply Hmono; [|apply Ha] | by apply Hr].
Qed.
Lemma facts_mono f h h' : later_h h h' -> f ∈ hs_facts h -> f ∈ hs_facts h'.
Proof using Type. intros [Hf _ _]. apply Hf. Qed.
Lemma staged_wp {A} stage (m : RM A) s h (Q : History -> Recovering -> res exn A -> Prop) :
  WO m s h (fun h' s' r => match r with Ok a => Q h' s' (Ok a) | Err e => Q h' s' (Err (staged stage e)) end) -> WO (atStage stage m) s h Q.
Proof using Type. intros Hm. apply wpm_try. eapply wpm_mono; [|exact Hm]. by intros h' s' [a|e]. Qed.

Lemma check_journal_wp j s h :
  WO (check_journal j) s h (fun h' s' r => later_h h h' /\ s' = s /\ (r = Ok tt -> forall e, e ∈ map fst (recoveryPlan (fj_data j)) -> F_entry j e ∈ hs_facts h')).
Proof using Type.
  unfold check_journal. apply (check_each _ _ (fun e h => F_entry j e ∈ hs_facts h)); [intros; by eapply facts_mono|]. intros e s1 h1. unfold check_entry.
  apply staged_wp, wpm_bind, outside_await; [done|]. intros [current|err]; [|done]. cbn [recovery_upd]. unfold requireSafeM. apply wpm_of_res. unfold requireSafe.
  destruct current as [c|]; [destruct (bool_decide _)|]; cbn [learn_if]; try done; (split; [apply learn_later|]; split; [done|]; intros _; apply elem_of_cons; by left).
Qed.
Lemma check_module_wp m s h : WO (check_module m) s h (fun h' s' r => later_h h h' /\ s' = s /\ (r = Ok tt -> F_module m ∈ hs_facts h')).
Proof using Type.
  unfold check_module. apply staged_wp, wpm_bind, outside_await; [done|]. intros [[]|err]; [|done]. cbn [recovery_upd].
  apply wpm_bind, outside_await; [done|]. intros [c|err]; [|done]. cbn [recovery_upd]. cbv zeta. unfold requireSafeM. apply wpm_of_res. unfold requireSafe.
  destruct (same_revision c (receipt_object m "applied" ?? module_original m) _); cbn [learn_if].
  - split; [etrans; [apply learn_later | apply learn_if_later]|]. split; [done|]. intros _. eapply facts_mono; [apply learn_if_later|]. apply elem_of_cons. by left.
  - split; [apply learn_if_later | done].
Qed.
Lemma check_sharing_wp r s h : WO (check_sharing r) s h (fun h' s' x => later_h h h' /\ s' = s /\ (x = Ok tt -> F_sharing r ∈ hs_facts h')).
Proof using Type.
  unfold check_sharing. apply staged_wp, outside_await; [done|]. intros [[]|err]; cbn [recovery_upd is_ok learn_if]; [|done].
  split; [apply learn_later|]. split; [done|]. intros _. apply elem_of_cons. by left.
Qed.

Lemma execute_held_wp s h : names s = map fj_filename (pr_journals p) -> ~ free -> F_target ∈ hs_facts h -> WO (execute_held p) s h (fun h' _ r => concluded h' r).
Proof using Type.
  intros Hn Hf Ht. unfold execute_held. apply wpm_bind, outside_await_; [done|]. intros owner. cbn [recovery_upd].
  apply wpm_bind. eapply wpm_mono; [|apply (check_each _ _ (fun j h => forall e, e ∈ map fst (recoveryPlan (fj_data j)) -> F_entry j e ∈ hs_facts h)); [intros j h1 h2 Hl Hj e He; by eapply facts_mono, Hj | intros; apply check_journal_wp]].
  intros h1 s1 [[]|err] (Hl1 & -> & Hj); [|done]. specialize (Hj eq_refl).
  apply wpm_bind. eapply wpm_mono; [|apply (check_each _ _ (fun m h => F_module m ∈ hs_facts h)); [intros; by eapply facts_mono | intros; apply check_module_wp]].
  intros h2 s2 [[]|err] (Hl2 & -> & Hm); [|done]. specialize (Hm eq_refl).
  apply wpm_bind. eapply wpm_mono; [|apply (check_each _ _ (fun r h => F_sharing r ∈ hs_facts h)); [intros; by eapply facts_mono | intros; apply check_sharing_wp]].
  intros h3 s3 [[]|err] (Hl3 & -> & Hs); [|done]. specialize (Hs eq_refl).
  apply wpm_bind, outside_await_; [done|]. intros now. cbn [recovery_upd].
  assert (H13 : later_h h1 h3) by (by etrans). apply wpm_bind, outside_await.
  { split; [done|]. split; [by eapply facts_mono, facts_mono, Ht|]. split; [intros j e Hj' He; by eapply facts_mono, Hj|]. split; [intros m Hm'; by eapply facts_mono, Hm | done]. }
  intros [[]|err]; [|done]. cbn [recovery_upd is_ok learn_if]. apply wpm_bind, outside_await_; [done|]. intros x. cbn [recovery_upd].
  apply claimed_wp; [done | done | apply elem_of_cons; by left].
Qed.

Lemma execute_wp : WO (execute p) (start p) no_history (fun h' _ r => forall run, r = Ok run -> run = pr_runId p /\ F_attested ∈ hs_facts h').
Proof using Type.
  unfold execute. apply wpm_bind, outside_await; [done|]. intros [[]|err]; cbn [recovery_upd is_ok learn_if]; [|done]. apply wpm_bind.
  destruct (free_lease (pr_expected p)) eqn:Ef; (eapply wpm_mono; [|first [by apply execute_free_wp | apply execute_held_wp; [done | unfold free; by rewrite Ef | by apply list_elem_of_singleton]]]);
    intros h' s' [[]|e] Hh; try done; intros run [= <-]; split; [done | by apply Hh | done | by apply Hh].
Qed.

(** C12: a recovery claims the Lease only after the target was verified and every resource,
    module and sharing setting of the run was seen as its receipts say; before the claim it
    changes nothing, and for a free Lease nothing but evidence. Journals are cleaned up before a
    module or a GPU setting is given back; the Lease is released only when, by receipts listed
    afresh, nothing is open, every resource was seen to be gone and the newest revision of every
    borrowed object to be back; reservations are completed after that and the run attested last,
    which a recovery that returns has done. *)
Theorem recovery_ordered tr q : steps (execute p (start p)) tr q ->
  respects recovery_pre recovery_upd no_history tr /\
  forall s run, q = Done (s, Ok run) -> run = pr_runId p /\ F_attested ∈ hs_facts (foldl (ghost recovery_upd) no_history tr).
Proof using Type.
  intros Hs. assert (Ha : forall h tr, admissible any_reply recovery_upd h tr) by (intros h tr'; revert h; induction tr' as [|[X op x] tr' IH]; intros h; [done | by split]).
  destruct (wp_steps _ _ _ _ _ _ _ _ execute_wp Hs (Ha _ _)) as [Hr Hw]. split; [done|]. intros s run ->. by apply Hw.
Qed.
End recovery.

(** ** What may be recovered *)
Section gate.
Context `{Sha256} `{Collation} `{DateFallback}.

(** The processes of the run are over: its parent said so, its Kubernetes execution has a proof
    of its end, the parent has been silent for three minutes where no proof is demanded, or,
    for a run without a session, there is a report older than the drain. *)
Definition processes_over (files : Files) (runId : string) (identity : RecoveryIdentity) (now reported : Z) (requireTermination : bool) : Prop :=
  (exists body session updated, read_in files "runner-session.json" = Ok body /\ JSON_parse body = Some session /\
     base.mbind Date_parse (text_field (json_obj session ?? []) "updatedAt") = Some updated /\
     (session_stopped session = true \/ verifiedKubernetesTermination files runId identity = true \/ requireTermination = false /\ updated + 180000 <= now)) \/
  (file_in files "runner-session.json" = None /\ is_ok (read_in files "summary.json") = true /\ reported + drain <= now).

Lemma session_over_ok files runId identity now reported rt : session_over files runId identity now rt = Ok tt -> processes_over files runId identity now reported rt.
Proof using Type.
  unfold session_over. destruct (read_in files "runner-session.json") as [body|] eqn:Eb; [|done]. cbn [res_bind]. unfold parse_text.
  destruct (JSON_parse body) as [session|] eqn:Es; [|done]. cbn [res_bind]. destruct (properties session) as [d|] eqn:Ep; [|done]. cbn [res_bind]. apply properties_ok in Ep as ->.
  destruct (base.mbind Date_parse _) as [updated|] eqn:Eu; [|done]. destruct (requireSafe _ _); [|done]. cbn [res_bind]. cbv zeta. intros Hg. left. exists body, session, updated.
  split; [done|]. split; [done|]. split; [done|]. destruct (session_stopped session); [by left|]. right. cbn [negb] in Hg. rewrite !andb_true_r in Hg.
  destruct rt; cbn [andb negb] in Hg.
  - left. by destruct (verifiedKubernetesTermination files runId identity).
  - right. split; [done|]. apply requireSafe_ok in Hg. cbn [orb] in Hg. apply Z.leb_le in Hg. lia.
Qed.
Lemma report_over_ok files runId identity now reported rt : file_in files "runner-session.json" = None -> report_over files reported runId now = Ok tt ->
  processes_over files runId identity now reported rt.
Proof using Type.
  intros Hf. unfold report_over. destruct (read_in files "summary.json") as [body|] eqn:Eb; [|done]. cbn [res_bind]. destruct (parse_text body) as [summary|]; [|done]. cbn [res_bind].
  destruct (properties summary); [|done]. cbn [res_bind]. intros Hg. apply requireSafe_ok in Hg. bool_prop. right. split; [done|]. split; [by rewrite Eb | lia].
Qed.

Lemma filter_nil_none {A} (f : A -> bool) l : List.filter f l = [] -> length (List.filter f l) = 0%nat.
Proof using Type. by intros ->. Qed.
Lemma plans_empty_sum js : plans_empty js = true -> foldl (fun n j => n + Z.of_nat (length (recoveryPlan (fj_data j)))) 0 js = 0.
Proof using Type.
  unfold plans_empty. rewrite forallb_elem. induction js as [|j js IH]; intros Hall; [done|]. cbn [foldl]. rewrite (foldl_sum plan_size).
  assert (E : recoveryPlan (fj_data j) = []) by (specialize (Hall j (proj2 (elem_of_cons _ _ _) (or_introl eq_refl))); by apply bool_decide_eq_true in Hall).
  rewrite E. fold plan_size. assert (IH' : foldl (fun n j => n + plan_size j) 0 js = 0) by (apply IH; intros; apply Hall, elem_of_cons; by right). rewrite IH'. done.
Qed.

(** What a prepared recovery rests on. *)
Record recoverable (root : string) (runs : string -> option RunTree) (l : Lease) (identity : RecoveryIdentity) (now reported : Z) (rt : bool) (p : Prepared) : Prop := {
  rb_lease : appliance_lease l identity = true;
  rb_expired : free_lease l = true \/ leaseHolderReason l now = Some LOCK_STALE /\ drained l now = true;
  rb_run : lease_run l = Some (pr_runId p) /\ rtest run_pattern (pr_runId p) = true;
  rb_directory : pr_directory p = path_join root (pr_runId p);
  rb_inventory : exists t paths v, runs (pr_directory p) = Some t /\ processes_over (rt_files t) (pr_runId p) identity now reported rt /\
    recoveryInventory (pr_directory p) t identity = Ok (paths, v) /\ iv_unfinished v = 0 /\ pr_journals p = iv_journals v /\
    (forall m, m ∈ pr_modules p <-> m ∈ iv_modules v /\ mr_state m <> "restored") /\ (forall s, s ∈ pr_sharing p <-> s ∈ iv_sharing v /\ sr_pending s = true) /\
    (exists owner, previous_owner (rt_files t) (pr_runId p) identity l = Ok owner /\ owner_known l (pr_runId p) (iv_journals v) owner = true) /\
    (free_lease l = true -> iv_open v = 0)
}.

End gate.

(** ** Witnesses *)
#[local] Existing Instance example_sha.
#[local] Existing Instance example_order.
#[local] Existing Instance example_dates.

(** A run that died with an application and a borrowed module. *)
Definition dead_entry : JournalEntry :=
  {| je_kind := K_app; je_name := run_prefix example_run +:+ "app"; je_uid := Some "uid-1"; je_state := E_owned; je_generation := None; je_cleanupFailure := None |}.
Definition dead_module : json :=
  receipt_json {| BorrowedModule.rc_original := module_object 1 false; BorrowedModule.rc_applied := Some (module_object 2 true); BorrowedModule.rc_restored := None; BorrowedModule.rc_state := Applied |}.
Definition dead_session : json :=
  JObj [("version", JNum (Int 1)); ("runId", JStr example_run); ("targetUid", JStr "appliance"); ("state", JStr "running"); ("updatedAt", JStr example_time)].
Definition dead_tree : RunTree :=
  {| rt_private := true; rt_workers := [];
     rt_files := [("journal.json", Some (body_of (journal_json (example_journal example_run [dead_entry])))); ("borrowed-module.json", Some (body_of dead_module));
                  ("runner-session.json", Some (body_of dead_session))] |}.
Definition dead_runs (path : string) : option RunTree := if String.eqb path example_directory then Some dead_tree else None.
Definition dead_lease : Lease :=
  {| apiVersion := "coordination.k8s.io/v1"; kind := "Lease";
     Lease.metadata := {| md_name := "lab"; md_namespace := "ai-system"; md_uid := Some "lease-1"; md_resourceVersion := "7";
                          md_labels := {[ appliance_label := "appliance" ]}; md_annotations := Some {[ a_run_id := example_run ]} |};
     spec := {| sp_holderIdentity := Some example_run; sp_renewTime := Some example_time; sp_leaseDurationSeconds := Some 120 |} |}.
Definition dead_time : Z := (Date_parse example_time ?? 0) + 400000.
Definition dead_prepared : Prepared :=
  match prepare "/runs" dead_runs dead_lease example_identity dead_time 0 false with
  | Ok p => p
  | Err _ => {| pr_runId := ""; pr_directory := ""; pr_expected := dead_lease; pr_identity := example_identity; pr_journals := []; pr_modules := []; pr_sharing := [] |}
  end.


(** A world in which everything is as recorded and can be given back. *)
Definition removed_data (d : JournalData) : JournalData := with_entries (map entry_removed (jd_entries d)) d.
Definition closed_journal (j : FoundJournal) : FoundJournal := {| fj_path := fj_path j; fj_filename := fj_filename j; fj_data := removed_data (fj_data j) |}.
Definition closed_inventory : Inventory :=
  {| iv_journals := map closed_journal (pr_journals dead_prepared); iv_modules := []; iv_sharing := []; iv_leases := []; iv_unfinished := 0; iv_files := [] |}.
Definition good_world (X : Type) (op : recoveryE X) (w : unit) : X * unit :=
  match op in recoveryE X return X * unit with
  | V_target | V_resume_module _ | V_reconcile_module _ | V_restore_module _ | V_recoverable _ | V_reconcile_sharing _ | V_restored _ _ | V_acquire | V_guard
  | V_release | V_stop_heartbeat | V_store _ _ _ | V_reservations | V_attest | V_cancel | V_wait _ => (Ok tt, w)
  | V_lease => (Ok dead_lease, w)
  | V_owner | V_now_text => ("reg-11111111-1111-1111-1111-111111111111", w)
  | V_lookup _ e => (Ok None, w)
  | V_removed _ _ => (Ok true, w)
  | V_absent j _ | V_cleanup j => ((removed_data (fj_data j), Ok tt), w)
  | V_read_module m => (Ok (module_object 2 true), w)
  | V_resume_sharing _ | V_restore_sharing _ => (Ok [], w)
  | V_provider _ _ => (Err (harness API), w)
  | V_retired | V_exists _ | V_expired | V_timer => (false, w)
  | V_retire | V_start_heartbeat => (tt, w)
  | V_load _ => (Err (harness PRIVATE_FILE), w)
  | V_inventory => (Ok closed_inventory, w)
  | V_now => (0, w)
  end.
Definition dead_run : prog recoveryE (Recovering * res exn string) := execute dead_prepared (start dead_prepared).
Definition dead_end : Recovering := (exec good_world dead_run tt).1.1.
Lemma recovery_ordered_witness :
  example_run = pr_runId dead_prepared /\ F_attested ∈ hs_facts (foldl (ghost recovery_upd) no_history (trace good_world dead_run tt)).
Proof.
  pose proof (exec_steps good_world dead_run tt) as Hs.
  assert (E : (exec good_world dead_run tt).1 = (dead_end, Ok example_run)) by (vm_compute; reflexivity). rewrite E in Hs. unfold dead_run in Hs at 1.
  destruct (recovery_ordered dead_prepared _ _ Hs) as [_ Hrun]. exact (Hrun dead_end example_run eq_refl).
Defined.

(** A module that was changed, given back (generation 3) and asked for again when its run died is
    as [BorrowedModule] expects it, but not as the recovery does, which fails with CONFLICT
    whenever it is tried. *)
Definition again_module : ModuleReceipt :=
  {| mr_filename := "borrowed-module.json"; mr_state := "requested"; mr_value := json_obj (receipt_json receipt_again) ?? [] |}.
Definition again_world (X : Type) (op : recoveryE X) (w : unit) : X * unit :=
  match op in recoveryE X return X * unit with V_read_module m => (Ok (module_object 3 false), w) | op => good_world _ op w end.
Example recovery_forgets :
  match BorrowedModule.resume_value (JObj (mr_value again_module)) with Ok b => is_expected (module_object 3 false) (expected_object b) | Err _ => false end = true /\
  (exec again_world (check_module again_module (start dead_prepared)) tt).1.2 = Err (staged S_recovery_module (harness CONFLICT)).
Proof. split; vm_compute; reflexivity. Qed.
