(* ===== verification/SharingProps.v ===== *)
(** * Borrowed sharing: what it writes and what a restore means

    Every request is a compare-and-set of a setting this run owns, announced in the file
    first; a lost answer is never taken for success ([sharing_guarded]); and [restore]
    succeeds only when every setting was read back as it was found ([sharing_restored]). *)

From S2P Require Import Prelude Js Number Json Prog Errors Contracts DashboardCore Canonical Poll BorrowedSharing.

Local Open Scope string_scope.
Local Open Scope js_scope.
Local Open Scope Z_scope.

(** ** The environment *)

(** What is known of a provider's setting: nothing yet, nothing since a request, or the last
    read. *)
Inductive Evidence : Type := V_none | V_unknown | V_read (v : SharingSnapshot).

Record Ghost : Type := {
  gs_seen : Provider -> Evidence;
  gs_held : bool;
  gs_file : option SharingData;
  (** The clock is not behind this. *)
  gs_time : Z
}.

Definition learn (p : Provider) (v : Evidence) (g : Ghost) : Ghost :=
  {| gs_seen := fun q => if bool_decide (q = p) then v else gs_seen g q; gs_held := false; gs_file := gs_file g; gs_time := gs_time g |}.
Definition set_held (b : bool) (g : Ghost) : Ghost := {| gs_seen := gs_seen g; gs_held := b; gs_file := gs_file g; gs_time := gs_time g |}.
Definition set_file (d : option SharingData) (g : Ghost) : Ghost := {| gs_seen := gs_seen g; gs_held := false; gs_file := d; gs_time := gs_time g |}.
Definition set_time (t : Z) (g : Ghost) : Ghost := {| gs_seen := gs_seen g; gs_held := gs_held g; gs_file := gs_file g; gs_time := t |}.

Definition provider_of (r : GpuSharingRequest) : Provider :=
  match GpuSharingRequest_provider r with GpuSharingRequest_provider_t_amd => amd | GpuSharingRequest_provider_t_nvidia => nvidia end.

Definition sharing_upd X (g : Ghost) (op : sharingE X) : X -> Ghost :=
  match op in sharingE X return X -> Ghost with
  | S_write d _ => fun r => set_file (if is_ok r then Some d else gs_file g) g
  | S_held => fun r => set_held (is_ok r) g
  | S_read p => fun r => match r with Ok v => learn p (V_read v) g | Err _ => set_held false g end
  | S_apply r => fun _ => learn (provider_of r) V_unknown g
  | S_now => fun t => set_time t g
  | S_wait us => fun r => if is_ok r then set_time (gs_time g + Z.max 0 us) g else g
  | S_load | S_stage _ | S_timer => fun _ => g
  end.

(** The clock does not run backwards, and waits last. *)
Definition sharing_asm X (g : Ghost) (op : sharingE X) : X -> Prop :=
  match op in sharingE X return X -> Prop with
  | S_now => fun t => gs_time g <= t
  | _ => fun _ => True
  end.

(** The same loan: only the generation, the last specification and the status change. *)
Definition same_loan (e e' : BorrowedEntry) : Prop := e' = entry_with (be_generation e') (be_lastSpec e') (be_state e') e.
(** Entries stay what was borrowed, and one may be added. *)
Definition loans_kept (d d' : SharingData) : Prop :=
  sd_identity d' = sd_identity d /\ forall i e, sd_entries d !! i = Some e -> exists e', sd_entries d' !! i = Some e' /\ same_loan e e'.

Section specification.
Context `{Collation} (d0 : SharingData).

(** An entry that is not pending is backed by the last read of its provider, or is as it was
    when nothing of its provider has been touched. *)
Definition backed (g : Ghost) (i : nat) (e : BorrowedEntry) : Prop :=
  match gs_seen g (be_provider e) with
  | V_none => sd_entries d0 !! i = Some e
  | V_unknown => False
  | V_read v => is_owned e (ss_object v) = true
  end.
Definition settled (g : Ghost) (d : SharingData) : Prop :=
  forall i e, sd_entries d !! i = Some e -> be_state e <> B_pending -> backed g i e.

Definition sharing_pre X (g : Ghost) (op : sharingE X) : Prop :=
  match op with
  | S_apply r =>
      gs_held g = true /\
      exists d i e v, gs_file g = Some d /\ sd_entries d !! i = Some e /\ be_provider e = provider_of r /\ be_state e = B_pending /\
        gs_seen g (provider_of r) = V_read v /\ is_owned e (ss_object v) = true /\
        is_here (sd_identity d) (be_provider e) v = true /\
        GpuSharingRequest_expectedRevision r = GpuSharingState_expectedRevision (ss_state v)
  | S_write d create_only => create_only = false /\ loans_kept d0 d /\ settled g d
  | _ => True
  end.

Notation W m := (wpm sharing_pre sharing_asm sharing_upd m).

Definition distinct (d : SharingData) : Prop := NoDup (map be_provider (sd_entries d)).
Definition sound (d : SharingData) (g : Ghost) : Prop := distinct d /\ loans_kept d0 d /\ settled g d.
Definition kept (d : SharingData) : Prop := distinct d /\ loans_kept d0 d.
(** After an error that is not a rejection the call writes no more. *)
Definition sound_after {A} (r : res sharing_exn A) (d : SharingData) (g : Ghost) : Prop :=
  match r with Err (Thrown _) => kept d | _ => sound d g end.

(** ** Entries *)
Lemma same_loan_refl e : same_loan e e.
Proof. by destruct e. Qed.
Lemma same_loan_trans e1 e2 e3 : same_loan e1 e2 -> same_loan e2 e3 -> same_loan e1 e3.
Proof. unfold same_loan. intros H1 H2. rewrite H2, H1. done. Qed.
Lemma same_loan_with g l st e : same_loan e (entry_with g l st e).
Proof. done. Qed.
Lemma same_loan_provider e e' : same_loan e e' -> be_provider e' = be_provider e.
Proof. by intros ->. Qed.
Lemma same_loan_original e e' : same_loan e e' -> be_originalSpec e' = be_originalSpec e.
Proof. by intros ->. Qed.

Lemma set_entry_lookup i f d j : sd_entries (set_entry i f d) !! j = if decide (i = j) then f <$> sd_entries d !! j else sd_entries d !! j.
Proof. cbn. rewrite list_lookup_alter. case_decide as Hij; [by subst | done]. Qed.
Lemma set_entry_eq i f d e : sd_entries d !! i = Some e -> sd_entries (set_entry i f d) !! i = Some (f e).
Proof. intros He. by rewrite set_entry_lookup, decide_True, He. Qed.
Lemma set_entry_ne i f d j : i <> j -> sd_entries (set_entry i f d) !! j = sd_entries d !! j.
Proof. intros Hne. by rewrite set_entry_lookup, decide_False. Qed.

Lemma set_entry_loans i f d e : loans_kept d0 d -> sd_entries d !! i = Some e -> same_loan e (f e) -> loans_kept d0 (set_entry i f d).
Proof.
  intros [Hid Hl] He Hf. split; [done|]. intros j e0 Hj. destruct (Hl j e0 Hj) as (e1 & H1 & H2). destruct (decide (i = j)) as [<-|Hne].
  - exists (f e). rewrite (set_entry_eq _ _ _ e) by done. split; [done|]. simplify_eq. by eapply same_loan_trans.
  - exists e1. by rewrite set_entry_ne.
Qed.

Lemma set_entry_distinct i f d e : distinct d -> sd_entries d !! i = Some e -> same_loan e (f e) -> distinct (set_entry i f d).
Proof.
  unfold distinct. intros Hd He Hf. cbn [sd_entries set_entry]. replace (map be_provider (alter f i (sd_entries d))) with (map be_provider (sd_entries d)); [done|].
  symmetry. apply list_eq. intros j. rewrite !list_lookup_fmap, list_lookup_alter. case_decide as Hij; [|done]. subst j. rewrite He. cbn.
  by rewrite (same_loan_provider _ _ Hf).
Qed.

Lemma distinct_provider d i j e e' : distinct d -> sd_entries d !! i = Some e -> sd_entries d !! j = Some e' ->
  be_provider e = be_provider e' -> i = j.
Proof. intros Hd Hi Hj Hp. eapply NoDup_lookup; [exact Hd | by rewrite list_lookup_fmap, Hi | rewrite list_lookup_fmap, Hj; cbn; by rewrite Hp]. Qed.

Lemma distinct_position d i e : distinct d -> sd_entries d !! i = Some e -> position (be_provider e) d = Some i.
Proof.
  intros Hd Hi. unfold position. rewrite (proj2 (list_find_Some _ _ i e)); [done|]. split_and!; [done | done|].
  intros j e' Hj Hlt Hp. pose proof (distinct_provider _ _ _ _ _ Hd Hj Hi Hp). lia.
Qed.

(** Changing an entry keeps the others backed. *)
Lemma settled_set i f d e g : distinct d -> settled g d -> sd_entries d !! i = Some e ->
  (be_state (f e) <> B_pending -> backed g i (f e)) -> settled g (set_entry i f d).
Proof.
  intros Hd Hs He Hf j e' Hj Hp. rewrite set_entry_lookup in Hj. case_decide as Hij; [|by apply Hs].
  subst j. rewrite He in Hj. injection Hj as <-. by apply Hf.
Qed.

(** A read of one provider keeps the entries of the others backed. *)
Lemma settled_learn i d e v g : distinct d -> settled g d -> sd_entries d !! i = Some e ->
  (be_state e <> B_pending -> match v with V_none => False | V_unknown => False | V_read v => is_owned e (ss_object v) = true end) ->
  settled (learn (be_provider e) v g) d.
Proof.
  intros Hd Hs He Hv j e' Hj Hp. unfold backed, learn. cbn [gs_seen]. case_bool_decide as Hpe.
  - assert (j = i) as -> by (eapply distinct_provider; eauto). simplify_eq. specialize (Hv Hp). by destruct v.
  - by apply Hs.
Qed.

Lemma sound_seen d g g' : gs_seen g' = gs_seen g -> sound d g -> sound d g'.
Proof. intros Hg (H1 & H2 & H3). split_and!; [done..|]. intros i e Hi Hp. specialize (H3 i e Hi Hp). unfold backed in *. by rewrite Hg. Qed.

Lemma sound_kept d g : sound d g -> kept d.
Proof. by intros (? & ? & _). Qed.
Lemma sound_any {A} (r : res sharing_exn A) d g : sound d g -> sound_after r d g.
Proof. intros Hs. destruct r as [|[]]; [done | done | by eapply sound_kept]. Qed.

(** Only entry [i] and what is known of its provider [p] have changed. *)
Definition others (i : nat) (p : Provider) (d : SharingData) (g : Ghost) (d' : SharingData) (g' : Ghost) : Prop :=
  (forall j, j <> i -> sd_entries d' !! j = sd_entries d !! j) /\ (forall q, q <> p -> gs_seen g' q = gs_seen g q) /\ gs_time g <= gs_time g'.

Lemma others_refl i p d g g' : (forall q, q <> p -> gs_seen g' q = gs_seen g q) -> gs_time g <= gs_time g' -> others i p d g d g'.
Proof. done. Qed.
Lemma others_trans i p d g d1 g1 d2 g2 : others i p d g d1 g1 -> others i p d1 g1 d2 g2 -> others i p d g d2 g2.
Proof.
  intros (A1 & A2 & A3) (B1 & B2 & B3). split_and!; [|intros q Hq; by rewrite B2, A2 | lia]. intros j Hj. by rewrite B1, A1.
Qed.
Lemma others_set i p d g f : others i p d g (set_entry i f d) g.
Proof. split_and!; [intros j Hj; by apply set_entry_ne | done | lia]. Qed.
Lemma learn_others p v g q : q <> p -> gs_seen (learn p v g) q = gs_seen g q.
Proof. intros Hq. cbn. by rewrite bool_decide_false. Qed.
Lemma learn_seen p v g : gs_seen (learn p v g) p = v.
Proof. cbn. by rewrite bool_decide_true. Qed.

(** ** Operations *)
Lemma sharing_persist_wp d g (Q : Ghost -> SharingData -> res sharing_exn unit -> Prop) : sound d g ->
  Q (set_file (Some d) g) d (Ok tt) -> (forall err, Q (set_file (gs_file g) g) d (Err err)) -> W persist d g Q.
Proof.
  intros (H1 & H2 & H3) Hok Herr. unfold persist. wpm_step. wpm_step. wpm_step; [done|]. by intros [[]|err] _.
Qed.

Lemma require_wp b c d g (Q : Ghost -> SharingData -> res sharing_exn unit -> Prop) :
  (b = true -> Q g d (Ok tt)) -> (forall e, Q g d (Err (Thrown e))) -> W (require b c) d g Q.
Proof. intros H1 H2. unfold require. destruct b; [by apply wpm_ret, H1 | by apply wpm_throw]. Qed.

Lemma held_wp d g (Q : Ghost -> SharingData -> res sharing_exn unit -> Prop) : (forall r, Q (set_held (is_ok r) g) d r) -> W (await S_held) d g Q.
Proof. intros HQ. wpm_step; [done|]. intros r _. apply HQ. Qed.

Definition read_ghost (e : BorrowedEntry) (v : SharingSnapshot) (g : Ghost) : Ghost := learn (be_provider e) (V_read v) (set_held true g).

Lemma read_sound i d e v g : sound d g -> sd_entries d !! i = Some e -> is_owned e (ss_object v) = true -> sound d (read_ghost e v g).
Proof.
  intros (H1 & H2 & H3) He Ho. split_and!; [done..|]. eapply settled_learn; eauto.
Qed.

Lemma current_wp i e d g (Q : Ghost -> SharingData -> res sharing_exn SharingSnapshot -> Prop) :
  sound d g -> sd_entries d !! i = Some e ->
  (forall v, is_owned e (ss_object v) = true -> is_here (sd_identity d) (be_provider e) v = true ->
     sound d (read_ghost e v g) -> Q (read_ghost e v g) d (Ok v)) ->
  (forall g' err, others i (be_provider e) d g d g' -> sound_after (Err (A := SharingSnapshot) err) d g' -> Q g' d (Err err)) ->
  W (current e) d g Q.
Proof.
  intros Hs He Hok Herr. unfold current. wpm_step. apply held_wp. intros [[]|err]; cbn [is_ok].
  2: { apply Herr; [by apply others_refl | apply sound_any; by apply (sound_seen _ g)]. }
  wpm_step. wpm_step; [done|]. intros [v|err] _; cbn.
  2: { apply Herr; [by apply others_refl | apply sound_any; by apply (sound_seen _ g)]. }
  change (learn (be_provider e) (V_read v) (set_held true g)) with (read_ghost e v g).
  assert (Hoth : others i (be_provider e) d g d (read_ghost e v g)) by (apply others_refl; [intros q Hq; exact (learn_others _ (V_read v) (set_held true g) q Hq) | done]).
  wpm_step. apply require_wp; [|intros; apply Herr; [done | by apply (sound_kept d g)]]. intros Ho. wpm_step. wpm_step. wpm_step. apply require_wp; [|intros; apply Herr; [done | by apply (sound_kept d g)]].
  intros Hh. apply andb_prop in Hh as [Hh _]. wpm_step. apply Hok; [done | done | by eapply read_sound].
Qed.

(** ** Writing *)

Definition wrote (i : nat) (e : BorrowedEntry) (d : SharingData) (g : Ghost) (g' : Ghost) (d' : SharingData) (r : res sharing_exn unit) : Prop :=
  others i (be_provider e) d g d' g' /\ sound_after r d' g' /\ exists e', sd_entries d' !! i = Some e' /\ same_loan e e'.

Lemma sound_set i d e f g : sound d g -> sd_entries d !! i = Some e -> same_loan e (f e) ->
  (be_state (f e) <> B_pending -> backed g i (f e)) -> sound (set_entry i f d) g.
Proof.
  intros (H1 & H2 & H3) He Hf Hb. split_and!; [by eapply set_entry_distinct | by eapply set_entry_loans | by eapply settled_set].
Qed.

(** While entry [i] is pending, whatever is learned of its provider keeps the rest sound. *)
Lemma pending_sound i e d v g : sound d g -> sd_entries d !! i = Some e -> be_state e = B_pending -> sound d (learn (be_provider e) v g).
Proof.
  intros (H1 & H2 & H3) He Hst. split_and!; [done..|]. eapply settled_learn; eauto. by intros [].
Qed.

Lemma wrote_trans i e d g d1 g1 r g' d' : others i (be_provider e) d g d1 g1 -> wrote i e d1 g1 g' d' r -> wrote i e d g g' d' r.
Proof. intros H1 (H2 & H3 & H4). split_and!; [by eapply others_trans | done..]. Qed.

(** The method fails, leaving what [wrote] says. *)
Definition failed (i : nat) (e : BorrowedEntry) (d : SharingData) (g : Ghost) (g' : Ghost) (d' : SharingData) (r : res sharing_exn unit) : Prop :=
  is_ok r = false /\ wrote i e d g g' d' r.

Lemma wrote_mono i e d g d1 g1 (m : SM unit) : others i (be_provider e) d g d1 g1 -> W m d1 g1 (wrote i e d1 g1) -> W m d1 g1 (wrote i e d g).
Proof. intros Ho. apply wpm_mono. intros g' d' r. by apply wrote_trans. Qed.

Lemma wrote_err i e d g err : sound_after (Err (A := unit) err) d g -> (exists e', sd_entries d !! i = Some e' /\ same_loan e e') ->
  wrote i e d g g d (Err err).
Proof. intros H1 H2. split_and!; [by apply others_refl | done..]. Qed.

(** Setting the entry to a status backed by the read, and storing it. *)
Lemma settle_wp i e e1 f v d g (Q : Ghost -> SharingData -> res sharing_exn unit -> Prop) :
  sound d g -> sd_entries d !! i = Some e1 -> same_loan e e1 -> same_loan e1 (f e1) -> be_state (f e1) <> B_pending ->
  gs_seen g (be_provider e) = V_read v -> is_owned (f e1) (ss_object v) = true ->
  (forall g', gs_seen g' = gs_seen g -> gs_time g' = gs_time g -> sound (set_entry i f d) g' ->
     Q g' (set_entry i f d) (Ok tt) /\ forall err, Q g' (set_entry i f d) (Err err)) ->
  W (modify (set_entry i f) ;; persist) d g Q.
Proof.
  intros Hs He Hl Hf Hst Hseen Ho HQ.
  assert (Hs1 : sound (set_entry i f d) g).
  { eapply sound_set; [done..|]. intros _. unfold backed. rewrite (same_loan_provider e) by (by eapply same_loan_trans). by rewrite Hseen. }
  wpm_step. wpm_step. apply sharing_persist_wp; [done| |].
  - by apply HQ; [| | apply (sound_seen _ g)].
  - intros err. by apply HQ; [| | apply (sound_seen _ g)].
Qed.

Lemma write_rejected_wp i e err d g :
  sound d g -> sd_entries d !! i = Some (entry_state B_pending e) ->
  W (match err with
     | WriteRejected _ => let! _ := current e in modify (set_entry i (entry_state B_borrowed)) ;; persist
     | Thrown _ => mret tt
     end ;; throw err) d g (failed i e d g).
Proof.
  intros Hs He. assert (Hloan : exists e', sd_entries d !! i = Some e' /\ same_loan e e') by (eexists; split; [exact He | apply same_loan_with]).
  wpm_step. destruct err as [status|x]; [|wpm_step; wpm_step; split; [done | apply wrote_err; [by apply (sound_any (Err (Thrown x))) | done]]].
  wpm_step. change (current e) with (current (entry_state B_pending e)). apply (current_wp i); [done | done | |].
  2: { intros g1 err1 Ho1 Hs1. split; [done|]. by split_and!. }
  intros v Ho Hh Hs1. eapply (settle_wp i e _ _ v); [exact Hs1 | exact He | apply same_loan_with | apply same_loan_with | done | apply learn_seen | exact Ho |].
  intros g2 Hseen2 Htime2 Hs2.
  assert (Hoth : others i (be_provider e) d g (set_entry i (entry_state B_borrowed) d) g2).
  { split_and!; [intros j Hj; by apply set_entry_ne | intros q Hq; rewrite Hseen2; exact (learn_others _ (V_read v) (set_held true g) q Hq) | by rewrite Htime2]. }
  assert (Hloan2 : exists e', sd_entries (set_entry i (entry_state B_borrowed) d) !! i = Some e' /\ same_loan e e').
  { eexists. split; [exact (set_entry_eq _ _ _ _ He) | reflexivity]. }
  split; [wpm_step|intros err]; (split; [done|]); by split_and!; [| apply sound_any |].
Qed.

Lemma write_applied_wp i e expected d g :
  sound d g -> sd_entries d !! i = Some (entry_state B_pending e) ->
  W (let! after := await (S_read (be_provider e)) in
     let o := ss_object after in
     require (bool_decide (so_uid o = Some (be_uid e)) && bool_decide (so_generation o = Some (num_add (be_generation e) (Int 1))) &&
              spec_is o expected) CONFLICT ;;
     modify (set_entry i (entry_with (num_add (be_generation e) (Int 1)) expected B_borrowed)) ;; persist) d g (wrote i e d g).
Proof.
  intros Hs He. assert (Hloan : exists e', sd_entries d !! i = Some e' /\ same_loan e e') by (eexists; split; [exact He | apply same_loan_with]).
  wpm_step. wpm_step; [done|]. intros [v|err] _; cbn [sharing_upd].
  2: { split_and!; [by apply others_refl | apply sound_any; by apply (sound_seen _ g) | done]. }
  assert (Hoth : others i (be_provider e) d g d (learn (be_provider e) (V_read v) g)) by (apply others_refl; [intros q Hq; by apply learn_others | done]).
  wpm_step. apply require_wp; [|intros; split_and!; [done | exact (sound_kept d g Hs) | done]]. intros Ho. cbv beta iota.
  set (f := entry_with (num_add (be_generation e) (Int 1)) expected B_borrowed).
  eapply (settle_wp i e _ f v); [by apply (pending_sound i (entry_state B_pending e)) | exact He | apply same_loan_with | apply same_loan_with | done | apply learn_seen | exact Ho |].
  intros g2 Hseen2 Htime2 Hs2.
  assert (Hoth2 : others i (be_provider e) d g (set_entry i f d) g2).
  { split_and!; [intros j Hj; by apply set_entry_ne | intros q Hq; rewrite Hseen2; by apply learn_others | by rewrite Htime2]. }
  assert (Hloan2 : exists e', sd_entries (set_entry i f d) !! i = Some e' /\ same_loan e e') by (eexists; split; [exact (set_entry_eq _ _ _ _ He) | reflexivity]).
  split; [|intros err]; by split_and!; [| apply sound_any |].
Qed.

Lemma write_wp i e v req d g :
  sound d g -> sd_entries d !! i = Some e -> gs_seen g (be_provider e) = V_read v ->
  is_owned e (ss_object v) = true -> is_here (sd_identity d) (be_provider e) v = true ->
  provider_of req = be_provider e -> GpuSharingRequest_expectedRevision req = GpuSharingState_expectedRevision (ss_state v) ->
  W (write i e req) d g (wrote i e d g).
Proof.
  intros Hs He Hseen Howned Hhere Hprov Hrev.
  assert (Hloan : exists e', sd_entries d !! i = Some e' /\ same_loan e e') by (exists e; split; [done | apply same_loan_refl]).
  unfold write. destruct (sharingSpec (be_lastSpec e) req) as [expected|err]; [|wpm_step; apply wrote_err; [exact (sound_kept d g Hs) | exact Hloan]].
  destruct (same_spec expected (be_lastSpec e)).
  { wpm_step. by split_and!; [apply others_refl | |]. }
  set (d1 := set_entry i (entry_state B_pending) d).
  assert (He1 : sd_entries d1 !! i = Some (entry_state B_pending e)) by by apply set_entry_eq.
  assert (Hs1 : sound d1 g) by (eapply sound_set; [done | done | apply same_loan_with | by intros []]).
  assert (Ho1 : others i (be_provider e) d g d1 g) by apply others_set.
  assert (Hloan1 : exists e', sd_entries d1 !! i = Some e' /\ same_loan e e') by (eexists; split; [exact He1 | apply same_loan_with]).
  assert (Hfail : forall g' err, gs_seen g' = gs_seen g -> gs_time g' = gs_time g -> wrote i e d g g' d1 (Err err)).
  { intros g' err Hg Ht. eapply wrote_trans; [exact Ho1|]. eapply wrote_trans; [apply (others_refl _ _ _ _ g'); [by rewrite Hg | by rewrite Ht]|].
    apply wrote_err; [apply sound_any; by apply (sound_seen _ g) | done]. }
  wpm_step. wpm_step. wpm_step. fold d1. apply sharing_persist_wp; [done| |intros err; by apply Hfail].
  wpm_step. apply held_wp. intros [[]|err]; cbn [is_ok]; [|by apply Hfail].
  wpm_step. wpm_step. wpm_step.
  { split; [done|]. exists d1, i, (entry_state B_pending e), v. rewrite Hprov. by split_and!. }
  intros r _. cbn [sharing_upd]. rewrite Hprov. set (g2 := learn _ V_unknown _).
  assert (Hs2 : sound d1 g2) by (apply (pending_sound i (entry_state B_pending e)); [by apply (sound_seen _ g) | done | done]).
  assert (Ho2 : others i (be_provider e) d g d1 g2) by (eapply others_trans; [exact Ho1|]; apply others_refl; [intros q Hq; exact (learn_others _ V_unknown (set_held true (set_file (Some d1) g)) q Hq) | done]).
  destruct r as [[]|err]; [apply (wrote_mono _ _ _ _ _ _ _ Ho2); by apply write_applied_wp|].
  eapply wpm_mono; [|by apply write_rejected_wp]. intros g3 d3 [[]|e3] [Hok Hw]; [done|]. by eapply wrote_trans.
Qed.

Lemma change_wp i e mode count backend d g : sound d g -> sd_entries d !! i = Some e ->
  W (change (be_provider e) mode count backend) d g (wrote i e d g).
Proof.
  intros Hs He. assert (Hloan : exists e', sd_entries d !! i = Some e' /\ same_loan e e') by (exists e; split; [done | apply same_loan_refl]).
  pose proof Hs as (Hd & _ & _). unfold change. wpm_step. apply require_wp; [|intros; apply wrote_err; [exact (sound_kept d g Hs) | exact Hloan]]. intros _. wpm_step. wpm_step.
  rewrite (distinct_position _ _ _ Hd He). cbn [base.mbind option_bind]. rewrite He. cbn [base.mbind option_bind]. wpm_step. apply require_wp; [|intros; apply wrote_err; [exact (sound_kept d g Hs) | exact Hloan]].
  intros _. wpm_step. apply (current_wp i); [done | done | |].
  2: { intros g1 err Ho Hs1. by split_and!. }
  intros v Ho Hh Hs1. cbv zeta.
  assert (Ho1 : others i (be_provider e) d g d (read_ghost e v g)) by (apply others_refl; [intros q Hq; exact (learn_others _ (V_read v) (set_held true g) q Hq) | done]).
  apply (wrote_mono _ _ _ _ _ _ _ Ho1). assert (Hp : GpuSharingState_provider (ss_state v) = be_provider e).
  { unfold is_here in Hh. bool_prop. done. }
  eapply write_wp; [done | done | apply learn_seen | done | done | |].
  - destruct (be_provider e) eqn:Hpe; [|destruct backend]; unfold provider_of, request; cbn; by rewrite Hp.
  - by destruct (be_provider e), backend.
Qed.

Lemma wrote_loan i e e1 d g d1 g1 g' d' r : same_loan e e1 -> others i (be_provider e) d g d1 g1 ->
  wrote i e1 d1 g1 g' d' r -> wrote i e d g g' d' r.
Proof.
  intros Hl Ho (H1 & H2 & e2 & He2 & Hl2). rewrite (same_loan_provider _ _ Hl) in H1.
  split_and!; [by eapply others_trans | done|]. exists e2. split; [done | by eapply same_loan_trans].
Qed.

(** Repeating an action on entry [i] while it is rejected. *)
Lemma attempts_wp i e n action d g :
  (forall d1 g1 e1, sound d1 g1 -> sd_entries d1 !! i = Some e1 -> same_loan e e1 -> W action d1 g1 (wrote i e1 d1 g1)) ->
  sound d g -> sd_entries d !! i = Some e -> W (attempts n action) d g (wrote i e d g).
Proof.
  intros Ha. assert (Hgen : forall d1 g1 e1, sound d1 g1 -> sd_entries d1 !! i = Some e1 -> same_loan e e1 -> W (attempts n action) d1 g1 (wrote i e1 d1 g1)).
  2: { intros Hs He. apply Hgen; [done | done | apply same_loan_refl]. }
  induction n as [|n IH]; intros d1 g1 e1 Hs He Hl; cbn [attempts]; [by apply Ha|].
  wpm_step. eapply wpm_mono; [|by apply Ha]. intros g2 d2 [[]|err] Hw; [exact Hw|]. destruct (retriable err) eqn:Hr; [|by wpm_step].
  destruct err as [status|]; [|done]. destruct Hw as (Ho & Hs2 & e2 & He2 & Hl2).
  eapply wpm_mono; [|apply (IH d2 g2 e2); [exact Hs2 | done | by eapply same_loan_trans]]. intros g3 d3 r3. by apply wrote_loan.
Qed.

(** ** Waiting for the backend *)
Definition sharing_tick (g g' : Ghost) : Prop := gs_seen g' = gs_seen g /\ gs_time g <= gs_time g'.

#[local] Instance sharing_clock :
  PollClock (pre := sharing_pre) (asm := sharing_asm) (upd := sharing_upd)
    (await_ S_now : SM Z) (await_ S_timer) (mret tt) (fun us => await (S_wait us)) gs_time sharing_tick.
Proof.
  split.
  - done.
  - intros g g1 g2 [H1 H2] [H3 H4]. split; [by rewrite H3 | lia].
  - by intros g g' [_ ?].
  - intros d g Q HQ. wpm_step; [done|]. intros t Ht. apply (HQ (set_time t g)). by split.
  - intros d g Q HQ. wpm_step; [done|]. intros b _. by apply HQ.
  - intros d g Q HQ. wpm_step. by apply HQ.
  - intros us d g Q HQ. wpm_step; [done|]. intros [[]|err] _; cbn; (apply HQ; [|]); try done; [split; cbn; [done | lia] | intros _; cbn; lia].
Qed.

Lemma poll_current_wp i e d g (Q : Ghost -> SharingData -> res sharing_exn (option SharingSnapshot) -> Prop) :
  sound d g -> sd_entries d !! i = Some e ->
  (forall g' v, others i (be_provider e) d g d g' -> sound d g' -> gs_seen g' (be_provider e) = V_read v ->
     is_owned e (ss_object v) = true -> is_here (sd_identity d) (be_provider e) v = true -> Q g' d (Ok (Some v))) ->
  (forall g' err, others i (be_provider e) d g d g' -> sound_after (Err (A := unit) err) d g' -> Q g' d (Err err)) ->
  W (poll_current e) d g Q.
Proof.
  intros Hs He Hok Herr. unfold poll_current.
  eapply wpm_mono; [|apply (polled_wp (tick := sharing_tick) (time := gs_time) _ _ _ _ _ _ _ _
    (fun d' g' => d' = d /\ others i (be_provider e) d g d g' /\ sound d g')
    (fun v d' g' => (d' = d /\ others i (be_provider e) d g d g' /\ sound d g') /\ gs_seen g' (be_provider e) = V_read v /\
       is_owned e (ss_object v) = true /\ is_here (sd_identity d) (be_provider e) v = true)
    (fun err d' g' => d' = d /\ others i (be_provider e) d g d g' /\ sound_after (Err (A := unit) err) d g'))].
  - intros g' d' [[v|]|err]; cbn; [|done|].
    + intros (_ & (-> & Ho & Hs') & Hseen & Hown & Hhere). by apply Hok.
    + intros (-> & Ho & Hs'). by apply Herr.
  - intros d' g1 g2 (-> & Ho & Hs') [Hg Ht]. split_and!; [done | | by apply (sound_seen _ g1)].
    eapply others_trans; [exact Ho|]. apply others_refl; [by rewrite Hg | done].
  - intros v d' g1 g2 ((-> & Ho & Hs') & Hseen & Hown & Hhere) [Hg Ht]. split_and!; try done; [| by apply (sound_seen _ g1) | by rewrite Hg].
    eapply others_trans; [exact Ho|]. apply others_refl; [by rewrite Hg | done].
  - intros err d' g1 g2 (-> & Ho & Hs') [Hg Ht]. split_and!; [done | | by destruct err; [apply (sound_seen _ g1)|]].
    eapply others_trans; [exact Ho|]. apply others_refl; [by rewrite Hg | done].
  - intros err d' g1 (-> & Ho & _). split_and!; [done | done | exact (sound_kept d g Hs)].
  - intros err d' g1 (-> & Ho & Hs'). split_and!; [done | done | by apply (sound_any (Err (A := unit) err))].
  - by intros v d' g1 (? & _).
  - intros d' g1 (-> & Ho & Hs'). apply (current_wp i); [done | done | |].
    + intros v Hown Hhere Hs2. split; [cbn; lia|]. split_and!; try done; [|apply learn_seen].
      eapply others_trans; [exact Ho|]. apply others_refl; [intros q Hq; exact (learn_others _ (V_read v) (set_held true g1) q Hq) | done].
    + intros g2 err Ho2 Hs2. split; [apply Ho2|]. split_and!; [done | by eapply others_trans | done].
  - done.
  - done.
  - split_and!; [done | by apply others_refl | done].
Qed.

(** ** restore *)
Lemma entry_at_wp i f e d g Q : sd_entries d !! i = Some e -> W (f e) d g Q -> W (entry_at i f) d g Q.
Proof. intros He Hf. unfold entry_at. wpm_step. wpm_step. by rewrite He. Qed.

Lemma note_wp st d g (Q : Ghost -> SharingData -> res sharing_exn unit -> Prop) : Q g d (Ok tt) -> W (note st) d g Q.
Proof. intros HQ. unfold note. wpm_step; [done|]. by intros []. Qed.

Lemma is_here_provider id p v : is_here id p v = true -> GpuSharingState_provider (ss_state v) = p.
Proof. unfold is_here. intros Hh. by bool_prop. Qed.

Lemma restore_defaults_wp i defaults e d g : sound d g -> sd_entries d !! i = Some e -> W (restore_defaults i defaults) d g (wrote i e d g).
Proof.
  intros Hs He. assert (Hloan : exists e', sd_entries d !! i = Some e' /\ same_loan e e') by (exists e; split; [done | apply same_loan_refl]).
  unfold restore_defaults. apply (entry_at_wp _ _ e); [done|]. wpm_step. apply note_wp. wpm_step. apply (poll_current_wp i); [done | done | |].
  2: { intros g' err Ho Hs'. by split_and!. }
  intros g' v Ho Hs' Hseen Hown Hhere. pose proof (is_here_provider _ _ _ Hhere) as Hp. wpm_step. wpm_step. wpm_step. apply note_wp.
  apply (wrote_mono _ _ _ _ _ _ _ Ho). eapply write_wp; [done | done | done | done | done | |].
  - unfold provider_of, request. rewrite Hp. by destruct (be_provider e).
  - by case_bool_decide.
Qed.

(** The last read of the entry's provider shows the setting it had when it was borrowed. *)
Definition back (e : BorrowedEntry) (g : Ghost) : Prop :=
  exists v, gs_seen g (be_provider e) = V_read v /\ is_owned e (ss_object v) = true /\ spec_is (ss_object v) (be_originalSpec e) = true.

(** What restoring entry [i] leaves when it succeeds. *)
Definition restored_entry (i : nat) (d : SharingData) (g : Ghost) (g' : Ghost) (d' : SharingData) : Prop :=
  exists e, sd_entries d' !! i = Some e /\ be_state e = B_restored /\
    ((d' = d /\ g' = g) \/ (back e g' /\ gs_file g' = Some d')).

Definition restoring (i : nat) (e : BorrowedEntry) (d : SharingData) (g : Ghost) (g' : Ghost) (d' : SharingData) (r : res sharing_exn unit) : Prop :=
  wrote i e d g g' d' r /\ (r = Ok tt -> restored_entry i d g g' d').

Lemma restoring_trans i e d g e1 d1 g1 (m : SM unit) : same_loan e e1 -> others i (be_provider e) d g d1 g1 ->
  W m d1 g1 (fun g' d' r => wrote i e1 d1 g1 g' d' r /\ (r = Ok tt -> exists e', sd_entries d' !! i = Some e' /\ be_state e' = B_restored /\ back e' g' /\ gs_file g' = Some d')) ->
  W m d1 g1 (restoring i e d g).
Proof.
  intros Hl Ho. apply wpm_mono. intros g' d' r [Hw Hr]. split; [by eapply wrote_loan|]. intros Hok.
  destruct (Hr Hok) as (e' & He' & Hst & Hb & Hf). exists e'. split_and!; [done | done |]. by right.
Qed.

Lemma set_restored_wp i e v d g : sound d g -> sd_entries d !! i = Some e -> gs_seen g (be_provider e) = V_read v ->
  is_owned e (ss_object v) = true -> spec_is (ss_object v) (be_originalSpec e) = true ->
  W (set_restored i) d g (fun g' d' r => wrote i e d g g' d' r /\
    (r = Ok tt -> exists e', sd_entries d' !! i = Some e' /\ be_state e' = B_restored /\ back e' g' /\ gs_file g' = Some d')).
Proof.
  intros Hs He Hseen Hown Horig. unfold set_restored.
  assert (Hs1 : sound (set_entry i (entry_state B_restored) d) g).
  { eapply sound_set; [done | done | apply same_loan_with|]. intros _. unfold backed. cbn [be_provider entry_state entry_with]. by rewrite Hseen. }
  assert (Ho : forall f, others i (be_provider e) d g (set_entry i (entry_state B_restored) d) (set_file f g)).
  { intros f. eapply others_trans; [apply others_set|]. by apply others_refl. }
  assert (Hl : exists e', sd_entries (set_entry i (entry_state B_restored) d) !! i = Some e' /\ same_loan e e').
  { eexists. split; [exact (set_entry_eq _ _ _ _ He) | apply same_loan_with]. }
  wpm_step. wpm_step. apply sharing_persist_wp; [done| |].
  - split; [split_and!; [apply Ho | by apply (sound_seen _ g) | exact Hl]|]. intros _. eexists. split_and!; [exact (set_entry_eq _ _ _ _ He) | done | by exists v | done].
  - intros err. split; [split_and!; [apply Ho | apply sound_any; by apply (sound_seen _ g) | exact Hl] | done].
Qed.

Lemma same_spec_trans o a b : spec_is o a = true -> same_spec a b = true -> spec_is o b = true.
Proof.
  unfold spec_is, same_spec. destruct (so_spec o) as [c|]; [|done]. intros ->%String.eqb_eq Hb. exact Hb.
Qed.

Lemma owned_spec e o : is_owned e o = true -> spec_is o (be_lastSpec e) = true.
Proof. unfold is_owned. by intros [_ ?]%andb_prop. Qed.

(** The last step: read again, compare with the original, and record. *)
Lemma restore_last_wp i e d g : sound d g -> sd_entries d !! i = Some e ->
  W (let! value := current e in require (spec_is (ss_object value) (be_originalSpec e)) CLEANUP ;; set_restored i) d g
    (fun g' d' r => wrote i e d g g' d' r /\
      (r = Ok tt -> exists e', sd_entries d' !! i = Some e' /\ be_state e' = B_restored /\ back e' g' /\ gs_file g' = Some d')).
Proof.
  intros Hs He. assert (Hloan : exists e', sd_entries d !! i = Some e' /\ same_loan e e') by (exists e; split; [done | apply same_loan_refl]).
  wpm_step. apply (current_wp i); [done | done | |].
  2: { intros g' err Ho Hs'. split; [by split_and! | done]. }
  intros v Hown Hhere Hs1.
  assert (Ho1 : others i (be_provider e) d g d (read_ghost e v g)) by (apply others_refl; [intros q Hq; exact (learn_others _ (V_read v) (set_held true g) q Hq) | done]).
  wpm_step. apply require_wp; [|intros x; split; [|done]; split_and!; [exact Ho1 | exact (sound_kept d g Hs) | done]].
  intros Horig. eapply wpm_mono; [|apply (set_restored_wp i e v); [exact Hs1 | done | apply learn_seen | done | done]].
  intros g' d' r [Hw Hr]. split; [by eapply wrote_trans | exact Hr].
Qed.

Lemma restore_entry_wp i e d g : sound d g -> sd_entries d !! i = Some e -> W (restore_entry i) d g (restoring i e d g).
Proof.
  intros Hs He. assert (Hloan : exists e', sd_entries d !! i = Some e' /\ same_loan e e') by (exists e; split; [done | apply same_loan_refl]).
  assert (Hrefl : others i (be_provider e) d g d g) by by apply others_refl.
  unfold restore_entry. apply (entry_at_wp _ _ e); [done|]. case_bool_decide as Hst.
  { wpm_step. split; [by split_and!|]. intros _. exists e. split_and!; [done | done | by left]. }
  wpm_step. apply require_wp; [|intros x; split; [apply wrote_err; [exact (sound_kept d g Hs) | done] | done]]. intros _.
  wpm_step. apply note_wp. destruct (same_spec (be_lastSpec e) (be_originalSpec e)) eqn:Hsame.
  { apply (restoring_trans _ _ _ _ e); [apply same_loan_refl | done|]. wpm_step. apply (current_wp i); [done | done | |].
    2: { intros g' err Ho Hs'. split; [by split_and! | done]. }
    intros v Hown Hhere Hs1.
    eapply wpm_mono; [|apply (set_restored_wp i e v); [exact Hs1 | done | apply learn_seen | done | eapply same_spec_trans; [by apply owned_spec | done]]].
    intros g' d' r [Hw Hr]. split; [|exact Hr]. eapply wrote_trans; [|exact Hw].
    apply others_refl; [intros q Hq; exact (learn_others _ (V_read v) (set_held true g) q Hq) | done]. }
  wpm_step. eapply wpm_mono; [|apply (attempts_wp i e); [|done|done]; intros d1 g1 e1 Hs1 He1 Hl1].
  2: { rewrite <- (same_loan_provider _ _ Hl1). by apply change_wp. }
  intros g1 d1 [[]|err] (Ho1 & Hs1 & e1 & He1 & Hl1); [|split; [split_and!; [done | done | by exists e1] | done]].
  wpm_step.
  assert (Hlast : forall g2 d2 e2, sound d2 g2 -> sd_entries d2 !! i = Some e2 -> same_loan e e2 -> others i (be_provider e) d g d2 g2 ->
    W (entry_at i (fun e => let! value := current e in require (spec_is (ss_object value) (be_originalSpec e)) CLEANUP ;; set_restored i)) d2 g2 (restoring i e d g)).
  { intros g2 d2 e2 Hs2 He2 Hl2 Ho2. apply (entry_at_wp _ _ e2); [done|]. apply (restoring_trans _ _ _ _ e2); [done | done|]. by apply restore_last_wp. }
  destruct (be_originalDefaults e) as [defaults|]; [|wpm_step; by eapply Hlast].
  eapply wpm_mono; [|apply (attempts_wp i e1); [intros; by apply restore_defaults_wp | done | done]].
  intros g2 d2 [[]|err] (Ho2 & Hs2 & e2 & He2 & Hl2); rewrite (same_loan_provider _ _ Hl1) in Ho2.
  - eapply Hlast; [exact Hs2 | exact He2 | by eapply same_loan_trans | by eapply others_trans].
  - split; [|done]. split_and!; [by eapply others_trans | done|]. exists e2. split; [done | by eapply same_loan_trans].
Qed.

(** ** Loops over the entries *)

(** What a call leaves: the loans are kept, whatever it answers. *)
Definition leaves (g' : Ghost) (d' : SharingData) (r : res sharing_exn unit) : Prop := kept d'.

Lemma sound_after_kept {A} (r : res sharing_exn A) d g : sound_after r d g -> kept d.
Proof. destruct r as [|[]]; [apply sound_kept | apply sound_kept | done]. Qed.

(** The entries not yet visited are there; those visited are restored. *)
Definition visiting (n : nat) (l : list nat) (g : Ghost) (d : SharingData) : Prop :=
  sound d g /\ NoDup l /\ (forall i, i ∈ l -> (i < n)%nat /\ sd_entries d !! i = sd_entries d0 !! i) /\ length (sd_entries d) = n /\
  (d = d0 \/ gs_file g = Some d) /\
  (forall i e, sd_entries d !! i = Some e -> i ∉ l -> be_state e = B_restored /\ (sd_entries d0 !! i = Some e \/ back e g)).

Lemma visiting_step n i l e d g g' d' : visiting n (i :: l) g d -> sd_entries d !! i = Some e ->
  restoring i e d g g' d' (Ok tt) -> length (sd_entries d') = n -> visiting n l g' d'.
Proof.
  intros (Hs & Hnd & Hlt & Hn & Hf & Hv) He [(Ho & Hs' & e' & He' & Hl') Hr] Hlen'.
  destruct (Hr eq_refl) as (e1 & He1 & Hst & Hcase). assert (e1 = e') as -> by (rewrite He' in He1; by injection He1).
  apply NoDup_cons in Hnd as [Hi Hnd]. destruct Ho as (Hoth & Hseen & _). split_and!; [exact Hs' | done | | done | |].
  - intros j Hj. destruct (Hlt j ltac:(by right)) as [Hj1 Hj2]. split; [done|]. rewrite Hoth; [done|]. by intros ->.
  - destruct Hcase as [[-> ->]|[_ Hfile]]; [done | by right].
  - intros j e2 Hj Hjl. destruct (decide (j = i)) as [->|Hne].
    + assert (e2 = e') as -> by (rewrite He' in Hj; by injection Hj). split; [done|]. destruct Hcase as [[-> ->]|[Hb _]]; [|by right].
      left. destruct (Hlt i ltac:(by left)) as [_ <-]. done.
    + rewrite Hoth in Hj by done. destruct (Hv j e2 Hj) as [Hst2 Hb]; [by rewrite elem_of_cons; intros [|]|]. split; [done|].
      destruct Hb as [Hb|(v & Hv1 & Hv2 & Hv3)]; [by left | right]. exists v. split_and!; [|done..]. rewrite Hseen; [done|].
      intros Hp. destruct Hs as (Hd & _). apply Hne. by eapply distinct_provider.
Qed.

Lemma others_length i p d g d' g' e e' : others i p d g d' g' -> sd_entries d !! i = Some e -> sd_entries d' !! i = Some e' ->
  length (sd_entries d') = length (sd_entries d).
Proof.
  intros (Ho & _) He He'. apply Nat.le_antisymm; apply Nat.nlt_ge; intros Hlt.
  - apply lookup_lt_is_Some in Hlt as Hx. destruct Hx as [x Hx].
    destruct (decide (length (sd_entries d) = i)) as [<-|Hne]; [by rewrite lookup_ge_None_2 in He|].
    rewrite Ho, lookup_ge_None_2 in Hx by done. done.
  - apply lookup_lt_is_Some in Hlt as Hx. destruct Hx as [x Hx].
    destruct (decide (length (sd_entries d') = i)) as [<-|Hne]; [by rewrite lookup_ge_None_2 in He'|].
    rewrite <- Ho, lookup_ge_None_2 in Hx by done. done.
Qed.

(** Success: every entry is restored, shown by a read unless it was restored before, and the
    file says so. *)
Definition all_back (g' : Ghost) (d' : SharingData) (r : res sharing_exn unit) : Prop :=
  kept d' /\ (r = Ok tt -> (d' = d0 \/ gs_file g' = Some d') /\
    forall i e, sd_entries d' !! i = Some e -> be_state e = B_restored /\ (sd_entries d0 !! i = Some e \/ back e g')).

Lemma sound_start g : distinct d0 -> gs_seen g = (fun _ => V_none) -> sound d0 g.
Proof.
  intros Hd Hg. split_and!; [done | by split; [done|]; intros i e He; exists e; split; [|apply same_loan_refl]|].
  intros i e He _. unfold backed. by rewrite Hg.
Qed.

Lemma restore_wp g : distinct d0 -> gs_seen g = (fun _ => V_none) -> W restore d0 g all_back.
Proof.
  intros Hd Hg. set (n := length (sd_entries d0)). unfold restore. wpm_step. wpm_step. fold n.
  apply (wpm_for_each _ _ _ _ _ (fun l g d => visiting n l g d)).
  - intros i l g1 d1 Hv. pose proof Hv as (Hs & _ & Hlt & Hn & _). destruct (Hlt i ltac:(by left)) as [Hi _]. rewrite <- Hn in Hi.
    apply lookup_lt_is_Some in Hi as [e He]. eapply wpm_mono; [|by apply (restore_entry_wp i e)]. intros g2 d2 [[]|err] Hr.
    + eapply visiting_step; [done..|]. destruct Hr as [(Ho & _ & e' & He' & _) _]. by rewrite (others_length _ _ _ _ _ _ _ _ Ho He He').
    + split; [|done]. destruct Hr as [(_ & Hs' & _) _]. by eapply sound_after_kept.
  - assert (Hin : forall i, i ∈ rev (seq 0 n) <-> (i < n)%nat) by (intros i; rewrite <- Permutation_rev, elem_of_seq; lia).
    split_and!; [by apply sound_start | rewrite <- Permutation_rev; apply NoDup_seq | | done | by left |].
    + intros i Hi. split; [by apply Hin | done].
    + intros i e He Hi. exfalso. apply Hi, Hin. by eapply lookup_lt_Some.
  - intros g1 d1 (Hs & _ & _ & _ & Hf & Hv). split; [by eapply sound_kept|]. intros _. split; [done|]. intros i e He. apply Hv; [done | by apply not_elem_of_nil].
Qed.

(** ** The other calls *)
Lemma position_None p d : position p d = None -> Forall (fun e => be_provider e <> p) (sd_entries d).
Proof.
  unfold position. destruct (list_find _ _) eqn:Hf; [done|]. intros _. by apply list_find_None in Hf.
Qed.

Lemma change_any_wp p mode count backend g : sound d0 g -> W (change p mode count backend) d0 g leaves.
Proof.
  intros Hs. pose proof (sound_kept _ _ Hs) as Hk. destruct (position p d0) as [i|] eqn:Hp.
  - unfold position in Hp. destruct (list_find _ _) as [[j e]|] eqn:Hf; [|done]. injection Hp as ->.
    apply list_find_Some in Hf as (He & <- & _). eapply wpm_mono; [|by apply (change_wp i e)].
    intros g' d' r (_ & Hs' & _). by eapply sound_after_kept.
  - unfold change. wpm_step. apply require_wp; [intros _|by intros]. wpm_step. wpm_step. rewrite Hp. cbn [base.mbind option_bind].
    by apply require_wp.
Qed.

Lemma borrow_wp p g : sound d0 g -> gs_seen g = (fun _ => V_none) -> W (borrow p) d0 g leaves.
Proof.
  intros Hs Hg. pose proof (sound_kept _ _ Hs) as Hk. unfold borrow. wpm_step. wpm_step. wpm_step. apply require_wp; [|by intros].
  intros Hp. assert (Hnone : Forall (fun e => be_provider e <> p) (sd_entries d0)).
  { apply position_None. destruct (position p d0) eqn:Hpos; [|done]. by rewrite bool_decide_true in Hp by eauto. }
  wpm_step. apply held_wp. intros [[]|err]; cbn [is_ok]; [|done]. wpm_step. wpm_step; [done|]. intros [v|err] _; cbn [sharing_upd]; [|done].
  cbv zeta. wpm_step. apply require_wp; [|by intros]. intros Hb. unfold borrowable in Hb. bool_prop.
  destruct (so_uid (ss_object v)) as [u|] eqn:Hu; [|done]. destruct (so_generation (ss_object v)) as [gen|] eqn:Hgen; [|done].
  destruct (so_spec (ss_object v)) as [spec|] eqn:Hspec; [|done]. wpm_step.
  assert (Hcheck : W (if GpuSharingState_managed (ss_state v)
                     then match sharingSpec spec (request (sd_identity d0) (ss_state v) (GpuSharingState_mode (ss_state v)) (GpuSharingState_maxModels (ss_state v))) with
                          | Ok expected => require (same_spec expected spec) CAPABILITY
                          | Err e => throw (Thrown e)
                          end
                     else require (bool_decide (is_Some (if GpuSharingState_managed (ss_state v) then None else defaultFields spec p)) &&
                            bool_decide (GpuSharingState_mode (ss_state v) = exclusive) &&
                            (negb (bool_decide (p = nvidia)) || bool_decide (GpuSharingState_backend (ss_state v) = GpuSharingState_backend_t_time_slicing))) CAPABILITY)
      d0 (learn p (V_read v) (set_held true g)) (fun g' d' r => d' = d0 /\ gs_seen g' = gs_seen (learn p (V_read v) g))).
  { destruct (GpuSharingState_managed _); [destruct (sharingSpec _ _); [|by wpm_step]|]; apply require_wp; by intros. }
  eapply wpm_mono; [|exact Hcheck]. intros g1 d1 [[]|err] [-> Hseen1]; [|done]. clear Hcheck.
  wpm_step. wpm_step. 
  match goal with |- context [(sd_entries d0 ++ [?x])%list] => set (e := x) end. set (d1 := {| sd_identity := sd_identity d0; sd_entries := (sd_entries d0 ++ [e])%list |}).
  assert (Hs1 : sound d1 g1).
  { destruct Hs as (Hd & _ & _). split_and!.
    - unfold distinct. cbn. rewrite map_app. apply NoDup_app. split_and!; [exact Hd | | apply NoDup_singleton].
      intros q (e' & -> & He')%list_elem_of_fmap Hq. apply list_elem_of_singleton in Hq. rewrite Forall_forall in Hnone. by apply (Hnone e').
    - split; [done|]. intros i e' Hi. exists e'. split; [cbn; by apply lookup_app_l_Some | apply same_loan_refl].
    - intros i e' Hi _. unfold backed. rewrite Hseen1. cbn in Hi. apply lookup_app_Some in Hi as [Hi|[_ Hi]].
      + rewrite learn_others; [|rewrite Forall_forall in Hnone; apply Hnone; by eapply list_elem_of_lookup_2]. by rewrite Hg.
      + apply list_lookup_singleton_Some in Hi as [_ <-]. cbn [be_provider e]. rewrite learn_seen. unfold is_owned, spec_is. cbn.
        rewrite Hu, Hgen, Hspec, !bool_decide_true by done. cbn. unfold same_spec. by rewrite String.eqb_refl. }
  apply sharing_persist_wp; [exact Hs1 | exact (sound_kept _ _ Hs1) | intros; exact (sound_kept _ _ Hs1)].
Qed.

Lemma reconcile_wp g : sound d0 g -> W reconcileUnchanged d0 g leaves.
Proof.
  intros Hs0. unfold reconcileUnchanged. wpm_step. wpm_step. apply (wpm_for_each _ _ _ _ _ (fun _ g d => sound d g)); [|done|intros; by eapply sound_kept].
  intros i _ g1 d1 Hs. unfold entry_at. wpm_step. wpm_step. destruct (sd_entries d1 !! i) as [e|] eqn:He; [|by wpm_step].
  case_bool_decide as Hst; [|by wpm_step]. wpm_step. apply (current_wp i); [done | done | |].
  2: { intros g' err _ Hs'. by eapply sound_after_kept. }
  intros v Hown _ Hs1.
  eapply (settle_wp i e e _ v); [exact Hs1 | exact He | apply same_loan_refl | apply same_loan_with | done | apply learn_seen | exact Hown |].
  intros g2 _ _ Hs2. split; [done | intros; by eapply sound_kept].
Qed.

(** Checks that only read. *)
Lemma checks_wp (l : list BorrowedEntry) check g : sound d0 g -> (forall e, e ∈ l -> e ∈ sd_entries d0) ->
  (forall i e g, sound d0 g -> sd_entries d0 !! i = Some e ->
     W (check e) d0 g (fun g' d' r => d' = d0 /\ sound_after r d0 g')) ->
  W (for_each l check) d0 g leaves.
Proof.
  intros Hs Hl Hc. pose proof (sound_kept _ _ Hs) as Hk.
  apply (wpm_for_each _ _ _ _ _ (fun l g d => d = d0 /\ sound d0 g /\ forall e, e ∈ l -> e ∈ sd_entries d0)); [|done|by intros g1 d1 (-> & _)].
  intros e l' g1 d1 (-> & Hs1 & Hin). destruct (list_elem_of_lookup_1 (sd_entries d0) e) as [i He]; [apply Hin; by left|].
  eapply wpm_mono; [|by apply (Hc i e)]. intros g2 d2 [[]|err] [-> Hs2]; [|done]. split_and!; [done | done | intros e' He'; apply Hin; by right].
Qed.

Lemma recoverable_wp g : sound d0 g -> W verifyRecoverable d0 g leaves.
Proof.
  intros Hs. unfold verifyRecoverable. wpm_step. wpm_step. apply checks_wp; [done | done|]. intros i e g1 Hs1 He. case_bool_decide; [by wpm_step|].
  wpm_step. apply (current_wp i); [done | done | |by intros]. intros v _ _ Hs2. by wpm_step.
Qed.

Lemma verify_wp providers g : sound d0 g -> W (verifyRestored providers) d0 g leaves.
Proof.
  intros Hs. unfold verifyRestored. wpm_step. wpm_step. apply checks_wp; [done | intros e He; apply list_elem_of_In, filter_In in He as [He _]; by apply list_elem_of_In|].
  intros i e g1 Hs1 He. wpm_step. apply require_wp; [|intros; split; [done | exact (sound_kept _ _ Hs1)]]. intros _. wpm_step.
  apply (current_wp i); [done | done | |by intros]. intros v _ _ Hs2. apply require_wp; [done | intros; split; [done | exact (sound_kept _ _ Hs1)]].
Qed.
End specification.

(** ** Theorems *)
Inductive sharing_call : Type :=
| C_borrow (p : Provider)
| C_change (p : Provider) (mode : Mode) (count : number) (backend : option Backend)
| C_restore
| C_reconcile
| C_recoverable
| C_verify (providers : option (list Provider)).

Definition sharing_perform `{Collation} (c : sharing_call) : SM unit :=
  match c with
  | C_borrow p => borrow p
  | C_change p mode count backend => change p mode count backend
  | C_restore => restore
  | C_reconcile => reconcileUnchanged
  | C_recoverable => verifyRecoverable
  | C_verify providers => verifyRestored providers
  end.

Definition unseen (t : Z) : Ghost := {| gs_seen := fun _ => V_none; gs_held := false; gs_file := None; gs_time := t |}.

Section theorems.
Context `{Collation}.

Lemma sharing_perform_wp d c t : distinct d ->
  wpm (sharing_pre d) sharing_asm sharing_upd (sharing_perform c) d (unseen t) (leaves d).
Proof.
  intros Hd. assert (Hs : sound d d (unseen t)) by by apply sound_start.
  destruct c; cbn [sharing_perform];
    [by apply borrow_wp | by apply change_any_wp | | by apply reconcile_wp | by apply recoverable_wp | by apply verify_wp].
  eapply wpm_mono; [|by apply restore_wp]. by intros g' d' r [Hk _].
Qed.

(** C27: what a borrowed setting's writes may be. Whatever call is made and whatever the API,
    the lease and the file answer: the setting is written only with the lease confirmed just
    before, for an entry stored as pending, of which the last read showed the specification,
    generation and identity this run owns, and against the revision of that read; what is
    stored never forgets what was borrowed, and never calls an entry settled after a request
    whose outcome no read has shown. *)
Theorem sharing_guarded d c tr q t :
  distinct d -> steps (sharing_perform c d) tr q -> admissible sharing_asm sharing_upd (unseen t) tr ->
  respects (sharing_pre d) sharing_upd (unseen t) tr /\
  (forall d' r, q = Done (d', r) -> distinct d' /\ loans_kept d d').
Proof.
  intros Hd Hs Ha. destruct (wp_steps _ _ _ _ _ _ _ _ (sharing_perform_wp d c t Hd) Hs Ha) as [H1 H2].
  split; [done|]. by intros d' r ->.
Qed.

(** C28: what a restore means. When [restore] succeeds every entry is restored and stored as
    such, and of every entry it had to restore the last read of its provider shows the
    specification found when it was borrowed, under the identity and generation owned. *)
Theorem sharing_restored d tr d' t :
  distinct d -> steps (restore d) tr (Done (d', Ok tt)) -> admissible sharing_asm sharing_upd (unseen t) tr ->
  let g := foldl (ghost sharing_upd) (unseen t) tr in
  (d' = d \/ gs_file g = Some d') /\
  forall i e, sd_entries d' !! i = Some e -> be_state e = B_restored /\
    (sd_entries d !! i = Some e \/
     exists v, gs_seen g (be_provider e) = V_read v /\ is_owned e (ss_object v) = true /\ spec_is (ss_object v) (be_originalSpec e) = true).
Proof.
  intros Hd Hs Ha. destruct (wp_steps _ _ _ _ _ _ _ _ (restore_wp d (unseen t) Hd eq_refl) Hs Ha) as [_ [_ H2]]. by apply H2.
Qed.
End theorems.

(** ** A run against an API that works *)
#[local] Instance plain_order : Collation := code_unit_order.

Record World : Type := { w_spec : dict json; w_generation : Z; w_mode : Mode; w_count : number; w_clock : Z }.

Definition revision_of (w : World) : string := "r" +:+ String_of_Z (w_generation w).
Definition world_state (w : World) : GpuSharingState :=
  mk_GpuSharingState amd GpuSharingState_backend_t_dra (w_mode w) true false (w_count w) "node" "node-uid" "ai" (revision_of w) true "" "Ready" ""
    None None None "" (Int 0) [] GpuSharingState_memoryIsolation_t_false.
Definition world_object (w : World) : SharedObject :=
  {| so_uid := Some "uid"; so_generation := Some (Int (w_generation w)); so_resourceVersion := Some (revision_of w); so_spec := Some (w_spec w) |}.

Definition world_handler X (op : sharingE X) (w : World) : X * World :=
  match op in sharingE X return X * World with
  | S_write _ _ => (Ok tt, w)
  | S_load => (Err (Thrown (harness PRIVATE_FILE)), w)
  | S_held => (Ok tt, w)
  | S_read _ => (Ok {| ss_object := world_object w; ss_state := world_state w |}, w)
  | S_apply r =>
      match sharingSpec (w_spec w) r with
      | Ok spec => (Ok tt, {| w_spec := spec; w_generation := w_generation w + 1;
                              w_mode := match GpuSharingRequest_mode r with GpuSharingRequest_mode_t_exclusive => exclusive | _ => shared end;
                              w_count := GpuSharingRequest_maxModels r; w_clock := w_clock w |})
      | Err e => (Err (Thrown e), w)
      end
  | S_stage _ => (tt, w)
  | S_now => (w_clock w, w)
  | S_timer => (false, w)
  | S_wait us => (Ok tt, {| w_spec := w_spec w; w_generation := w_generation w; w_mode := w_mode w; w_count := w_count w; w_clock := w_clock w + Z.max 0 us |})
  end.

Definition demo_identity : SharingIdentity :=
  {| id_runId := "reg-0"; id_targetUid := "target"; id_nodeName := "node"; id_nodeUid := "node-uid" |}.
Definition demo_request (mode : Mode) (count : number) : GpuSharingRequest :=
  mk_GpuSharingRequest GpuSharingRequest_provider_t_amd (request_mode mode) count "node" "node-uid" "r1" (bool_decide (mode = shared)) true None None.
Definition demo_spec (mode : Mode) (count : number) : dict json :=
  match sharingSpec [("enabled", JBool true)] (demo_request mode count) with Ok s => s | Err _ => [] end.
(** The setting was exclusive; the run has made it shared. *)
Definition demo_data : SharingData :=
  {| sd_identity := demo_identity;
     sd_entries := [{| be_provider := amd; be_uid := "uid"; be_originalSpec := demo_spec exclusive (Int 2); be_originalMode := exclusive;
                       be_originalCount := Int 2; be_originalBackend := Some device_plugin; be_originalDefaults := None;
                       be_generation := Int 2; be_lastSpec := demo_spec shared (Int 4); be_state := B_borrowed |}] |}.
Definition demo_world : World := {| w_spec := demo_spec shared (Int 4); w_generation := 2; w_mode := shared; w_count := Int 4; w_clock := 0 |}.
Definition demo_trace : list (event (E := sharingE)) := trace world_handler (restore demo_data) demo_world.

Definition is_apply (e : event (E := sharingE)) : bool := let 'Ev op _ := e in match op with S_apply _ => true | _ => false end.

Lemma demo_distinct : distinct demo_data.
Proof. unfold distinct. cbn. apply NoDup_singleton. Qed.
(** Nothing in the trace reads the clock. *)
Lemma demo_admissible : admissible sharing_asm sharing_upd (unseen 0) demo_trace.
Proof. vm_compute. repeat split. Qed.

Lemma sharing_guarded_witness :
  respects (sharing_pre demo_data) sharing_upd (unseen 0) demo_trace /\ length (List.filter is_apply demo_trace) = 1%nat.
Proof.
  split; [|vm_compute; reflexivity].
  exact (proj1 (sharing_guarded demo_data C_restore demo_trace _ 0 demo_distinct (exec_steps world_handler (restore demo_data) demo_world) demo_admissible)).
Defined.

Lemma sharing_restored_witness :
  (exec world_handler (restore demo_data) demo_world).1.2 = Ok tt /\
  Forall (fun e => be_state e = B_restored) (sd_entries (exec world_handler (restore demo_data) demo_world).1.1).
Proof.
  assert (Hok : (exec world_handler (restore demo_data) demo_world).1.2 = Ok tt) by (vm_compute; reflexivity).
  split; [exact Hok|]. pose proof (exec_steps world_handler (restore demo_data) demo_world) as Hs.
  destruct (exec world_handler (restore demo_data) demo_world) as [[d' r] w]. cbn in Hok. subst r.
  apply Forall_lookup_2. intros i e He.
  exact (proj1 (proj2 (sharing_restored demo_data demo_trace d' 0 demo_distinct Hs demo_admissible) i e He)).
Defined.
