(* ===== verification/Banner.v ===== *)
(** * The banner of the terminal interface (apps/cli/src/banner.ts)

    A scene drawn on a grid of seven rows, as a function of the elapsed time and a seed.
    Times are finite numbers; [Math.sin] is a parameter. *)

From S2P Require Import Prelude Js Number Json Cli.

Local Open Scope string_scope.
Local Open Scope js_scope.
Local Open Scope Z_scope.

Class Sin : Type := Math_sin : number -> number.

Definition BANNER_HEIGHT : nat := 7.
Definition BANNER_INTERVAL_MS : number := Int 125.
Definition BANNER_SPEED : number := Dyadic 1 1.
Definition DOCKING_DURATION_MS : number := Int 4000.
Definition VISITOR_START_MS : number := Int 20000.
Definition VISITOR_CYCLE_MS : Z := 60000.
Definition VISITOR_DURATION_MS : number := Int 9000.
Definition bannerFits (rows : Z) : bool := Z.of_nat BANNER_HEIGHT + 12 <=? rows.

Inductive CellTone : Type := C_space | C_faintStar | C_grayStar | C_star | C_stick | C_dock | C_metal | C_readout | C_orange | C_gold.
#[export] Instance CellTone_eq_dec : EqDecision CellTone.
Proof. solve_decision. Defined.
Inductive Visitor : Type := V_cat | V_ufo | V_comet | V_laptop.

Definition sgr_of (parameters : string) : string := String ESC ("[" +:+ parameters +:+ "m").

Definition tones (t : CellTone) : string :=
  sgr_of (match t with
          | C_faintStar => "38;5;240" | C_grayStar => "90"
          | C_readout => "38;5;250"
          | C_space => "2;34" | C_star => "37" | C_stick => "36"
          | C_dock => "2;36" | C_metal => "37" | C_orange => "38;5;208" | C_gold => "38;5;220"
          end).

(** [Math.imul(value + 1, 2654435761) >>> 0] *)
Definition hash (value : Z) : Z := ((value + 1) * 2654435761) mod 2 ^ 32.

Definition num_sub (a b : number) : number := num_add a (neg_number b).
Definition smooth (value : number) : number := num_mul (num_mul value value) (num_sub (Int 3) (num_mul (Int 2) value)).

(** [Math.floor] and [Math.round] of a finite number. *)
Definition floorZ (n : number) : Z := match num_floor n with Int z => z | _ => 0 end.
Definition roundZ (n : number) : Z := match num_round n with Int z => z | _ => 0 end.
(** [a % m], with the sign of [a]. *)
Definition num_rem (a : number) (m : Z) : number :=
  match frac a with Some (x, p) => round_ratio (Z.rem x (m * p)) p | None => NaN end.

Definition visitor_tone (v : Visitor) : CellTone :=
  match v with V_cat => C_metal | V_ufo => C_orange | V_comet => C_orange | V_laptop => C_gold end.
Definition visitor_art (v : Visitor) : list string :=
  match v with
  | V_cat => [" /\_/\ "; "( o.o )"; " > ^ < "]
  | V_ufo => ["  _===_  "; " (_o_o_) "; "  .   .  "]
  | V_comet => [" .   .     "; "  ---===*> "]
  | V_laptop => ["  .--------.  "; "  |        |  "; "  |________|  "; " /_==_[]_==_\ "; " `----------' "]
  end.
Definition visitor_compactArt (v : Visitor) : list string :=
  match v with
  | V_laptop => ["  .--------.  "; "  |________|  "; " /_==_[]_==_\ "]
  | _ => visitor_art v
  end.
Definition visitor_kinds : list Visitor := [V_cat; V_ufo; V_comet; V_laptop].

(** [list[i % list.length]] for a list that is not empty. *)
Definition cyclic {A} (d : A) (l : list A) (i : Z) : A := (l !! Z.to_nat (Z.rem i (Z.of_nat (length l)))) ?? d.

Record BannerScene : Type := {
  bs_progress : number;
  bs_powered : bool;
  bs_power : number;
  bs_fanStep : Z;
  bs_status : string;
  bs_usagePercent : Z;
  bs_tokensPerSecond : Z;
  bs_visitor : option Visitor;
  bs_visitorFromRight : bool;
  bs_visitorProgress : number
}.

Section scene.
Context `{Sin}.

Definition bannerScene (elapsedMs : number) (seed : Z) : BannerScene :=
  let time := num_max (Int 0) elapsedMs in
  let powered := negb (num_ltb time DOCKING_DURATION_MS) in
  let connectedMs := num_max (Int 0) (num_sub time DOCKING_DURATION_MS) in
  let power := num_min (Int 1) (num_div connectedMs (Int 1500)) in
  let sample := Int (floorZ (num_div connectedMs (Int 1500))) in
  let offset := num_div (Int (hash seed mod 628)) (Int 100) in
  let wave (amplitude divisor : Z) := num_mul (Int amplitude) (Math_sin (num_add (num_div sample (Int divisor)) offset)) in
  let usage := roundZ (num_mul power (num_add (Int 67) (wave 21 3))) in
  let visitorTime := num_sub time VISITOR_START_MS in
  let slot := floorZ (num_div (num_max (Int 0) visitorTime) (Int VISITOR_CYCLE_MS)) in
  let visitAge := num_sub (num_rem visitorTime VISITOR_CYCLE_MS) (Int (hash (seed + slot) mod 10000)) in
  {| bs_progress := smooth (num_min (Int 1) (num_div time DOCKING_DURATION_MS));
     bs_powered := powered;
     bs_power := power;
     bs_fanStep := floorZ (if num_ltb connectedMs (Int 1500)
                           then num_div (num_mul connectedMs connectedMs) (Int (2 * 1500 * 100))
                           else num_div (num_sub connectedMs (Int 750)) (Int 100));
     bs_status := if negb powered then "IDLE" else if num_ltb power (Int 1) then "SPIN" else "READY";
     bs_usagePercent := usage;
     bs_tokensPerSecond := roundZ (num_mul power
       (num_add (num_add (Int 28) (num_mul (Int usage) (Number_of_decimal "0.55"))) (wave 5 5)));
     bs_visitor := if num_leb (Int 0) visitorTime && num_leb (Int 0) visitAge && num_ltb visitAge VISITOR_DURATION_MS
                   then Some (cyclic V_cat visitor_kinds (hash seed + slot)) else None;
     bs_visitorFromRight := slot mod 2 =? 1;
     bs_visitorProgress := num_max (Int 0) (num_min (Int 1) (num_div visitAge VISITOR_DURATION_MS)) |}.
End scene.

(** ** The grid *)
Definition cell : Type := ascii * CellTone.
Definition grid : Type := list (list cell).

Definition empty_grid (columns : nat) : grid := replicate BANNER_HEIGHT (replicate columns (" "%char, C_space)).

(** One character; outside the grid nothing is drawn. *)
Definition put_char (x y : Z) (c : ascii) (tone : CellTone) (g : grid) : grid :=
  if (0 <=? x) && (0 <=? y) then alter (<[Z.to_nat x := (c, tone)]>) (Z.to_nat y) g else g.

Fixpoint put (x y : Z) (text : string) (tone : CellTone) (g : grid) : grid :=
  match text with
  | EmptyString => g
  | String c rest => put (x + 1) y rest tone (put_char x y c tone g)
  end.

Fixpoint sprite (x y : Z) (lines_ : list string) (tone : CellTone) (g : grid) : grid :=
  match lines_ with
  | [] => g
  | l :: rest => sprite x (y + 1) rest tone (put x y l tone g)
  end.

Definition repeat_char (n : Z) (s : string) : string := repeat_str (Z.to_nat n) s.
Definition spaces (n : nat) : string := repeat_str n " ".
Definition padStart (n : nat) (s : string) : string := spaces (n - String.length s) +:+ s.
Definition center (text : string) (width : Z) : string :=
  padEnd (Z.to_nat width) (padStart (Z.to_nat ((width + Z.of_nat (String.length text)) / 2)) text).
Definition width_of (lines_ : list string) : Z := Z.of_nat (max_list 0 (map String.length lines_)).

(** ** The drawing *)
Definition star_tone (index : Z) : CellTone := cyclic C_star [C_faintStar; C_grayStar; C_star] index.

Definition draw_star (columns : Z) (elapsedMs : number) (seed index : Z) (g : grid) : grid :=
  let value := hash (index + seed) in
  let drift := if index mod 5 =? 0 then floorZ (num_div elapsedMs (Int 12000)) else 0 in
  let x := 2 + Z.rem (value + drift) (Z.max 1 (columns - 4)) in
  let tone := star_tone index in
  let sparkle := if bool_decide (tone = C_star) then Z.rem (floorZ (num_div elapsedMs (Int 2400)) + value) 17 else -1 in
  put x (index mod Z.of_nat BANNER_HEIGHT) (if sparkle =? 0 then "+" else if sparkle =? 1 then "*" else ".") tone g.

Definition draw_stars (columns : Z) (elapsedMs : number) (seed : Z) (g : grid) : grid :=
  foldl (fun g index => draw_star columns elapsedMs seed (Z.of_nat index) g) g (seq 0 (Z.to_nat (columns / 2))).

Definition connectorWidth : Z := 5.

Definition stick_lines (bodyWidth : Z) : list string :=
  [" ." +:+ repeat_char (bodyWidth - 1) "-" +:+ "." +:+ repeat_char connectorWidth "_";
   "(" +:+ center "AIppliance" bodyWidth +:+ "| :: |";
   "(" +:+ center "Magic Stick" bodyWidth +:+ "|____|";
   " '" +:+ repeat_char (bodyWidth - 1) "-" +:+ "'"].

Definition fan_rows (compact powered : bool) (fanStep : Z) : list string :=
  let fan := if powered then cyclic "" ["|"; "/"; "-"; "\"] fanStep else "." in
  let fanFace := if compact then "(" +:+ fan +:+ ")"
                 else if powered then cyclic "" ["(-o-)"; "(\o/)"; "(|o|)"; "(/o\)"] fanStep else "( o )" in
  map (fun c => join (if compact then "  " else " ") [c; c; c])
    [if compact then ".-." else " .-. "; fanFace; if compact then "'-'" else " '-' "].

Definition first_length (l : list string) : Z := match l with s :: _ => Z.of_nat (String.length s) | [] => 0 end.

Definition card_lines (compact powered : bool) (fanStep : Z) : list string :=
  let rows := fan_rows compact powered fanStep in
  let fanWidth := first_length rows in
  let fins := if powered then (if Z.eqb (Z.rem fanStep 2) 0 then "|+|*" else "|*|+") else "||||" in
  ("." +:+ repeat_char fanWidth "-" +:+ ".")
  :: map (fun row => "|" +:+ row +:+ "|") rows
  ++ ["'--[" +:+ take_str (Z.to_nat (fanWidth - 6)) (repeat_char fanWidth fins) +:+ "]--'"].

Definition case_lines (pcWidth : Z) (card : list string) : list string :=
  ("." +:+ repeat_char pcWidth "-" +:+ ".")
  :: map (fun _ => "|" +:+ center "" pcWidth +:+ "|") card
  ++ ["'" +:+ repeat_char pcWidth "-" +:+ "'"].

Section render.
Context `{Sin}.

Definition Math_PI : number := Number_of_decimal "3.141592653589793".

Definition draw_visitor (columns finish pcX pcWidth : Z) (scene : BannerScene) (v : Visitor) (g : grid) : grid :=
  let visitorWidth := width_of (visitor_art v) in
  let pcRight := pcX + pcWidth + 2 in
  let rightSide := bs_visitorFromRight scene && (visitorWidth + 2 <=? columns - pcRight) in
  let leftSide := negb rightSide && (visitorWidth + 2 <=? finish) in
  let lowerLane := negb leftSide && negb rightSide in
  let art := if lowerLane then visitor_compactArt v else visitor_art v in
  let minX := if rightSide then pcRight + 1 else 1 in
  let maxX := if rightSide then columns - visitorWidth - 1
              else (if lowerLane then pcX else finish) - visitorWidth - 1 in
  let progress := if rightSide then num_sub (Int 1) (bs_visitorProgress scene) else bs_visitorProgress scene in
  let visitorX := roundZ (num_add (Int minX) (num_mul (Int (Z.max 0 (maxX - minX))) progress)) in
  let bob := if num_ltb (Number_of_decimal "0.4")
                  (Math_sin (num_mul (num_mul (bs_visitorProgress scene) Math_PI) (Int 2))) then 1 else 0 in
  if minX <=? maxX then sprite visitorX (if lowerLane then 4 else 1 + bob) art (visitor_tone v) g else g.

Definition banner_grid (columns : Z) (elapsedMs : number) (seed : Z) : grid :=
  let scene := bannerScene elapsedMs seed in
  let compact := columns <? 66 in
  let pcWidth := if compact then 23 else 27 in
  let bodyWidth := if compact then 12 else 16 in
  let pairWidth := bodyWidth + 2 + pcWidth + 2 in
  let finish := Z.max 0 ((columns - pairWidth) / 2) in
  let pcX := finish + bodyWidth + 2 in
  let start := Z.max 0 (Z.min (finish - connectorWidth - 2) (floorZ (num_mul (Int columns) (Number_of_decimal "0.13")))) in
  let x := roundZ (num_add (Int start) (num_mul (Int (finish - start)) (bs_progress scene))) in
  let g := draw_stars columns elapsedMs seed (empty_grid (Z.to_nat columns)) in
  let g := sprite x 1 (stick_lines bodyWidth) C_stick g in
  let g := put (x + 1) 0 " .-====-." C_stick g in
  let g := put (x + 1) 5 " '-====-'" C_stick g in
  let rows := fan_rows compact (bs_powered scene) (bs_fanStep scene) in
  let card := card_lines compact (bs_powered scene) (bs_fanStep scene) in
  let g := sprite pcX 0 (case_lines pcWidth card) (if bs_powered scene then C_stick else C_dock) g in
  let cardX := pcX + 2 in
  let g := sprite cardX 1 card C_metal g in
  let g := sprite (cardX + 1) 2 rows (if bs_powered scene then C_orange else C_metal) g in
  let displayX := cardX + first_length card + 1 in
  let g := sprite displayX 2
             (map (fun line => center line 5)
                [bs_status scene; String_of_Z (bs_usagePercent scene) +:+ "%"; String_of_Z (bs_tokensPerSecond scene) +:+ "TPS"])
             C_readout g in
  match bs_visitor scene with
  | Some v => draw_visitor columns finish pcX pcWidth scene v g
  | None => g
  end.

(** A row with its colors: an escape sequence where the tone changes. *)
Fixpoint color_row (previous : option CellTone) (row : list cell) : string :=
  match row with
  | [] => sgr_of "0"
  | (c, tone) :: rest =>
      (if bool_decide (Some tone = previous) then "" else sgr_of "0" +:+ tones tone)
      +:+ String c (color_row (Some tone) rest)
  end.

Fixpoint plain_row (row : list cell) : string :=
  match row with [] => "" | (c, _) :: rest => String c (plain_row rest) end.

Definition renderBanner (width : Z) (elapsedMs : number) (color : bool) (seed : Z) : list string :=
  map (if color then color_row None else plain_row) (banner_grid (Z.max 1 width) elapsedMs seed).
End render.

(** ** The clock of the animation *)
Record BannerFrame : Type := { bf_elapsedMs : number; bf_seed : Z }.

(** One tick of the interval. *)
Definition next_frame (f : BannerFrame) : BannerFrame :=
  {| bf_elapsedMs := num_add (bf_elapsedMs f) (num_mul BANNER_INTERVAL_MS BANNER_SPEED); bf_seed := bf_seed f |}.

Example banner_plain :
  let _ : Sin := fun _ => Int 0 in
  renderBanner 45 (Int 0) false 3 !! 2%nat =
  Some "( AIppliance | ::| |.-.  .-.  .-.| IDLE  |   ".
Proof. vm_compute. reflexivity. Qed.
