(* ===== verification/Shared.v ===== *)
(** * Tasks over a shared state

    An event-driven program: handlers and the tasks they start share one state. A task is a
    program whose operations are calls, answered by the environment at any later time, and
    atomic updates of the shared state; between two calls it runs alone, as JavaScript does
    between two awaits ([settle]). [swp] is the weakest precondition of one task that relies
    on an invariant of the state which every other task guarantees. *)

From S2P Require Import Prelude Prog.

Inductive sharedE (E : Type -> Type) (S : Type) : Type -> Type :=
| Call {X : Type} (op : E X) : sharedE E S X
| Atomic {X : Type} (f : S -> X * S) : sharedE E S X.
Arguments Call {_ _ _} _.
Arguments Atomic {_ _ _} _.

(** A program without shared state, as a task. *)
Fixpoint lift {E S A} (p : prog E A) : prog (sharedE E S) A :=
  match p with
  | Done a => Done a
  | Await op k => Await (Call op) (fun x => lift (k x))
  end.

Definition atomic_result {E S X} (op : sharedE E S X) : option (S -> X * S) :=
  match op with Call _ => None | Atomic f => Some f end.

(** Run a task up to its next call. *)
Fixpoint settle {E S A} (p : prog (sharedE E S) A) (s : S) : prog (sharedE E S) A * S :=
  match p with
  | Done a => (Done a, s)
  | Await op k =>
      match atomic_result op with
      | Some f => settle (k (f s).1) (f s).2
      | None => (Await op k, s)
      end
  end.

Definition calls_next {E S A} (p : prog (sharedE E S) A) (P : forall X, E X -> Prop) : Prop :=
  match p with
  | Await op _ => match op with Call c => P _ c | Atomic _ => False end
  | Done _ => False
  end.

Section swp.
Context {E : Type -> Type} {S G : Type}.
(** [Inv g s]: what a task in ghost state [g] relies on; [Rel]: what an update guarantees;
    [pre]: which calls it may make; [asm]: which replies it may get. *)
Context (Inv : G -> S -> Prop) (Rel : G -> S -> G -> S -> Prop).
Context (pre : forall X, G -> E X -> Prop) (asm : forall X, E X -> X -> Prop).

Definition sstep {X} (op : sharedE E S X) (g : G) : (X -> G -> Prop) -> Prop :=
  match op in sharedE _ _ X return (X -> G -> Prop) -> Prop with
  | Call op => fun K => pre _ g op /\ forall x, asm _ op x -> K x g
  | Atomic f => fun K => forall s, Inv g s -> exists g', Rel g s g' (f s).2 /\ K (f s).1 g'
  end.

Fixpoint swp {A} (p : prog (sharedE E S) A) (g : G) (Q : G -> A -> Prop) : Prop :=
  match p with
  | Done a => Q g a
  | Await op k => sstep op g (fun x g' => swp (k x) g' Q)
  end.

Lemma sstep_mono {X} (op : sharedE E S X) g (K K' : X -> G -> Prop) :
  (forall x g', K x g' -> K' x g') -> sstep op g K -> sstep op g K'.
Proof.
  intros HK. destruct op as [X op|X f]; cbn.
  - intros [Hp Hk]. split; [done|]. auto.
  - intros H s Hs. destruct (H s Hs) as (g' & Hr & Hk). eauto.
Qed.

Lemma swp_mono {A} (p : prog (sharedE E S) A) g (Q Q' : G -> A -> Prop) :
  (forall g' a, Q g' a -> Q' g' a) -> swp p g Q -> swp p g Q'.
Proof.
  intros HQ. revert g. induction p as [a|X op k IH]; intros g; cbn [swp]; [auto|].
  apply sstep_mono. intros x g'. apply IH.
Qed.

Lemma swp_bind {A B} (p : prog (sharedE E S) A) (f : A -> prog (sharedE E S) B) g Q :
  swp p g (fun g' a => swp (f a) g' Q) -> swp (pbind p f) g Q.
Proof.
  revert g. induction p as [a|X op k IH]; intros g; cbn [swp pbind]; [done|].
  apply sstep_mono. intros x g'. apply IH.
Qed.

(** A lifted program only makes calls. *)
Lemma swp_lift {A} (p : prog E A) g (Q : G -> A -> Prop) :
  wp (fun X (_ : unit) op => pre X g op) (fun X _ op x => asm X op x) (fun X _ op x => tt) p tt (fun _ a => Q g a) ->
  swp (lift p) g Q.
Proof.
  induction p as [a|X op k IH]; cbn; [done|]. intros [Hp Hk]. split; [done|]. intros x Hx. apply IH. auto.
Qed.

(** Running a task keeps its weakest precondition, if its updates are among those that keep
    the invariant. *)
Lemma swp_settle {A} (I : G -> S -> Prop) (p : prog (sharedE E S) A) g s Q :
  (forall g s, I g s -> Inv g s) -> (forall g s g' s', I g s -> Rel g s g' s' -> I g' s') ->
  swp p g Q -> I g s ->
  exists g', swp (settle p s).1 g' Q /\ I g' (settle p s).2.
Proof.
  intros HI HR. revert g s. induction p as [a|X op k IH]; intros g s; cbn; [eauto|].
  destruct op as [X op|X f]; cbn.
  - intros Hp Hs. exists g. done.
  - intros Hp Hs. destruct (Hp s (HI _ _ Hs)) as (g' & Hr & Hk). eauto.
Qed.

Lemma settle_calls {A} (p : prog (sharedE E S) A) s :
  match (settle p s).1 with Done _ => True | Await op _ => atomic_result op = None end.
Proof. revert s. induction p as [a|X op k IH]; intros s; cbn; [done|]. destruct op as [X op|X f]; cbn; [done | apply IH]. Qed.

(** ** Methods *)
Section methods.
Context {T X : Type}.

Definition swpm {A} (m : M (sharedE E S) T X A) (t : T) (g : G) (Q : G -> T -> res X A -> Prop) : Prop :=
  swp (m t) g (fun g' o => Q g' o.1 o.2).

Lemma swpm_mono {A} (m : M (sharedE E S) T X A) t g (Q Q' : G -> T -> res X A -> Prop) :
  (forall g' t' r, Q g' t' r -> Q' g' t' r) -> swpm m t g Q -> swpm m t g Q'.
Proof. intros H. apply swp_mono. intros g' o. apply H. Qed.

Lemma swpm_ret {A} (a : A) t g (Q : G -> T -> res X A -> Prop) : Q g t (Ok a) -> swpm (mret a) t g Q.
Proof. done. Qed.
Lemma swpm_throw {A} e t g (Q : G -> T -> res X A -> Prop) : Q g t (Err e) -> swpm (throw e) t g Q.
Proof. done. Qed.
Lemma swpm_of_res {A} (r : res X A) t g (Q : G -> T -> res X A -> Prop) : Q g t r -> swpm (of_res r) t g Q.
Proof. done. Qed.

Lemma swpm_bind {A B} (m : M (sharedE E S) T X A) (f : A -> M (sharedE E S) T X B) t g Q :
  swpm m t g (fun g' t' r => match r with Ok a => swpm (f a) t' g' Q | Err e => Q g' t' (Err e) end) ->
  swpm (mbind m f) t g Q.
Proof.
  unfold swpm, mbind. intros H. apply swp_bind. eapply swp_mono; [|exact H].
  intros g' [t' [a|e]]; cbn; auto.
Qed.

Lemma swpm_try {A} (m : M (sharedE E S) T X A) h t g Q :
  swpm m t g (fun g' t' r => match r with Ok a => Q g' t' (Ok a) | Err e => swpm (h e) t' g' Q end) ->
  swpm (try_catch m h) t g Q.
Proof.
  unfold swpm, try_catch. intros H. apply swp_bind. eapply swp_mono; [|exact H].
  intros g' [t' [a|e]]; cbn; auto.
Qed.

Lemma swpm_finally {A} (m : M (sharedE E S) T X A) f t g Q :
  swpm m t g (fun g' t' r => swpm f t' g' (fun g'' t'' r' =>
    match r' with Ok _ => Q g'' t'' r | Err e => Q g'' t'' (Err e) end)) ->
  swpm (try_finally m f) t g Q.
Proof.
  unfold swpm, try_finally. intros H. apply swp_bind. eapply swp_mono; [|exact H].
  intros g' [t' r]; cbn. intros H'. apply swp_bind. eapply swp_mono; [|exact H'].
  intros g'' [t'' [|]]; cbn; auto.
Qed.

Lemma swpm_when b m t g (Q : G -> T -> res X unit -> Prop) :
  (b = true -> swpm m t g Q) -> (b = false -> Q g t (Ok tt)) -> swpm (when b m) t g Q.
Proof. intros H1 H2. destruct b; [by apply H1 | apply swpm_ret; by apply H2]. Qed.

Lemma swpm_atomic {A} (f : S -> A * S) t g (Q : G -> T -> res X A -> Prop) :
  (forall s, Inv g s -> exists g', Rel g s g' (f s).2 /\ Q g' t (Ok (f s).1)) ->
  swpm (await_ (Atomic f)) t g Q.
Proof. done. Qed.
End methods.
End swp.
