(* ===== verification/Tui.v ===== *)
(** * The terminal interface: data and screens (apps/cli/src/tui.ts)

    What the interface shows for a snapshot and an overlay. The handlers are in [TuiMachine];
    a handler stored in a menu, form or confirmation is the value of [MenuAction] or [Command]
    that names it with the values it captures. Characters outside Latin-1 that the source uses
    are represented by unused C1 control codes, as in [Cli]. *)

From S2P Require Import Prelude Js Number Json Prog Contracts DashboardCore ApiClient Cli CliAuth CliFiles CliCommands Banner.

Local Open Scope string_scope.
Local Open Scope js_scope.
Local Open Scope Z_scope.

(** ** Characters and colors *)
Definition pointer : ascii := unit_of 145.        (* U+203A *)
Definition disc : string := String (unit_of 146) "".
Definition ring : string := String (unit_of 147) "".
Definition bullet : string := String (unit_of 148) "".
Definition up_down : string := String (unit_of 149) (String "/" (String (unit_of 150) "")).
Definition left_right : string := String (unit_of 151) (String "/" (String (unit_of 152) "")).
Definition emdash : string := String (unit_of 153) "".
Definition times : string := String (unit_of 215) "".
Definition dots : string := String ellipsis "".

Definition paint (parameters value : string) (color : bool) : string :=
  if color then sgr_of parameters +:+ value +:+ sgr_of "0" else value.
Definition cyan : string -> bool -> string := paint "36".
Definition dim : string -> bool -> string := paint "2".
Definition good_ : string -> bool -> string := paint "32".
Definition bad_ : string -> bool -> string := paint "31".
Definition warn_ : string -> bool -> string := paint "33".

Definition CLEAR : string := String ESC ("[2J" +:+ String ESC "[H").
Definition HIDE_CURSOR : string := String ESC "[?25l".
Definition SHOW_CURSOR : string := String ESC "[?25h".
Definition ALT_SCREEN : string := String ESC "[?1049h".
Definition NORMAL_SCREEN : string := String ESC "[?1049l".

(** ** Data *)
Inductive TuiTab : Type := Overview | Services | Models_ | Settings_ | Users | API_Access | Kubernetes | License | Hardware | System.
#[export] Instance TuiTab_eq_dec : EqDecision TuiTab.
Proof. solve_decision. Defined.
Definition tab_name (t : TuiTab) : string :=
  match t with
  | Overview => "Overview" | Services => "Services" | Models_ => "Models" | Settings_ => "Settings" | Users => "Users"
  | API_Access => "API Access" | Kubernetes => "Kubernetes" | License => "License" | Hardware => "Hardware" | System => "System"
  end.

Inductive TuiEntity : Type :=
| E_service (id : string) (state : ModuleState) (catalog : option ModuleCatalogEntry)
| E_model (id : string) (activation : ModelActivation)
| E_user (id : string) (user : User)
| E_api_key (id : string) (item : ApiKeyItem)
| E_kubernetes (id : string) (user : KubernetesAccessUser).

Record Choice : Type := { ch_value : string; ch_label : string }.

Inductive FieldKind : Type := F_text | F_secret | F_choice.
#[export] Instance FieldKind_eq_dec : EqDecision FieldKind.
Proof. solve_decision. Defined.

Record FormField : Type := {
  ff_id : string;
  ff_label : string;
  ff_value : string;
  ff_kind : FieldKind;
  ff_choices : list Choice;
  ff_required : bool;
  ff_hint : option string
}.

(** The handlers of forms and confirmations, with the values they capture. *)
Inductive Command : Type :=
| Cmd_enableService (id : string) (catalog : option ModuleCatalogEntry)
| Cmd_disableService (id : string) (catalog : option ModuleCatalogEntry)
| Cmd_createLocal (engine computeTarget : string) (target : ComputeTarget) (kvCacheChoices : list Choice)
| Cmd_createExternal
| Cmd_removeModel (id : string)
| Cmd_createUser
| Cmd_updateUser (user : User)
| Cmd_updateRole (user : User)
| Cmd_setEnabled (user : User) (enable : bool)
| Cmd_resetPassword (user : User)
| Cmd_deleteUser (user : User)
| Cmd_createApiKey
| Cmd_revokeApiKey (id : string) (item : ApiKeyItem)
| Cmd_setKubernetes (id : string) (user : KubernetesAccessUser)
| Cmd_revokeKubernetes (id : string) (user : KubernetesAccessUser)
| Cmd_saveProfile (compatibility : GpuCompatibility)
| Cmd_upstreamRules (compatibility : GpuCompatibility)
| Cmd_validateGpu (compatibility : GpuCompatibility)
| Cmd_inspectLicense
| Cmd_activateLicense (document revision : string)
| Cmd_exportLicense
| Cmd_signOut.

Inductive MenuAction : Type :=
| Act_openLocalModelForm (runtimeValue : string)
| Act_addLocalModel
| Act_addExternalModel
| Act_editUserProfile (user : User)
| Act_editUserRole (user : User)
| Act_toggleUser (user : User)
| Act_resetUserPassword (user : User).

Record MenuOption : Type := {
  mo_label : string;
  mo_disabled : bool;
  mo_hint : option string;
  mo_action : MenuAction
}.

Record TuiForm : Type := {
  fm_title : string;
  fm_description : string;
  fm_fields : list FormField;
  fm_active : Z;
  fm_submitLabel : string;
  fm_error : option string;
  fm_onSubmit : Command
}.

Inductive MessageTone : Type := Tone_normal | Tone_error.
#[export] Instance MessageTone_eq_dec : EqDecision MessageTone.
Proof. solve_decision. Defined.

Inductive TuiOverlay : Type :=
| O_menu (title description : string) (options : list MenuOption) (active : Z)
| O_form (form : TuiForm)
| O_confirm (title description confirmLabel : string) (onConfirm : Command)
| O_message (title : string) (lines : list string) (tone : MessageTone) (copyValue : option string)
| O_busy (title : string).

Record TuiRenderState : Type := {
  rs_demo : bool;
  rs_banner : option BannerFrame;
  rs_selectionIndex : Z;
  rs_overlay : option TuiOverlay;
  rs_notice : string
}.

(** ** Small helpers *)
Definition errorText (e : cli_exn) : string := match e with X_api a => ae_message a | X_error m _ => m end.
Definition statusLabel (value : option string) : string := sor (value ?? "") "Unknown".
Definition selectedPrefix (index selectedIndex : Z) : string := if index =? selectedIndex then String pointer "" else " ".

Definition currentChoice (f : FormField) : string :=
  (ch_label <$> find_first (fun c => String.eqb (ch_value c) (ff_value f)) (ff_choices f)) ?? ff_value f.
Definition displayFieldValue (f : FormField) : string :=
  match ff_kind f with F_secret => repeat_str (String.length (ff_value f)) bullet | _ => currentChoice f end.
Definition formValues (fields : list FormField) : dict string :=
  foldl (fun d f => dict_set d (ff_id f) (ff_value f)) [] fields.

Definition tui_error {A} (message : string) : res cli_exn A := Err (X_error message []).
Definition positiveInteger (value label : string) : res cli_exn number :=
  let result := Number_of_string value in
  if negb (isInteger result) || num_ltb result (Int 1) then tui_error (label +:+ " must be a positive integer.")
  else Ok result.

(** [Math.ceil] *)
Definition num_ceil (n : number) : number := neg_number (num_floor (neg_number n)).
Definition roundMemory (value : number) : number := num_max (Int 100) (num_mul (num_ceil (num_div value (Int 100))) (Int 100)).

Definition CR : string := String (unit_of 13) "".
Definition isTuiActionKey (key : string) : bool := includes ["a"; "d"; "e"; "c"; "v"; CR; newline] key.

(** ** The creation payload of a local model *)
Record LocalModelInput : Type := {
  li_name : string; li_modelType : string; li_engine : string; li_computeTarget : string; li_reference : string;
  li_contextWindow : number; li_maxNumSeqs : number; li_kvCacheType : option string; li_reservationMi : number;
  li_cpuOffloading : option bool; li_hostMemoryMi : option number
}.

Definition host_memory (input : LocalModelInput) : res cli_exn number :=
  match li_hostMemoryMi input with
  | Some h => if isInteger h && negb (num_ltb h (Int 100)) then Ok h
              else tui_error "A separate host RAM reservation is required for CPU offloading."
  | None => tui_error "A separate host RAM reservation is required for CPU offloading."
  end.

Definition buildLocalModelPayload (input : LocalModelInput) (target : ComputeTarget) : res cli_exn json :=
  let local_ : dict json :=
    [("modelType", JStr (li_modelType input)); ("computeTarget", JStr (li_computeTarget input));
     ("engine", JStr (li_engine input)); ("contextWindow", JNum (li_contextWindow input));
     ("maxNumSeqs", JNum (li_maxNumSeqs input));
     ("kvCacheType", JStr (li_kvCacheType input ?? (if String.eqb (li_engine input) "OLlama" then "f16" else "auto")));
     ("url", JStr (li_reference input))] in
  let local_ :=
    if bool_decide (ComputeTarget_kind target = Some "cpu") || String.eqb (li_computeTarget input) "cpu"
    then dict_set local_ "memoryRequiredMi" (JNum (li_reservationMi input))
    else dict_set local_ "vram" (JStr (String_of_number (li_reservationMi input) +:+ "Mi")) in
  let nvidia := String.eqb (li_computeTarget input) "nvidia-gpu" in
  let? local_ :=
    match li_cpuOffloading input with
    | None => Ok local_
    | Some on =>
        if on && negb nvidia then tui_error "CPU offloading currently supports NVIDIA GPU models only."
        else
          let local_ := if nvidia then dict_set local_ "cpuOffloading" (JBool on) else local_ in
          if on then let? h := host_memory input in Ok (dict_set local_ "memoryRequiredMi" (JNum h)) else Ok local_
    end in
  Ok (JObj [("name", JStr (li_name input)); ("enabled", JBool true); ("targetNamespace", JStr "ai"); ("local", JObj local_)]).

(** ** Terminal input *)

(** [Buffer.from(s).toString('base64')] is a parameter. *)
Class Base64 : Type := base64 : string -> string.
Definition osc52ClipboardSequence `{Base64} (value : string) : string :=
  String ESC ("]52;c;" +:+ base64 value +:+ String (unit_of 7) "").

(** The keys of a chunk: a three-character escape sequence or one character. *)
Fixpoint splitTerminalInput (value : string) : list string :=
  match value with
  | EmptyString => []
  | String c rest =>
      match rest with
      | String b (String k rest') =>
          if Ascii.eqb c ESC && Ascii.eqb b "[" then String c (String b (String k "")) :: splitTerminalInput rest'
          else String c "" :: splitTerminalInput rest
      | _ => String c "" :: splitTerminalInput rest
      end
  end.

(** ** Tabs and selections *)
Definition availableTabs (snapshot : DashboardSnapshot) : list TuiTab :=
  let admin_ := bool_decide (dashboardRole (Some (ds_session snapshot)) = admin) in
  let identities := admin_ && Session_identityManagementAvailable (ds_session snapshot) in
  ([Overview; Services; Models_] ++ (if admin_ then [Settings_] else []) ++ (if identities then [Users] else [])
   ++ (if admin_ then [API_Access] else []) ++ (if admin_ then [License] else []) ++ (if identities then [Kubernetes] else [])
   ++ [Hardware; System])%list.

Definition moveTab (index direction count : Z) : Z := if count =? 0 then 0 else Z.rem (index + direction + count) count.
Definition moveSelection (index direction count : Z) : Z :=
  if count =? 0 then 0 else Z.min (Z.max 0 (index + direction)) (count - 1).

(** ** The lines of the tabs *)
Definition dot_of (enabled : option bool) : string := if enabled ?? false then disc else ring.
Definition phase_of (s : option StatusValue) : option string := s ≫= StatusValue_phase.
(** [status?.message ?? status?.phase] in a template string. *)
Definition status_text (s : option StatusValue) : string := ((s ≫= StatusValue_message) ??? phase_of s) ?? "undefined".
Definition count_of {A} (l : option (list A)) : string := numeral (length (l ?? [])).

Section lines.
Context `{Collation}.

Definition module_order (catalog : dict ModuleCatalogEntry) (id : string) : number :=
  (dict_get catalog id ≫= ModuleCatalogEntry_order) ?? Int 9999.

Definition catalog_of (snapshot : DashboardSnapshot) : dict ModuleCatalogEntry :=
  (ModulesPayload_catalogJson (ds_modules snapshot) ≫= ModulesPayload_catalogJson_t_modules) ?? [].

Definition compare_services (catalog : dict ModuleCatalogEntry) (a b : string * ModuleState) : Z :=
  let oa := module_order catalog a.1 in
  let ob := module_order catalog b.1 in
  if num_ltb oa ob then -1 else if num_ltb ob oa then 1 else localeCompare a.1 b.1.

Definition serviceEntries (snapshot : DashboardSnapshot) : list (string * ModuleState) :=
  sort_by (compare_services (catalog_of snapshot)) (entries (ModulesPayload_modules (ds_modules snapshot))).

Definition activation_name (a : ModelActivation) : string := (ModelActivation_metadata a ≫= KubernetesObjectMeta_name) ?? "".
Definition modelEntries (snapshot : DashboardSnapshot) : list ModelActivation :=
  List.filter (fun a => truthy (activation_name a)) (ModelsPayload_activations (ds_models snapshot)).

Definition users_of (snapshot : DashboardSnapshot) : list User := (UsersPayload_users <$> ds_users snapshot) ?? [].
Definition keys_of (snapshot : DashboardSnapshot) : list ApiKeyItem := (ApiAccessPayload_items <$> ds_apiAccess snapshot) ?? [].
Definition kubernetes_of (snapshot : DashboardSnapshot) : list KubernetesAccessUser :=
  (KubernetesAccessPayload_users <$> ds_kubernetesAccess snapshot) ?? [].

Definition selectableEntities (tab : TuiTab) (snapshot : DashboardSnapshot) : list TuiEntity :=
  match tab with
  | Services => map (fun e => E_service e.1 e.2 (dict_get (catalog_of snapshot) e.1)) (serviceEntries snapshot)
  | Models_ => map (fun a => E_model (activation_name a) a) (modelEntries snapshot)
  | Users => map (fun u => E_user (User_id u) u) (users_of snapshot)
  | API_Access => map (fun k => E_api_key (ApiKeyItem_id k) k) (keys_of snapshot)
  | Kubernetes => map (fun u => E_kubernetes (KubernetesAccessUser_id u) u) (kubernetes_of snapshot)
  | _ => []
  end.
Definition selectableCount (tab : TuiTab) (snapshot : DashboardSnapshot) : Z := Z.of_nat (length (selectableEntities tab snapshot)).

Definition attention_lines (snapshot : DashboardSnapshot) : list string :=
  (omap (fun e => if (ModuleState_enabled e.2 ?? false) && phaseNeedsAttention (phase_of (ModuleState_status e.2))
                  then Some ("Module " +:+ (ModuleState_displayName e.2 ?? titleFromKey e.1) +:+ ": " +:+ status_text (ModuleState_status e.2))
                  else None) (entries (ModulesPayload_modules (ds_modules snapshot)))
   ++ omap (fun i => if phaseNeedsAttention (phase_of (AppInstance_status (fi_value i)))
                     then Some ("Instance " +:+ fi_name i +:+ ": " +:+ status_text (AppInstance_status (fi_value i))) else None)
        (flattenInstances (Some (ds_instances snapshot)))
   ++ omap (fun a => if phaseNeedsAttention (phase_of (ModelActivation_status a))
                     then Some ("Model " +:+ ((ModelActivation_metadata a ≫= KubernetesObjectMeta_name) ?? "unnamed") +:+ ": "
                                +:+ status_text (ModelActivation_status a)) else None)
        (ModelsPayload_activations (ds_models snapshot)))%list.

Definition overviewLines (snapshot : DashboardSnapshot) : list string :=
  let modules_ := entries (ModulesPayload_modules (ds_modules snapshot)) in
  let attention := attention_lines snapshot in
  (["Appliance  " +:+ ((Appliance_metadata (ds_appliance snapshot) ≫= KubernetesObjectMeta_name) ?? "local") +:+ "  "
      +:+ statusLabel (phase_of (Appliance_status (ds_appliance snapshot)));
    "Modules    " +:+ numeral (length (List.filter (fun e => ModuleState_enabled e.2 ?? false) modules_)) +:+ " enabled / "
      +:+ numeral (length modules_) +:+ " catalogued";
    "Instances  " +:+ numeral (length (flattenInstances (Some (ds_instances snapshot))));
    "Models     " +:+ numeral (length (ModelsPayload_activations (ds_models snapshot))) +:+ " activation(s), "
      +:+ count_of (ModelsPayload_models (ds_models snapshot)) +:+ " registered";
    "";
    match attention with [] => "Attention  No issues detected." | _ => "Attention" end]
   ++ map (fun item => "  ! " +:+ truncate (Some item) 100) (take 12 attention))%list.

Definition serviceLines (snapshot : DashboardSnapshot) (selectedIndex : Z) : list string :=
  ("Modules"
   :: imap (fun index e => selectedPrefix (Z.of_nat index) selectedIndex +:+ " " +:+ dot_of (ModuleState_enabled e.2) +:+ " "
              +:+ padEnd 25 (ModuleState_displayName e.2 ?? titleFromKey e.1) +:+ " " +:+ statusLabel (phase_of (ModuleState_status e.2)))
        (serviceEntries snapshot)
   ++ [""; "Instances (managed in the browser or with `magicstick instance`)"]
   ++ map (fun i => "  " +:+ disc +:+ " " +:+ padEnd 15 (fi_type i) +:+ " " +:+ padEnd 24 (fi_name i) +:+ " "
             +:+ statusLabel (phase_of (AppInstance_status (fi_value i))))
        (flattenInstances (Some (ds_instances snapshot))))%list.

Definition mode_text (e : GpuAllocationEvidence) : string := (lit_str <$> GpuAllocationEvidence_gpuAllocationMode e) ?? "unknown".
Definition source_text (e : GpuAllocationEvidence) : string := GpuAllocationEvidence_gpuCapacitySource e ?? "unavailable".
Definition dynamic_memory_line : string := "Dynamic memory is not a protected reservation. Firmware and dynamic limits are not added.".

Definition pool_lines (pool : SharedMemoryPool) : list string :=
  ["  " +:+ SharedMemoryInventory_node pool +:+ ": installed RAM " +:+ mi (SharedMemoryInventory_installedMemoryMi pool)
     +:+ " / fixed GPU reservation " +:+ mi (SharedMemoryInventory_firmwareReservedMi pool);
   "    Linux RAM " +:+ mi (SharedMemoryInventory_physicalMemoryMi pool) +:+ " / dynamic GPU ceiling "
     +:+ mi (SharedMemoryInventory_gpuAccessibleMi pool) +:+ " (within Linux RAM, not extra)";
   "    One GPU: driver capacity " +:+ mi (GpuAllocationEvidence_gpuCapacityMi pool) +:+ " / allocation "
     +:+ mode_text pool +:+ " / source " +:+ source_text pool;
   "    " +:+ dynamic_memory_line].

Definition is_unified (architecture : option string) : bool := bool_decide (architecture = Some "unified").

Definition device_lines (device : ComputeMemoryDevice) : list string :=
  let unified := is_unified (ComputeMemoryDevice_memoryArchitecture device) in
  ("  " +:+ (ComputeMemoryDevice_name device ?? ComputeMemoryDevice_id device) +:+ ": " +:+ mi (ComputeMemoryDevice_freeMi device) +:+ " "
     +:+ (if String.eqb (mode_text device) "shared-gtt" then "shared RAM available" else "free") +:+ " / "
     +:+ mi (ComputeMemoryDevice_unreservedMi device) +:+ " unreserved / " +:+ formatMi (ComputeMemoryDevice_totalMi device) +:+ " "
     +:+ (if unified then "budgetable" else "total"))
  :: (if unified
      then ["    Only host runtime and dynamic GPU allocations are charged to Linux RAM; GPU accounting "
            +:+ (if ComputeMemoryDevice_accountingVerified device ?? false then "verified." else "not verified.")]
      else []).

(** [a || b] on fields of any type, as text. *)
Definition first_truthy (l : list (option (dict json) * string)) (default : string) : string :=
  match find_first (fun p => extra_truthy p.1 p.2) l with Some p => extra_text p.1 p.2 | None => default end.

(** [formatMi(Number(status?.memoryRequiredMi ?? local.memoryRequiredMi))] *)
Definition host_ram (status_ local_ : option (dict json)) : string :=
  let field (d : option (dict json)) := present (d ≫= fun d => dict_get d "memoryRequiredMi") in
  formatMi (Some (match field status_ ??? field local_ with Some v => Number_of_json v | None => NaN end)).

Definition model_detail (item : ModelActivation) : string :=
  let spec := ModelActivation_spec item in
  let local_ := ModelActivation_spec_t_local_t_extra <$> (spec ≫= ModelActivation_spec_t_local) in
  let status_ := StatusValue_extra <$> ModelActivation_status item in
  if bool_decide (spec ≫= ModelActivation_spec_t_type = Some "external")
  then
    let external := ModelActivation_spec_t_external_t_extra <$> (spec ≫= ModelActivation_spec_t_external) in
    match present (external ≫= fun d => dict_get d "model") with Some v => String_of_json v | None => "external" end
  else trim (
    extra_text local_ "engine" +:+ " " +:+ extra_text local_ "computeTarget" +:+ middot +:+ "KV "
    +:+ first_truthy [(status_, "effectiveKvCacheType"); (status_, "requestedKvCacheType"); (local_, "kvCacheType")] "default"
    +:+ (if extra_truthy status_ "requestedKvCacheType" && negb (extra_truthy status_ "effectiveKvCacheType") then " (pending)" else "")
    +:+ (if extra_truthy local_ "cpuOffloading"
         then middot +:+ "CPU offloading" +:+ middot +:+ "host RAM " +:+ host_ram status_ local_ else "")).

Definition modelLines (snapshot : DashboardSnapshot) (selectedIndex : Z) : list string :=
  let memory := ModelsPayload_computeMemory (ds_models snapshot) in
  ("Compute memory"
   :: flat_map pool_lines ((memory ≫= ModelsPayload_computeMemory_t_sharedPools) ?? [])
   ++ flat_map device_lines ((memory ≫= ModelsPayload_computeMemory_t_devices) ?? [])
   ++ [""; "Models"]
   ++ imap (fun index item => trimEnd (selectedPrefix (Z.of_nat index) selectedIndex +:+ " "
              +:+ ((ModelActivation_metadata item ≫= KubernetesObjectMeta_name) ?? "unnamed") +:+ "  "
              +:+ statusLabel (phase_of (ModelActivation_status item)) +:+ "  " +:+ model_detail item))
        (modelEntries snapshot))%list.

Definition setting {A} (f : A -> string) (s : option A) : string := (f <$> s) ?? "unavailable".
Definition settingsLines (snapshot : DashboardSnapshot) : list string :=
  ["Public domain  " +:+ setting Settings_publicDomain (ds_settings snapshot);
   "Dashboard host " +:+ setting Settings_dashboardHost (ds_settings snapshot);
   "mDNS domain    " +:+ setting Settings_mdnsDomain (ds_settings snapshot)].

Definition total_text {A} (f : A -> number) (p : option A) : string := String_of_number ((f <$> p) ?? Int 0).

Definition source_string (s : User_source_t) : string :=
  match s with User_source_t_String s => s | User_source_t_Object _ => "[object Object]" end.
Definition user_provider (user : User) (default : string) : string :=
  (User_provider user ??? (source_string <$> User_source user)) ?? default.

Definition userLines (snapshot : DashboardSnapshot) (selectedIndex : Z) : list string :=
  (total_text UsersPayload_total (ds_users snapshot) +:+ " user(s)")
  :: imap (fun index user => selectedPrefix (Z.of_nat index) selectedIndex +:+ " " +:+ dot_of (User_enabled user) +:+ " "
             +:+ padEnd 22 (User_username user) +:+ " "
             +:+ padEnd 10 ((User_effectiveAccessLevel user ??? User_accessLevel user) ?? "user") +:+ " " +:+ user_provider user "local")
       (users_of snapshot).

Definition apiAccessLines (snapshot : DashboardSnapshot) (selectedIndex : Z) : list string :=
  ((total_text ApiAccessPayload_total (ds_apiAccess snapshot) +:+ " named API key(s)")
   :: map (fun b => "  " +:+ (ApiAccessPayload_apiBases_t_scope b ?? "api") +:+ "  " +:+ ApiAccessPayload_apiBases_t_url b)
        ((ds_apiAccess snapshot ≫= ApiAccessPayload_apiBases) ?? [])
   ++ [""]
   ++ imap (fun index item => selectedPrefix (Z.of_nat index) selectedIndex +:+ " " +:+ padEnd 24 (ApiKeyItem_name item) +:+ " "
              +:+ (ApiKeyItem_keyHint item ?? "") +:+ " " +:+ (ApiKeyItem_status item ?? "active"))
        (keys_of snapshot))%list.

Definition kubernetesLines (snapshot : DashboardSnapshot) (selectedIndex : Z) : list string :=
  let configured := extra_truthy (ds_kubernetesAccess snapshot ≫= KubernetesAccessPayload_configuration) "configured" in
  ("OIDC configuration  " +:+ (if configured then "Ready" else "Not confirmed"))
  :: (total_text KubernetesAccessPayload_total (ds_kubernetesAccess snapshot) +:+ " identity/identities")
  :: imap (fun index user => selectedPrefix (Z.of_nat index) selectedIndex +:+ " " +:+ dot_of (KubernetesAccessUser_enabled user) +:+ " "
             +:+ padEnd 22 (KubernetesAccessUser_username user) +:+ " " +:+ padEnd 10 (KubernetesAccessUser_accessLevel user ?? "none")
             +:+ " " +:+ ((KubernetesAccessUser_provider user ??? KubernetesAccessUser_source user) ?? "local"))
       (kubernetes_of snapshot).

Definition operators_of (snapshot : DashboardSnapshot) : dict HardwareOperator :=
  SystemStatusPayload_hardwareOperators (ds_status snapshot) ?? [].
Definition compatibility_of (snapshot : DashboardSnapshot) : option GpuCompatibility :=
  dict_get (operators_of snapshot) "amd-gpu" ≫= HardwareOperator_compatibility.

Definition node_memory_lines (node : GpuCompatibilityNode) : list string :=
  ["  Installed RAM: " +:+ mi (SharedMemoryInventory_installedMemoryMi node) +:+ " / fixed GPU reservation: "
     +:+ mi (SharedMemoryInventory_firmwareReservedMi node);
   "  OS-visible shared RAM: " +:+ mi (SharedMemoryInventory_physicalMemoryMi node) +:+ " / dynamic GPU ceiling: "
     +:+ mi (SharedMemoryInventory_gpuAccessibleMi node) +:+ " (within Linux RAM, not extra).";
   "  One GPU: driver capacity " +:+ mi (GpuAllocationEvidence_gpuCapacityMi node) +:+ " / allocation " +:+ mode_text node
     +:+ " / source " +:+ source_text node;
   "  " +:+ dynamic_memory_line;
   "  Shared accounting: " +:+ (if SharedMemoryInventory_memoryAccountingVerified node ?? false then "verified" else "not verified")].

Definition node_lines (node : GpuCompatibilityNode) : list string :=
  ([SharedMemoryInventory_node node +:+ middot +:+ sor (GpuCompatibilityNode_profileId node ?? "") "upstream" +:+ middot
      +:+ (if GpuCompatibilityNode_eligible node ?? false then "eligible" else "not eligible");
    "  Driver: " +:+ (if bool_decide (GpuCompatibilityNode_hostDriverReady node = Some (Some true)) then "ready" else "not verified")
      +:+ middot +:+ "GPU resource: "
      +:+ (if bool_decide (GpuCompatibilityNode_resourceRegistered node = Some true) then "registered" else "not verified");
    "  Ollama: " +:+ node_validation node "OLlama" +:+ middot +:+ "vLLM: " +:+ node_validation node "VLLM"]
   ++ omap (fun e => match GpuEngineValidation_runtimeMessage e.2 with
                     | Some m => if truthy m then Some ("  " +:+ e.1 +:+ ": " +:+ m) else None
                     | None => None
                     end) (entries (GpuCompatibilityNode_validation node ?? []))
   ++ (if is_unified (GpuCompatibilityNode_memoryArchitecture node) then node_memory_lines node else []))%list.

Definition hardwareLines (snapshot : DashboardSnapshot) : list string :=
  let compatibility := compatibility_of snapshot in
  (["AMD compatibility profile: " +:+ sor ((compatibility ≫= GpuCompatibility_selectedProfile) ?? "") "upstream rules";
    "GPU availability requires host readiness and resource registration; engine validation is optional."]
   ++ map (fun e => (HardwareOperator_displayName e.2 ?? e.1) +:+ ": " +:+ statusLabel (HardwareOperator_phase e.2) +:+ " / "
             +:+ String_of_number (HardwareOperator_allocatableResources e.2 ?? Int 0) +:+ " GPU resources")
        (entries (operators_of snapshot))
   ++ [""] ++ flat_map node_lines ((GpuCompatibility_nodes <$> compatibility) ?? [])
   ++ match compatibility with None => ["GPU compatibility catalog has not been reported."] | Some _ => [] end)%list.

Definition systemLines (snapshot : DashboardSnapshot) : list string :=
  let status_ := ds_status snapshot in
  ("Hardware operators"
   :: map (fun e => "  " +:+ dot_of (HardwareOperator_operatorActive e.2) +:+ " "
             +:+ padEnd 28 (HardwareOperator_displayName e.2 ?? titleFromKey e.1) +:+ " " +:+ statusLabel (HardwareOperator_phase e.2)
             +:+ "  " +:+ truncate (HardwareOperator_message e.2) 60) (entries (operators_of snapshot))
   ++ ["";
       "Flux             " +:+ count_of (SystemStatusPayload_fluxKustomizations status_);
       "Pods             " +:+ count_of (SystemStatusPayload_pods status_);
       "Services         " +:+ count_of (SystemStatusPayload_services status_);
       "Ingresses        " +:+ count_of (SystemStatusPayload_ingresses status_);
       "HTTP routes      " +:+ count_of (SystemStatusPayload_httpRoutes status_)])%list.

(** The license texts throw on a date outside the range of dates. *)
Definition tabLines (tab : TuiTab) (snapshot : DashboardSnapshot) (selectedIndex : Z) : res cli_exn (list string) :=
  match tab with
  | Services => Ok (serviceLines snapshot selectedIndex)
  | Models_ => Ok (modelLines snapshot selectedIndex)
  | Settings_ => Ok (settingsLines snapshot)
  | Users => Ok (userLines snapshot selectedIndex)
  | API_Access => Ok (apiAccessLines snapshot selectedIndex)
  | Kubernetes => Ok (kubernetesLines snapshot selectedIndex)
  | License => match ds_license snapshot with
               | Some l => licenseLines l
               | None => Ok [ds_licenseError snapshot ?? "No license status loaded."]
               end
  | Hardware => Ok (hardwareLines snapshot)
  | System => Ok (systemLines snapshot)
  | Overview => Ok (overviewLines snapshot)
  end.
End lines.

(** ** Overlays and help *)
Definition optional_block (s : string) : list string := if truthy s then [""; s] else [].

Definition menu_line (active : Z) (index : nat) (item : MenuOption) : string :=
  selectedPrefix (Z.of_nat index) active +:+ " " +:+ (if mo_disabled item then times else disc) +:+ " " +:+ mo_label item
  +:+ (if truthy (mo_hint item ?? "") then " " +:+ emdash +:+ " " +:+ (mo_hint item ?? "") else "").

Definition field_line (active : Z) (index : nat) (f : FormField) : string :=
  selectedPrefix (Z.of_nat index) active +:+ " " +:+ ff_label f +:+ (if ff_required f then " *" else "") +:+ ": "
  +:+ sor (displayFieldValue f) (ff_hint f ?? "")
  +:+ (if bool_decide (ff_kind f = F_choice) then "  " +:+ left_right else "").

Definition last_index {A} (l : list A) : Z := Z.of_nat (length l) - 1.

Definition overlayLines (overlay : TuiOverlay) : list string :=
  match overlay with
  | O_busy title => [title; "Applying change and refreshing state" +:+ dots]
  | O_message title lines_ _ copyValue =>
      ([title; ""] ++ lines_ ++ [""; if truthy (copyValue ?? "") then "c: copy to clipboard" +:+ middot +:+ "Enter/Esc: close" else "Enter/Esc: close"])%list
  | O_confirm title description confirmLabel _ =>
      [title; ""; description; ""; "Enter/y: " +:+ confirmLabel +:+ middot +:+ "Esc/n: cancel"]
  | O_menu title description options active =>
      ([title] ++ optional_block description ++ [""] ++ imap (menu_line active) options
       ++ [""; up_down +:+ ": select" +:+ middot +:+ "Enter: choose" +:+ middot +:+ "Esc: cancel"])%list
  | O_form form =>
      ([fm_title form] ++ optional_block (fm_description form) ++ [""] ++ imap (field_line (fm_active form)) (fm_fields form)
       ++ (if truthy (fm_error form ?? "") then [""; "! " +:+ (fm_error form ?? "")] else [])
       ++ [""; "Enter/Tab: next" +:+ (if fm_active form =? last_index (fm_fields form) then " and " +:+ fm_submitLabel form else "")
               +:+ middot +:+ "Ctrl+S: " +:+ fm_submitLabel form +:+ middot +:+ "Ctrl+U: clear" +:+ middot +:+ "Esc: cancel"])%list
  end.

Definition browseHelp (tab : TuiTab) (snapshot : DashboardSnapshot) : string :=
  let base := "x: sign out" in
  let session_ := Some (ds_session snapshot) in
  let with_ l := join middot (base :: l) in
  match tab with
  | Services => if canMutateRuntime session_ then with_ ["a: enable"; "d: disable"] else base
  | Models_ => if canMutateRuntime session_ then with_ ["a: add"; "d: remove"] else base
  | Users => if canAdminister session_ then with_ ["a: add"; "e/Enter: edit"; "d: delete"] else base
  | API_Access => if canAdminister session_ then with_ ["a: create"; "d: revoke"] else base
  | License => if canAdminister session_ then with_ ["a: inspect/import"; "e: export"] else base
  | Kubernetes => if canAdminister session_ then with_ ["e/Enter: access"; "d: revoke"; "c: copy kubeconfig"] else base
  | Hardware => if canAdminister session_ then with_ ["e: profile"; "v: validate"; "d: upstream rules"] else base
  | _ => base
  end.

(** ** The screen *)
Definition MAX_CONTENT_COLUMNS : Z := 120.
Definition usableColumns (width : Z) : Z := Z.max 1 (width - 1).

Definition role_name (r : DashboardRole) : string := match r with viewer => "viewer" | operator => "operator" | admin => "admin" end.

(** The first tab label shown: earlier ones are skipped until the active one fits. *)
Fixpoint first_tab (fuel : nat) (labels : list string) (firstTab safeIndex : nat) (columns : Z) : nat :=
  match fuel with
  | O => firstTab
  | S f =>
      if (firstTab <? safeIndex)%nat
         && (columns <? Z.of_nat (String.length (join "  " (take (S safeIndex - firstTab) (drop firstTab labels)))) + 2)
      then first_tab f labels (S firstTab) safeIndex columns
      else firstTab
  end.

Definition pointed (line : string) : bool := startsWith (String pointer "") line.

(** [findIndex], -1 when there is none. *)
Fixpoint index_of (f : string -> bool) (i : Z) (l : list string) : Z :=
  match l with [] => -1 | x :: l' => if f x then i else index_of f (i + 1) l' end.

Definition take_Z {A} (n : Z) (l : list A) : list A := take (Z.to_nat n) l.

Section screen.
Context `{Collation} `{Sin}.

Definition nav_line (tabs : list TuiTab) (safeIndex : nat) (columns : Z) (color : bool) : string :=
  let labels := imap (fun i t => if (i =? safeIndex)%nat then "[ " +:+ tab_name t +:+ " ]" else tab_name t) tabs in
  let first := first_tab safeIndex labels 0 safeIndex columns in
  (if (first =? 0)%nat then "" else "< ")
  +:+ join "  " (imap (fun i label => if (i + first =? safeIndex)%nat then cyan label color else label) (drop first labels)).

(** The body lines that fit, scrolled so that the selected one is visible. *)
Definition visible_body (rawBody : list string) (maximumBody columns : Z) (color : bool) : list string :=
  let focus := index_of pointed 0 rawBody in
  let bodyStart := if maximumBody <=? focus then Z.max 0 (focus - maximumBody + 1) else 0 in
  map (fun line => let clipped := clipTerminalLine line columns in if pointed line then cyan clipped color else clipped)
    (take_Z maximumBody (drop (Z.to_nat bodyStart) rawBody)).

(** The rows of the screen, before they are joined with newlines; [height] is not negative. *)
Definition render_rows (snapshot : DashboardSnapshot) (tabIndex width height : Z) (color : bool) (state : TuiRenderState)
    : res cli_exn (list string) :=
  let columns := usableColumns width in
  let banner := if bannerFits height
                then renderBanner (Z.min columns MAX_CONTENT_COLUMNS)
                       ((bf_elapsedMs <$> rs_banner state) ?? Int 0) color ((bf_seed <$> rs_banner state) ?? 0)
                else [] in
  let tabs := availableTabs snapshot in
  let safeIndex := Z.to_nat (Z.min (Z.max 0 tabIndex) (last_index tabs)) in
  let active := (tabs !! safeIndex) ?? Overview in
  let identity := if rs_demo state then "OFFLINE DEMO" +:+ middot +:+ "read-only" +:+ middot +:+ "sample data"
                  else "signed in: " +:+ Session_username (ds_session snapshot) +:+ middot
                       +:+ role_name (dashboardRole (Some (ds_session snapshot))) in
  let? all := match rs_overlay state with
              | Some o => Ok (overlayLines o)
              | None => tabLines active snapshot (rs_selectionIndex state)
              end in
  let controls := if columns <? 72 then "h/l:tabs j/k:rows r:refresh q:quit"
                  else left_right +:+ " h/l: tabs" +:+ middot +:+ up_down +:+ " k/j: rows" +:+ middot +:+ "r: refresh" +:+ middot +:+ "q: quit" in
  let '(rawBody, help) :=
    match rs_overlay state with
    | Some (O_busy _) => (all, [])
    | Some _ => (removelast all, [last all ?? ""])
    | None => (all, if rs_demo state then [controls] else [controls; browseHelp active snapshot])
    end in
  let notice := if truthy (rs_notice state) then [warn_ (rs_notice state) color] else [] in
  let maximumBody := Z.max 0 (height - Z.of_nat (length banner) - 5 - Z.of_nat (length help) - Z.of_nat (length notice)) in
  let body := visible_body rawBody maximumBody columns color in
  let phase_ := phase_of (Appliance_status (ds_appliance snapshot)) in
  let health := (if phaseNeedsAttention phase_ then bad_ else good_) (statusLabel phase_) color in
  let context := match rs_overlay state with
                 | Some (O_message _ _ Tone_error _) => bad_ "Action failed" color
                 | Some _ => cyan "Action" color
                 | None => dim ("Appliance " +:+ health) color
                 end in
  let all_rows := (banner ++ [dim identity color; nav_line tabs safeIndex columns color;
                              repeat_str (Z.to_nat (Z.min columns MAX_CONTENT_COLUMNS)) (String hrule "");
                              tab_name active +:+ "  " +:+ context; ""]
                   ++ body ++ notice ++ map (fun line => dim line color) help)%list in
  Ok (map (fun line => clipTerminalLine line columns) (take_Z height all_rows)).

Definition renderTui (snapshot : DashboardSnapshot) (tabIndex width height : Z) (color : bool) (state : TuiRenderState)
    : res cli_exn string :=
  let? rows := render_rows snapshot tabIndex width height color state in Ok (lines rows).
End screen.

(** ** Users *)
Definition json_text (d : dict json) (k : string) : option string := String_of_json <$> present (dict_get d k).
Definition userSource (user : User) : string :=
  match User_source user with
  | Some (User_source_t_Object d) =>
      ((json_text d "provider" ??? json_text d "alias") ??? (json_text d "type" ??? json_text d "displayName")) ?? "external"
  | _ => user_provider user "local"
  end.
Definition isLocalUser (user : User) : bool :=
  User_local user ?? includes ["local"; "keycloak"; "internal"] (toLowerCase (userSource user)).
