(* ===== verification/TuiMachine.v ===== *)
(** * The terminal interface: keys and tasks (apps/cli/src/tui.ts, runTui)

    The variables of [runTui] are the state; a key runs the handler of the overlay or of the
    tab, and what it awaits becomes a task ([Shared]). Painting the screen is a function of
    the state ([Tui.renderTui]) and is not part of the machine; what is written to the
    terminal besides is recorded in [t_written]. [t_stamp] is the text
    [Date.now()-crypto.randomUUID()] at the current event. *)

From S2P Require Import Prelude Js Number Json Prog Shared Contracts DashboardCore ApiClient Cli CliAuth CliFiles CliCommands Banner Tui.

Local Open Scope string_scope.
Local Open Scope js_scope.
Local Open Scope Z_scope.

(** ** State *)
Record TuiState : Type := {
  t_snapshot : DashboardSnapshot;
  t_tabIndex : Z;
  t_loading : bool;
  t_refreshError : string;
  t_overlay : option TuiOverlay;
  t_finished : bool;
  t_selection : TuiTab -> Z;
  t_written : list string;
  t_stamp : string
}.

Definition set_snapshot (s : DashboardSnapshot) (t : TuiState) : TuiState :=
  {| t_snapshot := s; t_tabIndex := t_tabIndex t; t_loading := t_loading t; t_refreshError := t_refreshError t;
     t_overlay := t_overlay t; t_finished := t_finished t; t_selection := t_selection t; t_written := t_written t; t_stamp := t_stamp t |}.
Definition set_tabIndex (i : Z) (t : TuiState) : TuiState :=
  {| t_snapshot := t_snapshot t; t_tabIndex := i; t_loading := t_loading t; t_refreshError := t_refreshError t;
     t_overlay := t_overlay t; t_finished := t_finished t; t_selection := t_selection t; t_written := t_written t; t_stamp := t_stamp t |}.
Definition set_loading (b : bool) (t : TuiState) : TuiState :=
  {| t_snapshot := t_snapshot t; t_tabIndex := t_tabIndex t; t_loading := b; t_refreshError := t_refreshError t;
     t_overlay := t_overlay t; t_finished := t_finished t; t_selection := t_selection t; t_written := t_written t; t_stamp := t_stamp t |}.
Definition set_refreshError (e : string) (t : TuiState) : TuiState :=
  {| t_snapshot := t_snapshot t; t_tabIndex := t_tabIndex t; t_loading := t_loading t; t_refreshError := e;
     t_overlay := t_overlay t; t_finished := t_finished t; t_selection := t_selection t; t_written := t_written t; t_stamp := t_stamp t |}.
Definition set_overlay (o : option TuiOverlay) (t : TuiState) : TuiState :=
  {| t_snapshot := t_snapshot t; t_tabIndex := t_tabIndex t; t_loading := t_loading t; t_refreshError := t_refreshError t;
     t_overlay := o; t_finished := t_finished t; t_selection := t_selection t; t_written := t_written t; t_stamp := t_stamp t |}.
Definition set_selection (f : TuiTab -> Z) (t : TuiState) : TuiState :=
  {| t_snapshot := t_snapshot t; t_tabIndex := t_tabIndex t; t_loading := t_loading t; t_refreshError := t_refreshError t;
     t_overlay := t_overlay t; t_finished := t_finished t; t_selection := f; t_written := t_written t; t_stamp := t_stamp t |}.
Definition write (text : string) (t : TuiState) : TuiState :=
  {| t_snapshot := t_snapshot t; t_tabIndex := t_tabIndex t; t_loading := t_loading t; t_refreshError := t_refreshError t;
     t_overlay := t_overlay t; t_finished := t_finished t; t_selection := t_selection t; t_written := t_written t ++ [text]; t_stamp := t_stamp t |}.
Definition set_stamp (stamp : string) (t : TuiState) : TuiState :=
  {| t_snapshot := t_snapshot t; t_tabIndex := t_tabIndex t; t_loading := t_loading t; t_refreshError := t_refreshError t;
     t_overlay := t_overlay t; t_finished := t_finished t; t_selection := t_selection t; t_written := t_written t; t_stamp := stamp |}.

(** [cleanup]: listeners, timer and raw mode go with the process. *)
Definition finish (t : TuiState) : TuiState :=
  if t_finished t then t
  else write (SHOW_CURSOR +:+ NORMAL_SCREEN)
    {| t_snapshot := t_snapshot t; t_tabIndex := t_tabIndex t; t_loading := t_loading t; t_refreshError := t_refreshError t;
       t_overlay := t_overlay t; t_finished := true; t_selection := t_selection t; t_written := t_written t; t_stamp := t_stamp t |}.

Definition tuiE : Type -> Type := sharedE cliE TuiState.
Definition TM := M tuiE unit cli_exn.

Definition sync {A} (f : TuiState -> A * TuiState) : TM A := await_ (Atomic f : tuiE A).
Definition update (f : TuiState -> TuiState) : TM unit := sync (fun t => (tt, f t)).
Definition call {A} (m : CM A) : TM A := fun s => lift (m s).

Section handlers.
Context `{Collation} `{Base64} `{Utf8Decoder} (demo : bool).

(** ** Selection and refresh *)
Definition activeTab (t : TuiState) : TuiTab :=
  if t_tabIndex t <? 0 then Overview else (availableTabs (t_snapshot t) !! Z.to_nat (t_tabIndex t)) ?? Overview.
Definition activeSelection (t : TuiState) : Z := t_selection t (activeTab t).
Definition selectedEntity (t : TuiState) : option TuiEntity :=
  if activeSelection t <? 0 then None
  else selectableEntities (activeTab t) (t_snapshot t) !! Z.to_nat (activeSelection t).

Definition clampSelection (t : TuiState) : TuiState :=
  set_selection (fun tab => if bool_decide (tab ∈ availableTabs (t_snapshot t))
                            then moveSelection (t_selection t tab) 0 (selectableCount tab (t_snapshot t))
                            else t_selection t tab) t.

(** A snapshot has arrived. *)
Definition loaded (s : DashboardSnapshot) (t : TuiState) : TuiState := set_refreshError "" (clampSelection (set_snapshot s t)).

Definition refresh : TM unit :=
  let! free := sync (fun t => if t_loading t || bool_decide (is_Some (t_overlay t)) then (false, t) else (true, set_loading true t)) in
  when free (
    try_catch (let! s := call loadSnapshot in update (loaded s))
      (fun e => update (set_refreshError (truncate (Some (errorText e)) 100))) ;;
    update (set_loading false)).

(** ** Messages and dialogs *)
Definition message (title : string) (lines_ : list string) (tone : MessageTone) (t : TuiState) : TuiState :=
  set_overlay (Some (O_message title lines_ tone None)) t.
Definition openConfirm (title description confirmLabel : string) (onConfirm : Command) (t : TuiState) : TuiState :=
  set_overlay (Some (O_confirm title description confirmLabel onConfirm)) t.
Definition openForm (title description : string) (fields : list FormField) (submitLabel : string) (onSubmit : Command) (t : TuiState) : TuiState :=
  set_overlay (Some (O_form {| fm_title := title; fm_description := description; fm_fields := fields; fm_active := 0;
                               fm_submitLabel := submitLabel; fm_error := None; fm_onSubmit := onSubmit |})) t.
Definition openMenu (title description : string) (options : list MenuOption) (active : Z) (t : TuiState) : TuiState :=
  set_overlay (Some (O_menu title description options active)) t.

Definition with_error (error : option string) (f : TuiForm) : TuiForm :=
  {| fm_title := fm_title f; fm_description := fm_description f; fm_fields := fm_fields f; fm_active := fm_active f;
     fm_submitLabel := fm_submitLabel f; fm_error := error; fm_onSubmit := fm_onSubmit f |}.
Definition with_active (active : Z) (f : TuiForm) : TuiForm :=
  {| fm_title := fm_title f; fm_description := fm_description f; fm_fields := fm_fields f; fm_active := active;
     fm_submitLabel := fm_submitLabel f; fm_error := fm_error f; fm_onSubmit := fm_onSubmit f |}.

(** What an operation reports: its lines, and a value that may be copied. *)
Definition Outcome : Type := list string * option string.

(** A failed operation goes back to its form, or ends in a message. *)
Definition failed (origin : option TuiOverlay) (e : cli_exn) (t : TuiState) : TuiState :=
  match origin with
  | Some (O_form f) => set_overlay (Some (O_form (with_error (Some (errorText e)) f))) t
  | _ => message "Could not apply change" [errorText e] Tone_error t
  end.

Definition perform (title : string) (operation : CM Outcome) : TM unit :=
  let! origin := sync (fun t => if t_loading t then (None, t)
                                else (Some (t_overlay t), set_overlay (Some (O_busy title)) (set_loading true t))) in
  match origin with
  | None => mret tt
  | Some origin =>
      try_catch (
        let! result := call operation in
        let! lines_ := try_catch (let! s := call loadSnapshot in update (loaded s) ;; mret result.1)
          (fun e => let text := truncate (Some (errorText e)) 100 in
                    update (set_refreshError text) ;;
                    mret (result.1 ++ ["The change succeeded, but refreshing the status failed: " +:+ text])%list) in
        update (set_overlay (Some (O_message "Completed" lines_ Tone_normal
                                     (if truthy (result.2 ?? "") then result.2 else None)))))
        (fun e => update (failed origin e)) ;;
      update (set_loading false)
  end.

(** ** Forms *)
Definition text_field (id label value : string) (required : bool) (hint : option string) : FormField :=
  {| ff_id := id; ff_label := label; ff_value := value; ff_kind := F_text; ff_choices := []; ff_required := required; ff_hint := hint |}.
Definition secret_field (id label value : string) (required : bool) (hint : option string) : FormField :=
  {| ff_id := id; ff_label := label; ff_value := value; ff_kind := F_secret; ff_choices := []; ff_required := required; ff_hint := hint |}.
Definition choice_field (id label value : string) (choices : list (string * string)) (required : bool) (hint : option string) : FormField :=
  {| ff_id := id; ff_label := label; ff_value := value; ff_kind := F_choice;
     ff_choices := map (fun c => {| ch_value := c.1; ch_label := c.2 |}) choices; ff_required := required; ff_hint := hint |}.

Definition get_value (values : dict string) (k : string) : option string := dict_get values k.
(** A property of a JSON payload: dropped when undefined. *)
Definition send (values : dict string) (k key : string) : dict json := opt_key key (JStr <$> get_value values k).
(** The value in a template string. *)
Definition shown (values : dict string) (k : string) : string := get_value values k ?? "undefined".

Definition access_choices : list (string * string) := map (fun v => (v, titleFromKey v)) ["user"; "viewer"; "operator"; "admin"].

(** ** Services *)
Definition service_name (id : string) (catalog : option ModuleCatalogEntry) : string :=
  (catalog ≫= ModuleCatalogEntry_displayName) ?? titleFromKey id.
Definition service_title (id : string) (catalog : option ModuleCatalogEntry) : string :=
  (catalog ≫= ModuleCatalogEntry_displayName) ?? id.
Definition activation_mode (state : ModuleState) (catalog : option ModuleCatalogEntry) : option string :=
  ModuleState_activationMode state ??? (catalog ≫= ModuleCatalogEntry_activationMode).
Definition is_static (state : ModuleState) (catalog : option ModuleCatalogEntry) : bool :=
  negb (bool_decide (activation_mode state catalog = Some "moduleactivation")).

(** [String(saved[name] ?? '')] *)
Definition saved_parameter (state : ModuleState) (name : string) : string :=
  match present (dict_get (ModuleState_extra state) "parameters") with
  | Some (JObj d) => match present (dict_get d name) with Some v => String_of_json v | None => "" end
  | _ => ""
  end.

Definition service_field (state : ModuleState) (p : ModuleCatalogEntry_parameters_t) : FormField :=
  let name := ModuleCatalogEntry_parameters_t_name p in
  (if bool_decide (ModuleCatalogEntry_parameters_t_type p = Some "password") then secret_field else text_field)
    name (ModuleCatalogEntry_parameters_t_label p ?? titleFromKey name) (saved_parameter state name) false
    (ModuleCatalogEntry_parameters_t_placeholder p).

Definition enableService (id : string) (state : ModuleState) (catalog : option ModuleCatalogEntry) (t : TuiState) : TuiState :=
  let name := service_name id catalog in
  if ModuleState_enabled state ?? false
  then message "Service already enabled" [name +:+ " is already enabled."] Tone_normal t
  else if is_static state catalog
  then message "Service is static" ["This platform service is managed by the installation and cannot be enabled from the TUI."] Tone_normal t
  else
    match map (service_field state) ((catalog ≫= ModuleCatalogEntry_parameters) ?? []) with
    | [] => openConfirm ("Enable " +:+ name) "The service and its declared dependencies will be reconciled." "enable"
              (Cmd_enableService id catalog) t
    | fields => openForm ("Enable " +:+ name) "Optional service parameters. Leave a field empty to use its configured default."
              fields "enable" (Cmd_enableService id catalog) t
    end.

Definition disableService (id : string) (state : ModuleState) (catalog : option ModuleCatalogEntry) (t : TuiState) : TuiState :=
  let name := service_name id catalog in
  if negb (ModuleState_enabled state ?? false)
  then message "Service already disabled" [name +:+ " is already disabled."] Tone_normal t
  else if is_static state catalog
  then message "Service is static" ["This platform service is managed by the installation and cannot be disabled from the TUI."] Tone_normal t
  else openConfirm ("Disable " +:+ name)
         "Dependent workloads may become unavailable. Persistent-data handling follows the module uninstall policy."
         "disable" (Cmd_disableService id catalog) t.

(** ** Models *)
Definition separator : string := String (unit_of 31) "".
Definition target_name (target : ComputeTarget) : string := ComputeTarget_displayName target ?? ComputeTarget_id target.

Definition runtimeChoices (t : TuiState) : list Choice :=
  flat_map (fun target =>
      if ComputeTarget_available target ?? false
      then map (fun engine => {| ch_value := engine +:+ separator +:+ ComputeTarget_id target; ch_label := engine +:+ " / " +:+ target_name target |})
             (ComputeTarget_engines target ?? [])
      else [])
    (ComputeTargetsPayload_targets (ModelsPayload_computeTargets (ds_models (t_snapshot t)))).

Definition find_target (engine computeTarget : string) (t : TuiState) : option ComputeTarget :=
  find_first (fun item => String.eqb (ComputeTarget_id item) computeTarget && (ComputeTarget_available item ?? false)
                          && includes (ComputeTarget_engines item ?? []) engine)
    (ComputeTargetsPayload_targets (ModelsPayload_computeTargets (ds_models (t_snapshot t)))).

Definition default_cache (engine : string) : string := if String.eqb engine "OLlama" then "f16" else "auto".
Definition kv_choices (target : ComputeTarget) (engine : string) : list Choice :=
  match ComputeTarget_kvCacheTypes target ≫= fun d => dict_get d engine with
  | Some l => map (fun o => {| ch_value := KvCacheOption_value o; ch_label := KvCacheOption_label o |}) l
  | None => if String.eqb engine "OLlama" then [{| ch_value := "f16"; ch_label := "Standard - F16" |}]
            else [{| ch_value := "auto"; ch_label := "Standard - model precision" |}]
  end.

Definition model_types : list (string * string) := [("chat", "Chat"); ("embedding", "Embedding")].
Definition kv_field (engine : string) (choices : list Choice) : FormField :=
  {| ff_id := "kvCacheType"; ff_label := "KV cache"; ff_value := (ch_value <$> head choices) ?? default_cache engine;
     ff_kind := F_choice; ff_choices := choices; ff_required := true; ff_hint := None |}.

Definition local_fields (engine : string) (choices : list Choice) : list FormField :=
  [text_field "name" "Name" "" true None;
   choice_field "modelType" "Type" "chat" model_types false None;
   text_field "reference" "Model reference" "" true (Some "hf://publisher/model or ollama://model:tag");
   text_field "contextWindow" "Context size" "4096" true None;
   kv_field engine choices;
   text_field "maxNumSeqs" "Max sequences" "1" true None;
   text_field "reservationMi" "RAM/VRAM reservation MiB" "" false (Some "automatic recommendation");
   choice_field "cpuOffloading" "Use additional system RAM" "false" [("false", "No"); ("true", "Yes (NVIDIA GPU only)")] false
     (Some "May substantially reduce inference speed.");
   text_field "hostMemoryMi" "Additional host RAM budget MiB" "" false (Some "offloading + runtime; empty = recommendation")].

Definition openLocalModelForm (runtimeValue : string) (t : TuiState) : TuiState :=
  let parts := split (unit_of 31) runtimeValue in
  let engine := (parts !! 0%nat) ?? "" in
  let computeTarget := (parts !! 1%nat) ?? "" in
  match find_target engine computeTarget t with
  | None => message "Runtime unavailable" ["The selected runtime and hardware combination is no longer available."] Tone_error t
  | Some target =>
      let choices := kv_choices target engine in
      openForm "Add local model"
        (engine +:+ " / " +:+ target_name target +:+ ". Enter a direct model reference; leave the reservation empty to use the calculated recommendation.")
        (local_fields engine choices) "create model" (Cmd_createLocal engine computeTarget target choices) t
  end.

Definition estimate_payload (engine computeTarget : string) (values : dict string) (contextWindow maxNumSeqs : number)
    (extra : dict json) : json :=
  JObj ([("engine", JStr engine); ("computeTarget", JStr computeTarget)] ++ send values "reference" "url"
        ++ [("contextWindow", JNum contextWindow); ("maxNumSeqs", JNum maxNumSeqs)]
        ++ send values "modelType" "modelType" ++ send values "kvCacheType" "kvCacheType" ++ extra)%list.

(** [text?.trim() ? positiveInteger(text, label) : fallback] *)
Definition entered_or (text : option string) (label : string) (fallback : number) : res cli_exn number :=
  match text with
  | Some s => if truthy (trim s) then positiveInteger s label else Ok fallback
  | None => Ok fallback
  end.

Definition default_reservation (cpuOffloading : bool) (estimate : MemoryEstimate) : number :=
  let recommended := roundMemory (MemoryEstimate_recommendedMi estimate) in
  match mjoin (MemoryEstimate_maximumMi estimate) with
  | Some maximum => if cpuOffloading
                    then num_max (Int 100) (num_min recommended (num_mul (num_floor (num_div maximum (Int 100))) (Int 100)))
                    else recommended
  | None => recommended
  end.

(** The host memory of an offloaded model, from the second estimate. *)
Definition planned_host_memory (values : dict string) (split_ : MemoryEstimate) : res cli_exn number :=
  match MemoryEstimate_offloading split_ with
  | Some plan =>
      if CpuOffloadingPlan_fitsVram plan then
        let? host := entered_or (get_value values "hostMemoryMi") "Host RAM budget" (roundMemory (CpuOffloadingPlan_ramRecommendedMi plan)) in
        match CpuOffloadingPlan_ramMaximumMi plan with
        | Some maximum =>
            if num_ltb host (CpuOffloadingPlan_ramMinimumMi plan) || num_ltb maximum host
            then tui_error "The host RAM budget must cover offloading and runtime and fit on an eligible GPU node."
            else Ok host
        | None => tui_error "The host RAM budget must cover offloading and runtime and fit on an eligible GPU node."
        end
      else tui_error "VRAM is too small for remaining GPU weights, KV cache and runtime. Increase VRAM or reduce context."
  | None => tui_error "VRAM is too small for remaining GPU weights, KV cache and runtime. Increase VRAM or reduce context."
  end.

Definition create_local_operation (engine computeTarget : string) (target liveTarget : ComputeTarget) (values : dict string)
    (contextWindow maxNumSeqs : number) (cpuOffloading : bool) : CM Outcome :=
  let! estimate := api (Models (estimateMemory (estimate_payload engine computeTarget values contextWindow maxNumSeqs []))) in
  let! reservation := of_res (entered_or (get_value values "reservationMi") "RAM/VRAM reservation"
                                (default_reservation cpuOffloading (rp_value estimate))) in
  let! planned := (if cpuOffloading then
      let! split_ := api (Models (estimateMemory (estimate_payload engine computeTarget values contextWindow maxNumSeqs
                            [("cpuOffloading", JBool true); ("vramMi", JNum reservation)]))) in
      let! host := of_res (planned_host_memory values (rp_value split_)) in
      mret (rp_value split_, Some host)
    else mret (rp_value estimate, None)) in
  let input := {| li_name := get_value values "name" ?? ""; li_modelType := get_value values "modelType" ?? "chat";
                  li_engine := engine; li_computeTarget := computeTarget; li_reference := get_value values "reference" ?? "";
                  li_contextWindow := contextWindow; li_maxNumSeqs := maxNumSeqs;
                  li_kvCacheType := Some (get_value values "kvCacheType" ?? ""); li_reservationMi := reservation;
                  li_cpuOffloading := Some cpuOffloading; li_hostMemoryMi := planned.2 |} in
  let! payload := of_res (buildLocalModelPayload input liveTarget) in
  api (Models (createLocalModel payload)) ;;
  mret ([li_name input +:+ " was requested on " +:+ target_name target +:+ " with " +:+ engine +:+ ".";
         "Reservation: " +:+ formatMi (Some reservation) +:+ "; estimate: " +:+ formatMi (Some (MemoryEstimate_minimumMi planned.1))
           +:+ " minimum / " +:+ formatMi (Some (MemoryEstimate_recommendedMi planned.1)) +:+ " recommended."]
        ++ (if cpuOffloading
            then ["Additional host RAM reserved: " +:+ formatMi planned.2 +:+ ". The RAM/VRAM split is estimated, not measured."]
            else []), None)%list.

Definition createLocal (engine computeTarget : string) (target : ComputeTarget) (kvCacheChoices : list Choice) (values : dict string) : TM unit :=
  let! live := sync (fun t => (find_target engine computeTarget t, t)) in
  match live with
  | None => of_res (tui_error "The selected runtime and hardware combination is no longer available.")
  | Some liveTarget =>
      if negb (existsb (fun c => bool_decide (Some (ch_value c) = get_value values "kvCacheType")) kvCacheChoices)
      then of_res (tui_error "The selected KV cache is not compatible with this runtime and hardware.")
      else
        let! contextWindow := of_res (positiveInteger (get_value values "contextWindow" ?? "") "Context size") in
        let! maxNumSeqs := of_res (positiveInteger (get_value values "maxNumSeqs" ?? "") "Max sequences") in
        let cpuOffloading := bool_decide (get_value values "cpuOffloading" = Some "true") in
        if cpuOffloading && negb (String.eqb computeTarget "nvidia-gpu")
        then of_res (tui_error "CPU offloading currently supports NVIDIA GPU models only.")
        else perform ("Create model " +:+ shown values "name")
               (create_local_operation engine computeTarget target liveTarget values contextWindow maxNumSeqs cpuOffloading)
  end.

Definition addLocalModel (t : TuiState) : TuiState :=
  match runtimeChoices t with
  | [] => message "No local runtime available" ["No inference-engine and compute-target combination is currently available."] Tone_error t
  | [c] => openLocalModelForm (ch_value c) t
  | choices => openMenu "Choose local runtime" "KV cache choices are filtered for the selected engine and hardware."
      (map (fun c => {| mo_label := ch_label c; mo_disabled := false; mo_hint := None; mo_action := Act_openLocalModelForm (ch_value c) |}) choices)
      0 t
  end.

Definition addExternalModel : TuiState -> TuiState :=
  openForm "Add external model" "Register an OpenAI-compatible provider endpoint."
    [text_field "name" "Name" "" true None;
     text_field "model" "Provider model" "" true (Some "openai/gpt-4o-mini");
     text_field "apiBase" "API base" "" true (Some "https://provider.example/v1");
     choice_field "modelType" "Type" "chat" model_types false None;
     text_field "contextWindow" "Context size" "128000" true None;
     secret_field "apiKey" "API key" "" false (Some "optional when supplied elsewhere")]
    "create model" Cmd_createExternal.

Definition createExternal (values : dict string) : TM unit :=
  let! contextWindow := of_res (positiveInteger (get_value values "contextWindow" ?? "") "Context size") in
  perform ("Create model " +:+ shown values "name") (
    api (Models (createExternalModel (JObj
      (send values "name" "name" ++ [("enabled", JBool true); ("targetNamespace", JStr "ai");
        ("external", JObj (send values "model" "model" ++ send values "apiBase" "apiBase" ++ send values "modelType" "modelType"
                           ++ [("contextWindow", JNum contextWindow)]))]
       ++ (if truthy (get_value values "apiKey" ?? "") then send values "apiKey" "apiKey" else []))%list))) ;;
    mret ([shown values "name" +:+ " was registered as an external model."], None)).

Definition addModel : TuiState -> TuiState :=
  openMenu "Add model" "Choose where inference runs."
    [{| mo_label := "Local model"; mo_disabled := false; mo_hint := Some "vLLM or Ollama on available CPU/GPU hardware"; mo_action := Act_addLocalModel |};
     {| mo_label := "External model"; mo_disabled := false; mo_hint := Some "OpenAI-compatible remote provider"; mo_action := Act_addExternalModel |}] 0.

Definition removeModel_ (id : string) : TuiState -> TuiState :=
  openConfirm ("Remove " +:+ id) "The ModelActivation is deleted and its local runtime workload is cleaned up." "remove" (Cmd_removeModel id).

(** ** Users *)
Definition capability (f : UserCapabilities -> option bool) (user : User) : option bool := User_capabilities user ≫= f.
Definition denied (f : UserCapabilities -> option bool) (user : User) : bool := bool_decide (capability f user = Some false).
Definition denied_or_external (f : UserCapabilities -> option bool) (user : User) : bool := denied f user || negb (isLocalUser user).

Definition createUser_form : TuiState -> TuiState :=
  openForm "Create user" "Create a locally managed Keycloak identity. Password input is masked."
    [text_field "username" "Username" "" true None;
     text_field "firstName" "First name" "" false None;
     text_field "lastName" "Last name" "" false None;
     text_field "email" "Email" "" true None;
     choice_field "accessLevel" "Dashboard access" "user" access_choices false None;
     secret_field "password" "Temporary password" "" true None;
     secret_field "confirmation" "Confirm password" "" true None;
     choice_field "enabled" "Account status" "true" [("true", "Enabled"); ("false", "Disabled")] false None]
    "create user" Cmd_createUser.

(** The checks of a new password. *)
Definition password_checks (values : dict string) : res cli_exn unit :=
  if Nat.ltb (String.length (get_value values "password" ?? "")) 12
  then tui_error "The temporary password must contain at least 12 characters."
  else if negb (bool_decide (get_value values "password" = get_value values "confirmation"))
  then tui_error "The password confirmation does not match."
  else Ok tt.

Definition createUser_submit (values : dict string) : TM unit :=
  of_res (password_checks values) ;;
  perform ("Create user " +:+ shown values "username") (
    api (Access (createUser (JObj
      (send values "username" "username" ++ send values "firstName" "firstName" ++ send values "lastName" "lastName"
       ++ send values "email" "email" ++ send values "password" "password"
       ++ [("enabled", JBool (bool_decide (get_value values "enabled" = Some "true")))] ++ send values "accessLevel" "accessLevel")%list))) ;;
    mret ([shown values "username" +:+ " was created with " +:+ titleFromKey (get_value values "accessLevel" ?? "user") +:+ " access."], None)).

Definition editUserProfile (user : User) (t : TuiState) : TuiState :=
  if denied_or_external UserCapabilities_canEditProfile user
  then message "Profile is read-only" ["This identity is protected or managed by an external identity provider."] Tone_normal t
  else openForm ("Edit " +:+ User_username user) "Update the locally managed profile."
    [text_field "firstName" "First name" (User_firstName user ?? "") false None;
     text_field "lastName" "Last name" (User_lastName user ?? "") false None;
     text_field "email" "Email" (User_email user ?? "") true None]
    "save profile" (Cmd_updateUser user) t.

Definition editUserRole (user : User) (t : TuiState) : TuiState :=
  if denied UserCapabilities_canManageRoles user
  then message "Access is protected" ["The access level for this identity cannot be changed."] Tone_normal t
  else openForm ("Dashboard access for " +:+ User_username user) "Only direct Magic Stick roles are replaced."
    [choice_field "accessLevel" "Access level" (User_accessLevel user ?? "user") access_choices false None]
    "save access" (Cmd_updateRole user) t.

Definition toggleUser (user : User) (t : TuiState) : TuiState :=
  let enable := bool_decide (User_enabled user = Some false) in
  if denied (if enable then UserCapabilities_canEnable else UserCapabilities_canDisable) user
  then message "Account is protected" ["This account cannot be " +:+ (if enable then "enabled" else "disabled") +:+ "."] Tone_normal t
  else openConfirm ((if enable then "Enable " else "Disable ") +:+ User_username user)
         (if enable then "The account will be allowed to sign in." else "Current sessions are ended and the account can no longer sign in.")
         (if enable then "enable" else "disable") (Cmd_setEnabled user enable) t.

Definition resetUserPassword_form (user : User) (t : TuiState) : TuiState :=
  if denied_or_external UserCapabilities_canResetPassword user
  then message "Password is managed elsewhere" ["This identity is protected or managed by an external identity provider."] Tone_normal t
  else openForm ("Reset password for " +:+ User_username user) "Set a temporary password that must be changed at the next sign-in."
    [secret_field "password" "Temporary password" "" true None; secret_field "confirmation" "Confirm password" "" true None]
    "set password" (Cmd_resetPassword user) t.

(** [findIndex], at least 0. *)
Fixpoint first_enabled (i : Z) (options : list MenuOption) : Z :=
  match options with [] => 0 | o :: l => if mo_disabled o then first_enabled (i + 1) l else i end.

Definition user_options (user : User) : list MenuOption :=
  let option_of label disabled action := {| mo_label := label; mo_disabled := disabled; mo_hint := None; mo_action := action |} in
  let off := bool_decide (User_enabled user = Some false) in
  [option_of "Edit profile" (denied_or_external UserCapabilities_canEditProfile user) (Act_editUserProfile user);
   option_of "Change dashboard access" (denied UserCapabilities_canManageRoles user) (Act_editUserRole user);
   option_of (if off then "Enable account" else "Disable account")
     (denied (if off then UserCapabilities_canEnable else UserCapabilities_canDisable) user) (Act_toggleUser user);
   option_of "Reset temporary password" (denied_or_external UserCapabilities_canResetPassword user) (Act_resetUserPassword user)].

Definition editUser (user : User) : TuiState -> TuiState :=
  openMenu ("Manage " +:+ User_username user) (user_provider user "Local" +:+ " identity") (user_options user)
    (first_enabled 0 (user_options user)).

Definition deleteUser_form (user : User) (t : TuiState) : TuiState :=
  if denied_or_external UserCapabilities_canDelete user
  then message "Account cannot be deleted" ["Self, recovery, last-admin, protected, and external accounts cannot be deleted here."] Tone_normal t
  else openForm ("Delete " +:+ User_username user) "This permanently deletes the local account. Enter the exact username to confirm."
    [text_field "confirmation" "Username confirmation" "" true None] "delete user" (Cmd_deleteUser user) t.

(** ** API keys and Kubernetes access *)
Definition createApiKey_form : TuiState -> TuiState :=
  openForm "Create API key" "Use a recognizable application or integration name."
    [text_field "name" "Name" "" true (Some "CI pipeline")] "create key" Cmd_createApiKey.

Definition revokeApiKey_confirm (id : string) (item : ApiKeyItem) : TuiState -> TuiState :=
  openConfirm ("Revoke " +:+ ApiKeyItem_name item) "Applications using this key lose access immediately." "revoke" (Cmd_revokeApiKey id item).

Definition kubernetes_levels : list (string * string) :=
  [("none", "No access"); ("viewer", "Viewer"); ("operator", "Operator"); ("admin", "Cluster Administrator")].

Definition editKubernetesAccess (id : string) (user : KubernetesAccessUser) (t : TuiState) : TuiState :=
  if KubernetesAccessUser_protected user ?? false
  then message "Kubernetes access is protected" ["Recovery access cannot be changed."] Tone_normal t
  else openForm ("Kubernetes access for " +:+ KubernetesAccessUser_username user)
    "Assign an SSO-backed cluster role. Selecting No access revokes the direct group membership."
    [choice_field "accessLevel" "Access level" (KubernetesAccessUser_accessLevel user ?? "none") kubernetes_levels false None]
    "save access" (Cmd_setKubernetes id user) t.

Definition revokeKubernetesAccess (id : string) (user : KubernetesAccessUser) (t : TuiState) : TuiState :=
  if KubernetesAccessUser_protected user ?? false
  then message "Kubernetes access is protected" ["Recovery access cannot be changed."] Tone_normal t
  else if String.eqb (KubernetesAccessUser_accessLevel user ?? "none") "none"
  then message "No Kubernetes access" [KubernetesAccessUser_username user +:+ " has no direct Kubernetes access."] Tone_normal t
  else openConfirm ("Revoke Kubernetes access for " +:+ KubernetesAccessUser_username user)
         "Existing direct Kubernetes group membership is removed." "revoke access" (Cmd_revokeKubernetes id user) t.

(** The clipboard sequence is written before the operation reports. *)
Definition copyKubeconfig (id : string) (user : KubernetesAccessUser) : TM unit :=
  let name := KubernetesAccessUser_username user in
  perform ("Copy kubeconfig for " +:+ name) (
    let! result := api (Access (kubeconfig id)) in
    stdout (osc52ClipboardSequence (kc_content (rp_value result))) ;;
    mret (["The token-free kubeconfig for " +:+ name +:+ " was copied through the terminal clipboard protocol."], None)).

(** ** Hardware and license *)
Definition apply_parameters (parameters : dict string) : TM unit :=
  perform "GPU compatibility" (
    api (Runtime (enableModule "amd-gpu" parameters)) ;;
    mret (["Hardware configuration saved. GPU use requires host readiness and GPU registration. Optional engine tests run only when requested manually."], None)).

Definition compatibility_parameters (profile : string) (compatibility : GpuCompatibility) (acknowledged : bool) : res cli_exn (dict string) :=
  match gpuCompatibilityParameters profile (GpuCompatibility_profiles compatibility) acknowledged with
  | Ok p => Ok p
  | Err text => tui_error text
  end.

Definition profile_choice (p : GpuCompatibilityProfile) : string * string :=
  (GpuCompatibilityProfile_id p, GpuCompatibilityProfile_displayName p +:+ " " +:+ GpuCompatibilityProfile_version p
     +:+ (if GpuCompatibilityProfile_experimental p then " (experimental)" else "")).

Definition profile_fields (compatibility : GpuCompatibility) : list FormField :=
  [choice_field "profile" "Profile" (GpuCompatibility_selectedProfile compatibility ?? "")
     (("", "Upstream operator rules only") :: map profile_choice (GpuCompatibility_profiles compatibility)) false None;
   choice_field "acknowledge" "Accept experimental profile limitations" "false" [("false", "No"); ("true", "Yes, explicitly opt in")] false None].

Definition inspectLicense_submit (values : dict string) : TM unit :=
  try_catch (
    let! document := call (readLicenseFile (get_value values "file" ?? "")) in
    let! reply := call (api (Platform (inspectLicense document))) in
    let preview := rp_value reply in
    if negb (LicenseVerification_valid (LicensePreview_candidate preview))
    then update (message "License rejected" [LicenseVerification_message (LicensePreview_candidate preview)] Tone_error)
    else
      let! text := of_res (previewLines preview) in
      update (openConfirm "Activate license"
                (lines (text ++ ["Replace previous entitlements? Missing features stay unavailable."])%list)
                "activate" (Cmd_activateLicense document (LicenseStatus_revision (LicensePreview_current preview)))))
    (fun e => update (message "License inspection failed" [errorText e] Tone_error)).

(** ** The handlers of forms and confirmations *)
Definition one_line (text : string) : CM Outcome := mret ([text], None).

Definition run_command (c : Command) (values : dict string) : TM unit :=
  match c with
  | Cmd_enableService id catalog =>
      perform ("Enable " +:+ service_title id catalog) (
        api (Runtime (enableModule id (List.filter (fun kv => truthy (trim kv.2)) (entries values)))) ;;
        one_line (service_name id catalog +:+ " was enabled."))
  | Cmd_disableService id catalog =>
      perform ("Disable " +:+ service_title id catalog) (
        api (Runtime (disableModule id None)) ;; one_line (service_name id catalog +:+ " was disabled."))
  | Cmd_createLocal engine computeTarget target choices => createLocal engine computeTarget target choices values
  | Cmd_createExternal => createExternal values
  | Cmd_removeModel id => perform ("Remove model " +:+ id) (api (Models (removeModel id)) ;; one_line (id +:+ " was removed."))
  | Cmd_createUser => createUser_submit values
  | Cmd_updateUser user =>
      perform ("Update " +:+ User_username user) (
        api (Access (updateUser (User_id user) (JObj (send values "firstName" "firstName" ++ send values "lastName" "lastName"
                                                       ++ send values "email" "email")%list))) ;;
        one_line (User_username user +:+ " was updated."))
  | Cmd_updateRole user =>
      let level := get_value values "accessLevel" ?? "user" in
      perform ("Change access for " +:+ User_username user) (
        api (Access (updateUserRoles (User_id user) level)) ;;
        one_line (User_username user +:+ " now has " +:+ titleFromKey level +:+ " access."))
  | Cmd_setEnabled user enable =>
      perform ((if enable then "Enable " else "Disable ") +:+ User_username user) (
        api (Access (setUserEnabled (User_id user) enable)) ;;
        one_line (User_username user +:+ " was " +:+ (if enable then "enabled" else "disabled") +:+ "."))
  | Cmd_resetPassword user =>
      of_res (password_checks values) ;;
      perform ("Reset password for " +:+ User_username user) (
        api (Access (resetUserPassword (User_id user) (get_value values "password" ?? "") true)) ;;
        one_line ("A temporary password was set for " +:+ User_username user +:+ "."))
  | Cmd_deleteUser user =>
      if negb (bool_decide (get_value values "confirmation" = Some (User_username user)))
      then of_res (tui_error "Enter the exact username to confirm deletion.")
      else perform ("Delete " +:+ User_username user) (
             api (Access (deleteUser (User_id user) (get_value values "confirmation" ?? ""))) ;;
             one_line (User_username user +:+ " was deleted."))
  | Cmd_createApiKey =>
      perform ("Create API key " +:+ shown values "name") (
        let! result := api (Access (createApiKey (get_value values "name" ?? ""))) in
        let key := ck_key (rp_value result) in
        mret (["API key " +:+ shown values "name" +:+ " was created. This secret is shown only once:"; key;
               "Press c to copy it before closing this message."], Some key))
  | Cmd_revokeApiKey id item =>
      perform ("Revoke API key " +:+ ApiKeyItem_name item) (
        api (Access (revokeApiKey id)) ;; one_line (ApiKeyItem_name item +:+ " was revoked."))
  | Cmd_setKubernetes id user =>
      let level := get_value values "accessLevel" ?? "none" in
      let name := KubernetesAccessUser_username user in
      perform ("Change Kubernetes access for " +:+ name) (
        api (Access (updateKubernetesAccess id level)) ;; one_line (name +:+ " now has " +:+ titleFromKey level +:+ " Kubernetes access."))
  | Cmd_revokeKubernetes id user =>
      let name := KubernetesAccessUser_username user in
      perform ("Revoke Kubernetes access for " +:+ name) (
        api (Access (updateKubernetesAccess id "none")) ;; one_line ("Kubernetes access was revoked for " +:+ name +:+ "."))
  | Cmd_saveProfile compatibility =>
      let! p := of_res (compatibility_parameters (get_value values "profile" ?? "") compatibility
                          (bool_decide (get_value values "acknowledge" = Some "true"))) in
      apply_parameters p
  | Cmd_upstreamRules compatibility =>
      let! p := of_res (compatibility_parameters "" compatibility false) in apply_parameters p
  | Cmd_validateGpu compatibility =>
      let! p := of_res (compatibility_parameters (GpuCompatibility_selectedProfile compatibility ?? "") compatibility
                          (bool_decide (GpuCompatibility_allowExperimental compatibility = Some true))) in
      let! stamp := sync (fun t => (t_stamp t, t)) in
      apply_parameters (dict_set p "validationRequest" ("tui-" +:+ stamp))
  | Cmd_inspectLicense => inspectLicense_submit values
  | Cmd_activateLicense document revision =>
      perform "Activate license" (
        api (Platform (importLicense document revision)) ;;
        one_line "License saved persistently. Federated SSO availability follows the active license.")
  | Cmd_exportLicense =>
      perform "Export license" (
        let! result := api (Platform exportLicense) in
        saveLicenseFile (get_value values "file" ?? "") (LicenseDownload_content (rp_value result)) ;;
        one_line "License exported with private file permissions.")
  | Cmd_signOut => call (await Logout) ;; update finish
  end.

Definition run_menu (a : MenuAction) : TuiState -> TuiState :=
  match a with
  | Act_openLocalModelForm v => openLocalModelForm v
  | Act_addLocalModel => addLocalModel
  | Act_addExternalModel => addExternalModel
  | Act_editUserProfile u => editUserProfile u
  | Act_editUserRole u => editUserRole u
  | Act_toggleUser u => toggleUser u
  | Act_resetUserPassword u => resetUserPassword_form u
  end.

(** [fields.findIndex] of a required field left blank, with its label. *)
Fixpoint missing_field (i : Z) (fields : list FormField) : option (Z * string) :=
  match fields with
  | [] => None
  | f :: l => if ff_required f && negb (truthy (trim (ff_value f))) then Some (i, ff_label f) else missing_field (i + 1) l
  end.

Definition submitForm (form : TuiForm) : TM unit :=
  match missing_field 0 (fm_fields form) with
  | Some (i, label) =>
      update (set_overlay (Some (O_form (with_active i (with_error (Some (label +:+ " is required.")) form)))))
  | None =>
      let form := with_error None form in
      update (set_overlay (Some (O_form form))) ;;
      try_catch (run_command (fm_onSubmit form) (formValues (fm_fields form)))
        (fun e => update (set_overlay (Some (O_form (with_error (Some (errorText e)) form)))))
  end.

(** ** Keys *)
Definition key_up : string := String ESC "[A".
Definition key_down : string := String ESC "[B".
Definition key_right : string := String ESC "[C".
Definition key_left : string := String ESC "[D".
Definition key_back_tab : string := String ESC "[Z".
Definition key_escape : string := String ESC "".
Definition key_tab : string := String (unit_of 9) "".
Definition ctrl_c : string := String (unit_of 3) "".
Definition ctrl_s : string := String (unit_of 19) "".
Definition ctrl_u : string := String (unit_of 21) "".
Definition is_enter (key : string) : bool := includes [CR; newline] key.
Definition is_backspace (key : string) : bool := includes [String (unit_of 127) ""; String (unit_of 8) ""] key.
Definition printable (c : ascii) : bool := (32 <=? code c) && negb (code c =? 127).

Definition nth_Z {A} (l : list A) (i : Z) : option A := if i <? 0 then None else l !! Z.to_nat i.

Definition with_value (v : string) (f : FormField) : FormField :=
  {| ff_id := ff_id f; ff_label := ff_label f; ff_value := v; ff_kind := ff_kind f; ff_choices := ff_choices f;
     ff_required := ff_required f; ff_hint := ff_hint f |}.

(** The field under the cursor gets a value, and the error goes. *)
Definition edit_field (v : string) (form : TuiForm) : TuiForm :=
  {| fm_title := fm_title form; fm_description := fm_description form;
     fm_fields := alter (with_value v) (Z.to_nat (fm_active form)) (fm_fields form); fm_active := fm_active form;
     fm_submitLabel := fm_submitLabel form; fm_error := None; fm_onSubmit := fm_onSubmit form |}.

Fixpoint choice_index (i : Z) (value : string) (choices : list Choice) : Z :=
  match choices with [] => -1 | c :: l => if String.eqb (ch_value c) value then i else choice_index (i + 1) value l end.

Definition next_choice (f : FormField) (direction : Z) : string :=
  let choices := ff_choices f in
  let index := Z.max 0 (choice_index 0 (ff_value f) choices) in
  (ch_value <$> nth_Z choices (moveTab index direction (Z.of_nat (length choices)))) ?? ff_value f.

Definition drop_last (s : string) : string := take_str (String.length s - 1) s.

(** A key in a form whose field [f] is active, when it only edits. *)
Definition edit_key (key : string) (form : TuiForm) (f : FormField) : TuiForm :=
  let choice := bool_decide (ff_kind f = F_choice) in
  if String.eqb key ctrl_u then edit_field "" form
  else if choice && includes [key_left; key_right; " "] key
  then edit_field (next_choice f (if String.eqb key key_left then -1 else 1)) form
  else if negb choice && is_backspace key then edit_field (drop_last (ff_value f)) form
  else if negb choice && negb (startsWith key_escape key) then edit_field (ff_value f +:+ sfilter printable key) form
  else form.

Definition form_count (form : TuiForm) : Z := Z.of_nat (length (fm_fields form)).
Definition move_active (direction : Z) (form : TuiForm) : TuiForm :=
  with_active (moveSelection (fm_active form) direction (form_count form)) form.

Definition form_key (key : string) (form : TuiForm) : TM unit :=
  let show f := update (set_overlay (Some (O_form f))) in
  match nth_Z (fm_fields form) (fm_active form) with
  | None => mret tt
  | Some f =>
      if includes [key_up; key_back_tab] key then show (move_active (-1) form)
      else if includes [key_down; key_tab] key then show (move_active 1 form)
      else if is_enter key then
        if fm_active form =? form_count form - 1 then submitForm form else show (move_active 1 form)
      else if String.eqb key ctrl_s then submitForm form
      else show (edit_key key form f)
  end.

Definition menu_key (key title description : string) (options : list MenuOption) (active : Z) : TM unit :=
  let move direction := update (openMenu title description options (moveSelection active direction (Z.of_nat (length options)))) in
  if includes [key_up; "k"] key then move (-1)
  else if includes [key_down; "j"; key_tab] key then move 1
  else if is_enter key then
    match nth_Z options active with
    | Some item =>
        if mo_disabled item
        then update (message "Action unavailable" [mo_hint item ?? "This action is not available for the selected item."] Tone_error)
        else update (run_menu (mo_action item))
    | None => mret tt
    end
  else mret tt.

Definition copied : string := "Copied to clipboard.".

Definition handleOverlayInput (key : string) (current : TuiOverlay) : TM unit :=
  match current with
  | O_busy _ => mret tt
  | _ =>
      if String.eqb key key_escape then update (set_overlay None)
      else
        match current with
        | O_message title lines_ tone copyValue =>
            let value := copyValue ?? "" in
            if String.eqb key "c" && truthy value
            then update (fun t => set_overlay (Some (O_message title
                    (List.filter (fun l => negb (String.eqb l copied)) lines_ ++ [copied])%list tone copyValue))
                    (write (osc52ClipboardSequence value) t))
            else if is_enter key then update (set_overlay None) else mret tt
        | O_confirm _ _ _ onConfirm =>
            if String.eqb key "n" then update (set_overlay None)
            else if String.eqb key "y" || is_enter key then run_command onConfirm [] else mret tt
        | O_menu title description options active => menu_key key title description options active
        | O_form form => form_key key form
        | O_busy _ => mret tt
        end
  end.

Definition admin_tabs : list TuiTab := [Users; API_Access; Kubernetes; License; Hardware].

Definition hardware_key (key : string) (t : TuiState) : TuiState :=
  match compatibility_of (t_snapshot t) with
  | None => message "Hardware catalog unavailable"
              ["The server has not reported GPU compatibility profiles yet. Refresh after the controller update."] Tone_normal t
  | Some compatibility =>
      if String.eqb key "e" || is_enter key
      then openForm "AMD compatibility profile"
             "Experimental profiles require explicit acceptance. Selection affects matching nodes only and does not certify inference."
             (profile_fields compatibility) "save" (Cmd_saveProfile compatibility) t
      else if String.eqb key "d"
      then openConfirm "Return to upstream rules"
             "Remove the custom GPU compatibility profile. Existing models may lose GPU eligibility. This does not uninstall the host driver."
             "use upstream" (Cmd_upstreamRules compatibility) t
      else if String.eqb key "v" then
        if negb (truthy (GpuCompatibility_selectedProfile compatibility ?? ""))
        then message "Select a profile first" ["GPU validation requires a saved compatibility profile."] Tone_normal t
        else openConfirm "Run GPU validation"
               "Optional diagnostic: the profile tests may download images and use GPU resources. Results do not block GPU use; this is not a full model quality benchmark."
               "run tests" (Cmd_validateGpu compatibility) t
      else t
  end.

Definition license_key (key : string) (t : TuiState) : TuiState :=
  if String.eqb key "a"
  then openForm "Import license" "Enter a local license file path. Validation does not replace the current license."
         [text_field "file" "License file" "" true None] "inspect" Cmd_inspectLicense t
  else if String.eqb key "e"
  then openForm "Export license" "Choose a new file path. Existing files are never overwritten."
         [text_field "file" "Output file" "" true None] "export" Cmd_exportLicense t
  else t.

(** The action of a key on the selected entity; only copying a kubeconfig starts a task. *)
Definition entity_key (key : string) (tab : TuiTab) (entity : option TuiEntity) : TM unit :=
  let enter := is_enter key in
  let pressed k := String.eqb key k in
  match tab, entity with
  | Services, Some (E_service id state catalog) =>
      if pressed "a" then update (enableService id state catalog)
      else if pressed "d" then update (disableService id state catalog)
      else if enter then update ((if ModuleState_enabled state ?? false then disableService else enableService) id state catalog)
      else mret tt
  | Models_, _ =>
      if pressed "a" then update addModel
      else if pressed "d" then match entity with Some (E_model id _) => update (removeModel_ id) | _ => mret tt end
      else mret tt
  | Users, _ =>
      if pressed "a" then update createUser_form
      else if pressed "e" || enter then match entity with Some (E_user _ u) => update (editUser u) | _ => mret tt end
      else if pressed "d" then match entity with Some (E_user _ u) => update (deleteUser_form u) | _ => mret tt end
      else mret tt
  | API_Access, _ =>
      if pressed "a" then update createApiKey_form
      else if pressed "d" then match entity with Some (E_api_key id item) => update (revokeApiKey_confirm id item) | _ => mret tt end
      else mret tt
  | Kubernetes, Some (E_kubernetes id u) =>
      if pressed "e" || pressed "a" || enter then update (editKubernetesAccess id u)
      else if pressed "d" then update (revokeKubernetesAccess id u)
      else if pressed "c" then copyKubeconfig id u
      else mret tt
  | _, _ => mret tt
  end.

Definition browseAction (key : string) (t : TuiState) : TM unit :=
  let tab := activeTab t in
  let session_ := Some (ds_session (t_snapshot t)) in
  if negb (isTuiActionKey key) then mret tt
  else if demo then update (message "Offline demo" ["This preview is read-only. Live actions require an appliance connection."] Tone_normal)
  else if bool_decide (tab ∈ [Services; Models_]) && negb (canMutateRuntime session_)
  then update (message "Read-only session" ["Operator or administrator access is required for this action."] Tone_error)
  else if bool_decide (tab ∈ admin_tabs) && negb (canAdminister session_)
  then update (message "Administrator access required" ["This action is restricted to Magic Stick administrators."] Tone_error)
  else
    match tab with
    | Hardware => update (hardware_key key)
    | License => update (license_key key)
    | _ => entity_key key tab (selectedEntity t)
    end.

Definition select (direction : Z) (t : TuiState) : TuiState :=
  let tab := activeTab t in
  let i := moveSelection (activeSelection t) direction (selectableCount tab (t_snapshot t)) in
  set_selection (fun tab' => if bool_decide (tab' = tab) then i else t_selection t tab') t.

Definition move_to_tab (direction : Z) (t : TuiState) : TuiState :=
  clampSelection (set_tabIndex (moveTab (t_tabIndex t) direction (Z.of_nat (length (availableTabs (t_snapshot t))))) t).

Definition handleBrowseInput (key : string) (t : TuiState) : TM unit :=
  if includes [ctrl_c; "q"] key then update finish
  else if String.eqb key "x" then
    if demo then update (message "Offline demo" ["No session is stored or changed in demo mode. Press q to quit."] Tone_normal)
    else update (openConfirm "Sign out" "The locally cached SSO session is removed. The appliance console will request a new device login."
                   "sign out" Cmd_signOut)
  else if includes [key_right; "l"] key then update (move_to_tab 1)
  else if includes [key_left; "h"] key then update (move_to_tab (-1))
  else if includes [key_down; "j"] key then update (select 1)
  else if includes [key_up; "k"] key then update (select (-1))
  else if String.eqb key "r" then refresh
  else browseAction key t.

(** One key of [onData]; [t] is the state when it is handled. *)
Definition handle_key (key : string) (t : TuiState) : TM unit :=
  if t_finished t then mret tt
  else if String.eqb key ctrl_c then update finish
  else match t_overlay t with Some o => handleOverlayInput key o | None => handleBrowseInput key t end.

(** The keys of a chunk: pasted text is one key, unless a choice is active. *)
Definition chunk_keys (value : string) (t : TuiState) : list string :=
  let on_choice := match t_overlay t with
                   | Some (O_form form) => bool_decide ((ff_kind <$> nth_Z (fm_fields form) (fm_active form)) = Some F_choice)
                   | _ => false
                   end in
  if negb on_choice && (1 <? Z.of_nat (String.length value)) && sforall printable value then [value] else splitTerminalInput value.
End handlers.

(** ** The running program *)
Definition task : Type := prog tuiE (unit * res cli_exn unit).
Record TuiSystem : Type := { sy_state : TuiState; sy_tasks : list task }.

Definition keep_pending (p : task) : list task := match p with Done _ => [] | _ => [p] end.

(** A new task runs to its first call. *)
Definition spawn (m : TM unit) (s : TuiSystem) : TuiSystem :=
  let '(p, t) := settle (m tt) (sy_state s) in
  {| sy_state := t; sy_tasks := sy_tasks s ++ keep_pending p |}.

Definition set_state (t : TuiState) (s : TuiSystem) : TuiSystem := {| sy_state := t; sy_tasks := sy_tasks s |}.

Section system.
Context `{Collation} `{Base64} `{Utf8Decoder} (demo : bool).

Definition initial_state (snapshot : DashboardSnapshot) : TuiState :=
  {| t_snapshot := snapshot; t_tabIndex := 0; t_loading := false; t_refreshError := ""; t_overlay := None; t_finished := false;
     t_selection := fun _ => 0; t_written := [ALT_SCREEN +:+ HIDE_CURSOR +:+ CLEAR]; t_stamp := "" |}.

(** A key, a tick of the refresh timer, and the reply to the call of the [i]-th task. *)
Definition on_key (key stamp : string) (s : TuiSystem) : TuiSystem :=
  let s := set_state (set_stamp stamp (sy_state s)) s in
  spawn (handle_key demo key (sy_state s)) s.
Definition on_timer (s : TuiSystem) : TuiSystem := if t_finished (sy_state s) then s else spawn refresh s.
Definition on_chunk (value stamp : string) (s : TuiSystem) : TuiSystem :=
  foldl (fun s key => on_key key stamp s) s (chunk_keys value (sy_state s)).

Inductive tui_label : Type :=
| L_key (key stamp : string)
| L_timer
| L_reply {X : Type} (op : cliE X) (x : X).

Inductive tui_step : TuiSystem -> tui_label -> TuiSystem -> Prop :=
| step_key key stamp s : tui_step s (L_key key stamp) (on_key key stamp s)
| step_timer s : tui_step s L_timer (on_timer s)
| step_reply before after X (op : cliE X) k x t p t' :
    settle (k x) t = (p, t') ->
    tui_step {| sy_state := t; sy_tasks := before ++ Await (Call op : tuiE X) k :: after |} (L_reply op x)
             {| sy_state := t'; sy_tasks := before ++ keep_pending p ++ after |}.

(** A run, with the state before each of its events. *)
Inductive tui_run : TuiSystem -> list (TuiSystem * tui_label) -> TuiSystem -> Prop :=
| run_nil s : tui_run s [] s
| run_step s l s' h s'' : tui_step s l s' -> tui_run s' h s'' -> tui_run s ((s, l) :: h) s''.

Definition start (snapshot : DashboardSnapshot) : TuiSystem := {| sy_state := initial_state snapshot; sy_tasks := [] |}.
End system.
