(* ===== verification/TuiProps.v ===== *)
(** * The terminal interface: what its keys and tasks may do

    Every interleaving of keys, timer ticks and replies: a change is sent only for a command
    the user confirmed while it was shown, with a role the server reported, and one at a
    time ([tui_authorised], [tui_exclusive]); the selection stays on an entity
    ([tui_selection]). *)

From S2P Require Import Prelude Js Number Json Prog Shared Contracts DashboardCore ApiClient Cli CliAuth.
From S2P Require Import CliFiles CliCommands CliCommandProps Banner Tui TuiMachine.

Local Open Scope string_scope.
Local Open Scope js_scope.
Local Open Scope Z_scope.

(** ** The specification *)

(** The role a command needs. *)
Inductive Need : Type := N_mutate | N_administer | N_none.
#[export] Instance Need_eq_dec : EqDecision Need.
Proof. solve_decision. Defined.

Definition command_need (c : Command) : Need :=
  match c with
  | Cmd_enableService _ _ | Cmd_disableService _ _ | Cmd_createLocal _ _ _ _ | Cmd_createExternal | Cmd_removeModel _ => N_mutate
  | Cmd_signOut => N_none
  | _ => N_administer
  end.
Definition action_need (a : MenuAction) : Need :=
  match a with
  | Act_openLocalModelForm _ | Act_addLocalModel | Act_addExternalModel => N_mutate
  | _ => N_administer
  end.
Definition role_allows (n : Need) (s : Session) : bool :=
  match n with
  | N_mutate => canMutateRuntime (Some s)
  | N_administer => canAdminister (Some s)
  | N_none => true
  end.

(** The change a confirmed command stands for. *)
Definition command_call (c : Command) (values : dict string) (a : api_call) : Prop :=
  match c with
  | Cmd_enableService id _ => a = Runtime (enableModule id (List.filter (fun kv => truthy (trim kv.2)) (entries values)))
  | Cmd_disableService id _ => a = Runtime (disableModule id None)
  | Cmd_createLocal engine computeTarget _ _ =>
      exists l, a = Models (createLocalModel (JObj [("name", JStr (get_value values "name" ?? "")); ("enabled", JBool true);
                                                    ("targetNamespace", JStr "ai"); ("local", JObj l)])) /\
                dict_get l "engine" = Some (JStr engine) /\ dict_get l "computeTarget" = Some (JStr computeTarget) /\
                dict_get l "url" = Some (JStr (get_value values "reference" ?? ""))
  | Cmd_createExternal =>
      exists p, a = Models (createExternalModel (JObj p)) /\ dict_get p "name" = JStr <$> get_value values "name"
  | Cmd_removeModel id => a = Models (removeModel id)
  | Cmd_createUser =>
      exists p, a = Access (createUser (JObj p)) /\ dict_get p "username" = JStr <$> get_value values "username" /\
                (12 <= String.length (get_value values "password" ?? ""))%nat /\
                get_value values "password" = get_value values "confirmation"
  | Cmd_updateUser user => exists p, a = Access (updateUser (User_id user) p)
  | Cmd_updateRole user => a = Access (updateUserRoles (User_id user) (get_value values "accessLevel" ?? "user"))
  | Cmd_setEnabled user enable => a = Access (setUserEnabled (User_id user) enable)
  | Cmd_resetPassword user =>
      exists p, a = Access (resetUserPassword (User_id user) p true) /\ get_value values "password" ?? "" = p /\
                (12 <= String.length p)%nat /\ get_value values "password" = get_value values "confirmation"
  | Cmd_deleteUser user => a = Access (deleteUser (User_id user) (User_username user)) /\ get_value values "confirmation" = Some (User_username user)
  | Cmd_createApiKey => a = Access (createApiKey (get_value values "name" ?? ""))
  | Cmd_revokeApiKey id _ => a = Access (revokeApiKey id)
  | Cmd_setKubernetes id _ => a = Access (updateKubernetesAccess id (get_value values "accessLevel" ?? "none"))
  | Cmd_revokeKubernetes id _ => a = Access (updateKubernetesAccess id "none")
  | Cmd_saveProfile compatibility =>
      exists p, gpuCompatibilityParameters (get_value values "profile" ?? "") (GpuCompatibility_profiles compatibility)
                  (bool_decide (get_value values "acknowledge" = Some "true")) = Ok p /\ a = Runtime (enableModule "amd-gpu" p)
  | Cmd_upstreamRules compatibility =>
      exists p, gpuCompatibilityParameters "" (GpuCompatibility_profiles compatibility) false = Ok p /\ a = Runtime (enableModule "amd-gpu" p)
  | Cmd_validateGpu compatibility =>
      exists p stamp, gpuCompatibilityParameters (GpuCompatibility_selectedProfile compatibility ?? "") (GpuCompatibility_profiles compatibility)
                  (bool_decide (GpuCompatibility_allowExperimental compatibility = Some true)) = Ok p /\
                a = Runtime (enableModule "amd-gpu" (dict_set p "validationRequest" ("tui-" +:+ stamp)))
  | Cmd_activateLicense document revision => a = Platform (importLicense document revision)
  | Cmd_inspectLicense | Cmd_exportLicense | Cmd_signOut => False
  end.

(** The command a key confirms: the one of the confirmation or form shown. *)
Definition accepted (key : string) (t : TuiState) : option (Command * dict string) :=
  match t_overlay t with
  | Some (O_confirm _ _ _ c) => if String.eqb key "y" || is_enter key then Some (c, []) else None
  | Some (O_form form) => if is_enter key || String.eqb key ctrl_s then Some (fm_onSubmit form, formValues (fm_fields form)) else None
  | _ => None
  end.

Section specification.
Context `{Collation} `{Base64} `{Utf8Decoder} (demo : bool).
(** The sessions the server reported, and the commands that were confirmed. *)
Context (F : Session -> Prop) (C : Command -> dict string -> Prop).

Definition granted (n : Need) : Prop := n = N_none \/ demo = false /\ exists s, F s /\ role_allows n s = true.

Definition overlay_ok (o : TuiOverlay) : Prop :=
  match o with
  | O_form form => granted (command_need (fm_onSubmit form))
  | O_confirm _ _ _ c => granted (command_need c)
  | O_menu _ _ options _ => Forall (fun o => granted (action_need (mo_action o))) options
  | O_message _ _ _ _ | O_busy _ => True
  end.

(** The selection of every tab shown is on one of its entities, if it has any. *)
Definition in_bounds (i count : Z) : Prop := 0 <= i /\ (i < count \/ i = 0 /\ count = 0).
Definition selection_ok (t : TuiState) : Prop :=
  forall tab, tab ∈ availableTabs (t_snapshot t) -> in_bounds (t_selection t tab) (selectableCount tab (t_snapshot t)).

Definition overlays_ok (o : option TuiOverlay) : Prop := match o with Some o => overlay_ok o | None => True end.

Definition state_ok (t : TuiState) : Prop := F (ds_session (t_snapshot t)) /\ overlays_ok (t_overlay t) /\ selection_ok t.

Definition permitted (a : api_call) : Prop :=
  changing a = true -> exists c values, C c values /\ granted (command_need c) /\ command_call c values a.

(** *** The lock: [g] tells whether the task holds [loading]. *)
Definition lock_step (g l g' l' : bool) : Prop :=
  g' = g /\ l' = l \/ g = false /\ l = false /\ g' = true /\ l' = true \/ g = true /\ g' = false /\ l' = false.

Definition tui_Inv (g : bool) (t : TuiState) : Prop := state_ok t /\ (g = true -> t_loading t = true).
Definition tui_Rel (g : bool) (t : TuiState) (g' : bool) (t' : TuiState) : Prop :=
  state_ok t' /\ lock_step g (t_loading t) g' (t_loading t').
Definition tui_pre X (g : bool) (op : cliE X) : Prop :=
  match op with Api a => permitted a /\ (changing a = true -> g = true) | _ => True end.
Definition tui_asm X (op : cliE X) : X -> Prop :=
  match op in cliE X return X -> Prop with
  | Api a => match a return res cli_exn (Reply (result_of a)) -> Prop with
             | Platform session => fun r => forall v, r = Ok v -> F (rp_value v)
             | _ => fun _ => True
             end
  | _ => fun _ => True
  end.

Local Notation W m := (swpm tui_Inv tui_Rel tui_pre tui_asm m).
Local Notation "'Wc' g" := (wpm (fun X (_ : unit) op => tui_pre X g op) (fun X _ op x => tui_asm X op x) (fun X _ op x => tt)) (at level 9, g at level 8).

(** ** The calls of a task *)
Lemma permitted_read a : changing a = false -> permitted a.
Proof. intros Ha Hc. congruence. Qed.

Lemma pre_read g a : changing a = false -> tui_pre _ g (Api a).
Proof. intros Ha. split; [by apply permitted_read | congruence]. Qed.

Lemma Wc_read g a (Q : unit -> unit -> res cli_exn (Reply (result_of a)) -> Prop) :
  changing a = false -> (forall r, tui_asm _ (Api a) r -> Q tt tt r) -> Wc g (api a) tt tt Q.
Proof. intros Ha HQ. unfold api. wpm_step; [by apply pre_read | exact HQ]. Qed.

Lemma Wc_started g a (Q : unit -> unit -> res cli_exn (res cli_exn (Reply (result_of a))) -> Prop) :
  changing a = false -> (forall r, Q tt tt (Ok r)) -> Wc g (started a) tt tt Q.
Proof. intros Ha HQ. unfold started. wpm_step; [by apply pre_read | intros; apply HQ]. Qed.

Lemma Wc_started_if g b a (Q : unit -> unit -> res cli_exn (res cli_exn (option (result_of a))) -> Prop) :
  changing a = false -> (forall r, Q tt tt (Ok r)) -> Wc g (started_if b a) tt tt Q.
Proof.
  intros Ha HQ. unfold started_if. destruct b; [|apply HQ]. wpm_step. apply Wc_started; [done|]. intros r. wpm_step. apply HQ.
Qed.

(** Loading reads, and the snapshot's session is the one reported. *)
Lemma Wc_loadSnapshot g (Q : unit -> unit -> res cli_exn DashboardSnapshot -> Prop) :
  (forall s, F (ds_session s) -> Q tt tt (Ok s)) -> (forall e, Q tt tt (Err e)) -> Wc g loadSnapshot tt tt Q.
Proof.
  intros Hok Herr. unfold loadSnapshot. wpm_step. apply Wc_read; [done|]. intros [r|e] Hr; [|apply Herr]. cbn in Hr. specialize (Hr r eq_refl).
  do 5 (wpm_step; apply Wc_started; [done|]; intros ?).
  do 4 (wpm_step; apply Wc_started_if; [done|]; intros ?).
  do 9 (wpm_step; wpm_step; match goal with |- match ?r with _ => _ end => destruct r; [|apply Herr] end).
  wpm_step. eapply wpm_mono with (Q := fun _ _ r => exists l, r = Ok l).
  - intros [] [] r0 [l ->]. wpm_step. wpm_step; [done|]. intros now _. wpm_step. apply Hok. exact Hr.
  - destruct (canAdminister _); [apply Wc_started; [done | eauto] | wpm_step; eauto].
Qed.

Lemma W_call {A} g (m : CM A) (Q : bool -> unit -> res cli_exn A -> Prop) :
  Wc g m tt tt (fun _ _ r => Q g tt r) -> W (call m) tt g Q.
Proof.
  intros Hm. unfold swpm, call. apply swp_lift. eapply wp_mono; [|exact Hm]. by intros [] [[] r].
Qed.

(** ** Updates of the state *)

(** An update that keeps the invariant and leaves the lock alone. *)
Definition harmless (f : TuiState -> TuiState) : Prop :=
  forall t, state_ok t -> state_ok (f t) /\ t_loading (f t) = t_loading t.

Lemma W_update f g (Q : bool -> unit -> res cli_exn unit -> Prop) :
  harmless f -> Q g tt (Ok tt) -> W (update f) tt g Q.
Proof.
  intros Hf HQ. unfold update, sync. apply swpm_atomic. intros t [Ht Hl]. exists g. destruct (Hf t Ht) as [Hs Hload].
  split; [|done]. split; [done|]. left. done.
Qed.

Lemma W_read {A} (f : TuiState -> A) g (Q : bool -> unit -> res cli_exn A -> Prop) :
  (forall t, state_ok t -> Q g tt (Ok (f t))) -> W (sync (fun t => (f t, t))) tt g Q.
Proof.
  intros HQ. unfold sync. apply swpm_atomic. intros t [Ht Hl]. exists g. split; [|by apply HQ]. split; [done|]. by left.
Qed.

Lemma harmless_overlay o : overlays_ok o -> harmless (set_overlay o).
Proof. intros Ho t (Hs & _ & Hsel). done. Qed.

Lemma harmless_id : harmless (fun t => t).
Proof. done. Qed.

Lemma harmless_write text : harmless (write text).
Proof. done. Qed.
Lemma harmless_refreshError e : harmless (set_refreshError e).
Proof. done. Qed.
Lemma harmless_compose f g : harmless f -> harmless g -> harmless (fun t => f (g t)).
Proof. intros Hf Hg t Ht. destruct (Hg t Ht) as [Hg1 Hg2]. destruct (Hf _ Hg1) as [Hf1 Hf2]. split; [done | congruence]. Qed.

Lemma harmless_finish : harmless finish.
Proof. intros t Ht. unfold finish. destruct (t_finished t); done. Qed.

Lemma harmless_shows f : (forall t, state_ok t -> (exists o, f t = set_overlay o t /\ overlays_ok o) \/ f t = t) -> harmless f.
Proof.
  intros Hf t Ht. destruct (Hf t Ht) as [(o & -> & Ho)| ->]; [by apply harmless_overlay | done].
Qed.

Lemma in_bounds_move i d count : 0 <= count -> in_bounds (moveSelection i d count) count.
Proof. unfold in_bounds, moveSelection. destruct (Z.eqb_spec count 0); lia. Qed.

Lemma selectableCount_nonneg tab s : 0 <= selectableCount tab s.
Proof. unfold selectableCount. lia. Qed.

Lemma clampSelection_ok t : selection_ok (clampSelection t).
Proof.
  intros tab Htab. cbn. rewrite bool_decide_eq_true_2 by done. apply in_bounds_move, selectableCount_nonneg.
Qed.

Lemma harmless_loaded s : F (ds_session s) -> harmless (loaded s).
Proof.
  intros Hs t (_ & Ho & _). split; [|done]. split; [exact Hs|]. split; [exact Ho|]. apply clampSelection_ok.
Qed.

Lemma harmless_move_to_tab d : harmless (move_to_tab d).
Proof. intros t (Hs & Ho & _). split; [|done]. split; [exact Hs|]. split; [exact Ho|]. apply clampSelection_ok. Qed.

Lemma harmless_select d : harmless (select d).
Proof.
  intros t (Hs & Ho & Hsel). split; [|done]. split; [exact Hs|]. split; [exact Ho|]. intros tab Htab. cbn.
  case_bool_decide; [subst; apply in_bounds_move, selectableCount_nonneg | by apply Hsel].
Qed.

Lemma harmless_message title l tone : harmless (message title l tone).
Proof. by apply harmless_overlay. Qed.
Lemma harmless_openConfirm title d label c : granted (command_need c) -> harmless (openConfirm title d label c).
Proof. intros Hc. by apply harmless_overlay. Qed.
Lemma harmless_openForm title d fields label c : granted (command_need c) -> harmless (openForm title d fields label c).
Proof. intros Hc. by apply harmless_overlay. Qed.
Lemma harmless_openMenu title d options active :
  Forall (fun o => granted (action_need (mo_action o))) options -> harmless (openMenu title d options active).
Proof. intros Hc. by apply harmless_overlay. Qed.

(** ** The lock *)
Lemma W_unlock (Q : bool -> unit -> res cli_exn unit -> Prop) : Q false tt (Ok tt) -> W (update (set_loading false)) tt true Q.
Proof.
  intros HQ. unfold update, sync. apply swpm_atomic. intros t [Ht Hl]. exists false. split; [|done]. split; [done|]. right. right. done.
Qed.

Lemma W_loaded g (Q : bool -> unit -> res cli_exn unit -> Prop) (h : cli_exn -> TM unit) :
  Q g tt (Ok tt) -> (forall e, W (h e) tt g Q) ->
  W (try_catch (let! s := call loadSnapshot in update (loaded s)) h) tt g Q.
Proof.
  intros HQ Hh. apply swpm_try, swpm_bind, W_call, Wc_loadSnapshot; [|done].
  intros s Hs. apply W_update; [by apply harmless_loaded | done].
Qed.

Lemma W_refresh : W refresh tt false (fun g _ r => g = false /\ r = Ok tt).
Proof.
  unfold refresh, sync. apply swpm_bind, swpm_atomic. intros t [Ht Hl].
  destruct (t_loading t) eqn:Hload; cbn [orb].
  { exists false. split; [|by apply swpm_ret]. split; [done|]. by left. }
  destruct (bool_decide _); cbn [orb].
  { exists false. split; [|by apply swpm_ret]. split; [done|]. by left. }
  exists true. split.
  { split; [done|]. right. left. done. }
  apply swpm_bind, W_loaded; [by apply W_unlock|]. intros e. apply W_update; [apply harmless_refreshError | by apply W_unlock].
Qed.

Definition released (g : bool) (_ : unit) (r : res cli_exn unit) : Prop := g = false.

Lemma harmless_failed origin e : overlays_ok origin -> harmless (failed origin e).
Proof. intros Ho. unfold failed. destruct origin as [[]|]; try apply harmless_message. by apply harmless_overlay. Qed.

Lemma W_perform title (operation : CM Outcome) :
  Wc true operation tt tt (fun _ _ _ => True) -> W (perform title operation) tt false (fun g _ r => g = false /\ r = Ok tt).
Proof.
  intros Hop. unfold perform, sync. apply swpm_bind, swpm_atomic. intros t [Ht Hl].
  destruct (t_loading t) eqn:Hload; cbn [fst snd].
  { exists false. split; [|by apply swpm_ret]. split; [done|]. left. by rewrite Hload. }
  exists true. split.
  { split; [by destruct Ht as (? & ? & ?)|]. right. left. done. }
  assert (Ho : overlays_ok (t_overlay t)) by apply Ht.
  apply swpm_bind, swpm_try, swpm_bind, W_call. eapply wpm_mono; [|exact Hop].
  intros [] [] [result|e] _; [|apply W_update; [by apply harmless_failed | by apply W_unlock]].
  apply swpm_bind, swpm_try, swpm_bind, W_call, Wc_loadSnapshot.
  - intros s Hs. apply swpm_bind, W_update; [by apply harmless_loaded|]. apply swpm_ret.
    apply W_update; [by apply harmless_overlay | by apply W_unlock].
  - intros e. apply swpm_bind, W_update; [apply harmless_refreshError|]. apply swpm_ret.
    apply W_update; [by apply harmless_overlay | by apply W_unlock].
Qed.

Lemma W_perform_released title (operation : CM Outcome) :
  Wc true operation tt tt (fun _ _ _ => True) -> W (perform title operation) tt false released.
Proof. intros Hop. eapply swpm_mono; [|by apply W_perform]. by intros g [] r [-> _]. Qed.

(** ** The commands *)
Definition any_result {A} (_ _ : unit) (_ : res cli_exn A) : Prop := True.

Lemma Wc_change {A} a (m : Reply (result_of a) -> CM A) :
  permitted a -> (forall r, Wc true (m r) tt tt any_result) -> Wc true (let! r := api a in m r) tt tt any_result.
Proof. intros Ha Hm. wpm_step. unfold api. wpm_step; [done|]. intros [r|e] _; [apply Hm | done]. Qed.

Lemma Wc_any_read {A} a (m : Reply (result_of a) -> CM A) :
  changing a = false -> (forall r, Wc true (m r) tt tt any_result) -> Wc true (let! r := api a in m r) tt tt any_result.
Proof. intros Ha. apply Wc_change. by apply permitted_read. Qed.

Lemma Wc_of_res {A B} (r : res cli_exn A) (m : A -> CM B) :
  (forall a, r = Ok a -> Wc true (m a) tt tt any_result) -> Wc true (let! a := of_res r in m a) tt tt any_result.
Proof. intros Hm. wpm_step. wpm_step. destruct r as [a|e]; [by apply Hm | done]. Qed.

Lemma permitted_by c values a : C c values -> granted (command_need c) -> command_call c values a -> permitted a.
Proof. intros Hc Hg Ha _. by exists c, values. Qed.

Lemma W_simple title c values a text :
  C c values -> granted (command_need c) -> command_call c values a ->
  W (perform title (api a ;; one_line text)) tt false released.
Proof.
  intros Hc Hg Ha. apply W_perform_released, Wc_change; [by eapply permitted_by|]. intros r. by unfold one_line; wpm_step.
Qed.

Lemma W_of_res {A B} (r : res cli_exn A) (m : A -> TM B) g (Q : bool -> unit -> res cli_exn B -> Prop) :
  (forall a, r = Ok a -> W (m a) tt g Q) -> (forall e, Q g tt (Err e)) -> W (let! a := of_res r in m a) tt g Q.
Proof. intros Hm He. apply swpm_bind, swpm_of_res. destruct r as [a|e]; [by apply Hm | apply He]. Qed.

Lemma W_error {A} text g (Q : bool -> unit -> res cli_exn A -> Prop) : (forall e, Q g tt (Err e)) -> W (of_res (tui_error text)) tt g Q.
Proof. intros He. apply swpm_of_res, He. Qed.

(** The payload of a local model names the input. *)
Lemma payload_fields input target payload :
  buildLocalModelPayload input target = Ok payload ->
  exists l, payload = JObj [("name", JStr (li_name input)); ("enabled", JBool true); ("targetNamespace", JStr "ai"); ("local", JObj l)] /\
            dict_get l "engine" = Some (JStr (li_engine input)) /\ dict_get l "computeTarget" = Some (JStr (li_computeTarget input)) /\
            dict_get l "url" = Some (JStr (li_reference input)).
Proof.
  unfold buildLocalModelPayload. set (local_ := if _ || _ then _ else _).
  assert (Hl : dict_get local_ "engine" = Some (JStr (li_engine input)) /\ dict_get local_ "computeTarget" = Some (JStr (li_computeTarget input)) /\
               dict_get local_ "url" = Some (JStr (li_reference input))).
  { unfold local_. destruct (_ || _); rewrite !dict_get_set_ne by done; done. }
  clearbody local_. intros Hp. destruct (li_cpuOffloading input) as [on|]; cbn [res_bind] in Hp;
    [|injection Hp as <-; by exists local_].
  destruct (on && negb _); [done|].
  set (l2 := if String.eqb _ _ then _ else _) in Hp.
  assert (Hl2 : dict_get l2 "engine" = Some (JStr (li_engine input)) /\ dict_get l2 "computeTarget" = Some (JStr (li_computeTarget input)) /\
                dict_get l2 "url" = Some (JStr (li_reference input))).
  { unfold l2. destruct (String.eqb _ _); [rewrite !dict_get_set_ne by done|]; done. }
  clearbody l2. destruct on; cbn [res_bind] in Hp; [|injection Hp as <-; by exists l2].
  destruct (host_memory input) as [h|]; cbn [res_bind] in Hp; [|done]. injection Hp as <-.
  eexists. split; [done|]. rewrite !dict_get_set_ne by done. done.
Qed.

Lemma Wc_create_local engine computeTarget target live choices values contextWindow maxNumSeqs cpuOffloading :
  C (Cmd_createLocal engine computeTarget target choices) values -> granted N_mutate ->
  Wc true (create_local_operation engine computeTarget target live values contextWindow maxNumSeqs cpuOffloading) tt tt any_result.
Proof.
  intros Hc Hg. unfold create_local_operation. apply Wc_any_read; [done|]. intros estimate. apply Wc_of_res. intros reservation _.
  wpm_step. eapply wpm_mono with (Q := any_result).
  - intros [] [] [planned|e] _; [|done]. apply Wc_of_res. intros payload Hp. apply payload_fields in Hp as (l & -> & Hl).
    apply Wc_change; [|intros r; by wpm_step].
    eapply permitted_by; [exact Hc | done | cbn [command_call]]. exists l. split; [done|]. cbn in Hl. exact Hl.
  - destruct cpuOffloading; [|by wpm_step]. apply Wc_any_read; [done|]. intros split_. apply Wc_of_res. intros host _. by wpm_step.
Qed.

Lemma W_createLocal engine computeTarget target choices values :
  C (Cmd_createLocal engine computeTarget target choices) values -> granted N_mutate ->
  W (createLocal engine computeTarget target choices values) tt false released.
Proof.
  intros Hc Hg. unfold createLocal. apply swpm_bind, (W_read (find_target engine computeTarget)). intros t _.
  destruct (find_target engine computeTarget t) as [live|]; [|by apply W_error].
  destruct (negb _); [by apply W_error|].
  apply W_of_res; [|done]. intros contextWindow _. apply W_of_res; [|done]. intros maxNumSeqs _.
  destruct (_ && _); [by apply W_error|]. apply W_perform_released. by eapply Wc_create_local.
Qed.

Lemma password_checks_ok values :
  password_checks values = Ok tt ->
  (12 <= String.length (get_value values "password" ?? ""))%nat /\ get_value values "password" = get_value values "confirmation".
Proof.
  unfold password_checks. destruct (Nat.ltb_spec (String.length (get_value values "password" ?? "")) 12); [done|].
  case_bool_decide; [|done]. intros _. done.
Qed.

Lemma dict_get_send values k key d :
  dict_get (send values k key ++ d)%list key = match get_value values k with Some v => Some (JStr v) | None => dict_get d key end.
Proof.
  unfold send, opt_key. destruct (get_value values k); [|done]. cbn. by rewrite String.eqb_refl.
Qed.

Lemma dict_get_send_ne values k key key' d : key <> key' -> dict_get (send values k key ++ d)%list key' = dict_get d key'.
Proof.
  intros Hk. unfold send, opt_key. destruct (get_value values k); [|done]. cbn.
  destruct (String.eqb_spec key key') as [|]; [done|]. by destruct (String.eqb_spec key' key).
Qed.

Lemma W_createExternal values :
  C Cmd_createExternal values -> granted N_mutate -> W (createExternal values) tt false released.
Proof.
  intros Hc Hg. unfold createExternal. apply W_of_res; [|done]. intros contextWindow _.
  apply W_perform_released, Wc_change; [|intros r; by wpm_step].
  eapply permitted_by; [exact Hc | done |]. eexists. split; [done|]. rewrite dict_get_send.
  destruct (get_value values "name"); [done|]. destruct (truthy _); [|done]. unfold send, opt_key. by destruct (get_value values "apiKey").
Qed.

Lemma W_createUser values : C Cmd_createUser values -> granted N_administer -> W (createUser_submit values) tt false released.
Proof.
  intros Hc Hg. unfold createUser_submit. apply W_of_res; [|done]. intros [] Hp. apply password_checks_ok in Hp as [Hlen Heq].
  apply W_perform_released, Wc_change; [|intros r; by wpm_step].
  eapply permitted_by; [exact Hc | done |]. eexists. split; [done|]. split; [|done]. rewrite dict_get_send.
  destruct (get_value values "username"); [done|]. by rewrite !dict_get_send_ne by done; unfold send, opt_key; destruct (get_value values "accessLevel").
Qed.

Lemma W_apply c values p :
  C c values -> granted (command_need c) -> command_call c values (Runtime (enableModule "amd-gpu" p)) ->
  W (apply_parameters p) tt false released.
Proof.
  intros Hc Hg Ha. unfold apply_parameters. apply W_perform_released, Wc_change; [by eapply permitted_by|]. intros r. by wpm_step.
Qed.

Lemma compatibility_ok profile compatibility b p :
  compatibility_parameters profile compatibility b = Ok p ->
  gpuCompatibilityParameters profile (GpuCompatibility_profiles compatibility) b = Ok p.
Proof. unfold compatibility_parameters. by destruct (gpuCompatibilityParameters _ _ _); intros [= ->]. Qed.

Lemma Wc_readLicenseFile path (Q : unit -> unit -> res cli_exn string -> Prop) g :
  (forall r, Q tt tt r) -> Wc g (readLicenseFile path) tt tt Q.
Proof.
  intros HQ. unfold readLicenseFile. wpm_step. wpm_step; [done|]. intros [isFile|e] _; [|apply HQ].
  destruct isFile; cbn [negb]; [|unfold error; by wpm_step]. wpm_step. wpm_step; [done|]. intros [[]|e] _; [|apply HQ].
  wpm_step. eapply wpm_mono with (Q := any_result).
  - intros [] [] r _. wpm_step; [done|]. intros [[]|e] _; apply HQ.
  - wpm_step. wpm_step; [done|]. intros [isFile|e] _; [|done]. destruct isFile; cbn [negb]; [|unfold error; by wpm_step].
    wpm_step. assert (Hread : forall n buffer, Wc g (read_bounded n buffer) tt tt any_result).
    { induction n as [|n IH]; intros buffer; cbn [read_bounded]; [by wpm_step|]. wpm_step. wpm_step; [done|].
      intros [[|c l]|e] _; [by wpm_step | | done]. destruct (_ <? _); [apply IH | by wpm_step]. }
    eapply wpm_mono; [|apply Hread]. intros [] [] [buffer|e] _; [|done].
    destruct (_ <? _); [unfold error; by wpm_step|]. destruct (utf8_decode buffer); [by wpm_step | unfold error; by wpm_step].
Qed.

Lemma W_inspect values : granted N_administer -> W (inspectLicense_submit values) tt false released.
Proof.
  intros Hg. unfold inspectLicense_submit. apply swpm_try.
  assert (Herr : forall e : cli_exn, W (update (message "License inspection failed" [errorText e] Tone_error)) tt false released)
    by (intros e; apply W_update; [apply harmless_message | done]).
  apply swpm_bind, W_call, Wc_readLicenseFile. intros [document|e]; [|apply Herr].
  apply swpm_bind, W_call, Wc_read; [done|]. intros [reply|e] _; [|apply Herr].
  destruct (negb _); [apply W_update; [apply harmless_message | done]|].
  apply W_of_res; [|exact Herr]. intros text _. apply W_update; [by apply harmless_openConfirm | done].
Qed.

Lemma W_run_command c values : C c values -> granted (command_need c) -> W (run_command c values) tt false released.
Proof.
  intros Hc Hg. destruct c; cbn [run_command command_need] in *.
  all: try lazymatch goal with
       | |- swpm _ _ _ _ (perform _ (mbind (api (Access (updateUser _ _))) _)) _ _ _ => fail
       | |- swpm _ _ _ _ (perform _ (mbind (api _) (fun _ => one_line _))) _ _ _ =>
           eapply W_simple; [exact Hc | exact Hg | reflexivity]
       end.
  - by apply W_createLocal.
  - by apply W_createExternal.
  - by apply W_createUser.
  - eapply W_simple; [exact Hc | exact Hg | by eexists].
  - apply W_of_res; [|done]. intros [] Hp. apply password_checks_ok in Hp as [Hlen Heq]. eapply W_simple; [exact Hc | exact Hg|].
    eexists. by split_and!.
  - case_bool_decide as Heq; cbn [negb]; [|by apply W_error]. rewrite Heq. cbn [nullish].
    eapply W_simple; [exact Hc | exact Hg | done].
  - apply W_perform_released, Wc_change; [eapply permitted_by; [exact Hc | exact Hg | reflexivity]|]. intros r. by wpm_step.
  - apply W_of_res; [|done]. intros p Hp%compatibility_ok. eapply W_apply; [exact Hc | exact Hg | by exists p].
  - apply W_of_res; [|done]. intros p Hp%compatibility_ok. eapply W_apply; [exact Hc | exact Hg | by exists p].
  - apply W_of_res; [|done]. intros p Hp%compatibility_ok. apply swpm_bind, (W_read t_stamp). intros t _.
    eapply W_apply; [exact Hc | exact Hg | by exists p, (t_stamp t)].
  - by apply W_inspect.
  - apply W_perform_released, Wc_any_read; [done|]. intros r. wpm_step. unfold saveLicenseFile. wpm_step; [done|].
    intros [[]|e] _; [|done]. unfold one_line. by wpm_step.
  - apply swpm_bind, W_call. wpm_step; [done|]. intros [[]|e] _; [|done]. apply W_update; [apply harmless_finish | done].
Qed.

(** ** Menus and dialogs *)
Lemma harmless_if (b : bool) f g : harmless f -> harmless g -> harmless (if b then f else g).
Proof. by destruct b. Qed.

Lemma harmless_at (f : TuiState -> TuiState) :
  (forall t, exists g, harmless g /\ f t = g t) -> harmless f.
Proof. intros Hf t Ht. destruct (Hf t) as (g & Hg & ->). by apply Hg. Qed.

Lemma harmless_openLocalModelForm v : granted N_mutate -> harmless (openLocalModelForm v).
Proof.
  intros Hg. apply harmless_at. intros t. unfold openLocalModelForm. cbv zeta. destruct (find_target _ _ t) as [target|].
  - eexists. split; [|reflexivity]. by apply harmless_openForm.
  - eexists. split; [|reflexivity]. apply harmless_message.
Qed.

Lemma harmless_addLocalModel : granted N_mutate -> harmless addLocalModel.
Proof.
  intros Hg. apply harmless_at. intros t. unfold addLocalModel. destruct (runtimeChoices t) as [|c [|c' l]].
  - eexists. split; [|reflexivity]. apply harmless_message.
  - eexists. split; [|reflexivity]. by apply harmless_openLocalModelForm.
  - eexists. split; [|reflexivity]. apply harmless_openMenu. apply Forall_forall. intros o Ho. by apply list_elem_of_fmap in Ho as (x & -> & _).
Qed.

Lemma harmless_toggleUser u : granted N_administer -> harmless (toggleUser u).
Proof. intros Hg. unfold toggleUser. cbv zeta. destruct (denied _ _); [apply harmless_message | by apply harmless_openConfirm]. Qed.
Lemma harmless_editUserProfile u : granted N_administer -> harmless (editUserProfile u).
Proof. intros Hg. unfold editUserProfile. destruct (denied_or_external _ _); [apply harmless_message | by apply harmless_openForm]. Qed.
Lemma harmless_editUserRole u : granted N_administer -> harmless (editUserRole u).
Proof. intros Hg. unfold editUserRole. destruct (denied _ _); [apply harmless_message | by apply harmless_openForm]. Qed.
Lemma harmless_resetUserPassword u : granted N_administer -> harmless (resetUserPassword_form u).
Proof. intros Hg. unfold resetUserPassword_form. destruct (denied_or_external _ _); [apply harmless_message | by apply harmless_openForm]. Qed.
Lemma harmless_deleteUser u : granted N_administer -> harmless (deleteUser_form u).
Proof. intros Hg. unfold deleteUser_form. destruct (denied_or_external _ _); [apply harmless_message | by apply harmless_openForm]. Qed.
Lemma harmless_editUser u : granted N_administer -> harmless (editUser u).
Proof. intros Hg. unfold editUser, user_options. apply harmless_openMenu. repeat (constructor; [exact Hg|]). constructor. Qed.
Lemma harmless_addModel : granted N_mutate -> harmless addModel.
Proof. intros Hg. unfold addModel. apply harmless_openMenu. repeat (constructor; [exact Hg|]). constructor. Qed.

Lemma harmless_run_menu a : granted (action_need a) -> harmless (run_menu a).
Proof.
  intros Hg. destruct a; cbn [run_menu action_need] in *;
    [by apply harmless_openLocalModelForm | by apply harmless_addLocalModel | by apply harmless_openForm | by apply harmless_editUserProfile
    | by apply harmless_editUserRole | by apply harmless_toggleUser | by apply harmless_resetUserPassword].
Qed.

Lemma harmless_service (enable : bool) id state catalog :
  granted N_mutate -> harmless ((if enable then enableService else disableService) id state catalog).
Proof.
  intros Hg. destruct enable; [unfold enableService | unfold disableService]; cbv zeta.
  - destruct (ModuleState_enabled state ?? false)%js; [apply harmless_message|]. destruct (is_static _ _); [apply harmless_message|].
    destruct (map _ _); [by apply harmless_openConfirm | by apply harmless_openForm].
  - destruct (negb _); [apply harmless_message|]. destruct (is_static _ _); [apply harmless_message | by apply harmless_openConfirm].
Qed.

Lemma harmless_kubernetes id u : granted N_administer -> harmless (editKubernetesAccess id u) /\ harmless (revokeKubernetesAccess id u).
Proof.
  intros Hg. unfold editKubernetesAccess, revokeKubernetesAccess. destruct (KubernetesAccessUser_protected u ?? false)%js.
  - split; apply harmless_message.
  - split; [by apply harmless_openForm|]. destruct (String.eqb _ _); [apply harmless_message | by apply harmless_openConfirm].
Qed.

Lemma harmless_hardware key : granted N_administer -> harmless (hardware_key key).
Proof.
  intros Hg. apply harmless_at. intros t. unfold hardware_key. destruct (compatibility_of _) as [c|].
  - destruct (_ || _); [eexists; split; [|reflexivity]; by apply harmless_openForm|].
    destruct (String.eqb key "d"); [eexists; split; [|reflexivity]; by apply harmless_openConfirm|].
    destruct (String.eqb key "v"); [|exists (fun t => t); done].
    destruct (negb _); eexists; (split; [|reflexivity]); [apply harmless_message | by apply harmless_openConfirm].
  - eexists. split; [|reflexivity]. apply harmless_message.
Qed.

Lemma harmless_license key : granted N_administer -> harmless (license_key key).
Proof.
  intros Hg. unfold license_key. destruct (String.eqb key "a"); [by apply harmless_openForm|].
  destruct (String.eqb key "e"); [by apply harmless_openForm | apply harmless_id].
Qed.

(** ** Keys in an overlay *)
Lemma W_stay : W (mret tt : TM unit) tt false released.
Proof. by apply swpm_ret. Qed.
Lemma W_only f : harmless f -> W (update f) tt false released.
Proof. intros Hf. by apply W_update. Qed.

Lemma W_submitForm form :
  granted (command_need (fm_onSubmit form)) -> C (fm_onSubmit form) (formValues (fm_fields form)) -> W (submitForm form) tt false released.
Proof.
  intros Hg Hc. unfold submitForm. destruct (missing_field 0 (fm_fields form)) as [[i label]|].
  - by apply W_only, harmless_overlay.
  - cbv zeta. apply swpm_bind, W_update; [by apply harmless_overlay|]. apply swpm_try.
    eapply swpm_mono; [|by apply W_run_command]. intros g [] [u|e] ->; [done|].
    by apply W_only, harmless_overlay.
Qed.

Lemma edit_key_submit key form f : fm_onSubmit (edit_key key form f) = fm_onSubmit form.
Proof. unfold edit_key. by repeat (match goal with |- context [if ?b then _ else _] => destruct b end). Qed.

Definition accepts (key : string) (o : TuiOverlay) : Prop :=
  match o with
  | O_confirm _ _ _ c => String.eqb key "y" || is_enter key = true -> C c []
  | O_form form => is_enter key || String.eqb key ctrl_s = true -> C (fm_onSubmit form) (formValues (fm_fields form))
  | _ => True
  end.

Lemma W_form_key key form :
  overlay_ok (O_form form) -> accepts key (O_form form) -> W (form_key key form) tt false released.
Proof.
  cbn [overlay_ok accepts]. intros Hg Ha. unfold form_key. destruct (nth_Z _ _) as [f|]; [|apply W_stay].
  destruct (includes _ key); [by apply W_only, harmless_overlay|].
  destruct (includes _ key); [by apply W_only, harmless_overlay|].
  destruct (is_enter key) eqn:He.
  - destruct (_ =? _); [by apply W_submitForm; [|apply Ha] | by apply W_only, harmless_overlay].
  - destruct (String.eqb key ctrl_s) eqn:Hs; [by apply W_submitForm; [|apply Ha]|].
    apply W_only, harmless_overlay. cbn [overlays_ok overlay_ok]. by rewrite edit_key_submit.
Qed.

Lemma W_menu_key key title description options active :
  overlay_ok (O_menu title description options active) -> W (menu_key key title description options active) tt false released.
Proof.
  cbn [overlay_ok]. intros Hg. unfold menu_key.
  destruct (includes _ key); [by apply W_only, harmless_openMenu|].
  destruct (includes _ key); [by apply W_only, harmless_openMenu|].
  destruct (is_enter key); [|apply W_stay]. destruct (nth_Z options active) as [item|] eqn:Hi; [|apply W_stay].
  destruct (mo_disabled item); [apply W_only, harmless_message|]. apply W_only, harmless_run_menu.
  unfold nth_Z in Hi. destruct (_ <? _); [done|]. by eapply Forall_lookup_1 in Hg.
Qed.

Lemma W_overlay key o : overlay_ok o -> accepts key o -> W (handleOverlayInput key o) tt false released.
Proof.
  intros Hok Ha. unfold handleOverlayInput. destruct o as [title d options active|form|title d label c|title l tone copy|title]; try apply W_stay;
    (destruct (String.eqb key key_escape); [by apply W_only, harmless_overlay|]).
  - by apply W_menu_key.
  - by apply W_form_key.
  - cbn [accepts overlay_ok] in *. destruct (String.eqb key "n"); [by apply W_only, harmless_overlay|].
    destruct (String.eqb key "y" || is_enter key); [by apply W_run_command; [apply Ha|] | apply W_stay].
  - cbv zeta. destruct (_ && _); [|destruct (is_enter key); [by apply W_only, harmless_overlay | apply W_stay]].
    apply W_only, (harmless_compose (set_overlay _) (write _)); [by apply harmless_overlay | apply harmless_write].
Qed.

(** ** Keys while browsing *)
Lemma granted_session t n : state_ok t -> demo = false -> role_allows n (ds_session (t_snapshot t)) = true -> granted n.
Proof. intros (HF & _ & _) Hd Hr. right. split; [done|]. by exists (ds_session (t_snapshot t)). Qed.

Lemma W_if (b : bool) (m1 m2 : TM unit) :
  (b = true -> W m1 tt false released) -> (b = false -> W m2 tt false released) -> W (if b then m1 else m2) tt false released.
Proof. destruct b; auto. Qed.

Lemma W_kubeconfig id u : W (copyKubeconfig id u) tt false released.
Proof.
  unfold copyKubeconfig. apply W_perform_released, Wc_any_read; [done|]. intros r. wpm_step. unfold stdout. wpm_step; [done|].
  intros ? _. by wpm_step.
Qed.

Lemma W_entity_key key tab entity :
  (tab ∈ [Services; Models_] -> granted N_mutate) -> (tab ∈ admin_tabs -> granted N_administer) ->
  W (entity_key key tab entity) tt false released.
Proof.
  intros Hm Ha. unfold entity_key. cbv zeta.
  destruct tab; try (destruct entity as [[]|]; apply W_stay).
  - destruct entity as [[id state catalog| | | |]|]; try apply W_stay. specialize (Hm ltac:(set_solver)).
    destruct (String.eqb key "a"); [by apply W_only, (harmless_service true)|].
    destruct (String.eqb key "d"); [by apply W_only, (harmless_service false)|].
    destruct (is_enter key); [|apply W_stay]. destruct (ModuleState_enabled state ?? false)%js;
      [by apply W_only, (harmless_service false) | by apply W_only, (harmless_service true)].
  - specialize (Hm ltac:(set_solver)). destruct (String.eqb key "a"); [by apply W_only, harmless_addModel|].
    destruct (String.eqb key "d"); [|apply W_stay]. destruct entity as [[]|]; try apply W_stay. by apply W_only, harmless_openConfirm.
  - specialize (Ha ltac:(unfold admin_tabs; set_solver)). destruct (String.eqb key "a"); [by apply W_only, harmless_openForm|].
    destruct (_ || _); [destruct entity as [[]|]; try apply W_stay; by apply W_only, harmless_editUser|].
    destruct (String.eqb key "d"); [|apply W_stay]. destruct entity as [[]|]; try apply W_stay. by apply W_only, harmless_deleteUser.
  - specialize (Ha ltac:(unfold admin_tabs; set_solver)). destruct (String.eqb key "a"); [by apply W_only, harmless_openForm|].
    destruct (String.eqb key "d"); [|apply W_stay]. destruct entity as [[]|]; try apply W_stay. by apply W_only, harmless_openConfirm.
  - specialize (Ha ltac:(unfold admin_tabs; set_solver)). destruct entity as [[| | | |id u]|]; try apply W_stay.
    destruct (harmless_kubernetes id u Ha) as [Hedit Hrevoke].
    destruct (_ || _); [by apply W_only|]. destruct (String.eqb key "d"); [by apply W_only|].
    destruct (String.eqb key "c"); [apply W_kubeconfig | apply W_stay].
Qed.

Lemma W_browseAction key t : state_ok t -> W (browseAction demo key t) tt false released.
Proof.
  intros Ht. unfold browseAction. cbv zeta. destruct (negb (isTuiActionKey key)); [apply W_stay|].
  apply W_if; intros Hd; [apply W_only, harmless_message|]. set (tab := activeTab t).
  destruct (bool_decide (tab ∈ [Services; Models_]) && _) eqn:Hm; [apply W_only, harmless_message|].
  destruct (bool_decide (tab ∈ admin_tabs) && _) eqn:Ha; [apply W_only, harmless_message|].
  assert (Hmutate : tab ∈ [Services; Models_] -> granted N_mutate).
  { intros Htab. apply (granted_session t); [done | done |]. rewrite bool_decide_eq_true_2 in Hm by done.
    by apply negb_false_iff in Hm. }
  assert (Hadmin : tab ∈ admin_tabs -> granted N_administer).
  { intros Htab. apply (granted_session t); [done | done |]. rewrite bool_decide_eq_true_2 in Ha by done.
    by apply negb_false_iff in Ha. }
  destruct tab; try by apply W_entity_key.
  - apply W_only, harmless_license, Hadmin. unfold admin_tabs. set_solver.
  - apply W_only, harmless_hardware, Hadmin. unfold admin_tabs. set_solver.
Qed.

Lemma refresh_released : W refresh tt false released.
Proof. eapply swpm_mono; [|apply W_refresh]. by intros g [] r [-> _]. Qed.

Lemma W_browse key t : state_ok t -> W (handleBrowseInput demo key t) tt false released.
Proof.
  intros Ht. unfold handleBrowseInput.
  destruct (includes _ key); [apply W_only, harmless_finish|].
  destruct (String.eqb key "x").
  { apply W_if; intros _; [apply W_only, harmless_message | apply W_only, harmless_openConfirm; by left]. }
  destruct (includes _ key); [apply W_only, harmless_move_to_tab|].
  destruct (includes _ key); [apply W_only, harmless_move_to_tab|].
  destruct (includes _ key); [apply W_only, harmless_select|].
  destruct (includes _ key); [apply W_only, harmless_select|].
  destruct (String.eqb key "r"); [apply refresh_released | by apply W_browseAction].
Qed.

Lemma W_key key t :
  state_ok t -> (forall c values, accepted key t = Some (c, values) -> C c values) -> W (handle_key demo key t) tt false released.
Proof.
  intros Ht Hc. unfold handle_key. destruct (t_finished t); [apply W_stay|].
  destruct (String.eqb key ctrl_c); [apply W_only, harmless_finish|]. unfold accepted in Hc.
  destruct (t_overlay t) as [o|] eqn:Ho; [|by apply W_browse].
  apply W_overlay; [by destruct Ht as (_ & Hov & _); rewrite Ho in Hov|].
  destruct o; cbn [accepts]; try done; intros Hk; rewrite Hk in Hc; by apply Hc.
Qed.

(** ** The system *)
Definition holders (gs : list bool) : nat := length (List.filter id gs).
Definition task_ok (p : task) (g : bool) : Prop := swp tui_Inv tui_Rel tui_pre tui_asm p g (fun g o => g = false).

Definition sys_ok (s : TuiSystem) : Prop :=
  state_ok (sy_state s) /\
  exists gs, Forall2 task_ok (sy_tasks s) gs /\ holders gs = if t_loading (sy_state s) then 1%nat else 0%nat.

(** What one task sees: the others hold the lock [n] times. *)
Definition sees (n : nat) (g : bool) (t : TuiState) : Prop :=
  state_ok t /\ (n + (if g then 1 else 0))%nat = if t_loading t then 1%nat else 0%nat.

Lemma settle_sees n p g t :
  task_ok p g -> sees n g t -> exists g', task_ok (settle p t).1 g' /\ sees n g' (settle p t).2.
Proof.
  apply (swp_settle tui_Inv tui_Rel tui_pre tui_asm (sees n)).
  - intros g0 t0 [Ht Hn]. split; [done|]. intros ->. destruct (t_loading t0); [done | lia].
  - intros g0 t0 g' t' [_ Hn] [Ht' Hl]. split; [done|].
    destruct Hl as [[-> ->]|[(-> & Hl & -> & ->)|(-> & -> & ->)]]; [done | rewrite Hl in Hn; lia |].
    destruct (t_loading t0); lia.
Qed.

Lemma holders_app a b : holders (a ++ b)%list = (holders a + holders b)%nat.
Proof. unfold holders. by rewrite List.filter_app, length_app. Qed.
Lemma holders_one g : holders [g] = if g then 1%nat else 0%nat.
Proof. by destruct g. Qed.

(** A settled task that is done does not hold the lock. *)
Lemma keep_pending_ok p g :
  task_ok p g -> exists gs, Forall2 task_ok (keep_pending p) gs /\ holders gs = if g then 1%nat else 0%nat.
Proof.
  intros Hp. destruct p as [a|X op k].
  - cbn in Hp. subst g. by exists [].
  - exists [g]. split; [by constructor | apply holders_one].
Qed.

Lemma sys_spawn m s : sys_ok s -> W m tt false released -> sys_ok (spawn m s).
Proof.
  intros (Ht & gs & Hgs & Hn) Hm. unfold spawn.
  destruct (settle_sees (holders gs) (m tt) false (sy_state s)) as (g' & Hp & Hs).
  { eapply swp_mono; [|exact Hm]. by intros g a. }
  { split; [done | lia]. }
  destruct (settle (m tt) (sy_state s)) as [p t]. cbn [fst snd] in *. destruct Hs as [Ht' Hn'].
  destruct (keep_pending_ok p g' Hp) as (gp & Hgp & Hnp).
  split; [done|]. exists (gs ++ gp)%list. cbn. split; [by apply Forall2_app|]. rewrite holders_app, Hnp. exact Hn'.
Qed.

Definition reply_ok (l : tui_label) : Prop :=
  match l with L_reply op x => tui_asm _ op x | _ => True end.
Definition key_ok (s : TuiSystem) (l : tui_label) : Prop :=
  match l with L_key key _ => forall c values, accepted key (sy_state s) = Some (c, values) -> C c values | _ => True end.

Lemma sys_step s l s' : tui_step demo s l s' -> reply_ok l -> key_ok s l -> sys_ok s -> sys_ok s'.
Proof.
  intros Hstep Hr Hk Hs. destruct Hstep as [key stamp s|s|before after X op k x t p t' Hset].
  - unfold on_key. apply sys_spawn; [exact Hs|]. apply W_key; [apply Hs | exact Hk].
  - unfold on_timer. destruct (t_finished _); [done|]. apply sys_spawn; [done | apply refresh_released].
  - destruct Hs as (Ht & gs & Hgs & Hn). cbn [sy_tasks sy_state] in *.
    apply Forall2_app_inv_l in Hgs as (g1 & g2 & H1' & H2' & ->). apply Forall2_cons_inv_l in H2' as (g & g3 & Hp & H3' & ->).
    destruct Hp as [_ Hk'].
    destruct (settle_sees (holders g1 + holders g3) (k x) g t) as (g' & Hp' & Hs').
    { apply Hk'. exact Hr. }
    { split; [done|]. rewrite holders_app in Hn. change (holders (g :: g3)) with (holders ([g] ++ g3)%list) in Hn.
      rewrite holders_app, holders_one in Hn. lia. }
    rewrite Hset in Hp', Hs'. cbn [fst snd] in *. destruct Hs' as [Ht' Hn'].
    destruct (keep_pending_ok p g' Hp') as (gp & Hgp & Hnp).
    split; [done|]. exists (g1 ++ gp ++ g3)%list. cbn [sy_tasks sy_state]. split; [by repeat apply Forall2_app|].
    rewrite !holders_app, Hnp. lia.
Qed.
End specification.

(** ** Runs *)

(** The session a reply reports. *)
Definition reported (l : tui_label) (s : Session) : Prop :=
  match l with
  | L_reply op x =>
      (match op in cliE X return X -> Prop with
       | Api a => match a return res cli_exn (Reply (result_of a)) -> Prop with
                  | Platform session => fun r => exists v, r = Ok v /\ rp_value v = s
                  | _ => fun _ => False
                  end
       | _ => fun _ => False
       end) x
  | _ => False
  end.

(** The sessions known from a run, and the commands confirmed in it. *)
Definition known (snapshot : DashboardSnapshot) (h : list (TuiSystem * tui_label)) (s : Session) : Prop :=
  s = ds_session snapshot \/ exists e, e ∈ h /\ reported e.2 s.
Definition confirmed_in (h : list (TuiSystem * tui_label)) (c : Command) (values : dict string) : Prop :=
  exists e key stamp, e ∈ h /\ e.2 = L_key key stamp /\ accepted key (sy_state e.1) = Some (c, values).

(** A task that waits for the reply to a change. *)
Definition changes_next (p : task) : Prop :=
  calls_next (E := cliE) (S := TuiState) p (fun X op => match op with Api b => changing b = true | _ => False end).

Section runs.
Context `{Collation} `{Base64} `{Utf8Decoder} (demo : bool).

Lemma run_ok F C s h s' :
  tui_run demo s h s' -> sys_ok demo F C s -> (forall e, e ∈ h -> reply_ok F e.2 /\ key_ok C e.1 e.2) -> sys_ok demo F C s'.
Proof.
  induction 1 as [s|s l s1 h s2 Hstep Hrun IH]; [done|]. intros Hs Hall. apply IH.
  - destruct (Hall (s, l)) as [Hr Hk]; [by left|]. by eapply sys_step.
  - intros e He. apply Hall. by right.
Qed.

Lemma start_ok F C snapshot : F (ds_session snapshot) -> sys_ok demo F C (start snapshot).
Proof.
  intros HF. split.
  - split; [exact HF|]. split; [done|]. intros tab _. cbn. unfold in_bounds. pose proof (selectableCount_nonneg tab snapshot). lia.
  - by exists [].
Qed.

(** Everything a run learns is known, everything it accepts is confirmed. *)
Lemma run_sys_ok snapshot h s :
  tui_run demo (start snapshot) h s -> sys_ok demo (known snapshot h) (confirmed_in h) s.
Proof.
  intros Hrun. eapply run_ok; [exact Hrun | apply start_ok; by left |].
  intros [s0 l] He. cbn. split.
  - destruct l as [| |X op x]; cbn; try done. destruct op as [a| | | | | | | | | | | | | | |]; cbn; try done.
    destruct a as [[]| | | |]; cbn; try done. intros v ->. right. exists (s0, L_reply (Api (Platform session)) (Ok v)). split; [done|].
    cbn. by exists v.
  - destruct l as [key stamp| |]; cbn; try done. intros c values Ha. by exists (s0, L_key key stamp), key, stamp.
Qed.

Lemma pending_task F C s before a (k : res cli_exn (Reply (result_of a)) -> task) after :
  sys_ok demo F C s -> sy_tasks s = (before ++ Await (Call (Api a) : tuiE _) k :: after)%list ->
  exists g g1 g2, (tui_pre demo F C) _ g (Api a) /\ Forall2 (task_ok demo F C) before g1 /\ Forall2 (task_ok demo F C) after g2 /\
    (holders g1 + (if g then 1 else 0) + holders g2)%nat = if t_loading (sy_state s) then 1%nat else 0%nat.
Proof.
  intros (_ & gs & Hgs & Hn) Heq. rewrite Heq in Hgs.
  apply Forall2_app_inv_l in Hgs as (g1 & g2 & Hb & Hc & ->). apply Forall2_cons_inv_l in Hc as (g & g3 & Hp & Ha & ->).
  exists g, g1, g3. destruct Hp as [Hp _]. split; [exact Hp|]. split; [done|]. split; [done|].
  rewrite holders_app in Hn. change (holders (g :: g3)) with (holders ([g] ++ g3)%list) in Hn. rewrite holders_app, holders_one in Hn. lia.
Qed.

(** C10: what the interface may send. Whatever keys arrive and whatever the server answers,
    in any interleaving with refreshes, a request that changes the appliance is on its way
    only for a command the user confirmed while it was shown; it is the request that command
    stands for, with the values entered; a session the server reported before has the role
    the command needs; and never in the offline demo. *)
Theorem tui_authorised snapshot h s before a k after :
  tui_run demo (start snapshot) h s ->
  sy_tasks s = (before ++ Await (Call (Api a) : tuiE _) k :: after)%list -> changing a = true ->
  demo = false /\
  exists c values session, confirmed_in h c values /\ command_call c values a /\
    known snapshot h session /\ role_allows (command_need c) session = true.
Proof.
  intros Hrun Heq Hc. apply run_sys_ok in Hrun.
  destruct (pending_task _ _ _ _ _ _ _ Hrun Heq) as (g & _ & _ & [Hp _] & _).
  destruct (Hp Hc) as (c & values & Hconf & Hg & Hcall). destruct Hg as [Hnone|(Hd & session_ & Hk & Hr)].
  - by destruct c.
  - split; [done|]. by exists c, values, session_.
Qed.

(** C11: one change at a time. In every state of every run at most one task is waiting for a
    changing request, and then the interface is loading: no refresh or other operation can
    start; and when no task is left the interface is free again. *)
Theorem tui_exclusive snapshot h s :
  tui_run demo (start snapshot) h s ->
  (forall before a k after, sy_tasks s = (before ++ Await (Call (Api a) : tuiE _) k :: after)%list -> changing a = true ->
     t_loading (sy_state s) = true /\
     forall p : task, p ∈ (before ++ after)%list -> ~ changes_next p) /\
  (sy_tasks s = [] -> t_loading (sy_state s) = false).
Proof.
  intros Hrun. apply run_sys_ok in Hrun. split.
  - intros before a k after Heq Hc. destruct (pending_task _ _ _ _ _ _ _ Hrun Heq) as (g & g1 & g2 & [_ Hg] & Hb & Ha & Hn).
    rewrite (Hg Hc) in Hn. destruct (t_loading (sy_state s)); [|lia]. split; [done|]. intros p Hp Hcall.
    assert (Hfree : forall l gs, Forall2 (task_ok demo (known snapshot h) (confirmed_in h)) l gs -> holders gs = 0%nat -> p ∈ l -> False).
    { intros l gs Hl Hz Hin. induction Hl as [|q g' l gs Hq Hl IH]; [by apply elem_of_nil in Hin|].
      destruct g'; [done|]. apply elem_of_cons in Hin as [->|Hin]; [|by apply IH].
      destruct q as [|X op k']; [done|]. destruct op as [X op|X f]; [|done]. cbn in Hcall. destruct op; try done.
      destruct Hq as [[_ Hq] _]. specialize (Hq Hcall). done. }
    apply elem_of_app in Hp as [Hp|Hp]; [eapply (Hfree before g1); [done | lia | done] | eapply (Hfree after g2); [done | lia | done]].
  - intros Hnil. destruct Hrun as (_ & gs & Hgs & Hn). rewrite Hnil in Hgs. inversion Hgs; subst. cbn in Hn. by destruct (t_loading _).
Qed.

Lemma activeTab_available t : activeTab t ∈ availableTabs (t_snapshot t).
Proof.
  unfold activeTab. destruct (_ <? _); [unfold availableTabs; set_solver|].
  destruct (availableTabs (t_snapshot t) !! Z.to_nat (t_tabIndex t)) as [tab|] eqn:Ht; cbn [nullish].
  - by eapply list_elem_of_lookup_2.
  - unfold availableTabs. set_solver.
Qed.

(** The selection. In every state of every run the selected row of every tab shown is one
    of its rows, or the first when it has none: a key always acts on an entity of the
    current snapshot if the tab lists any. *)
Theorem tui_selection snapshot h s :
  tui_run demo (start snapshot) h s ->
  let t := sy_state s in
  (forall tab, tab ∈ availableTabs (t_snapshot t) -> in_bounds (t_selection t tab) (selectableCount tab (t_snapshot t))) /\
  (selectableEntities (activeTab t) (t_snapshot t) <> [] ->
   exists e, selectedEntity t = Some e /\ e ∈ selectableEntities (activeTab t) (t_snapshot t)).
Proof.
  intros Hrun. cbv zeta. apply run_sys_ok in Hrun as ((_ & _ & Hsel) & _). generalize dependent (sy_state s). clear s. intros t Hsel.
  split; [exact Hsel|].
  intros Hne. specialize (Hsel _ (activeTab_available t)). unfold selectedEntity, activeSelection.
  unfold in_bounds, selectableCount in Hsel. destruct (Z.ltb_spec (t_selection t (activeTab t)) 0); [lia|].
  destruct (selectableEntities (activeTab t) (t_snapshot t) !! Z.to_nat (t_selection t (activeTab t))) as [e|] eqn:He.
  - exists e. split; [done|]. by eapply list_elem_of_lookup_2.
  - apply lookup_ge_None_1 in He. assert (length (selectableEntities (activeTab t) (t_snapshot t)) <> 0%nat) by (by intros Hz%length_zero_iff_nil). lia.
Qed.
End runs.

(** ** A run: three keys that enable a service *)
#[local] Instance plain_collation : Collation :=
  fun a b => match String.compare a b with Lt => -1 | Eq => 0 | Gt => 1 end.
#[local] Instance plain_base64 : Base64 := fun s => s.
#[local] Instance ascii_utf8 : Utf8Decoder := fun l => Some (String.string_of_list_ascii (map unit_of l)).

Definition demo_snapshot : DashboardSnapshot := {|
  ds_session := mk_Session "s" "u" ["magicstick-admin"] true "mode" [];
  ds_appliance := mk_Appliance None None None;
  ds_modules := mk_ModulesPayload [("svc", mk_ModuleState (Some false) (Some "moduleactivation") None None [])] None;
  ds_instances := mk_InstancesPayload [];
  ds_models := mk_ModelsPayload None [] [] (mk_ComputeTargetsPayload None None None None []) None [];
  ds_status := mk_SystemStatusPayload None None None None None None None None;
  ds_settings := None; ds_users := None; ds_apiAccess := None; ds_kubernetesAccess := None;
  ds_license := None; ds_licenseError := None; ds_loadedAt := 0
|}.

Definition press (s : TuiSystem) (key : string) : TuiSystem := on_key false key "" s.
Definition demo_system : TuiSystem := foldl press (start demo_snapshot) ["l"; "a"; "y"].

Lemma pressed keys s : exists h, tui_run false s h (foldl press s keys).
Proof.
  revert s. induction keys as [|key keys IH]; intros s; [by exists []; constructor|].
  destruct (IH (press s key)) as [h Hh]. exists ((s, L_key key "") :: h).
  cbn [foldl]. exact (run_step _ s _ (press s key) h _ (step_key _ key "" s) Hh).
Qed.

Definition pending_api (l : list task) : option api_call :=
  match l with [Await op _] => match op with Call (Api a) => Some a | _ => None end | _ => None end.
Lemma pending_api_at l a : pending_api l = Some a -> exists k, l = [Await (Call (Api a) : tuiE _) k].
Proof.
  destruct l as [|[x|X op k] [|]]; try done. cbn. destruct op as [X op|]; [|done]. destruct op; try done.
  intros [= ->]. by eexists.
Qed.

Lemma tui_authorised_witness :
  pending_api (sy_tasks demo_system) = Some (Runtime (enableModule "svc" [])) /\
  exists h c values session, confirmed_in h c values /\ command_call c values (Runtime (enableModule "svc" [])) /\
    known demo_snapshot h session /\ role_allows (command_need c) session = true.
Proof.
  assert (Hp : pending_api (sy_tasks demo_system) = Some (Runtime (enableModule "svc" []))) by (vm_compute; reflexivity).
  split; [exact Hp|]. destruct (pending_api_at _ _ Hp) as [k Hk], (pressed ["l"; "a"; "y"] (start demo_snapshot)) as [h Hh].
  exists h. exact (proj2 (tui_authorised false demo_snapshot h demo_system [] _ k [] Hh Hk eq_refl)).
Defined.

Lemma tui_exclusive_witness : t_loading (sy_state demo_system) = true.
Proof.
  assert (Hp : pending_api (sy_tasks demo_system) = Some (Runtime (enableModule "svc" []))) by (vm_compute; reflexivity).
  destruct (pending_api_at _ _ Hp) as [k Hk], (pressed ["l"; "a"; "y"] (start demo_snapshot)) as [h Hh].
  exact (proj1 (proj1 (tui_exclusive false demo_snapshot h demo_system Hh) [] _ k [] Hk eq_refl)).
Defined.

Lemma tui_selection_witness :
  activeTab (sy_state demo_system) = Services /\
  exists e, selectedEntity (sy_state demo_system) = Some e /\ e ∈ selectableEntities Services demo_snapshot.
Proof.
  assert (Ht : activeTab (sy_state demo_system) = Services) by (vm_compute; reflexivity).
  assert (Hs : selectableEntities (activeTab (sy_state demo_system)) (t_snapshot (sy_state demo_system)) = selectableEntities Services demo_snapshot)
    by (vm_compute; reflexivity).
  split; [exact Ht|]. destruct (pressed ["l"; "a"; "y"] (start demo_snapshot)) as [h Hh].
  rewrite <- Hs. apply (tui_selection false demo_snapshot h demo_system Hh). vm_compute. discriminate.
Defined.
