(* ===== verification/TuiScreen.v ===== *)
(** * The terminal interface: what fits on the screen

    Every screen has at most the terminal's rows, and no row is wider than the columns used
    ([screen_fits]); the banner is seven rows of exactly its width ([banner_dimensions]);
    terminal input splits into keys without loss ([keys_roundtrip]); typing keeps the fields
    of a form well formed ([form_editing]). *)

From S2P Require Import Prelude Js Number Json Prog Shared Contracts DashboardCore ApiClient Cli CliAuth.
From S2P Require Import CliFiles CliCommands Banner Tui TuiMachine TuiProps.

Local Open Scope string_scope.
Local Open Scope js_scope.
Local Open Scope Z_scope.

(** ** Lines as tokens *)
#[local] Arguments Ascii.eqb : simpl never.

(** A token as [line_tokens] produces it. *)
Definition token_ok (t : Token) : Prop :=
  match t with T_sgr s => sgr s = Some "" | T_char c => Ascii.eqb c ESC = false end.

Definition sgr_char (c : ascii) : bool := is_digit c || Ascii.eqb c ";".

(** What follows a sequence is what is left. *)
Lemma sgr_shape s r :
  sgr s = Some r <-> exists p, s = String ESC ("[" +:+ p +:+ "m" +:+ r) /\ sforall sgr_char p = true.
Proof.
  assert (Hd : forall p r, sforall sgr_char p = true -> drop_while sgr_char (p +:+ String "m" r) = String "m" r).
  { induction p as [|c p IH]; intros r0 Hp; [done|]. cbn in *. apply andb_prop in Hp as [-> Hp]. by apply IH. }
  assert (Hs : forall q, exists p, q = p +:+ drop_while sgr_char q /\ sforall sgr_char p = true).
  { induction q as [|c q IH]; [by exists ""|]. cbn. destruct (sgr_char c) eqn:Hc; [|by exists ""].
    destruct IH as (p & Hq & Hp). exists (String c p). cbn. by rewrite <- Hq, Hc. }
  unfold sgr. split.
  - destruct s as [|e s]; [done|]. destruct s as [|b s]; [done|].
    destruct (Ascii.eqb_spec b "["%char) as [->|Hb].
    2: { destruct b as [[] [] [] [] [] [] [] []]; try done. }
    destruct (Ascii.eqb_spec e ESC) as [->|]; [|done]. destruct (Hs s) as (p & Hq & Hp).
    change (fun c => is_digit c || Ascii.eqb c ";") with sgr_char.
    destruct (drop_while sgr_char s) as [|c rest]; [done|].
    destruct (Ascii.eqb_spec c "m"%char) as [->|Hc]; [intros [= <-]; exists p; by rewrite Hq|].
    destruct c as [[] [] [] [] [] [] [] []]; done.
  - intros (p & -> & Hp). cbn [String.append]. rewrite (proj2 (Ascii.eqb_eq ESC ESC) eq_refl).
    change (fun c => is_digit c || Ascii.eqb c ";") with sgr_char. by rewrite (Hd p r Hp).
Qed.

(** A sequence at the start of a line is one of the two parts of the line. *)
Lemma sgr_split s r : sgr s = Some r ->
  let p := take_str (String.length s - String.length r) s in s = p +:+ r /\ sgr p = Some "".
Proof.
  intros (p & -> & Hp)%sgr_shape. cbv zeta.
  assert (Hl : String ESC ("[" +:+ p +:+ "m" +:+ r) = String ESC ("[" +:+ p +:+ "m") +:+ r) by (cbn; by rewrite str_app_assoc).
  rewrite Hl, str_length_app, Nat.add_sub.
  assert (Ht : forall a b, take_str (String.length a) (a +:+ b) = a).
  { induction a as [|c a IH]; intros b; [by destruct b | cbn; by rewrite IH]. }
  rewrite Ht. split; [done|]. apply sgr_shape. exists p. by split.
Qed.

Lemma sgr_shorter s r : sgr s = Some r -> (String.length r < String.length s)%nat.
Proof. intros (p & -> & _)%sgr_shape. cbn. rewrite !str_length_app. cbn. lia. Qed.

Lemma sgr_app p r : sgr p = Some "" -> sgr (p +:+ r) = Some r.
Proof.
  intros (q & -> & Hq)%sgr_shape. apply sgr_shape. exists q. split; [|done]. cbn. by rewrite str_app_assoc.
Qed.

Lemma tokens_ok fuel s : Forall token_ok (tokens fuel s).
Proof.
  revert s. induction fuel as [|f IH]; intros s; cbn [tokens]; [constructor|]. destruct s as [|c r]; [constructor|].
  destruct (sgr (String c r)) as [r'|] eqn:Hs.
  - constructor; [|apply IH]. exact (proj2 (sgr_split _ _ Hs)).
  - destruct (Ascii.eqb c ESC) eqn:Hc; [apply IH|]. constructor; [exact Hc | apply IH].
Qed.

Definition tokens_text (l : list Token) : string := join "" (map token_text l).
Definition token_width (t : Token) : nat := match t with T_sgr _ => 0 | T_char _ => 1 end.
Definition tokens_width (l : list Token) : nat := foldr (fun t n => token_width t + n)%nat 0%nat l.

Lemma tokens_text_cons t l : tokens_text (t :: l) = token_text t +:+ tokens_text l.
Proof. unfold tokens_text. cbn. destruct (map token_text l); [by rewrite str_app_nil_r | done]. Qed.

(** Removing the sequences leaves one column per character. *)
Lemma strip_tokens l fuel :
  Forall token_ok l -> (String.length (tokens_text l) <= fuel)%nat ->
  String.length (strip_sgr fuel (tokens_text l)) = tokens_width l.
Proof.
  intros Hl. revert fuel. induction Hl as [|t l Ht Hl IH]; intros fuel Hf; [by destruct fuel|].
  rewrite tokens_text_cons in *. destruct t as [s|c]; cbn [token_text token_ok tokens_width foldr token_width] in *.
  - rewrite str_length_app in Hf. pose proof (sgr_shorter _ _ Ht) as Hlen. cbn in Hlen.
    destruct fuel as [|fuel]; [lia|]. cbn [strip_sgr]. pose proof (sgr_app s (tokens_text l) Ht) as Hs.
    destruct (s +:+ tokens_text l) eqn:Hsl; [destruct s; cbn in Hlen; [lia | done]|]. rewrite Hs. apply IH. lia.
  - cbn [String.append String.length] in *. destruct fuel as [|fuel]; [lia|]. cbn [strip_sgr].
    destruct (sgr (String c (tokens_text l))) as [r|] eqn:Hs.
    + apply sgr_shape in Hs as (p & Heq & _). injection Heq as -> _. by rewrite (proj2 (Ascii.eqb_eq ESC ESC) eq_refl) in Ht.
    + cbn [String.length]. rewrite IH by lia. done.
Qed.

Lemma visibleLength_tokens l : Forall token_ok l -> visibleLength (tokens_text l) = tokens_width l.
Proof. intros Hl. unfold visibleLength. by apply strip_tokens. Qed.

Lemma clip_tokens n l : Forall token_ok l ->
  exists l', clip n l = tokens_text l' /\ Forall token_ok l' /\ (tokens_width l' <= n)%nat.
Proof.
  intros Hl. revert n. induction Hl as [|t l Ht Hl IH]; intros n; [by exists []; split_and!; [|constructor|cbn; lia]|].
  destruct t as [s|c]; cbn [clip].
  - destruct (IH n) as (l' & -> & Hl' & Hw). exists (T_sgr s :: l'). rewrite tokens_text_cons. by split_and!; [|constructor|].
  - destruct n as [|n]; [apply IH|]. destruct (IH n) as (l' & -> & Hl' & Hw). exists (T_char c :: l').
    rewrite tokens_text_cons. split_and!; [done | by constructor | change (S (tokens_width l') <= S n)%nat; lia].
Qed.

Lemma clipTerminalLine_width value columns : Z.of_nat (visibleLength (clipTerminalLine value columns)) <= Z.max 0 columns.
Proof.
  unfold clipTerminalLine, line_tokens. destruct (clip_tokens (Z.to_nat (Z.max 0 columns)) _ (tokens_ok (String.length value) value)) as (l & -> & Hl & Hw).
  rewrite visibleLength_tokens by done. lia.
Qed.

(** ** The screen *)
Section screen.
Context `{Collation} `{Sin}.

Definition not_newline (c : ascii) : bool := negb (Ascii.eqb c (unit_of 10)).

Lemma split_prefix c a s : sforall (fun x => negb (Ascii.eqb x c)) a = true ->
  split c (a +:+ s) = match split c s with h :: t => (a +:+ h) :: t | [] => [a] end.
Proof.
  intros Ha. induction a as [|x a IH]; cbn.
  - by destruct (split c s) eqn:E; [by destruct s as [|y s]; cbn in E; [|destruct (Ascii.eqb c y); [|destruct (split c s)]]|].
  - cbn in Ha. apply andb_prop in Ha as [Hx Ha]. rewrite Ascii.eqb_sym. apply negb_true_iff in Hx. rewrite Hx, IH by done.
    by destruct (split c s).
Qed.

Lemma split_lines rows : rows <> [] -> Forall (fun r => sforall not_newline r = true) rows ->
  split (unit_of 10) (lines rows) = rows.
Proof.
  intros Hne Hall. induction Hall as [|r rows Hr Hall IH]; [done|]. destruct rows as [|r' rows].
  - cbn. rewrite <- (str_app_nil_r r) at 1. rewrite split_prefix by exact Hr. cbn. by rewrite str_app_nil_r.
  - change (lines (r :: r' :: rows)) with (r +:+ String (unit_of 10) (lines (r' :: rows))).
    rewrite split_prefix by exact Hr. cbn [split]. rewrite Ascii.eqb_refl. rewrite IH by done. by rewrite str_app_nil_r.
Qed.

(** The screen fits the terminal. However long the names, messages and forms the server
    sends, the rendered screen is made of at most the terminal's rows, each, its color
    sequences aside, within the terminal's width less one; and these are its rows on the
    terminal, unless a text shown has newlines of its own. *)
Theorem screen_fits snapshot tabIndex width height color state text :
  0 < height -> renderTui snapshot tabIndex width height color state = Ok text ->
  exists rows, text = lines rows /\ Z.of_nat (length rows) <= height /\
    Forall (fun row => Z.of_nat (visibleLength row) <= Z.max 1 (width - 1)) rows /\
    (Forall (fun row => sforall not_newline row = true) rows -> split (unit_of 10) text = rows).
Proof.
  intros Hh. unfold renderTui, render_rows.
  destruct (match rs_overlay state with Some _ => _ | None => _ end) as [all|]; cbn [res_bind]; [|done].
  destruct (match rs_overlay state with Some _ => _ | None => _ end) as [rawBody help]. cbv zeta.
  match goal with |- context [take_Z height ?l] => assert (Hne : length l <> 0%nat) by (rewrite !length_app; cbn; lia); generalize dependent l end.
  intros l Hne [= <-]. eexists. split; [done|]. unfold take_Z. rewrite length_map, length_take. split_and!; [lia| |].
  - apply Forall_forall. intros row (line & -> & _)%list_elem_of_fmap.
    etransitivity; [apply clipTerminalLine_width | unfold usableColumns; lia].
  - apply split_lines. intros Hnil%(f_equal length). rewrite length_map, length_take in Hnil. cbn in Hnil. lia.
Qed.
End screen.

(** ** The banner *)
Definition visible (c : ascii) : bool := negb (Ascii.eqb c ESC).
Definition plain (s : string) : Prop := sforall visible s = true.

Lemma plain_app a b : plain a -> plain b -> plain (a +:+ b).
Proof. unfold plain. rewrite sforall_app. by intros -> ->. Qed.
Lemma plain_take n s : plain s -> plain (take_str n s).
Proof. apply sforall_take. Qed.
Lemma plain_join sep l : plain sep -> Forall plain l -> plain (join sep l).
Proof. apply sforall_join. Qed.
Lemma plain_repeat n s : plain s -> plain (repeat_str n s).
Proof. apply sforall_repeat. Qed.
Lemma plain_padEnd n s : plain s -> plain (padEnd n s).
Proof. intros Hs. apply plain_app; [done|]. by induction (n - String.length s)%nat. Qed.
Lemma plain_center s w : plain s -> plain (center s w).
Proof. intros Hs. apply plain_padEnd, plain_app; [by apply plain_repeat | done]. Qed.
Lemma plain_cyclic d l i : plain d -> Forall plain l -> plain (cyclic d l i).
Proof.
  intros Hd Hl. unfold cyclic. destruct (l !! _) as [s|] eqn:Hs; [|done]. by eapply Forall_lookup_1 in Hl.
Qed.

Lemma plain_Z z : plain (String_of_Z z).
Proof. eapply sforall_impl; [|apply String_of_Z_chars]. intros c. by destruct c as [[] [] [] [] [] [] [] []]. Qed.

Create HintDb plain.
#[local] Hint Resolve plain_app plain_take plain_join plain_repeat plain_center plain_cyclic plain_Z : plain.
#[local] Hint Extern 1 (plain _) => (vm_compute; reflexivity) : plain.
#[local] Hint Constructors Forall : plain.

Definition row_ok (w : nat) (row : list cell) : Prop := length row = w /\ Forall (fun c => visible c.1 = true) row.
Definition grid_ok (w : nat) (g : grid) : Prop := length g = BANNER_HEIGHT /\ Forall (row_ok w) g.

Lemma put_char_ok w x y c tone g : visible c = true -> grid_ok w g -> grid_ok w (put_char x y c tone g).
Proof.
  intros Hc [Hl Hg]. unfold put_char. destruct (_ && _); [|done]. split; [etrans; [apply length_alter | done]|].
  apply Forall_alter; [done|]. intros row _ [Hr Hvis]. split; [etrans; [apply length_insert | done]|]. by apply Forall_insert.
Qed.

Lemma put_ok w x y text tone g : plain text -> grid_ok w g -> grid_ok w (put x y text tone g).
Proof.
  revert x g. induction text as [|c text IH]; intros x g Ht Hg; [done|]. unfold plain in Ht. cbn in Ht. apply andb_prop in Ht as [Hc Ht].
  cbn. apply IH; [done|]. by apply put_char_ok.
Qed.

Lemma sprite_ok w x y l tone g : Forall plain l -> grid_ok w g -> grid_ok w (sprite x y l tone g).
Proof.
  intros Hl. revert y g. induction Hl as [|s l Hs Hl IH]; intros y g Hg; [done|]. cbn. apply IH. by apply put_ok.
Qed.

Lemma draw_stars_ok w columns elapsedMs seed g : grid_ok w g -> grid_ok w (draw_stars columns elapsedMs seed g).
Proof.
  unfold draw_stars. revert g. induction (seq 0 _) as [|i l IH]; intros g Hg; [done|]. cbn. apply IH. unfold draw_star. cbv zeta.
  apply put_ok; [|done]. by repeat destruct (_ =? _).
Qed.

Lemma fan_rows_plain compact powered step : Forall plain (fan_rows compact powered step).
Proof.
  unfold fan_rows. cbv zeta. destruct compact, powered; cbn [map]; repeat constructor; auto 12 with plain.
Qed.

Lemma card_plain compact powered step : Forall plain (card_lines compact powered step).
Proof.
  unfold card_lines. cbv zeta. constructor; [unfold repeat_char; auto 10 with plain|].
  apply Forall_app. split.
  - apply Forall_fmap. eapply Forall_impl; [apply fan_rows_plain|]. intros s Hs. cbv beta. auto 10 with plain.
  - repeat constructor. assert (Hx : plain (if powered then if Z.rem step 2 =? 0 then "|+|*" else "|*|+" else "||||"))
      by (by destruct powered, (Z.rem step 2 =? 0)).
    unfold repeat_char. auto 10 with plain.
Qed.

Lemma case_plain w card : Forall plain (case_lines w card).
Proof.
  unfold case_lines, repeat_char. constructor; [auto 10 with plain|]. apply Forall_app. split; [|repeat constructor; auto 10 with plain].
  apply Forall_fmap, Forall_true. intros s. cbv beta. auto 10 with plain.
Qed.

Lemma stick_plain w : Forall plain (stick_lines w).
Proof. unfold stick_lines, repeat_char. repeat constructor; auto 10 with plain. Qed.

Lemma visitor_plain v : Forall plain (visitor_art v) /\ Forall plain (visitor_compactArt v).
Proof. destruct v; cbn; split; repeat constructor. Qed.

(** Rows as tokens. *)
Lemma plain_row_tokens row : Forall (fun c => visible c.1 = true) row ->
  exists l, plain_row row = tokens_text l /\ Forall token_ok l /\ tokens_width l = length row.
Proof.
  induction 1 as [|[c tone] row Hc Hrow IH]; [by exists []|]. cbn [plain_row]. destruct IH as (l & -> & Hl & Hw).
  exists (T_char c :: l). rewrite tokens_text_cons. split_and!; [done | constructor; [by apply negb_true_iff | done] | cbn; by f_equal].
Qed.

Lemma color_row_tokens previous row : Forall (fun c => visible c.1 = true) row ->
  exists l, color_row previous row = tokens_text l /\ Forall token_ok l /\ tokens_width l = length row.
Proof.
  intros Hrow. revert previous. induction Hrow as [|[c tone] row Hc Hrow IH]; intros previous.
  { exists [T_sgr (sgr_of "0")]. by repeat constructor. }
  destruct (IH (Some tone)) as (l & Hl1 & Hl2 & Hl3). cbn [color_row]. rewrite Hl1.
  assert (Hok : token_ok (T_char c)) by by apply negb_true_iff.
  case_bool_decide; [exists (T_char c :: l) | exists (T_sgr (sgr_of "0") :: T_sgr (tones tone) :: T_char c :: l)]; rewrite !tokens_text_cons.
  - split_and!; [done | by constructor | cbn; by f_equal].
  - split_and!; [by rewrite str_app_assoc | by destruct tone; repeat (constructor; [done|]) | cbn; by f_equal].
Qed.

Section banner.
Context `{Sin}.

Lemma status_plain elapsedMs seed : plain (bs_status (bannerScene elapsedMs seed)).
Proof. unfold bannerScene. cbv zeta. cbn [bs_status]. by repeat match goal with |- context [if ?b then _ else _] => destruct b end. Qed.

Lemma banner_grid_ok columns elapsedMs seed : grid_ok (Z.to_nat columns) (banner_grid columns elapsedMs seed).
Proof.
  unfold banner_grid. cbv zeta. pose proof (status_plain elapsedMs seed) as Hstatus.
  generalize dependent (bannerScene elapsedMs seed). intros scene Hstatus. set (g := sprite _ 2 (map _ _) C_readout _).
  assert (Hg : grid_ok (Z.to_nat columns) g).
  { apply sprite_ok.
    - apply Forall_fmap. repeat constructor; cbv beta; apply plain_center; [exact Hstatus | by apply plain_app, eq_refl; apply plain_Z ..].
    - apply sprite_ok; [apply fan_rows_plain|]. apply sprite_ok; [apply card_plain|]. apply sprite_ok; [apply case_plain|].
      apply put_ok; [done|]. apply put_ok; [done|]. apply sprite_ok; [apply stick_plain|]. apply draw_stars_ok.
      split; [done|]. apply Forall_replicate. split; [by rewrite length_replicate | by apply Forall_replicate]. }
  clearbody g. destruct (bs_visitor _) as [v|]; [|done]. unfold draw_visitor. cbv zeta. destruct (_ <=? _); [|done].
  apply sprite_ok; [|done]. by destruct (negb _ && negb _), (visitor_plain v).
Qed.

(** The banner. At any time, for any seed and any values of the sine, the banner is seven
    rows which take exactly the given columns on the terminal, colored or not: no sprite
    reaches outside the grid or breaks a row. *)
Theorem banner_dimensions width elapsedMs color seed :
  length (renderBanner width elapsedMs color seed) = BANNER_HEIGHT /\
  Forall (fun row => Z.of_nat (visibleLength row) = Z.max 1 width) (renderBanner width elapsedMs color seed).
Proof.
  destruct (banner_grid_ok (Z.max 1 width) elapsedMs seed) as [Hl Hg]. unfold renderBanner. rewrite length_map.
  split; [done|]. apply Forall_fmap. eapply Forall_impl; [exact Hg|]. intros row [Hw Hrow]. cbn.
  destruct color;
    [destruct (color_row_tokens None row Hrow) as (l & -> & Hok & Hwidth) | destruct (plain_row_tokens row Hrow) as (l & -> & Hok & Hwidth)];
    rewrite visibleLength_tokens by done;
    replace (tokens_width l) with (Z.to_nat (Z.max 1 width)) by (etrans; [symmetry; exact Hw | symmetry; exact Hwidth]); lia.
Qed.
End banner.

(** ** Keys *)

(** The keys of a chunk. Whatever bytes a terminal delivers together, the keys handled one
    after the other are exactly those bytes: none is lost, repeated or reordered, and each
    key is one character, one three-character escape sequence or the whole of a chunk of
    printable characters. *)
Theorem keys_roundtrip value t :
  join "" (chunk_keys value t) = value /\
  Forall (fun k => k = value /\ sforall printable value = true \/ String.length k = 1%nat \/ startsWith (String ESC "[") k = true /\ String.length k = 3%nat) (chunk_keys value t).
Proof.
  assert (Hsplit : forall n value, (String.length value <= n)%nat ->
    join "" (splitTerminalInput value) = value /\
    Forall (fun k => String.length k = 1%nat \/ startsWith (String ESC "[") k = true /\ String.length k = 3%nat) (splitTerminalInput value)).
  { assert (Hjoin : forall k l, join "" (k :: l) = k +:+ join "" l) by (intros k [|]; cbn; [by rewrite str_app_nil_r | done]).
    induction n as [|n IH]; intros v Hv; [by destruct v; [split; [|constructor] | cbn in Hv; lia]|]. destruct v as [|c [|b [|k r]]]; cbn [splitTerminalInput].
    - by split; [|constructor].
    - split; [done|]. repeat constructor.
    - split; [done|]. repeat constructor.
    - cbn in Hv. destruct (Ascii.eqb c ESC && Ascii.eqb b "[") eqn:Hc.
      + apply andb_prop in Hc as [->%Ascii.eqb_eq ->%Ascii.eqb_eq]. destruct (IH r) as [H1 H2]; [lia|]. rewrite Hjoin, H1.
        split; [done|]. constructor; [by right | done].
      + destruct (IH (String b (String k r))) as [H1 H2]; [cbn; lia|]. cbn [splitTerminalInput] in H1, H2. rewrite Hjoin, H1. split; [done|]. constructor; [by left | done]. }
  unfold chunk_keys. destruct (_ && _ && _) eqn:Hp; [apply andb_prop in Hp as [_ Hp]; split; [done|]; constructor; [by left | constructor]|].
  destruct (Hsplit _ value (le_n _)) as [H1 H2]. split; [done|]. eapply Forall_impl; [exact H2|]. intros k Hk. by right.
Qed.

(** ** Forms *)

(** A field as the program builds it: a choice holds one of its choices, if it offers any;
    other fields hold printable characters only. *)
Definition field_ok (f : FormField) : Prop :=
  match ff_kind f with
  | F_choice => ff_choices f = [] \/ ff_value f ∈ map ch_value (ff_choices f)
  | _ => sforall printable (ff_value f) = true
  end.

Lemma field_ok_value v f : field_ok (with_value v f) <->
  match ff_kind f with F_choice => ff_choices f = [] \/ v ∈ map ch_value (ff_choices f) | _ => sforall printable v = true end.
Proof. done. Qed.

Lemma next_choice_ok f d : ff_choices f <> [] -> next_choice f d ∈ map ch_value (ff_choices f) \/ next_choice f d = ff_value f.
Proof.
  intros Hne. unfold next_choice. destruct (nth_Z _ _) as [c|] eqn:Hc; [|by right]. left. cbn.
  unfold nth_Z in Hc. destruct (_ <? _); [done|]. apply list_elem_of_fmap. exists c. split; [done|]. by eapply list_elem_of_lookup_2.
Qed.

Lemma sfilter_ok f s : sforall f (sfilter f s) = true.
Proof. induction s as [|c s IH]; [done|]. cbn. destruct (f c) eqn:Hc; [cbn; by rewrite Hc | done]. Qed.
Lemma drop_last_ok f s : sforall f s = true -> sforall f (drop_last s) = true.
Proof. apply sforall_take. Qed.

(** Editing a form. A key that edits changes the value of the field under the cursor and
    nothing else of the form but its error; a choice field stays on one of its choices and
    the other fields stay printable, except that Ctrl+U empties any field. *)
Theorem form_editing key form f :
  nth_Z (fm_fields form) (fm_active form) = Some f -> Forall field_ok (fm_fields form) -> key <> ctrl_u ->
  let form' := edit_key key form f in
  Forall field_ok (fm_fields form') /\
  fm_active form' = fm_active form /\ fm_onSubmit form' = fm_onSubmit form /\
  (forall i, i <> Z.to_nat (fm_active form) -> fm_fields form' !! i = fm_fields form !! i) /\
  (forall f', nth_Z (fm_fields form') (fm_active form') = Some f' -> f' = with_value (ff_value f') f).
Proof.
  intros Hf Hall Hkey. cbv zeta. unfold nth_Z in Hf. destruct (Z.ltb_spec (fm_active form) 0); [done|].
  assert (Hok : field_ok f) by by eapply Forall_lookup_1.
  assert (Hsame : f = with_value (ff_value f) f) by by destruct f.
  assert (Hedit : forall v, field_ok (with_value v f) -> let form' := edit_field v form in
    Forall field_ok (fm_fields form') /\ fm_active form' = fm_active form /\ fm_onSubmit form' = fm_onSubmit form /\
    (forall i, i <> Z.to_nat (fm_active form) -> fm_fields form' !! i = fm_fields form !! i) /\
    (forall f', nth_Z (fm_fields form') (fm_active form') = Some f' -> f' = with_value (ff_value f') f)).
  { intros v Hv. cbn. split_and!; [|done|done|intros i Hi; by apply list_lookup_alter_ne|].
    - apply Forall_alter; [done|]. intros g Hg _. rewrite Hf in Hg. injection Hg as <-. exact Hv.
    - intros f'. unfold nth_Z. destruct (Z.ltb_spec (fm_active form) 0); [lia|]. rewrite list_lookup_alter, decide_True by done. rewrite Hf. cbn. by intros [= <-]. }
  assert (Hstay : let form' := form in Forall field_ok (fm_fields form') /\ fm_active form' = fm_active form /\ fm_onSubmit form' = fm_onSubmit form /\
    (forall i, i <> Z.to_nat (fm_active form) -> fm_fields form' !! i = fm_fields form !! i) /\
    (forall f', nth_Z (fm_fields form') (fm_active form') = Some f' -> f' = with_value (ff_value f') f)).
  { cbn. split_and!; try done. intros f'. unfold nth_Z. destruct (Z.ltb_spec (fm_active form) 0); [lia|]. rewrite Hf. by intros [= <-]. }
  unfold edit_key. cbv zeta. destruct (String.eqb_spec key ctrl_u); [done|].
  unfold field_ok in Hok. case_bool_decide as Hk; cbn [andb negb].
  - rewrite Hk in Hok. destruct (includes _ key); [|exact Hstay]. apply Hedit, field_ok_value. rewrite Hk.
    destruct Hok as [Hnil|Hin]; [by left|]. right.
    destruct (next_choice_ok f (if String.eqb key key_left then -1 else 1)) as [?| ->]; [by intros Hnil; rewrite Hnil in Hin; apply elem_of_nil in Hin | done | done].
  - assert (Hprint : sforall printable (ff_value f) = true) by by destruct (ff_kind f).
    destruct (is_backspace key); [|destruct (negb _); [|exact Hstay]]; apply Hedit, field_ok_value.
    + apply drop_last_ok in Hprint. by destruct (ff_kind f).
    + assert (Hx : sforall printable (ff_value f +:+ sfilter printable key) = true) by by rewrite sforall_app, Hprint, sfilter_ok.
      by destruct (ff_kind f).
Qed.

(** ** Instances *)
#[local] Instance flat_sin : Sin := fun x => Int 0.

Definition demo_render : TuiRenderState :=
  {| rs_demo := false; rs_banner := None; rs_selectionIndex := 0; rs_overlay := None; rs_notice := "" |}.

Lemma screen_fits_witness :
  exists text rows, renderTui (H := plain_collation) demo_snapshot 1 20 6 false demo_render = Ok text /\
    text = lines rows /\ Z.of_nat (length rows) <= 6 /\ Forall (fun row => Z.of_nat (visibleLength row) <= 19) rows.
Proof.
  assert (Hok : is_ok (renderTui (H := plain_collation) demo_snapshot 1 20 6 false demo_render) = true) by (vm_compute; reflexivity).
  destruct (renderTui (H := plain_collation) demo_snapshot 1 20 6 false demo_render) as [text|] eqn:Htext; [|discriminate Hok].
  destruct (screen_fits (H := plain_collation) demo_snapshot 1 20 6 false demo_render text ltac:(lia) Htext) as (rows & Hrows & Hl & Hw & _).
  exists text, rows. by split_and!.
Defined.

Definition demo_field : FormField :=
  {| ff_id := "name"; ff_label := "Name"; ff_value := "ab"; ff_kind := F_text; ff_choices := []; ff_required := true; ff_hint := None |}.
Definition demo_form : TuiForm :=
  {| fm_title := "User"; fm_description := ""; fm_fields := [demo_field]; fm_active := 0; fm_submitLabel := "Save"; fm_error := None;
     fm_onSubmit := Cmd_createUser |}.

Lemma form_editing_witness :
  fm_fields (edit_key "c" demo_form demo_field) = [with_value "abc" demo_field] /\
  Forall field_ok (fm_fields (edit_key "c" demo_form demo_field)).
Proof.
  split; [reflexivity|].
  apply (form_editing "c" demo_form demo_field); [reflexivity | repeat constructor | discriminate].
Defined.
